(* ===== verification/_CoqProject ===== *)
-Q . S2P
Prelude.v
PyVal.v
Effects.v
Query.v
Cache.v
Dispatch.v
Http.v
Manager.v
Discovery.v
Tasks.v
Csdl.v
ActionPolicy.v
Actions.v
IpAddress.v
Ntp.v
Invoker.v
Reconcile.v
CurrentBoot.v
ManagerNetwork.v
Reboot.v
BiosProfile.v
Api.v
Service.v
Proxy.v
Json.v
Sha256.v
Timestamps.v
Urls.v
Numbers.v
Secrets.v
NodeProfile.v
Endpoint.v
MockOverlay.v
MockRules.v
MockServer.v
Idrac.v
Vendor.v
BiosCommands.v
Operator.v
Firmware.v
Volumes.v
Subscriptions.v
SecureBoot.v
Config.v
Crawl.v
CrawlReplay.v
Pool.v
Networks.v
NetScan.v
Instances.v
Fleet.v
Uuid.v
Identity.v
Decimals.v
Telemetry.v
Prometheus.v
SignalFx.v
Otlp.v
SmcCatalog.v
SmcRows.v
SmcReader.v
BootSources.v
EndpointCache.v
FleetStatus.v
FleetPage.v
VendorActions.v
DellLicense.v
DellPartition.v
GuardedActions.v
DellRaid.v
Accounts.v
VirtualMedia.v
ResetCommands.v
Wait.v
Settings.v
GpuPower.v
