(* ===== verification/Prelude.v ===== *)
(** * redfish_ctl: a verification development

    redfish_ctl (src/redfish_ctl/) is a Redfish client: a command-line tool and a
    library that read and change servers through the REST interface of their
    baseboard management controllers (BMCs).  Commands are subclasses of
    [RedfishManager]; they register themselves under an API type and a name,
    are looked up along the class hierarchy, read resources with [base_query],
    change them with [base_post], [base_patch], [base_delete] and
    [invoke_action], and return a [CommandResult].  Service layers (the
    reconciler, the typed API, controllers) run commands through
    [sync_invoke].

    ** How the program is modelled

    Python values are the type [pyval] (PyVal.v), with dicts as association lists
    in insertion order, [==], [str], [repr], truth value and order as Python
    has them.  Code with effects is in the state and error monad [M] of
    Effects.v; exceptions are the type [exn].  The BMC and the clock are a
    parameter, the class [World] of Manager.v, of which no law is assumed; each
    request sent is appended to a trace, and what a command does to the
    hardware is stated on the trace ([emits], [extends], [sends]).  Loops that
    may not end ([while True] in [fetch_task]) run on fuel and give [NoFuel]
    without it; the theorems bound the fuel that is needed and never assume an
    outcome.  Strings are ASCII for case and white space.

    ** Files

    - Prelude.v: tactics, hint databases, the [str] methods, shared lemmas.
    - PyVal.v: Python and JSON values; the text of [RedfishError]
      (redfish_respond_error.py).
    - Effects.v: exceptions, results, the monad, framing ([frames R m]) and
      outcome ([yields Q m]) lemmas with their tactics.
    - Query.v: redfish_query.py, the OData query options.
    - Cache.v: [RedfishResponseCache] of redfish_manager.py as a step relation
      over any number of threads.
    - Dispatch.v: command registration and lookup, [invoke], [sync_invoke].
    - Http.v: responses, [parse_error], [default_error_handler], redaction.
    - Manager.v: the HTTP calls, [base_query], [base_request_respond].
    - Discovery.v: primary manager, managed system, service root, virtual media.
    - Tasks.v: redfish_task_state.py, [get_task_state], [fetch_task].
    - Csdl.v: redfish_csdl.py, action parameters from schema documents.
    - ActionPolicy.v: actions/action_policy.py, the destructiveness of actions.
    - Actions.v: action discovery, payload validation and [invoke_action].
    - IpAddress.v: [ipaddress.ip_address] of the standard library.
    - Ntp.v: manager/cmd_ntp_set.py.
    - Invoker.v: the protocol [SyncInvoker] of api.py as a class, and a recorder.
    - Reconcile.v: reconcile.py, proved against [SyncInvoker].
    - CurrentBoot.v, ManagerNetwork.v, Reboot.v, BiosProfile.v:
      cmd_current_boot.py, manager/cmd_manager_network.py,
      compute/cmd_power_state.py, bios/cmd_bios_profile.py.
    - Api.v: api.py, the typed rows over [SyncInvoker].
    - Service.v: the modelled commands as an instance of [SyncInvoker], which
      discharges what the reconciler asks of its previews and ties the typed
      API to the requests that are sent.
    - Proxy.v: proxy/core.py, the node registry and the single-command reads.
    - Json.v, Sha256.v, Timestamps.v, Urls.v, Numbers.v: what the controllers and
      the mock use of the standard library: [json.dumps], [hashlib.sha256],
      [datetime], [urlsplit], [int] and [float].
    - Secrets.v: credentials from Kubernetes Secrets.
    - NodeProfile.v: k8s/controller/redfish_node_profile_controller.py, proved
      against [SyncInvoker].
    - Endpoint.v: k8s/controller/redfish_endpoint_controller.py, over the typed
      API.
    - MockOverlay.v, MockRules.v, MockServer.v: k8s/sandbox/mock_bmc_server.py,
      the overlay store with the sharing of its objects, the replay and rule
      engines, and the two request handlers.  Files are the class [Files], the
      random draws a parameter.
    - Idrac.v: idrac_manager.py, the Dell manager.
    - Vendor.v: the class [Vendor], what a shared command needs of its manager;
      the base manager and the Dell manager are instances, and the managed
      system is found over the interface.
    - BiosCommands.v: bios/cmd_bios.py, cmd_bios_snapshot.py, cmd_bios_pending.py,
      cmd_change_bios.py and boot_source/cmd_boot_one_shot.py, over [Vendor].
    - Operator.v: the node profile controller on the commands of Service.v and, for
      the BIOS query, on that of BiosCommands.v where the manager's class has it.
    - Firmware.v: firmware/cmd_firmware_update.py, over [Vendor].
    - Volumes.v: volumes/cmd_volume_manage.py, creation and deletion, and the reads
      they run, storage/cmd_storage_get.py and volumes/cmd_volumes.py.
    - Subscriptions.v: events/cmd_subscription_lifecycle.py.
    - SecureBoot.v: security/cmd_secure_boot.py.
    - Config.v: config.py, the settings that are read from the environment.
    - Crawl.v: discovery/cmd_discovery.py, the recursive crawl of one service and
      the files it saves; CrawlReplay.v: the mock BMC server on the directory of a
      crawl.
    - Pool.v, Networks.v, Uuid.v: what the readers use of the standard library: a
      worker pool ([ThreadPoolExecutor], [asyncio.Semaphore]) as a step
      relation, [ipaddress.ip_network], SHA-1 and [uuid].
    - NetScan.v: discovery/net_scan.py, discovery/cmd_bmc_scan.py and discover/,
      the concurrent scans for BMCs, over Pool.v.
    - Instances.v: the metaclass [Singleton] of redfish_api_common.py, which builds
      one command object per connection, for any number of threads.
    - Fleet.v: fleet/cmd_fleet.py, the concurrent reader of an inventory.
    - Identity.v: telemetry/identity.py, the dimensions of every sample;
      Decimals.v: the text of a float is read as the same number.
    - Telemetry.v: telemetry/metric_model.py and exporter.py, samples, their
      catalog, the health samples and the exporter's configuration files.
    - Prometheus.v, SignalFx.v, Otlp.v: the three writers below telemetry/, the
      first with a reader of the text it renders, the others over an arbitrary
      network and SDK.
    - SmcCatalog.v, SmcRows.v, SmcReader.v: telemetry/supermicro/, the metric
      catalog, the samples of the collectors' rows, and the reader over
      [SyncInvoker], with the service instance id of redfish_manager.py.
    - BootSources.v: boot_source/, boot_options/ and the remaining commands of
      bios/, over the Dell manager.
    - EndpointCache.v, FleetStatus.v, FleetPage.v: k8s/consumer/fleet_status_app.py,
      the fleet dashboard: the shared listing as a step relation over request
      threads, rows with their summary, drift and metrics, the page and the answer
      to every request.
    - VendorActions.v: [invoke_action] over [Vendor], equal to that of Actions.v on
      the base manager, with the masking of secrets; DellLicense.v, DellPartition.v:
      licenses/cmd_dell_license_actions.py, oem/cmd_dell_persistent_partition.py.
    - GuardedActions.v: the predicate [guards] on computations that read, and then
      read the resource of one call and post to an action of its document, with
      rules and a tactic; DellRaid.v: nine commands
      of raid/; ResetCommands.v: logs/cmd_log_clear.py,
      storage/cmd_drive_secure_erase.py, the consistency check of
      volumes/cmd_volume_manage.py, network/cmd_network_adapter_reset.py and
      controls/cmd_control_reset_defaults.py.
    - Accounts.v: accounts/cmd_account_manage.py.
    - VirtualMedia.v: virtual_media/, the query, eject, insert, mount_cdrom and the
      Supermicro vm-mount.
    - Wait.v: cmd_wait.py and manager/cmd_manager_reset.py.
    - GpuPower.v: power/cmd_power_smoothing.py and power/cmd_workload_power.py.
    - Settings.v: chassis/cmd_identify_led.py, chassis/cmd_asset_tag_set.py and
      manager/cmd_dns_set.py.

    Definitions keep the names of the source without a leading underscore; the
    doc comment of each names what it translates.

    ** What the theorems show

    - Guarded writes.  [invoke_action] posts at most once, only what the caller
      asked for, and only with the confirmation its level needs
      ([invoke_action_guarded]); a dry run previews exactly the POST
      ([dry_run_faithful]); the name that is classified and the target belong
      to one action of the resource ([resolve_action_sound]).  [ntp-set],
      [reboot] and [bios-profile] only preview without confirmation, and
      ntp-set applies exactly its preview, also as the typed API reports it
      ([set_ntp_faithful]).
    - Destructive commands.  A firmware update writes at most once and only when
      confirmed ([firmware_update_guarded]), as previewed
      ([firmware_preview_faithful]); a key reset, a volume deletion and a
      subscription deletion write only to the one resource that their
      selectors name ([reset_keys_guarded], [volume_delete_confirmed],
      [subscription_delete_scoped]); the RAID types offered are those that are
      advertised ([raid_types_collected]).  An upload on the base manager is
      misreported ([base_push_misreported]).
    - Reconciliation.  Unconfirmed it sends only GETs
      ([reconcile_sends_only_reads]), confirmed its commands are determined
      by the desired state and the previews ([reconcile_sequence]), on a node
      that is as desired it changes nothing ([reconcile_converged]), and an
      error stops it ([reconcile_fails_fast]).
    - The operator.  A call of the node profile handler sends only GETs unless
      the plan it finds is approved and not consumed
      ([operator_reads_unless_approved]); an approval is reported as applied at
      most once, and what fails is not used up ([approval_single_use]); it stands
      for one plan without floats ([plan_hash_binds]).
    - Endpoint polling.  The back-off is respected and bounded
      ([backoff_respected], [backoff_bounds]); conditions report the error class
      and keep their transition times.
    - The mock BMC.  A write is read back ([write_then_read]); only files of the
      corpus are served ([served_files_contained]); while no rule stores an
      object, the overlay store refines one document per path
      ([overlay_store_refines]) and stays well formed in every reachable state
      ([engine_state_typed]); sessions are reproducible
      after a reset when no rule stores an object ([reset_reproduces]), and not
      when one does ([reset_keeps_stored_objects]).
    - The Dell manager and the BIOS commands.  What a write reports per status
      ([dell_write_contract]); how much a change writes
      ([bios_change_writes]); that a snapshot undoes its change
      ([snapshot_rolls_back]); what the attribute filter answers
      ([filter_takes_last_match]).  Enabling a boot device writes to the first
      device that contains the name ([boot_enable_first_match]), also when a
      longer name comes first ([enable_hits_longer_name]); a boot source update
      for a maintenance window is always refused ([maintenance_unschedulable]).
    - Dell actions.  License and vFlash actions are posted at most once, confirmed
      and with a payload of the shape of the action ([license_guarded],
      [partition_guarded], [partition_payload_exact]); previews do not depend on
      the secrets ([license_preview_hides], [partition_preview_hides]), but a
      validation error can hold one ([validation_reveals_secret]), and a secret is
      sent stripped ([secret_is_stripped]).
    - Commands over one calculus.  The Dell RAID commands and the commands that
      clear, erase and reset post at most one action, the one their arguments stand
      for and confirmed, to an action of the document read just before
      ([raid_guarded], [raid_payload_exact], [reset_guarded]); an adapter gets a
      reset type that its own document advertises.
    - Accounts.  A deletion spares the account that is logged in
      ([account_delete_spares]), an update writes the fields that were given
      ([account_update_exact]), previews hide passwords ([account_preview_hides]);
      a name and an id select the first account that has either
      ([either_selector_deletes]).
    - Virtual media.  An image is inserted only into an empty device
      ([insert_respects_media]), a mount writes only when confirmed
      ([mount_writes]), the Supermicro status shows no password
      ([vm_mount_contained]).
    - Waiting.  A wait ends within a bounded number of polls with the verdict of the
      last one ([wait_verdict]); a reboot that never happens is not an error
      ([unobserved_reboot_succeeds]), and a port other than 443 is polled at a
      malformed address ([wait_url_doubles_port]).  The bound is the fuel:
      [timeout / interval + 2] polls per loop.
    - Settings.  Previews only read ([settings_preview_reads]); the LED is set with
      one PATCH ([identify_led_exact]); dns-set patches the interfaces that its
      preview lists ([dns_preview_faithful]) with one to four servers
      ([dns_servers_bounded]).
    - GPU power.  The actions are guarded and sent to the GPU that was named
      ([power_guarded]), profile masks keep their value in one form
      ([mask_canonical]), and the summary counts its rows
      ([power_smoothing_report]).
    - The fleet dashboard.  No value of a resource reaches the markup of the page
      ([page_inert]); the metrics can be read back ([metrics_readable]) unless a
      label holds a carriage return ([return_breaks_scrape]); drift and summary are
      exact ([drift_exact], [counters_exact]); a namespace lists every resource
      sorted ([listing_rows]) unless one has a malformed address
      ([bad_address_fails_listing]); what is served is fresh and loaded once
      ([listing_fresh]), every call ends ([listing_calls_end]) and every request is
      answered ([requests_answered]).
    - The response cache.  One loader per key, agreement, no deadlock, and every
      call ends, for all interleavings.
    - Transport.  Reads send one GET, writes one request; responses are
      classified totally; synchronous requests are authenticated, the
      asynchronous GET with a token is not ([async_get_drops_token]).
    - Tasks.  What a wait returns, and that a wait with a timeout ends after at
      most [timeout / sleep_time + 2] polls.
    - Discovery, dispatch, query strings, errors: functional behaviour and round
      trips.
    - Crawling.  A crawl only reads, in scope and each path a bounded number of
      times ([crawl_polite]); on a service of at most 32 resources, where the depth
      bound of 32 cannot bite, it records exactly the reachable ones
      ([crawl_exact]), and a mock that serves its directory answers as the service
      did ([crawl_then_mock]).  A failed read makes the directory unusable
      ([failed_read_blocks_mock]), the depth bound can lose a near resource
      ([depth_bound_loses_near_resource]) and file names can collide
      ([flat_names_collide]).
    - Concurrent readers.  Scans and fleet reads give the same report for every
      schedule of their worker pool ([scan_any_schedule],
      [scan_subnet_any_schedule], [read_fleet_any_schedule]); the addresses that
      are probed are the hosts of the network ([expand_cidr_exact]); command
      objects are not shared between connections ([instances_isolated]) and their
      construction ends ([construction_ends]).
    - Configuration and identity.  Conflicts do not reveal secrets
      ([conflict_hides_secrets]); fixed dimensions are not overridden
      ([reserved_dimensions_fixed]) and do not carry credentials
      ([dimensions_hide_secrets]), the host prefix excepted
      ([host_prefix_unchecked]); derived addresses are addresses
      ([derived_addresses]) unless a subnet is supplied ([subnet_check_lenient]);
      instance ids are stable ([instance_id_stable]).
    - Telemetry.  A scrape reports every collector, says [hw.bmc.up] once and
      truly and counts errors, unless a row has the wrong shape
      ([scrape_reports]); its samples are those of the catalog and keep the
      identity ([samples_keep_identity]); the service instance id is settled
      once ([instance_id_sticky]).  The Prometheus text can be read back
      ([exposition_roundtrip]); OTLP data loses no sample ([otlp_lossless]) but
      types a cumulative counter differently ([cumulative_counter_diverges]);
      SignalFx envelopes partition the samples ([envelopes_partition]), tokens go
      only where they are configured to ([tokens_stay]), a verified push is
      confirmed by fresh series ([readback_confirms], [verdict_exact]), and the
      loop survives failures ([loop_survives]) with bounded jitter
      ([jitter_bounds]).

    ** Not modelled

    Argument parsing and printing, saving results to files, sessions, TLS and
    timeouts of [requests], tracing spans, the exporter command, fault
    injection, the other vendor OEM commands, most read-only views and some commands
    that make a single write (attributes, jobs, certificates), the web interface,
    the proxy's telemetry and the repository tools.  They are input and output
    only, or repeat the reads, writes and guarded actions over [base_query],
    [base_post] and [invoke_action] that are modelled. *)

From stdpp Require Import base list strings pretty sets.
From Stdlib Require Import Ascii ZArith Lia.

(** ** Hint databases *)

Create HintDb emits.
Create HintDb pydict.

(** ** Generic tactics *)

(** Case analysis on the scrutinee of the innermost [match] of the goal. *)
Ltac case_match_goal :=
  match goal with
  | |- context [match ?x with _ => _ end] =>
      lazymatch x with
      | context [match _ with _ => _ end] => fail
      | _ => destruct x eqn:?
      end
  end.

(** The same on a hypothesis. *)
Ltac case_match_hyp H :=
  match type of H with
  | context [match ?x with _ => _ end] =>
      lazymatch x with
      | context [match _ with _ => _ end] => fail
      | _ => destruct x eqn:?
      end
  end.

(** ** Python strings

    A Python [str] is a [string]; the case mapping and the white space of
    [str.lower] and [str.strip] are those of ASCII. *)

Module PyStr.

Definition is_space (c : ascii) : bool :=
  let n := nat_of_ascii c in
  ((9 <=? n) && (n <=? 13)) || ((28 <=? n) && (n <=? 32)).

Definition is_digit (c : ascii) : bool :=
  let n := nat_of_ascii c in (48 <=? n) && (n <=? 57).

Definition is_alpha (c : ascii) : bool :=
  let n := nat_of_ascii c in
  ((65 <=? n) && (n <=? 90)) || ((97 <=? n) && (n <=? 122)).

Definition is_alnum (c : ascii) : bool := is_digit c || is_alpha c.

Definition lower_char (c : ascii) : ascii :=
  let n := nat_of_ascii c in
  if (65 <=? n) && (n <=? 90) then ascii_of_nat (n + 32) else c.

Fixpoint map_chars (f : ascii -> ascii) (s : string) : string :=
  match s with
  | EmptyString => EmptyString
  | String c s' => String (f c) (map_chars f s')
  end.

(** [s.lower()] *)
Definition lower (s : string) : string := map_chars lower_char s.

Fixpoint lstrip_by (p : ascii -> bool) (s : string) : string :=
  match s with
  | EmptyString => EmptyString
  | String c s' => if p c then lstrip_by p s' else s
  end.

Fixpoint rstrip_by (p : ascii -> bool) (s : string) : string :=
  match s with
  | EmptyString => EmptyString
  | String c s' =>
      match rstrip_by p s' with
      | EmptyString => if p c then EmptyString else String c EmptyString
      | r => String c r
      end
  end.

(** [s.strip()] *)
Definition strip (s : string) : string := lstrip_by is_space (rstrip_by is_space s).

(** [s.rstrip(c)] for a one-character argument *)
Definition rstrip_char (c : ascii) (s : string) : string :=
  rstrip_by (fun x => if decide (x = c) then true else false) s.

(** [s.lstrip(c)] for a one-character argument *)
Definition lstrip_char (c : ascii) (s : string) : string :=
  lstrip_by (fun x => if decide (x = c) then true else false) s.

(** [s.split(c)] for a one-character separator; never empty. *)
Fixpoint split (c : ascii) (s : string) : list string :=
  match s with
  | EmptyString => [EmptyString]
  | String x s' =>
      if decide (x = c) then EmptyString :: split c s'
      else match split c s' with
           | [] => [String x EmptyString]
           | w :: ws => String x w :: ws
           end
  end.

(** [sep.join(l)] *)
Fixpoint join (sep : string) (l : list string) : string :=
  match l with
  | [] => EmptyString
  | [s] => s
  | s :: l' => String.append s (String.append sep (join sep l'))
  end.

(** [s.startswith(p)] *)
Fixpoint startswith (p s : string) : bool :=
  match p, s with
  | EmptyString, _ => true
  | String _ _, EmptyString => false
  | String a p', String b s' => if decide (a = b) then startswith p' s' else false
  end.

(** [p in s] *)
Fixpoint contains (p s : string) : bool :=
  startswith p s ||
  match s with
  | EmptyString => false
  | String _ s' => contains p s'
  end.

(** [s.endswith(p)] *)
Fixpoint endswith (p s : string) : bool :=
  bool_decide (s = p) ||
  match s with
  | EmptyString => false
  | String _ s' => endswith p s'
  end.

(** [c in s] for a character. *)
Fixpoint has_char (p : ascii -> bool) (s : string) : bool :=
  match s with
  | EmptyString => false
  | String c s' => p c || has_char p s'
  end.

Definition nonempty (s : string) : bool :=
  match s with EmptyString => false | _ => true end.

(** The last item of a list that the code indexes with [[-1]]. *)
Definition last_or (d : string) (l : list string) : string := default d (last l).

End PyStr.

Declare Scope py_scope.
Delimit Scope py_scope with py.

(** *** Facts about the string functions *)

Lemma append_empty_l s : String.append EmptyString s = s.
Proof. reflexivity. Qed.

Lemma append_cons c s t : String.append (String c s) t = String c (String.append s t).
Proof. reflexivity. Qed.

Lemma append_assoc a b c :
  String.append (String.append a b) c = String.append a (String.append b c).
Proof. induction a as [|x a IH]; [done|]. by rewrite !append_cons, IH. Qed.

Lemma append_empty_r s : String.append s EmptyString = s.
Proof. induction s as [|x s IH]; [done|]. by rewrite append_cons, IH. Qed.

Lemma split_nonempty c s : PyStr.split c s <> [].
Proof.
  destruct s as [|x s]; simpl; [done|].
  case_decide; [done|]. by destruct (PyStr.split c s).
Qed.

Lemma join_cons2 sep a b l :
  PyStr.join sep (a :: b :: l) =
  String.append a (String.append sep (PyStr.join sep (b :: l))).
Proof. reflexivity. Qed.

Lemma join_cons_char sep x w ws :
  PyStr.join sep (String x w :: ws) = String x (PyStr.join sep (w :: ws)).
Proof. by destruct ws. Qed.

(** Splitting on a character and joining with it is the identity. *)
Lemma join_split c s :
  PyStr.join (String c EmptyString) (PyStr.split c s) = s.
Proof.
  induction s as [|x s IH]; [done|]. simpl.
  pose proof (split_nonempty c s) as Hne.
  destruct (PyStr.split c s) as [|w ws]; [done|].
  case_decide; subst.
  - rewrite join_cons2, append_empty_l, append_cons, append_empty_l. by f_equal.
  - rewrite join_cons_char. by f_equal.
Qed.

(** A text without the separator is its only piece. *)
Lemma split_none c s :
  PyStr.has_char (fun x => bool_decide (x = c)) s = false -> PyStr.split c s = [s].
Proof.
  induction s as [|x s IH]; simpl; [done|]. intros [Hx Hs]%orb_false_iff.
  apply bool_decide_eq_false in Hx. rewrite decide_False by done. by rewrite IH.
Qed.

(** No piece has the separator. *)
Lemma split_pieces c s :
  Forall (fun w => PyStr.has_char (fun x => bool_decide (x = c)) w = false) (PyStr.split c s).
Proof.
  induction s as [|x s IH]; simpl; [by repeat constructor|].
  case_decide; [by constructor|]. destruct (PyStr.split c s) as [|w ws]; constructor; simpl.
  - by rewrite bool_decide_false.
  - constructor.
  - inversion IH; subst. by rewrite bool_decide_false.
  - by inversion IH.
Qed.

(** Stripping leaves a text without characters to strip as it is, and adds none. *)
(** Joining pieces without the separator and splitting gives the pieces. *)
Lemma split_of_join c l :
  l <> [] -> Forall (fun s => PyStr.has_char (fun x => bool_decide (x = c)) s = false) l ->
  PyStr.split c (PyStr.join (String c EmptyString) l) = l.
Proof.
  intros Hne H. induction H as [|s l Hs Hl IH]; [done|].
  destruct l as [|s' l]; [by apply split_none|]. rewrite join_cons2, append_cons, append_empty_l.
  assert (forall r, PyStr.split c (String.append s (String c r)) = s :: PyStr.split c r) as Happ.
  { clear -Hs. intros r. induction s as [|x s IH]; [simpl; by rewrite decide_True|].
    simpl in Hs. apply orb_false_iff in Hs as [Hx Hs]. apply bool_decide_eq_false in Hx.
    rewrite append_cons. simpl. rewrite decide_False by done. by rewrite IH. }
  by rewrite Happ, IH.
Qed.

Lemma rstrip_by_none p s : PyStr.has_char p s = false -> PyStr.rstrip_by p s = s.
Proof.
  induction s as [|x s IH]; simpl; [done|]. intros [Hx Hs]%orb_false_iff.
  rewrite IH by done. rewrite Hx. by destruct s.
Qed.

Lemma lstrip_by_none p s : PyStr.has_char p s = false -> PyStr.lstrip_by p s = s.
Proof. destruct s as [|x s]; simpl; [done|]. intros [Hx Hs]%orb_false_iff. by rewrite Hx. Qed.

Lemma strip_none s : PyStr.has_char PyStr.is_space s = false -> PyStr.strip s = s.
Proof. intros H. unfold PyStr.strip. by rewrite rstrip_by_none, lstrip_by_none. Qed.

Lemma rstrip_by_chars p q s : PyStr.has_char q s = false -> PyStr.has_char q (PyStr.rstrip_by p s) = false.
Proof.
  induction s as [|x s IH]; simpl; [done|]. intros [Hx Hs]%orb_false_iff.
  specialize (IH Hs). destruct (PyStr.rstrip_by p s) as [|y r].
  - destruct (p x); simpl; [done|]. by rewrite Hx.
  - simpl in *. by rewrite Hx, IH.
Qed.

Lemma lstrip_by_chars p q s : PyStr.has_char q s = false -> PyStr.has_char q (PyStr.lstrip_by p s) = false.
Proof.
  induction s as [|x s IH]; simpl; [done|]. intros [Hx Hs]%orb_false_iff.
  destruct (p x); [auto|]. simpl. by rewrite Hx, Hs.
Qed.

Lemma strip_chars q s : PyStr.has_char q s = false -> PyStr.has_char q (PyStr.strip s) = false.
Proof. intros H. by apply lstrip_by_chars, rstrip_by_chars. Qed.

Lemma startswith_app p s : PyStr.startswith p (String.append p s) = true.
Proof.
  induction p as [|c p IH]; [done|].
  rewrite append_cons. simpl. by rewrite decide_True.
Qed.

Lemma contains_append_l p s t :
  PyStr.contains p s = true -> PyStr.contains p (String.append t s) = true.
Proof.
  intros H. induction t as [|c t IH]; [done|].
  rewrite append_cons. simpl. by rewrite IH, orb_true_r.
Qed.

(** ** Folds *)

(** An invariant of a loop over a list. *)
Lemma fold_left_inv {A B} (P : A -> Prop) (f : A -> B -> A) l a :
  P a -> (forall a b, b ∈ l -> P a -> P (f a b)) -> P (fold_left f l a).
Proof.
  revert a. induction l as [|x l IH]; simpl; intros a Ha Hf; [done|].
  apply IH; [apply Hf; [by left|done]|]. intros a' b Hb. apply Hf. by right.
Qed.
