(* ===== verification/PyVal.v ===== *)
(** * Python and JSON values

    The dynamic values that flow through the program: parsed JSON documents,
    keyword arguments, command results.  A dict keeps its insertion order, so it
    is an association list; its keys are strings.  [PErr] is an instance of
    [RedfishError] (redfish_respond_error.py), which travels inside results. *)

From stdpp Require Import base list strings pretty sets.
From Stdlib Require Import Ascii ZArith Lia.
From S2P Require Import Prelude.

Local Open Scope Z_scope.

(** A float is given by its shortest decimal form [m * 10^e], the one [repr]
    prints; [m] has no trailing zero unless it is zero. *)
#[warnings="-register-all"]
Inductive pyval : Type :=
| PNone
| PBool (b : bool)
| PInt (z : Z)
| PFloat (m e : Z)
| PStr (s : string)
| PList (l : list pyval)
| PTuple (l : list pyval)
| PDict (d : list (string * pyval))
| PErr (status : Z) (code message : string) (ext : list pyval) (exc_msg : string).

Abbreviation pydict := (list (string * pyval)).

(** ** Dict operations

    Stated for any type of values: the code also keeps dicts of objects. *)

(** [d[k]] when present *)
Fixpoint dict_get {A} (k : string) (d : list (string * A)) : option A :=
  match d with
  | [] => None
  | (k', v) :: d' => if decide (k = k') then Some v else dict_get k d'
  end.

(** [k in d] *)
Definition dict_in {A} (k : string) (d : list (string * A)) : bool :=
  match dict_get k d with Some _ => true | None => false end.

(** [d[k] = v]: in place when the key exists, at the end otherwise *)
Fixpoint dict_set {A} (k : string) (v : A) (d : list (string * A)) : list (string * A) :=
  match d with
  | [] => [(k, v)]
  | (k', v') :: d' => if decide (k = k') then (k', v) :: d' else (k', v') :: dict_set k v d'
  end.

(** [del d[k]], and [d.pop(k, None)] up to its result *)
Definition dict_del {A} (k : string) (d : list (string * A)) : list (string * A) :=
  filter (fun kv => kv.1 <> k) d.

(** [d.update(e)] *)
Definition dict_update {A} (d e : list (string * A)) : list (string * A) :=
  fold_left (fun acc kv => dict_set kv.1 kv.2 acc) e d.

(** [d.setdefault(k, v)] *)
Definition dict_setdefault {A} (k : string) (v : A) (d : list (string * A)) : list (string * A) :=
  if dict_in k d then d else dict_set k v d.

Definition dict_keys {A} (d : list (string * A)) : list string := map fst d.

(** [d.get(k, default)] *)
Definition dict_get_or {A} (k : string) (dflt : A) (d : list (string * A)) : A :=
  default dflt (dict_get k d).

(** [d.get(k)] *)
Definition dget (k : string) (d : pydict) : pyval := dict_get_or k PNone d.

(** ** Truth value, type tests *)

(** [bool(v)] *)
Definition truthy (v : pyval) : bool :=
  match v with
  | PNone => false
  | PBool b => b
  | PInt z => negb (z =? 0)
  | PFloat m _ => negb (m =? 0)
  | PStr s => PyStr.nonempty s
  | PList l | PTuple l => match l with [] => false | _ => true end
  | PDict d => match d with [] => false | _ => true end
  | PErr _ _ _ _ _ => true
  end.

(** [a or b] *)
Definition py_or (a b : pyval) : pyval := if truthy a then a else b.

Definition is_none (v : pyval) : bool :=
  match v with PNone => true | _ => false end.

Definition is_dict (v : pyval) : bool :=
  match v with PDict _ => true | _ => false end.

(** [v is True] *)
Definition is_True (v : pyval) : bool :=
  match v with PBool true => true | _ => false end.

(** The items of [v] when it is a mapping, none otherwise: [v if
    isinstance(v, Mapping) else {}]. *)
Definition as_dict (v : pyval) : pydict :=
  match v with PDict d => d | _ => [] end.

Definition opt_str (o : option string) : pyval :=
  match o with Some s => PStr s | None => PNone end.

(** ** Equality [==] *)

(** The number a value stands for, as [(m, e)] for [m * 10^e]: Python
    compares [bool], [int] and [float] by value. *)
Definition num_of (v : pyval) : option (Z * Z) :=
  match v with
  | PBool b => Some (if b then 1 else 0, 0)
  | PInt z => Some (z, 0)
  | PFloat m e => Some (m, e)
  | _ => None
  end.

Definition num_eqb (a b : Z * Z) : bool :=
  let lo := Z.min a.2 b.2 in
  a.1 * 10 ^ (a.2 - lo) =? b.1 * 10 ^ (b.2 - lo).

Fixpoint py_eqb (a b : pyval) {struct a} : bool :=
  let fix list_eqb (l1 l2 : list pyval) {struct l1} : bool :=
    match l1, l2 with
    | [], [] => true
    | x :: l1', y :: l2' => py_eqb x y && list_eqb l1' l2'
    | _, _ => false
    end in
  match a, b with
  | PNone, PNone => true
  | PStr s, PStr t => bool_decide (s = t)
  | PList l, PList l' => list_eqb l l'
  | PTuple l, PTuple l' => list_eqb l l'
  | PDict d, PDict d' =>
      (length d =? length d')%nat &&
      forallb (fun kv => match dict_get kv.1 d' with
                         | Some v' => py_eqb kv.2 v'
                         | None => false
                         end) d
  | PErr s c m x e, PErr s' c' m' x' e' =>
      (s =? s') && bool_decide (c = c') && bool_decide (m = m') &&
      list_eqb x x' && bool_decide (e = e')
  | _, _ =>
      match num_of a, num_of b with
      | Some x, Some y => num_eqb x y
      | _, _ => false
      end
  end.

(** [v == "s"] *)
Definition eq_str (v : pyval) (s : string) : bool :=
  match v with PStr t => bool_decide (t = s) | _ => false end.

(** [v in (x, y, ...)] on values *)
Definition py_mem (v : pyval) (l : list pyval) : bool := existsb (py_eqb v) l.

(** ** Order *)

(** [type(v).__name__] *)
Definition type_name (v : pyval) : string :=
  match v with
  | PNone => "NoneType" | PBool _ => "bool" | PInt _ => "int" | PFloat _ _ => "float"
  | PStr _ => "str" | PList _ => "list" | PTuple _ => "tuple" | PDict _ => "dict"
  | PErr _ _ _ _ _ => "RedfishError"
  end.

Definition num_ltb (a b : Z * Z) : bool :=
  let lo := Z.min a.2 b.2 in
  a.1 * 10 ^ (a.2 - lo) <? b.1 * 10 ^ (b.2 - lo).

(** [a < b]; [None] is [TypeError] *)
Fixpoint py_lt (a b : pyval) {struct a} : option bool :=
  let fix lex (l1 l2 : list pyval) {struct l1} : option bool :=
    match l1, l2 with
    | _, [] => Some false
    | [], _ :: _ => Some true
    | x :: l1', y :: l2' => if py_eqb x y then lex l1' l2' else py_lt x y
    end in
  match a, b with
  | PStr s, PStr t => Some (String.ltb s t)
  | PList l, PList l' | PTuple l, PTuple l' => lex l l'
  | _, _ => match num_of a, num_of b with
            | Some x, Some y => Some (num_ltb x y)
            | _, _ => None
            end
  end.

(** Insertion after the items that are not greater. *)
Fixpoint insert_sorted (x : pyval) (l : list pyval) : option (list pyval) :=
  match l with
  | [] => Some [x]
  | y :: l' => match py_lt x y with
               | Some true => Some (x :: l)
               | Some false => (fun r => y :: r) <$> insert_sorted x l'
               | None => None
               end
  end.

(** [sorted(l)]; [None] is [TypeError] *)
Definition py_sorted (l : list pyval) : option (list pyval) :=
  fold_left (fun acc x => acc ≫= insert_sorted x) l (Some []).

(** [sorted(l)] on strings *)
Definition sort_strs (l : list string) : list string :=
  fold_left (fun acc x =>
    (fix ins (l : list string) : list string :=
       match l with
       | [] => [x]
       | y :: l' => if String.ltb x y then x :: l else y :: ins l'
       end) acc) l [].

(** ** [str] and [repr] *)

Definition hex_digit (n : nat) : ascii :=
  if (n <? 10)%nat then ascii_of_nat (48 + n) else ascii_of_nat (87 + n).

Definition char_str (c : ascii) : string := String c EmptyString.

(** The code points of the characters that [repr] escapes. *)
Definition repr_char (quote c : ascii) : string :=
  let n := nat_of_ascii c in
  if decide (c = quote) then "\" +:+ char_str c
  else if decide (c = "\"%char) then "\\"
  else if (n =? 10)%nat then "\n"
  else if (n =? 13)%nat then "\r"
  else if (n =? 9)%nat then "\t"
  else if (n <? 32)%nat || (n =? 127)%nat
       then "\x" +:+ char_str (hex_digit (n / 16)) +:+ char_str (hex_digit (n mod 16))
  else char_str c.

Fixpoint repr_chars (quote : ascii) (s : string) : string :=
  match s with
  | EmptyString => EmptyString
  | String c s' => repr_char quote c +:+ repr_chars quote s'
  end.

Definition squote : ascii := ascii_of_nat 39.
Definition dquote : ascii := ascii_of_nat 34.

(** [repr(s)]: double quotes only when the text has a single quote and no
    double quote *)
Definition repr_str (s : string) : string :=
  let has q := PyStr.has_char (fun c => bool_decide (c = q)) s in
  let q := if has squote && negb (has dquote) then dquote else squote in
  char_str q +:+ repr_chars q s +:+ char_str q.

Fixpoint zeros (n : nat) : string :=
  match n with O => EmptyString | S n' => String "0" (zeros n') end.

(** [repr(f)] for [f = m * 10^e] *)
Definition repr_float (m e : Z) : string :=
  let sign := if m <? 0 then "-" else "" in
  let ds := pretty (Z.to_N (Z.abs m)) in
  let n := Z.of_nat (String.length ds) in
  let decpt := n + e in
  if m =? 0 then "0.0"
  else if (-4 <? decpt) && (decpt <=? 16) then
    sign +:+
    (if decpt <=? 0 then "0." +:+ zeros (Z.to_nat (- decpt)) +:+ ds
     else if n <=? decpt then ds +:+ zeros (Z.to_nat (decpt - n)) +:+ ".0"
     else String.substring 0 (Z.to_nat decpt) ds +:+ "." +:+
          String.substring (Z.to_nat decpt) (Z.to_nat (n - decpt)) ds)
  else
    let x := decpt - 1 in
    let frac := if n =? 1 then "" else "." +:+ String.substring 1 (Z.to_nat (n - 1)) ds in
    let xs := pretty (Z.to_N (Z.abs x)) in
    sign +:+ String.substring 0 1 ds +:+ frac +:+ "e" +:+
    (if x <? 0 then "-" else "+") +:+
    (if (String.length xs <? 2)%nat then "0" else "") +:+ xs.

(** [list(s)] as text *)
Fixpoint chars_of (s : string) : list string :=
  match s with
  | EmptyString => []
  | String c s' => char_str c :: chars_of s'
  end.

Definition bracket (items : list string) : string := "[" +:+ PyStr.join ", " items +:+ "]".

(** [dict.fromkeys(l)] as a list: the first occurrence of each item. *)
Definition dedup (l : list string) : list string :=
  fold_left (fun acc s => if decide (s ∈ acc) then acc else acc ++ [s]) l [].

(** The body of [RedfishError.__str__] once its parts are rendered. *)
Definition error_text (status : Z) (parts : list string) : string :=
  let body := PyStr.join "; " (dedup (filter (fun p => PyStr.nonempty p = true) parts)) in
  let body := if PyStr.nonempty body then body else "Redfish error" in
  if status =? 0 then body else body +:+ " (HTTP " +:+ pretty status +:+ ")".

Fixpoint py_repr (v : pyval) : string :=
  let py_str v := match v with PStr s => s | _ => py_repr v end in
  (* [list(args)], None when [args] is not iterable *)
  let list_text (a : pyval) : option string :=
    match a with
    | PStr s => Some (bracket (map repr_str (chars_of s)))
    | PList l | PTuple l => Some (bracket (map py_repr l))
    | PDict d => Some (bracket (map (fun kv => repr_str kv.1) d))
    | _ => None
    end in
  (* [RedfishError._fmt_message] on a raw extended-info dict *)
  let fmt_message (m : pyval) : string :=
    match m with
    | PDict d =>
        let texts := map (fun kv => (kv.1, (kv.2, (py_str kv.2, list_text kv.2)))) d in
        let fix look (k : string) (l : list (string * (pyval * (string * option string)))) :=
          match l with
          | [] => (PNone, ("", None))
          | (k', x) :: l' => if decide (k = k') then x else look k l'
          end in
        let msg := look "Message" texts in
        let mid := look "MessageId" texts in
        let args := look "MessageArgs" texts in
        if truthy msg.1 then msg.2.1
        else if truthy mid.1 then
          if truthy args.1 then
            match args.2.2 with
            | Some t => mid.2.1 +:+ " " +:+ t
            | None => ""
            end
          else mid.2.1
        else ""
    | _ => ""
    end in
  match v with
  | PNone => "None"
  | PBool b => if b then "True" else "False"
  | PInt z => pretty z
  | PFloat m e => repr_float m e
  | PStr s => repr_str s
  | PList l => bracket (map py_repr l)
  | PTuple l =>
      match l with
      | [x] => "(" +:+ py_repr x +:+ ",)"
      | _ => "(" +:+ PyStr.join ", " (map py_repr l) +:+ ")"
      end
  | PDict d =>
      "{" +:+ PyStr.join ", " (map (fun kv => repr_str kv.1 +:+ ": " +:+ py_repr kv.2) d) +:+ "}"
  | PErr status _ message ext exc_msg =>
      error_text status
        ((if PyStr.nonempty message && negb (bool_decide (message = "root"))
          then [message] else [])
         ++ map fmt_message ext ++ [exc_msg])
  end.

(** [str(v)] *)
Definition py_str (v : pyval) : string :=
  match v with PStr s => s | _ => py_repr v end.

(** [int(s)] on a string: optional sign, digits, single underscores between
    digits; [None] is [ValueError]. *)
Fixpoint digits_val (acc : Z) (prev_digit : bool) (s : string) : option Z :=
  match s with
  | EmptyString => if prev_digit then Some acc else None
  | String c s' =>
      if PyStr.is_digit c
      then digits_val (10 * acc + (Z.of_nat (nat_of_ascii c) - 48)) true s'
      else if bool_decide (c = "_"%char) && prev_digit then digits_val acc false s'
      else None
  end.

Definition int_of_string (s : string) : option Z :=
  match PyStr.strip s with
  | String "-" s' => Z.opp <$> digits_val 0 false s'
  | String "+" s' => digits_val 0 false s'
  | s' => digits_val 0 false s'
  end.

(** ** Laws of the dict operations *)

Section DictLaws.
Context {A : Type}.
Implicit Types (d e : list (string * A)) (v : A).

Lemma dict_get_set_eq k v d : dict_get k (dict_set k v d) = Some v.
Proof.
  induction d as [|[k' v'] d IH]; simpl; [by rewrite decide_True|].
  destruct (decide (k = k')) as [->|Hne]; simpl.
  - by rewrite decide_True.
  - by rewrite decide_False.
Qed.

Lemma dict_get_set_ne k k' v d : k <> k' -> dict_get k (dict_set k' v d) = dict_get k d.
Proof.
  intros Hne. induction d as [|[k2 v2] d IH]; simpl; [by rewrite decide_False|].
  destruct (decide (k' = k2)) as [->|Hne2]; simpl; [by rewrite !decide_False|].
  by rewrite IH.
Qed.

Lemma dict_get_set k k' v d :
  dict_get k (dict_set k' v d) = if decide (k = k') then Some v else dict_get k d.
Proof.
  case_decide; subst; [apply dict_get_set_eq | by apply dict_get_set_ne].
Qed.

Lemma dict_get_In k d v : dict_get k d = Some v -> (k, v) ∈ d.
Proof.
  induction d as [|[k' v'] d IH]; simpl; [done|].
  case_decide; intros; simplify_eq; [by left|]. right; auto.
Qed.

Lemma dict_get_NoDup k v d : NoDup (dict_keys d) -> (k, v) ∈ d -> dict_get k d = Some v.
Proof.
  unfold dict_keys. induction d as [|[k' v'] d IH]; simpl; intros Hnd Hin; [by inversion Hin|].
  apply NoDup_cons in Hnd as [Hni Hnd]. apply elem_of_cons in Hin as [[= -> ->]|Hin].
  - by rewrite decide_True.
  - rewrite decide_False; [auto|]. intros ->. apply Hni.
    apply list_elem_of_fmap. by exists (k', v).
Qed.

Lemma dict_get_None k d : dict_get k d = None <-> k ∉ dict_keys d.
Proof.
  unfold dict_keys. induction d as [|[k' v'] d IH]; simpl.
  - split; [intros _; apply not_elem_of_nil | done].
  - rewrite not_elem_of_cons. case_decide; [naive_solver|]. rewrite IH. naive_solver.
Qed.

Lemma dict_get_Some_keys k d v : dict_get k d = Some v -> k ∈ dict_keys d.
Proof.
  intros H. destruct (decide (k ∈ dict_keys d)) as [|Hn]; [done|].
  apply dict_get_None in Hn. congruence.
Qed.

Lemma dict_keys_set k v d :
  dict_keys (dict_set k v d) =
  if decide (k ∈ dict_keys d) then dict_keys d else dict_keys d ++ [k].
Proof.
  unfold dict_keys. induction d as [|[k' v'] d IH]; simpl; [done|].
  destruct (decide (k = k')) as [->|Hk]; simpl.
  - rewrite decide_True by (by left). done.
  - rewrite IH. destruct (decide (k ∈ map fst d)) as [Hin|Hin].
    + by rewrite decide_True by (by right).
    + rewrite decide_False; [done|]. intros [?|?]%elem_of_cons; done.
Qed.

Lemma dict_set_NoDup k v d : NoDup (dict_keys d) -> NoDup (dict_keys (dict_set k v d)).
Proof.
  intros H. rewrite dict_keys_set. case_decide; [done|].
  apply NoDup_app. split; [done|]. split; [|apply NoDup_singleton].
  intros x Hx ->%list_elem_of_singleton. done.
Qed.

Lemma dict_update_NoDup e d : NoDup (dict_keys d) -> NoDup (dict_keys (dict_update d e)).
Proof.
  unfold dict_update. revert d. induction e as [|[k v] e IH]; simpl; [done|].
  intros d Hd. by apply IH, dict_set_NoDup.
Qed.

(** The last binding of [k] in [e] wins, else the value in [d]. *)
Lemma dict_get_update_other k e d :
  k ∉ dict_keys e -> dict_get k (dict_update d e) = dict_get k d.
Proof.
  unfold dict_update, dict_keys. revert d.
  induction e as [|[k' v'] e IH]; simpl; [done|]. intros d Hk.
  apply not_elem_of_cons in Hk as [Hne Hk].
  rewrite IH by done. by apply dict_get_set_ne.
Qed.

Lemma dict_get_update k e d :
  NoDup (dict_keys e) ->
  dict_get k (dict_update d e) =
  match dict_get k e with Some v => Some v | None => dict_get k d end.
Proof.
  revert d. induction e as [|[k' v'] e IH]; simpl; [done|]. intros d Hnd.
  apply NoDup_cons in Hnd as [Hni Hnd].
  change (dict_get k (dict_update (dict_set k' v' d) e) =
    match (if decide (k = k') then Some v' else dict_get k e) with
    | Some v => Some v | None => dict_get k d end).
  case_decide as Hk; subst.
  - rewrite dict_get_update_other by done. apply dict_get_set_eq.
  - rewrite IH by done. destruct (dict_get k e); [done|]. by apply dict_get_set_ne.
Qed.

Lemma dict_get_setdefault k k' v d :
  dict_get k (dict_setdefault k' v d) =
  match dict_get k d with
  | Some w => Some w
  | None => if decide (k = k') then Some v else None
  end.
Proof.
  unfold dict_setdefault, dict_in. destruct (dict_get k' d) eqn:Hk'.
  - destruct (dict_get k d) eqn:Hk; [done|]. case_decide; subst; congruence.
  - rewrite dict_get_set. case_decide; subst; [by rewrite Hk'|].
    by destruct (dict_get k d).
Qed.

Lemma dict_in_true k d : dict_in k d = true <-> k ∈ dict_keys d.
Proof.
  unfold dict_in. destruct (dict_get k d) eqn:H.
  - split; [|done]. intros _. by eapply dict_get_Some_keys.
  - apply dict_get_None in H. split; [done|]. intros Hk. done.
Qed.

Lemma dict_get_del_eq k d : dict_get k (dict_del k d) = None.
Proof.
  unfold dict_del. induction d as [|[k' v] d IH]; [done|].
  rewrite filter_cons. simpl. case_decide; simpl; [|done]. rewrite decide_False by done. done.
Qed.

Lemma dict_get_del_ne k k' d : k <> k' -> dict_get k (dict_del k' d) = dict_get k d.
Proof.
  intros Hne. unfold dict_del. induction d as [|[k2 v] d IH]; [done|].
  rewrite filter_cons. simpl. case_decide; simpl; case_decide; subst; done.
Qed.
End DictLaws.

Lemma eq_str_true v s : eq_str v s = true <-> v = PStr s.
Proof. destruct v; simpl; try (split; congruence). rewrite bool_decide_eq_true. split; congruence. Qed.

#[export] Hint Rewrite @dict_get_set_eq : pydict.
#[export] Hint Rewrite @dict_get_set_ne using done : pydict.
#[export] Hint Rewrite @dict_get_setdefault : pydict.

(** ** Rendering examples *)

Example repr_nested :
  py_str (PDict [("a", PList [PInt (-3); PStr "it's"]); ("b", PFloat 15 (-1))])
  = "{'a': [-3, " +:+ char_str dquote +:+ "it's" +:+ char_str dquote +:+ "], 'b': 1.5}".
Proof. vm_compute. reflexivity. Qed.

Example error_str_extended :
  py_str (PErr 400 "c" "top" [PDict [("Message", PStr "bad value")];
                              PDict [("MessageId", PStr "Base.1.0.X"); ("MessageArgs", PList [PStr "p"])];
                              PDict [("Message", PStr "top")]] "")
  = "top; bad value; Base.1.0.X ['p'] (HTTP 400)".
Proof. vm_compute. reflexivity. Qed.

(** ** Sorting and deduplication *)

Lemma dedup_spec l : NoDup (dedup l) /\ forall x, x ∈ dedup l <-> x ∈ l.
Proof.
  unfold dedup. enough (forall acc, NoDup acc ->
    let r := fold_left (fun acc s => if decide (s ∈ acc) then acc else acc ++ [s]) l acc in
    NoDup r /\ forall x, x ∈ r <-> x ∈ acc \/ x ∈ l) as H.
  { destruct (H [] (NoDup_nil_2)) as [Hn Hx]. split; [done|]. intros x. rewrite Hx, elem_of_nil. naive_solver. }
  induction l as [|y l IH]; intros acc Hacc; simpl.
  - split; [done|]. intros x. rewrite elem_of_nil. naive_solver.
  - case_decide as Hy.
    + destruct (IH acc Hacc) as [Hn Hx]. split; [done|]. intros x. rewrite Hx, elem_of_cons. naive_solver.
    + destruct (IH (acc ++ [y])) as [Hn Hx].
      { apply NoDup_app. split_and!; [done| |apply NoDup_singleton]. intros z Hz ->%list_elem_of_singleton. done. }
      split; [done|]. intros x. rewrite Hx, elem_of_app, list_elem_of_singleton, elem_of_cons. naive_solver.
Qed.

Lemma sort_strs_perm l : Permutation (sort_strs l) l.
Proof.
  unfold sort_strs.
  assert (forall x acc, Permutation
    ((fix ins (l : list string) : list string :=
        match l with [] => [x] | y :: l' => if String.ltb x y then x :: l else y :: ins l' end) acc) (x :: acc)) as Hins.
  { intros x acc. induction acc as [|y acc IH]; [done|]. destruct (String.ltb x y); [done|].
    rewrite IH. constructor. }
  enough (forall acc, Permutation (fold_left (fun acc x =>
    (fix ins (l : list string) : list string :=
       match l with [] => [x] | y :: l' => if String.ltb x y then x :: l else y :: ins l' end) acc) l acc) (l ++ acc)) as H.
  { rewrite H. by rewrite app_nil_r. }
  induction l as [|x l IH]; intros acc; simpl; [done|]. rewrite IH, Hins. symmetry. apply Permutation_middle.
Qed.
