(* ===== verification/Effects.v ===== *)
(** * Effects: exceptions, a state and error monad, framing

    Python code that reads and changes object state and may raise is a function
    from a state to a state and a result.  [NoFuel] is not a Python outcome: a
    [while True] loop that is cut off after a bounded number of rounds gives it,
    and no handler catches it. *)

From stdpp Require Import base list strings.
From S2P Require Import Prelude PyVal.

(** ** Exceptions *)

(** The exception classes the modelled code raises or lets through.
    [RequestTimeout] stands for the connect and read timeouts of [requests] and
    [TimeoutError], [ConnectionFailed] for the connection errors of [requests],
    [ConnectionError] and other [OSError]s, [TransportError] for any other
    [RequestException], [OtherError] for an exception of a library, with its
    class name; [KeyboardInterrupt] is a [BaseException] that is no
    [Exception]. *)
Inductive exn : Type :=
| RedfishUnauthorized (e : pyval)
| RedfishForbidden (e : pyval)
| RedfishMethodNotAllowed (m : string)
| RedfishNotAcceptable (m : string)
| RedfishOther (cls m : string)
| RedfishException (e : pyval)
| ResourceNotFound (e : pyval)
| AuthenticationFailed (e : pyval)
| UnexpectedResponse (e : pyval)
| UnsupportedAction (m : string)
| InvalidArgument (m : string)
| InvalidArgumentFormat (m : string)
| MissingMandatoryArguments (m : string)
| TaskIdUnavailable (m : string)
| UncommittedPendingChanges (m : string)
| InvalidJsonSpec (m : string)
| FailedDiscoverAction (m : string)
| NoPendingValues (m : string)
| MissingResource (m : string)
| JsonHttpError (cls : string) (e : pyval)
| RedfishApiError (m : string)
| NodeNotFound (m : string)
| ValueError (m : string)
| TypeError (m : string)
| KeyError (m : string)
| IndexError (m : string)
| AttributeError (m : string)
| JSONDecodeError (m : string)
| TransportError (m : string)
| RequestTimeout (m : string)
| ConnectionFailed (m : string)
| OverflowError (m : string)
| RuntimeError (m : string)
| FileNotFoundError (m : string)
| OtherError (cls m : string)
| KeyboardInterrupt.

(** [isinstance(e, Exception)] *)
Definition is_Exception (e : exn) : bool :=
  match e with KeyboardInterrupt => false | _ => true end.

(** [str(e)]: an exception prints its only argument, [KeyError] its repr. *)
Definition exn_str (e : exn) : string :=
  match e with
  | RedfishUnauthorized v | RedfishForbidden v | ResourceNotFound v | RedfishException v
  | AuthenticationFailed v | UnexpectedResponse v | JsonHttpError _ v => py_str v
  | RedfishMethodNotAllowed m | RedfishNotAcceptable m | UnsupportedAction m
  | InvalidArgument m | InvalidArgumentFormat m | MissingMandatoryArguments m
  | TaskIdUnavailable m | RedfishApiError m | ValueError m | TypeError m
  | IndexError m | AttributeError m | JSONDecodeError m | TransportError m | RedfishOther _ m
  | UncommittedPendingChanges m | InvalidJsonSpec m | FailedDiscoverAction m | NoPendingValues m
  | MissingResource m | RequestTimeout m | ConnectionFailed m | OverflowError m | RuntimeError m
  | FileNotFoundError m | OtherError _ m => m
  | KeyError m | NodeNotFound m => repr_str m
  | KeyboardInterrupt => ""
  end.

(** ** Results *)

Inductive res (A : Type) : Type :=
| Ok (a : A)
| Raise (e : exn)
| NoFuel.
Arguments Ok {A} a.
Arguments Raise {A} e.
Arguments NoFuel {A}.

Definition res_bind {A B} (r : res A) (f : A -> res B) : res B :=
  match r with
  | Ok a => f a
  | Raise e => Raise e
  | NoFuel => NoFuel
  end.

Notation "'let?' x ':=' m 'in' k" := (res_bind m (fun x => k))
  (at level 200, x pattern, m at level 100, k at level 200, right associativity) : py_scope.

(** [for x in l: acc = f(acc, x)] where the body may raise *)
Fixpoint res_fold {A B} (f : A -> B -> res A) (acc : A) (l : list B) : res A :=
  match l with
  | [] => Ok acc
  | x :: l' => res_bind (f acc x) (fun acc' => res_fold f acc' l')
  end.

Lemma res_bind_ok {A B} (r : res A) (f : A -> res B) b :
  res_bind r f = Ok b -> exists a, r = Ok a /\ f a = Ok b.
Proof. destruct r; simpl; [eauto|done..]. Qed.

Lemma res_fold_inv {A B} (P : A -> Prop) (f : A -> B -> res A) l a a' :
  P a -> (forall a b a', b ∈ l -> P a -> f a b = Ok a' -> P a') ->
  res_fold f a l = Ok a' -> P a'.
Proof.
  revert a. induction l as [|x l IH]; simpl; intros a Ha Hf; [intros; by simplify_eq|].
  intros (a1 & H1 & H2)%res_bind_ok. eapply IH; [| |exact H2].
  - eapply Hf; [by left|done|exact H1].
  - intros a2 b a3 Hb. apply Hf. by right.
Qed.

(** [v.get(key)], which only a mapping has *)
Definition no_get {A} (v : pyval) : res A :=
  Raise (AttributeError ("'" +:+ type_name v +:+ "' object has no attribute 'get'")).

Definition get_attr (v : pyval) (key : string) : res pyval :=
  match v with PDict d => Ok (dget key d) | _ => no_get v end.

(** ** The monad *)

Definition M (S A : Type) : Type := S -> S * res A.

Section Combinators.
Context {S : Type}.

Definition ret {A} (a : A) : M S A := fun s => (s, Ok a).
Definition raise {A} (e : exn) : M S A := fun s => (s, Raise e).
Definition lift_res {A} (r : res A) : M S A := fun s => (s, r).

Definition bind {A B} (m : M S A) (k : A -> M S B) : M S B :=
  fun s => match m s with
           | (s', Ok a) => k a s'
           | (s', Raise e) => (s', Raise e)
           | (s', NoFuel) => (s', NoFuel)
           end.

Definition get_state : M S S := fun s => (s, Ok s).
Definition gets {A} (f : S -> A) : M S A := fun s => (s, Ok (f s)).
Definition modify (f : S -> S) : M S unit := fun s => (f s, Ok tt).

(** [try: m  except <p> as e: h e], and the state at the raise is kept *)
Definition try_catch {A} (m : M S A) (p : exn -> bool) (h : exn -> M S A) : M S A :=
  fun s => match m s with
           | (s', Raise e) => if p e then h e s' else (s', Raise e)
           | r => r
           end.

(** [try: m  except Exception as e: h e] *)
Definition try_Exception {A} (m : M S A) (h : exn -> M S A) : M S A :=
  try_catch m is_Exception h.

(** [for x in l: acc = f(acc, x)] *)
Fixpoint foldM {A B} (f : A -> B -> M S A) (acc : A) (l : list B) : M S A :=
  match l with
  | [] => ret acc
  | x :: l' => bind (f acc x) (fun acc' => foldM f acc' l')
  end.

(** [[f(x) for x in l]] *)
Fixpoint mapM {A B} (f : A -> M S B) (l : list A) : M S (list B) :=
  match l with
  | [] => ret []
  | x :: l' => bind (f x) (fun y => bind (mapM f l') (fun ys => ret (y :: ys)))
  end.

(** A loop that returns at the first [x] whose body gives [Some]. *)
Fixpoint firstM {A B} (f : A -> M S (option B)) (l : list A) : M S (option B) :=
  match l with
  | [] => ret None
  | x :: l' => bind (f x) (fun r => match r with
                                    | Some y => ret (Some y)
                                    | None => firstM f l'
                                    end)
  end.

End Combinators.

Notation "'let!' x ':=' m 'in' k" := (bind m (fun x => k))
  (at level 200, x pattern, m at level 100, k at level 200, right associativity) : py_scope.
Notation "m ';;;' k" := (bind m (fun _ => k))
  (at level 100, k at level 200, right associativity) : py_scope.

(** ** Framing

    [frames R m]: running [m] from any state relates that state to the final
    one by [R], whatever the result.  For a preorder [R] the property is
    compositional, so it is proved along the syntax of [m]. *)

Definition frames {S A} (R : S -> S -> Prop) (m : M S A) : Prop :=
  forall s, R s (m s).1.

Section Framing.
Context {S : Type} (R : S -> S -> Prop) `{!PreOrder R}.

Lemma frames_ret {A} (a : A) : frames R (ret a).
Proof. intros s. simpl. reflexivity. Qed.

Lemma frames_raise {A} e : frames R (raise (A := A) e).
Proof. intros s. simpl. reflexivity. Qed.

Lemma frames_lift {A} (r : res A) : frames R (lift_res r).
Proof. intros s. simpl. reflexivity. Qed.

Lemma frames_get : frames R get_state.
Proof. intros s. simpl. reflexivity. Qed.

Lemma frames_gets {A} (f : S -> A) : frames R (gets f).
Proof. intros s. simpl. reflexivity. Qed.

Lemma frames_modify f : (forall s, R s (f s)) -> frames R (modify f).
Proof. intros H s. simpl. apply H. Qed.

Lemma frames_bind {A B} (m : M S A) (k : A -> M S B) :
  frames R m -> (forall a, frames R (k a)) -> frames R (bind m k).
Proof.
  intros Hm Hk s. unfold bind. specialize (Hm s).
  destruct (m s) as [s' [a|e|]]; simpl in *; [|done..].
  etransitivity; [exact Hm|apply Hk].
Qed.

Lemma frames_try {A} (m : M S A) p h :
  frames R m -> (forall e, frames R (h e)) -> frames R (try_catch m p h).
Proof.
  intros Hm Hh s. unfold try_catch. specialize (Hm s).
  destruct (m s) as [s' [a|e|]]; simpl in *; [done| |done].
  destruct (p e); simpl; [|done]. etransitivity; [exact Hm|apply Hh].
Qed.

Lemma frames_try_Exception {A} (m : M S A) h :
  frames R m -> (forall e, frames R (h e)) -> frames R (try_Exception m h).
Proof. intros. by apply frames_try. Qed.

Lemma frames_foldM {A B} (f : A -> B -> M S A) acc l :
  (forall a b, frames R (f a b)) -> frames R (foldM f acc l).
Proof.
  intros Hf. revert acc. induction l as [|x l IH]; intros acc; simpl.
  - apply frames_ret.
  - apply frames_bind; auto.
Qed.

Lemma frames_mapM {A B} (f : A -> M S B) l :
  (forall a, frames R (f a)) -> frames R (mapM f l).
Proof.
  intros Hf. induction l as [|x l IH]; simpl; [apply frames_ret|].
  apply frames_bind; [done|]. intros y. apply frames_bind; [done|].
  intros ys. apply frames_ret.
Qed.

Lemma frames_firstM {A B} (f : A -> M S (option B)) l :
  (forall a, frames R (f a)) -> frames R (firstM f l).
Proof.
  intros Hf. induction l as [|x l IH]; simpl; [apply frames_ret|].
  apply frames_bind; [done|]. intros [y|]; [apply frames_ret|done].
Qed.

End Framing.

#[export] Hint Resolve frames_ret frames_raise frames_lift frames_get frames_gets
  frames_bind frames_try frames_try_Exception frames_foldM frames_mapM frames_firstM : emits.

(** One syntactic step of a framing proof. *)
Ltac frame_step :=
  lazymatch goal with
  | |- forall _, _ => intros ?
  | |- frames _ (ret _) => apply frames_ret; exact _
  | |- frames _ (raise _) => apply frames_raise; exact _
  | |- frames _ (lift_res _) => apply frames_lift; exact _
  | |- frames _ get_state => apply frames_get; exact _
  | |- frames _ (gets _) => apply frames_gets; exact _
  | |- frames _ (bind _ _) => apply frames_bind; [exact _| |]
  | |- frames _ (try_catch _ _ _) => apply frames_try; [exact _| |]
  | |- frames _ (try_Exception _ _) => apply frames_try_Exception; [exact _| |]
  | |- frames _ (foldM _ _ _) => apply frames_foldM; [exact _|]
  | |- frames _ (mapM _ _) => apply frames_mapM; [exact _|]
  | |- frames _ (firstM _ _) => apply frames_firstM; [exact _|]
  | |- frames _ (match ?x with _ => _ end) => destruct x eqn:?
  | |- frames _ (let _ := _ in _) => cbv zeta
  end.

Ltac frame := repeat (first [ frame_step | solve [eauto 2 with emits] ]).

(** ** Which outcomes are possible

    [yields Q m]: whatever the state, the outcome of [m] satisfies [Q]. *)

Definition yields {S A} (Q : exn -> Prop) (m : M S A) : Prop :=
  forall s, match (m s).2 with
            | Ok _ => True
            | Raise e => Q e
            | NoFuel => False
            end.

(** Any exception may come out, but the computation ends. *)
Abbreviation any_exn := (fun _ : exn => True).

(** Nothing an [except Exception] would catch comes out. *)
Definition only_base (e : exn) : Prop := is_Exception e = false.

(** A pure result that is not out of fuel. *)
Definition ends {A} (r : res A) : Prop := r <> NoFuel.

Lemma yields_lift_any {S A} (r : res A) : ends r -> yields (S := S) any_exn (lift_res r).
Proof. intros Hr s. simpl. by destruct r. Qed.

Section Yields.
Context {S : Type} (Q : exn -> Prop).

Lemma yields_ret {A} (a : A) : yields (S := S) Q (ret a).
Proof. by intros s. Qed.

Lemma yields_gets {A} (f : S -> A) : yields Q (gets f).
Proof. by intros s. Qed.

Lemma yields_modify (f : S -> S) : yields Q (modify f).
Proof. by intros s. Qed.

Lemma yields_raise {A} e : Q e -> yields (S := S) (A := A) Q (raise e).
Proof. by intros He s. Qed.

Lemma yields_lift {A} (r : res A) :
  match r with Ok _ => True | Raise e => Q e | NoFuel => False end ->
  yields (S := S) Q (lift_res r).
Proof. by intros Hr s. Qed.

Lemma yields_bind {A B} (m : M S A) (k : A -> M S B) :
  yields Q m -> (forall a, yields Q (k a)) -> yields Q (bind m k).
Proof.
  intros Hm Hk s. specialize (Hm s). unfold bind.
  destruct (m s) as [s' [a|e|]]; simpl in *; [apply Hk|done..].
Qed.

Lemma yields_try_Exception {A} (m : M S A) (h : exn -> M S A) :
  yields any_exn m -> (forall e, yields Q (h e)) -> (forall e, only_base e -> Q e) ->
  yields Q (try_Exception m h).
Proof.
  intros Hm Hh Hb s. specialize (Hm s). unfold try_Exception, try_catch.
  destruct (m s) as [s' [a|e|]]; simpl in *; [done| |done].
  destruct (is_Exception e) eqn:He; simpl; [apply Hh|by apply Hb].
Qed.

Lemma yields_firstM {A B} (f : A -> M S (option B)) l :
  (forall a, yields Q (f a)) -> yields Q (firstM f l).
Proof.
  intros Hf. induction l as [|x l IH]; simpl; [apply yields_ret|].
  apply yields_bind; [done|]. intros [y|]; [apply yields_ret|done].
Qed.

Lemma yields_foldM {A B} (f : A -> B -> M S A) acc l :
  (forall a b, yields Q (f a b)) -> yields Q (foldM f acc l).
Proof.
  intros Hf. revert acc. induction l as [|x l IH]; intros acc; simpl; [apply yields_ret|].
  apply yields_bind; auto.
Qed.

Lemma yields_mapM {A B} (f : A -> M S B) l :
  (forall a, yields Q (f a)) -> yields Q (mapM f l).
Proof.
  intros Hf. induction l as [|x l IH]; simpl; [apply yields_ret|].
  apply yields_bind; [done|]. intros y. apply yields_bind; [done|]. intros ys. apply yields_ret.
Qed.
End Yields.

Lemma yields_weaken {S A} (Q Q' : exn -> Prop) (m : M S A) :
  (forall e, Q e -> Q' e) -> yields Q m -> yields Q' m.
Proof. intros HQ Hm s. specialize (Hm s). destruct (m s).2; auto. Qed.

Create HintDb yields.
#[export] Hint Resolve yields_ret yields_gets yields_modify : yields.

(** One syntactic step of a proof about outcomes. *)
Ltac yields_step :=
  lazymatch goal with
  | |- forall _, _ => intros ?
  | |- yields _ (ret _) => apply yields_ret
  | |- yields _ (gets _) => apply yields_gets
  | |- yields _ (modify _) => apply yields_modify
  | |- yields _ (raise _) => apply yields_raise
  | |- yields any_exn (lift_res _) => apply yields_lift_any
  | |- yields _ (lift_res _) => apply yields_lift
  | |- yields _ (bind _ _) => apply yields_bind
  | |- yields _ (try_Exception _ _) => apply yields_try_Exception
  | |- yields _ (firstM _ _) => apply yields_firstM
  | |- yields _ (foldM _ _ _) => apply yields_foldM
  | |- yields _ (mapM _ _) => apply yields_mapM
  | |- yields _ (match ?x with _ => _ end) => destruct x eqn:?
  | |- yields _ (let _ := _ in _) => cbv zeta
  | |- True => exact I
  end.

Ltac yields := repeat (first [ yields_step | solve [eauto 2 with yields] ]).

(** ** Running *)

Lemma bind_ok {S A B} (m : M S A) (k : A -> M S B) s s' a :
  m s = (s', Ok a) -> bind m k s = k a s'.
Proof. intros H. unfold bind. by rewrite H. Qed.

Lemma bind_inv_ok {S A B} (m : M S A) (k : A -> M S B) s s'' b :
  bind m k s = (s'', Ok b) ->
  exists s' a, m s = (s', Ok a) /\ k a s' = (s'', Ok b).
Proof.
  unfold bind. destruct (m s) as [s' [a|e|]]; intros H; simplify_eq; eauto.
Qed.

Lemma bind_assoc {S A B C} (m : M S A) (f : A -> M S B) (g : B -> M S C) s :
  bind (bind m f) g s = bind m (fun a => bind (f a) g) s.
Proof. unfold bind. by destruct (m s) as [? [?|?|]]. Qed.

(** ** Command results *)

(** [CommandResult], the named tuple every command returns
    (src/redfish_ctl/redfish_manager.py). *)
Record CommandResult := mkResult {
  data : pyval;
  discovered : pyval;
  extra : pyval;
  error : pyval
}.
