(* ===== verification/Query.v ===== *)
(** * Redfish query parameters (src/redfish_ctl/redfish_query.py)

    [RedfishQuery]: a validated set of query parameters ([$select], [$filter],
    [$expand], [$top], [only]) and its rendering as a query string. *)

From stdpp Require Import base list strings pretty.
From Stdlib Require Import Ascii ZArith Lia.
From S2P Require Import Prelude PyVal Effects.

Module RedfishQuery.

(** ** Percent-encoding ([urllib.parse.quote]) *)

(** The characters [_SAFE] keeps literal beside the unreserved ones. *)
Definition SAFE : string := "()'$*,=:+-".

Definition safe_char (c : ascii) : bool :=
  PyStr.is_alnum c || PyStr.has_char (fun x => bool_decide (x = c)) ("_.-~" +:+ SAFE).

Definition hex_upper (n : nat) : ascii :=
  if (n <? 10)%nat then ascii_of_nat (48 + n) else ascii_of_nat (55 + n).

Definition quote_char (c : ascii) : string :=
  if safe_char c then char_str c
  else String "%" (String (hex_upper (nat_of_ascii c / 16))
                     (String (hex_upper (nat_of_ascii c mod 16)) EmptyString)).

(** [quote(s, safe=_SAFE)] *)
Fixpoint quote (s : string) : string :=
  match s with
  | EmptyString => EmptyString
  | String c s' => quote_char c +:+ quote s'
  end.

(** ** The parameter set *)

Inductive select_arg := SelNone | SelList (l : list string) | SelStr (s : string).
Inductive expand_arg := ExpNone | ExpBool (b : bool) | ExpStr (s : string).

Record t := mk {
  select : select_arg;
  filter : option string;
  expand : expand_arg;
  expand_levels : pyval;
  top : pyval;
  only : bool
}.

Definition select_truthy (s : select_arg) : bool :=
  match s with
  | SelNone => false
  | SelList l => match l with [] => false | _ => true end
  | SelStr s => PyStr.nonempty s
  end.

Definition filter_truthy (f : option string) : bool :=
  match f with Some s => PyStr.nonempty s | None => false end.

Definition expand_truthy (e : expand_arg) : bool :=
  match e with ExpNone => false | ExpBool b => b | ExpStr s => PyStr.nonempty s end.

Definition active_names (q : t) : list string :=
  (if select_truthy (select q) then ["$select"] else []) ++
  (if filter_truthy (filter q) then ["$filter"] else []) ++
  (if expand_truthy (expand q) then ["$expand"] else []) ++
  (if is_none (top q) then [] else ["$top"]) ++
  (if only q then ["only"] else []).

Definition is_empty (q : t) : bool :=
  match active_names q with [] => true | _ => false end.

(** [isinstance(v, int) and v >= lo]; a [bool] is an [int] *)
Definition int_at_least (lo : Z) (v : pyval) : bool :=
  match v with
  | PInt z => (lo <=? z)%Z
  | PBool b => (lo <=? (if b then 1 else 0))%Z
  | _ => false
  end.

Definition validate (q : t) (one_param_per_uri : bool) : res unit :=
  if negb (is_none (top q)) && negb (int_at_least 0 (top q)) then
    Raise (ValueError "$top must be an integer >= 0")
  else if negb (is_none (expand_levels q)) && negb (int_at_least 1 (expand_levels q)) then
    Raise (ValueError "$expand levels must be an integer >= 1")
  else
    let active := active_names q in
    if one_param_per_uri && (1 <? length active)%nat then
      Raise (ValueError ("this service supports only one query parameter per URI; got "
                         +:+ PyStr.join ", " active))
    else Ok tt.

Definition select_value (s : select_arg) : string :=
  match s with
  | SelNone => ""
  | SelStr v => v
  | SelList l => PyStr.join "," l
  end.

Definition expand_mode (e : expand_arg) : string :=
  match e with ExpStr s => s | _ => "*" end.

Definition pairs (q : t) : list string :=
  (if select_truthy (select q) then ["$select=" +:+ quote (select_value (select q))] else []) ++
  (if filter_truthy (filter q) then ["$filter=" +:+ quote (default "" (filter q))] else []) ++
  (if expand_truthy (expand q)
   then ["$expand=" +:+ expand_mode (expand q) +:+ "($levels=" +:+ py_str (expand_levels q) +:+ ")"]
   else []) ++
  (if is_none (top q) then [] else ["$top=" +:+ py_str (top q)]) ++
  (if only q then ["only"] else []).

Definition to_query_string (q : t) (one_param_per_uri : bool) : res string :=
  res_bind (validate q one_param_per_uri) (fun _ =>
    match pairs q with
    | [] => Ok ""
    | ps => Ok ("?" +:+ PyStr.join "&" ps)
    end).

Definition apply (q : t) (url : string) (one_param_per_uri : bool) : res string :=
  res_bind (to_query_string q one_param_per_uri) (fun qs => Ok (url +:+ qs)).

(** ** A reference decoder *)

Definition hex_value (c : ascii) : option nat :=
  let n := nat_of_ascii c in
  if (48 <=? n) && (n <=? 57) then Some (n - 48)
  else if (65 <=? n) && (n <=? 70) then Some (n - 55)
  else None.

(** Percent-decoding as a server does it; [None] on a malformed escape. *)
Fixpoint unquote (s : string) : option string :=
  match s with
  | EmptyString => Some EmptyString
  | String c s' =>
      if decide (c = "%"%char) then
        match s' with
        | String h (String l s'') =>
            a ← hex_value h; b ← hex_value l; r ← unquote s'';
            Some (String (ascii_of_nat (16 * a + b)) r)
        | _ => None
        end
      else String c <$> unquote s'
  end.

(** ** Lemmas *)

Lemma pairs_names_length q : length (pairs q) = length (active_names q).
Proof. unfold pairs, active_names. repeat case_match; reflexivity. Qed.

Lemma pairs_nil_is_empty q : pairs q = [] <-> is_empty q = true.
Proof.
  unfold is_empty. pose proof (pairs_names_length q) as H.
  destruct (pairs q), (active_names q); simpl in *; naive_solver.
Qed.

(** Every byte: an exhaustive check of the 256 characters. *)
Definition all_chars : list ascii := map ascii_of_nat (seq 0 256).

Lemma all_chars_complete c : c ∈ all_chars.
Proof.
  unfold all_chars. rewrite <- (ascii_nat_embedding c).
  apply list_elem_of_fmap_2, elem_of_seq. pose proof (nat_ascii_bounded c). lia.
Qed.

Lemma forall_chars (p : ascii -> bool) : forallb p all_chars = true -> forall c, p c = true.
Proof.
  intros H c. rewrite forallb_forall in H. apply H, list_elem_of_In, all_chars_complete.
Qed.

(** The characters that may occur in an encoded value. *)
Definition encoded_char (c : ascii) : bool := safe_char c || bool_decide (c = "%"%char).

Fixpoint all_chars_of (p : ascii -> bool) (s : string) : bool :=
  match s with EmptyString => true | String c s' => p c && all_chars_of p s' end.

Lemma all_chars_of_app p s t :
  all_chars_of p (s +:+ t) = all_chars_of p s && all_chars_of p t.
Proof.
  induction s as [|c s IH]; [done|]. rewrite append_cons. simpl. by rewrite IH, andb_assoc.
Qed.

Lemma quote_char_encoded c : all_chars_of encoded_char (quote_char c) = true.
Proof. revert c. apply forall_chars. vm_compute. reflexivity. Qed.

Lemma quote_encoded s : all_chars_of encoded_char (quote s) = true.
Proof.
  induction s as [|c s IH]; [done|]. simpl. by rewrite all_chars_of_app, quote_char_encoded, IH.
Qed.

Lemma unquote_escape h l a b t :
  hex_value h = Some a -> hex_value l = Some b ->
  unquote (String "%" (String h (String l t)))
  = String (ascii_of_nat (16 * a + b)) <$> unquote t.
Proof.
  intros H1 H2. cbn [unquote]. rewrite decide_True by done. rewrite H1, H2.
  change (mbind ?f (Some ?x)) with (f x). cbn beta.
  by destruct (unquote t).
Qed.

Lemma unquote_quote_char c t :
  unquote (quote_char c +:+ t) = String c <$> unquote t.
Proof.
  unfold quote_char. destruct (safe_char c) eqn:Hs.
  - unfold char_str. rewrite append_cons, append_empty_l.
    simpl. rewrite decide_False; [reflexivity|]. intros ->. by vm_compute in Hs.
  - rewrite !append_cons, append_empty_l.
    assert (forall x, match hex_value (hex_upper (nat_of_ascii x / 16)),
                            hex_value (hex_upper (nat_of_ascii x mod 16)) with
                      | Some a, Some b => bool_decide (ascii_of_nat (16 * a + b) = x)
                      | _, _ => false end = true) as Hhex
      by (apply forall_chars; vm_compute; reflexivity).
    specialize (Hhex c).
    destruct (hex_value (hex_upper (nat_of_ascii c / 16))) as [a|] eqn:Ha; [|done].
    destruct (hex_value (hex_upper (nat_of_ascii c mod 16))) as [b|] eqn:Hb; [|done].
    apply bool_decide_eq_true in Hhex. by rewrite (unquote_escape _ _ a b), Hhex.
Qed.

(** *** Splitting a joined list *)

Fixpoint count_char (c : ascii) (s : string) : nat :=
  match s with
  | EmptyString => 0
  | String x s' => (if decide (x = c) then 1 else 0) + count_char c s'
  end.

Lemma split_no_sep c s : count_char c s = 0 -> PyStr.split c s = [s].
Proof.
  induction s as [|x s IH]; [done|]. simpl. case_decide; [lia|]. intros Hs. by rewrite IH.
Qed.

Lemma split_app c s t :
  count_char c s = 0 -> PyStr.split c (s +:+ String c t) = s :: PyStr.split c t.
Proof.
  induction s as [|x s IH]; intros Hs.
  - rewrite append_empty_l. simpl. by rewrite decide_True.
  - rewrite append_cons. simpl in *. case_decide; [lia|]. by rewrite IH.
Qed.

Lemma split_join c l :
  l <> [] -> Forall (fun s => count_char c s = 0) l ->
  PyStr.split c (PyStr.join (String c EmptyString) l) = l.
Proof.
  intros Hne H. induction H as [|s l Hs Hl IH]; [done|].
  destruct l as [|s' l]; [by apply split_no_sep|].
  rewrite join_cons2, append_cons, append_empty_l, split_app by done.
  by rewrite IH.
Qed.

Lemma count_char_app c s t : count_char c (s +:+ t) = count_char c s + count_char c t.
Proof.
  induction s as [|x s IH]; [done|]. rewrite append_cons. simpl. rewrite IH. lia.
Qed.

Lemma count_char_encoded s : all_chars_of encoded_char s = true -> count_char "&" s = 0.
Proof.
  induction s as [|x s IH]; [done|]. simpl. rewrite andb_true_iff. intros [Hx Hs].
  case_decide; [|auto]. subst. vm_compute in Hx. done.
Qed.

(** *** The text of a rendered number has no separator *)

Lemma pretty_N_go_no_amp x s : count_char "&" (pretty_N_go x s) = count_char "&" s.
Proof.
  revert s. induction (N.lt_wf_0 x) as [x _ IH]; intros s.
  destruct (N.eq_0_gt_0_cases x) as [->|Hx]; [by rewrite pretty_N_go_0|].
  rewrite pretty_N_go_step by done. rewrite IH by (by apply N.div_lt).
  cbn [count_char]. rewrite decide_False; [done|].
  unfold pretty_N_char. by repeat case_match.
Qed.

Lemma pretty_Z_no_amp (z : Z) : count_char "&" (pretty z) = 0.
Proof.
  unfold pretty, pretty_Z. destruct z; [done|..];
    unfold pretty, pretty_positive, pretty, pretty_N; case_decide; try done;
    rewrite ?count_char_app, pretty_N_go_no_amp; done.
Qed.

(** An accepted integer argument renders without a separator. *)
Lemma int_at_least_no_amp lo v : int_at_least lo v = true -> count_char "&" (py_str v) = 0.
Proof. destruct v as [|[]|z| | | | | |]; try done. intros _. apply pretty_Z_no_amp. Qed.

Lemma validate_ok q b :
  validate q b = Ok tt ->
  (is_none (top q) = true \/ int_at_least 0 (top q) = true) /\
  (is_none (expand_levels q) = true \/ int_at_least 1 (expand_levels q) = true).
Proof.
  unfold validate.
  destruct (is_none (top q)), (int_at_least 0 (top q)),
    (is_none (expand_levels q)), (int_at_least 1 (expand_levels q)); simpl; naive_solver.
Qed.

Lemma quote_no_amp s : count_char "&" (quote s) = 0.
Proof. apply count_char_encoded, quote_encoded. Qed.

Lemma none_no_amp v : is_none v = true -> count_char "&" (py_str v) = 0.
Proof. by destruct v. Qed.

Lemma pairs_no_amp q b :
  validate q b = Ok tt -> count_char "&" (expand_mode (expand q)) = 0 ->
  Forall (fun s => count_char "&" s = 0) (pairs q).
Proof.
  intros [Ht He]%validate_ok Hm. unfold pairs.
  repeat (apply Forall_app; split); case_match; repeat constructor;
    rewrite ?count_char_app, ?quote_no_amp, ?Hm; try done.
  - destruct He as [He|He]; [by rewrite none_no_amp|by erewrite int_at_least_no_amp].
  - destruct Ht as [Ht|Ht]; [congruence|by erewrite int_at_least_no_amp].
Qed.

Lemma to_query_string_ok q b qs :
  to_query_string q b = Ok qs ->
  validate q b = Ok tt /\
  qs = match pairs q with [] => "" | _ => "?" +:+ PyStr.join "&" (pairs q) end.
Proof.
  unfold to_query_string. destruct (validate q b) as [[]| |]; simpl; [|done..].
  destruct (pairs q); intros; simplify_eq; auto.
Qed.

(** ** Properties *)

(** Percent-encoding loses nothing: decoding an encoded [$select] or
    [$filter] value gives the value back, for every byte string. *)
Theorem quote_roundtrip (s : string) : unquote (quote s) = Some s.
Proof.
  induction s as [|c s IH]; [done|]. cbn [quote].
  rewrite unquote_quote_char. by rewrite IH.
Qed.

(** A rendered query string is unambiguous: it is ["?"] followed by a text
    that splits at ["&"] into exactly the fragments of the active parameters,
    one per active parameter and each starting with its name, however hostile
    the [$select] and [$filter] values are; only the [$expand] mode, which the
    code does not encode, has to be free of ["&"]. *)
Theorem query_string_parses q b qs :
  to_query_string q b = Ok qs ->
  count_char "&" (expand_mode (expand q)) = 0 ->
  is_empty q = false ->
  exists body, qs = "?" +:+ body /\ PyStr.split "&" body = pairs q /\
    Forall2 (fun name pair => PyStr.startswith name pair = true)
      (active_names q) (PyStr.split "&" body).
Proof.
  intros [Hv ->]%to_query_string_ok Hm Hne.
  assert (pairs q <> []) as Hp by (rewrite pairs_nil_is_empty; congruence).
  exists (PyStr.join "&" (pairs q)). split; [by destruct (pairs q)|].
  rewrite split_join; [|done|by eapply pairs_no_amp]. split; [done|].
  unfold active_names, pairs.
  repeat (apply Forall2_app); case_match; repeat constructor; apply startswith_app.
Qed.

(** A hostile filter value: the ampersand and the blank are encoded. *)
Definition sample : t :=
  mk (SelList ["Id"; "a&b"]) (Some "x eq 'y&z'") (ExpBool true) (PInt 2) (PInt 5) true.

Lemma query_string_parses_witness :
  exists body, "?$select=Id,a%26b&$filter=x%20eq%20'y%26z'&$expand=*($levels=2)&$top=5&only"
    = "?" +:+ body /\ PyStr.split "&" body = pairs sample /\
    Forall2 (fun name pair => PyStr.startswith name pair = true)
      (active_names sample) (PyStr.split "&" body).
Proof.
  apply (query_string_parses sample false); vm_compute; reflexivity.
Defined.

(** Under the one-parameter-per-URI rule the builder accepts a parameter set
    exactly when its numbers are in range and at most one parameter is active,
    and then emits at most one fragment; without the rule only the numbers
    matter. *)
Theorem one_param_rule q (b : bool) :
  let numbers_ok :=
    (is_none (top q) || int_at_least 0 (top q)) &&
    (is_none (expand_levels q) || int_at_least 1 (expand_levels q)) in
  (exists qs, to_query_string q b = Ok qs) <->
  numbers_ok = true /\ (b = true -> length (pairs q) <= 1).
Proof.
  cbv zeta. unfold to_query_string, validate. rewrite pairs_names_length.
  destruct (is_none (top q)), (int_at_least 0 (top q)),
    (is_none (expand_levels q)), (int_at_least 1 (expand_levels q)); simpl;
    try (split; [intros [qs ?]; done | intros [? _]; done]);
    destruct b; simpl;
    try (destruct (Nat.ltb_spec 1 (length (active_names q)));
         [split; [intros [qs ?]; done | intros [_ H2]; specialize (H2 eq_refl); lia]|]);
    (split; [intros _; split; [done|intros; done] | intros _; destruct (pairs q); eauto]).
Qed.
End RedfishQuery.
