(* ===== verification/Cache.v ===== *)
(** * The per-operation response cache (RedfishResponseCache)

    src/redfish_ctl/redfish_manager.py, [RedfishResponseCache.get_or_load]:
    threads that ask for the same key share one loader run.  The condition's
    lock makes each critical section atomic, so the model is a transition
    system whose steps are the critical sections; a loader runs between two of
    them and ends with a value or an exception.  [Condition.wait] puts a thread
    to sleep until a [notify_all].  Values are immutable here: the deep copies
    of [_clone] are the identity on them. *)

From stdpp Require Import base list gmap sets relations.
From Stdlib Require Import Lia.
From S2P Require Import Prelude Effects.

Module ResponseCache.
Section Cache.
Context {K : Type} `{Countable K} {V : Type}.

(** Where a thread is inside [get_or_load]: about to take the lock for the
    first time, inside [wait], notified, running the loader, or out. *)
Inductive pc : Type :=
| Start (k : K)
| Sleeping (k : K)
| Woken (k : K)
| Loading (k : K)
| Returned (k : K) (v : V)
| Failed (k : K) (e : exn).

(** The object's fields and the threads using it; [log] is a ghost list of the
    values published so far, oldest first. *)
Record config := Config {
  values : gmap K V;
  inflight : gset K;
  threads : list pc;
  log : list (K * V)
}.

(** [__init__], with one thread per requested key. *)
Definition init (ks : list K) : config := Config ∅ ∅ (Start <$> ks) [].

(** [_clone] on immutable values. *)
Definition clone (v : V) : V := v.

(** The first critical section, and the one a thread runs again after [wait]
    returns: return a hit, sleep while the key is in flight, claim it otherwise. *)
Definition lookup_or_claim (k : K) (vals : gmap K V) (infl : gset K) : pc * gset K :=
  match vals !! k with
  | Some v => (Returned k (clone v), infl)
  | None => if decide (k ∈ infl) then (Sleeping k, infl) else (Loading k, {[k]} ∪ infl)
  end.

(** [self._condition.notify_all()] *)
Definition notify (p : pc) : pc := match p with Sleeping k => Woken k | _ => p end.
Definition notify_all (ps : list pc) : list pc := notify <$> ps.

(** The last critical section: store the value, drop the claim, wake waiters. *)
Definition publish (i : nat) (k : K) (v : V) (c : config) : config :=
  Config (<[k := clone v]> (values c)) (inflight c ∖ {[k]})
    (<[i := Returned k (clone v)]> (notify_all (threads c))) (log c ++ [(k, v)]).

(** The [except BaseException] path: drop the claim, wake waiters, re-raise. *)
Definition abandon (i : nat) (k : K) (e : exn) (c : config) : config :=
  Config (values c) (inflight c ∖ {[k]})
    (<[i := Failed k e]> (notify_all (threads c))) (log c).

Definition enter (i : nat) (k : K) (c : config) : config :=
  let '(p, infl) := lookup_or_claim k (values c) (inflight c) in
  Config (values c) infl (<[i := p]> (threads c)) (log c).

(** One atomic step of one thread; the loader's outcome is free. *)
Inductive step : config -> config -> Prop :=
| step_enter c i k : threads c !! i = Some (Start k) -> step c (enter i k c)
| step_resume c i k : threads c !! i = Some (Woken k) -> step c (enter i k c)
| step_loaded c i k v : threads c !! i = Some (Loading k) -> step c (publish i k v c)
| step_raised c i k e : threads c !! i = Some (Loading k) -> step c (abandon i k e c).

Definition reachable (ks : list K) (c : config) : Prop := rtc step (init ks) c.

Definition finished (p : pc) : bool :=
  match p with Returned _ _ | Failed _ _ => true | _ => false end.

(** An executable scheduler: which thread runs, and how its loader ends. *)
Inductive event := Run (i : nat) | LoadOk (i : nat) (v : V) | LoadFail (i : nat) (e : exn).

Definition exec (ev : event) (c : config) : option config :=
  match ev with
  | Run i => match threads c !! i with
             | Some (Start k) | Some (Woken k) => Some (enter i k c)
             | _ => None
             end
  | LoadOk i v => match threads c !! i with
                  | Some (Loading k) => Some (publish i k v c)
                  | _ => None
                  end
  | LoadFail i e => match threads c !! i with
                    | Some (Loading k) => Some (abandon i k e c)
                    | _ => None
                    end
  end.

Fixpoint exec_all (evs : list event) (c : config) : option config :=
  match evs with
  | [] => Some c
  | ev :: evs' => c' ← exec ev c; exec_all evs' c'
  end.

Lemma exec_step ev c c' : exec ev c = Some c' -> step c c'.
Proof.
  destruct ev; simpl; repeat case_match; intros; simplify_eq;
    eauto using step_enter, step_resume, step_loaded, step_raised.
Qed.

Lemma exec_all_steps evs c c' : exec_all evs c = Some c' -> rtc step c c'.
Proof.
  revert c. induction evs as [|ev evs IH]; simpl; intros c Hc; [by simplify_eq|].
  apply bind_Some in Hc as (c1 & H1 & H2).
  eapply rtc_l; [by eapply exec_step|auto].
Qed.

(** ** The invariant *)

Record Inv (c : config) : Prop := {
  inv_claim : forall k, k ∈ inflight c <-> exists i, threads c !! i = Some (Loading k);
  inv_single : forall i j k,
    threads c !! i = Some (Loading k) -> threads c !! j = Some (Loading k) -> i = j;
  inv_sleep : forall i k, threads c !! i = Some (Sleeping k) -> k ∈ inflight c;
  inv_return : forall i k v, threads c !! i = Some (Returned k v) -> values c !! k = Some v;
  inv_fresh : forall k, k ∈ inflight c -> values c !! k = None;
  inv_log : forall k v, values c !! k = Some v <-> (k, v) ∈ log c;
  inv_once : NoDup (log c).*1
}.

Lemma notify_all_lookup ps i : notify_all ps !! i = notify <$> ps !! i.
Proof. apply list_lookup_fmap. Qed.

Lemma notify_loading p k : notify p = Loading k <-> p = Loading k.
Proof. by destruct p. Qed.

Lemma notify_not_sleeping p k : notify p <> Sleeping k.
Proof. by destruct p. Qed.

Lemma notify_returned p k v : notify p = Returned k v <-> p = Returned k v.
Proof. by destruct p. Qed.

Lemma Inv_init ks : Inv (init ks).
Proof.
  assert (forall i p, (Start <$> ks : list pc) !! i = Some p -> exists k, p = Start k) as Hs.
  { intros i p. rewrite list_lookup_fmap. destruct (ks !! i); naive_solver. }
  split; simpl.
  - intros k. split; [set_solver|]. intros [i Hi]. by apply Hs in Hi as [? ?].
  - intros i j k Hi. by apply Hs in Hi as [? ?].
  - intros i k Hi. by apply Hs in Hi as [? ?].
  - intros i k v Hi. by apply Hs in Hi as [? ?].
  - set_solver.
  - intros k v. rewrite lookup_empty, elem_of_nil. naive_solver.
  - constructor.
Qed.

Lemma upd_lookup (ps : list pc) i j p old :
  ps !! i = Some old -> <[i := p]> ps !! j = if decide (i = j) then Some p else ps !! j.
Proof.
  intros Hi. case_decide; subst.
  - apply list_lookup_insert_eq. by eapply lookup_lt_Some.
  - by apply list_lookup_insert_ne.
Qed.

(** A thread about to run [lookup_or_claim]. *)
Definition ready (p : pc) (k : K) : Prop := p = Start k \/ p = Woken k.

Lemma Inv_enter c i k p :
  threads c !! i = Some p -> ready p k -> Inv c -> Inv (enter i k c).
Proof.
  intros Hi Hp [I1 I2 I3 I4 I5 I6 I7]. unfold enter, lookup_or_claim, clone.
  assert (forall k', p <> Loading k') as HpL by (destruct Hp; naive_solver).
  destruct (values c !! k) as [v|] eqn:Hv; [|case_decide as Hk]; split; simpl; try done.
  - intros k'. rewrite I1. setoid_rewrite (upd_lookup _ i _ _ p Hi).
    split; intros [j Hj]; exists j; case_decide; naive_solver.
  - intros j1 j2 k'. rewrite !(upd_lookup _ i _ _ p Hi). repeat case_decide; naive_solver.
  - intros j k'. rewrite (upd_lookup _ i _ _ p Hi). case_decide; naive_solver.
  - intros j k' v'. rewrite (upd_lookup _ i _ _ p Hi). case_decide; naive_solver.
  - intros k'. rewrite I1. setoid_rewrite (upd_lookup _ i _ _ p Hi).
    split; intros [j Hj]; exists j; case_decide; naive_solver.
  - intros j1 j2 k'. rewrite !(upd_lookup _ i _ _ p Hi). repeat case_decide; naive_solver.
  - intros j k'. rewrite (upd_lookup _ i _ _ p Hi). case_decide; naive_solver.
  - intros j k' v'. rewrite (upd_lookup _ i _ _ p Hi). case_decide; naive_solver.
  - intros k'. setoid_rewrite (upd_lookup _ i _ _ p Hi). rewrite elem_of_union, elem_of_singleton, I1.
    split.
    + intros [->|[j Hj]]; [exists i; by rewrite decide_True|].
      exists j. case_decide; naive_solver.
    + intros [j Hj]. case_decide; naive_solver.
  - intros j1 j2 k'. rewrite !(upd_lookup _ i _ _ p Hi).
    repeat case_decide; intros; simplify_eq; try done; [..|eauto];
      exfalso; apply Hk, I1; eauto.
  - intros j k'. rewrite (upd_lookup _ i _ _ p Hi). case_decide; set_solver.
  - intros j k' v'. rewrite (upd_lookup _ i _ _ p Hi). case_decide; naive_solver.
  - intros k'. rewrite elem_of_union, elem_of_singleton. naive_solver.
Qed.

(** The claims left once the loader of [k] in thread [i] is over. *)
Lemma claims_after c i k k' p :
  Inv c -> threads c !! i = Some (Loading k) -> (forall k'', p <> Loading k'') ->
  k' ∈ inflight c ∖ {[k]} <->
  exists j, <[i := p]> (notify_all (threads c)) !! j = Some (Loading k').
Proof.
  intros [I1 I2 _ _ _ _ _] Hi Hp.
  assert (notify_all (threads c) !! i = Some (Loading k)) as Hi'
    by (rewrite notify_all_lookup, Hi; done).
  rewrite elem_of_difference, elem_of_singleton, I1.
  setoid_rewrite (upd_lookup _ i _ p _ Hi').
  split.
  - intros [[j Hj] Hne]. exists j. rewrite notify_all_lookup, decide_False, Hj; [done|].
    intros ->. congruence.
  - intros [j Hj]. rewrite notify_all_lookup in Hj. case_decide as Hij; [naive_solver|].
    apply fmap_Some in Hj as (q & Hq & Hn). symmetry in Hn. apply notify_loading in Hn as ->.
    split; [eauto|]. intros ->. eauto.
Qed.

(** What every way of ending a loader run has in common. *)
Lemma Inv_end c i k p vals lg :
  Inv c -> threads c !! i = Some (Loading k) ->
  (forall k', p <> Loading k') -> (forall k', p <> Sleeping k') ->
  (forall k' v', p = Returned k' v' -> vals !! k' = Some v') ->
  (forall k', k' <> k -> vals !! k' = values c !! k') ->
  (forall k' v', vals !! k' = Some v' <-> (k', v') ∈ lg) -> NoDup lg.*1 ->
  Inv (Config vals (inflight c ∖ {[k]}) (<[i := p]> (notify_all (threads c))) lg).
Proof.
  intros HI Hi Hp1 Hp2 Hp3 Hvals Hlg Hnd.
  pose proof (fun k' => claims_after c i k k' p HI Hi Hp1) as Hcl.
  destruct HI as [I1 I2 I3 I4 I5 I6 I7].
  assert (notify_all (threads c) !! i = Some (Loading k)) as Hi'
    by (rewrite notify_all_lookup, Hi; done).
  split; simpl; try done.
  - intros j1 j2 k'. rewrite !(upd_lookup _ i _ p _ Hi'), !notify_all_lookup.
    destruct (decide (i = j1)), (decide (i = j2)); [congruence| | |].
    { intros [= Hp]. by destruct (Hp1 k'). }
    { intros _ [= Hp]. by destruct (Hp1 k'). }
    intros (q1 & Hq1 & Hn1)%fmap_Some (q2 & Hq2 & Hn2)%fmap_Some.
    symmetry in Hn1, Hn2. apply notify_loading in Hn1 as ->. apply notify_loading in Hn2 as ->. eauto.
  - intros j k'. rewrite (upd_lookup _ i _ p _ Hi'), notify_all_lookup.
    case_decide; [intros [= Hp]; by destruct (Hp2 k')|].
    intros (q & _ & Hn)%fmap_Some. by destruct (notify_not_sleeping q k').
  - intros j k' v'. rewrite (upd_lookup _ i _ p _ Hi'), notify_all_lookup.
    case_decide; [intros [= Hp]; by apply Hp3|].
    intros (q & Hq & Hn)%fmap_Some. symmetry in Hn. apply notify_returned in Hn as ->.
    specialize (I4 _ _ _ Hq). destruct (decide (k' = k)) as [->|]; [|by rewrite Hvals].
    rewrite (I5 k) in I4; [done|]. apply I1. eauto.
  - intros k' [Hk' Hne]%elem_of_difference. rewrite Hvals by set_solver. auto.
Qed.

Lemma Inv_publish c i k v :
  threads c !! i = Some (Loading k) -> Inv c -> Inv (publish i k v c).
Proof.
  intros Hi HI. unfold publish, clone.
  assert (values c !! k = None) as Hnone.
  { destruct HI as [I1 _ _ _ I5 _ _]. apply I5, I1. eauto. }
  pose proof HI as [_ _ _ _ _ I6 I7].
  apply Inv_end; try done.
  - intros k' v' ?. simplify_eq. apply lookup_insert_eq.
  - intros k' Hne. by apply lookup_insert_ne.
  - intros k' v'. rewrite elem_of_app, list_elem_of_singleton, <- I6.
    destruct (decide (k' = k)) as [->|Hne].
    + rewrite lookup_insert_eq, Hnone. naive_solver.
    + rewrite lookup_insert_ne by done. naive_solver.
  - rewrite fmap_app. apply NoDup_app. split; [done|]. split; [|apply NoDup_singleton].
    intros k' ((k2 & v2) & -> & Hin)%list_elem_of_fmap. simpl.
    intros ->%list_elem_of_singleton. apply I6 in Hin. congruence.
Qed.

Lemma Inv_abandon c i k e :
  threads c !! i = Some (Loading k) -> Inv c -> Inv (abandon i k e c).
Proof.
  intros Hi HI. pose proof HI as [_ _ _ _ _ I6 I7]. by apply Inv_end.
Qed.

Lemma Inv_step c c' : step c c' -> Inv c -> Inv c'.
Proof.
  intros [? ? ? Hi|? ? ? Hi|? ? ? ? Hi|? ? ? ? Hi];
    [eapply Inv_enter; [exact Hi|by left] | eapply Inv_enter; [exact Hi|by right]
    | by apply Inv_publish | by apply Inv_abandon].
Qed.

Lemma Inv_reachable ks c : reachable ks c -> Inv c.
Proof.
  intros Hr. unfold reachable in Hr. revert Hr. apply rtc_ind_r; [apply Inv_init|].
  intros c1 c2 _ Hs HI. by eapply Inv_step.
Qed.

(** ** Termination *)

Definition unfinished_weight (p : pc) : nat := if finished p then 0 else 1.
Definition wait_weight (p : pc) : nat :=
  match p with Start _ | Woken _ => 2 | Sleeping _ | Loading _ => 1 | _ => 0 end.

(** Threads left, then how far each is from sleeping or loading: ending a loader
    may wake every sleeper, but it finishes a thread. *)
Definition measure (c : config) : nat :=
  sum_list_with unfinished_weight (threads c) * (2 * length (threads c) + 1)
  + sum_list_with wait_weight (threads c).

Lemma sum_list_insert (f : pc -> nat) ps i p old :
  ps !! i = Some old ->
  sum_list_with f (<[i := p]> ps) + f old = sum_list_with f ps + f p.
Proof.
  revert i. induction ps as [|q ps IH]; intros [|i] Hi; simplify_eq/=; [lia|].
  specialize (IH i Hi). lia.
Qed.

Lemma sum_wait_bound ps : sum_list_with wait_weight ps <= 2 * length ps.
Proof. induction ps as [|[] ps IH]; simpl; lia. Qed.

Lemma sum_unfinished_notify ps :
  sum_list_with unfinished_weight (notify_all ps) = sum_list_with unfinished_weight ps.
Proof.
  unfold notify_all. induction ps as [|p ps IH]; [done|]. csimpl. rewrite IH. by destruct p.
Qed.

Lemma notify_all_length ps : length (notify_all ps) = length ps.
Proof. apply length_fmap. Qed.

Lemma measure_enter c i k p :
  threads c !! i = Some p -> ready p k -> measure (enter i k c) < measure c.
Proof.
  intros Hi Hp. unfold enter, measure, lookup_or_claim.
  assert (unfinished_weight p = 1 /\ wait_weight p = 2) as [Hu Hw] by (by destruct Hp; subst).
  repeat case_match; simplify_eq; simpl; rewrite length_insert;
    match goal with |- context [<[i := ?q]> _] =>
      pose proof (sum_list_insert unfinished_weight _ i q _ Hi);
      pose proof (sum_list_insert wait_weight _ i q _ Hi) end;
    cbn [unfinished_weight finished wait_weight] in *; nia.
Qed.

Lemma measure_end c i k p vals infl lg :
  threads c !! i = Some (Loading k) -> finished p = true ->
  measure (Config vals infl (<[i := p]> (notify_all (threads c))) lg) < measure c.
Proof.
  intros Hi Hp. unfold measure. simpl.
  assert (notify_all (threads c) !! i = Some (Loading k)) as Hi'
    by (rewrite notify_all_lookup, Hi; done).
  pose proof (sum_list_insert unfinished_weight _ i p _ Hi') as Hs.
  pose proof (sum_wait_bound (<[i := p]> (notify_all (threads c)))) as Hb.
  rewrite sum_unfinished_notify in Hs.
  rewrite length_insert, notify_all_length in *.
  assert (unfinished_weight p = 0) as Hp0 by (unfold unfinished_weight; by rewrite Hp).
  rewrite Hp0 in Hs. change (unfinished_weight (Loading k)) with 1 in Hs. nia.
Qed.

Lemma measure_step c c' : step c c' -> measure c' < measure c.
Proof.
  intros [? ? ? Hi|? ? ? Hi|? ? ? ? Hi|? ? ? ? Hi];
    [eapply measure_enter; [exact Hi|by left] | eapply measure_enter; [exact Hi|by right]
    | by eapply measure_end | by eapply measure_end].
Qed.

(** ** Progress *)

Lemma progress c i p :
  Inv c -> threads c !! i = Some p -> finished p = false -> exists c', step c c'.
Proof.
  intros [I1 _ I3 _ _ _ _] Hi Hp.
  assert (forall j k, threads c !! j = Some (Loading k) -> exists c', step c c') as Hload
    by (intros j k Hj; eexists; by apply (step_raised c j k KeyboardInterrupt)).
  destruct p as [k|k|k|k|k v|k e]; try done.
  - eauto using step_enter.
  - apply I3, I1 in Hi as [j Hj]. eauto.
  - eauto using step_resume.
  - eauto.
Qed.

(** ** Properties *)

(** C4.  Single flight: in every reachable state at most one thread runs the
    loader of a key, and over the whole history every key is loaded
    successfully at most once, however the threads interleave and however
    often loaders fail. *)
Theorem single_flight ks c :
  reachable ks c ->
  (forall i j k, threads c !! i = Some (Loading k) -> threads c !! j = Some (Loading k) -> i = j)
  /\ NoDup (log c).*1.
Proof. intros [_ I2 _ _ _ _ I7]%Inv_reachable. eauto. Qed.

(** Agreement: two threads that return for the same key return the same
    value, and it is the value a loader published. *)
Theorem returns_agree ks c i j k v w :
  reachable ks c ->
  threads c !! i = Some (Returned k v) -> threads c !! j = Some (Returned k w) ->
  v = w /\ (k, v) ∈ log c.
Proof.
  intros [_ _ _ I4 _ I6 _]%Inv_reachable Hi Hj.
  apply I4 in Hi, Hj. split; [congruence|]. by apply I6.
Qed.

(** C22.  No deadlock and no lost wake-up: as long as a thread has not returned or
    raised, some thread can take a step. *)
Theorem no_deadlock ks c i p :
  reachable ks c -> threads c !! i = Some p -> finished p = false ->
  exists c', step c c'.
Proof. intros HI%Inv_reachable. by apply progress. Qed.

(** C23.  Termination: there is no infinite execution, and an execution that
    cannot go on has every [get_or_load] call returned or raised. *)
Theorem calls_terminate :
  well_founded (fun c' c => step c c') /\
  forall ks c, reachable ks c -> (forall c', ~ step c c') ->
    Forall (fun p => finished p = true) (threads c).
Proof.
  split.
  - apply (well_founded_lt_compat _ measure). intros c' c. apply measure_step.
  - intros ks c HI%Inv_reachable Hstuck. apply Forall_lookup. intros i p Hi.
    destruct (finished p) eqn:Hp; [done|].
    destruct (progress c i p HI Hi Hp) as [c' Hc']. by destruct (Hstuck c').
Qed.
End Cache.

Arguments pc : clear implicits.
Arguments config K {_ _} V.
Arguments event : clear implicits.

(** *** Concrete executions *)

(** Three threads, two asking for key 1: the first loader fails while the second
    thread waits, the second is woken and loads, the third uses its own key. *)
Definition failing_first : list (event nat) :=
  [Run 0; Run 1; Run 2; LoadOk 2 70; LoadFail 0 KeyboardInterrupt; Run 1; LoadOk 1 42].

Example failing_first_final :
  threads <$> exec_all failing_first (init [1; 1; 2])
  = Some [Failed 1 KeyboardInterrupt; Returned 1 42; Returned 2 70].
Proof. vm_compute. reflexivity. Qed.

Lemma single_flight_witness :
  exists c, exec_all [Run 0; Run 1; Run 2] (init (V := nat) [1; 1; 2]) = Some c /\
    threads c = [Loading 1; Sleeping 1; Loading 2] /\
    (forall i j k, threads c !! i = Some (Loading k) -> threads c !! j = Some (Loading k) -> i = j)
    /\ NoDup (log c).*1.
Proof.
  eexists. split; [vm_compute; reflexivity|]. split; [reflexivity|].
  apply (single_flight [1; 1; 2]).
  apply (exec_all_steps [Run 0; Run 1; Run 2]). vm_compute. reflexivity.
Defined.

Lemma returns_agree_witness :
  exists c, exec_all [Run 0; Run 1; LoadOk 0 42; Run 1] (init [1; 1]) = Some c /\
    42 = 42 /\ (1, 42) ∈ log c.
Proof.
  eexists. split; [vm_compute; reflexivity|].
  apply (returns_agree [1; 1] _ 0 1);
    [apply (exec_all_steps [Run 0; Run 1; LoadOk 0 42; Run 1]); vm_compute; reflexivity
    | reflexivity..].
Defined.

Lemma no_deadlock_witness :
  exists c, exec_all [Run 0; Run 1] (init (V := nat) [1; 1]) = Some c /\
    threads c !! 1 = Some (Sleeping 1) /\ exists c', step c c'.
Proof.
  eexists. split; [vm_compute; reflexivity|]. split; [reflexivity|].
  apply (no_deadlock [1; 1] _ 1 (Sleeping 1));
    [apply (exec_all_steps [Run 0; Run 1]); vm_compute; reflexivity | reflexivity..].
Defined.
End ResponseCache.
