(* ===== verification/Dispatch.v ===== *)
(** * Command registration and dispatch (RedfishManager)

    src/redfish_ctl/redfish_manager.py: [__init_subclass__], [get_registry],
    [_resolve_command], [_pop_connection_value], [invoke], [sync_invoke].
    Every command class registers itself under an [ApiRequestType] and a name;
    a vendor manager may shadow the registry with its own.  The body of a
    command ([execute]) is a parameter here. *)

From stdpp Require Import base list gmap strings.
From S2P Require Import Prelude PyVal Effects.

Module Dispatch.

(** A registry maps an [ApiRequestType] name to its commands by name; a
    command is given by its class name. *)
Abbreviation bucket := (gmap string string).
Abbreviation registry := (gmap string bucket).

(** A class as far as dispatch looks at it: its [__mro__] (itself first), its
    own [_registry] when its body declares one, and the manager class its
    commands compose with. *)
Record pyclass := Class {
  mro : list string;
  own_registry : option registry;
  dispatch_manager_class : option string
}.

(** All classes created so far. *)
Abbreviation classes := (gmap string pyclass).

(** The own registries along a class's MRO, most derived first. *)
Definition mro_registries (cs : classes) (cls : string) : list (option registry) :=
  match cs !! cls with
  | Some c => (fun n => cs !! n ≫= own_registry) <$> mro c
  | None => []
  end.

(** *** [get_registry] *)

(** [merged[scm_type].update(bucket)] for every bucket of a registry *)
Definition merge_registry (merged r : registry) : registry :=
  union_with (fun old new => Some (new ∪ old)) merged r.

Definition get_registry (mros : list (option registry)) : registry :=
  fold_left (fun merged r => match r with
                             | Some r => if decide (r = ∅) then merged else merge_registry merged r
                             | None => merged
                             end) (reverse mros) ∅.

(** *** [_resolve_command] *)

Fixpoint resolve_command (mros : list (option registry)) (api_call name : string) : res string :=
  match mros with
  | [] => Raise (UnsupportedAction ("Unknown " +:+ name +:+ " command."))
  | None :: rest => resolve_command rest api_call name
  | Some r :: rest =>
      match r !! api_call ≫= lookup name with
      | Some cmd => Ok cmd
      | None => resolve_command rest api_call name
      end
  end.

(** *** [__init_subclass__] *)

(** [cls._registry]: attribute lookup finds the first class of the MRO that
    declares one. *)
Fixpoint registry_owner (cs : classes) (names : list string) : option string :=
  match names with
  | [] => None
  | n :: rest =>
      match cs !! n ≫= own_registry with
      | Some _ => Some n
      | None => registry_owner cs rest
      end
  end.

Definition register_in (cs : classes) (owner scm_type name cmd : string) : classes :=
  alter (fun c => Class (mro c)
      ((fun r => <[scm_type := <[name := cmd]> (default ∅ (r !! scm_type))]> r) <$> own_registry c)
      (dispatch_manager_class c)) owner cs.

(** Create class [cls] with MRO [cls :: parents]; [body_registry] is the
    [_registry] its body declares, [scm_type]/[name] its registration keys. *)
Definition init_subclass (cs : classes) (cls : string) (parents : list string)
    (body_registry : option registry) (scm_type : option string) (name : string) : classes :=
  let mgr := match scm_type, body_registry with None, Some _ => Some cls | _, _ => None end in
  let cs := <[cls := Class (cls :: parents) body_registry mgr]> cs in
  match scm_type with
  | None => cs
  | Some t => match registry_owner cs (cls :: parents) with
              | Some owner => register_in cs owner t name cls
              | None => cs
              end
  end.

(** *** Connection arguments *)

(** [_pop_connection_value(kwargs, primary, internal)]: the value, and the
    keyword arguments that are left. *)
Definition pop_connection_value (kwargs : pydict) (primary internal : string)
  : res (pyval * pydict) :=
  match dict_get internal kwargs with
  | Some value =>
      let kwargs := dict_del internal kwargs in
      let cur := dget primary kwargs in
      if py_eqb cur value || is_none cur then Ok (value, dict_del primary kwargs)
      else Ok (value, kwargs)
  | None =>
      match dict_get primary kwargs with
      | Some value => Ok (value, dict_del primary kwargs)
      | None => Raise (KeyError primary)
      end
  end.

(** [kwargs.pop(k)] *)
Definition pop_required (k : string) (kwargs : pydict) : res (pyval * pydict) :=
  match dict_get k kwargs with
  | Some v => Ok (v, dict_del k kwargs)
  | None => Raise (KeyError k)
  end.

(** [kwargs.pop(k, default)] *)
Definition pop_default (k : string) (dflt : pyval) (kwargs : pydict) : pyval * pydict :=
  (dict_get_or k dflt kwargs, dict_del k kwargs).

(** What the command object is built from. *)
Record connection := Conn {
  c_host : pyval;
  c_username : pyval;
  c_password : pyval;
  c_port : pyval;
  c_insecure : pyval;
  c_is_http : pyval;
  c_query : pyval;
  c_one_param : pyval
}.

(** The argument handling of [invoke]: the connection, the response cache to
    bind, and the keyword arguments handed to [execute]. *)
Definition split_kwargs (kwargs : pydict) : res (connection * pyval * pydict) :=
  res_bind (pop_connection_value kwargs "host" "_redfish_host") (fun '(host, kwargs) =>
  res_bind (pop_connection_value kwargs "username" "_redfish_username") (fun '(user, kwargs) =>
  res_bind (pop_connection_value kwargs "password" "_redfish_password") (fun '(pwd, kwargs) =>
  res_bind (pop_connection_value kwargs "port" "_redfish_port") (fun '(port, kwargs) =>
  res_bind (pop_required "insecure" kwargs) (fun '(insecure, kwargs) =>
  res_bind (pop_required "is_http" kwargs) (fun '(is_http, kwargs) =>
  let '(query, kwargs) := pop_default "redfish_query" PNone kwargs in
  let '(one, kwargs) := pop_default "redfish_query_one_param_per_uri" (PBool false) kwargs in
  let '(cache, kwargs) := pop_default "redfish_cache" PNone kwargs in
  Ok (Conn host user pwd port insecure is_http query one, cache, kwargs))))))).

(** A manager instance as [sync_invoke] reads it; [redfish_ip] is the
    [redfish_ip] property. *)
Record instance := Inst {
  i_class : string;
  redfish_ip : string;
  username : string;
  password : string;
  port : pyval;
  is_verify_cert : bool;
  is_http : bool
}.

Definition connection_kwargs (i : instance) : pydict :=
  [("_redfish_host", PStr (redfish_ip i));
   ("_redfish_username", PStr (username i));
   ("_redfish_password", PStr (password i));
   ("_redfish_port", port i);
   ("insecure", PBool (negb (is_verify_cert i)));
   ("is_http", PBool (is_http i))].

Section Invoke.
Context {S : Type}.

(** The command bodies, and what binds a response cache around a call. *)
Variable execute : string -> connection -> pydict -> M S CommandResult.
Variable cache_scope : pyval -> M S CommandResult -> M S CommandResult.
(** The response cache bound in the caller's context, [PNone] when there is none. *)
Variable active_cache : S -> pyval.

Definition invoke (cs : classes) (cls api_call name : string) (kwargs : pydict)
  : M S CommandResult :=
  bind (lift_res (resolve_command (mro_registries cs cls) api_call name)) (fun cmd =>
  bind (lift_res (split_kwargs kwargs)) (fun '(conn, cache, kwargs) =>
  if is_none cache then execute cmd conn kwargs
  else cache_scope cache (execute cmd conn kwargs))).

Definition sync_invoke (cs : classes) (i : instance) (api_call name : string) (kwargs : pydict)
  : M S CommandResult :=
  let kwargs := dict_del "_trace_operation_span" kwargs in
  if negb (PyStr.nonempty (username i)) then raise (ValueError "Username is empty string.")
  else if negb (PyStr.nonempty (password i)) then raise (ValueError "Password is empty string.")
  else if negb (PyStr.nonempty (redfish_ip i)) then
    raise (ValueError "Redfish host is empty string.")
  else
    let kwargs := dict_update kwargs (connection_kwargs i) in
    bind (gets active_cache) (fun cache =>
    let kwargs := if dict_in "redfish_cache" kwargs then kwargs
                  else if is_none cache then kwargs
                  else dict_set "redfish_cache" cache kwargs in
    invoke cs (i_class i) api_call name kwargs).
End Invoke.

(** ** Lemmas *)

Lemma get_registry_cons r mros :
  get_registry (r :: mros) =
  match r with
  | Some r => if decide (r = ∅) then get_registry mros else merge_registry (get_registry mros) r
  | None => get_registry mros
  end.
Proof.
  unfold get_registry. rewrite reverse_cons, fold_left_app. simpl. by destruct r.
Qed.

Lemma merge_registry_lookup m r api name :
  merge_registry m r !! api ≫= lookup name
  = match r !! api ≫= lookup name with
    | Some c => Some c
    | None => m !! api ≫= lookup name
    end.
Proof.
  unfold merge_registry. rewrite lookup_union_with.
  destruct (m !! api) as [b|] eqn:Hm, (r !! api) as [b'|] eqn:Hr; simpl; try done.
  - rewrite lookup_union. destruct (b' !! name) eqn:Hb'; simpl; [|by destruct (b !! name)].
    by destruct (b !! name).
  - by destruct (b' !! name).
Qed.

Lemma dict_get_del k k' (d : pydict) :
  dict_get k (dict_del k' d) = if decide (k = k') then None else dict_get k d.
Proof. case_decide; subst; [apply dict_get_del_eq|by apply dict_get_del_ne]. Qed.

(** What is left of a command's own argument that shares its name with a
    connection argument: it is dropped when it repeats the connection value or
    is [None]. *)
Definition local_arg (own : option pyval) (conn : pyval) : option pyval :=
  match own with
  | Some x => if py_eqb x conn || is_none x then None else Some x
  | None => None
  end.

Lemma pop_internal kwargs primary internal v :
  primary <> internal -> dict_get internal kwargs = Some v ->
  exists left, pop_connection_value kwargs primary internal = Ok (v, left) /\
    forall k, dict_get k left =
      if decide (k = internal) then None
      else if decide (k = primary) then local_arg (dict_get primary kwargs) v
      else dict_get k kwargs.
Proof.
  intros Hne Hv. unfold pop_connection_value. rewrite Hv.
  unfold dget, dict_get_or. rewrite dict_get_del_ne by done.
  destruct (dict_get primary kwargs) as [x|] eqn:Hx; simpl.
  - destruct (py_eqb x v || is_none x) eqn:Hd; eexists; (split; [reflexivity|]); intros k;
      rewrite ?dict_get_del; repeat case_decide; subst; simpl; rewrite ?Hd; congruence.
  - rewrite orb_true_r. eexists; split; [reflexivity|]. intros k.
    rewrite !dict_get_del. repeat case_decide; subst; simpl; congruence.
Qed.

Lemma pop_required_spec k kwargs v :
  dict_get k kwargs = Some v ->
  pop_required k kwargs = Ok (v, dict_del k kwargs).
Proof. intros Hk. unfold pop_required. by rewrite Hk. Qed.

(** The keys [invoke] consumes; [execute] never sees them. *)
Definition reserved_keys : list string :=
  ["_redfish_host"; "_redfish_username"; "_redfish_password"; "_redfish_port";
   "insecure"; "is_http"; "redfish_query"; "redfish_query_one_param_per_uri"; "redfish_cache"].

(** The arguments [execute] receives, as a function of those [sync_invoke] got. *)
Definition passed_arg (i : instance) (kwargs : pydict) (k : string) : option pyval :=
  if decide (k ∈ reserved_keys) then None
  else if decide (k = "host") then local_arg (dict_get k kwargs) (PStr (redfish_ip i))
  else if decide (k = "username") then local_arg (dict_get k kwargs) (PStr (username i))
  else if decide (k = "password") then local_arg (dict_get k kwargs) (PStr (password i))
  else if decide (k = "port") then local_arg (dict_get k kwargs) (port i)
  else dict_get k kwargs.

Lemma connection_kwargs_get i kwargs k :
  dict_get k (dict_update kwargs (connection_kwargs i)) =
  match dict_get k (connection_kwargs i) with Some v => Some v | None => dict_get k kwargs end.
Proof.
  apply dict_get_update. unfold connection_kwargs. simpl.
  apply (bool_decide_unpack _). vm_compute. exact I.
Qed.

(** Decide the equalities between string literals. *)
Ltac lits := repeat first
  [ rewrite decide_False by (intros ?; discriminate) | rewrite decide_True by reflexivity ].

(** The rest of the argument handling once the four connection values are out. *)
Definition split_rest (h u p t : pyval) (kwargs : pydict) : res (connection * pyval * pydict) :=
  res_bind (pop_required "insecure" kwargs) (fun '(insecure, kwargs) =>
  res_bind (pop_required "is_http" kwargs) (fun '(is_http, kwargs) =>
  let '(query, kwargs) := pop_default "redfish_query" PNone kwargs in
  let '(one, kwargs) := pop_default "redfish_query_one_param_per_uri" (PBool false) kwargs in
  let '(cache, kwargs) := pop_default "redfish_cache" PNone kwargs in
  Ok (Conn h u p t insecure is_http query one, cache, kwargs))).

Definition internal_keys : list string :=
  ["_redfish_host"; "_redfish_username"; "_redfish_password"; "_redfish_port"].

Lemma connection_pops kw h u p t :
  dict_get "_redfish_host" kw = Some h -> dict_get "_redfish_username" kw = Some u ->
  dict_get "_redfish_password" kw = Some p -> dict_get "_redfish_port" kw = Some t ->
  exists l, split_kwargs kw = split_rest h u p t l /\
    forall k, dict_get k l =
      if decide (k ∈ internal_keys) then None
      else if decide (k = "host") then local_arg (dict_get k kw) h
      else if decide (k = "username") then local_arg (dict_get k kw) u
      else if decide (k = "password") then local_arg (dict_get k kw) p
      else if decide (k = "port") then local_arg (dict_get k kw) t
      else dict_get k kw.
Proof.
  intros Hh Hu Hp Ht. unfold split_kwargs.
  destruct (pop_internal kw "host" "_redfish_host" h) as (l1 & -> & H1); [done..|]. cbn [res_bind].
  destruct (pop_internal l1 "username" "_redfish_username" u) as (l2 & -> & H2);
    [done|by rewrite H1; lits|]. cbn [res_bind].
  destruct (pop_internal l2 "password" "_redfish_password" p) as (l3 & -> & H3);
    [done|by rewrite H2; lits; rewrite H1; lits|]. cbn [res_bind].
  destruct (pop_internal l3 "port" "_redfish_port" t) as (l4 & -> & H4);
    [done|by rewrite H3; lits; rewrite H2; lits; rewrite H1; lits|]. cbn [res_bind].
  exists l4. split; [reflexivity|]. intros k.
  destruct (decide (k ∈ internal_keys)) as [Hk|Hk].
  - unfold internal_keys in Hk. rewrite !elem_of_cons, elem_of_nil in Hk.
    destruct Hk as [->|[->|[->|[->|[]]]]]; rewrite H4; lits; try done;
      rewrite H3; lits; try done; rewrite H2; lits; try done; by rewrite H1; lits.
  - unfold internal_keys in Hk. rewrite !not_elem_of_cons in Hk. destruct Hk as (?&?&?&?&?).
    destruct (decide (k = "host")) as [->|]; [by repeat (rewrite ?H4, ?H3, ?H2, ?H1; lits)|].
    destruct (decide (k = "username")) as [->|]; [by repeat (rewrite ?H4, ?H3, ?H2, ?H1; lits)|].
    destruct (decide (k = "password")) as [->|]; [by repeat (rewrite ?H4, ?H3, ?H2, ?H1; lits)|].
    destruct (decide (k = "port")) as [->|]; [by repeat (rewrite ?H4, ?H3, ?H2, ?H1; lits)|].
    by rewrite H4, !decide_False, H3, !decide_False, H2, !decide_False, H1, !decide_False.
Qed.

(** [kw] is [kwargs] with the connection arguments of [i] on top. *)
Definition injected (i : instance) (kwargs kw : pydict) : Prop :=
  forall k, dict_get k kw =
    match dict_get k (connection_kwargs i) with
    | Some v => Some v
    | None => dict_get k kwargs
    end.

Lemma split_injected i kwargs kw :
  injected i kwargs kw ->
  exists left,
    split_kwargs kw =
      Ok (Conn (PStr (redfish_ip i)) (PStr (username i)) (PStr (password i)) (port i)
            (PBool (negb (is_verify_cert i))) (PBool (is_http i))
            (dget "redfish_query" kwargs)
            (dict_get_or "redfish_query_one_param_per_uri" (PBool false) kwargs),
          dget "redfish_cache" kwargs, left) /\
    forall k, dict_get k left = passed_arg i kwargs k.
Proof.
  intros Hkw. destruct (connection_pops kw (PStr (redfish_ip i)) (PStr (username i)) (PStr (password i)) (port i)) as (l & -> & Hl);
    [by rewrite Hkw..|].
  unfold split_rest.
  rewrite (pop_required_spec "insecure" l (PBool (negb (is_verify_cert i))))
    by (rewrite Hl; lits; by rewrite Hkw). cbn [res_bind].
  rewrite (pop_required_spec "is_http" _ (PBool (is_http i)))
    by (rewrite dict_get_del_ne, Hl by done; lits; by rewrite Hkw).
  cbn [res_bind]. unfold pop_default. eexists. split.
  - unfold dget, dict_get_or. rewrite !dict_get_del_ne, !Hl by done. lits.
    rewrite !Hkw. reflexivity.
  - intros k. unfold passed_arg.
    destruct (decide (k ∈ reserved_keys)) as [Hk|Hk].
    + unfold reserved_keys in Hk. rewrite !elem_of_cons, elem_of_nil in Hk.
      by destruct Hk as [->|[->|[->|[->|[->|[->|[->|[->|[->|[]]]]]]]]]];
        rewrite !dict_get_del; lits; rewrite ?Hl; lits.
    + assert (k ∉ internal_keys) as Hk' by (intros Hin; apply Hk; by apply (elem_of_app internal_keys); left).
      unfold reserved_keys in Hk. rewrite !not_elem_of_cons in Hk.
      destruct Hk as (?&?&?&?&?&?&?&?&?&?).
      rewrite !dict_get_del_ne, Hl, decide_False, Hkw by done.
      assert (dict_get k (connection_kwargs i) = None) as ->; [|done].
      apply dict_get_None. unfold connection_kwargs. simpl. by rewrite !not_elem_of_cons.
Qed.

Lemma injected_update i kwargs : injected i kwargs (dict_update kwargs (connection_kwargs i)).
Proof. intros k. apply connection_kwargs_get. Qed.

Lemma injected_cache i kwargs kw c :
  injected i kwargs kw ->
  injected i (dict_set "redfish_cache" c kwargs) (dict_set "redfish_cache" c kw).
Proof. intros Hkw k. rewrite !dict_get_set. case_decide; [by subst|apply Hkw]. Qed.

(** *** Registration *)

(** The registry of class [n] once [cls] is registered with [owner]. *)
Definition registered_view (cs : classes) (owner t name cls n : string) : option registry :=
  (fun r => if decide (n = owner)
            then <[t := <[name := cls]> (default ∅ (r !! t))]> r else r)
    <$> (cs !! n ≫= own_registry).

Lemma own_registry_register (cs : classes) cls parents owner t name n :
  registry_owner cs parents = Some owner -> cs !! cls = None -> n <> cls ->
  init_subclass cs cls parents None (Some t) name !! n ≫= own_registry =
  registered_view cs owner t name cls n.
Proof.
  intros Ho Hf Hn. unfold registered_view, init_subclass. simpl. rewrite lookup_insert_eq. simpl.
  assert (forall l, registry_owner cs l = Some owner ->
    registry_owner (<[cls := Class (cls :: parents) None None]> cs) l = Some owner) as Hown.
  { induction l as [|x l IH]; simpl; [done|]. rewrite lookup_insert. case_decide; subst.
    - simpl. rewrite Hf. simpl. done.
    - destruct (cs !! x ≫= own_registry); [done|]. auto. }
  rewrite (Hown parents) by done. unfold register_in. rewrite lookup_alter.
  repeat case_decide; subst; try congruence; rewrite lookup_insert_ne by done;
    destruct (cs !! n) as [c|]; simpl; try done; by destruct (own_registry c).
Qed.

Lemma mro_registries_register (cs : classes) cls parents owner t name m c :
  registry_owner cs parents = Some owner -> cs !! cls = None ->
  cs !! m = Some c -> cls ∉ mro c ->
  mro_registries (init_subclass cs cls parents None (Some t) name) m =
  registered_view cs owner t name cls <$> mro c.
Proof.
  intros Ho Hf Hm Hni. unfold mro_registries.
  assert (m <> cls) as Hne by (intros ->; congruence).
  assert (exists c', init_subclass cs cls parents None (Some t) name !! m = Some c' /\ mro c' = mro c)
    as (c' & -> & ->).
  { unfold init_subclass. simpl. case_match; unfold register_in;
      rewrite ?lookup_alter; repeat case_decide; subst; rewrite lookup_insert_ne, Hm by done;
      simpl; eauto. }
  apply list_fmap_ext. intros j n Hj. apply own_registry_register; [done..|].
  intros ->. apply Hni. by eapply list_elem_of_lookup_2.
Qed.

Lemma resolve_registered (cs : classes) owner t name cls l :
  registry_owner cs l = Some owner ->
  resolve_command (registered_view cs owner t name cls <$> l) t name = Ok cls.
Proof.
  unfold registered_view.
  induction l as [|n l IH]; simpl; [done|].
  destruct (cs !! n ≫= own_registry) as [r|] eqn:Hn; simpl.
  - intros [= <-]. rewrite decide_True by done. by rewrite lookup_insert_eq; simpl; rewrite lookup_insert_eq.
  - auto.
Qed.

Lemma resolve_other (cs : classes) owner t name cls t' name' l :
  (t', name') <> (t, name) ->
  resolve_command (registered_view cs owner t name cls <$> l) t' name'
  = resolve_command ((fun n => cs !! n ≫= own_registry) <$> l) t' name'.
Proof.
  intros Hne. unfold registered_view. induction l as [|n l IH]; [done|]. csimpl.
  destruct (cs !! n ≫= own_registry) as [r|]; csimpl; [|done].
  rewrite IH. case_decide; [|done]. f_equal.
  rewrite lookup_insert. case_decide; [subst|done]. simpl.
  rewrite lookup_insert_ne by congruence. by destruct (r !! t').
Qed.

(** ** Properties *)

(** [_resolve_command], which walks the MRO at call time, and
    [get_registry], which merges the registries base-first for listing, agree:
    a command is invokable through a class exactly when the merged registry
    shows it, and it is the same command, so a vendor override wins and the
    neutral base stays the fallback. *)
Theorem resolve_matches_registry mros api_call name :
  resolve_command mros api_call name =
  match get_registry mros !! api_call ≫= lookup name with
  | Some cmd => Ok cmd
  | None => Raise (UnsupportedAction ("Unknown " +:+ name +:+ " command."))
  end.
Proof.
  induction mros as [|[r|] mros IH]; [done|..]; rewrite get_registry_cons; simpl; [|done].
  case_decide; subst.
  - rewrite lookup_empty. simpl. exact IH.
  - rewrite merge_registry_lookup. by destruct (r !! api_call ≫= lookup name).
Qed.

(** Registering a command class makes it resolvable, under its keys, through
    every existing class whose nearest registry is the one it registered in,
    and changes the resolution of no other command for any existing class. *)
Theorem register_then_resolve (cs : classes) cls parents owner t name m c :
  registry_owner cs parents = Some owner -> cs !! cls = None ->
  cs !! m = Some c -> cls ∉ mro c ->
  let cs' := init_subclass cs cls parents None (Some t) name in
  (registry_owner cs (mro c) = Some owner ->
   resolve_command (mro_registries cs' m) t name = Ok cls) /\
  (forall t' name', (t', name') <> (t, name) ->
   resolve_command (mro_registries cs' m) t' name'
   = resolve_command (mro_registries cs m) t' name').
Proof.
  intros Ho Hf Hm Hni. cbv zeta.
  rewrite (mro_registries_register cs cls parents owner t name m c) by done. split.
  - apply resolve_registered.
  - intros t' name' Hne. rewrite resolve_other by done. unfold mro_registries. by rewrite Hm.
Qed.

(** A base manager, a vendor that shadows its registry, and a command of the base. *)
Definition sample_classes : classes :=
  init_subclass
    (init_subclass ∅ "RedfishManager" [] (Some ∅) None "")
    "IDracManager" ["RedfishManager"] (Some ∅) None "".

Lemma register_then_resolve_witness :
  let cs' := init_subclass sample_classes "Reboot" ["RedfishManager"] None
               (Some "ComputerSystemReset") "reboot" in
  (registry_owner sample_classes ["RedfishManager"] = Some "RedfishManager" ->
   resolve_command (mro_registries cs' "RedfishManager") "ComputerSystemReset" "reboot" = Ok "Reboot") /\
  (forall t' name', (t', name') <> ("ComputerSystemReset", "reboot") ->
   resolve_command (mro_registries cs' "RedfishManager") t' name'
   = resolve_command (mro_registries sample_classes "RedfishManager") t' name').
Proof.
  apply (register_then_resolve sample_classes "Reboot" ["RedfishManager"] "RedfishManager"
           "ComputerSystemReset" "reboot" "RedfishManager"
           (Class ["RedfishManager"] (Some ∅) (Some "RedfishManager")));
    [vm_compute; reflexivity .. | apply (bool_decide_unpack _); vm_compute; exact I].
Defined.

(** [sync_invoke] hands the resolved command the manager's own connection
    and, of the caller's keyword arguments, exactly those that are not
    dispatch keys; a command's own [host], [username], [password] or [port]
    argument survives unless it repeats the connection value or is [None]. *)
Theorem sync_invoke_passes {S} execute cache_scope (active_cache : S -> pyval)
    cs i api_call name kwargs s cmd :
  PyStr.nonempty (username i) = true -> PyStr.nonempty (password i) = true ->
  PyStr.nonempty (redfish_ip i) = true ->
  resolve_command (mro_registries cs (i_class i)) api_call name = Ok cmd ->
  exists conn cache left,
    sync_invoke execute cache_scope active_cache cs i api_call name kwargs s =
      (if is_none cache then execute cmd conn left
       else cache_scope cache (execute cmd conn left)) s /\
    c_host conn = PStr (redfish_ip i) /\ c_username conn = PStr (username i) /\
    c_password conn = PStr (password i) /\ c_port conn = port i /\
    cache = (if dict_in "redfish_cache" kwargs then dget "redfish_cache" kwargs
             else active_cache s) /\
    forall k, dict_get k left = passed_arg i (dict_del "_trace_operation_span" kwargs) k.
Proof.
  intros Hu Hp Hh Hc. unfold sync_invoke. rewrite Hu, Hp, Hh. cbn [negb]. cbv zeta.
  set (kw0 := dict_del "_trace_operation_span" kwargs).
  assert (dict_get "redfish_cache" kw0 = dict_get "redfish_cache" kwargs) as Hk0
    by (by apply dict_get_del_ne).
  pose proof (injected_update i kw0) as Hinj.
  set (kw := dict_update kw0 (connection_kwargs i)) in *.
  assert (dict_in "redfish_cache" kw = dict_in "redfish_cache" kwargs) as Hin
    by (unfold dict_in; rewrite Hinj; simpl; by rewrite Hk0).
  unfold bind at 1, gets. cbv beta iota. rewrite Hin. unfold invoke, bind, lift_res. rewrite Hc.
  destruct (dict_in "redfish_cache" kwargs) eqn:Hd;
    [|destruct (is_none (active_cache s)) eqn:Hn].
  - destruct (split_injected _ _ _ Hinj) as (left & -> & Hl). do 3 eexists.
    split; [reflexivity|]. repeat split; try done.
    unfold dget, dict_get_or. by rewrite Hk0.
  - destruct (split_injected _ _ _ Hinj) as (left & -> & Hl). do 3 eexists.
    split; [reflexivity|]. repeat split; try done.
    unfold dget, dict_get_or. rewrite Hk0. unfold dict_in in Hd.
    destruct (dict_get "redfish_cache" kwargs); [done|]. by destruct (active_cache s).
  - apply (injected_cache _ _ _ (active_cache s)) in Hinj.
    destruct (split_injected _ _ _ Hinj) as (left & -> & Hl). do 3 eexists.
    split; [reflexivity|]. repeat split; try done.
    + unfold dget, dict_get_or. by rewrite dict_get_set_eq.
    + intros k. rewrite Hl. unfold passed_arg. case_decide as Hk; [done|].
      assert (k <> "redfish_cache") by (intros ->; apply Hk; by apply (bool_decide_unpack _)).
      rewrite !dict_get_set_ne by done. done.
Qed.

Definition sample_instance : instance :=
  Inst "RedfishManager" "10.0.0.42" "root" "secret" (PInt 443) false false.

(** A command that reports the arguments it received. *)
Definition echo (cmd : string) (conn : connection) (kwargs : pydict) : M unit CommandResult :=
  ret (mkResult (PDict kwargs) PNone PNone PNone).

Lemma sync_invoke_passes_witness :
  exists left,
    sync_invoke echo (fun _ m => m) (fun _ => PNone)
      (init_subclass sample_classes "Reboot" ["RedfishManager"] None
         (Some "ComputerSystemReset") "reboot")
      sample_instance "ComputerSystemReset" "reboot"
      [("port", PInt 8443); ("host", PNone); ("reset_type", PStr "On")] tt
    = (tt, Ok (mkResult (PDict left) PNone PNone PNone)) /\
    dict_get "port" left = Some (PInt 8443) /\ dict_get "host" left = None /\
    dict_get "reset_type" left = Some (PStr "On") /\ dict_get "_redfish_host" left = None.
Proof.
  destruct (sync_invoke_passes echo (fun _ m => m) (fun _ => PNone)
      (init_subclass sample_classes "Reboot" ["RedfishManager"] None
         (Some "ComputerSystemReset") "reboot")
      sample_instance "ComputerSystemReset" "reboot"
      [("port", PInt 8443); ("host", PNone); ("reset_type", PStr "On")] tt "Reboot")
    as (conn & cache & left & Heq & _ & _ & _ & _ & Hc & Hl); [vm_compute; reflexivity..|].
  exists left. rewrite !Hl. split; [|vm_compute; auto].
  rewrite Heq. destruct (is_none cache); reflexivity.
Defined.
End Dispatch.
