(* ===== verification/Http.v ===== *)
(** * Responses, errors and their classification

    The HTTP response as the code reads it, and the error contract of
    src/redfish_ctl/redfish_manager.py: [_redfish_error_from_payload],
    [parse_error], [parse_json_respond_msg], [default_error_handler],
    [redfish_error_handlers], [task_id_from_header], [api_success_msg].
    [RedfishError] objects are the [PErr] values of [PyVal]. *)

From stdpp Require Import base list strings pretty.
From Stdlib Require Import Ascii ZArith Lia.
From S2P Require Import Prelude PyVal Effects.

Module Http.
Local Open Scope Z_scope.

(** [requests.models.Response]: status, headers, and the body as [.json()]
    sees it (the parsed document, or the decoder's message). *)
Record response := Response {
  status_code : Z;
  headers : list (string * string);
  body : pyval + string
}.

(** [response.json()] *)
Definition json (r : response) : res pyval :=
  match body r with
  | inl v => Ok v
  | inr m => Raise (JSONDecodeError m)
  end.

(** [response.headers.get(k)]; header names are case-insensitive *)
Fixpoint header_get (k : string) (hs : list (string * string)) : option string :=
  match hs with
  | [] => None
  | (k', v) :: hs' =>
      if decide (PyStr.lower k = PyStr.lower k') then Some v else header_get k hs'
  end.

(** [RedfishApiRespond] *)
Inductive api_respond := RespOk | RespError | RespCreated | RespSuccess | RespAccepted.

#[export] Instance api_respond_eq_dec : EqDecision api_respond.
Proof. solve_decision. Defined.

(** [str(api_respond)] *)
Definition api_respond_str (a : api_respond) : string :=
  match a with
  | RespOk => "RedfishApiRespond.Ok"
  | RespError => "RedfishApiRespond.Error"
  | RespCreated => "RedfishApiRespond.Created"
  | RespSuccess => "RedfishApiRespond.Success"
  | RespAccepted => "RedfishApiRespond.AcceptedTaskGenerated"
  end.

(** [api_success_msg(api_respond, message_key, message)] *)
Definition api_success_msg (a : api_respond) (message_key : string) (message : pyval) : pydict :=
  let status := match a with
                | RespOk => "ok"
                | RespError => "error"
                | RespCreated => "created"
                | RespSuccess => "success"
                | RespAccepted => "accepted"
                end in
  let result := [("Status", PStr status)] in
  if is_none message then result else dict_set message_key message result.

(** [isinstance(m, dict)] rows of a list *)
Definition dict_rows (l : list pyval) : list pyval := filter (fun m => is_dict m = true) l.

(** [_redfish_error_from_payload(status_code, payload)] *)
Definition redfish_error_from_payload (status : Z) (payload : pyval) : pyval :=
  match payload with
  | PDict d =>
      let code := dict_get_or "code" (PStr "") d in
      let message := dict_get_or "message" (dict_get_or "Message" (PStr "") d) d in
      let ext := match dget "@Message.ExtendedInfo" d with
                 | PList l => dict_rows l
                 | _ => []
                 end in
      PErr status (py_str (py_or code (PStr ""))) (py_str (py_or message (PStr ""))) ext ""
  | PNone => PErr status "" "" [] ""
  | v => PErr status "" (py_str v) [] ""
  end.

(** [parse_error(error_response)] *)
Definition parse_error (r : response) : pyval :=
  match json r with
  | Ok (PDict d) =>
      match dget "error" d with
      | PDict e => redfish_error_from_payload (status_code r) (PDict e)
      | PNone => redfish_error_from_payload (status_code r) (PDict d)
      | v => redfish_error_from_payload (status_code r) (PDict [("message", v)])
      end
  | Ok v => redfish_error_from_payload (status_code r) v
  | Raise e => PErr (status_code r) "" "root" [] (exn_str e)
  | NoFuel => PErr (status_code r) "" "root" [] ""
  end.

(** [default_error_handler(response)] *)
Definition default_error_handler (r : response) : res api_respond :=
  let code := status_code r in
  if code =? 200 then Ok RespOk
  else if code =? 202 then Ok RespAccepted
  else if code =? 204 then Ok RespSuccess
  else if (200 <=? code) && (code <? 300) then Ok RespSuccess
  else if code =? 401 then Raise (RedfishUnauthorized (parse_error r))
  else if code =? 403 then Raise (RedfishForbidden (parse_error r))
  else Raise (ResourceNotFound (parse_error r)).

(** [redfish_error_handlers(status_code)]: no exception when none matches *)
Definition redfish_error_handlers (code : Z) : res unit :=
  if code =? 401 then Raise (AuthenticationFailed (PStr "Authentication failed."))
  else if code =? 403 then Raise (RedfishForbidden (PStr "Authentication failed."))
  else if code =? 405 then
    Raise (RedfishMethodNotAllowed "DELETE, GET, HEAD, POST, PUT, or PATCH , is not supported.")
  else if code =? 406 then Raise (RedfishNotAcceptable "Server rejected error code 406.")
  else if code =? 409 then
    Raise (RedfishNotAcceptable ("Creation or update request could not be completed "
      +:+ "because it would cause a conflict in the current state of the resources."))
  else Ok tt.

(** The object [parse_json_respond_msg] returns, as far as it fills it. *)
Record respond_message := RespondMessage {
  rm_status : Z;
  rm_extended : list pyval
}.

(** The items [for m in v] visits; [None] is [TypeError]. *)
Definition py_iter (v : pyval) : option (list pyval) :=
  match v with
  | PList l | PTuple l => Some l
  | PDict d => Some (map PStr (dict_keys d))
  | PStr s => Some (map PStr (chars_of s))
  | _ => None
  end.

(** [k in v]; [None] is [TypeError] *)
Definition py_in (k : string) (v : pyval) : option bool :=
  match v with
  | PDict d => Some (dict_in k d)
  | PList l | PTuple l => Some (py_mem (PStr k) l)
  | PStr s => Some (PyStr.contains k s)
  | _ => None
  end.

(** [parse_json_respond_msg(resp)]: decoding and type errors leave the message
    list empty *)
Definition parse_json_respond_msg (r : response) : respond_message :=
  let ext :=
    match json r with
    | Ok v =>
        match py_in "@Message.ExtendedInfo" v with
        | Some true =>
            match v with
            | PDict d => default [] (py_iter (dget "@Message.ExtendedInfo" d))
            | _ => []
            end
        | _ => []
        end
    | _ => []
    end in
  RespondMessage (status_code r) ext.

(** [task_id_from_header(response, strict)] *)
Definition task_id_from_header (r : response) (strict : bool) : res string :=
  match header_get "Location" (headers r) with
  | None =>
      if strict then
        Raise (TaskIdUnavailable ("There is no location in the response header. "
                                  +:+ "(not all api create job id)"))
      else Ok ""
  | Some location => Ok (PyStr.last_or "" (PyStr.split "/"%char location))
  end.

(** [_redact_sensitive_payload(payload)] *)
Definition redact_sensitive_payload (payload : pyval) : pyval :=
  match payload with
  | PDict d => PDict (map (fun kv => (kv.1,
      if PyStr.contains "password" (PyStr.lower kv.1) then PStr "***" else kv.2)) d)
  | v => v
  end.

(** ** Lemmas *)

(** An error handed to a caller is always a [RedfishError] that keeps the
    response's status. *)
Lemma parse_error_is_err r :
  exists code msg ext exc, parse_error r = PErr (status_code r) code msg ext exc.
Proof.
  unfold parse_error.
  assert (forall v, exists code msg ext exc,
    redfish_error_from_payload (status_code r) v = PErr (status_code r) code msg ext exc) as He.
  { intros v. unfold redfish_error_from_payload. destruct v; eauto. }
  destruct (json r) as [v|e|]; eauto.
  destruct v; eauto. destruct (dget "error" d); eauto.
Qed.

(** ** Properties *)

(** Classification of a response is total and exhaustive: a 2xx status and
    only a 2xx status is a success (202 the accepted-task form), every other
    status raises, and what it raises carries the parsed [RedfishError] with
    that very status. *)
Theorem default_error_handler_total r :
  (200 <= status_code r < 300 /\
   exists a, default_error_handler r = Ok a /\ a <> RespError /\
     (a = RespAccepted <-> status_code r = 202)) \/
  (~ 200 <= status_code r < 300 /\
   exists e code msg ext exc,
     let err := PErr (status_code r) code msg ext exc in
     default_error_handler r = Raise e /\ err = parse_error r /\
     ((e = RedfishUnauthorized err /\ status_code r = 401) \/
      (e = RedfishForbidden err /\ status_code r = 403) \/
      (e = ResourceNotFound err /\ status_code r <> 401 /\ status_code r <> 403))).
Proof.
  destruct (parse_error_is_err r) as (code & msg & ext & exc & He).
  unfold default_error_handler.
  destruct (decide (200 <= status_code r < 300)) as [Hin|Hout].
  - left. split; [done|].
    destruct (Z.eqb_spec (status_code r) 200); [eexists; split; [done|naive_solver lia]|].
    destruct (Z.eqb_spec (status_code r) 202); [eexists; split; [done|naive_solver lia]|].
    destruct (Z.eqb_spec (status_code r) 204); [eexists; split; [done|naive_solver lia]|].
    replace ((200 <=? status_code r) && (status_code r <? 300)) with true by lia.
    eexists; split; [done|naive_solver lia].
  - right. split; [done|].
    destruct (Z.eqb_spec (status_code r) 200); [lia|].
    destruct (Z.eqb_spec (status_code r) 202); [lia|].
    destruct (Z.eqb_spec (status_code r) 204); [lia|].
    replace ((200 <=? status_code r) && (status_code r <? 300)) with false by lia.
    destruct (Z.eqb_spec (status_code r) 401); [|destruct (Z.eqb_spec (status_code r) 403)];
      do 5 eexists; (split; [reflexivity|]); (split; [symmetry; exact He|]); rewrite He; auto.
Qed.

(** The rendered text of a parsed error always ends with the HTTP status and
    is never empty, whatever the service put in the body. *)
Theorem parse_error_text_has_status r :
  status_code r <> 0 ->
  exists prefix, PyStr.nonempty prefix = true /\
    py_str (parse_error r) = prefix +:+ " (HTTP " +:+ pretty (status_code r) +:+ ")".
Proof.
  intros Hs. destruct (parse_error_is_err r) as (code & msg & ext & exc & ->).
  cbn [py_str py_repr]. unfold error_text.
  destruct (Z.eqb_spec (status_code r) 0); [lia|].
  eexists; split; [|reflexivity].
  match goal with |- PyStr.nonempty (if PyStr.nonempty ?b then _ else _) = true =>
    destruct (PyStr.nonempty b) eqn:Hb end; [done|reflexivity].
Qed.

Lemma parse_error_text_has_status_witness :
  exists prefix, PyStr.nonempty prefix = true /\
    py_str (parse_error (Response 400 [] (inl (PDict [("error", PDict [("message", PNone);
      ("@Message.ExtendedInfo", PList [PDict [("MessageId", PStr "iLO.2.17.X");
         ("MessageArgs", PList [PStr "a"])]])])]))))
    = prefix +:+ " (HTTP " +:+ pretty 400 +:+ ")".
Proof. apply parse_error_text_has_status. done. Defined.

(** Redaction masks every top-level value whose key mentions a password, in
    any case, changes no other value and keeps the keys and their order. *)
Theorem redact_masks d :
  exists d', redact_sensitive_payload (PDict d) = PDict d' /\
    dict_keys d' = dict_keys d /\
    forall k v, dict_get k d = Some v ->
      dict_get k d' = Some (if PyStr.contains "password" (PyStr.lower k) then PStr "***" else v).
Proof.
  eexists. split; [reflexivity|]. split.
  - unfold dict_keys. rewrite map_map. reflexivity.
  - intros k v. induction d as [|[k' v'] d IH]; simpl; [done|].
    case_decide; [intros; by simplify_eq|]. apply IH.
Qed.
End Http.
