(* ===== verification/Manager.v ===== *)
(** * The vendor-neutral manager: transport, reads and writes

    src/redfish_ctl/redfish_manager.py, class [RedfishManager]: the HTTP calls,
    [base_query] and [base_request_respond] with their wrappers.  What is on
    the other side of the wire, and the clock, are the parameter [World]; every
    request sent is recorded in a trace, so that what a command does to the
    hardware can be stated. *)

From stdpp Require Import base list gmap strings pretty.
From Stdlib Require Import Ascii ZArith Lia.
From S2P Require Import Prelude PyVal Effects Query Http.

Module RedfishManager.
Import Http.
Local Open Scope Z_scope.
Local Open Scope py_scope.

(** [HTTPMethod] *)
Inductive method := GET | POST | PUSH | PATCH | DELETE.

#[export] Instance method_eq_dec : EqDecision method.
Proof. solve_decision. Defined.

Definition method_name (m : method) : string :=
  match m with
  | GET => "GET" | POST => "POST" | PUSH => "PUSH" | PATCH => "PATCH" | DELETE => "DELETE"
  end.

Record request := Request {
  rq_method : method;
  rq_url : string;
  rq_headers : pydict;
  rq_auth : option (string * string);
  rq_verify : bool;
  rq_data : option pyval
}.

(** The BMC and the network seen through [requests], and the process clock in
    milliseconds.  No law is assumed of them. *)
Class World (W : Type) := {
  transport : request -> W -> W * (response + exn);
  monotonic : W -> Z;
  sleep : Z -> W -> W
}.

(** The fields of a manager instance.  The [c_] fields are the
    [cached_property] slots: [None] until the property is first read; [c_vendor]
    holds the slots that a vendor's class adds, by property name. *)
Record manager := Manager {
  host_ip : string;
  user : string;
  passwd : string;
  port_no : option Z;
  verify_cert : bool;
  x_auth : option string;
  http_only : bool;
  query_counter : Z;
  redfish_error : pyval;
  own_query : option RedfishQuery.t;
  own_one_param : bool;
  manage_servers_obs : pyval;
  api_endpoints : pyval;
  action_targets : pyval;
  c_service_root : option pyval;
  c_manager_uri : option pyval;
  c_managed_system_uri : option pyval;
  c_vendor : list (string * pyval)
}.

(** [RedfishManager.__init__] *)
Definition new_manager (host username password : string) (port : pyval) (insecure is_http : bool)
    (xauth : option string) : res manager :=
  let mk p := Manager host username password p (negb insecure) xauth is_http 0 PNone
                None false (PList []) PNone PNone None None None [] in
  match port with
  | PStr s => match int_of_string s with
              | Some z => Ok (mk (Some z))
              | None => Raise (ValueError ("invalid literal for int() with base 10: " +:+ repr_str s))
              end
  | PInt z => Ok (mk (Some z))
  | _ => Ok (mk None)
  end.

Abbreviation cache_map := (gmap (string * string) (pyval * pyval)).

(** The process: the world, the requests sent so far, the manager object, the
    response caches alive and the one bound in the current context. *)
Record mstate (W : Type) := MState {
  world : W;
  trace : list request;
  mgr : manager;
  caches : list cache_map;
  active : option nat
}.
Arguments MState {W} world trace mgr caches active.
Arguments world {W} m.
Arguments trace {W} m.
Arguments mgr {W} m.
Arguments caches {W} m.
Arguments active {W} m.

Definition set_mgr {W} (f : manager -> manager) (s : mstate W) : mstate W :=
  MState (world s) (trace s) (f (mgr s)) (caches s) (active s).

Definition set_world {W} (f : W -> W) (s : mstate W) : mstate W :=
  MState (f (world s)) (trace s) (mgr s) (caches s) (active s).

Definition bump_counter (m : manager) : manager :=
  Manager (host_ip m) (user m) (passwd m) (port_no m) (verify_cert m) (x_auth m) (http_only m)
    (query_counter m + 1) (redfish_error m) (own_query m) (own_one_param m)
    (manage_servers_obs m) (api_endpoints m) (action_targets m) (c_service_root m)
    (c_manager_uri m) (c_managed_system_uri m) (c_vendor m).

Definition set_error (e : pyval) (m : manager) : manager :=
  Manager (host_ip m) (user m) (passwd m) (port_no m) (verify_cert m) (x_auth m) (http_only m)
    (query_counter m) e (own_query m) (own_one_param m)
    (manage_servers_obs m) (api_endpoints m) (action_targets m) (c_service_root m)
    (c_manager_uri m) (c_managed_system_uri m) (c_vendor m).

Definition set_endpoints (e t : pyval) (m : manager) : manager :=
  Manager (host_ip m) (user m) (passwd m) (port_no m) (verify_cert m) (x_auth m) (http_only m)
    (query_counter m) (redfish_error m) (own_query m) (own_one_param m)
    (manage_servers_obs m) e t (c_service_root m) (c_manager_uri m) (c_managed_system_uri m) (c_vendor m).

Definition set_discovery (obs : pyval) (root muri suri : option pyval) (m : manager) : manager :=
  Manager (host_ip m) (user m) (passwd m) (port_no m) (verify_cert m) (x_auth m) (http_only m)
    (query_counter m) (redfish_error m) (own_query m) (own_one_param m)
    obs (api_endpoints m) (action_targets m) root muri suri (c_vendor m).

(** ** Addresses and URLs *)

(** The [redfish_ip] property: the port is appended when it is neither absent
    nor 443 and the host carries none. *)
Definition redfish_ip (m : manager) : string :=
  if PyStr.contains ":" (host_ip m) then host_ip m
  else match port_no m with
       | Some p => if (p =? 0) || (p =? 443) then host_ip m
                   else host_ip m +:+ ":" +:+ pretty p
       | None => host_ip m
       end.

(** [_default_method] *)
Definition default_method (m : manager) : string :=
  if http_only m then "http://" else "https://".

Definition base_url (m : manager) (resource : string) : string :=
  default_method m +:+ redfish_ip m +:+ resource.

(** [expanded(level)] *)
Definition expanded (level : Z) : string := "?$expand=*($levels=" +:+ pretty level +:+ ")".

(** [select(property)] *)
Definition select (p : string) : string := "?$select=" +:+ p.

Definition json_content_type : pydict :=
  [("Content-Type", PStr "application/json; charset=utf-8")].

Section Calls.
Context {W : Type} `{!World W}.
Abbreviation MM := (M (mstate W)).

(** ** Transport *)

(** One exchange on the wire. *)
Definition send (rq : request) : MM response :=
  fun s => let '(w', r) := transport rq (world s) in
           (MState w' (trace s ++ [rq]) (mgr s) (caches s) (active s),
            match r with inl resp => Ok resp | inr e => Raise e end).

(** The headers and credentials of the synchronous calls: the X-Auth token when
    there is one, basic authentication otherwise. *)
Definition sync_request (m : manager) (meth : method) (url : string) (hdr : pydict)
    (payload : option pyval) : request :=
  let hs := dict_update json_content_type hdr in
  match x_auth m with
  | Some tok => Request meth url (dict_set "X-Auth-Token" (PStr tok) hs) None (verify_cert m) payload
  | None => Request meth url hs (Some (user m, passwd m)) (verify_cert m) payload
  end.

Definition api_get_call (req : string) (hdr : pydict) : MM response :=
  let! m := gets mgr in send (sync_request m GET req hdr None).

(** [api_async_get_call]: the awaited [requests.get] call *)
Definition api_async_get_call (req : string) (hdr : pydict) : MM response :=
  let! m := gets mgr in
  let hs := dict_update json_content_type hdr in
  match x_auth m with
  | Some _ => send (Request GET req hs None (verify_cert m) None)
  | None => send (Request GET req [] (Some (user m, passwd m)) (verify_cert m) None)
  end.

(** [_api_write_call(method, req, hdr, data)] *)
Definition api_write_call (meth : method) (req : string) (hdr : pydict) (payload : option pyval)
  : MM response :=
  let! m := gets mgr in send (sync_request m meth req hdr payload).

Definition api_post_call (req : string) (payload : pyval) (hdr : pydict) : MM response :=
  api_write_call POST req hdr (Some payload).
Definition api_patch_call (req : string) (payload : pyval) (hdr : pydict) : MM response :=
  api_write_call PATCH req hdr (Some payload).
Definition api_delete_call (req : string) (hdr : pydict) : MM response :=
  api_write_call DELETE req hdr None.

(** [get_with_query] *)
Definition get_with_query (req : string) (query : option RedfishQuery.t) (hdr : pydict)
    (one_param_per_uri : bool) : MM response :=
  let! url := lift_res match query with
                       | None => Ok req
                       | Some q => RedfishQuery.apply q req one_param_per_uri
                       end in
  api_get_call url hdr.

(** [api_async_get_until_complete] *)
Definition api_async_get_until_complete (req : string) (hdr : pydict) : MM response :=
  let! response := api_async_get_call req hdr in
  modify (set_mgr bump_counter) ;;;
  lift_res (default_error_handler response) ;;;
  ret response.

(** ** Writes *)

(** [default_post_success]; PATCH and DELETE share it *)
Definition default_post_success (response : response) (ignore_error_code : Z) : MM api_respond :=
  if negb (ignore_error_code =? 0) && (status_code response =? ignore_error_code) then ret RespSuccess
  else if (status_code response =? 405) || (status_code response =? 409) then
    modify (set_mgr (set_error (parse_error response))) ;;;
    ret RespError
  else lift_res (default_error_handler response).

Definition default_patch_success := default_post_success.
Definition default_delete_success := default_post_success.

(** The end of [base_request_respond]: the result for a classified response *)
Definition write_result (response : response) (api_resp : api_respond)
  : MM (CommandResult * api_respond) :=
  match api_resp with
  | RespError =>
      let! m := gets mgr in
      ret (mkResult (PDict []) PNone PNone (redfish_error m), api_resp)
  | RespAccepted =>
      let! task_id := lift_res (task_id_from_header response false) in
      ret (mkResult (PDict [("task_id", PStr task_id)]) PNone PNone PNone, api_resp)
  | _ => ret (mkResult (PDict (api_success_msg api_resp "message" PNone)) PNone PNone PNone, api_resp)
  end.

(** [base_request_respond]; [payload] is a mapping or [None] of values that [json.dumps] can write.  The body of the request is
    kept as the value that its text stands for. *)
Definition base_request_respond (resource : string) (meth : method) (payload : option pydict)
    (data_type : string) (ignore_error_code : Z) : MM (CommandResult * api_respond) :=
  let hs := if decide (data_type = "json") then json_content_type else [] in
  let pd := PDict (default [] payload) in
  let! m := gets mgr in
  let r := base_url m resource in
  let! (response, api_resp) :=
    match meth with
    | POST =>
        let! response := api_post_call r pd hs in
        let! a := default_post_success response ignore_error_code in ret (response, a)
    | PATCH =>
        let! response := api_patch_call r pd hs in
        let! a := default_patch_success response ignore_error_code in ret (response, a)
    | DELETE =>
        let! response := api_delete_call r hs in
        let! a := default_delete_success response ignore_error_code in ret (response, a)
    | _ => raise (UnsupportedAction ("unsupported write method: HTTPMethod." +:+ method_name meth))
    end in
  write_result response api_resp.

Definition base_post (resource : string) (payload : option pydict) (ignore_error_code : Z) :=
  base_request_respond resource POST payload "json" ignore_error_code.
Definition base_patch (resource : string) (payload : option pydict) (ignore_error_code : Z) :=
  base_request_respond resource PATCH payload "json" ignore_error_code.
Definition base_delete (resource : string) (payload : option pydict) (ignore_error_code : Z) :=
  base_request_respond resource DELETE payload "json" ignore_error_code.

(** ** Reads *)

(** The keyword arguments of [base_query]. *)
Record qargs := QArgs {
  filename : option string;
  do_async : bool;
  do_expanded : bool;
  select_target : string;
  query_expansion : string;
  data_type : string;
  key : option string;
  q_query : option RedfishQuery.t;
  q_one_param : option bool;
  q_cache : option nat
}.

Definition qdefault : qargs := QArgs None false false "" "" "json" None None None None.

Definition with_key (k : string) : qargs :=
  QArgs None false false "" "" "json" (Some k) None None None.

Definition with_async (b : bool) : qargs :=
  QArgs None b false "" "" "json" None None None None.

(** The URL [base_query] requests. *)
Definition query_url (m : manager) (resource : string) (a : qargs) : res string :=
  let r := if PyStr.nonempty (query_expansion a) || do_expanded a
           then base_url m resource +:+ expanded 1 else base_url m resource in
  let r := if PyStr.nonempty (select_target a)
           then base_url m resource +:+ select (select_target a) else r in
  let q := match q_query a with Some q => Some q | None => own_query m end in
  let one := default (own_one_param m) (q_one_param a) in
  match q with
  | Some q => if negb (RedfishQuery.is_empty q) && negb (PyStr.contains "?" r)
              then RedfishQuery.apply q r one else Ok r
  | None => Ok r
  end.

(** [select_payload(payload)] *)
Definition select_payload (k : option string) (payload : pyval) : pyval :=
  match payload, k with
  | PDict d, Some k => if PyStr.nonempty k && dict_in k d then dget k d else payload
  | _, _ => payload
  end.

(** [load_response()] *)
Definition load_response (r : string) (hs : pydict) : MM (pyval * pyval) :=
  let! response := api_get_call r hs in
  modify (set_mgr bump_counter) ;;;
  lift_res (default_error_handler response) ;;;
  let allow := opt_str (header_get "Allow" (headers response)) in
  let! payload := lift_res (json response) in
  ret (payload, allow).

Definition lookup_cache (i : nat) (k : string * string) : MM (option (pyval * pyval)) :=
  gets (fun s => caches s !! i ≫= lookup k).

Definition store_cache (i : nat) (k : string * string) (v : pyval * pyval) : MM unit :=
  modify (fun s => MState (world s) (trace s) (mgr s) (alter (insert k v) i (caches s)) (active s)).

(** [cache.get_or_load(key, loader)] when one thread uses the cache *)
Definition get_or_load (i : nat) (k : string * string) (loader : MM (pyval * pyval))
  : MM (pyval * pyval) :=
  let! hit := lookup_cache i k in
  match hit with
  | Some v => ret v
  | None => let! v := loader in store_cache i k v ;;; ret v
  end.

(** [base_query(resource, ...)]; saving to a file is not modelled *)
Definition base_query (resource : string) (a : qargs) : MM CommandResult :=
  let hs := if decide (data_type a = "json") then json_content_type else [] in
  let! m := gets mgr in
  let! r := lift_res (query_url m resource a) in
  let! act := gets active in
  let cache := match q_cache a with Some c => Some c | None => act end in
  let! (data, allow) :=
    if do_async a then
      let! response := api_async_get_until_complete r hs in
      let! payload := lift_res (json response) in
      ret (payload, opt_str (header_get "Allow" (headers response)))
    else
      match cache, filename a with
      | Some c, None => get_or_load c (r, data_type a) (load_response r hs)
      | _, _ => load_response r hs
      end in
  ret (mkResult (select_payload (key a) data) PNone allow PNone).
End Calls.

(** ** What a computation sends *)

(** The requests sent between two states all satisfy [P]. *)
Definition extends {W} (P : request -> Prop) (s s' : mstate W) : Prop :=
  exists l, trace s' = trace s ++ l /\ Forall P l.

#[export] Instance extends_preorder {W} P : PreOrder (extends (W := W) P).
Proof.
  split.
  - intros s. exists []. by rewrite app_nil_r.
  - intros s1 s2 s3 (l1 & H1 & F1) (l2 & H2 & F2). exists (l1 ++ l2).
    rewrite H2, H1, app_assoc. split; [done|]. by apply Forall_app.
Qed.

(** Every request [m] sends satisfies [P], whatever its outcome. *)
Abbreviation emits P m := (frames (extends P) m).

Definition is_get (rq : request) : Prop := rq_method rq = GET.

Section Emits.
Context {W : Type} `{!World W}.
Abbreviation MM := (M (mstate W)).

Lemma emits_weaken {A} (P Q : request -> Prop) (m : MM A) :
  (forall rq, P rq -> Q rq) -> emits P m -> emits Q m.
Proof.
  intros HPQ Hm s. destruct (Hm s) as (l & Ht & Hf). exists l. split; [done|].
  by eapply Forall_impl.
Qed.

Lemma emits_send (P : request -> Prop) rq : P rq -> emits P (send rq).
Proof.
  intros HP s. unfold send. destruct (transport rq (world s)) as [w r]. simpl.
  exists [rq]. split; [done|]. by repeat constructor.
Qed.

Lemma emits_silent (P : request -> Prop) (f : mstate W -> mstate W) :
  (forall s, trace (f s) = trace s) -> emits P (modify f).
Proof.
  intros Hf. apply frames_modify. intros s. exists []. by rewrite app_nil_r, Hf.
Qed.

Lemma emits_set_mgr P f : emits P (modify (set_mgr (W := W) f)).
Proof. by apply emits_silent. Qed.

Lemma emits_set_world P f : emits P (modify (set_world (W := W) f)).
Proof. by apply emits_silent. Qed.

Lemma emits_store_cache P i k v : emits P (store_cache (W := W) i k v).
Proof. by apply emits_silent. Qed.

Lemma emits_lookup_cache P i k : emits P (lookup_cache (W := W) i k).
Proof. apply frames_gets. exact _. Qed.

Lemma emits_api_get_call (P : request -> Prop) req hdr :
  (forall rq, is_get rq -> P rq) -> emits P (api_get_call req hdr).
Proof.
  intros HP. unfold api_get_call. frame. apply emits_send, HP.
  unfold is_get, sync_request. by destruct (x_auth a).
Qed.

Lemma emits_api_write_call (P : request -> Prop) meth req hdr d :
  (forall rq, rq_method rq = meth -> P rq) -> emits P (api_write_call meth req hdr d).
Proof.
  intros HP. unfold api_write_call. frame. apply emits_send, HP.
  unfold sync_request. by destruct (x_auth a).
Qed.

Lemma emits_default_post_success P r code : emits P (default_post_success (W := W) r code).
Proof. unfold default_post_success. frame. apply emits_set_mgr. Qed.

Lemma emits_base_query resource a : emits is_get (base_query (W := W) resource a).
Proof.
  assert (forall r hs, emits is_get (load_response (W := W) r hs)) as Hload.
  { intros r hs. unfold load_response. frame; [by apply emits_api_get_call|apply emits_set_mgr]. }
  unfold base_query, api_async_get_until_complete, api_async_get_call, get_or_load.
  frame; auto using emits_set_mgr, emits_store_cache, emits_lookup_cache;
    by apply emits_send.
Qed.

Lemma emits_base_request_respond resource meth payload dt code :
  emits (fun rq => rq_method rq = meth) (base_request_respond (W := W) resource meth payload dt code).
Proof.
  unfold base_request_respond, api_post_call, api_patch_call, api_delete_call,
    default_patch_success, default_delete_success, write_result.
  destruct meth; frame; auto using emits_default_post_success; by apply emits_api_write_call.
Qed.
End Emits.

(** What a request is addressed and signed with. *)
Definition conn (m : manager) :=
  (host_ip m, user m, passwd m, port_no m, verify_cert m, x_auth m, http_only m).

Definition same_conn {W} (s s' : mstate W) : Prop := conn (mgr s') = conn (mgr s).

#[export] Instance same_conn_preorder {W} : PreOrder (same_conn (W := W)).
Proof. split; [done|]. unfold same_conn. intros ???. congruence. Qed.

Lemma conn_base_url m m' resource : conn m = conn m' -> base_url m resource = base_url m' resource.
Proof. unfold conn, base_url, default_method, redfish_ip. by intros [= -> _ _ -> _ _ ->]. Qed.

Lemma conn_sync_request m m' meth url hdr d :
  conn m = conn m' -> sync_request m meth url hdr d = sync_request m' meth url hdr d.
Proof. unfold conn, sync_request. by intros [= _ -> -> _ -> -> _]. Qed.

Section SameConn.
Context {W : Type} `{!World W}.

Lemma same_conn_send rq : frames same_conn (send (W := W) rq).
Proof. intros s. unfold send, same_conn. by destruct (transport rq (world s)). Qed.

Lemma same_conn_base_query resource a : frames same_conn (base_query (W := W) resource a).
Proof.
  unfold base_query, api_async_get_until_complete, api_async_get_call, get_or_load, load_response,
    api_get_call, store_cache, lookup_cache.
  frame; try apply same_conn_send; by apply frames_modify.
Qed.

Lemma same_conn_write resource meth payload dt code :
  frames same_conn (base_request_respond (W := W) resource meth payload dt code).
Proof.
  unfold base_request_respond, api_post_call, api_patch_call, api_delete_call, api_write_call,
    default_patch_success, default_delete_success, default_post_success, write_result.
  frame; try apply same_conn_send; by apply frames_modify.
Qed.
End SameConn.

#[export] Hint Resolve same_conn_base_query same_conn_write : emits.

#[export] Hint Resolve emits_set_mgr emits_set_world emits_store_cache emits_lookup_cache
  emits_base_query emits_default_post_success : emits.

(** ** Calls end: no loop, so no outcome but a value or an exception *)

Section Ends.
Context {W : Type} `{!World W}.

Lemma yields_send rq : yields any_exn (send (W := W) rq).
Proof. intros s. unfold send. destruct (transport rq (world s)) as [w [r|e]]; exact I. Qed.

Lemma default_error_handler_ends r :
  ends (default_error_handler r).
Proof. unfold default_error_handler. by repeat case_match. Qed.

Lemma json_ends r : ends (json r).
Proof. unfold json. by case_match. Qed.

Lemma query_url_ends m resource a :
  ends (query_url m resource a).
Proof.
  unfold query_url, RedfishQuery.apply, RedfishQuery.to_query_string, RedfishQuery.validate, res_bind.
  by repeat case_match; simplify_eq.
Qed.

Lemma yields_api_get_call req hdr : yields any_exn (api_get_call (W := W) req hdr).
Proof. unfold api_get_call. yields. apply yields_send. Qed.

Lemma yields_base_query resource a : yields any_exn (base_query (W := W) resource a).
Proof.
  assert (forall r hs, yields any_exn (load_response (W := W) r hs)) as Hload.
  { intros r hs. unfold load_response.
    yields; auto using yields_api_get_call, default_error_handler_ends, json_ends. }
  unfold base_query, api_async_get_until_complete, api_async_get_call, get_or_load, lookup_cache,
    store_cache.
  yields; auto using yields_send, default_error_handler_ends, json_ends, query_url_ends.
Qed.

Lemma yields_base_request_respond resource meth payload dt code :
  yields any_exn (base_request_respond (W := W) resource meth payload dt code).
Proof.
  unfold base_request_respond, api_post_call, api_patch_call, api_delete_call, api_write_call,
    default_patch_success, default_delete_success, write_result, default_post_success,
    task_id_from_header.
  yields; auto using yields_send, default_error_handler_ends; by repeat case_match.
Qed.
End Ends.

#[export] Hint Resolve yields_base_query yields_api_get_call yields_send
  yields_base_request_respond : yields.

(** ** How many requests a computation sends *)

(** [m] sends at most [n] requests, all satisfying [P]. *)
Definition sends {W A} (n : nat) (P : request -> Prop) (m : M (mstate W) A) : Prop :=
  forall s, exists l, trace (m s).1 = trace s ++ l /\ (length l <= n)%nat /\ Forall P l.

Section Sends.
Context {W : Type} `{!World W} (P : request -> Prop).
Abbreviation MM := (M (mstate W)).

Lemma sends_silent {A} n (m : MM A) : (forall s, trace (m s).1 = trace s) -> sends n P m.
Proof. intros Hm s. exists []. rewrite app_nil_r. split; [done|]. split; [simpl; lia|done]. Qed.

Lemma sends_bind {A B} n1 n2 (m : MM A) (k : A -> MM B) :
  sends n1 P m -> (forall a, sends n2 P (k a)) -> sends (n1 + n2) P (bind m k).
Proof.
  intros Hm Hk s. destruct (Hm s) as (l1 & Ht1 & Hl1 & HP1). unfold bind.
  destruct (m s) as [s1 [a|e|]]; simpl in *; [|exists l1; split; [done|]; split; [lia|done]..].
  destruct (Hk a s1) as (l2 & Ht2 & Hl2 & HP2). exists (l1 ++ l2).
  rewrite Ht2, Ht1, app_assoc, length_app, Forall_app. split; [done|]. split; [lia|done].
Qed.

Lemma sends_send rq : P rq -> sends 1 P (send rq).
Proof.
  intros HP s. exists [rq]. unfold send. destruct (transport rq (world s)) as [w r].
  split; [done|]. split; [simpl; lia|]. by repeat constructor.
Qed.
End Sends.

(** A GET of [url] without a body. *)
Definition get_of (url : string) (rq : request) : Prop :=
  rq_method rq = GET /\ rq_data rq = None /\ rq_url rq = url.

Section Reads.
Context {W : Type} `{!World W}.

Lemma sends_load_response url hs : sends 1 (get_of url) (load_response (W := W) url hs).
Proof.
  unfold load_response, api_get_call.
  apply (sends_bind _ 1 0); [apply (sends_bind _ 0 1)|].
  - by apply sends_silent.
  - intros m. apply sends_send. unfold sync_request. by destruct (x_auth m).
  - intros r. repeat (apply (sends_bind _ 0 0); [by apply sends_silent|intros ?]).
    by apply sends_silent.
Qed.

Lemma sends_async_get url hs : sends 1 (get_of url) (api_async_get_until_complete (W := W) url hs).
Proof.
  unfold api_async_get_until_complete, api_async_get_call.
  apply (sends_bind _ 1 0); [apply (sends_bind _ 0 1)|].
  - by apply sends_silent.
  - intros m. by destruct (x_auth m); apply sends_send.
  - intros r. repeat (apply (sends_bind _ 0 0); [by apply sends_silent|intros ?]).
    by apply sends_silent.
Qed.

Lemma sends_get_or_load i k url hs :
  sends 1 (get_of url) (get_or_load i k (load_response (W := W) url hs)).
Proof.
  unfold get_or_load. apply (sends_bind _ 0 1); [by apply sends_silent|].
  intros [v|]; [by apply sends_silent|].
  apply (sends_bind _ 1 0); [apply sends_load_response|].
  intros v. apply (sends_bind _ 0 0); [by apply sends_silent|]. intros _. by apply sends_silent.
Qed.
End Reads.

(** ** Outcome of the elementary calls *)

Section Outcomes.
Context {W : Type} `{!World W}.

(** The state after one exchange, and its result. *)
Definition sent (s : mstate W) (rq : request) : mstate W :=
  MState (transport rq (world s)).1 (trace s ++ [rq]) (mgr s) (caches s) (active s).

Definition reply (s : mstate W) (rq : request) : res response :=
  match (transport rq (world s)).2 with inl resp => Ok resp | inr e => Raise e end.

Lemma send_run rq s : send rq s = (sent s rq, reply s rq).
Proof. unfold send, sent, reply. by destruct (transport rq (world s)) as [w [r|e]]. Qed.

(** The request a synchronous read sends, and the one a write sends. *)
Definition read_request (m : manager) (url : string) : request :=
  sync_request m GET url json_content_type None.

Definition write_request (m : manager) (meth : method) (resource : string) (payload : option pydict)
  : request :=
  sync_request m meth (base_url m resource) json_content_type
    (if decide (meth = DELETE) then None else Some (PDict (default [] payload))).

(** What a write reports for a response, by status. *)
Definition write_outcome (r : response) (ignore_error_code : Z) : res (CommandResult * api_respond) :=
  let code := status_code r in
  if negb (ignore_error_code =? 0) && (code =? ignore_error_code) then
    Ok (mkResult (PDict [("Status", PStr "success")]) PNone PNone PNone, RespSuccess)
  else if (code =? 405) || (code =? 409) then
    Ok (mkResult (PDict []) PNone PNone (parse_error r), RespError)
  else if code =? 202 then
    let task := match header_get "Location" (headers r) with
                | Some l => PyStr.last_or "" (PyStr.split "/"%char l)
                | None => ""
                end in
    Ok (mkResult (PDict [("task_id", PStr task)]) PNone PNone PNone, RespAccepted)
  else if code =? 200 then
    Ok (mkResult (PDict [("Status", PStr "ok")]) PNone PNone PNone, RespOk)
  else if (200 <=? code) && (code <? 300) then
    Ok (mkResult (PDict [("Status", PStr "success")]) PNone PNone PNone, RespSuccess)
  else if code =? 401 then Raise (RedfishUnauthorized (parse_error r))
  else if code =? 403 then Raise (RedfishForbidden (parse_error r))
  else Raise (ResourceNotFound (parse_error r)).

Lemma write_outcome_run r code (s : mstate W) :
  exists m',
    bind (default_post_success r code) (fun a => write_result r a) s =
    (MState (world s) (trace s) m' (caches s) (active s), write_outcome r code).
Proof.
  unfold default_post_success, write_outcome, write_result, bind, ret, modify, lift_res, gets,
    default_error_handler, task_id_from_header, set_mgr.
  destruct s as [w tr m cs act]. simpl.
  repeat case_match; simplify_eq/=; try lia; eexists; try reflexivity.
Qed.

(** [base_request_respond] on a write verb: one exchange, then [write_outcome]. *)
Lemma base_request_respond_run resource meth payload code (s : mstate W) :
  meth = POST \/ meth = PATCH \/ meth = DELETE ->
  let rq := write_request (mgr s) meth resource payload in
  exists m', base_request_respond resource meth payload "json" code s =
    (MState (world (sent s rq)) (trace s ++ [rq]) m' (caches s) (active s),
     match reply s rq with
     | Ok r => write_outcome r code
     | Raise e => Raise e
     | NoFuel => NoFuel
     end).
Proof.
  intros Hm rq.
  assert (base_request_respond resource meth payload "json" code s =
    bind (send rq) (fun response =>
      bind (default_post_success response code) (fun a => write_result response a)) s) as ->.
  { subst rq. unfold write_request, base_request_respond.
    destruct Hm as [->|[->| ->]]; unfold api_post_call, api_patch_call, api_delete_call,
      api_write_call, default_patch_success, default_delete_success, bind, ret, gets; simpl;
      destruct (send _ s) as [s1 [r|e|]]; try done;
      by destruct (default_post_success r code s1) as [s2 [?|?|]]. }
  unfold bind at 1. rewrite send_run. destruct (reply s rq) as [r|e|]; [|by eexists..].
  destruct (write_outcome_run r code (sent s rq)) as [m' ->]. by exists m'.
Qed.

(** What a read yields for a response. *)
Definition read_outcome (r : response) : res (pyval * pyval) :=
  res_bind (default_error_handler r) (fun _ =>
  res_bind (json r) (fun v => Ok (v, opt_str (header_get "Allow" (headers r))))).

Lemma load_response_run url (s : mstate W) :
  let rq := read_request (mgr s) url in
  exists m', load_response url json_content_type s =
    (MState (world (sent s rq)) (trace s ++ [rq]) m' (caches s) (active s),
     match reply s rq with
     | Ok r => read_outcome r
     | Raise e => Raise e
     | NoFuel => NoFuel
     end).
Proof.
  intros rq. unfold load_response, api_get_call, bind, gets, modify, lift_res, ret.
  fold (read_request (mgr s) url). fold rq. rewrite send_run.
  destruct (reply s rq) as [r|e|]; [|by eexists..]. unfold read_outcome, res_bind.
  destruct (default_error_handler r); [|by eexists..]. destruct (json r); by eexists.
Qed.
End Outcomes.

(** ** Reads of a BMC whose documents do not change

    [serves docs]: a GET leaves the world as it is and answers with the document
    of its URL; this is what HTTP asks of a safe method. *)

Section Served.
Context {W : Type} `{!World W}.

Definition serves (docs : string -> response) : Prop :=
  forall rq (w : W), is_get rq -> transport rq w = (w, inl (docs (rq_url rq))).

(** What the URL of a request is computed from. *)
Definition config (m : manager) :=
  (host_ip m, port_no m, http_only m, own_query m, own_one_param m).

(** The manager is configured like [m], has no query of its own, and no response
    cache is bound. *)
Definition plain (m : manager) (s : mstate W) : Prop :=
  config (mgr s) = config m /\ own_query m = None /\ active s = None.

(** The document at a resource path, after the optional root-key selection. *)
Definition read_doc (docs : string -> response) (m : manager) (resource : string) (k : option string)
  : res pyval :=
  res_bind (read_outcome (docs (base_url m resource))) (fun va => Ok (select_payload k va.1)).

(** A plain read: default arguments except for the root key. *)
Definition key_args (k : option string) : qargs :=
  QArgs None false false "" "" "json" k None None None.

Lemma config_base_url m m' resource :
  config m = config m' -> base_url m resource = base_url m' resource.
Proof.
  unfold config, base_url, default_method, redfish_ip. intros [= -> -> -> _ _]. done.
Qed.

Lemma base_query_served docs m resource k (s : mstate W) :
  serves docs -> plain m s ->
  exists s', plain m s' /\ world s' = world s /\
    match read_doc docs m resource k with
    | Ok v => exists allow, base_query resource (key_args k) s = (s', Ok (mkResult v PNone allow PNone))
    | Raise e => base_query resource (key_args k) s = (s', Raise e)
    | NoFuel => False
    end.
Proof.
  intros Hd (Hc & Hq & Ha). pose proof Hc as Hc'.
  unfold base_query, bind, gets, lift_res, ret, query_url. simpl.
  unfold config in Hc. injection Hc as _ _ _ Hq' _. rewrite Hq', Hq, Ha.
  destruct (load_response_run (base_url (mgr s) resource) s) as [m' Hrun].
  assert (mgr (load_response (base_url (mgr s) resource) json_content_type s).1 = mgr s \/
          mgr (load_response (base_url (mgr s) resource) json_content_type s).1 = bump_counter (mgr s))
    as Hm'.
  { unfold load_response, api_get_call, bind, gets, modify, lift_res, ret. rewrite send_run.
    destruct (reply s _) as [r|e|]; [|by left..].
    destruct (default_error_handler r); [|by right..]. destruct (json r); by right. }
  rewrite Hrun in Hm' |- *. simpl in Hm'.
  assert (config m' = config m) as Hcm by (rewrite <- Hc'; by destruct Hm' as [-> | ->]).
  assert (is_get (read_request (mgr s) (base_url (mgr s) resource)) /\
          rq_url (read_request (mgr s) (base_url (mgr s) resource)) = base_url m resource) as [Hg Hurl].
  { rewrite (config_base_url _ m) by done. unfold read_request, sync_request, is_get.
    by destruct (x_auth (mgr s)). }
  unfold reply, sent, read_doc. rewrite Hd by done. simpl. rewrite Hurl.
  assert (ends (read_outcome (docs (base_url m resource)))) as Hends.
  { unfold read_outcome, res_bind.
    pose proof (default_error_handler_ends (docs (base_url m resource))).
    pose proof (json_ends (docs (base_url m resource))). by repeat case_match. }
  exists (MState (world s) (trace s ++ [read_request (mgr s) (base_url (mgr s) resource)])
            m' (caches s) (active s)).
  split; [done|]. split; [done|]. rewrite Ha.
  destruct (read_outcome (docs (base_url m resource))) as [[v al]|e|]; simpl; [eauto|done..].
Qed.
End Served.

(** ** Authentication *)

(** The request carries the manager's token, or its credentials when it has none. *)
Definition authenticated (m : manager) (rq : request) : Prop :=
  match x_auth m with
  | Some tok => dict_get "X-Auth-Token" (rq_headers rq) = Some (PStr tok)
  | None => rq_auth rq = Some (user m, passwd m)
  end /\ rq_verify rq = verify_cert m.

(** Every request between two states is authenticated, and the connection stays. *)
Definition signed {W} (s s' : mstate W) : Prop :=
  (exists l, trace s' = trace s ++ l /\ Forall (authenticated (mgr s)) l) /\ same_conn s s'.

Lemma authenticated_conn m m' rq : conn m = conn m' -> authenticated m rq -> authenticated m' rq.
Proof. unfold conn, authenticated. by intros [= _ -> -> _ -> -> _]. Qed.

#[export] Instance signed_preorder {W} : PreOrder (signed (W := W)).
Proof.
  split.
  - intros s. split; [exists []; by rewrite app_nil_r|done].
  - intros s1 s2 s3 [(l1 & H1 & F1) C1] [(l2 & H2 & F2) C2].
    split; [|etransitivity; [exact C1|exact C2]].
    exists (l1 ++ l2). rewrite H2, H1, app_assoc. split; [done|]. apply Forall_app. split; [done|].
    eapply Forall_impl; [exact F2|]. intros rq. by apply authenticated_conn.
Qed.

Section Signed.
Context {W : Type} `{!World W}.

Lemma signed_call meth url hdr d :
  frames signed (let! m := gets mgr in send (W := W) (sync_request m meth url hdr d)).
Proof.
  intros s. unfold bind, gets. rewrite send_run. split; [|done]. eexists [_]. split; [done|].
  repeat constructor; unfold sync_request; destruct (x_auth (mgr s)); try done. apply dict_get_set_eq.
Qed.

Lemma signed_silent (f : mstate W -> mstate W) :
  (forall s, trace (f s) = trace s) -> (forall s, conn (mgr (f s)) = conn (mgr s)) ->
  frames signed (modify f).
Proof.
  intros Ht Hc. apply frames_modify. intros s. split; [|apply Hc]. exists [].
  by rewrite app_nil_r, Ht.
Qed.

Lemma signed_load url hs : frames signed (load_response (W := W) url hs).
Proof.
  unfold load_response, api_get_call.
  apply frames_bind; [exact _|apply signed_call|]. frame. by apply signed_silent.
Qed.

Lemma signed_base_query resource a :
  do_async a = false -> frames signed (base_query (W := W) resource a).
Proof.
  intros Ha. unfold base_query, get_or_load, lookup_cache, store_cache. rewrite Ha.
  frame; first [apply signed_load|by apply signed_silent].
Qed.

Lemma signed_write resource meth payload dt code :
  frames signed (base_request_respond (W := W) resource meth payload dt code).
Proof.
  assert (forall r c, frames signed (default_post_success (W := W) r c)) as Hdefault.
  { intros r c. unfold default_post_success. frame. by apply signed_silent. }
  unfold base_request_respond, default_patch_success, default_delete_success, write_result,
    api_post_call, api_patch_call, api_delete_call.
  destruct meth; frame; auto; apply signed_call.
Qed.
End Signed.

(** ** Properties *)

Section Properties.
Context {W : Type} `{!World W}.

(** A read is a read: [base_query] sends at most one request, it is a GET
    without a body on the URL computed from the arguments, and nothing else is
    sent, whatever the arguments, the caches and the response. *)
Theorem base_query_one_get resource a (s : mstate W) :
  exists l, trace (base_query resource a s).1 = trace s ++ l /\ (length l <= 1)%nat /\
    Forall (fun rq => rq_method rq = GET /\ rq_data rq = None /\
                      query_url (mgr s) resource a = Ok (rq_url rq)) l.
Proof.
  unfold base_query. unfold bind at 1, gets at 1. cbv beta iota.
  unfold bind at 1, lift_res at 1.
  destruct (query_url (mgr s) resource a) as [url|e|] eqn:Hu;
    [|exists []; rewrite app_nil_r; split; [done|]; split; [simpl; lia|done]..].
  match goal with |- context [trace ((?m) s).1] => assert (sends 1 (get_of url) m) as Hs end.
  { apply (sends_bind _ 0 1); [by apply sends_silent|]. intros act.
    apply (sends_bind _ 1 0); [|intros []; by apply sends_silent].
    destruct (do_async a).
    - apply (sends_bind _ 1 0); [apply sends_async_get|]. intros r.
      apply (sends_bind _ 0 0); [by apply sends_silent|]. intros ?. by apply sends_silent.
    - repeat case_match; first [apply sends_get_or_load | apply sends_load_response]. }
  destruct (Hs s) as (l & Ht & Hl & HF). exists l. split; [exact Ht|]. split; [done|].
  eapply Forall_impl; [exact HF|]. intros rq (? & ? & ->). done.
Qed.

(** Within a cache scope a resource is fetched once: after a successful read
    with a cache bound and no file to save to, repeating the read sends nothing
    and returns the same result. *)
Theorem base_query_cached resource a (s s1 : mstate W) i result :
  do_async a = false -> filename a = None -> q_cache a = Some i -> (i < length (caches s))%nat ->
  base_query resource a s = (s1, Ok result) ->
  base_query resource a s1 = (s1, Ok result).
Proof.
  intros Hsync Hfile Hc Hi Hrun. unfold base_query, bind, gets, lift_res, ret in Hrun |- *.
  rewrite Hsync, Hfile, Hc in *.
  destruct (query_url (mgr s) resource a) as [url|e|] eqn:Hu; [|done..].
  unfold get_or_load, lookup_cache, store_cache, bind, gets, ret, modify in Hrun |- *.
  destruct (caches s !! i ≫= lookup (url, data_type a)) as [[v al]|] eqn:Hhit.
  - simplify_eq. by rewrite Hu, Hhit.
  - unfold load_response, api_get_call, bind, gets, modify, lift_res, ret in Hrun.
    rewrite send_run in Hrun.
    destruct (reply s _) as [r|e|]; [|done..].
    destruct (default_error_handler r); [|done..].
    destruct (json r) as [v|e|]; [|done..]. simplify_eq/=.
    change (query_url (bump_counter (mgr s)) resource a) with (query_url (mgr s) resource a).
    rewrite Hu, list_lookup_alter, ?decide_True by done.
    destruct (caches s !! i) as [c|] eqn:Hci;
      [|apply lookup_ge_None in Hci; lia]. simpl. by rewrite ?lookup_insert_eq.
Qed.


(** Synchronous requests are authenticated: every request that a synchronous
    [base_query] or a write of the manager sends carries the X-Auth token of
    the manager, or its basic credentials when it has none, and is verified as
    the manager was told to. *)
Theorem sync_requests_authenticated resource a meth payload dt code (s : mstate W) :
  do_async a = false ->
  (exists l, trace (base_query resource a s).1 = trace s ++ l /\ Forall (authenticated (mgr s)) l) /\
  (exists l, trace (base_request_respond resource meth payload dt code s).1 = trace s ++ l /\
     Forall (authenticated (mgr s)) l).
Proof.
  intros Ha. split; [apply (signed_base_query resource a Ha)|apply signed_write].
Qed.

(** The asynchronous GET does not: a manager that authenticates with an
    X-Auth token sends its asynchronous reads with neither the token nor basic
    credentials. *)
Theorem async_get_drops_token resource a (s : mstate W) tok :
  do_async a = true -> x_auth (mgr s) = Some tok ->
  exists l, trace (base_query resource a s).1 = trace s ++ l /\
    Forall (fun rq => rq_auth rq = None /\ dict_get "X-Auth-Token" (rq_headers rq) = None) l.
Proof.
  intros Ha Hx. unfold base_query, bind, gets, lift_res, ret. rewrite Ha.
  destruct (query_url (mgr s) resource a) as [url|e|];
    [|exists []; by rewrite app_nil_r..].
  unfold api_async_get_until_complete, api_async_get_call, bind, gets, modify, lift_res, ret.
  rewrite Hx, send_run. eexists [_]. split.
  - destruct (reply s _) as [r|e|]; [|reflexivity..].
    destruct (default_error_handler r); [|reflexivity..]. by destruct (json r).
  - repeat constructor. by case_decide.
Qed.
End Properties.

(** ** A concrete world for evaluation

    A simulated BMC: scripted answers per method and URL, consumed in order, the
    last one repeating; 404 elsewhere; and a clock in milliseconds. *)

Record sim := Sim {
  routes : list (method * string * list response);
  clock : Z
}.

Fixpoint answer (m : method) (u : string) (rs : list (method * string * list response))
  : list (method * string * list response) * response :=
  match rs with
  | [] => ([], Response 404 [] (inl (PDict [])))
  | (m', u', answers) :: rest =>
      if decide (m = m' /\ u = u') then
        match answers with
        | [] => (rs, Response 404 [] (inl (PDict [])))
        | [r] => (rs, r)
        | r :: more => ((m', u', more) :: rest, r)
        end
      else let '(rest', r) := answer m u rest in ((m', u', answers) :: rest', r)
  end.

#[export] Instance sim_world : World sim := {
  transport rq w := let '(rs, r) := answer (rq_method rq) (rq_url rq) (routes w) in
                    (Sim rs (clock w), inl r);
  monotonic := clock;
  sleep d w := Sim (routes w) (clock w + d)
}.

(** A BMC that only serves documents. *)
Definition doc_world (docs : string -> response) : World unit := {|
  transport rq w := (w, inl (docs (rq_url rq)));
  monotonic _ := 0;
  sleep _ w := w
|}.

Lemma doc_world_serves docs : @serves unit (doc_world docs) docs.
Proof. by intros rq [] _. Qed.

(** The documents of a path table; 404 elsewhere. *)
Definition docs_of (prefix : string) (table : list (string * pyval)) (url : string) : response :=
  match dict_get url (map (fun kv => (prefix +:+ kv.1, kv.2)) table) with
  | Some v => Response 200 [] (inl v)
  | None => Response 404 [] (inl (PDict []))
  end.

Definition sample_manager : manager :=
  Manager "10.0.0.42" "root" "secret" (Some 443) false None false 0 PNone None false
    (PList []) PNone PNone None None None [].

Definition token_manager : manager :=
  Manager "10.0.0.42" "root" "secret" (Some 443) false (Some "t0k3n") false 0 PNone None false
    (PList []) PNone PNone None None None [].

Definition sim_state (m : manager) (rs : list (method * string * list response)) : mstate sim :=
  MState (Sim rs 0) [] m [∅] None.

Definition ok_json (v : pyval) : response := Response 200 [] (inl v).

Definition sample_routes : list (method * string * list response) :=
  [(GET, "https://10.0.0.42/redfish/v1/Systems/1", [ok_json (PDict [("Id", PStr "1")])]);
   (POST, "https://10.0.0.42/redfish/v1/Systems/1", [Response 409 [] (inl (PDict []))])].

Definition cached_args : qargs := QArgs None false false "" "" "json" None None None (Some 0%nat).

Lemma base_query_cached_witness :
  exists s1, base_query "/redfish/v1/Systems/1" cached_args (sim_state sample_manager sample_routes)
      = (s1, Ok (mkResult (PDict [("Id", PStr "1")]) PNone PNone PNone)) /\
    base_query "/redfish/v1/Systems/1" cached_args s1
      = (s1, Ok (mkResult (PDict [("Id", PStr "1")]) PNone PNone PNone)).
Proof.
  eexists. split; [vm_compute; reflexivity|].
  apply (base_query_cached _ _ (sim_state sample_manager sample_routes) _ 0);
    [reflexivity..|simpl; lia|vm_compute; reflexivity].
Defined.


Lemma sync_requests_authenticated_witness :
  (exists l, trace (base_query "/redfish/v1/Systems/1" cached_args
                      (sim_state token_manager sample_routes)).1 = [] ++ l /\
     Forall (authenticated token_manager) l) /\
  (exists l, trace (base_request_respond "/redfish/v1/Systems/1" POST None "json" 0
                      (sim_state token_manager sample_routes)).1 = [] ++ l /\
     Forall (authenticated token_manager) l).
Proof.
  apply (sync_requests_authenticated "/redfish/v1/Systems/1" cached_args POST None "json" 0
           (sim_state token_manager sample_routes)). reflexivity.
Defined.

Lemma async_get_drops_token_witness :
  exists l, trace (base_query "/redfish/v1/Systems/1" (with_async true)
                     (sim_state token_manager sample_routes)).1 = [] ++ l /\
    length l = 1%nat /\
    Forall (fun rq => rq_auth rq = None /\ dict_get "X-Auth-Token" (rq_headers rq) = None) l.
Proof.
  destruct (async_get_drops_token "/redfish/v1/Systems/1" (with_async true)
    (sim_state token_manager sample_routes) "t0k3n") as (l & Ht & Hl); [reflexivity..|].
  exists l. split; [exact Ht|]. split; [|exact Hl].
  vm_compute in Ht. by rewrite <- Ht.
Defined.
End RedfishManager.
