(* ===== verification/Discovery.v ===== *)
(** * Resource discovery

    src/redfish_ctl/redfish_manager.py: the member helpers, the primary manager
    and host system, the service root properties, [check_api_version] and
    [discover_virtual_media_uri].  The [cached_property] attributes are slots of
    the manager that are filled on the first successful read. *)

From stdpp Require Import base list gmap strings.
From Stdlib Require Import Ascii ZArith Lia.
From S2P Require Import Prelude PyVal Effects Query Http Manager.

Module Discovery.
Import Http RedfishManager.
Local Open Scope py_scope.

(** ** Pure helpers *)

(** [value_from_json_list(json_obj, k)] *)
Definition value_from_json_list (v : pyval) (k : string) : pyval :=
  match v with
  | PList l => match last l with
               | Some (PDict d) => dget k d
               | _ => PNone
               end
  | PDict d => dget k d
  | PStr s => PStr s
  | _ => PNone
  end.

(** The [@odata.id] of a member, when it is a string. *)
Definition member_id (m : pyval) : option string :=
  match m with
  | PDict d => match dget "@odata.id" d with PStr s => Some s | _ => None end
  | _ => None
  end.

(** [_member_ids(members)] *)
Definition member_ids (members : pyval) : list string :=
  match members with
  | PList l => omap member_id l
  | _ => []
  end.

(** [_members(data)]; a [Members] value that cannot be iterated raises *)
Definition members_of (v : pyval) : res (list string) :=
  match v with
  | PDict d => match py_iter (dict_get_or "Members" (PList []) d) with
               | Some l => Ok (omap member_id l)
               | None => Raise (TypeError "Members is not iterable")
               end
  | _ => Ok []
  end.

(** [_identity_link(resource, key)] *)
Definition identity_link (resource : pydict) (k : string) : option string :=
  match dget k resource with
  | PDict d => match dget "@odata.id" d with
               | PStr s => if PyStr.nonempty s then Some s else None
               | _ => None
               end
  | _ => None
  end.

Definition api_managers : string := "/redfish/v1/Managers".
Definition api_systems : string := "/redfish/v1/Systems".
Definition api_version : string := "/redfish/v1".

Section Discovery.
Context {W : Type} `{!World W}.
Abbreviation MM := (M (mstate W)).

(** ** Collections *)

Definition discover_computer_system_ids : MM (list string) :=
  let! r := base_query api_systems (with_key "Members") in
  ret (member_ids (data r)).

Definition discover_manager_ids : MM (list string) :=
  let! r := base_query api_managers (with_key "Members") in
  ret (member_ids (data r)).

(** [functools.cached_property]: compute once, keep the value. *)
Definition cached (slot : manager -> option pyval) (store : pyval -> manager -> manager)
    (compute : MM pyval) : MM pyval :=
  let! m := gets mgr in
  match slot m with
  | Some v => ret v
  | None => let! v := compute in modify (set_mgr (store v)) ;;; ret v
  end.

Definition store_root (v : pyval) (m : manager) : manager :=
  set_discovery (manage_servers_obs m) (Some v) (c_manager_uri m) (c_managed_system_uri m) m.
Definition store_manager_uri (v : pyval) (m : manager) : manager :=
  set_discovery (manage_servers_obs m) (c_service_root m) (Some v) (c_managed_system_uri m) m.
Definition store_system_uri (v : pyval) (m : manager) : manager :=
  set_discovery (manage_servers_obs m) (c_service_root m) (c_manager_uri m) (Some v) m.
Definition store_servers (v : pyval) (m : manager) : manager :=
  set_discovery v (c_service_root m) (c_manager_uri m) (c_managed_system_uri m) m.

Definition manager_uri : MM pyval :=
  cached c_manager_uri store_manager_uri
    (let! r := base_query api_managers (with_key "Members") in
     ret (value_from_json_list (data r) "@odata.id")).

(** ** Service root *)

Definition service_root : MM pyval :=
  cached c_service_root store_root
    (let! r := base_query "/redfish/v1/" qdefault in ret (data r)).

(** The properties read from the service root; a non-mapping document makes
    [in] or the subscription raise [TypeError]. *)
Definition root_property (k : string) : MM pyval :=
  let! v := service_root in
  match v with
  | PNone => ret (PStr "")
  | PDict d => ret (dict_get_or k (PStr "") d)
  | _ => match py_in k v with
         | Some false => ret (PStr "")
         | _ => raise (TypeError "service root is not a mapping")
         end
  end.

Definition redfish_version : MM pyval := root_property "RedfishVersion".
Definition redfish_vendor : MM pyval := root_property "Vendor".

Definition redfish_system : MM pyval :=
  let! v := root_property "Systems" in
  match v with
  | PStr "" => ret (PStr "")
  | PDict d => match dict_get "@odata.id" d with
               | Some u => ret u
               | None => raise (KeyError "@odata.id")
               end
  | _ => raise (TypeError "Systems is not a mapping")
  end.

Definition check_api_version : MM (pyval * pyval) :=
  let! m := gets mgr in
  let! response := api_get_call (base_url m api_version) json_content_type in
  lift_res (default_error_handler response) ;;;
  let! v := lift_res (json response) in
  modify (set_mgr (fun m => set_endpoints v (action_targets m) m)) ;;;
  match py_in "Actions" v with
  | None => raise (TypeError "argument is not iterable")
  | Some false => let! m := gets mgr in ret (v, action_targets m)
  | Some true =>
      match v with
      | PDict d =>
          match dget "Actions" d with
          | PDict acts =>
              let! targets := mapM (fun kv => match kv.2 with
                                              | PDict a => match dict_get "target" a with
                                                           | Some t => ret t
                                                           | None => raise (KeyError "target")
                                                           end
                                              | _ => raise (TypeError "action is not a mapping")
                                              end) acts in
              modify (set_mgr (set_endpoints v (PList targets))) ;;;
              ret (v, PList targets)
          | _ => raise (AttributeError "keys")
          end
      | _ => raise (TypeError "indices must be integers")
      end
  end.

(** ** The host system *)

(** [_host_system(system_ids)]: the first readable system with a [Bios] or
    [Boot] property *)
Definition host_system (system_ids : list string) : MM string :=
  let! found := firstM (fun sid =>
      try_Exception
        (let! r := base_query sid qdefault in
         match data r with
         | PDict d => ret (if dict_in "Bios" d || dict_in "Boot" d then Some sid else None)
         | _ => ret None
         end)
        (fun _ => ret None)) system_ids in
  ret (default "" found).

Definition managed_system_uri : MM pyval :=
  cached c_managed_system_uri store_system_uri
    (let! links := try_Exception
         (let! uri := manager_uri in
          let! r := base_query (py_str uri) (with_key "Links") in
          ret (data r))
         (fun _ => ret PNone) in
     let! resolved :=
       match links with
       | PDict d =>
           match dget "ManagerForServers" d with
           | PList managed =>
               modify (set_mgr (store_servers (PList managed))) ;;;
               ret (value_from_json_list (PList managed) "@odata.id")
           | _ => ret (PStr "")
           end
       | _ => ret (PStr "")
       end in
     let! system_ids := try_Exception discover_computer_system_ids (fun _ => ret []) in
     let! host := if (1 <? length system_ids)%nat then host_system system_ids else ret "" in
     if PyStr.nonempty host then ret (PStr host)
     else match system_ids with
          | [sid] => ret (PStr sid)
          | _ => ret resolved
          end).

(** ** Virtual media *)

(** The first resource among [roots] with a truthy [VirtualMedia] link.  A
    payload that is neither empty nor a mapping has no [get]. *)
Definition virtual_media_link (b : bool) (root : pyval) : MM (option pyval) :=
  let! d := try_Exception
      (let! r := base_query (py_str root) (with_async b) in
       ret (Some (py_or (data r) (PDict []))))
      (fun _ => ret None) in
  match d with
  | None => ret None
  | Some (PDict d) =>
      match dget "VirtualMedia" d with
      | PDict link => let uri := dget "@odata.id" link in
                      ret (if truthy uri then Some uri else None)
      | _ => ret None
      end
  | Some _ => raise (AttributeError "get")
  end.

(** [roots.extend(r for r in rs if r not in roots)]: the generator sees the
    list it extends *)
Definition add_roots (roots : list pyval) (rs : list string) : list pyval :=
  fold_left (fun acc r => if py_mem (PStr r) acc then acc else acc ++ [PStr r]) rs roots.

(** The candidate roots, in the order they are tried. *)
Definition virtual_media_roots (host : pyval) (manager_roots system_roots : list string) : list pyval :=
  let roots := match host with
               | PStr h => if PyStr.endswith "/System.Embedded.1" h then [host] else []
               | _ => []
               end in
  let roots := add_roots roots manager_roots in
  let roots := if truthy host && negb (py_mem host roots) then roots ++ [host] else roots in
  add_roots roots system_roots.

Definition discover_virtual_media_uri (b : bool) : MM pyval :=
  let! manager_roots := try_Exception discover_manager_ids (fun _ => ret []) in
  let! host := try_Exception managed_system_uri (fun _ => ret (PStr "")) in
  let! system_roots := if truthy host then ret []
                       else try_Exception discover_computer_system_ids (fun _ => ret []) in
  match host with
  | PStr _ =>
      let roots := virtual_media_roots host manager_roots system_roots in
      let! found := firstM (virtual_media_link b) roots in
      match found with
      | Some uri => ret uri
      | None =>
          let fallback := py_or host (match system_roots with [] => PStr "" | r :: _ => PStr r end) in
          if truthy fallback then ret (PStr (py_str fallback +:+ "/VirtualMedia"))
          else raise (ResourceNotFound
                        (PStr "VirtualMedia collection not found in Managers or Systems"))
      end
  | _ => raise (AttributeError "endswith")
  end.

(** ** Lemmas *)

Lemma emits_discover_systems : emits is_get discover_computer_system_ids.
Proof. unfold discover_computer_system_ids. frame. Qed.

Lemma emits_discover_managers : emits is_get discover_manager_ids.
Proof. unfold discover_manager_ids. frame. Qed.

Lemma emits_manager_uri : emits is_get manager_uri.
Proof. unfold manager_uri, cached. frame. Qed.

Lemma emits_managed_system_uri : emits is_get managed_system_uri.
Proof.
  unfold managed_system_uri, cached, host_system.
  frame; auto using emits_discover_systems, emits_manager_uri.
Qed.

Lemma yields_discover_systems : yields any_exn discover_computer_system_ids.
Proof. unfold discover_computer_system_ids. yields. Qed.

Lemma yields_discover_managers : yields any_exn discover_manager_ids.
Proof. unfold discover_manager_ids. yields. Qed.

Lemma yields_manager_uri : yields any_exn manager_uri.
Proof. unfold manager_uri, cached. yields. Qed.

Lemma yields_managed_system_uri : yields only_base managed_system_uri.
Proof.
  unfold managed_system_uri, cached, host_system.
  yields; auto using yields_discover_systems, yields_manager_uri.
Qed.

Lemma emits_discover_virtual_media_uri b : emits is_get (discover_virtual_media_uri b).
Proof.
  unfold discover_virtual_media_uri, virtual_media_link.
  frame; auto using emits_discover_systems, emits_discover_managers, emits_managed_system_uri.
Qed.
End Discovery.

#[export] Hint Resolve emits_discover_systems emits_discover_managers emits_manager_uri
  emits_managed_system_uri emits_discover_virtual_media_uri : emits.
#[export] Hint Resolve yields_discover_systems yields_discover_managers yields_manager_uri : yields.

(** ** Discovery on a BMC whose documents do not change *)

Section Served.
Context {W : Type} `{!World W}.
Context (docs : string -> response) (m : manager).
Hypothesis docs_served : serves (W := W) docs.

Lemma read_doc_exn resource k e : read_doc docs m resource k = Raise e -> is_Exception e = true.
Proof.
  unfold read_doc, read_outcome, res_bind, default_error_handler, json.
  by repeat case_match; intros; simplify_eq.
Qed.

(** Reading a document under [except Exception]. *)
Lemma guarded_read_served {A} resource k (f : CommandResult -> A) d (s : mstate W) :
  (forall v al al', f (mkResult v PNone al PNone) = f (mkResult v PNone al' PNone)) ->
  plain m s ->
  exists s', plain m s' /\
    try_Exception (bind (base_query resource (key_args k)) (fun r => ret (f r))) (fun _ => ret d) s
    = (s', Ok (match read_doc docs m resource k with
               | Ok v => f (mkResult v PNone PNone PNone)
               | _ => d
               end)).
Proof.
  intros Hf Hp. destruct (base_query_served docs m resource k s docs_served Hp)
    as (s' & Hp' & _ & Hr). exists s'. split; [done|]. unfold try_Exception, try_catch, bind, ret.
  destruct (read_doc docs m resource k) as [v|e|] eqn:Hd; [|by rewrite Hr, (read_doc_exn _ _ _ Hd)|done].
  destruct Hr as [al ->]. by rewrite (Hf v al PNone).
Qed.

(** The ids of the Systems collection; none when it cannot be read. *)
Definition system_ids : list string :=
  match read_doc docs m api_systems (Some "Members") with Ok v => member_ids v | _ => [] end.

(** The resource is readable and carries a [Bios] or [Boot] property. *)
Definition is_host (sid : string) : bool :=
  match read_doc docs m sid None with
  | Ok (PDict d) => dict_in "Bios" d || dict_in "Boot" d
  | _ => false
  end.

Lemma system_ids_served (s : mstate W) :
  plain m s ->
  exists s', plain m s' /\
    try_Exception discover_computer_system_ids (fun _ => ret []) s = (s', Ok system_ids).
Proof.
  apply (guarded_read_served api_systems (Some "Members") (fun r => member_ids (data r)) []). done.
Qed.

Lemma host_system_served ids (s : mstate W) :
  plain m s ->
  exists s', plain m s' /\ host_system ids s = (s', Ok (default "" (List.find is_host ids))).
Proof.
  unfold host_system. intros Hp.
  match goal with |- context [firstM ?f ids] =>
    assert (exists s', plain m s' /\ firstM f ids s = (s', Ok (List.find is_host ids)))
      as (s' & Hp' & Hrun) end.
  { revert s Hp. induction ids as [|sid ids IH]; intros s Hp; simpl; [by exists s|].
    destruct (guarded_read_served sid None
      (fun r => match data r with
                | PDict d => if dict_in "Bios" d || dict_in "Boot" d then Some sid else None
                | _ => None end) None s) as (s1 & Hp1 & Hr); [done|done|].
    match type of Hr with ?l = _ => match goal with |- context [bind ?f _ s] =>
      assert (f s = l) as Hf end end.
    { unfold try_Exception, try_catch, bind, ret.
      destruct (base_query sid (key_args None) s) as [s2 [r|e|]] eqn:Hb;
        change (key_args None) with qdefault in Hb; rewrite Hb; try done.
      by destruct (data r). }
    unfold bind at 1. rewrite Hf, Hr. unfold is_host at 1.
    destruct (read_doc docs m sid None) as [[]| |]; simpl; try by apply IH.
    destruct (dict_in "Bios" d || dict_in "Boot" d); [by exists s1|by apply IH]. }
  exists s'. split; [done|]. by rewrite (bind_ok _ _ _ _ _ Hrun).
Qed.

(** The link lookup that precedes the Systems walk does not raise and keeps the
    configuration. *)
Definition caught {A} (r : res A) : Prop :=
  match r with Ok _ => True | Raise e => is_Exception e = true | NoFuel => False end.

Lemma read_caught resource k (s : mstate W) :
  plain m s ->
  exists s' r, plain m s' /\ base_query resource (key_args k) s = (s', r) /\ caught r.
Proof.
  intros Hp. destruct (base_query_served docs m resource k s docs_served Hp) as (s1 & Hp1 & _ & Hr).
  destruct (read_doc docs m resource k) as [v|e|] eqn:Hd; [|..|done].
  - destruct Hr as [al Hr]. do 2 eexists. split; [done|]. by split; [exact Hr|].
  - do 2 eexists. split; [done|]. split; [exact Hr|]. by eapply read_doc_exn.
Qed.

Lemma manager_uri_plain (s : mstate W) :
  plain m s -> exists s' r, plain m s' /\ manager_uri s = (s', r) /\ caught r.
Proof.
  intros Hp. unfold manager_uri, cached, bind, gets, ret, modify.
  destruct (c_manager_uri (mgr s)) as [v|]; [by exists s, (Ok v)|].
  destruct (read_caught api_managers (Some "Members") s Hp) as (s1 & r & Hp1 & Hr & Hc).
  change (key_args (Some "Members")) with (with_key "Members") in Hr. rewrite Hr.
  destruct r as [r|e|]; [|by exists s1, (Raise e)|done].
  do 2 eexists. split; [|split; [reflexivity|done]]. by destruct Hp1 as (? & ? & ?).
Qed.

Lemma links_plain (s : mstate W) :
  plain m s ->
  exists s' v, plain m s' /\
    try_Exception (bind manager_uri (fun uri =>
        bind (base_query (py_str uri) (with_key "Links")) (fun r => ret (data r))))
      (fun _ => ret PNone) s = (s', Ok v).
Proof.
  intros Hp. unfold try_Exception, try_catch, bind, ret.
  destruct (manager_uri_plain s Hp) as (s1 & r & Hp1 & -> & Hc).
  destruct r as [uri|e|]; simpl in Hc; [|rewrite Hc; eauto|done].
  destruct (read_caught (py_str uri) (Some "Links") s1 Hp1) as (s2 & r2 & Hp2 & Hr2 & Hc2).
  change (key_args (Some "Links")) with (with_key "Links") in Hr2. rewrite Hr2.
  destruct r2 as [r2|e|]; simpl in Hc2; [eauto|rewrite Hc2; eauto|done].
Qed.

(** The walk over the Systems collection that decides the host system. *)
Definition selected (resolved : pyval) : pyval :=
  let host := if (1 <? length system_ids)%nat then default "" (List.find is_host system_ids) else "" in
  if PyStr.nonempty host then PStr host
  else match system_ids with [sid] => PStr sid | _ => resolved end.

Lemma managed_system_uri_served (s : mstate W) :
  plain m s -> c_managed_system_uri (mgr s) = None ->
  exists resolved, (managed_system_uri s).2 = Ok (selected resolved).
Proof.
  intros Hp Hslot. unfold managed_system_uri, cached. unfold bind at 1, gets at 1. rewrite Hslot.
  destruct (links_plain s Hp) as (s1 & links & Hp1 & Hl).
  rewrite (bind_assoc). rewrite (bind_ok _ _ _ _ _ Hl), bind_assoc.
  match goal with |- context [bind ?r _ s1] =>
    assert (exists s2 v, plain m s2 /\ r s1 = (s2, Ok v)) as (s2 & resolved & Hp2 & Hr) end.
  { destruct links; try (by do 2 eexists). destruct (dget "ManagerForServers" d); try (by do 2 eexists).
    unfold bind, modify, ret. do 2 eexists. split; [|reflexivity]. by destruct Hp1 as (? & ? & ?). }
  rewrite (bind_ok _ _ _ _ _ Hr), bind_assoc.
  destruct (system_ids_served s2 Hp2) as (s3 & Hp3 & Hs).
  rewrite (bind_ok _ _ _ _ _ Hs), bind_assoc. exists resolved. unfold selected.
  destruct (1 <? length system_ids)%nat.
  - destruct (host_system_served system_ids s3 Hp3) as (s4 & _ & Hh).
    rewrite (bind_ok _ _ _ _ _ Hh). unfold bind.
    destruct (PyStr.nonempty _); [reflexivity|].
    destruct system_ids as [|? [|? ?]]; reflexivity.
  - unfold bind, ret. simpl. destruct system_ids as [|? [|? ?]]; reflexivity.
Qed.
End Served.

(** ** Properties *)

Section Properties.
Context {W : Type} `{!World W}.

(** [managed_system_uri] is total and harmless: it sends nothing but GETs
    and raises no [Exception], however the BMC answers. *)
Theorem managed_system_uri_safe :
  emits is_get (managed_system_uri (W := W)) /\ yields only_base (managed_system_uri (W := W)).
Proof. split; [apply emits_managed_system_uri|apply yields_managed_system_uri]. Qed.

(** On a BMC whose documents do not change, the only system is the managed
    system, and among several it is the first of the collection that exposes a
    [Bios] or [Boot] property. *)
Theorem managed_system_uri_selects docs m (s : mstate W) :
  serves (W := W) docs -> plain m s -> c_managed_system_uri (mgr s) = None ->
  (forall sid, system_ids docs m = [sid] -> (managed_system_uri s).2 = Ok (PStr sid)) /\
  (forall sid, (1 < length (system_ids docs m))%nat ->
     List.find (is_host docs m) (system_ids docs m) = Some sid -> PyStr.nonempty sid = true ->
     (managed_system_uri s).2 = Ok (PStr sid)).
Proof.
  intros Hd Hp Hslot. destruct (managed_system_uri_served docs m Hd s Hp Hslot) as [resolved ->].
  unfold selected. split.
  - intros sid ->. done.
  - intros sid Hlen Hf Hne. apply Nat.ltb_lt in Hlen. by rewrite Hlen, Hf; simpl; rewrite Hne.
Qed.
End Properties.

(** A split-topology box: a GPU baseboard without [Bios] and the host. *)
Definition gb300 : string -> response :=
  docs_of "https://10.0.0.42"
    [("/redfish/v1/Managers", PDict [("Members", PList [PDict [("@odata.id", PStr "/redfish/v1/Managers/BMC_0")]])]);
     ("/redfish/v1/Managers/BMC_0", PDict [("Links", PDict [])]);
     ("/redfish/v1/Systems", PDict [("Members", PList
        [PDict [("@odata.id", PStr "/redfish/v1/Systems/HGX_Baseboard_0")];
         PDict [("@odata.id", PStr "/redfish/v1/Systems/System_0")]])]);
     ("/redfish/v1/Systems/HGX_Baseboard_0", PDict [("Processors", PDict [])]);
     ("/redfish/v1/Systems/System_0", PDict [("Bios", PDict []); ("Boot", PDict [])])].

Definition unit_state (m : manager) : mstate unit := MState tt [] m [] None.

Lemma managed_system_uri_selects_witness :
  (@managed_system_uri unit (doc_world gb300) (unit_state sample_manager)).2
  = Ok (PStr "/redfish/v1/Systems/System_0").
Proof.
  apply (@managed_system_uri_selects unit (doc_world gb300) gb300 sample_manager);
    [apply doc_world_serves|done|done|vm_compute; lia|vm_compute; reflexivity..].
Defined.

(** *** Virtual media *)

Lemma py_mem_str r (l : list pyval) : py_mem (PStr r) l = true <-> PStr r ∈ l.
Proof.
  unfold py_mem. rewrite existsb_exists. split.
  - intros (x & Hx & He). destruct x; simpl in He; try done.
    apply bool_decide_eq_true in He as ->. by apply list_elem_of_In.
  - intros Hx. exists (PStr r). split; [by apply list_elem_of_In|]. simpl. by rewrite bool_decide_eq_true.
Qed.

Lemma add_roots_NoDup rs roots : NoDup roots -> NoDup (add_roots roots rs).
Proof.
  unfold add_roots. revert roots. induction rs as [|r rs IH]; simpl; [done|]. intros roots Hn.
  apply IH. destruct (py_mem (PStr r) roots) eqn:Hm; [done|].
  apply NoDup_app. split; [done|]. split; [|apply NoDup_singleton].
  intros x Hx ->%list_elem_of_singleton. apply py_mem_str in Hx. congruence.
Qed.

Lemma add_roots_elem x rs roots : x ∈ add_roots roots rs <-> x ∈ roots \/ x ∈ PStr <$> rs.
Proof.
  unfold add_roots. revert roots. induction rs as [|r rs IH]; simpl; intros roots.
  - split; [by left|]. intros [Hx|Hx]; [done|by apply elem_of_nil in Hx].
  - rewrite IH, elem_of_cons. destruct (py_mem (PStr r) roots) eqn:Hm.
    + apply py_mem_str in Hm. naive_solver.
    + rewrite elem_of_app, list_elem_of_singleton. naive_solver.
Qed.

Lemma elem_of_PStr r (l : list string) : PStr r ∈ PStr <$> l <-> r ∈ l.
Proof.
  rewrite list_elem_of_fmap. split; [intros (x & [= ->] & Hx); done|eauto].
Qed.

(** The roots before the host is considered. *)
Definition first_roots (host : string) : list pyval :=
  if PyStr.endswith "/System.Embedded.1" host then [PStr host] else [].

Lemma first_roots_elem host x : x ∈ first_roots host -> x = PStr host /\ PyStr.nonempty host = true.
Proof.
  unfold first_roots. destruct (PyStr.endswith "/System.Embedded.1" host) eqn:He.
  - intros ->%list_elem_of_singleton. split; [done|]. by destruct host.
  - by intros ?%elem_of_nil.
Qed.

Lemma add_roots_prefix rs roots : exists l, add_roots roots rs = roots ++ l.
Proof.
  unfold add_roots. revert roots. induction rs as [|r rs IH]; intros roots; simpl.
  - exists []. by rewrite app_nil_r.
  - destruct (py_mem (PStr r) roots); [done|].
    destruct (IH (roots ++ [PStr r])) as [l ->]. exists ([PStr r] ++ l). by rewrite app_assoc.
Qed.

(** The roots with the host and the managers. *)
Definition host_roots (host : string) (managers : list string) : list pyval :=
  let roots := add_roots (first_roots host) managers in
  if PyStr.nonempty host && negb (py_mem (PStr host) roots) then roots ++ [PStr host] else roots.

Lemma host_roots_NoDup host managers : NoDup (host_roots host managers).
Proof.
  unfold host_roots.
  assert (NoDup (add_roots (first_roots host) managers)) as Hn.
  { apply add_roots_NoDup. unfold first_roots.
    case_match; repeat constructor; apply not_elem_of_nil. }
  destruct (PyStr.nonempty host), (py_mem _ _) eqn:Hm; simpl; try done.
  apply NoDup_app. split; [done|]. split; [|apply NoDup_singleton].
  intros x Hx ->%list_elem_of_singleton. apply py_mem_str in Hx. congruence.
Qed.

Lemma host_roots_elem host managers r :
  PStr r ∈ host_roots host managers <->
  (r = host /\ PyStr.nonempty host = true) \/ r ∈ managers.
Proof.
  unfold host_roots.
  assert (PStr r ∈ add_roots (first_roots host) managers ->
    (r = host /\ PyStr.nonempty host = true) \/ r ∈ managers) as Hadd.
  { rewrite add_roots_elem, elem_of_PStr. intros [[[= ->] ?]%first_roots_elem|]; auto. }
  destruct (PyStr.nonempty host) eqn:Hne; simpl.
  - destruct (py_mem (PStr host) _) eqn:Hm; simpl.
    + split; [done|]. intros [[-> _]|Hr]; [by apply py_mem_str|].
      rewrite add_roots_elem, elem_of_PStr. auto.
    + rewrite elem_of_app, list_elem_of_singleton. split.
      * intros [?|[= ->]]; auto.
      * intros [[-> _]|Hr]; [by right|]. left. rewrite add_roots_elem, elem_of_PStr. auto.
  - split; [done|]. intros [[_ ?]|Hr]; [done|]. rewrite add_roots_elem, elem_of_PStr. auto.
Qed.

(** The virtual-media search tries every candidate exactly once: the roots
    are the managers, the host system and the fallback systems without
    repetition, and a Dell [System.Embedded.1] host comes first. *)
Theorem virtual_media_roots_once host managers systems :
  let roots := virtual_media_roots (PStr host) managers systems in
  NoDup roots /\
  (forall r, PStr r ∈ roots <->
     (r = host /\ PyStr.nonempty host = true) \/ r ∈ managers \/ r ∈ systems) /\
  (PyStr.endswith "/System.Embedded.1" host = true -> head roots = Some (PStr host)).
Proof.
  change (virtual_media_roots (PStr host) managers systems)
    with (add_roots (host_roots host managers) systems). cbv zeta.
  split; [apply add_roots_NoDup, host_roots_NoDup|]. split.
  - intros r. rewrite add_roots_elem, elem_of_PStr, host_roots_elem. tauto.
  - intros He. destruct (add_roots_prefix systems (host_roots host managers)) as [l ->].
    unfold host_roots, first_roots. rewrite He.
    destruct (add_roots_prefix managers [PStr host]) as [l' ->]. by repeat case_match.
Qed.

(** A BMC whose manager lists no server and whose Systems collection is empty. *)
Definition empty_bmc : string -> response :=
  docs_of "https://10.0.0.42"
    [("/redfish/v1/Managers", PDict [("Members", PList [PDict [("@odata.id", PStr "/redfish/v1/Managers/1")]])]);
     ("/redfish/v1/Managers/1", PDict [("Links", PDict [("ManagerForServers", PList [])])]);
     ("/redfish/v1/Systems", PDict [("Members", PList [])])].

(** The virtual-media search does not always end in a URI or in
    [ResourceNotFound]: on a BMC whose manager has an empty
    [ManagerForServers] and that has no system, [managed_system_uri] is [None]
    and the search fails with [AttributeError]. *)
Theorem virtual_media_attribute_error :
  (@managed_system_uri unit (doc_world empty_bmc) (unit_state sample_manager)).2 = Ok PNone /\
  (@discover_virtual_media_uri unit (doc_world empty_bmc) false (unit_state sample_manager)).2
  = Raise (AttributeError "endswith").
Proof. split; vm_compute; reflexivity. Qed.
End Discovery.
