(* ===== verification/Tasks.v ===== *)
(** * Task polling

    src/redfish_ctl/redfish_task_state.py and the [TaskService] methods of
    [RedfishManager] (src/redfish_ctl/redfish_manager.py): [get_task_state] and
    the polling loop of [fetch_task].  The loop is [while True]; it runs here on
    fuel, and the theorems say how much is enough. *)

From stdpp Require Import base list strings pretty.
From Stdlib Require Import Ascii ZArith Lia.
From S2P Require Import Prelude PyVal Effects Query Http Manager.

Module Tasks.
Import Http RedfishManager.
Local Open Scope Z_scope.
Local Open Scope py_scope.

(** [TaskState] *)
Inductive TaskState :=
| New | Starting | Running | Suspended | Interrupted | Pending | Stopping
| Completed | Killed | ExceptionState | Service | Cancelling | Cancelled.

(** [TaskStatus] *)
Inductive TaskStatus := StatusOK | StatusWarning | StatusCritical.

#[export] Instance TaskState_eq_dec : EqDecision TaskState.
Proof. solve_decision. Defined.

#[export] Instance TaskStatus_eq_dec : EqDecision TaskStatus.
Proof. solve_decision. Defined.

(** The wire value of a state, [state.value] *)
Definition state_value (s : TaskState) : string :=
  match s with
  | New => "New" | Starting => "Starting" | Running => "Running" | Suspended => "Suspended"
  | Interrupted => "Interrupted" | Pending => "Pending" | Stopping => "Stopping"
  | Completed => "Completed" | Killed => "Killed" | ExceptionState => "Exception"
  | Service => "Service" | Cancelling => "Cancelling" | Cancelled => "Cancelled"
  end.

Definition status_value (s : TaskStatus) : string :=
  match s with StatusOK => "OK" | StatusWarning => "Warning" | StatusCritical => "Critical" end.

Definition all_states : list TaskState :=
  [New; Starting; Running; Suspended; Interrupted; Pending; Stopping; Completed; Killed;
   ExceptionState; Service; Cancelling; Cancelled].

Definition all_statuses : list TaskStatus := [StatusOK; StatusWarning; StatusCritical].

(** [_coerce(enum_cls, value)]: the member with that value, else [None] *)
Definition coerce {A} (members : list A) (value : A -> string) (v : pyval) : option A :=
  find (fun m => eq_str v (value m)) members.

(** [TERMINAL_TASK_STATES] *)
Definition terminal (s : TaskState) : bool :=
  match s with Completed | Killed | Cancelled | ExceptionState => true | _ => false end.

(** [get_task_state(resp)] *)
Definition get_task_state (r : response) : option TaskState * option TaskStatus :=
  match json r with
  | Ok (PDict d) =>
      (coerce all_states state_value (dget "TaskState" d),
       coerce all_statuses status_value (dget "TaskStatus" d))
  | _ => (None, None)
  end.

(** [int(resp.headers.get("Retry-After", 0) or 0)], 0 when it does not parse *)
Definition retry_after (r : response) : Z :=
  match header_get "Retry-After" (headers r) with
  | Some s => if PyStr.nonempty s then default 0 (int_of_string s) else 0
  | None => 0
  end.

Definition tasks_path : string := "/redfish/v1/TaskService/Tasks/".

Section Poll.
Context {W : Type} `{!World W}.
Abbreviation MM := (M (mstate W)).

(** [time.sleep(delay)], [delay] in seconds *)
Definition time_sleep (delay : Z) : MM unit :=
  if delay <? 0 then raise (ValueError "sleep length must be non-negative")
  else modify (set_world (sleep (1000 * delay))).

(** The [while True] loop of [fetch_task]; [timeout] and the clock are in
    milliseconds, the sleeps in seconds. *)
Fixpoint poll (fuel : nat) (url : string) (sleep_time : Z) (wait_for_state : option TaskState)
    (timeout : option Z) (started : Z) (task_state : option TaskState) : MM (option TaskState) :=
  match fuel with
  | O => lift_res NoFuel
  | S fuel' =>
      let! resp := api_get_call url [] in
      let code := status_code resp in
      if code =? 401 then raise (AuthenticationFailed (PStr "task service returned 401."))
      else if ((code =? 404) || (code =? 410)) || (500 <=? code) then ret task_state
      else
        let task_state := match (get_task_state resp).1 with
                          | Some s => Some s
                          | None => task_state
                          end in
        if match wait_for_state with Some _ => bool_decide (task_state = wait_for_state)
                                   | None => false end
        then ret task_state
        else if match task_state with Some s => terminal s | None => false end then ret task_state
        else
          let delay := Z.max sleep_time (retry_after resp) in
          let! now := gets (fun s => monotonic (world s)) in
          if match timeout with Some t => t <=? now - started | None => false end
          then ret task_state
          else
            time_sleep delay ;;;
            poll fuel' url sleep_time wait_for_state timeout started task_state
  end.

(** [fetch_task(task_id, sleep_time, wait_for_state, timeout)]; a [sleep_time] of
    [None] counts as 0 *)
Definition fetch_task (fuel : nat) (task_id : string) (sleep_time : option Z)
    (wait_for_state : option TaskState) (timeout : option Z) : MM (option TaskState) :=
  let! m := gets mgr in
  let url := base_url m (tasks_path +:+ task_id) in
  let! started := gets (fun s => monotonic (world s)) in
  poll fuel url (default 0 sleep_time) wait_for_state timeout started None.

(** ** One round of the loop *)

(** What a response makes of the wait: over with an outcome, or another round
    with the last recognised state. *)
Inductive verdict := Over (out : res (option TaskState)) | Again (st : option TaskState).

(** Does this state end the wait? *)
Definition awaited (ws : option TaskState) (s : TaskState) : bool :=
  bool_decide (ws = Some s) || terminal s.

Definition judge (ws st : option TaskState) (resp : response) : verdict :=
  let code := status_code resp in
  if code =? 401 then Over (Raise (AuthenticationFailed (PStr "task service returned 401.")))
  else if ((code =? 404) || (code =? 410)) || (500 <=? code) then Over (Ok st)
  else
    let st' := match (get_task_state resp).1 with Some s => Some s | None => st end in
    if match st' with Some s => awaited ws s | None => false end then Over (Ok st') else Again st'.

Definition timed_out (timeout : option Z) (started : Z) (s : mstate W) : bool :=
  match timeout with Some t => t <=? monotonic (world s) - started | None => false end.

Definition slept (secs : Z) (s : mstate W) : mstate W := set_world (sleep (1000 * secs)) s.

Lemma reply_ends (s : mstate W) rq : reply s rq <> NoFuel.
Proof. unfold reply. by case_match. Qed.

Lemma poll_round fuel url sleep_time ws timeout started st (s : mstate W) :
  0 <= sleep_time ->
  let rq := sync_request (mgr s) GET url [] None in
  let s1 := sent s rq in
  poll (S fuel) url sleep_time ws timeout started st s =
  match reply s rq with
  | Ok resp =>
      match judge ws st resp with
      | Over out => (s1, out)
      | Again st' =>
          if timed_out timeout started s1 then (s1, Ok st')
          else poll fuel url sleep_time ws timeout started st'
                 (slept (Z.max sleep_time (retry_after resp)) s1)
      end
  | Raise e => (s1, Raise e)
  | NoFuel => (s1, NoFuel)
  end.
Proof.
  intros Hst rq s1. cbn [poll]. unfold api_get_call, time_sleep.
  unfold bind, gets, modify, raise, ret. rewrite send_run. fold rq. fold s1.
  destruct (reply s rq) as [resp|e|]; [|done..]. unfold judge, timed_out, slept, awaited.
  replace (Z.max sleep_time (retry_after resp) <? 0) with false by lia.
  destruct (status_code resp =? 401); [done|].
  destruct (((status_code resp =? 404) || (status_code resp =? 410)) || (500 <=? status_code resp));
    [done|].
  set (st' := match (get_task_state resp).1 with Some s0 => Some s0 | None => st end).
  destruct ws as [w|], st' as [x|]; cbn [orb];
    [|by repeat case_match| |by repeat case_match].
  - destruct (decide (w = x)) as [->|Hne]; [rewrite !bool_decide_true by done; cbn [orb]; done|].
    rewrite !bool_decide_false by congruence. cbn [orb]. destruct (terminal x); by repeat case_match.
  - rewrite bool_decide_false by done. cbn [orb]. destruct (terminal x); by repeat case_match.
Qed.

(** ** A clock that advances *)

(** [sleep d] takes at least [d] and an exchange takes no negative time: what
    [time.monotonic] and [time.sleep] document. *)
Definition clock_advances : Prop :=
  (forall d w, 0 <= d -> monotonic w + d <= monotonic (sleep d w)) /\
  (forall rq w, monotonic w <= monotonic (transport rq w).1).

Lemma length_sent (s : mstate W) rq : length (trace (sent s rq)) = S (length (trace s)).
Proof. unfold sent. simpl. rewrite length_app. simpl. lia. Qed.

Lemma poll_timeout fuel url sleep_time ws t started st (s : mstate W) :
  clock_advances -> 1 <= sleep_time ->
  t - (monotonic (world s) - started) <= Z.of_nat fuel * (1000 * sleep_time) ->
  let out := poll (S fuel) url sleep_time ws (Some t) started st s in
  out.2 <> NoFuel /\ (length (trace out.1) <= length (trace s) + S fuel)%nat.
Proof.
  intros [Hsleep Htr] Hst. cbv zeta. revert st s. induction fuel as [|fuel IH]; intros st s Hfuel.
  all: rewrite poll_round by lia; cbv zeta;
    set (rq := sync_request (mgr s) GET url [] None); set (s1 := sent s rq).
  all: pose proof (length_sent s rq) as Hlen; fold s1 in Hlen.
  all: assert (monotonic (world s) <= monotonic (world s1)) as Hmono by apply Htr.
  all: destruct (reply s rq) as [resp|e|] eqn:Hr; cbn [fst snd];
    [|split; [done|lia]|by destruct (reply_ends s rq)].
  all: destruct (judge ws st resp) as [o|st'] eqn:Hj; cbn [fst snd];
    [split; [|lia]; unfold judge in Hj; intros ->; by repeat case_match; simplify_eq|].
  all: destruct (timed_out (Some t) started s1) eqn:Ht; cbn [fst snd]; [split; [done|lia]|].
  all: unfold timed_out in Ht; apply Z.leb_gt in Ht.
  { exfalso. lia. }
  set (delay := Z.max sleep_time (retry_after resp)). assert (sleep_time <= delay) by lia.
  pose proof (Hsleep (1000 * delay) (world s1) ltac:(lia)) as Hslept.
  destruct (IH st' (slept delay s1)) as [H1 H2].
  - cbn [world slept set_world]. nia.
  - change (trace (slept delay s1)) with (trace s1) in H2. split; [exact H1|lia].
Qed.

(** C10.  A wait with a timeout ends: when the clock advances and the polls are at
    least a second apart, [fetch_task] gives a result (a state or an exception)
    after at most [timeout / sleep_time + 2] polls, whatever the service
    answers. *)
Theorem fetch_task_timeout task_id sleep_time ws t (s : mstate W) :
  clock_advances -> 1 <= sleep_time -> 0 <= t ->
  let polls := (Z.to_nat (t / (1000 * sleep_time)) + 2)%nat in
  let out := fetch_task polls task_id (Some sleep_time) ws (Some t) s in
  out.2 <> NoFuel /\ (length (trace out.1) <= length (trace s) + polls)%nat.
Proof.
  intros Hc Hs Ht. cbv zeta. unfold fetch_task, bind, gets.
  change (default 0 (Some sleep_time)) with sleep_time.
  replace (Z.to_nat (t / (1000 * sleep_time)) + 2)%nat
    with (S (S (Z.to_nat (t / (1000 * sleep_time))))) by lia.
  apply poll_timeout; [done..|].
  rewrite Nat2Z.inj_succ, Z2Nat.id by (apply Z.div_pos; lia).
  pose proof (Z.mod_pos_bound t (1000 * sleep_time) ltac:(lia)).
  pose proof (Z.div_mod t (1000 * sleep_time) ltac:(lia)). nia.
Qed.
End Poll.

(** ** A scripted task monitor

    The answers a poller sees, in order; the monitor is gone (404) after the
    last one. *)

Record script := Script { answers : list response; now : Z }.

Definition gone : response := Response 404 [] (inl (PDict [])).

#[export] Instance script_world : World script := {
  transport _ w := match answers w with
                   | [] => (w, inl gone)
                   | r :: rs => (Script rs (now w), inl r)
                   end;
  monotonic := now;
  sleep d w := Script (answers w) (now w + d)
}.

(** The monitor itself ends the wait. *)
Definition reaped (r : response) : bool :=
  ((status_code r =? 404) || (status_code r =? 410)) || (500 <=? status_code r).

Definition unauthorized (r : response) : bool := status_code r =? 401.

(** The state a running monitor reports. *)
Definition reported (r : response) : option TaskState :=
  if unauthorized r || reaped r then None else (get_task_state r).1.

(** After [r] the wait goes on. *)
Definition pending (ws : option TaskState) (r : response) : Prop :=
  unauthorized r = false /\ reaped r = false /\
  forall s, reported r = Some s -> awaited ws s = false.

(** After [r] it does not. *)
Definition decisive (ws : option TaskState) (r : response) : Prop :=
  unauthorized r = true \/ reaped r = true \/
  exists s, reported r = Some s /\ awaited ws s = true.

(** The last state reported by [rs], [st] if there is none. *)
Definition last_state (st : option TaskState) (rs : list response) : option TaskState :=
  fold_left (fun acc r => match reported r with Some s => Some s | None => acc end) rs st.

Lemma judge_spec ws st r :
  (forall x, st = Some x -> awaited ws x = false) ->
  (judge ws st r = Over (if unauthorized r
                         then Raise (AuthenticationFailed (PStr "task service returned 401."))
                         else Ok (last_state st [r])) /\ decisive ws r) \/
  (judge ws st r = Again (last_state st [r]) /\ pending ws r /\
   forall x, last_state st [r] = Some x -> awaited ws x = false).
Proof.
  intros Hst. unfold judge, decisive, pending, reported, last_state. simpl. unfold reported.
  change (status_code r =? 401) with (unauthorized r).
  change (((status_code r =? 404) || (status_code r =? 410)) || (500 <=? status_code r))
    with (reaped r).
  destruct (unauthorized r); [left; auto|]. destruct (reaped r); [left; auto|]. cbn [orb].
  destruct (get_task_state r).1 as [x|].
  - destruct (awaited ws x) eqn:Hx; [left; naive_solver|right; naive_solver].
  - destruct st as [x|]; [rewrite (Hst x eq_refl)|]; right; naive_solver.
Qed.

Lemma last_state_cons st r rs : last_state st (r :: rs) = last_state (last_state st [r]) rs.
Proof. reflexivity. Qed.

(** What the loop does on a script, from any round. *)
Lemma poll_script url sleep_time ws st started m rs fuel clk tr cs act :
  0 <= sleep_time -> (forall x, st = Some x -> awaited ws x = false) ->
  (length rs < fuel)%nat ->
  let s := MState (Script rs clk) tr m cs act in
  let out := poll fuel url sleep_time ws None started st s in
  exists seen final,
    (exists rest, rs ++ [gone] = seen ++ final :: rest) /\
    Forall (pending ws) seen /\ decisive ws final /\
    trace out.1 = tr ++ replicate (S (length seen)) (sync_request m GET url [] None) /\
    out.2 = (if unauthorized final
             then Raise (AuthenticationFailed (PStr "task service returned 401."))
             else Ok (last_state st (seen ++ [final]))).
Proof.
  intros Hs. cbv zeta. revert st clk tr fuel.
  induction rs as [|r rs IH]; intros st clk tr [|fuel] Hst Hf; simpl in Hf; [lia| |lia|].
  - rewrite poll_round by done. cbv zeta. unfold reply, sent.
    cbn [world trace mgr caches active transport script_world answers fst snd].
    exists [], gone. destruct (judge_spec ws st gone Hst) as [[-> Hd]|(_ & (_ & Hp & _) & _)];
      [|done].
    split; [by exists []|]. split; [constructor|]. done.
  - rewrite poll_round by done. cbv zeta. unfold reply, sent.
    cbn [world trace mgr caches active transport script_world answers fst snd].
    destruct (judge_spec ws st r Hst) as [[-> Hd]|(-> & Hp & Hst')].
    + exists [], r. split; [by exists (rs ++ [gone])|]. split; [constructor|]. done.
    + cbv beta iota. unfold timed_out, slept, set_world. simpl.
      destruct (IH (last_state st [r]) (clk + 1000 * Z.max sleep_time (retry_after r))
                  (tr ++ [sync_request m GET url [] None]) fuel) as
        (seen & final & [rest Hsplit] & Hseen & Hfin & Htr & Hout); [done|lia|].
      exists (r :: seen), final. split; [exists rest; simpl; by rewrite Hsplit|].
      split; [by constructor|]. split; [done|]. split.
      * etransitivity; [exact Htr|]. by rewrite <- app_assoc.
      * exact Hout.
Qed.

(** C9.  What a wait without a timeout does: it polls until the first decisive
    answer (401, a reaped monitor, a server error, a terminal state or the
    state waited for) and not further; every poll is the same authenticated
    GET; a 401 raises and otherwise the result is the last state any polled
    answer reported. *)
Theorem fetch_task_result task_id sleep_time ws m rs fuel clk tr cs act :
  0 <= sleep_time -> (length rs < fuel)%nat ->
  let s := MState (Script rs clk) tr m cs act in
  let out := fetch_task fuel task_id (Some sleep_time) ws None s in
  exists seen final,
    (exists rest, rs ++ [gone] = seen ++ final :: rest) /\
    Forall (pending ws) seen /\ decisive ws final /\
    trace out.1 = tr ++ replicate (S (length seen))
      (sync_request m GET (base_url m (tasks_path +:+ task_id)) [] None) /\
    out.2 = (if unauthorized final
             then Raise (AuthenticationFailed (PStr "task service returned 401."))
             else Ok (last_state None (seen ++ [final]))).
Proof. intros Hs Hf. unfold fetch_task, bind, gets. by apply poll_script. Qed.

(** ** Evaluation *)

Definition running_then (st : string) : list response :=
  [Response 202 [] (inl (PDict [("TaskState", PStr "Running")]));
   Response 202 [("retry-after", "30")] (inl (PDict [("TaskState", PStr "Starting2")]));
   Response 200 [] (inl (PDict [("TaskState", PStr st)]));
   Response 200 [] (inl (PDict [("TaskState", PStr "New")]))].

Definition script_state (rs : list response) : mstate script :=
  MState (Script rs 0) [] sample_manager [] None.

Example fetch_completed :
  let out := fetch_task 5 "42" (Some 10) None None (script_state (running_then "Completed")) in
  out.2 = Ok (Some Completed) /\ length (trace out.1) = 3%nat /\ now (world out.1) = 40000.
Proof. vm_compute. auto. Qed.

Lemma fetch_task_result_witness :
  exists seen final,
    (exists rest, running_then "Completed" ++ [gone] = seen ++ final :: rest) /\
    Forall (pending None) seen /\ decisive None final /\
    trace (fetch_task 5 "42" (Some 10) None None (script_state (running_then "Completed"))).1
      = replicate (S (length seen))
      (sync_request sample_manager GET (base_url sample_manager (tasks_path +:+ "42")) [] None) /\
    (fetch_task 5 "42" (Some 10) None None (script_state (running_then "Completed"))).2 =
      (if unauthorized final
       then Raise (AuthenticationFailed (PStr "task service returned 401."))
       else Ok (last_state None (seen ++ [final]))).
Proof.
  apply (fetch_task_result "42" 10 None sample_manager (running_then "Completed") 5 0 [] [] None);
    [lia|simpl; lia].
Defined.

Lemma script_clock_advances : clock_advances (W := script).
Proof. split; [intros d w Hd; simpl; lia|]. intros rq w. simpl. destruct (answers w); simpl; lia. Qed.

Definition stuck : list response :=
  replicate 20 (Response 202 [] (inl (PDict [("TaskState", PStr "Running")]))).

Lemma fetch_task_timeout_witness :
  let out := fetch_task 8 "42" (Some 10) None (Some 60000) (script_state stuck) in
  (out.2 <> NoFuel /\ (length (trace out.1) <= 8)%nat) /\ out.2 = Ok (Some Running).
Proof.
  split; [|vm_compute; reflexivity].
  exact (fetch_task_timeout "42" 10 None 60000 (script_state stuck) script_clock_advances
           ltac:(lia) ltac:(lia)).
Defined.
End Tasks.
