(* ===== verification/Csdl.v ===== *)
(** * Action metadata from CSDL schemas

    src/redfish_ctl/redfish_csdl.py.  The schema bundle is a directory of XML
    files; here it is the list of the parsed documents in the order of their
    sorted paths, and reading and parsing the files is the XML library's.  The
    results are looked up and never enumerated, so the dicts are finite maps;
    [functools.lru_cache] does not show in the results. *)

From stdpp Require Import base list gmap strings.
From Stdlib Require Import Ascii ZArith Lia.
From S2P Require Import Prelude PyVal.

Module Csdl.

(** An element of [xml.etree.ElementTree] *)
#[warnings="-register-all"]
Inductive xml := Elem (tag : string) (attrib : list (string * string)) (children : list xml).

Definition tag (x : xml) : string := let 'Elem t _ _ := x in t.
Definition attrib (x : xml) : list (string * string) := let 'Elem _ a _ := x in a.
Definition children (x : xml) : list xml := let 'Elem _ _ c := x in c.

(** [root.iter()]: the element and its descendants in document order *)
Fixpoint iter (x : xml) : list xml :=
  let 'Elem _ _ cs := x in x :: flat_map iter cs.

(** [x.attrib.get(k, d)] *)
Definition attr (k d : string) (x : xml) : string := dict_get_or k d (attrib x).

(** [CsdlActionParameter] *)
Record CsdlActionParameter := Parameter_ {
  p_name : string;
  type_name : string;
  allowable_values : list string;
  nullable : bool
}.

(** [_local_name(tag)] *)
Definition local_name (t : string) : string := PyStr.last_or "" (PyStr.split "}"%char t).

(** ** The version suffix [\.v\d+_\d+_\d+$] *)

(** One or more digits, then the rest. *)
Fixpoint skip_digits (s : string) : option string :=
  match s with
  | String c s' =>
      if PyStr.is_digit c then
        match skip_digits s' with Some r => Some r | None => Some s' end
      else None
  | EmptyString => None
  end.

Definition skip_char (c : ascii) (s : string) : option string :=
  match s with
  | String x s' => if decide (x = c) then Some s' else None
  | EmptyString => None
  end.

(** A match of the suffix at the start of [s]; what is left is empty or the
    final newline that [$] tolerates. *)
Definition version_suffix (s : string) : option string :=
  s ← skip_char "."%char s;
  s ← skip_char "v"%char s;
  s ← skip_digits s;
  s ← skip_char "_"%char s;
  s ← skip_digits s;
  s ← skip_char "_"%char s;
  r ← skip_digits s;
  match r with
  | EmptyString => Some r
  | String c EmptyString => if decide (c = "010"%char) then Some r else None
  | _ => None
  end.

(** [_namespace_family(namespace)] *)
Fixpoint namespace_family (ns : string) : string :=
  match version_suffix ns with
  | Some rest => rest
  | None => match ns with
            | EmptyString => EmptyString
            | String c s => String c (namespace_family s)
            end
  end.

(** [parts[:-1]] *)
Definition init_parts (l : list string) : list string := take (length l - 1) l.

(** [_type_key(type_name)] *)
Definition type_key (t : string) : string :=
  let cleaned := PyStr.strip t in
  let cleaned := if PyStr.startswith "Collection(" cleaned && PyStr.endswith ")" cleaned
                 then String.substring 11 (String.length cleaned - 12) cleaned else cleaned in
  let parts := PyStr.split "."%char cleaned in
  if (2 <=? length parts)%nat
  then namespace_family (PyStr.join "." (init_parts parts)) +:+ "." +:+ PyStr.last_or "" parts
  else cleaned.

(** ** Loading *)

Abbreviation enum_map := (gmap string (list string)).
Abbreviation action_map := (gmap (string * string) (list CsdlActionParameter)).

Definition enum_members (x : xml) : list string :=
  omap (fun m => if bool_decide (local_name (tag m) = "Member")
                 then match dict_get "Name" (attrib m) with
                      | Some n => if PyStr.nonempty n then Some n else None
                      | None => None
                      end
                 else None) (children x).

(** The parameters of an [Action] element, without the binding one. *)
Definition action_params (x : xml) : list CsdlActionParameter :=
  let parameters := filter (fun p => local_name (tag p) = "Parameter"
                                     /\ PyStr.nonempty (attr "Name" "" p) = true) (children x) in
  let parameters := if bool_decide (PyStr.lower (attr "IsBound" "" x) = "true")
                    then tail parameters else parameters in
  map (fun p => Parameter_ (attr "Name" "" p) (attr "Type" "" p) []
                  (negb (bool_decide (PyStr.lower (attr "Nullable" "true" p) = "false")))) parameters.

(** One child of a [Schema] element. *)
Definition parse_child (namespace : string) (acc : enum_map * action_map) (x : xml)
  : enum_map * action_map :=
  let family := namespace_family namespace in
  let name := attr "Name" "" x in
  if negb (PyStr.nonempty name) then acc
  else if decide (local_name (tag x) = "EnumType") then
    let values := enum_members x in
    (<[family +:+ "." +:+ name := values]> (<[namespace +:+ "." +:+ name := values]> acc.1), acc.2)
  else if decide (local_name (tag x) = "Action") then
    let params := action_params x in
    (acc.1, <[(family, name) := params]> (<[(namespace, name) := params]> acc.2))
  else acc.

(** [_parse_schema_file(path)] *)
Definition parse_schema_file (root : xml) : enum_map * action_map :=
  fold_left (fun acc schema =>
    if decide (local_name (tag schema) = "Schema")
    then fold_left (parse_child (attr "Namespace" "" schema)) (children schema) acc
    else acc) (iter root) (∅, ∅).

(** [_load_action_parameters(schema_dir)] *)
Definition load_action_parameters (files : list xml) : action_map :=
  let '(enums, actions) :=
    fold_left (fun acc root => let '(e, a) := parse_schema_file root in (e ∪ acc.1, a ∪ acc.2))
      files (∅, ∅) in
  (fun params => map (fun p => Parameter_ (p_name p) (type_name p)
      (default [] (enums !! type_key (type_name p))) (nullable p)) params) <$> actions.

(** [action_parameters_for(full_action_type)] *)
Definition action_parameters_for (files : list xml) (full_action_type : string)
  : gmap string CsdlActionParameter :=
  let parts := PyStr.split "."%char (PyStr.lstrip_char "#"%char full_action_type) in
  if (length parts <? 2)%nat then ∅
  else
    let namespace := namespace_family (PyStr.join "." (init_parts parts)) in
    let params := default [] (load_action_parameters files !! (namespace, PyStr.last_or "" parts)) in
    fold_left (fun m p => <[p_name p := p]> m) params ∅.

(** ** Evaluation *)

Definition sample_schema : xml :=
  Elem "{edmx}Edmx" [] [Elem "{edmx}DataServices" []
    [Elem "{edm}Schema" [("Namespace", "ComputerSystem.v1_5_0")]
       [Elem "{edm}EnumType" [("Name", "ResetKind")]
          [Elem "{edm}Member" [("Name", "On")] []; Elem "{edm}Member" [("Name", "ForceOff")] []];
        Elem "{edm}Action" [("Name", "Reset"); ("IsBound", "true")]
          [Elem "{edm}Parameter" [("Name", "ComputerSystem"); ("Type", "ComputerSystem.v1_0_0.Actions")] [];
           Elem "{edm}Parameter" [("Name", "ResetType"); ("Type", "ComputerSystem.v1_5_0.ResetKind")] []]]]].

Example namespace_versions :
  namespace_family "Manager.v1_5_0" = "Manager" /\ namespace_family "Manager" = "Manager" /\
  namespace_family "A.v1_2" = "A.v1_2" /\
  type_key " Collection(Resource.v1_0_0.Reset) " = "Resource.Reset".
Proof. vm_compute. auto. Qed.

Example sample_parameters :
  map_to_list (action_parameters_for [sample_schema] "#ComputerSystem.Reset") =
  [("ResetType", Parameter_ "ResetType" "ComputerSystem.v1_5_0.ResetKind" ["On"; "ForceOff"] true)].
Proof. vm_compute. reflexivity. Qed.
End Csdl.
