(* ===== verification/ActionPolicy.v ===== *)
(** * The destructiveness policy of Redfish actions

    src/redfish_ctl/actions/action_policy.py: the level of each known action,
    and [classify], which takes an unlisted action as destructive. *)

From stdpp Require Import base list strings.
From S2P Require Import Prelude PyVal.

Module ActionPolicy.

Inductive Destructiveness := READ_ONLY | REVERSIBLE | DESTRUCTIVE | IRREVERSIBLE.

#[export] Instance Destructiveness_eq_dec : EqDecision Destructiveness.
Proof. solve_decision. Defined.

(** [level.value] *)
Definition level_value (l : Destructiveness) : string :=
  match l with
  | READ_ONLY => "read_only"
  | REVERSIBLE => "reversible"
  | DESTRUCTIVE => "destructive"
  | IRREVERSIBLE => "irreversible"
  end.

(** ** [ACTION_POLICY], in the sections the source groups it by *)

Abbreviation policy := (list (string * Destructiveness)).

(** A signed-measurement fetch or an export carried over POST. *)
Definition policy_read_only : policy :=
  [("#ComponentIntegrity.SPDMGetSignedMeasurements", READ_ONLY);
   ("#ComponentIntegrity.TPMGetSignedMeasurements", READ_ONLY);
   ("#DellLCService.SupportAssistGetAutoCollectSchedule", READ_ONLY);
   ("#DellLCService.SupportAssistGetEULAStatus", READ_ONLY);
   ("#DelliDRACCardService.ExportCertificate", READ_ONLY);
   ("#DelliDRACCardService.ExportSSLCertificate", READ_ONLY);
   ("#DelliDRACCardService.FactoryIdentityExportCertificate", READ_ONLY);
   ("#DelliDRACCardService.VerifyHWProofOfPossession", READ_ONLY);
   ("#DellRaidService.CheckVDValues", READ_ONLY)].

(** State changes that can be undone. *)
Definition policy_reversible : policy :=
  [("#EventService.SubmitTestEvent", REVERSIBLE);
   ("#DelliDRACCardService.TestSEKMServerConnection", REVERSIBLE);
   ("#HpeDirectoryTest.StartTest", REVERSIBLE);
   ("#HpeDirectoryTest.StopTest", REVERSIBLE);
   ("#HpeiLOSnmpService.SendSNMPTestAlert", REVERSIBLE);
   ("#HpeiLOManagerNetworkService.SendTestAlertMail", REVERSIBLE);
   ("#HpeiLOManagerNetworkService.SendTestSyslog", REVERSIBLE);
   ("#DellLCService.TestNetworkShare", REVERSIBLE);
   ("#DelliDRACCardService.SendTestEmailAlert", REVERSIBLE);
   ("#DelliDRACCardService.SendTestSNMPTrap", REVERSIBLE);
   ("#DelliDRACCardService.TestRsyslogServerConnection", REVERSIBLE);
   ("#TelemetryService.SubmitTestMetricReport", REVERSIBLE);
   ("#VirtualMedia.InsertMedia", REVERSIBLE);
   ("#VirtualMedia.EjectMedia", REVERSIBLE);
   ("#CertificateService.GenerateCSR", REVERSIBLE);
   ("#DelliDRACCardService.FactoryIdentityCertificateGenerateCSR", REVERSIBLE);
   ("#DelliDRACCardService.GenerateSEKMCSR", REVERSIBLE);
   ("#LogService.CollectDiagnosticData", REVERSIBLE);
   ("#NvidiaPowerSmoothing.ActivatePresetProfile", REVERSIBLE);
   ("#NvidiaPowerSmoothing.ApplyAdminOverrides", REVERSIBLE);
   ("#NvidiaWorkloadPower.EnableProfiles", REVERSIBLE);
   ("#NvidiaWorkloadPower.DisableProfiles", REVERSIBLE);
   ("#NvidiaDebugToken.GenerateToken", REVERSIBLE);
   ("#NvidiaDebugToken.DisableToken", REVERSIBLE);
   ("#DellSwitchConnectionService.ServerPortConnectionRefresh", REVERSIBLE);
   ("#DellRaidService.BlinkTarget", REVERSIBLE);
   ("#DellRaidService.UnBlinkTarget", REVERSIBLE);
   ("#DellLCService.UpdateOSAppHealthData", REVERSIBLE);
   ("#DellRaidService.StartPatrolRead", REVERSIBLE);
   ("#DellRaidService.StopPatrolRead", REVERSIBLE);
   ("#DellLCService.SupportAssistClearAutoCollectSchedule", REVERSIBLE);
   ("#DellLCService.SupportAssistSetAutoCollectSchedule", REVERSIBLE)].

(** Service disruption or a rewritten configuration, with two entries the source
    raises to irreversible in place. *)
Definition policy_destructive : policy :=
  [("#ComputerSystem.Reset", DESTRUCTIVE);
   ("#Manager.Reset", DESTRUCTIVE);
   ("#Chassis.Reset", DESTRUCTIVE);
   ("#NetworkAdapter.Reset", DESTRUCTIVE);
   ("#Control.ResetToDefaults", DESTRUCTIVE);
   ("#Bios.ResetBios", DESTRUCTIVE);
   ("#Bios.ChangePassword", DESTRUCTIVE);
   ("#DellBIOSService.DeviceRecovery", DESTRUCTIVE);
   ("#DellPersistentStorageService.VFlashStateChange", DESTRUCTIVE);
   ("#DellLCService.ClearProvisioningServer", DESTRUCTIVE);
   ("#LicenseService.Install", DESTRUCTIVE);
   ("#HpeServerChassis.DisableMCTPOnServer", DESTRUCTIVE);
   ("#HpeiLOAccountService.ImportKerberosKeytab", DESTRUCTIVE);
   ("#DellLicenseManagementService.DeleteLicense", DESTRUCTIVE);
   ("#DellLicenseManagementService.ExportLicense", DESTRUCTIVE);
   ("#DellLicenseManagementService.ExportLicenseByDevice", DESTRUCTIVE);
   ("#DellLicenseManagementService.ExportLicenseByDeviceToNetworkShare", DESTRUCTIVE);
   ("#DellLicenseManagementService.ExportLicenseToNetworkShare", DESTRUCTIVE);
   ("#DellLicenseManagementService.ImportLicense", DESTRUCTIVE);
   ("#DellLicenseManagementService.ImportLicenseFromNetworkShare", DESTRUCTIVE);
   ("#DellRaidService.AssignSpare", DESTRUCTIVE);
   ("#DellRaidService.UnassignSpare", DESTRUCTIVE);
   ("#DellLCService.ExportCompleteLCLog", DESTRUCTIVE);
   ("#DellLCService.ExportFactoryConfiguration", DESTRUCTIVE);
   ("#DellLCService.ExportHWInventory", DESTRUCTIVE);
   ("#DellLCService.ExportLCLog", DESTRUCTIVE);
   ("#DellLCService.ExportSVGFile", DESTRUCTIVE);
   ("#DellLCService.ExportServerScreenShot", DESTRUCTIVE);
   ("#DellLCService.ExportTechSupportReport", DESTRUCTIVE);
   ("#DellLCService.ExportVideoLog", DESTRUCTIVE);
   ("#DellLCService.ExportePSADiagnosticsResult", DESTRUCTIVE);
   ("#DellSoftwareInstallationService.ClearUpdateSchedule", DESTRUCTIVE);
   ("#DellSoftwareInstallationService.SetUpdateSchedule", DESTRUCTIVE);
   ("#DellLCService.SupportAssistExportLastCollection", DESTRUCTIVE);
   ("#DellPersistentStorageService.AttachPartition", DESTRUCTIVE);
   ("#DellPersistentStorageService.CreatePartition", DESTRUCTIVE);
   ("#DellPersistentStorageService.CreatePartitionUsingImage", DESTRUCTIVE);
   ("#DellPersistentStorageService.DetachPartition", DESTRUCTIVE);
   ("#DellPersistentStorageService.ExportDataFromPartition", DESTRUCTIVE);
   ("#DellPersistentStorageService.ModifyPartition", DESTRUCTIVE);
   ("#DellRaidService.RenameVD", DESTRUCTIVE);
   ("#LogService.ClearLog", DESTRUCTIVE);
   ("#TelemetryService.ClearMetricReports", DESTRUCTIVE);
   ("#TelemetryService.ResetMetricReportDefinitionsToDefaults", DESTRUCTIVE);
   ("#DellJobService.SetupJobQueue", DESTRUCTIVE);
   ("#DellRaidService.SetAssetName", DESTRUCTIVE);
   ("#DellRaidService.SetBootVD", DESTRUCTIVE);
   ("#DellSystemManagementService.ShowErrorsOnLCD", DESTRUCTIVE);
   ("#DellLCService.ReInitiateAutoDiscovery", DESTRUCTIVE);
   ("#DellLCService.ReInitiateDHS", DESTRUCTIVE);
   ("#Volume.CheckConsistency", DESTRUCTIVE);
   ("#DellRaidService.CancelBackgroundInitialization", DESTRUCTIVE);
   ("#DellRaidService.CancelCheckConsistency", DESTRUCTIVE);
   ("#DellRaidService.CancelRebuildPhysicalDisk", DESTRUCTIVE);
   ("#DellLCService.ExposeiSMInstallerToHostOS", DESTRUCTIVE);
   ("#DellRaidService.ClearControllerPreservedCache", IRREVERSIBLE);
   ("#DellRaidService.ClearForeignConfig", IRREVERSIBLE);
   ("#DellRaidService.ChangePDState", DESTRUCTIVE);
   ("#DellRaidService.PrepareToRemove", DESTRUCTIVE);
   ("#DellRaidService.RebuildPhysicalDisk", DESTRUCTIVE);
   ("#CertificateService.ReplaceCertificate", DESTRUCTIVE);
   ("#SecureBoot.ResetKeys", DESTRUCTIVE);
   ("#SecureBootDatabase.ResetKeys", DESTRUCTIVE);
   ("#NvidiaDebugToken.InstallToken", DESTRUCTIVE);
   ("#UpdateService.SimpleUpdate", DESTRUCTIVE);
   ("#UpdateService.StartUpdate", DESTRUCTIVE);
   ("#SmcNodeManager.ClearAllPolicies", DESTRUCTIVE);
   ("#DellMetricService.ControlMetrics", DESTRUCTIVE);
   ("#DellMetricService.ExportThermalHistory", DESTRUCTIVE);
   ("#DelliDRACCardService.DisableiLKM", DESTRUCTIVE);
   ("#DelliDRACCardService.DisableSEKM", DESTRUCTIVE);
   ("#DelliDRACCardService.EnableiLKM", DESTRUCTIVE);
   ("#DelliDRACCardService.EnableSEKM", DESTRUCTIVE);
   ("#DelliDRACCardService.Rekey", DESTRUCTIVE);
   ("#DelliDRACCardService.iLKMToSEKMTransition", DESTRUCTIVE);
   ("#DelliDRACCardService.DeleteGroup", DESTRUCTIVE);
   ("#DelliDRACCardService.JoinGroup", DESTRUCTIVE);
   ("#DelliDRACCardService.RemoveSelf", DESTRUCTIVE)].

(** Data loss or a one-way security change. *)
Definition policy_irreversible : policy :=
  [("#Drive.SecureErase", IRREVERSIBLE);
   ("#DellRaidService.ImportForeignConfig", IRREVERSIBLE);
   ("#DellRaidService.UnLockSecureForeignConfig", IRREVERSIBLE);
   ("#Manager.ResetToDefaults", IRREVERSIBLE);
   ("#HpeServerChassis.FactoryResetMCTP", IRREVERSIBLE);
   ("#NvidiaRoTProtectedComponent.RevokeKeys", IRREVERSIBLE);
   ("#NvidiaRoTProtectedComponent.UpdateMinimumSecurityVersion", IRREVERSIBLE);
   ("#DellPersistentStorageService.DeletePartition", IRREVERSIBLE);
   ("#DellPersistentStorageService.FormatPartition", IRREVERSIBLE);
   ("#DellPersistentStorageService.InitializeMedia", IRREVERSIBLE)].

Definition ACTION_POLICY : policy :=
  policy_read_only ++ policy_reversible ++ policy_destructive ++ policy_irreversible.

Definition DEFAULT_LEVEL : Destructiveness := DESTRUCTIVE.

(** [classify(full_action_type)] *)
Definition classify (full_action_type : string) : Destructiveness :=
  if PyStr.nonempty full_action_type
  then dict_get_or full_action_type DEFAULT_LEVEL ACTION_POLICY
  else DEFAULT_LEVEL.

(** ** Facts *)

(** The table lists no action twice, so the order of its sections is immaterial. *)
Lemma policy_keys_unique : NoDup (dict_keys ACTION_POLICY).
Proof. apply (bool_decide_unpack _). vm_compute. exact I. Qed.

(** The fail-safe: whatever is not in the table needs a confirmation. *)
Lemma classify_unlisted a : a ∉ dict_keys ACTION_POLICY -> classify a = DESTRUCTIVE.
Proof.
  intros Ha. unfold classify. destruct (PyStr.nonempty a); [|done].
  unfold dict_get_or. apply dict_get_None in Ha. by rewrite Ha.
Qed.

(** An action that runs without confirmation is one of the listed harmless ones. *)
Lemma classify_free a :
  classify a = READ_ONLY \/ classify a = REVERSIBLE ->
  a ∈ dict_keys (policy_read_only ++ policy_reversible).
Proof.
  unfold classify, dict_get_or. intros Hc.
  destruct (PyStr.nonempty a); [|by destruct Hc].
  destruct (dict_get a ACTION_POLICY) as [l|] eqn:Hl; [|by destruct Hc]. simpl in Hc.
  apply dict_get_In in Hl.
  assert (Forall (fun kl => kl.2 = READ_ONLY \/ kl.2 = REVERSIBLE ->
                            kl.1 ∈ dict_keys (policy_read_only ++ policy_reversible)) ACTION_POLICY)
    as Hall by (apply (bool_decide_unpack _); vm_compute; exact I).
  rewrite Forall_forall in Hall. exact (Hall _ Hl Hc).
Qed.
End ActionPolicy.
