(* ===== verification/Actions.v ===== *)
(** * Redfish actions: discovery, validation, the guarded POST

    src/redfish_ctl/redfish_manager.py, [_flatten_action_targets],
    [_validate_action_payload], [_get_actions], [discover_redfish_actions],
    [discover_member_redfish_actions] and [invoke_action]; [RedfishAction] is
    from redfish_api_common.py.  The schema bundle on disk is the parameter
    [schemas]. *)

From stdpp Require Import base list gmap strings pretty.
From Stdlib Require Import Ascii ZArith Lia.
From S2P Require Import Prelude PyVal Effects Query Http Manager ActionPolicy Csdl.

Module Actions.
Import Http RedfishManager ActionPolicy.
Local Open Scope Z_scope.
Local Open Scope py_scope.

(** ** Discovery of the actions of a resource *)

(** [RedfishAction]; [args] is [None] until an argument is added. *)
Record RedfishAction := Action_ {
  action_name : string;
  full_redfish_name : string;
  target : pyval;
  args : option pydict
}.

(** [add_action_arg(arg_name, allowable_value)] *)
Definition add_action_arg (arg_name : string) (allowable : pyval) (a : RedfishAction) : RedfishAction :=
  Action_ (action_name a) (full_redfish_name a) (target a)
    (Some (dict_set arg_name allowable (default [] (args a)))).

(** [dict(action)], through [__iter__] *)
Definition action_val (a : RedfishAction) : pyval :=
  PDict [("action_name", PStr (action_name a));
         ("full_redfish_name", PStr (full_redfish_name a));
         ("target", target a);
         ("args", match args a with Some d => PDict d | None => PNone end)].

Definition actions_val (actions : list (string * RedfishAction)) : pyval :=
  PDict (map (fun kv => (kv.1, action_val kv.2)) actions).

Definition type_error (what : string) (v : pyval) : exn :=
  TypeError (what +:+ ": " +:+ type_name v).

Definition no_attribute (v : pyval) (attr : string) : exn :=
  AttributeError ("'" +:+ type_name v +:+ "' object has no attribute '" +:+ attr +:+ "'").

(** The two dicts [_get_actions] fills side by side: the raw entries and the
    full names, both keyed by the short name. *)
Abbreviation found := (pydict * list (string * string))%type.

(** [Type.Action] with its last part as the short name *)
Definition record_action (acc : found) (full : string) (entry : pyval) : found :=
  let parts := PyStr.split "."%char full in
  if (length parts <? 2)%nat then acc
  else let short := PyStr.last_or "" parts in
       (dict_set short entry acc.1, dict_set short full acc.2).

(** [redfish_actions[a]] on a list, for its first item [a]: there is no list on
    which the loop gets past it *)
Definition index_list (l : list pyval) (a : pyval) : exn :=
  let at_index i := if (- Z.of_nat (length l) <=? i) && (i <? Z.of_nat (length l))
                    then no_attribute a "split" else IndexError "list index out of range" in
  match a with
  | PInt i => at_index i
  | PBool b => at_index (if b then 1 else 0)
  | _ => type_error "list indices must be integers or slices, not" a
  end.

(** [_get_actions(cls, json_data)] *)
Definition get_actions (json_data : pyval) : res found :=
  match py_in "Actions" json_data with
  | None => Raise (type_error "argument is not iterable" json_data)
  | Some false => Ok ([], [])
  | Some true =>
      match json_data with
      | PDict d =>
          match dget "Actions" d with
          | PDict acts =>
              Ok (fold_left (fun acc kv =>
                    match kv with
                    | ("Oem", PDict oem) =>
                        fold_left (fun acc kv => record_action acc kv.1 kv.2) oem acc
                    | (a, ca) => record_action acc a ca
                    end) acts ([], []))
          | PList (x :: l) | PTuple (x :: l) => Raise (index_list (x :: l) x)
          | PStr (String _ _) => Raise (TypeError "string indices must be integers, not 'str'")
          | PList [] | PTuple [] | PStr EmptyString => Ok ([], [])
          | v => Raise (type_error "object is not iterable" v)
          end
      | v => Raise (type_error "indices must be integers" v)
      end
  end.

(** The action object for one raw entry; [None] when it has no target or is not
    a mapping. *)
Definition make_action (short full : string) (entry : pyval) : res (option RedfishAction) :=
  match py_in "target" entry with
  | None => Raise (type_error "argument is not iterable" entry)
  | Some false => Ok None
  | Some true =>
      match entry with
      | PDict d =>
          Ok (Some (fold_left (fun a kv =>
                if PyStr.contains "@Redfish.AllowableValues" kv.1
                then add_action_arg (default "" (head (PyStr.split "@"%char kv.1))) kv.2 a
                else a) d (Action_ short full (dget "target" d) None)))
      | _ => Ok None
      end
  end.

(** [discover_redfish_actions(cls, json_data)] on a parsed document *)
Definition discover_redfish_actions (json_data : pyval) : res (list (string * RedfishAction)) :=
  let? (unfiltered, full_names) := get_actions json_data in
  res_fold (fun acc kv =>
    let? a := make_action kv.1 (dict_get_or kv.1 "" full_names) kv.2 in
    Ok (match a with Some a => dict_set kv.1 a acc | None => acc end)) [] unfiltered.

(** [discover_member_redfish_actions(cls, json_data)] on a parsed document *)
Definition discover_member_redfish_actions (json_data : pyval)
  : res (list (string * RedfishAction)) :=
  match py_in "Members" json_data with
  | None => Raise (type_error "argument is not iterable" json_data)
  | Some false =>
      match py_in "Actions" json_data with
      | Some true => discover_redfish_actions json_data
      | _ => Ok []
      end
  | Some true =>
      match json_data with
      | PDict d =>
          match py_iter (dget "Members" d) with
          | None => Raise (type_error "object is not iterable" (dget "Members" d))
          | Some ms =>
              res_fold (fun acc m =>
                match m with
                | PDict md => if dict_in "Actions" md
                              then let? a := discover_redfish_actions m in Ok (dict_update acc a)
                              else Ok acc
                | _ => Ok acc
                end) [] ms
          end
      | v => Raise (type_error "indices must be integers" v)
      end
  end.

(** One [#Type.Action] entry of an [Actions] block. *)
Definition flatten_entry (acc : pydict) (kv : string * pyval) : pydict :=
  match kv.2 with
  | PDict d => if truthy (dget "target" d) then dict_set kv.1 (dget "target" d) acc else acc
  | _ => acc
  end.

(** [_flatten_action_targets(resource)] *)
Definition flatten_action_targets (resource : pyval) : res pydict :=
  match py_or resource (PDict []) with
  | PDict r =>
      match py_or (dget "Actions" r) (PDict []) with
      | PDict actions =>
          let out := fold_left (fun acc kv =>
            match kv with
            | ("Oem", PDict oem) => fold_left flatten_entry oem acc
            | _ => flatten_entry acc kv
            end) actions [] in
          match py_or (dget "Oem" r) (PDict []) with
          | PDict oem =>
              Ok (fold_left (fun acc kv =>
                match kv.2 with
                | PDict ext => match dget "Actions" ext with
                               | PDict va => fold_left flatten_entry va acc
                               | _ => acc
                               end
                | _ => acc
                end) oem out)
          | _ => Ok out
          end
      | _ => Ok []
      end
  | v => Raise (no_attribute v "get")
  end.

(** ** Payload validation *)

(** [tuple(values or ())] *)
Definition py_tuple (v : pyval) : res (list pyval) :=
  if truthy v then
    match py_iter v with
    | Some l => Ok l
    | None => Raise (type_error "object is not iterable" v)
    end
  else Ok [].

(** A validation error, the dict [{"parameter", "value", "allowed"}] *)
Record violation := Violation {
  v_parameter : string;
  v_value : pyval;
  v_allowed : list pyval
}.

Definition violation_val (v : violation) : pyval :=
  PDict [("parameter", PStr (v_parameter v)); ("value", v_value v); ("allowed", PList (v_allowed v))].

Section Invoke.
Context (schemas : list Csdl.xml).

(** The parameters of the action with their allowed values, and whether a name
    outside them is an error. *)
Definition action_parameters (full : string) (action : option RedfishAction)
  : res (bool * gmap string (list pyval)) :=
  match action ≫= args with
  | Some ((_ :: _) as inline) =>
      let? m := res_fold (fun m kv => let? l := py_tuple kv.2 in Ok (<[kv.1 := l]> m)) ∅ inline in
      Ok (false, m)
  | _ => Ok (true, (fun p => map PStr (Csdl.allowable_values p)) <$> Csdl.action_parameters_for schemas full)
  end.

(** The check of one payload item. *)
Definition check_item (strict : bool) (parameters : gmap string (list pyval)) (name : string)
    (value : pyval) : res (option violation) :=
  match parameters !! name with
  | None => Ok (if strict then Some (Violation name value []) else None)
  | Some [] => Ok None
  | Some allowed =>
      let values := match value with PList l => l | _ => [value] end in
      match filter (fun item => py_mem item allowed = false) values with
      | [] => Ok None
      | invalid =>
          match py_sorted allowed with
          | Some sorted =>
              Ok (Some (Violation name (match invalid with [x] => x | _ => PList invalid end) sorted))
          | None => Raise (TypeError "'<' not supported between instances")
          end
      end
  end.

(** [_validate_action_payload(full_action_type, action, payload)] *)
Definition validate_action_payload (full : string) (action : option RedfishAction) (payload : pydict)
  : res (list violation) :=
  let? (strict, parameters) := action_parameters full action in
  if decide (parameters = ∅) then Ok []
  else res_fold (fun errors kv =>
         let? e := check_item strict parameters kv.1 kv.2 in
         Ok (match e with Some e => errors ++ [e] | None => errors end)) [] payload.

(** [', '.join(l)] *)
Definition py_join (l : list pyval) : res string :=
  let? strs := res_fold (fun acc v => match v with
                                      | PStr s => Ok (acc ++ [s])
                                      | v => Raise (type_error "sequence item: expected str instance" v)
                                      end) [] l in
  Ok (PyStr.join ", " strs).

(** The message for the first violation. *)
Definition violation_text (full : string) (v : violation) : res string :=
  let label := PyStr.lstrip_char "#"%char full in
  match v_allowed v with
  | [] => Ok ("unknown parameter for " +:+ label +:+ ": " +:+ v_parameter v)
  | allowed =>
      let? text := py_join allowed in
      Ok ("invalid value for " +:+ label +:+ " " +:+ v_parameter v +:+ ": " +:+ py_str (v_value v)
          +:+ "; allowed: " +:+ text)
  end.

(** ** The guard and the POST *)

(** The keyword arguments of [invoke_action]; [full_action_type] is empty when
    it is not given. *)
Record action_call := Call {
  resource_uri : string;
  name : string;
  payload : pydict;
  full_action_type : string;
  call_async : bool;
  dry_run : bool;
  confirm : bool;
  confirm_irreversible : bool
}.

(** The full name and target of the action to run: the exact full type if the
    resource has it, else the short name. *)
Definition resolve_action (resource : pyval) (actions : list (string * RedfishAction)) (c : action_call)
  : res (option (string * pyval)) :=
  let? exact :=
    if PyStr.nonempty (full_action_type c) then
      let? full_targets := flatten_action_targets resource in
      Ok (match dict_get (full_action_type c) full_targets with
          | Some PNone | None => None
          | Some t => Some (full_action_type c, t)
          end)
    else Ok None in
  match exact with
  | Some r => Ok (Some r)
  | None =>
      match dict_get (name c) actions with
      | Some a => if truthy (target a)
                  then Ok (Some (if PyStr.nonempty (full_redfish_name a) then full_redfish_name a
                                 else "#" +:+ name c, target a))
                  else Ok None
      | None => Ok None
      end
  end.

(** Why a POST of this level may not go out; [None] when it may. *)
Definition blocked_reason (level : Destructiveness) (c : action_call) : option string :=
  match level with
  | IRREVERSIBLE =>
      if confirm c && confirm_irreversible c then None
      else Some "irreversible action requires --confirm and --i-understand-irreversible"
  | DESTRUCTIVE => if confirm c then None else Some "destructive action requires --confirm"
  | _ => None
  end.

(** What [invoke_action] decides once it has read the resource: a result without
    a POST, or the POST to send. *)
Inductive decision := Answer (r : CommandResult) | Fire (full : string) (t : pyval).

Definition decide_action (resource : pyval) (actions : list (string * RedfishAction)) (c : action_call)
  : res decision :=
  let? resolved := resolve_action resource actions c in
  match resolved with
  | None =>
      let? full_targets := flatten_action_targets resource in
      let available := sort_strs (dedup (dict_keys actions ++ dict_keys full_targets)) in
      let wanted := if PyStr.nonempty (full_action_type c) then full_action_type c else name c in
      Ok (Answer (mkResult
            (PDict [("action", PStr wanted); ("available", PList (map PStr available))])
            (actions_val actions) PNone
            (PStr ("action '" +:+ wanted +:+ "' not found on " +:+ resource_uri c))))
  | Some (full, t) =>
      let level := classify full in
      let? errors := validate_action_payload full (dict_get (name c) actions) (payload c) in
      let summary := [("action", PStr full); ("target", t); ("payload", PDict (payload c));
                      ("level", PStr (level_value level))] in
      match errors with
      | first :: _ =>
          let? text := violation_text full first in
          Ok (Answer (mkResult
                (PDict (summary ++ [("validation_errors", PList (map violation_val errors))]))
                (actions_val actions) PNone (PStr text)))
      | [] =>
          if dry_run c || match blocked_reason level c with Some _ => true | None => false end then
            Ok (Answer (mkResult
                  (PDict ([("dry_run", PBool true)] ++ summary
                          ++ [("blocked", opt_str (blocked_reason level c))]))
                  (actions_val actions) PNone PNone))
          else Ok (Fire full t)
      end
  end.

(** The report on a POST that was sent. *)
Definition action_report (actions : list (string * RedfishAction)) (full : string) (t : pyval)
    (result : CommandResult) (api_resp : api_respond) : CommandResult :=
  let d := match data result with PDict d => d | v => [("result", v)] end in
  let d := dict_setdefault "action" (PStr full) d in
  let d := dict_setdefault "target" t d in
  let d := dict_setdefault "level" (PStr (level_value (classify full))) d in
  if bool_decide (api_resp = RespError) || negb (is_none (error result)) then
    mkResult (PDict (dict_set "executed" (PBool false) d)) (actions_val actions) PNone
      (if is_none (error result) then PStr ("action " +:+ full +:+ " failed with Error")
       else error result)
  else mkResult (PDict (dict_setdefault "executed" (PBool true) d)) (actions_val actions) PNone PNone.

Context {W : Type} `{!World W}.
Abbreviation MM := (M (mstate W)).

(** The read of the owning resource; [inr] is the message of a failed one. *)
Definition read_resource (c : action_call) : MM (pyval + string) :=
  try_Exception
    (let! r := base_query (resource_uri c) (with_async (call_async c)) in
     ret (inl (py_or (data r) (PDict []))))
    (fun e => ret (inr ("failed to read " +:+ resource_uri c +:+ ": " +:+ exn_str e))).

(** [invoke_action(resource_uri, action_name, payload, ...)] *)
Definition invoke_action (c : action_call) : MM CommandResult :=
  let! r := read_resource c in
  match r with
  | inr msg => ret (mkResult PNone PNone PNone (PStr msg))
  | inl resource =>
      let! actions := lift_res (discover_redfish_actions resource) in
      let! d := lift_res (decide_action resource actions c) in
      match d with
      | Answer res => ret res
      | Fire full t =>
          let! (result, api_resp) := base_post (py_str t) (Some (payload c)) 0 in
          ret (action_report actions full t result api_resp)
      end
  end.
End Invoke.

(** ** What a resolved action is *)

(** The resource [r] carries the action [full] with target [t]: in its [Actions]
    block, in that block's [Oem] part, or in the [Actions] of a vendor extension. *)
Inductive has_action (r : pydict) (full : string) (t : pyval) : Prop :=
| ha_top acts d :
    dget "Actions" r = PDict acts -> (full, PDict d) ∈ acts -> dget "target" d = t ->
    has_action r full t
| ha_oem acts oem d :
    dget "Actions" r = PDict acts -> ("Oem", PDict oem) ∈ acts -> (full, PDict d) ∈ oem ->
    dget "target" d = t -> has_action r full t
| ha_vendor oem vendor ext va d :
    dget "Oem" r = PDict oem -> (vendor, PDict ext) ∈ oem -> dget "Actions" ext = PDict va ->
    (full, PDict d) ∈ va -> dget "target" d = t -> has_action r full t.

#[local] Hint Constructors has_action : core.

(** Every target in a table of targets is one the resource has, and usable. *)
Definition targets_of (r : pydict) (out : pydict) : Prop :=
  forall k t, dict_get k out = Some t -> has_action r k t /\ truthy t = true.

Lemma flatten_entry_targets r acc kv :
  (forall d, kv.2 = PDict d -> has_action r kv.1 (dget "target" d)) ->
  targets_of r acc -> targets_of r (flatten_entry acc kv).
Proof.
  intros Hkv Hacc. unfold flatten_entry. destruct kv as [k v]; simpl in *.
  destruct v; try done. destruct (truthy (dget "target" d)) eqn:Ht; [|done].
  intros k' t. rewrite dict_get_set. case_decide; subst; [|apply Hacc].
  intros [= <-]. auto.
Qed.

Lemma flatten_sound resource out :
  flatten_action_targets resource = Ok out ->
  targets_of (as_dict resource) out.
Proof.
  unfold flatten_action_targets, py_or.
  assert (forall r, targets_of r []) as Hnil by done.
  destruct (truthy resource) eqn:Hr; [|intros; simplify_eq/=; apply Hnil].
  destruct resource as [| | | | | | |r|]; try done. simpl as_dict.
  set (acts := if truthy (dget "Actions" r) then _ else _).
  assert (forall a, acts = PDict a -> a <> [] -> dget "Actions" r = PDict a) as Hacts.
  { subst acts. destruct (truthy (dget "Actions" r)); [done|]. intros a [= <-]. done. }
  destruct acts as [| | | | | | |acts'|]; try (intros; simplify_eq; apply Hnil).
  set (out1 := fold_left _ acts' []).
  assert (targets_of r out1) as Hout1.
  { apply fold_left_inv; [apply Hnil|]. intros acc [k v] Hin Hacc.
    assert (dget "Actions" r = PDict acts') as Hd by (apply Hacts; [done|]; by intros ->; inversion Hin).
    assert (targets_of r (flatten_entry acc (k, v))) as Htop
      by (apply flatten_entry_targets; [simpl; intros d ->; eauto|done]).
    destruct (decide (k = "Oem")) as [->|Hk].
    - destruct v; try exact Htop. apply fold_left_inv; [done|]. intros acc' [k' v'] Hin' Hacc'.
      apply flatten_entry_targets; [simpl; intros d' ->; eauto|done].
    - match goal with |- targets_of r ?x => replace x with (flatten_entry acc (k, v)); [done|] end.
      clear -Hk. repeat (case_match; try done). }
  unfold py_or. set (oem := if truthy (dget "Oem" r) then _ else _).
  assert (forall o, oem = PDict o -> o <> [] -> dget "Oem" r = PDict o) as Hoem.
  { subst oem. destruct (truthy (dget "Oem" r)); [done|]. intros o [= <-]. done. }
  destruct oem as [| | | | | | |oem'|]; try (intros; by simplify_eq).
  intros [= <-]. apply fold_left_inv; [done|]. intros acc [vendor v] Hin Hacc. simpl.
  assert (dget "Oem" r = PDict oem') as Hd by (apply Hoem; [done|]; by intros ->; inversion Hin).
  destruct v; try done. destruct (dget "Actions" d) eqn:Hva; try done.
  apply fold_left_inv; [done|]. intros acc' [k' v'] Hin' Hacc'.
  apply flatten_entry_targets; [simpl; intros d' ->; eauto|done].
Qed.

(** The raw entry [entry] stands in one of the two blocks [_get_actions] reads,
    under the name [full]. *)
Definition listed (r : pydict) (full : string) (entry : pyval) : Prop :=
  exists acts, dget "Actions" r = PDict acts /\
    ((full, entry) ∈ acts \/ exists oem, ("Oem", PDict oem) ∈ acts /\ (full, entry) ∈ oem).

Lemma listed_has_action r full d : listed r full (PDict d) -> has_action r full (dget "target" d).
Proof. intros (acts & Ha & [Hin|(oem & Ho & Hin)]); eauto. Qed.

(** The short name of a full one. *)
Definition short_of (full : string) : string := PyStr.last_or "" (PyStr.split "."%char full).

(** The two dicts agree: under each short name the entry and the full name belong
    together. *)
Definition paired (r : pydict) (acc : found) : Prop :=
  NoDup (dict_keys acc.1) /\
  forall short entry, dict_get short acc.1 = Some entry ->
  exists full, dict_get short acc.2 = Some full /\ listed r full entry /\
    short_of full = short /\ PyStr.nonempty full = true.

Lemma record_paired r acc full entry :
  listed r full entry -> paired r acc -> paired r (record_action acc full entry).
Proof.
  intros Hl [Hnd Hacc]. unfold record_action. case_match eqn:Hn; [done|].
  split; [by apply dict_set_NoDup|]. intros short e. simpl. rewrite !dict_get_set. case_decide; [|apply Hacc].
  intros [= <-]. exists full. subst. repeat split; try done.
  destruct full; [done|done].
Qed.

Lemma get_actions_paired resource u f :
  get_actions resource = Ok (u, f) -> paired (as_dict resource) (u, f).
Proof.
  assert (forall r, paired r ([], [])) as Hnil by (intros r; split; [constructor|done]).
  unfold get_actions. destruct (py_in "Actions" resource) as [[]|] eqn:Hin;
    [|intros; simplify_eq; apply Hnil|done].
  destruct resource as [| | | | | | |r|]; try done. simpl as_dict.
  destruct (dget "Actions" r) as [| | | |s|l|l|acts|] eqn:Ha; try done;
    try (destruct l; intros; simplify_eq; apply Hnil);
    try (destruct s; intros; simplify_eq; apply Hnil).
  intros [= Hf]. rewrite <- Hf. apply fold_left_inv; [apply Hnil|]. intros acc [k v] Hk Hacc.
  assert (paired r (record_action acc k v)) as Htop.
  { apply record_paired; [|done]. exists acts. auto. }
  destruct (decide (k = "Oem")) as [->|Hne].
  - destruct v; try exact Htop. apply fold_left_inv; [done|]. intros acc' [k' v'] Hk' Hacc'.
    apply record_paired; [|done]. exists acts. split; [done|]. right. eauto.
  - match goal with |- paired r ?x => replace x with (record_action acc k v); [done|] end.
    clear -Hne. repeat (case_match; try done).
Qed.

(** Adding arguments changes neither the name nor the target. *)
Lemma make_action_sound short full entry a :
  make_action short full entry = Ok (Some a) ->
  exists d, entry = PDict d /\ full_redfish_name a = full /\ target a = dget "target" d.
Proof.
  unfold make_action. destruct (py_in "target" entry) as [[]|]; try done.
  destruct entry; try done. intros [= <-]. exists d. split; [done|].
  apply (fold_left_inv (fun a => full_redfish_name a = full /\ target a = dget "target" d)); [done|].
  intros a' kv _ Ha'. by case_match.
Qed.

Lemma discover_sound resource actions :
  discover_redfish_actions resource = Ok actions ->
  forall k a, dict_get k actions = Some a ->
    has_action (as_dict resource) (full_redfish_name a) (target a) /\
    short_of (full_redfish_name a) = k /\ PyStr.nonempty (full_redfish_name a) = true.
Proof.
  unfold discover_redfish_actions. intros ([u f] & Hg & Hfold)%res_bind_ok.
  apply get_actions_paired in Hg as [Hnd Hp].
  refine (res_fold_inv (fun acc => forall k a, dict_get k acc = Some a -> _) _ _ _ _ _ _ Hfold);
    [done|].
  intros acc [short entry] acc' Hin Hacc (o & Hm & [= <-])%res_bind_ok k a. simpl in *.
  destruct o as [a0|]; [|apply Hacc]. rewrite dict_get_set. case_decide; subst; [|apply Hacc].
  intros [= ->]. destruct (Hp short entry) as (full & Hfull & Hl & Hs & Hne).
  { by apply dict_get_NoDup. }
  apply make_action_sound in Hm as (d & -> & Hname & ->).
  unfold dict_get_or in Hname. rewrite Hfull in Hname. simpl in Hname. rewrite Hname.
  auto using listed_has_action.
Qed.

(** ** Properties *)

(** What a request resolves to is an action of the resource, by the full name or by the short one. *)
Lemma resolve_sound resource actions c full t :
  discover_redfish_actions resource = Ok actions ->
  resolve_action resource actions c = Ok (Some (full, t)) ->
  has_action (as_dict resource) full t /\ truthy t = true /\
  (full = full_action_type c \/ short_of full = name c).
Proof.
  intros Hd (exact & Hexact & Hr)%res_bind_ok. destruct exact as [[full' t']|].
  - simplify_eq. destruct (PyStr.nonempty (full_action_type c)); [|done].
    apply res_bind_ok in Hexact as (out & Hout & [= Hget]).
    pose proof (flatten_sound _ _ Hout (full_action_type c)) as Hf.
    destruct (dict_get (full_action_type c) out) as [v|]; [|done].
    destruct (Hf v eq_refl). destruct v; simplify_eq; auto.
  - destruct (dict_get (name c) actions) as [a|] eqn:Ha; [|done].
    destruct (truthy (target a)) eqn:Ht; [|done]. simplify_eq.
    destruct (discover_sound _ _ Hd _ _ Ha) as (Hhas & Hs & Hne). rewrite Hne. auto.
Qed.

(** The full type is preferred: the short name decides only when the document has no usable action of that type. *)
Lemma resolve_preferred v actions c full t :
  discover_redfish_actions (py_or v (PDict [])) = Ok actions ->
  resolve_action (py_or v (PDict [])) actions c = Ok (Some (full, t)) ->
  full = full_action_type c \/
  short_of full = name c /\
    (full_action_type c = "" \/ forall targets, flatten_action_targets v = Ok targets -> dict_get (full_action_type c) targets = None).
Proof.
  assert (flatten_action_targets (py_or v (PDict [])) = flatten_action_targets v) as Hv.
  { unfold flatten_action_targets, py_or. by destruct (truthy v) eqn:Hv; rewrite ?Hv. }
  intros Hd (exact & Hexact & Hr)%res_bind_ok. rewrite Hv in Hexact. destruct exact as [[full' t']|].
  - simplify_eq. destruct (PyStr.nonempty (full_action_type c)); [|done].
    apply res_bind_ok in Hexact as (out & _ & Hget). left. repeat case_match; by simplify_eq.
  - destruct (dict_get (name c) actions) as [a|] eqn:Ha; [|done].
    destruct (truthy (target a)) eqn:Ht; [|done]. simplify_eq.
    destruct (discover_sound _ _ Hd _ _ Ha) as (_ & Hs & Hne). rewrite Hne. right. split; [done|].
    destruct (PyStr.nonempty (full_action_type c)) eqn:Hf; [right|left; by destruct (full_action_type c)]. intros targets Htg.
    rewrite Htg in Hexact. injection Hexact as Hexact.
    destruct (dict_get (full_action_type c) targets) as [u|] eqn:Hu; [|done]. exfalso.
    destruct (flatten_sound _ _ Htg _ _ Hu) as [_ Htr]. by destruct u.
Qed.

Lemma as_dict_or v : as_dict (py_or v (PDict [])) = as_dict v.
Proof. unfold py_or. destruct v; try done; cbn; by repeat case_match. Qed.

(** C5.  The action that is classified is the action that is run: when
    [invoke_action] resolves a request to a full name and a target, the
    resource itself carries an action of that name with that target, and the
    name is the full type asked for or ends in the short name asked for. *)
Theorem resolve_action_sound resource actions c full t :
  discover_redfish_actions resource = Ok actions ->
  resolve_action resource actions c = Ok (Some (full, t)) ->
  has_action (as_dict resource) full t /\ truthy t = true /\
  (full = full_action_type c \/ short_of full = name c).
Proof. apply resolve_sound. Qed.

Section Guard.
Context (schemas : list Csdl.xml) {W : Type} `{!World W}.

Lemma conn_write_request m m' meth resource payload :
  conn m = conn m' -> write_request m meth resource payload = write_request m' meth resource payload.
Proof.
  intros Hc. unfold write_request. rewrite (conn_base_url m m') by done. by apply conn_sync_request.
Qed.

Lemma emits_read_resource c : emits is_get (read_resource (W := W) c).
Proof. unfold read_resource. frame. Qed.

Lemma same_conn_read_resource c : frames same_conn (read_resource (W := W) c).
Proof. unfold read_resource. frame. Qed.

(** The run once the resource is read: an answer without a POST, or one POST. *)
Lemma invoke_action_run c (s : mstate W) :
  let s1 := (read_resource c s).1 in
  let out := invoke_action schemas c s in
  match (read_resource c s).2 with
  | Ok (inl resource) =>
      match (let? actions := discover_redfish_actions resource in
             let? d := decide_action schemas resource actions c in Ok (actions, d)) with
      | Ok (actions, Answer r) => out = (s1, Ok r)
      | Ok (actions, Fire full t) =>
          exists m', out =
            (let rq := write_request (mgr s) POST (py_str t) (Some (payload c)) in
             (MState (world (sent s1 rq)) (trace s1 ++ [rq]) m' (caches s1) (active s1),
              match reply s1 rq with
              | Ok r => let? (result, a) := write_outcome r 0 in Ok (action_report actions full t result a)
              | Raise e => Raise e
              | NoFuel => NoFuel
              end))
      | Raise e => out = (s1, Raise e)
      | NoFuel => out = (s1, NoFuel)
      end
  | Ok (inr msg) => out = (s1, Ok (mkResult PNone PNone PNone (PStr msg)))
  | Raise e => out = (s1, Raise e)
  | NoFuel => out = (s1, NoFuel)
  end.
Proof.
  cbv zeta. pose proof (same_conn_read_resource c s) as Hconn. unfold same_conn in Hconn.
  remember (invoke_action schemas c s) as out eqn:Hout. unfold invoke_action in Hout.
  unfold bind at 1 in Hout.
  destruct (read_resource c s) as [s1 [[resource|msg]|e|]]; [|done..]. simpl in Hconn |- *.
  unfold bind at 1, lift_res at 1 in Hout.
  destruct (discover_redfish_actions resource) as [actions|e|]; [|done..]. simpl.
  unfold bind at 1, lift_res in Hout.
  destruct (decide_action schemas resource actions c) as [[r|full t]|e|]; [done| |done..]. simpl.
  destruct (base_request_respond_run (py_str t) POST (Some (payload c)) 0 s1 (or_introl eq_refl))
    as [m' Hrun].
  exists m'. rewrite Hout. unfold base_post, bind. rewrite Hrun.
  rewrite (conn_write_request (mgr s1) (mgr s)) by done.
  clear Hrun. destruct (reply s1 _) as [r|e|]; [|done..]. by destruct (write_outcome r 0) as [[result a]|e|].
Qed.

Lemma decide_fire resource actions c full t :
  decide_action schemas resource actions c = Ok (Fire full t) ->
  resolve_action resource actions c = Ok (Some (full, t)) /\ dry_run c = false /\
  blocked_reason (classify full) c = None.
Proof.
  intros (o & Hres & H)%res_bind_ok. destruct o as [[full' t']|].
  - apply res_bind_ok in H as (errs & _ & H). destruct errs as [|v errs].
    + destruct (dry_run c), (blocked_reason (classify full') c) eqn:Hb; simplify_eq/=; auto.
    + by apply res_bind_ok in H as (? & _ & ?).
  - by apply res_bind_ok in H as (? & _ & ?).
Qed.

(** The actions that run without confirmation. *)
Definition harmless : list string := dict_keys (policy_read_only ++ policy_reversible).

(** Without confirmation an action posts nothing when neither the full name it was
    asked by nor any harmless action with its short name can be what it resolves to. *)
Lemma emits_invoke_unconfirmed c :
  confirm c = false -> full_action_type c ∉ harmless ->
  Forall (fun a => short_of a <> name c) harmless ->
  emits is_get (invoke_action schemas c).
Proof.
  intros Hc Hfull Hshort s. pose proof (invoke_action_run c s) as Hrun. cbv zeta in Hrun.
  pose proof (emits_read_resource c s) as Hreads.
  destruct (read_resource c s) as [s1 [[resource|msg]|e|]]; cbn [fst snd] in Hrun, Hreads; [|by rewrite Hrun..].
  destruct (discover_redfish_actions resource) as [actions|e|] eqn:Hdisc; cbn [res_bind] in Hrun; [|by rewrite Hrun..].
  destruct (decide_action schemas resource actions c) as [[r'|full t]|e|] eqn:Hd;
    cbn [res_bind] in Hrun; [by rewrite Hrun| |by rewrite Hrun..].
  exfalso. apply decide_fire in Hd as (Hres & _ & Hblk).
  assert (full ∈ harmless) as Hin.
  { apply classify_free. unfold blocked_reason in Hblk. rewrite Hc in Hblk. destruct (classify full); auto; done. }
  unfold resolve_action in Hres. apply res_bind_ok in Hres as (exact & Hex & Hres).
  destruct exact as [[f t']|].
  - simplify_eq. destruct (PyStr.nonempty (full_action_type c)); [|done].
    apply res_bind_ok in Hex as (targets & _ & Hex). repeat case_match; simplify_eq; by apply Hfull.
  - destruct (dict_get (name c) actions) as [a|] eqn:Ha; [|done]. destruct (truthy (target a)); [|done].
    destruct (discover_sound _ _ Hdisc _ _ Ha) as (_ & Hs & Hne). rewrite Hne in Hres. simplify_eq.
    rewrite Forall_forall in Hshort. by apply (Hshort _ Hin).
Qed.

(** What was read is the answer of the BMC to the query of the resource. *)
Lemma read_resource_ok c (s s1 : mstate W) resource : read_resource c s = (s1, Ok (inl resource)) ->
  exists r, base_query (resource_uri c) (with_async (call_async c)) s = (s1, Ok r) /\ resource = py_or (data r) (PDict []).
Proof.
  unfold read_resource, try_Exception, try_catch, bind.
  destruct (base_query (resource_uri c) (with_async (call_async c)) s) as [s2 [r|e|]]; cbn; [|by destruct (is_Exception e)|done].
  intros [= <- <-]. by exists r.
Qed.

(** C1.  The fail-safe guard: whatever the arguments, the BMC and its answers,
    [invoke_action] queries the resource with GETs, and then sends at most one
    POST, with the caller's payload.  The POST goes to the target of an action
    of the document that this query returned; the action is the full type
    asked for when the document has it, and otherwise one with the short name
    asked for; no dry run was asked for, and the level of that action allows
    it: a destructive or unlisted action needs [confirm], an irreversible one
    [confirm] and [confirm_irreversible]. *)
Theorem invoke_action_guarded c (s : mstate W) :
  exists reads posts,
    trace (invoke_action schemas c s).1 = trace s ++ reads ++ posts /\ Forall is_get reads /\
    (posts = [] \/
     exists s1 r full t,
       base_query (resource_uri c) (with_async (call_async c)) s = (s1, Ok r) /\ trace s1 = trace s ++ reads /\
       posts = [write_request (mgr s) POST (py_str t) (Some (payload c))] /\
       has_action (as_dict (data r)) full t /\
       (full = full_action_type c \/
        short_of full = name c /\
        (full_action_type c = "" \/
         forall targets, flatten_action_targets (data r) = Ok targets -> dict_get (full_action_type c) targets = None)) /\
       dry_run c = false /\
       (classify full = DESTRUCTIVE -> confirm c = true) /\
       (classify full = IRREVERSIBLE -> confirm c = true /\ confirm_irreversible c = true)).
Proof.
  destruct (emits_read_resource c s) as (reads & Ht & HF). exists reads.
  pose proof (invoke_action_run c s) as Hrun. cbv zeta in Hrun.
  assert (forall r, invoke_action schemas c s = ((read_resource c s).1, r) ->
    trace (invoke_action schemas c s).1 = trace s ++ reads ++ []) as Hquiet
    by (intros r ->; by rewrite app_nil_r).
  destruct (read_resource c s) as [s1 [[resource|msg]|e|]] eqn:Hread; cbn [fst snd] in *; [|exists []; eauto..].
  destruct (let? actions := _ in _) as [[actions [r|full t]]|e|] eqn:Hd; [exists []; eauto| |exists []; eauto..].
  apply res_bind_ok in Hd as (acts & Hdisc & (d & Hdec & [= -> ->])%res_bind_ok).
  destruct Hrun as [m' ->]. cbv zeta. simpl.
  apply decide_fire in Hdec as (Hres & Hdry & Hblk).
  eexists. split; [rewrite Ht; by rewrite <- app_assoc|]. split; [done|]. right.
  destruct (read_resource_ok _ _ _ _ Hread) as (r & Hq & ->).
  destruct (resolve_sound _ _ _ _ _ Hdisc Hres) as (Hhas & Htr & _).
  exists s1, r, full, t. split_and!; try done; [|by eapply resolve_preferred|..]; [by rewrite as_dict_or in Hhas|..];
    intros Hl; rewrite Hl in Hblk; simpl in Hblk.
  - by destruct (confirm c).
  - by destruct (confirm c), (confirm_irreversible c).
Qed.

(** The same request with other guard flags. *)
Definition with_flags (dry conf irr : bool) (c : action_call) : action_call :=
  Call (resource_uri c) (name c) (payload c) (full_action_type c) (call_async c) dry conf irr.

(** A decision that answers a dry run is a POST once everything is confirmed. *)
Lemma decide_dry resource actions c conf irr r :
  decide_action schemas resource actions (with_flags true conf irr c) = Ok (Answer r) ->
  dget "dry_run" (as_dict (data r)) = PBool true ->
  exists full t,
    decide_action schemas resource actions (with_flags false true true c) = Ok (Fire full t) /\
    dget "target" (as_dict (data r)) = t /\ dget "payload" (as_dict (data r)) = PDict (payload c).
Proof.
  unfold decide_action. change (resolve_action resource actions (with_flags false true true c))
    with (resolve_action resource actions (with_flags true conf irr c)).
  intros (o & -> & H)%res_bind_ok Hdry. simpl. destruct o as [[full t]|].
  - apply res_bind_ok in H as (errs & Herrs & H). simpl in Herrs. rewrite Herrs. simpl.
    destruct errs as [|v errs].
    + simpl in H. simplify_eq/=. exists full, t.
      by destruct (classify full).
    + apply res_bind_ok in H as (text & _ & [= <-]). done.
  - apply res_bind_ok in H as (out & _ & [= <-]). done.
Qed.

(** C2.  A dry run previews the real run: if a dry run reports a target and a
    payload, then the same request, confirmed, sends from the same state the
    same reads and then exactly one POST, of that payload to that target. *)
Theorem dry_run_faithful c conf irr (s : mstate W) r :
  let dry := invoke_action schemas (with_flags true conf irr c) s in
  let d := as_dict (data r) in
  dry.2 = Ok r -> dget "dry_run" d = PBool true ->
  trace (invoke_action schemas (with_flags false true true c) s).1 =
  trace dry.1 ++ [write_request (mgr s) POST (py_str (dget "target" d))
                    (Some (as_dict (dget "payload" d)))].
Proof.
  cbv zeta. intros Hr Hdry.
  pose proof (invoke_action_run (with_flags true conf irr c) s) as H1.
  pose proof (invoke_action_run (with_flags false true true c) s) as H2.
  cbv zeta in H1, H2.
  change (read_resource (with_flags false true true c) s)
    with (read_resource (with_flags true conf irr c) s) in H2.
  destruct (read_resource (with_flags true conf irr c) s) as [s1 [[resource|msg]|e|]];
    cbn [fst snd] in H1, H2; rewrite ?H1 in Hr; simplify_eq/=.
  destruct (discover_redfish_actions resource) as [actions|e|];
    cbn [res_bind] in H1, H2; [|rewrite H1 in Hr; done..].
  destruct (decide_action schemas resource actions (with_flags true conf irr c))
    as [[r'|full t]|e|] eqn:Hdec; cbn [res_bind] in H1; [|shelve|rewrite H1 in Hr; done..].
  rewrite H1 in Hr. simpl in Hr. simplify_eq.
  destruct (decide_dry _ _ _ _ _ _ Hdec Hdry) as (full & t & Hgo & -> & ->).
  rewrite Hgo in H2. destruct H2 as [m' ->]. rewrite H1. done.
  Unshelve. by apply decide_fire in Hdec as (_ & ? & _).
Qed.
End Guard.

(** ** Evaluation *)

Definition sample_system : pyval :=
  PDict [("Id", PStr "1");
         ("Actions", PDict
            [("#ComputerSystem.Reset", PDict
                [("target", PStr "/redfish/v1/Systems/1/Actions/ComputerSystem.Reset");
                 ("ResetType@Redfish.AllowableValues", PList [PStr "On"; PStr "ForceOff"])]);
             ("Oem", PDict [("#Vendor.Reset", PDict [("target", PStr "/oem/Reset")])])])].

Definition action_routes : list (method * string * list response) :=
  [(GET, "https://10.0.0.42/redfish/v1/Systems/1", [ok_json sample_system]);
   (POST, "https://10.0.0.42/redfish/v1/Systems/1/Actions/ComputerSystem.Reset",
    [Response 204 [] (inr "")])].

Definition reset_call (reset : string) (dry conf : bool) : action_call :=
  Call "/redfish/v1/Systems/1" "Reset" [("ResetType", PStr reset)] "#ComputerSystem.Reset" false dry conf
    false.

(** The short name belongs to the vendor's action, the full type to the standard one. *)
Example short_name_collision :
  (match discover_redfish_actions sample_system with
   | Ok actions => (resolve_action sample_system actions (reset_call "On" false false),
                    resolve_action sample_system actions
                      (Call "/redfish/v1/Systems/1" "Reset" [] "" false false false false))
   | _ => (NoFuel, NoFuel)
   end) =
  (Ok (Some ("#ComputerSystem.Reset", PStr "/redfish/v1/Systems/1/Actions/ComputerSystem.Reset")),
   Ok (Some ("#Vendor.Reset", PStr "/oem/Reset"))).
Proof. vm_compute. reflexivity. Qed.

(** The allowed values that are checked are those of the action found by the short
    name, also when the target was found by the full type: here the vendor's
    [Reset], which lists none, so a reset type outside the list of the action
    that is run is posted. *)
Example collision_skips_validation :
  let out := invoke_action [] (reset_call "Bogus" false true) (sim_state sample_manager action_routes) in
  map rq_method (trace out.1) = [GET; POST] /\
  match out.2 with Ok r => dget "executed" (as_dict (data r)) = PBool true | _ => False end.
Proof. vm_compute. auto. Qed.

Lemma resolve_action_sound_witness :
  has_action (as_dict sample_system) "#Vendor.Reset" (PStr "/oem/Reset") /\
  truthy (PStr "/oem/Reset") = true /\
  ("#Vendor.Reset" = "" \/ short_of "#Vendor.Reset" = "Reset").
Proof.
  eapply (resolve_action_sound sample_system _
            (Call "/redfish/v1/Systems/1" "Reset" [] "" false false false false));
    [vm_compute; reflexivity|vm_compute; reflexivity].
Defined.

Definition reset_preview : CommandResult :=
  mkResult
    (PDict [("dry_run", PBool true); ("action", PStr "#ComputerSystem.Reset");
            ("target", PStr "/redfish/v1/Systems/1/Actions/ComputerSystem.Reset");
            ("payload", PDict [("ResetType", PStr "On")]); ("level", PStr "destructive");
            ("blocked", PStr "destructive action requires --confirm")])
    (match discover_redfish_actions sample_system with Ok a => actions_val a | _ => PNone end)
    PNone PNone.

Lemma dry_run_faithful_witness :
  let s := sim_state sample_manager action_routes in
  let d := as_dict (data reset_preview) in
  trace (invoke_action [] (with_flags false true true (reset_call "On" false false)) s).1 =
  trace (invoke_action [] (with_flags true false false (reset_call "On" false false)) s).1
  ++ [write_request (mgr s) POST (py_str (dget "target" d)) (Some (as_dict (dget "payload" d)))].
Proof.
  intros s d. apply (dry_run_faithful [] (reset_call "On" false false) false false s reset_preview);
    vm_compute; reflexivity.
Defined.
End Actions.
