(* ===== verification/IpAddress.v ===== *)
(** * [ipaddress.ip_address] on text

    The part of the Python standard library that
    src/redfish_ctl/manager/cmd_ntp_set.py uses: does a string parse as an IPv4
    or IPv6 address.  Only success is modelled, not the address. *)

From stdpp Require Import base list strings.
From Stdlib Require Import Ascii ZArith Lia.
From S2P Require Import Prelude PyVal.

Module IpAddress.

Definition all_chars (p : ascii -> bool) (s : string) : bool :=
  negb (PyStr.has_char (fun c => negb (p c)) s).

(** [IPv4Address._parse_octet]: one to three digits, no leading zero, at most 255 *)
Definition octet (s : string) : bool :=
  PyStr.nonempty s && all_chars PyStr.is_digit s && (String.length s <=? 3)%nat &&
  (bool_decide (s = "0") || negb (PyStr.startswith "0" s)) &&
  match int_of_string s with Some z => (z <=? 255)%Z | None => false end.

Definition ipv4 (s : string) : bool :=
  let octets := PyStr.split "."%char s in
  (length octets =? 4)%nat && forallb octet octets.

Definition is_hex (c : ascii) : bool :=
  let n := nat_of_ascii c in
  PyStr.is_digit c || ((65 <=? n) && (n <=? 70))%nat || ((97 <=? n) && (n <=? 102))%nat.

(** [IPv6Address._parse_hextet] *)
Definition hextet (s : string) : bool :=
  PyStr.nonempty s && all_chars is_hex s && (String.length s <=? 4)%nat.

(** The positions in [1 .. n-2] of the empty parts: the places of ["::"]. *)
Definition gaps (parts : list string) : list nat :=
  filter (fun i => parts !! i = Some EmptyString) (seq 1 (length parts - 2)).

(** [IPv6Address._ip_int_from_string] once an IPv4 tail is two hextets. *)
Definition ipv6_parts (parts : list string) : bool :=
  let n := length parts in
  let first_empty := bool_decide (parts !! 0%nat = Some EmptyString) in
  let last_empty := bool_decide (last parts = Some EmptyString) in
  (n <=? 9)%nat &&
  match gaps parts with
  | [] => (n =? 8)%nat && forallb hextet parts
  | [skip] =>
      let hi := if first_empty then skip - 1 else skip in
      let lo0 := n - skip - 1 in
      let lo := if last_empty then lo0 - 1 else lo0 in
      (negb first_empty || (hi =? 0)%nat) && (negb last_empty || (lo =? 0)%nat) &&
      (hi + lo <=? 7)%nat &&
      forallb hextet (take hi parts) && forallb hextet (drop (n - lo) parts)
  | _ => false
  end.

(** The text before the first [%] and the scope after it. *)
Definition split_scope (s : string) : option string :=
  match PyStr.split "%"%char s with
  | [addr] => Some addr
  | [addr; scope] => if PyStr.nonempty scope then Some addr else None
  | _ => None
  end.

Definition ipv6 (s : string) : bool :=
  match split_scope s with
  | None => false
  | Some addr =>
      let parts := PyStr.split ":"%char addr in
      (3 <=? length parts)%nat &&
      let tail := PyStr.last_or "" parts in
      if PyStr.contains "." tail
      then ipv4 tail && ipv6_parts (take (length parts - 1) parts ++ ["0"; "0"])
      else ipv6_parts parts
  end.

(** [ipaddress.ip_address(s)] returns rather than raises [ValueError] *)
Definition ip_address (s : string) : bool :=
  negb (PyStr.contains "/" s) && (ipv4 s || ipv6 s).

Example addresses :
  map ip_address ["10.0.0.1"; "10.0.0.01"; "256.1.1.1"; "::1"; "::"; "fe80::1%eth0"; "fe80::1%";
                  "1:2:3:4:5:6:7:8"; "1:2:3:4:5:6:7:8:9"; "1:2:3:4:5:6:7::"; "::ffff:10.0.0.1";
                  "1::2::3"; ":1::2"; "12345::"; ":::"]
  = [true; false; false; true; true; true; false; true; false; true; true; false; false; false; false].
Proof. vm_compute. reflexivity. Qed.
End IpAddress.
