(* ===== verification/Ntp.v ===== *)
(** * The ntp-set command

    src/redfish_ctl/manager/cmd_ntp_set.py: argument normalisation, the
    per-manager PATCH plan, and [execute], which previews the plan or applies
    it. *)

From stdpp Require Import base list gmap strings pretty.
From Stdlib Require Import Ascii ZArith Lia.
From S2P Require Import Prelude PyVal Effects Query Http Manager Discovery IpAddress.

Module NtpSet.
Import Http RedfishManager Discovery.
Local Open Scope py_scope.

Definition MAX_NTP_SERVERS : nat := 4.
Definition MAX_LEGACY_NTP_SERVERS : nat := 2.
Definition legacy_limit_reason : string := "legacy Manager NTP resources support at most 2 servers".

(** ** Arguments *)

(** [_HOST_LABEL.fullmatch(label)]: 1 to 63 letters, digits and inner hyphens *)
Definition host_label (label : string) : bool :=
  let ends_ok := match label, String.get (String.length label - 1) label with
                 | String c _, Some d => PyStr.is_alnum c && PyStr.is_alnum d
                 | _, _ => false
                 end in
  ends_ok && (String.length label <=? 63)%nat &&
  IpAddress.all_chars (fun c => PyStr.is_alnum c || bool_decide (c = "-"%char)) label.

(** [server[:-1] if server.endswith(".") else server] *)
Definition drop_final_dot (s : string) : string :=
  if PyStr.endswith "." s then String.substring 0 (String.length s - 1) s else s.

(** [_is_plausible_ntp_server(server)] *)
Definition is_plausible_ntp_server (server : string) : bool :=
  if negb (PyStr.nonempty server) || PyStr.has_char PyStr.is_space server then false
  else if PyStr.contains "://" server || PyStr.contains "/" server then false
  else if IpAddress.ip_address server then true
  else
    let hostname := drop_final_dot server in
    if (253 <? String.length hostname)%nat || negb (PyStr.nonempty hostname) then false
    else forallb host_label (PyStr.split "."%char hostname).

(** The non-empty comma-separated pieces, in order. *)
Definition server_items (raw : list pyval) : list string :=
  flat_map (fun v => filter (fun s => PyStr.nonempty s = true)
                       (map PyStr.strip (PyStr.split ","%char (py_str v)))) raw.

(** [_normalize_ntp_servers(servers, clear)] *)
Definition normalize_ntp_servers (servers : pyval) (clear : bool) : res (list string) :=
  if clear then
    if truthy servers then Raise (InvalidArgument "--clear cannot be used with --server") else Ok []
  else
    let? raw := match servers with
                | PNone => Raise (InvalidArgument "at least one NTP server is required")
                | PStr _ => Ok [servers]
                | _ => match py_iter servers with
                       | Some l => Ok l
                       | None => Raise (TypeError ("'" +:+ type_name servers +:+ "' object is not iterable"))
                       end
                end in
    let normalized := server_items raw in
    match normalized with
    | [] => Raise (InvalidArgument "at least one NTP server is required")
    | _ =>
        if (MAX_NTP_SERVERS <? length normalized)%nat
        then Raise (InvalidArgument "ManagerNetworkProtocol NTP supports at most 4 servers")
        else match find (fun s => negb (is_plausible_ntp_server s)) normalized with
             | Some bad => Raise (InvalidArgument ("invalid NTP server: " +:+ repr_str bad))
             | None => Ok normalized
             end
    end.

(** ** Resource shapes *)

(** [v.get("@odata.id") if isinstance(v, dict) else None] *)
Definition link_id (v : pyval) : pyval :=
  match v with PDict d => dget "@odata.id" d | _ => PNone end.

(** [_link(data, key)] *)
Definition link (data : pyval) (key : string) : res pyval :=
  let? v := get_attr (py_or data (PDict [])) key in Ok (link_id v).

(** [_nested_link(data, *keys)] *)
Fixpoint nested (v : pyval) (keys : list string) : pyval :=
  match keys with
  | [] => link_id v
  | k :: ks => match v with PDict d => nested (dget k d) ks | _ => PNone end
  end.

Definition nested_link (data : pyval) (keys : list string) : pyval :=
  nested (py_or data (PDict [])) keys.

(** [_legacy_ntp_payload(servers)] *)
Definition legacy_ntp_payload (servers : list string) : res pydict :=
  if (MAX_LEGACY_NTP_SERVERS <? length servers)%nat then Raise (InvalidArgument legacy_limit_reason)
  else Ok match servers with
          | [] => [("NTPEnable", PBool false)]
          | [p] => [("NTPEnable", PBool true); ("PrimaryNTPServer", PStr p)]
          | p :: q :: _ => [("NTPEnable", PBool true); ("PrimaryNTPServer", PStr p);
                            ("SecondaryNTPServer", PStr q)]
          end.

(** [_legacy_ntp_skip_reason(servers)] *)
Definition legacy_ntp_skip_reason (servers : list string) : option string :=
  if (MAX_LEGACY_NTP_SERVERS <? length servers)%nat then Some legacy_limit_reason else None.

(** [_is_legacy_ntp_resource(data)] *)
Definition is_legacy_ntp_resource (data : pyval) : bool :=
  match data with
  | PDict d => existsb (fun k => dict_in k d) ["NTPEnable"; "PrimaryNTPServer"; "SecondaryNTPServer"]
  | _ => false
  end.

(** [_legacy_ntp_uri(manager, manager_uri)] *)
Definition legacy_ntp_uri (manager : pyval) (manager_uri : string) : res pyval :=
  let supermicro := nested_link manager ["Oem"; "Supermicro"; "NTP"] in
  if truthy supermicro then Ok supermicro
  else
    let? oem := get_attr (py_or manager (PDict [])) "Oem" in
    Ok match oem with
       | PDict o => if dict_in "Supermicro" o
                    then PStr (PyStr.rstrip_char "/"%char manager_uri +:+ "/NTP") else PNone
       | _ => PNone
       end.

(** The PATCH body for a [ManagerNetworkProtocol] resource. *)
Definition ntp_payload (servers : list string) : pydict :=
  [("NTP", PDict ([("NTPServers", PList (map PStr servers))]
                  ++ match servers with [] => [] | _ => [("ProtocolEnabled", PBool true)] end))].

(** ** The plan *)

Record plan_item := Item { i_manager : pyval; i_target : pyval; i_payload : pydict }.
Record skip_item := Skip { s_manager : pyval; s_target : pyval; s_reason : string }.

Definition item_val (i : plan_item) : pyval :=
  PDict [("Manager", i_manager i); ("target", i_target i); ("payload", PDict (i_payload i))].
Definition skip_val (s : skip_item) : pyval :=
  PDict [("Manager", s_manager s); ("target", s_target s); ("reason", PStr (s_reason s))].

Abbreviation plan_acc := (list plan_item * list skip_item)%type.
Definition planned (acc : plan_acc) (i : plan_item) : plan_acc := (acc.1 ++ [i], acc.2).
Definition skipping (acc : plan_acc) (s : skip_item) : plan_acc := (acc.1, acc.2 ++ [s]).

Section Command.
Context {W : Type} `{!World W}.
Abbreviation MM := (M (mstate W)).

(** [_try_get(uri, do_async)] *)
Definition try_get (uri : pyval) (do_async : bool) : MM (pyval * bool) :=
  if truthy uri then
    try_Exception
      (let! r := base_query (py_str uri) (with_async do_async) in
       ret (py_or (data r) (PDict []), true))
      (fun _ => ret (PDict [], false))
  else ret (PDict [], false).

(** [_get(uri, do_async)] *)
Definition get (uri : pyval) (do_async : bool) : MM pyval :=
  let! r := try_get uri do_async in ret r.1.

(** One manager of the loop of [_ntp_plan]. *)
Definition plan_manager (servers : list string) (manager_id : pyval) (do_async : bool)
    (acc : plan_acc) (manager_uri : string) : MM plan_acc :=
  let! manager := get (PStr manager_uri) do_async in
  let! id := lift_res (get_attr manager "Id") in
  let current := py_or id (PStr (PyStr.last_or "" (PyStr.split "/"%char manager_uri))) in
  let! network_uri := lift_res (link manager "NetworkProtocol") in
  if truthy manager_id && negb (py_eqb current manager_id) then ret acc
  else
    let! (network, readable) :=
      if truthy network_uri then try_get network_uri do_async else ret (PDict [], false) in
    if truthy network_uri && negb readable then
      ret (skipping acc (Skip current network_uri "NetworkProtocol resource is not readable"))
    else
      let! ntp := lift_res (get_attr network "NTP") in
      if is_dict ntp then ret (planned acc (Item current network_uri (ntp_payload servers)))
      else
        let! legacy_uri := lift_res (legacy_ntp_uri manager manager_uri) in
        let! legacy := if truthy legacy_uri then get legacy_uri do_async else ret (PDict []) in
        if is_legacy_ntp_resource legacy then
          match legacy_ntp_skip_reason servers with
          | Some reason => ret (skipping acc (Skip current legacy_uri reason))
          | None =>
              let! body := lift_res (legacy_ntp_payload servers) in
              ret (planned acc (Item current legacy_uri body))
          end
        else if truthy network_uri then
          ret (skipping acc (Skip current network_uri "NTP block is not available"))
        else ret (skipping acc (Skip current legacy_uri "NTP resource is not available")).

(** The checks after the loop. *)
Definition plan_result (manager_id : pyval) (acc : plan_acc) : res plan_acc :=
  match acc.1 with
  | [] =>
      if truthy manager_id
      then Raise (InvalidArgument ("Manager " +:+ py_repr manager_id +:+ " has no NTP-capable resource"))
      else if existsb (fun s => bool_decide (s_reason s = legacy_limit_reason)) acc.2
           then Raise (InvalidArgument legacy_limit_reason)
           else Raise (InvalidArgument "no NTP-capable Manager resources found")
  | _ => Ok acc
  end.

(** [_ntp_plan(servers, manager_id, do_async)] *)
Definition ntp_plan (servers : list string) (manager_id : pyval) (do_async : bool) : MM plan_acc :=
  let! ids := discover_manager_ids in
  let! acc := foldM (plan_manager servers manager_id do_async) ([], []) ids in
  lift_res (plan_result manager_id acc).

(** ** [execute] *)

(** One applied item: the dict of the report. *)
Record applied_item := Applied {
  a_manager : pyval;
  a_target : pyval;
  a_status : api_respond;
  a_error : pyval
}.

Definition applied_val (a : applied_item) : pyval :=
  PDict [("Manager", a_manager a); ("target", a_target a);
         ("status", PStr (api_respond_str (a_status a))); ("error", a_error a)].

(** One PATCH of the apply loop. *)
Definition apply_item (i : plan_item) : MM applied_item :=
  let! (result, status) := base_patch (py_str (i_target i)) (Some (i_payload i)) 0 in
  ret (Applied (i_manager i) (i_target i) status (error result)).

(** The top-level error: the count and the text of the failed targets. *)
Definition overall_error (applied : list applied_item) : pyval :=
  match filter (fun a => is_none (a_error a) = false) applied with
  | [] => PNone
  | failures =>
      PStr ("NTP PATCH failed on " +:+ pretty (length failures) +:+ "/" +:+ pretty (length applied)
            +:+ " target(s): "
            +:+ PyStr.join "; " (map (fun a =>
                  py_str (a_manager a) +:+ " (" +:+ api_respond_str (a_status a) +:+ "): "
                  +:+ py_str (a_error a)) failures))
  end.

(** [execute(servers, manager_id, clear, confirm, do_async)] *)
Definition execute (servers manager_id : pyval) (clear confirm do_async : bool) : MM CommandResult :=
  let! normalized := lift_res (normalize_ntp_servers servers clear) in
  let! (plan, skipped) := ntp_plan normalized manager_id do_async in
  let names := PList (map PStr normalized) in
  if negb confirm then
    ret (mkResult (PDict [("dry_run", PBool true);
                          ("note", PStr "preview only; re-run with --confirm to apply");
                          ("servers", names); ("plan", PList (map item_val plan));
                          ("skipped", PList (map skip_val skipped))]) PNone PNone PNone)
  else
    let! applied := mapM apply_item plan in
    ret (mkResult (PDict [("servers", names); ("applied", PList (map applied_val applied));
                          ("skipped", PList (map skip_val skipped))])
           PNone PNone (overall_error applied)).
End Command.

(** ** Normalisation *)

Definition comma_free (s : string) : Prop :=
  PyStr.has_char (fun x => bool_decide (x = ","%char)) s = false.

Lemma server_items_clean raw :
  Forall (fun s => comma_free s /\ PyStr.nonempty s = true) (server_items raw).
Proof.
  apply Forall_forall. intros s Hs. unfold server_items in Hs.
  apply list_elem_of_In, in_flat_map in Hs as (v & _ & Hs).
  apply list_elem_of_In, list_elem_of_filter in Hs as [Hne Hs].
  apply list_elem_of_fmap in Hs as (w & -> & Hw). split; [|done].
  apply strip_chars. pose proof (split_pieces ","%char (py_str v)) as Hp.
  rewrite Forall_forall in Hp. by apply Hp.
Qed.

Lemma plausible_no_space s :
  is_plausible_ntp_server s = true -> PyStr.has_char PyStr.is_space s = false.
Proof.
  unfold is_plausible_ntp_server. destruct (PyStr.has_char PyStr.is_space s); [|done].
  by rewrite orb_true_r.
Qed.

Lemma server_items_fixed l :
  Forall (fun s => comma_free s /\ PyStr.nonempty s = true) l ->
  Forall (fun s => is_plausible_ntp_server s = true) l ->
  server_items (map PStr l) = l.
Proof.
  induction l as [|s l IH]; [done|]. intros [[Hc Hn] Hl]%Forall_cons [Hp Hps]%Forall_cons.
  unfold server_items in *. simpl. rewrite (split_none _ s Hc). simpl.
  rewrite strip_none by (by apply plausible_no_space).
  rewrite filter_cons_True by done. simpl. f_equal. by apply IH.
Qed.

(** Normalising the NTP arguments: a result is non-empty and at most four
    entries long, every entry is an IP address or a host name, and normalising
    the result again changes nothing; clearing gives the empty list. *)
Theorem normalize_ntp_sound servers l :
  normalize_ntp_servers servers false = Ok l ->
  l <> [] /\ (length l <= MAX_NTP_SERVERS)%nat /\
  Forall (fun s => is_plausible_ntp_server s = true) l /\
  normalize_ntp_servers (PList (map PStr l)) false = Ok l.
Proof.
  cbn [normalize_ntp_servers]. intros (raw & _ & H)%res_bind_ok.
  destruct (server_items raw) as [|s0 l0] eqn:Hi; [done|].
  destruct (MAX_NTP_SERVERS <? length (s0 :: l0))%nat eqn:Hlen; [done|].
  destruct (find (fun s => negb (is_plausible_ntp_server s)) (s0 :: l0)) eqn:Hf; [done|].
  injection H as <-. apply Nat.ltb_ge in Hlen.
  assert (Forall (fun s => is_plausible_ntp_server s = true) (s0 :: l0)) as Hp.
  { apply Forall_forall. intros s Hs. apply list_elem_of_In in Hs.
    pose proof (find_none _ _ Hf s Hs) as Hn. by apply negb_false_iff in Hn. }
  pose proof (server_items_clean raw) as Hclean. rewrite Hi in Hclean.
  split; [done|]. split; [done|]. split; [done|]. cbn [res_bind py_iter].
  rewrite server_items_fixed by done.
  apply Nat.ltb_ge in Hlen. by rewrite Hlen, Hf.
Qed.

Lemma normalize_ntp_sound_witness :
  ["0.pool.ntp.org"; "fe80::1"] <> ([] : list string) /\ (2 <= MAX_NTP_SERVERS)%nat /\
  Forall (fun s => is_plausible_ntp_server s = true) ["0.pool.ntp.org"; "fe80::1"] /\
  normalize_ntp_servers (PList (map PStr ["0.pool.ntp.org"; "fe80::1"])) false
    = Ok ["0.pool.ntp.org"; "fe80::1"].
Proof.
  apply (normalize_ntp_sound (PStr " 0.pool.ntp.org,,fe80::1 ")). vm_compute. reflexivity.
Defined.

(** ** What the command sends *)

Section Effects.
Context {W : Type} `{!World W}.

Lemma emits_ntp_plan servers mid b : emits is_get (ntp_plan (W := W) servers mid b).
Proof.
  unfold ntp_plan, discover_manager_ids, plan_manager, get, try_get. frame.
Qed.

Lemma same_conn_ntp_plan servers mid b : frames same_conn (ntp_plan (W := W) servers mid b).
Proof.
  unfold ntp_plan, discover_manager_ids, plan_manager, get, try_get. frame.
Qed.

(** The PATCH of a plan item. *)
Definition patch_of (m : manager) (i : plan_item) : request :=
  write_request m PATCH (py_str (i_target i)) (Some (i_payload i)).

Lemma apply_item_run m i (s : mstate W) :
  conn (mgr s) = conn m ->
  trace (apply_item i s).1 = trace s ++ [patch_of m i] /\ conn (mgr (apply_item i s).1) = conn m.
Proof.
  intros Hc.
  destruct (base_request_respond_run (py_str (i_target i)) PATCH (Some (i_payload i)) 0 s)
    as [m' Hrun]; [auto|].
  pose proof (same_conn_write (py_str (i_target i)) PATCH (Some (i_payload i)) "json" 0 s) as Hsame.
  assert (write_request (mgr s) PATCH (py_str (i_target i)) (Some (i_payload i)) = patch_of m i) as Hrq.
  { unfold patch_of, write_request. rewrite (conn_base_url (mgr s) m) by done.
    by apply conn_sync_request. }
  unfold same_conn in Hsame. unfold apply_item, base_patch, bind.
  rewrite Hrun in Hsame |- *. simpl in Hsame. rewrite Hrq. clear Hrun.
  destruct (match reply s _ with Ok r => _ | Raise e => _ | NoFuel => _ end) as [[cr st]|e|];
    simpl; (split; [done|congruence]).
Qed.

(** The apply loop sends the PATCHes of the plan in order, all of them unless one
    raises. *)
Lemma apply_run m plan (s : mstate W) :
  conn (mgr s) = conn m ->
  exists patches,
    trace (mapM apply_item plan s).1 = trace s ++ patches /\
    patches `prefix_of` map (patch_of m) plan /\
    (forall l, (mapM apply_item plan s).2 = Ok l -> patches = map (patch_of m) plan).
Proof.
  revert s. induction plan as [|i plan IH]; intros s Hc.
  { exists []. by rewrite app_nil_r. }
  destruct (apply_item_run m i s Hc) as [Ht1 Hc1]. simpl. unfold bind.
  destruct (apply_item i s) as [s1 [a|e|]]; simpl in Ht1, Hc1 |- *;
    [|exists [patch_of m i]; split; [done|]; split; [by eexists|done]..].
  destruct (IH s1 Hc1) as (patches & Ht & Hpre & Hall). exists (patch_of m i :: patches).
  destruct (mapM apply_item plan s1) as [s2 [l|e|]]; simpl in *;
    rewrite Ht, Ht1, <- app_assoc; simpl; (split; [done|]); (split; [by apply prefix_cons|]);
    [|done..].
  intros l' _. f_equal. by eapply Hall.
Qed.

Lemma execute_run servers mid clear confirm b (s : mstate W) :
  execute servers mid clear confirm b s =
  match normalize_ntp_servers servers clear with
  | Ok names =>
      match ntp_plan names mid b s with
      | (s1, Ok (plan, skipped)) =>
          if confirm then
            match mapM apply_item plan s1 with
            | (s2, Ok applied) => (s2, Ok (mkResult
                (PDict [("servers", PList (map PStr names)); ("applied", PList (map applied_val applied));
                        ("skipped", PList (map skip_val skipped))]) PNone PNone (overall_error applied)))
            | (s2, Raise e) => (s2, Raise e)
            | (s2, NoFuel) => (s2, NoFuel)
            end
          else (s1, Ok (mkResult
                (PDict [("dry_run", PBool true);
                        ("note", PStr "preview only; re-run with --confirm to apply");
                        ("servers", PList (map PStr names)); ("plan", PList (map item_val plan));
                        ("skipped", PList (map skip_val skipped))]) PNone PNone PNone))
      | (s1, Raise e) => (s1, Raise e)
      | (s1, NoFuel) => (s1, NoFuel)
      end
  | Raise e => (s, Raise e)
  | NoFuel => (s, NoFuel)
  end.
Proof.
  unfold execute, bind at 1, lift_res. destruct (normalize_ntp_servers servers clear); [|done..].
  unfold bind at 1. destruct (ntp_plan a mid b s) as [s1 [[plan skipped]|e|]]; [|done..].
  by destruct confirm.
Qed.

(** C14.  Preview and apply agree: without [--confirm] the command sends only reads,
    and with it, from the same state, the same reads and then PATCHes that
    follow the previewed plan item by item, target and payload; all of them
    when it returns.  When the preview raises, the real run raises the same and
    has written nothing. *)
Theorem ntp_set_applies_plan servers mid clear b (s : mstate W) :
  let dry := execute servers mid clear false b s in
  let go := execute servers mid clear true b s in
  (exists reads, trace dry.1 = trace s ++ reads /\ Forall is_get reads) /\
  match dry.2 with
  | Ok r =>
      exists plan patches,
        dget "plan" (as_dict (data r)) = PList (map item_val plan) /\
        trace go.1 = trace dry.1 ++ patches /\ patches `prefix_of` map (patch_of (mgr s)) plan /\
        (forall r', go.2 = Ok r' -> patches = map (patch_of (mgr s)) plan)
  | _ => go = dry
  end.
Proof.
  cbv zeta. rewrite (execute_run _ _ _ false), (execute_run _ _ _ true).
  destruct (normalize_ntp_servers servers clear) as [names|e|];
    [|by split; [exists []; rewrite app_nil_r|]..].
  pose proof (emits_ntp_plan names mid b s) as Hreads.
  pose proof (same_conn_ntp_plan names mid b s) as Hconn. unfold same_conn in Hconn.
  destruct (ntp_plan names mid b s) as [s1 [[plan skipped]|e|]]; simpl in Hreads, Hconn |- *;
    [|split; [by destruct Hreads as (l & -> & HF); exists l|done]..].
  split; [by destruct Hreads as (l & -> & HF); exists l|].
  destruct (apply_run (mgr s) plan s1 Hconn) as (patches & Ht & Hpre & Hall).
  exists plan, patches. split; [done|].
  destruct (mapM apply_item plan s1) as [s2 [l|e|]]; simpl in *; (split; [done|]); (split; [done|]);
    [|done..].
  intros r' _. by eapply Hall.
Qed.
End Effects.

(** ** Evaluation *)

Definition ntp_routes : list (method * string * list response) :=
  let host := "https://10.0.0.42" in
  [(GET, host +:+ "/redfish/v1/Managers",
    [ok_json (PDict [("Members", PList [PDict [("@odata.id", PStr "/redfish/v1/Managers/1")];
                                        PDict [("@odata.id", PStr "/redfish/v1/Managers/2")]])])]);
   (GET, host +:+ "/redfish/v1/Managers/1",
    [ok_json (PDict [("Id", PStr "BMC");
                     ("NetworkProtocol", PDict [("@odata.id", PStr "/redfish/v1/Managers/1/NP")])])]);
   (GET, host +:+ "/redfish/v1/Managers/1/NP", [ok_json (PDict [("NTP", PDict [])])]);
   (GET, host +:+ "/redfish/v1/Managers/2", [ok_json (PDict [("Oem", PDict [("Supermicro", PDict [])])])]);
   (GET, host +:+ "/redfish/v1/Managers/2/NTP", [ok_json (PDict [("NTPEnable", PBool false)])]);
   (PATCH, host +:+ "/redfish/v1/Managers/1/NP", [Response 204 [] (inr "")])].

Example ntp_set_applied :
  let out := execute (PStr "a.org,b.org") PNone false true false
               (sim_state sample_manager ntp_routes) in
  map rq_method (trace out.1) = [GET; GET; GET; GET; GET; PATCH; PATCH] /\
  out.2 = Raise (ResourceNotFound (PErr 404 "" "" [] "")).
Proof. vm_compute. auto. Qed.

Example ntp_set_three :
  let out := execute (PStr "a.org,b.org,c.org") PNone false true false
               (sim_state sample_manager ntp_routes) in
  map rq_method (trace out.1) = [GET; GET; GET; GET; GET; PATCH] /\
  match out.2 with
  | Ok r => error r = PNone /\
      dget "skipped" (as_dict (data r)) =
        PList [skip_val (Skip (PStr "2") (PStr "/redfish/v1/Managers/2/NTP") legacy_limit_reason)]
  | _ => False
  end.
Proof. vm_compute. auto. Qed.
End NtpSet.
