(* ===== verification/Invoker.v ===== *)
(** * The command interface of the service layers

    src/redfish_ctl/api.py, the protocol [SyncInvoker]: what the typed API and the
    reconciler need of a manager is one operation that runs a registered
    command.  They are verified against this interface; [recorder] is the
    invoker that answers from an arbitrary function of the calls made so far. *)

From stdpp Require Import base list strings.
From S2P Require Import Prelude PyVal Effects.

(** [sync_invoke(api_call, name, **kwargs)] on some process state *)
Class SyncInvoker (S : Type) :=
  sync_invoke : string -> string -> pydict -> M S CommandResult.

Record call := Call_ { c_api : string; c_name : string; c_kwargs : pydict }.

(** An environment: what a command returns, given the calls before it. *)
Abbreviation environment := (list call -> call -> res CommandResult).

Definition recorder (env : environment) : SyncInvoker (list call) :=
  fun api name kwargs log =>
    let c := Call_ api name kwargs in (log ++ [c], env log c).

(** ** What a client calls *)

Section Recorded.
Context (env : environment).
Abbreviation R A := (M (list call) A).

(** Every call of [m] satisfies [P]. *)
Definition only_calls (P : call -> Prop) (log log' : list call) : Prop :=
  exists l, log' = log ++ l /\ Forall P l.

#[export] Instance only_calls_preorder P : PreOrder (only_calls P).
Proof.
  split.
  - intros log. exists []. by rewrite app_nil_r.
  - intros a b c (l & -> & Hl) (l' & -> & Hl'). exists (l ++ l').
    rewrite app_assoc. split; [done|]. by apply Forall_app.
Qed.

(** [fails_fast m]: a call whose result carries an error is the last one, and
    [m] raises that error. *)
Definition fails_fast {A} (m : R A) : Prop :=
  forall log, exists l, (m log).1 = log ++ l /\
  forall l1 c l2 cr, l = l1 ++ c :: l2 -> env (log ++ l1) c = Ok cr -> truthy (error cr) = true ->
    l2 = [] /\ (m log).2 = Raise (RedfishApiError (py_str (error cr))).

Lemma fails_fast_silent {A} (m : R A) : (forall log, (m log).1 = log) -> fails_fast m.
Proof.
  intros Hm log. exists []. rewrite app_nil_r. split; [done|]. intros l1 c l2 cr Heq.
  by destruct l1.
Qed.

Lemma fails_fast_bind {A B} (m : R A) (k : A -> R B) :
  fails_fast m -> (forall a, fails_fast (k a)) -> fails_fast (bind m k).
Proof.
  intros Hm Hk log. destruct (Hm log) as (l & Hl & Hf). unfold bind.
  destruct (m log) as [log1 [a|e|]]; simpl in *; subst.
  - destruct (Hk a (log ++ l)) as (l' & Hl' & Hf'). exists (l ++ l').
    rewrite Hl', app_assoc. split; [done|]. intros l1 c l2 cr Heq Henv Herr.
    apply app_eq_app in Heq as [k' [[-> Heq]|[-> Heq]]].
    + destruct k' as [|c' k'].
      * simpl in Heq. rewrite app_nil_r in *. apply (Hf' [] c l2 cr); [done| |done].
        by rewrite app_nil_r.
      * simpl in Heq. injection Heq as <- ->.
        by destruct (Hf l1 c k' cr eq_refl Henv Herr) as [_ ?].
    + apply (Hf' k' c l2 cr); [done| |done]. by rewrite <- app_assoc.
  - exists l. split; [done|]. intros l1 c l2 cr -> Henv Herr.
    destruct (Hf l1 c l2 cr eq_refl Henv Herr) as [-> [= ->]]. done.
  - exists l. split; [done|]. intros l1 c l2 cr -> Henv Herr.
    by destruct (Hf l1 c l2 cr eq_refl Henv Herr).
Qed.
End Recorded.
