(* ===== verification/Reconcile.v ===== *)
(** * Desired-state reconciliation

    src/redfish_ctl/reconcile.py: the desired state and how it is read from a
    CRD-style mapping, and [reconcile], which plans each part and applies it
    only when confirmed.  Commands run through the [SyncInvoker] interface. *)

From stdpp Require Import base list strings.
From Stdlib Require Import Ascii ZArith Lia.
From S2P Require Import Prelude PyVal Effects Http Invoker.

Module Reconcile.
Import Http.
Local Open Scope py_scope.

(** ** The desired state *)

Record DesiredState := Desired {
  bios_profile : option string;
  ntp_servers : list string;
  ntp_manager_id : option string;
  boot_device : option string;
  boot_mode : option string;
  uefi_target : option string;
  reset_type : option string
}.

(** [_mapping(value)] *)
Definition mapping (v : pyval) : pydict := as_dict v.

(** [_mapping_rows(value)] *)
Definition mapping_rows (v : pyval) : list pydict :=
  match v with
  | PList l | PTuple l => omap (fun r => match r with PDict d => Some d | _ => None end) l
  | _ => []
  end.

(** [_first(mapping, *keys)] *)
Fixpoint first (d : pydict) (keys : list string) : pyval :=
  match keys with
  | [] => PNone
  | k :: ks => match dict_get k d with Some v => v | None => first d ks end
  end.

(** [_optional_str(value)] *)
Definition optional_str (v : pyval) : option string :=
  match v with
  | PNone => None
  | _ => let text := PyStr.strip (py_str v) in
         if PyStr.nonempty text then Some text else None
  end.

(** [_str_tuple(value)] *)
Definition str_tuple (v : pyval) : res (list string) :=
  let clean (l : list string) := filter (fun s => PyStr.nonempty s = true) (map PyStr.strip l) in
  match v with
  | PNone => Ok []
  | PStr s => Ok (clean (PyStr.split ","%char s))
  | _ => match py_iter v with
         | Some l => Ok (clean (map py_str l))
         | None => Raise (TypeError ("'" +:+ type_name v +:+ "' object is not iterable"))
         end
  end.

(** [_reset_type(reboot_spec, reboot)] *)
Definition get_reset_type (reboot_spec : pyval) (reboot : pydict) : res (option string) :=
  match reboot_spec with
  | PStr _ => Ok (optional_str reboot_spec)
  | PBool true => Raise (ValueError "reboot.resetType must be an explicit string")
  | PBool false => Ok None
  | _ => match first reboot ["resetType"; "reset_type"] with
         | PNone => Ok None
         | PStr s => Ok (optional_str (PStr s))
         | _ => Raise (ValueError "reboot.resetType must be an explicit string")
         end
  end.

(** [DesiredState.from_mapping(spec)] *)
Definition from_mapping (spec : pydict) : res DesiredState :=
  let ntp := mapping (dget "ntp" spec) in
  let boot := mapping (dget "boot" spec) in
  let reboot_spec := dget "reboot" spec in
  let? servers := str_tuple (py_or (first ntp ["servers"]) (first spec ["ntpServers"; "ntp_servers"])) in
  let? reset := get_reset_type reboot_spec (mapping reboot_spec) in
  Ok (Desired
        (optional_str (first spec ["biosProfile"; "bios_profile"]))
        servers
        (optional_str (first ntp ["manager"; "managerId"; "manager_id"]))
        (optional_str (first boot ["device"]))
        (optional_str (first boot ["mode"]))
        (optional_str (first boot ["uefiTarget"; "uefi_target"]))
        reset).

(** ** Comparing with the current state *)

(** A field that is neither [None] nor empty. *)
Definition given (o : option string) : option string :=
  match o with Some s => if PyStr.nonempty s then Some s else None | None => None end.

(** [_ntp_row_is_capable(ntp)] *)
Definition ntp_row_is_capable (ntp : pydict) : bool :=
  negb (is_none (dget "ProtocolEnabled" ntp)) || truthy (dget "NTPServers" ntp).

(** [_ntp_already_matches(rows, state)]; [comparable] is whether a row was kept *)
Fixpoint ntp_rows_match (st : DesiredState) (comparable : bool) (rows : list pydict) : res bool :=
  match rows with
  | [] => Ok comparable
  | row :: rest =>
      let other := match given (ntp_manager_id st) with
                   | Some id => negb (bool_decide (optional_str (dget "Manager" row) = Some id))
                   | None => false
                   end in
      if other then ntp_rows_match st comparable rest
      else
        let ntp := mapping (dget "NTP" row) in
        if negb (ntp_row_is_capable ntp) then
          match given (ntp_manager_id st) with
          | Some _ => Ok false
          | None => ntp_rows_match st comparable rest
          end
        else if negb (is_True (dget "ProtocolEnabled" ntp)) then Ok false
        else
          let? current := str_tuple (dget "NTPServers" ntp) in
          if bool_decide (current = ntp_servers st) then ntp_rows_match st true rest else Ok false
  end.

Definition ntp_already_matches (rows : list pydict) (st : DesiredState) : res bool :=
  ntp_rows_match st false rows.

(** [_boot_already_matches(current, state)] *)
Definition boot_already_matches (current : pydict) (st : DesiredState) : bool :=
  let enabled := if decide (boot_device st = Some "None") then "Disabled" else "Once" in
  let same k o := match o with Some s => eq_str (dget k current) s | None => true end in
  eq_str (dget "BootSourceOverrideEnabled" current) enabled &&
  py_eqb (dget "BootSourceOverrideTarget" current) (opt_str (boot_device st)) &&
  same "BootSourceOverrideMode" (boot_mode st) &&
  same "UefiTargetBootSourceOverride" (uefi_target st).

(** ** The plan and its application *)

Record ReconcileStep := Step {
  kind : string;
  required : bool;
  description : string;
  preview : pydict
}.

Record AppliedChange := Change {
  a_kind : string;
  changed : bool;
  result : pydict
}.

Record ReconcileResult := Result {
  dry_run : bool;
  steps : list ReconcileStep;
  applied : list AppliedChange
}.

(** The two lists the stages append to. *)
Abbreviation progress := (list ReconcileStep * list AppliedChange)%type.

Definition add_step (p : progress) (s : ReconcileStep) : progress := (p.1 ++ [s], p.2).
Definition add_change (p : progress) (c : AppliedChange) : progress := (p.1, p.2 ++ [c]).

(** The calls of the stages. *)
Definition bios_call (action : string) (profile : string) (extra : pydict) : call :=
  Call_ "BiosProfile" "bios-profile"
    ([("action", PStr action); ("profile_name", PStr profile)] ++ extra).
Definition bios_diff (profile : string) : call := bios_call "diff" profile [].
Definition bios_apply (profile : string) : call :=
  bios_call "apply" profile [("confirm", PBool true); ("dry_run", PBool false)].
Definition network_read : call := Call_ "ManagerNetworkProtocol" "manager-network" [].
Definition ntp_call (st : DesiredState) (confirm : bool) : call :=
  Call_ "NtpSet" "ntp-set"
    [("servers", PTuple (map PStr (ntp_servers st))); ("manager_id", opt_str (ntp_manager_id st));
     ("confirm", PBool confirm)].
Definition boot_read : call := Call_ "CurrentBoot" "current_boot_query" [].
Definition boot_call (st : DesiredState) : call :=
  Call_ "BootOneShot" "boot_one_shot"
    [("device", opt_str (boot_device st)); ("mode", opt_str (boot_mode st));
     ("uefi_target", opt_str (uefi_target st)); ("do_reboot", PBool false)].
Definition reset_call (st : DesiredState) (confirm wait async : bool) : call :=
  Call_ "ComputerSystemReset" "reboot"
    [("reset_type", opt_str (reset_type st)); ("dry_run", PBool (negb confirm));
     ("do_wait", PBool (wait && confirm)); ("do_async", PBool async)].

Section Reconcile.
Context {S : Type} `{!SyncInvoker S}.
Abbreviation MM := (M S).

(** [_invoke_data(manager, api_call, name, **kwargs)] *)
Definition invoke_data (c : call) : MM pyval :=
  let! r := sync_invoke (c_api c) (c_name c) (c_kwargs c) in
  if truthy (error r) then raise (RedfishApiError (py_str (error r))) else ret (data r).

(** [_invoke_mapping] *)
Definition invoke_mapping (c : call) : MM pydict := let! v := invoke_data c in ret (mapping v).

(** [_invoke_rows] *)
Definition invoke_rows (c : call) : MM (list pydict) := let! v := invoke_data c in ret (mapping_rows v).

(** [_reconcile_bios_profile] *)
Definition reconcile_bios_profile (profile : string) (confirm : bool) (p : progress) : MM progress :=
  let! diff := invoke_mapping (bios_diff profile) in
  let req := negb (truthy (dget "matches" diff)) in
  let p := add_step p (Step "bios-profile" req ("BIOS profile " +:+ profile) diff) in
  if confirm && req then
    let! result := invoke_mapping (bios_apply profile) in
    ret (add_change p (Change "bios-profile" true result))
  else ret p.

(** [_reconcile_ntp] *)
Definition reconcile_ntp (st : DesiredState) (confirm : bool) (p : progress) : MM progress :=
  let! current := invoke_rows network_read in
  let! same := lift_res (ntp_already_matches current st) in
  if same then
    ret (add_step p (Step "ntp" false "Manager NTP servers"
           [("servers", PList (map PStr (ntp_servers st))); ("manager", opt_str (ntp_manager_id st));
            ("current", PList (map PDict current))]))
  else
    let! result := invoke_mapping (ntp_call st confirm) in
    let p := add_step p (Step "ntp" (truthy (py_or (dget "plan" result) (dget "applied" result)))
                           "Manager NTP servers" result) in
    ret (if confirm then add_change p (Change "ntp" (truthy (dget "applied" result)) result) else p).

(** [_reconcile_boot] *)
Definition reconcile_boot (st : DesiredState) (confirm : bool) (p : progress) : MM progress :=
  let! current := invoke_mapping boot_read in
  let preview := [("device", opt_str (boot_device st)); ("mode", opt_str (boot_mode st));
                  ("uefiTarget", opt_str (uefi_target st)); ("current", PDict current)] in
  let req := negb (boot_already_matches current st) in
  let p := add_step p (Step "boot" req "One-time boot override" preview) in
  if confirm && req then
    let! result := invoke_mapping (boot_call st) in
    ret (add_change p (Change "boot" true result))
  else ret p.

(** [_reconcile_reboot] *)
Definition reconcile_reboot (st : DesiredState) (reset : string) (confirm wait async : bool)
    (p : progress) : MM progress :=
  let! result := invoke_mapping (reset_call st confirm wait async) in
  let p := add_step p (Step "reboot" true ("Host reset " +:+ reset) result) in
  ret (if confirm then add_change p (Change "reboot" true result) else p).

Definition when {A} (o : option A) (f : A -> progress -> MM progress) (p : progress) : MM progress :=
  match o with Some a => f a p | None => ret p end.

Definition some_servers (st : DesiredState) : option unit :=
  match ntp_servers st with [] => None | _ => Some tt end.

(** [reconcile(manager, desired, confirm, wait_for_reboot, async_call)] on a
    [DesiredState] *)
Definition reconcile (st : DesiredState) (confirm wait async : bool) : MM ReconcileResult :=
  let! p := when (given (bios_profile st)) (fun n => reconcile_bios_profile n confirm) ([], []) in
  let! p := when (some_servers st) (fun _ => reconcile_ntp st confirm) p in
  let! p := when (given (boot_device st)) (fun _ => reconcile_boot st confirm) p in
  let! p := when (given (reset_type st)) (fun r => reconcile_reboot st r confirm wait async) p in
  ret (Result (negb confirm) p.1 p.2).

(** ... and on a mapping *)
Definition reconcile_spec (spec : pydict) (confirm wait async : bool) : MM ReconcileResult :=
  let! st := lift_res (from_mapping spec) in reconcile st confirm wait async.
End Reconcile.

(** ** Preview calls *)

(** A call that asks for a read or for a preview. *)
Definition is_preview (c : call) : bool :=
  let d := c_kwargs c in
  let flag k b := match dict_get k d with Some (PBool b') => bool_decide (b' = b) | _ => false end in
  if decide (c_api c = "BiosProfile") then eq_str (dget "action" d) "diff"
  else if decide (c_api c = "NtpSet") then flag "confirm" false
  else if decide (c_api c = "ComputerSystemReset") then flag "dry_run" true
  else bool_decide (c_api c ∈ ["ManagerNetworkProtocol"; "CurrentBoot"]).

(** What the reconciler needs of the commands behind the interface: a preview
    stays within [R]. *)
Class PreviewSafe {S} `{!SyncInvoker S} (R : S -> S -> Prop) :=
  preview_safe : forall c, is_preview c = true ->
    frames R (sync_invoke (c_api c) (c_name c) (c_kwargs c)).

Section Frames.
Context {S : Type} `{!SyncInvoker S} (R : S -> S -> Prop) `{!PreOrder R} `{!PreviewSafe R}.

Lemma preview_invoke_data c : is_preview c = true -> frames R (invoke_data c).
Proof. intros Hc. unfold invoke_data. frame; by apply preview_safe. Qed.

Lemma preview_invoke_mapping c : is_preview c = true -> frames R (invoke_mapping c).
Proof. intros Hc. unfold invoke_mapping. frame; by apply preview_invoke_data. Qed.

Lemma preview_invoke_rows c : is_preview c = true -> frames R (invoke_rows c).
Proof. intros Hc. unfold invoke_rows. frame; by apply preview_invoke_data. Qed.

(** No stage records a change without confirmation. *)
Lemma unconfirmed_bios o p s s' p' :
  when o (fun n => reconcile_bios_profile n false) p s = (s', Ok p') -> p'.2 = p.2.
Proof.
  unfold when, reconcile_bios_profile. destruct o; [|by intros [= <- <-]].
  intros (s1 & d & _ & H)%bind_inv_ok. by injection H as <- <-.
Qed.

Lemma unconfirmed_ntp {A} (o : option A) st p s s' p' :
  when o (fun _ => reconcile_ntp st false) p s = (s', Ok p') -> p'.2 = p.2.
Proof.
  unfold when, reconcile_ntp. destruct o; [|by intros [= <- <-]].
  intros (s1 & d & _ & (s2 & same & _ & H)%bind_inv_ok)%bind_inv_ok. destruct same.
  - by injection H as <- <-.
  - apply bind_inv_ok in H as (s3 & r & _ & H). by injection H as <- <-.
Qed.

Lemma unconfirmed_boot {A} (o : option A) st p s s' p' :
  when o (fun _ => reconcile_boot st false) p s = (s', Ok p') -> p'.2 = p.2.
Proof.
  unfold when, reconcile_boot. destruct o; [|by intros [= <- <-]].
  intros (s1 & d & _ & H)%bind_inv_ok. by injection H as <- <-.
Qed.

Lemma unconfirmed_reboot o st wait async p s s' p' :
  when o (fun r => reconcile_reboot st r false wait async) p s = (s', Ok p') -> p'.2 = p.2.
Proof.
  unfold when, reconcile_reboot. destruct o; [|by intros [= <- <-]].
  intros (s1 & d & _ & H)%bind_inv_ok. by injection H as <- <-.
Qed.

Lemma reconcile_preview_frames st wait async : frames R (reconcile st false wait async).
Proof.
  unfold reconcile, when, reconcile_bios_profile, reconcile_ntp, reconcile_boot, reconcile_reboot.
  cbn [andb]. frame;
    first [ by apply preview_invoke_mapping | by apply preview_invoke_rows ].
Qed.

(** Without confirmation reconciliation only previews: whatever the desired
    state, every command it runs is a read or a preview, so it stays within any
    relation the previews stay within; and it reports no change. *)
Theorem reconcile_unconfirmed st wait async (s : S) :
  R s (reconcile st false wait async s).1 /\
  forall r, (reconcile st false wait async s).2 = Ok r -> applied r = [] /\ dry_run r = true.
Proof.
  split; [apply reconcile_preview_frames|]. intros r Hr.
  destruct (reconcile st false wait async s) as [s' out] eqn:Hrun. simpl in Hr. subst out.
  unfold reconcile in Hrun.
  apply bind_inv_ok in Hrun as (s1 & p1 & H1 & (s2 & p2 & H2 & (s3 & p3 & H3 & (s4 & p4 & H4 & Hr)%bind_inv_ok
    )%bind_inv_ok)%bind_inv_ok).
  unfold ret in Hr. simplify_eq. simpl. split; [|done].
  apply unconfirmed_bios in H1. apply unconfirmed_ntp in H2. apply unconfirmed_boot in H3.
  apply unconfirmed_reboot in H4. simpl in H1. congruence.
Qed.
End Frames.

(** ** The calls of a confirmed run *)

Section Calls.
Context (env : environment).
#[local] Instance recorded : SyncInvoker (list call) := recorder env.

(** What [_invoke_data] makes of an answer. *)
Definition answered (log : list call) (c : call) : res pyval :=
  let? r := env log c in
  if truthy (error r) then Raise (RedfishApiError (py_str (error r))) else Ok (data r).

Lemma invoke_data_run c log : invoke_data c log = (log ++ [c], answered log c).
Proof.
  destruct c as [api name kw].
  unfold invoke_data, bind, sync_invoke, recorded, recorder, answered. simpl.
  destruct (env log _) as [r|e|]; simpl; [|done..]. by destruct (truthy (error r)).
Qed.

Lemma invoke_mapping_run c log :
  invoke_mapping c log = (log ++ [c], let? v := answered log c in Ok (mapping v)).
Proof. unfold invoke_mapping, bind. rewrite invoke_data_run. by destruct (answered log c). Qed.

Lemma invoke_rows_run c log :
  invoke_rows c log = (log ++ [c], let? v := answered log c in Ok (mapping_rows v)).
Proof. unfold invoke_rows, bind. rewrite invoke_data_run. by destruct (answered log c). Qed.

(** *** Errors *)

Lemma fails_fast_invoke_data c : fails_fast env (invoke_data c).
Proof.
  intros log. exists [c]. rewrite invoke_data_run. split; [done|].
  intros l1 c' l2 cr Heq. destruct l1 as [|? l1]; [|by destruct l1].
  injection Heq as <- <-. rewrite app_nil_r. intros Henv Herr. split; [done|].
  unfold answered. simpl. rewrite Henv. simpl. by rewrite Herr.
Qed.

(** The reconciler fails fast: as soon as a command returns an error, no
    further command is run, confirmed or not, and the error is raised as a
    [RedfishApiError] with its text. *)
Theorem reconcile_fails_fast st confirm wait async :
  fails_fast env (reconcile st confirm wait async).
Proof.
  unfold reconcile, when, reconcile_bios_profile, reconcile_ntp, reconcile_boot, reconcile_reboot,
    invoke_mapping, invoke_rows.
  repeat first
    [ apply fails_fast_invoke_data | apply fails_fast_bind; [|intros ?]
    | by apply fails_fast_silent | case_match ].
Qed.

(** *** The sequence of commands *)

Definition opt (b : bool) {A} (l : list A) : list A := if b then l else [].

(** [stage f k calls changes fact]: a successful run of the stage [f] makes the
    calls [calls a b], records a step of kind [k] and the changes [changes b],
    for a [b] (does the part differ?) of which [fact] holds. *)
Definition stage {A} (f : A -> progress -> M (list call) progress) (k : string)
    (calls : A -> bool -> list call) (changes : bool -> list string) (fact : A -> bool -> Prop) : Prop :=
  forall a p log log' p', f a p log = (log', Ok p') ->
  exists b, fact a b /\ log' = log ++ calls a b /\
    map kind p'.1 = map kind p.1 ++ [k] /\ map a_kind p'.2 = map a_kind p.2 ++ changes b.

(** The facts behind [b]: what the preview command answered. *)
Definition bios_differs (n : string) (b : bool) : Prop :=
  exists log v, answered log (bios_diff n) = Ok v /\ b = negb (truthy (dget "matches" (mapping v))).
Definition ntp_differs (st : DesiredState) (b : bool) : Prop :=
  exists log v, answered log network_read = Ok v /\
    ntp_already_matches (mapping_rows v) st = Ok (negb b).
Definition boot_differs (st : DesiredState) (b : bool) : Prop :=
  exists log v, answered log boot_read = Ok v /\ b = negb (boot_already_matches (mapping v) st).

Lemma bios_stage confirm :
  stage (fun n => reconcile_bios_profile n confirm) "bios-profile"
    (fun n b => [bios_diff n] ++ opt (confirm && b) [bios_apply n])
    (fun b => opt (confirm && b) ["bios-profile"]) bios_differs.
Proof.
  intros n p log log' p'. unfold reconcile_bios_profile, bind. rewrite invoke_mapping_run.
  destruct (answered log (bios_diff n)) as [v|e|] eqn:Hv; simpl; [|done..].
  intros Hrun. exists (negb (truthy (dget "matches" (mapping v)))). split; [by exists log, v|].
  destruct (confirm && _) eqn:Hc; simpl in *.
  - rewrite invoke_mapping_run in Hrun. destruct (answered (log ++ _) _); simpl in Hrun;
      unfold ret in Hrun; simplify_eq. simpl. by rewrite <- app_assoc, !map_app.
  - unfold ret in Hrun. simplify_eq. simpl. by rewrite map_app, !app_nil_r.
Qed.

Lemma ntp_stage st confirm :
  stage (fun _ : unit => reconcile_ntp st confirm) "ntp"
    (fun _ b => [network_read] ++ opt b [ntp_call st confirm])
    (fun b => opt (confirm && b) ["ntp"]) (fun _ => ntp_differs st).
Proof.
  intros [] p log log' p'. unfold reconcile_ntp, bind, lift_res. rewrite invoke_rows_run.
  destruct (answered log network_read) as [v|e|] eqn:Hv; simpl; [|done..].
  destruct (ntp_already_matches (mapping_rows v) st) as [same|e|] eqn:Hm; [|done..].
  intros Hrun. exists (negb same). split; [exists log, v; by rewrite negb_involutive|].
  destruct same; simpl in *.
  - unfold ret in Hrun. simplify_eq. simpl. by rewrite andb_false_r, map_app, !app_nil_r.
  - rewrite invoke_mapping_run in Hrun. destruct (answered _ (ntp_call st confirm)); simpl in Hrun;
      unfold ret in Hrun; simplify_eq.
    rewrite <- app_assoc, andb_true_r. destruct confirm; simpl; by rewrite !map_app, ?app_nil_r.
Qed.

Lemma boot_stage st confirm :
  stage (fun _ : string => reconcile_boot st confirm) "boot"
    (fun _ b => [boot_read] ++ opt (confirm && b) [boot_call st])
    (fun b => opt (confirm && b) ["boot"]) (fun _ => boot_differs st).
Proof.
  intros d p log log' p'. unfold reconcile_boot, bind. rewrite invoke_mapping_run.
  destruct (answered log boot_read) as [v|e|] eqn:Hv; simpl; [|done..].
  intros Hrun. exists (negb (boot_already_matches (mapping v) st)). split; [by exists log, v|].
  destruct (confirm && _) eqn:Hc; simpl in *.
  - rewrite invoke_mapping_run in Hrun. destruct (answered (log ++ _) _); simpl in Hrun;
      unfold ret in Hrun; simplify_eq. simpl. by rewrite <- app_assoc, !map_app.
  - unfold ret in Hrun. simplify_eq. simpl. by rewrite map_app, !app_nil_r.
Qed.

Lemma reboot_stage st confirm wait async :
  stage (fun n => reconcile_reboot st n confirm wait async) "reboot"
    (fun _ _ => [reset_call st confirm wait async]) (fun _ => opt confirm ["reboot"]) (fun _ _ => True).
Proof.
  intros n p log log' p'. unfold reconcile_reboot, bind. rewrite invoke_mapping_run.
  destruct (answered log _) as [v|e|]; simpl; unfold ret; intros; simplify_eq.
  exists true. destruct confirm; simpl; by rewrite !map_app, ?app_nil_r.
Qed.

(** What a stage contributes when its part is given, and nothing otherwise. *)
Definition part {A B} (o : option A) (f : A -> list B) : list B :=
  match o with Some a => f a | None => [] end.

Lemma when_stage {A} (o : option A) f k calls changes fact p log log' p' :
  stage f k calls changes fact -> when o f p log = (log', Ok p') ->
  exists b, (forall a, o = Some a -> fact a b) /\ log' = log ++ part o (fun a => calls a b) /\
    map kind p'.1 = map kind p.1 ++ part o (fun _ => [k]) /\
    map a_kind p'.2 = map a_kind p.2 ++ part o (fun _ => changes b).
Proof.
  intros Hf. unfold when, ret. destruct o as [a|]; simpl.
  - intros (b & Hb & Hl & Hk & Ha)%Hf. exists b. split; [by intros a' [= <-]|done].
  - intros. simplify_eq. exists true. by rewrite !app_nil_r.
Qed.

(** *** The whole run *)

(** The commands of a run, given which parts differ from the current state. *)
Definition run_calls (st : DesiredState) (confirm wait async rb rn ro : bool) : list call :=
  part (given (bios_profile st)) (fun n => [bios_diff n] ++ opt (confirm && rb) [bios_apply n]) ++
  part (some_servers st) (fun _ => [network_read] ++ opt rn [ntp_call st confirm]) ++
  part (given (boot_device st)) (fun _ => [boot_read] ++ opt (confirm && ro) [boot_call st]) ++
  part (given (reset_type st)) (fun _ => [reset_call st confirm wait async]).

(** The kinds of its steps, and of its changes. *)
Definition run_kinds (st : DesiredState) : list string :=
  part (given (bios_profile st)) (fun _ => ["bios-profile"]) ++
  part (some_servers st) (fun _ => ["ntp"]) ++
  part (given (boot_device st)) (fun _ => ["boot"]) ++
  part (given (reset_type st)) (fun _ => ["reboot"]).

Definition run_changes (st : DesiredState) (confirm rb rn ro : bool) : list string :=
  part (given (bios_profile st)) (fun _ => opt (confirm && rb) ["bios-profile"]) ++
  part (some_servers st) (fun _ => opt (confirm && rn) ["ntp"]) ++
  part (given (boot_device st)) (fun _ => opt (confirm && ro) ["boot"]) ++
  part (given (reset_type st)) (fun _ => opt confirm ["reboot"]).

Lemma reconcile_run st confirm wait async log log' r :
  reconcile st confirm wait async log = (log', Ok r) ->
  exists rb rn ro,
    (forall n, given (bios_profile st) = Some n -> bios_differs n rb) /\
    (some_servers st = Some tt -> ntp_differs st rn) /\
    (forall d, given (boot_device st) = Some d -> boot_differs st ro) /\
    log' = log ++ run_calls st confirm wait async rb rn ro /\
    map kind (steps r) = run_kinds st /\
    map a_kind (applied r) = run_changes st confirm rb rn ro /\ dry_run r = negb confirm.
Proof.
  unfold reconcile.
  intros (l1 & p1 & H1 & (l2 & p2 & H2 & (l3 & p3 & H3 & (l4 & p4 & H4 & Hr)%bind_inv_ok)%bind_inv_ok
    )%bind_inv_ok)%bind_inv_ok.
  unfold ret in Hr. simplify_eq.
  apply (when_stage _ _ _ _ _ _ _ _ _ _ (bios_stage confirm)) in H1 as (rb & Hb & -> & Hk1 & Ha1).
  apply (when_stage _ _ _ _ _ _ _ _ _ _ (ntp_stage st confirm)) in H2 as (rn & Hn & -> & Hk2 & Ha2).
  apply (when_stage _ _ _ _ _ _ _ _ _ _ (boot_stage st confirm)) in H3 as (ro & Ho & -> & Hk3 & Ha3).
  apply (when_stage _ _ _ _ _ _ _ _ _ _ (reboot_stage st confirm wait async))
    in H4 as (_ & _ & -> & Hk4 & Ha4).
  exists rb, rn, ro. split; [done|]. split; [apply Hn|]. split; [done|].
  unfold run_calls, run_kinds, run_changes. simpl.
  rewrite Hk4, Hk3, Hk2, Hk1, Ha4, Ha3, Ha2, Ha1. by rewrite <- !app_assoc.
Qed.

(** C6.  The commands of a successful run are exactly determined: for each part of
    the desired state, in the order BIOS, NTP, boot, reset, the preview, and
    then the change if the run is confirmed and the preview shows a difference
    (a reset is always due); so a reset is the last command.  The steps and
    the applied changes are reported in that order, and nothing is reported as
    applied that was not confirmed and due. *)
Theorem reconcile_sequence st confirm wait async log log' r :
  reconcile st confirm wait async log = (log', Ok r) ->
  exists rb rn ro,
    (forall n, given (bios_profile st) = Some n -> bios_differs n rb) /\
    (some_servers st = Some tt -> ntp_differs st rn) /\
    (forall d, given (boot_device st) = Some d -> boot_differs st ro) /\
    log' = log ++ run_calls st confirm wait async rb rn ro /\
    map kind (steps r) = run_kinds st /\
    map a_kind (applied r) = run_changes st confirm rb rn ro /\ dry_run r = negb confirm.
Proof. apply reconcile_run. Qed.

(** *** A node that is already as desired *)

(** Every preview finds its part as desired, and no reset is asked for. *)
Record converged (st : DesiredState) : Prop := {
  cv_bios n b : given (bios_profile st) = Some n -> bios_differs n b -> b = false;
  cv_ntp b : some_servers st = Some tt -> ntp_differs st b -> b = false;
  cv_boot d b : given (boot_device st) = Some d -> boot_differs st b -> b = false;
  cv_reset : given (reset_type st) = None
}.

(** Reconciling a node that already is as desired is a no-op, also when it is
    confirmed: only reads are run and no change is reported. *)
Theorem reconcile_converged st confirm wait async log log' r :
  converged st -> reconcile st confirm wait async log = (log', Ok r) ->
  applied r = [] /\ only_calls (fun c => is_preview c = true) log log'.
Proof.
  intros [Hb Hn Ho Hr] (rb & rn & ro & Hrb & Hrn & Hro & -> & _ & Ha & _)%reconcile_run.
  assert (forall n, given (bios_profile st) = Some n -> rb = false) as Eb by eauto.
  assert (some_servers st = Some tt -> rn = false) as En by eauto.
  assert (forall d, given (boot_device st) = Some d -> ro = false) as Eo by eauto.
  unfold run_changes, run_calls in *. rewrite Hr in *. split.
  - apply (fmap_nil_inv a_kind). etransitivity; [exact Ha|].
    destruct (given (bios_profile st)) as [n|], (some_servers st) as [[]|], (given (boot_device st)) as [d|];
      rewrite ?(Eb _ eq_refl), ?(En eq_refl), ?(Eo _ eq_refl), ?andb_false_r; done.
  - eexists. split; [reflexivity|].
    destruct (given (bios_profile st)) as [n|], (some_servers st) as [[]|], (given (boot_device st)) as [d|];
      rewrite ?(Eb _ eq_refl), ?(En eq_refl), ?(Eo _ eq_refl), ?andb_false_r; by repeat constructor.
Qed.
End Calls.

(** ** Resets are explicit *)

Lemma optional_str_some v t : optional_str v = Some t -> PyStr.nonempty t = true /\ t = PyStr.strip (py_str v).
Proof. unfold optional_str. destruct v; try done; case_match eqn:Hn; intros; by simplify_eq. Qed.

Lemma first2_str d k1 k2 s :
  first d [k1; k2] = PStr s -> dget k1 d = PStr s \/ dget k2 d = PStr s.
Proof.
  unfold first, dget, dict_get_or.
  destruct (dict_get k1 d), (dict_get k2 d); simpl; intros; first [by left | by right].
Qed.

Lemma get_reset_type_some v t :
  get_reset_type v (mapping v) = Ok (Some t) ->
  exists raw, optional_str (PStr raw) = Some t /\
    (v = PStr raw \/ exists d, v = PDict d /\
       (dget "resetType" d = PStr raw \/ dget "reset_type" d = PStr raw)).
Proof.
  unfold get_reset_type. destruct v as [|[]| | |s| | |d|]; try done.
  - intros [= H]. eauto.
  - destruct (first (mapping (PDict d)) _) eqn:Hf; try done. intros [= H].
    apply first2_str in Hf. eauto 6.
Qed.

(** A specification asks for a reset only in so many words: if reading it
    yields a reset type, then its [reboot] entry is that text, up to
    surrounding blanks, or a mapping that has it under [resetType] or
    [reset_type]; [reboot: true] is refused. *)
Theorem reset_is_explicit spec st t :
  from_mapping spec = Ok st -> reset_type st = Some t ->
  PyStr.nonempty t = true /\ exists raw, PyStr.strip raw = t /\
    (dget "reboot" spec = PStr raw \/
     exists d, dget "reboot" spec = PDict d /\
       (dget "resetType" d = PStr raw \/ dget "reset_type" d = PStr raw)).
Proof.
  intros (servers & _ & (reset & Hr & [= <-])%res_bind_ok)%res_bind_ok. simpl. intros ->.
  apply get_reset_type_some in Hr as (raw & Hraw & Hwhere).
  apply optional_str_some in Hraw as [Hne ->]. eauto.
Qed.

(** ** Evaluation *)

(** A node whose BIOS and boot override are as [matching] says, whose NTP servers
    are [a.org], and whose other commands succeed. *)
Definition node (matching : bool) : environment := fun _ c =>
  let ok v := Ok (mkResult v PNone PNone PNone) in
  if decide (c_api c = "BiosProfile") then ok (PDict [("matches", PBool matching)])
  else if decide (c_api c = "ManagerNetworkProtocol") then
    ok (PList [PDict [("NTP", PDict [("ProtocolEnabled", PBool true);
                                     ("NTPServers", PList [PStr "a.org"])])]])
  else if decide (c_api c = "CurrentBoot") then
    ok (PDict [("BootSourceOverrideEnabled", PStr "Once");
               ("BootSourceOverrideTarget", PStr (if matching then "Pxe" else "Cd"))])
  else ok (PDict [("applied", PList [PBool true])]).

Definition sample_spec : pydict :=
  [("biosProfile", PStr "perf"); ("ntp", PDict [("servers", PStr " a.org, ")]);
   ("boot", PDict [("device", PStr "Pxe")]); ("reboot", PDict [("resetType", PStr "GracefulRestart ")])].

Definition sample_desired (reset : option string) : DesiredState :=
  Desired (Some "perf") ["a.org"] None (Some "Pxe") None None reset.

Example sample_parsed : from_mapping sample_spec = Ok (sample_desired (Some "GracefulRestart")).
Proof. vm_compute. reflexivity. Qed.

#[export] Instance recorder_previews env :
  PreviewSafe (SyncInvoker0 := recorder env) (only_calls (fun c => is_preview c = true)).
Proof. intros c Hc log. exists [c]. destruct c. split; [done|]. by repeat constructor. Qed.

Lemma reconcile_unconfirmed_witness :
  let out := reconcile (SyncInvoker0 := recorder (node false))
               (sample_desired (Some "GracefulRestart")) false true false [] in
  only_calls (fun c => is_preview c = true) [] out.1 /\
  forall r, out.2 = Ok r -> applied r = [] /\ dry_run r = true.
Proof.
  exact (reconcile_unconfirmed (SyncInvoker0 := recorder (node false))
           (only_calls (fun c => is_preview c = true))
           (sample_desired (Some "GracefulRestart")) true false []).
Defined.

Lemma reconcile_sequence_witness :
  exists rb rn ro,
    (forall n, Some "perf" = Some n -> bios_differs (node false) n rb) /\
    (Some tt = Some tt -> ntp_differs (node false) (sample_desired (Some "On")) rn) /\
    (forall d, Some "Pxe" = Some d -> boot_differs (node false) (sample_desired (Some "On")) ro) /\
    [bios_diff "perf"; bios_apply "perf"; network_read; boot_read;
     boot_call (sample_desired (Some "On")); reset_call (sample_desired (Some "On")) true false false]
    = [] ++ run_calls (sample_desired (Some "On")) true false false rb rn ro /\
    ["bios-profile"; "ntp"; "boot"; "reboot"] = run_kinds (sample_desired (Some "On")) /\
    ["bios-profile"; "boot"; "reboot"] = run_changes (sample_desired (Some "On")) true rb rn ro /\
    false = negb true.
Proof.
  set (out := reconcile (SyncInvoker0 := recorder (node false)) (sample_desired (Some "On")) true false
                false []).
  destruct out.2 as [r|e|] eqn:Hout; [|vm_compute in Hout; discriminate..].
  pose proof (surjective_pairing out) as Hp. rewrite Hout in Hp.
  pose proof (reconcile_sequence (node false) (sample_desired (Some "On")) true false false [] out.1 r Hp)
    as H.
  vm_compute in Hout. injection Hout as <-. exact H.
Defined.

Lemma node_converged : converged (node true) (sample_desired None).
Proof.
  split; simpl.
  - intros n b [= <-] (log & v & Hv & ->). vm_compute in Hv. by simplify_eq.
  - intros b _ (log & v & Hv & Hb). vm_compute in Hv. simplify_eq. vm_compute in Hb.
    by destruct b.
  - intros d b [= <-] (log & v & Hv & ->). vm_compute in Hv. by simplify_eq.
  - done.
Qed.

Lemma reconcile_converged_witness :
  exists log' r, reconcile (SyncInvoker0 := recorder (node true)) (sample_desired None) true true false []
                   = (log', Ok r) /\
    applied r = [] /\ only_calls (fun c => is_preview c = true) [] log'.
Proof.
  do 2 eexists. split; [vm_compute; reflexivity|].
  apply (reconcile_converged (node true) (sample_desired None) true true false []);
    [exact node_converged|vm_compute; reflexivity].
Defined.

Lemma reset_is_explicit_witness :
  PyStr.nonempty "GracefulRestart" = true /\ exists raw, PyStr.strip raw = "GracefulRestart" /\
    (dget "reboot" sample_spec = PStr raw \/
     exists d, dget "reboot" sample_spec = PDict d /\
       (dget "resetType" d = PStr raw \/ dget "reset_type" d = PStr raw)).
Proof.
  apply (reset_is_explicit sample_spec (sample_desired (Some "GracefulRestart")));
    vm_compute; reflexivity.
Defined.
End Reconcile.
