(* ===== verification/CurrentBoot.v ===== *)
(** * The current boot configuration

    src/redfish_ctl/cmd_current_boot.py: the [Boot] block of the managed system. *)

From stdpp Require Import base list gmap strings pretty.
From Stdlib Require Import Ascii ZArith Lia.
From S2P Require Import Prelude PyVal Effects Query Http Manager Discovery.

Module GetCurrentBoot.
Import Http RedfishManager Discovery.
Local Open Scope py_scope.

(** [execute(do_async)] *)
Definition execute {W} `{!World W} (do_async : bool) : M (mstate W) CommandResult :=
  let! uri := managed_system_uri in
  let! r := base_query (py_str uri) (with_async do_async) in
  let! boot := lift_res
    match py_in "Boot" (data r) with
    | None => Raise (TypeError ("argument of type '" +:+ type_name (data r) +:+ "' is not iterable"))
    | Some false => Ok (data r)
    | Some true => match data r with
                   | PDict d => Ok (dget "Boot" d)
                   | v => Raise (TypeError (type_name v +:+ " indices must be integers or slices, not str"))
                   end
    end in
  ret (mkResult boot PNone PNone PNone).

Lemma emits_current_boot {W} `{!World W} b : emits is_get (execute (W := W) b).
Proof. unfold execute. frame. Qed.
End GetCurrentBoot.
