(* ===== verification/ManagerNetwork.v ===== *)
(** * The manager-network command

    src/redfish_ctl/manager/cmd_manager_network.py: one row of network protocol
    settings per manager. *)

From stdpp Require Import base list gmap strings pretty.
From Stdlib Require Import Ascii ZArith Lia.
From S2P Require Import Prelude PyVal Effects Query Http Manager Discovery.

Module ManagerNetworkProtocol.
Import Http RedfishManager Discovery.
Local Open Scope py_scope.

(** [(data or {}).get(key)] *)
Definition field (data : pyval) (key : string) : res pyval := get_attr (py_or data (PDict [])) key.

(** [_link(data, key)] *)
Definition link (data : pyval) (key : string) : res pyval :=
  let? l := field data key in
  Ok match l with PDict d => dget "@odata.id" d | _ => PNone end.

(** [_protocol(data, key)] *)
Definition protocol (data : pyval) (key : string) : res pyval :=
  let? p := field data key in
  Ok match p with
     | PDict d => PDict [("ProtocolEnabled", dget "ProtocolEnabled" d); ("Port", dget "Port" d)]
     | _ => PDict [("ProtocolEnabled", PNone); ("Port", PNone)]
     end.

(** [_ntp(data)] *)
Definition ntp (data : pyval) : res pyval :=
  let? n := field data "NTP" in
  Ok match n with
     | PDict d => PDict [("ProtocolEnabled", dget "ProtocolEnabled" d);
                         ("NTPServers", match dget "NTPServers" d with PList l => PList l | _ => PList [] end)]
     | _ => PDict [("ProtocolEnabled", PNone); ("NTPServers", PList [])]
     end.

(** The manager id of a row when the manager has none: from the network URI,
    else from the manager URI. *)
Definition fallback_id (network_uri : pyval) (manager_uri : string) : res pyval :=
  let tail := PStr (PyStr.last_or "" (PyStr.split "/"%char manager_uri)) in
  match py_in "/Managers/" network_uri with
  | None => Raise (TypeError ("argument of type '" +:+ type_name network_uri +:+ "' is not iterable"))
  | Some false => Ok tail
  | Some true =>
      match network_uri with
      | PStr s =>
          let parts := PyStr.split "/"%char (PyStr.rstrip_char "/"%char s) in
          match parts !! (length parts - 2)%nat with
          | Some id => Ok (py_or (PStr id) tail)
          | None => Raise (IndexError "list index out of range")
          end
      | v => Raise (AttributeError ("'" +:+ type_name v +:+ "' object has no attribute 'rstrip'"))
      end
  end.

(** One row, from a readable manager and its network protocol resource. *)
Definition row (manager network network_uri : pyval) (manager_uri : string) : res pyval :=
  let? status := get_attr network "Status" in
  let status := py_or status (PDict []) in
  let? id := get_attr manager "Id" in
  let? id := if truthy id then Ok id else fallback_id network_uri manager_uri in
  let? host := get_attr network "HostName" in
  let? fqdn := get_attr network "FQDN" in
  let? http := protocol network "HTTP" in
  let? https := protocol network "HTTPS" in
  let? ipmi := protocol network "IPMI" in
  let? ssh := protocol network "SSH" in
  let? ntp := ntp network in
  Ok (PDict [("Manager", id); ("HostName", host); ("FQDN", fqdn); ("HTTP", http); ("HTTPS", https);
             ("IPMI", ipmi); ("SSH", ssh); ("NTP", ntp);
             ("Health", match status with PDict d => dget "Health" d | _ => PNone end);
             ("State", match status with PDict d => dget "State" d | _ => PNone end)]).

Section Command.
Context {W : Type} `{!World W}.
Abbreviation MM := (M (mstate W)).

(** [_get(uri, do_async)] *)
Definition get (uri : pyval) (do_async : bool) : MM pyval :=
  try_Exception
    (let! r := base_query (py_str uri) (with_async do_async) in ret (py_or (data r) (PDict [])))
    (fun _ => ret (PDict [])).

(** [execute(do_async)] *)
Definition execute (do_async : bool) : MM CommandResult :=
  let! ids := discover_manager_ids in
  let! rows := foldM (fun rows manager_uri =>
    let! manager := get (PStr manager_uri) do_async in
    let! network_uri := lift_res (link manager "NetworkProtocol") in
    if negb (truthy network_uri) then ret rows
    else
      let! network := get network_uri do_async in
      if negb (truthy network) then ret rows
      else
        let! r := lift_res (row manager network network_uri manager_uri) in
        ret (rows ++ [r])) [] ids in
  ret (mkResult (PList rows) PNone PNone PNone).

Lemma emits_manager_network b : emits is_get (execute b).
Proof. unfold execute, get. frame. Qed.
End Command.
End ManagerNetworkProtocol.
