(* ===== verification/Reboot.v ===== *)
(** * The reboot command

    src/redfish_ctl/compute/cmd_power_state.py: the reset of the managed system
    through [invoke_action], with task polling and the optional wait. *)

From stdpp Require Import base list gmap strings pretty.
From Stdlib Require Import Ascii ZArith Lia.
From S2P Require Import Prelude PyVal Effects Query Http Manager Discovery Tasks Csdl.
From S2P Require Import ActionPolicy Actions Invoker.

Module RebootHost.
Import Http RedfishManager Discovery Tasks ActionPolicy Actions.
Local Open Scope Z_scope.
Local Open Scope py_scope.

(** [float(n)] for an integer: the decimal form without trailing zeros *)
Fixpoint strip_zeros (fuel : nat) (m e : Z) : Z * Z :=
  match fuel with
  | O => (m, e)
  | S fuel' => if (m =? 0) || negb (m mod 10 =? 0) then (m, e) else strip_zeros fuel' (m / 10) (e + 1)
  end.
Definition float_of (z : Z) : pyval := let '(m, e) := strip_zeros 400 z 0 in PFloat m e.

Section Command.
Context (schemas : list Csdl.xml) {W : Type} `{!World W} `{!SyncInvoker (mstate W)}.
Abbreviation MM := (M (mstate W)).

(** [wait_for_reboot(sleep_time, max_retry)] *)
Definition wait_for_reboot (sleep_time max_retry : Z) : MM CommandResult :=
  sync_invoke "WaitReady" "wait"
    [("wait_timeout", float_of (sleep_time * max_retry)); ("wait_interval", float_of sleep_time);
     ("wait_reboot_cycle", PBool true)].

(** The reset request. *)
Definition reset_request (uri : pyval) (reset_type : pyval) (do_async dry : bool) : action_call :=
  Call (py_str uri) "Reset" [("ResetType", reset_type)] "#ComputerSystem.Reset" do_async dry true false.

Definition task_state_val (o : option TaskState) : pyval :=
  match o with Some s => PStr ("TaskState." +:+ state_value s) | None => PNone end.

(** [execute(reset_type, do_async, do_wait, dry_run, sleep_time, max_retry)]; the
    dict of the action result is updated in place, so the result returned
    carries the task state and the wait report *)
Definition execute (fuel : nat) (reset_type : pyval) (do_async do_wait dry : bool)
    (sleep_time max_retry : Z) : MM CommandResult :=
  let! uri := managed_system_uri in
  let! r := invoke_action schemas (reset_request uri reset_type do_async dry) in
  let d := as_dict (data r) in
  let fired := is_none (error r) && negb (truthy (dget "dry_run" d)) in
  let with_data d := mkResult (match data r with PDict _ => PDict d | v => v end)
                       (discovered r) (extra r) (error r) in
  let! d := if fired && truthy (dget "task_id" d) then
              let! st := fetch_task fuel (py_str (dget "task_id" d)) (Some 10) None None in
              ret (dict_set "task_id" (dget "task_id" d) (dict_set "task_state" (task_state_val st) d))
            else ret d in
  if do_wait && fired then
    let! w := wait_for_reboot sleep_time max_retry in
    let d := dict_set "wait" (data w) d in
    if is_none (error w) then ret (with_data d)
    else ret (mkResult (PDict d) (discovered r) (extra r) (error w))
  else ret (with_data d).

(** A dry run of an action reports an error or the preview, never a POST. *)
Lemma invoke_dry c (s : mstate W) r :
  dry_run c = true -> (invoke_action schemas c s).2 = Ok r ->
  is_none (error r) = false \/ dget "dry_run" (as_dict (data r)) = PBool true.
Proof.
  intros Hc Hr. pose proof (invoke_action_run schemas c s) as Hrun. cbv zeta in Hrun.
  destruct (read_resource c s) as [s1 [[resource|msg]|e|]]; cbn [fst snd] in Hrun;
    [|rewrite Hrun in Hr; simpl in Hr; simplify_eq; by left|rewrite Hrun in Hr; done..].
  destruct (discover_redfish_actions resource) as [actions|e|]; cbn [res_bind] in Hrun;
    [|rewrite Hrun in Hr; done..].
  destruct (decide_action schemas resource actions c) as [[r'|full t]|e|] eqn:Hd;
    cbn [res_bind] in Hrun; [| |rewrite Hrun in Hr; done..].
  - rewrite Hrun in Hr. simpl in Hr. injection Hr as <-.
    apply res_bind_ok in Hd as (o & _ & Hd). destruct o as [[full t]|].
    + apply res_bind_ok in Hd as (errs & _ & Hd). destruct errs as [|v errs].
      * rewrite Hc in Hd. simpl in Hd. simplify_eq. by right.
      * apply res_bind_ok in Hd as (text & _ & [= <-]). by left.
    + apply res_bind_ok in Hd as (out & _ & [= <-]). by left.
  - apply decide_fire in Hd as (_ & Hdry & _). congruence.
Qed.

Lemma emits_invoke_dry c : dry_run c = true -> emits is_get (invoke_action (W := W) schemas c).
Proof.
  intros Hc s. pose proof (invoke_action_run schemas c s) as Hrun. cbv zeta in Hrun.
  pose proof (emits_read_resource c s) as Hreads.
  destruct (read_resource c s) as [s1 [[resource|msg]|e|]]; cbn [fst snd] in Hrun, Hreads;
    [|by rewrite Hrun..].
  destruct (discover_redfish_actions resource) as [actions|e|]; cbn [res_bind] in Hrun;
    [|by rewrite Hrun..].
  destruct (decide_action schemas resource actions c) as [[r'|full t]|e|] eqn:Hd;
    cbn [res_bind] in Hrun; [by rewrite Hrun| |by rewrite Hrun..].
  apply decide_fire in Hd as (_ & Hdry & _). congruence.
Qed.

(** The command once it has asked for a preview of the reset: nothing follows. *)
Lemma execute_dry_run fuel reset_type do_async do_wait sleep_time max_retry (s : mstate W) :
  execute fuel reset_type do_async do_wait true sleep_time max_retry s =
  (let! uri := managed_system_uri in invoke_action schemas (reset_request uri reset_type do_async true)) s.
Proof.
  unfold execute, bind. destruct (managed_system_uri s) as [s1 [uri|e|]]; [|done..].
  pose proof (invoke_dry (reset_request uri reset_type do_async true) s1) as Hdry.
  destruct (invoke_action schemas _ s1) as [s2 [r|e|]]; [|done..].
  destruct (Hdry r) as [Hn|Hn]; [done..| |]; rewrite Hn; rewrite ?andb_false_r; simpl;
    rewrite ?andb_false_r; simpl; unfold ret; destruct r as [dat disc ext err]; by destruct dat.
Qed.

Lemma emits_preview reset_type do_async :
  emits is_get (let! uri := managed_system_uri in
                invoke_action (W := W) schemas (reset_request uri reset_type do_async true)).
Proof. frame; by apply emits_invoke_dry. Qed.

(** A reboot preview is harmless: with [dry_run] the command sends nothing but
    reads, whatever the other arguments, neither polls a task nor waits, and a
    result without an error is the preview of the reset. *)
Theorem reboot_preview_reads_only fuel reset_type do_async do_wait sleep_time max_retry (s : mstate W) :
  let out := execute fuel reset_type do_async do_wait true sleep_time max_retry s in
  extends is_get s out.1 /\
  forall r, out.2 = Ok r -> is_none (error r) = false \/ dget "dry_run" (as_dict (data r)) = PBool true.
Proof.
  cbv zeta. rewrite execute_dry_run. split.
  - apply emits_preview.
  - unfold bind. destruct (managed_system_uri s) as [s1 [uri|e|]]; [|done..].
    intros r. by apply invoke_dry.
Qed.
End Command.
End RebootHost.
