(* ===== verification/BiosProfile.v ===== *)
(** * BIOS profiles

    src/redfish_ctl/bios/cmd_bios_profile.py: the catalog actions list, show,
    diff and apply.  The decoded catalog is an argument; the BIOS commands it
    builds on run through [SyncInvoker], and the temporary file that carries
    the change to them is written by the parameter [write_spec]. *)

From stdpp Require Import base list strings.
From Stdlib Require Import Ascii ZArith Lia.
From S2P Require Import Prelude PyVal Effects Http Invoker.

Module BiosProfile.
Import Http.
Local Open Scope Z_scope.
Local Open Scope py_scope.

Definition SUMMARY_KEYS : list string := ["name"; "vendor"; "model"; "description"; "risk"].
Definition PROFILE_ID_KEYS : list string := ["name"; "vendor"; "model"; "risk"].

(** [{key: profile.get(key) for key in keys}] *)
Definition pick (keys : list string) (profile : pydict) : pydict :=
  map (fun k => (k, dget k profile)) keys.

(** [_summary(profile)], [_profile_identity(profile)] *)
Definition summary (profile : pydict) : pydict := pick SUMMARY_KEYS profile.
Definition profile_identity (profile : pydict) : pydict := pick PROFILE_ID_KEYS profile.

(** [_find_profile(profiles, profile_name)] *)
Fixpoint find_profile (profiles : list pyval) (name : string) : res (option pydict) :=
  match profiles with
  | [] => Ok None
  | PDict p :: rest => if eq_str (dget "name" p) name then Ok (Some p) else find_profile rest name
  | v :: _ => no_get v
  end.

(** [_attributes_from_bios_result(result)] *)
Definition attributes_from_bios_result (r : CommandResult) : pydict :=
  let d := as_dict (data r) in
  match dget "Attributes" d with PDict a => a | _ => d end.

(** [profile.get("attributes", {})] and its [.items()] *)
Definition profile_attributes (profile : pydict) : res pydict :=
  match dict_get_or "attributes" (PDict []) profile with
  | PDict a => Ok a
  | v => Raise (AttributeError ("'" +:+ type_name v +:+ "' object has no attribute 'items'"))
  end.

(** The three outcomes of comparing one attribute. *)
Inductive diff_status := Missing | Matching | Different.

#[export] Instance diff_status_eq_dec : EqDecision diff_status.
Proof. solve_decision. Defined.

Definition status_text (s : diff_status) : string :=
  match s with Missing => "missing" | Matching => "matching" | Different => "different" end.

Definition attribute_status (current : pydict) (attribute : string) (desired : pyval) : diff_status :=
  match dict_get attribute current with
  | None => Missing
  | Some v => if py_eqb v desired then Matching else Different
  end.

Record counts := Counts { total : Z; matching : Z; different : Z; missing : Z }.

(** [summary["total"] += 1; summary[status] += 1] *)
Definition count (c : counts) (s : diff_status) : counts :=
  match s with
  | Matching => Counts (total c + 1) (matching c + 1) (different c) (missing c)
  | Different => Counts (total c + 1) (matching c) (different c + 1) (missing c)
  | Missing => Counts (total c + 1) (matching c) (different c) (missing c + 1)
  end.

Definition diff_row (current : pydict) (kv : string * pyval) : pyval :=
  PDict [("attribute", PStr kv.1); ("current", dget kv.1 current); ("desired", kv.2);
         ("status", PStr (status_text (attribute_status current kv.1 kv.2)))].

(** The loop of [_diff_profile]: the counts and the rows. *)
Definition diff_loop (current attributes : pydict) : counts * list pyval :=
  fold_left (fun acc kv => (count acc.1 (attribute_status current kv.1 kv.2),
                            acc.2 ++ [diff_row current kv]))
    attributes (Counts 0 0 0 0, []).

(** [_diff_profile(profile, current_attributes)] *)
Definition diff_profile (profile current : pydict) : res pydict :=
  let? attributes := profile_attributes profile in
  let '(c, rows) := diff_loop current attributes in
  Ok [("profile", PDict (profile_identity profile));
      ("matches", PBool ((different c =? 0) && (missing c =? 0)));
      ("summary", PDict [("total", PInt (total c)); ("matching", PInt (matching c));
                         ("different", PInt (different c)); ("missing", PInt (missing c))]);
      ("attributes", PList rows)].

(** [_profile_change(profile)] *)
Definition profile_change (profile : pydict) : pydict :=
  match dget "attributes" profile with
  | PDict a => [("Attributes", PDict a)]
  | _ => []
  end.

Section Command.
Context {S : Type} `{!SyncInvoker S}.
(** Writes a document to the temporary specification file of that name and gives
    its path; the file is gone after the call. *)
Context (write_spec : string -> pyval -> M S string).
Abbreviation MM := (M S).

(** [_read_current_attributes(profile, verbose, do_async)] *)
Definition read_current_attributes (profile : pydict) (verbose do_async : bool) : MM pydict :=
  let! attributes := lift_res (profile_attributes profile) in
  let! r := sync_invoke "BiosQuery" "bios_inventory"
    [("attr_only", PBool true); ("attr_filter", PStr (PyStr.join "," (dict_keys attributes)));
     ("verbose", PBool verbose); ("do_async", PBool do_async)] in
  ret (attributes_from_bios_result r).

(** [_apply_profile(profile, confirm, dry_run, do_async)] *)
Definition apply_profile (profile : pydict) (confirm dry_run do_async : bool) : MM CommandResult :=
  let change := profile_change profile in
  if negb (truthy (dget "Attributes" change)) then
    ret (mkResult (PDict [("profile", dget "name" profile); ("dry_run", PBool true);
                          ("change", PDict change); ("rollback", PDict [("Attributes", PDict [])]);
                          ("staged", PDict [])])
           PNone PNone (PStr "profile has no attributes"))
  else
    let file := py_str (dict_get_or "name" (PStr "profile") profile) +:+ ".json" in
    let! spec_path := write_spec file (PDict change) in
    let! rollback := sync_invoke "BiosSnapshot" "bios_snapshot"
      [("from_spec", PStr spec_path); ("do_async", PBool do_async)] in
    let preview := dry_run || negb confirm in
    let! staged := sync_invoke "BiosChangeSettings" "bios_change_settings"
      [("from_spec", PStr spec_path); ("apply", PStr "on-reset"); ("do_show", PBool preview);
       ("do_async", PBool do_async)] in
    ret (mkResult (PDict [("profile", dget "name" profile); ("dry_run", PBool preview);
                          ("change", PDict change); ("rollback", data rollback);
                          ("staged", data staged)])
           PNone PNone (if is_none (error rollback) then error staged else error rollback)).

(** [execute(action, profile_name, confirm, dry_run, verbose, do_async)] on the
    decoded catalog; saving to a file is not modelled *)
Definition execute (profiles : list pyval) (action : string) (profile_name : option string)
    (confirm dry_run verbose do_async : bool) : MM CommandResult :=
  let fail msg := ret (mkResult (PDict []) PNone PNone (PStr msg)) in
  let on_profile (k : pydict -> MM CommandResult) :=
    match profile_name with
    | None | Some EmptyString => fail ("profile name is required for " +:+ action)
    | Some name =>
        let! p := lift_res (find_profile profiles name) in
        match p with
        | None | Some [] => fail ("profile not found: " +:+ name)
        | Some p => k p
        end
    end in
  if decide (action = "show") then on_profile (fun p => ret (mkResult (PDict p) PNone PNone PNone))
  else if decide (action = "diff") then
    on_profile (fun p =>
      let! current := read_current_attributes p verbose do_async in
      let! d := lift_res (diff_profile p current) in
      ret (mkResult (PDict d) PNone PNone PNone))
  else if decide (action = "apply") then
    on_profile (fun p => apply_profile p confirm dry_run do_async)
  else
    let! rows := lift_res (res_fold (fun acc v => match v with
                                                  | PDict p => Ok (acc ++ [PDict (summary p)])
                                                  | v => no_get v
                                                  end) [] profiles) in
    ret (mkResult (PList rows) PNone PNone PNone).
End Command.

(** ** The difference report *)

(** How many attributes have a status. *)
Definition with_status (current : pydict) (s : diff_status) (attributes : pydict) : Z :=
  Z.of_nat (length (filter (fun kv => attribute_status current kv.1 kv.2 = s) attributes)).

Lemma diff_loop_spec current attributes :
  diff_loop current attributes =
  (Counts (Z.of_nat (length attributes)) (with_status current Matching attributes)
     (with_status current Different attributes) (with_status current Missing attributes),
   map (diff_row current) attributes).
Proof.
  unfold diff_loop, with_status.
  induction attributes as [|kv attributes IH] using rev_ind; [done|].
  rewrite fold_left_app, IH. simpl. rewrite !filter_app, !length_app, map_app. simpl. f_equal.
  rewrite !filter_cons, !filter_nil.
  destruct (attribute_status current kv.1 kv.2); simpl; f_equal; lia.
Qed.

Lemma attribute_status_matching current k desired :
  attribute_status current k desired = Matching <->
  exists v, dict_get k current = Some v /\ py_eqb v desired = true.
Proof.
  unfold attribute_status. destruct (dict_get k current) as [v|]; [|naive_solver].
  destruct (py_eqb v desired) eqn:He; naive_solver congruence.
Qed.

Lemma all_matching current attributes :
  Forall (fun kv => exists v, dict_get kv.1 current = Some v /\ py_eqb v kv.2 = true) attributes <->
  with_status current Different attributes = 0 /\ with_status current Missing attributes = 0.
Proof.
  unfold with_status. induction attributes as [|kv l IH]; [by repeat split|].
  rewrite Forall_cons, IH, !filter_cons, <- attribute_status_matching.
  destruct (attribute_status current kv.1 kv.2); simpl; naive_solver lia.
Qed.

(** The difference report is right: its counts are the numbers of attributes
    that match, differ and are missing and add up to the total, there is one
    row per attribute in order, and it says the profile matches exactly when
    every desired attribute is present with the desired value. *)
Theorem diff_profile_correct profile current attributes :
  profile_attributes profile = Ok attributes ->
  exists d, diff_profile profile current = Ok d /\
    (dget "matches" d = PBool true <->
     Forall (fun kv => exists v, dict_get kv.1 current = Some v /\ py_eqb v kv.2 = true) attributes) /\
    dget "attributes" d = PList (map (diff_row current) attributes) /\
    exists ma di mi,
      dget "summary" d = PDict [("total", PInt (Z.of_nat (length attributes))); ("matching", PInt ma);
                                ("different", PInt di); ("missing", PInt mi)] /\
      Z.of_nat (length attributes) = ma + di + mi /\
      ma = with_status current Matching attributes /\ di = with_status current Different attributes /\
      mi = with_status current Missing attributes.
Proof.
  intros Ha. unfold diff_profile. rewrite Ha. cbn [res_bind]. rewrite diff_loop_spec. cbv beta iota.
  eexists. split; [reflexivity|].
  assert (Z.of_nat (length attributes) = with_status current Matching attributes
    + with_status current Different attributes + with_status current Missing attributes) as Hsum.
  { unfold with_status. clear Ha. induction attributes as [|kv l IH]; [done|].
    rewrite !filter_cons. destruct (attribute_status current kv.1 kv.2); simpl; lia. }
  split; [|split; [done|do 3 eexists; split; [reflexivity|done]]].
  assert (Forall (fun kv => exists v, dict_get kv.1 current = Some v /\ py_eqb v kv.2 = true) attributes
    <-> with_status current Different attributes = 0 /\ with_status current Missing attributes = 0) as Hiff.
  { apply all_matching. }
  rewrite Hiff. cbn [different missing]. unfold dget, dict_get_or. simpl.
  destruct (Z.eqb_spec (with_status current Different attributes) 0),
    (Z.eqb_spec (with_status current Missing attributes) 0); simpl; split; (intros; naive_solver).
Qed.

Lemma diff_profile_correct_witness :
  exists d, diff_profile [("name", PStr "p"); ("attributes", PDict [("A", PInt 1); ("B", PStr "x")])]
              [("A", PBool true); ("B", PStr "y")] = Ok d /\
    (dget "matches" d = PBool true <->
     Forall (fun kv => exists v, dict_get kv.1 [("A", PBool true); ("B", PStr "y")] = Some v
                                 /\ py_eqb v kv.2 = true) [("A", PInt 1); ("B", PStr "x")]) /\
    dget "attributes" d = PList (map (diff_row [("A", PBool true); ("B", PStr "y")])
                                   [("A", PInt 1); ("B", PStr "x")]) /\
    exists ma di mi,
      dget "summary" d = PDict [("total", PInt 2); ("matching", PInt ma);
                                ("different", PInt di); ("missing", PInt mi)] /\
      2 = ma + di + mi /\
      ma = with_status [("A", PBool true); ("B", PStr "y")] Matching [("A", PInt 1); ("B", PStr "x")] /\
      di = with_status [("A", PBool true); ("B", PStr "y")] Different [("A", PInt 1); ("B", PStr "x")] /\
      mi = with_status [("A", PBool true); ("B", PStr "y")] Missing [("A", PInt 1); ("B", PStr "x")].
Proof.
  exact (diff_profile_correct
           [("name", PStr "p"); ("attributes", PDict [("A", PInt 1); ("B", PStr "x")])]
           [("A", PBool true); ("B", PStr "y")] [("A", PInt 1); ("B", PStr "x")] eq_refl).
Defined.

(** ** The calls of an apply *)

Section Apply.
Context (env : environment).
#[local] Instance apply_recorded : SyncInvoker (list call) := recorder env.
Context (path : string).

(** The file is written outside the command log. *)
Definition spec_at (_ : string) (_ : pyval) : M (list call) string := ret path.

Definition snapshot_call (do_async : bool) : call :=
  Call_ "BiosSnapshot" "bios_snapshot" [("from_spec", PStr path); ("do_async", PBool do_async)].
Definition change_call (show do_async : bool) : call :=
  Call_ "BiosChangeSettings" "bios_change_settings"
    [("from_spec", PStr path); ("apply", PStr "on-reset"); ("do_show", PBool show);
     ("do_async", PBool do_async)].

(** Applying a profile takes the rollback snapshot first, and the change is
    only shown, not staged, unless it is confirmed and no dry run: the two
    commands run are the snapshot and the change, in that order, and the
    change is asked for with [do_show] exactly when the report says dry run. *)
Theorem apply_profile_calls profile confirm dry_run do_async log :
  let show := dry_run || negb confirm in
  let out := apply_profile spec_at profile confirm dry_run do_async log in
  (out.1 = log \/ out.1 = log ++ [snapshot_call do_async] \/
   out.1 = log ++ [snapshot_call do_async; change_call show do_async]) /\
  forall r, out.2 = Ok r -> error r = PNone ->
    out.1 = log ++ [snapshot_call do_async; change_call show do_async] /\
    dget "dry_run" (as_dict (data r)) = PBool show /\
    exists snapshot, env log (snapshot_call do_async) = Ok snapshot /\
      dget "rollback" (as_dict (data r)) = data snapshot.
Proof.
  cbv zeta. unfold apply_profile. case_match; [split; [by left|]; intros r [= <-]; done|].
  unfold bind, spec_at, ret, sync_invoke, apply_recorded, recorder.
  fold (snapshot_call do_async). fold (change_call (dry_run || negb confirm) do_async).
  destruct (env log (snapshot_call do_async)) as [snapshot|e|]; simpl; [|by split; [auto|]..].
  destruct (env _ (change_call _ _)) as [staged|e|]; simpl; rewrite <- app_assoc;
    (split; [by auto|]); [|done..].
  intros r [= <-] Herr. simpl. eauto.
Qed.
End Apply.
End BiosProfile.
