(* ===== verification/Api.v ===== *)
(** * The typed API

    src/redfish_ctl/api.py: typed rows over the command interface.  A field of a
    frozen dataclass is a record field with a prefix for its class; values that
    come out of a command stay dynamic. *)

From stdpp Require Import base list strings.
From Stdlib Require Import Ascii ZArith Lia.
From S2P Require Import Prelude PyVal Effects Http Invoker.

Module Api.
Import Http.
Local Open Scope py_scope.

(** ** The dataclasses *)

Record SystemStatus := System_ {
  sys_id : pyval; sys_name : pyval; sys_power_state : pyval; sys_health : pyval; sys_state : pyval;
  sys_raw : pydict
}.

Record SensorReading := Sensor_ {
  sen_chassis : pyval; sen_name : pyval; sen_reading : pyval; sen_reading_units : pyval;
  sen_reading_type : pyval; sen_health : pyval; sen_raw : pydict
}.

Record TemperatureReading := Temperature_ {
  tmp_chassis : pyval; tmp_device_name : pyval; tmp_physical_context : pyval;
  tmp_reading_celsius : pyval; tmp_data_source_uri : pyval; tmp_raw : pydict
}.

Record FanReading := Fan_ {
  fan_chassis : pyval; fan_name : pyval; fan_state : pyval; fan_health : pyval;
  fan_speed_percent : pyval; fan_uri : pyval; fan_raw : pydict
}.

Record ThermalStatus := Thermal_ {
  th_summary : pydict; th_temperatures : list TemperatureReading; th_fans : list FanReading;
  th_raw : pydict
}.

Record GpuMetricRow := Gpu_ {
  gpu_system_id : pyval; gpu_gpu_id : pyval; gpu_processor_uri : pyval;
  gpu_processor_metrics_uri : pyval; gpu_name : pyval; gpu_model : pyval; gpu_manufacturer : pyval;
  gpu_firmware_version : pyval; gpu_status : pydict; gpu_operating_speed_mhz : pyval;
  gpu_temperatures_celsius : pydict; gpu_compute_utilization_percent : pydict;
  gpu_throttle_duration_seconds : pydict; gpu_processor_metrics : pydict; gpu_memory : list pydict;
  gpu_memory_summary_metrics : pydict; gpu_raw : pydict
}.

Record GpuMetricsStatus := GpuStatus_ {
  gs_summary : pydict; gs_gpus : list GpuMetricRow; gs_raw : pydict
}.

Record NetworkAdapterInfo := Adapter_ {
  ad_chassis : pyval; ad_id : pyval; ad_model : pyval; ad_manufacturer : pyval;
  ad_device_class : pyval; ad_part_number : pyval; ad_serial_number : pyval; ad_health : pyval;
  ad_raw : pydict
}.

Record NicFirmwareInfo := NicFirmware_ {
  fw_id : pyval; fw_name : pyval; fw_version : pyval; fw_updateable : pyval; fw_manufacturer : pyval;
  fw_device_class : pyval; fw_uri : pyval; fw_raw : pydict
}.

Record NetworkFirmwareStatus := NetworkFirmware_ {
  nf_summary : pydict; nf_adapters : list NetworkAdapterInfo; nf_firmware : list NicFirmwareInfo;
  nf_raw : pydict
}.

Record NtpTarget := NtpTarget_ {
  nt_manager : pyval; nt_target : pyval; nt_payload : pydict; nt_raw : pydict
}.

Record NtpSkipped := NtpSkipped_ {
  ns_manager : pyval; ns_target : pyval; ns_reason : pyval; ns_raw : pydict
}.

Record NtpApplied := NtpApplied_ {
  na_manager : pyval; na_target : pyval; na_status : pyval; na_error : pyval; na_raw : pydict
}.

Record NtpSetResult := NtpSetResult_ {
  nr_dry_run : bool; nr_servers : list string; nr_plan : list NtpTarget;
  nr_skipped : list NtpSkipped; nr_applied : list NtpApplied; nr_note : option string;
  nr_raw : pydict
}.

Record RebootResult := Reboot_ {
  rb_reset_type : pyval; rb_dry_run : bool; rb_target : pyval; rb_payload : pydict;
  rb_task_id : pyval; rb_task_state : pyval; rb_raw : pydict
}.

Record BiosProfileSummary := ProfileSummary_ {
  ps_name : pyval; ps_vendor : pyval; ps_model : pyval; ps_description : pyval; ps_risk : pyval;
  ps_raw : pydict
}.

Record BiosProfileSpec := ProfileSpec_ {
  sp_name : pyval; sp_vendor : pyval; sp_model : pyval; sp_description : pyval; sp_risk : pyval;
  sp_attributes : pydict; sp_raw : pydict
}.

Record BiosProfileAttributeDiff := AttributeDiff_ {
  df_attribute : pyval; df_current : pyval; df_desired : pyval; df_status : pyval; df_raw : pydict
}.

Record BiosProfileDiffResult := DiffResult_ {
  dr_profile : pydict; dr_matches : bool; dr_summary : pydict;
  dr_attributes : list BiosProfileAttributeDiff; dr_raw : pydict
}.

Record BiosProfileApplyResult := ApplyResult_ {
  ar_profile : option string; ar_dry_run : bool; ar_change : pydict; ar_rollback : pydict;
  ar_staged : pydict; ar_raw : pydict
}.

(** ** Coercions *)

(** [_mapping(data)] *)
Definition mapping (v : pyval) : pydict := as_dict v.

(** [_rows(data)]: only a list has rows *)
Definition rows (v : pyval) : list pydict :=
  match v with
  | PList l => omap (fun r => match r with PDict d => Some d | _ => None end) l
  | _ => []
  end.

(** [_server_list(servers)] *)
Definition server_list (servers : pyval) : res (list pyval) :=
  match servers with
  | PStr _ => Ok [servers]
  | _ => match py_iter servers with
         | Some l => Ok l
         | None => Raise (TypeError ("'" +:+ type_name servers +:+ "' object is not iterable"))
         end
  end.

(** [_server_tuple(data, fallback)] *)
Definition server_tuple (v : pyval) (fallback : list pyval) : list string :=
  map py_str (match v with PList l => l | _ => fallback end).

Definition only_str (v : pyval) : option string :=
  match v with PStr s => Some s | _ => None end.

Section Api.
Context {S : Type} `{!SyncInvoker S}.
Abbreviation MM := (M S).

(** [_invoke(manager, api_call, name, **kwargs)] *)
Definition invoke (api name : string) (kwargs : pydict) : MM pyval :=
  let! r := sync_invoke api name kwargs in
  if truthy (error r) then raise (RedfishApiError (py_str (error r))) else ret (data r).

Definition get_system (deep : bool) : MM SystemStatus :=
  let! v := invoke "SystemQuery" "system_query" [("do_deep", PBool deep)] in
  let d := mapping v in
  let status := mapping (dget "Status" d) in
  ret (System_ (dget "Id" d) (dget "Name" d) (dget "PowerState" d) (dget "Health" status)
         (dget "State" status) d).

Definition get_sensors (expanded : bool) : MM (list SensorReading) :=
  let! v := invoke "Sensors" "sensors" [("do_expanded", PBool expanded)] in
  ret (map (fun r => Sensor_ (dget "Chassis" r) (dget "Name" r) (dget "Reading" r)
                       (dget "ReadingUnits" r) (dget "ReadingType" r) (dget "Health" r) r) (rows v)).

Definition temperature (r : pydict) : TemperatureReading :=
  Temperature_ (dget "Chassis" r) (dget "DeviceName" r) (dget "PhysicalContext" r)
    (dget "ReadingCelsius" r) (dget "DataSourceUri" r) r.

Definition fan (r : pydict) : FanReading :=
  Fan_ (dget "Chassis" r) (dget "Name" r) (dget "State" r) (dget "Health" r) (dget "SpeedPercent" r)
    (dget "Uri" r) r.

Definition get_thermal : MM ThermalStatus :=
  let! v := invoke "Thermal" "thermal" [] in
  let d := mapping v in
  ret (Thermal_ (mapping (dget "summary" d)) (map temperature (rows (dget "temperature_readings" d)))
         (map fan (rows (dget "fans" d))) d).

Definition gpu_row (r : pydict) : GpuMetricRow :=
  Gpu_ (dget "SystemId" r) (dget "GpuId" r) (dget "ProcessorUri" r) (dget "ProcessorMetricsUri" r)
    (dget "Name" r) (dget "Model" r) (dget "Manufacturer" r) (dget "FirmwareVersion" r)
    (mapping (dget "Status" r)) (dget "OperatingSpeedMHz" r) (mapping (dget "TemperaturesCelsius" r))
    (mapping (dget "ComputeUtilizationPercent" r)) (mapping (dget "ThrottleDurationSeconds" r))
    (mapping (dget "ProcessorMetrics" r)) (rows (dget "Memory" r))
    (mapping (dget "MemorySummaryMetrics" r)) r.

Definition get_gpu_metrics : MM GpuMetricsStatus :=
  let! v := invoke "GpuMetrics" "gpu-metrics" [] in
  let d := mapping v in
  ret (GpuStatus_ (mapping (dget "summary" d)) (map gpu_row (rows (dget "gpus" d))) d).

Definition adapter (r : pydict) : NetworkAdapterInfo :=
  Adapter_ (dget "Chassis" r) (dget "Id" r) (dget "Model" r) (dget "Manufacturer" r)
    (dget "DeviceClass" r) (dget "PartNumber" r) (dget "SerialNumber" r) (dget "Health" r) r.

Definition nic_firmware (r : pydict) : NicFirmwareInfo :=
  NicFirmware_ (dget "Id" r) (dget "Name" r) (dget "Version" r) (dget "Updateable" r)
    (dget "Manufacturer" r) (dget "DeviceClass" r) (dget "Uri" r) r.

Definition get_network_firmware : MM NetworkFirmwareStatus :=
  let! v := invoke "NicFirmware" "nic-firmware" [] in
  let d := mapping v in
  ret (NetworkFirmware_ (mapping (dget "summary" d)) (map adapter (rows (dget "adapters" d)))
         (map nic_firmware (rows (dget "firmware" d))) d).

Definition ntp_target (r : pydict) : NtpTarget :=
  NtpTarget_ (dget "Manager" r) (dget "target" r) (mapping (dget "payload" r)) r.
Definition ntp_skipped (r : pydict) : NtpSkipped :=
  NtpSkipped_ (dget "Manager" r) (dget "target" r) (dget "reason" r) r.
Definition ntp_applied (r : pydict) : NtpApplied :=
  NtpApplied_ (dget "Manager" r) (dget "target" r) (dget "status" r) (dget "error" r) r.

(** The typed result for the data of the ntp-set command. *)
Definition ntp_result (requested : list pyval) (d : pydict) : NtpSetResult :=
  NtpSetResult_ (truthy (dict_get_or "dry_run" (PBool false) d))
    (server_tuple (dget "servers" d) requested)
    (map ntp_target (rows (dget "plan" d))) (map ntp_skipped (rows (dget "skipped" d)))
    (map ntp_applied (rows (dget "applied" d))) (only_str (dget "note" d)) d.

Definition set_ntp (servers : pyval) (manager_id : option string) (confirm : bool) : MM NtpSetResult :=
  let! requested := lift_res (server_list servers) in
  let! v := invoke "NtpSet" "ntp-set"
    [("servers", PList requested); ("manager_id", opt_str manager_id); ("confirm", PBool confirm)] in
  ret (ntp_result requested (mapping v)).

Definition reboot (reset_type : string) (confirm wait async_call : bool) : MM RebootResult :=
  let! v := invoke "ComputerSystemReset" "reboot"
    [("reset_type", PStr reset_type); ("dry_run", PBool (negb confirm));
     ("do_wait", PBool (wait && confirm)); ("do_async", PBool async_call)] in
  let d := mapping v in
  let payload := mapping (dget "payload" d) in
  ret (Reboot_ (py_or (dget "ResetType" payload) (PStr reset_type))
         (truthy (dict_get_or "dry_run" (PBool (negb confirm)) d)) (dget "target" d) payload
         (dget "task_id" d) (dget "task_state" d) d).

Definition bios_profile_list : MM (list BiosProfileSummary) :=
  let! v := invoke "BiosProfile" "bios-profile" [("action", PStr "list")] in
  ret (map (fun r => ProfileSummary_ (dget "name" r) (dget "vendor" r) (dget "model" r)
                       (dget "description" r) (dget "risk" r) r) (rows v)).

Definition bios_profile_show (profile_name : string) : MM BiosProfileSpec :=
  let! v := invoke "BiosProfile" "bios-profile"
    [("action", PStr "show"); ("profile_name", PStr profile_name)] in
  let d := mapping v in
  ret (ProfileSpec_ (dget "name" d) (dget "vendor" d) (dget "model" d) (dget "description" d)
         (dget "risk" d) (mapping (dget "attributes" d)) d).

Definition attribute_diff (r : pydict) : BiosProfileAttributeDiff :=
  AttributeDiff_ (dget "attribute" r) (dget "current" r) (dget "desired" r) (dget "status" r) r.

Definition bios_profile_diff (profile_name : string) : MM BiosProfileDiffResult :=
  let! v := invoke "BiosProfile" "bios-profile"
    [("action", PStr "diff"); ("profile_name", PStr profile_name)] in
  let d := mapping v in
  ret (DiffResult_ (mapping (dget "profile" d)) (truthy (dict_get_or "matches" (PBool false) d))
         (mapping (dget "summary" d)) (map attribute_diff (rows (dget "attributes" d))) d).

Definition bios_profile_apply (profile_name : string) (confirm dry_run : bool)
  : MM BiosProfileApplyResult :=
  let! v := invoke "BiosProfile" "bios-profile"
    [("action", PStr "apply"); ("profile_name", PStr profile_name); ("confirm", PBool confirm);
     ("dry_run", PBool dry_run)] in
  let d := mapping v in
  ret (ApplyResult_ (only_str (dget "profile" d))
         (truthy (dict_get_or "dry_run" (PBool (negb confirm)) d))
         (mapping (dget "change" d)) (mapping (dget "rollback" d)) (mapping (dget "staged" d)) d).
End Api.

(** ** Errors *)

(** Every operation of the API raises a command error as [RedfishApiError]. *)
Lemma invoke_fails_fast env api name kw :
  fails_fast env (invoke (SyncInvoker0 := recorder env) api name kw).
Proof.
  intros log. exists [Call_ api name kw]. unfold invoke, bind, sync_invoke, recorder.
  destruct (env log (Call_ api name kw)) as [cr|e|] eqn:He; simpl;
    [destruct (truthy (error cr)) eqn:Ht|..]; (split; [done|]);
    intros l1 c l2 cr' Heq; (destruct l1 as [|? l1]; [|by destruct l1]); injection Heq as <- <-;
    rewrite app_nil_r, He; intros; simplify_eq; try done; congruence.
Qed.
End Api.
