(* ===== verification/Service.v ===== *)
(** * The service layers on the modelled commands

    [reconcile] and the typed API are verified against the interface
    [SyncInvoker]; here the
    interface is given by the commands themselves, as the manager's registry
    resolves them, so that what a reconciliation sends to the BMC can be
    stated.  A command that is not modelled is taken from the parameter
    [others]. *)

From stdpp Require Import base list gmap strings.
From Stdlib Require Import Ascii ZArith Lia.
From S2P Require Import Prelude PyVal Effects Http Manager Discovery Csdl Actions Ntp.
From S2P Require Import Invoker Reconcile CurrentBoot ManagerNetwork Reboot BiosProfile Api.

Module Service.
Import Http RedfishManager.

Section Commands.
Context (schemas : list Csdl.xml) (profiles : list pyval) (fuel : nat).
Context {W : Type} `{!World W} (others : SyncInvoker (mstate W)).
Context (write_spec : string -> pyval -> M (mstate W) string).

Definition flag (k : string) (kwargs : pydict) : bool := truthy (dget k kwargs).

(** The registered commands, with the defaults of their keyword arguments. *)
Definition commands : SyncInvoker (mstate W) := fun api name kw =>
  if decide (api = "NtpSet") then
    NtpSet.execute (dget "servers" kw) (dget "manager_id" kw) (flag "clear" kw) (flag "confirm" kw)
      (flag "do_async" kw)
  else if decide (api = "ManagerNetworkProtocol") then
    ManagerNetworkProtocol.execute (flag "do_async" kw)
  else if decide (api = "CurrentBoot") then GetCurrentBoot.execute (flag "do_async" kw)
  else if decide (api = "ComputerSystemReset") then
    RebootHost.execute schemas (SyncInvoker0 := others) fuel (dict_get_or "reset_type" (PStr "On") kw)
      (flag "do_async" kw) (flag "do_wait" kw) (flag "dry_run" kw) 10 10
  else if decide (api = "BiosProfile") then
    BiosProfile.execute (SyncInvoker0 := others) write_spec profiles
      (py_str (dict_get_or "action" (PStr "list") kw))
      (match dget "profile_name" kw with PStr s => Some s | _ => None end)
      (flag "confirm" kw) (flag "dry_run" kw) (flag "verbose" kw) (flag "do_async" kw)
  else others api name kw.

(** The BIOS attribute query is a read: its help text is "command fetch the bios
    information". *)
Context (bios_inventory_reads : forall kw, emits is_get (others "BiosQuery" "bios_inventory" kw)).

Lemma ntp_preview servers mid clear b : emits is_get (NtpSet.execute (W := W) servers mid clear false b).
Proof.
  unfold NtpSet.execute. cbn [negb]. frame; apply NtpSet.emits_ntp_plan.
Qed.

Lemma reboot_preview reset_type b w st mr :
  emits is_get (RebootHost.execute (W := W) schemas (SyncInvoker0 := others) fuel reset_type b w true st mr).
Proof.
  intros s. rewrite RebootHost.execute_dry_run. apply RebootHost.emits_preview.
Qed.

Lemma bios_preview name c d v b :
  emits is_get (BiosProfile.execute (SyncInvoker0 := others) write_spec profiles "diff" name c d v b).
Proof.
  unfold BiosProfile.execute, BiosProfile.read_current_attributes.
  rewrite decide_False, decide_True by done. frame; apply bios_inventory_reads.
Qed.

#[export] Instance commands_preview_safe :
  Reconcile.PreviewSafe (SyncInvoker0 := commands) (extends is_get).
Proof.
  intros [api name kw] Hc. unfold Reconcile.is_preview in Hc. simpl in Hc.
  unfold sync_invoke, commands. simpl.
  destruct (decide (api = "BiosProfile")) as [->|].
  - rewrite !decide_False by done.
    apply eq_str_true in Hc. unfold dict_get_or. unfold dget, dict_get_or in Hc.
    destruct (dict_get "action" kw); simplify_eq/=. apply bios_preview.
  - destruct (decide (api = "NtpSet")) as [->|].
    + destruct (dict_get "confirm" kw) as [[|[]| | | | | | |]|] eqn:Hk; try done.
      unfold flag at 2. unfold dget, dict_get_or. rewrite Hk. simpl. apply ntp_preview.
    + destruct (decide (api = "ComputerSystemReset")) as [->|].
      * rewrite !decide_False by done.
        destruct (dict_get "dry_run" kw) as [[|[]| | | | | | |]|] eqn:Hk; try done.
        unfold flag at 3. unfold dget, dict_get_or. rewrite Hk. simpl. apply reboot_preview.
      * apply bool_decide_eq_true, list_elem_of_In in Hc as [<-|[<-|[]]];
          rewrite ?decide_False by done; rewrite decide_True by done.
        -- apply ManagerNetworkProtocol.emits_manager_network.
        -- apply GetCurrentBoot.emits_current_boot.
Qed.

(** An unconfirmed reconciliation does not touch the hardware: run on the
    actual commands, whatever the desired state and whatever the BMC answers,
    every request it sends is a GET. *)
Theorem reconcile_sends_only_reads st wait async (s : mstate W) :
  exists reads,
    trace (Reconcile.reconcile (SyncInvoker0 := commands) st false wait async s).1 = trace s ++ reads /\
    Forall is_get reads.
Proof. apply (Reconcile.reconcile_preview_frames (SyncInvoker0 := commands) (extends is_get)). Qed.

(** ** The typed ntp-set *)

(** The plan of the command as the typed API decodes it. *)
Lemma rows_map_dict {A} (f : A -> pydict) l :
  Api.rows (PList (map (fun x => PDict (f x)) l)) = map f l.
Proof. simpl. induction l as [|x l IH]; simpl; [done|]. by f_equal. Qed.

(** [set_ntp] through the command: what the command returns, decoded. *)
Lemma set_ntp_run servers mid confirm (s : mstate W) :
  Api.set_ntp (SyncInvoker0 := commands) servers mid confirm s =
  match Api.server_list servers with
  | Ok requested =>
      match NtpSet.execute (PList requested) (opt_str mid) false confirm false s with
      | (s', Ok cr) => if truthy (error cr) then (s', Raise (RedfishApiError (py_str (error cr))))
                       else (s', Ok (Api.ntp_result requested (Api.mapping (data cr))))
      | (s', Raise e) => (s', Raise e)
      | (s', NoFuel) => (s', NoFuel)
      end
  | Raise e => (s, Raise e)
  | NoFuel => (s, NoFuel)
  end.
Proof.
  unfold Api.set_ntp, Api.invoke, bind, lift_res. destruct (Api.server_list servers); [|done..].
  unfold sync_invoke, commands. rewrite decide_True by done. unfold flag. simpl.
  destruct (NtpSet.execute _ _ _ confirm _ s) as [s' [cr|e|]]; [|done..].
  by destruct (truthy (error cr)).
Qed.

Lemma apply_length plan (s : mstate W) l :
  (mapM NtpSet.apply_item plan s).2 = Ok l -> length l = length plan.
Proof.
  revert s l. induction plan as [|i plan IH]; intros s l; simpl; [by intros [= <-]|].
  unfold bind. destruct (NtpSet.apply_item i s) as [s1 [a|e|]]; [|done..].
  specialize (IH s1). destruct (mapM NtpSet.apply_item plan s1) as [s2 [l'|e|]]; [|done..].
  intros [= <-]. simpl. f_equal. by apply IH.
Qed.

(** The PATCH of a typed plan row. *)
Definition patch_row (m : manager) (t : Api.NtpTarget) : request :=
  write_request m PATCH (py_str (Api.nt_target t)) (Some (Api.nt_payload t)).

Lemma decoded_plan m plan :
  map (patch_row m) (map Api.ntp_target (Api.rows (PList (map NtpSet.item_val plan))))
  = map (NtpSet.patch_of m) plan.
Proof.
  unfold NtpSet.item_val. rewrite rows_map_dict, !map_map. done.
Qed.

(** The typed API is faithful end to end: the plan that [set_ntp] returns
    unconfirmed lists exactly the PATCHes, targets and bodies in order, that
    the same call sends when it is confirmed; the unconfirmed call reports a
    dry run with nothing applied, and a confirmed call that returns has sent
    them all and reports one applied row for each. *)
Theorem set_ntp_faithful servers mid (s s1 : mstate W) r :
  Api.set_ntp (SyncInvoker0 := commands) servers mid false s = (s1, Ok r) ->
  let go := Api.set_ntp (SyncInvoker0 := commands) servers mid true s in
  Api.nr_dry_run r = true /\ Api.nr_applied r = [] /\
  exists patches,
    trace go.1 = trace s1 ++ patches /\ patches `prefix_of` map (patch_row (mgr s)) (Api.nr_plan r) /\
    forall r', go.2 = Ok r' ->
      patches = map (patch_row (mgr s)) (Api.nr_plan r) /\ Api.nr_dry_run r' = false /\
      length (Api.nr_applied r') = length (Api.nr_plan r).
Proof.
  cbv zeta. rewrite !set_ntp_run. destruct (Api.server_list servers) as [req|e|]; [|done..].
  rewrite !NtpSet.execute_run.
  destruct (NtpSet.normalize_ntp_servers (PList req) false) as [names|e|]; [|done..].
  pose proof (NtpSet.same_conn_ntp_plan names (opt_str mid) false s) as Hconn. unfold same_conn in Hconn.
  destruct (NtpSet.ntp_plan names (opt_str mid) false s) as [s2 [[plan skipped]|e|]]; [|done..].
  simpl in Hconn. intros [= <- <-]. split; [done|]. split; [done|].
  destruct (NtpSet.apply_run (mgr s) plan s2 Hconn) as (patches & Ht & Hpre & Hall).
  exists patches.
  change (Api.nr_plan _) with (map Api.ntp_target (Api.rows (PList (map NtpSet.item_val plan)))).
  rewrite decoded_plan.
  pose proof (apply_length plan s2) as Hlen.
  destruct (mapM NtpSet.apply_item plan s2) as [s3 [l|e|]]; simpl in *.
  - destruct (truthy (NtpSet.overall_error l)); (split; [exact Ht|]); (split; [done|]); [done|].
    intros r' [= <-]. split; [by eapply Hall|]. split; [done|]. simpl.
    rewrite length_map, length_map. unfold NtpSet.applied_val, NtpSet.item_val.
    pose proof (rows_map_dict (fun a => [("Manager", NtpSet.a_manager a); ("target", NtpSet.a_target a);
      ("status", PStr (api_respond_str (NtpSet.a_status a))); ("error", NtpSet.a_error a)]) l) as E1.
    pose proof (rows_map_dict (fun i => [("Manager", NtpSet.i_manager i); ("target", NtpSet.i_target i);
      ("payload", PDict (NtpSet.i_payload i))]) plan) as E2.
    simpl in E1, E2. rewrite E1, E2, !length_map. by apply Hlen.
  - split; [exact Ht|]. split; [done|]. done.
  - split; [exact Ht|]. split; [done|]. done.
Qed.
End Commands.

(** ** Evaluation *)

Definition no_others : SyncInvoker (mstate sim) := fun api name _ =>
  raise (UnsupportedAction ("no command " +:+ name)).

Definition host_routes : list (method * string * list response) :=
  let host := "https://10.0.0.42" in
  [(GET, host +:+ "/redfish/v1/Systems",
    [ok_json (PDict [("Members", PList [PDict [("@odata.id", PStr "/redfish/v1/Systems/1")]])])]);
   (GET, host +:+ "/redfish/v1/Systems/1",
    [ok_json (PDict [("Actions", PDict [("#ComputerSystem.Reset", PDict [("target", PStr "/r")])])])]);
   (POST, host +:+ "/r", [Response 204 [] (inr "")])] ++ NtpSet.ntp_routes.

Definition reset_only : Reconcile.DesiredState :=
  Reconcile.Desired None ["a.org"] None None None None (Some "ForceOff").

Lemma reconcile_sends_only_reads_witness :
  exists reads,
    trace (Reconcile.reconcile (SyncInvoker0 := commands [] [] 10 no_others (fun _ _ => ret "/tmp/s"))
             reset_only false true false (sim_state sample_manager host_routes)).1
    = [] ++ reads /\ Forall is_get reads.
Proof.
  apply (reconcile_sends_only_reads [] [] 10 no_others (fun _ _ => ret "/tmp/s")).
  intros kw s. exists []. by rewrite app_nil_r.
Defined.

(** The same request confirmed does reset the host. *)
Example confirmed_reset :
  let out := Reconcile.reconcile (SyncInvoker0 := commands [] [] 10 no_others (fun _ _ => ret "/tmp/s"))
               (Reconcile.Desired None [] None None None None (Some "ForceOff")) true false false
               (sim_state sample_manager host_routes) in
  map rq_method (filter (fun rq => rq_method rq <> GET) (trace out.1)) = [POST] /\
  match out.2 with Ok r => map Reconcile.a_kind (Reconcile.applied r) = ["reboot"] | _ => False end.
Proof. vm_compute. auto. Qed.

Definition ntp_ok_routes : list (method * string * list response) :=
  (PATCH, "https://10.0.0.42/redfish/v1/Managers/2/NTP", [Response 200 [] (inl (PDict []))])
  :: NtpSet.ntp_routes.

Lemma set_ntp_faithful_witness :
  exists s1 r,
    Api.set_ntp (SyncInvoker0 := commands [] [] 10 no_others (fun _ _ => ret "/tmp/s"))
      (PStr "a.org") None false (sim_state sample_manager ntp_ok_routes) = (s1, Ok r) /\
    length (Api.nr_plan r) = 2%nat /\
    exists patches,
      trace (Api.set_ntp (SyncInvoker0 := commands [] [] 10 no_others (fun _ _ => ret "/tmp/s"))
        (PStr "a.org") None true (sim_state sample_manager ntp_ok_routes)).1 = trace s1 ++ patches /\
      patches `prefix_of` map (patch_row sample_manager) (Api.nr_plan r).
Proof.
  set (out := Api.set_ntp (SyncInvoker0 := commands [] [] 10 no_others (fun _ _ => ret "/tmp/s"))
      (PStr "a.org") None false (sim_state sample_manager ntp_ok_routes)).
  destruct out.2 as [r|e|] eqn:Hr; [|vm_compute in Hr; discriminate..].
  pose proof (surjective_pairing out) as Hp. rewrite Hr in Hp.
  destruct (set_ntp_faithful [] [] 10 no_others (fun _ _ => ret "/tmp/s") (PStr "a.org") None
              (sim_state sample_manager ntp_ok_routes) out.1 r Hp) as (_ & _ & patches & Ht & Hpre & _).
  exists out.1, r. split; [exact Hp|]. split; [vm_compute in Hr; by injection Hr as <-|].
  exists patches. split; [exact Ht|exact Hpre].
Defined.
End Service.
