(* ===== verification/Proxy.v ===== *)
(** * The read-only proxy

    src/redfish_ctl/proxy/core.py: the node registry and the reads of
    [ReadOnlyProxy] that shape one command's result.  Node status, which formats
    the wall clock, and the telemetry samples are not modelled. *)

From stdpp Require Import base list strings sorting.
From Stdlib Require Import Ascii ZArith Lia.
From S2P Require Import Prelude PyVal Effects Http Invoker Api.

Module Proxy.
Import Http.
Local Open Scope py_scope.

(** [NodeConfig] *)
Record NodeConfig := Node {
  id : string;
  address : string;
  port : Z;
  username : option string;
  password : option string;
  insecure : bool;
  description : option string
}.

(** [public_dict()] *)
Definition public_dict (n : NodeConfig) : pydict :=
  [("id", PStr (id n)); ("address", PStr (address n)); ("port", PInt (port n));
   ("insecure", PBool (insecure n)); ("description", opt_str (description n))].

(** ** [NodeRegistry] *)

Abbreviation registry := (list (string * NodeConfig)).

(** [__init__(nodes)] *)
Definition new_registry (nodes : list NodeConfig) : res registry :=
  res_fold (fun reg n =>
    if dict_in (id n) reg then Raise (ValueError ("duplicate node id: " +:+ id n))
    else Ok (dict_set (id n) n reg)) [] nodes.

(** [list()] *)
Definition list_registry (reg : registry) : list NodeConfig :=
  omap (fun k => dict_get k reg) (sort_strs (dict_keys reg)).

(** [get(node_id)] *)
Definition get_node (reg : registry) (node_id : string) : res NodeConfig :=
  match dict_get node_id reg with Some n => Ok n | None => Raise (NodeNotFound node_id) end.

(** ** Payload helpers *)

(** [_list_payload(data)] *)
Definition list_payload (v : pyval) : list pydict :=
  match v with
  | PList l => omap (fun r => match r with PDict d => Some d | _ => None end) l
  | _ => []
  end.

(** [_dict_payload(data)] *)
Definition dict_payload (v : pyval) : pydict := as_dict v.

(** [_dict_rows(data, key)] *)
Definition dict_rows (v : pyval) (key : string) : list pydict := list_payload (dget key (dict_payload v)).

(** ** [ReadOnlyProxy] *)

(** [list_nodes()] *)
Definition list_nodes (reg : registry) : pyval :=
  PDict [("nodes", PList (map (fun n => PDict (public_dict n)) (list_registry reg)))].

Section Reads.
Context {S : Type} (manager_factory : NodeConfig -> SyncInvoker S).
Abbreviation MM := (M S).

(** [_node_and_manager(node_id)] *)
Definition node_and_manager (reg : registry) (node_id : string) : MM (NodeConfig * SyncInvoker S) :=
  let! n := lift_res (get_node reg node_id) in ret (n, manager_factory n).

(** [_raw_command(manager, api_call, name, **kwargs)] *)
Definition raw_command (manager : SyncInvoker S) (api name : string) (kwargs : pydict) : MM pyval :=
  let! r := manager api name kwargs in
  if truthy (error r) then raise (RedfishApiError (py_str (error r))) else ret (data r).

(** [_optional_command(manager, api_call, name, **kwargs)] *)
Definition optional_command (manager : SyncInvoker S) (api name : string) (kwargs : pydict) : MM pyval :=
  try_Exception
    (let! r := manager api name kwargs in ret (if truthy (error r) then PNone else data r))
    (fun _ => ret PNone).

(** [_sensor_dicts(manager)] *)
Definition sensor_dicts (manager : SyncInvoker S) : MM (list pyval) :=
  let! rs := Api.get_sensors (SyncInvoker0 := manager) false in
  ret (map (fun r => PDict [("chassis", Api.sen_chassis r); ("name", Api.sen_name r);
                            ("reading", Api.sen_reading r); ("readingUnits", Api.sen_reading_units r);
                            ("readingType", Api.sen_reading_type r); ("health", Api.sen_health r)]) rs).

(** [node_sensors(node_id)] *)
Definition node_sensors (reg : registry) (node_id : string) : MM pyval :=
  let! (n, manager) := node_and_manager reg node_id in
  let! sensors := sensor_dicts manager in
  ret (PDict [("id", PStr (id n)); ("sensors", PList sensors)]).

(** [node_gpu_metrics(node_id)] *)
Definition node_gpu_metrics (reg : registry) (node_id : string) : MM pyval :=
  let! (n, manager) := node_and_manager reg node_id in
  let! v := raw_command manager "GpuMetrics" "gpu-metrics" [] in
  ret (PDict [("id", PStr (id n)); ("gpuMetrics", v)]).

(** [node_bios(node_id, attr_filter)] *)
Definition node_bios (reg : registry) (node_id : string) (attr_filter : option string) : MM pyval :=
  let! (n, manager) := node_and_manager reg node_id in
  let! v := raw_command manager "BiosQuery" "bios_inventory"
    [("attr_filter", PStr (default "" attr_filter)); ("attr_only", PBool false);
     ("do_deep", PBool false)] in
  ret (PDict [("id", PStr (id n)); ("bios", v)]).
End Reads.

(** ** The registry *)

(** The registry as a function of its nodes. *)
Definition keyed (nodes : list NodeConfig) : registry := map (fun n => (id n, n)) nodes.

Lemma dict_set_fresh {A} k (v : A) d : k ∉ dict_keys d -> dict_set k v d = d ++ [(k, v)].
Proof.
  induction d as [|[k' v'] d IH]; simpl; [done|]. intros [Hne Hk]%not_elem_of_cons.
  rewrite decide_False by done. by rewrite IH.
Qed.

Lemma keyed_keys nodes : dict_keys (keyed nodes) = map id nodes.
Proof. unfold dict_keys, keyed. by rewrite map_map. Qed.

(** The step of the constructor. *)
Definition add_node (reg : registry) (n : NodeConfig) : res registry :=
  if dict_in (id n) reg then Raise (ValueError ("duplicate node id: " +:+ id n))
  else Ok (dict_set (id n) n reg).

Lemma add_node_ok reg n reg' :
  add_node reg n = Ok reg' -> id n ∉ dict_keys reg /\ reg' = reg ++ [(id n, n)].
Proof.
  unfold add_node. destruct (dict_in (id n) reg) eqn:Hin; [done|]. intros [= <-].
  assert (id n ∉ dict_keys reg) as Hn by (rewrite <- dict_in_true; by rewrite Hin).
  split; [done|]. by apply dict_set_fresh.
Qed.

Lemma new_registry_from seen nodes reg :
  res_fold add_node (keyed seen) nodes = Ok reg -> NoDup (map id seen) ->
  reg = keyed (seen ++ nodes) /\ NoDup (map id (seen ++ nodes)).
Proof.
  revert seen. induction nodes as [|n nodes IH]; intros seen; simpl.
  - intros [= <-] Hnd. by rewrite app_nil_r.
  - intros (reg1 & [Hn ->]%add_node_ok & Hfold)%res_bind_ok Hnd.
    rewrite keyed_keys in Hn.
    assert (keyed seen ++ [(id n, n)] = keyed (seen ++ [n])) as Hk
      by (unfold keyed; by rewrite map_app).
    rewrite Hk in Hfold. destruct (IH (seen ++ [n]) Hfold) as [-> Hnd'].
    + rewrite map_app. apply NoDup_app. split; [done|]. split; [|apply NoDup_singleton].
      intros x Hx ->%list_elem_of_singleton. done.
    + by rewrite <- app_assoc in Hnd' |- *.
Qed.

(** A registry finds the nodes it was built from, and only those; it is built only
    from nodes with different ids. *)
Lemma registry_lookup nodes reg :
  new_registry nodes = Ok reg ->
  NoDup (map id nodes) /\ (forall n, n ∈ nodes -> get_node reg (id n) = Ok n) /\
  forall k, k ∉ map id nodes -> get_node reg k = Raise (NodeNotFound k).
Proof.
  intros Hreg. destruct (new_registry_from [] nodes reg Hreg) as [-> Hnd]; [constructor|].
  simpl in *. split; [done|]. unfold get_node. split.
  - intros n Hn. rewrite (dict_get_NoDup (id n) n); [done|by rewrite keyed_keys|].
    apply list_elem_of_fmap. by exists n.
  - intros k Hk. rewrite <- keyed_keys in Hk. apply dict_get_None in Hk. by rewrite Hk.
Qed.

(** ** Credentials *)

(** Nodes, and registries, that look the same from outside. *)
Definition same_public (n n' : NodeConfig) : Prop := public_dict n = public_dict n'.
Definition same_registry (r r' : registry) : Prop :=
  Forall2 (fun kn kn' => kn.1 = kn'.1 /\ same_public kn.2 kn'.2) r r'.

Lemma same_public_id n n' : same_public n n' -> id n = id n'.
Proof. unfold same_public, public_dict. by intros [= -> _ _ _ _]. Qed.

Lemma same_registry_keys r r' : same_registry r r' -> dict_keys r = dict_keys r'.
Proof. unfold dict_keys. induction 1 as [|x y l l' [Hk _] _ IH]; simpl; [done|]. by rewrite Hk, IH. Qed.

Lemma same_registry_get r r' k :
  same_registry r r' -> option_Forall2 same_public (dict_get k r) (dict_get k r').
Proof.
  induction 1 as [|[k1 n] [k2 n'] l l' [Hk Hn] _ IH]; simpl in *; [constructor|]. subst.
  case_decide; [by constructor|done].
Qed.

Lemma same_registry_list r r' :
  same_registry r r' ->
  map (fun n => PDict (public_dict n)) (list_registry r)
  = map (fun n => PDict (public_dict n)) (list_registry r').
Proof.
  intros Hr. unfold list_registry. rewrite (same_registry_keys r r' Hr).
  induction (sort_strs (dict_keys r')) as [|k ks IH]; simpl; [done|].
  destruct (same_registry_get r r' k Hr) as [n n' Hn|]; simpl; [|exact IH].
  f_equal; [by rewrite Hn|exact IH].
Qed.

Lemma same_registry_add r r' n n' :
  same_registry r r' -> same_public n n' ->
  match add_node r n, add_node r' n' with
  | Ok a, Ok b => same_registry a b
  | Raise e, Raise e' => e = e'
  | _, _ => False
  end.
Proof.
  intros Hr Hn. unfold add_node. rewrite (same_public_id n n' Hn).
  assert (dict_in (id n') r = dict_in (id n') r') as ->.
  { unfold dict_in. by destruct (same_registry_get r r' (id n') Hr). }
  destruct (dict_in (id n') r') eqn:Hin; [done|].
  assert (id n' ∉ dict_keys r') as Hk by (rewrite <- dict_in_true; by rewrite Hin).
  rewrite !dict_set_fresh; [|done|by rewrite (same_registry_keys r r' Hr)].
  apply Forall2_app; [done|]. by repeat constructor.
Qed.

(** The node list exposes no credentials: it does not depend on them.  Two
    configurations that differ only in user names and passwords are accepted
    or refused alike, with the same message, and list the same. *)
Theorem list_nodes_hides_credentials nodes nodes' :
  Forall2 same_public nodes nodes' ->
  (let? reg := new_registry nodes in Ok (list_nodes reg))
  = (let? reg := new_registry nodes' in Ok (list_nodes reg)).
Proof.
  unfold new_registry. fold add_node.
  assert (forall r r', same_registry r r' -> Forall2 same_public nodes nodes' ->
    (let? reg := res_fold add_node r nodes in Ok (list_nodes reg))
    = (let? reg := res_fold add_node r' nodes' in Ok (list_nodes reg))) as Hgo.
  { intros r r' Hr Hns. revert r r' Hr. induction Hns as [|n n' ns ns' Hn _ IH]; intros r r' Hr; simpl.
    - unfold list_nodes. by rewrite (same_registry_list r r' Hr).
    - pose proof (same_registry_add r r' n n' Hr Hn) as Ha.
      destruct (add_node r n) as [a|e|], (add_node r' n') as [b|e'|]; simpl; try done; [|by subst].
      by apply IH. }
  intros Hns. apply (Hgo [] []); [constructor|done].
Qed.

Definition with_password (p : string) : NodeConfig :=
  Node "n1" "10.0.0.42" 443 (Some "root") (Some p) true None.

Lemma list_nodes_hides_credentials_witness :
  (let? reg := new_registry [with_password "secret"] in Ok (list_nodes reg))
  = (let? reg := new_registry [with_password "other"] in Ok (list_nodes reg)).
Proof. apply list_nodes_hides_credentials. repeat constructor. Defined.

Example node_listing :
  (let? reg := new_registry [Node "b" "h2" 443 None None true None; with_password "x"] in
   Ok (map id (list_registry reg))) = Ok ["b"; "n1"].
Proof. vm_compute. reflexivity. Qed.
End Proxy.
