(* ===== verification/Json.v ===== *)
(** * JSON text

    [json.dumps] of the standard library on the values of PyVal.v, as the program
    calls it to hash, print and send documents: [render] writes the keys of a
    dict in insertion order, [sort_keys] reorders them recursively.  The text
    determines the value ([render_inj]), which is what makes a digest of it
    stand for the document. *)

From stdpp Require Import base list strings pretty.
From Stdlib Require Import Ascii ZArith Lia.
From S2P Require Import Prelude PyVal Effects.

Module Json.
Local Open Scope py_scope.

(** ** Text *)

(** [py_encode_basestring_ascii]: the escape of one character *)
Definition escape_char (c : ascii) : string :=
  let n := nat_of_ascii c in
  if (n =? 34)%nat then String "\" (char_str dquote)
  else if (n =? 92)%nat then "\\"
  else if (n =? 10)%nat then "\n"
  else if (n =? 13)%nat then "\r"
  else if (n =? 9)%nat then "\t"
  else if (n =? 12)%nat then "\f"
  else if (n =? 8)%nat then "\b"
  else if (n <? 32)%nat || (126 <? n)%nat
       then "\u00" +:+ char_str (hex_digit (n / 16)) +:+ char_str (hex_digit (n mod 16))
  else char_str c.

Fixpoint escape (s : string) : string :=
  match s with
  | EmptyString => EmptyString
  | String c s' => escape_char c +:+ escape s'
  end.

Definition quoted (s : string) : string :=
  char_str dquote +:+ escape s +:+ char_str dquote.

(** All results, or none. *)
Fixpoint all_some {A} (l : list (option A)) : option (list A) :=
  match l with
  | [] => Some []
  | Some x :: l' => match all_some l' with Some r => Some (x :: r) | None => None end
  | None :: _ => None
  end.

(** [json.dumps(v, separators=(isep, ksep))]; [None] is the [TypeError] of a value
    that is not serializable *)
Fixpoint render (isep ksep : string) (v : pyval) : option string :=
  match v with
  | PNone => Some "null"
  | PBool b => Some (if b then "true" else "false")
  | PInt z => Some (pretty z)
  | PFloat m e => Some (repr_float m e)
  | PStr s => Some (quoted s)
  | PList l | PTuple l =>
      match all_some (map (render isep ksep) l) with
      | Some ts => Some ("[" +:+ PyStr.join isep ts +:+ "]")
      | None => None
      end
  | PDict d =>
      match all_some (map (fun kv => match render isep ksep kv.2 with
                                     | Some t => Some (quoted kv.1 +:+ ksep +:+ t)
                                     | None => None
                                     end) d) with
      | Some ts => Some ("{" +:+ PyStr.join isep ts +:+ "}")
      | None => None
      end
  | PErr _ _ _ _ _ => None
  end.

(** [sorted(d.items())]: the keys of a dict are distinct, so values are not compared *)
Fixpoint insert_item {A} (x : string * A) (l : list (string * A)) : list (string * A) :=
  match l with
  | [] => [x]
  | y :: l' => if String.ltb x.1 y.1 then x :: l else y :: insert_item x l'
  end.

Definition sort_items {A} (d : list (string * A)) : list (string * A) :=
  fold_left (fun acc x => insert_item x acc) d [].

Lemma insert_item_perm {A} (x : string * A) l : insert_item x l ≡ₚ x :: l.
Proof.
  induction l as [|y l IH]; simpl; [done|]. destruct (String.ltb x.1 y.1); [done|].
  rewrite IH. apply Permutation_swap.
Qed.

Lemma sort_items_perm {A} (d : list (string * A)) : sort_items d ≡ₚ d.
Proof.
  unfold sort_items. assert (forall acc, fold_left (fun acc x => insert_item x acc) d acc ≡ₚ d ++ acc) as H.
  { induction d as [|x d IH]; intros acc; simpl; [done|]. rewrite IH, insert_item_perm.
    by rewrite <- Permutation_middle. }
  rewrite H. by rewrite app_nil_r.
Qed.

(** The order [sort_keys=True] writes a value in. *)
Fixpoint sort_keys (v : pyval) : pyval :=
  match v with
  | PList l => PList (map sort_keys l)
  | PTuple l => PTuple (map sort_keys l)
  | PDict d => PDict (sort_items (map (fun kv => (kv.1, sort_keys kv.2)) d))
  | v => v
  end.

Definition not_serializable : exn := TypeError "Object is not JSON serializable".

(** [json.dumps(v, sort_keys=sort, separators=(isep, ksep))] *)
Definition dumps_with (sort : bool) (isep ksep : string) (v : pyval) : res string :=
  match render isep ksep (if sort then sort_keys v else v) with
  | Some t => Ok t
  | None => Raise not_serializable
  end.

(** [json.dumps(v, sort_keys=True, separators=(",", ":"))] *)
Definition dumps_compact (v : pyval) : res string := dumps_with true "," ":" v.

(** [json.dumps(v, sort_keys=True)] *)
Definition dumps_sorted (v : pyval) : res string := dumps_with true ", " ": " v.

(** ** What the text does not keep *)

(** Tuples are written as lists. *)
Fixpoint untuple (v : pyval) : pyval :=
  match v with
  | PList l | PTuple l => PList (map untuple l)
  | PDict d => PDict (map (fun kv => (kv.1, untuple kv.2)) d)
  | v => v
  end.

(** No floating-point number occurs. *)
Fixpoint float_free (v : pyval) : bool :=
  match v with
  | PFloat _ _ => false
  | PList l | PTuple l => forallb float_free l
  | PDict d => forallb (fun kv => float_free kv.2) d
  | _ => true
  end.

(** Induction that reaches the members of lists and dicts. *)
Section Induction.
Context (P : pyval -> Prop).
Hypothesis (HNone : P PNone) (HBool : forall b, P (PBool b)) (HInt : forall z, P (PInt z))
  (HFloat : forall m e, P (PFloat m e)) (HStr : forall s, P (PStr s))
  (HList : forall l, Forall P l -> P (PList l)) (HTuple : forall l, Forall P l -> P (PTuple l))
  (HDict : forall d : pydict, Forall (fun kv => P kv.2) d -> P (PDict d))
  (HErr : forall s c m x e, P (PErr s c m x e)).

Fixpoint pyval_nested_ind (v : pyval) : P v :=
  let fix list_ind (l : list pyval) : Forall P l :=
    match l with
    | [] => Forall_nil_2 _
    | x :: l' => Forall_cons_2 _ _ _ (pyval_nested_ind x) (list_ind l')
    end in
  let fix dict_ind (d : pydict) : Forall (fun kv => P kv.2) d :=
    match d with
    | [] => Forall_nil_2 _
    | kv :: d' => Forall_cons_2 _ _ _ (pyval_nested_ind kv.2) (dict_ind d')
    end in
  match v with
  | PNone => HNone
  | PBool b => HBool b
  | PInt z => HInt z
  | PFloat m e => HFloat m e
  | PStr s => HStr s
  | PList l => HList l (list_ind l)
  | PTuple l => HTuple l (list_ind l)
  | PDict d => HDict d (dict_ind d)
  | PErr s c m x e => HErr s c m x e
  end.
End Induction.

(** ** The text determines the value *)

Definition hex_val (c : ascii) : nat :=
  let n := nat_of_ascii c in if (n <? 58)%nat then n - 48 else n - 87.

(** Reading one escaped character back. *)
Definition decode1 (s : string) : option (ascii * string) :=
  match s with
  | EmptyString => None
  | String c x =>
      if decide (c = dquote) then None
      else if decide (c = "\"%char) then
        match x with
        | EmptyString => None
        | String e y =>
            match nat_of_ascii e with
            | 110 => Some (ascii_of_nat 10, y)
            | 114 => Some (ascii_of_nat 13, y)
            | 116 => Some (ascii_of_nat 9, y)
            | 102 => Some (ascii_of_nat 12, y)
            | 98 => Some (ascii_of_nat 8, y)
            | 117 => match y with
                     | String _ (String _ (String h (String l z))) =>
                         Some (ascii_of_nat (16 * hex_val h + hex_val l), z)
                     | _ => None
                     end
            | _ => Some (e, y)
            end
        end
      else Some (c, x)
  end.

Lemma decode1_escape c x : decode1 (escape_char c +:+ x) = Some (c, x).
Proof. destruct c as [[] [] [] [] [] [] [] []]; reflexivity. Qed.

Lemma escape_inj s s' r r' :
  escape s +:+ String dquote r = escape s' +:+ String dquote r' -> s = s' /\ r = r'.
Proof.
  revert s'. induction s as [|c s IH]; intros [|c' s']; simpl.
  - by intros [= ->].
  - intros H%(f_equal decode1). rewrite append_assoc, decode1_escape in H. discriminate.
  - intros H%(f_equal decode1). rewrite append_assoc, decode1_escape in H. discriminate.
  - intros H. rewrite !append_assoc in H. apply (f_equal decode1) in H.
    rewrite !decode1_escape in H. injection H as <- H. apply IH in H as [-> ->]. done.
Qed.

Lemma quoted_inj s s' r r' : quoted s +:+ r = quoted s' +:+ r' -> s = s' /\ r = r'.
Proof.
  unfold quoted. rewrite !append_assoc. simpl. intros [= H]. by apply escape_inj.
Qed.

(** *** Numbers *)

Definition num_char (c : ascii) : bool := PyStr.is_digit c || bool_decide (c = "-"%char).

(** What may follow a value: no character of a number. *)
Definition delimited (r : string) : Prop :=
  match r with EmptyString => True | String c _ => num_char c = false end.

Fixpoint all_num (s : string) : bool :=
  match s with EmptyString => true | String c s' => num_char c && all_num s' end.

Lemma all_num_inj s s' r r' :
  all_num s = true -> all_num s' = true -> delimited r -> delimited r' ->
  s +:+ r = s' +:+ r' -> s = s' /\ r = r'.
Proof.
  revert s'. induction s as [|c s IH]; intros [|c' s']; simpl; intros Hs Hs' Hr Hr' H.
  - done.
  - rewrite append_empty_l in H. subst r. simpl in Hr. apply andb_true_iff in Hs' as [Hc _]. congruence.
  - rewrite append_empty_l in H. subst r'. simpl in Hr'. apply andb_true_iff in Hs as [Hc _]. congruence.
  - apply andb_true_iff in Hs as [_ Hs], Hs' as [_ Hs']. injection H as <- H.
    by destruct (IH s' Hs Hs' Hr Hr' H) as [-> ->].
Qed.

Lemma pretty_N_char_num x : (x < 10)%N -> num_char (pretty_N_char x) = true.
Proof. intros Hx. destruct x as [|[[[[]|[]|]|[[]|[]|]|]|[[[]|[]|]|[[]|[]|]|]|]]; try done; lia. Qed.

Lemma all_num_go x s : all_num s = true -> all_num (pretty_N_go x s) = true.
Proof.
  revert s. induction (N.lt_wf_0 x) as [x _ IH]; intros s Hs.
  destruct (decide (0 < x)%N) as [Hx|Hx].
  - rewrite pretty_N_go_step by done. apply IH; [apply N.div_lt; lia|]. simpl. rewrite Hs, andb_true_r.
    apply pretty_N_char_num, N.mod_lt. done.
  - replace x with 0%N by lia. by rewrite pretty_N_go_0.
Qed.

Lemma all_num_pretty (z : Z) : all_num (pretty z) = true.
Proof.
  assert (forall n : N, all_num (pretty n) = true) as HN.
  { intros n. unfold pretty, pretty_N. case_decide; [done|]. by apply all_num_go. }
  destruct z; unfold pretty, pretty_Z; [done|apply HN|]. simpl. apply HN.
Qed.

Lemma pretty_nonempty (z : Z) : exists c s, pretty z = String c s.
Proof.
  assert (forall n : N, exists c s, pretty n = String c s) as HN.
  { intros n. unfold pretty, pretty_N. case_decide; [by eexists _, _|].
    rewrite pretty_N_go_step by lia. generalize (n `div` 10)%N as m.
    assert (forall m s, (exists c t, s = String c t) -> exists c t, pretty_N_go m s = String c t) as Hgo.
    { intros m. induction (N.lt_wf_0 m) as [m _ IH]; intros s Hs.
      destruct (decide (0 < m)%N) as [Hm|Hm].
      - rewrite pretty_N_go_step by done. apply IH; [apply N.div_lt; lia|eauto].
      - replace m with 0%N by lia. by rewrite pretty_N_go_0. }
    intros m. apply Hgo. eauto. }
  destruct z; unfold pretty, pretty_Z; [by eexists _, _|apply HN|by eexists _, _].
Qed.

(** *** Sequences of items *)

(** The kind of value a text starts, and 7 for the delimiters. *)
Definition shape_of_char (c : ascii) : nat :=
  if num_char c then 3
  else match nat_of_ascii c with
       | 110 => 0 | 116 => 1 | 102 => 2 | 34 => 4 | 91 => 5 | 123 => 6 | _ => 7
       end.

Definition starts (k : nat) (t : string) : Prop :=
  exists c s, t = String c s /\ shape_of_char c = k.

Section Items.
Context {A B : Type} (f : A -> option string) (g : A -> B) (ok : A -> bool).

(** The text of [a] is read back in one way, whatever follows it. *)
Definition readable (a : A) : Prop :=
  forall a' t t' r r', ok a = true -> ok a' = true -> f a = Some t -> f a' = Some t' ->
    delimited r -> delimited r' -> t +:+ r = t' +:+ r' -> g a = g a' /\ r = r'.

Hypothesis item_starts : forall a t, ok a = true -> f a = Some t -> exists k, (k < 7)%nat /\ starts k t.

Lemma all_some_cons l x ts :
  all_some (map f (x :: l)) = Some ts ->
  exists t ts', f x = Some t /\ all_some (map f l) = Some ts' /\ ts = t :: ts'.
Proof.
  simpl. destruct (f x); [|done]. destruct (all_some (map f l)) eqn:H; [|done].
  intros [= <-]. eauto.
Qed.

(** The rest of the items after a first one. *)
Definition tail_text (ts : list string) : string :=
  match ts with [] => "" | _ => "," +:+ PyStr.join "," ts end.

Lemma join_tail t ts : PyStr.join "," (t :: ts) = t +:+ tail_text ts.
Proof. destruct ts; simpl; [by rewrite append_empty_r|done]. Qed.

Lemma tail_delimited ts c r : num_char c = false -> delimited (tail_text ts +:+ String c r).
Proof. intros Hc. by destruct ts. Qed.

Lemma items_inj cl l l' ts ts' r r' :
  shape_of_char cl = 7 -> cl <> ","%char ->
  Forall readable l -> forallb ok l = true -> forallb ok l' = true ->
  all_some (map f l) = Some ts -> all_some (map f l') = Some ts' ->
  PyStr.join "," ts +:+ String cl r = PyStr.join "," ts' +:+ String cl r' ->
  map g l = map g l' /\ r = r'.
Proof.
  intros Hcl Hne Hl Hok Hok' Hts Hts'.
  assert (num_char cl = false) as Hnum by (unfold shape_of_char in Hcl; by destruct (num_char cl)).
  assert (forall a t s, ok a = true -> f a = Some t -> t +:+ s <> String cl r /\ t +:+ s <> String cl r')
    as Hstart.
  { intros a t s Hoka Ha. destruct (item_starts a t Hoka Ha) as (k & Hk & c & u & -> & Hc). simpl.
    split; intros [= -> _]; lia. }
  revert l' ts ts' Hl Hok Hok' Hts Hts'. induction l as [|x l IH]; intros l' ts ts' Hl Hok Hok' Hts Hts'.
  - injection Hts as <-. destruct l' as [|x' l'].
    + injection Hts' as <-. simpl. by intros [= ->].
    + apply all_some_cons in Hts' as (t & ts2 & Ht & _ & ->). rewrite join_tail, append_assoc.
      simpl in Hok'. apply andb_true_iff in Hok' as [Hokx' _].
      simpl. intros H. symmetry in H. by apply (Hstart _ _ _ Hokx' Ht) in H.
  - apply all_some_cons in Hts as (t & ts2 & Ht & Hts & ->). rewrite join_tail, append_assoc.
    apply Forall_cons in Hl as [Hx Hl]. simpl in Hok. apply andb_true_iff in Hok as [Hokx Hok].
    destruct l' as [|x' l'].
    + injection Hts' as <-. simpl. intros H. by apply (Hstart _ _ _ Hokx Ht) in H.
    + apply all_some_cons in Hts' as (t' & ts3 & Ht' & Hts' & ->). rewrite join_tail, append_assoc.
      simpl in Hok'. apply andb_true_iff in Hok' as [Hokx' Hok']. intros H.
      destruct (Hx x' t t' _ _ Hokx Hokx' Ht Ht' (tail_delimited _ _ _ Hnum)
                  (tail_delimited _ _ _ Hnum) H) as [Hg Htail].
      destruct l as [|y l], l' as [|y' l'].
      * injection Hts as <-. injection Hts' as <-. simpl in Htail. injection Htail as ->.
        simpl. by rewrite Hg.
      * injection Hts as <-. apply all_some_cons in Hts' as (? & ? & _ & _ & ->).
        cbn [tail_text] in Htail. rewrite !append_cons in Htail. by injection Htail.
      * injection Hts' as <-. apply all_some_cons in Hts as (? & ? & _ & _ & ->).
        cbn [tail_text] in Htail. rewrite !append_cons in Htail. by injection Htail.
      * destruct (all_some_cons _ _ _ Hts) as (u & us & _ & _ & ->).
        destruct (all_some_cons _ _ _ Hts') as (u' & us' & _ & _ & ->).
        cbn [tail_text] in Htail. rewrite !append_cons, !append_empty_l in Htail. injection Htail as Htail.
        destruct (IH (y' :: l') _ _ Hl Hok Hok' Hts Hts' Htail) as [Hmap ->].
        split; [|done]. cbn [map] in *. by rewrite Hg, Hmap.
Qed.
End Items.

(** *** Values *)

Abbreviation compact := (render "," ":").

Definition shape (v : pyval) : nat :=
  match v with
  | PNone => 0
  | PBool true => 1
  | PBool false => 2
  | PInt _ | PFloat _ _ => 3
  | PStr _ => 4
  | PList _ | PTuple _ => 5
  | PDict _ => 6
  | PErr _ _ _ _ _ => 7
  end.

Lemma render_starts v t : float_free v = true -> compact v = Some t -> starts (shape v) t.
Proof.
  destruct v as [|[]|z|m e|s|l|l|d|]; simpl; intros Hf Ht; try discriminate;
    repeat case_match; simplify_eq; try (eexists _, _; split; reflexivity).
  destruct (pretty_nonempty z) as (c & s & Hz). exists c, s. split; [done|].
  pose proof (all_num_pretty z) as Hn. rewrite Hz in Hn. simpl in Hn.
  apply andb_true_iff in Hn as [Hc _]. unfold shape_of_char. by rewrite Hc.
Qed.

Lemma shape_small v t : compact v = Some t -> (shape v < 7)%nat.
Proof. destruct v as [|[]| | | | | | |]; simpl; intros H; try lia; discriminate. Qed.

Lemma starts_eq t t' r r' k k' :
  starts k t -> starts k' t' -> t +:+ r = t' +:+ r' -> k = k'.
Proof. intros (c & s & -> & <-) (c' & s' & -> & <-). by intros [= -> _]. Qed.

(** The members of a list or tuple, and of a dict. *)
Definition members (v : pyval) : option (list pyval) :=
  match v with PList l | PTuple l => Some l | _ => None end.

Definition item_text (kv : string * pyval) : option string :=
  match compact kv.2 with Some t => Some (quoted kv.1 +:+ ":" +:+ t) | None => None end.

Lemma compact_members v l t :
  members v = Some l -> compact v = Some t ->
  exists ts, all_some (map compact l) = Some ts /\ t = "[" +:+ PyStr.join "," ts +:+ "]".
Proof.
  destruct v; simpl; intros; simplify_eq; destruct (all_some (map compact l)); simplify_eq; eauto.
Qed.

Lemma compact_dict d t :
  compact (PDict d) = Some t ->
  exists ts, all_some (map item_text d) = Some ts /\ t = "{" +:+ PyStr.join "," ts +:+ "}".
Proof.
  simpl. change (fun kv => match compact kv.2 with Some t0 => _ | None => _ end) with item_text.
  destruct (all_some (map item_text d)); intros; simplify_eq; eauto.
Qed.

Lemma item_starts_text (kv : string * pyval) t :
  float_free kv.2 = true -> item_text kv = Some t -> exists k, (k < 7)%nat /\ starts k t.
Proof.
  unfold item_text. intros _. case_match; intros; simplify_eq. exists 4. split; [lia|].
  by eexists _, _.
Qed.

Lemma read_members v v' l l' t t' r r' :
  members v = Some l -> members v' = Some l' -> Forall (readable compact untuple float_free) l ->
  forallb float_free l = true -> forallb float_free l' = true ->
  compact v = Some t -> compact v' = Some t' -> t +:+ r = t' +:+ r' ->
  map untuple l = map untuple l' /\ r = r'.
Proof.
  intros Hl Hl' IH Hok Hok' (ts & Hts & ->)%(compact_members v l t Hl)
    (ts' & Hts' & ->)%(compact_members v' l' t' Hl'). rewrite !append_assoc. simpl. intros [= Heq].
  rewrite ?append_assoc in Heq.
  assert (forall a u, float_free a = true -> compact a = Some u ->
    exists k, (k < 7)%nat /\ starts k u) as Hstart.
  { intros a u Ha Hu. exists (shape a). split; [by eapply shape_small|by apply render_starts]. }
  by apply (items_inj compact untuple float_free Hstart "]"%char l l' ts ts' r r').
Qed.

Lemma read_item kv :
  readable compact untuple float_free kv.2 ->
  readable item_text (fun kv => (kv.1, untuple kv.2)) (fun kv => float_free kv.2) kv.
Proof.
  intros IH kv' t t' r r' Hok Hok' Ht Ht' Hr Hr' Heq. unfold item_text in *.
  destruct (compact kv.2) as [u|] eqn:Hu; [|done]. destruct (compact kv'.2) as [u'|] eqn:Hu'; [|done].
  assert (t = quoted kv.1 +:+ ":" +:+ u) as -> by congruence.
  assert (t' = quoted kv'.1 +:+ ":" +:+ u') as -> by congruence.
  rewrite !append_assoc in Heq. apply quoted_inj in Heq as [-> Heq].
  simpl in Heq. injection Heq as Heq.
  destruct (IH _ _ _ _ _ Hok Hok' Hu Hu' Hr Hr' Heq) as [-> ->]. done.
Qed.

Lemma read_value v : readable compact untuple float_free v.
Proof.
  induction v as [|b|z|m e|s|l IH|l IH|d IH|] using pyval_nested_ind;
    intros v' t t' r r' Hok Hok' Ht Ht' Hr Hr' Heq; try discriminate;
    pose proof (starts_eq _ _ _ _ _ _ (render_starts _ _ Hok Ht) (render_starts _ _ Hok' Ht') Heq) as Hsh.
  - destruct v' as [|[]| | | | | | |]; try discriminate. simpl in Ht, Ht'. by simplify_eq.
  - destruct b, v' as [|[]| | | | | | |]; try discriminate; simpl in Ht, Ht'; by simplify_eq.
  - destruct v' as [|[]|z'| | | | | |]; try discriminate. simpl in Ht, Ht'. simplify_eq.
    destruct (all_num_inj _ _ _ _ (all_num_pretty z) (all_num_pretty z') Hr Hr' Heq) as [Hz ->].
    apply (inj pretty) in Hz. by subst.
  - destruct v' as [|[]| | | | | | |]; try discriminate. cbn [render] in Ht, Ht'.
    injection Ht as <-. injection Ht' as <-. by apply quoted_inj in Heq as [-> ->].
  - destruct v' as [|[]| | | |l'|l'| |] eqn:E; try discriminate;
      destruct (read_members (PList l) v' l l' t t' r r') as [Hm ->]; subst; try done; simpl; by rewrite Hm.
  - destruct v' as [|[]| | | |l'|l'| |] eqn:E; try discriminate;
      destruct (read_members (PTuple l) v' l l' t t' r r') as [Hm ->]; subst; try done; simpl; by rewrite Hm.
  - destruct v' as [|[]| | | | | |d'|]; try discriminate.
    apply compact_dict in Ht as (ts & Hts & ->), Ht' as (ts' & Hts' & ->).
    rewrite ?append_assoc in Heq. simpl in Heq. injection Heq as Heq. rewrite ?append_assoc in Heq.
    assert (Forall (readable item_text (fun kv => (kv.1, untuple kv.2)) (fun kv => float_free kv.2)) d)
      as Hitems by (eapply Forall_impl; [exact IH|]; apply read_item).
    destruct (items_inj _ _ _ item_starts_text "}"%char d d' ts ts' r r' eq_refl ltac:(done) Hitems
                Hok Hok' Hts Hts' Heq) as [Hm ->].
    simpl. by rewrite Hm.
Qed.

(** The compact text of a value without floating-point numbers determines it, up
    to tuples, which are written as lists. *)
Lemma render_inj v v' t :
  float_free v = true -> float_free v' = true -> compact v = Some t -> compact v' = Some t ->
  untuple v = untuple v'.
Proof. intros Hf Hf' Ht Ht'. by apply (read_value v v' t t "" "" Hf Hf' Ht Ht' I I). Qed.

End Json.
