(* ===== verification/Sha256.v ===== *)
(** * SHA-256

    [hashlib.sha256(text.encode("utf-8")).hexdigest()] of the standard library, on
    ASCII text: 32-bit words are integers below [2^32] with their wrap-around
    written out, the message is processed in blocks of sixteen words. *)

From stdpp Require Import base list strings.
From Stdlib Require Import Ascii ZArith Lia.
From S2P Require Import Prelude PyVal.

Module Sha256.
Local Open Scope Z_scope.

Definition word_mod : Z := 2 ^ 32.
Definition wrap (x : Z) : Z := x mod word_mod.
Definition wadd (x y : Z) : Z := wrap (x + y).
Definition rotr (n x : Z) : Z := Z.lor (Z.shiftr x n) (wrap (Z.shiftl x (32 - n))).
Definition wnot (x : Z) : Z := word_mod - 1 - x.

Definition choose (e f g : Z) : Z := Z.lxor (Z.land e f) (Z.land (wnot e) g).
Definition majority (a b c : Z) : Z := Z.lxor (Z.lxor (Z.land a b) (Z.land a c)) (Z.land b c).
Definition xor3 (x y z : Z) : Z := Z.lxor (Z.lxor x y) z.
Definition big0 (x : Z) : Z := xor3 (rotr 2 x) (rotr 13 x) (rotr 22 x).
Definition big1 (x : Z) : Z := xor3 (rotr 6 x) (rotr 11 x) (rotr 25 x).
Definition small0 (x : Z) : Z := xor3 (rotr 7 x) (rotr 18 x) (Z.shiftr x 3).
Definition small1 (x : Z) : Z := xor3 (rotr 17 x) (rotr 19 x) (Z.shiftr x 10).

(** The round constants, in decimal. *)
Definition round_constants : list Z := [
  1116352408; 1899447441; 3049323471; 3921009573; 961987163; 1508970993;
  2453635748; 2870763221; 3624381080; 310598401; 607225278; 1426881987;
  1925078388; 2162078206; 2614888103; 3248222580; 3835390401; 4022224774;
  264347078; 604807628; 770255983; 1249150122; 1555081692; 1996064986;
  2554220882; 2821834349; 2952996808; 3210313671; 3336571891; 3584528711;
  113926993; 338241895; 666307205; 773529912; 1294757372; 1396182291;
  1695183700; 1986661051; 2177026350; 2456956037; 2730485921; 2820302411;
  3259730800; 3345764771; 3516065817; 3600352804; 4094571909; 275423344;
  430227734; 506948616; 659060556; 883997877; 958139571; 1322822218;
  1537002063; 1747873779; 1955562222; 2024104815; 2227730452; 2361852424;
  2428436474; 2756734187; 3204031479; 3329325298].

Record digest := Digest { h0 : Z; h1 : Z; h2 : Z; h3 : Z; h4 : Z; h5 : Z; h6 : Z; h7 : Z }.

Definition initial : digest :=
  Digest 1779033703 3144134277 1013904242 2773480762 1359893119 2600822924 528734635 1541459225.

(** One round on the working variables. *)
Definition round (d : digest) (kw : Z * Z) : digest :=
  let t1 := wadd (wadd (wadd (h7 d) (big1 (h4 d))) (choose (h4 d) (h5 d) (h6 d))) (wadd kw.1 kw.2) in
  let t2 := wadd (big0 (h0 d)) (majority (h0 d) (h1 d) (h2 d)) in
  Digest (wadd t1 t2) (h0 d) (h1 d) (h2 d) (wadd (h3 d) t1) (h4 d) (h5 d) (h6 d).

(** The message schedule: [window] holds the last sixteen words, the oldest first. *)
Fixpoint schedule (n : nat) (window : list Z) : list Z :=
  match n, window with
  | O, _ => window
  | S n', w0 :: rest =>
      let next := wadd (wadd (small1 (nth 14 window 0)) (nth 9 window 0))
                       (wadd (small0 (nth 1 window 0)) w0) in
      w0 :: schedule n' (rest ++ [next])
  | S _, [] => []
  end.

Definition add_digest (a b : digest) : digest :=
  Digest (wadd (h0 a) (h0 b)) (wadd (h1 a) (h1 b)) (wadd (h2 a) (h2 b)) (wadd (h3 a) (h3 b))
         (wadd (h4 a) (h4 b)) (wadd (h5 a) (h5 b)) (wadd (h6 a) (h6 b)) (wadd (h7 a) (h7 b)).

Definition compress (d : digest) (block : list Z) : digest :=
  add_digest d (fold_left round (zip round_constants (schedule 48 block)) d).

(** Big-endian words of four bytes, and blocks of sixteen words. *)
Fixpoint words (bytes : list Z) : list Z :=
  match bytes with
  | a :: b :: c :: d :: rest => (((a * 256 + b) * 256 + c) * 256 + d) :: words rest
  | _ => []
  end.

Fixpoint blocks (n : nat) (ws : list Z) : list (list Z) :=
  match n with O => [] | S n' => take 16 ws :: blocks n' (drop 16 ws) end.

(** The eight bytes of a 64-bit length. *)
Definition length_bytes (bits : Z) : list Z :=
  map (fun i => Z.shiftr bits (8 * i) mod 256) [7; 6; 5; 4; 3; 2; 1; 0].

(** The number of zero bytes between the end marker and the length. *)
Definition pad_zeros (len : Z) : nat := Z.to_nat ((55 - len) mod 64).

Definition padded (msg : list Z) : list Z :=
  let len := Z.of_nat (length msg) in
  msg ++ 128 :: replicate (pad_zeros len) 0 ++ length_bytes (8 * len).

Definition sha256 (msg : list Z) : digest :=
  let ws := words (padded msg) in
  fold_left compress (blocks (length ws / 16) ws) initial.

(** [text.encode("utf-8")] of ASCII text *)
Definition encode (s : string) : list Z :=
  map (fun c => Z.of_nat (nat_of_ascii c)) (String.list_ascii_of_string s).

(** The eight hexadecimal digits of a word. *)
Definition hex_word (w : Z) : list ascii :=
  map (fun i => hex_digit (Z.to_nat (Z.shiftr w (4 * i) mod 16))) [7; 6; 5; 4; 3; 2; 1; 0].

Definition digest_words (d : digest) : list Z := [h0 d; h1 d; h2 d; h3 d; h4 d; h5 d; h6 d; h7 d].

(** [hashlib.sha256(text.encode("utf-8")).hexdigest()] *)
Definition hexdigest (text : string) : string :=
  String.string_of_list_ascii (mjoin (map hex_word (digest_words (sha256 (encode text))))).

(** ** Facts *)

Example sha256_abc :
  hexdigest "abc" = "ba7816bf8f01cfea414140de5dae2223b00361a396177a9cb410ff61f20015ad".
Proof. vm_compute. reflexivity. Qed.

Example sha256_two_blocks :
  hexdigest "abcdbcdecdefdefgefghfghighijhijkijkljklmklmnlmnomnopnopq"
  = "248d6a61d20638b8e5c026930c3e6039a33ce45964ff2167f6ecedd419db06c1".
Proof. vm_compute. reflexivity. Qed.

(** Padding fills whole blocks. *)
Lemma padded_blocks msg : (Z.of_nat (length (padded msg))) mod 64 = 0.
Proof.
  unfold padded, length_bytes. rewrite length_app. cbn [length]. rewrite length_app, length_replicate.
  cbn [length map]. unfold pad_zeros. set (n := Z.of_nat (length msg)).
  pose proof (Z.mod_pos_bound (55 - n) 64 ltac:(lia)).
  replace (Z.of_nat _) with (n + 9 + (55 - n) mod 64) by (unfold n in *; lia).
  rewrite Zplus_mod_idemp_r. replace (n + 9 + (55 - n)) with 64 by lia. done.
Qed.

Lemma hexdigest_length text : String.length (hexdigest text) = 64%nat.
Proof.
  assert (forall l, String.length (String.string_of_list_ascii l) = length l) as Hl
    by (intros l; induction l as [|c l IH]; simpl; [done|by rewrite IH]).
  unfold hexdigest. by rewrite Hl.
Qed.

Lemma hexdigest_nonempty text : hexdigest text <> "".
Proof. intros H. pose proof (hexdigest_length text) as Hl. by rewrite H in Hl. Qed.

(** Two texts with one digest. *)
Definition collision (s t : string) : Prop := s <> t /\ hexdigest s = hexdigest t.
End Sha256.
