(* ===== verification/Timestamps.v ===== *)
(** * Timestamps

    The part of [datetime] of the standard library that the controllers use:
    instants in UTC, RFC 3339 text and back.  An instant is the number of
    microseconds since 1970-01-01T00:00:00Z; the calendar is the proleptic
    Gregorian one.  [fromisoformat] reads the extended format
    [YYYY-MM-DD[?HH[:MM[:SS[.ffffff]]][+HH:MM[:SS]]]]; the basic and week-date
    forms that recent versions also accept are not modelled. *)

From stdpp Require Import base list strings.
From Stdlib Require Import Ascii ZArith Lia.
From S2P Require Import Prelude PyVal.

Module Timestamps.
Local Open Scope Z_scope.

(** ** The calendar *)

Definition is_leap (y : Z) : bool :=
  (y mod 4 =? 0) && (negb (y mod 100 =? 0) || (y mod 400 =? 0)).

Definition days_in_month (y m : Z) : Z :=
  if m =? 2 then if is_leap y then 29 else 28
  else if (m =? 4) || (m =? 6) || (m =? 9) || (m =? 11) then 30 else 31.

(** Days since the epoch of a date; years start in March inside. *)
Definition days_of_date (y m d : Z) : Z :=
  let y' := if m <=? 2 then y - 1 else y in
  let yoe := y' mod 400 in
  let doy := (153 * (if m <=? 2 then m + 9 else m - 3) + 2) / 5 + d - 1 in
  y' / 400 * 146097 + (yoe * 365 + yoe / 4 - yoe / 100 + doy) - 719468.

(** The date of a day inside a 400-year cycle that starts in March. *)
Definition date_in_era (doe : Z) : Z * Z * Z :=
  let yoe := (doe - doe / 1460 + doe / 36524 - doe / 146096) / 365 in
  let doy := doe - (365 * yoe + yoe / 4 - yoe / 100) in
  let mp := (5 * doy + 2) / 153 in
  let d := doy - (153 * mp + 2) / 5 + 1 in
  let m := if mp <? 10 then mp + 3 else mp - 9 in
  ((if m <=? 2 then yoe + 1 else yoe), m, d).

Definition date_of_days (days : Z) : Z * Z * Z :=
  let z := days + 719468 in
  let '(y, m, d) := date_in_era (z mod 146097) in (y + 400 * (z / 146097), m, d).

Definition valid_date (y m d : Z) : bool :=
  (1 <=? y) && (y <=? 9999) && (1 <=? m) && (m <=? 12) && (1 <=? d) && (d <=? days_in_month y m).

(** ** Text *)

Fixpoint fixed_digits (w : nat) (n : Z) : string :=
  match w with
  | O => ""
  | S w' => fixed_digits w' (n / 10) +:+ char_str (ascii_of_nat (48 + Z.to_nat (n mod 10)))
  end.

(** Reading [w] digits. *)
Fixpoint read_digits (w : nat) (acc : Z) (s : string) : option (Z * string) :=
  match w, s with
  | O, _ => Some (acc, s)
  | S w', String c s' =>
      if PyStr.is_digit c then read_digits w' (10 * acc + (Z.of_nat (nat_of_ascii c) - 48)) s' else None
  | S _, EmptyString => None
  end.

Definition second : Z := 1000000.
Definition day : Z := 86400.

(** [value.replace(microsecond=0).isoformat()] with the UTC offset written [Z] *)
Definition rfc3339 (t : Z) : string :=
  let s := t / second in
  let '(y, m, d) := date_of_days (s / day) in
  let r := s mod day in
  fixed_digits 4 y +:+ "-" +:+ fixed_digits 2 m +:+ "-" +:+ fixed_digits 2 d +:+ "T" +:+
  fixed_digits 2 (r / 3600) +:+ ":" +:+ fixed_digits 2 (r / 60 mod 60) +:+ ":" +:+
  fixed_digits 2 (r mod 60) +:+ "Z".

(** A character that must come next. *)
Definition expect (c : ascii) (s : string) : option string :=
  match s with String x s' => if decide (x = c) then Some s' else None | EmptyString => None end.

(** [HH:MM[:SS[.f+]]] as microseconds, with what follows *)
Fixpoint read_fraction (scale acc : Z) (s : string) : Z * string :=
  match s with
  | String c s' => if PyStr.is_digit c
                   then read_fraction (scale / 10) (acc + scale * (Z.of_nat (nat_of_ascii c) - 48)) s'
                   else (acc, s)
  | EmptyString => (acc, s)
  end.

Definition read_time (s : string) : option (Z * string) :=
  '(hh, s) ← read_digits 2 0 s;
  match expect ":" s with
  | None => if hh <=? 23 then Some (hh * 3600 * second, s) else None
  | Some s =>
      '(mm, s) ← read_digits 2 0 s;
      match expect ":" s with
      | None => if (hh <=? 23) && (mm <=? 59) then Some ((hh * 3600 + mm * 60) * second, s) else None
      | Some s =>
          '(ss, s) ← read_digits 2 0 s;
          if (hh <=? 23) && (mm <=? 59) && (ss <=? 59) then
            let base := (hh * 3600 + mm * 60 + ss) * second in
            match expect "." s with
            | None => Some (base, s)
            | Some (String c s') =>
                if PyStr.is_digit c then let '(f, r) := read_fraction 100000 0 (String c s') in Some (base + f, r)
                else None
            | Some EmptyString => None
            end
          else None
      end
  end.

(** The offset from UTC at the end of the text; none is UTC for the callers. *)
Definition read_offset (s : string) : option Z :=
  match s with
  | EmptyString => Some 0
  | String c s' =>
      if decide (c = "+"%char) then '(o, r) ← read_time s'; if PyStr.nonempty r then None else Some o
      else if decide (c = "-"%char) then '(o, r) ← read_time s'; if PyStr.nonempty r then None else Some (- o)
      else None
  end.

(** [datetime.fromisoformat(text)], as an instant *)
Definition fromisoformat (s : string) : option Z :=
  '(y, s) ← read_digits 4 0 s; s ← expect "-" s;
  '(m, s) ← read_digits 2 0 s; s ← expect "-" s;
  '(d, s) ← read_digits 2 0 s;
  if valid_date y m d then
    let base := days_of_date y m d * day * second in
    match s with
    | EmptyString => Some base
    | String _ s' =>
        '(tm, s') ← read_time s';
        off ← read_offset s';
        Some (base + tm - off)
    end
  else None.

(** [text.replace("Z", "+00:00")] *)
Fixpoint replace_z (s : string) : string :=
  match s with
  | EmptyString => ""
  | String c s' => if decide (c = "Z"%char) then "+00:00" +:+ replace_z s' else String c (replace_z s')
  end.

(** [_parse_rfc3339(text)] of the endpoint controller *)
Definition parse_rfc3339 (v : pyval) : option Z :=
  match v with
  | PStr s => if PyStr.nonempty s then fromisoformat (replace_z s) else None
  | _ => None
  end.

Example epoch_text : rfc3339 0 = "1970-01-01T00:00:00Z".
Proof. reflexivity. Qed.
Example leap_day : rfc3339 1709210096999999 = "2024-02-29T12:34:56Z".
Proof. reflexivity. Qed.
Example parse_offset : parse_rfc3339 (PStr "2024-02-29T14:34:56.25+02:00") = Some 1709210096250000.
Proof. reflexivity. Qed.
Example parse_bad_day : parse_rfc3339 (PStr "2023-02-29T00:00:00Z") = None.
Proof. reflexivity. Qed.

(** ** Text and back *)

(** The day of the year, inside a 400-year cycle, and leap days. *)
Lemma era_year doe :
  0 <= doe < 146097 ->
  let yoe := (doe - doe / 1460 + doe / 36524 - doe / 146096) / 365 in
  let doy := doe - (365 * yoe + yoe / 4 - yoe / 100) in
  0 <= yoe < 400 /\ 0 <= doy <= 365 /\ (doy = 365 -> is_leap (yoe + 1) = true).
Proof.
  intros H yoe doy. unfold is_leap.
  assert (doy = 365 -> (yoe + 1) mod 4 = 0 /\ ((yoe + 1) mod 100 <> 0 \/ (yoe + 1) mod 400 = 0)) as Hleap
    by (subst doy yoe; Z.to_euclidean_division_equations; lia).
  split; [subst yoe; Z.to_euclidean_division_equations; lia|].
  split; [subst doy yoe; Z.to_euclidean_division_equations; lia|]. intros E.
  destruct (Hleap E). lia.
Qed.

(** Month and day of a day of the year that starts in March. *)
Lemma month_day doy :
  0 <= doy <= 365 ->
  let mp := (5 * doy + 2) / 153 in
  let d := doy - (153 * mp + 2) / 5 + 1 in
  let m := if mp <? 10 then mp + 3 else mp - 9 in
  1 <= m <= 12 /\ 1 <= d <= 31 /\ (m = 2 -> d <= 29) /\ (m = 2 -> d = 29 -> doy = 365) /\
  (m = 4 \/ m = 6 \/ m = 9 \/ m = 11 -> d <= 30) /\
  (153 * (if m <=? 2 then m + 9 else m - 3) + 2) / 5 + d - 1 = doy.
Proof.
  intros H mp d m.
  assert (0 <= mp <= 11) by (subst mp; Z.to_euclidean_division_equations; lia).
  assert ((if m <=? 2 then m + 9 else m - 3) = mp) as ->
    by (subst m; destruct (Z.ltb_spec mp 10); case_match; lia).
  subst d. repeat split; try lia;
    (subst m mp; destruct (Z.ltb_spec ((5 * doy + 2) / 153) 10); Z.to_euclidean_division_equations; lia).
Qed.

Lemma leap_shift y k : is_leap (y + 400 * k) = is_leap y.
Proof.
  unfold is_leap. replace (y + 400 * k) with (y + (4 * k) * 100) by lia.
  rewrite (Z.mod_add _ _ 100) by lia. replace (y + 4 * k * 100) with (y + (100 * k) * 4) by lia.
  rewrite (Z.mod_add _ _ 4) by lia. replace (y + 100 * k * 4) with (y + k * 400) by lia.
  by rewrite (Z.mod_add _ _ 400) by lia.
Qed.

Lemma days_shift y m d k : days_of_date (y + 400 * k) m d = days_of_date y m d + 146097 * k.
Proof.
  unfold days_of_date. cbv zeta.
  replace (if m <=? 2 then y + 400 * k - 1 else y + 400 * k)
    with ((if m <=? 2 then y - 1 else y) + k * 400) by (destruct (m <=? 2); lia).
  rewrite Z.mod_add, Z.div_add by lia. lia.
Qed.

Lemma date_roundtrip days :
  let '(y, m, d) := date_of_days days in
  1 <= m <= 12 /\ 1 <= d <= days_in_month y m /\ days_of_date y m d = days.
Proof.
  unfold date_of_days, date_in_era. set (z := days + 719468).
  assert (0 <= z mod 146097 < 146097) as Hz by (apply Z.mod_pos_bound; lia).
  destruct (era_year _ Hz) as (Hyoe & Hdoy & Hleap).
  set (yoe := (z mod 146097 - _ + _ - _) / 365) in *.
  set (doy := z mod 146097 - (365 * yoe + yoe / 4 - yoe / 100)) in *.
  destruct (month_day doy Hdoy) as (Hm & Hd & Hfeb & Hfeb29 & H30 & Hback).
  set (mp := (5 * doy + 2) / 153) in *. set (m := if mp <? 10 then mp + 3 else mp - 9) in *.
  set (d := doy - (153 * mp + 2) / 5 + 1) in *. cbv zeta. split; [done|]. split.
  - split; [lia|]. unfold days_in_month. rewrite leap_shift.
    destruct (Z.eqb_spec m 2) as [E|]; [|repeat case_match; lia].
    destruct (Z.leb_spec m 2); [|lia]. destruct (decide (d = 29)) as [E29|]; [|case_match; lia].
    rewrite Hleap by (by apply Hfeb29). lia.
  - rewrite days_shift. unfold days_of_date. cbv zeta.
    replace (if m <=? 2 then (if m <=? 2 then yoe + 1 else yoe) - 1 else if m <=? 2 then yoe + 1 else yoe)
      with yoe by (destruct (m <=? 2); lia).
    rewrite Z.mod_small, Z.div_small, Hback by lia.
    pose proof (Z.div_mod z 146097 ltac:(lia)). unfold doy, z in *. lia.
Qed.

Lemma digit_char n : 0 <= n < 10 ->
  PyStr.is_digit (ascii_of_nat (48 + Z.to_nat n)) = true /\
  Z.of_nat (nat_of_ascii (ascii_of_nat (48 + Z.to_nat n))) - 48 = n.
Proof.
  intros Hn. rewrite nat_ascii_embedding by lia. split; [|lia].
  unfold PyStr.is_digit. rewrite nat_ascii_embedding by lia. apply andb_true_iff. split; apply Nat.leb_le; lia.
Qed.

Lemma read_fixed w n acc r :
  0 <= n < 10 ^ Z.of_nat w ->
  read_digits w acc (fixed_digits w n +:+ r) = Some (acc * 10 ^ Z.of_nat w + n, r).
Proof.
  revert n acc r. induction w as [|w IH]; intros n acc r Hn.
  - simpl. f_equal. f_equal. lia.
  - assert (forall s acc, read_digits (S w) acc s =
      match read_digits w acc s with
      | Some (a, String c s') =>
          if PyStr.is_digit c then Some (10 * a + (Z.of_nat (nat_of_ascii c) - 48), s') else None
      | _ => None
      end) as Hlast.
    { clear. induction w as [|w IH]; intros s acc; [by destruct s|].
      destruct s as [|c s]; [done|]. change (read_digits (S (S w)) acc (String c s)) with
        (if PyStr.is_digit c then read_digits (S w) (10 * acc + (Z.of_nat (nat_of_ascii c) - 48)) s else None).
      cbn [read_digits]. destruct (PyStr.is_digit c); [apply IH|done]. }
    rewrite Hlast. cbn [fixed_digits]. rewrite append_assoc.
    assert (10 ^ Z.of_nat (S w) = 10 * 10 ^ Z.of_nat w) as Hp by (rewrite Nat2Z.inj_succ, Z.pow_succ_r; lia).
    pose proof (Z.div_mod n 10 ltac:(lia)). pose proof (Z.mod_pos_bound n 10 ltac:(lia)) as Hm.
    rewrite IH by (split; [apply Z.div_pos; lia|apply Z.div_lt_upper_bound; lia]).
    change (char_str ?c +:+ r) with (String c r). cbv beta iota.
    destruct (digit_char (n mod 10) Hm) as [-> ->]. f_equal. f_equal. lia.
Qed.

Lemma replace_z_digits w n r : replace_z (fixed_digits w n +:+ r) = fixed_digits w n +:+ replace_z r.
Proof.
  revert n r. induction w as [|w IH]; intros n r; [done|]. cbn [fixed_digits].
  rewrite !append_assoc, IH. f_equal.
  match goal with |- replace_z (char_str ?c +:+ r) = _ => change (char_str c +:+ r) with (String c r) end.
  cbn [replace_z].
  destruct (digit_char (n mod 10) ltac:(apply Z.mod_pos_bound; lia)) as [Hd _].
  rewrite decide_False; [done|]. intros E. by rewrite E in Hd.
Qed.

Lemma replace_z_sep c r : c <> "Z"%char -> replace_z (String c "" +:+ r) = String c "" +:+ replace_z r.
Proof. intros Hc. simpl. by rewrite decide_False. Qed.

Lemma expect_sep c r : expect c (String c "" +:+ r) = Some r.
Proof. simpl. by rewrite decide_True. Qed.

Lemma bind_some {A B} (x : A) (f : A -> option B) : (Some x ≫= f) = f x.
Proof. reflexivity. Qed.

Ltac read_step := rewrite ?bind_some; cbv beta iota.

(** The texts the controllers write are read back as the instant, in whole
    seconds. *)
Lemma parse_rfc3339_text t y m d :
  date_of_days (t / second / day) = (y, m, d) -> 1 <= y <= 9999 ->
  parse_rfc3339 (PStr (rfc3339 t)) = Some (t / second * second).
Proof.
  intros Hdate Hy. pose proof (date_roundtrip (t / second / day)) as Hr. rewrite Hdate in Hr.
  destruct Hr as (Hm & Hd & Hdays).
  assert (valid_date y m d = true) as Hv by (unfold valid_date; lia).
  assert (days_in_month y m <= 31) as Hdim
    by (unfold days_in_month; destruct (is_leap y); repeat case_match; lia).
  set (s := t / second) in *. pose proof (Z.mod_pos_bound s day ltac:(unfold day; lia)) as Hs.
  set (r := s mod day) in *. assert (day = 86400) as Hday by done.
  assert (0 <= r / 3600 < 24) by (split; [apply Z.div_pos; lia|apply Z.div_lt_upper_bound; lia]).
  pose proof (Z.mod_pos_bound (r / 60) 60 ltac:(lia)). pose proof (Z.mod_pos_bound r 60 ltac:(lia)).
  unfold parse_rfc3339, rfc3339. cbv zeta. fold s. rewrite Hdate. fold r.
  replace (PyStr.nonempty _) with true
    by (cbn [fixed_digits]; rewrite !append_assoc; by rewrite !append_empty_l).
  rewrite !replace_z_digits, !replace_z_sep by done.
  repeat first [rewrite replace_z_digits | rewrite replace_z_sep by done].
  change (replace_z "Z") with "+00:00".
  unfold fromisoformat. do 2 (rewrite read_fixed by lia; read_step; rewrite expect_sep; read_step).
  rewrite read_fixed by lia. read_step. rewrite !Z.add_0_l, Hv.
  rewrite append_cons, append_empty_l. cbv beta iota. unfold read_time at 1.
  do 2 (rewrite read_fixed by lia; read_step; rewrite expect_sep; read_step).
  rewrite read_fixed by lia. read_step. rewrite !Z.mul_0_l, !Z.add_0_l.
  replace (_ && _ && _) with true by lia.
  change (expect "." "+00:00") with (@None string). cbv beta iota zeta. read_step.
  change (read_offset "+00:00") with (Some 0). read_step. rewrite Hdays.
  f_equal. unfold r, second in *. Z.to_euclidean_division_equations. lia.
Qed.

(** [datetime.min] and [datetime.max], as days *)
Lemma year_range days y m d :
  date_of_days days = (y, m, d) -> -719162 <= days < 2932897 -> 1 <= y <= 9999.
Proof.
  unfold date_of_days, date_in_era. set (z := days + 719468). intros [= <- <- <-] Hr.
  assert (0 <= z mod 146097 < 146097) as Hz by (apply Z.mod_pos_bound; lia).
  destruct (era_year _ Hz) as (Hyoe & Hdoy & _).
  set (yoe := (z mod 146097 - _ + _ - _) / 365) in *.
  set (doy := z mod 146097 - (365 * yoe + yoe / 4 - yoe / 100)) in *.
  pose proof (Z.div_mod z 146097 ltac:(lia)). unfold z in *.
  set (q := (days + 719468) / 146097) in *. set (w := (days + 719468) mod 146097) in *.
  assert (0 <= q <= 24) by lia.
  destruct (Z.ltb_spec ((5 * doy + 2) / 153) 10); case_match;
    subst doy; clearbody yoe w q; Z.to_euclidean_division_equations; lia.
Qed.

(** The instants of the years 1 to 9999. *)
Definition representable (t : Z) : Prop := -719162 * day * second <= t < 2932897 * day * second.

Lemma rfc3339_parses t : representable t -> parse_rfc3339 (PStr (rfc3339 t)) = Some (t / second * second).
Proof.
  intros Ht. destruct (date_of_days (t / second / day)) as [[y m] d] eqn:Hd.
  apply (parse_rfc3339_text t y m d Hd). apply (year_range _ _ _ _ Hd).
  unfold representable, second, day in *. Z.to_euclidean_division_equations. lia.
Qed.
End Timestamps.
