(* ===== verification/Urls.v ===== *)
(** * URLs

    [urlsplit] and [unquote] of urllib.parse, as the controllers, the mock BMC and
    the proxy use them.  Text is ASCII; the check of a bracketed host as an IPv6
    literal, which recent versions add, is not modelled. *)

From stdpp Require Import base list strings.
From Stdlib Require Import Ascii ZArith Lia.
From S2P Require Import Prelude PyVal Effects.

Module Urls.
Local Open Scope py_scope.

(** [s.partition(c)]: before, whether [c] was found, after *)
Fixpoint partition (c : ascii) (s : string) : string * bool * string :=
  match s with
  | EmptyString => (EmptyString, false, EmptyString)
  | String x s' => if decide (x = c) then (EmptyString, true, s')
                   else let '(a, b, r) := partition c s' in (String x a, b, r)
  end.

(** [s.rpartition(c)[2]]: what follows the last [c], all of [s] without one *)
Definition after_last (c : ascii) (s : string) : string := PyStr.last_or "" (PyStr.split c s).

(** The longest prefix whose characters satisfy [p], and the rest. *)
Fixpoint span (p : ascii -> bool) (s : string) : string * string :=
  match s with
  | EmptyString => (EmptyString, EmptyString)
  | String x s' => if p x then let '(a, r) := span p s' in (String x a, r) else (EmptyString, s)
  end.

Fixpoint remove_chars (p : ascii -> bool) (s : string) : string :=
  match s with
  | EmptyString => EmptyString
  | String x s' => if p x then remove_chars p s' else String x (remove_chars p s')
  end.

Definition scheme_char (c : ascii) : bool :=
  PyStr.is_alnum c || bool_decide (c = "+"%char) || bool_decide (c = "-"%char) || bool_decide (c = "."%char).

Definition eqc (c : ascii) (x : ascii) : bool := bool_decide (x = c).

Record parts := Parts { scheme : string; netloc : string; path : string; query : string; fragment : string }.

(** The scheme and what follows it. *)
Definition split_scheme (url : string) : string * string :=
  let '(before, found, after) := partition ":" url in
  match before with
  | String c _ => if found && PyStr.is_alpha c && negb (PyStr.has_char (fun x => negb (scheme_char x)) before)
                  then (PyStr.lower before, after) else ("", url)
  | EmptyString => ("", url)
  end.

(** [urlsplit(url)] *)
Definition urlsplit (url : string) : res parts :=
  let url := PyStr.lstrip_by (fun c => (nat_of_ascii c <=? 32)%nat) url in
  let url := remove_chars (fun c => let n := nat_of_ascii c in
               (n =? 9)%nat || (n =? 10)%nat || (n =? 13)%nat) url in
  let '(sch, url) := split_scheme url in
  let '(loc, url) :=
    if PyStr.startswith "//" url
    then span (fun c => negb (eqc "/" c || eqc "?" c || eqc "#" c)) (String.substring 2 (String.length url) url)
    else ("", url) in
  if xorb (PyStr.has_char (eqc "[") loc) (PyStr.has_char (eqc "]") loc)
  then Raise (ValueError "Invalid IPv6 URL")
  else
    let '(url, _, frag) := partition "#" url in
    let '(url, _, q) := partition "?" url in
    Ok (Parts sch loc url q frag).

(** The [_hostinfo] of a split URL: host and port texts. *)
Definition hostinfo (p : parts) : string * string :=
  let info := after_last "@" (netloc p) in
  let '(_, open, bracketed) := partition "[" info in
  if open then
    let '(h, _, r) := partition "]" bracketed in
    let '(_, _, prt) := partition ":" r in (h, prt)
  else let '(h, _, prt) := partition ":" info in (h, prt).

(** [parsed.hostname]; the zone after a percent sign keeps its case *)
Definition hostname (p : parts) : option string :=
  let '(h, _) := hostinfo p in
  if PyStr.nonempty h then
    let '(name, pct, zone) := partition "%" h in
    Some (PyStr.lower name +:+ (if pct then "%" +:+ zone else ""))
  else None.

(** [parsed.port] *)
Definition port (p : parts) : res (option Z) :=
  let '(_, prt) := hostinfo p in
  if PyStr.nonempty prt then
    if PyStr.has_char (fun c => negb (PyStr.is_digit c)) prt
    then Raise (ValueError ("Port could not be cast to integer value as " +:+ repr_str prt))
    else match digits_val 0 false prt with
         | Some z => if (z <=? 65535)%Z then Ok (Some z) else Raise (ValueError "Port out of range 0-65535")
         | None => Raise (ValueError "Port could not be cast to integer value")
         end
  else Ok None.

Definition hex_value (c : ascii) : option nat :=
  let n := nat_of_ascii c in
  if PyStr.is_digit c then Some (n - 48)
  else if (97 <=? n)%nat && (n <=? 102)%nat then Some (n - 87)
  else if (65 <=? n)%nat && (n <=? 70)%nat then Some (n - 55)
  else None.

(** [unquote(s)]: a malformed escape stays as it is *)
Fixpoint unquote (s : string) : string :=
  match s with
  | EmptyString => EmptyString
  | String c s' =>
      if decide (c = "%"%char) then
        match s' with
        | String h (String l r) =>
            match hex_value h, hex_value l with
            | Some a, Some b => String (ascii_of_nat (16 * a + b)) (unquote r)
            | _, _ => String c (unquote s')
            end
        | _ => String c (unquote s')
        end
      else String c (unquote s')
  end.

Example split_url :
  match urlsplit "HTTPS://root@Bmc.example:8443/redfish/v1?a=b#f" with
  | Ok p => (scheme p, hostname p, port p, path p, query p) =
            ("https", Some "bmc.example", Ok (Some 8443%Z), "/redfish/v1", "a=b")
  | _ => False
  end.
Proof. reflexivity. Qed.

Example split_v6 :
  match urlsplit "http://[fe80::1%Eth0]:80" with
  | Ok p => (netloc p, hostname p, port p) = ("[fe80::1%Eth0]:80", Some "fe80::1%Eth0", Ok (Some 80%Z))
  | _ => False
  end.
Proof. reflexivity. Qed.

Example unquote_ex : unquote "/a%2Fb%zz%4" = "/a/b%zz%4".
Proof. reflexivity. Qed.

Lemma urlsplit_ends url : ends (urlsplit url).
Proof. unfold urlsplit. repeat case_match; done. Qed.

Lemma port_ends p : ends (port p).
Proof. unfold port. repeat case_match; done. Qed.

(** A path without a scheme, query, fragment or authority is its own path. *)
Lemma partition_none c s :
  PyStr.has_char (eqc c) s = false -> partition c s = (s, false, "").
Proof.
  unfold eqc. induction s as [|x s IH]; simpl; [done|]. intros [Hx Hs]%orb_false_iff.
  apply bool_decide_eq_false in Hx. rewrite decide_False by done. by rewrite IH.
Qed.
End Urls.
