(* ===== verification/Numbers.v ===== *)
(** * Conversions to numbers

    [int(v)] and [float(v)] of Python on dynamic values.  A float is a decimal
    [m * 10^e] (the [PFloat] of PyVal.v): sums and products of the values that
    occur are exact in this form, and rounding to 53 bits, infinities and NaN
    are not modelled; the overflow of an integer that is too large for a float
    is. *)

From stdpp Require Import base list strings.
From Stdlib Require Import Ascii ZArith Lia.
From S2P Require Import Prelude PyVal Effects.

Module Numbers.
Local Open Scope Z_scope.
Local Open Scope py_scope.

Abbreviation dec := (Z * Z)%type.

(** ** Decimals *)

Definition dec_mul (a b : dec) : dec := (a.1 * b.1, a.2 + b.2).
Definition dec_add (a b : dec) : dec :=
  let lo := Z.min a.2 b.2 in (a.1 * 10 ^ (a.2 - lo) + b.1 * 10 ^ (b.2 - lo), lo).
Definition dec_of_Z (z : Z) : dec := (z, 0).
Definition dec_lt (a b : dec) : bool := num_ltb a b.
Definition dec_le (a b : dec) : bool := negb (num_ltb b a).
Definition dec_min (a b : dec) : dec := if dec_lt b a then b else a.

(** The form without trailing zeros, the one [repr] prints from. *)
Fixpoint strip_zeros (fuel : nat) (m e : Z) : dec :=
  match fuel with
  | O => (m, e)
  | S fuel' => if m mod 10 =? 0 then strip_zeros fuel' (m / 10) (e + 1) else (m, e)
  end.

Definition float_val (d : dec) : pyval :=
  if d.1 =? 0 then PFloat 0 0
  else let '(m, e) := strip_zeros (Z.to_nat (Z.log2 (Z.abs d.1)) + 1) d.1 d.2 in PFloat m e.

(** ** [float(v)] *)

(** Integers that round to a finite float. *)
Definition float_bound : Z := 2 ^ 1024 - 2 ^ 970.

Definition float_of_int (z : Z) : res dec :=
  if Z.abs z <? float_bound then Ok (z, 0) else Raise (OverflowError "int too large to convert to float").

(** Digits with single underscores between them: value, count and the rest. *)
Fixpoint read_digits (acc n : Z) (prev_digit : bool) (s : string) : Z * Z * bool * string :=
  match s with
  | String c s' =>
      if PyStr.is_digit c then read_digits (10 * acc + (Z.of_nat (nat_of_ascii c) - 48)) (n + 1) true s'
      else if bool_decide (c = "_"%char) && prev_digit then
        match s' with
        | String c' _ => if PyStr.is_digit c' then read_digits acc n false s' else (acc, n, prev_digit, s)
        | EmptyString => (acc, n, prev_digit, s)
        end
      else (acc, n, prev_digit, s)
  | EmptyString => (acc, n, prev_digit, s)
  end.

(** An optional exponent that ends the text. *)
Definition read_exponent (s : string) : option Z :=
  match s with
  | EmptyString => Some 0
  | String c s' =>
      if bool_decide (c = "e"%char) || bool_decide (c = "E"%char) then
        let '(sign, s') := match s' with
                           | String "-" r => (-1, r)
                           | String "+" r => (1, r)
                           | r => (1, r)
                           end in
        let '(v, n, _, r) := read_digits 0 0 false s' in
        if (0 <? n) && negb (PyStr.nonempty r) then Some (sign * v) else None
      else None
  end.

(** The decimal a text stands for; [None] is [ValueError]. *)
Definition parse_decimal (s : string) : option dec :=
  let s := PyStr.strip s in
  let '(sign, s) := match s with
                    | String "-" r => (-1, r)
                    | String "+" r => (1, r)
                    | r => (1, r)
                    end in
  let '(ip, ni, _, s) := read_digits 0 0 false s in
  let '(m, nd, s) :=
    match s with
    | String "." r => let '(fp, nf, _, r) := read_digits ip 0 false r in (fp, nf, r)
    | r => (ip, 0, r)
    end in
  if 0 <? ni + nd then (fun x => (sign * m, x - nd)) <$> read_exponent s else None.

Definition py_float (v : pyval) : res dec :=
  match v with
  | PFloat m e => Ok (m, e)
  | PInt z => float_of_int z
  | PBool b => Ok (if b then 1 else 0, 0)
  | PStr s => match parse_decimal s with
              | Some d => Ok d
              | None => Raise (ValueError ("could not convert string to float: " +:+ repr_str s))
              end
  | _ => Raise (TypeError ("float() argument must be a string or a real number, not '" +:+ type_name v +:+ "'"))
  end.

(** ** [int(v)] *)

Definition truncate (m e : Z) : Z := if 0 <=? e then m * 10 ^ e else Z.quot m (10 ^ (- e)).

Definition py_int (v : pyval) : res Z :=
  match v with
  | PInt z => Ok z
  | PBool b => Ok (if b then 1 else 0)
  | PFloat m e => Ok (truncate m e)
  | PStr s => match int_of_string s with
              | Some z => Ok z
              | None => Raise (ValueError ("invalid literal for int() with base 10: " +:+ repr_str s))
              end
  | _ => Raise (TypeError ("int() argument must be a string, a bytes-like object or a real number, not '"
                           +:+ type_name v +:+ "'"))
  end.

Example float_texts :
  map parse_decimal ["30"; " 1.5 "; ".5"; "2."; "-1_0e-2"; "1__0"; "."; "x"; "1e"] =
  [Some (30, 0); Some (15, -1); Some (5, -1); Some (2, 0); Some (-10, -2); None; None; None; None].
Proof. reflexivity. Qed.

Example float_repr : py_str (float_val (dec_mul (15, -1) (60, 0))) = "90.0".
Proof. reflexivity. Qed.

(** ** Order of decimals *)

(** A decimal as a numerator over a common denominator [10^k]. *)
Definition scaled (k : Z) (d : dec) : Z := d.1 * 10 ^ (d.2 + k).

Lemma dec_lt_scaled k a b :
  0 <= a.2 + k -> 0 <= b.2 + k -> dec_lt a b = (scaled k a <? scaled k b).
Proof.
  intros Ha Hb. unfold dec_lt, num_ltb, scaled. set (lo := Z.min a.2 b.2).
  assert (0 <= lo + k) by lia.
  replace (a.2 + k) with ((a.2 - lo) + (lo + k)) by lia.
  replace (b.2 + k) with ((b.2 - lo) + (lo + k)) by lia.
  rewrite (Z.pow_add_r _ (a.2 - lo)), (Z.pow_add_r _ (b.2 - lo)) by lia.
  assert (0 < 10 ^ (lo + k)) by (apply Z.pow_pos_nonneg; lia).
  rewrite !Z.mul_assoc. set (x := a.1 * 10 ^ (a.2 - lo)). set (y := b.1 * 10 ^ (b.2 - lo)).
  destruct (Z.ltb_spec x y); symmetry; [apply Z.ltb_lt | apply Z.ltb_ge].
  - by apply Z.mul_lt_mono_pos_r.
  - by apply Z.mul_le_mono_pos_r.
Qed.

(** A scale at which all the given decimals are integers. *)
Lemma common_scale (l : list dec) : exists k, 0 <= k /\ Forall (fun d => 0 <= d.2 + k) l.
Proof.
  induction l as [|d l (k & Hk & IH)].
  - exists 0. split; [lia|constructor].
  - exists (Z.max k (- d.2)). split; [lia|]. constructor; [lia|].
    eapply Forall_impl; [exact IH|]. intros x. simpl. lia.
Qed.

Lemma dec_le_refl a : dec_le a a = true.
Proof. unfold dec_le, num_ltb. by rewrite Z.ltb_irrefl. Qed.

Lemma dec_le_trans a b c : dec_le a b = true -> dec_le b c = true -> dec_le a c = true.
Proof.
  destruct (common_scale [a; b; c]) as (k & _ & Hk). apply Forall_cons in Hk as [Ha Hk].
  apply Forall_cons in Hk as [Hb Hk]. apply Forall_cons in Hk as [Hc _].
  unfold dec_le. fold (dec_lt b a) (dec_lt c b) (dec_lt c a).
  rewrite !(dec_lt_scaled k) by done. lia.
Qed.

Lemma dec_min_le_l a b : dec_le (dec_min a b) a = true.
Proof.
  unfold dec_min. destruct (dec_lt b a) eqn:H; [|apply dec_le_refl].
  destruct (common_scale [a; b]) as (k & _ & Hk). apply Forall_cons in Hk as [Ha Hk].
  apply Forall_cons in Hk as [Hb _]. unfold dec_le. fold (dec_lt a b).
  rewrite (dec_lt_scaled k) in H by done. rewrite (dec_lt_scaled k) by done. lia.
Qed.

Lemma dec_min_le_r a b : dec_le (dec_min a b) b = true.
Proof.
  unfold dec_min. destruct (dec_lt b a) eqn:H; [apply dec_le_refl|].
  unfold dec_le. fold (dec_lt b a). by rewrite H.
Qed.

Lemma dec_min_glb c a b : dec_le c a = true -> dec_le c b = true -> dec_le c (dec_min a b) = true.
Proof. unfold dec_min. by case_match. Qed.
End Numbers.
