(* ===== verification/Secrets.v ===== *)
(** * Credentials from Kubernetes Secrets

    [_decode_secret_value] and [load_secret_credentials], which both controllers
    under src/k8s/controller/ have in the same words.  The Kubernetes client is
    the parameter [Kube]; [base64.b64decode] is the lenient decoder of the
    standard library. *)

From stdpp Require Import base list strings.
From Stdlib Require Import Ascii ZArith Lia ZifyNat.
From S2P Require Import Prelude PyVal Effects.

Module Secrets.
Local Open Scope py_scope.

(** ** Base64 *)

Definition b64_value (c : ascii) : option nat :=
  let n := nat_of_ascii c in
  if (65 <=? n) && (n <=? 90) then Some (n - 65)
  else if (97 <=? n) && (n <=? 122) then Some (n - 71)
  else if (48 <=? n) && (n <=? 57) then Some (n + 4)
  else if n =? 43 then Some 62
  else if n =? 47 then Some 63
  else None.

(** The decoder's loop: [quad] is the position in the group of four, [left] the
    bits not yet written, [pads] the run of padding characters.  Characters
    outside the alphabet are skipped. *)
Fixpoint b64_loop (s : string) (quad left pads : nat) : option string :=
  match s with
  | EmptyString => if quad =? 0 then Some EmptyString else None
  | String c s' =>
      if decide (c = "="%char) then
        if (2 <=? quad) && (4 <=? quad + S pads) then Some EmptyString
        else b64_loop s' quad left (if 2 <=? quad then S pads else pads)
      else
        match b64_value c with
        | None => b64_loop s' quad left pads
        | Some v =>
            match quad with
            | 0 => b64_loop s' 1 v 0
            | 1 => String (ascii_of_nat (left * 4 + v / 16)) <$> b64_loop s' 2 (v mod 16) 0
            | 2 => String (ascii_of_nat (left * 16 + v / 4)) <$> b64_loop s' 3 (v mod 4) 0
            | _ => String (ascii_of_nat (left * 64 + v)) <$> b64_loop s' 0 0 0
            end
        end
  end.

(** [base64.b64decode(s).decode("utf-8")] for text that decodes to ASCII *)
Definition b64decode (s : string) : res string :=
  match b64_loop s 0 0 0 with
  | Some t => Ok t
  | None => Raise (ValueError "Incorrect padding")
  end.

Definition b64_char (n : nat) : ascii :=
  ascii_of_nat (if n <? 26 then n + 65 else if n <? 52 then n + 71 else if n <? 62 then n - 4
                else if n =? 62 then 43 else 47).

(** The encoding that tools write Secrets with. *)
Fixpoint b64encode (s : string) : string :=
  match s with
  | EmptyString => EmptyString
  | String a EmptyString =>
      let x := nat_of_ascii a in
      String (b64_char (x / 4)) (String (b64_char (x mod 4 * 16)) "==")
  | String a (String b EmptyString) =>
      let x := nat_of_ascii a in let y := nat_of_ascii b in
      String (b64_char (x / 4)) (String (b64_char (x mod 4 * 16 + y / 16))
        (String (b64_char (y mod 16 * 4)) "="))
  | String a (String b (String c r)) =>
      let x := nat_of_ascii a in let y := nat_of_ascii b in let z := nat_of_ascii c in
      String (b64_char (x / 4)) (String (b64_char (x mod 4 * 16 + y / 16))
        (String (b64_char (y mod 16 * 4 + z / 64)) (String (b64_char (z mod 64)) (b64encode r))))
  end.

(** ** Reading the Secret *)

(** The cluster: whether a client can be made, and the [data] of a Secret. *)
Class Kube := {
  kube_client : bool;
  read_namespaced_secret : string -> string -> res (option (list (string * string)))
}.

(** [_decode_secret_value(data, key)] *)
Definition decode_secret_value (data : list (string * string)) (key : string) : res (option string) :=
  match dict_get key data with
  | None | Some "" => Ok None
  | Some encoded => let? t := b64decode encoded in Ok (Some t)
  end.

Section Load.
Context {kube : Kube}.

(** [load_secret_credentials(namespace, secret_ref)] *)
Definition load_secret_credentials (namespace : option string) (secret_ref : pyval)
  : res (list (string * string)) :=
  match namespace with
  | None | Some "" => Ok []
  | Some ns =>
      if negb (truthy secret_ref) then Ok []
      else
        let? name := get_attr secret_ref "name" in
        if negb (truthy name) then Ok []
        else if negb kube_client then Ok []
        else
          let? secret := read_namespaced_secret (py_str name) ns in
          let data := default [] secret in
          let? uk := get_attr secret_ref "usernameKey" in
          let? pk := get_attr secret_ref "passwordKey" in
          let? username := decode_secret_value data (py_str (py_or uk (PStr "username"))) in
          let? password := decode_secret_value data (py_str (py_or pk (PStr "password"))) in
          let creds := match username with Some u => [("username", u)] | None => [] end in
          Ok (match password with Some p => dict_set "password" p creds | None => creds end)
  end.
End Load.

(** ** Decoding undoes encoding *)

Lemma b64_value_char n : n < 64 -> b64_value (b64_char n) = Some n /\ b64_char n <> "="%char.
Proof.
  intros Hn. do 64 (destruct n as [|n]; [by split|]). lia.
Qed.

Lemma b64_step n r quad left pads : n < 64 ->
  b64_loop (String (b64_char n) r) quad left pads =
  match quad with
  | 0 => b64_loop r 1 n 0
  | 1 => String (ascii_of_nat (left * 4 + n / 16)) <$> b64_loop r 2 (n mod 16) 0
  | 2 => String (ascii_of_nat (left * 16 + n / 4)) <$> b64_loop r 3 (n mod 4) 0
  | _ => String (ascii_of_nat (left * 64 + n)) <$> b64_loop r 0 0 0
  end.
Proof.
  intros Hn. destruct (b64_value_char n Hn) as [Hv Hne]. cbn [b64_loop].
  rewrite decide_False by done. by rewrite Hv.
Qed.

Lemma nat_of_ascii_lt c : nat_of_ascii c < 256.
Proof. apply nat_ascii_bounded. Qed.

(** Arithmetic with division by constants. *)
Ltac divs := zify; Z.to_euclidean_division_equations; lia.

Lemma byte_back c x : x = nat_of_ascii c -> ascii_of_nat x = c.
Proof. intros ->. apply ascii_nat_embedding. Qed.

Lemma b64_loop_encode s : b64_loop (b64encode s) 0 0 0 = Some s.
Proof.
  revert s. fix IH 1. intros [|a [|b [|c r]]]; [done|..]; cbn [b64encode];
    pose proof (nat_of_ascii_lt a) as Ha; try pose proof (nat_of_ascii_lt b) as Hb;
    try pose proof (nat_of_ascii_lt c) as Hc.
  - rewrite !b64_step by divs. simpl b64_loop. cbn [fmap option_fmap option_map].
    rewrite (byte_back a) by divs. done.
  - rewrite !b64_step by divs. simpl b64_loop. cbn [fmap option_fmap option_map].
    rewrite (byte_back a), (byte_back b) by divs. done.
  - rewrite !b64_step by divs. rewrite IH. cbn [fmap option_fmap option_map].
    rewrite (byte_back a), (byte_back b), (byte_back c) by divs. done.
Qed.

(** A secret value that was encoded is read back. *)
Lemma b64decode_encode s : b64decode (b64encode s) = Ok s.
Proof. unfold b64decode. by rewrite b64_loop_encode. Qed.
End Secrets.
