(* ===== verification/NodeProfile.v ===== *)
(** * The node profile controller

    src/k8s/controller/redfish_node_profile_controller.py: a Kubernetes operator
    that plans the desired state of a node and applies it when the resource
    approves the hash of exactly that plan.  The reconciler is the one of
    Reconcile.v, run through [SyncInvoker]; building the manager, the wall
    clock and the Kubernetes client are parameters. *)

From stdpp Require Import base list strings.
From Stdlib Require Import Ascii ZArith Lia.
From S2P Require Import Prelude PyVal Effects Invoker Reconcile.
From S2P Require Import Json Sha256 Timestamps Urls Numbers Secrets.

Module NodeProfile.
Import Reconcile.
Local Open Scope py_scope.

Definition DEFAULT_PORT : Z := 443.
Definition DEFAULT_USERNAME : string := "root".

(** ** Status *)

(** [_condition(condition_type, status, reason, message, changed_at)] *)
Definition condition (ctype : string) (status : option bool) (reason message : string) (changed_at : Z)
  : pyval :=
  let status_text := match status with
                     | Some true => "True"
                     | Some false => "False"
                     | None => "Unknown"
                     end in
  let c := [("type", PStr ctype); ("status", PStr status_text); ("reason", PStr reason);
            ("lastTransitionTime", PStr (Timestamps.rfc3339 changed_at))] in
  PDict (if PyStr.nonempty message then c ++ [("message", PStr message)] else c).

(** [_planned_step(step)] *)
Definition planned_step (s : ReconcileStep) : pyval :=
  PDict [("kind", PStr (kind s)); ("required", PBool (required s)); ("description", PStr (description s));
         ("preview", PDict (preview s))].

(** [_applied_change(change)] *)
Definition applied_change (c : AppliedChange) : pyval :=
  PDict [("kind", PStr (a_kind c)); ("changed", PBool (changed c)); ("result", PDict (result c))].

(** [step.get("required")] of a planned step *)
Definition is_required (v : pyval) : bool := truthy (dget "required" (as_dict v)).

(** The steps a hash stands for. *)
Definition required_steps (planned : list pyval) : list pyval :=
  filter (fun v => is_required v = true) planned.

(** [plan_hash(planned_steps)] *)
Definition plan_hash (planned : list pyval) : res (option string) :=
  match required_steps planned with
  | [] => Ok None
  | req => let? encoded := Json.dumps_compact (PList req) in Ok (Some (Sha256.hexdigest encoded))
  end.

(** [_approval_reason(...)] *)
Definition approval_reason (approved : bool) (current approved_hash consumed : option string) : string :=
  if approved then "Approved"
  else if bool_decide (given current <> None) && bool_decide (consumed = current) then "ApprovalConsumed"
  else if bool_decide (given approved_hash <> None) && negb (bool_decide (approved_hash = current))
       then "ApprovalHashMismatch"
  else "ApprovalRequired".

(** [build_status(result, ...)] *)
Definition build_status (r : ReconcileResult) (approved : bool)
    (approved_plan_hash plan_hash_value consumed_plan_hash : option string) (observed_at : Z) : res pydict :=
  let planned := map planned_step (steps r) in
  let applied := map applied_change (applied r) in
  let? current := match given plan_hash_value with
                  | Some h => Ok (Some h)
                  | None => plan_hash planned
                  end in
  let consumed := if approved && bool_decide (given current <> None) then current else consumed_plan_hash in
  let drift := existsb required (steps r) in
  let chg := existsb changed (Reconcile.applied r) in
  let applied_reason := if chg then "Applied" else if approved then "NoChanges" else "DryRun" in
  let status :=
    [("dryRun", PBool (dry_run r)); ("drift", PBool drift); ("plannedSteps", PList planned);
     ("appliedChanges", PList applied);
     ("conditions", PList
       [condition "Approved" (Some approved)
          (approval_reason approved current approved_plan_hash consumed_plan_hash) "" observed_at;
        condition "DriftDetected" (Some drift) (if drift then "PlanRequiresChanges" else "InSync") "" observed_at;
        condition "Applied" (Some (chg && approved)) applied_reason "" observed_at;
        condition "Ready" (Some true) "ReconciliationSucceeded" "" observed_at]);
     ("lastReconciled", PStr (Timestamps.rfc3339 observed_at))] in
  let status := match given current with Some h => dict_set "planHash" (PStr h) status | None => status end in
  Ok (match given consumed with Some h => dict_set "consumedPlanHash" (PStr h) status | None => status end).

(** [build_error_status(message)] *)
Definition build_error_status (message : string) (observed_at : Z) : pydict :=
  [("dryRun", PBool true); ("drift", PNone); ("plannedSteps", PList []); ("appliedChanges", PList []);
   ("conditions", PList
     [condition "ReconcileAvailable" (Some false) "BackendUnavailable" message observed_at;
      condition "Ready" (Some false) "BackendUnavailable" message observed_at]);
   ("lastReconciled", PStr (Timestamps.rfc3339 observed_at))].

(** ** The endpoint *)

(** [_endpoint_spec(spec)] *)
Definition endpoint_spec (spec : pydict) : res pydict :=
  match mapping (dget "endpoint" spec) with
  | [] => Raise (ValueError "RedfishNodeProfile spec.endpoint is required")
  | endpoint => Ok endpoint
  end.

Definition http_scheme (s : string) : bool := bool_decide (s = "http") || bool_decide (s = "https").

(** [str(mapping.get("address") or "").strip()] *)
Definition raw_address (d : pydict) : string := PyStr.strip (py_str (py_or (dget "address" d) (PStr ""))).

(** [_server_address(endpoint)] *)
Definition server_address (endpoint : pydict) : res string :=
  let raw := raw_address endpoint in
  let? parsed := Urls.urlsplit raw in
  Ok (if http_scheme (Urls.scheme parsed) then
        match Urls.hostname parsed with
        | Some h => h
        | None => if PyStr.nonempty (Urls.netloc parsed) then Urls.netloc parsed else raw
        end
      else raw).

(** [_manager_address(endpoint)] *)
Definition manager_address (endpoint : pydict) : res (string * Z * bool) :=
  let raw := raw_address endpoint in
  if negb (PyStr.nonempty raw)
  then Raise (ValueError "RedfishNodeProfile spec.endpoint.address is required")
  else
    let? parsed := Urls.urlsplit raw in
    if http_scheme (Urls.scheme parsed) then
      match Urls.hostname parsed with
      | None => Raise (ValueError "RedfishNodeProfile endpoint URL requires a host")
      | Some host =>
          let? p := Urls.port parsed in
          let? port := Numbers.py_int (match p with
                                       | Some z => if (z =? 0)%Z then py_or (dget "port" endpoint) (PInt DEFAULT_PORT)
                                                   else PInt z
                                       | None => py_or (dget "port" endpoint) (PInt DEFAULT_PORT)
                                       end) in
          Ok (host, port, bool_decide (Urls.scheme parsed = "http"))
      end
    else
      let? port := Numbers.py_int (py_or (dget "port" endpoint) (PInt DEFAULT_PORT)) in
      Ok (raw, port, false).

(** The arguments of the manager factory. *)
Record manager_args := ManagerArgs {
  ma_host : string;
  ma_username : string;
  ma_password : string;
  ma_port : Z;
  ma_insecure : bool;
  ma_is_http : bool
}.

(** [_make_manager(endpoint, credentials, manager_factory)], up to the call *)
Definition make_manager_args (endpoint : pydict) (creds : list (string * string)) : res manager_args :=
  let? (host, port, is_http) := manager_address endpoint in
  Ok (ManagerArgs host (dict_get_or "username" DEFAULT_USERNAME creds) (dict_get_or "password" "" creds)
        port (truthy (dict_get_or "insecure" (PBool true) endpoint)) is_http).

(** [str(v or "") or None] *)
Definition hash_field (v : pyval) : option string := given (Some (py_str (py_or v (PStr "")))).

(** ** The controller *)

Section Controller.
Context {S : Type} `{!SyncInvoker S} {kube : Secrets.Kube}.
Context (manager_factory : manager_args -> M S unit) (utc_now : S -> Z).
Abbreviation MM := (M S).

(** [reconcile_profile(spec, credentials, current_status)] *)
Definition reconcile_profile (spec : pydict) (creds : list (string * string)) (current_status : pydict)
  : MM pydict :=
  let! endpoint := lift_res (endpoint_spec spec) in
  let desired_state := mapping (dget "desiredState" spec) in
  let! args := lift_res (make_manager_args endpoint creds) in
  manager_factory args ;;;
  let! dry_run_result := reconcile_spec desired_state false false false in
  let approved_plan_hash := hash_field (dget "approvedPlanHash" spec) in
  let consumed_plan_hash := hash_field (dget "consumedPlanHash" current_status) in
  let! t := gets utc_now in
  let! dry_status := lift_res (build_status dry_run_result false approved_plan_hash None consumed_plan_hash t) in
  let current := dget "planHash" dry_status in
  let approved := match current with
                  | PStr h => bool_decide (approved_plan_hash = Some h) &&
                              negb (bool_decide (consumed_plan_hash = Some h))
                  | _ => false
                  end in
  if negb approved then ret dry_status
  else
    let! r := reconcile_spec desired_state true (truthy (dict_get_or "waitForReboot" (PBool false) spec)) false in
    let! t := gets utc_now in
    lift_res (build_status r true approved_plan_hash (hash_field current) (hash_field current) t).

(** [patch.setdefault("status", {}).update(status)] *)
Definition update_patch (patch : pydict) (status : pydict) : res pydict :=
  match dict_get_or "status" (PDict []) patch with
  | PDict old => Ok (dict_set "status" (PDict (dict_update old status)) patch)
  | v => Raise (AttributeError ("'" +:+ type_name v +:+ "' object has no attribute 'update'"))
  end.

(** The [try] of the handler: the status to report. *)
Definition handler_status (spec : pydict) (body : pyval) (namespace : option string) : MM pydict :=
  let endpoint := mapping (dget "endpoint" spec) in
  try_Exception
    (let! creds := lift_res (Secrets.load_secret_credentials namespace (dget "secretRef" endpoint)) in
     reconcile_profile spec creds (mapping (dget "status" (mapping body))))
    (fun e => let! t := gets utc_now in ret (build_error_status (exn_str e) t)).

(** [reconcile_redfish_node_profile(spec, body, namespace, patch=patch)]; the span
    attributes are computed before the [try] *)
Definition reconcile_redfish_node_profile (spec : pydict) (body : pyval) (namespace : option string)
    (patch : option pydict) : MM (option pydict) :=
  let! _ := lift_res (server_address (mapping (dget "endpoint" spec))) in
  let! status := handler_status spec body namespace in
  match patch with
  | Some p => let! p' := lift_res (update_patch p status) in ret (Some p')
  | None => ret None
  end.
End Controller.

(** ** What a plan hash stands for *)

Lemma forallb_insert {A} (f : string * A -> bool) x l :
  forallb f (Json.insert_item x l) = f x && forallb f l.
Proof.
  induction l as [|y l IH]; simpl; [done|]. case_match; simpl; [done|]. rewrite IH.
  by rewrite !andb_assoc, (andb_comm (f y)).
Qed.

Lemma forallb_sort {A} (f : string * A -> bool) d : forallb f (Json.sort_items d) = forallb f d.
Proof.
  unfold Json.sort_items.
  enough (forall acc, forallb f (fold_left (fun acc x => Json.insert_item x acc) d acc)
                      = forallb f acc && forallb f d) as -> by done.
  induction d as [|x d IH]; intros acc; simpl; [by rewrite andb_true_r|].
  rewrite IH, forallb_insert. by rewrite (andb_comm (f x)), andb_assoc.
Qed.

Lemma float_free_sorted v : Json.float_free (Json.sort_keys v) = Json.float_free v.
Proof.
  induction v as [| | | | |l IH|l IH|d IH|] using Json.pyval_nested_ind; try done; simpl.
  - induction IH as [|x l Hx _ IH]; simpl; [done|]. by rewrite Hx, IH.
  - induction IH as [|x l Hx _ IH]; simpl; [done|]. by rewrite Hx, IH.
  - rewrite forallb_sort. induction IH as [|x l Hx _ IH]; simpl; [done|]. by rewrite Hx, IH.
Qed.

(** The required steps as the document that is hashed: key order and the
    difference of tuples and lists do not count. *)
Definition approved_document (planned : list pyval) : pyval :=
  Json.untuple (Json.sort_keys (PList (required_steps planned))).

Lemma dumps_document p q s :
  forallb Json.float_free p = true -> forallb Json.float_free q = true ->
  Json.dumps_compact (PList p) = Ok s -> Json.dumps_compact (PList q) = Ok s ->
  Json.untuple (Json.sort_keys (PList p)) = Json.untuple (Json.sort_keys (PList q)).
Proof.
  unfold Json.dumps_compact, Json.dumps_with. intros Hp Hq Hs Hs'.
  destruct (Json.render _ _ (Json.sort_keys (PList p))) as [t|] eqn:Ht; [|done].
  destruct (Json.render _ _ (Json.sort_keys (PList q))) as [t'|] eqn:Ht'; [|done].
  simplify_eq. eapply Json.render_inj; [| |exact Ht|exact Ht']; by rewrite float_free_sorted.
Qed.

Lemma forallb_required (f : pyval -> bool) p : forallb f p = true -> forallb f (required_steps p) = true.
Proof.
  unfold required_steps. intros H. induction p as [|x p IH]; [done|]. simpl in H.
  apply andb_true_iff in H as [Hx Hp]. rewrite filter_cons. case_decide; simpl; [by rewrite Hx, IH|auto].
Qed.

Lemma plan_hash_some p h :
  plan_hash p = Ok (Some h) ->
  exists s, Json.dumps_compact (PList (required_steps p)) = Ok s /\ h = Sha256.hexdigest s.
Proof.
  unfold plan_hash. destruct (required_steps p) as [|x l] eqn:E; [done|].
  destruct (Json.dumps_compact _) as [s|e|]; simpl; [|done..]. intros [= <-]. eauto.
Qed.

(** ** The status that is reported *)

Lemma given_some o h : given o = Some h -> o = Some h /\ PyStr.nonempty h = true.
Proof. unfold given. destruct o as [s|]; [|done]. destruct (PyStr.nonempty s) eqn:E; intros; by simplify_eq. Qed.

Lemma given_given o : given (given o) = given o.
Proof. unfold given. destruct o as [s|]; [|done]. destruct (PyStr.nonempty s) eqn:E; [by rewrite E|done]. Qed.

Lemma build_status_fields r approved aph phv cph t st :
  build_status r approved aph phv cph t = Ok st ->
  NoDup (dict_keys st) /\ dict_get "dryRun" st = Some (PBool (dry_run r)) /\
  exists current,
    match given phv with
    | Some h => current = Some h
    | None => plan_hash (map planned_step (steps r)) = Ok current
    end /\
    dict_get "planHash" st = PStr <$> given current /\
    dict_get "consumedPlanHash" st =
      PStr <$> given (if approved && bool_decide (given current <> None) then current else cph).
Proof.
  unfold build_status. cbv zeta. intros (current & Hc & H)%res_bind_ok.
  assert (match given phv with
          | Some h => current = Some h
          | None => plan_hash (map planned_step (steps r)) = Ok current
          end) as Hcur by (by destruct (given phv); simplify_eq).
  revert H. set (consumed := if approved && _ then current else cph).
  destruct (given current) as [h|] eqn:Eh, (given consumed) as [c|] eqn:Ec; intros [= <-];
    (split; [unfold dict_keys; cbn [map fst]; apply (bool_decide_unpack _); vm_compute; exact I|]);
    (split; [reflexivity|]); exists current; rewrite Eh; fold consumed; by rewrite Ec.
Qed.

Lemma reconcile_spec_dry {S} `{!SyncInvoker S} spec c w a (s s' : S) r :
  reconcile_spec spec c w a s = (s', Ok r) -> dry_run r = negb c.
Proof.
  unfold reconcile_spec, reconcile.
  intros (s0 & st & _ & (s1 & p1 & _ & (s2 & p2 & _ & (s3 & p3 & _ & (s4 & p4 & _ & H)%bind_inv_ok
    )%bind_inv_ok)%bind_inv_ok)%bind_inv_ok)%bind_inv_ok.
  by injection H as _ <-.
Qed.

(** ** One run of the handler *)

(** What the handler read: the approval of the spec and the hash already consumed. *)
Definition approval (spec : pydict) : option string := hash_field (dget "approvedPlanHash" spec).
Definition consumed (status : pydict) : option string := hash_field (dget "consumedPlanHash" status).

Lemma hash_field_given v : given (hash_field v) = hash_field v.
Proof. apply given_given. Qed.

Lemma hash_field_str h : PyStr.nonempty h = true -> hash_field (PStr h) = Some h.
Proof. intros Hh. unfold hash_field, py_or, given. cbn [truthy]. rewrite Hh. simpl. by rewrite Hh. Qed.

(** What a run of [reconcile_profile] that returns did. *)
Inductive profile_run (spec status st : pydict) : bool -> Prop :=
| dry_profile h :
    dict_get "consumedPlanHash" st = PStr <$> consumed status ->
    dict_get "dryRun" st = Some (PBool true) -> dict_get "planHash" st = PStr <$> h ->
    profile_run spec status st false
| applied_profile h :
    approval spec = Some h -> consumed status <> Some h ->
    dict_get "planHash" st = Some (PStr h) -> dict_get "consumedPlanHash" st = Some (PStr h) ->
    dict_get "dryRun" st = Some (PBool false) ->
    profile_run spec status st true.

Section Runs.
Context {S : Type} `{!SyncInvoker S} {kube : Secrets.Kube}.
Context (manager_factory : manager_args -> M S unit) (utc_now : S -> Z).

Lemma dget_opt k d o : dict_get k d = PStr <$> o -> dget k d = opt_str o.
Proof. unfold dget, dict_get_or. intros ->. by destruct o. Qed.

Lemma reconcile_profile_run spec creds status (s s' : S) st :
  reconcile_profile manager_factory utc_now spec creds status s = (s', Ok st) ->
  NoDup (dict_keys st) /\ exists b, profile_run spec status st b.
Proof.
  unfold reconcile_profile. fold (approval spec) (consumed status).
  intros (s1 & ep & _ & (s2 & args & _ & (s3 & [] & _ & (s4 & r & Hr & (s5 & t & _ & H)%bind_inv_ok
    )%bind_inv_ok)%bind_inv_ok)%bind_inv_ok)%bind_inv_ok.
  apply bind_inv_ok in H as (s6 & dry & Hdry & H). unfold lift_res in Hdry. injection Hdry as -> Hdry.
  apply build_status_fields in Hdry as (Hnd & Hd & cur & Hcur & Hp & Hc).
  rewrite (reconcile_spec_dry _ _ _ _ _ _ _ Hr) in Hd. simpl in Hcur, Hc, Hd.
  unfold consumed in Hc at 1. rewrite hash_field_given in Hc. fold (consumed status) in Hc.
  rewrite (dget_opt _ _ _ Hp) in H.
  destruct (given cur) as [h|] eqn:Eh; simpl in H.
  - destruct (bool_decide (approval spec = Some h)) eqn:Ha;
      [|injection H as <- <-; split; [done|]; exists false; by eapply (dry_profile _ _ _ (Some h))].
    destruct (bool_decide (consumed status = Some h)) eqn:Hcs;
      [injection H as <- <-; split; [done|]; exists false; by eapply (dry_profile _ _ _ (Some h))|].
    simpl in H. apply bind_inv_ok in H as (s7 & r2 & Hr2 & (s8 & t2 & _ & H)%bind_inv_ok).
    unfold lift_res in H. injection H as -> H.
    apply given_some in Eh as [_ Hne]. rewrite hash_field_str in H by done.
    apply build_status_fields in H as (Hnd2 & Hd2 & cur2 & Hcur2 & Hp2 & Hc2).
    rewrite (reconcile_spec_dry _ _ _ _ _ _ _ Hr2) in Hd2. unfold given in Hcur2. rewrite Hne in Hcur2.
    subst cur2. unfold given in Hp2, Hc2. rewrite Hne in Hp2, Hc2. simpl in Hp2, Hc2. rewrite Hne in Hc2.
    split; [done|]. exists true. apply bool_decide_eq_true in Ha. apply bool_decide_eq_false in Hcs.
    by apply (applied_profile _ _ _ h).
  - injection H as <- <-. split; [done|]. exists false. by eapply (dry_profile _ _ _ None).
Qed.

(** ** What it does to the node *)

Context (R : S -> S -> Prop) `{!PreOrder R} `{!PreviewSafe R}.
Hypothesis factory_frames : forall a, frames R (manager_factory a).

Lemma preview_spec spec w a : frames R (reconcile_spec spec false w a).
Proof. unfold reconcile_spec. frame. by apply reconcile_preview_frames. Qed.

(** The plan a state leads to: what the unconfirmed reconciliation of the spec
    plans on the manager of its endpoint. *)
Definition plan_of (spec : pydict) (creds : list (string * string)) : M S (option string) :=
  let! endpoint := lift_res (endpoint_spec spec) in
  let! args := lift_res (make_manager_args endpoint creds) in
  manager_factory args ;;;
  let! r := reconcile_spec (mapping (dget "desiredState" spec)) false false false in
  lift_res (plan_hash (map planned_step (steps r))).

Lemma profile_touches spec creds status (s : S) :
  R s (reconcile_profile manager_factory utc_now spec creds status s).1 \/
  exists h, (plan_of spec creds s).2 = Ok (Some h) /\ approval spec = Some h /\ consumed status <> Some h.
Proof.
  unfold reconcile_profile, plan_of. fold (approval spec) (consumed status).
  unfold bind, lift_res, gets. destruct (endpoint_spec spec) as [ep|e|]; [|by left..].
  destruct (make_manager_args ep creds) as [args|e|]; [|by left..].
  pose proof (factory_frames args s) as H1.
  destruct (manager_factory args s) as [s1 [[]|e|]]; simpl in H1; [|by left..].
  pose proof (preview_spec (mapping (dget "desiredState" spec)) false false s1) as H2.
  destruct (reconcile_spec _ false false false s1) as [s2 [r|e|]]; simpl in H2;
    [|left; simpl; by etransitivity..].
  destruct (build_status r false _ _ _ _) as [dry|e|] eqn:Hdry; [|left; simpl; by etransitivity..].
  apply build_status_fields in Hdry as (_ & _ & cur & Hcur & Hp & _). simpl in Hcur.
  rewrite (dget_opt _ _ _ Hp). destruct (given cur) as [h|] eqn:Eh; simpl;
    [|left; by etransitivity].
  destruct (bool_decide (approval spec = Some h)) eqn:Ha; [|left; simpl; by etransitivity].
  destruct (bool_decide (consumed status = Some h)) eqn:Hcs; [left; simpl; by etransitivity|].
  right. exists h. apply given_some in Eh as [-> _]. unfold lift_res. simpl.
  apply bool_decide_eq_true in Ha. apply bool_decide_eq_false in Hcs. done.
Qed.
(** A call of the handler stays within [R] unless the plan it computes is approved and not consumed. *)
Lemma handler_touches spec body ns patch (s : S) :
  R s (reconcile_redfish_node_profile manager_factory utc_now spec body ns patch s).1 \/
  exists creds h,
    Secrets.load_secret_credentials ns (dget "secretRef" (mapping (dget "endpoint" spec))) = Ok creds /\
    (plan_of spec creds s).2 = Ok (Some h) /\ approval spec = Some h /\ consumed (mapping (dget "status" (mapping body))) <> Some h.
Proof.
  unfold reconcile_redfish_node_profile, bind at 1, lift_res at 1. destruct (server_address _) as [a|e|]; [|by left..].
  unfold bind at 1, handler_status, try_Exception, try_catch.
  destruct (Secrets.load_secret_credentials _ _) as [creds|e|] eqn:Hcreds; unfold bind at 1, lift_res at 1; [| |by left].
  - destruct (profile_touches spec creds (mapping (dget "status" (mapping body))) s) as [H|(h & Hp & Ha & Hc)];
      [left|right; by exists creds, h].
    destruct (reconcile_profile _ _ _ _ _ s) as [s1 [st|e|]]; simpl in H; [| |exact H].
    + destruct patch as [p|]; [|exact H]. unfold bind, lift_res. destruct (update_patch p st); exact H.
    + destruct (is_Exception e); [|exact H]. unfold bind, gets, ret.
      destruct patch as [p|]; [|exact H]. unfold lift_res. destruct (update_patch p _); exact H.
  - left. destruct (is_Exception e); [|done]. unfold bind, gets, ret. destruct patch as [p|]; [|done]. unfold lift_res. by destruct (update_patch p _).
Qed.
End Runs.

(** ** The life of a resource

    Kubernetes keeps the status and merges each patch into it (RFC 7386): a key
    the patch does not have keeps its value, a text replaces it. *)

Section History.
Context {S : Type} `{!SyncInvoker S} {kube : Secrets.Kube}.
Context (manager_factory : manager_args -> M S unit) (utc_now : S -> Z).
Context (merge : pydict -> pydict -> pydict).
Hypothesis merge_keeps : forall d p k, dict_get k p = None -> dict_get k (merge d p) = dict_get k d.
Hypothesis merge_sets : forall d p k s, NoDup (dict_keys p) -> dict_get k p = Some (PStr s) ->
  dict_get k (merge d p) = Some (PStr s).

(** The resource as the handler is called on it. *)
Definition body_of (status : pydict) : pyval := PDict [("status", PDict status)].

(** One call of the handler: the new status, and whether it reports an applied
    plan; a handler that raises leaves the status as it is. *)
Definition fire (ns : option string) (spec status : pydict) : M S (pydict * bool) :=
  try_Exception
    (let! p := reconcile_redfish_node_profile manager_factory utc_now spec (body_of status) ns (Some []) in
     let patch := as_dict (dget "status" (default [] p)) in
     ret (merge status patch, py_eqb (dget "dryRun" patch) (PBool false)))
    (fun _ => ret (status, false)).

(** Calls on creation, on updates of the spec and on the timer, in sequence. *)
Fixpoint fires (ns : option string) (specs : list pydict) (status : pydict) : M S (list bool) :=
  match specs with
  | [] => ret []
  | spec :: rest =>
      let! (status', applied) := fire ns spec status in
      let! l := fires ns rest status' in
      ret (applied :: l)
  end.

Lemma empty_patch st : update_patch [] st = Ok [("status", PDict (dict_update [] st))].
Proof. done. Qed.

Lemma consumed_set st h : dict_get "consumedPlanHash" st = Some (PStr h) -> PyStr.nonempty h = true ->
  consumed st = Some h.
Proof. intros Hs Hh. unfold consumed, dget, dict_get_or. rewrite Hs. by apply hash_field_str. Qed.

Lemma consumed_nonempty st h : consumed st = Some h -> PyStr.nonempty h = true.
Proof. unfold consumed, hash_field. by intros [_ ?]%given_some. Qed.

(** The status that the handler reports. *)
Lemma handler_status_run ns spec status (s s' : S) st :
  handler_status manager_factory utc_now spec (body_of status) ns s = (s', Ok st) ->
  NoDup (dict_keys st) /\
  ((exists b, profile_run spec status st b) \/
   (dict_get "consumedPlanHash" st = None /\ dict_get "dryRun" st = Some (PBool true))).
Proof.
  unfold handler_status, try_Exception, try_catch, bind, lift_res.
  assert (forall e t, NoDup (dict_keys (build_error_status e t)) /\
    dict_get "consumedPlanHash" (build_error_status e t) = None /\
    dict_get "dryRun" (build_error_status e t) = Some (PBool true)) as Herr.
  { intros e t. split; [|done]. unfold dict_keys, build_error_status. cbn [map fst].
    apply (bool_decide_unpack _). vm_compute. exact I. }
  destruct (Secrets.load_secret_credentials _ _) as [creds|e|]; [| |done].
  - change (mapping (dget "status" (mapping (body_of status)))) with status.
    destruct (reconcile_profile _ _ _ _ _ s) as [s2 [st'|e|]] eqn:Hrun; [| |done].
    + intros [= <- <-]. destruct (reconcile_profile_run _ _ _ _ _ _ _ _ Hrun) as [Hnd Hb].
      split; [done|]. by left.
    + destruct (is_Exception e); [|done]. unfold gets, ret. intros [= <- <-].
      destruct (Herr (exn_str e) (utc_now s2)). auto.
  - destruct (is_Exception e); [|done]. unfold gets, ret. intros [= <- <-].
    destruct (Herr (exn_str e) (utc_now s)). auto.
Qed.

(** What one call changes of the consumed hash. *)
Lemma fire_run ns spec status (s s' : S) status' b :
  fire ns spec status s = (s', Ok (status', b)) ->
  if b then exists h, approval spec = Some h /\ consumed status <> Some h /\ consumed status' = Some h
  else consumed status' = consumed status.
Proof.
  unfold fire, try_Exception, try_catch, reconcile_redfish_node_profile, bind, lift_res.
  destruct (server_address _) as [a|e|]; [|destruct (is_Exception e)|]; [|by intros [= <- <- <-]|done|done].
  destruct (handler_status _ _ _ _ _ s) as [s1 [st|e|]] eqn:Hst;
    [|destruct (is_Exception e); [by intros [= <- <- <-]|done]|done].
  rewrite empty_patch. unfold ret. intros [= <- <- <-].
  apply handler_status_run in Hst as [Hnd Hst].
  assert (forall k, dict_get k (dict_update [] st) = dict_get k st) as Hupd.
  { intros k. rewrite dict_get_update by done. by destruct (dict_get k st). }
  change (as_dict (dget "status" (default [] (Some [("status", PDict (dict_update [] st))]))))
    with (dict_update [] st).
  assert (NoDup (dict_keys (dict_update [] st))) as Hnd' by (apply dict_update_NoDup; constructor).
  assert (forall b, dict_get "dryRun" st = Some (PBool b) ->
    py_eqb (dget "dryRun" (dict_update [] st)) (PBool false) = negb b) as Hflag.
  { intros b Hb. unfold dget, dict_get_or. rewrite Hupd, Hb. by destruct b. }
  destruct Hst as [[b Hb]|[Hc Hd]].
  - destruct Hb as [h Hc Hd Hp|h Ha Hcs Hp Hc Hd]; rewrite (Hflag _ Hd); simpl.
    + unfold consumed at 1, dget, dict_get_or. destruct (consumed status) as [c|] eqn:Ec; simpl in Hc.
      * rewrite (merge_sets _ _ _ c) by (done || by rewrite Hupd). apply hash_field_str. by eapply consumed_nonempty.
      * rewrite merge_keeps by (by rewrite Hupd). done.
    + exists h. split; [done|]. split; [done|]. apply consumed_set.
      * apply merge_sets; [done|]. by rewrite Hupd.
      * unfold approval, hash_field in Ha. by apply given_some in Ha as [_ ?].
  - rewrite (Hflag _ Hd). simpl. unfold consumed at 1, dget, dict_get_or. by rewrite merge_keeps by (by rewrite Hupd).
Qed.

(** Once the hash is consumed, the calls that approve it only preview and report nothing applied. *)
Lemma fires_consumed (R : S -> S -> Prop) `{!PreOrder R} `{!PreviewSafe R} ns specs h status (s s' : S) flags :
  (forall a, frames R (manager_factory a)) ->
  Forall (fun spec => approval spec = Some h) specs -> consumed status = Some h ->
  fires ns specs status s = (s', Ok flags) -> Forall (eq false) flags /\ R s s'.
Proof.
  intros Hfac. revert status s flags. induction specs as [|spec specs IH]; simpl; intros status s flags Hall Hc H.
  - by injection H as <- <-.
  - apply Forall_cons in Hall as [Ha Hall].
    apply bind_inv_ok in H as (s1 & [st b] & Hf & (s2 & l & Hl & H)%bind_inv_ok). injection H as <- <-.
    assert (R s s1) as HR.
    { revert Hf. unfold fire, try_Exception, try_catch, bind.
      destruct (handler_touches manager_factory utc_now R Hfac spec (body_of status) ns (Some []) s)
        as [HR|(creds & h' & _ & _ & Ha' & Hc')]; [|change (consumed (mapping _)) with (consumed status) in Hc'; congruence].
      destruct (reconcile_redfish_node_profile _ _ _ _ _ _ s) as [t [p|e|]]; [|destruct (is_Exception e)|done]; by intros [= <- _ _]. }
    apply fire_run in Hf. destruct b; [destruct Hf as (h' & Ha' & Hn & _); congruence|].
    destruct (IH st s1 l) as [Hflags HR']; [done|congruence|exact Hl|]. split; [by constructor|by etransitivity].
Qed.

(** At most one call reports an applied plan, and what comes after it only previews. *)
Lemma fires_once (R : S -> S -> Prop) `{!PreOrder R} `{!PreviewSafe R} ns specs h status (s s' : S) flags :
  (forall a, frames R (manager_factory a)) ->
  Forall (fun spec => approval spec = Some h) specs ->
  fires ns specs status s = (s', Ok flags) ->
  length (filter (eq true) flags) <= 1 /\
  forall n, flags !! n = Some true -> R (fires ns (take (Datatypes.S n) specs) status s).1 s'.
Proof.
  intros Hfac. revert status s flags. induction specs as [|spec specs IH]; intros status s flags Hall H.
  - injection H as <- <-. split; [simpl; lia|done].
  - apply Forall_cons in Hall as [Ha Hall]. cbn [fires] in H.
    apply bind_inv_ok in H as (s1 & [st b] & Hf & (s2 & l & Hl & H)%bind_inv_ok). injection H as <- <-.
    assert (forall n, (fires ns (take (Datatypes.S n) (spec :: specs)) status s).1 = (fires ns (take n specs) st s1).1) as Hstep.
    { intros n. cbn [take fires]. unfold bind. rewrite Hf. by destruct (fires ns (take n specs) st s1) as [t [x|e|]]. }
    pose proof (fire_run _ _ _ _ _ _ _ Hf) as Hrun. rewrite filter_cons. destruct b.
    + destruct Hrun as (h' & Ha' & _ & Hc). assert (h' = h) as -> by congruence.
      destruct (fires_consumed R ns specs h st s1 s2 l Hfac Hall Hc Hl) as [Hfl HR].
      assert (filter (eq true) l = []) as Hnone by (clear -Hfl; induction Hfl as [|x l <- _ IH]; [done|]; by rewrite filter_cons, decide_False).
      rewrite decide_True, Hnone by done. split; [simpl; lia|]. intros [|n] Hn; rewrite Hstep; [by rewrite take_0|].
      simpl in Hn. rewrite Forall_forall in Hfl. by apply list_elem_of_lookup_2, Hfl in Hn.
    + destruct (IH st s1 l Hall Hl) as [Hlen Hlater]. rewrite decide_False by done. split; [done|].
      intros [|n] Hn; [done|]. rewrite Hstep. by apply Hlater.
Qed.
End History.

(** C7.  An approval is used up by the call that completes it: however often the handler is called, on changes of the
    spec or by the timer, whatever the commands answer and however Kubernetes keeps the status within the two laws of a
    merge patch, as long as the approved hash stays the same at most one of the calls reports an applied plan, and every
    command that runs after that call is a preview.  A call that fails while it applies reports an error and does not use
    the approval up. *)
Theorem approval_single_use (env : environment) {kube : Secrets.Kube} (make : manager_args -> res unit) (utc_now : list call -> Z)
    (merge : pydict -> pydict -> pydict) ns specs h status (log log' : list call) flags :
  (forall d p k, dict_get k p = None -> dict_get k (merge d p) = dict_get k d) ->
  (forall d p k s, NoDup (dict_keys p) -> dict_get k p = Some (PStr s) -> dict_get k (merge d p) = Some (PStr s)) ->
  Forall (fun spec => approval spec = Some h) specs ->
  let run := fires (SyncInvoker0 := recorder env) (fun a => lift_res (make a)) utc_now merge ns in
  run specs status log = (log', Ok flags) ->
  length (filter (eq true) flags) <= 1 /\
  forall n, flags !! n = Some true ->
    only_calls (fun c => is_preview c = true) (run (take (S n) specs) status log).1 log'.
Proof.
  intros Hk Hs Hall run Hrun.
  apply (fires_once (SyncInvoker0 := recorder env) _ utc_now merge Hk Hs (only_calls (fun c => is_preview c = true)) ns specs h status log log' flags);
    [|done..]. intros a. apply frames_lift. exact _.
Qed.

(** C15. A hash approves one plan: two plans without floats that have the same hash
    have the same required steps, as JSON documents (key order aside), unless their
    texts are a collision of SHA-256. *)
Theorem plan_hash_binds p q h :
  forallb Json.float_free p = true -> forallb Json.float_free q = true ->
  plan_hash p = Ok (Some h) -> plan_hash q = Ok (Some h) ->
  approved_document p = approved_document q \/
  exists s t, Json.dumps_compact (PList (required_steps p)) = Ok s /\
    Json.dumps_compact (PList (required_steps q)) = Ok t /\ Sha256.collision s t.
Proof.
  intros Hp Hq (s & Hs & ->)%plan_hash_some (t & Ht & Heq)%plan_hash_some.
  destruct (decide (s = t)) as [->|Hne]; [|right; by exists s, t]. left.
  eapply dumps_document; [by apply forallb_required..|exact Hs|exact Ht].
Qed.

(** ** Evaluation *)

(** The top level of a JSON merge patch. *)
Definition merge_patch (d p : pydict) : pydict :=
  fold_left (fun acc kv => match kv.2 with PNone => dict_del kv.1 acc | v => dict_set kv.1 v acc end) p d.

Lemma merge_patch_keeps d p k : dict_get k p = None -> dict_get k (merge_patch d p) = dict_get k d.
Proof.
  unfold merge_patch. revert d. induction p as [|[k' v] p IH]; simpl; intros d Hk; [done|].
  case_decide; [done|]. rewrite IH by done. destruct v; by rewrite ?dict_get_set_ne, ?dict_get_del_ne.
Qed.

Lemma merge_patch_sets d p k s :
  NoDup (dict_keys p) -> dict_get k p = Some (PStr s) -> dict_get k (merge_patch d p) = Some (PStr s).
Proof.
  unfold merge_patch. revert d. induction p as [|[k' v] p IH]; simpl; intros d Hnd Hk; [done|].
  apply NoDup_cons in Hnd as [Hni Hnd]. case_decide; [|by apply IH].
  simplify_eq. change (dict_get k' (merge_patch (dict_set k' (PStr s) d) p) = Some (PStr s)).
  rewrite merge_patch_keeps; [apply dict_get_set_eq|]. by apply dict_get_None.
Qed.

Definition no_kube : Secrets.Kube := {|
  Secrets.kube_client := false;
  Secrets.read_namespaced_secret _ _ := Ok None
|}.

(** A node whose NTP servers differ until they are set. *)
Definition ntp_node : environment := fun log c =>
  let set := existsb (fun c => bool_decide (c_api c = "NtpSet") && truthy (dget "confirm" (c_kwargs c))) log in
  Ok (mkResult
        (if decide (c_api c = "ManagerNetworkProtocol") then
           PList [PDict [("Manager", PStr "1");
             ("NTP", PDict [("ProtocolEnabled", PBool true);
                            ("NTPServers", PList [PStr (if set then "a.org" else "b.org")])])]]
         else PDict [("plan", PList [PDict [("target", PStr "/m/1")]]); ("applied", PList [])])
        PNone PNone PNone).

Definition ntp_spec (approved : string) : pydict :=
  [("endpoint", PDict [("address", PStr "10.0.0.9")]);
   ("desiredState", PDict [("ntp", PDict [("servers", PList [PStr "a.org"])])]);
   ("approvedPlanHash", PStr approved)].

Definition ntp_plan : list pyval :=
  Eval vm_compute in
  match (reconcile_spec (SyncInvoker0 := recorder ntp_node)
           (mapping (dget "desiredState" (ntp_spec ""))) false false false []).2 with
  | Ok r => map planned_step (steps r)
  | _ => []
  end.

Definition ntp_hash : string :=
  Eval vm_compute in match plan_hash ntp_plan with Ok (Some h) => h | _ => "" end.

Abbreviation node_fires := (fires (SyncInvoker0 := recorder ntp_node) (kube := no_kube)
  (fun _ => lift_res (Ok tt)) (fun _ => 0%Z) merge_patch (Some "default")).

(** The plan is shown, approved, applied, and not applied again. *)
Example node_life :
  (node_fires [ntp_spec ""; ntp_spec "x"; ntp_spec ntp_hash; ntp_spec ntp_hash] [] []).2
  = Ok [false; false; true; false].
Proof. vm_compute. reflexivity. Qed.

Lemma approval_single_use_witness :
  let run := node_fires in
  exists flags, (run [ntp_spec ntp_hash; ntp_spec ntp_hash] [] []).2 = Ok flags /\ flags = [true; false] /\
    length (filter (eq true) flags) <= 1 /\
    only_calls (fun c => is_preview c = true) (run (take 1 [ntp_spec ntp_hash; ntp_spec ntp_hash]) [] []).1
      (run [ntp_spec ntp_hash; ntp_spec ntp_hash] [] []).1.
Proof.
  cbv zeta. exists [true; false]. split; [vm_compute; reflexivity|]. split; [done|].
  destruct (approval_single_use ntp_node (kube := no_kube) (fun _ => Ok tt) (fun _ => 0%Z) merge_patch (Some "default")
    [ntp_spec ntp_hash; ntp_spec ntp_hash] ntp_hash [] [] (node_fires [ntp_spec ntp_hash; ntp_spec ntp_hash] [] []).1 [true; false]
    merge_patch_keeps merge_patch_sets) as [H1 H2].
  - repeat constructor.
  - vm_compute. reflexivity.
  - split; [exact H1|]. exact (H2 0 eq_refl).
Defined.

(** A node that refuses the change: the approved plan is tried at every call. *)
Definition stubborn_node : environment := fun log c =>
  if decide (c_api c = "NtpSet" /\ truthy (dget "confirm" (c_kwargs c)) = true)
  then Ok (mkResult PNone PNone PNone (PStr "refused")) else ntp_node [] c.

Example failed_apply_repeats :
  let out := fires (SyncInvoker0 := recorder stubborn_node) (kube := no_kube) (fun _ => ret tt) (fun _ => 0%Z) merge_patch (Some "default")
               [ntp_spec ntp_hash; ntp_spec ntp_hash] [] [] in
  out.2 = Ok [false; false] /\
  length (List.filter (fun c => bool_decide (c_api c = "NtpSet") && truthy (dget "confirm" (c_kwargs c))) out.1) = 2.
Proof. vm_compute. auto. Qed.

(** Key order does not change the plan. *)
Definition reordered_plan : list pyval :=
  map (fun v => match v with PDict d => PDict (rev d) | v => v end) ntp_plan.

Lemma plan_hash_binds_witness :
  approved_document ntp_plan = approved_document reordered_plan \/
  exists s t, Json.dumps_compact (PList (required_steps ntp_plan)) = Ok s /\
    Json.dumps_compact (PList (required_steps reordered_plan)) = Ok t /\ Sha256.collision s t.
Proof. apply (plan_hash_binds ntp_plan reordered_plan ntp_hash); vm_compute; reflexivity. Defined.
End NodeProfile.
