(* ===== verification/Endpoint.v ===== *)
(** * The endpoint controller

    src/k8s/controller/redfish_endpoint_controller.py: a Kubernetes operator that
    polls a BMC through the typed API on the cadence its resource asks for,
    backs off exponentially while the BMC cannot be read, and reports
    conditions whose transition times only move when the condition does.
    Seconds are decimals (Numbers.v); the wall clock, the environment variable
    of the base cadence and the Kubernetes client are parameters. *)

From stdpp Require Import base list strings.
From Stdlib Require Import Ascii ZArith Lia.
From S2P Require Import Prelude PyVal Effects Http Invoker Api.
From S2P Require Import Timestamps Urls Numbers Secrets NodeProfile.

Module Endpoint.
Import Http Api Numbers.
Local Open Scope Z_scope.
Local Open Scope py_scope.

Definition MAX_FIRMWARE_COMPONENTS : nat := 64.
Definition DEFAULT_POLL_INTERVAL_SECONDS : dec := (30, 0).
Definition POLL_DUE_TOLERANCE_SECONDS : dec := (1, 0).
Definition MAX_BACKOFF_SECONDS : dec := (600, 0).

(** ** Readings *)

(** [_number(value)] *)
Definition number (v : pyval) : res (option dec) :=
  match v with
  | PNone | PBool _ => Ok None
  | PInt z => let? d := float_of_int z in Ok (Some d)
  | PFloat m e => Ok (Some (m, e))
  | PStr s => Ok (parse_decimal s)
  | v => let? d := py_float v in Ok (Some d)
  end.

(** [max(l)]: the first of the greatest *)
Definition dec_max (x : dec) (l : list dec) : dec :=
  fold_left (fun acc y => if dec_lt acc y then y else acc) l x.

(** [_temperature_summary(thermal)] *)
Definition temperature_summary (th : ThermalStatus) : res pyval :=
  let? values := res_fold (fun acc row =>
      let? r := number (tmp_reading_celsius row) in
      Ok (match r with Some d => acc ++ [d] | None => acc end)) [] (th_temperatures th) in
  Ok (PDict [("count", PInt (Z.of_nat (length values)));
             ("maxCelsius", match values with [] => PNone | x :: l => float_val (dec_max x l) end)]).

(** [rank.get(value, -1)]; a list or dict is not hashable *)
Definition health_rank (v : pyval) : res Z :=
  match v with
  | PStr "OK" => Ok 0
  | PStr "Warning" => Ok 1
  | PStr "Critical" => Ok 2
  | PList _ | PDict _ => Raise (TypeError ("unhashable type: '" +:+ type_name v +:+ "'"))
  | _ => Ok (-1)
  end.

(** [_health_from_sensors(sensors)] *)
Definition health_from_sensors (sensors : list SensorReading) : res pyval :=
  match filter (fun v => truthy v = true) (map sen_health sensors) with
  | [] => Ok PNone
  | x :: l =>
      let? r := health_rank x in
      let? best := res_fold (fun acc v =>
          let? r := health_rank v in Ok (if acc.2 <? r then (v, r) else acc)) (x, r) l in
      Ok best.1
  end.

(** [int(summary.get(key, 0) or 0)] *)
Definition count_field (k : string) (summary : pydict) : res pyval :=
  let? n := py_int (py_or (dict_get_or k (PInt 0) summary) (PInt 0)) in Ok (PInt n).

(** [_network_firmware_summary(network_firmware)] *)
Definition network_firmware_summary (nf : NetworkFirmwareStatus) : res pyval :=
  let summary := nf_summary nf in
  let components := map (fun fw => PDict
      [("id", fw_id fw); ("deviceClass", fw_device_class fw); ("version", fw_version fw);
       ("updateable", if is_none (fw_updateable fw) then PNone else PBool (truthy (fw_updateable fw)))])
      (take MAX_FIRMWARE_COMPONENTS (nf_firmware nf)) in
  let? versions := match py_iter (dict_get_or "distinct_versions" (PList []) summary) with
                   | Some l => Ok l
                   | None => Raise (TypeError "object is not iterable")
                   end in
  let distinct := map (fun v => PStr (py_str v)) (filter (fun v => is_none v = false) versions) in
  let? a := count_field "adapter_count" summary in
  let? n := count_field "nic_count" summary in
  let? d := count_field "dpu_count" summary in
  let? f := count_field "firmware_count" summary in
  let? u := count_field "updateable_count" summary in
  Ok (PDict [("adapterCount", a); ("nicCount", n); ("dpuCount", d); ("firmwareCount", f);
             ("updateableCount", u); ("distinctVersions", PList distinct); ("components", PList components)]).

(** [build_status(system, sensors, thermal, network_firmware, polled_at)] *)
Definition build_status (system : SystemStatus) (sensors : list SensorReading) (th : ThermalStatus)
    (nf : option NetworkFirmwareStatus) (polled_at : Z) : res pydict :=
  let? health := if truthy (sys_health system) then Ok (sys_health system) else health_from_sensors sensors in
  let? temperature := temperature_summary th in
  let status := [("powerState", sys_power_state system); ("health", health); ("temperature", temperature);
                 ("lastPolled", PStr (Timestamps.rfc3339 polled_at))] in
  match nf with
  | None => Ok status
  | Some nf => let? s := network_firmware_summary nf in Ok (dict_set "networkFirmware" s status)
  end.

(** ** Cadence *)

(** One or more digits, as a decimal. *)
Definition digits1 (s : string) : option (Z * string) :=
  let '(ds, r) := Urls.span PyStr.is_digit s in
  (fun z => (z, r)) <$> (if PyStr.nonempty ds then digits_val 0 false ds else None).

(** A match of [^\s*(\d+(?:\.\d+)?)\s*([smh]?)\s*$]: the number and the unit. *)
Definition match_interval (s : string) : option (dec * string) :=
  let skip s := PyStr.lstrip_by PyStr.is_space s in
  '(ip, r) ← digits1 (skip s);
  let '(num, r) :=
    match r with
    | String "." r' =>
        let '(ds, r'') := Urls.span PyStr.is_digit r' in
        match (if PyStr.nonempty ds then digits_val ip false ds else None) with
        | Some m => ((m, - Z.of_nat (String.length ds)), r'')
        | None => ((ip, 0), r)
        end
    | _ => ((ip, 0), r)
    end in
  match skip r with
  | String u r' =>
      if bool_decide (u = "s"%char) || bool_decide (u = "m"%char) || bool_decide (u = "h"%char)
      then if PyStr.nonempty (skip r') then None else Some (num, char_str u)
      else None
  | EmptyString => Some (num, "")
  end.

Definition unit_seconds (u : string) : Z :=
  if decide (u = "m") then 60 else if decide (u = "h") then 3600 else 1.

Definition positive (d : dec) : bool := 0 <? d.1.

(** [parse_interval_seconds(text, default)] *)
Definition parse_interval_seconds (text : pyval) (dflt : dec) : res dec :=
  match text with
  | PNone | PBool _ => Ok dflt
  | PInt z => if 0 <? z then float_of_int z else Ok dflt
  | PFloat m e => Ok (if positive (m, e) then (m, e) else dflt)
  | _ => match match_interval (py_str text) with
         | None => Ok dflt
         | Some (num, u) => let value := dec_mul num (dec_of_Z (unit_seconds u)) in
                            Ok (if positive value then value else dflt)
         end
  end.

(** [base_interval_seconds()], given the environment variable *)
Definition base_interval_seconds (env : option string) : res dec :=
  parse_interval_seconds (opt_str env) DEFAULT_POLL_INTERVAL_SECONDS.

(** [(now - then).total_seconds()] *)
Definition elapsed_seconds (now since : Z) : dec := (now - since, -6).

(** [poll_due(spec, status, now)] *)
Definition poll_due (env : option string) (spec status : pydict) (now : Z) : res bool :=
  let next_after := Timestamps.parse_rfc3339 (dget "nextPollAfter" status) in
  if match next_after with Some t => now <? t | None => false end then Ok false
  else match Timestamps.parse_rfc3339 (dget "lastPolled" status) with
       | None => Ok true
       | Some last =>
           let? base := base_interval_seconds env in
           let? desired := parse_interval_seconds (dget "pollInterval" spec) base in
           Ok (dec_le desired (dec_add (elapsed_seconds now last) POLL_DUE_TOLERANCE_SECONDS))
       end.

(** [backoff_seconds(failures, base)]: the power of two is an integer, converted to
    a float by the product *)
Definition backoff_seconds (failures : Z) (base : dec) : res dec :=
  if failures <? 1 then Ok base
  else let? factor := float_of_int (2 ^ (failures - 1)) in
       Ok (dec_min (dec_mul base factor) MAX_BACKOFF_SECONDS).

(** [timedelta(seconds=d)] in microseconds, rounded half to even *)
Definition micros (d : dec) : Z :=
  let e := d.2 + 6 in
  if 0 <=? e then d.1 * 10 ^ e
  else let q := 10 ^ (- e) in
       let f := d.1 / q in
       let r := d.1 mod q in
       if (2 * r <? q) || ((2 * r =? q) && Z.even f) then f else f + 1.

Definition representable (t : Z) : bool :=
  (-719162 * Timestamps.day * Timestamps.second <=? t) && (t <? 2932897 * Timestamps.day * Timestamps.second).

(** [now + timedelta(seconds=d)] *)
Definition add_seconds (now : Z) (d : dec) : res Z :=
  let t := now + micros d in
  if representable t then Ok t else Raise (OverflowError "date value out of range").

(** ** Conditions *)

(** The text of a condition status, a bool or a text. *)
Definition status_text (status : pyval) : string :=
  match status with PBool b => if b then "True" else "False" | v => py_str v end.

(** [_condition(condition_type, status, reason, message, changed_at)] *)
Definition condition (ctype : string) (status : pyval) (reason message : string) (changed_at : Z)
  : res pydict :=
  let rendered := status_text status in
  if negb (bool_decide (rendered ∈ ["True"; "False"; "Unknown"]))
  then Raise (ValueError ("invalid Kubernetes condition status: " +:+ rendered))
  else
    let c := [("type", PStr ctype); ("status", PStr rendered); ("reason", PStr reason);
              ("lastTransitionTime", PStr (Timestamps.rfc3339 changed_at))] in
    Ok (if PyStr.nonempty message then c ++ [("message", PStr message)] else c).

(** The previous conditions by type, the last of a type winning. *)
Definition previous_conditions (previous_status : pydict) : res (list (string * pydict)) :=
  match py_iter (dict_get_or "conditions" (PTuple []) previous_status) with
  | None => Raise (TypeError "conditions is not iterable")
  | Some l => Ok (fold_left (fun acc item =>
      match item with
      | PDict d => if truthy (dget "type" d) then dict_set (py_str (dget "type" d)) d acc else acc
      | _ => acc
      end) l [])
  end.

(** A desired condition: type, status, reason, message. *)
Abbreviation desired_condition := (string * pyval * string * string)%type.

(** One entry of [_merge_conditions] *)
Definition merge_condition (previous : list (string * pydict)) (changed_at : Z) (w : desired_condition)
  : res pydict :=
  let '(ctype, status, reason, message) := w in
  let? c := condition ctype status reason message changed_at in
  Ok (match dict_get ctype previous with
      | Some prior =>
          match dget "lastTransitionTime" prior with
          | PStr t => if py_eqb (dget "status" prior) (dget "status" c)
                      then dict_set "lastTransitionTime" (PStr t) c else c
          | _ => c
          end
      | None => c
      end).

(** [_merge_conditions(previous_status, desired, changed_at)] *)
Definition merge_conditions (previous_status : pydict) (desired : list desired_condition) (changed_at : Z)
  : res (list pydict) :=
  let? previous := previous_conditions previous_status in
  res_fold (fun acc w => let? c := merge_condition previous changed_at w in Ok (acc ++ [c])) [] desired.

(** ** Failures *)

(** [isinstance(e, POLL_ERRORS)]; every [RequestException] is an [OSError] *)
Definition is_poll_error (e : exn) : bool :=
  match e with
  | RedfishApiError _ | RedfishUnauthorized _ | RedfishForbidden _ | RedfishMethodNotAllowed _
  | RedfishNotAcceptable _ | RedfishOther _ _ | RedfishException _ | AuthenticationFailed _ | ResourceNotFound _
  | TransportError _ | RequestTimeout _ | ConnectionFailed _ | JSONDecodeError _
  | FileNotFoundError _ => true
  | _ => false
  end.

(** [exc.__class__.__name__] of the errors that are classified *)
Definition class_name (e : exn) : string :=
  match e with
  | RedfishApiError _ => "RedfishApiError" | RedfishUnauthorized _ => "RedfishUnauthorized"
  | RedfishForbidden _ => "RedfishForbidden" | RedfishMethodNotAllowed _ => "RedfishMethodNotAllowed"
  | RedfishNotAcceptable _ => "RedfishNotAcceptable" | RedfishOther c _ => c
  | RedfishException _ => "RedfishException"
  | AuthenticationFailed _ => "AuthenticationFailed" | ResourceNotFound _ => "ResourceNotFound"
  | TransportError _ => "RequestException" | RequestTimeout _ => "Timeout"
  | ConnectionFailed _ => "ConnectionError" | JSONDecodeError _ => "JSONDecodeError"
  | FileNotFoundError _ => "FileNotFoundError" | OtherError c _ => c | RuntimeError _ => "RuntimeError"
  | _ => "Exception"
  end.

(** [_classify_poll_error(exc)] *)
Definition classify_poll_error (e : exn) : string * string :=
  let message := if PyStr.nonempty (exn_str e) then exn_str e else class_name e in
  (match e with
   | RedfishUnauthorized _ | RedfishForbidden _ | AuthenticationFailed _ => "AuthenticationFailed"
   | ResourceNotFound _ => "ResourceNotFound"
   | RequestTimeout _ => "Timeout"
   | ConnectionFailed _ | TransportError _ | JSONDecodeError _ | FileNotFoundError _ => "BMCUnreachable"
   | _ => "PollFailed"
   end, message).

(** [_int(value)] *)
Definition int_or_zero (v : pyval) : Z := match py_int v with Ok z => z | _ => 0 end.

(** The conditions of a failed poll. *)
Definition error_conditions (reason message : string) : list desired_condition :=
  let '(reachable, authenticated, areason) :=
    if decide (reason = "AuthenticationFailed") then (PBool true, PBool false, "AuthenticationFailed")
    else if decide (reason = "BMCUnreachable" \/ reason = "Timeout")
         then (PBool false, PStr "Unknown", "AuthenticationNotAttempted")
    else (PBool true, PBool true, "CredentialsAccepted") in
  [("Reachable", reachable, if is_True reachable then "RedfishServiceResponding" else reason,
    if is_True reachable then "" else message);
   ("Authenticated", authenticated, areason, if py_eqb authenticated (PBool false) then message else "");
   ("ProfileResolved", PStr "Unknown", "ProfileNotResolved", message);
   ("Ready", PBool false, reason, message)].

(** [build_error_status(prev_status, exc, now, base_interval)] *)
Definition build_error_status (prev_status : pydict) (e : exn) (now : Z) (base : dec) : res pydict :=
  let failures := int_or_zero (dget "consecutiveFailures" prev_status) + 1 in
  let '(reason, message) := classify_poll_error e in
  let? delay := backoff_seconds failures base in
  let? conditions := merge_conditions prev_status (error_conditions reason message) now in
  let? until := add_seconds now delay in
  Ok [("conditions", PList (map PDict conditions)); ("consecutiveFailures", PInt failures);
      ("lastError", PStr message); ("nextPollAfter", PStr (Timestamps.rfc3339 until))].

Definition success_conditions : list desired_condition :=
  [("Reachable", PBool true, "RedfishServiceResponding", "");
   ("Authenticated", PBool true, "CredentialsAccepted", "");
   ("ProfileResolved", PBool true, "DmtfProfileSelected", "");
   ("Ready", PBool true, "PollSucceeded", "")].

(** [build_success_status(readings, now, prev_status)] *)
Definition build_success_status (readings : pydict) (now : Z) (prev_status : pydict) : res pydict :=
  let? conditions := merge_conditions prev_status success_conditions now in
  Ok (dict_set "nextPollAfter" PNone (dict_set "lastError" PNone
       (dict_set "consecutiveFailures" (PInt 0)
         (dict_set "conditions" (PList (map PDict conditions)) readings)))).

(** ** The endpoint *)

(** [_server_address(spec)] *)
Definition server_address (spec : pydict) : res string :=
  let raw := NodeProfile.raw_address spec in
  let? parsed := Urls.urlsplit raw in
  Ok (if NodeProfile.http_scheme (Urls.scheme parsed) then
        match Urls.hostname parsed with
        | Some h => h
        | None => if PyStr.nonempty (Urls.netloc parsed) then Urls.netloc parsed else raw
        end
      else raw).

(** [int(spec.get("port") or DEFAULT_PORT)] *)
Definition port_of (spec : pydict) : res Z := py_int (py_or (dget "port" spec) (PInt NodeProfile.DEFAULT_PORT)).

(** [_manager_address(spec)] *)
Definition manager_address (spec : pydict) : res (string * bool) :=
  let raw := NodeProfile.raw_address spec in
  if negb (PyStr.nonempty raw) then Raise (ValueError "RedfishEndpoint spec.address is required")
  else
    let? parsed := Urls.urlsplit raw in
    if NodeProfile.http_scheme (Urls.scheme parsed) then
      let host := if PyStr.nonempty (Urls.netloc parsed) then Urls.netloc parsed else Urls.path parsed in
      Ok (PyStr.rstrip_char "/"%char host, bool_decide (Urls.scheme parsed = "http"))
    else
      let? port := port_of spec in
      Ok (raw, negb (port =? NodeProfile.DEFAULT_PORT) && truthy (dict_get_or "insecure" (PBool false) spec)).

(** [_make_manager(spec, credentials, manager_factory)], up to the call *)
Definition make_manager_args (spec : pydict) (creds : list (string * string)) : res NodeProfile.manager_args :=
  let? (address, is_http) := manager_address spec in
  let? port := port_of spec in
  Ok (NodeProfile.ManagerArgs address (dict_get_or "username" NodeProfile.DEFAULT_USERNAME creds)
        (dict_get_or "password" "" creds) port (truthy (dict_get_or "insecure" (PBool true) spec)) is_http).

(** ** The controller *)

Section Controller.
Context {S : Type} `{!SyncInvoker S} {kube : Secrets.Kube}.
Context (manager_factory : NodeProfile.manager_args -> M S unit) (utc_now : S -> Z) (env : option string).
Abbreviation MM := (M S).

(** [_safe_network_firmware(manager)] *)
Definition safe_network_firmware : MM (option NetworkFirmwareStatus) :=
  try_Exception (let! nf := get_network_firmware in ret (Some nf)) (fun _ => ret None).

(** [poll_endpoint(spec, credentials, polled_at)]; closing the session has no effect
    on what is modelled *)
Definition poll_endpoint (spec : pydict) (creds : list (string * string)) (polled_at : Z) : MM pydict :=
  let! args := lift_res (make_manager_args spec creds) in
  manager_factory args ;;;
  let! system := get_system false in
  let! sensors := get_sensors false in
  let! th := get_thermal in
  let! nf := safe_network_firmware in
  lift_res (build_status system sensors th nf polled_at).

(** The status of one poll: readings, or the error of a BMC that could not be read. *)
Definition poll_status (spec : pydict) (namespace : option string) (current : pydict) (now : Z) (base : dec)
  : MM pydict :=
  let! outcome :=
    try_catch
      (let! creds := lift_res (Secrets.load_secret_credentials namespace (dget "secretRef" spec)) in
       let! readings := poll_endpoint spec creds now in
       ret (inl readings))
      is_poll_error (fun e => ret (inr e)) in
  lift_res (match outcome with
            | inl readings => build_success_status readings now current
            | inr e => build_error_status current e now base
            end).

(** [poll_redfish_endpoint(spec, body, namespace, patch=patch, status=status,
    force=force)] *)
Definition poll_redfish_endpoint (spec : pydict) (body : pyval) (namespace : option string)
    (patch : option pydict) (status : pyval) (force : bool) : MM (option pydict) :=
  let! _ := lift_res (server_address spec) in
  let current := as_dict (if is_none status then dget "status" (as_dict body) else status) in
  let! now := gets utc_now in
  let! due := if force then ret true else lift_res (poll_due env spec current now) in
  if negb due then ret patch
  else
    let! base := lift_res (base_interval_seconds env) in
    let! new_status := poll_status spec namespace current now base in
    match patch with
    | Some p => let! p' := lift_res (NodeProfile.update_patch p new_status) in ret (Some p')
    | None => ret None
    end.

(** [poll_on_change]: create and update events *)
Definition poll_on_change (spec : pydict) (body : pyval) (namespace : option string) (patch : option pydict)
    (status : pyval) : MM (option pydict) :=
  poll_redfish_endpoint spec body namespace patch status true.
End Controller.

(** ** Backing off *)

Lemma float_of_small_power k : 0 <= k <= 1023 -> float_of_int (2 ^ k) = Ok (2 ^ k, 0).
Proof.
  intros Hk. unfold float_of_int.
  assert (0 < 2 ^ k) by (apply Z.pow_pos_nonneg; lia).
  assert (2 ^ k <= 2 ^ 1023) by (apply Z.pow_le_mono_r; lia).
  assert (2 ^ 1023 < float_bound) by (vm_compute; reflexivity).
  rewrite Z.abs_eq by lia. by replace (2 ^ k <? float_bound) with true by lia.
Qed.

Lemma float_of_large_power k : 1024 <= k ->
  float_of_int (2 ^ k) = Raise (OverflowError "int too large to convert to float").
Proof.
  intros Hk. unfold float_of_int.
  assert (2 ^ 1024 <= 2 ^ k) by (apply Z.pow_le_mono_r; lia).
  assert (float_bound < 2 ^ 1024) by (vm_compute; reflexivity).
  assert (0 < 2 ^ k) by (apply Z.pow_pos_nonneg; lia).
  rewrite Z.abs_eq by lia. by replace (2 ^ k <? float_bound) with false by lia.
Qed.

Lemma dec_le_factor base k k' :
  positive base = true -> 0 <= k <= k' -> dec_le (dec_mul base (2 ^ k, 0)) (dec_mul base (2 ^ k', 0)) = true.
Proof.
  unfold positive, dec_le, dec_mul. intros Hb Hk. simpl. rewrite !Z.add_0_r.
  fold (dec_lt (base.1 * 2 ^ k', base.2) (base.1 * 2 ^ k, base.2)).
  unfold dec_lt, num_ltb. simpl. rewrite Z.min_id, Z.sub_diag, !Z.mul_1_r.
  assert (2 ^ k <= 2 ^ k') by (apply Z.pow_le_mono_r; lia).
  apply negb_true_iff, Z.ltb_ge. nia.
Qed.

Lemma dec_min_mono a a' b : dec_le a a' = true -> dec_le (dec_min a b) (dec_min a' b) = true.
Proof.
  intros H. apply dec_min_glb; [|apply dec_min_le_r]. eapply dec_le_trans; [apply dec_min_le_l|done].
Qed.

Lemma backoff_value n base :
  1 <= n <= 1024 ->
  backoff_seconds n base = Ok (dec_min (dec_mul base (2 ^ (n - 1), 0)) MAX_BACKOFF_SECONDS).
Proof.
  intros Hn. unfold backoff_seconds. replace (n <? 1) with false by lia.
  by rewrite float_of_small_power by lia.
Qed.

(** C16.  The delay after consecutive failures is bounded, from 1 to 1024 failures:
    it is at least the base cadence (or the cap, when that is smaller), at most
    the cap of 600 seconds, and does not decrease with the failures; from the
    1025th failure on the power of two no longer converts to a float, and the
    computation raises [OverflowError]. *)
Theorem backoff_bounds n base :
  positive base = true -> 1 <= n ->
  if n <=? 1024 then
    exists d, backoff_seconds n base = Ok d /\
      dec_le (dec_min base MAX_BACKOFF_SECONDS) d = true /\ dec_le d MAX_BACKOFF_SECONDS = true /\
      forall n' d', n <= n' -> backoff_seconds n' base = Ok d' -> dec_le d d' = true
  else backoff_seconds n base = Raise (OverflowError "int too large to convert to float").
Proof.
  intros Hb Hn. destruct (Z.leb_spec n 1024).
  - eexists. split; [apply backoff_value; lia|]. split; [|split].
    + apply dec_min_mono. pose proof (dec_le_factor base 0 (n - 1) Hb ltac:(lia)) as Hf.
      unfold dec_mul at 1 in Hf. simpl in Hf. rewrite Z.mul_1_r, Z.add_0_r in Hf.
      by destruct base.
    + apply dec_min_le_r.
    + intros n' d' Hn'. destruct (Z.leb_spec n' 1024).
      * rewrite backoff_value by lia. intros [= <-]. apply dec_min_mono, dec_le_factor; [done|lia].
      * unfold backoff_seconds. replace (n' <? 1) with false by lia.
        by rewrite float_of_large_power by lia.
  - unfold backoff_seconds. replace (n <? 1) with false by lia.
    by rewrite float_of_large_power by lia.
Qed.

Lemma backoff_bounds_witness :
  backoff_seconds 5 DEFAULT_POLL_INTERVAL_SECONDS = Ok (480, 0) /\
  (exists d, backoff_seconds 5 DEFAULT_POLL_INTERVAL_SECONDS = Ok d /\ dec_le d MAX_BACKOFF_SECONDS = true) /\
  backoff_seconds 1025 DEFAULT_POLL_INTERVAL_SECONDS
  = Raise (OverflowError "int too large to convert to float").
Proof.
  split; [reflexivity|]. split.
  - destruct (backoff_bounds 5 DEFAULT_POLL_INTERVAL_SECONDS) as (d & Hd & _ & Hle & _);
      [reflexivity|lia|by exists d].
  - apply (backoff_bounds 1025 DEFAULT_POLL_INTERVAL_SECONDS); [reflexivity|lia].
Defined.

(** *** The deadline is kept *)

Lemma error_status_fields prev e now base st :
  build_error_status prev e now base = Ok st ->
  exists delay until,
    backoff_seconds (int_or_zero (dget "consecutiveFailures" prev) + 1) base = Ok delay /\
    add_seconds now delay = Ok until /\ dict_keys st =
      ["conditions"; "consecutiveFailures"; "lastError"; "nextPollAfter"] /\
    dict_get "nextPollAfter" st = Some (PStr (Timestamps.rfc3339 until)) /\
    dict_get "consecutiveFailures" st = Some (PInt (int_or_zero (dget "consecutiveFailures" prev) + 1)).
Proof.
  unfold build_error_status. destruct (classify_poll_error e) as [reason message].
  intros (delay & Hd & (cs & Hcs & (until & Hu & H)%res_bind_ok)%res_bind_ok)%res_bind_ok.
  injection H as <-. by exists delay, until.
Qed.

Lemma add_seconds_ok now d t : add_seconds now d = Ok t -> t = now + micros d /\ Timestamps.representable t.
Proof.
  unfold add_seconds, representable, Timestamps.representable. case_match eqn:H; [|done].
  intros [= <-]. apply andb_true_iff in H as [H1 H2]. split; [done|].
  apply Z.leb_le in H1. apply Z.ltb_lt in H2. done.
Qed.

Lemma not_due env spec status until t :
  dict_get "nextPollAfter" status = Some (PStr (Timestamps.rfc3339 until)) -> Timestamps.representable until ->
  t < until / Timestamps.second * Timestamps.second -> poll_due env spec status t = Ok false.
Proof.
  intros Hs Hr Ht. unfold poll_due, dget, dict_get_or. rewrite Hs. cbn [from_option default id].
  change (default PNone (Some (PStr (Timestamps.rfc3339 until)))) with (PStr (Timestamps.rfc3339 until)).
  rewrite Timestamps.rfc3339_parses by done. by replace (t <? _) with true by lia.
Qed.

Section Kept.
Context {S : Type} `{!SyncInvoker S} {kube : Secrets.Kube}.
Context (manager_factory : NodeProfile.manager_args -> M S unit) (utc_now : S -> Z) (env : option string).

(** A BMC that could not be read is left alone until the deadline: once the
    status carries the deadline of a failed poll, a call of the handler on the
    timer before that instant, in whole seconds, runs no command at all and
    leaves the patch as it is. *)
Theorem backoff_respected prev e now base st status spec body ns patch (s : S) :
  build_error_status prev e now base = Ok st ->
  dict_get "nextPollAfter" status = dict_get "nextPollAfter" st ->
  (exists a, server_address spec = Ok a) ->
  exists delay,
    backoff_seconds (int_or_zero (dget "consecutiveFailures" prev) + 1) base = Ok delay /\
    (utc_now s < (now + micros delay) / Timestamps.second * Timestamps.second ->
     poll_redfish_endpoint manager_factory utc_now env spec body ns patch (PDict status) false s
     = (s, Ok patch)).
Proof.
  intros (delay & until & Hd & Hu & _ & Hn & _)%error_status_fields Hst [a Ha].
  exists delay. split; [done|]. intros Ht. apply add_seconds_ok in Hu as [-> Hr].
  unfold poll_redfish_endpoint, bind, lift_res, gets. rewrite Ha. cbn [is_none as_dict].
  rewrite (not_due env spec status _ (utc_now s) (eq_trans Hst Hn) Hr Ht). done.
Qed.
End Kept.

(** ** Conditions *)

Lemma condition_fields ctype status reason message at_ c :
  condition ctype status reason message at_ = Ok c ->
  dget "type" c = PStr ctype /\ dict_get "lastTransitionTime" c = Some (PStr (Timestamps.rfc3339 at_)).
Proof.
  unfold condition. cbv zeta.
  destruct (negb _); [done|]. destruct (PyStr.nonempty message); intros [= <-]; split; reflexivity.
Qed.

(** Transition times tell transitions: a reported condition keeps the
    transition time of the previous condition of its type exactly when its
    status is unchanged (and the time is a text), and carries the current time
    otherwise; types come out in the order asked for. *)
Theorem transition_times prev desired now cs previous :
  previous_conditions prev = Ok previous -> merge_conditions prev desired now = Ok cs ->
  Forall2 (fun w c =>
    let '(ctype, _, _, _) := w in
    dget "type" c = PStr ctype /\
    dget "lastTransitionTime" c =
      match dict_get ctype previous with
      | Some prior =>
          match dget "lastTransitionTime" prior with
          | PStr t => if py_eqb (dget "status" prior) (dget "status" c) then PStr t
                      else PStr (Timestamps.rfc3339 now)
          | _ => PStr (Timestamps.rfc3339 now)
          end
      | None => PStr (Timestamps.rfc3339 now)
      end) desired cs.
Proof.
  intros Hp. unfold merge_conditions. rewrite Hp. cbn [res_bind].
  set (Q := fun (w : desired_condition) (c : pydict) => _).
  enough (forall acc0 acc, Forall2 Q acc0 acc -> forall l cs',
    res_fold (fun acc w => let? c := merge_condition previous now w in Ok (acc ++ [c])) acc l = Ok cs' ->
    Forall2 Q (acc0 ++ l) cs') as H by (apply (H [] []); constructor).
  intros acc0 acc Hacc l. revert acc0 acc Hacc.
  induction l as [|w l IH]; simpl; intros acc0 acc Hacc cs'.
  - intros [= <-]. by rewrite app_nil_r.
  - intros (acc' & (c & Hc & [= <-])%res_bind_ok & H)%res_bind_ok.
    specialize (IH (acc0 ++ [w]) (acc ++ [c])). rewrite <- app_assoc in IH. apply IH; [|done].
    apply Forall2_app; [done|]. constructor; [|constructor]. clear -Hc.
    unfold merge_condition in Hc. destruct w as [[[ctype status] reason] message].
    apply res_bind_ok in Hc as (c0 & Hc0 & [= <-]). apply condition_fields in Hc0 as [Ht Hl].
    unfold Q. destruct (dict_get ctype previous) as [prior|];
      [|split; [done|]; unfold dget, dict_get_or; by rewrite Hl].
    destruct (dget "lastTransitionTime" prior) eqn:Hprior;
      try (split; [done|]; unfold dget at 1, dict_get_or; by rewrite Hl).
    destruct (py_eqb (dget "status" prior) (dget "status" c0)) eqn:Heq.
    + assert (forall k, k <> "lastTransitionTime" ->
        dget k (dict_set "lastTransitionTime" (PStr s) c0) = dget k c0) as Hk
        by (intros k Hk; unfold dget, dict_get_or; by rewrite dict_get_set_ne).
      rewrite (Hk "type"), (Hk "status"), Heq by done. split; [exact Ht|]. unfold dget, dict_get_or. by rewrite dict_get_set_eq.
    + split; [done|]. unfold dget at 1, dict_get_or. rewrite Hl. simpl. by rewrite Heq.
Qed.

(** ** What is reported of a failure *)

(** The status text of the reported condition of a type. *)
Definition condition_status (cs : list pydict) (ctype : string) : option pyval :=
  (fun c => dget "status" c) <$> List.find (fun c => eq_str (dget "type" c) ctype) cs.

Lemma merge_condition_status previous now ctype status reason message c :
  merge_condition previous now (ctype, status, reason, message) = Ok c ->
  dget "type" c = PStr ctype /\
  dget "status" c = PStr (status_text status).
Proof.
  unfold merge_condition. intros (c0 & Hc0 & [= <-])%res_bind_ok.
  assert (dget "type" c0 = PStr ctype /\
    dget "status" c0 = PStr (status_text status)) as Hf.
  { revert Hc0. unfold condition. cbv zeta.
    destruct (negb _); [done|]. destruct (PyStr.nonempty message); intros [= <-]; split; reflexivity. }
  unfold dget, dict_get_or in *. repeat case_match; try exact Hf; by rewrite !dict_get_set_ne.
Qed.

(** The statuses of the four conditions, in order. *)
Lemma merge_four prev now t1 s1 r1 m1 t2 s2 r2 m2 t3 s3 r3 m3 t4 s4 r4 m4 cs :
  merge_conditions prev [(t1, s1, r1, m1); (t2, s2, r2, m2); (t3, s3, r3, m3); (t4, s4, r4, m4)] now = Ok cs ->
  map (fun c => (dget "type" c, dget "status" c)) cs =
  map (fun w : string * pyval => (PStr w.1, PStr (status_text w.2)))
    [(t1, s1); (t2, s2); (t3, s3); (t4, s4)].
Proof.
  unfold merge_conditions. intros (previous & _ & H)%res_bind_ok. cbn [res_fold] in H.
  repeat match goal with
  | H : res_bind _ _ = Ok _ |- _ => apply res_bind_ok in H as (? & ? & ?)
  | H : Ok _ = Ok _ |- _ => injection H as <-
  | H : merge_condition _ _ _ = Ok _ |- _ => apply merge_condition_status in H as [? ?]
  end. cbn [map fst snd app].
  repeat match goal with H : dget _ _ = _ |- _ => rewrite H; clear H end. reflexivity.
Qed.

(** What the conditions of a failed poll say: the endpoint is never reported
    ready; it is reported unreachable exactly for transport failures and for
    responses that are not JSON, of which a service did answer, and
    unauthenticated exactly for rejected credentials. *)
Theorem error_conditions_report prev e now base st :
  build_error_status prev e now base = Ok st ->
  exists cs, dict_get "conditions" st = Some (PList (map PDict cs)) /\
    condition_status cs "Ready" = Some (PStr "False") /\
    (condition_status cs "Reachable" = Some (PStr "False") <->
     match e with
     | RequestTimeout _ | ConnectionFailed _ | TransportError _ | FileNotFoundError _ | JSONDecodeError _ => True
     | _ => False
     end) /\
    (condition_status cs "Authenticated" = Some (PStr "False") <->
     match e with RedfishUnauthorized _ | RedfishForbidden _ | AuthenticationFailed _ => True | _ => False end).
Proof.
  unfold build_error_status. destruct (classify_poll_error e) as [reason message] eqn:Hcl.
  intros (delay & _ & (cs & Hcs & (until & _ & [= <-])%res_bind_ok)%res_bind_ok)%res_bind_ok.
  exists cs. split; [done|]. unfold classify_poll_error in Hcl. injection Hcl as Hr _.
  assert (forall a b c d, map (fun c => (dget "type" c, dget "status" c)) cs =
    [(PStr "Reachable", a); (PStr "Authenticated", b); (PStr "ProfileResolved", c); (PStr "Ready", d)] ->
    condition_status cs "Reachable" = Some a /\ condition_status cs "Authenticated" = Some b /\
    condition_status cs "Ready" = Some d) as Hread.
  { clear. intros a b c d H. destruct cs as [|c1 [|c2 [|c3 [|c4 [|]]]]]; try done. simpl in H.
    injection H as H1 <- H2 <- H3 <- H4 <-. unfold condition_status. simpl.
    rewrite H1. simpl. rewrite H2. simpl. rewrite H3. simpl. by rewrite H4. }
  destruct e; simpl in Hr; subst reason; apply merge_four in Hcs; simpl in Hcs;
    apply Hread in Hcs as (-> & -> & ->); (split; [done|]); split; split; done.
Qed.

(** A response body that is not JSON. *)
Lemma error_conditions_report_witness :
  exists st cs, build_error_status [] (JSONDecodeError "Expecting value") 0 DEFAULT_POLL_INTERVAL_SECONDS = Ok st /\
    dict_get "conditions" st = Some (PList (map PDict cs)) /\
    condition_status cs "Reachable" = Some (PStr "False").
Proof.
  eexists. destruct (error_conditions_report [] (JSONDecodeError "Expecting value") 0 DEFAULT_POLL_INTERVAL_SECONDS
    _ eq_refl) as (cs & Hc & _ & [_ Hr] & _).
  exists cs. split; [reflexivity|]. split; [exact Hc|]. by apply Hr.
Defined.

(** ** Evaluation *)

(** A process whose state is its clock and whose commands all fail. *)
Definition dead_bmc : SyncInvoker Z := fun _ _ _ => raise (ConnectionFailed "no route to host").

Abbreviation poll_dead := (poll_redfish_endpoint (SyncInvoker0 := dead_bmc) (kube := NodeProfile.no_kube)
  (fun _ => ret tt) (fun s : Z => s) None [("address", PStr "10.0.0.9")] PNone None (Some [])).

Definition dead_status : pydict :=
  Eval vm_compute in
  match build_error_status [] (ConnectionFailed "no route to host") 0 DEFAULT_POLL_INTERVAL_SECONDS with
  | Ok st => st | _ => [] end.

Example dead_poll : poll_dead (PDict []) false 0 = (0, Ok (Some [("status", PDict dead_status)])).
Proof. vm_compute. reflexivity. Qed.

Lemma backoff_respected_witness :
  poll_dead (PDict dead_status) false 29999999 = (29999999, Ok (Some [])) /\
  (poll_dead (PDict dead_status) false 30000000).2 <> Ok (Some []).
Proof.
  split; [|vm_compute; discriminate].
  destruct (backoff_respected (SyncInvoker0 := dead_bmc) (kube := NodeProfile.no_kube) (fun _ => ret tt)
    (fun s : Z => s) None [] (ConnectionFailed "no route to host") 0 DEFAULT_POLL_INTERVAL_SECONDS dead_status
    dead_status [("address", PStr "10.0.0.9")] PNone None (Some []) 29999999) as (delay & Hd & H);
    [vm_compute; reflexivity|reflexivity|eexists; vm_compute; reflexivity|].
  apply H. vm_compute in Hd. injection Hd as <-. vm_compute. reflexivity.
Defined.

(** A Ready condition that turns and a Reachable one that does not. *)
Definition turning : pydict :=
  [("conditions", PList [PDict [("type", PStr "Ready"); ("status", PStr "True");
                                ("lastTransitionTime", PStr "2026-01-01T00:00:00Z")];
                         PDict [("type", PStr "Reachable"); ("status", PStr "True");
                                ("lastTransitionTime", PStr "2026-01-02T00:00:00Z")]])].

Lemma transition_times_witness :
  exists c1 c2 c3 c4, merge_conditions turning (error_conditions "PollFailed" "m") 0 = Ok [c1; c2; c3; c4] /\
    dget "lastTransitionTime" c1 = PStr "2026-01-02T00:00:00Z" /\
    dget "lastTransitionTime" c4 = PStr "1970-01-01T00:00:00Z".
Proof.
  do 4 eexists. split; [vm_compute; reflexivity|].
  pose proof (transition_times turning (error_conditions "PollFailed" "m") 0 _ _ eq_refl eq_refl) as H.
  apply Forall2_cons_1 in H as [[_ H1] H]. do 2 apply Forall2_cons_1 in H as [_ H].
  apply Forall2_cons_1 in H as [[_ H4] _]. split; [exact H1|exact H4].
Defined.
End Endpoint.
