(* ===== verification/MockOverlay.v ===== *)
(** * The overlay store of the mock BMC

    src/k8s/sandbox/mock_bmc_server.py, class [_OverlayStore] and the helpers on
    request paths and documents.  The store keeps, per resource, a dict that is
    merged over the captured document when it is read.  A transition stores the
    dict of its [value] itself, not a copy, so a later transition that descends
    into it changes the trace: the sharing is part of the model.  An overlay is
    a tree whose [OShared t] nodes stand for the value object of transition
    [t]; the objects are kept in [objects]. *)

From stdpp Require Import base list strings.
From Stdlib Require Import Ascii ZArith Lia.
From S2P Require Import Prelude PyVal Effects Urls.

Module MockOverlay.
Local Open Scope py_scope.

(** ** Paths *)

(** [_normalize_request_path(request_path)] *)
Definition normalize_request_path (request_path : string) : res string :=
  let? parsed := Urls.urlsplit request_path in
  let p := Urls.unquote (Urls.path parsed) in
  Ok (if negb (bool_decide (p = "/")) && PyStr.endswith "/" p then PyStr.rstrip_char "/"%char p else p).

(** [_candidate_map_keys(request_path)] *)
Definition candidate_map_keys (request_path : string) : res (list string) :=
  let? p := normalize_request_path request_path in
  Ok (if decide (p = "/redfish/v1") then [p; "/redfish/v1/"] else [p]).

(** [_lookup_mapping(mapping, request_path)] *)
Definition lookup_mapping (d : pydict) (request_path : string) : res pyval :=
  let? keys := candidate_map_keys request_path in
  Ok (match List.find (fun k => dict_in k d) keys with Some k => dget k d | None => PNone end).

(** [_mapping_dict(api_map, key)] *)
Definition mapping_dict (api_map : pydict) (k : string) : pydict :=
  as_dict (py_or (dget k api_map) (PDict [])).

(** ** Documents *)

(** [_deep_update(target, overlay)]: the target after it *)
Fixpoint deep_update_val (overlay : pyval) (target : pyval) {struct overlay} : pyval :=
  match overlay with
  | PDict od =>
      match target with
      | PDict td =>
          PDict ((fix go (od : pydict) (td : pydict) : pydict :=
                    match od with
                    | [] => td
                    | (k, v) :: od' => go od' (dict_set k (deep_update_val v (dget k td)) td)
                    end) od td)
      | _ => overlay
      end
  | v => v
  end.

Fixpoint deep_update (target overlay : pydict) : pydict :=
  match overlay with
  | [] => target
  | (k, v) :: rest => deep_update (dict_set k (deep_update_val v (dget k target)) target) rest
  end.

Lemma deep_update_eq target overlay :
  deep_update_val (PDict overlay) (PDict target) = PDict (deep_update target overlay).
Proof.
  simpl. f_equal. revert target. induction overlay as [|[k v] o IH]; intros target; simpl; [done|].
  apply IH.
Qed.

(** [_body_contains(actual, expected)] *)
Fixpoint body_contains (actual expected : pyval) {struct expected} : bool :=
  match expected with
  | PDict d =>
      match actual with
      | PDict a => forallb (fun kv => match dict_get kv.1 a with
                                      | Some v => body_contains v kv.2
                                      | None => false
                                      end) d
      | _ => false
      end
  | PList l =>
      match actual with
      | PList a =>
          (fix all (l a : list pyval) : bool :=
             match l, a with
             | [], _ => true
             | x :: l', y :: a' => body_contains y x && all l' a'
             | _ :: _, [] => false
             end) l a
      | _ => false
      end
  | _ => py_eqb actual expected
  end.

(** ** The store *)

Inductive otree : Type :=
| OVal (v : pyval)
| ODict (d : list (string * otree))
| OShared (t : nat).

Abbreviation odict := (list (string * otree)).

(** A loaded value as the object it is: dicts are mutable, and a list is never
    entered by a transition. *)
Fixpoint otree_of (v : pyval) : otree :=
  match v with
  | PDict d => ODict (map (fun kv => (kv.1, otree_of kv.2)) d)
  | v => OVal v
  end.

(** A transition of a trace or rule; [tr_object] is the identity of its value. *)
Record transition := Transition { tr_fields : pydict; tr_object : nat }.

Record store := Store {
  overlays : list (string * otree);
  objects : list otree
}.

(** The dict behind a node, when it is one. *)
Definition node_dict (objs : list otree) (n : otree) : option odict :=
  match n with
  | ODict d => Some d
  | OShared t => match objs !! t with Some (ODict d) => Some d | _ => None end
  | OVal _ => None
  end.

(** The node after its dict became [d], in place when it is shared. *)
Definition put_dict (objs : list otree) (n : otree) (d : odict) : list otree * otree :=
  match n with
  | OShared t => (<[t := ODict d]> objs, n)
  | _ => (objs, ODict d)
  end.

(** [_set_value] after [_path_parts]: [keys] is [parts[:-1]] and [k] the last part *)
Fixpoint set_at (objs : list otree) (n : otree) (keys : list string) (k : string) (v : otree)
  : list otree * otree :=
  match keys with
  | [] => put_dict objs n (dict_set k v (default [] (node_dict objs n)))
  | key :: rest =>
      let child := match dict_get key (default [] (node_dict objs n)) with
                   | Some c => match node_dict objs c with Some _ => c | None => ODict [] end
                   | None => ODict []
                   end in
      let '(objs', child') := set_at objs child rest k v in
      put_dict objs' n (dict_set key child' (default [] (node_dict objs' n)))
  end.

(** [_delete_value] after [_path_parts] *)
Fixpoint delete_at (objs : list otree) (n : otree) (keys : list string) (k : string) : list otree * otree :=
  match keys with
  | [] => put_dict objs n (dict_del k (default [] (node_dict objs n)))
  | key :: rest =>
      match dict_get key (default [] (node_dict objs n)) with
      | Some c =>
          match node_dict objs c with
          | Some _ => let '(objs', child') := delete_at objs c rest k in
                      put_dict objs' n (dict_set key child' (default [] (node_dict objs' n)))
          | None => (objs, n)
          end
      | None => (objs, n)
      end
  end.

(** [_path_parts(keys)] *)
Definition path_parts (keys : pyval) : res (list string) :=
  match keys with
  | PStr s => Ok [s]
  | PList l => if forallb (fun v => match v with PStr _ => true | _ => false end) l
               then Ok (omap (fun v => match v with PStr s => Some s | _ => None end) l)
               else Raise (ValueError "state transition needs field or json_path")
  | _ => Raise (ValueError "state transition needs field or json_path")
  end.

(** [parts[:-1]] and [parts[-1]] *)
Fixpoint split_last (x : string) (l : list string) : list string * string :=
  match l with
  | [] => ([], x)
  | y :: l' => let '(init, z) := split_last y l' in (x :: init, z)
  end.

Definition split_parts (parts : list string) : res (list string * string) :=
  match parts with
  | [] => Raise (IndexError "list index out of range")
  | x :: l => Ok (split_last x l)
  end.

(** [transition.get("json_path", transition.get("field"))] *)
Definition keys_of (d : pydict) : pyval := dict_get_or "json_path" (dget "field" d) d.

(** The object a transition stores: a dict by reference, anything else as it is. *)
Definition value_node (st : store) (t : transition) : otree :=
  match dict_get "value" (tr_fields t) with
  | Some (PDict _) => OShared (tr_object t)
  | Some v => OVal v
  | None => OVal PNone
  end.

(** One round of [_apply_transitions]; transitions that are no dict are left out
    when the trace is loaded *)
Definition apply_transition (t : transition) : M store unit := fun st =>
  match dget "path" (tr_fields t) with
  | PStr resource_path =>
      match normalize_request_path resource_path with
      | Ok p =>
          let ovs := dict_setdefault p (ODict []) (overlays st) in
          let overlay := dict_get_or p (ODict []) ovs in
          let st1 := Store ovs (objects st) in
          let op := dget "op" (tr_fields t) in
          if eq_str op "set" || eq_str op "delete" then
            match res_bind (path_parts (keys_of (tr_fields t))) split_parts with
            | Ok (init, k) =>
                let '(objs, overlay') :=
                  if eq_str op "set" then set_at (objects st) overlay init k (value_node st t)
                  else delete_at (objects st) overlay init k in
                (Store (dict_set p overlay' ovs) objs, Ok tt)
            | Raise e =>
                (* [_delete_value] and [_set_value] both raise before they change the overlay *)
                (st1, Raise e)
            | NoFuel => (st1, NoFuel)
            end
          else (st1, Ok tt)
      | Raise e => (st, Raise e)
      | NoFuel => (st, NoFuel)
      end
  | _ => (st, Ok tt)
  end.

(** [_apply_transitions(transitions)] *)
Fixpoint apply_transitions (ts : list transition) : M store unit :=
  match ts with
  | [] => ret tt
  | t :: rest => apply_transition t ;;; apply_transitions rest
  end.

(** ** Reading *)

(** [copy.deepcopy] of a node; sharing is followed at most [fuel] deep *)
Fixpoint resolve (fuel : nat) (objs : list otree) : otree -> pyval :=
  fix go (n : otree) : pyval :=
    match n with
    | OVal v => v
    | ODict d => PDict (map (fun kv => (kv.1, go kv.2)) d)
    | OShared t => match fuel with
                   | O => PNone
                   | S fuel' => match objs !! t with Some o => resolve fuel' objs o | None => PNone end
                   end
    end.

Definition deepcopy (objs : list otree) (n : otree) : pyval := resolve (S (length objs)) objs n.

(** [overlay_for(request_path)] *)
Definition overlay_for (st : store) (request_path : string) : res pydict :=
  let? p := normalize_request_path request_path in
  Ok (as_dict (deepcopy (objects st) (dict_get_or p (ODict []) (overlays st)))).

(** [self._overlays.clear()]: the objects of the trace stay as they are *)
Definition clear_overlays (st : store) : store := Store [] (objects st).

(** Loading a trace: each transition that is a dict gets the next object. *)
Fixpoint load_transitions (raw : list pyval) (objs : list otree) : list otree * list transition :=
  match raw with
  | [] => (objs, [])
  | PDict d :: rest =>
      let '(objs', ts) := load_transitions rest (objs ++ [otree_of (dget "value" d)]) in
      (objs', Transition d (length objs) :: ts)
  | _ :: rest => load_transitions rest objs
  end.

(** ** Without sharing

    When no transition has a dict for its value, nothing is shared and the store
    is a map from paths to plain documents. *)

(** The same operations on documents. *)
Fixpoint pset (d : pydict) (keys : list string) (k : string) (v : pyval) : pydict :=
  match keys with
  | [] => dict_set k v d
  | key :: rest => dict_set key (PDict (pset (as_dict (dget key d)) rest k v)) d
  end.

Fixpoint pdelete (d : pydict) (keys : list string) (k : string) : pydict :=
  match keys with
  | [] => dict_del k d
  | key :: rest => match dget key d with
                   | PDict c => dict_set key (PDict (pdelete c rest k)) d
                   | _ => d
                   end
  end.

Fixpoint unshared (n : otree) : bool :=
  match n with
  | OVal (PDict _) => false
  | OVal _ => true
  | ODict d => forallb (fun kv => unshared kv.2) d
  | OShared _ => false
  end.

Fixpoint plain (n : otree) : pyval :=
  match n with
  | OVal v => v
  | ODict d => PDict (map (fun kv => (kv.1, plain kv.2)) d)
  | OShared _ => PNone
  end.

Definition plain_dict (d : odict) : pydict := map (fun kv => (kv.1, plain kv.2)) d.

Section OtreeInduction.
Context (P : otree -> Prop) (HVal : forall v, P (OVal v))
  (HDict : forall d : odict, Forall (fun kv => P kv.2) d -> P (ODict d)) (HShared : forall t, P (OShared t)).
Fixpoint otree_nested_ind (n : otree) : P n :=
  match n with
  | OVal v => HVal v
  | ODict d => HDict d ((fix go (d : odict) : Forall (fun kv => P kv.2) d :=
                           match d with
                           | [] => Forall_nil_2 _
                           | kv :: d' => Forall_cons_2 _ _ _ (otree_nested_ind kv.2) (go d')
                           end) d)
  | OShared t => HShared t
  end.
End OtreeInduction.

Lemma resolve_plain fuel objs n : unshared n = true -> resolve fuel objs n = plain n.
Proof.
  induction n as [v|d IH|t] using otree_nested_ind; intros H; [by destruct fuel| |done].
  assert (map (fun kv => (kv.1, resolve fuel objs kv.2)) d = map (fun kv => (kv.1, plain kv.2)) d) as Hm.
  { induction IH as [|[k n] d Hn _ IHd]; simpl in *; [done|]. apply andb_true_iff in H as [H1 H2].
    rewrite Hn, IHd by done. done. }
  destruct fuel; simpl in *; by rewrite Hm.
Qed.

Lemma dict_get_plain k d : dict_get k (plain_dict d) = plain <$> dict_get k d.
Proof. unfold plain_dict. induction d as [|[k' n] d IH]; simpl; [done|]. by case_decide. Qed.

Lemma dict_set_plain k n d : plain_dict (dict_set k n d) = dict_set k (plain n) (plain_dict d).
Proof.
  unfold plain_dict. induction d as [|[k' n'] d IH]; simpl; [done|]. case_decide; simpl; [done|]. by rewrite IH.
Qed.

Lemma dict_del_plain k d : plain_dict (dict_del k d) = dict_del k (plain_dict d).
Proof.
  unfold plain_dict, dict_del. induction d as [|[k' n'] d IH]; [done|]. simpl.
  rewrite !filter_cons. simpl. case_decide; simpl; by rewrite IH.
Qed.

Abbreviation unshared_dict d := (forallb (fun kv : string * otree => unshared kv.2) d = true).

Lemma unshared_get k d n : unshared_dict d -> dict_get k d = Some n -> unshared n = true.
Proof.
  intros Hd Hk%dict_get_In. rewrite forallb_forall in Hd. apply (Hd (k, n)). by apply list_elem_of_In.
Qed.

Lemma unshared_set k n d : unshared n = true -> unshared_dict d -> unshared_dict (dict_set k n d).
Proof.
  intros Hn. induction d as [|[k' n'] d IH]; simpl; [by rewrite Hn|]. intros [H1 H2]%andb_true_iff.
  case_decide; simpl; rewrite ?Hn, ?H1; auto.
Qed.

Lemma unshared_del k d : unshared_dict d -> unshared_dict (dict_del k d).
Proof.
  unfold dict_del. induction d as [|[k' n'] d IH]; [done|]. simpl. intros [H1 H2]%andb_true_iff.
  rewrite filter_cons. case_decide; simpl; rewrite ?H1; auto.
Qed.

(** The child that a step of the path enters. *)
Lemma child_plain objs key d :
  unshared_dict d ->
  exists cd, unshared_dict cd /\ plain_dict cd = as_dict (dget key (plain_dict d)) /\
    match dict_get key d with
    | Some c => match node_dict objs c with Some _ => c | None => ODict [] end
    | None => ODict []
    end = ODict cd.
Proof.
  intros Hd. unfold dget, dict_get_or. rewrite dict_get_plain.
  destruct (dict_get key d) as [c|] eqn:Hc; [|by exists []].
  pose proof (unshared_get _ _ _ Hd Hc) as Hu. destruct c as [v|cd|t]; [|by exists cd|done].
  exists []. split; [done|]. split; [|done]. simpl in *. by destruct v.
Qed.

Lemma set_at_plain objs d keys k v :
  unshared_dict d -> unshared (OVal v) = true ->
  exists d', set_at objs (ODict d) keys k (OVal v) = (objs, ODict d') /\ unshared_dict d' /\
    plain_dict d' = pset (plain_dict d) keys k v.
Proof.
  revert d. induction keys as [|key keys IH]; intros d Hd Hv; simpl.
  - eexists. split; [done|]. split; [by apply unshared_set|]. apply dict_set_plain.
  - destruct (child_plain objs key d Hd) as (cd & Hcd & Hp & ->).
    destruct (IH cd Hcd Hv) as (d' & -> & Hd' & Hp'). simpl.
    eexists. split; [done|]. split; [by apply unshared_set|].
    rewrite dict_set_plain. simpl. fold (plain_dict d'). by rewrite Hp', Hp.
Qed.

Lemma delete_at_plain objs d keys k :
  unshared_dict d ->
  exists d', delete_at objs (ODict d) keys k = (objs, ODict d') /\ unshared_dict d' /\
    plain_dict d' = pdelete (plain_dict d) keys k.
Proof.
  revert d. induction keys as [|key keys IH]; intros d Hd; simpl.
  - eexists. split; [done|]. split; [by apply unshared_del|]. apply dict_del_plain.
  - unfold dget, dict_get_or. rewrite dict_get_plain.
    destruct (dict_get key d) as [c|] eqn:Hc; [|by exists d].
    pose proof (unshared_get _ _ _ Hd Hc) as Hu. destruct c as [v|cd|t]; simpl; [|..|done].
    + exists d. simpl in Hu. by destruct v.
    + destruct (IH cd Hu) as (d' & -> & Hd' & Hp'). simpl.
      eexists. split; [done|]. split; [by apply unshared_set|].
      rewrite dict_set_plain. simpl. fold (plain_dict d') (plain_dict cd). by rewrite Hp'.
Qed.

(** *** The abstract store: a document per path *)

Abbreviation docs := (list (string * pydict)).

Definition ptransition (t : transition) : M docs unit := fun ds =>
  match dget "path" (tr_fields t) with
  | PStr resource_path =>
      match normalize_request_path resource_path with
      | Ok p =>
          let ds1 := dict_setdefault p [] ds in
          let overlay := dict_get_or p [] ds1 in
          let op := dget "op" (tr_fields t) in
          if eq_str op "set" || eq_str op "delete" then
            match res_bind (path_parts (keys_of (tr_fields t))) split_parts with
            | Ok (init, k) =>
                (dict_set p (if eq_str op "set" then pset overlay init k (dget "value" (tr_fields t))
                             else pdelete overlay init k) ds1, Ok tt)
            | Raise e => (ds1, Raise e)
            | NoFuel => (ds1, NoFuel)
            end
          else (ds1, Ok tt)
      | Raise e => (ds, Raise e)
      | NoFuel => (ds, NoFuel)
      end
  | _ => (ds, Ok tt)
  end.

Fixpoint ptransitions (ts : list transition) : M docs unit :=
  match ts with [] => ret tt | t :: rest => ptransition t ;;; ptransitions rest end.

(** The value of the transition is no dict. *)
Definition plain_value (t : transition) : Prop := is_dict (dget "value" (tr_fields t)) = false.

Definition abs_node (n : otree) : pydict := as_dict (plain n).
Definition abs (st : store) : docs := map (fun kv => (kv.1, abs_node kv.2)) (overlays st).

Definition clean_node (n : otree) : Prop := exists d, n = ODict d /\ unshared_dict d.
Definition clean (st : store) : Prop := Forall (fun kv => clean_node kv.2) (overlays st).

Lemma abs_get k (l : list (string * otree)) :
  dict_get k (map (fun kv => (kv.1, abs_node kv.2)) l) = abs_node <$> dict_get k l.
Proof. induction l as [|[k' n] l IH]; simpl; [done|]. by case_decide. Qed.

Lemma abs_set k n (l : list (string * otree)) :
  map (fun kv => (kv.1, abs_node kv.2)) (dict_set k n l)
  = dict_set k (abs_node n) (map (fun kv => (kv.1, abs_node kv.2)) l).
Proof. induction l as [|[k' n'] l IH]; simpl; [done|]. case_decide; simpl; [done|]. by rewrite IH. Qed.

Lemma clean_set k n (l : list (string * otree)) :
  clean_node n -> Forall (fun kv => clean_node kv.2) l -> Forall (fun kv => clean_node kv.2) (dict_set k n l).
Proof.
  intros Hn. induction 1 as [|[k' n'] l H1 H2 IH]; simpl; [by repeat constructor|].
  case_decide; by constructor.
Qed.

Lemma clean_get k (l : list (string * otree)) :
  Forall (fun kv => clean_node kv.2) l -> clean_node (dict_get_or k (ODict []) l).
Proof.
  intros H. unfold dict_get_or. destruct (dict_get k l) as [n|] eqn:Hk; [|by exists []].
  apply dict_get_In in Hk. rewrite Forall_forall in H. by apply (H (k, n)).
Qed.

(** One transition refines the operation on documents, and leaves the objects of
    the trace alone. *)
Lemma transition_refines t st :
  plain_value t -> clean st ->
  let out := apply_transition t st in
  objects out.1 = objects st /\ clean out.1 /\ ptransition t (abs st) = (abs out.1, out.2).
Proof.
  intros Ht Hst. unfold apply_transition, ptransition. cbv zeta.
  destruct (dget "path" (tr_fields t)) as [| | | |rp| | | |]; try done.
  destruct (normalize_request_path rp) as [p|e|]; [|done..].
  set (ovs := dict_setdefault p (ODict []) (overlays st)).
  assert (Forall (fun kv => clean_node kv.2) ovs) as Hovs.
  { unfold ovs, dict_setdefault. case_match; [done|]. apply clean_set; [by exists []|done]. }
  assert (dict_setdefault p [] (abs st) = map (fun kv => (kv.1, abs_node kv.2)) ovs) as Habs.
  { unfold ovs, dict_setdefault, dict_in, abs. rewrite abs_get.
    destruct (dict_get p (overlays st)); simpl; [done|]. by rewrite abs_set. }
  assert (dict_get_or p [] (map (fun kv => (kv.1, abs_node kv.2)) ovs)
          = abs_node (dict_get_or p (ODict []) ovs)) as Hget.
  { unfold dict_get_or. rewrite abs_get. by destruct (dict_get p ovs). }
  rewrite Habs, Hget. destruct (clean_get p ovs Hovs) as (d & -> & Hd).
  destruct (eq_str _ "set" || eq_str _ "delete") eqn:Hop; [|done].
  destruct (res_bind _ split_parts) as [[init k]|e|]; [|done..].
  change (abs_node (ODict d)) with (plain_dict d).
  destruct (eq_str (dget "op" (tr_fields t)) "set").
  - assert (value_node st t = OVal (dget "value" (tr_fields t)) /\
            unshared (OVal (dget "value" (tr_fields t))) = true) as [-> Hv].
    { unfold value_node. unfold plain_value, dget, dict_get_or in *.
      destruct (dict_get "value" (tr_fields t)) as [[]|]; simpl in *; by simplify_eq. }
    destruct (set_at_plain (objects st) d init k _ Hd Hv) as (d' & -> & Hd' & Hp). simpl.
    split; [done|]. split; [apply clean_set; [by exists d'|done]|].
    unfold abs. simpl. rewrite abs_set. change (abs_node (ODict d')) with (plain_dict d'). by rewrite Hp.
  - destruct (delete_at_plain (objects st) d init k Hd) as (d' & -> & Hd' & Hp). simpl.
    split; [done|]. split; [apply clean_set; [by exists d'|done]|].
    unfold abs. simpl. rewrite abs_set. change (abs_node (ODict d')) with (plain_dict d'). by rewrite Hp.
Qed.

Lemma transitions_refine ts st :
  Forall plain_value ts -> clean st ->
  let out := apply_transitions ts st in
  objects out.1 = objects st /\ clean out.1 /\ ptransitions ts (abs st) = (abs out.1, out.2).
Proof.
  revert st. induction ts as [|t ts IH]; intros st Hts Hst; simpl; [done|].
  apply Forall_cons in Hts as [Ht Hts]. destruct (transition_refines t st Ht Hst) as (Ho & Hc & Hp).
  unfold bind. rewrite Hp. destruct (apply_transition t st) as [st' [[]|e|]]; simpl in *; [|done..].
  destruct (IH st' Hts Hc) as (Ho' & Hc' & Hp'). rewrite <- Ho. done.
Qed.

Lemma overlay_for_plain st request_path :
  clean st -> overlay_for st request_path =
  (let? p := normalize_request_path request_path in Ok (dict_get_or p [] (abs st))).
Proof.
  intros Hst. unfold overlay_for. destruct (normalize_request_path request_path) as [p|e|]; [|done..].
  simpl. f_equal. unfold deepcopy. destruct (clean_get p (overlays st) Hst) as (d & Hg & Hd).
  rewrite Hg, resolve_plain by done. unfold dict_get_or, abs. rewrite abs_get.
  unfold dict_get_or in Hg. destruct (dict_get p (overlays st)); simpl in Hg; by simplify_eq.
Qed.

(** ** Writes are read back *)

Fixpoint get_path (v : pyval) (keys : list string) : option pyval :=
  match keys with
  | [] => Some v
  | k :: ks => match v with PDict d => dict_get k d ≫= fun c => get_path c ks | _ => None end
  end.

Lemma pset_get d keys k v : get_path (PDict (pset d keys k v)) (keys ++ [k]) = Some v.
Proof.
  revert d. induction keys as [|key keys IH]; intros d; simpl; rewrite dict_get_set_eq; simpl; [done|].
  apply IH.
Qed.

(** A value as JSON gives it: dicts have distinct keys, at every level. *)
Fixpoint wf (v : pyval) : Prop :=
  match v with
  | PDict d => NoDup (dict_keys d) /\
               (fix all (d : pydict) : Prop := match d with [] => True | kv :: d' => wf kv.2 /\ all d' end) d
  | PList l => (fix all (l : list pyval) : Prop := match l with [] => True | x :: l' => wf x /\ all l' end) l
  | PTuple _ | PErr _ _ _ _ _ => False
  | _ => True
  end.

Lemma wf_list l : wf (PList l) <-> Forall wf l.
Proof.
  simpl. split; intros H.
  - induction l as [|x l IH]; constructor; [apply H|apply IH, H].
  - induction H; simpl; auto.
Qed.

Lemma wf_dict d : wf (PDict d) <-> NoDup (dict_keys d) /\ Forall (fun kv => wf kv.2) d.
Proof.
  simpl. split; intros [Hnd H]; (split; [done|]); clear Hnd.
  - induction d as [|kv d IH]; constructor; [apply H|apply IH, H].
  - induction H; simpl; auto.
Qed.

Lemma wf_set k v d : wf v -> wf (PDict d) -> wf (PDict (dict_set k v d)).
Proof.
  rewrite !wf_dict. intros Hv [Hnd H]. split; [by apply dict_set_NoDup|]. clear Hnd.
  induction d as [|[k' v'] d IH]; simpl; [by repeat constructor|].
  apply Forall_cons in H as [H1 H2]. case_decide; constructor; auto.
Qed.

Lemma wf_get k d : wf (PDict d) -> wf (dget k d).
Proof.
  rewrite wf_dict. intros [_ H]. unfold dget, dict_get_or. destruct (dict_get k d) eqn:Hk; [|done].
  apply dict_get_In in Hk. rewrite Forall_forall in H. by apply (H (k, p)).
Qed.

Lemma wf_pset d keys k v : wf v -> wf (PDict d) -> wf (PDict (pset d keys k v)).
Proof.
  revert d. induction keys as [|key keys IH]; intros d Hv Hd; simpl pset; apply wf_set; try done.
  apply IH; [done|]. pose proof (wf_get key d Hd) as Hg.
  destruct (dget key d); try exact Hg; by split; constructor.
Qed.

Lemma wf_del k d : wf (PDict d) -> wf (PDict (dict_del k d)).
Proof.
  rewrite !wf_dict. intros [Hnd H]. unfold dict_del. split.
  - unfold dict_keys in *. clear H. induction d as [|[k' v] d IH]; [done|]. simpl in Hnd.
    apply NoDup_cons in Hnd as [Hni Hnd]. rewrite filter_cons. case_decide; [|by apply IH]. simpl.
    apply NoDup_cons. split; [|by apply IH]. intros ([x y] & -> & [_ Hin]%list_elem_of_filter)%list_elem_of_fmap.
    apply Hni, list_elem_of_fmap. by exists (x, y).
  - apply Forall_forall. intros x [_ Hx]%list_elem_of_filter. rewrite Forall_forall in H. by apply H.
Qed.

Lemma wf_pdelete d keys k : wf (PDict d) -> wf (PDict (pdelete d keys k)).
Proof.
  revert d. induction keys as [|key keys IH]; intros d Hd; simpl pdelete; [by apply wf_del|].
  pose proof (wf_get key d Hd) as Hg. destruct (dget key d); try done. apply wf_set; [by apply IH|done].
Qed.

Lemma deep_update_lookup overlay target k :
  NoDup (dict_keys overlay) ->
  dict_get k (deep_update target overlay) =
  match dict_get k overlay with
  | Some v => Some (deep_update_val v (dget k target))
  | None => dict_get k target
  end.
Proof.
  revert target. induction overlay as [|[k' v'] o IH]; simpl; intros target Hnd; [done|].
  apply NoDup_cons in Hnd as [Hni Hnd]. rewrite IH by done. case_decide; subst.
  - replace (dict_get k' o) with (@None pyval) by (symmetry; by apply dict_get_None).
    apply dict_get_set_eq.
  - destruct (dict_get k o); rewrite ?dict_get_set_ne by done; [|done].
    unfold dget, dict_get_or. by rewrite dict_get_set_ne.
Qed.

(** A leaf of the overlay is what the merged document has there. *)
Lemma deep_update_get overlay target ks v :
  wf overlay -> is_dict v = false -> ks <> [] ->
  get_path overlay ks = Some v -> get_path (deep_update_val overlay target) ks = Some v.
Proof.
  revert overlay target. induction ks as [|k ks IH]; [done|]. intros overlay target Hwf Hv _.
  destruct overlay as [| | | | | | |o|]; try done. intros H. cbn [get_path] in H.
  destruct (dict_get k o) as [c|] eqn:Hk; [|done]. simpl in H.
  destruct target as [| | | | | | |td|]; try (cbn [deep_update_val get_path]; by rewrite Hk).
  rewrite deep_update_eq. cbn [get_path]. rewrite deep_update_lookup, Hk by (by apply wf_dict in Hwf as [? _]).
  simpl. destruct ks as [|k2 ks].
  - simpl in H. injection H as ->. by destruct v.
  - pose proof (wf_get k o Hwf) as Hc. unfold dget, dict_get_or in Hc. rewrite Hk in Hc. simpl in Hc.
    by apply IH.
Qed.

(** ** The store as documents *)

(** C17. The overlay store is a refinement of one document per path: on a store that
    shares nothing, running transitions none of which stores an object on the nested,
    mutable dicts and then reading any path gives what running them on immutable
    documents gives, a failing transition included. *)
Theorem overlay_store_refines ts st request_path :
  Forall plain_value ts -> clean st ->
  let out := apply_transitions ts st in
  let spec := ptransitions ts (abs st) in
  out.2 = spec.2 /\
  overlay_for out.1 request_path =
    (let? p := normalize_request_path request_path in Ok (dict_get_or p [] spec.1)).
Proof.
  intros Hts Hst. cbv zeta. destruct (transitions_refine ts st Hts Hst) as (_ & Hc & ->).
  split; [done|]. by apply overlay_for_plain.
Qed.

Definition mode_transition : transition :=
  Transition [("op", PStr "set"); ("path", PStr "/s/1"); ("field", PStr "Mode"); ("value", PStr "Uefi")] 0.

Lemma overlay_store_refines_witness :
  overlay_for (apply_transitions [mode_transition; mode_transition] (Store [] [])).1 "/s/1/"
  = Ok [("Mode", PStr "Uefi")].
Proof.
  destruct (overlay_store_refines [mode_transition; mode_transition] (Store [] []) "/s/1/") as [_ H];
    [by repeat constructor|constructor|].
  rewrite H. reflexivity.
Defined.
End MockOverlay.
