(* ===== verification/MockRules.v ===== *)
(** * The write engines of the mock BMC

    src/k8s/sandbox/mock_bmc_server.py: [ReplayState], which accepts the writes
    of a trace in their order, and [MutationRules], which fires every rule whose
    request and preconditions match.  Both keep their overlays in the store of
    [MockOverlay].  The draws of [random.Random(seed)] are a parameter: the
    [n]-th draw of a seed, compared with a probability. *)

From stdpp Require Import base list strings pretty relations.
From Stdlib Require Import Ascii ZArith Lia.
From S2P Require Import Prelude PyVal Effects Urls Numbers MockOverlay.

Module MockRules.
Import MockOverlay.
Local Open Scope py_scope.

(** ** Python helpers *)

(** [s.upper()] *)
Definition upper_char (c : ascii) : ascii :=
  let n := nat_of_ascii c in
  if (97 <=? n)%nat && (n <=? 122)%nat then ascii_of_nat (n - 32) else c.
Definition upper (s : string) : string := PyStr.map_chars upper_char s.

(** [iter(v)] *)
Definition py_iter (v : pyval) : res (list pyval) :=
  match v with
  | PList l | PTuple l => Ok l
  | PDict d => Ok (map PStr (dict_keys d))
  | PStr s => Ok (map PStr (chars_of s))
  | _ => Raise (TypeError ("'" +:+ type_name v +:+ "' object is not iterable"))
  end.

(** ** [fnmatch.fnmatchcase] *)

Inductive gitem : Type :=
| GStar
| GAny
| GChar (c : ascii)
| GClass (neg : bool) (ranges : list (ascii * ascii)).

(** The ranges of a bracket expression. *)
Fixpoint class_ranges (s : string) : list (ascii * ascii) :=
  match s with
  | EmptyString => []
  | String a r =>
      match r with
      | String "-" (String b r') => (a, b) :: class_ranges r'
      | _ => (a, a) :: class_ranges r
      end
  end.

(** The text up to the first closing bracket, and what follows it. *)
Definition class_end (s : string) : option (string * string) :=
  let '(body, found, rest) := Urls.partition "]" s in
  if found then Some (body, rest) else None.

(** The contents of a bracket expression that starts after the opening bracket:
    a closing bracket in the first place is a member. *)
Definition class_body (s : string) : option (bool * string * string) :=
  let '(neg, s) := match s with String "!" r => (true, r) | r => (false, r) end in
  match s with
  | String "]" r => (fun p => (neg, String "]" p.1, p.2)) <$> class_end r
  | r => (fun p => (neg, p.1, p.2)) <$> class_end r
  end.

Fixpoint parse_glob (fuel : nat) (s : string) : list gitem :=
  match fuel, s with
  | S fuel, String c r =>
      if decide (c = "*"%char) then GStar :: parse_glob fuel r
      else if decide (c = "?"%char) then GAny :: parse_glob fuel r
      else if decide (c = "["%char) then
        match class_body r with
        | Some (neg, body, r') => GClass neg (class_ranges body) :: parse_glob fuel r'
        | None => GChar c :: parse_glob fuel r
        end
      else GChar c :: parse_glob fuel r
  | _, _ => []
  end.

Definition in_ranges (c : ascii) (ranges : list (ascii * ascii)) : bool :=
  existsb (fun ab => (nat_of_ascii ab.1 <=? nat_of_ascii c)%nat && (nat_of_ascii c <=? nat_of_ascii ab.2)%nat)
    ranges.

Definition item_matches (g : gitem) (c : ascii) : bool :=
  match g with
  | GStar | GAny => true
  | GChar x => bool_decide (x = c)
  | GClass neg ranges => xorb neg (in_ranges c ranges)
  end.

Fixpoint glob_matches (items : list gitem) : string -> bool :=
  match items with
  | [] => fun s => negb (PyStr.nonempty s)
  | GStar :: rest =>
      fix star (s : string) : bool :=
        glob_matches rest s || match s with String _ s' => star s' | EmptyString => false end
  | g :: rest =>
      fun s => match s with String c s' => item_matches g c && glob_matches rest s' | EmptyString => false end
  end.

(** [fnmatch.fnmatchcase(name, pat)] *)
Definition fnmatchcase (name pat : string) : bool :=
  glob_matches (parse_glob (String.length pat) pat) name.

Example globs :
  map (fun np => fnmatchcase np.1 np.2)
    [("/VirtualMedia/2", "/VirtualMedia/*"); ("/VirtualMedia/2", "/VirtualMedia/[!2]");
     ("/a/b", "/?/[a-c]"); ("ab", "a[]b]"); ("a[b", "a[b"); ("a-", "a[x-]"); ("/a", "/?/*")]
  = [true; false; true; true; true; true; false].
Proof. reflexivity. Qed.

(** ** Steps and rules

    A rule keeps its value, and the transitions of it that [_apply_transitions]
    can act on with their objects. *)

Record rule := Rule { r_value : pyval; r_transitions : res (list transition) }.

(** [rule.get("state_transitions") or []], iterated *)
Definition raw_transitions (v : pyval) : res (list pyval) :=
  py_iter (py_or (dget "state_transitions" (as_dict v)) (PList [])).

Fixpoint load_rules (raw : list pyval) (objs : list otree) : list otree * list rule :=
  match raw with
  | [] => (objs, [])
  | v :: rest =>
      let '(objs1, ts) := match raw_transitions v with
                          | Ok l => let '(o, ts) := load_transitions l objs in (o, Ok ts)
                          | Raise e => (objs, Raise e)
                          | NoFuel => (objs, NoFuel)
                          end in
      let '(objs2, rules) := load_rules rest objs1 in
      (objs2, Rule v ts :: rules)
  end.

(** [trace.get(key) or []], which must be a list *)
Definition rule_list (spec : pydict) (k err : string) : res (list pyval) :=
  match py_or (dget k spec) (PList []) with
  | PList l => Ok l
  | _ => Raise (ValueError err)
  end.

(** The body constraints of a step or rule. *)
Definition body_matches (d : pydict) (body : pyval) : bool :=
  match dict_get "body" d with Some b => py_eqb body b | None => true end &&
  match dict_get "body_contains" d with Some b => body_contains body b | None => true end.

(** [str(step.get("method", "")).upper() == method.upper()] *)
Definition method_matches (d : pydict) (method : string) : bool :=
  bool_decide (upper (py_str (dict_get_or "method" (PStr "") d)) = upper method).

(** [_normalize_request_path(str(step.get("path", "")))] *)
Definition rule_path (d : pydict) : res string :=
  normalize_request_path (py_str (dict_get_or "path" (PStr "") d)).

(** [response if isinstance(response, dict) else {"status": 204}] *)
Definition rule_response (d : pydict) (k : string) (dflt : Z) (empty : pydict) : pydict :=
  match py_or (dget k d) (PDict empty) with
  | PDict r => r
  | _ => [("status", PInt dflt)]
  end.

(** ** [ReplayState] *)

Record replay := Replay {
  scenario : string;
  steps : list rule;
  matched : list nat;
  rstore : store
}.

(** [ReplayState.__init__(trace)] *)
Definition new_replay (trace : pydict) : res replay :=
  let? raw := rule_list trace "steps" "replay trace steps must be a list" in
  let '(objs, rules) := load_rules raw [] in
  Ok (Replay (py_str (py_or (dget "scenario" trace) (PStr "default"))) rules [] (Store [] objs)).

Definition set_rstore (f : store -> store) (r : replay) : replay :=
  Replay (scenario r) (steps r) (matched r) (f (rstore r)).

(** Run an operation of the store on the store of an engine. *)
Definition on_store {S A} (get : S -> store) (put : store -> S -> S) (m : M store A) : M S A :=
  fun s => let '(st, out) := m (get s) in (put st s, out).

Definition replay_apply (ts : res (list transition)) : M replay unit :=
  let! l := lift_res ts in
  on_store rstore (fun st => set_rstore (fun _ => st)) (apply_transitions l).

(** [_matches(step, method, path, body)] *)
Definition step_matches (step : pyval) (method path : string) (body : pyval) : res bool :=
  match step with
  | PDict d =>
      if method_matches d method then
        let? p := rule_path d in
        Ok (bool_decide (p = path) && body_matches d body)
      else Ok false
  | v => no_get v
  end.

(** [_next_pending_index()] *)
Definition next_pending_index (r : replay) : option nat :=
  List.find (fun i => negb (bool_decide (i ∈ matched r))) (seq 0 (length (steps r))).

Definition add_matched (i : nat) (r : replay) : replay :=
  Replay (scenario r) (steps r) (if decide (i ∈ matched r) then matched r else matched r ++ [i]) (rstore r).

(** [ReplayState.match_write(method, request_path, body)] *)
Definition replay_match_write (method request_path : string) (body : pyval) : M replay (option pydict) :=
  let! path := lift_res (normalize_request_path request_path) in
  let! r := get_state in
  match next_pending_index r with
  | None => ret None
  | Some i =>
      match steps r !! i with
      | None => raise (IndexError "list index out of range")
      | Some step =>
          let! ok := lift_res (step_matches (r_value step) method path body) in
          if ok then
            modify (add_matched i) ;;;
            replay_apply (r_transitions step) ;;;
            ret (Some (rule_response (as_dict (r_value step)) "response" 204 []))
          else ret None
      end
  end.

(** [ReplayState.reset(scenario)] *)
Definition replay_reset (wanted : option string) (r : replay) : replay * bool :=
  match wanted with
  | Some s => if decide (s = scenario r)
              then (Replay (scenario r) (steps r) [] (clear_overlays (rstore r)), true) else (r, false)
  | None => (Replay (scenario r) (steps r) [] (clear_overlays (rstore r)), true)
  end.

(** The names of the pending steps, for [status()]. *)
Fixpoint pending_names (i : nat) (l : list rule) (done : list nat) : res (list string) :=
  match l with
  | [] => Ok []
  | s :: l' =>
      if bool_decide (i ∈ done) then pending_names (S i) l' done
      else
        let? name := get_attr (r_value s) "name" in
        let? rest := pending_names (S i) l' done in
        Ok (py_str (py_or name (PStr ("step-" +:+ pretty i))) :: rest)
  end.

(** [ReplayState.status()] *)
Definition replay_status (r : replay) : res pydict :=
  let? pending := pending_names 0 (steps r) (matched r) in
  Ok [("scenario", PStr (scenario r)); ("matched_steps", PInt (Z.of_nat (length (matched r))));
      ("pending_steps", PList (map PStr pending)); ("total_steps", PInt (Z.of_nat (length (steps r))));
      ("complete", PBool (match pending with [] => true | _ => false end))].

(** ** [MutationRules] *)

Record mutations := Mutations {
  vendor : string;
  rules : list rule;
  applied : list string;
  failed : list string;
  seed : Z;
  draws : nat;
  mstore : store
}.

(** [MutationRules.__init__(spec, seed=seed)] *)
Definition new_mutations (spec : pydict) (sd : Z) : res mutations :=
  let? raw := rule_list spec "rules" "mutation rules must be a list" in
  let '(objs, rs) := load_rules raw [] in
  Ok (Mutations (py_str (py_or (dget "vendor" spec) (PStr "generic"))) rs [] [] sd 0 (Store [] objs)).

(** [MutationRules.status()] *)
Definition mutations_status (m : mutations) : pydict :=
  [("mode", PStr "mutation-rules"); ("vendor", PStr (vendor m));
   ("total_rules", PInt (Z.of_nat (length (rules m)))); ("applied", PList (map PStr (applied m)));
   ("failed", PList (map PStr (failed m))); ("seed", PInt (seed m))].

(** [MutationRules.reset(scenario)] *)
Definition mutations_reset (wanted : option string) (m : mutations) : mutations * bool :=
  let fresh := Mutations (vendor m) (rules m) [] [] (seed m) 0 (clear_overlays (mstore m)) in
  match wanted with
  | Some s => if decide (s = vendor m) then (fresh, true) else (m, false)
  | None => (fresh, true)
  end.

(** [_rule_request_matches(rule, method, path, body)] *)
Definition rule_request_matches (d : pydict) (method path : string) (body : pyval) : res bool :=
  if method_matches d method then
    let? rp := rule_path d in
    let glob := PyStr.has_char (fun c => Urls.eqc "*" c || Urls.eqc "?" c || Urls.eqc "[" c) rp in
    Ok ((if glob then fnmatchcase path rp else bool_decide (rp = path)) && body_matches d body)
  else Ok false.

(** A filter whose test may raise. *)
Fixpoint res_filter {A} (f : A -> res bool) (l : list A) : res (list A) :=
  match l with
  | [] => Ok []
  | x :: l' => let? b := f x in let? r := res_filter f l' in Ok (if b then x :: r else r)
  end.

(** The rules whose method, path and body match. *)
Definition candidates (rs : list rule) (method path : string) (body : pyval) : res (list rule) :=
  res_filter (fun r => match r_value r with
                       | PDict d => rule_request_matches d method path body
                       | _ => Ok false
                       end) rs.

(** [rule.get("when") or []], iterated *)
Definition when_conditions (r : rule) : res (list pyval) :=
  py_iter (py_or (dget "when" (as_dict (r_value r))) (PList [])).

(** [_precondition_paths(rules)]; the set is kept in first-seen order *)
Definition precondition_paths (rs : list rule) : res (list string) :=
  res_fold (fun paths r =>
    let? conditions := when_conditions r in
    res_fold (fun paths condition =>
      match condition with
      | PDict d => match dget "path" d with
                   | PStr p => let? n := normalize_request_path p in
                               Ok (if decide (n ∈ paths) then paths else paths ++ [n])
                   | _ => Ok paths
                   end
      | _ => Ok paths
      end) paths conditions) [] rs.

(** [_load_precondition_corpus(rules, corpus_lookup)] *)
Definition load_precondition_corpus (rs : list rule) (corpus_lookup : string -> res pyval)
  : res (list (string * pyval)) :=
  let? paths := precondition_paths rs in
  res_fold (fun cache p => let? v := corpus_lookup p in
                           Ok (dict_set p (py_or v (PDict [])) cache)) [] paths.

(** [_cached_corpus_lookup(corpus_cache)] *)
Definition cached_corpus_lookup (corpus_cache : list (string * pyval)) (resource_path : string) : res pyval :=
  let? p := normalize_request_path resource_path in
  Ok (dict_get_or p (PDict []) corpus_cache).

(** [_effective_state(resource_path, corpus_lookup)] *)
Definition effective_state (st : store) (resource_path : string) (corpus_lookup : string -> res pyval)
  : res pyval :=
  let? p := normalize_request_path resource_path in
  let? v := corpus_lookup p in
  let base := py_or v (PDict []) in
  match dict_get p (overlays st) with
  | Some n => let overlay := deepcopy (objects st) n in
              Ok (if truthy overlay then deep_update_val overlay base else base)
  | None => Ok base
  end.

(** The walk of [_precondition_holds]: the value at the keys, if present. *)
Fixpoint walk (cursor : pyval) (keys : list string) : option pyval :=
  match keys with
  | [] => Some cursor
  | k :: ks => match cursor with
               | PDict d => match dict_get k d with Some v => walk v ks | None => None end
               | _ => None
               end
  end.

(** The test of a condition on what the walk found. *)
Definition condition_test (c : pydict) (found : option pyval) : bool :=
  let present := match found with Some _ => true | None => false end in
  match dict_get "exists" c with
  | Some v => Bool.eqb present (truthy v)
  | None =>
      match dict_get "absent" c with
      | Some v => Bool.eqb present (negb (truthy v))
      | None =>
          match found with
          | None => false
          | Some cursor =>
              match dict_get "equals" c with
              | Some v => py_eqb cursor v
              | None => match dict_get "not_equals" c with
                        | Some v => negb (py_eqb cursor v)
                        | None => true
                        end
              end
          end
      end
  end.

(** [_precondition_holds(condition, corpus_lookup)] *)
Definition precondition_holds (st : store) (c : pydict) (corpus_lookup : string -> res pyval) : res bool :=
  match dget "path" c with
  | PStr resource_path =>
      let? state := effective_state st resource_path corpus_lookup in
      let? keys := path_parts (keys_of c) in
      Ok (condition_test c (walk state keys))
  | _ => Ok false
  end.

(** [_rule_preconditions_hold(rule, corpus_lookup)] *)
Fixpoint conditions_hold (st : store) (conditions : list pyval) (corpus_lookup : string -> res pyval)
  : res bool :=
  match conditions with
  | [] => Ok true
  | PDict c :: rest =>
      let? b := precondition_holds st c corpus_lookup in
      if b then conditions_hold st rest corpus_lookup else Ok false
  | _ :: _ => Ok false
  end.

Definition rule_preconditions_hold (st : store) (r : rule) (corpus_lookup : string -> res pyval) : res bool :=
  let? conditions := when_conditions r in conditions_hold st conditions corpus_lookup.

(** [str(rule.get("name") or "unnamed")] *)
Definition rule_name (r : rule) : string :=
  py_str (py_or (dget "name" (as_dict (r_value r))) (PStr "unnamed")).

Section Random.
(** [random_lt seed n p]: the [n]-th draw of the seed's generator is below [p]. *)
Context (random_lt : Z -> nat -> Numbers.dec -> bool).

(** [float(failure.get("probability", 0) or 0)], 0 when it is no number *)
Definition probability (failure : pydict) : res Numbers.dec :=
  match Numbers.py_float (py_or (dict_get_or "probability" (PInt 0) failure) (PInt 0)) with
  | Raise (TypeError _) | Raise (ValueError _) => Ok (0, 0)%Z
  | r => r
  end.

Definition count_draw (m : mutations) : mutations :=
  Mutations (vendor m) (rules m) (applied m) (failed m) (seed m) (S (draws m)) (mstore m).

Definition record_failed (n : string) (m : mutations) : mutations :=
  Mutations (vendor m) (rules m) (applied m) (failed m ++ [n]) (seed m) (draws m) (mstore m).

Definition record_applied (n : string) (m : mutations) : mutations :=
  Mutations (vendor m) (rules m) (applied m ++ [n]) (failed m) (seed m) (draws m) (mstore m).

(** [_roll_failure(matched)] *)
Fixpoint roll_failure (ms : list rule) : M mutations (option pydict) :=
  match ms with
  | [] => ret None
  | r :: rest =>
      match dget "failure" (as_dict (r_value r)) with
      | PDict failure =>
          let! p := lift_res (probability failure) in
          if Numbers.dec_le p (0, 0)%Z then roll_failure rest
          else
            let! m := get_state in
            modify count_draw ;;;
            if random_lt (seed m) (draws m) p then
              modify (record_failed (rule_name r)) ;;;
              ret (Some (rule_response failure "response" 500 [("status", PInt 500)]))
            else roll_failure rest
      | _ => roll_failure rest
      end
  end.

Definition set_mstore (st : store) (m : mutations) : mutations :=
  Mutations (vendor m) (rules m) (applied m) (failed m) (seed m) (draws m) st.

(** The transitions and the history entry of one rule. *)
Definition apply_rule (r : rule) : M mutations unit :=
  let! ts := lift_res (r_transitions r) in
  on_store mstore set_mstore (apply_transitions ts) ;;;
  modify (record_applied (rule_name r)).

Fixpoint apply_rules (ms : list rule) : M mutations unit :=
  match ms with
  | [] => ret tt
  | r :: rest => apply_rule r ;;; apply_rules rest
  end.

(** The rules a write fires, in a state: candidates by request, preconditions
    against the corpus read beforehand and the overlays. *)
Definition matching (m : mutations) (method path : string) (body : pyval)
    (corpus_state : string -> res pyval) : res (list rule) :=
  let? cands := candidates (rules m) method path body in
  let? cache := load_precondition_corpus cands corpus_state in
  res_filter (fun r => rule_preconditions_hold (mstore m) r (cached_corpus_lookup cache)) cands.

(** [MutationRules.match_write(method, request_path, body, corpus_state)] *)
Definition mutations_match_write (method request_path : string) (body : pyval)
    (corpus_state : string -> res pyval) : M mutations (option pydict) :=
  let! path := lift_res (normalize_request_path request_path) in
  let! m := get_state in
  let! ms := lift_res (matching m method path body corpus_state) in
  match ms with
  | [] => ret None
  | first :: _ =>
      let! failure_response := roll_failure ms in
      match failure_response with
      | Some r => ret (Some r)
      | None => apply_rules ms ;;; ret (Some (rule_response (as_dict (r_value first)) "response" 204 []))
      end
  end.
End Random.

(** ** The replay accepts the steps of its trace in their order *)

(** What can happen to a replay state. *)
Inductive replay_step : replay -> replay -> Prop :=
| step_write method request_path body r :
    replay_step r (replay_match_write method request_path body r).1
| step_reset wanted r : replay_step r (replay_reset wanted r).1.

(** The first [n] steps are matched, and no other. *)
Definition in_order (n : nat) (r : replay) : Prop :=
  matched r = seq 0 n /\ n <= length (steps r).

Lemma find_seq_pending n i k :
  i <= n <= i + k ->
  List.find (fun j => negb (bool_decide (j ∈ seq 0 n))) (seq i k) = if decide (n < i + k) then Some n else None.
Proof.
  revert i. induction k as [|k IH]; intros i H; simpl; [by rewrite decide_False by lia|].
  destruct (decide (i = n)) as [->|Hne].
  - rewrite bool_decide_false by (rewrite elem_of_seq; lia). simpl. by rewrite decide_True by lia.
  - rewrite bool_decide_true by (rewrite elem_of_seq; lia). simpl. rewrite IH by lia.
    by replace (S i + k) with (i + S k) by lia.
Qed.

Lemma next_pending_in_order n r :
  in_order n r -> next_pending_index r = if decide (n < length (steps r)) then Some n else None.
Proof. intros [Hm Hn]. unfold next_pending_index. rewrite Hm. apply (find_seq_pending n 0). lia. Qed.

Lemma add_matched_in_order n r :
  in_order n r -> n < length (steps r) -> in_order (S n) (add_matched n r).
Proof.
  intros [Hm Hn] Hlt. unfold add_matched, in_order. cbn [matched steps]. rewrite Hm.
  rewrite decide_False by (rewrite elem_of_seq; lia). split; [|lia].
  by rewrite seq_S.
Qed.

Lemma replay_apply_fields ts r :
  let r' := (replay_apply ts r).1 in
  matched r' = matched r /\ steps r' = steps r /\ scenario r' = scenario r.
Proof.
  unfold replay_apply, on_store, bind, lift_res. destruct ts as [l|e|]; [|done..].
  by destruct (apply_transitions l (rstore r)) as [st []].
Qed.

Ltac unchanged := left; unfold ret, raise in *; simplify_eq; simpl; split; [done|by intros ? [=]].

(** A write either leaves the state as it is, or matches the step that is due. *)
Lemma replay_write_cases n r method request_path body :
  in_order n r ->
  let out := replay_match_write method request_path body r in
  (out.1 = r /\ (forall resp, out.2 <> Ok (Some resp))) \/
  (in_order (S n) out.1 /\ steps out.1 = steps r /\ scenario out.1 = scenario r /\
   exists step path, steps r !! n = Some step /\ normalize_request_path request_path = Ok path /\
     step_matches (r_value step) method path body = Ok true /\ out.2 <> Ok None).
Proof.
  intros Hin. pose proof (next_pending_in_order n r Hin) as Hnext. cbv zeta.
  destruct (replay_match_write method request_path body r) as [r' out] eqn:Ho.
  unfold replay_match_write, bind at 1, lift_res, get_state in Ho.
  destruct (normalize_request_path request_path) as [path|e|] eqn:Hp; [|unchanged..].
  unfold bind at 1 in Ho. rewrite Hnext in Ho. case_decide as Hn; [|unchanged].
  destruct (steps r !! n) as [step|] eqn:Hs; [|apply lookup_ge_None in Hs; lia].
  unfold bind at 1 in Ho.
  destruct (step_matches (r_value step) method path body) as [[]|e|] eqn:Hm; try unchanged.
  right. unfold bind at 1, modify in Ho.
  pose proof (add_matched_in_order n r Hin Hn) as [Hadd Hle].
  destruct (replay_apply_fields (r_transitions step) (add_matched n r)) as (H1 & H2 & H3).
  unfold bind in Ho.
  destruct (replay_apply (r_transitions step) (add_matched n r)) as [r1 out1]. cbn [fst snd] in *.
  assert (in_order (S n) r1) by (split; [congruence|by rewrite H2]).
  destruct out1 as [[]|e|]; unfold ret in Ho; simplify_eq; simpl; split_and!; try done;
    exists step, path; done.
Qed.

Lemma replay_reset_cases n r wanted :
  in_order n r ->
  let out := replay_reset wanted r in
  steps out.1 = steps r /\ scenario out.1 = scenario r /\ (out.1 = r \/ in_order 0 out.1).
Proof.
  intros Hin. unfold replay_reset, in_order. destruct wanted as [s|]; [case_decide|]; simpl;
    split_and!; auto; right; split; auto; lia.
Qed.

Lemma replay_reachable trace r0 r :
  new_replay trace = Ok r0 -> rtc replay_step r0 r ->
  steps r = steps r0 /\ scenario r = scenario r0 /\ exists n, in_order n r.
Proof.
  intros H0 Hr. assert (in_order 0 r0) as Hin.
  { unfold new_replay in H0. apply res_bind_ok in H0 as (raw & _ & H0).
    destruct (load_rules raw []). simplify_eq. split; simpl; [done|lia]. }
  clear H0. assert (exists n, in_order n r0) as Hex by eauto. clear Hin.
  induction Hr as [r|r r1 r2 Hstep _ IH]; [done|]. destruct Hex as [n Hn].
  assert (steps r1 = steps r /\ scenario r1 = scenario r /\ exists n, in_order n r1) as (Hs1 & Hs2 & Hs3).
  { destruct Hstep as [m p b r|w r].
    - destruct (replay_write_cases n r m p b Hn) as [[-> _]|(? & ? & ? & _)]; eauto.
    - destruct (replay_reset_cases n r w Hn) as (? & ? & [->|?]); eauto. }
  destruct (IH Hs3) as (? & ? & ?). split_and!; [congruence..|done].
Qed.

(** In every state a replay can reach, exactly the first [n] steps of the
    trace are matched; a write is accepted only when it matches step [n], and then
    the first [n+1] steps are matched; a write that is not accepted leaves the
    replay state as it is. *)
Theorem replay_in_order trace r0 r :
  new_replay trace = Ok r0 -> rtc replay_step r0 r ->
  exists n, matched r = seq 0 n /\ n <= length (steps r0) /\
    forall method request_path body,
      let out := replay_match_write method request_path body r in
      (out.1 = r /\ (forall resp, out.2 <> Ok (Some resp))) \/
      (matched out.1 = seq 0 (S n) /\
       exists step path, steps r0 !! n = Some step /\ normalize_request_path request_path = Ok path /\
         step_matches (r_value step) method path body = Ok true /\ out.2 <> Ok None).
Proof.
  intros H0 Hr. destruct (replay_reachable _ _ _ H0 Hr) as (Hs & _ & n & Hn).
  exists n. destruct Hn as [Hm Hle]. split; [done|]. split; [congruence|]. intros method p b.
  destruct (replay_write_cases n r method p b (conj Hm Hle)) as [?|([? _] & _ & _ & Hex)]; [by left|].
  right. split; [done|]. rewrite <- Hs. exact Hex.
Qed.

Definition sample_trace : pydict :=
  [("steps", PList [PDict [("method", PStr "patch"); ("path", PStr "/redfish/v1/Systems/1/");
                           ("state_transitions", PList [PDict [("op", PStr "set"); ("field", PStr "Asset");
                              ("path", PStr "/redfish/v1/Systems/1"); ("value", PStr "x")]])];
                    PDict [("method", PStr "POST"); ("path", PStr "/r"); ("body", PDict [])]])].

Lemma replay_in_order_witness :
  match new_replay sample_trace with
  | Ok r0 =>
      let r1 := (replay_match_write "PATCH" "/redfish/v1/Systems/1" PNone r0).1 in
      exists n, matched r1 = seq 0 n /\ n <= 2 /\
        (replay_match_write "PATCH" "/redfish/v1/Systems/1" PNone r1).2 = Ok None
  | _ => False
  end.
Proof.
  destruct (new_replay sample_trace) as [r0|e|] eqn:H0; [|vm_compute in H0; discriminate..].
  destruct (replay_in_order sample_trace r0 (replay_match_write "PATCH" "/redfish/v1/Systems/1" PNone r0).1 H0
              (rtc_once _ _ (step_write _ _ _ _))) as (n & Hm & Hle & _).
  exists n. split; [exact Hm|]. vm_compute in H0. injection H0 as <-. split; [exact Hle|reflexivity].
Defined.

(** ** Mutation rules without dict values *)

(** No transition of the rule stores a dict. *)
Definition plain_rule (r : rule) : Prop :=
  match r_transitions r with Ok ts => Forall plain_value ts | _ => True end.

(** What no write changes: the rules, and the objects of the transitions. *)
Definition kept (m m' : mutations) : Prop :=
  vendor m' = vendor m /\ rules m' = rules m /\ seed m' = seed m /\
  (clean (mstore m) -> objects (mstore m') = objects (mstore m) /\ clean (mstore m')).

#[export] Instance kept_preorder : PreOrder kept.
Proof.
  split; [by intros m; unfold kept; auto|].
  intros a b c (? & ? & ? & Hab) (? & ? & ? & Hbc). unfold kept. split_and!; try congruence.
  intros Ha. destruct (Hab Ha) as [? Hb]. destruct (Hbc Hb) as [? ?]. split; [congruence|done].
Qed.

Lemma res_filter_subset {A} (f : A -> res bool) l l' : res_filter f l = Ok l' -> l' ⊆ l.
Proof.
  revert l'. induction l as [|x l IH]; intros l'; simpl; [intros; by simplify_eq|].
  intros (b & _ & (r & Hr & H)%res_bind_ok)%res_bind_ok. simplify_eq. specialize (IH r Hr).
  destruct b; set_solver.
Qed.

Lemma matching_subset m method path body corpus ms :
  matching m method path body corpus = Ok ms -> ms ⊆ rules m.
Proof.
  intros (cands & Hc%res_filter_subset & (cache & _ & Hm%res_filter_subset)%res_bind_ok)%res_bind_ok.
  set_solver.
Qed.

Section Writes.
Context (random_lt : Z -> nat -> Numbers.dec -> bool) (corpus : string -> res pyval).

Lemma kept_roll ms : frames kept (roll_failure random_lt ms).
Proof.
  induction ms as [|r ms IH]; simpl; [apply frames_ret, _|].
  destruct (dget _ _); try exact IH. apply frames_bind; [exact _|apply frames_lift, _|]. intros p.
  destruct (Numbers.dec_le _ _); [exact IH|].
  apply frames_bind; [exact _|apply frames_get, _|]. intros m.
  apply frames_bind; [exact _|apply frames_modify; by intros|]. intros _.
  destruct (random_lt _ _ _); [|exact IH].
  apply frames_bind; [exact _|apply frames_modify; by intros|]. intros _. apply frames_ret, _.
Qed.

Lemma kept_apply_rule r : plain_rule r -> frames kept (apply_rule r).
Proof.
  intros Hr m. unfold plain_rule, apply_rule, bind, lift_res, on_store in *.
  destruct (r_transitions r) as [ts|e|]; [|reflexivity..].
  assert (clean (mstore m) -> objects (apply_transitions ts (mstore m)).1 = objects (mstore m) /\
          clean (apply_transitions ts (mstore m)).1) as Hst.
  { intros Hc. by destruct (transitions_refine ts (mstore m) Hr Hc) as (? & ? & _). }
  destruct (apply_transitions ts (mstore m)) as [st [[]|e|]]; unfold kept; simpl in *; auto.
Qed.

Lemma kept_apply_rules ms : Forall plain_rule ms -> frames kept (apply_rules ms).
Proof.
  induction 1 as [|r ms Hr _ IH]; simpl; [apply frames_ret, _|].
  apply frames_bind; [exact _|by apply kept_apply_rule|by intros _].
Qed.

Lemma kept_write method request_path body m :
  Forall plain_rule (rules m) -> kept m (mutations_match_write random_lt method request_path body corpus m).1.
Proof.
  intros Hp. unfold mutations_match_write, bind at 1, lift_res at 1.
  destruct (normalize_request_path request_path) as [path|e|]; [|reflexivity..].
  unfold bind at 1, get_state, bind at 1, lift_res.
  destruct (matching m method path body corpus) as [ms|e|] eqn:Hms; [|reflexivity..].
  apply matching_subset in Hms. destruct ms as [|first ms]; [reflexivity|].
  assert (Forall plain_rule (first :: ms)) as Hall.
  { rewrite Forall_forall in *. auto. }
  apply (frames_bind kept); [apply kept_roll|]. intros [r|]; [apply frames_ret, _|].
  apply frames_bind; [exact _|by apply kept_apply_rules|]. intros _. apply frames_ret, _.
Qed.

(** A session of writes: the state after it, and the answers. *)
Fixpoint run_writes (ws : list (string * string * pyval)) (m : mutations)
  : mutations * list (res (option pydict)) :=
  match ws with
  | [] => (m, [])
  | (method, path, body) :: ws' =>
      let '(m1, a) := mutations_match_write random_lt method path body corpus m in
      let '(m2, answers) := run_writes ws' m1 in (m2, a :: answers)
  end.

Lemma kept_run ws m : Forall plain_rule (rules m) -> kept m (run_writes ws m).1.
Proof.
  revert m. induction ws as [|[[method path] body] ws IH]; intros m Hp; simpl; [reflexivity|].
  pose proof (kept_write method path body m Hp) as Hk.
  destruct (mutations_match_write random_lt method path body corpus m) as [m1 a]. simpl in Hk.
  assert (kept m1 (run_writes ws m1).1) as Hk1 by (apply IH; by destruct Hk as (_ & -> & _)).
  destruct (run_writes ws m1) as [m2 answers]. simpl in *. by transitivity m1.
Qed.

(** When no rule stores an object, a reset brings the engine back to its
    initial state, whatever was written before it: the writes of a session get the
    same answers, the injected failures included, each time it is run. *)
Theorem reset_reproduces spec sd m0 before session :
  new_mutations spec sd = Ok m0 -> Forall plain_rule (rules m0) ->
  mutations_reset None (run_writes before m0).1 = (m0, true) /\
  run_writes session (mutations_reset None (run_writes before m0).1).1 = run_writes session m0.
Proof.
  intros H0 Hp.
  assert (mutations_reset None (run_writes before m0).1 = (m0, true)) as Hr; [|by rewrite Hr].
  pose proof (kept_run before m0 Hp) as (H1 & H2 & H3 & H4).
  unfold new_mutations in H0. apply res_bind_ok in H0 as (raw & _ & H0).
  destruct (load_rules raw []) as [objs rs]. injection H0 as <-.
  destruct H4 as [H4 _]; [constructor|]. unfold mutations_reset, clear_overlays.
  rewrite H1, H2, H3, H4. done.
Qed.
End Writes.

(** A rule set that flips a boot mode, and fails at one draw in two. *)
Definition sample_rules : pydict :=
  [("rules", PList [PDict [("name", PStr "flip"); ("method", PStr "PATCH"); ("path", PStr "/s/*");
      ("failure", PDict [("probability", PFloat 5 (-1))]);
      ("when", PList [PDict [("path", PStr "/s/1"); ("field", PStr "Mode"); ("not_equals", PStr "Uefi")]]);
      ("state_transitions", PList [PDict [("op", PStr "set"); ("path", PStr "/s/1"); ("field", PStr "Mode");
         ("value", PStr "Uefi")]])]])].

Definition sample_corpus (p : string) : res pyval := Ok (PDict [("Mode", PStr "Legacy")]).
Definition odd_draws (_ : Z) (n : nat) (_ : Numbers.dec) : bool := negb (Nat.odd n).

Lemma reset_reproduces_witness :
  match new_mutations sample_rules 7 with
  | Ok m0 =>
      let w := ("PATCH", "/s/1", PDict []) in
      let m1 := (run_writes odd_draws sample_corpus [w; w; w] m0).1 in
      failed m1 = ["flip"] /\ applied m1 = ["flip"] /\
      run_writes odd_draws sample_corpus [w; w] (mutations_reset None m1).1
      = run_writes odd_draws sample_corpus [w; w] m0
  | _ => False
  end.
Proof.
  destruct (new_mutations sample_rules 7) as [m0|e|] eqn:H0; [|vm_compute in H0; discriminate..].
  cbv zeta. split; [|split]; [vm_compute in H0; injection H0 as <-; reflexivity..|].
  apply (reset_reproduces odd_draws sample_corpus sample_rules 7 m0
           [("PATCH", "/s/1", PDict []); ("PATCH", "/s/1", PDict []); ("PATCH", "/s/1", PDict [])]); [exact H0|].
  vm_compute in H0. injection H0 as <-. repeat constructor.
Defined.

(** *** Stored objects leak

    A first rule stores an object, a second one changes a field inside it.  The
    second rule changes the object of the first rule: after a reset the first rule
    alone stores the changed object. *)
Definition leak_rules : pydict :=
  [("rules", PList [
      PDict [("name", PStr "insert"); ("method", PStr "POST"); ("path", PStr "/s/1/insert");
             ("state_transitions", PList [PDict [("op", PStr "set"); ("path", PStr "/s/1");
                ("field", PStr "Boot"); ("value", PDict [("Mode", PStr "Legacy")])]])];
      PDict [("name", PStr "patch"); ("method", PStr "PATCH"); ("path", PStr "/s/1");
             ("state_transitions", PList [PDict [("op", PStr "set"); ("path", PStr "/s/1");
                ("json_path", PList [PStr "Boot"; PStr "Mode"]); ("value", PStr "Uefi")]])]])].

(** A rule that stores an object is changed by later writes: with [leak_rules],
    the first write stores the mode Legacy; after a second write and a reset, the
    same first write stores the mode Uefi. *)
Theorem reset_keeps_stored_objects random_lt corpus :
  match new_mutations leak_rules 0 with
  | Ok m0 =>
      let insert := ("POST", "/s/1/insert", PDict []) in
      let patch := ("PATCH", "/s/1", PDict []) in
      let seen m := overlay_for (mstore (run_writes random_lt corpus [insert] m).1) "/s/1" in
      let used := (run_writes random_lt corpus [insert; patch] m0).1 in
      seen m0 = Ok [("Boot", PDict [("Mode", PStr "Legacy")])] /\
      seen (mutations_reset None used).1 = Ok [("Boot", PDict [("Mode", PStr "Uefi")])]
  | _ => False
  end.
Proof. vm_compute. auto. Qed.

(** ** A write is read back *)

(** The resource a transition is about. *)
Definition targets (t : transition) (p : string) : Prop :=
  exists rp, dget "path" (tr_fields t) = PStr rp /\ normalize_request_path rp = Ok p.

(** The transition sets the value at these keys of the resource. *)
Definition sets (t : transition) (p : string) (keys : list string) (k : string) (v : pyval) : Prop :=
  targets t p /\ dget "op" (tr_fields t) = PStr "set" /\
  res_bind (path_parts (keys_of (tr_fields t))) split_parts = Ok (keys, k) /\
  dget "value" (tr_fields t) = v.

Definition docs_wf (ds : docs) : Prop := Forall (fun kv => wf (PDict kv.2)) ds.

Lemma docs_wf_set p d ds : wf (PDict d) -> docs_wf ds -> docs_wf (dict_set p d ds).
Proof.
  intros Hd. unfold docs_wf. induction 1 as [|[k' n'] l Hk Hl IH]; cbn [dict_set].
  - constructor; [done|constructor].
  - case_decide; by constructor.
Qed.

Lemma wf_nil : wf (PDict []).
Proof. split; constructor. Qed.

Lemma docs_wf_get p ds : docs_wf ds -> wf (PDict (dict_get_or p [] ds)).
Proof.
  intros H. unfold dict_get_or. destruct (dict_get p ds) as [d|] eqn:Hp; [|apply wf_nil].
  apply dict_get_In in Hp. unfold docs_wf in H. rewrite Forall_forall in H. by apply (H (p, d)).
Qed.

Lemma docs_wf_default p ds : docs_wf ds -> docs_wf (dict_setdefault p [] ds).
Proof. intros H. unfold dict_setdefault. case_match; [done|]. apply docs_wf_set; [apply wf_nil|done]. Qed.

(** The value of the transition is JSON. *)
Definition json_value (t : transition) : Prop := wf (dget "value" (tr_fields t)).

Lemma ptransition_wf t ds : json_value t -> docs_wf ds -> docs_wf (ptransition t ds).1.
Proof.
  intros Ht Hds. unfold ptransition. destruct (dget "path" _) as [| | | |rp| | | |]; try done.
  destruct (normalize_request_path rp) as [p|e|]; try done.
  pose proof (docs_wf_default p ds Hds) as Hd. cbv zeta.
  destruct (_ || _); [|done]. destruct (res_bind _ _) as [[init k]|e|]; [|done..].
  apply docs_wf_set; [|done]. pose proof (docs_wf_get p _ Hd) as Hg.
  destruct (eq_str _ _); [by apply wf_pset|by apply wf_pdelete].
Qed.

Lemma ptransition_other t p ds :
  ~ targets t p -> dict_get p (ptransition t ds).1 = dict_get p ds.
Proof.
  intros Hn. unfold ptransition. destruct (dget "path" _) as [| | | |rp| | | |] eqn:Hp; try done.
  destruct (normalize_request_path rp) as [q|e|] eqn:Hq; try done.
  assert (p <> q) as Hne by (intros ->; apply Hn; by exists rp).
  assert (forall A (d0 : A) l, dict_get p (dict_setdefault q d0 l) = dict_get p l) as Hd.
  { intros A d0 l. unfold dict_setdefault. case_match; [done|]. by rewrite dict_get_set_ne. }
  cbv zeta. destruct (_ || _); [|apply Hd]. destruct (res_bind _ _) as [[init k]|e|]; [|apply Hd..].
  simpl. rewrite dict_get_set_ne by done. apply Hd.
Qed.

Lemma ptransitions_other ts p ds ds' :
  Forall (fun t => ~ targets t p) ts -> ptransitions ts ds = (ds', Ok tt) -> dict_get p ds' = dict_get p ds.
Proof.
  revert ds. induction ts as [|t ts IH]; intros ds Hts; simpl; [by intros [= ->]|].
  apply Forall_cons in Hts as [Ht Hts]. pose proof (ptransition_other t p ds Ht) as Ho.
  unfold bind. destruct (ptransition t ds) as [ds1 [[]|e|]]; [|done..].
  intros H. rewrite (IH _ Hts H). exact Ho.
Qed.

Lemma ptransition_sets t p keys k v ds ds' :
  sets t p keys k v -> ptransition t ds = (ds', Ok tt) ->
  exists d, dict_get p ds' = Some d /\ get_path (PDict d) (keys ++ [k]) = Some v.
Proof.
  intros ((rp & Hrp & Hn) & Hop & Hk & Hv). unfold ptransition. rewrite Hrp, Hn, Hop, Hk, Hv. simpl.
  intros [= <-]. eexists. split; [apply dict_get_set_eq|apply pset_get].
Qed.

Lemma ptransitions_wf ts ds : Forall json_value ts -> docs_wf ds -> docs_wf (ptransitions ts ds).1.
Proof.
  revert ds. induction ts as [|t ts IH]; intros ds Hts Hds; simpl; [done|].
  apply Forall_cons in Hts as [Ht Hts]. pose proof (ptransition_wf t ds Ht Hds) as Hw.
  unfold bind. destruct (ptransition t ds) as [ds1 [[]|e|]]; simpl in *; auto.
Qed.

Lemma ptransitions_app ts1 ts2 ds :
  ptransitions (ts1 ++ ts2) ds = (ptransitions ts1 ;;; ptransitions ts2) ds.
Proof.
  revert ds. induction ts1 as [|t ts1 IH]; intros ds; simpl; [done|].
  unfold bind at 1 2 3. destruct (ptransition t ds) as [ds1 [[]|e|]]; [|done..]. apply IH.
Qed.

Lemma ptransitions_read_back pre t post p keys k v ds ds' :
  Forall json_value (pre ++ t :: post) -> docs_wf ds ->
  sets t p keys k v -> Forall (fun t => ~ targets t p) post ->
  ptransitions (pre ++ t :: post) ds = (ds', Ok tt) ->
  exists d, dict_get p ds' = Some d /\ wf (PDict d) /\ get_path (PDict d) (keys ++ [k]) = Some v.
Proof.
  intros Hpl Hwf Hs Hpost Hrun.
  pose proof (ptransitions_wf _ ds Hpl Hwf) as Hwf'. rewrite Hrun in Hwf'. simpl in Hwf'.
  rewrite ptransitions_app in Hrun. unfold bind in Hrun.
  destruct (ptransitions pre ds) as [ds1 [[]|e|]]; [|done..]. simpl in Hrun. unfold bind in Hrun.
  destruct (ptransition t ds1) as [ds2 [[]|e|]] eqn:Ht; [|done..].
  destruct (ptransition_sets _ _ _ _ _ _ _ Hs Ht) as (d & Hd & Hg).
  rewrite <- (ptransitions_other _ _ _ _ Hpost Hrun) in Hd. exists d. split; [done|]. split; [|done].
  pose proof (docs_wf_get p _ Hwf') as Hw. unfold dict_get_or in Hw. by rewrite Hd in Hw.
Qed.

(** The transitions of the rules, in the order they are applied. *)
Definition all_transitions (ms : list rule) : list transition :=
  concat (map (fun r => match r_transitions r with Ok ts => ts | _ => [] end) ms).

Lemma apply_transitions_app ts1 ts2 st :
  apply_transitions (ts1 ++ ts2) st = (apply_transitions ts1 ;;; apply_transitions ts2) st.
Proof.
  revert st. induction ts1 as [|t ts1 IH]; intros st; simpl; [done|].
  unfold bind at 1 2 3. destruct (apply_transition t st) as [st1 [[]|e|]]; [|done..]. apply IH.
Qed.

Lemma apply_rules_store ms m m' :
  apply_rules ms m = (m', Ok tt) ->
  apply_transitions (all_transitions ms) (mstore m) = (mstore m', Ok tt) /\ failed m' = failed m.
Proof.
  revert m. induction ms as [|r ms IH]; intros m; simpl; [by intros [= ->]|].
  unfold bind at 1, apply_rule, bind, lift_res, on_store, all_transitions. simpl.
  destruct (r_transitions r) as [ts|e|]; [|done..]. rewrite apply_transitions_app. unfold bind.
  destruct (apply_transitions ts (mstore m)) as [st [[]|e|]]; simpl; [|done..].
  intros H. by apply IH in H.
Qed.

Section ReadBack.
Context (random_lt : Z -> nat -> Numbers.dec -> bool) (corpus : string -> res pyval).

Lemma roll_store ms m : mstore (roll_failure random_lt ms m).1 = mstore m.
Proof.
  revert m. induction ms as [|r ms IH]; intros m; simpl; [done|].
  destruct (dget "failure" _); try apply IH. unfold bind at 1, lift_res.
  destruct (probability _) as [pr|e|]; [|done..]. destruct (Numbers.dec_le _ _); [apply IH|].
  unfold bind, get_state, modify. destruct (random_lt _ _ _); [done|]. by rewrite IH.
Qed.

Lemma roll_outcome ms m m' out :
  roll_failure random_lt ms m = (m', Ok out) ->
  mstore m' = mstore m /\
  match out with None => failed m' = failed m | Some _ => exists n, failed m' = failed m ++ [n] end.
Proof.
  revert m. induction ms as [|r ms IH]; intros m; simpl; [by intros [= -> <-]|].
  destruct (dget "failure" _); try apply IH. unfold bind at 1, lift_res.
  destruct (probability _) as [pr|e|]; [|done..]. destruct (Numbers.dec_le _ _); [apply IH|].
  unfold bind, get_state, modify. destruct (random_lt _ _ _).
  - unfold ret. intros [= <- <-]. simpl. eauto.
  - intros H%IH. exact H.
Qed.

(** A write that was answered without an injected failure ran the transitions of
    the rules it matched. *)
Lemma write_runs_transitions method request_path body m m' r :
  mutations_match_write random_lt method request_path body corpus m = (m', Ok (Some r)) ->
  failed m' = failed m ->
  exists path ms, normalize_request_path request_path = Ok path /\
    matching m method path body corpus = Ok ms /\
    apply_transitions (all_transitions ms) (mstore m) = (mstore m', Ok tt).
Proof.
  unfold mutations_match_write, bind at 1, lift_res at 1.
  destruct (normalize_request_path request_path) as [path|e|]; [|done..].
  unfold bind at 1, get_state, bind at 1, lift_res.
  destruct (matching m method path body corpus) as [ms|e|] eqn:Hms; [|done..].
  destruct ms as [|first ms]; [done|]. intros H Hf. exists path, (first :: ms). split; [done|]. split; [done|].
  unfold bind at 1 in H. destruct (roll_failure random_lt (first :: ms) m) as [m1 [out|e|]] eqn:Hroll; [|done..].
  apply roll_outcome in Hroll as [Hst Hout]. destruct out as [x|].
  - destruct Hout as [n Hn]. unfold ret in H. injection H as <- _.
    rewrite Hn in Hf. apply (f_equal length) in Hf. rewrite length_app in Hf. simpl in Hf. lia.
  - unfold bind in H. destruct (apply_rules (first :: ms) m1) as [m2 [[]|e|]] eqn:Ha; [|done..].
    unfold ret in H. injection H as <- _. apply apply_rules_store in Ha as [Ha _]. by rewrite <- Hst.
Qed.

Lemma overlay_read_back pre t post p keys k v st st' :
  Forall plain_value (pre ++ t :: post) -> Forall json_value (pre ++ t :: post) -> clean st -> docs_wf (abs st) ->
  sets t p keys k v -> Forall (fun t => ~ targets t p) post ->
  apply_transitions (pre ++ t :: post) st = (st', Ok tt) ->
  exists d, overlay_for st' p = (let? q := normalize_request_path p in Ok (dict_get_or q [] (abs st'))) /\
    dict_get p (abs st') = Some d /\ wf (PDict d) /\ get_path (PDict d) (keys ++ [k]) = Some v.
Proof.
  intros Hpl Hj Hc Hw Hs Hpost Hrun. destruct (transitions_refine _ st Hpl Hc) as (_ & Hc' & Href).
  rewrite Hrun in Hc', Href. simpl in Hc', Href.
  destruct (ptransitions_read_back _ _ _ _ _ _ _ _ _ Hj Hw Hs Hpost Href) as (d & Hd).
  exists d. split; [by apply overlay_for_plain|exact Hd].
Qed.

(** The states a fresh engine reaches are sound: nothing is shared, and the
    overlays are JSON. *)
Definition json_rule (r : rule) : Prop :=
  match r_transitions r with Ok ts => Forall json_value ts | _ => True end.

Definition sound (m : mutations) : Prop :=
  Forall plain_rule (rules m) /\ Forall json_rule (rules m) /\ clean (mstore m) /\ docs_wf (abs (mstore m)).

Lemma transitions_docs_wf ts st :
  Forall plain_value ts -> Forall json_value ts -> clean st -> docs_wf (abs st) ->
  docs_wf (abs (apply_transitions ts st).1).
Proof.
  intros Hp Hj Hc Hw. destruct (transitions_refine ts st Hp Hc) as (_ & _ & Href).
  pose proof (ptransitions_wf ts _ Hj Hw) as H. by rewrite Href in H.
Qed.

Definition keeps_docs (m m' : mutations) : Prop :=
  clean (mstore m) /\ docs_wf (abs (mstore m)) -> clean (mstore m') /\ docs_wf (abs (mstore m')).

#[local] Instance keeps_docs_preorder : PreOrder keeps_docs.
Proof. split; unfold keeps_docs; [by intros m|]. intros a b c Hab Hbc H. by apply Hbc, Hab. Qed.

Lemma keeps_docs_apply_rules ms :
  Forall plain_rule ms -> Forall json_rule ms -> frames keeps_docs (apply_rules ms).
Proof.
  induction ms as [|r ms IH]; intros Hp Hj; simpl; [apply frames_ret, _|].
  apply Forall_cons in Hp as [Hr Hp], Hj as [Hrj Hj].
  apply frames_bind; [exact _| |intros _; by apply IH]. clear IH.
  intros m. unfold plain_rule, json_rule, apply_rule, bind, lift_res, on_store in *.
  destruct (r_transitions r) as [ts|e|]; [|reflexivity..].
  assert (keeps_docs m (set_mstore (apply_transitions ts (mstore m)).1 m)) as Hk.
  { intros [Hc Hw]. split; [by apply transitions_refine|by apply transitions_docs_wf]. }
  by destruct (apply_transitions ts (mstore m)) as [st [[]|e|]].
Qed.

Lemma sound_write method request_path body m :
  sound m -> sound (mutations_match_write random_lt method request_path body corpus m).1.
Proof.
  intros (Hp & Hj & Hcw). pose proof (kept_write random_lt corpus method request_path body m Hp) as (_ & Hr & _).
  unfold sound. rewrite Hr. split; [done|]. split; [done|].
  assert (keeps_docs m (mutations_match_write random_lt method request_path body corpus m).1) as Hk; [|by apply Hk].
  unfold mutations_match_write, bind at 1, lift_res at 1.
  destruct (normalize_request_path request_path) as [path|e|]; [|reflexivity..].
  unfold bind at 1, get_state, bind at 1, lift_res.
  destruct (matching m method path body corpus) as [ms|e|] eqn:Hms; [|reflexivity..].
  apply matching_subset in Hms. destruct ms as [|first ms]; [reflexivity|].
  apply (frames_bind keeps_docs).
  - intros m0 H. by rewrite roll_store.
  - intros [r|]; [apply frames_ret, _|]. apply frames_bind; [exact _| |intros _; apply frames_ret, _].
    apply keeps_docs_apply_rules; apply Forall_forall; intros x Hx; rewrite Forall_forall in Hp, Hj; auto.
Qed.

Lemma sound_run ws m : sound m -> sound (run_writes random_lt corpus ws m).1.
Proof.
  revert m. induction ws as [|[[method path] body] ws IH]; intros m Hm; simpl; [done|].
  pose proof (sound_write method path body m Hm) as H1.
  destruct (mutations_match_write random_lt method path body corpus m) as [m1 a]. simpl in H1.
  specialize (IH m1 H1). by destruct (run_writes random_lt corpus ws m1).
Qed.

Lemma sound_new spec sd m0 :
  new_mutations spec sd = Ok m0 -> Forall plain_rule (rules m0) -> Forall json_rule (rules m0) -> sound m0.
Proof.
  intros H0 Hp Hj. split; [done|]. split; [done|]. unfold new_mutations in H0.
  apply res_bind_ok in H0 as (raw & _ & H0). destruct (load_rules raw []). injection H0 as <-.
  split; constructor.
Qed.

(** What clients can do to the engine: write, and reset with any scenario. *)
Inductive engine_reaches (m0 : mutations) : mutations -> Prop :=
| reaches_start : engine_reaches m0 m0
| reaches_write m method request_path body :
    engine_reaches m0 m ->
    engine_reaches m0 (mutations_match_write random_lt method request_path body corpus m).1
| reaches_reset m wanted :
    engine_reaches m0 m -> engine_reaches m0 (mutations_reset wanted m).1.

(** C18. Of an engine that was loaded from rules that store no objects and no value with a repeated key, every reachable state is
    well formed, whatever is written, whatever fails and however often it is reset: no overlay shares a node with a value of
    the rules or with another overlay, the objects that the rules hold are as they were loaded, and every overlay is a JSON
    document with distinct keys at each level.  (With a rule that stores an object this fails: see
    [reset_keeps_stored_objects].) *)
Theorem engine_state_typed spec sd m0 m :
  new_mutations spec sd = Ok m0 -> Forall plain_rule (rules m0) -> Forall json_rule (rules m0) ->
  engine_reaches m0 m ->
  objects (mstore m) = objects (mstore m0) /\ clean (mstore m) /\ docs_wf (abs (mstore m)).
Proof.
  intros H0 Hp Hj Hr. assert (sound m /\ objects (mstore m) = objects (mstore m0)) as [(_ & _ & ? & ?) ?]; [|done].
  induction Hr as [|m method request_path body _ [IH Heq]|m wanted _ [IH Heq]].
  - split; [by eapply sound_new|done].
  - split; [by apply sound_write|]. destruct IH as (Hpl & _ & Hc & _).
    destruct (kept_write random_lt corpus method request_path body m Hpl) as (_ & _ & _ & Hk). destruct (Hk Hc) as [-> _]. done.
  - destruct IH as (? & ? & ? & ?). unfold mutations_reset, sound. destruct wanted as [w|];
      [case_decide|]; simpl; (split; [|done]); split_and!; try done; constructor.
Qed.
End ReadBack.

Lemma engine_state_typed_witness :
  match new_mutations sample_rules 7 with
  | Ok m0 => docs_wf (abs (mstore (mutations_match_write odd_draws "PATCH" "/s/1" (PDict []) sample_corpus m0).1))
  | _ => False
  end.
Proof.
  destruct (new_mutations sample_rules 7) as [m0|e|] eqn:H0; [|vm_compute in H0; discriminate H0..].
  apply (engine_state_typed odd_draws sample_corpus sample_rules 7 m0); [exact H0| | |].
  - vm_compute in H0. injection H0 as <-. by repeat constructor.
  - vm_compute in H0. injection H0 as <-. by repeat constructor.
  - apply reaches_write, reaches_start.
Defined.

End MockRules.
