(* ===== verification/MockServer.v ===== *)
(** * The mock BMC server

    src/k8s/sandbox/mock_bmc_server.py: the corpus and its API map, the lookup of
    the file behind a request, the two request handlers and their configuration.
    The file system is the parameter [Files], of which no law is assumed (a
    symbolic link may resolve anywhere); a file is known by its bytes and by what
    [json.loads] makes of them.  An exception that leaves a handler closes the
    connection without a reply. *)

From stdpp Require Import base list strings pretty sets.
From Stdlib Require Import Ascii ZArith Lia.
From S2P Require Import Prelude PyVal Effects Json Urls Numbers MockOverlay MockRules.

Module MockServer.
Import Json MockOverlay MockRules.
Local Open Scope py_scope.

(** ** Paths and files *)

(** [pathlib.PurePosixPath] *)
Record path := Path { rooted : bool; comps : list string }.

#[export] Instance path_eq_dec : EqDecision path.
Proof. solve_decision. Defined.

(** [Path(s)] *)
Definition parse_path (s : string) : path :=
  Path (PyStr.startswith "/" s) (filter (fun c => c <> "" /\ c <> ".") (PyStr.split "/" s)).

(** [p / q] *)
Definition path_join (p q : path) : path :=
  if rooted q then q else Path (rooted p) (comps p ++ comps q).

(** [p.name] *)
Definition path_name (p : path) : string := PyStr.last_or "" (comps p).

(** [p.is_relative_to(q)] *)
Definition is_relative_to (p q : path) : Prop := rooted p = rooted q /\ comps q `prefix_of` comps p.
#[export] Instance is_relative_to_dec p q : Decision (is_relative_to p q).
Proof. unfold is_relative_to. apply _. Defined.

(** [p.suffix]: a leading or a trailing dot of the name gives none *)
Definition path_suffix (p : path) : string :=
  match rev (PyStr.split "." (path_name p)) with
  | last :: _ :: _ as pieces =>
      if PyStr.nonempty last && negb (bool_decide (String.append "." last = path_name p))
      then String.append "." last else ""
  | _ => ""
  end.

(** [str(p)] *)
Definition path_str (p : path) : string :=
  if rooted p then "/" +:+ PyStr.join "/" (comps p)
  else match comps p with [] => "." | l => PyStr.join "/" l end.

(** The bytes of a file, and what [json.loads] gives for them. *)
Record file := File { raw : string; doc : pyval + string }.

Class Files := {
  file_exists : path -> bool;
  is_dir : path -> bool;
  is_file : path -> bool;
  listdir : path -> list string;
  resolve_path : path -> res path;
  read_file : path -> res file
}.

(** [except OSError] *)
Definition is_OSError (e : exn) : bool :=
  match e with
  | OtherError "OSError" _ | FileNotFoundError _ | ConnectionFailed _ | RequestTimeout _ => true
  | _ => false
  end.

(** [json.loads(path.read_text(encoding="utf-8"))] *)
Definition load_json (f : file) : res pyval :=
  match doc f with inl v => Ok v | inr m => Raise (JSONDecodeError m) end.

(** ** The API map *)

Definition status_json : string := "rest_api_map.status.json".

(** The statuses of [http_status_mapping] as ints, in [_validate_rest_api_map] *)
Definition check_status (map_path : path) (kv : string * pyval) : res (string * pyval) :=
  match Numbers.py_int kv.2 with
  | Ok z =>
      if (z <? 100)%Z || (599 <? z)%Z
      then Raise (ValueError ("http_status_mapping values must be valid HTTP statuses in Redfish API map: "
                              +:+ path_str map_path +:+ " (" +:+ repr_str kv.1 +:+ ")"))
      else Ok (kv.1, PInt z)
  | Raise (TypeError _) | Raise (ValueError _) =>
      Raise (ValueError ("http_status_mapping values must be integer HTTP statuses in Redfish API map: "
                         +:+ path_str map_path +:+ " (" +:+ repr_str kv.1 +:+ ")"))
  | Raise e => Raise e
  | NoFuel => NoFuel
  end.

Fixpoint res_map {A B} (f : A -> res B) (l : list A) : res (list B) :=
  match l with
  | [] => Ok []
  | x :: l' => let? y := f x in let? ys := res_map f l' in Ok (y :: ys)
  end.

(** [_validate_rest_api_map(api_map, map_path)]: the map after it *)
Definition validate_rest_api_map (api_map : pydict) (map_path : path) : res pydict :=
  let? _ := res_map (fun k => match dget k api_map with
                              | PNone | PDict _ => Ok tt
                              | _ => Raise (ValueError (k +:+ " must be an object in Redfish API map: "
                                                        +:+ path_str map_path))
                              end)
              ["url_file_mapping"; "http_status_mapping"; "error_file_mapping"] in
  match dget "http_status_mapping" api_map with
  | PDict statuses =>
      let? statuses' := res_map (check_status map_path) statuses in
      Ok (dict_set "http_status_mapping" (PDict statuses') api_map)
  | _ => Ok api_map
  end.

Section Server.
Context {fs : Files}.
(** [np.load(map_path, allow_pickle=True).item()], and whether NumPy is there *)
Context (load_npy : path -> res pyval) (numpy_available : bool).

(** [_load_rest_api_map_npy(map_path)] *)
Definition load_rest_api_map_npy (map_path : path) : res pydict :=
  if numpy_available then
    match load_npy map_path with
    | Ok (PDict d) => validate_rest_api_map d map_path
    | Ok _ => Raise (ValueError ("Redfish API map must contain an object: " +:+ path_str map_path))
    | Raise e => if is_Exception e
                 then Raise (ValueError ("failed to load Redfish API map: " +:+ path_str map_path))
                 else Raise e
    | NoFuel => NoFuel
    end
  else Raise (ValueError ("NumPy is required to load Redfish API map: " +:+ path_str map_path)).

(** [_load_rest_api_map_json(map_path)] *)
Definition load_rest_api_map_json (map_path : path) : res pydict :=
  let failed_msg := "failed to load Redfish API map: " +:+ path_str map_path in
  match res_bind (read_file map_path) load_json with
  | Ok (PDict d) =>
      let? _ := res_map (fun k => if dict_in k d then Ok tt
                                  else Raise (ValueError (k +:+ " is required in Redfish API map: "
                                                          +:+ path_str map_path)))
                  ["http_status_mapping"; "error_file_mapping"] in
      validate_rest_api_map d map_path
  | Ok _ => Raise (ValueError ("Redfish API map must contain an object: " +:+ path_str map_path))
  | Raise (JSONDecodeError _) => Raise (ValueError failed_msg)
  | Raise e => if is_OSError e then Raise (ValueError failed_msg) else Raise e
  | NoFuel => NoFuel
  end.

(** [_load_rest_api_map(corpus_dir)], the warnings left out *)
Definition load_rest_api_map (corpus_dir : path) : res pydict :=
  let sidecar_path := path_join corpus_dir (parse_path status_json) in
  let map_path := path_join corpus_dir (parse_path "rest_api_map.npy") in
  if file_exists sidecar_path then
    let? sidecar_map := load_rest_api_map_json sidecar_path in
    if negb (file_exists map_path) then Ok sidecar_map
    else if negb numpy_available then Ok sidecar_map
    else
      let? legacy_map := load_rest_api_map_npy map_path in
      let merged := fold_left (fun acc k => dict_set k (dget k sidecar_map) acc)
                      ["http_status_mapping"; "error_file_mapping"] legacy_map in
      validate_rest_api_map merged sidecar_path
  else if negb (file_exists map_path) then Ok []
  else load_rest_api_map_npy map_path.

(** ** The file behind a request *)

(** [_build_fixture_index(corpus_dir)] *)
Definition build_fixture_index (corpus_dir : path) : list (string * path) :=
  fold_left (fun acc name => dict_set (PyStr.lower name) (path_join corpus_dir (Path false [name])) acc)
    (filter (fun name => fnmatchcase name "*.json" = true) (listdir corpus_dir)) [].

(** The first candidate that is a file under [root] once resolved. *)
Fixpoint first_contained (root : path) (candidates : list path) : res (option path) :=
  match candidates with
  | [] => Ok None
  | c :: rest =>
      match resolve_path c with
      | Ok p => if decide (is_relative_to p root)
                then if is_file p then Ok (Some p) else first_contained root rest
                else first_contained root rest
      | Raise e => if is_OSError e then first_contained root rest else Raise e
      | NoFuel => NoFuel
      end
  end.

(** [_resolve_mapped_fixture(corpus_dir, mapped_name)] *)
Definition resolve_mapped_fixture (corpus_dir : path) (mapped_name : pyval) : res (option path) :=
  match mapped_name with
  | PStr name =>
      if PyStr.nonempty name then
        let mapped_path := parse_path name in
        if rooted mapped_path then Ok None
        else
          let? root_resolved := resolve_path corpus_dir in
          first_contained root_resolved
            [path_join corpus_dir mapped_path; path_join corpus_dir (parse_path (path_name mapped_path))]
      else Ok None
  | _ => Ok None
  end.

(** ["_" + path.strip("/").replace("/", "_") + ".json"], lower-cased *)
Definition fixture_key (p : string) : string :=
  PyStr.lower ("_" +:+ PyStr.join "_" (PyStr.split "/" (PyStr.lstrip_char "/" (PyStr.rstrip_char "/" p)))
               +:+ ".json").

(** [fixture_for_redfish_path(corpus_dir, request_path)] *)
Definition fixture_for_redfish_path (corpus_dir : path) (request_path : string) : res (option path) :=
  let? p := normalize_request_path request_path in
  Ok (if PyStr.startswith "/redfish/v1" p
      then dict_get (fixture_key p) (build_fixture_index corpus_dir) else None).

(** ** The corpus handler *)

(** The class attributes [make_handler] sets. *)
Record config := Config {
  corpus_dir : path;
  api_map : pydict;
  fixture_index : list (string * path);
  identity_overlay : list (string * pydict)
}.

(** [_fixture_for_request()] *)
Definition fixture_for_request (cfg : config) (self_path : string) : res (option path) :=
  let? p := normalize_request_path self_path in
  if negb (PyStr.startswith "/redfish/v1" p) then Ok None
  else
    let? mapped_name := lookup_mapping (mapping_dict (api_map cfg) "url_file_mapping") p in
    let? mapped := resolve_mapped_fixture (corpus_dir cfg) mapped_name in
    Ok (match mapped with Some f => Some f | None => dict_get (fixture_key p) (fixture_index cfg) end).

(** [_captured_error_for_request()] *)
Definition captured_error_for_request (cfg : config) (self_path : string) : res (option (Z * option path)) :=
  match api_map cfg with
  | [] => Ok None
  | _ =>
      let? p := normalize_request_path self_path in
      if negb (PyStr.startswith "/redfish/v1" p) then Ok None
      else
        let? raw_status := lookup_mapping (mapping_dict (api_map cfg) "http_status_mapping") p in
        let? status := match raw_status with
                       | PNone => Ok None
                       | v => let? z := Numbers.py_int v in Ok (Some z)
                       end in
        let? error_name := lookup_mapping (mapping_dict (api_map cfg) "error_file_mapping") p in
        let? error_fixture := resolve_mapped_fixture (corpus_dir cfg) error_name in
        Ok (match error_fixture with
            | None => match status with
                      | Some z => if (z <? 400)%Z then None else Some (z, None)
                      | None => None
                      end
            | Some f => Some (match status with
                              | Some z => if (z =? 0)%Z then 500%Z else z
                              | None => 500%Z
                              end, Some f)
            end)
  end.

(** The write engine, [MutationRules] or [ReplayState]. *)
Inductive engine := EReplay (r : replay) | ERules (m : mutations).

Definition engine_store (e : engine) : store :=
  match e with EReplay r => rstore r | ERules m => mstore m end.

(** [_corpus_state(request_path)] *)
Definition corpus_state (cfg : config) (request_path : string) : res pyval :=
  let? p := normalize_request_path request_path in
  if negb (PyStr.startswith "/redfish/v1" p) then Ok (PDict [])
  else
    match dict_get (fixture_key p) (fixture_index cfg) with
    | None => Ok (PDict [])
    | Some fixture =>
        let? f := read_file fixture in
        let? payload := load_json f in
        match payload with
        | PDict d => Ok (PDict (deep_update d (dict_get_or (PyStr.lower p) [] (identity_overlay cfg))))
        | _ => Ok (PDict [])
        end
    end.

(** What goes out: the status line, the headers the code sets, the body bytes and
    the document they are.  [Content-Length] is the length of [raw body], also when
    the body itself is not sent. *)
Record reply := Reply {
  r_status : Z;
  r_allow : option string;
  r_type : option string;
  r_content : file;
  r_sent : bool
}.

(** [json.dumps(payload, sort_keys=True).encode("utf-8")] *)
Definition json_content (payload : pyval) : res file :=
  let? t := dumps_sorted payload in Ok (File t (inl (sort_keys payload))).

(** [_send_json(status, payload)] *)
Definition send_json (status : Z) (payload : pyval) : res reply :=
  let? c := json_content payload in Ok (Reply status None (Some "application/json") c true).

(** [_send_empty(status)] *)
Definition send_empty (status : Z) : reply :=
  Reply status None None (File "" (inr "Expecting value")) false.

(** [_deep_update(payload, overlay)] on a loaded document, which only a dict has
    the methods for *)
Definition update_payload (overlay : pydict) (payload : pyval) : res pyval :=
  match overlay with
  | [] => Ok payload
  | (_, v) :: _ =>
      match payload with
      | PDict d => Ok (PDict (deep_update d overlay))
      | p => match v, p with
             | PDict _, _ => Raise (AttributeError ("'" +:+ type_name p +:+ "' object has no attribute 'get'"))
             | _, PList _ => Raise (TypeError "list indices must be integers or slices, not str")
             | _, _ => Raise (TypeError ("'" +:+ type_name p +:+ "' object does not support item assignment"))
             end
      end
  end.

(** [_serve_fixture(send_body)] *)
Definition serve_fixture (cfg : config) (writer : option engine) (self_path : string) (send_body : bool)
  : res reply :=
  let? captured_error := captured_error_for_request cfg self_path in
  match captured_error with
  | Some (status, error_fixture) =>
      let? content :=
        match error_fixture with
        | None => json_content (PDict [("error", PStr ("captured status " +:+ pretty status +:+ " for "
                                                       +:+ self_path))])
        | Some f => read_file f
        end in
      Ok (Reply status None (Some "application/json") content send_body)
  | None =>
      let? fixture := fixture_for_request cfg self_path in
      match fixture with
      | None => send_json 404 (PDict [("error", PStr ("no fixture for " +:+ self_path))])
      | Some f =>
          let? replay_overlay := match writer with
                                 | Some e => overlay_for (engine_store e) self_path
                                 | None => Ok []
                                 end in
          let? p := normalize_request_path self_path in
          let overlay := dict_get_or (PyStr.lower p) [] (identity_overlay cfg) in
          let? file := read_file f in
          let? content :=
            match replay_overlay, overlay with
            | [], [] => Ok file
            | _, _ =>
                let? payload := load_json file in
                let? payload := update_payload overlay payload in
                let? payload := update_payload replay_overlay payload in
                json_content payload
            end in
          Ok (Reply 200 None (Some "application/json") content send_body)
      end
  end.

(** [writer.status()] *)
Definition engine_status (e : engine) : res pydict :=
  match e with EReplay r => replay_status r | ERules m => Ok (mutations_status m) end.

(** [writer.reset(scenario)] *)
Definition engine_reset (wanted : option string) (e : engine) : engine * bool :=
  match e with
  | EReplay r => let '(r', b) := replay_reset wanted r in (EReplay r', b)
  | ERules m => let '(m', b) := mutations_reset wanted m in (ERules m', b)
  end.

(** A request as the handler reads it: the target, the [Content-Length] header and
    the body, [None] when it is empty. *)
Record http_request := HttpRequest {
  q_path : string;
  q_length : option string;
  q_body : option (pyval + string)
}.

(** [_read_json_body()] *)
Definition read_json_body (q : http_request) : res pyval :=
  let text := match q_length q with Some s => if PyStr.nonempty s then s else "0" | None => "0" end in
  let? length := Numbers.py_int (PStr text) in
  if (length =? 0)%Z then Ok (PDict [])
  else match q_body q with
       | None => Ok (PDict [])
       | Some (inl v) => Ok v
       | Some (inr m) => Raise (JSONDecodeError m)
       end.

Context (random_lt : Z -> nat -> Numbers.dec -> bool).

(** The state of a running server is its write engine. *)
Abbreviation server := (option engine).

(** [writer.match_write(method, self.path, body, self._corpus_state)] *)
Definition engine_match_write (cfg : config) (method request_path : string) (body : pyval) (e : engine)
  : engine * res (option pydict) :=
  match e with
  | EReplay r => let '(r', out) := replay_match_write method request_path body r in (EReplay r', out)
  | ERules m => let '(m', out) := mutations_match_write random_lt method request_path body
                                    (corpus_state cfg) m in (ERules m', out)
  end.

(** [do_GET()] *)
Definition do_GET (cfg : config) (q : http_request) (s : server) : res reply :=
  let? p := normalize_request_path (q_path q) in
  if decide (p = "/__replay_status") then
    match s with
    | None => send_json 404 (PDict [("error", PStr "replay is not enabled")])
    | Some e => let? st := engine_status e in send_json 200 (PDict st)
    end
  else serve_fixture cfg s (q_path q) true.

(** [do_HEAD()] *)
Definition do_HEAD (cfg : config) (q : http_request) (s : server) : res reply :=
  serve_fixture cfg s (q_path q) false.

(** [do_OPTIONS()] *)
Definition do_OPTIONS (s : server) : reply :=
  Reply 204 (Some (match s with
                   | Some _ => "GET, HEAD, OPTIONS, POST, PATCH, PUT, DELETE"
                   | None => "GET, HEAD, OPTIONS"
                   end)) None (File "" (inr "Expecting value")) false.

(** [_send_method_not_allowed()] *)
Definition send_method_not_allowed : reply :=
  let v := PDict [("error", PStr "read-only mock BMC")] in
  Reply 405 (Some "GET, HEAD, OPTIONS") (Some "application/json")
    (File (default "" (render ", " ": " v)) (inl v)) true.

(** [_handle_set_scenario()] *)
Definition handle_set_scenario (q : http_request) : M server reply :=
  let! s := get_state in
  match s with
  | None => lift_res (send_json 404 (PDict [("error", PStr "replay is not enabled")]))
  | Some e =>
      let! body := lift_res (read_json_body q) in
      let scenario := match body with PDict d => dget "scenario" d | _ => PNone end in
      match scenario with
      | PNone | PStr _ =>
          let wanted := match scenario with PStr t => Some t | _ => None end in
          let '(e', ok) := engine_reset wanted e in
          modify (fun _ => Some e') ;;;
          if ok then
            let! st := lift_res (engine_status e') in
            lift_res (send_json 200 (PDict st))
          else lift_res (send_json 404 (PDict [("error", PStr ("unknown scenario " +:+ py_str scenario))]))
      | _ => lift_res (send_json 400 (PDict [("error", PStr "scenario must be a string")]))
      end
  end.

(** [_handle_replay_write(method)] *)
Definition handle_replay_write (cfg : config) (method : string) (q : http_request) : M server reply :=
  let! s := get_state in
  match s with
  | None => ret send_method_not_allowed
  | Some e =>
      let! body := lift_res (read_json_body q) in
      let '(e', out) := engine_match_write cfg method (q_path q) body e in
      modify (fun _ => Some e') ;;;
      let! response := lift_res out in
      match response with
      | None =>
          let! p := lift_res (normalize_request_path (q_path q)) in
          let! st := lift_res (engine_status e') in
          lift_res (send_json 409 (PDict [("error", PStr "no write rule matched the request");
                                          ("method", PStr method); ("path", PStr p); ("status", PDict st)]))
      | Some r =>
          let! status := lift_res (Numbers.py_int (dict_get_or "status" (PInt 204) r)) in
          let payload := dget "body" r in
          if is_none payload || (status =? 204)%Z then ret (send_empty status)
          else lift_res (send_json status (match payload with
                                           | PDict _ => payload
                                           | v => PDict [("result", v)]
                                           end))
      end
  end.

(** [do_POST()] *)
Definition do_POST (cfg : config) (q : http_request) : M server reply :=
  let! p := lift_res (normalize_request_path (q_path q)) in
  if decide (p = "/__set_scenario") then handle_set_scenario q else handle_replay_write cfg "POST" q.

(** The dispatch of [BaseHTTPRequestHandler] on [do_<command>]. *)
Definition handle (cfg : config) (method : string) (q : http_request) : M server reply :=
  if decide (method = "GET") then let! s := get_state in lift_res (do_GET cfg q s)
  else if decide (method = "HEAD") then let! s := get_state in lift_res (do_HEAD cfg q s)
  else if decide (method = "OPTIONS") then gets do_OPTIONS
  else if decide (method = "POST") then do_POST cfg q
  else if decide (method ∈ ["PATCH"; "PUT"; "DELETE"]) then handle_replay_write cfg method q
  else ret (Reply 501 None (Some "text/html;charset=utf-8") (File "" (inr "Expecting value")) true).

(** ** The mockup handler *)

Definition mockup_index : path := parse_path "index.json".

(** [mockup_service_root(mockup_dir)] *)
Definition mockup_service_root (mockup_dir : path) : res path :=
  let prefixed := path_join mockup_dir (parse_path "redfish/v1") in
  if is_file (path_join prefixed mockup_index) then Ok prefixed
  else if is_file (path_join mockup_dir mockup_index) then Ok mockup_dir
  else Raise (FileNotFoundError ("no DSP2043 service root under " +:+ path_str mockup_dir
         +:+ ": neither redfish/v1/index.json nor index.json exists")).

(** [mockup_version_object(mockup_dir)] *)
Definition mockup_version_object (mockup_dir : path) : res file :=
  let version_file := path_join (path_join mockup_dir (parse_path "redfish")) mockup_index in
  if is_file version_file then read_file version_file
  else
    let v := PDict [("v1", PStr "/redfish/v1/")] in
    let? t := dumps_with false ", " ": " v in Ok (File t (inl v)).

(** [mockup_file_for_redfish_path(service_root, request_path)] *)
Definition mockup_file_for_redfish_path (service_root : path) (request_path : string) : res (option path) :=
  let? p := normalize_request_path request_path in
  if negb (bool_decide (p = "/redfish/v1")) && negb (PyStr.startswith "/redfish/v1/" p) then Ok None
  else
    let subpath := PyStr.lstrip_char "/" (PyStr.rstrip_char "/" (String.substring 11 (String.length p) p)) in
    if negb (PyStr.nonempty subpath) then Ok (Some (path_join service_root mockup_index))
    else
      let candidates :=
        (if decide (subpath = "$metadata") then [path_join service_root (parse_path "$metadata/index.xml")] else [])
        ++ [path_join (path_join service_root (parse_path subpath)) mockup_index;
            path_join service_root (parse_path subpath)] in
      let? root_resolved := resolve_path service_root in
      first_contained root_resolved candidates.

(** [_mockup_content_type(path)] *)
Definition mockup_content_type (p : path) : string :=
  dict_get_or (PyStr.lower (path_suffix p)) "application/json"
    [(".xml", "application/xml"); (".yaml", "application/yaml"); (".yml", "application/yaml")].

(** [MockupRequestHandler._serve()] *)
Definition mockup_serve (mockup_dir service_root : path) (self_path : string) : res reply :=
  let? p := normalize_request_path self_path in
  if decide (p = "/redfish") then
    let? v := mockup_version_object mockup_dir in
    Ok (Reply 200 None (Some "application/json") v true)
  else
    let? target := mockup_file_for_redfish_path service_root self_path in
    match target with
    | None => send_json 404 (PDict [("error", PDict [("code", PStr "Base.1.0.GeneralError");
                 ("message", PStr ("The resource at the URI " +:+ p +:+ " was not found."))])])
    | Some t => let? f := read_file t in Ok (Reply 200 None (Some (mockup_content_type t)) f true)
    end.

(** [_reject_non_get()] *)
Definition reject_non_get (command : string) : reply :=
  let v := PDict [("error", PStr "DSP2043 mockup: GET is the only provided method")] in
  Reply 405 (Some "GET") (Some "application/json") (File (default "" (render ", " ": " v)) (inl v))
    (negb (bool_decide (command = "HEAD"))).

(** The dispatch of the mockup handler. *)
Definition mockup_handle (mockup_dir service_root : path) (method : string) (q : http_request) : res reply :=
  if decide (method = "GET") then mockup_serve mockup_dir service_root (q_path q)
  else if decide (method ∈ ["HEAD"; "OPTIONS"; "POST"; "PATCH"; "PUT"; "DELETE"]) then Ok (reject_non_get method)
  else Ok (Reply 501 None (Some "text/html;charset=utf-8") (File "" (inr "Expecting value")) true).

(** ** Configuration *)

(** [s.zfill(width)] *)
Fixpoint zero_text (n : nat) : string := match n with O => "" | S n' => String "0" (zero_text n') end.
Definition zfill (width : nat) (s : string) : string :=
  let fill := zero_text (width - String.length s) in
  match s with
  | String "+" r => String "+" (fill +:+ r)
  | String "-" r => String "-" (fill +:+ r)
  | _ => fill +:+ s
  end.

(** [identity_overlay_from_env()] *)
Definition identity_overlay_from_env (env_rack env_slot : string) : list (string * pydict) :=
  let rack := PyStr.strip env_rack in
  let slot := PyStr.strip env_slot in
  if negb (PyStr.nonempty rack) && negb (PyStr.nonempty slot) then []
  else
    let node := "GB300-R" +:+ (if PyStr.nonempty rack then rack else "0") +:+ "-S"
                +:+ zfill 2 (if PyStr.nonempty slot then slot else "0") in
    [("/redfish/v1/systems/system_0", [("SerialNumber", PStr node); ("Name", PStr node)]);
     ("/redfish/v1/managers/bmc_0", [("SerialNumber", PStr node); ("Name", PStr (node +:+ "-BMC"))])].

(** [yaml.safe_load] of a text that is not JSON, when PyYAML is there *)
Context (load_yaml : option (string -> res pyval)).

(** [_load_trace(trace_path)] *)
Definition load_trace (trace_path : path) : res pydict :=
  let? f := read_file trace_path in
  let? data := match doc f with
               | inl v => Ok v
               | inr _ => match load_yaml with
                          | Some load => load (raw f)
                          | None => Raise (ValueError
                              "replay trace must be JSON-compatible YAML when PyYAML is absent")
                          end
               end in
  match data with
  | PDict d => Ok d
  | _ => Raise (ValueError ("replay trace must contain an object: " +:+ path_str trace_path))
  end.

(** [make_handler(corpus_dir, replay_trace, mutation_rules, seed)]: the class
    attributes, and the engine the server starts with *)
Definition make_handler (root : path) (replay_trace mutation_rules : option path) (sd : Z)
    (env_rack env_slot : string) : res (config * server) :=
  if negb (is_dir root) then Raise (FileNotFoundError ("corpus directory not found: " +:+ path_str root))
  else match replay_trace, mutation_rules with
  | Some _, Some _ => Raise (ValueError "choose either --replay or --mutation-rules, not both")
  | _, _ =>
      let? amap := load_rest_api_map root in
      let index := build_fixture_index root in
      match index with
      | [] => Raise (ValueError ("no JSON fixtures found under " +:+ path_str root))
      | _ =>
          let? rp := match replay_trace with
                     | Some t => let? d := load_trace t in let? r := new_replay d in Ok (Some (EReplay r))
                     | None => Ok None
                     end in
          let? mr := match mutation_rules with
                     | Some t => let? d := load_trace t in let? m := new_mutations d sd in Ok (Some (ERules m))
                     | None => Ok None
                     end in
          Ok (Config root amap index (identity_overlay_from_env env_rack env_slot),
              match mr with Some e => Some e | None => rp end)
      end
  end.

(** A handler class of either mode. *)
Inductive handler_class :=
| CorpusHandler (cfg : config) (s : server)
| MockupHandler (mockup_dir service_root : path).

(** [make_mockup_handler(mockup_dir)] *)
Definition make_mockup_handler (root : path) : res handler_class :=
  if negb (is_dir root) then Raise (FileNotFoundError ("mockup directory not found: " +:+ path_str root))
  else let? service_root := mockup_service_root root in Ok (MockupHandler root service_root).

(** [_select_handler(corpus_dir, replay_trace, mutation_rules, seed, mockup_dir)] *)
Definition select_handler (corpus : option path) (replay_trace mutation_rules : option path) (sd : Z)
    (mockup : option path) (env_rack env_slot : string) : res handler_class :=
  match mockup with
  | Some d =>
      match replay_trace, mutation_rules with
      | None, None => make_mockup_handler d
      | _, _ => Raise (ValueError
          "--mockup-dir is GET-only; --replay/--mutation-rules apply to corpus mode")
      end
  | None =>
      match corpus with
      | None => Raise (ValueError "either a corpus dir or a mockup dir is required")
      | Some c =>
          let? cs := make_handler c replay_trace mutation_rules sd env_rack env_slot in
          Ok (CorpusHandler cs.1 cs.2)
      end
  end.
End Server.

(** ** Replies stay inside the corpus *)

Section Containment.
Context {fs : Files}.

(** [f] is a file that lies under what [root] resolves to. *)
Definition contained (root f : path) : Prop :=
  exists r, resolve_path root = Ok r /\ is_relative_to f r /\ is_file f = true.

Lemma first_contained_spec r cands f :
  first_contained r cands = Ok (Some f) -> is_relative_to f r /\ is_file f = true.
Proof.
  induction cands as [|c cands IH]; simpl; [done|].
  destruct (resolve_path c) as [p|e|]; [|by destruct (is_OSError e)|done].
  case_decide; [|done]. destruct (is_file p) eqn:Hp; [|done]. by intros [= <-].
Qed.

Lemma resolve_mapped_contained root name f :
  resolve_mapped_fixture root name = Ok (Some f) -> contained root f.
Proof.
  unfold resolve_mapped_fixture. destruct name as [| | | |n| | | |]; try done.
  destruct (PyStr.nonempty n); [|done]. destruct (rooted (parse_path n)); [done|].
  intros (r & Hr & Hf)%res_bind_ok. exists r. split; [done|]. by eapply first_contained_spec.
Qed.

Lemma dict_set_values {A} (k k' : string) (v v' : A) (l : list (string * A)) :
  (k', v') ∈ dict_set k v l -> v' = v \/ v' ∈ l.*2.
Proof.
  induction l as [|[k2 v2] l IH]; cbn [dict_set].
  - intros [= _ ->]%list_elem_of_singleton. by left.
  - case_decide; rewrite fmap_cons, !elem_of_cons; intros [[= _ ->]|Hin]; simpl; auto.
    + right. right. apply list_elem_of_fmap. by exists (k', v').
    + destruct (IH Hin); auto.
Qed.

Lemma index_entries root k f :
  dict_get k (build_fixture_index root) = Some f ->
  exists name, name ∈ listdir root /\ fnmatchcase name "*.json" = true /\ f = path_join root (Path false [name]).
Proof.
  unfold build_fixture_index. intros H.
  set (names := filter (fun name => fnmatchcase name "*.json" = true) (listdir root)) in H.
  assert (forall l (acc : list (string * path)),
            (forall f, f ∈ acc.*2 -> exists name, name ∈ names /\ f = path_join root (Path false [name])) ->
            l ⊆ names ->
            forall f, f ∈ (fold_left (fun acc name => dict_set (PyStr.lower name)
                             (path_join root (Path false [name])) acc) l acc).*2 ->
            exists name, name ∈ names /\ f = path_join root (Path false [name])) as Hgen.
  { induction l as [|n l IH]; intros acc Hacc Hl; simpl; [exact Hacc|]. apply IH; [|intros x Hx; apply Hl; by right].
    intros f' Hf'. apply list_elem_of_fmap in Hf' as ([k' f''] & -> & Hin). simpl.
    assert (f'' = path_join root (Path false [n]) \/ f'' ∈ acc.*2) as [->|Hin'].
    { by apply dict_set_values in Hin. }
    - exists n. split; [apply Hl; by left|done].
    - by apply Hacc. }
  apply dict_get_In in H. destruct (Hgen names [] ltac:(set_solver) ltac:(done) f) as (name & Hn & ->).
  - apply list_elem_of_fmap. by exists (k, f).
  - apply list_elem_of_filter in Hn as [? ?]. eauto.
Qed.

Lemma make_handler_config npy numpy yaml root rt mr sd rack slot cfg s :
  make_handler npy numpy yaml root rt mr sd rack slot = Ok (cfg, s) ->
  load_rest_api_map npy numpy root = Ok (api_map cfg) /\ corpus_dir cfg = root /\
  fixture_index cfg = build_fixture_index root.
Proof.
  unfold make_handler. destruct (is_dir root); [|done]. cbn [negb].
  destruct rt as [rt|], mr as [mr|]; [done|..];
    intros (amap & Ha & H)%res_bind_ok; destruct (build_fixture_index root) eqn:Hi; try done;
    apply res_bind_ok in H as (rp & _ & H); apply res_bind_ok in H as (x & _ & [= <- _]); by rewrite <- Hi.
Qed.

Lemma make_handler_identity npy numpy yaml root rt mr sd rack slot cfg s :
  make_handler npy numpy yaml root rt mr sd rack slot = Ok (cfg, s) ->
  identity_overlay cfg = identity_overlay_from_env rack slot.
Proof.
  unfold make_handler. destruct (is_dir root); [|done]. cbn [negb].
  destruct rt as [rt|], mr as [mr|]; [done|..];
    intros (amap & Ha & H)%res_bind_ok; destruct (build_fixture_index root) eqn:Hi; try done;
    apply res_bind_ok in H as (rp & _ & H); apply res_bind_ok in H as (x & _ & [= <- _]); done.
Qed.

(** C13. Every file a request of the corpus server is answered from is a JSON file
    directly in the corpus directory or a file that resolves inside the resolved
    directory, the captured error bodies too; every file of the mockup server is
    the service root document or resolves inside the profile. *)
Theorem served_files_contained npy numpy yaml root rt mr sd rack slot cfg s service_root self_path f :
  make_handler npy numpy yaml root rt mr sd rack slot = Ok (cfg, s) ->
  (fixture_for_request cfg self_path = Ok (Some f) ->
     contained root f \/
     exists name, name ∈ listdir root /\ fnmatchcase name "*.json" = true /\
                  f = path_join root (Path false [name])) /\
  (forall status, captured_error_for_request cfg self_path = Ok (Some (status, Some f)) -> contained root f) /\
  (mockup_file_for_redfish_path service_root self_path = Ok (Some f) ->
     f = path_join service_root mockup_index \/ contained service_root f).
Proof.
  intros (_ & Hroot & Hindex)%make_handler_config. split; [|split].
  - unfold fixture_for_request. rewrite Hroot, Hindex. intros (p & _ & H)%res_bind_ok.
    destruct (PyStr.startswith _ p); [|done]. cbn [negb] in H.
    apply res_bind_ok in H as (name & _ & (mapped & Hm & H)%res_bind_ok).
    destruct mapped as [g|]; injection H as H.
    + subst. left. by eapply resolve_mapped_contained.
    + right. by eapply index_entries.
  - intros status. unfold captured_error_for_request. rewrite Hroot. destruct (api_map cfg) as [|kv0 l0]; [done|].
    intros (p & _ & H)%res_bind_ok. destruct (PyStr.startswith _ p); [|done]. cbn [negb] in H.
    apply res_bind_ok in H as (raw & _ & (st & _ & (en & _ & (ef & Hef & H)%res_bind_ok)%res_bind_ok)%res_bind_ok).
    destruct ef as [g|].
    + injection H as _ H. subst. by eapply resolve_mapped_contained.
    + destruct st as [z|]; [destruct (z <? 400)%Z|]; done.
  - unfold mockup_file_for_redfish_path. intros (p & _ & H)%res_bind_ok. destruct (_ && _); [done|].
    destruct (PyStr.nonempty _); cbn [negb] in H; [|left; by injection H].
    apply res_bind_ok in H as (r & Hr & H). right. exists r. split; [done|]. by eapply first_contained_spec.
Qed.

(** ** Replayed statuses are HTTP statuses *)

Definition statuses_ok (api_map : pydict) : Prop :=
  forall k v, dict_get k (mapping_dict api_map "http_status_mapping") = Some v ->
  exists z, v = PInt z /\ (100 <= z <= 599)%Z.

Lemma check_status_spec mp kv kv' :
  check_status mp kv = Ok kv' -> kv'.1 = kv.1 /\ exists z, kv'.2 = PInt z /\ (100 <= z <= 599)%Z.
Proof.
  unfold check_status. destruct (Numbers.py_int kv.2) as [z|e|]; [|by destruct e|done].
  destruct (_ || _) eqn:Hz; [done|]. apply orb_false_iff in Hz as [H1 H2]. intros [= <-]. split; [done|].
  exists z. split; [done|]. lia.
Qed.

Lemma res_map_Forall {A B} (P : B -> Prop) (f : A -> res B) l l' :
  (forall a b, f a = Ok b -> P b) -> res_map f l = Ok l' -> Forall P l'.
Proof.
  intros Hf. revert l'. induction l as [|a l IH]; intros l'; simpl; [intros; by simplify_eq|].
  intros (b & Hb & (bs & Hbs & [= <-])%res_bind_ok)%res_bind_ok. constructor; eauto.
Qed.

Lemma validate_statuses api mp api' : validate_rest_api_map api mp = Ok api' -> statuses_ok api'.
Proof.
  intros (u & _ & H)%res_bind_ok. unfold statuses_ok, mapping_dict. intros k v.
  destruct (dget "http_status_mapping" api) as [| | | | | | |d|] eqn:Hd;
    try (injection H as <-; rewrite Hd; unfold py_or; simpl; try done; by case_match).
  apply res_bind_ok in H as (d' & Hd' & [= <-]). unfold dget, dict_get_or. rewrite dict_get_set_eq.
  pose proof (res_map_Forall (fun kv => exists z, kv.2 = PInt z /\ (100 <= z <= 599)%Z) _ _ _
                (fun a b H => proj2 (check_status_spec mp a b H)) Hd') as Hall.
  unfold py_or. simpl. destruct d' as [|kv d']; [done|]. cbn [as_dict].
  intros Hk%dict_get_In. rewrite Forall_forall in Hall. by apply (Hall (k, v)).
Qed.

Lemma load_statuses npy numpy root api : load_rest_api_map npy numpy root = Ok api -> statuses_ok api.
Proof.
  assert (forall mp api, load_rest_api_map_npy npy numpy mp = Ok api -> statuses_ok api) as Hnpy.
  { intros mp api'. unfold load_rest_api_map_npy. destruct numpy; [|done].
    destruct (npy mp) as [[| | | | | | |d|]|e|]; try done; [|by destruct (is_Exception e)].
    apply validate_statuses. }
  unfold load_rest_api_map. destruct (file_exists _).
  - intros (side & Hside & H)%res_bind_ok. assert (statuses_ok side) as Hok.
    { unfold load_rest_api_map_json in Hside.
      destruct (res_bind (read_file _) load_json) as [[| | | | | | |d|]|e|]; try done;
        [|by destruct e; try done; repeat case_match].
      apply res_bind_ok in Hside as (u & _ & Hside). by eapply validate_statuses. }
    destruct (file_exists _); cbn [negb] in H; [|by injection H as <-].
    destruct numpy; cbn [negb] in H; [|by injection H as <-].
    apply res_bind_ok in H as (legacy & _ & H). by eapply validate_statuses.
  - destruct (file_exists _); cbn [negb]; [apply Hnpy|]. intros [= <-] k v. done.
Qed.

(** Whatever the API map files hold, the server starts only with statuses
    between 100 and 599, and every captured status it replays is one of them, and
    at least 400 when no error body was captured. *)
Theorem replayed_status_bounds npy numpy yaml root rt mr sd rack slot cfg s self_path status body :
  make_handler npy numpy yaml root rt mr sd rack slot = Ok (cfg, s) ->
  captured_error_for_request cfg self_path = Ok (Some (status, body)) ->
  (100 <= status <= 599)%Z /\ (body = None -> 400 <= status)%Z.
Proof.
  intros (Hload & _ & _)%make_handler_config. apply load_statuses in Hload.
  unfold captured_error_for_request. destruct (api_map cfg) as [|kv0 l0] eqn:Ha; [done|]. rewrite <- Ha in *.
  intros (p & _ & H)%res_bind_ok. destruct (PyStr.startswith _ p); [|done]. cbn [negb] in H.
  apply res_bind_ok in H as (raw & Hraw & (st & Hst & (en & _ & (ef & _ & H)%res_bind_ok)%res_bind_ok)%res_bind_ok).
  assert (forall z, st = Some z -> (100 <= z <= 599)%Z) as Hb.
  { intros z ->. unfold lookup_mapping in Hraw. apply res_bind_ok in Hraw as (keys & _ & Hraw).
    destruct (List.find _ keys) as [k|] eqn:Hk; injection Hraw as <-; [|done].
    apply find_some in Hk as [_ Hin]. unfold dict_in in Hin. unfold dget, dict_get_or in Hst.
    destruct (dict_get k _) as [v|] eqn:Hv; [|done]. destruct (Hload k v Hv) as (z' & -> & Hz).
    simpl in Hst. by injection Hst as <-. }
  destruct ef as [f|], st as [z|]; try (specialize (Hb z eq_refl)).
  - injection H as <- <-. destruct (Z.eqb_spec z 0); [lia|]. done.
  - injection H as <- <-. split; [lia|done].
  - destruct (Z.ltb_spec z 400); [done|]. injection H as <- <-. split; [done|]. intros _. lia.
  - done.
Qed.
End Containment.

(** ** What was written is read *)

Lemma wf_deep_update_val overlay target : wf overlay -> wf target -> wf (deep_update_val overlay target).
Proof.
  revert target. induction overlay as [| | | | | | |od IH|] using pyval_nested_ind; intros target Ho Ht; try done.
  destruct target as [| | | | | | |td|]; try done. rewrite deep_update_eq.
  apply wf_dict in Ho as [_ Ho]. revert td Ht. induction IH as [|[k v] od Hv _ IHo]; intros td Ht; [done|].
  apply Forall_cons in Ho as [Hkv Ho]. cbn [deep_update]. apply IHo; [done|].
  apply wf_set; [|done]. apply Hv; [done|]. by apply wf_get.
Qed.

Lemma dict_get_sort {A} k (d : list (string * A)) :
  NoDup (dict_keys d) -> dict_get k (sort_items d) = dict_get k d.
Proof.
  intros Hnd. pose proof (sort_items_perm d) as Hp.
  assert (NoDup (dict_keys (sort_items d))) as Hnd'.
  { unfold dict_keys in *. by rewrite Hp. }
  destruct (dict_get k d) as [v|] eqn:Hk.
  - apply dict_get_In in Hk. apply dict_get_NoDup; [done|]. by rewrite Hp.
  - apply dict_get_None in Hk. apply dict_get_None. unfold dict_keys in *. by rewrite Hp.
Qed.

Lemma get_path_sort v ks :
  wf v -> get_path (sort_keys v) ks = sort_keys <$> get_path v ks.
Proof.
  revert v. induction ks as [|k ks IH]; intros v Hv; [done|]. cbn [get_path].
  destruct v as [| | | | | | |d|]; try done. cbn [sort_keys].
  pose proof Hv as [Hnd _]%wf_dict. rewrite dict_get_sort.
  - assert (dict_get k (map (fun kv => (kv.1, sort_keys kv.2)) d) = sort_keys <$> dict_get k d) as ->.
    { clear. induction d as [|[k' v] d IH]; simpl; [done|]. by case_decide. }
    pose proof (wf_get k d Hv) as Hw. unfold dget, dict_get_or in Hw.
    destruct (dict_get k d) as [c|]; [|done]. simpl. by apply IH.
  - unfold dict_keys. rewrite map_map. simpl. exact Hnd.
Qed.

Section ReadBack.
Context {fs : Files} (random_lt : Z -> nat -> Numbers.dec -> bool).

Lemma identity_wf rack slot p : wf (PDict (dict_get_or p [] (identity_overlay_from_env rack slot))).
Proof.
  unfold identity_overlay_from_env, dict_get_or.
  destruct (_ && _); simpl; repeat case_decide; simpl; repeat constructor; set_solver.
Qed.

Lemma update_payload_dict overlay d :
  update_payload overlay (PDict d) = Ok (PDict (deep_update d overlay)).
Proof. unfold update_payload. by destruct overlay as [|[k v] o]. Qed.

Lemma Forall_mp {A} (P Q : A -> Prop) l : Forall (fun x => P x -> Q x) l -> Forall P l -> Forall Q l.
Proof. induction 1; inversion 1; constructor; auto. Qed.

(** JSON values have a text. *)
Lemma all_some_total {A B} (f : A -> option B) l :
  Forall (fun x => is_Some (f x)) l -> is_Some (all_some (map f l)).
Proof.
  induction 1 as [|x l [y Hy] _ [ys IH]]; simpl; [by eexists|]. rewrite Hy, IH. by eexists.
Qed.

Lemma wf_render isep ksep v : wf v -> is_Some (render isep ksep v).
Proof.
  induction v as [| | | | |l IH|l IH|d IH|] using pyval_nested_ind; intros Hv;
    try (by destruct Hv); try (eexists; reflexivity).
  - apply wf_list in Hv. destruct (all_some_total (render isep ksep) l) as [ts Hts].
    { exact (Forall_mp _ _ _ IH Hv). }
    simpl. rewrite Hts. by eexists.
  - apply wf_dict in Hv as [_ Hv].
    destruct (all_some_total (fun kv : string * pyval =>
                match render isep ksep kv.2 with Some t => Some (quoted kv.1 +:+ ksep +:+ t) | None => None end) d)
      as [ts Hts].
    { eapply Forall_impl; [exact (Forall_mp _ _ _ IH Hv)|]. intros x [t ->]. by eexists. }
    simpl. rewrite Hts. by eexists.
Qed.

Lemma wf_sort_keys v : wf v -> wf (sort_keys v).
Proof.
  induction v as [| | | | |l IH|l IH|d IH|] using pyval_nested_ind; intros Hv; try done.
  - apply wf_list in Hv. cbn [sort_keys]. apply wf_list. apply Forall_map.
    exact (Forall_mp _ _ _ IH Hv).
  - apply wf_dict in Hv as [Hnd Hv]. cbn [sort_keys]. apply wf_dict.
    split; [unfold dict_keys in *; rewrite sort_items_perm, map_map; exact Hnd|].
    rewrite sort_items_perm. apply Forall_map.
    exact (Forall_mp _ _ _ IH Hv).
Qed.

Lemma json_content_total v : wf v -> exists t, json_content v = Ok (File t (inl (sort_keys v))).
Proof.
  intros Hv. unfold json_content, dumps_sorted, dumps_with.
  destruct (wf_render ", " ": " _ (wf_sort_keys v Hv)) as [t ->]. by exists t.
Qed.

(** The corpus has the document [d] for the resource: a GET of [self_path] is
    answered from a fixture that holds it, and not with a captured error. *)
Definition corpus_has (cfg : config) (self_path p : string) (d : pydict) : Prop :=
  normalize_request_path self_path = Ok p /\ wf (PDict d) /\
  captured_error_for_request cfg self_path = Ok None /\
  exists f txt, fixture_for_request cfg self_path = Ok (Some f) /\ read_file f = Ok (File txt (inl (PDict d))).

(** The reply to a GET: the fixture under the identity overlay and the overlay of
    the engine. *)
Lemma served_document cfg e self_path p d od :
  corpus_has cfg self_path p d -> overlay_for (engine_store e) self_path = Ok od -> od <> [] ->
  let idn := dict_get_or (PyStr.lower p) [] (identity_overlay cfg) in
  wf (PDict idn) -> wf (PDict od) ->
  exists t, do_GET cfg (HttpRequest self_path None None) (Some e)
            = Ok (Reply 200 None (Some "application/json")
                    (File t (inl (sort_keys (PDict (deep_update (deep_update d idn) od))))) true).
Proof.
  intros (Hp & Hd & Hcap & f & txt & Hfix & Hread) Hod Hne idn Hidn Howf.
  unfold do_GET. cbn [q_path]. rewrite Hp. cbn [res_bind].
  rewrite decide_False.
  - unfold serve_fixture. rewrite Hcap. cbn [res_bind]. rewrite Hfix. cbn [res_bind]. rewrite Hod. cbn [res_bind].
    rewrite Hp. cbn [res_bind]. fold idn. rewrite Hread. cbn [res_bind].
    assert (wf (PDict (deep_update (deep_update d idn) od))) as Hw.
    { rewrite <- deep_update_eq. apply wf_deep_update_val; [done|]. rewrite <- deep_update_eq.
      by apply wf_deep_update_val. }
    destruct (json_content_total _ Hw) as [t Ht]. exists t.
    destruct od as [|o od]; [done|]. unfold load_json. cbn [doc res_bind].
    rewrite update_payload_dict. cbn [res_bind]. rewrite update_payload_dict. cbn [res_bind]. by rewrite Ht.
  - intros ->. unfold fixture_for_request in Hfix. rewrite Hp in Hfix. done.
Qed.

Lemma transitions_of (P : transition -> Prop) (Q : rule -> Prop) ms rs :
  Forall Q rs -> ms ⊆ rs ->
  (forall r ts, r_transitions r = Ok ts -> Q r -> Forall P ts) -> Forall P (all_transitions ms).
Proof.
  intros HQ Hsub Hr. unfold all_transitions. rewrite Forall_concat, Forall_map. apply Forall_forall. intros r Hin.
  rewrite Forall_forall in HQ. specialize (HQ r (Hsub r Hin)).
  destruct (r_transitions r) as [ts|e|] eqn:Hts; [by eapply Hr|constructor..].
Qed.

(** The rules a request fires in a state of the engine. *)
Definition fires (cfg : config) (m : mutations) (method : string) (q : http_request) (ms : list rule) : Prop :=
  exists body wp, read_json_body q = Ok body /\ normalize_request_path (q_path q) = Ok wp /\
    matching m method wp body (corpus_state cfg) = Ok ms.

(** A handled write ran the transitions of the rules it fired. *)
Lemma handled_write cfg m m' method q reply ms :
  fires cfg m method q ms -> ms <> [] ->
  handle_replay_write random_lt cfg method q (Some (ERules m)) = (Some (ERules m'), Ok reply) ->
  failed m' = failed m ->
  apply_transitions (all_transitions ms) (mstore m) = (mstore m', Ok tt).
Proof.
  intros (body & wp & Hbody & Hwp & Hms) Hne H Hf.
  unfold handle_replay_write, bind at 1, get_state in H. unfold bind at 1, lift_res at 1 in H.
  rewrite Hbody in H. cbn [engine_match_write] in H.
  destruct (mutations_match_write random_lt method (q_path q) body (corpus_state cfg) m) as [m1 out] eqn:Hw.
  unfold bind at 1, modify in H. unfold bind at 1, lift_res at 1 in H.
  destruct out as [[r|]|e|]; [| |done..].
  - assert (m1 = m') as ->.
    { unfold bind, lift_res in H. destruct (Numbers.py_int _) as [z|e|]; [|done..].
      destruct (_ || _); [unfold ret in H; by simplify_eq|]. by simplify_eq. }
    destruct (write_runs_transitions _ _ _ _ _ _ _ _ Hw Hf) as (path & ms' & Hp & Hms' & Hrun).
    rewrite Hwp in Hp. injection Hp as <-. rewrite Hms in Hms'. by injection Hms' as <-.
  - exfalso. unfold mutations_match_write, bind at 1, lift_res at 1 in Hw. rewrite Hwp in Hw.
    unfold bind at 1, get_state, bind at 1, lift_res in Hw. rewrite Hms in Hw. destruct ms as [|r ms]; [done|].
    unfold bind at 1 in Hw. destruct (roll_failure random_lt (r :: ms) m) as [m2 [[x|]|e|]]; try done.
    unfold bind in Hw. by destruct (apply_rules (r :: ms) m2) as [m3 [[]|e|]].
Qed.

(** C12. A write that the mutation rules answer is seen by the reads that follow.  For an engine that
    was loaded from rules that store no objects and no value with a repeated key, after any
    writes: when a write fires rules, no failure is injected, and the last of their transitions
    on a resource sets a field, then the next GET of that resource, if the corpus has a
    fixture of it, answers 200 with the value in that field, whatever the fixture and the
    writes before had there. *)
Theorem write_then_read npy numpy yaml root rt mr sd rack slot cfg s0 spec sd' m0 ws
    method q reply m' ms pre t post p keys k v self_path d :
  make_handler npy numpy yaml root rt mr sd rack slot = Ok (cfg, s0) ->
  new_mutations spec sd' = Ok m0 -> Forall plain_rule (rules m0) -> Forall json_rule (rules m0) ->
  let m := (run_writes random_lt (corpus_state cfg) ws m0).1 in
  fires cfg m method q ms -> all_transitions ms = pre ++ t :: post ->
  sets t p keys k v -> Forall (fun t => ~ targets t p) post ->
  handle_replay_write random_lt cfg method q (Some (ERules m)) = (Some (ERules m'), Ok reply) ->
  failed m' = failed m -> corpus_has cfg self_path p d ->
  exists r doc text, do_GET cfg (HttpRequest self_path None None) (Some (ERules m')) = Ok r /\
    r_status r = 200%Z /\ r_content r = File text (inl doc) /\
    get_path doc (keys ++ [k]) = Some (sort_keys v).
Proof.
  intros Hmk Hnew Hplain Hjson m Hfires Hts Hsets Hpost Hwrite Hfailed Hhas.
  pose proof (sound_run random_lt (corpus_state cfg) ws m0 (sound_new _ _ _ Hnew Hplain Hjson)) as Hsound.
  fold m in Hsound. destruct Hsound as (Hpr & Hjr & Hclean & Hwf).
  assert (ms ⊆ rules m) as Hsub by (destruct Hfires as (? & ? & _ & _ & ?); by eapply matching_subset).
  assert (ms <> []) as Hne by (intros ->; by destruct pre).
  pose proof (handled_write _ _ _ _ _ _ _ Hfires Hne Hwrite Hfailed) as Hrun. rewrite Hts in Hrun.
  assert (Forall plain_value (pre ++ t :: post) /\ Forall json_value (pre ++ t :: post)) as [Hpv Hjv].
  { rewrite <- Hts. split; [eapply transitions_of; [exact Hpr|done|]|eapply transitions_of; [exact Hjr|done|]];
      intros r ts Hr; [unfold plain_rule|unfold json_rule]; by rewrite Hr. }
  destruct (overlay_read_back pre t post p keys k v (mstore m) (mstore m') Hpv Hjv Hclean Hwf Hsets Hpost Hrun)
    as (od & _ & Hod & Howf & Hget).
  assert (overlay_for (engine_store (ERules m')) self_path = Ok od) as Hov.
  { cbn [engine_store]. rewrite overlay_for_plain.
    - destruct Hhas as (-> & _). cbn [res_bind]. unfold dict_get_or. by rewrite Hod.
    - destruct (transitions_refine _ _ Hpv Hclean) as (_ & Hc & _). by rewrite Hrun in Hc. }
  assert (od <> []) as Hodne by (intros ->; by destruct keys).
  assert (wf (PDict (dict_get_or (PyStr.lower p) [] (identity_overlay cfg)))) as Hid
    by (rewrite (make_handler_identity _ _ _ _ _ _ _ _ _ _ _ Hmk); apply identity_wf).
  destruct (served_document cfg (ERules m') self_path p d od Hhas Hov Hodne Hid Howf) as [txt ->].
  do 3 eexists. split; [reflexivity|]. split; [reflexivity|]. split; [reflexivity|].
  rewrite get_path_sort; rewrite <- deep_update_eq.
  - rewrite (deep_update_get (PDict od) _ (keys ++ [k]) v); [done|done| |by destruct keys|done].
    destruct Hsets as (_ & _ & _ & <-). apply Forall_app in Hpv as [_ Hpv]. by apply Forall_cons in Hpv as [? _].
  - apply wf_deep_update_val; [done|]. rewrite <- deep_update_eq.
    apply wf_deep_update_val; [done|]. by destruct Hhas as (_ & ? & _).
Qed.
End ReadBack.

(** ** Evaluation *)

(** A file system without links, as a table of files. *)
Fixpoint lexical (acc l : list string) : list string :=
  match l with
  | [] => rev acc
  | c :: l' => if decide (c = "..") then lexical (tail acc) l' else lexical (c :: acc) l'
  end.

Definition table_files (t : list (path * file)) : Files := {|
  file_exists p := existsb (fun kv => bool_decide (kv.1 = p)) t;
  is_dir p := negb (existsb (fun kv => bool_decide (kv.1 = p)) t);
  is_file p := existsb (fun kv => bool_decide (kv.1 = p)) t;
  listdir p := omap (fun kv => if decide (is_relative_to kv.1 p) then Some (path_name kv.1) else None) t;
  resolve_path p := Ok (Path true (lexical [] (comps p)));
  read_file p := match List.find (fun kv => bool_decide (kv.1 = p)) t with
                 | Some kv => Ok kv.2
                 | None => Raise (FileNotFoundError (path_str p))
                 end
|}.

Definition sample_root : path := parse_path "/corpus".
Definition sample_files : Files := table_files
  [(parse_path "/corpus/_redfish_v1_systems_1.json",
    File "..." (inl (PDict [("Id", PStr "1"); ("Boot", PDict [("Mode", PStr "Legacy")])])));
   (parse_path "/corpus/rest_api_map.status.json",
    File "..." (inl (PDict [("http_status_mapping", PDict [("/redfish/v1/Fabrics", PStr "503")]);
                            ("error_file_mapping", PDict [("/redfish/v1/Tasks", PStr "../etc/passwd");
                                                          ("/redfish/v1/Jobs", PStr "err.json")])])));
   (parse_path "/corpus/err.json", File "..." (inl (PDict [])));
   (parse_path "/etc/passwd", File "root" (inr "Expecting value"))].

Definition no_npy (_ : path) : res pyval := Raise (FileNotFoundError "").

Definition sample_handler : res (config * option engine) :=
  make_handler (fs := sample_files) no_npy false None sample_root None None 0 "" "7".

(** The mapped name that leaves the corpus is not served; the other one is. *)
Example sample_requests :
  match sample_handler with
  | Ok (cfg, _) =>
      map (captured_error_for_request (fs := sample_files) cfg)
        ["/redfish/v1/Fabrics/"; "/redfish/v1/Tasks"; "/redfish/v1/Jobs"; "/redfish/v1"]
      = [Ok (Some (503%Z, None)); Ok None; Ok (Some (500%Z, Some (parse_path "/corpus/err.json"))); Ok None]
  | _ => False
  end.
Proof. vm_compute. reflexivity. Qed.

Lemma served_files_contained_witness :
  match sample_handler with
  | Ok (cfg, s) =>
      fixture_for_request (fs := sample_files) cfg "/redfish/v1/Systems/1?$select=Id" =
        Ok (Some (path_join sample_root (Path false ["_redfish_v1_systems_1.json"]))) /\
      (contained (fs := sample_files) sample_root (path_join sample_root (Path false ["_redfish_v1_systems_1.json"]))
       \/ exists name, name ∈ listdir (Files := sample_files) sample_root /\ fnmatchcase name "*.json" = true /\
            path_join sample_root (Path false ["_redfish_v1_systems_1.json"])
            = path_join sample_root (Path false [name]))
  | _ => False
  end.
Proof.
  destruct sample_handler as [[cfg s]|e|] eqn:Hmk; [|vm_compute in Hmk; discriminate..].
  assert (fixture_for_request (fs := sample_files) cfg "/redfish/v1/Systems/1?$select=Id" =
        Ok (Some (path_join sample_root (Path false ["_redfish_v1_systems_1.json"])))) as Hf.
  { vm_compute in Hmk. injection Hmk as <- <-. reflexivity. }
  split; [exact Hf|].
  exact (proj1 (served_files_contained (fs := sample_files) no_npy false None sample_root None None 0 "" "7" cfg s
                  sample_root "/redfish/v1/Systems/1?$select=Id" _ Hmk) Hf).
Defined.

Lemma replayed_status_bounds_witness :
  match sample_handler with
  | Ok (cfg, s) =>
      captured_error_for_request (fs := sample_files) cfg "/redfish/v1/Fabrics" = Ok (Some (503%Z, None)) /\
      (100 <= 503 <= 599)%Z
  | _ => False
  end.
Proof.
  destruct sample_handler as [[cfg s]|e|] eqn:Hmk; [|vm_compute in Hmk; discriminate..].
  assert (captured_error_for_request (fs := sample_files) cfg "/redfish/v1/Fabrics" = Ok (Some (503%Z, None))) as Hc.
  { vm_compute in Hmk. injection Hmk as <- <-. reflexivity. }
  split; [exact Hc|].
  exact (proj1 (replayed_status_bounds (fs := sample_files) no_npy false None sample_root None None 0 "" "7" cfg s
                  "/redfish/v1/Fabrics" 503 None Hmk Hc)).
Defined.

Definition boot_rules : pydict :=
  [("rules", PList [PDict [("method", PStr "PATCH"); ("path", PStr "/redfish/v1/Systems/1");
      ("response", PDict [("status", PInt 200); ("body", PDict [])]);
      ("state_transitions", PList [PDict [("op", PStr "set"); ("path", PStr "/redfish/v1/Systems/1");
         ("json_path", PList [PStr "Boot"; PStr "Mode"]); ("value", PStr "Uefi")]])]])].

Definition never (_ : Z) (_ : nat) (_ : Numbers.dec) : bool := false.
Definition patch_request : http_request := HttpRequest "/redfish/v1/Systems/1" (Some "2") (Some (inl (PDict []))).

Lemma write_then_read_witness :
  match sample_handler, new_mutations boot_rules 0 with
  | Ok (cfg, _), Ok m0 =>
      match handle_replay_write (fs := sample_files) never cfg "PATCH" patch_request (Some (ERules m0)) with
      | (Some (ERules m'), Ok reply) =>
          exists r doc text,
            do_GET (fs := sample_files) cfg (HttpRequest "/redfish/v1/Systems/1/" None None) (Some (ERules m')) = Ok r /\
            r_status r = 200%Z /\ r_content r = File text (inl doc) /\
            get_path doc ["Boot"; "Mode"] = Some (PStr "Uefi")
      | _ => False
      end
  | _, _ => False
  end.
Proof.
  destruct sample_handler as [[cfg s]|e|] eqn:Hmk; [|vm_compute in Hmk; discriminate..].
  destruct (new_mutations boot_rules 0) as [m0|e|] eqn:Hm0; [|vm_compute in Hm0; discriminate..].
  pose proof Hmk as Hcfg. vm_compute in Hcfg. pose proof Hm0 as Hm. vm_compute in Hm.
  destruct (handle_replay_write (fs := sample_files) never cfg "PATCH" patch_request (Some (ERules m0)))
    as [s' out] eqn:Hw.
  pose proof Hw as Hw'. injection Hcfg as <- <-. injection Hm as <-. vm_compute in Hw'.
  injection Hw' as <- <-.
  eapply (write_then_read (fs := sample_files) never no_npy false None sample_root None None 0 "" "7" _ _
            boot_rules 0 _ [] "PATCH" patch_request _ _ _ [] _ [] "/redfish/v1/Systems/1" ["Boot"] "Mode"
            (PStr "Uefi") "/redfish/v1/Systems/1/" _ Hmk Hm0).
  - repeat constructor.
  - repeat constructor.
  - exists (PDict []), "/redfish/v1/Systems/1". split; [reflexivity|]. split; reflexivity.
  - reflexivity.
  - split; [eexists; split; reflexivity|]. split; [reflexivity|]. split; reflexivity.
  - constructor.
  - exact Hw.
  - reflexivity.
  - split; [reflexivity|]. split; [|split; [reflexivity|]].
    2: eexists _, _; split; [reflexivity|reflexivity].
    vm_compute. split_and!; repeat constructor; set_solver.
Defined.
End MockServer.
