(* ===== verification/Idrac.v ===== *)
(** * The Dell manager

    src/redfish_ctl/idrac_manager.py, class [IDracManager]: its transport and
    error mapping, Lifecycle Controller job ids, the task wait, the payloads of
    scheduled jobs and the chassis properties.  Discovery and [base_query] are
    inherited: a [base_query] of this class runs with the Dell error handler.  The
    raw text of a response, which is searched for a job id, is a parameter. *)

From stdpp Require Import base list gmap strings pretty.
From Stdlib Require Import Ascii ZArith Lia.
From S2P Require Import Prelude PyVal Effects Query Http Manager Discovery Json Timestamps Numbers Invoker.

Module Idrac.
Import Http RedfishManager Discovery.
Local Open Scope Z_scope.
Local Open Scope py_scope.

(** ** Enumerations *)

(** [IdracTaskState] *)
Inductive IdracTaskState :=
| TNew | TStarting | TRunning | TSuspended | TInterrupted | TPending | TStopping | TCompleted
| TKilled | TException | TService | TCanceling | TCancelled | TUnknown.

(** [IdracTaskStatus] *)
Inductive IdracTaskStatus := SOk | SWarning | SCritical.

(** [DellJobState] *)
Inductive DellJobState :=
| JNew | JScheduled | JRunning | JCompleted | JCompletedWithErrors | JDownloaded | JDownloading
| JScheduling | JWaiting | JFailed | JRebootFailed | JRebootCompleted | JRebootPending
| JPendingActivation | JPaused | JUnknown.

(** [ScheduleJobType] *)
Inductive ScheduleJobType := NoReboot | AutoReboot | OnReset | Immediate.

#[export] Instance IdracTaskState_eq_dec : EqDecision IdracTaskState.
Proof. solve_decision. Defined.
#[export] Instance DellJobState_eq_dec : EqDecision DellJobState.
Proof. solve_decision. Defined.

(** [DellJobState.value] *)
Definition job_state_value (s : DellJobState) : string :=
  match s with
  | JNew => "New" | JScheduled => "Scheduled" | JRunning => "Running" | JCompleted => "Completed"
  | JCompletedWithErrors => "CompletedWithErrors" | JDownloaded => "Downloaded" | JDownloading => "Downloading"
  | JScheduling => "Scheduling" | JWaiting => "Waiting" | JFailed => "Failed" | JRebootFailed => "RebootFailed"
  | JRebootCompleted => "RebootCompleted" | JRebootPending => "RebootPending"
  | JPendingActivation => "PendingActivation" | JPaused => "Paused" | JUnknown => "Unknown"
  end.

(** [self._job_state_mapping] *)
Definition job_state_mapping : list (string * DellJobState) :=
  [("Scheduled", JScheduled); ("Running", JRunning); ("Completed", JCompleted); ("Downloaded", JDownloaded);
   ("Downloading", JDownloading); ("Scheduling", JScheduling); ("Waiting", JWaiting); ("Failed", JFailed);
   ("CompletedWithErrors", JCompletedWithErrors); ("RebootFailed", JRebootFailed);
   ("RebootCompleted", JRebootCompleted); ("RebootPending", JRebootPending);
   ("PendingActivation", JPendingActivation); ("Unknown", JUnknown)].

(** [self._task_state_mapping] *)
Definition task_state_mapping : list (string * IdracTaskState) :=
  [("New", TNew); ("Running", TStarting); ("Starting", TStarting); ("Suspended", TSuspended);
   ("Interrupted", TInterrupted); ("Pending", TPending); ("Stopping", TStopping); ("Completed", TCompleted);
   ("Killed", TKilled); ("Exception", TException); ("Service", TService); ("Canceling", TCanceling);
   ("Cancelled", TCancelled)].

(** [self._task_status_mapping] *)
Definition task_status_mapping : list (string * IdracTaskStatus) :=
  [("ok", SOk); ("warning", SWarning); ("critical", SCritical)].

(** [self._http_code_mapping] *)
Definition http_code_mapping (code : Z) : option api_respond :=
  if code =? 200 then Some RespOk
  else if code =? 201 then Some RespCreated
  else if code =? 202 then Some RespAccepted
  else if code =? 204 then Some RespSuccess
  else None.

(** [self._http_code_mapping[code]] *)
Definition code_respond (code : Z) : res api_respond :=
  match http_code_mapping code with Some a => Ok a | None => Raise (KeyError (pretty code)) end.

(** [api_success_msg(api_respond)] with [self._api_respond_to_string], which has
    no entry for [Created] *)
Definition api_success_msg (a : api_respond) (message_key : string) (message : pyval) : res pydict :=
  let? status := match a with
                 | RespOk => Ok "ok"
                 | RespError => Ok "error"
                 | RespSuccess => Ok "success"
                 | RespAccepted => Ok "accepted"
                 | RespCreated => Raise (KeyError "RedfishApiRespond.Created")
                 end in
  let d := [("Status", PStr status)] in
  Ok (if is_none message then d else dict_set message_key message d).

(** ** Redaction *)

(** A key whose value is masked. *)
Definition sensitive (k : string) : bool :=
  let t := PyStr.lower k in
  bool_decide (t ∈ ["apikey"; "api_key"; "accesskey"; "access_key"]) ||
  (PyStr.endswith "password" t || PyStr.endswith "secret" t || PyStr.endswith "token" t).

(** [_redact_sensitive_payload(payload)] *)
Fixpoint redact_sensitive_payload (payload : pyval) : pyval :=
  match payload with
  | PDict d => PDict (map (fun kv => (kv.1, if sensitive kv.1 then PStr "********"
                                            else redact_sensitive_payload kv.2)) d)
  | PList l => PList (map redact_sensitive_payload l)
  | v => v
  end.

(** ** Attribute filter *)

(** [a.lower() in attr.lower()] *)
Definition name_matches (a attr : string) : bool := PyStr.contains (PyStr.lower a) (PyStr.lower attr).

(** [filter_attribute(cls, json_data, attr_filter)]; [json_data] is a mapping whose
    [Attributes] is one.  With several names the keys of the result are the names
    asked for, with one they are the attributes. *)
Definition filter_attribute (json_data : pydict) (attr_filter : option string) : pydict :=
  match attr_filter with
  | Some f =>
      if PyStr.nonempty f && dict_in "Attributes" json_data then
        let attrs := as_dict (dget "Attributes" json_data) in
        let f := PyStr.strip f in
        if PyStr.contains "," f then
          fold_left (fun acc kv => dict_set kv.1 kv.2 acc)
            (concat (map (fun kv => map (fun a => (a, kv.2))
                                        (List.filter (fun a => name_matches a kv.1) (PyStr.split "," f))) attrs)) []
        else List.filter (fun kv => name_matches f kv.1) attrs
      else json_data
  | None => json_data
  end.

(** ** Job ids *)

(** The first match of [JID_[0-9A-Za-z]+] *)
Fixpoint take_alnum (s : string) : string :=
  match s with
  | String c s' => if PyStr.is_alnum c then String c (take_alnum s') else EmptyString
  | EmptyString => EmptyString
  end.

Fixpoint search_jid (s : string) : string :=
  match s with
  | EmptyString => ""
  | String _ s' =>
      if PyStr.startswith "JID_" s && PyStr.nonempty (take_alnum (String.substring 4 (String.length s) s))
      then "JID_" +:+ take_alnum (String.substring 4 (String.length s) s) else search_jid s'
  end.

Section Manager.
Context {W : Type} `{!World W} (response_text : response -> string).
Abbreviation MM := (M (mstate W)).

(** [job_id_from_respond(response)] *)
Definition job_id_from_respond (r : response) : string :=
  let from_body :=
    match json r with
    | Ok (PDict d) =>
        List.find (fun v => match v with PStr s => PyStr.startswith "JID_" s | _ => false end)
          (map (fun k => dget k d) ["id"; "Id"; "JobID"; "JID"])
    | _ => None
    end in
  match from_body with
  | Some (PStr s) => s
  | _ => search_jid (response_text r)
  end.

(** [job_id_from_response(response, strict)] *)
Definition job_id_from_response (r : response) (strict : bool) : res string :=
  let? header := task_id_from_header r false in
  let job_id := if PyStr.nonempty header then header else job_id_from_respond r in
  if negb (PyStr.nonempty job_id) && strict
  then Raise (TaskIdUnavailable ("Dell accepted the request but returned no task id in the Location "
                                 +:+ "header or response body"))
  else Ok job_id.

(** ** Error mapping *)

(** [default_error_handler(response)] *)
Definition default_error_handler (r : response) : MM api_respond :=
  let code := status_code r in
  if (200 <=? code) && (code <? 300) then ret (default RespSuccess (http_code_mapping code))
  else
    modify (set_mgr (set_error (parse_error r))) ;;;
    if code =? 401 then raise (AuthenticationFailed (parse_error r))
    else if code =? 403 then raise (RedfishForbidden (parse_error r))
    else if code =? 404 then raise (ResourceNotFound (parse_error r))
    else raise (UnexpectedResponse (parse_error r)).

(** [read_api_respond(response, expected, ignore_error_code)]; the success
    handlers of POST, PATCH and DELETE are this function *)
Definition read_api_respond (r : response) (expected ignore_error_code : Z) : MM api_respond :=
  let code := status_code r in
  match header_get "Location" (headers r) with
  | Some _ => ret RespAccepted
  | None =>
      if (code =? expected) || ((0 <? ignore_error_code) && (ignore_error_code =? code))
         || ((200 <=? code) && (code <? 300))
      then lift_res (code_respond code)
      else
        modify (set_mgr (set_error (parse_error r))) ;;;
        if (300 <=? code) && (code <? 500) then
          if code =? 400 then raise (RedfishException (parse_error r))
          else if code =? 401 then raise (RedfishUnauthorized (parse_error r))
          else if code =? 403 then raise (RedfishForbidden (parse_error r))
          else if code =? 404 then raise (ResourceNotFound (parse_error r))
          else ret RespError
        else raise (RedfishException (parse_error r))
  end.

(** ** Writes *)

(** [api_async_post_call], [api_async_patch_call], [api_async_delete_call]: with a
    token the headers go out without it *)
Definition api_async_write_call (meth : method) (req : string) (payload : pyval) (hdr : pydict) : MM response :=
  let! m := gets mgr in
  let hs := dict_update json_content_type hdr in
  send (Request meth req hs (match x_auth m with Some _ => None | None => Some (user m, passwd m) end)
          (verify_cert m) (Some payload)).

(** The end of [base_request_respond]: the result for a classified response *)
Definition write_result (response : option response) (api_resp : api_respond) : MM (CommandResult * api_respond) :=
  match api_resp, response with
  | RespAccepted, Some resp =>
      let! task_id := lift_res (job_id_from_response resp true) in
      ret (mkResult (PDict [("task_id", PStr task_id)]) PNone PNone PNone, api_resp)
  | _, _ =>
      let! msg := lift_res (api_success_msg api_resp "message" PNone) in
      let! m := gets mgr in
      let err := match api_resp with
                 | RespError => match redfish_error m, response with
                                | PNone, Some resp => parse_error resp
                                | e, _ => e
                                end
                 | _ => PNone
                 end in
      ret (mkResult (PDict msg) PNone PNone err, api_resp)
  end.

(** [base_request_respond(resource, method, payload, do_async, data_type,
    expected_status, ignore_error_code)]; no call raises the three exceptions it
    catches, and a method that is no write sends nothing *)
Definition base_request_respond (resource : string) (meth : method) (payload : option pydict) (do_async : bool)
    (data_type : string) (expected_status ignore_error_code : Z) : MM (CommandResult * api_respond) :=
  let hs := if decide (data_type = "json") then json_content_type else [] in
  let pd := PDict (default [] payload) in
  modify (set_mgr (set_error PNone)) ;;;
  let! m := gets mgr in
  let r := base_url m resource in
  let exchange (call : MM response) : MM (CommandResult * api_respond) :=
    let! response := call in
    let! a := read_api_respond response expected_status ignore_error_code in
    write_result (Some response) a in
  match meth with
  | PATCH | POST => if do_async then exchange (api_async_write_call meth r pd hs)
                    else exchange (api_write_call meth r hs (Some pd))
  | DELETE => if do_async then exchange (api_async_write_call meth r pd hs)
              else exchange (api_delete_call r hs)
  | _ => write_result None RespError
  end.

(** [base_post], [base_patch], [base_delete] *)
Definition base_post (resource : string) (payload : option pydict) (do_async : bool) (expected ignore : Z) :=
  base_request_respond resource POST payload do_async "json" expected ignore.
Definition base_patch (resource : string) (payload : option pydict) (do_async : bool) (expected ignore : Z) :=
  base_request_respond resource PATCH payload do_async "json" expected ignore.
Definition base_delete (resource : string) (payload : option pydict) (do_async : bool) (expected ignore : Z) :=
  base_request_respond resource DELETE payload do_async "json" expected ignore.

(** ** Reads *)

(** [load_response()] of [base_query] with the Dell handler *)
Definition load_response (r : string) (hs : pydict) : MM (pyval * pyval) :=
  let! response := api_get_call r hs in
  modify (set_mgr bump_counter) ;;;
  default_error_handler response ;;;
  let allow := opt_str (header_get "Allow" (headers response)) in
  let! payload := lift_res (json response) in
  ret (payload, allow).

(** [base_query(resource, ...)], inherited *)
Definition base_query (resource : string) (a : qargs) : MM CommandResult :=
  let hs := if decide (data_type a = "json") then json_content_type else [] in
  let! m := gets mgr in
  let! r := lift_res (query_url m resource a) in
  let! act := gets active in
  let cache := match q_cache a with Some c => Some c | None => act end in
  let! (data, allow) :=
    if do_async a then
      let! response := api_async_get_call r hs in
      modify (set_mgr bump_counter) ;;;
      default_error_handler response ;;;
      let! payload := lift_res (json response) in
      ret (payload, opt_str (header_get "Allow" (headers response)))
    else
      match cache, filename a with
      | Some c, None => get_or_load c (r, data_type a) (load_response r hs)
      | _, _ => load_response r hs
      end in
  ret (mkResult (select_payload (key a) data) PNone allow PNone).

Definition expanded_args : qargs := QArgs None false true "" "" "json" None None None None.
Definition select_args (t : string) : qargs := QArgs None false false t "" "json" None None None None.

(** [idrac_members], the [manager_uri] of this class *)
Definition idrac_members : MM pyval :=
  cached c_manager_uri store_manager_uri
    (let! r := base_query api_managers (with_key "Members") in
     ret (value_from_json_list (data r) "@odata.id")).

(** [get_job(job_id)] *)
Definition get_job (job_id : string) : MM pyval :=
  let! members := idrac_members in
  let! r := base_query (py_str members +:+ "/Oem/Dell/Jobs/" +:+ job_id) expanded_args in
  ret (data r).

(** [k in v] where [v] may have no membership test *)
Definition member_test (k : string) (v : pyval) : res bool :=
  match py_in k v with
  | Some b => Ok b
  | None => Raise (TypeError ("argument of type '" +:+ type_name v +:+ "' is not iterable"))
  end.

(** [v[k]] of a value in which [k] was found *)
Definition item (k : string) (v : pyval) : res pyval :=
  match v with
  | PDict d => match dict_get k d with Some x => Ok x | None => Raise (KeyError k) end
  | _ => Raise (TypeError (type_name v +:+ " indices must be integers or slices, not str"))
  end.

(** [update_progress(resp_data, old_value)] *)
Definition update_progress (resp_data : pyval) (old_value : Z) : res Z :=
  let? has := member_test "PercentComplete" resp_data in
  if has then
    match res_bind (item "PercentComplete" resp_data) Numbers.py_int with
    | Raise (TypeError _) => Ok old_value
    | r => r
    end
  else Ok old_value.

(** A lookup in one of the mappings; an unhashable key raises [TypeError] *)
Definition map_item {A} (l : list (string * A)) (v : pyval) : res A :=
  match v with
  | PStr s => match dict_get s l with Some x => Ok x | None => Raise (KeyError s) end
  | PList _ | PDict _ => Raise (TypeError ("unhashable type: '" +:+ type_name v +:+ "'"))
  | v => Raise (KeyError (py_str v))
  end.

(** [get_task_state(resp)] *)
Definition get_task_state (r : response) : res (IdracTaskState * IdracTaskStatus) :=
  match json r with
  | Ok v =>
      let? has_status := member_test "TaskStatus" v in
      let? has_state := member_test "TaskState" v in
      if negb has_status || negb has_state then
        Raise (UnexpectedResponse (PStr ("IDRAC returned a " +:+ py_str v
                 +:+ ", neither task state nor status is present..")))
      else
        let? resp_state := item "TaskState" v in
        let? resp_status := item "TaskStatus" v in
        let? state := map_item task_state_mapping resp_state in
        match resp_status with
        | PStr s => let? status := map_item task_status_mapping (PStr (PyStr.lower s)) in Ok (state, status)
        | x => Raise (AttributeError ("'" +:+ type_name x +:+ "' object has no attribute 'lower'"))
        end
  | _ => Ok (TUnknown, SWarning)
  end.

(** What [fetch_task] returns: the state of the job, or of the task. *)
Inductive wait_result := JobIs (s : DellJobState) | TaskIs (s : IdracTaskState).

Definition tasks_path : string := "/redfish/v1/TaskService/Tasks/".

(** [time.sleep(delay)] *)
Definition time_sleep (delay : Z) : MM unit :=
  if delay <? 0 then raise (ValueError "sleep length must be non-negative")
  else modify (set_world (sleep (1000 * delay))).

(** The [while True] loop of [fetch_task] *)
Fixpoint poll (fuel : nat) (url : string) (sleep_time wait_for : Z) (wait_for_state : IdracTaskState)
    (retry_after percent_done : Z) (task_state : IdracTaskState) : MM wait_result :=
  match fuel with
  | O => lift_res NoFuel
  | S fuel' =>
      let! resp := api_get_call url [] in
      let! retry_after :=
        match header_get "Retry-After" (headers resp) with
        | Some h => lift_res (Numbers.py_int (PStr h))
        | None => ret retry_after
        end in
      let code := status_code resp in
      if code =? 401 then raise (AuthenticationFailed (PStr "Authentication failed."))
      else if 499 <? code then ret (TaskIs task_state)
      else if (code =? 404) || (code =? 410) then ret (TaskIs task_state)
      else if (0 <? wait_for) && (wait_for =? code) then
        let! (state, _) := lift_res (get_task_state resp) in ret (TaskIs state)
      else if code =? 202 then
        let! resp_data := lift_res (json resp) in
        let! (state, status) := lift_res (get_task_state resp) in
        match status with
        | SCritical | SWarning => ret (TaskIs state)
        | SOk =>
            let! percent := lift_res (update_progress resp_data percent_done) in
            let sleep_time := if sleep_time <? retry_after then retry_after else sleep_time in
            time_sleep sleep_time ;;;
            poll fuel' url sleep_time wait_for wait_for_state retry_after percent state
        end
      else if code =? 200 then
        let! (state, _) := lift_res (get_task_state resp) in ret (TaskIs state)
      else if decide (task_state = wait_for_state) then
        let! (state, _) := lift_res (get_task_state resp) in ret (TaskIs state)
      else
        let! (state, _) := lift_res (get_task_state resp) in
        let sleep_time := if sleep_time <? retry_after then retry_after else sleep_time in
        time_sleep sleep_time ;;;
        poll fuel' url sleep_time wait_for wait_for_state retry_after percent_done state
  end.

(** [fetch_task(task_id, sleep_time, wait_for, wait_for_state)] *)
Definition fetch_task (fuel : nat) (task_id : string) (sleep_time wait_for : Z)
    (wait_for_state : IdracTaskState) : MM wait_result :=
  let! jb := get_job task_id in
  let! has := lift_res (member_test "JobState" jb) in
  let! bounced :=
    if has then
      let! current := lift_res (item "JobState" jb) in
      match map_item job_state_mapping current with
      | Ok JScheduled | Ok JScheduling | Ok JRunning => ret None
      | Ok s => ret (Some s)
      | Raise (KeyError _) =>
          raise (UnexpectedResponse (PStr ("IDRAC returned a " +:+ py_str current
                   +:+ " job type that we don't know.")))
      | r => let! s := lift_res r in ret (Some s)
      end
    else ret None in
  match bounced with
  | Some s => ret (JobIs s)
  | None =>
      let! m := gets mgr in
      poll fuel (base_url m (tasks_path +:+ task_id)) sleep_time wait_for wait_for_state 0 0 TUnknown
  end.

(** ** The service *)

(** The tail of both probes: record the document and its action targets. *)
Definition record_endpoints (v : pyval) : MM (pyval * pyval) :=
  modify (set_mgr (fun m => set_endpoints v (action_targets m) m)) ;;;
  let! has := lift_res (member_test "Actions" v) in
  if has then
    let! actions := lift_res (item "Actions" v) in
    match actions with
    | PDict acts =>
        let! targets := mapM (fun kv => lift_res (item "target" kv.2)) acts in
        modify (set_mgr (set_endpoints v (PList targets))) ;;;
        ret (v, PList targets)
    | x => raise (AttributeError ("'" +:+ type_name x +:+ "' object has no attribute 'keys'"))
    end
  else let! m := gets mgr in ret (v, action_targets m).

(** [check_api_version()] *)
Definition check_api_version : MM (pyval * pyval) :=
  let! m := gets mgr in
  let! response := api_get_call (base_url m "/redfish/v1/Dell/Managers/iDRAC.Embedded.1/DellLCService")
                     json_content_type in
  if status_code response =? 404 then
    let! root := api_get_call (base_url m api_version) json_content_type in
    default_error_handler root ;;;
    let! v := lift_res (json root) in record_endpoints v
  else
    default_error_handler response ;;;
    let! v := lift_res (json response) in record_endpoints v.

(** A [cached_property] of this class. *)
Definition set_vendor (k : string) (v : pyval) (m : manager) : manager :=
  Manager (host_ip m) (user m) (passwd m) (port_no m) (verify_cert m) (x_auth m) (http_only m)
    (query_counter m) (redfish_error m) (own_query m) (own_one_param m)
    (manage_servers_obs m) (api_endpoints m) (action_targets m) (c_service_root m)
    (c_manager_uri m) (c_managed_system_uri m) (dict_set k v (c_vendor m)).

Definition cached_prop (name : string) (compute : MM pyval) : MM pyval :=
  cached (fun m => dict_get name (c_vendor m)) (set_vendor name) compute.

(** [version_api] *)
Definition version_api : MM pyval :=
  cached_prop "version_api"
    (let! m := gets mgr in
     let! response := api_get_call (base_url m "/redfish/v1/Managers/iDRAC.Embedded.1?$select=FirmwareVersion")
                        json_content_type in
     default_error_handler response ;;;
     let! d := lift_res (json response) in
     let! has := lift_res (member_test "FirmwareVersion" d) in
     if has then
       let! fw := lift_res (item "FirmwareVersion" d) in
       match fw with
       | PStr s => let! n := lift_res (Numbers.py_int (PStr (PyStr.join "" (PyStr.split "." s)))) in
                   ret (PBool (6000000 <=? n))
       | x => raise (AttributeError ("'" +:+ type_name x +:+ "' object has no attribute 'replace'"))
       end
     else ret (PBool false)).

(** [idrac_manage_chassis]; [_manage_chassis_obs] is kept in the same table *)
Definition idrac_manage_chassis : MM pyval :=
  cached_prop "idrac_manage_chassis"
    (let! members := idrac_members in
     let! r := base_query (py_str members) (with_key "Links") in
     match data r with
     | PNone => ret (PStr "")
     | d => let! has := lift_res (member_test "ManagerForChassis" d) in
            match has, d with
            | true, PDict links =>
                let chassis := dget "ManagerForChassis" links in
                modify (set_mgr (set_vendor "_manage_chassis_obs" chassis)) ;;;
                ret (value_from_json_list chassis "@odata.id")
            | _, _ => ret (PStr "")
            end
     end).

(** [PowerState], [None] when the value is neither *)
Inductive PowerState := PowerOn | PowerOff | PowerUnknown.

(** [power_state] *)
Definition power_state : MM (option PowerState) :=
  let! chassis := idrac_manage_chassis in
  let! r := base_query (py_str chassis) expanded_args in
  if negb (is_none (error r)) then ret (Some PowerUnknown)
  else
    let! has := lift_res (member_test "PowerState" (data r)) in
    if has then
      let! v := lift_res (item "PowerState" (data r)) in
      let! on := lift_res (member_test "On" v) in
      let! off := lift_res (member_test "Off" v) in
      ret (if on then Some PowerOn else if off then Some PowerOff else None)
    else raise (UnexpectedResponse (PStr "PowerState not present in respond.")).

(** [chassis_string_property(property_name)] *)
Definition chassis_string_property (property_name : string) : MM pyval :=
  let! chassis := idrac_manage_chassis in
  let! r := base_query (py_str chassis) expanded_args in
  let! has := lift_res (member_test property_name (data r)) in
  if has then
    let! v := lift_res (item property_name (data r)) in
    match v with
    | PStr s => ret (PStr s)
    | _ => raise (UnexpectedResponse (PStr (property_name +:+ " must be a string.")))
    end
  else raise (UnexpectedResponse (PStr (property_name +:+ " not present in respond."))).

Definition serial : MM pyval := cached_prop "serial" (chassis_string_property "SerialNumber").
Definition chassis_type : MM pyval := cached_prop "chassis_type" (chassis_string_property "ChassisType").
Definition chassis_uuid : MM pyval := cached_prop "chassis_uuid" (chassis_string_property "UUID").

(** [idrac_firmware], [idrac_time_offset]: one key of the manager resource *)
Definition manager_key (k : string) : MM pyval :=
  let! members := idrac_members in
  let! r := base_query (py_str members) (with_key k) in
  ret (data r).
Definition idrac_firmware : MM pyval := cached_prop "idrac_firmware" (manager_key "FirmwareVersion").
Definition idrac_time_offset : MM pyval := manager_key "DateTimeLocalOffset".

(** [idrac_last_reset()], [idrac_current_time()]: an instant, [None] when the text
    is no ISO time; a value that is no text raises [TypeError] *)
Definition manager_time (k : string) : MM (option Z) :=
  let! v := manager_key k in
  match v with
  | PStr s => ret (Timestamps.fromisoformat s)
  | _ => raise (TypeError "fromisoformat: argument must be str")
  end.
Definition idrac_last_reset : MM (option Z) := manager_time "LastResetTime".
Definition idrac_current_time : MM (option Z) := manager_time "DateTime".

(** [select_cert()], [select_network_adapters()], [select_info()] *)
Definition select_manager_attributes (target : string) : MM CommandResult :=
  let! members := idrac_members in
  base_query (py_str members +:+ "/Attributes") (select_args target).
Definition select_cert : MM CommandResult := select_manager_attributes "SecurityCertificate.*".
Definition select_network_adapters : MM CommandResult := select_manager_attributes "NIC.*".
Definition select_info : MM CommandResult := select_manager_attributes "ServerInfo.*".

(** [idrac_managers_count] *)
Definition idrac_managers_count : MM pyval :=
  cached_prop "idrac_managers_count"
    (let! r := base_query api_managers qdefault in lift_res (item "Members@odata.count" (data r))).

(** [idrac_manager_version]; [None] with several members *)
Definition idrac_manager_version : MM pyval :=
  cached_prop "idrac_manager_version"
    (let! r := base_query api_managers (with_key "Members") in
     match data r with
     | PList [] => raise (ResourceNotFound (PStr "no iDRAC manager member found"))
     | PList [member] =>
         let! has := lift_res (member_test "@odata.id" member) in
         if has then
           let! target := lift_res (item "@odata.id" member) in
           let! r := base_query (py_str target) (with_key "FirmwareVersion") in
           ret (data r)
         else ret PNone
     | PDict [] | PStr "" => raise (ResourceNotFound (PStr "no iDRAC manager member found"))
     | PDict [_] => raise (KeyError "-1")
     | PList _ | PDict _ | PStr _ => ret PNone
     | v => raise (TypeError ("object of type '" +:+ type_name v +:+ "' has no len()"))
     end).

(** ** Scheduled jobs *)

(** [schedule_job_request(reboot_type, start_time_isofmt, duration_time)] *)
Definition schedule_job_request (t : ScheduleJobType) (start duration : pyval) : pydict :=
  let window apply := [("ApplyTime", PStr apply); ("MaintenanceWindowStartTime", start);
                       ("MaintenanceWindowDurationInSeconds", duration)] in
  [("@Redfish.SettingsApplyTime",
    PDict (match t with
           | NoReboot => window "InMaintenanceWindowOnReset"
           | AutoReboot => window "AtMaintenanceWindowStart"
           | OnReset => [("ApplyTime", PStr "OnReset")]
           | Immediate => [("ApplyTime", PStr "Immediate")]
           end))].

(** [datetime.isoformat(sep)] of a naive instant with microseconds *)
Definition datetime_text (sep : string) (t : Z) : string :=
  let s := t / Timestamps.second in
  let '(y, m, d) := Timestamps.date_of_days (s / Timestamps.day) in
  let r := s mod Timestamps.day in
  Timestamps.fixed_digits 4 y +:+ "-" +:+ Timestamps.fixed_digits 2 m +:+ "-" +:+ Timestamps.fixed_digits 2 d
  +:+ sep +:+ Timestamps.fixed_digits 2 (r / 3600) +:+ ":" +:+ Timestamps.fixed_digits 2 (r / 60 mod 60)
  +:+ ":" +:+ Timestamps.fixed_digits 2 (r mod 60)
  +:+ (if t mod Timestamps.second =? 0 then "" else "." +:+ Timestamps.fixed_digits 6 (t mod Timestamps.second)).

(** A text with an offset is an aware time, which has no order with the local one. *)
Definition aware (time : string) : bool :=
  PyStr.has_char (fun c => bool_decide (c = "+"%char) || bool_decide (c = "-"%char) || bool_decide (c = "Z"%char))
    time.

(** [make_future_job_ts(start_date, start_time, is_json_string)] at local time [now] *)
Definition make_future_job_ts (now : Z) (start_date start_time : string) (is_json_string : bool) : res string :=
  if negb (PyStr.nonempty start_date)
  then Raise (MissingMandatoryArguments "A maintenance job requires a start date.")
  else if negb (PyStr.nonempty start_time)
  then Raise (MissingMandatoryArguments "A maintenance job requires a start time.")
  else
    let ts := start_date +:+ "T" +:+ start_time +:+ ".000001" in
    if aware start_time then Raise (InvalidArgumentFormat ("Invalid isoformat string: " +:+ repr_str ts))
    else
      match Timestamps.fromisoformat ts with
      | None => Raise (InvalidArgumentFormat ("Invalid isoformat string: " +:+ repr_str ts))
      | Some start =>
          if start <? now
          then Raise (InvalidArgumentFormat ("Start time is in the past local time " +:+ datetime_text " " now
                                             +:+ " " +:+ datetime_text " " start))
          else Ok (if is_json_string then Json.quoted (datetime_text "T" start) else datetime_text "T" start)
      end.

(** [create_apply_time_req(apply, start_date, start_time, default_duration)] *)
Definition create_apply_time_req (now : Z) (apply start_date start_time : string) (duration : pyval) : res pydict :=
  let a := PyStr.lower (PyStr.strip apply) in
  if decide (a = "auto-boot") then
    let? ts := make_future_job_ts now start_date start_time false in
    Ok (schedule_job_request AutoReboot (PStr ts) duration)
  else if decide (a = "maintenance") then
    let? ts := make_future_job_ts now start_date start_time false in
    Ok (schedule_job_request NoReboot (PStr ts) duration)
  else if decide (a = "on-reset") then Ok (schedule_job_request OnReset PNone PNone)
  else Raise (ValueError "Unknown apply time").

(** [reboot(do_watch, power_state_attr, default_reboot_type)] *)
Context `{!SyncInvoker (mstate W)}.
Definition reboot (do_watch : bool) (power_state_attr : string) (reboot_type : pyval) : MM CommandResult :=
  let! chassis := sync_invoke "ChassisQuery" "chassis_service_query" [("data_filter", PStr power_state_attr)] in
  if negb (is_none (error chassis)) then ret chassis
  else
    match data chassis with
    | PDict d =>
        if dict_in "PowerState" d then
          let! v := lift_res (item power_state_attr (PDict d)) in
          match v with
          | PStr s =>
              if decide (PyStr.lower s = "on") then
                sync_invoke "ComputerSystemReset" "reboot"
                  [("reset_type", reboot_type); ("do_wait", PBool do_watch)]
              else ret (mkResult (PDict []) PNone PNone PNone)
          | x => raise (AttributeError ("'" +:+ type_name x +:+ "' object has no attribute 'lower'"))
          end
        else ret chassis
    | _ => ret chassis
    end.
End Manager.

(** ** The write contract of the class *)

Section Writes.
Context {W : Type} `{!World W} (response_text : response -> string).

(** What a write reports for a response without a [Location] header. *)
Definition write_outcome (r : response) (expected ignore : Z) : res (CommandResult * api_respond) :=
  let code := status_code r in
  let err := parse_error r in
  if (code =? expected) || ((0 <? ignore) && (ignore =? code)) || ((200 <=? code) && (code <? 300)) then
    if code =? 200 then Ok (mkResult (PDict [("Status", PStr "ok")]) PNone PNone PNone, RespOk)
    else if code =? 204 then Ok (mkResult (PDict [("Status", PStr "success")]) PNone PNone PNone, RespSuccess)
    else if code =? 202 then
      let id := job_id_from_respond response_text r in
      if PyStr.nonempty id then Ok (mkResult (PDict [("task_id", PStr id)]) PNone PNone PNone, RespAccepted)
      else Raise (TaskIdUnavailable ("Dell accepted the request but returned no task id in the Location "
                                     +:+ "header or response body"))
    else Raise (KeyError (if code =? 201 then "RedfishApiRespond.Created" else pretty code))
  else if (300 <=? code) && (code <? 500) then
    if code =? 400 then Raise (RedfishException err)
    else if code =? 401 then Raise (RedfishUnauthorized err)
    else if code =? 403 then Raise (RedfishForbidden err)
    else if code =? 404 then Raise (ResourceNotFound err)
    else Ok (mkResult (PDict [("Status", PStr "error")]) PNone PNone err, RespError)
  else Raise (RedfishException err).

(** The request a synchronous write of this class sends. *)
Definition write_request (m : manager) (meth : method) (resource : string) (payload : option pydict) : request :=
  sync_request m meth (base_url m resource) json_content_type
    (if decide (meth = DELETE) then None else Some (PDict (default [] payload))).

(** The classification of a response and the result that is made of it. *)
Lemma finish_run r expected ignore (s : mstate W) :
  redfish_error (mgr s) = PNone ->
  exists m', (let! a := read_api_respond r expected ignore in write_result response_text (Some r) a) s =
    (MState (world s) (trace s) m' (caches s) (active s),
     match header_get "Location" (headers r) with
     | None => write_outcome r expected ignore
     | Some _ => let? id := job_id_from_response response_text r true in
                 Ok (mkResult (PDict [("task_id", PStr id)]) PNone PNone PNone, RespAccepted)
     end).
Proof.
  intros Herr. unfold read_api_respond, write_outcome. destruct s as [w tr m cs act]. simpl in Herr.
  destruct (header_get "Location" (headers r)) as [l|] eqn:Hl.
  - unfold bind, ret, write_result, lift_res. destruct (job_id_from_response response_text r true); by eexists.
  - destruct (parse_error_is_err r) as (c0 & m0 & x0 & e0 & Hpe).
    destruct (_ || _ || _).
    + unfold code_respond, http_code_mapping, bind, lift_res, write_result, api_success_msg, job_id_from_response,
        task_id_from_header, ret, gets. rewrite Hl. simpl.
      repeat case_match; simplify_eq/=; try lia; by eexists.
    + unfold bind, modify, set_mgr, raise, ret, write_result, lift_res, gets, api_success_msg. simpl.
      rewrite Hpe. repeat case_match; simplify_eq/=; by eexists.
Qed.

Lemma bind_send {A} rq (k : response -> M (mstate W) A) s :
  (let! r := send rq in k r) s =
  match reply s rq with
  | Ok r => k r (sent s rq)
  | Raise e => (sent s rq, Raise e)
  | NoFuel => (sent s rq, NoFuel)
  end.
Proof. unfold bind. rewrite send_run. by destruct (reply s rq). Qed.

Lemma dell_request_respond_run resource meth payload expected ignore (s : mstate W) :
  meth = POST \/ meth = PATCH \/ meth = DELETE ->
  let rq := write_request (mgr s) meth resource payload in
  let out := base_request_respond response_text resource meth payload false "json" expected ignore s in
  trace out.1 = trace s ++ [rq] /\
  match reply s rq with
  | Ok r => header_get "Location" (headers r) = None -> out.2 = write_outcome r expected ignore
  | Raise e => out.2 = Raise e
  | NoFuel => False
  end.
Proof.
  intros Hm. cbv zeta. set (s0 := set_mgr (set_error PNone) s).
  set (rq := write_request (mgr s) meth resource payload).
  assert (base_request_respond response_text resource meth payload false "json" expected ignore s =
    (let! r := send rq in
     let! a := read_api_respond r expected ignore in write_result response_text (Some r) a) s0) as ->.
  { unfold rq. destruct Hm as [->|[->| ->]]; reflexivity. }
  rewrite bind_send. change (reply s0 rq) with (reply s rq).
  destruct (reply s rq) as [r|e|] eqn:Hr; [|done|unfold reply in Hr; by case_match].
  destruct (finish_run r expected ignore (sent s0 rq) eq_refl) as [m' ->].
  split; [done|]. intros Hl. by rewrite Hl.
Qed.

(** C19. A synchronous Dell POST, PATCH or DELETE sends exactly one request, and what it
    reports for a response without a Location header is: a result without an error for
    200 and 204; for 202 the job id of the body, or [TaskIdUnavailable]; for an error
    status that is neither the expected one nor ignored, the parsed error, as a result
    for a status of 300 to 499 or in an exception.  The remaining 2xx statuses, 201 among
    them, and an error status that the caller asked to ignore raise [KeyError] after the
    write was sent, although the docstring says that an ignored status is no error. *)
Theorem dell_write_contract resource meth payload expected ignore (s : mstate W) :
  meth = POST \/ meth = PATCH \/ meth = DELETE ->
  let rq := write_request (mgr s) meth resource payload in
  let out := base_request_respond response_text resource meth payload false "json" expected ignore s in
  trace out.1 = trace s ++ [rq] /\
  forall r, reply s rq = Ok r -> header_get "Location" (headers r) = None ->
    let code := status_code r in
    (code = 200 \/ code = 204 -> exists cr a, out.2 = Ok (cr, a) /\ error cr = PNone) /\
    (code = 202 -> (exists id, out.2 = Ok (mkResult (PDict [("task_id", PStr id)]) PNone PNone PNone, RespAccepted) /\
                      PyStr.nonempty id = true) \/ exists m, out.2 = Raise (TaskIdUnavailable m)) /\
    (200 <= code < 300 -> code <> 200 -> code <> 202 -> code <> 204 -> exists m, out.2 = Raise (KeyError m)) /\
    (~ 200 <= code < 300 -> ignore = code -> 0 < ignore -> exists m, out.2 = Raise (KeyError m)) /\
    (~ 200 <= code < 300 -> ignore <> code -> expected <> code ->
       (out.2 = Ok (mkResult (PDict [("Status", PStr "error")]) PNone PNone (parse_error r), RespError) /\
        300 <= code < 500) \/
       (exists e, out.2 = Raise e /\ e ∈ [RedfishException (parse_error r); RedfishUnauthorized (parse_error r);
                                          RedfishForbidden (parse_error r); ResourceNotFound (parse_error r)])).
Proof.
  intros Hm. cbv zeta. destruct (dell_request_respond_run resource meth payload expected ignore s Hm) as [Ht Ho].
  split; [exact Ht|]. intros r Hr Hl. rewrite Hr in Ho. rewrite (Ho Hl). unfold write_outcome.
  split; [|split; [|split; [|split]]].
  - intros Hc. repeat case_match; try lia; by do 2 eexists.
  - intros Hc. repeat case_match; try lia; eauto.
  - intros Hc ???. repeat case_match; try lia; eauto.
  - intros Hc ??. repeat case_match; try lia; eauto.
  - intros Hc ??. repeat case_match; try lia; [right; eexists; split; [done|set_solver]..| |];
      [left; split; [done|lia]|right; eexists; split; [done|set_solver]].
Qed.

(** An asynchronous Dell write of a manager that authenticates with a token is
    sent with neither the token nor basic credentials. *)
Theorem dell_async_write_unauthenticated resource meth payload expected ignore tok (s : mstate W) :
  meth = POST \/ meth = PATCH \/ meth = DELETE -> x_auth (mgr s) = Some tok ->
  exists rq,
    trace (base_request_respond response_text resource meth payload true "json" expected ignore s).1
      = trace s ++ [rq] /\
    rq_method rq = meth /\ rq_auth rq = None /\ dict_get "X-Auth-Token" (rq_headers rq) = None.
Proof.
  intros Hm Hx. set (s0 := set_mgr (set_error PNone) s).
  set (rq := Request meth (base_url (mgr s0) resource) json_content_type None (verify_cert (mgr s0))
               (Some (PDict (default [] payload)))).
  assert (base_request_respond response_text resource meth payload true "json" expected ignore s =
    (let! r := send rq in
     let! a := read_api_respond r expected ignore in write_result response_text (Some r) a) s0) as ->.
  { unfold rq. unfold base_request_respond, api_async_write_call.
    destruct Hm as [->|[->| ->]]; unfold bind at 1, modify; fold s0; unfold bind at 1, gets;
      unfold bind at 1, gets; unfold bind at 1; cbn [mgr s0 set_mgr x_auth set_error]; rewrite Hx; reflexivity. }
  exists rq. split; [|done]. rewrite bind_send.
  destruct (reply s0 rq) as [r|e|] eqn:Hr; [|done..].
  by destruct (finish_run r expected ignore (sent s0 rq) eq_refl) as [m' ->].
Qed.
End Writes.

(** ** Waiting for a state *)

Lemma bind_ext {S A B} (m : M S A) (k k' : A -> M S B) s :
  (forall a s', m s = (s', Ok a) -> k a s' = k' a s') -> bind m k s = bind m k' s.
Proof. intros H. unfold bind. destruct (m s) as [s' [a|e|]]; [by apply H|done..]. Qed.

Section Waiting.
Context {W : Type} `{!World W}.

(** The statuses a task monitor answers with. *)
Definition monitor_status (code : Z) : Prop :=
  code = 200 \/ code = 202 \/ code = 401 \/ code = 404 \/ code = 410 \/ 499 < code.

Lemma poll_ignores_state fuel url sleep_time wait_for ws ws' retry percent st (s : mstate W) :
  (forall rq w r, (transport rq w).2 = inl r -> monitor_status (status_code r)) ->
  poll fuel url sleep_time wait_for ws retry percent st s =
  poll fuel url sleep_time wait_for ws' retry percent st s.
Proof.
  intros Hdoc. revert sleep_time retry percent st s. induction fuel as [|fuel IH]; intros sleep_time retry percent st s;
    [done|].
  cbn [poll]. apply bind_ext. intros r s1 Hr.
  assert (monitor_status (status_code r)) as Hcode.
  { unfold api_get_call, bind, gets in Hr. rewrite send_run in Hr. unfold reply in Hr.
    case_match eqn:Ht; simplify_eq. by eapply Hdoc. }
  apply bind_ext. intros ra s2 _. unfold monitor_status in Hcode.
  destruct (Z.eqb_spec (status_code r) 401); [done|]. destruct (Z.ltb_spec 499 (status_code r)); [done|].
  destruct ((status_code r =? 404) || (status_code r =? 410)) eqn:Hgone; [done|].
  destruct ((0 <? wait_for) && (wait_for =? status_code r)); [done|].
  destruct (Z.eqb_spec (status_code r) 202).
  - apply bind_ext. intros v s3 _. apply bind_ext. intros [state status] s4 _. destruct status; try done.
    apply bind_ext. intros pc s5 _. apply bind_ext. intros [] s6 _. apply IH.
  - destruct (Z.eqb_spec (status_code r) 200); [done|]. lia.
Qed.

(** The state a caller asks to wait for has no effect: as long as the service
    answers with the statuses of a task monitor (200, 202, 401, 404, 410 or a server
    error), the wait takes the same course and gives the same result whatever
    [wait_for_state] is. *)
Theorem wait_for_state_ignored fuel task_id sleep_time wait_for ws ws' (s : mstate W) :
  (forall rq w r, (transport rq w).2 = inl r -> monitor_status (status_code r)) ->
  fetch_task fuel task_id sleep_time wait_for ws s = fetch_task fuel task_id sleep_time wait_for ws' s.
Proof.
  intros Hdoc. unfold fetch_task. apply bind_ext. intros jb s1 _. apply bind_ext. intros has s2 _.
  apply bind_ext. intros [b|] s3 _; [done|]. apply bind_ext. intros m s4 _. by apply poll_ignores_state.
Qed.
End Waiting.

(** ** Redaction reaches every level *)

(** Some sensitive key, at any depth of dicts and lists, has a value that is not
    the mask. *)
Fixpoint leaks (v : pyval) : bool :=
  match v with
  | PDict d => existsb (fun kv => if sensitive kv.1 then negb (py_eqb kv.2 (PStr "********")) else leaks kv.2) d
  | PList l => existsb leaks l
  | _ => false
  end.

(** Some sensitive key occurs. *)
Fixpoint has_sensitive (v : pyval) : bool :=
  match v with
  | PDict d => existsb (fun kv => sensitive kv.1 || has_sensitive kv.2) d
  | PList l => existsb has_sensitive l
  | _ => false
  end.

(** The payload that is logged leaks no secret: in the redacted copy every
    sensitive key at any depth has the mask for its value, and a payload without
    sensitive keys is logged as it is. *)
Theorem dell_redaction_complete v :
  leaks (redact_sensitive_payload v) = false /\
  (has_sensitive v = false -> redact_sensitive_payload v = v).
Proof.
  induction v as [| | | | |l IH|l IH|d IH|] using Json.pyval_nested_ind; try done.
  - cbn [redact_sensitive_payload leaks has_sensitive]. induction IH as [|x l [H1 H2] _ [IH1 IH2]]; [done|].
    simpl. rewrite H1, IH1. split; [done|]. intros [Hx Hl]%orb_false_iff. rewrite H2 by done.
    specialize (IH2 Hl). by injection IH2 as ->.
  - cbn [redact_sensitive_payload leaks has_sensitive]. induction IH as [|[k x] d [H1 H2] _ [IH1 IH2]]; [done|].
    simpl. simpl in H1, H2. destruct (sensitive k); simpl; rewrite ?H1, IH1; (split; [done|]); [done|].
    intros [Hx Hl]%orb_false_iff. rewrite H2 by done. specialize (IH2 Hl). by injection IH2 as ->.
Qed.

(** ** Scheduled jobs are in the future *)

(** A start time is accepted exactly when the texts are given, carry no offset,
    form an ISO time and that time is not before the local time; what is returned
    is the ISO text of that very time. *)
Theorem future_job_accepted now start_date start_time text :
  make_future_job_ts now start_date start_time false = Ok text <->
  PyStr.nonempty start_date = true /\ PyStr.nonempty start_time = true /\ aware start_time = false /\
  exists t, Timestamps.fromisoformat (start_date +:+ "T" +:+ start_time +:+ ".000001") = Some t /\
    now <= t /\ text = datetime_text "T" t.
Proof.
  unfold make_future_job_ts. destruct (PyStr.nonempty start_date), (PyStr.nonempty start_time); cbn [negb];
    [|split; [done|by intros (? & ? & _)]..].
  destruct (aware start_time); [split; [done|by intros (? & ? & ? & _)]|].
  destruct (Timestamps.fromisoformat _) as [t|]; [|split; [done|by intros (_ & _ & _ & t & ? & _)]].
  destruct (Z.ltb_spec t now).
  - split; [done|]. intros (_ & _ & _ & t' & [= ->] & ? & _). lia.
  - split; [intros [= <-]; eauto 8|]. by intros (_ & _ & _ & t' & [= ->] & _ & ->).
Qed.

Example future_ts :
  make_future_job_ts 0 "2023-02-08" "01:01:01" false = Ok "2023-02-08T01:01:01.000001" /\
  make_future_job_ts 2000000000000000 "2023-02-08" "01:01:01" false
    = Raise (InvalidArgumentFormat ("Start time is in the past local time 2033-05-18 03:33:20"
                                    +:+ " 2023-02-08 01:01:01.000001")).
Proof. split; reflexivity. Qed.

(** ** Filtering several attributes *)

Lemma fold_set_last (l : list (string * pyval)) acc a :
  dict_get a (fold_left (fun acc kv => dict_set kv.1 kv.2 acc) l acc) =
  match last (List.filter (fun kv => bool_decide (kv.1 = a)) l) with
  | Some kv => Some kv.2
  | None => dict_get a acc
  end.
Proof.
  revert acc. induction l as [|[k v] l IH] using rev_ind; intros acc; [done|].
  rewrite fold_left_app. simpl. rewrite List.filter_app. simpl.
  case_bool_decide as Hk.
  - subst. by rewrite dict_get_set_eq, last_snoc.
  - rewrite dict_get_set_ne by congruence. rewrite app_nil_r. apply IH.
Qed.

Lemma matching_pairs a names (attrs : pydict) :
  a ∈ names -> NoDup names ->
  List.filter (fun kv => bool_decide (kv.1 = a))
    (concat (map (fun kv => map (fun n => (n, kv.2)) (List.filter (fun n => name_matches n kv.1) names)) attrs))
  = map (fun kv => (a, kv.2)) (List.filter (fun kv => name_matches a kv.1) attrs).
Proof.
  intros Hin Hnd. induction attrs as [|[k v] attrs IH]; [done|]. simpl. rewrite List.filter_app, IH. clear IH.
  assert (List.filter (fun kv => bool_decide (kv.1 = a)) (map (fun n => (n, v)) (List.filter (fun n => name_matches n k) names))
          = if name_matches a k then [(a, v)] else []) as ->; [|by destruct (name_matches a k)].
  induction names as [|n names IH]; [by apply elem_of_nil in Hin|].
  apply NoDup_cons in Hnd as [Hni Hnd]. apply elem_of_cons in Hin as [<-|Hin].
  - assert (List.filter (fun kv : string * pyval => bool_decide (kv.1 = a))
              (map (fun n => (n, v)) (List.filter (fun n => name_matches n k) names)) = []) as Hnil.
    { clear -Hni. induction names as [|n names IH]; [done|]. simpl. apply not_elem_of_cons in Hni as [Hne Hni].
      destruct (name_matches n k); simpl; [|auto]. rewrite bool_decide_false by done. auto. }
    simpl. destruct (name_matches a k); simpl; rewrite Hnil; [|done]. by rewrite bool_decide_true.
  - simpl. destruct (name_matches n k); simpl; [|auto]. rewrite bool_decide_false by (intros ->; done). auto.
Qed.

(** With several names the filter answers for each name with the value of the
    last attribute whose name contains it, ignoring case: an attribute of that very
    name gets the value of another one that contains its name and comes later. *)
Theorem filter_takes_last_match json_data attrs f a :
  dict_get "Attributes" json_data = Some (PDict attrs) -> PyStr.nonempty f = true ->
  PyStr.contains "," (PyStr.strip f) = true -> NoDup (PyStr.split "," (PyStr.strip f)) ->
  a ∈ PyStr.split "," (PyStr.strip f) ->
  dict_get a (filter_attribute json_data (Some f)) =
  snd <$> last (List.filter (fun kv => name_matches a kv.1) attrs).
Proof.
  intros Hattr Hf Hcomma Hnd Hin. unfold filter_attribute, dict_in, dget, dict_get_or.
  rewrite Hattr, Hf. cbn [andb default as_dict from_option id]. rewrite Hcomma, fold_set_last.
  rewrite matching_pairs by done. rewrite (fmap_last (fun kv : string * pyval => (a, kv.2))). by destruct (last _).
Qed.

(** ** Concrete runs *)

Definition dell_routes : list (method * string * list response) :=
  [(PATCH, "https://10.0.0.42/redfish/v1/Systems/1/Bios/Settings", [Response 201 [] (inl (PDict []))])].

Lemma dell_write_contract_witness :
  exists m, (base_request_respond (W := sim) (fun _ => "") "/redfish/v1/Systems/1/Bios/Settings" PATCH None false
               "json" 200 0 (sim_state sample_manager dell_routes)).2 = Raise (KeyError m).
Proof.
  destruct (dell_write_contract (W := sim) (fun _ => "") "/redfish/v1/Systems/1/Bios/Settings" PATCH None 200 0
              (sim_state sample_manager dell_routes)) as [_ H]; [by right; left|].
  destruct (H (Response 201 [] (inl (PDict [])))) as (_ & _ & H201 & _); [reflexivity..|].
  apply H201; simpl; lia.
Defined.

Lemma dell_async_write_unauthenticated_witness :
  exists rq,
    trace (base_request_respond (W := sim) (fun _ => "") "/redfish/v1/Systems/1/Bios/Settings" PATCH None true
             "json" 200 0 (sim_state token_manager dell_routes)).1 = [] ++ [rq] /\
    rq_method rq = PATCH /\ rq_auth rq = None /\ dict_get "X-Auth-Token" (rq_headers rq) = None.
Proof.
  apply (dell_async_write_unauthenticated (W := sim) (fun _ => "") "/redfish/v1/Systems/1/Bios/Settings" PATCH None
           200 0 "t0k3n" (sim_state token_manager dell_routes)); [by right; left|reflexivity].
Defined.

(** A manager whose task monitor answers that the task is complete. *)
Definition done_docs (url : string) : response := ok_json (PDict [("JobState", PStr "Completed")]).

Lemma wait_for_state_ignored_witness :
  let s := MState tt [] sample_manager [∅] None in
  @fetch_task unit (doc_world done_docs) 3 "JID_1" 10 0 TRunning s
  = @fetch_task unit (doc_world done_docs) 3 "JID_1" 10 0 TUnknown s.
Proof.
  apply (@wait_for_state_ignored unit (doc_world done_docs) 3 "JID_1" 10 0 TRunning TUnknown).
  intros rq w r [= <-]. by left.
Defined.

Lemma dell_redaction_complete_witness :
  redact_sensitive_payload (PDict [("ShareType", PStr "NFS"); ("Share", PDict [("Name", PStr "iso")])])
  = PDict [("ShareType", PStr "NFS"); ("Share", PDict [("Name", PStr "iso")])].
Proof. apply dell_redaction_complete. reflexivity. Defined.

(** The host has [ProcCStates] disabled, and the filter reports it enabled. *)
Lemma filter_takes_last_match_witness :
  dict_get "ProcCStates"
    (filter_attribute [("Attributes", PDict [("ProcCStates", PStr "Disabled"); ("ProcCStatesExt", PStr "Enabled")])]
       (Some "ProcCStates,BootMode")) = Some (PStr "Enabled").
Proof.
  rewrite (filter_takes_last_match _ [("ProcCStates", PStr "Disabled"); ("ProcCStatesExt", PStr "Enabled")]);
    [reflexivity..|vm_compute; by apply (bool_decide_unpack _)|vm_compute; by left].
Defined.
End Idrac.
