(* ===== verification/Vendor.v ===== *)
(** * What a command needs of its manager

    A command class runs on the manager class of the vendor it was dispatched to
    ([_runtime_command_class] of src/redfish_ctl/redfish_manager.py puts the
    vendor's methods under the command's).  [Vendor] is that interface: the
    operations the shared commands call, with what every implementation promises
    about the requests it sends.  The DMTF base manager and the Dell manager are
    instances; the discovery that both inherit is defined once, over the
    interface. *)

From stdpp Require Import base list strings pretty.
From Stdlib Require Import Ascii ZArith Lia.
From S2P Require Import Prelude PyVal Effects Query Http Manager Discovery Tasks Json Timestamps Numbers Invoker Idrac Reboot.

Module Vendor.
Import Http RedfishManager Discovery.
Local Open Scope Z_scope.
Local Open Scope py_scope.

Class Vendor (W : Type) `{!World W} := {
  (** [self.base_query(resource, ...)] *)
  v_query : string -> qargs -> M (mstate W) CommandResult;
  (** [self.base_post], [self.base_patch], [self.base_delete] with [do_async] and
      the expected status *)
  v_write : method -> string -> option pydict -> bool -> Z -> M (mstate W) (CommandResult * api_respond);
  (** [self.fetch_task(task_id)], the state as a value *)
  v_fetch_task : string -> M (mstate W) pyval;
  (** [self.create_apply_time_req(apply, start_date, start_time, duration)] *)
  v_apply_time : string -> string -> string -> pyval -> M (mstate W) pydict;
  (** [self.reboot(do_watch)] *)
  v_reboot : bool -> M (mstate W) CommandResult;
  (** [self.uses_dell_job_semantics] *)
  v_dell : bool;
  v_query_reads : forall resource a, emits is_get (v_query resource a);
  v_write_once : forall meth resource payload b e,
    sends 1 (fun rq => rq_method rq = meth) (v_write meth resource payload b e);
  v_task_reads : forall task_id, emits is_get (v_fetch_task task_id);
  v_apply_silent : forall a d t dur, emits (fun _ => False) (v_apply_time a d t dur)
}.

#[export] Hint Resolve v_query_reads v_task_reads : emits.

(** One exchange and computations that send nothing. *)
Lemma sends_exchange {W} `{!World W} {A} (P : request -> Prop) (mk : manager -> request) (k : response -> M (mstate W) A) :
  (forall m, P (mk m)) -> (forall r, emits (fun _ => False) (k r)) ->
  sends 1 P (let! r := (let! m := gets mgr in send (mk m)) in k r).
Proof.
  intros HP Hk. apply (sends_bind _ 1 0).
  - apply (sends_bind _ 0 1); [by apply sends_silent|]. intros m. by apply sends_send.
  - intros r s. destruct (Hk r s) as ([|rq l] & Ht & Hf); [|by apply Forall_cons in Hf as [[] _]].
    exists []. split; [exact Ht|]. split; [simpl; lia|done].
Qed.

Lemma sends_after_silent {W A B} n (P : request -> Prop) (m : M (mstate W) A) (k : A -> M (mstate W) B) :
  (forall s, trace (m s).1 = trace s) -> (forall a, sends n P (k a)) -> sends n P (bind m k).
Proof. intros Hm Hk. apply (sends_bind _ 0 n); [by apply sends_silent|done]. Qed.

Lemma sends_never {W A} n (P : request -> Prop) (m : M (mstate W) A) : emits (fun _ => False) m -> sends n P m.
Proof.
  intros Hm s. destruct (Hm s) as ([|rq l] & Ht & Hf); [|by apply Forall_cons in Hf as [[] _]].
  exists []. split; [exact Ht|]. split; [simpl; lia|done].
Qed.

(** ** How much a computation writes *)

(** The requests of a list that are no reads. *)
Definition write_requests (l : list request) : list request := filter (fun rq => rq_method rq <> GET) l.

(** Every request of [m] is a GET but for at most [n], which satisfy [P]. *)
Definition writes {W A} (n : nat) (P : request -> Prop) (m : M (mstate W) A) : Prop :=
  forall s, exists l, trace (m s).1 = trace s ++ l /\ (length (write_requests l) <= n)%nat /\
    Forall P (write_requests l).

Lemma reads_no_writes l : Forall is_get l -> write_requests l = [].
Proof.
  unfold write_requests. induction 1 as [|rq l Hrq _ IH]; [done|].
  rewrite filter_cons, decide_False by (intros Hn; by apply Hn). exact IH.
Qed.

Section WriteBudget.
Context {W : Type} `{!World W} (P : request -> Prop).
Abbreviation MM := (M (mstate W)).

Lemma writes_reads {A} n (m : MM A) : emits is_get m -> writes n P m.
Proof.
  intros Hm s. destruct (Hm s) as (l & Ht & Hl). exists l. split; [done|].
  rewrite (reads_no_writes _ Hl). split; [simpl; lia|done].
Qed.

Lemma writes_bind {A B} n1 n2 (m : MM A) (k : A -> MM B) :
  writes n1 P m -> (forall a, writes n2 P (k a)) -> writes (n1 + n2) P (bind m k).
Proof.
  intros Hm Hk s. destruct (Hm s) as (l1 & Ht1 & Hl1 & HP1). unfold bind.
  destruct (m s) as [s1 [a|e|]]; simpl in *; [|exists l1; split; [done|]; split; [lia|done]..].
  destruct (Hk a s1) as (l2 & Ht2 & Hl2 & HP2). exists (l1 ++ l2). unfold write_requests in *.
  rewrite Ht2, Ht1, app_assoc, filter_app, length_app, Forall_app. split; [done|]. split; [lia|done].
Qed.

Lemma writes_read_bind {A B} n (m : MM A) (k : A -> MM B) :
  emits is_get m -> (forall a, writes n P (k a)) -> writes n P (bind m k).
Proof. intros Hm Hk. apply (writes_bind 0 n); [by apply writes_reads|done]. Qed.

Lemma writes_sends {A} n (m : MM A) : sends n P m -> writes n P m.
Proof.
  intros Hm s. destruct (Hm s) as (l & Ht & Hn & HP). exists l. split; [done|]. unfold write_requests. split.
  - etransitivity; [apply length_filter|done].
  - apply Forall_forall. intros rq [_ Hin]%list_elem_of_filter. rewrite Forall_forall in HP. auto.
Qed.

Lemma writes_try_Exception {A} n (m : MM A) (h : exn -> MM A) :
  writes n P m -> (forall e, writes 0 P (h e)) -> writes n P (try_Exception m h).
Proof.
  intros Hm Hh s. destruct (Hm s) as (l1 & Ht1 & Hl1 & HP1). unfold try_Exception, try_catch.
  destruct (m s) as [s1 [a|e|]]; simpl in *; [by exists l1| |by exists l1].
  destruct (is_Exception e); [|by exists l1].
  destruct (Hh e s1) as (l2 & Ht2 & Hl2 & HP2). exists (l1 ++ l2). unfold write_requests in *.
  rewrite Ht2, Ht1, app_assoc, filter_app, length_app, Forall_app. split; [done|]. split; [lia|done].
Qed.
End WriteBudget.

(** ** Discovery over the interface *)

Section Inherited.
Context {W : Type} `{!World W} `{!Vendor W}.
Abbreviation MM := (M (mstate W)).

(** [manager_uri] *)
Definition manager_uri : MM pyval :=
  cached c_manager_uri store_manager_uri
    (let! r := v_query api_managers (with_key "Members") in
     ret (value_from_json_list (data r) "@odata.id")).

(** [discover_computer_system_ids()] *)
Definition discover_computer_system_ids : MM (list string) :=
  let! r := v_query api_systems (with_key "Members") in
  ret (member_ids (data r)).

(** [_host_system(system_ids)] *)
Definition host_system (system_ids : list string) : MM string :=
  let! found := firstM (fun sid =>
      try_Exception
        (let! r := v_query sid qdefault in
         match data r with
         | PDict d => ret (if dict_in "Bios" d || dict_in "Boot" d then Some sid else None)
         | _ => ret None
         end)
        (fun _ => ret None)) system_ids in
  ret (default "" found).

(** [managed_system_uri] *)
Definition managed_system_uri : MM pyval :=
  cached c_managed_system_uri store_system_uri
    (let! links := try_Exception
         (let! uri := manager_uri in
          let! r := v_query (py_str uri) (with_key "Links") in
          ret (data r))
         (fun _ => ret PNone) in
     let! resolved :=
       match links with
       | PDict d =>
           match dget "ManagerForServers" d with
           | PList managed =>
               modify (set_mgr (store_servers (PList managed))) ;;;
               ret (value_from_json_list (PList managed) "@odata.id")
           | _ => ret (PStr "")
           end
       | _ => ret (PStr "")
       end in
     let! system_ids := try_Exception discover_computer_system_ids (fun _ => ret []) in
     let! host := if (1 <? length system_ids)%nat then host_system system_ids else ret "" in
     if PyStr.nonempty host then ret (PStr host)
     else match system_ids with
          | [sid] => ret (PStr sid)
          | _ => ret resolved
          end).

Lemma emits_vendor_manager_uri : emits is_get manager_uri.
Proof. unfold manager_uri, cached. frame; auto with emits. Qed.

Lemma emits_vendor_system_uri : emits is_get managed_system_uri.
Proof.
  unfold managed_system_uri, cached, host_system, discover_computer_system_ids.
  frame; auto using emits_vendor_manager_uri with emits.
Qed.

(** The result of an accepted write, once its task was waited for. *)
Definition with_task (r : CommandResult) (a : api_respond) : MM CommandResult :=
  match a with
  | RespAccepted =>
      let task_id := dget "task_id" (as_dict (data r)) in
      let! st := v_fetch_task (py_str task_id) in
      ret (mkResult (PDict (dict_set "task_id" task_id (dict_set "task_state" st (as_dict (data r)))))
             (discovered r) (extra r) (error r))
  | _ => ret r
  end.

Lemma emits_with_task r a : emits is_get (with_task r a).
Proof. unfold with_task. frame; auto with emits. Qed.
End Inherited.

#[export] Hint Resolve emits_vendor_manager_uri emits_vendor_system_uri emits_with_task : emits.

(** ** The DMTF base manager *)

Section Dmtf.
Context {W : Type} `{!World W} `{!SyncInvoker (mstate W)}.
Context (fuel : nat) (local_now : mstate W -> Z).

(** [make_future_task_timestamp(start_date, start_time)] at local time [now]; an
    aware time has no order with the local one *)
Definition make_future_task_timestamp (now : Z) (start_date start_time : string) : res string :=
  if negb (PyStr.nonempty start_date)
  then Raise (MissingMandatoryArguments "A maintenance task requires a start date.")
  else if negb (PyStr.nonempty start_time)
  then Raise (MissingMandatoryArguments "A maintenance task requires a start time.")
  else
    match Timestamps.fromisoformat (start_date +:+ "T" +:+ start_time +:+ ".000001") with
    | None => Raise (InvalidArgumentFormat ("Invalid isoformat string: "
                       +:+ repr_str (start_date +:+ "T" +:+ start_time +:+ ".000001")))
    | Some start =>
        if Idrac.aware start_time then Raise (TypeError "can't compare offset-naive and offset-aware datetimes")
        else if start <? now
        then Raise (InvalidArgumentFormat ("Start time is in the past local time "
                                           +:+ Idrac.datetime_text " " start))
        else Ok (Idrac.datetime_text "T" start)
    end.

(** [create_apply_time_req(apply, start_date, start_time, default_duration)] *)
Definition create_apply_time_req (now : Z) (apply start_date start_time : string) (duration : pyval) : res pydict :=
  let selector := PyStr.lower (PyStr.strip apply) in
  let? settings :=
    if decide (selector = "auto-boot" \/ selector = "maintenance") then
      let? ts := make_future_task_timestamp now start_date start_time in
      Ok [("ApplyTime", PStr (if decide (selector = "auto-boot") then "AtMaintenanceWindowStart"
                              else "InMaintenanceWindowOnReset"));
          ("MaintenanceWindowStartTime", PStr ts); ("MaintenanceWindowDurationInSeconds", duration)]
    else if decide (selector = "on-reset") then Ok [("ApplyTime", PStr "OnReset")]
    else if decide (selector = "immediate") then Ok [("ApplyTime", PStr "Immediate")]
    else Raise (ValueError "Unknown apply time") in
  Ok [("@Redfish.SettingsApplyTime", PDict settings)].

(** [reboot(do_watch)] *)
Definition reboot (do_watch : bool) : M (mstate W) CommandResult :=
  sync_invoke "ComputerSystemReset" "reboot"
    [("reset_type", PStr "GracefulRestart"); ("do_wait", PBool do_watch)].

Lemma emits_fetch_task task_id : emits is_get (Tasks.fetch_task (W := W) fuel task_id (Some 10) None None).
Proof.
  unfold Tasks.fetch_task. frame. generalize (@None Tasks.TaskState) at 2 as st.
  generalize (@None Tasks.TaskState) as ws. revert a0.
  induction fuel as [|n IH]; intros started ws st; simpl; [apply frames_lift, _|].
  unfold Tasks.time_sleep. frame; auto with emits. by apply emits_api_get_call.
Qed.

Definition dmtf_fetch_task (task_id : string) : M (mstate W) pyval :=
  let! st := Tasks.fetch_task fuel task_id (Some 10) None None in ret (RebootHost.task_state_val st).

Definition dmtf_apply_time (a d t : string) (dur : pyval) : M (mstate W) pydict :=
  let! now := gets local_now in lift_res (create_apply_time_req now a d t dur).

Lemma dmtf_task_reads task_id : emits is_get (dmtf_fetch_task task_id).
Proof. unfold dmtf_fetch_task. frame. apply emits_fetch_task. Qed.

Lemma dmtf_apply_silent a d t dur : emits (fun _ => False) (dmtf_apply_time a d t dur).
Proof. unfold dmtf_apply_time. frame. Qed.

Lemma sync_request_method m meth url hdr d : rq_method (sync_request m meth url hdr d) = meth.
Proof. unfold sync_request. by destruct (x_auth m). Qed.

Lemma dmtf_write_once resource meth payload dt code :
  sends 1 (fun rq => rq_method rq = meth) (base_request_respond (W := W) resource meth payload dt code).
Proof.
  unfold base_request_respond. apply sends_after_silent; [done|]. intros m.
  apply (sends_bind _ 1 0).
  - destruct meth; try (by apply sends_silent);
      (apply sends_exchange; [intros; apply sync_request_method|]; intros r; frame;
       unfold default_patch_success, default_delete_success; auto with emits).
  - intros [r a]. apply sends_never. unfold write_result. frame.
Qed.

Definition dmtf_vendor : Vendor W := {|
  v_query := base_query;
  v_write meth resource payload _ _ := base_request_respond resource meth payload "json" 0;
  v_fetch_task := dmtf_fetch_task;
  v_apply_time := dmtf_apply_time;
  v_reboot := reboot;
  v_dell := false;
  v_query_reads := emits_base_query;
  v_write_once meth resource payload _ _ := dmtf_write_once resource meth payload "json" 0;
  v_task_reads := dmtf_task_reads;
  v_apply_silent := dmtf_apply_silent
|}.
End Dmtf.

(** Over the base manager the inherited discovery is the one of [Discovery]. *)
Lemma dmtf_managed_system_uri {W} `{!World W} `{!SyncInvoker (mstate W)} fuel now (s : mstate W) :
  managed_system_uri (Vendor0 := dmtf_vendor fuel now) s = Discovery.managed_system_uri s.
Proof. reflexivity. Qed.

(** ** The Dell manager *)

Section Dell.
Context {W : Type} `{!World W} `{!SyncInvoker (mstate W)} (response_text : response -> string).
Context (fuel : nat) (local_now : mstate W -> Z).

Lemma emits_dell_handler P r : emits P (Idrac.default_error_handler (W := W) r).
Proof. unfold Idrac.default_error_handler. frame; auto with emits. Qed.

Lemma emits_dell_query resource a : emits is_get (Idrac.base_query (W := W) resource a).
Proof.
  assert (forall r hs, emits is_get (Idrac.load_response (W := W) r hs)) as Hload.
  { intros r hs. unfold Idrac.load_response.
    frame; auto using emits_dell_handler with emits. by apply emits_api_get_call. }
  unfold Idrac.base_query, api_async_get_call, get_or_load.
  frame; auto using emits_dell_handler with emits; by apply emits_send.
Qed.

Lemma emits_read_api_respond P r e i : emits P (Idrac.read_api_respond (W := W) r e i).
Proof. unfold Idrac.read_api_respond. frame; auto with emits. Qed.

Lemma dell_write_once resource meth payload b dt e i :
  sends 1 (fun rq => rq_method rq = meth)
    (Idrac.base_request_respond (W := W) response_text resource meth payload b dt e i).
Proof.
  unfold Idrac.base_request_respond. do 2 (apply sends_after_silent; [done|]; intros ?).
  assert (forall r, emits (fun _ => False)
            (let! a := Idrac.read_api_respond (W := W) r e i in Idrac.write_result response_text (Some r) a)) as Hk.
  { intros r. unfold Idrac.write_result. frame; auto using emits_read_api_respond. }
  destruct (decide (meth = GET \/ meth = PUSH)) as [Hm|Hm].
  - apply sends_never. destruct Hm as [-> | ->]; unfold Idrac.write_result; frame.
  - destruct meth; try (exfalso; naive_solver); destruct b;
      unfold Idrac.api_async_write_call, api_delete_call, api_write_call; cbv zeta;
      apply sends_exchange; auto; intros; apply sync_request_method.
Qed.

Lemma emits_dell_poll n url st wf ws ra pd ts :
  emits is_get (Idrac.poll (W := W) n url st wf ws ra pd ts).
Proof.
  revert st ra pd ts. induction n as [|n IH]; intros st ra pd ts; simpl; [apply frames_lift, _|].
  unfold Idrac.time_sleep. frame; auto with emits. by apply emits_api_get_call.
Qed.

Lemma emits_dell_fetch_task task_id st wf ws : emits is_get (Idrac.fetch_task (W := W) fuel task_id st wf ws).
Proof.
  unfold Idrac.fetch_task, Idrac.get_job, Idrac.idrac_members, cached.
  frame; auto using emits_dell_query, emits_dell_poll with emits.
Qed.

(** The state as the value that is stored in a result. *)
Definition wait_result_val (r : Idrac.wait_result) : pyval :=
  match r with
  | Idrac.JobIs s => PStr ("DellJobState." +:+ Idrac.job_state_value s)
  | Idrac.TaskIs s => PStr ("IdracTaskState." +:+ match s with
      | Idrac.TNew => "New" | Idrac.TStarting => "Starting" | Idrac.TRunning => "Running"
      | Idrac.TSuspended => "Suspended" | Idrac.TInterrupted => "Interrupted" | Idrac.TPending => "Pending"
      | Idrac.TStopping => "Stopping" | Idrac.TCompleted => "Completed" | Idrac.TKilled => "Killed"
      | Idrac.TException => "Exception" | Idrac.TService => "Service" | Idrac.TCanceling => "Canceling"
      | Idrac.TCancelled => "Cancelled" | Idrac.TUnknown => "Unknown" end)
  end.

Definition dell_fetch_task (task_id : string) : M (mstate W) pyval :=
  let! r := Idrac.fetch_task fuel task_id 10 0 Idrac.TUnknown in ret (wait_result_val r).

Definition dell_apply_time (a d t : string) (dur : pyval) : M (mstate W) pydict :=
  let! now := gets local_now in lift_res (Idrac.create_apply_time_req now a d t dur).

Lemma dell_task_reads task_id : emits is_get (dell_fetch_task task_id).
Proof. unfold dell_fetch_task. frame. apply emits_dell_fetch_task. Qed.

Lemma dell_apply_silent a d t dur : emits (fun _ => False) (dell_apply_time a d t dur).
Proof. unfold dell_apply_time. frame. Qed.

Definition dell_vendor : Vendor W := {|
  v_query := Idrac.base_query;
  v_write meth resource payload b e := Idrac.base_request_respond response_text resource meth payload b "json" e 0;
  v_fetch_task := dell_fetch_task;
  v_apply_time := dell_apply_time;
  v_reboot w := Idrac.reboot w "PowerState" (PStr "ForceRestart");
  v_dell := true;
  v_query_reads := emits_dell_query;
  v_write_once meth resource payload b e := dell_write_once resource meth payload b "json" e 0;
  v_task_reads := dell_task_reads;
  v_apply_silent := dell_apply_silent
|}.
End Dell.
End Vendor.
