(* ===== verification/BiosCommands.v ===== *)
(** * The BIOS and one-time boot commands

    src/redfish_ctl/bios/: [BiosQuery] (cmd_bios.py), [BiosSnapshot]
    (cmd_bios_snapshot.py), [BiosQueryPending] (cmd_bios_pending.py),
    [BiosChangeSettings] (cmd_change_bios.py), and [BootOneShot]
    (src/redfish_ctl/boot_source/cmd_boot_one_shot.py).  [BiosQuery] is a Dell
    command; the others run on any manager, through the interface [Vendor].
    Reading a specification file is the parameter [read_spec]; saving the result
    to a file is not modelled. *)

From stdpp Require Import base list strings pretty.
From Stdlib Require Import Ascii ZArith Lia.
From S2P Require Import Prelude PyVal Effects Query Http Manager Discovery Actions Numbers Invoker Idrac Vendor BiosProfile.

Module BiosCommands.
Import Http RedfishManager Actions Vendor.
Local Open Scope Z_scope.
Local Open Scope py_scope.

(** [_find_ids(obj, key, result)] of cmd_utils.py *)
Fixpoint find_ids (key : string) (obj : pyval) {struct obj} : list pyval :=
  match obj with
  | PDict d =>
      concat (map (fun kv =>
        match kv.2 with
        | PList l => concat (map (find_ids key) l)
        | PDict _ => find_ids key kv.2 ++ (if bool_decide (kv.1 = key) then [kv.2] else [])
        | _ => if bool_decide (kv.1 = key) then [kv.2] else []
        end) d)
  | _ => []
  end.

(** ** bios (Dell) *)

Section BiosQuery.
Context {W : Type} `{!World W} `{!SyncInvoker (mstate W)} (response_text : response -> string).
Context (fuel : nat) (local_now : mstate W -> Z) (read_spec : string -> res pyval).
Abbreviation MM := (M (mstate W)).
#[local] Instance bios_dell : Vendor W := dell_vendor response_text fuel local_now.

(** A GET of the command, checked by the error handler. *)
Definition checked_get (url : string) (hs : pydict) (do_async : bool) : MM response :=
  if do_async then
    let! r := api_async_get_call url hs in
    modify (set_mgr bump_counter) ;;;
    Idrac.default_error_handler r ;;; ret r
  else
    let! r := api_get_call url hs in
    Idrac.default_error_handler r ;;; ret r.

(** [self.filter_attribute(self, data, attr_filter)] on any document *)
Definition filter_attribute (v : pyval) (attr_filter : option string) : res pyval :=
  match attr_filter with
  | None | Some EmptyString => Ok v
  | Some f =>
      let? has := Idrac.member_test "Attributes" v in
      if has then
        let? attrs := Idrac.item "Attributes" v in
        match attrs with
        | PDict _ => Ok (PDict (Idrac.filter_attribute (as_dict v) (Some f)))
        | PList [] | PStr EmptyString => Ok (PDict [])
        | PList _ | PStr _ => Raise (TypeError (type_name attrs +:+ " indices must be integers or slices, not str"))
        | x => Raise (TypeError ("'" +:+ type_name x +:+ "' object is not iterable"))
        end
      else Ok v
  end.

(** The filter that a filter file stands for: a list of names is joined; for a
    JSON string the filter stays as it was given; for an object the code asks the
    filter text for its keys *)
Definition file_filter (data_filter : pyval) (attr_filter : option string) (v : pyval) : res pyval :=
  match data_filter with
  | PList l =>
      let? names := res_fold (fun acc x => match x with
                                           | PStr s => Ok (acc ++ [s])
                                           | x => Raise (TypeError ("sequence item: expected str instance, "
                                                                    +:+ type_name x +:+ " found"))
                                           end) [] l in
      filter_attribute v (Some (PyStr.join "," names))
  | PStr _ => filter_attribute v attr_filter
  | PDict _ => Raise (AttributeError ("'" +:+ match attr_filter with Some _ => "str" | None => "NoneType" end
                                      +:+ "' object has no attribute 'keys'"))
  | _ => Ok v
  end.

(** [BiosQuery.execute(attr_only, attr_filter, attr_filter_file, do_deep, do_async)] *)
Definition bios_query (attr_only : bool) (attr_filter attr_filter_file : option string) (do_deep do_async : bool)
  : MM CommandResult :=
  let! sys := managed_system_uri in
  let idrac_api := py_str sys +:+ "/Bios" in
  let! m := gets mgr in
  let! response := checked_get (base_url m idrac_api) json_content_type do_async in
  let! doc := lift_res (json response) in
  let! action_dict := lift_res (discover_redfish_actions doc) in
  let! doc := (if attr_only then
                 let! has := lift_res (Idrac.member_test "Attributes" doc) in
                 if has then let! a := lift_res (Idrac.item "Attributes" doc) in ret (PDict [("Attributes", a)])
                 else ret doc
               else ret doc) in
  let! doc := match attr_filter_file with
              | None | Some EmptyString => lift_res (filter_attribute doc attr_filter)
              | Some f => let! data_filter := lift_res (read_spec f) in
                          lift_res (file_filter data_filter attr_filter doc)
              end in
  let links := if do_deep then List.filter (fun u => negb (eq_str u idrac_api)) (find_ids "@odata.id" doc) else [] in
  let! extra_data := foldM (fun acc u =>
      let! m := gets mgr in
      let! response := checked_get (base_url m (py_str u)) json_content_type do_async in
      let! v := lift_res (json response) in
      ret (dict_set (py_str u) v acc)) [] links in
  let! action_dict := foldM (fun acc kv =>
      let! act := lift_res (discover_redfish_actions kv.2) in
      ret (dict_update acc act)) action_dict extra_data in
  ret (mkResult doc (actions_val action_dict) (PDict extra_data) PNone).

Lemma emits_checked_get url hs b : emits is_get (checked_get url hs b).
Proof.
  unfold checked_get, api_async_get_call.
  frame; auto using emits_dell_handler with emits; [by apply emits_send..|by apply emits_api_get_call].
Qed.

Lemma emits_bios_query a f ff d b : emits is_get (bios_query a f ff d b).
Proof. unfold bios_query. frame; auto using emits_checked_get with emits. Qed.
End BiosQuery.

(** ** The vendor-neutral commands *)

Section Commands.
Context {W : Type} `{!World W} `{!Vendor W} `{!SyncInvoker (mstate W)}.
Context (read_spec : string -> res pyval).
Abbreviation MM := (M (mstate W)).

(** *** bios-snapshot *)

(** [BiosSnapshot._current_attributes(do_async)] *)
Definition current_attributes (do_async : bool) : MM pydict :=
  let! bios := try_Exception
      (let! sys := managed_system_uri in
       let! r := v_query (py_str sys +:+ "/Bios") (with_async do_async) in
       ret (Some (py_or (data r) (PDict []))))
      (fun _ => ret None) in
  match bios with
  | None => ret []
  | Some (PDict d) => ret (as_dict (dget "Attributes" d))
  | Some v => lift_res (no_get v)
  end.

(** [{k: current[k] for k in wanted if k in current}] *)
Definition restrict (wanted : list string) (current : pydict) : pydict :=
  fold_left (fun acc k => match dict_get k current with Some v => dict_set k v acc | None => acc end) wanted [].

(** The attribute names of a change specification. *)
Definition spec_names (spec : pyval) : res (list string) :=
  let? attrs := get_attr spec "Attributes" in
  match py_or attrs (PDict []) with
  | PDict d => Ok (dict_keys d)
  | v => Raise (AttributeError ("'" +:+ type_name v +:+ "' object has no attribute 'keys'"))
  end.

(** [BiosSnapshot.execute(attr_name, from_spec, do_async)] *)
Definition bios_snapshot (attr_name from_spec : option string) (do_async : bool) : MM CommandResult :=
  let! current := current_attributes do_async in
  let! wanted :=
    match from_spec, attr_name with
    | Some (String _ _ as f), _ => let! spec := lift_res (read_spec f) in lift_res (spec_names spec)
    | _, Some (String _ _ as names) =>
        ret (List.filter PyStr.nonempty (map PyStr.strip (PyStr.split "," names)))
    | _, _ => ret (dict_keys current)
    end in
  ret (mkResult (PDict [("Attributes", PDict (restrict wanted current))]) PNone PNone PNone).

(** *** bios-pending *)

(** [BiosQueryPending.execute(do_async, do_expanded, data_filter)] *)
Definition bios_query_pending (do_async do_expanded : bool) (data_filter : string) : MM CommandResult :=
  let! sys := managed_system_uri in
  let! r := try_Exception
      (let! r := v_query (py_str sys +:+ "/Bios/Settings")
                   (QArgs None do_async (do_expanded || PyStr.nonempty data_filter) "" "" "json" None None None None) in
       ret (Some r))
      (fun _ => ret None) in
  match r with
  | None => ret (mkResult (PDict []) PNone PNone PNone)
  | Some r =>
      if negb (is_none (error r)) || is_none (data r) then ret r
      else
        let! has := lift_res (Idrac.member_test "Attributes" (data r)) in
        if has then
          let! attr_data := lift_res (Idrac.item "Attributes" (data r)) in
          if PyStr.nonempty data_filter then
            let! found := lift_res (Idrac.member_test data_filter attr_data) in
            if found then let! v := lift_res (Idrac.item data_filter attr_data) in ret (mkResult v PNone PNone PNone)
            else ret r
          else ret (mkResult attr_data PNone PNone PNone)
        else ret r
  end.

(** *** bios-change *)

(** [text.split(",")] of an argument, nothing for an empty one *)
Definition arg_list (o : option string) : list string :=
  match o with
  | Some (String _ _ as s) => if PyStr.contains "," s then PyStr.split "," s else [s]
  | _ => []
  end.

(** The conversion of one value by the registry entries. *)
Fixpoint registry_value (registry : list pyval) (k v : string) (current : pyval) : res pyval :=
  match registry with
  | [] => Ok current
  | PDict entry :: rest =>
      if py_mem (PStr k) (map snd entry) then
        match dict_get "Type" entry with
        | None => Raise (KeyError "Type")
        | Some t => if eq_str t "Integer"
                    then let? z := Numbers.py_int (PStr v) in registry_value rest k v (PInt z)
                    else registry_value rest k v current
        end
      else registry_value rest k v current
  | x :: _ => Raise (AttributeError ("'" +:+ type_name x +:+ "' object has no attribute 'values'"))
  end.

(** [crete_bios_config(current_config, attr_name, attr_val)] *)
Definition crete_bios_config (current_config : list pyval) (attr_name attr_val : option string) : res pydict :=
  let names := arg_list attr_name in
  let values := arg_list attr_val in
  if negb (length names =? length values)%nat
  then Raise (InvalidArgument "Number of attribute and values mismatched.")
  else
    let attrs := fold_left (fun acc nv => dict_set (PyStr.strip nv.1) (PyStr.strip nv.2) acc)
                   (combine names values) [] in
    let? attrs := res_fold (fun acc kv =>
        let? v := registry_value current_config kv.1 kv.2 (PStr kv.2) in Ok (acc ++ [(kv.1, v)])) [] attrs in
    Ok [("Attributes", PDict attrs)].

(** [_resolve_bios_registry_uri(do_async)] *)
Definition resolve_bios_registry_uri (do_async : bool) : MM string :=
  let! sys := managed_system_uri in
  let dell_uri := py_str sys +:+ "/Bios/BiosRegistry" in
  let read uri := let! r := v_query uri (with_async do_async) in ret (py_or (data r) (PDict [])) in
  let! first := try_Exception
      (let! v := read dell_uri in
       let! e := lift_res (get_attr v "RegistryEntries") in ret (truthy e))
      (fun _ => ret false) in
  if first then ret dell_uri
  else
    let! found := try_Exception
        (let! bios := read (py_str sys +:+ "/Bios") in
         let! name := lift_res (get_attr bios "AttributeRegistry") in
         if truthy name then
           let! reg := read ("/redfish/v1/Registries/" +:+ py_str name) in
           match reg with
           | PDict d =>
               match py_iter (dict_get_or "Location" (PList []) d) with
               | Some l => ret (List.find truthy (map (fun loc => match loc with PDict e => dget "Uri" e
                                                                              | _ => PNone end) l))
               | None => raise (TypeError "object is not iterable")
               end
           | v => lift_res (no_get v)
           end
         else ret None)
        (fun _ => ret None) in
    ret (match found with Some uri => py_str uri | None => dell_uri end).

(** [_resolve_bios_settings_uri(do_async)] *)
Definition resolve_bios_settings_uri (do_async : bool) : MM string :=
  let! sys := managed_system_uri in
  let! found := try_Exception
      (let! r := v_query (py_str sys +:+ "/Bios") (with_async do_async) in
       let! s := lift_res (get_attr (py_or (data r) (PDict [])) "@Redfish.Settings") in
       let! o := lift_res (get_attr (py_or s (PDict [])) "SettingsObject") in
       let! id := lift_res (get_attr (py_or o (PDict [])) "@odata.id") in
       ret (if truthy id then Some id else None))
      (fun _ => ret None) in
  ret (match found with Some uri => py_str uri | None => py_str sys +:+ "/Bios/Settings" end).

(** The arguments of bios-change. *)
Record change_args := ChangeArgs {
  ca_name : option string;
  ca_value : option string;
  ca_apply : string;
  ca_async : bool;
  ca_reboot : bool;
  ca_show : bool;
  ca_commit : bool;
  ca_commit_pending : bool;
  ca_date : string;
  ca_time : string;
  ca_spec : option string;
  ca_duration : pyval
}.

(** The change to make, or an early answer. *)
Definition change_payload (a : change_args) : MM (pyval + CommandResult) :=
  let status m := ret (inr (mkResult (PDict [("Status", PStr m)]) PNone PNone PNone)) in
  let! payload :=
    match ca_spec a with
    | Some (String _ _ as f) => let! v := lift_res (read_spec f) in ret (inl v)
    | _ =>
        let! target_api := resolve_bios_registry_uri (ca_async a) in
        let! r := v_query target_api (with_async (ca_async a)) in
        match data r with
        | PDict d =>
            match dget "RegistryEntries" d with
            | PDict registry =>
                match dict_get "Attributes" registry with
                | None => status "Failed fetch attributes from bios registry"
                | Some (PList attribute_data) =>
                    let! p := lift_res (crete_bios_config attribute_data (ca_name a) (ca_value a)) in
                    ret (inl (PDict p))
                | Some _ => status "Bios registry attributes are malformed"
                end
            | _ => status "Failed fetch attributes from bios registry"
            end
        | _ => status "Failed fetch bios registry"
        end
    end in
  match payload with
  | inr r => ret (inr r)
  | inl v =>
      match v with
      | PDict [] | PList [] | PStr EmptyString => status "Empty bios spec."
      | PDict _ | PList _ | PStr _ => ret (inl v)
      | x => raise (TypeError ("object of type '" +:+ type_name x +:+ "' has no len()"))
      end
  end.

Definition is_JSONDecodeError (e : exn) : bool := match e with JSONDecodeError _ => true | _ => false end.

(** [len(cmd_pending.data) > 0] *)
Definition has_len (v : pyval) : res bool :=
  match v with
  | PDict _ | PList _ | PStr _ | PTuple _ => Ok (truthy v)
  | x => Raise (TypeError ("object of type '" +:+ type_name x +:+ "' has no len()"))
  end.

(** What a Dell manager does first about changes that are already pending. *)
Definition settle_pending (commit_pending : bool) : MM unit :=
  if v_dell then
    let! pending := sync_invoke "BiosQueryPending" "bios_query_pending" [] in
    let! some := lift_res (has_len (data pending)) in
    if some then
      if commit_pending then
        let! _ := sync_invoke "JobApply" "job_apply"
                    [("do_reboot", PBool true); ("do_watch", PBool true); ("setting", PStr "bios")] in ret tt
      else raise (UncommittedPendingChanges ("BIOS contains uncommitted pending changes in the queue. "
                                             +:+ "Please apply changes first."))
    else ret tt
  else ret tt.

(** [BiosChangeSettings.execute(...)] *)
Definition bios_change_settings (a : change_args) : MM CommandResult :=
  let! payload := try_catch (change_payload a) is_JSONDecodeError
      (fun e => raise (InvalidJsonSpec ("It looks like your JSON spec is invalid. JSONlint the file and check: "
                                        +:+ exn_str e))) in
  match payload with
  | inr r => ret r
  | inl payload =>
      let! job := v_apply_time (ca_apply a) (ca_date a) (ca_time a) (ca_duration a) in
      match payload with
      | PDict p =>
          let p := dict_update p job in
          if ca_show a then ret (mkResult (PDict p) PNone PNone PNone)
          else
            settle_pending (ca_commit_pending a) ;;;
            let! target_api := resolve_bios_settings_uri (ca_async a) in
            let! (r, api_resp) := v_write PATCH target_api (Some p) (ca_async a) 204 in
            let! r := with_task r api_resp in
            let! early :=
              match api_resp with
              | RespSuccess | RespOk =>
                  if ca_commit a then
                    let! applied := sync_invoke "JobApply" "job_apply"
                                      [("do_reboot", PBool true); ("do_watch", PBool true)] in
                    ret (if is_none (error applied) then None else Some applied)
                  else ret None
              | _ => ret None
              end in
            match early with
            | Some applied => ret applied
            | None => if ca_reboot a then let! _ := v_reboot false in ret r else ret r
            end
      | v => raise (AttributeError ("'" +:+ type_name v +:+ "' object has no attribute 'update'"))
      end
  end.

(** *** boot-one-shot *)

(** [_resolve_boot_device(device, boot_devices)] *)
Definition resolve_boot_device (device : string) (boot_devices : pyval) : res string :=
  let? direct := Idrac.member_test device boot_devices in
  if direct then Ok device
  else
    let aliases := if decide (device = "Cd") then ["Cd"; "CD/DVD"; "UsbCd"; "UefiCd"; "UefiUsbCd"] else [] in
    match List.find (fun c => default false (py_in c boot_devices)) aliases with
    | Some c => Ok c
    | None => Raise (InvalidArgument ("Invalid boot device " +:+ device +:+ ", supported device "
                                      +:+ py_str boot_devices))
    end.

(** The text after the first occurrence of [sep], if any. *)
Fixpoint after_first (sep s : string) : option string :=
  if PyStr.startswith sep s then Some (String.substring (String.length sep) (String.length s) s)
  else match s with String _ s' => after_first sep s' | EmptyString => None end.

(** [_computer_system_version_at_most(system, major, minor)] *)
Definition computer_system_version_at_most (system : pydict) (major minor : Z) : bool :=
  match after_first "#ComputerSystem.v" (py_str (dict_get_or "@odata.type" (PStr "") system)) with
  | None => false
  | Some rest =>
      match PyStr.split "_" (default "" (head (PyStr.split "." rest))) with
      | a :: b :: _ =>
          match int_of_string a, int_of_string b with
          | Some x, Some y => (x <? major) || ((x =? major) && (y <=? minor))
          | _, _ => false
          end
      | _ => false
      end
  end.

(** [_use_legacy_flat_payload(boot_devices, system)] *)
Definition use_legacy_flat_payload (boot_devices : pyval) (system : pydict) : bool :=
  existsb (fun t => py_mem (PStr t) (default [] (py_iter boot_devices)))
    ["CD/DVD"; "FloppyRemovableMedia"; "UsbKey"; "UsbHdd"; "UsbFloppy"] &&
  PyStr.contains "supermicro" (PyStr.lower (py_str (dict_get_or "Manufacturer" (PStr "") system))) &&
  computer_system_version_at_most system 1 3.

(** [_boot_payload(device, mode, uefi_target, boot_devices, system)] *)
Definition boot_payload (device : string) (mode uefi_target : option string) (boot_devices : pyval)
    (system : pydict) : pydict :=
  let base := [("BootSourceOverrideEnabled", PStr (if decide (device = "None") then "Disabled" else "Once"));
               ("BootSourceOverrideTarget", PStr device)] in
  if use_legacy_flat_payload boot_devices system then base
  else [("Boot", PDict (base ++ match mode with Some m => [("BootSourceOverrideMode", PStr m)] | None => [] end
                             ++ match uefi_target with Some u => [("UefiTargetBootSourceOverride", PStr u)]
                                                     | None => [] end))].

(** [except _RESET_ERRORS] *)
Definition is_reset_error (e : exn) : bool :=
  match e with
  | FailedDiscoverAction _ | InvalidArgument _ | UnexpectedResponse _ | UnsupportedAction _
  | RedfishUnauthorized _ | RedfishForbidden _ | RedfishMethodNotAllowed _ | RedfishNotAcceptable _
  | RedfishOther _ _ | RedfishException _ | JSONDecodeError _ | TransportError _ | RequestTimeout _
  | ConnectionFailed _ => true
  | _ => false
  end.

(** The UEFI paths that the boot options advertise. *)
Definition uefi_paths (extra_data : pyval) : res (list pyval) :=
  let? ms := Idrac.item "Members" extra_data in
  match py_iter ms with
  | None => Raise (TypeError ("'" +:+ type_name ms +:+ "' object is not iterable"))
  | Some l =>
      res_fold (fun acc d =>
        let? has := Idrac.member_test "UefiDevicePath" d in
        if has then let? v := Idrac.item "UefiDevicePath" d in Ok (acc ++ [v]) else Ok acc) [] l
  end.

(** [boot["BootSourceOverrideTarget@Redfish.AllowableValues"]] *)
Definition advertised_devices (system : pydict) : res pyval :=
  Idrac.item "BootSourceOverrideTarget@Redfish.AllowableValues" (dict_get_or "Boot" (PDict system) system).

Definition set_data (d : pyval) (r : CommandResult) : CommandResult :=
  mkResult d (discovered r) (extra r) (error r).

(** [BootOneShot.execute(...)] *)
Definition boot_one_shot (device : string) (uefi_target mode : option string)
    (do_async do_reboot do_power_on dry_run confirm : bool) : MM CommandResult :=
  let! uri := managed_system_uri in
  let! r := v_query (py_str uri) (with_async do_async) in
  let system := as_dict (data r) in
  let! devices := lift_res (advertised_devices system) in
  let! device := lift_res (resolve_boot_device device devices) in
  (match mode with
   | Some m => if bool_decide (m ∈ ["Legacy"; "UEFI"]) then ret tt
               else raise (InvalidArgument ("Invalid boot mode " +:+ m +:+ ", supported modes ['UEFI', 'Legacy']"))
   | None => ret tt
   end) ;;;
  (match uefi_target with
   | Some u =>
       let! current := sync_invoke "BootOptions" "boot_sources_query" [] in
       let! paths := lift_res (uefi_paths (extra current)) in
       if py_mem (PStr u) paths then ret tt
       else raise (InvalidArgument ("Invalid uefi device path " +:+ u +:+ ", supported uefi devices "
                                    +:+ py_str devices))
   | None => ret tt
   end) ;;;
  let payload := boot_payload device mode uefi_target devices system in
  if dry_run || negb confirm then
    ret (mkResult (PDict [("dry_run", PBool true); ("target", uri); ("payload", PDict payload);
                          ("blocked", if dry_run then PNone else PStr "one-time boot requires confirm")])
           PNone PNone PNone)
  else
    let! powered :=
      if do_power_on then
        try_catch
          (let! p := sync_invoke "ChassisReset" "reboot" [("reset_type", PStr "On")] in
           ret (if is_none (error p) then None else Some p))
          is_reset_error
          (fun e => ret (Some (mkResult (PDict [("target", uri); ("payload", PDict payload)]) PNone PNone
                                 (PStr ("power-on pre-step failed: " +:+ exn_str e)))))
      else ret None in
    match powered with
    | Some p => ret p
    | None =>
        let! (r, api_resp) := v_write PATCH (py_str uri) (Some payload) do_async 204 in
        let! r := with_task r api_resp in
        if do_reboot then
          let d := as_dict (data r) in
          try_catch
            (let! rb := v_reboot true in
             if is_none (error rb) then ret (set_data (PDict (dict_set "reboot" (data rb) d)) r)
             else ret (mkResult (PDict (dict_set "reboot" (data rb) d)) (discovered r) (extra r) (error rb)))
            is_reset_error
            (fun e => ret (mkResult (PDict (dict_set "reboot_error" (PStr (exn_str e)) d)) (discovered r) (extra r)
                             (PStr ("reboot post-step failed: " +:+ exn_str e))))
        else ret r
    end.

(** ** Previews read *)

Lemma emits_apply_time a d t dur : emits is_get (v_apply_time a d t dur).
Proof. eapply emits_weaken; [|apply v_apply_silent]. by intros rq []. Qed.

Lemma emits_registry_uri b : emits is_get (resolve_bios_registry_uri b).
Proof. unfold resolve_bios_registry_uri. frame; auto with emits. Qed.

Lemma emits_settings_uri b : emits is_get (resolve_bios_settings_uri b).
Proof. unfold resolve_bios_settings_uri. frame; auto with emits. Qed.

Lemma emits_change_payload a : emits is_get (change_payload a).
Proof. unfold change_payload. frame; auto using emits_registry_uri with emits. Qed.

Lemma emits_bios_snapshot n f b : emits is_get (bios_snapshot n f b).
Proof. unfold bios_snapshot, current_attributes. frame; auto with emits. Qed.

Lemma emits_bios_pending b e f : emits is_get (bios_query_pending b e f).
Proof. unfold bios_query_pending. frame; auto with emits. Qed.

Lemma emits_change_show a : ca_show a = true -> emits is_get (bios_change_settings a).
Proof.
  intros Hs. unfold bios_change_settings. rewrite Hs.
  frame; auto using emits_change_payload, emits_apply_time with emits.
Qed.

(** ** What a change writes *)

Definition is_patch (rq : request) : Prop := rq_method rq = PATCH.

Lemma writes_ret {A} n (P : request -> Prop) (a : A) : writes n P (ret (S := mstate W) a).
Proof. apply writes_reads, frames_ret, _. Qed.

(** The pending query of a Dell host answers with changes. *)
Definition pending_changes : Prop :=
  forall kw s, exists s' r, sync_invoke (S := mstate W) "BiosQueryPending" "bios_query_pending" kw s = (s', Ok r) /\
    truthy (data r) = true.

Lemma settle_pending_refuses (s : mstate W) :
  v_dell = true -> pending_changes -> exists s' e, settle_pending false s = (s', Raise e).
Proof.
  intros Hd Hall. unfold settle_pending. rewrite Hd. destruct (Hall [] s) as (s' & r & Hrun & Ht).
  unfold bind at 1. rewrite Hrun. unfold bind, lift_res, has_len.
  destruct (data r); try (by eauto); rewrite Ht; simpl; eauto.
Qed.

(** A bios-change that is asked neither to commit nor to reboot sends at most one
    request that is no GET, and it is a PATCH; with [--show] it sends none.  When a
    Dell manager has pending changes and may not commit them, the change is refused
    and nothing is written. *)
Theorem bios_change_writes a (s : mstate W) :
  (forall kw, emits is_get (sync_invoke (S := mstate W) "BiosQueryPending" "bios_query_pending" kw)) ->
  ca_commit a = false -> ca_commit_pending a = false -> ca_reboot a = false ->
  exists l, trace (bios_change_settings a s).1 = trace s ++ l /\
    (length (write_requests l) <= (if ca_show a then 0 else 1))%nat /\ Forall is_patch (write_requests l) /\
    (v_dell = true -> pending_changes -> write_requests l = []).
Proof.
  intros Hpend Hc Hcp Hr.
  assert (emits is_get (settle_pending false)) as Hsettle by (unfold settle_pending; frame; auto).
  assert (writes (if ca_show a then 0 else 1) is_patch (bios_change_settings a)) as Hw.
  { destruct (ca_show a) eqn:Hs; [by apply writes_reads, emits_change_show|].
    unfold bios_change_settings. rewrite Hs, Hcp, Hc, Hr.
    apply writes_read_bind; [frame; apply emits_change_payload|]. intros [payload|r]; [|apply writes_ret].
    apply writes_read_bind; [apply emits_apply_time|]. intros job.
    destruct payload; try (by apply writes_reads; frame).
    apply (writes_read_bind is_patch 1); [exact Hsettle|]. intros _.
    apply (writes_read_bind is_patch 1); [apply emits_settings_uri|]. intros uri.
    apply (writes_bind _ 1 0); [apply writes_sends, v_write_once|]. intros [r resp].
    apply writes_reads. frame; auto with emits. }
  assert (v_dell = true -> pending_changes -> emits is_get (bios_change_settings a)) as Hdell.
  { intros Hd Hall. destruct (ca_show a) eqn:Hs; [by apply emits_change_show|].
    unfold bios_change_settings. rewrite Hs, Hcp.
    apply frames_bind; [exact _|frame; apply emits_change_payload|]. intros [payload|r]; [|apply frames_ret, _].
    apply frames_bind; [exact _|apply emits_apply_time|]. intros job.
    destruct payload; try (by frame).
    intros s0. destruct (settle_pending_refuses s0 Hd Hall) as (s' & e & Hrun).
    pose proof (Hsettle s0) as Hs0. unfold bind at 1. rewrite Hrun in Hs0 |- *. exact Hs0. }
  destruct (Hw s) as (l & Ht & Hlen & HP). exists l. split; [exact Ht|]. split; [done|]. split; [done|].
  intros Hd Hall. destruct (Hdell Hd Hall s) as (l' & Ht' & Hl'). rewrite Ht in Ht'. apply app_inv_head in Ht'. subst l'.
  by apply reads_no_writes.
Qed.

(** ** The one-time boot *)

(** The one-time boot is previewed without a write: as a dry run or unconfirmed it
    sends only GETs, provided the query of the boot options does. *)
Theorem one_shot_preview device uefi mode b rb po (dry confirm : bool) (s : mstate W) :
  (forall kw, emits is_get (sync_invoke (S := mstate W) "BootOptions" "boot_sources_query" kw)) ->
  dry || negb confirm = true ->
  exists l, trace (boot_one_shot device uefi mode b rb po dry confirm s).1 = trace s ++ l /\ Forall is_get l.
Proof.
  intros Hq Hp. assert (emits is_get (boot_one_shot device uefi mode b rb po dry confirm)) as H; [|apply H].
  unfold boot_one_shot. rewrite Hp. frame; auto with emits.
Qed.

(** The target of a one-time boot is one the system advertises: the device asked
    for, or for [Cd] an alias of it. *)
Theorem one_shot_device_advertised device devices d :
  resolve_boot_device device devices = Ok d ->
  py_in d devices = Some true /\
  (d = device \/ device = "Cd" /\ d ∈ ["Cd"; "CD/DVD"; "UsbCd"; "UefiCd"; "UefiUsbCd"]).
Proof.
  unfold resolve_boot_device, Idrac.member_test. intros (direct & Hd & H)%res_bind_ok.
  destruct (py_in device devices) as [b|] eqn:Hin; [|done]. injection Hd as ->.
  destruct direct; [injection H as <-; auto|].
  destruct (List.find _ _) as [c|] eqn:Hf; [|done]. injection H as <-. apply find_some in Hf as [Hc Hm].
  split; [by destruct (py_in c devices) as [[]|]|]. right. case_decide; [|by destruct Hc]. split; [done|].
  by apply list_elem_of_In.
Qed.
End Commands.

(** ** Rollback *)

Lemma restrict_get wanted current k :
  dict_get k (restrict wanted current) = if decide (k ∈ wanted) then dict_get k current else None.
Proof.
  unfold restrict. assert (forall acc : pydict, dict_get k (fold_left (fun acc k => match dict_get k current with
      | Some v => dict_set k v acc | None => acc end) wanted acc)
    = if decide (k ∈ wanted) then match dict_get k current with Some v => Some v | None => dict_get k acc end
      else dict_get k acc) as H.
  { induction wanted as [|w wanted IH]; intros acc; cbn [fold_left]; [by rewrite decide_False by apply not_elem_of_nil|].
    rewrite IH. destruct (decide (k = w)) as [->|Hne].
    - rewrite (decide_True (P := w ∈ w :: wanted)) by (by left).
      destruct (dict_get w current) as [v|]; [rewrite dict_get_set_eq; by case_decide|by case_decide].
    - assert (k ∈ w :: wanted <-> k ∈ wanted) as Hiff by (rewrite elem_of_cons; naive_solver).
      rewrite (decide_ext (k ∈ w :: wanted) (k ∈ wanted)) by exact Hiff. destruct (dict_get w current) as [v|]; [|done].
      by rewrite dict_get_set_ne by done. }
  rewrite H. case_decide; [by destruct (dict_get k current)|done].
Qed.

Lemma restrict_NoDup ws current : NoDup (dict_keys (restrict ws current)).
Proof.
  unfold restrict. assert (NoDup (dict_keys (@nil (string * pyval)))) as H0 by constructor.
  revert H0. generalize (@nil (string * pyval)) as acc.
  induction ws as [|w ws IH]; intros acc H0; simpl; [done|]. apply IH.
  destruct (dict_get w current); [by apply dict_set_NoDup|done].
Qed.

(** What [current_attributes] comes to when the BIOS resource is read. *)
Lemma current_read {W} `{!World W} `{!Vendor W} b (s s0 s1 : mstate W) sys r host :
  managed_system_uri s = (s0, Ok sys) -> v_query (py_str sys +:+ "/Bios") (with_async b) s0 = (s1, Ok r) ->
  dict_get "Attributes" (as_dict (data r)) = Some (PDict host) -> current_attributes b s = (s1, Ok host).
Proof.
  intros Hs Hq Hh. unfold current_attributes, try_Exception, try_catch, bind. rewrite Hs, Hq. cbn [ret].
  destruct (data r) as [| | | | | | |d|]; try done. cbn in Hh. destruct d as [|kv d]; [done|]. cbn [py_or truthy].
  unfold dget, dict_get_or, default. by rewrite Hh.
Qed.

(** C21. A snapshot is the inverse of the change it is scoped by.  For a specification file with an object of attributes
    [change], and a host whose BIOS resource is read and has an object of attributes [host], bios-snapshot answers with a
    specification that has exactly the attributes of the change that the host has, with the values of the host; so when the
    attributes of the host are overwritten with the change and then with the snapshot, every attribute that was there has
    its value again, and what is added are the attributes of the change that were not there. *)
Theorem snapshot_rolls_back {W} `{!World W} `{!Vendor W} read_spec f spec change b (s s0 s1 : mstate W) sys r host :
  f <> "" -> read_spec f = Ok (PDict spec) -> dict_get "Attributes" spec = Some (PDict change) -> NoDup (dict_keys change) ->
  managed_system_uri s = (s0, Ok sys) -> v_query (py_str sys +:+ "/Bios") (with_async b) s0 = (s1, Ok r) ->
  dict_get "Attributes" (as_dict (data r)) = Some (PDict host) ->
  exists rollback,
    bios_snapshot read_spec None (Some f) b s
      = (s1, Ok (mkResult (PDict [("Attributes", PDict rollback)]) PNone PNone PNone)) /\
    (forall k, dict_get k rollback = if decide (k ∈ dict_keys change) then dict_get k host else None) /\
    forall k, dict_get k (dict_update (dict_update host change) rollback)
      = match dict_get k host with Some v => Some v | None => dict_get k change end.
Proof.
  intros Hf Hspec Hattr Hnd Hs Hq Hh. pose proof (current_read b s s0 s1 sys r host Hs Hq Hh) as Hcur.
  exists (restrict (dict_keys change) host). split; [|split; [apply restrict_get|]].
  - unfold bios_snapshot. unfold bind at 1. rewrite Hcur. destruct f as [|c f]; [done|].
    unfold bind, lift_res. rewrite Hspec. simpl. unfold spec_names, get_attr, dget, dict_get_or. rewrite Hattr.
    by destruct change.
  - intros k. rewrite !dict_get_update by auto using restrict_NoDup. rewrite restrict_get.
    destruct (dict_get k host) as [v|] eqn:Hk.
    + case_decide as Hin; [done|]. apply dict_get_None in Hin. by rewrite Hin.
    + case_decide as Hin; by destruct (dict_get k change).
Qed.

(** A BIOS resource that cannot be read gives an empty restore point and no error. *)
Lemma snapshot_of_failed_read {W} `{!World W} `{!Vendor W} read_spec b (s s0 s1 : mstate W) sys e :
  managed_system_uri s = (s0, Ok sys) -> v_query (py_str sys +:+ "/Bios") (with_async b) s0 = (s1, Raise e) -> is_Exception e = true ->
  bios_snapshot read_spec None None b s = (s1, Ok (mkResult (PDict [("Attributes", PDict [])]) PNone PNone PNone)).
Proof.
  intros Hs Hq He. unfold bios_snapshot, current_attributes, try_Exception, try_catch, bind. rewrite Hs, Hq, He. reflexivity.
Qed.

(** ** The commands that the commands invoke *)

(** The invoker that runs [BiosQueryPending] as defined here, other commands as
    [others] does. *)
Definition pending_invoker {W} `{!World W} `{!Vendor W} (others : SyncInvoker (mstate W)) : SyncInvoker (mstate W) :=
  fun api name kw =>
    if decide (api = "BiosQueryPending" /\ name = "bios_query_pending")
    then bios_query_pending (truthy (dget "do_async" kw)) (truthy (dget "do_expanded" kw)) ""
    else @sync_invoke _ others api name kw.

Definition no_commands : SyncInvoker (mstate sim) := fun _ _ _ => raise (InvalidArgument "unknown command").

Definition sim_dell : Vendor sim := dell_vendor (SyncInvoker0 := no_commands) (fun _ => "") 3 (fun _ => 0).

(** A host with no BIOS change pending. *)
Definition bios_routes : list (method * string * list response) :=
  let host := "https://10.0.0.42/redfish/v1/" in
  [(GET, host +:+ "Managers", [ok_json (PDict [("Members", PList [PDict [("@odata.id", PStr "/redfish/v1/Managers/1")]])])]);
   (GET, host +:+ "Systems", [ok_json (PDict [("Members", PList [PDict [("@odata.id", PStr "/redfish/v1/Systems/1")]])])]);
   (GET, host +:+ "Systems/1/Bios", [ok_json (PDict [("Attributes", PDict [("BootMode", PStr "Uefi"); ("Turbo", PStr "On")])])]);
   (GET, host +:+ "Systems/1/Bios/Settings", [ok_json (PDict [("Attributes", PDict [])])]);
   (PATCH, host +:+ "Systems/1/Bios/Settings", [Response 200 [] (inl (PDict []))])].

Definition bios_spec (f : string) : res pyval :=
  Ok (PDict [("Attributes", PDict [("Turbo", PStr "Off"); ("Sriov", PStr "On")])]).

Definition one_change : change_args :=
  ChangeArgs None None "on-reset" false false false false false "" "" (Some "change.json") (PInt 600).

Definition bios_run :=
  bios_change_settings (Vendor0 := sim_dell) (SyncInvoker0 := pending_invoker (Vendor0 := sim_dell) no_commands)
    bios_spec one_change (sim_state sample_manager bios_routes).

Lemma bios_change_writes_witness :
  exists l, trace bios_run.1 = [] ++ l /\
    (length (write_requests l) <= 1)%nat /\ length (write_requests (trace bios_run.1)) = 1%nat.
Proof.
  destruct (bios_change_writes (Vendor0 := sim_dell) (SyncInvoker0 := pending_invoker (Vendor0 := sim_dell) no_commands)
    bios_spec one_change (sim_state sample_manager bios_routes)) as (l & Ht & Hl & _);
    [intros kw; apply (emits_bios_pending (Vendor0 := sim_dell))|reflexivity..|].
  exists l. split; [exact Ht|]. split; [exact Hl|]. vm_compute. reflexivity.
Defined.

Lemma one_shot_preview_witness :
  let run := boot_one_shot (Vendor0 := sim_dell) (SyncInvoker0 := no_commands) "Pxe" None None false false true true true
               (sim_state sample_manager bios_routes) in
  exists l, trace run.1 = [] ++ l /\ Forall is_get l.
Proof.
  apply (one_shot_preview (Vendor0 := sim_dell) (SyncInvoker0 := no_commands) "Pxe" None None false false true true true
           (sim_state sample_manager bios_routes)); [intros kw; by apply frames_raise, _|reflexivity].
Defined.

Lemma one_shot_device_advertised_witness :
  resolve_boot_device "Cd" (PList [PStr "Pxe"; PStr "UsbCd"]) = Ok "UsbCd" /\
  py_in "UsbCd" (PList [PStr "Pxe"; PStr "UsbCd"]) = Some true.
Proof. split; [reflexivity|]. by apply (one_shot_device_advertised "Cd"). Defined.

Lemma snapshot_rolls_back_witness :
  let change := [("Turbo", PStr "Off"); ("Sriov", PStr "On")] in
  let host := [("BootMode", PStr "Uefi"); ("Turbo", PStr "On")] in
  exists s1 rollback,
    bios_snapshot (Vendor0 := sim_dell) bios_spec None (Some "change.json") false (sim_state sample_manager bios_routes)
      = (s1, Ok (mkResult (PDict [("Attributes", PDict rollback)]) PNone PNone PNone)) /\
    dict_get "Turbo" (dict_update (dict_update host change) rollback) = Some (PStr "On").
Proof.
  cbv zeta. set (s := sim_state sample_manager bios_routes).
  destruct (managed_system_uri (Vendor0 := sim_dell) s) as [s0 [sys|e|]] eqn:Hs; [|vm_compute in Hs; discriminate Hs..].
  destruct (@v_query _ _ sim_dell (py_str sys +:+ "/Bios") (with_async false) s0) as [s1 [r|e|]] eqn:Hq;
    [|vm_compute in Hs; injection Hs as <- <-; vm_compute in Hq; discriminate Hq..].
  destruct (snapshot_rolls_back (Vendor0 := sim_dell) bios_spec "change.json"
    [("Attributes", PDict [("Turbo", PStr "Off"); ("Sriov", PStr "On")])]
    [("Turbo", PStr "Off"); ("Sriov", PStr "On")] false s s0 s1 sys r [("BootMode", PStr "Uefi"); ("Turbo", PStr "On")])
    as (rollback & Hrun & _ & Hk); [done|reflexivity|reflexivity|by apply (bool_decide_unpack _)|done|done| |].
  - vm_compute in Hs. injection Hs as <- <-. vm_compute in Hq. injection Hq as _ <-. reflexivity.
  - exists s1, rollback. split; [exact Hrun|exact (Hk "Turbo")].
Defined.
End BiosCommands.
