(* ===== verification/Operator.v ===== *)
(** * The operator on the modelled commands

    The node profile controller of NodeProfile.v is verified against
    [SyncInvoker]; here it runs on the commands of Service.v and builds the
    manager of Manager.v, so that what the operator sends to a BMC can be
    stated: nothing but reads, unless the resource approves the plan. *)

From stdpp Require Import base list strings.
From Stdlib Require Import Ascii ZArith Lia.
From S2P Require Import Prelude PyVal Effects Http Manager Csdl Invoker Reconcile Service Secrets NodeProfile Idrac Vendor BiosCommands.

Module Operator.
Import Http RedfishManager Reconcile NodeProfile.
Local Open Scope py_scope.

(** [RedfishManager(host=..., username=..., ...)], as the factory of the controller *)
Definition make_manager {W} (a : manager_args) : M (mstate W) unit :=
  let! m := lift_res (new_manager (ma_host a) (ma_username a) (ma_password a) (PInt (ma_port a))
                        (ma_insecure a) (ma_is_http a) None) in
  modify (set_mgr (fun _ => m)).

(** A keyword argument that is a text *)
Definition text_arg (k : string) (kw : pydict) : option string := match dget k kw with PStr s => Some s | _ => None end.

Lemma emits_make_manager {W} P a : emits P (make_manager (W := W) a).
Proof. unfold make_manager. frame. Qed.

Section Operator.
Context (schemas : list Csdl.xml) (profiles : list pyval) (fuel : nat).
Context {W : Type} `{!World W} (others : SyncInvoker (mstate W)) {kube : Secrets.Kube}.
Context (write_spec : string -> pyval -> M (mstate W) string) (read_spec : string -> res pyval).
Context (dell : bool) (response_text : response -> string) (utc_now local_now : mstate W -> Z).

(** The BIOS query as the manager's class resolves it.  It is registered on IDracManager, which has a registry of its own:
    a manager of that class ([dell]) runs the command of BiosCommands.v, with the defaults of its keyword arguments; on
    RedfishManager, the controller's default factory, the lookup fails.  What is not modelled is [others]. *)
Definition with_bios_query : SyncInvoker (mstate W) := fun api name kw =>
  if decide (api = "BiosQuery" /\ name = "bios_inventory") then
    if dell then
      BiosCommands.bios_query (SyncInvoker0 := others) response_text fuel local_now read_spec (Service.flag "attr_only" kw)
        (text_arg "attr_filter" kw) (text_arg "attr_filter_file" kw) (Service.flag "do_deep" kw) (Service.flag "do_async" kw)
    else raise (UnsupportedAction "Unknown bios_inventory command.")
  else others api name kw.

#[local] Instance operator_commands : SyncInvoker (mstate W) :=
  Service.commands schemas profiles fuel with_bios_query write_spec.

Lemma bios_inventory_reads kw : emits is_get (with_bios_query "BiosQuery" "bios_inventory" kw).
Proof. unfold with_bios_query. rewrite decide_True by done. destruct dell; [apply BiosCommands.emits_bios_query|frame]. Qed.

Definition handler := reconcile_redfish_node_profile make_manager utc_now.

(** C3. The operator only reads unless it was told to write: whatever the resource, its
    stored status and the BMC's answers, a call of the handler sends nothing but
    GETs, unless the hash of the plan that this call computes from the state it
    finds is the one that the resource approves and that hash was not consumed
    before. *)
Theorem operator_reads_unless_approved spec body ns patch (s : mstate W) :
  (exists reads, trace (handler spec body ns patch s).1 = trace s ++ reads /\ Forall is_get reads) \/
  exists creds h,
    Secrets.load_secret_credentials ns (dget "secretRef" (mapping (dget "endpoint" spec))) = Ok creds /\
    (plan_of make_manager spec creds s).2 = Ok (Some h) /\ approval spec = Some h /\
    consumed (mapping (dget "status" (mapping body))) <> Some h.
Proof.
  pose proof (Service.commands_preview_safe schemas profiles fuel with_bios_query write_spec bios_inventory_reads).
  apply (handler_touches make_manager utc_now (extends is_get)). intros a. apply emits_make_manager.
Qed.
End Operator.

(** ** Evaluation *)

(** A profile of NTP servers for the simulated BMC of Service.v. *)
Definition profile (approved : string) : pydict :=
  [("endpoint", PDict [("address", PStr "10.0.0.42")]);
   ("desiredState", PDict [("ntp", PDict [("servers", PList [PStr "a.org"])])]);
   ("approvedPlanHash", PStr approved)].

Definition handler_on (dell : bool) (profiles : list pyval) :=
  handler [] profiles 10 Service.no_others (kube := no_kube) (fun _ _ => ret "/tmp/s") (fun _ => Raise (ValueError "no file"))
    dell (fun _ => "") (fun _ => 0%Z) (fun _ => 0%Z).
Abbreviation sim_handler := (handler_on false []).

(** A profile with BIOS attributes needs the BIOS query: on RedfishManager its plan fails, and nothing is sent; on the Dell
    manager the host is read. *)
Example bios_profile_needs_dell :
  let turbo := PDict [("name", PStr "perf"); ("attributes", PDict [("Turbo", PStr "On")])] in
  let spec := [("endpoint", PDict [("address", PStr "10.0.0.42")]); ("desiredState", PDict [("biosProfile", PStr "perf")])] in
  let run dell := trace (handler_on dell [turbo] spec PNone (Some "default") (Some []) (sim_state sample_manager Service.host_routes)).1 in
  (run false, map rq_method (run true), map rq_url (drop 3 (run true))) =
  ([], [GET; GET; GET; GET], ["https://10.0.0.42/redfish/v1/Systems/1/Bios"]).
Proof. vm_compute. reflexivity. Qed.

Lemma operator_reads_unless_approved_witness :
  exists reads,
    trace (handler_on true [PDict [("name", PStr "perf"); ("attributes", PDict [("Turbo", PStr "On")])]]
             [("endpoint", PDict [("address", PStr "10.0.0.42")]); ("desiredState", PDict [("biosProfile", PStr "perf")])]
             PNone (Some "default") (Some []) (sim_state sample_manager Service.host_routes)).1 = [] ++ reads /\ Forall is_get reads.
Proof.
  destruct (operator_reads_unless_approved [] [PDict [("name", PStr "perf"); ("attributes", PDict [("Turbo", PStr "On")])]] 10
    Service.no_others (kube := no_kube) (fun _ _ => ret "/tmp/s") (fun _ => Raise (ValueError "no file")) true (fun _ => "")
    (fun _ => 0%Z) (fun _ => 0%Z)
    [("endpoint", PDict [("address", PStr "10.0.0.42")]); ("desiredState", PDict [("biosProfile", PStr "perf")])]
    PNone (Some "default") (Some []) (sim_state sample_manager Service.host_routes)) as [H|(creds & h & _ & _ & Ha & _)]; [exact H|].
  exfalso. vm_compute in Ha. discriminate Ha.
Defined.

(** The hash the unapproved run reports, and the writes of the run that approves it. *)
Example approved_run :
  let start := sim_state sample_manager Service.ntp_ok_routes in
  let plan := sim_handler (profile "") PNone (Some "default") (Some []) start in
  match plan.2 with
  | Ok (Some patch) =>
      match dget "planHash" (as_dict (dget "status" patch)) with
      | PStr h => map rq_method (trace plan.1) <> [] /\
                  filter (fun m => m <> GET) (map rq_method (trace plan.1)) = [] /\
                  filter (fun m => m <> GET)
                    (map rq_method (trace (sim_handler (profile h) PNone (Some "default") (Some []) start).1))
                  = [PATCH; PATCH]
      | _ => False
      end
  | _ => False
  end.
Proof. vm_compute. split; [discriminate|auto]. Qed.
End Operator.
