(* ===== verification/Firmware.v ===== *)
(** * Firmware updates

    src/redfish_ctl/firmware/cmd_firmware_update.py, class [FirmwareUpdate]: the
    image is named to the SimpleUpdate action, or uploaded to a push URI of the
    UpdateService, and only with [--confirm].  The command runs on the manager
    of its vendor ([Vendor]); what it asks of the manager for an upload is the
    record [push_ops].  The local image is the parameter [find_image]: the name
    of the file at a path, if there is one, and its contents. *)

From stdpp Require Import base list strings.
From Stdlib Require Import Ascii ZArith Lia.
From S2P Require Import Prelude PyVal Effects Query Http Manager Discovery ActionPolicy Actions Invoker Idrac Vendor.

Module FirmwareUpdate.
Import Http RedfishManager ActionPolicy Actions Vendor.
Local Open Scope Z_scope.
Local Open Scope py_scope.

(** The methods the upload uses: [read_api_respond], if the manager has one, which
    sends nothing, and [api_success_msg]. *)
Record push_ops (W : Type) := PushOps {
  po_read : option (response -> M (mstate W) api_respond);
  po_success : api_respond -> res pydict;
  po_silent : forall read r, po_read = Some read -> emits (fun _ => False) (read r)
}.
Arguments PushOps {W} _ _ _.
Arguments po_read {W} _.
Arguments po_success {W} _ _.
Arguments po_silent {W} _.

(** [RedfishManager] has no [read_api_respond]. *)
Definition base_push {W} : push_ops W :=
  PushOps None (fun a => Ok (api_success_msg a "message" PNone)) ltac:(done).

Lemma dell_read_silent {W} `{!World W} read r :
  Some (fun r => Idrac.read_api_respond (W := W) r 202 0) = Some read -> emits (fun _ => False) (read r).
Proof. intros [= <-]. apply emits_read_api_respond. Qed.

(** [IDracManager] has one. *)
Definition dell_push {W} `{!World W} : push_ops W :=
  PushOps (Some (fun r => Idrac.read_api_respond r 202 0)) (fun a => Idrac.api_success_msg a "message" PNone)
    dell_read_silent.

Definition simple_update : string := "#UpdateService.SimpleUpdate".

Section Command.
Context {W : Type} `{!World W} `{!Vendor W} (ops : push_ops W).
Context (find_image : string -> option (string * res string)).
Abbreviation MM := (M (mstate W)).

(** [_update_service_uri(do_async)] *)
Definition update_service_uri (do_async : bool) : MM pyval :=
  let! root := try_Exception
      (let! r := v_query Discovery.api_version (with_async do_async) in ret (py_or (data r) (PDict [])))
      (fun _ => ret (PDict [])) in
  let! link := lift_res (get_attr root "UpdateService") in
  match link with
  | PDict l => if truthy (dget "@odata.id" l) then ret (dget "@odata.id" l)
               else ret (PStr "/redfish/v1/UpdateService")
  | _ => ret (PStr "/redfish/v1/UpdateService")
  end.

(** [_read_update_service(do_async)] *)
Definition read_update_service (do_async : bool) : MM (pyval * pyval * option string) :=
  let! uri := update_service_uri do_async in
  try_Exception
    (let! r := v_query (py_str uri) (with_async do_async) in ret (uri, py_or (data r) (PDict []), None))
    (fun e => ret (uri, PDict [], Some ("failed to read " +:+ py_str uri +:+ ": " +:+ exn_str e))).

(** [_action_result(target, payload, actions, do_async, dry_run, confirm)] *)
Definition action_result (target : pyval) (payload : pydict) (actions : pyval) (do_async dry_run confirm : bool)
  : MM CommandResult :=
  let level := classify simple_update in
  let blocked := bool_decide (level = DESTRUCTIVE) && negb confirm in
  if dry_run || blocked then
    ret (mkResult (PDict [("dry_run", PBool true); ("action", PStr simple_update); ("target", target);
                          ("payload", PDict payload); ("level", PStr (level_value level));
                          ("blocked", if blocked then PStr "destructive action requires --confirm" else PNone)])
           actions PNone PNone)
  else
    let! (result, _) := v_write POST (py_str target) (Some payload) do_async 202 in
    let d := match data result with PDict d => d | v => [("result", v)] end in
    let d := dict_setdefault "executed" (PBool true) d in
    let d := dict_setdefault "action" (PStr simple_update) d in
    let d := dict_setdefault "target" target d in
    let d := dict_setdefault "level" (PStr (level_value level)) d in
    ret (mkResult (PDict d) actions PNone (error result)).

(** [_push_target(update_service)] *)
Definition push_target (update_service : pyval) : res (option (string * string)) :=
  let? multipart := get_attr (py_or update_service (PDict [])) "MultipartHttpPushUri" in
  match multipart with
  | PStr (String _ _ as t) => Ok (Some ("MultipartHttpPushUri", t))
  | _ =>
      let? plain := get_attr (py_or update_service (PDict [])) "HttpPushUri" in
      match plain with
      | PStr (String _ _ as t) => Ok (Some ("HttpPushUri", t))
      | _ => Ok None
      end
  end.

(** The request of [_post_image_file]: [requests.post] with the [files] or the
    [data] argument as the body *)
Definition image_request (m : manager) (target meth file contents : string) : request :=
  let hs := match x_auth m with Some tok => [("X-Auth-Token", PStr tok)] | None => [] end in
  let auth := match x_auth m with Some _ => None | None => Some (user m, passwd m) end in
  if decide (meth = "MultipartHttpPushUri") then
    Request POST (base_url m target) hs auth (verify_cert m)
      (Some (PDict [("UpdateFile", PTuple [PStr file; PStr contents; PStr "application/octet-stream"])]))
  else
    Request POST (base_url m target) (dict_set "Content-Type" (PStr "application/octet-stream") hs) auth
      (verify_cert m) (Some (PStr contents)).

(** [_post_image_file(target, method, image_path)] *)
Definition post_image_file (target meth file : string) (contents : res string) : MM response :=
  let! m := gets mgr in
  let! c := lift_res contents in
  send (image_request m target meth file c).

(** [_push_result(target, method, image_file, dry_run, confirm)]; an exception
    object that is returned as the error is represented by its text *)
Definition push_result (target meth image_file : string) (dry_run confirm : bool) : MM CommandResult :=
  let d := [("method", PStr meth); ("target", PStr target); ("image_file", PStr image_file);
            ("level", PStr "destructive")] in
  if dry_run || negb confirm then
    ret (mkResult (PDict (d ++ [("dry_run", PBool true);
                                ("blocked", if confirm then PNone else PStr "destructive update requires --confirm")]))
           PNone PNone PNone)
  else
    match find_image image_file with
    | None => ret (mkResult (PDict d) PNone PNone (PStr ("image_file not found: " +:+ image_file)))
    | Some (file, contents) =>
        let! out := try_Exception
            (let! response := post_image_file target meth file contents in
             let! a := match po_read ops with
                       | Some read => read response
                       | None => raise (AttributeError "'FirmwareUpdate' object has no attribute 'read_api_respond'")
                       end in
             ret (inl (response, a)))
            (fun e => ret (inr e)) in
        match out with
        | inr e => ret (mkResult (PDict d) PNone PNone (PStr (exn_str e)))
        | inl (response, RespAccepted) =>
            let! id := lift_res (task_id_from_header response true) in
            ret (mkResult (PDict (d ++ [("task_id", PStr id); ("executed", PBool true)])) PNone PNone PNone)
        | inl (_, a) =>
            let! msg := lift_res (po_success ops a) in
            ret (mkResult (PDict (dict_set "executed" (PBool true) (dict_update d msg))) PNone PNone PNone)
        end
    end.

(** The ImageURI payload. *)
Definition image_payload (image_uri transfer_protocol : option string) : pydict :=
  match image_uri with Some (String _ _ as u) => [("ImageURI", PStr u)] | _ => [] end ++
  match transfer_protocol with Some (String _ _ as p) => [("TransferProtocol", PStr p)] | _ => [] end.

(** [FirmwareUpdate.execute(image_uri, image_file, transfer_protocol, confirm,
    dry_run, do_async)] *)
Definition execute (image_uri image_file transfer_protocol : option string) (confirm dry_run do_async : bool)
  : MM CommandResult :=
  let! (uri, update_service, err) := read_update_service do_async in
  match err with
  | Some e => ret (mkResult PNone PNone PNone (PStr e))
  | None =>
      let! actions := lift_res (discover_redfish_actions update_service) in
      let! targets := lift_res (flatten_action_targets update_service) in
      let simple_target := dget simple_update targets in
      if truthy simple_target then
        action_result simple_target (image_payload image_uri transfer_protocol) (actions_val actions) do_async
          dry_run confirm
      else
        let! push := lift_res (push_target update_service) in
        let available := sort_strs (dedup (dict_keys actions ++ dict_keys targets)) in
        match push, image_file with
        | None, _ =>
            ret (mkResult (PDict [("action", PStr "firmware-update"); ("available", PList (map PStr available));
                                  ("update_service", uri)])
                   (actions_val actions) PNone
                   (PStr "UpdateService exposes no SimpleUpdate, MultipartHttpPushUri, or HttpPushUri"))
        | Some (meth, target), Some (String _ _ as f) => push_result target meth f dry_run confirm
        | Some (meth, target), _ =>
            ret (mkResult (PDict [("action", PStr "firmware-update"); ("method", PStr meth); ("target", PStr target)])
                   (actions_val actions) PNone (PStr (meth +:+ " requires --image_file")))
        end
  end.

(** ** Properties *)

Lemma emits_read_update_service b : emits is_get (read_update_service b).
Proof. unfold read_update_service, update_service_uri. frame; auto with emits. Qed.

Definition is_post (rq : request) : Prop := rq_method rq = POST.

Lemma sends_image target meth file contents : sends 1 is_post (post_image_file target meth file contents).
Proof.
  unfold post_image_file. apply sends_after_silent; [done|]. intros m. apply sends_after_silent; [by intros s; destruct contents|]. intros c.
  apply sends_send. unfold image_request, is_post. by case_decide.
Qed.

(** An upload is the one request of the image. *)
Lemma push_once target meth f dry confirm (s : mstate W) :
  let run := push_result target meth f dry confirm s in
  trace run.1 = trace s \/
  confirm = true /\ dry = false /\ exists file contents,
    find_image f = Some (file, Ok contents) /\ trace run.1 = trace s ++ [image_request (mgr s) target meth file contents].
Proof.
  cbv zeta. unfold push_result. destruct (dry || negb confirm) eqn:Hd; [by left|]. apply orb_false_iff in Hd as [-> ->%negb_false_iff].
  destruct (find_image f) as [[file [contents|e|]]|]; [| |by left..].
  2: { left. unfold bind, try_Exception, try_catch, post_image_file, bind, lift_res. cbn. by destruct (is_Exception e). }
  right. do 2 (split; [done|]). exists file, contents. split; [done|].
  unfold bind at 1, try_Exception, try_catch, bind at 1, post_image_file, bind at 1 2, gets, lift_res at 1. rewrite send_run.
  destruct (reply s _) as [r|e|]; [|cbn; by destruct (is_Exception e)|done]. unfold bind at 1.
  destruct (po_read ops) as [read|] eqn:Hread; [|done].
  destruct (po_silent ops read r Hread (sent s (image_request (mgr s) target meth file contents))) as (l & Hl & Hf).
  assert (l = []) as -> by (destruct l as [|rq l]; [done|]; by apply Forall_cons in Hf as [[] _]). rewrite app_nil_r in Hl.
  destruct (read r _) as [s2 [a|e|]]; cbn in Hl |- *; [|destruct (is_Exception e); exact Hl|exact Hl].
  unfold bind, lift_res. by destruct a; repeat case_match.
Qed.

Lemma read_update_ok b (s s1 : mstate W) u us : read_update_service b s = (s1, Ok (u, us, None)) ->
  exists s0 r, update_service_uri b s = (s0, Ok u) /\ v_query (py_str u) (with_async b) s0 = (s1, Ok r) /\ us = py_or (data r) (PDict []).
Proof.
  unfold read_update_service. intros (s0 & uri & Hu & H)%bind_inv_ok. revert H. unfold try_Exception, try_catch, bind.
  destruct (v_query (py_str uri) (with_async b) s0) as [s2 [r|e|]] eqn:Hq; cbn; [|by destruct (is_Exception e)|done].
  intros [= <- <- <-]. by exists s0, r.
Qed.

Lemma push_target_ok us meth target : push_target us = Ok (Some (meth, target)) ->
  (meth = "MultipartHttpPushUri" \/ meth = "HttpPushUri") /\ dict_get meth (as_dict us) = Some (PStr target).
Proof.
  assert (forall k t, get_attr (py_or us (PDict [])) k = Ok (PStr t) -> t <> "" -> dict_get k (as_dict us) = Some (PStr t)) as Hget.
  { intros k t. rewrite <- as_dict_or. destruct (py_or us (PDict [])); try done. cbn. unfold dget, dict_get_or. destruct (dict_get k d); [by intros [= ->]|done]. }
  assert (forall v, (let? plain := get_attr (py_or us (PDict [])) "HttpPushUri" in
      match plain with PStr (String _ _ as t) => Ok (Some ("HttpPushUri", t)) | _ => Ok None end) = Ok (Some v) -> v.1 = "HttpPushUri" /\ dict_get v.1 (as_dict us) = Some (PStr v.2)) as Hplain.
  { intros v (w & Hw & H)%res_bind_ok. destruct w as [| | | |[|c m]| | | |]; try done. injection H as <-. split; [done|]. by apply Hget. }
  unfold push_target. intros (v & Hv & H)%res_bind_ok. destruct v as [| | | |[|c m]| | | |]; try (apply Hplain in H as [Hm H]; cbn in Hm, H; auto).
  injection H as <- <-. split; [by left|]. by apply Hget.
Qed.

(** C20. A firmware update writes only when it is told to.  Either every request is a GET, or the update was confirmed and is
    no dry run, it has read the UpdateService with GETs, and after that it sends at most one request, a POST: to the target
    of a SimpleUpdate action of the document it read, with the image URI that was given, or the upload of the image that was
    given to a push URI of that document. *)
Theorem firmware_update_guarded uri file tp confirm dry b (s : mstate W) :
  let run := execute uri file tp confirm dry b s in
  (exists reads, trace run.1 = trace s ++ reads /\ Forall is_get reads) \/
  confirm = true /\ dry = false /\ exists s0 s1 u r reads posts,
    update_service_uri b s = (s0, Ok u) /\ v_query (py_str u) (with_async b) s0 = (s1, Ok r) /\
    trace s1 = trace s ++ reads /\ Forall is_get reads /\
    trace run.1 = trace s1 ++ posts /\ (length posts <= 1)%nat /\ Forall is_post posts /\
    ((exists t p, has_action (as_dict (data r)) simple_update t /\ (forall i, uri = Some i -> i <> "" -> dget "ImageURI" p = PStr i) /\
        trace run.1 = trace (v_write POST (py_str t) (Some p) b 202 s1).1) \/
     exists meth target f name contents, (meth = "MultipartHttpPushUri" \/ meth = "HttpPushUri") /\
        dict_get meth (as_dict (data r)) = Some (PStr target) /\ file = Some f /\ find_image f = Some (name, Ok contents) /\
        posts = [image_request (mgr s1) target meth name contents]).
Proof.
  cbv zeta. destruct (emits_read_update_service b s) as (reads & Ht & Hr). remember (execute uri file tp confirm dry b s) as run eqn:Hrun.
  assert (forall x : res CommandResult, run = ((read_update_service b s).1, x) -> exists l, trace run.1 = trace s ++ l /\ Forall is_get l) as Hleft
    by (intros x ->; by exists reads). unfold execute, bind at 1 in Hrun.
  destruct (read_update_service b s) as [s1 [[[u us] [e|]]|e|]] eqn:Hread; [by left; eapply Hleft| |by left; eapply Hleft..]. cbn in Ht, Hleft.
  destruct (read_update_ok _ _ _ _ _ Hread) as (s0 & r & Hu & Hq & Hus). unfold bind at 1, lift_res at 1 in Hrun.
  destruct (discover_redfish_actions us) as [actions|e|]; [|by left; eapply Hleft..]. unfold bind at 1, lift_res at 1 in Hrun.
  destruct (flatten_action_targets us) as [targets|e|] eqn:Htargets; [|by left; eapply Hleft..]. cbv zeta in Hrun.
  destruct (truthy (dget simple_update targets)) eqn:Hst.
  - unfold action_result in Hrun. cbv zeta in Hrun. destruct (dry || _) eqn:Hd; [by left; eapply Hleft|].
    apply orb_false_iff in Hd as [-> Hc]. replace (bool_decide _) with true in Hc by (symmetry; by vm_compute). apply negb_false_iff in Hc as ->.
    assert (trace run.1 = trace (v_write POST (py_str (dget simple_update targets)) (Some (image_payload uri tp)) b 202 s1).1) as Hw.
    { rewrite Hrun. unfold bind. by destruct (v_write _ _ _ _ _ s1) as [s2 [[x y]|e|]]. }
    destruct (v_write_once POST (py_str (dget simple_update targets)) (Some (image_payload uri tp)) b 202 s1) as (posts & Hp & Hn & Hf).
    right. do 2 (split; [done|]). exists s0, s1, u, r, reads, posts. rewrite <- Hp. split_and!; try done.
    left. exists (dget simple_update targets), (image_payload uri tp). split_and!; try done.
    + rewrite <- as_dict_or, <- Hus. unfold dget, dict_get_or in *. destruct (dict_get simple_update targets) as [x|] eqn:Hx; [|done].
      by apply (flatten_sound _ _ Htargets).
    + intros i -> Hi. by destruct i.
  - unfold bind at 1, lift_res at 1 in Hrun. destruct (push_target us) as [[[meth target]|]|e|] eqn:Hpush; [|by left; eapply Hleft..].
    destruct file as [[|c f]|]; [by left; eapply Hleft| |by left; eapply Hleft].
    pose proof (push_once target meth (String c f) dry confirm s1) as Hone. cbv zeta in Hone. rewrite <- Hrun in Hone.
    destruct Hone as [Hsame|(-> & -> & name & contents & Hfind & Hone)]; [left; exists reads; by rewrite Hsame|].
    destruct (push_target_ok _ _ _ Hpush) as [Hm Hg]. rewrite Hus, as_dict_or in Hg.
    right. do 2 (split; [done|]). exists s0, s1, u, r, reads, [image_request (mgr s1) target meth name contents]. split_and!; try done.
    + constructor; [|constructor]. unfold image_request, is_post. by case_decide.
    + right. by exists meth, target, (String c f), name, contents.
Qed.

(** The preview of a firmware update is faithful: when an unconfirmed run reports
    the SimpleUpdate action, the confirmed run from the same state sends the same
    reads and then the write of exactly the reported payload to the reported
    target. *)
Theorem firmware_preview_faithful uri file tp dry b (s s1 : mstate W) r :
  execute uri file tp false dry b s = (s1, Ok r) ->
  dget "action" (as_dict (data r)) = PStr simple_update ->
  exists target payload,
    dget "target" (as_dict (data r)) = target /\ dget "payload" (as_dict (data r)) = PDict payload /\
    trace (execute uri file tp true false b s).1 =
    trace (v_write POST (py_str target) (Some payload) b 202 s1).1.
Proof.
  unfold execute at 1. unfold bind at 1. destruct (read_update_service b s) as [s2 [[[u us] [e|]]|e|]] eqn:Hread;
    try done; [by intros [= <- <-]|].
  unfold bind at 1. unfold lift_res at 1. destruct (discover_redfish_actions us) as [actions|e|] eqn:Hd; [|done..].
  unfold bind at 1. unfold lift_res at 1. destruct (flatten_action_targets us) as [targets|e|] eqn:Ht; [|done..].
  cbv zeta. destruct (truthy (dget simple_update targets)) eqn:Htarget.
  - unfold action_result at 1. rewrite orb_true_r. intros [= <- <-] _.
    eexists _, _. split; [reflexivity|]. split; [reflexivity|].
    unfold execute, bind, lift_res. rewrite Hread, Hd, Ht. cbv zeta. rewrite Htarget.
    unfold action_result. cbn [negb]. rewrite andb_false_r. cbn [orb]. unfold bind.
    by destruct (v_write _ _ _ _ _ _) as [s3 [[r a]|e|]].
  - unfold bind at 1, lift_res at 1. destruct (push_target us) as [[[meth target]|]|e|]; [|by intros [= <- <-]|done..].
    destruct file as [[|c f]|]; [by intros [= <- <-]| |by intros [= <- <-]].
    unfold push_result. rewrite orb_true_r. by intros [= <- <-].
Qed.
End Command.

(** ** Uploads through the base manager *)

(** Through the base manager an upload that was made is reported as failed: the
    image is sent, and whatever the BMC answers, acceptance included, the result
    carries an error and does not say that the update was executed. *)
Theorem base_push_misreported {W} `{!World W} find_image target meth f file contents (s : mstate W) r :
  find_image f = Some (file, Ok contents) ->
  let rq := image_request (mgr s) target meth file contents in
  reply s rq = Ok r ->
  let out := push_result base_push find_image target meth f false true s in
  trace out.1 = trace s ++ [rq] /\
  exists cr, out.2 = Ok cr /\ truthy (error cr) = true /\ dict_get "executed" (as_dict (data cr)) = None.
Proof.
  intros Hf rq Hr. cbv zeta.
  assert (exists d e, push_result base_push find_image target meth f false true s
    = (sent s rq, Ok (mkResult (PDict d) PNone PNone (PStr e))) /\ dict_get "executed" d = None /\ e <> "")
    as (d & e & -> & Hd & He).
  { unfold push_result. rewrite Hf. cbn [orb negb].
    unfold bind at 1, try_Exception, try_catch, bind at 1, post_image_file, bind at 1, gets.
    unfold bind at 1, lift_res at 1. fold rq. rewrite send_run, Hr.
    eexists _, _. split; [reflexivity|]. split; [reflexivity|]. discriminate. }
  split; [done|]. eexists. split; [reflexivity|]. split; [by destruct e|exact Hd].
Qed.

(** ** Evaluation *)

Definition firmware_routes : list (method * string * list response) :=
  let host := "https://10.0.0.42" in
  [(GET, host +:+ "/redfish/v1", [ok_json (PDict [("UpdateService", PDict [("@odata.id", PStr "/u")])])]);
   (GET, host +:+ "/u",
    [ok_json (PDict [("Actions", PDict [(simple_update, PDict [("target", PStr "/u/SimpleUpdate")])])])]);
   (POST, host +:+ "/u/SimpleUpdate", [Response 202 [] (inl (PDict []))]);
   (POST, host +:+ "/push", [Response 202 [("Location", "/redfish/v1/TaskService/Tasks/7")] (inl (PDict []))])].

Definition no_commands : SyncInvoker (mstate sim) := fun _ _ _ => raise (InvalidArgument "unknown command").
Definition sim_base : Vendor sim := dmtf_vendor (SyncInvoker0 := no_commands) 3 (fun _ => 0).
Abbreviation sim_update := (execute (Vendor0 := sim_base) base_push (fun f => Some (f, Ok "image"))).

Lemma firmware_preview_faithful_witness :
  let s := sim_state sample_manager firmware_routes in
  exists s1 target payload,
    (sim_update (Some "http://h/fw.bin") None None false false false s).1 = s1 /\
    trace (sim_update (Some "http://h/fw.bin") None None true false false s).1 =
    trace (@v_write _ _ sim_base POST (py_str target) (Some payload) false 202 s1).1.
Proof.
  cbv zeta. set (s := sim_state sample_manager firmware_routes).
  destruct (sim_update (Some "http://h/fw.bin") None None false false false s).2 as [r|e|] eqn:Hr;
    [|vm_compute in Hr; discriminate Hr..].
  destruct (firmware_preview_faithful (Vendor0 := sim_base) base_push (fun f => Some (f, Ok "image"))
    (Some "http://h/fw.bin") None None false false s
    (sim_update (Some "http://h/fw.bin") None None false false false s).1 r) as (target & payload & _ & _ & H).
  - rewrite <- Hr. apply surjective_pairing.
  - vm_compute in Hr. injection Hr as <-. reflexivity.
  - eexists _, target, payload. split; [reflexivity|exact H].
Defined.

Lemma base_push_misreported_witness :
  exists cr,
    (push_result (W := sim) base_push (fun f => Some (f, Ok "image")) "/push" "HttpPushUri" "fw.bin" false true
       (sim_state sample_manager firmware_routes)).2 = Ok cr /\ truthy (error cr) = true.
Proof.
  destruct (base_push_misreported (W := sim) (fun f => Some (f, Ok "image")) "/push" "HttpPushUri" "fw.bin" "fw.bin"
    "image" (sim_state sample_manager firmware_routes)
    (Response 202 [("Location", "/redfish/v1/TaskService/Tasks/7")] (inl (PDict [])))) as (_ & cr & H1 & H2 & _);
    [reflexivity..|].
  by exists cr.
Defined.
End FirmwareUpdate.
