(* ===== verification/Volumes.v ===== *)
(** * Storage volumes

    src/redfish_ctl/volumes/cmd_volume_manage.py: volume-create and volume-delete.
    The storage and volume reads are the commands storage_get
    (storage/cmd_storage_get.py) and vol_query (volumes/cmd_volumes.py), which
    [sync_invoke] runs on the same connection; both are here, and both run on the
    manager ([Vendor]), like the writes.  volume-check-consistency is
    [invoke_action] on the volume that [resolve_volume_uri] finds, and is in
    ResetCommands.v. *)

From stdpp Require Import base list strings.
From Stdlib Require Import Ascii ZArith Lia Permutation.
From S2P Require Import Prelude PyVal Effects Query Http Manager Discovery Csdl ActionPolicy Actions Invoker MockRules Idrac Vendor.

Module Volumes.
Import Http RedfishManager Vendor.
Local Open Scope Z_scope.
Local Open Scope py_scope.

(** [_last_segment(uri)] *)
Definition last_segment (uri : string) : string :=
  PyStr.last_or "" (PyStr.split "/"%char (PyStr.rstrip_char "/" uri)).

(** [_as_list(values)] *)
Definition as_list (values : pyval) : res (list string) :=
  match values with
  | PNone => Ok []
  | PStr s => Ok [s]
  | PList l | PTuple l => Ok (map py_str l)
  | PDict d => Ok (dict_keys d)
  | v => Raise (TypeError ("'" +:+ type_name v +:+ "' object is not iterable"))
  end.

(** ** The RAID types a document advertises *)

Definition raid_key (k : string) : bool :=
  bool_decide (k = "SupportedRAIDTypes") || bool_decide (k = "RAIDType@Redfish.AllowableValues").

(** One round of the loop on a popped dict: what it adds to [supported] and what
    it pushes; the top of the stack is the head of the list. *)
Definition visit_item (acc : list string * list pyval) (kv : string * pyval) : list string * list pyval :=
  match kv.2 with
  | PList l => if raid_key kv.1 then (acc.1 ++ map py_str l, acc.2) else (acc.1, kv.2 :: acc.2)
  | PDict _ => (acc.1, kv.2 :: acc.2)
  | _ => acc
  end.

Fixpoint collect_loop (fuel : nat) (stack : list pyval) (supported : list string) : res (list string) :=
  match fuel with
  | O => NoFuel
  | S fuel' =>
      match stack with
      | [] => Ok supported
      | PDict d :: stack' =>
          let '(supported', pushed) := fold_left visit_item d (supported, stack') in
          collect_loop fuel' pushed supported'
      | PList l :: stack' => collect_loop fuel' (rev l ++ stack') supported
      | _ :: stack' => collect_loop fuel' stack' supported
      end
  end.

(** The nodes of a document. *)
Fixpoint nodes (v : pyval) : nat :=
  match v with
  | PDict d => S (list_sum (map (fun kv => nodes kv.2) d))
  | PList l => S (list_sum (map nodes l))
  | _ => 1
  end.

(** [_collect_supported_raid_types(payload)], with a round for every node *)
Definition collect_supported_raid_types (payload : pyval) : res (list string) :=
  let? l := collect_loop (S (nodes payload)) [payload] [] in
  Ok (sort_strs (dedup l)).

(** The values under the RAID keys anywhere in a document. *)
Fixpoint raid_values (v : pyval) : list string :=
  match v with
  | PDict d =>
      concat (map (fun kv => match kv.2 with
                             | PList l => if raid_key kv.1 then map py_str l else raid_values kv.2
                             | _ => raid_values kv.2
                             end) d)
  | PList l => concat (map raid_values l)
  | _ => []
  end.

Lemma list_sum_cons x l : list_sum (x :: l) = (x + list_sum l)%nat.
Proof. done. Qed.

(** What one item of a dict contributes. *)
Definition item_values (kv : string * pyval) : list string :=
  match kv.2 with
  | PList l => if raid_key kv.1 then map py_str l else raid_values kv.2
  | _ => raid_values kv.2
  end.

Lemma visit_item_spec kv acc stack rest :
  let r := visit_item (acc, stack) kv in
  Permutation (r.1 ++ rest ++ concat (map raid_values r.2))
    (acc ++ (item_values kv ++ rest) ++ concat (map raid_values stack)) /\
  (list_sum (map nodes r.2) <= nodes kv.2 + list_sum (map nodes stack))%nat.
Proof.
  assert (forall v : pyval, Permutation (acc ++ rest ++ concat (map raid_values (v :: stack)))
            (acc ++ (raid_values v ++ rest) ++ concat (map raid_values stack))) as Hpush.
  { intros v. apply Permutation_app_head. cbn [map concat]. rewrite !app_assoc. apply Permutation_app_tail, Permutation_app_comm. }
  destruct kv as [k v]. unfold visit_item, item_values. cbn [fst snd].
  destruct v as [| | | | |l|l|d|]; cbn [raid_values fst snd]; try (split; [done|lia]).
  - destruct (raid_key k); cbn [fst snd].
    + split; [by rewrite <- !app_assoc|lia].
    + split; [apply Hpush|cbn [map]; rewrite list_sum_cons; lia].
  - split; [apply Hpush|cbn [map]; rewrite list_sum_cons; lia].
Qed.

Lemma visit_items d acc stack :
  let r := fold_left visit_item d (acc, stack) in
  Permutation (r.1 ++ concat (map raid_values r.2))
    (acc ++ raid_values (PDict d) ++ concat (map raid_values stack)) /\
  (list_sum (map nodes r.2) <= list_sum (map (fun kv => nodes kv.2) d) + list_sum (map nodes stack))%nat.
Proof.
  revert acc stack. induction d as [|kv d IH]; intros acc stack; [done|]. cbn [fold_left].
  destruct (visit_item_spec kv acc stack (raid_values (PDict d))) as [Hp1 Hn1].
  destruct (visit_item (acc, stack) kv) as [acc1 stack1]. cbn [fst snd] in Hp1, Hn1.
  destruct (IH acc1 stack1) as [Hp Hn]. split; [by rewrite Hp, Hp1|].
  cbn [map]. rewrite list_sum_cons. lia.
Qed.

Lemma collect_loop_run fuel stack acc :
  (list_sum (map nodes stack) < fuel)%nat ->
  exists l, collect_loop fuel stack acc = Ok l /\ Permutation l (acc ++ concat (map raid_values stack)).
Proof.
  revert stack acc. induction fuel as [|fuel IH]; intros stack acc Hf; [lia|].
  destruct stack as [|v stack]; [exists acc; split; [done|]; by rewrite app_nil_r|].
  cbn [collect_loop]. cbn [map] in Hf. rewrite list_sum_cons in Hf.
  destruct v as [| | | | |l|l|d|]; cbn [nodes] in Hf; cbn [map concat raid_values app];
    try (apply IH; lia).
  - destruct (IH (rev l ++ stack) acc) as (r & Hr & Hp).
    { rewrite map_app, list_sum_app, map_rev. cbn [nodes] in Hf.
      rewrite <- (Permutation_list_sum (Permutation_rev (map nodes l))). lia. }
    exists r. split; [done|]. rewrite Hp. apply Permutation_app_head. cbn [raid_values map concat].
    rewrite map_app, concat_app. apply Permutation_app_tail. rewrite map_rev.
    by rewrite <- Permutation_rev.
  - destruct (visit_items d acc stack) as [Hp Hn]. destruct (fold_left visit_item d (acc, stack)) as [acc' stack'].
    cbn [fst snd] in Hp, Hn. destruct (IH stack' acc') as (r & Hr & Hrp); [cbn [nodes] in Hf; lia|].
    exists r. split; [done|]. by rewrite Hrp, Hp.
Qed.

(** The search for RAID types ends and finds them all: on every document the loop
    over the work list returns, and the result lists, without repetition, exactly
    the values that stand under one of the two keys somewhere in the document. *)
Theorem raid_types_collected payload :
  exists l, collect_supported_raid_types payload = Ok l /\ NoDup l /\
    forall x, x ∈ l <-> x ∈ raid_values payload.
Proof.
  unfold collect_supported_raid_types.
  destruct (collect_loop_run (S (nodes payload)) [payload] []) as (l & -> & Hp); [simpl; lia|].
  cbn [res_bind]. eexists. split; [reflexivity|]. destruct (dedup_spec l) as [Hn Hx].
  split; [by rewrite sort_strs_perm|]. intros x. rewrite sort_strs_perm, Hx, Hp. simpl. by rewrite app_nil_r.
Qed.

(** ** The commands *)

(** [build_volume_payload(name, raid_type, drive_uris)] *)
Definition build_volume_payload (name raid_type : string) (drive_uris : list pyval) : pydict :=
  [("Name", PStr name); ("RAIDType", PStr raid_type);
   ("Links", PDict [("Drives", PList (map (fun uri => PDict [("@odata.id", uri)]) drive_uris))])].

(** [_volumes_uri(storage, controller)] *)
Definition volumes_uri (storage : pyval) (controller : string) : res string :=
  let? volumes := get_attr storage "Volumes" in
  let missing := UnsupportedAction ("Storage controller " +:+ controller +:+ " does not advertise a Volumes link") in
  match volumes with
  | PDict v => if truthy (dget "@odata.id" v) then Ok (py_str (dget "@odata.id" v)) else Raise missing
  | _ => Raise missing
  end.

(** The items of an optional collection property. *)
Definition items_of (k : string) (v : pyval) : res (list pyval) :=
  match v with
  | PDict d =>
      match dict_get_or k (PList []) d with
      | PList l | PTuple l => Ok l
      | PDict d' => Ok (map PStr (dict_keys d'))
      | PStr s => Ok (map PStr (chars_of s))
      | x => Raise (TypeError ("'" +:+ type_name x +:+ "' object is not iterable"))
      end
  | _ => no_get v
  end.

(** The link of a member, if it is an object with one. *)
Definition member_link (member : pyval) : option (pydict * pyval) :=
  match member with
  | PDict d => if truthy (dget "@odata.id" d) then Some (d, dget "@odata.id" d) else None
  | _ => None
  end.

(** [_resolve_drive_uris(storage, drives)] *)
Definition resolve_drive_uris (storage : pyval) (drives : list string) : res (list pyval) :=
  match drives with
  | [] => Raise (InvalidArgument "provide at least one --drive")
  | _ =>
      let? members := items_of "Drives" storage in
      let drive_map := fold_left (fun acc m => match member_link m with
                                               | Some (_, uri) => dict_set (last_segment (py_str uri)) uri acc
                                               | None => acc
                                               end) members [] in
      res_fold (fun acc drive =>
        if PyStr.startswith "/redfish/" drive then Ok (acc ++ [PStr drive])
        else match dict_get drive drive_map with
             | Some uri => Ok (acc ++ [uri])
             | None => Raise (InvalidArgument ("Drive " +:+ drive +:+ " not found, available "
                                               +:+ py_str (PList (map PStr (sort_strs (dict_keys drive_map))))))
             end) [] drives
  end.

(** The volumes of a collection, by id and by URI. *)
Definition available_volumes (members : list pyval) : list (string * string) :=
  fold_left (fun acc m => match member_link m with
                          | Some (d, uri) =>
                              let uri := py_str uri in
                              dict_set uri uri (dict_set (py_str (py_or (dget "Id" d) (PStr (last_segment uri)))) uri acc)
                          | None => acc
                          end) members [].

Definition volume_ids (available : list (string * string)) : list string :=
  sort_strs (List.filter (fun k => negb (PyStr.startswith "/redfish/" k)) (dict_keys available)).

Section Commands.
Context {W : Type} `{!World W} `{!Vendor W}.
Abbreviation MM := (M (mstate W)).

(** ** storage_get and vol_query *)

(** [filter_by_keys(json_data, attr_filter)]: the keys that contain one of the names *)
Definition filter_by_keys (json_data : pyval) (attr_filter : string) : res pyval :=
  let attr_filters := PyStr.split "," (PyStr.strip attr_filter) in
  let? keys := MockRules.py_iter json_data in
  let? result := res_fold (fun acc k =>
      match k with
      | PStr key => if existsb (fun a => Idrac.name_matches a key) attr_filters
                    then let? v := Idrac.item key json_data in Ok (dict_set key v acc) else Ok acc
      | k => Raise (AttributeError ("'" +:+ type_name k +:+ "' object has no attribute 'lower'"))
      end) [] keys in
  Ok (PDict result).

(** [StorageView.execute(controller, data_filter, do_async, do_expanded)], without
    the file that [filename] names *)
Definition storage_get (controller : string) (data_filter : option string) (do_async do_expanded : bool) : MM CommandResult :=
  let! sys := managed_system_uri in
  let! cmd_rest := v_query (py_str sys +:+ "/Storage/" +:+ controller)
                     (QArgs None do_async do_expanded "" "" "json" None None None None) in
  let! data := match data_filter with
               | Some (String _ _ as f) => lift_res (filter_by_keys (data cmd_rest) f)
               | _ => ret (data cmd_rest)
               end in
  ret (mkResult data PNone PNone PNone).

(** [VolumeQuery.execute(dev_id, do_async)], the same way *)
Definition vol_query (dev_id : string) (do_async : bool) : MM CommandResult :=
  let! sys := managed_system_uri in
  let! cmd_result := v_query (py_str sys +:+ "/Storage/" +:+ dev_id +:+ "/Volumes")
                       (QArgs None do_async true "" "" "json" None None None None) in
  let! actions := lift_res (Actions.discover_member_redfish_actions (data cmd_result)) in
  ret (mkResult (data cmd_result) (Actions.actions_val actions) PNone PNone).

Lemma storage_get_reads c f b x : emits is_get (storage_get c f b x).
Proof. unfold storage_get. frame; auto with emits. Qed.

Lemma vol_query_reads d b : emits is_get (vol_query d b).
Proof. unfold vol_query. frame; auto with emits. Qed.

(** ** The volume commands *)

(** [_storage(controller, do_async)] *)
Definition storage_of (controller : string) (do_async : bool) : MM pyval :=
  if PyStr.nonempty controller then
    let! r := storage_get controller None do_async false in
    ret (py_or (data r) (PDict []))
  else raise (InvalidArgument "provide --controller").

(** [_resolve_volume_uri(controller, volume_id, do_async)]: the URI and the id *)
Definition resolve_volume_uri (controller volume_id : string) (do_async : bool) : MM (string * string * list string) :=
  if PyStr.nonempty volume_id then
    let! r := vol_query controller do_async in
    let! members := lift_res (items_of "Members" (py_or (data r) (PDict []))) in
    let available := available_volumes members in
    match dict_get volume_id available with
    | Some uri => ret (uri, last_segment uri, volume_ids available)
    | None => raise (InvalidArgument ("Volume " +:+ volume_id +:+ " not found, available "
                                      +:+ py_str (PList (map PStr (volume_ids available)))))
    end
  else raise (InvalidArgument "provide --volume_id").

(** [VolumeCreate.execute(controller, volume_name, raid_type, drives, confirm,
    dry_run, do_async)] *)
Definition volume_create (controller volume_name raid_type : string) (drives : pyval) (confirm dry_run do_async : bool)
  : MM CommandResult :=
  let! storage := storage_of controller do_async in
  let! target := lift_res (volumes_uri storage controller) in
  let! allowed := lift_res (collect_supported_raid_types storage) in
  if negb (bool_decide (allowed = [])) && negb (bool_decide (raid_type ∈ allowed)) then
    raise (InvalidArgument ("RAIDType " +:+ raid_type +:+ " not supported, available "
                            +:+ py_str (PList (map PStr allowed))))
  else
    let! names := lift_res (as_list drives) in
    let! uris := lift_res (resolve_drive_uris storage names) in
    let payload := build_volume_payload volume_name raid_type uris in
    if dry_run || negb confirm then
      ret (mkResult (PDict [("dry_run", PBool true); ("action", PStr "create"); ("target", PStr target);
                            ("payload", PDict payload);
                            ("hint", PStr "re-run with --confirm to create the volume")]) PNone PNone PNone)
    else
      let! (result, status) := v_write POST target (Some payload) do_async 204 in
      ret (mkResult (PDict [("action", PStr "create"); ("target", PStr target);
                            ("status", PStr (api_respond_str status)); ("error", error result)])
             PNone PNone (error result)).

(** [VolumeDelete.execute(controller, volume_id, confirm, confirm_volume_id,
    dry_run, do_async)] *)
Definition volume_delete (controller volume_id : string) (confirm : bool) (confirm_volume_id : option string)
    (dry_run do_async : bool) : MM CommandResult :=
  let! (uri, resolved_id, _) := resolve_volume_uri controller volume_id do_async in
  if dry_run || negb confirm then
    ret (mkResult (PDict [("dry_run", PBool true); ("action", PStr "delete"); ("target", PStr volume_id);
                          ("uri", PStr uri);
                          ("hint", PStr "re-run with --confirm and --confirm_volume_id to delete")])
           PNone PNone PNone)
  else if decide (confirm_volume_id = Some resolved_id) then
    let! (result, status) := v_write DELETE uri None do_async 204 in
    ret (mkResult (PDict [("action", PStr "delete"); ("target", PStr resolved_id); ("uri", PStr uri);
                          ("status", PStr (api_respond_str status)); ("error", error result)])
           PNone PNone (error result))
  else ret (mkResult PNone PNone PNone (PStr ("confirm_volume_id must match " +:+ resolved_id))).

Lemma emits_resolve_volume c v b : emits is_get (resolve_volume_uri c v b).
Proof. unfold resolve_volume_uri. frame; auto using vol_query_reads. Qed.

Lemma member_link_spec m d uri : member_link m = Some (d, uri) -> m = PDict d /\ uri = dget "@odata.id" d.
Proof. destruct m; try done. simpl. by destruct (truthy _); intros [= <- <-]. Qed.

(** [id] names the volume of the member [d] at [uri]: by its URI, or by its [Id], or without one the end of its URI. *)
Definition named (id uri : string) (d : pydict) : Prop :=
  uri = py_str (dget "@odata.id" d) /\ (id = uri \/ id = py_str (py_or (dget "Id" d) (PStr (last_segment uri)))).

(** Every volume that can be named is the URI of a member. *)
Lemma available_member members id uri :
  dict_get id (available_volumes members) = Some uri -> exists d, PDict d ∈ members /\ named id uri d.
Proof.
  unfold available_volumes. assert (forall acc : list (string * string),
    (forall id uri, dict_get id acc = Some uri -> exists d, PDict d ∈ members /\ named id uri d) ->
    forall ms, ms ⊆ members -> dict_get id (fold_left (fun acc m => match member_link m with
      | Some (d, uri) => let uri := py_str uri in
          dict_set uri uri (dict_set (py_str (py_or (dget "Id" d) (PStr (last_segment uri)))) uri acc)
      | None => acc end) ms acc) = Some uri -> exists d, PDict d ∈ members /\ named id uri d) as H.
  { intros acc Hacc ms. revert acc Hacc. induction ms as [|m ms IH]; intros acc Hacc Hsub; simpl; [by apply Hacc|].
    assert (ms ⊆ members) as Hms by (intros x Hx; apply Hsub; by right).
    destruct (member_link m) as [[d u]|] eqn:Hm; [|by apply IH]. apply member_link_spec in Hm as [-> ->].
    apply IH; [|done]. intros id' uri'. rewrite !dict_get_set. repeat case_decide; [| |by apply Hacc];
      intros [= <-]; exists d; (split; [apply Hsub; by left|split; [done|auto]]). }
  apply (H []); [done|reflexivity].
Qed.

Lemma resolve_volume_ok controller volume_id b (s s1 : mstate W) uri id ids :
  resolve_volume_uri controller volume_id b s = (s1, Ok (uri, id, ids)) ->
  id = last_segment uri /\
  exists r members d, vol_query controller b s = (s1, Ok r) /\
    items_of "Members" (py_or (data r) (PDict [])) = Ok members /\ PDict d ∈ members /\ named volume_id uri d.
Proof.
  unfold resolve_volume_uri. destruct (PyStr.nonempty volume_id); [|done].
  intros (s2 & r & Hr & (s3 & members & Hm & H)%bind_inv_ok)%bind_inv_ok.
  unfold lift_res in Hm. injection Hm as -> Hm.
  destruct (dict_get volume_id (available_volumes members)) as [u|] eqn:Hu; [|done].
  unfold ret in H. simplify_eq. split; [done|].
  apply available_member in Hu as (d & Hd & Hn). by exists r, members, d.
Qed.

(** C27. A volume is deleted only under its own name: either the command sends nothing but
    GETs, or it was confirmed and is no dry run, it has read the volume collection of the
    controller with GETs, the volume is a member of what was read, named by its URI or its
    id, the confirmation repeats the last segment of its URI, and after the reads exactly
    the DELETE of that URI is made. *)
Theorem volume_delete_confirmed controller volume_id confirm cid dry b (s : mstate W) :
  let run := volume_delete controller volume_id confirm cid dry b s in
  (exists reads, trace run.1 = trace s ++ reads /\ Forall is_get reads) \/
  (confirm = true /\ dry = false /\
   exists s1 r reads members d uri,
     vol_query controller b s = (s1, Ok r) /\ trace s1 = trace s ++ reads /\ Forall is_get reads /\
     items_of "Members" (py_or (data r) (PDict [])) = Ok members /\ PDict d ∈ members /\ named volume_id uri d /\
     cid = Some (last_segment uri) /\ trace run.1 = trace (v_write DELETE uri None b 204 s1).1).
Proof.
  cbv zeta. pose proof (emits_resolve_volume controller volume_id b s) as Hr.
  destruct (resolve_volume_uri controller volume_id b s) as [s1 [[[uri id] ids]|e|]] eqn:Hres;
    [|left; unfold volume_delete; unfold bind at 1; rewrite Hres; exact Hr..].
  unfold volume_delete. rewrite (bind_ok _ _ _ _ _ Hres).
  destruct (dry || negb confirm) eqn:Hd; [left; exact Hr|].
  apply orb_false_iff in Hd as [-> Hc%negb_false_iff]. case_decide as Hcid; [|left; exact Hr].
  right. apply resolve_volume_ok in Hres as (-> & r & members & d & Hq & Hm & Hin & Hn). destruct Hr as (reads & Ht & Hreads).
  split; [done|]. split; [done|]. exists s1, r, reads, members, d, uri. do 7 (split; [done|]).
  unfold bind. by destruct (v_write _ _ _ _ _ s1) as [s2 [[x y]|e|]].
Qed.

(** Creating a volume is guarded and validated: unless it is confirmed and no dry run
    the command sends only GETs; otherwise all but at most one request are GETs, and
    that one is a POST. *)
Theorem volume_create_guarded controller name raid drives confirm dry b (s : mstate W) :
  exists l, trace (volume_create controller name raid drives confirm dry b s).1 = trace s ++ l /\
    (length (write_requests l) <= if confirm && negb dry then 1 else 0)%nat /\
    Forall (fun rq => rq_method rq = POST) (write_requests l).
Proof.
  assert (writes (if confirm && negb dry then 1 else 0) (fun rq => rq_method rq = POST)
            (volume_create controller name raid drives confirm dry b)) as H; [|exact (H s)].
  unfold volume_create. apply writes_read_bind; [unfold storage_of; frame; auto using storage_get_reads|]. intros storage.
  do 2 (apply writes_read_bind; [by frame|]; intros ?).
  destruct (negb _ && _); [apply writes_reads; by frame|].
  do 2 (apply writes_read_bind; [by frame|]; intros ?).
  destruct confirm, dry; cbn [orb andb negb]; try (apply writes_reads; by frame).
  apply (writes_bind _ 1 0); [apply writes_sends, v_write_once|]. intros [r st]. apply writes_reads. by frame.
Qed.
End Commands.

(** ** Evaluation *)

Definition volume_routes : list (method * string * list response) :=
  [(GET, "https://10.0.0.42/redfish/v1/Systems", [ok_json (PDict [("Members", PList [PDict [("@odata.id", PStr "/redfish/v1/Systems/1")]])])]);
   (GET, "https://10.0.0.42/redfish/v1/Systems/1/Storage/R/Volumes?$expand=*($levels=1)",
     [ok_json (PDict [("Members", PList [PDict [("@odata.id", PStr "/redfish/v1/Systems/1/Storage/R/Volumes/V1")]])])])].

Definition no_commands : SyncInvoker (mstate sim) := fun _ _ _ => raise (ValueError "no command").
Definition sim_base : Vendor sim := dmtf_vendor (SyncInvoker0 := no_commands) 3 (fun _ => 0).

Definition deletion := volume_delete (Vendor0 := sim_base) "R" "V1" true (Some "V1") false
                         false (sim_state sample_manager volume_routes).

Example deletion_requests :
  map (fun rq => (rq_method rq, rq_url rq)) (trace deletion.1) =
  [(GET, "https://10.0.0.42/redfish/v1/Managers"); (GET, "https://10.0.0.42/redfish/v1/Systems");
   (GET, "https://10.0.0.42/redfish/v1/Systems/1/Storage/R/Volumes?$expand=*($levels=1)");
   (DELETE, "https://10.0.0.42/redfish/v1/Systems/1/Storage/R/Volumes/V1")].
Proof. vm_compute. reflexivity. Qed.
End Volumes.
