(* ===== verification/Subscriptions.v ===== *)
(** * Event subscriptions

    src/redfish_ctl/events/cmd_subscription_lifecycle.py: subscription-create and
    subscription-delete, on the base manager, whose asynchronous write calls are
    its synchronous ones run in an executor. *)

From stdpp Require Import base list strings.
From Stdlib Require Import Ascii ZArith Lia.
From S2P Require Import Prelude PyVal Effects Query Http Manager Vendor.

Module Subscriptions.
Import Http RedfishManager Vendor.
Local Open Scope Z_scope.
Local Open Scope py_scope.

(** The items of [_as_list(values)] before they are split. *)
Definition raw_values (values : pyval) : res (list pyval) :=
  match values with
  | PNone => Ok []
  | PStr s => Ok [PStr s]
  | PList l | PTuple l => Ok l
  | PDict d => Ok (map PStr (dict_keys d))
  | v => Raise (TypeError ("'" +:+ type_name v +:+ "' object is not iterable"))
  end.

(** [_as_list(values)] *)
Definition as_list (values : pyval) : res (list string) :=
  let? raw := raw_values values in
  Ok (List.filter PyStr.nonempty (concat (map (fun v => map PyStr.strip (PyStr.split ","%char (py_str v))) raw))).

(** [_link(data, key)] *)
Definition link (v : pyval) (key : string) : res pyval :=
  let? l := get_attr (py_or v (PDict [])) key in
  Ok (match l with PDict d => dget "@odata.id" d | _ => PNone end).

(** [member_uri.rsplit("/", 1)[-1]] *)
Definition after_slash (s : string) : string := PyStr.last_or "" (PyStr.split "/"%char s).

(** [_response_status(response, expected_status)] *)
Definition response_status (r : response) (expected_status : Z) : api_respond :=
  let code := status_code r in
  if code =? expected_status then
    if code =? 200 then RespOk else if code =? 201 then RespCreated
    else if code =? 202 then RespAccepted else RespSuccess
  else if (200 <=? code) && (code <? 300) then RespOk
  else RespError.

(** [SubscriptionCreate._payload(...)] *)
Definition payload (destination protocol event_format_type event_types registry_prefixes resource_types context : pyval)
  : res pydict :=
  let blank v := negb (truthy v) || negb (PyStr.nonempty (PyStr.strip (py_str v))) in
  if blank destination then Raise (InvalidArgument "destination URI is required")
  else if blank protocol then Raise (InvalidArgument "subscription protocol is required")
  else
    let? types := as_list event_types in
    let? prefixes := as_list registry_prefixes in
    let? resources := as_list resource_types in
    let field k (l : list string) := match l with [] => [] | _ => [(k, PList (map PStr l))] end in
    Ok ([("Destination", PStr (PyStr.strip (py_str destination))); ("Protocol", PStr (PyStr.strip (py_str protocol)))]
        ++ (if truthy event_format_type then [("EventFormatType", PStr (PyStr.strip (py_str event_format_type)))] else [])
        ++ field "EventTypes" types ++ field "RegistryPrefixes" prefixes ++ field "ResourceTypes" resources
        ++ (if truthy context then [("Context", PStr (py_str context))] else [])).

Section Commands.
Context {W : Type} `{!World W}.
Abbreviation MM := (M (mstate W)).

(** [_subscription_collection_uri(do_async)] *)
Definition subscription_collection_uri (do_async : bool) : MM pyval :=
  let! r := base_query "/redfish/v1/EventService" (with_async do_async) in
  let! uri := lift_res (link (py_or (data r) (PDict [])) "Subscriptions") in
  if truthy uri then ret uri else raise (InvalidArgument "EventService Subscriptions link is not available").

(** [_subscription_members(subscriptions_uri, do_async)] *)
Definition subscription_members (subscriptions_uri : pyval) (do_async : bool) : MM (list pyval) :=
  let! r := base_query (py_str subscriptions_uri) (with_async do_async) in
  let! members := lift_res (get_attr (py_or (data r) (PDict [])) "Members") in
  ret (match members with
       | PList l => omap (fun m => match m with
                                   | PDict d => if truthy (dget "@odata.id" d) then Some (dget "@odata.id" d) else None
                                   | _ => None
                                   end) l
       | _ => []
       end).

(** The first member that is the value or ends in it. *)
Fixpoint find_member (value : string) (members : list pyval) : res (option string) :=
  match members with
  | [] => Ok None
  | PStr u :: rest => if decide (after_slash u = value \/ u = value) then Ok (Some u) else find_member value rest
  | v :: _ => Raise (AttributeError ("'" +:+ type_name v +:+ "' object has no attribute 'rsplit'"))
  end.

(** [_resolve_subscription_uri(subscription, subscriptions_uri, do_async)] *)
Definition resolve_subscription_uri (subscription subscriptions_uri : pyval) (do_async : bool) : MM string :=
  if negb (truthy subscription) || negb (PyStr.nonempty (PyStr.strip (py_str subscription)))
  then raise (InvalidArgument "subscription id or URI is required")
  else
    let value := PyStr.strip (py_str subscription) in
    if PyStr.startswith "/redfish/" value then
      match subscriptions_uri with
      | PStr uri =>
          let root := PyStr.rstrip_char "/" uri in
          if decide (PyStr.rstrip_char "/" value = root)
          then raise (InvalidArgument ("subscription member URI under " +:+ uri +:+ " is required"))
          else if negb (PyStr.startswith (root +:+ "/") value)
          then raise (InvalidArgument ("subscription URI must be under " +:+ uri))
          else ret value
      | v => raise (AttributeError ("'" +:+ type_name v +:+ "' object has no attribute 'rstrip'"))
      end
    else
      let! members := subscription_members subscriptions_uri do_async in
      let! found := lift_res (find_member value members) in
      match found with
      | Some u => ret u
      | None => raise (InvalidArgument ("subscription " +:+ repr_str value +:+ " was not found"))
      end.

(** [api_async_post_call] of the base manager: the synchronous call, run in an executor *)
Definition api_async_post_call (req : string) (body : pyval) (hdr : pydict) : MM response := api_post_call req body hdr.

(** [api_async_delete_call] of the base manager, which drops its payload *)
Definition api_async_delete_call (req : string) (body : pyval) (hdr : pydict) : MM response := api_delete_call req hdr.

(** [_send_subscription_request(method, request, body, headers, do_async)] *)
Definition send_subscription_request (meth : method) (request : string) (body hdr : pydict) (do_async : bool)
  : MM response :=
  match meth with
  | POST => if do_async then api_async_post_call request (PDict body) hdr else api_post_call request (PDict body) hdr
  | DELETE => if do_async then api_async_delete_call request (PStr "") hdr else api_delete_call request hdr
  | _ => raise (InvalidArgument "unsupported subscription method")
  end.

(** [_subscription_mutation(method, target, action, payload, expected_status, do_async)] *)
Definition subscription_mutation (meth : method) (target : pyval) (action : string) (body : pydict) (expected_status : Z)
    (do_async : bool) : MM CommandResult :=
  let! m := gets mgr in
  let request := base_url m (py_str target) in
  let report (status code err location : pyval) :=
    ret (mkResult (PDict ([("action", PStr action); ("target", target); ("status", status);
                           ("status_code", code); ("error", err)]
                          ++ (if decide (meth = POST) then [("location", location)] else [])))
           PNone PNone err) in
  let! out := try_Exception
      (let! r := send_subscription_request meth request body json_content_type do_async in ret (inl r))
      (fun e => ret (inr e)) in
  match out with
  | inr e => report (PStr (api_respond_str RespError)) PNone (PStr (exn_str e)) PNone
  | inl r =>
      let status := response_status r expected_status in
      let err := match status with RespError => PStr (py_str (parse_error r)) | _ => PNone end in
      report (PStr (api_respond_str status)) (PInt (status_code r)) err (opt_str (header_get "Location" (headers r)))
  end.

(** [SubscriptionCreate.execute(...)] with the fields of the payload *)
Definition subscription_create (destination protocol event_format_type event_types registry_prefixes resource_types
    context : pyval) (confirm do_async : bool) : MM CommandResult :=
  let! target := subscription_collection_uri do_async in
  let! p := lift_res (payload destination protocol event_format_type event_types registry_prefixes resource_types
                        context) in
  if confirm then subscription_mutation POST target "create" p 201 do_async
  else ret (mkResult (PDict [("dry_run", PBool true); ("action", PStr "create"); ("target", target);
                             ("payload", PDict p);
                             ("note", PStr "preview only; re-run with --confirm to create subscription")])
              PNone PNone PNone).

(** [SubscriptionDelete.execute(subscription, confirm, do_async)] *)
Definition subscription_delete (subscription : pyval) (confirm do_async : bool) : MM CommandResult :=
  let! uri := subscription_collection_uri do_async in
  let! target := resolve_subscription_uri subscription uri do_async in
  if confirm then subscription_mutation DELETE (PStr target) "delete" [] 204 do_async
  else ret (mkResult (PDict [("dry_run", PBool true); ("action", PStr "delete"); ("target", PStr target);
                             ("note", PStr "preview only; re-run with --confirm to delete subscription")])
              PNone PNone PNone).

(** ** Properties *)

Lemma emits_collection b : emits is_get (subscription_collection_uri b).
Proof. unfold subscription_collection_uri. frame; auto with emits. Qed.

Lemma emits_resolve sub uri b : emits is_get (resolve_subscription_uri sub uri b).
Proof. unfold resolve_subscription_uri, subscription_members. frame; auto with emits. Qed.

(** What is read before a deletion. *)
Definition delete_plan (subscription : pyval) (do_async : bool) : MM (pyval * string) :=
  let! uri := subscription_collection_uri do_async in
  let! target := resolve_subscription_uri subscription uri do_async in
  ret (uri, target).

Lemma same_conn_plan sub b : frames same_conn (delete_plan sub b).
Proof.
  unfold delete_plan, subscription_collection_uri, resolve_subscription_uri, subscription_members.
  frame; auto using same_conn_base_query.
Qed.

Lemma emits_plan sub b : emits is_get (delete_plan sub b).
Proof. unfold delete_plan. frame; auto using emits_collection, emits_resolve. Qed.

(** The URI is inside the collection, or the collection, read in [s], lists it. *)
Definition in_collection (b : bool) (s : mstate W) (uri : pyval) (target : string) : Prop :=
  (exists u, uri = PStr u /\ PyStr.startswith (PyStr.rstrip_char "/" u +:+ "/") target = true /\
     PyStr.rstrip_char "/" target <> PyStr.rstrip_char "/" u) \/
  (exists (s2 : mstate W) members, subscription_members uri b s = (s2, Ok members) /\ PStr target ∈ members).

Lemma find_member_elem value members u : find_member value members = Ok (Some u) -> PStr u ∈ members.
Proof.
  induction members as [|[| | | | x | | | |] members IH]; try done. simpl.
  case_decide; [intros [= ->]; by left|]. intros Hf. right. by apply IH.
Qed.

Lemma resolve_in_collection sub uri b (s s' : mstate W) target :
  resolve_subscription_uri sub uri b s = (s', Ok target) -> in_collection b s uri target.
Proof.
  unfold resolve_subscription_uri. destruct (negb _ || negb _); [done|]. cbv zeta.
  destruct (PyStr.startswith "/redfish/" _).
  - destruct uri as [| | | |u| | | |]; try done. case_decide as Hne; [done|].
    destruct (PyStr.startswith (_ +:+ _) _) eqn:Hp; [|done]. intros [= _ <-]. left. eauto.
  - intros (s1 & members & Hm & (s2 & found & Hf & H)%bind_inv_ok)%bind_inv_ok.
    unfold lift_res in Hf. injection Hf as -> Hf. destruct found as [u|]; [|done].
    injection H as -> <-. right. eexists _, members. split; [done|]. by eapply find_member_elem.
Qed.

Lemma delete_run sub confirm b (s : mstate W) :
  subscription_delete sub confirm b s =
  (let! (_, target) := delete_plan sub b in
   if confirm then subscription_mutation DELETE (PStr target) "delete" [] 204 b
   else ret (mkResult (PDict [("dry_run", PBool true); ("action", PStr "delete"); ("target", PStr target);
                             ("note", PStr "preview only; re-run with --confirm to delete subscription")])
              PNone PNone PNone)) s.
Proof.
  unfold subscription_delete, delete_plan, bind, ret.
  destruct (subscription_collection_uri b s) as [s1 [uri|e|]]; [|done..].
  by destruct (resolve_subscription_uri sub uri b s1) as [s2 [t|e|]].
Qed.

Lemma mutation_sends meth target action body expected b (s : mstate W) :
  meth = POST \/ meth = DELETE ->
  exists rq, trace (subscription_mutation meth target action body expected b s).1 = trace s ++ [rq] /\
    rq_method rq = meth /\ rq_url rq = base_url (mgr s) (py_str target).
Proof.
  intros Hm. exists (sync_request (mgr s) meth (base_url (mgr s) (py_str target)) json_content_type
    (if decide (meth = POST) then Some (PDict body) else None)).
  split; [|split; unfold sync_request; by destruct (x_auth (mgr s))].
  unfold subscription_mutation, bind at 1, gets. unfold bind at 1, try_Exception, try_catch.
  unfold send_subscription_request, api_async_post_call, api_async_delete_call, api_post_call, api_delete_call,
    api_write_call.
  destruct Hm as [-> | ->], b; unfold bind at 1, bind at 1, gets; rewrite send_run;
    destruct (reply s _) as [r|e|] eqn:Hr; unfold ret; try done; by destruct (is_Exception e).
Qed.

(** A deletion stays in the subscription collection: the command sends only GETs, or
    it was confirmed and after its reads sends exactly one request, the DELETE of a
    URI strictly below the collection's or of a member that the collection lists. *)
Theorem subscription_delete_scoped sub confirm b (s : mstate W) :
  let run := subscription_delete sub confirm b s in
  (exists reads, trace run.1 = trace s ++ reads /\ Forall is_get reads) \/
  (confirm = true /\ exists reads rq uri target,
     trace run.1 = trace s ++ reads ++ [rq] /\ Forall is_get reads /\
     rq_method rq = DELETE /\ rq_url rq = base_url (mgr s) target /\
     exists s1, subscription_collection_uri b s = (s1, Ok uri) /\ in_collection b s1 uri target).
Proof.
  cbv zeta. rewrite delete_run. pose proof (emits_plan sub b s) as (reads & Ht & Hr).
  pose proof (same_conn_plan sub b s) as Hc.
  destruct (delete_plan sub b s) as [s1 [[uri target]|e|]] eqn:Hplan;
    [|left; exists reads; unfold bind; by rewrite Hplan..].
  rewrite (bind_ok _ _ _ _ _ Hplan). simpl in Ht, Hc. destruct confirm; [|left; by exists reads].
  right. split; [done|].
  destruct (mutation_sends DELETE (PStr target) "delete" [] 204 b s1) as (rq & Hrq & Hm & Hu); [by right|].
  exists reads, rq, uri, target. split; [rewrite Hrq, Ht; by rewrite app_assoc|]. split; [done|]. split; [done|].
  split; [rewrite Hu; by apply conn_base_url|].
  apply bind_inv_ok in Hplan as (s2 & u & Huri & (s3 & t' & Hres & [= _ <- <-])%bind_inv_ok).
  exists s2. split; [done|]. by eapply resolve_in_collection.
Qed.

(** Without confirmation a subscription is created nowhere. *)
Lemma create_preview d p f e r t c b : emits is_get (subscription_create d p f e r t c false b).
Proof. unfold subscription_create. frame; auto using emits_collection. Qed.
End Commands.
End Subscriptions.
