(* ===== verification/SecureBoot.v ===== *)
(** * Secure boot

    src/redfish_ctl/security/cmd_secure_boot.py: secure-boot, which reads the state
    and key databases of every system, and secure-boot-reset-keys, which lists the
    advertised reset actions or runs one of them through [invoke_action]. *)

From stdpp Require Import base list strings.
From Stdlib Require Import Ascii ZArith Lia.
From S2P Require Import Prelude PyVal Effects Query Http Manager Discovery Csdl ActionPolicy Actions Reboot Vendor.

Module SecureBoot.
Import Http RedfishManager Actions Vendor.
Local Open Scope py_scope.

Definition reset_action : string := "#SecureBoot.ResetKeys".
Definition database_reset_action : string := "#SecureBootDatabase.ResetKeys".

(** [_members(data)] *)
Definition members (v : pyval) : res (list string) :=
  match v with
  | PDict d =>
      match dict_get_or "Members" (PList []) d with
      | PList l | PTuple l =>
          Ok (omap (fun m => match m with
                             | PDict e => match dget "@odata.id" e with PStr u => Some u | _ => None end
                             | _ => None
                             end) l)
      | PDict _ | PStr _ => Ok []
      | x => Raise (TypeError ("'" +:+ type_name x +:+ "' object is not iterable"))
      end
  | _ => Ok []
  end.

(** [uri.rsplit("/", 1)[-1]] *)
Definition after_slash (s : string) : string := PyStr.last_or "" (PyStr.split "/"%char s).

(** The text before the last occurrence of [sep], or all of it. *)
Fixpoint before_last (sep s : string) : option string :=
  match s with
  | EmptyString => if PyStr.startswith sep s then Some "" else None
  | String c s' => match before_last sep s' with
                   | Some p => Some (String c p)
                   | None => if PyStr.startswith sep s then Some "" else None
                   end
  end.

Section State.
Context {W : Type} `{!World W}.
Abbreviation MM := (M (mstate W)).

(** [SecureBoot._get(uri, do_async)] *)
Definition try_get (uri : string) (do_async : bool) : MM pyval :=
  try_Exception (let! r := base_query uri (with_async do_async) in ret (py_or (data r) (PDict [])))
    (fun _ => ret (PDict [])).

(** [SecureBoot._link(data, key)] *)
Definition link (v : pyval) (key : string) : res pyval :=
  let? l := get_attr (py_or v (PDict [])) key in
  Ok (match l with PDict d => dget "@odata.id" d | _ => PNone end).

(** [_cert_count(db, do_async)] *)
Definition cert_count (db : pyval) (do_async : bool) : MM pyval :=
  let! coll_uri := lift_res (link db "Certificates") in
  if truthy coll_uri then
    let! coll := try_get (py_str coll_uri) do_async in
    let! ms := lift_res (members coll) in
    ret (PInt (Z.of_nat (length ms)))
  else ret PNone.

(** The rows of one system. *)
Definition system_rows (system_uri : string) (do_async : bool) : MM (list pyval) :=
  let! sb := try_get (system_uri +:+ "/SecureBoot") do_async in
  if truthy sb then
    let! enable := lift_res (get_attr sb "SecureBootEnable") in
    let! mode := lift_res (get_attr sb "SecureBootMode") in
    let! current := lift_res (get_attr sb "SecureBootCurrentBoot") in
    let base := [("System", PStr (after_slash system_uri)); ("SecureBootEnable", enable);
                 ("SecureBootMode", mode); ("SecureBootCurrentBoot", current)] in
    let! dbs_uri := lift_res (link sb "SecureBootDatabases") in
    let! db_uris := if truthy dbs_uri
                    then (let! coll := try_get (py_str dbs_uri) do_async in lift_res (members coll))
                    else ret [] in
    match db_uris with
    | [] => ret [PDict (base ++ [("Database", PNone); ("DatabaseId", PNone); ("Certificates", PNone)])]
    | _ => mapM (fun db_uri =>
             let! db := try_get db_uri do_async in
             let! id := lift_res (get_attr db "Id") in
             let! dbid := lift_res (get_attr db "DatabaseId") in
             let! count := cert_count db do_async in
             ret (PDict (base ++ [("Database", py_or id (PStr (after_slash db_uri))); ("DatabaseId", dbid);
                                  ("Certificates", count)]))) db_uris
    end
  else ret [].

(** [SecureBoot.execute(do_async)] *)
Definition secure_boot (do_async : bool) : MM CommandResult :=
  let! system_ids := try_Exception Discovery.discover_computer_system_ids (fun _ => ret []) in
  let! rows := mapM (fun u => system_rows u do_async) system_ids in
  ret (mkResult (PList (concat rows)) PNone PNone PNone).
End State.

(** ** Resetting keys *)

(** A reset that a system advertises. *)
Record reset_row := ResetRow {
  rr_system : string;
  rr_system_uri : string;
  rr_scope : string;
  rr_database : pyval;
  rr_database_id : pyval;
  rr_resource : string;
  rr_action : string;
  rr_target : pyval;
  rr_types : list string
}.

Definition row_val (r : reset_row) : pyval :=
  PDict [("System", PStr (rr_system r)); ("SystemUri", PStr (rr_system_uri r)); ("Scope", PStr (rr_scope r));
         ("Database", rr_database r); ("DatabaseId", rr_database_id r); ("Resource", PStr (rr_resource r));
         ("Action", PStr (rr_action r)); ("Target", rr_target r);
         ("ResetKeysType", PList (map PStr (rr_types r)))].

(** [_action_metadata(data, action_name)] *)
Definition action_metadata (d : pydict) (action_name : string) : pyval * list string :=
  match dget action_name (as_dict (dget "Actions" d)) with
  | PDict action =>
      (dget "target" action,
       match py_or (dget "ResetKeysType@Redfish.AllowableValues" action) (PList []) with
       | PList l => omap (fun v => match v with PStr s => Some s | _ => None end) l
       | _ => []
       end)
  | _ => (PNone, [])
  end.

(** [_match_system(row, system)] *)
Definition match_system (row : reset_row) (system : option string) : bool :=
  match system with
  | None => true
  | Some system =>
      bool_decide (PyStr.rstrip_char "/" system ∈
        [rr_system row; PyStr.rstrip_char "/" (rr_system_uri row);
         PyStr.rstrip_char "/" (default (rr_resource row) (before_last "/SecureBoot" (rr_resource row)))])
  end.

(** [_match_database(row, database)] *)
Definition match_database (row : reset_row) (database : option string) : bool :=
  match database with
  | None => bool_decide (rr_scope row = "secure-boot")
  | Some database =>
      bool_decide (rr_scope row = "database") &&
      bool_decide (PyStr.rstrip_char "/" database ∈
        [py_str (rr_database row); py_str (rr_database_id row); PyStr.rstrip_char "/" (rr_resource row)])
  end.

(** [_select_row(rows, system, database)] *)
Definition select_row (rows : list reset_row) (system database : option string) : res reset_row :=
  match List.filter (fun row => match_system row system && match_database row database) rows with
  | [] => Raise (InvalidArgument "no SecureBoot reset target matched the supplied selectors")
  | [row] => Ok row
  | _ => Raise (InvalidArgument "multiple SecureBoot reset targets matched; pass --system")
  end.

(** [_payload(row, reset_type)] *)
Definition reset_payload (row : reset_row) (reset_type : string) : res pydict :=
  let value := PyStr.strip reset_type in
  if PyStr.nonempty value then
    if negb (bool_decide (rr_types row = [])) && negb (bool_decide (value ∈ rr_types row))
    then Raise (InvalidArgument ("invalid ResetKeysType " +:+ value +:+ "; allowed: "
                                 +:+ PyStr.join ", " (rr_types row)))
    else Ok [("ResetKeysType", PStr value)]
  else Raise (InvalidArgument "reset type is required to run a reset action").

Section Reset.
Context (schemas : list Csdl.xml) {W : Type} `{!World W}.
Abbreviation MM := (M (mstate W)).

(** [SecureBootResetKeys._get(uri, do_async)] *)
Definition get (uri : string) (do_async : bool) : MM pydict :=
  let! v := try_Exception (let! r := base_query uri (with_async do_async) in ret (py_or (data r) (PDict [])))
              (fun e => raise (InvalidArgument ("failed to read " +:+ uri +:+ ": " +:+ exn_str e))) in
  match v with
  | PDict d => ret d
  | _ => raise (InvalidArgument ("unexpected response from " +:+ uri +:+ ": expected object"))
  end.

Definition is_InvalidArgument (e : exn) : bool := match e with InvalidArgument _ => true | _ => false end.

(** [_database_rows(system_uri, secure_boot, do_async)] *)
Definition database_rows (system_uri : string) (secure_boot : pydict) (do_async : bool) : MM (list reset_row) :=
  let dbs_uri := dget "@odata.id" (as_dict (dget "SecureBootDatabases" secure_boot)) in
  if truthy dbs_uri then
    let! coll := get (py_str dbs_uri) do_async in
    let! db_uris := lift_res (members (PDict coll)) in
    let! rows := mapM (fun db_uri =>
        let! db := try_catch (let! d := get db_uri do_async in ret (Some d)) is_InvalidArgument (fun _ => ret None) in
        match db with
        | None => ret []
        | Some db =>
            let '(target, types) := action_metadata db database_reset_action in
            ret (if truthy target
                 then [ResetRow (after_slash system_uri) system_uri "database"
                         (py_or (dget "Id" db) (PStr (after_slash db_uri))) (dget "DatabaseId" db) db_uri
                         database_reset_action target types]
                 else [])
        end) db_uris in
    ret (concat rows)
  else ret [].

(** [_discover_rows(do_async)] *)
Definition discover_rows (do_async : bool) : MM (list reset_row) :=
  let! system_uris := try_Exception Discovery.discover_computer_system_ids (fun _ => ret []) in
  let! rows := mapM (fun system_uri =>
      let uri := system_uri +:+ "/SecureBoot" in
      let! sb := get uri do_async in
      let '(target, types) := action_metadata sb reset_action in
      let! dbs := database_rows system_uri sb do_async in
      ret ((if truthy target
            then [ResetRow (after_slash system_uri) system_uri "secure-boot" PNone PNone uri reset_action target types]
            else []) ++ dbs)) system_uris in
  ret (concat rows).

(** The call of a reset. *)
Definition reset_call (row : reset_row) (p : pydict) (do_async dry_run confirm : bool) : action_call :=
  Call (rr_resource row) "ResetKeys" p (rr_action row) do_async dry_run confirm false.

(** [SecureBootResetKeys.execute(system, database, reset_type, confirm, dry_run,
    do_async)] *)
Definition reset_keys (system database reset_type : option string) (confirm dry_run do_async : bool)
  : MM CommandResult :=
  let! rows := discover_rows do_async in
  match reset_type with
  | None => ret (mkResult (PList (map row_val rows)) PNone PNone PNone)
  | Some reset_type =>
      let! row := lift_res (select_row rows system database) in
      let! p := lift_res (reset_payload row reset_type) in
      invoke_action schemas (reset_call row p do_async dry_run confirm)
  end.
End Reset.

(** ** Properties *)

(** What a computation returns, if it returns. *)
Definition returns {S A} (Q : A -> Prop) (m : M S A) : Prop := forall s s' a, m s = (s', Ok a) -> Q a.

Lemma returns_mapM {S A B} (Q : B -> Prop) (f : A -> M S B) l :
  (forall x, returns Q (f x)) -> returns (Forall Q) (mapM f l).
Proof.
  intros Hf. induction l as [|x l IH]; intros s s' r; simpl; [by intros [= _ <-]|].
  intros (s1 & y & Hy & (s2 & ys & Hys & [= _ <-])%bind_inv_ok)%bind_inv_ok.
  constructor; [by eapply Hf|by eapply IH].
Qed.

(** A row stands for one of the two reset actions. *)
Definition reset_of (r : reset_row) : Prop := rr_action r = reset_action \/ rr_action r = database_reset_action.

Section Guard.
Context (schemas : list Csdl.xml) {W : Type} `{!World W}.

Lemma emits_discover_rows b : emits is_get (discover_rows (W := W) b).
Proof. unfold discover_rows, database_rows, get, Discovery.discover_computer_system_ids. frame; auto with emits. Qed.

Lemma discover_rows_reset b : returns (Forall reset_of) (discover_rows (W := W) b).
Proof.
  intros s s' rows (s1 & uris & _ & (s2 & groups & Hg & [= _ <-])%bind_inv_ok)%bind_inv_ok.
  apply Forall_concat. revert Hg. apply returns_mapM. intros uri s3 s4 rs.
  intros (s5 & sb & _ & H)%bind_inv_ok. destruct (action_metadata sb reset_action) as [target types].
  apply bind_inv_ok in H as (s6 & dbs & Hdb & [= _ <-]). apply Forall_app. split.
  { destruct (truthy target); [|constructor]. constructor; [by left|constructor]. }
  unfold database_rows in Hdb. cbv zeta in Hdb. destruct (truthy _); [|injection Hdb as _ <-; constructor].
  apply bind_inv_ok in Hdb as (s7 & coll & _ & (s8 & db_uris & _ & (s9 & rss & Hr & [= _ <-])%bind_inv_ok)%bind_inv_ok).
  apply Forall_concat. revert Hr. apply returns_mapM. intros db_uri sa sb' r.
  intros (sc & db & _ & Hd)%bind_inv_ok. destruct db as [db|]; [|injection Hd as _ <-; constructor].
  destruct (action_metadata db database_reset_action) as [dt dtypes]. injection Hd as _ <-.
  destruct (truthy dt); [|constructor]. constructor; [by right|constructor].
Qed.

(** Neither reset action, nor anything it could be mistaken for, is harmless. *)
Lemma reset_not_harmless r p b dry confirm :
  reset_of r -> full_action_type (reset_call r p b dry confirm) ∉ harmless /\
  Forall (fun a => short_of a <> "ResetKeys") harmless.
Proof.
  intros Hr. split; [|apply (bool_decide_unpack _); vm_compute; exact I]. simpl.
  destruct Hr as [-> | ->]; apply (bool_decide_unpack _); vm_compute; exact I.
Qed.

(** An action that is not harmless posts at most its payload, and only confirmed. *)
Lemma writes_invoke_action c :
  full_action_type c ∉ harmless -> Forall (fun a => short_of a <> name c) harmless ->
  writes (if confirm c && negb (dry_run c) then 1 else 0)
    (fun rq => rq_method rq = POST /\ rq_data rq = Some (PDict (Actions.payload c))) (invoke_action (W := W) schemas c).
Proof.
  intros Hf Hs. destruct (confirm c) eqn:Hc; [|by apply writes_reads, emits_invoke_unconfirmed].
  destruct (dry_run c) eqn:Hd; [by apply writes_reads, RebootHost.emits_invoke_dry|]. cbn [andb negb].
  intros s. pose proof (invoke_action_run schemas c s) as Hrun. cbv zeta in Hrun.
  destruct (emits_read_resource c s) as (reads & Ht & Hr).
  assert (forall r, invoke_action schemas c s = ((read_resource c s).1, r) -> exists l,
    trace (invoke_action schemas c s).1 = trace s ++ l /\ (length (write_requests l) <= 1)%nat /\
    Forall (fun rq => rq_method rq = POST /\ rq_data rq = Some (PDict (Actions.payload c))) (write_requests l)) as Hquiet.
  { intros r ->. exists reads. rewrite (reads_no_writes _ Hr). simpl. split; [done|]. split; [lia|constructor]. }
  destruct (read_resource c s).2 as [[resource|msg]|e|]; [|by eapply Hquiet..].
  destruct (let? actions := _ in _) as [[actions [r|full t]]|e|]; [by eapply Hquiet| |by eapply Hquiet..].
  destruct Hrun as [m' ->]. set (rq := write_request _ _ _ _). exists (reads ++ [rq]). simpl.
  rewrite Ht, app_assoc. split; [done|]. unfold write_requests at 1 2. rewrite filter_app.
  fold (write_requests reads). rewrite (reads_no_writes _ Hr). simpl.
  assert (rq_method rq = POST /\ rq_data rq = Some (PDict (Actions.payload c))) as Hrq
    by (unfold rq, write_request, sync_request; by destruct (x_auth (mgr s))).
  rewrite filter_cons. case_decide; simpl; (split; [lia|]); repeat constructor; by destruct Hrq.
Qed.

Lemma select_row_unique rows system database row :
  select_row rows system database = Ok row ->
  row ∈ rows /\ forall r, r ∈ rows -> match_system r system && match_database r database = true -> r = row.
Proof.
  unfold select_row. destruct (List.filter _ rows) as [|r0 [|r1 l]] eqn:Hf; [done| |done]. intros [= <-]. split.
  - apply list_elem_of_In. assert (In r0 (List.filter (fun row => match_system row system && match_database row database) rows))
      as Hin by (rewrite Hf; by left). by apply filter_In in Hin as [? _].
  - intros r Hr%list_elem_of_In Hm.
    assert (In r (List.filter (fun row => match_system row system && match_database row database) rows)) as Hin
      by (by apply filter_In). rewrite Hf in Hin. by destruct Hin as [->|[]].
Qed.

(** The request is the reset of type [value] that [row] allows. *)
Definition resets (row : reset_row) (reset_type : string) (rq : request) : Prop :=
  let value := PyStr.strip reset_type in
  rq_method rq = POST /\ rq_data rq = Some (PDict [("ResetKeysType", PStr value)]) /\
  PyStr.nonempty value = true /\ (rr_types row = [] \/ value ∈ rr_types row).

Lemma reset_payload_ok row reset_type p :
  reset_payload row reset_type = Ok p ->
  let value := PyStr.strip reset_type in
  p = [("ResetKeysType", PStr value)] /\ PyStr.nonempty value = true /\
  (rr_types row = [] \/ value ∈ rr_types row).
Proof.
  unfold reset_payload. destruct (PyStr.nonempty _) eqn:Hne; [|done].
  case_bool_decide as He; [intros [= <-]; auto|]. case_bool_decide as Hin; [intros [= <-]; auto|done].
Qed.

(** Keys are reset only on purpose: without a reset type, without [--confirm] or with
    [--dry_run] every request of the command is a GET.  Otherwise at most one is not;
    it is the POST of the type that was asked for, which is one the selected action
    allows, and the selection is unambiguous: no other advertised reset matches. *)
Theorem reset_keys_guarded system database reset_type confirm dry b (s : mstate W) :
  exists l, trace (reset_keys schemas system database reset_type confirm dry b s).1 = trace s ++ l /\
    (length (write_requests l) <= if confirm && negb dry && bool_decide (is_Some reset_type) then 1 else 0)%nat /\
    forall rq, rq ∈ write_requests l ->
      exists s1 rows row value, discover_rows b s = (s1, Ok rows) /\ reset_type = Some value /\
        row ∈ rows /\ resets row value rq /\
        forall r, r ∈ rows -> match_system r system && match_database r database = true -> r = row.
Proof.
  destruct (emits_discover_rows b s) as (reads & Ht & Hr). unfold reset_keys.
  pose proof (discover_rows_reset b s) as Hrows.
  assert (forall x : mstate W * res CommandResult, x.1 = (discover_rows b s).1 -> exists l, trace x.1 = trace s ++ l /\
    (length (write_requests l) <= if confirm && negb dry && bool_decide (is_Some reset_type) then 1 else 0)%nat /\
    forall rq, rq ∈ write_requests l ->
      exists s1 rows row value, discover_rows b s = (s1, Ok rows) /\ reset_type = Some value /\
        row ∈ rows /\ resets row value rq /\
        forall r, r ∈ rows -> match_system r system && match_database r database = true -> r = row) as Hquiet.
  { intros x ->. exists reads. rewrite (reads_no_writes _ Hr). simpl. split; [done|]. split; [lia|].
    by intros rq ?%elem_of_nil. }
  destruct (discover_rows b s) as [s1 [rows|e|]] eqn:Hd;
    [rewrite (bind_ok _ _ _ _ _ Hd)|apply Hquiet; unfold bind; by rewrite Hd..].
  destruct reset_type as [value|]; [|by apply Hquiet].
  unfold bind at 1, lift_res at 1. destruct (select_row rows system database) as [row|e|] eqn:Hsel; [|by apply Hquiet..].
  unfold bind at 1, lift_res at 1. destruct (reset_payload row value) as [p|e|] eqn:Hp; [|by apply Hquiet..].
  apply select_row_unique in Hsel as [Hin Huniq]. apply reset_payload_ok in Hp as (-> & Hne & Hty).
  specialize (Hrows _ _ eq_refl). rewrite Forall_forall in Hrows.
  destruct (reset_not_harmless row [("ResetKeysType", PStr (PyStr.strip value))] b dry confirm (Hrows row Hin)) as [Hf Hs].
  destruct (writes_invoke_action _ Hf Hs s1) as (l & Hl & Hn & HP). exists (reads ++ l).
  simpl in Ht. rewrite Hl, Ht, app_assoc. split; [done|]. unfold write_requests in *. rewrite filter_app.
  fold (write_requests reads). rewrite (reads_no_writes _ Hr). cbn [app].
  rewrite bool_decide_true, andb_true_r by eauto. split; [exact Hn|].
  intros rq Hrq. rewrite Forall_forall in HP. apply HP in Hrq as [Hm Hdat].
  exists s1, rows, row, value. repeat split; try done. 
Qed.
End Guard.
End SecureBoot.
