(* ===== verification/Config.v ===== *)
(** * The configuration loader

    src/redfish_ctl/config.py: every setting that comes from the process
    environment, its canonical name, its deprecated alias and its default.  The
    environment is a dict from names to texts; the state of the monad is the list
    of warnings that were issued.  A [ConfigurationConflict] is the exception of
    that class name. *)

From stdpp Require Import base list strings pretty.
From Stdlib Require Import Ascii ZArith Lia.
From S2P Require Import Prelude PyVal Effects Numbers.

Module Config.
Local Open Scope Z_scope.
Local Open Scope py_scope.

(** [os.environ] *)
Abbreviation env := (list (string * string)).

(** The warnings issued so far. *)
Abbreviation MW := (M (list string)).

Definition newline : string := String (ascii_of_nat 10) EmptyString.

(** [_SECRET_HINT.search(name)] *)
Definition secret_hint (name : string) : bool :=
  existsb (fun p => PyStr.contains p (PyStr.lower name)) ["password"; "token"; "secret"; "key"; "credential"].

(** [_redacted(name, value)] *)
Definition redacted (name value : string) : string :=
  if secret_hint name then name +:+ "=<redacted>" else name +:+ "=" +:+ value.

(** The names that are set, with their values. *)
Definition present (e : env) (names : list string) : list (string * string) :=
  omap (fun n => (fun v => (n, v)) <$> dict_get n e) names.

Definition conflict_text (first : string) (l : list (string * string)) : string :=
  "Configuration conflict:" +:+ newline
  +:+ PyStr.join newline (map (fun nv => "  " +:+ redacted nv.1 nv.2) l)
  +:+ newline +:+ newline +:+ "Use only " +:+ first +:+ ".".

Definition conflict (m : string) : exn := OtherError "ConfigurationConflict" m.

Definition deprecated_text (winner first : string) : string :=
  winner +:+ " is a deprecated alias for " +:+ first +:+ "; set " +:+ first +:+ " instead".

(** [env_first(first, *aliases, default=default, strict=strict)] *)
Definition env_first (e : env) (first : string) (aliases : list string) (dflt : option string) (strict : bool)
  : MW (option string) :=
  match present e (first :: aliases) with
  | [] => ret dflt
  | ((winner, value) :: rest) as l =>
      if (1 <? Z.of_nat (length (dedup (map (fun nv => PyStr.strip nv.2) l)))) then
        if strict then raise (conflict (conflict_text first l)) else ret (Some value)
      else
        (if decide (winner = first) then ret tt
         else modify (fun ws => ws ++ [deprecated_text winner first])) ;;;
        ret (Some value)
  end.

(** [env_flag(name)] *)
Definition env_flag (e : env) (name : string) : bool :=
  bool_decide (PyStr.lower (PyStr.strip (dict_get_or name "" e)) ∈ ["1"; "true"; "yes"; "on"]).

(** [env_float(name, default)] *)
Definition env_float (e : env) (name : string) (dflt : Numbers.dec) : res Numbers.dec :=
  match Numbers.py_float (PStr (dict_get_or name "" e)) with
  | Raise (ValueError _) => Ok dflt
  | r => r
  end.

(** ** Numeric settings *)

(** [float(env_first(name, alias, default=default))] *)
Definition float_setting (e : env) (name alias dflt : string) : MW Numbers.dec :=
  let! v := env_first e name [alias] (Some dflt) true in lift_res (Numbers.py_float (opt_str v)).

(** [int(env_first(name, alias, default=default))] *)
Definition int_setting (e : env) (name alias dflt : string) : MW Z :=
  let! v := env_first e name [alias] (Some dflt) true in lift_res (Numbers.py_int (opt_str v)).

Definition http_timeout (e : env) : MW Numbers.dec :=
  float_setting e "REDFISH_HTTP_TIMEOUT" "IDRAC_HTTP_TIMEOUT" "30".
Definition http_pool (e : env) : MW Z := int_setting e "REDFISH_HTTP_POOL" "IDRAC_HTTP_POOL" "4".
Definition http_retries (e : env) : MW Z := int_setting e "REDFISH_HTTP_RETRIES" "IDRAC_HTTP_RETRIES" "3".
Definition http_backoff (e : env) : MW Numbers.dec :=
  float_setting e "REDFISH_HTTP_BACKOFF" "IDRAC_HTTP_BACKOFF" "0.5".
Definition discovery_retries (e : env) : MW Z :=
  int_setting e "REDFISH_DISCOVERY_RETRIES" "IDRAC_DISCOVERY_RETRIES" "4".
Definition discovery_backoff (e : env) : MW Numbers.dec :=
  float_setting e "REDFISH_DISCOVERY_BACKOFF" "IDRAC_DISCOVERY_BACKOFF" "2.0".
Definition discovery_pace_ms (e : env) : MW Numbers.dec :=
  float_setting e "REDFISH_DISCOVERY_PACE_MS" "IDRAC_DISCOVERY_PACE_MS" "0".

(** ** Texts *)

(** [a or b] on texts that may be absent *)
Definition str_or (a b : option string) : option string :=
  match a with Some (String _ _) => a | _ => b end.

Definition term_type (e : env) : option string := dict_get "TERM" e.

(** [otlp_protocol()] *)
Definition otlp_protocol (e : env) : option string :=
  str_or (str_or (dict_get "OTEL_EXPORTER_OTLP_METRICS_PROTOCOL" e) (dict_get "OTEL_EXPORTER_OTLP_PROTOCOL" e)) None.

Definition exporter_config_file (e : env) : MW (option string) :=
  env_first e "REDFISH_EXPORTER_CONFIG_FILE" ["IDRAC_EXPORTER_CONFIG_FILE"] None true.
Definition exporter_credential_file (e : env) : MW (option string) :=
  env_first e "REDFISH_EXPORTER_CREDENTIAL_FILE" ["IDRAC_EXPORTER_CREDENTIAL_FILE"] None true.

Definition signalfx_ingest_url (e : env) (explicit : option string) : string :=
  default "" (str_or explicit (Some (dict_get_or "SPLUNK_INGEST_URL" "" e))).
Definition signalfx_realm (e : env) (explicit : option string) : string :=
  default "" (str_or explicit (Some (dict_get_or "SPLUNK_O11Y_REALM" "" e))).
Definition signalfx_api_token (e : env) (env_name : option string) : string :=
  dict_get_or (default "" (str_or env_name (Some "SPLUNK_API_TOKEN"))) "" e.
Definition signalfx_access_token (e : env) (env_name : option string) : string :=
  dict_get_or (default "" (str_or env_name (Some "SPLUNK_ACCESS_TOKEN"))) "" e.

(** [named_env(name, default)] *)
Definition named_env (e : env) (name : string) (dflt : option string) : option string :=
  match dict_get name e with Some v => Some v | None => dflt end.

Definition csdl_dir (e : env) : option string := dict_get "REDFISH_CSDL_DIR" e.

(** [exporter_build_revision(default)] *)
Definition exporter_build_revision (e : env) (dflt : string) : MW string :=
  let! value := env_first e "REDFISH_BUILD_REVISION" [] (Some dflt) true in
  let text := PyStr.strip (default "" (str_or value (Some dflt))) in
  ret (if PyStr.nonempty text then text else dflt).

(** ** Endpoints *)

Record EndpointConfig := EndpointCfg { host : string; username : string; password : string; port : Z }.

(** [endpoint_defaults(strict)] *)
Definition endpoint_defaults (e : env) (strict : bool) : MW EndpointConfig :=
  let! h := env_first e "REDFISH_IP" [] (Some "") strict in
  let! u := env_first e "REDFISH_USERNAME" [] (Some "root") strict in
  let! pw := env_first e "REDFISH_PASSWORD" [] (Some "") strict in
  let! p := env_first e "REDFISH_PORT" [] (Some "443") strict in
  let! p := lift_res (Numbers.py_int (opt_str p)) in
  ret (EndpointCfg (default "" h) (default "" u) (default "" pw) p).

Record DmtfSimEndpoint := SimEndpoint { sim_host : string; sim_port : Z; sim_is_http : bool }.

(** [required_dmtf_sim_endpoint()] *)
Definition required_dmtf_sim_endpoint (e : env) : MW DmtfSimEndpoint :=
  if negb (dict_in "REDFISH_IP" e) then
    raise (RuntimeError "REDFISH_IP is missing. The builder must provide the persistent DMTF simulator Service hostname.")
  else if negb (dict_in "REDFISH_PORT" e) then
    raise (RuntimeError "REDFISH_PORT is missing. The builder must provide the persistent DMTF simulator Service port.")
  else
    let! h := env_first e "REDFISH_IP" [] None true in
    let! p := env_first e "REDFISH_PORT" [] None true in
    let h := PyStr.strip (default "" h) in
    let port_raw := PyStr.strip (default "" p) in
    if negb (PyStr.nonempty h) then raise (RuntimeError "REDFISH_IP must not be empty")
    else if PyStr.startswith "http://" h || PyStr.startswith "https://" h then
      raise (RuntimeError "REDFISH_IP must contain only a hostname or IP address, not a URL scheme")
    else if PyStr.contains "/" h then raise (RuntimeError "REDFISH_IP must not contain a URI path")
    else
      match Numbers.py_int (PStr port_raw) with
      | Ok p =>
          if (1 <=? p) && (p <=? 65535) then ret (SimEndpoint h p true)
          else raise (RuntimeError "REDFISH_PORT must be between 1 and 65535")
      | _ => raise (RuntimeError "REDFISH_PORT must be an integer")
      end.

(** ** The identity of an exporter *)

(** [_EXPORTER_IDENTITY_ENV_NAMES] *)
Definition EXPORTER_IDENTITY_ENV_NAMES : list (string * (string * string)) := [
  ("host_prefix", ("REDFISH_EXPORTER_HOST_PREFIX", "IDRAC_EXPORTER_HOST_PREFIX"));
  ("bmc_octet_base", ("REDFISH_EXPORTER_BMC_OCTET_BASE", "IDRAC_EXPORTER_BMC_OCTET_BASE"));
  ("server_octet_base", ("REDFISH_EXPORTER_SERVER_OCTET_BASE", "IDRAC_EXPORTER_SERVER_OCTET_BASE"));
  ("server_subnet", ("REDFISH_EXPORTER_SERVER_SUBNET", "IDRAC_EXPORTER_SERVER_SUBNET"));
  ("deployment_environment",
   ("REDFISH_EXPORTER_DEPLOYMENT_ENVIRONMENT", "IDRAC_EXPORTER_DEPLOYMENT_ENVIRONMENT"));
  ("deployment_environment_compat",
   ("REDFISH_EXPORTER_DEPLOYMENT_ENVIRONMENT_COMPAT", "IDRAC_EXPORTER_DEPLOYMENT_ENVIRONMENT_COMPAT"));
  ("require_deployment_environment",
   ("REDFISH_EXPORTER_REQUIRE_DEPLOYMENT_ENVIRONMENT", "IDRAC_EXPORTER_REQUIRE_DEPLOYMENT_ENVIRONMENT"));
  ("extra_dimensions", ("REDFISH_EXPORTER_EXTRA_DIMENSIONS", "IDRAC_EXPORTER_EXTRA_DIMENSIONS"));
  ("service_name", ("REDFISH_EXPORTER_SERVICE_NAME", "IDRAC_EXPORTER_SERVICE_NAME"));
  ("service_namespace", ("REDFISH_EXPORTER_SERVICE_NAMESPACE", "IDRAC_EXPORTER_SERVICE_NAMESPACE"));
  ("service_instance_id", ("REDFISH_EXPORTER_SERVICE_INSTANCE_ID", "IDRAC_EXPORTER_SERVICE_INSTANCE_ID"));
  ("service_version", ("REDFISH_EXPORTER_SERVICE_VERSION", "IDRAC_EXPORTER_SERVICE_VERSION"));
  ("service_criticality", ("REDFISH_EXPORTER_SERVICE_CRITICALITY", "IDRAC_EXPORTER_SERVICE_CRITICALITY"))].

(** [exporter_identity_env(overridden)] *)
Definition exporter_identity_env (e : env) (overridden : list string) : MW (list (string * option string)) :=
  mapM (fun ol => let '(option, (name, alias)) := ol in
          let! v := env_first e name [alias] None (negb (bool_decide (option ∈ overridden))) in
          ret (option, v)) EXPORTER_IDENTITY_ENV_NAMES.

(** ** Properties *)

(** All the values that are set agree up to white space around them. *)
Definition agree (l : list (string * string)) : Prop :=
  forall a b, a ∈ l -> b ∈ l -> PyStr.strip a.2 = PyStr.strip b.2.

Lemma dedup_one (l : list string) : l <> [] ->
  (1 <? Z.of_nat (length (dedup l))) = false <-> forall x y, x ∈ l -> y ∈ l -> x = y.
Proof.
  intros Hl. rewrite Z.ltb_ge. destruct (dedup_spec l) as [Hnd Hin]. split.
  - intros Hlen x y Hx%Hin Hy%Hin. destruct (dedup l) as [|a [|b r]]; simpl in Hlen; [by inversion Hx| |lia].
    apply list_elem_of_singleton in Hx, Hy. congruence.
  - intros Heq. destruct (dedup l) as [|a [|b r]]; simpl; [lia..|]. exfalso.
    apply NoDup_cons in Hnd as [Hab _]. apply Hab. rewrite (Heq a b); [by left|apply Hin..]; [by left|by right; left].
Qed.

Lemma disagree_test l : l <> [] ->
  (1 <? Z.of_nat (length (dedup (map (fun nv : string * string => PyStr.strip nv.2) l)))) = false <-> agree l.
Proof.
  intros Hl. rewrite dedup_one by (by destruct l). unfold agree. setoid_rewrite list_elem_of_fmap. split.
  - intros H a b Ha Hb. apply H; eauto.
  - intros H x y (a & -> & Ha) (b & -> & Hb). auto.
Qed.

(** How a setting is resolved.  Of the names that are set the first wins, and the
    default stands in when none is; when the values agree up to surrounding white
    space the only effect is a warning if the winner is a deprecated alias; when they
    do not, a strict read raises the conflict without a warning and a lenient one
    takes the winner. *)
Theorem env_first_resolves e first aliases dflt strict ws :
  let l := present e (first :: aliases) in
  let out := env_first e first aliases dflt strict ws in
  match l with
  | [] => out = (ws, Ok dflt)
  | (winner, value) :: _ =>
      (agree l -> out = (ws ++ (if decide (winner = first) then [] else [deprecated_text winner first]), Ok (Some value))) /\
      (~ agree l -> out = (ws, if strict then Raise (conflict (conflict_text first l)) else Ok (Some value)))
  end.
Proof.
  cbv zeta. unfold env_first. destruct (present e (first :: aliases)) as [|[winner value] rest]; [done|].
  pose proof (disagree_test ((winner, value) :: rest) ltac:(done)) as H. split.
  - intros Ha%H. destruct (1 <? _); [done|].
    case_decide; unfold bind, ret, modify; [by rewrite app_nil_r|done].
  - intros Ha. destruct (1 <? _); [by destruct strict|]. by destruct Ha; apply H.
Qed.

(** The two environments set the same names and differ in secrets only. *)
Definition same_public (e e' : env) : Prop :=
  forall n, match dict_get n e, dict_get n e' with
            | Some v, Some v' => secret_hint n = true \/ v = v'
            | None, None => True
            | _, _ => False
            end.

Lemma present_lines e e' names : same_public e e' ->
  map (fun nv => "  " +:+ redacted nv.1 nv.2) (present e names) =
  map (fun nv => "  " +:+ redacted nv.1 nv.2) (present e' names).
Proof.
  intros He. unfold present. induction names as [|n names IH]; [done|]. simpl. specialize (He n).
  destruct (dict_get n e) as [v|], (dict_get n e') as [v'|]; simpl; try done. f_equal; [|done].
  unfold redacted. destruct (secret_hint n); [done|]. by destruct He as [?| ->].
Qed.

Lemma env_first_raises e first aliases dflt strict ws x :
  (env_first e first aliases dflt strict ws).2 = Raise x ->
  x = conflict (conflict_text first (present e (first :: aliases))).
Proof.
  unfold env_first. destruct (present e (first :: aliases)) as [|[winner value] rest]; [done|].
  destruct (1 <? _); [destruct strict; [by intros [= <-]|done]|]. by case_decide.
Qed.

(** A conflict is reported without the secrets: whatever the variables with a
    secret-looking name hold, the exception that a read raises carries the same
    text. *)
Theorem conflict_hides_secrets e e' first aliases dflt dflt' strict strict' ws ws' x x' :
  same_public e e' ->
  (env_first e first aliases dflt strict ws).2 = Raise x ->
  (env_first e' first aliases dflt' strict' ws').2 = Raise x' ->
  x = x'.
Proof.
  intros He ->%env_first_raises ->%env_first_raises. unfold conflict_text.
  by rewrite (present_lines e e' (first :: aliases) He).
Qed.

Lemma conflict_hides_secrets_witness :
  let e pw := [("REDFISH_API_TOKEN", pw); ("IDRAC_API_TOKEN", "b")] in
  (env_first (e "hunter2") "REDFISH_API_TOKEN" ["IDRAC_API_TOKEN"] None true []).2 =
  (env_first (e "swordfish") "REDFISH_API_TOKEN" ["IDRAC_API_TOKEN"] None true []).2.
Proof.
  cbv zeta.
  destruct (env_first [("REDFISH_API_TOKEN", "hunter2"); ("IDRAC_API_TOKEN", "b")] "REDFISH_API_TOKEN"
    ["IDRAC_API_TOKEN"] None true []) as [w1 [a|x|]] eqn:H1; [vm_compute in H1; discriminate| |vm_compute in H1; discriminate].
  destruct (env_first [("REDFISH_API_TOKEN", "swordfish"); ("IDRAC_API_TOKEN", "b")] "REDFISH_API_TOKEN"
    ["IDRAC_API_TOKEN"] None true []) as [w2 [a|x'|]] eqn:H2; [vm_compute in H2; discriminate| |vm_compute in H2; discriminate].
  simpl. f_equal. refine (conflict_hides_secrets _ _ _ _ None None true true [] [] _ _ _
    (f_equal snd H1) (f_equal snd H2)).
  intros n. simpl. destruct (decide (n = "REDFISH_API_TOKEN")) as [->|]; [left; reflexivity|].
  destruct (decide (n = "IDRAC_API_TOKEN")) as [->|]; [by right|done].
Defined.

(** An option that is given explicitly cannot fail on its environment variables. *)
Lemma env_first_lenient e first aliases dflt ws :
  exists ws' v, env_first e first aliases dflt false ws = (ws', Ok v).
Proof.
  unfold env_first. destruct (present e (first :: aliases)) as [|[winner value] rest]; [by eexists _, _|].
  destruct (1 <? _); [by eexists _, _|]. case_decide; by eexists _, _.
Qed.

(** A read of the simulator's endpoint ends in an error or in an endpoint that can be
    put into a URL: a host that is not empty, is trimmed and has no slash, a port
    between 1 and 65535. *)
Theorem dmtf_endpoint_valid e ws ws' ep :
  required_dmtf_sim_endpoint e ws = (ws', Ok ep) ->
  sim_host ep <> "" /\ PyStr.contains "/" (sim_host ep) = false /\ 1 <= sim_port ep <= 65535 /\
  exists h p, dict_get "REDFISH_IP" e = Some h /\ dict_get "REDFISH_PORT" e = Some p /\
    sim_host ep = PyStr.strip h /\ int_of_string (PyStr.strip p) = Some (sim_port ep).
Proof.
  unfold required_dmtf_sim_endpoint, dict_in.
  destruct (dict_get "REDFISH_IP" e) as [h|] eqn:Hh; [|done].
  destruct (dict_get "REDFISH_PORT" e) as [p|] eqn:Hp; [|done]. cbn [negb].
  unfold env_first, present. simpl. rewrite Hh, Hp. unfold bind, ret. simpl.
  destruct (PyStr.nonempty (PyStr.strip h)) eqn:Hne; [|done]. cbn [negb].
  destruct (_ || _); [done|]. destruct (PyStr.contains "/" (PyStr.strip h)) eqn:Hs; [done|].
  destruct (int_of_string (PyStr.strip p)) as [z|] eqn:Hz; [|done].
  destruct ((1 <=? z) && (z <=? 65535)) eqn:Hr; [|done]. intros [= <- <-]. simpl.
  apply andb_true_iff in Hr as [H1%Z.leb_le H2%Z.leb_le].
  split; [by intros Heq; rewrite Heq in Hne|]. split; [done|]. split; [done|]. eauto 10.
Qed.

Lemma dmtf_endpoint_valid_witness :
  let e := [("REDFISH_PORT", " 8000 "); ("REDFISH_IP", "sim.lab ")] in
  exists ep, required_dmtf_sim_endpoint e [] = ([], Ok ep) /\ 1 <= sim_port ep <= 65535.
Proof.
  cbv zeta. eexists. split; [vm_compute; reflexivity|].
  exact (proj1 (proj2 (proj2 (dmtf_endpoint_valid [("REDFISH_PORT", " 8000 "); ("REDFISH_IP", "sim.lab ")] [] [] _
    ltac:(vm_compute; reflexivity))))).
Defined.
End Config.
