(* ===== verification/Crawl.v ===== *)
(** * The discovery crawl

    src/redfish_ctl/discovery/cmd_discovery.py, class [Discovery]: a depth-first
    walk over the references of a Redfish service that saves each document, the
    status of each URL and the methods it allows, and writes the maps that the mock
    BMC replays from.  The state of a crawl is the manager's state, the dicts of the
    command object and the files it wrote, by name.  The directory, the opening of
    files, and the text of a body that is not JSON are parameters. *)

From stdpp Require Import base list strings pretty.
From Stdlib Require Import Ascii ZArith Lia.
From S2P Require Import Prelude PyVal Effects Query Http Numbers Manager Json Config.

Module Crawl.
Import Http RedfishManager.
Local Open Scope Z_scope.
Local Open Scope py_scope.

(** [DEFAULT_DISCOVERY_MAX_DEPTH] *)
Definition DEFAULT_DISCOVERY_MAX_DEPTH : nat := 32.

(** [REST_API_STATUS_MAP_JSON] *)
Definition REST_API_STATUS_MAP_JSON : string := "rest_api_map.status.json".

(** [self.default_query_filter] *)
Definition default_query_filter : list string :=
  ["LogServices/Sel/Entries"; "JID_"; "StdSecbootpolicy."; "Signatures/StdSecbootpolicy."; "Lclog/Entries/"].

(** ** Paths *)

(** [extract_odata_ids(data)] *)
Fixpoint extract_odata_ids (v : pyval) : list string :=
  match v with
  | PDict d =>
      (match dget "@odata.id" d with PStr s => [s] | _ => [] end) ++
      (match dget "Uri" d with PStr s => [s] | _ => [] end) ++
      concat (map (fun kv => extract_odata_ids kv.2) d)
  | PList l => concat (map extract_odata_ids l)
  | _ => []
  end.

(** [s.split(c, 1)[0]] *)
Fixpoint before_char (c : ascii) (s : string) : string :=
  match s with
  | EmptyString => EmptyString
  | String x s' => if decide (x = c) then EmptyString else String x (before_char c s')
  end.

(** [s.replace("//", "/")]: non-overlapping occurrences from the left *)
Fixpoint replace_slashes (s : string) : string :=
  match s with
  | String "/" (String "/" s') => String "/" (replace_slashes s')
  | String c s' => String c (replace_slashes s')
  | EmptyString => EmptyString
  end.

(** [while "//" in path: path = path.replace("//", "/")] *)
Fixpoint collapse_slashes (fuel : nat) (s : string) : string :=
  if PyStr.contains "//" s then
    match fuel with
    | O => s
    | S fuel' => collapse_slashes fuel' (replace_slashes s)
    end
  else s.

(** [normalize_resource_path(resource_path)] *)
Definition normalize_resource_path (resource_path : string) : string :=
  if PyStr.nonempty resource_path then
    let path := before_char "#" (before_char "?" resource_path) in
    let path := collapse_slashes (String.length path) path in
    if (1 <? String.length path)%nat then
      let r := PyStr.rstrip_char "/" path in if PyStr.nonempty r then r else path
    else path
  else resource_path.

(** The match of [[^/]+/Entries/.+] at the front. *)
Fixpoint entry_member (some : bool) (s : string) : bool :=
  match s with
  | EmptyString => false
  | String "/" s' =>
      some && PyStr.startswith "Entries/" s' &&
      match String.substring 8 1 s' with
      | String c _ => negb (nat_of_ascii c =? 10)%nat
      | EmptyString => false
      end
  | String _ s' => entry_member true s'
  end.

(** [LOG_ENTRY_MEMBER_RE.search(path)] *)
Fixpoint log_entry_member (s : string) : bool :=
  (PyStr.startswith "/LogServices/" s && entry_member false (String.substring 13 (String.length s) s)) ||
  match s with
  | EmptyString => false
  | String _ s' => log_entry_member s'
  end.

(** [resource_path.replace("/", "_")] *)
Definition flat_name (path : string) : string :=
  PyStr.map_chars (fun c => if decide (c = "/"%char) then "_"%char else c) path.

(** [os.path.join(a, b)] *)
Definition path_join (a b : string) : string :=
  if PyStr.startswith "/" b then b
  else if negb (PyStr.nonempty a) || PyStr.endswith "/" a then a +:+ b
  else a +:+ "/" +:+ b.

(** [isinstance(e, requests.exceptions.RequestException)] *)
Definition is_RequestException (e : exn) : bool :=
  match e with
  | TransportError _ | RequestTimeout _ | ConnectionFailed _ | JSONDecodeError _ => true
  | _ => false
  end.

(** [[m.strip() for m in header.split(",")]] *)
Definition allowed_list (header : option string) : list string :=
  match header with
  | Some h => map PyStr.strip (PyStr.split "," h)
  | None => []
  end.

(** ** The state *)

Record crawl (W : Type) := CrawlState {
  cm : mstate W;
  visited : list string;
  http_status : list (string * Z);
  allowed_methods : list (string * list string);
  url_files : list (string * string);
  error_files : list (string * string);
  files : list (string * pyval)
}.
Arguments CrawlState {W} _ _ _ _ _ _ _.
Arguments cm {W} _.
Arguments visited {W} _.
Arguments http_status {W} _.
Arguments allowed_methods {W} _.
Arguments url_files {W} _.
Arguments error_files {W} _.
Arguments files {W} _.

Section Crawler.
Context {W : Type} `{!World W}.
Abbreviation MC := (M (crawl W)).

(** [self.visited_urls[path] = True] *)
Definition visit (p : string) (c : crawl W) : crawl W :=
  CrawlState (cm c) (if decide (p ∈ visited c) then visited c else visited c ++ [p]) (http_status c)
    (allowed_methods c) (url_files c) (error_files c) (files c).

Definition set_status (p : string) (z : Z) (c : crawl W) : crawl W :=
  CrawlState (cm c) (visited c) (dict_set p z (http_status c)) (allowed_methods c) (url_files c) (error_files c) (files c).

Definition set_allowed (p : string) (l : list string) (c : crawl W) : crawl W :=
  CrawlState (cm c) (visited c) (http_status c) (dict_set p l (allowed_methods c)) (url_files c) (error_files c) (files c).

Definition set_url_file (p f : string) (c : crawl W) : crawl W :=
  CrawlState (cm c) (visited c) (http_status c) (allowed_methods c) (dict_set p f (url_files c)) (error_files c) (files c).

Definition set_error_file (p f : string) (c : crawl W) : crawl W :=
  CrawlState (cm c) (visited c) (http_status c) (allowed_methods c) (url_files c) (dict_set p f (error_files c)) (files c).

Definition set_files (f : list (string * pyval)) (c : crawl W) : crawl W :=
  CrawlState (cm c) (visited c) (http_status c) (allowed_methods c) (url_files c) (error_files c) f.

(** A call of the manager. *)
Definition call {A} (m : M (mstate W) A) : MC A :=
  fun c => let '(s, r) := m (cm c) in
           (CrawlState s (visited c) (http_status c) (allowed_methods c) (url_files c) (error_files c) (files c), r).

(** [time.sleep(d)] for [d] seconds; the clock counts milliseconds *)
Definition time_sleep (d : Numbers.dec) : MC unit :=
  if d.1 <? 0 then raise (ValueError "sleep length must be non-negative")
  else call (modify (set_world (sleep (Numbers.truncate (1000 * d.1) d.2)))).

(** The environment, [response.text], the directory of the crawl, opening a file for
    writing, creating a temporary file in a directory, [os.replace]. *)
Context (env : Config.env) (response_text : response -> string) (json_response_dir : string).
Context (open_write : string -> res unit) (make_temp : string -> res string) (rename : string -> string -> res unit).

(** [with open(name, "w") as file: json.dump(body, file)] *)
Definition write_json (name : string) (body : pyval) : MC unit :=
  lift_res (open_write name) ;;;
  modify (fun c => set_files (dict_set name body (files c)) c).

(** ** Fetching *)

(** The three settings of the crawl. *)
Definition settings : res (Z * Numbers.dec * Numbers.dec) :=
  let? r := (Config.discovery_retries env []).2 in
  let? b := (Config.discovery_backoff env []).2 in
  let? p := (Config.discovery_pace_ms env []).2 in
  Ok (Z.max 1 r, b, Numbers.dec_mul p (1, -3)).

(** [response.json()], or the text of a body that is not JSON *)
Definition captured_body (response : response) : pyval :=
  match json response with
  | Ok v => v
  | _ => PDict [("_raw_text", PStr (response_text response))]
  end.

(** One attempt of [_fetch_capture] *)
Definition fetch_attempt (pace : Numbers.dec) (req : string) : MC (Z * pyval * option string) :=
  let! response := call (api_get_call req []) in
  (if pace.1 =? 0 then ret tt else time_sleep pace) ;;;
  ret (status_code response, captured_body response, header_get "Allow" (headers response)).

(** The attempts of [_fetch_capture]: [left] more after this one *)
Fixpoint fetch_loop (left : nat) (attempt : Z) (backoff pace : Numbers.dec) (req : string)
  : MC (Z * pyval * option string) :=
  try_catch
    (fetch_attempt pace req)
    is_RequestException
    (fun e => match left with
              | O => raise e
              | S left' =>
                  time_sleep (Numbers.dec_mul backoff (2 ^ attempt, 0)) ;;;
                  fetch_loop left' (attempt + 1) backoff pace req
              end).

(** [_fetch_capture(resource_path)] *)
Definition fetch_capture (resource_path : string) : MC (Z * pyval * option string) :=
  let! (attempts, backoff, pace) := lift_res settings in
  let! m := gets (fun c => mgr (cm c)) in
  fetch_loop (Z.to_nat (attempts - 1)) 0 backoff pace (base_url m resource_path).

(** The attempts of [_query_with_retry] *)
Fixpoint query_loop (left : nat) (attempt : Z) (backoff pace : Numbers.dec) (resource_path : string)
  : MC CommandResult :=
  try_catch
    (let! result := call (base_query resource_path qdefault) in
     (if pace.1 =? 0 then ret tt else time_sleep pace) ;;;
     ret result)
    is_RequestException
    (fun e => match left with
              | O => raise e
              | S left' =>
                  time_sleep (Numbers.dec_mul backoff (2 ^ attempt, 0)) ;;;
                  query_loop left' (attempt + 1) backoff pace resource_path
              end).

(** [_query_with_retry(resource_path)] *)
Definition query_with_retry (resource_path : string) : MC CommandResult :=
  let! (attempts, backoff, pace) := lift_res settings in
  query_loop (Z.to_nat (attempts - 1)) 0 backoff pace resource_path.

(** ** The walk *)

Context (skip_log_entries : bool).

(** The paths that are marked as visited and not read. *)
Definition filtered (p : string) : bool :=
  existsb (fun f => PyStr.contains f p) default_query_filter || (skip_log_entries && log_entry_member p).

Definition in_scope (p : string) : bool := PyStr.startswith "/redfish/v1" p.

Definition is_ok (status : Z) : bool := (200 <=? status) && (status <? 300).

(** The file of a captured response. *)
Definition response_filename (p : string) (status : Z) : string :=
  path_join json_response_dir (flat_name p +:+ (if is_ok status then ".json" else ".error.json")).

(** [recursive_discovery(resource_path, depth, max_depth)] with
    [left = max_depth + 1 - depth] levels to go *)
Fixpoint recursive_discovery (left : nat) (resource_path : string) : MC unit :=
  match left with
  | O => ret tt
  | S left' =>
      let p := normalize_resource_path resource_path in
      if filtered p then modify (visit p)
      else
        let! seen := gets visited in
        if bool_decide (p ∈ seen) || negb (in_scope p) then ret tt
        else
          let! out := try_Exception (let! x := fetch_capture p in ret (inl x)) (fun e => ret (inr e)) in
          match out with
          | inr e =>
              modify (visit p) ;;;
              if is_RequestException e then modify (set_status p 0) else ret tt
          | inl (status, body, allow_header) =>
              modify (visit p) ;;;
              modify (set_status p status) ;;;
              write_json (response_filename p status) body ;;;
              modify (set_allowed p (allowed_list allow_header)) ;;;
              if is_ok status then
                modify (set_url_file p (response_filename p status)) ;;;
                foldM (fun _ r => recursive_discovery left' r) tt (extract_odata_ids body)
              else modify (set_error_file p (response_filename p status))
          end
  end.

(** ** Saving *)

Definition str_map (d : list (string * string)) : pyval := PDict (map (fun kv => (kv.1, PStr kv.2)) d).
Definition int_map (d : list (string * Z)) : pyval := PDict (map (fun kv => (kv.1, PInt kv.2)) d).
Definition list_map (d : list (string * list string)) : pyval :=
  PDict (map (fun kv => (kv.1, PList (map PStr kv.2))) d).

(** [os.path.dirname(path) or "."] *)
Definition dir_of (path : string) : string :=
  let d := PyStr.join "/" (take (length (PyStr.split "/" path) - 1) (PyStr.split "/" path)) in
  if PyStr.nonempty d then d else ".".

(** [_write_json_atomic(path, payload)] *)
Definition write_json_atomic (path : string) (payload : pyval) : MC unit :=
  let! tmp := lift_res (make_temp (dir_of path)) in
  modify (fun c => set_files (dict_set tmp payload (files c)) c) ;;;
  try_Exception
    (lift_res (rename tmp path) ;;;
     modify (fun c => set_files (dict_set path payload (dict_del tmp (files c))) c))
    (fun e =>
       modify (fun c => set_files (dict_del tmp (files c)) c) ;;;
       raise e).

(** [save_url_file_mapping()], with NumPy installed or not *)
Definition save_url_file_mapping (numpy_available : bool) : MC unit :=
  if numpy_available then
    let filename := path_join json_response_dir (path_join json_response_dir "rest_api_map.npy") in
    let! c := get_state in
    write_json filename
      (PDict [("url_file_mapping", str_map (url_files c)); ("allowed_methods_mapping", list_map (allowed_methods c));
              ("http_status_mapping", int_map (http_status c)); ("error_file_mapping", str_map (error_files c))]) ;;;
    write_json_atomic (path_join json_response_dir REST_API_STATUS_MAP_JSON)
      (PDict [("http_status_mapping", int_map (http_status c)); ("error_file_mapping", str_map (error_files c))])
  else raise (OtherError "ModuleNotFoundError" "No module named 'numpy'").

(** The part of [execute] that crawls one host; [dirs] is the outcome of
    [os.makedirs] and whether the directory is there afterwards *)
Definition crawl_host (dirs : res bool) (numpy_available : bool) (a : qargs) : MC CommandResult :=
  let! is_dir := lift_res dirs in
  if is_dir then
    let! result := call (base_query "/redfish/v1/" a) in
    let service_root_file := path_join json_response_dir "_redfish_v1.json" in
    write_json service_root_file (data result) ;;;
    modify (set_url_file "/redfish/v1/" service_root_file) ;;;
    modify (set_allowed "/redfish/v1/" (match extra result with
                                        | PStr (String _ _ as h) => allowed_list (Some h)
                                        | _ => []
                                        end)) ;;;
    modify (set_status "/redfish/v1/" 200) ;;;
    modify (visit (normalize_resource_path "/redfish/v1/")) ;;;
    modify (visit (normalize_resource_path "/redfish/v1/CompositionService")) ;;;
    foldM (fun _ r => recursive_discovery (S DEFAULT_DISCOVERY_MAX_DEPTH) r) tt (extract_odata_ids (data result)) ;;;
    save_url_file_mapping numpy_available ;;;
    ret result
  else raise (ValueError ("Failed to create directory: " +:+ json_response_dir)).
End Crawler.

Example normalized :
  map normalize_resource_path ["/redfish//v1///Systems/?$expand=*"; "/redfish/v1/#/Links"; "/"; "//"; ""] =
  ["/redfish/v1/Systems"; "/redfish/v1"; "/"; "/"; ""].
Proof. vm_compute. reflexivity. Qed.

Example log_members :
  map log_entry_member ["/redfish/v1/Managers/1/LogServices/Journal/Entries/1";
                        "/redfish/v1/Managers/1/LogServices/Journal/Entries"; "/LogServices//Entries/1";
                        "/LogServices/LogServices/A/Entries/x"; "/LogServices/A/Entries/"] =
  [true; false; false; true; false].
Proof. vm_compute. reflexivity. Qed.

(** ** Normal forms of paths *)

Definition is_slash (c : ascii) : bool := if decide (c = "/"%char) then true else false.

(** The reference: drop every slash that a slash follows. *)
Fixpoint squeeze (s : string) : string :=
  match s with
  | EmptyString => EmptyString
  | String c s' => if is_slash c && PyStr.startswith "/" s' then squeeze s' else String c (squeeze s')
  end.

Lemma squeeze_none s : PyStr.contains "//" s = false -> squeeze s = s.
Proof.
  induction s as [|c s IH]; [done|]. cbn [PyStr.contains squeeze]. intros [Hc Hs]%orb_false_iff.
  rewrite IH by done. unfold is_slash. destruct (decide (c = "/"%char)) as [->|]; [|done].
  destruct s as [|d s]; [done|]. simpl in *. by destruct (decide ("/"%char = d)).
Qed.

Lemma slash_cases c s :
  replace_slashes (String c s) =
  match s with
  | String d s' => if is_slash c && is_slash d then String "/" (replace_slashes s') else String c (replace_slashes s)
  | EmptyString => String c EmptyString
  end.
Proof.
  unfold is_slash. destruct (decide (c = "/"%char)) as [->|Hc].
  - destruct s as [|d s]; [done|]. destruct (decide (d = "/"%char)) as [->|Hd]; [done|].
    by destruct d as [[] [] [] [] [] [] [] []].
  - destruct s as [|d s]; by destruct c as [[] [] [] [] [] [] [] []].
Qed.

Lemma startswith_slash c s : PyStr.startswith "/" (String c s) = is_slash c.
Proof. unfold is_slash. simpl. by destruct (decide (c = "/"%char)) as [->|]; case_decide; subst. Qed.

(** One round leaves the first character and shortens a path with a double slash. *)
Lemma replace_slashes_spec s :
  squeeze (replace_slashes s) = squeeze s /\
  PyStr.startswith "/" (replace_slashes s) = PyStr.startswith "/" s /\
  (String.length (replace_slashes s) <= String.length s)%nat /\
  (PyStr.contains "//" s = true -> (String.length (replace_slashes s) < String.length s)%nat).
Proof.
  induction s as [s IH] using (induction_ltof1 _ String.length). unfold ltof in IH.
  destruct s as [|c [|d s]]; [done| |].
  { rewrite slash_cases. split; [done|]. split; [done|]. split; [done|]. simpl. by destruct (decide _). }
  rewrite slash_cases. destruct (is_slash c && is_slash d) eqn:Hcd.
  - apply andb_true_iff in Hcd as [Hc Hd]. destruct (IH s) as (IHs & IHp & IHl & _); [simpl; lia|].
    split; [|split; [by rewrite !startswith_slash, Hc|simpl; lia]].
    cbn [squeeze]. rewrite startswith_slash, IHp, IHs, Hc, Hd. cbn [andb].
    unfold is_slash in Hd. by case_decide; subst.
  - destruct (IH (String d s)) as (IHs & IHp & IHl & IHd); [simpl; lia|].
    split; [|split; [by rewrite !startswith_slash|split; [simpl in *; lia|]]].
    + cbn [squeeze] in *. rewrite IHp, IHs, startswith_slash. by rewrite Hcd.
    + change (PyStr.contains "//" (String c (String d s))) with
        (PyStr.startswith "//" (String c (String d s)) || PyStr.contains "//" (String d s)).
      intros [Hp|Hc]%orb_true_iff; [|specialize (IHd Hc); simpl in *; lia]. exfalso.
      unfold is_slash in Hcd. simpl in Hp. destruct (decide ("/"%char = c)) as [<-|]; [|done].
      by destruct (decide ("/"%char = d)) as [<-|].
Qed.

(** The loop of replacements ends within as many rounds as there are characters. *)
Lemma collapse_squeeze fuel s : (String.length s <= fuel)%nat -> collapse_slashes fuel s = squeeze s.
Proof.
  revert s. induction fuel as [|fuel IH]; intros s Hl.
  { by destruct s; [|simpl in Hl; lia]. }
  cbn [collapse_slashes]. destruct (PyStr.contains "//" s) eqn:Hc; [|by rewrite squeeze_none].
  destruct (replace_slashes_spec s) as (Hs & _ & _ & Hlt). specialize (Hlt Hc). rewrite <- Hs. apply IH. lia.
Qed.

Lemma squeeze_no_double s : PyStr.contains "//" (squeeze s) = false.
Proof.
  induction s as [|c s IH]; [done|]. cbn [squeeze].
  assert (PyStr.startswith "/" (squeeze s) = PyStr.startswith "/" s) as Hp.
  { clear IH. induction s as [|d s IH]; [done|]. cbn [squeeze].
    destruct (is_slash d && PyStr.startswith "/" s) eqn:Hd; [|by rewrite !startswith_slash].
    apply andb_true_iff in Hd as [Hd Hs]. by rewrite IH, Hs, startswith_slash. }
  destruct (is_slash c && PyStr.startswith "/" s) eqn:Hc; [done|].
  cbn [PyStr.contains]. rewrite IH, orb_false_r. cbn [PyStr.startswith].
  destruct (decide ("/"%char = c)) as [<-|]; [|done]. rewrite <- Hp in Hc.
  destruct (squeeze s) as [|d r]; [done|]. rewrite startswith_slash in Hc. unfold is_slash in Hc.
  cbn [PyStr.startswith]. destruct (decide ("/"%char = d)) as [<-|]; done.
Qed.

Lemma rstrip_no_double q s : PyStr.contains "//" s = false -> PyStr.contains "//" (PyStr.rstrip_by q s) = false.
Proof.
  induction s as [|c s IH]; [done|]. cbn [PyStr.contains PyStr.rstrip_by]. intros [Hc Hs]%orb_false_iff.
  specialize (IH Hs). destruct (PyStr.rstrip_by q s) as [|d r] eqn:Hr.
  - destruct (q c); [done|]. cbn. by case_decide.
  - cbn [PyStr.contains] in *. rewrite IH, orb_false_r. cbn [PyStr.startswith] in *.
    destruct (decide ("/"%char = c)); [|done]. destruct (decide ("/"%char = d)) as [<-|]; [|done].
    destruct s as [|x s]; [done|]. cbn [PyStr.rstrip_by] in Hr.
    destruct (PyStr.rstrip_by q s); [destruct (q x); [done|]|]; injection Hr as -> _; by rewrite decide_True in Hc.
Qed.

Lemma before_char_none c s : PyStr.has_char (fun x => bool_decide (x = c)) (before_char c s) = false.
Proof.
  induction s as [|x s IH]; [done|]. simpl. case_decide; [done|]. simpl. by rewrite bool_decide_false.
Qed.

Lemma before_char_id c s : PyStr.has_char (fun x => bool_decide (x = c)) s = false -> before_char c s = s.
Proof.
  induction s as [|x s IH]; [done|]. simpl. intros [Hx Hs]%orb_false_iff. apply bool_decide_eq_false in Hx.
  rewrite decide_False by done. by rewrite IH.
Qed.

Lemma before_char_chars q c s : PyStr.has_char q s = false -> PyStr.has_char q (before_char c s) = false.
Proof.
  induction s as [|x s IH]; [done|]. simpl. intros [Hx Hs]%orb_false_iff. case_decide; [done|]. simpl.
  by rewrite Hx, IH.
Qed.

Lemma squeeze_chars q s : PyStr.has_char q s = false -> PyStr.has_char q (squeeze s) = false.
Proof.
  induction s as [|x s IH]; [done|]. simpl. intros [Hx Hs]%orb_false_iff.
  destruct (is_slash x && _); [auto|]. simpl. by rewrite Hx, IH.
Qed.

(** The normal form as a composition of total functions. *)
Definition trim (s : string) : string :=
  if (1 <? String.length s)%nat then
    let r := PyStr.rstrip_char "/" s in if PyStr.nonempty r then r else s
  else s.

Lemma normalize_eq s : normalize_resource_path s = trim (squeeze (before_char "#" (before_char "?" s))).
Proof.
  unfold normalize_resource_path. destruct s as [|c s]; [done|]. cbn [PyStr.nonempty].
  by rewrite collapse_squeeze.
Qed.

Lemma rstrip_by_idem q s : PyStr.rstrip_by q (PyStr.rstrip_by q s) = PyStr.rstrip_by q s.
Proof.
  induction s as [|c s IH]; [done|]. cbn [PyStr.rstrip_by].
  destruct (PyStr.rstrip_by q s) as [|d r]; [destruct (q c) eqn:Hq; [done|]; simpl; by rewrite Hq|].
  change (PyStr.rstrip_by q (String c (String d r))) with
    (match PyStr.rstrip_by q (String d r) with
     | EmptyString => if q c then EmptyString else String c EmptyString
     | r => String c r
     end). by rewrite IH.
Qed.

Lemma trim_idem s : trim (trim s) = trim s.
Proof.
  unfold trim at 2 3. destruct (1 <? String.length s)%nat eqn:Hl; [|unfold trim; by rewrite Hl].
  cbv zeta. destruct (PyStr.nonempty (PyStr.rstrip_char "/" s)) eqn:Hr.
  - assert (PyStr.rstrip_char "/" (PyStr.rstrip_char "/" s) = PyStr.rstrip_char "/" s) as Hi
      by apply rstrip_by_idem.
    unfold trim. cbv zeta. rewrite Hi, Hr. by destruct (1 <? String.length (PyStr.rstrip_char _ _))%nat.
  - unfold trim. by rewrite Hl, Hr.
Qed.

Lemma trim_keeps (P : string -> Prop) s : P s -> P (PyStr.rstrip_char "/" s) -> P (trim s).
Proof. intros Hs Hr. unfold trim. destruct (1 <? _)%nat; [|done]. cbv zeta. by destruct (PyStr.nonempty _). Qed.

(** Normalising removes the query, the fragment, doubled and trailing slashes, and is
    idempotent. *)
Lemma normalize_idem s : normalize_resource_path (normalize_resource_path s) = normalize_resource_path s.
Proof.
  rewrite !normalize_eq. set (b := before_char "#" (before_char "?" s)).
  assert (forall c, c = "?"%char \/ c = "#"%char -> PyStr.has_char (fun x => bool_decide (x = c)) (trim (squeeze b)) = false) as Hc.
  { intros c Hc. apply trim_keeps; [|apply rstrip_by_chars]; apply squeeze_chars; unfold b;
      destruct Hc as [-> | ->]; [apply before_char_chars| |apply before_char_chars|]; apply before_char_none. }
  rewrite (before_char_id "?") by auto. rewrite (before_char_id "#") by auto.
  rewrite (squeeze_none (trim (squeeze b))); [apply trim_idem|].
  apply (trim_keeps (fun s => PyStr.contains "//" s = false)); [|apply rstrip_no_double]; apply squeeze_no_double.
Qed.

Lemma visit_elem {W} p (c : crawl W) : p ∈ visited (visit p c).
Proof. unfold visit. simpl. case_decide; [done|]. apply elem_of_app. right. by apply list_elem_of_singleton. Qed.

Lemma visit_incl {W} p (c : crawl W) u : u ∈ visited c -> u ∈ visited (visit p c).
Proof. unfold visit. simpl. intros Hu. case_decide; [done|]. apply elem_of_app. by left. Qed.

(** The paths that count as visited from the start. *)
Definition seeds : list string := ["/redfish/v1"; "/redfish/v1/CompositionService"].

(** ** References *)

(** [r] occurs in a document as the text of an [@odata.id] or of a [Uri], however deep. *)
Inductive refers : pyval -> string -> Prop :=
| refers_here d k r : k = "@odata.id" \/ k = "Uri" -> dict_get k d = Some (PStr r) -> refers (PDict d) r
| refers_field d k v r : (k, v) ∈ d -> refers v r -> refers (PDict d) r
| refers_item l v r : v ∈ l -> refers v r -> refers (PList l) r.

Lemma elem_of_concat_map {A} (f : A -> list string) l r : r ∈ concat (map f l) <-> exists x, x ∈ l /\ r ∈ f x.
Proof.
  rewrite list_elem_of_In, in_concat. split.
  - intros (y & (x & <- & Hx)%in_map_iff & Hr). exists x. by rewrite !list_elem_of_In.
  - intros (x & Hx & Hr). exists (f x). rewrite <- !list_elem_of_In. split; [|done]. by apply (list_elem_of_fmap_2 f).
Qed.

Lemma text_at d k r : r ∈ match dget k d with PStr s => [s] | _ => [] end <-> dict_get k d = Some (PStr r).
Proof.
  unfold dget, dict_get_or. destruct (dict_get k d) as [v|]; cbn; [|split; [by intros H%not_elem_of_nil|done]].
  destruct v; try (split; [by intros H%not_elem_of_nil|done]). rewrite list_elem_of_singleton. split; [by intros ->|by intros [= ->]].
Qed.

(** What is extracted is what occurs. *)
Lemma refers_extract v r : refers v r <-> r ∈ extract_odata_ids v.
Proof.
  split.
  - induction 1 as [d k r Hk Hd|d k v r Hin _ IH|l v r Hin _ IH]; cbn [extract_odata_ids].
    + rewrite !elem_of_app, !text_at. destruct Hk as [-> | ->]; auto.
    + rewrite !elem_of_app. right. right. apply elem_of_concat_map. by exists (k, v).
    + apply elem_of_concat_map. by exists v.
  - revert v. apply (Json.pyval_nested_ind (fun v => r ∈ extract_odata_ids v -> refers v r)); try (cbn [extract_odata_ids]; intros; match goal with H : _ ∈ [] |- _ => by apply not_elem_of_nil in H end).
    + intros l Hl (x & Hx & Hr)%elem_of_concat_map. rewrite Forall_forall in Hl. by eapply refers_item, Hl.
    + intros d Hd. cbn [extract_odata_ids]. rewrite !elem_of_app, !text_at. intros [H|[H|([k v] & Hx & Hr)%elem_of_concat_map]].
      * eapply refers_here; [by left|done].
      * eapply refers_here; [by right|done].
      * rewrite Forall_forall in Hd. eapply refers_field; [done|]. by apply (Hd (k, v)).
Qed.

(** ** A crawl of a service whose documents do not change *)

Section Served.
Context {W : Type} `{!World W}.
Context (env : Config.env) (response_text : response -> string) (json_response_dir : string).
Context (open_write : string -> res unit) (skip_log_entries : bool).
Context (docs : string -> response) (m : manager).

Abbreviation fetch := (fetch_capture (W := W) env response_text).
Abbreviation walk := (recursive_discovery (W := W) env response_text json_response_dir open_write skip_log_entries).
Abbreviation fname := (response_filename json_response_dir).
Abbreviation filtered := (filtered skip_log_entries).

(** What the service answers at a path, as the crawl sees it. *)
Definition capture (p : string) : Z * pyval * option string :=
  let r := docs (base_url m p) in
  (status_code r, captured_body response_text r, header_get "Allow" (headers r)).

Definition status_of (p : string) : Z := (capture p).1.1.
Definition body_of (p : string) : pyval := (capture p).1.2.
Definition file_of (p : string) : string := fname p (status_of p).

(** The paths a reference leads to that the crawl takes note of. *)
Definition taken (p : string) : bool := filtered p || in_scope p.

(** The references that are followed from a path. *)
Definition links (p : string) : list string :=
  if filtered p then [] else if is_ok (status_of p) then map normalize_resource_path (extract_odata_ids (body_of p)) else [].

(** The settings are valid, the files can be written, and the service answers. *)
Context (served : serves (W := W) docs).
Context (writable : forall n, open_write n = Ok tt).
Context (attempts : Z) (backoff pace : Numbers.dec).
Context (valid : settings env = Ok (attempts, backoff, pace)) (unpaced : 0 <= pace.1).

(** The manager still addresses the same service. *)
Definition same (s : mstate W) : Prop := RedfishManager.config (mgr s) = RedfishManager.config m.

Lemma time_sleep_run d (c : crawl W) : 0 <= d.1 ->
  exists s, time_sleep d c = (CrawlState s (visited c) (http_status c) (allowed_methods c) (url_files c)
                                (error_files c) (files c), Ok tt) /\ mgr s = mgr (cm c).
Proof.
  intros Hd. unfold time_sleep. replace (d.1 <? 0) with false by (symmetry; by apply Z.ltb_ge).
  unfold call, modify. eexists. split; [done|]. by destruct (cm c).
Qed.

(** A path is read at the first attempt. *)
Lemma fetch_run p (c : crawl W) : same (cm c) ->
  exists s, fetch p c = (CrawlState s (visited c) (http_status c) (allowed_methods c) (url_files c)
                           (error_files c) (files c), Ok (capture p)) /\ same s.
Proof.
  intros Hm. unfold fetch_capture, bind at 1, lift_res. rewrite valid. unfold bind at 1, gets.
  rewrite (config_base_url _ m) by done.
  set (rq := sync_request (mgr (cm c)) GET (base_url m p) [] None).
  assert (is_get rq /\ rq_url rq = base_url m p) as [Hg Hu]
    by (unfold rq, is_get, sync_request; by destruct (x_auth _)).
  assert (api_get_call (base_url m p) [] (cm c) = (sent (cm c) rq, Ok (docs (base_url m p)))) as Hget.
  { unfold api_get_call, bind, gets. fold rq. rewrite send_run. unfold reply. by rewrite served, Hu. }
  assert (same (sent (cm c) rq)) as Hs by done.
  set (c1 := CrawlState (sent (cm c) rq) (visited c) (http_status c) (allowed_methods c) (url_files c)
               (error_files c) (files c)).
  assert (exists s, (if pace.1 =? 0 then ret tt else time_sleep pace) c1 =
    (CrawlState s (visited c) (http_status c) (allowed_methods c) (url_files c) (error_files c) (files c), Ok tt) /\
    same s) as (s & Hp & Hsm).
  { destruct (pace.1 =? 0); [by eexists|]. destruct (time_sleep_run pace c1 unpaced) as (s & Hp & Hsm).
    exists s. split; [exact Hp|]. unfold same. by rewrite Hsm. }
  exists s. split; [|done].
  destruct (Z.to_nat (attempts - 1)) as [|left]; simpl; unfold try_catch, fetch_attempt, bind at 1, call; rewrite Hget; fold c1;
    unfold bind; rewrite Hp; done.
Qed.

(** The state after a response was recorded. *)
Definition record (p : string) (c : crawl W) : crawl W :=
  let f := file_of p in
  let c := set_allowed p (allowed_list (capture p).2)
             (set_files (dict_set f (body_of p) (files c)) (set_status p (status_of p) (visit p c))) in
  if is_ok (status_of p) then set_url_file p f c else set_error_file p f c.

Lemma walk_run left r (c : crawl W) :
  let p := normalize_resource_path r in
  same (cm c) ->
  (filtered p = true /\ walk (S left) r c = (visit p c, Ok tt)) \/
  (filtered p = false /\ (p ∈ visited c \/ in_scope p = false) /\ walk (S left) r c = (c, Ok tt)) \/
  (filtered p = false /\ p ∉ visited c /\ in_scope p = true /\ exists s, same s /\
   let c1 := record p (CrawlState s (visited c) (http_status c) (allowed_methods c) (url_files c) (error_files c)
                         (files c)) in
   walk (S left) r c =
   if is_ok (status_of p) then foldM (fun _ r => walk left r) tt (extract_odata_ids (body_of p)) c1 else (c1, Ok tt)).
Proof.
  intros p Hm. cbn [recursive_discovery]. fold p. destruct (filtered p) eqn:Hf; [by left|]. right.
  rewrite (bind_ok (gets visited) _ c c (visited c) eq_refl). destruct (bool_decide (p ∈ visited c)) eqn:Hv.
  { left. apply bool_decide_eq_true in Hv. split; [done|]. split; [by left|done]. }
  apply bool_decide_eq_false in Hv. destruct (in_scope p) eqn:Hs; cbn [orb negb].
  2: { left. split; [done|]. split; [by right|done]. }
  right. split; [done|]. split; [done|]. split; [done|].
  destruct (fetch_run p c Hm) as (s & Hfetch & Hsm). exists s. split; [done|].
  eassert (try_Exception (let! x := fetch p in ret (inl x)) (fun e => ret (inr e)) c = (_, Ok (inl (capture p)))) as Hout.
  { unfold try_Exception, try_catch. rewrite (bind_ok _ _ _ _ _ Hfetch). reflexivity. }
  rewrite (bind_ok _ _ _ _ _ Hout). unfold record, file_of, status_of, body_of.
  destruct (capture p) as [[status body] allow]. unfold write_json, lift_res. rewrite writable.
  unfold bind, modify. cbn [fst snd]. by destruct (is_ok status).
Qed.

(** What a part of the walk leaves alone: the paths visited before, what was recorded
    of them, and the files that belong to no newly visited path. *)
Record extends_crawl (c c' : crawl W) : Prop := {
  ec_mgr : same (cm c) -> same (cm c');
  ec_visited : exists new, visited c' = visited c ++ new;
  ec_nodup : NoDup (visited c) -> NoDup (visited c');
  ec_status u : u ∈ visited c -> dict_get u (http_status c') = dict_get u (http_status c);
  ec_urls u : u ∈ visited c -> dict_get u (url_files c') = dict_get u (url_files c);
  ec_errors u : u ∈ visited c -> dict_get u (error_files c') = dict_get u (error_files c);
  ec_files n : (forall u, u ∈ visited c' -> u ∉ visited c -> filtered u = false -> file_of u <> n) ->
    dict_get n (files c') = dict_get n (files c)
}.

Lemma ec_incl c c' u : extends_crawl c c' -> u ∈ visited c -> u ∈ visited c'.
Proof. intros H Hu. destruct (ec_visited _ _ H) as [new ->]. apply elem_of_app. by left. Qed.

Lemma ec_length c c' : extends_crawl c c' -> (length (visited c) <= length (visited c'))%nat.
Proof. intros H. destruct (ec_visited _ _ H) as [new ->]. rewrite length_app. lia. Qed.

#[local] Instance extends_crawl_preorder : PreOrder extends_crawl.
Proof.
  split.
  - intros c. split; try done. exists []. by rewrite app_nil_r.
  - intros c1 c2 c3 H1 H2. pose proof H1 as [M1 [n1 V1] D1 S1 U1 E1 F1]. pose proof H2 as [M2 [n2 V2] D2 S2 U2 E2 F2].
    split; auto.
    + exists (n1 ++ n2). by rewrite V2, V1, app_assoc.
    + intros u Hu. rewrite S2, S1; [done..|]. by apply (ec_incl c1).
    + intros u Hu. rewrite U2, U1; [done..|]. by apply (ec_incl c1).
    + intros u Hu. rewrite E2, E1; [done..|]. by apply (ec_incl c1).
    + intros n Hn. rewrite F2, F1; [done| |].
      * intros u Hu Hnu. apply Hn; [by apply (ec_incl c2)|done].
      * intros u Hu Hnu. apply Hn; [done|]. intros Hu1. apply Hnu. by apply (ec_incl c1).
Qed.

Lemma visit_extends p c : extends_crawl c (visit p c).
Proof.
  unfold visit. split; try done; simpl; case_decide.
  - exists []. by rewrite app_nil_r.
  - by exists [p].
  - done.
  - intros Hn. apply NoDup_app. split; [done|]. split; [|apply NoDup_singleton].
    intros x Hx ->%list_elem_of_singleton. done.
Qed.

Lemma visit_inv p (c : crawl W) u : u ∈ visited (visit p c) -> u ∈ visited c \/ u = p.
Proof.
  unfold visit. simpl. case_decide; [by left|]. intros [Hu|Hu]%elem_of_app; [by left|].
  right. by apply list_elem_of_singleton in Hu.
Qed.

Lemma record_visited p c : visited (record p c) = visited (visit p c).
Proof. unfold record. by destruct (is_ok _). Qed.

(** A path that is visited was recorded as it is, and its references are noted. *)
Definition covered (c : crawl W) (p : string) : Prop := taken p = true -> p ∈ visited c.

Record recorded (c : crawl W) (u : string) : Prop := {
  rec_status : dict_get u (http_status c) = Some (status_of u);
  rec_url : is_ok (status_of u) = true -> dict_get u (url_files c) = Some (file_of u);
  rec_error : is_ok (status_of u) = false -> dict_get u (error_files c) = Some (file_of u);
  rec_file : (forall u', u' ∈ visited c -> filtered u' = false -> u' <> u -> file_of u' <> file_of u) ->
    dict_get (file_of u) (files c) = Some (body_of u)
}.

Definition settled (c : crawl W) (u : string) : Prop :=
  (filtered u = false -> recorded c u) /\ Forall (covered c) (links u).

Lemma covered_mono c c' p : extends_crawl c c' -> covered c p -> covered c' p.
Proof. intros H Hc Ht. by apply (ec_incl c), Hc. Qed.

Lemma recorded_mono c c' u : extends_crawl c c' -> u ∈ visited c -> recorded c u -> recorded c' u.
Proof.
  intros H Hu [R1 R2 R3 R4]. pose proof H as [_ _ _ HS HU HE HF].
  split; [by rewrite HS|by rewrite HU|by rewrite HE|]. intros Hn. rewrite HF.
  - apply R4. intros u' Hu'. apply Hn. by apply (ec_incl c).
  - intros u' Hu' Hnu Hf. apply Hn; [done..|]. by intros ->.
Qed.

Lemma settled_mono c c' u : extends_crawl c c' -> u ∈ visited c -> settled c u -> settled c' u.
Proof.
  intros H Hu [Hr Hl]. split; [intros Hf; by apply (recorded_mono c); auto|].
  eapply Forall_impl; [exact Hl|]. intros p. by apply covered_mono.
Qed.

Lemma moved_extends s c : same s ->
  extends_crawl c (CrawlState s (visited c) (http_status c) (allowed_methods c) (url_files c) (error_files c) (files c)).
Proof. intros Hs. split; try done. exists []. by rewrite app_nil_r. Qed.

Lemma record_extends p c : p ∉ visited c -> filtered p = false -> extends_crawl c (record p c).
Proof.
  intros Hp Hf. destruct (visit_extends p c) as [M V D _ _ _ _].
  assert (forall u, u ∈ visited c -> u <> p) as Hne by (by intros u Hu ->).
  split.
  - unfold record. by destruct (is_ok _).
  - by rewrite record_visited.
  - by rewrite record_visited.
  - intros u Hu. unfold record. destruct (is_ok _); simpl; by rewrite dict_get_set_ne by auto.
  - intros u Hu. unfold record. destruct (is_ok _); simpl; [by rewrite dict_get_set_ne by auto|done].
  - intros u Hu. unfold record. destruct (is_ok _); simpl; [done|by rewrite dict_get_set_ne by auto].
  - intros n Hn. assert (n <> file_of p) as Hnp.
    { intros ->. apply (Hn p); [|done..]. rewrite record_visited. apply visit_elem. }
    unfold record. destruct (is_ok _); simpl; by rewrite dict_get_set_ne.
Qed.

Lemma record_recorded p c : recorded (record p c) p.
Proof.
  unfold record. destruct (is_ok (status_of p)) eqn:Ho; split; simpl; rewrite ?Ho; try done; intros;
    apply dict_get_set_eq.
Qed.

(** The outcome of following the references [rs] with [left] levels to go: nothing but
    what they lead to is visited; and if fewer than [left] paths are new, they are all
    settled and the references are noted. *)
Record walked (left : nat) (rs : list string) (c c' : crawl W) : Prop := {
  wk_extends : extends_crawl c c';
  wk_sound (Q : string -> Prop) : (forall u v, u ∉ visited c -> Q u -> v ∈ links u -> taken v = true -> Q v) ->
    (forall r, r ∈ rs -> taken (normalize_resource_path r) = true -> Q (normalize_resource_path r)) ->
    forall u, u ∈ visited c' -> u ∉ visited c -> Q u;
  wk_complete : (length (visited c') < length (visited c) + left)%nat ->
    Forall (fun r => covered c' (normalize_resource_path r)) rs /\
    forall u, u ∈ visited c' -> u ∉ visited c -> settled c' u
}.

Lemma walked_nil left c : walked left [] c c.
Proof. split; [reflexivity|done|]. intros _. split; [constructor|done]. Qed.

Lemma walked_cons left r rs c c1 c2 : walked left [r] c c1 -> walked left rs c1 c2 -> walked left (r :: rs) c c2.
Proof.
  intros [E1 S1 C1] [E2 S2 C2]. pose proof (ec_length _ _ E1). pose proof (ec_length _ _ E2). split.
  - by etransitivity.
  - intros Q Hstep Hr u Hu Hnu. destruct (decide (u ∈ visited c1)) as [Hu1|Hu1].
    + apply (S1 Q); try done. intros x ->%list_elem_of_singleton. apply Hr. by left.
    + apply (S2 Q); try done; [|intros x Hx; apply Hr; by right].
      intros x y Hx. apply Hstep. intros Hx0. apply Hx. by apply (ec_incl c).
  - intros Hl. destruct C1 as [C1 N1]; [lia|]. destruct C2 as [C2 N2]; [lia|]. apply Forall_cons in C1 as [C1 _]. split.
    + constructor; [apply (covered_mono c1); [exact E2|exact C1]|done].
    + intros u Hu Hnu. destruct (decide (u ∈ visited c1)) as [Hu1|Hu1]; [|auto]. by apply (settled_mono c1); auto.
Qed.

Lemma walked_fold left rs c :
  (forall r c, same (cm c) -> exists c', walk left r c = (c', Ok tt) /\ walked left [r] c c') ->
  same (cm c) ->
  exists c', foldM (fun _ r => walk left r) tt rs c = (c', Ok tt) /\ walked left rs c c'.
Proof.
  intros IH. revert c. induction rs as [|r rs IHrs]; intros c Hm; [exists c; split; [done|apply walked_nil]|].
  destruct (IH r c Hm) as (c1 & H1 & W1). destruct (IHrs c1) as (c2 & H2 & W2).
  { by apply (ec_mgr c c1 (wk_extends _ _ _ _ W1)). }
  exists c2. split; [|by eapply walked_cons]. cbn [foldM]. by rewrite (bind_ok _ _ _ _ _ H1).
Qed.

Lemma walk_walked left r c : same (cm c) -> exists c', walk left r c = (c', Ok tt) /\ walked left [r] c c'.
Proof.
  revert r c. induction left as [|left IH]; intros r c Hm.
  { exists c. split; [done|]. split; [reflexivity|done|lia]. }
  pose proof (walk_run left r c Hm) as Hrun. set (p := normalize_resource_path r) in *. cbv zeta in Hrun.
  destruct Hrun as [[Hf Hrun]|[(Hf & Hp & Hrun)|(Hf & Hp & Hs & s & Hsm & Hrun)]].
  - exists (visit p c). split; [done|]. split; [apply visit_extends| |].
    + intros Q _ Hr u [Hu|Hu]%visit_inv Hnu; [done|]. subst u. apply (Hr r); [by left|]. fold p. unfold taken. by rewrite Hf.
    + intros _. split; [apply Forall_singleton; intros _; apply visit_elem|].
      intros u [Hu|Hu]%visit_inv Hnu; [done|]. subst u. split; [by rewrite Hf|]. unfold links. by rewrite Hf.
  - exists c. split; [done|]. split; [reflexivity|done|]. intros _. split; [|done]. apply Forall_singleton. fold p.
    unfold covered, taken. rewrite Hf. by destruct Hp as [Hp| ->].
  - set (c0 := CrawlState s _ _ _ _ _ _) in *.
    assert (extends_crawl c (record p c0)) as E1.
    { transitivity c0; [by apply moved_extends|by apply record_extends]. }
    assert (visited (record p c0) = visited c ++ [p]) as Hv1.
    { rewrite record_visited. unfold visit. simpl. by rewrite decide_False. }
    assert (exists c', walk (S left) r c = (c', Ok tt) /\
      walked left (if is_ok (status_of p) then extract_odata_ids (body_of p) else []) (record p c0) c')
      as (c' & Hc' & [E2 S2 C2]).
    { rewrite Hrun. destruct (is_ok (status_of p)).
      - apply walked_fold; [done|]. by apply (ec_mgr c).
      - eexists. split; [done|]. apply walked_nil. }
    assert (links p = map normalize_resource_path (if is_ok (status_of p) then extract_odata_ids (body_of p) else []))
      as Hlinks by (unfold links; rewrite Hf; by destruct (is_ok _)).
    exists c'. split; [done|]. split; [by etransitivity| |].
    + intros Q Hstep Hr u Hu Hnu.
      assert (Q p) as HQ by (apply (Hr r); [by left|]; fold p; unfold taken; by rewrite Hs, orb_true_r).
      destruct (decide (u ∈ visited (record p c0))) as [Hu1|Hu1].
      { rewrite Hv1 in Hu1. apply elem_of_app in Hu1 as [?|Hup]; [done|]. by apply list_elem_of_singleton in Hup as ->. }
      apply (S2 Q); try done.
      * intros x y Hx. apply Hstep. intros Hx0. apply Hx. by apply (ec_incl c).
      * intros x Hx. apply (Hstep p); [done..|]. rewrite Hlinks. by apply list_elem_of_fmap_2.
    + intros Hl. rewrite Hv1, length_app in C2. simpl in C2. destruct C2 as [C2 N2]; [lia|].
      assert (p ∈ visited (record p c0)) as Hp1 by (rewrite Hv1; apply elem_of_app; right; by apply list_elem_of_singleton).
      split; [apply Forall_singleton; intros _; by apply (ec_incl (record p c0))|].
      intros u Hu Hnu. destruct (decide (u ∈ visited c ++ [p])) as [Hu1|Hu1]; [|auto]. apply elem_of_app in Hu1 as [?|Hup]; [done|]. apply list_elem_of_singleton in Hup as ->.
      split.
      * intros _. apply (recorded_mono (record p c0)); [done..|]. apply record_recorded.
      * rewrite Hlinks. by apply Forall_fmap.
Qed.

(** *** An invariant of the walk *)

(** What the walk preserves is what marking and recording a path preserve. *)
Lemma walk_preserves (P : crawl W -> Prop) :
  (forall p c, P c -> filtered p = true -> P (visit p c)) ->
  (forall p c s, P c -> normalize_resource_path p = p -> filtered p = false -> in_scope p = true -> p ∉ visited c ->
     P (record p (CrawlState s (visited c) (http_status c) (allowed_methods c) (url_files c) (error_files c) (files c)))) ->
  forall left rs c, same (cm c) -> P c -> P (foldM (fun _ r => walk left r) tt rs c).1.
Proof.
  intros Hv Hr. assert (forall left, (forall r c, same (cm c) -> P c -> P (walk left r c).1) ->
    forall rs c, same (cm c) -> P c -> P (foldM (fun _ r => walk left r) tt rs c).1) as Hfold.
  { intros left IH rs. induction rs as [|r rs IHrs]; intros c Hm Hc; [done|]. cbn [foldM].
    destruct (walk_walked left r c Hm) as (c1 & H1 & [E _ _]). rewrite (bind_ok _ _ _ _ _ H1).
    apply IHrs; [by apply (ec_mgr c)|]. specialize (IH r c Hm Hc). by rewrite H1 in IH. }
  intros left. apply Hfold. induction left as [|left IH]; [done|]. intros r c Hm Hc.
  pose proof (walk_run left r c Hm) as Hrun. cbv zeta in Hrun.
  destruct Hrun as [[Hf ->]|[(Hf & Hp & ->)|(Hf & Hp & Hs & s & Hsm & ->)]]; [by apply Hv|done|].
  specialize (Hr _ _ s Hc (normalize_idem r) Hf Hs Hp). destruct (is_ok _); [|done]. apply Hfold; [done| |done].
  by apply (ec_mgr _ _ (record_extends (normalize_resource_path r) (CrawlState s (visited c) (http_status c)
    (allowed_methods c) (url_files c) (error_files c) (files c)) Hp Hf)).
Qed.

(** A path that was read for the maps. *)
Definition read_path (c : crawl W) (u : string) : Prop :=
  u ∈ visited c /\ u ∉ seeds /\ filtered u = false /\ in_scope u = true.

Definition root_file : string := path_join json_response_dir "_redfish_v1.json".

(** A crawl that did not start yet. *)
Definition fresh (c : crawl W) : Prop :=
  visited c = [] /\ http_status c = [] /\ url_files c = [] /\ error_files c = [] /\ files c = [].

(** The files and the statuses of a crawl are those of the root and of the paths that
    were read. *)
Record wrote (root : pyval) (c : crawl W) : Prop := {
  wr_seeds u : u ∈ seeds -> u ∈ visited c;
  wr_files n : n ∈ dict_keys (files c) -> n = root_file \/ exists u, read_path c u /\ n = file_of u;
  wr_status kz : kz ∈ http_status c ->
    kz = ("/redfish/v1/", 200) \/ exists u, read_path c u /\ kz = (u, status_of u);
  wr_names kf : kf ∈ url_files c ++ error_files c ->
    kf = ("/redfish/v1/", root_file) \/ exists u, read_path c u /\ kf = (u, file_of u);
  wr_root_status : dict_get "/redfish/v1/" (http_status c) = Some 200;
  wr_root_file : (forall u, read_path c u -> file_of u <> root_file) -> dict_get root_file (files c) = Some root;
  wr_recorded u : read_path c u -> dict_get u (http_status c) = Some (status_of u);
  wr_body u : read_path c u -> (forall v, read_path c v -> v <> u -> file_of v <> file_of u) ->
    dict_get (file_of u) (files c) = Some (body_of u)
}.

Lemma read_path_visit p c u : read_path c u -> read_path (visit p c) u.
Proof. intros [Hv H]. split; [by apply visit_incl|done]. Qed.

Lemma read_path_filtered p c u : filtered p = true -> read_path (visit p c) u -> read_path c u.
Proof. intros Hp ([Hv| ->]%visit_inv & Hs & Hf & H); [done|congruence]. Qed.

Lemma wrote_visit root p c : wrote root c -> filtered p = true -> wrote root (visit p c).
Proof.
  intros [S F T N R D Z B] Hp. split; simpl.
  - intros u Hu. by apply visit_incl, S.
  - intros n Hn. destruct (F n Hn) as [?|(u & Hu & ->)]; [by left|]. right. exists u. split; [by apply read_path_visit|done].
  - intros kz Hk. destruct (T kz Hk) as [?|(u & Hu & ->)]; [by left|]. right. exists u. split; [by apply read_path_visit|done].
  - intros kf Hk. destruct (N kf Hk) as [?|(u & Hu & ->)]; [by left|]. right. exists u. split; [by apply read_path_visit|done].
  - done.
  - intros Hu. apply D. intros u Hr. by apply Hu, read_path_visit.
  - intros u Hu. apply Z. by apply (read_path_filtered p).
  - intros u Hu Hv. apply B; [by apply (read_path_filtered p)|]. intros v Hr. by apply Hv, read_path_visit.
Qed.

Lemma record_fields p c :
  http_status (record p c) = dict_set p (status_of p) (http_status c) /\
  files (record p c) = dict_set (file_of p) (body_of p) (files c).
Proof. unfold record. by destruct (is_ok _). Qed.

Lemma dict_set_In {A} (k : string) (v : A) d x : x ∈ dict_set k v d -> x ∈ d \/ x = (k, v).
Proof.
  induction d as [|[k' v'] d IH]; cbn [dict_set]; [intros ->%list_elem_of_singleton; by right|].
  case_decide; rewrite !elem_of_cons; intros [->|Hx]; subst; auto. destruct (IH Hx); auto.
Qed.

Lemma wrote_record root p c s : wrote root c -> normalize_resource_path p = p -> filtered p = false -> in_scope p = true ->
  p ∉ visited c ->
  wrote root (record p (CrawlState s (visited c) (http_status c) (allowed_methods c) (url_files c) (error_files c) (files c))).
Proof.
  intros [S F T N R D Z B] Hn Hf Hs Hp. set (c0 := CrawlState _ _ _ _ _ _ _).
  destruct (record_fields p c0) as [Est Efi]. pose proof (record_visited p c0) as Ev.
  assert (forall u, read_path c u -> read_path (record p c0) u) as Hmono.
  { intros u [Hv Hu]. split; [rewrite Ev; by apply visit_incl|done]. }
  assert (forall u, read_path (record p c0) u -> u <> p -> read_path c u) as Hinv.
  { intros u [Hv Hu] Hne. rewrite Ev in Hv. by apply visit_inv in Hv as [Hv| ->]. }
  assert (read_path (record p c0) p) as Hself.
  { split; [rewrite Ev; apply visit_elem|]. split; [|done]. intros Hseed. by apply Hp, S. }
  split.
  - intros u Hu. rewrite Ev. by apply visit_incl, S.
  - intros n. rewrite Efi, dict_keys_set. case_decide; [intros Hk|intros [Hk|Hk%list_elem_of_singleton]%elem_of_app].
    1, 2: destruct (F n Hk) as [?|(u & Hu & ->)]; [by left|right; exists u; by split; [apply Hmono|]].
    subst n. right. by exists p.
  - intros kz. rewrite Est. intros [Hk| ->]%dict_set_In.
    + destruct (T kz Hk) as [?|(u & Hu & ->)]; [by left|right; exists u; by split; [apply Hmono|]].
    + right. by exists p.
  - intros kf Hk. assert (kf ∈ url_files c ++ error_files c \/ kf = (p, file_of p)) as [Hk'| ->].
    { apply elem_of_app in Hk. rewrite elem_of_app. revert Hk. unfold record.
      destruct (is_ok (status_of p)); cbn [url_files error_files set_url_file set_error_file set_allowed set_files set_status visit];
        intros [Hk|Hk]; try (apply dict_set_In in Hk as [Hk|Hk]); auto. }
    + destruct (N kf Hk') as [?|(u & Hu & ->)]; [by left|right; exists u; by split; [apply Hmono|]].
    + right. by exists p.
  - rewrite Est, dict_get_set_ne; [done|]. intros <-. vm_compute in Hn. done.
  - intros Hu. rewrite Efi, dict_get_set_ne by (by apply not_eq_sym, Hu). apply D. auto.
  - intros u Hu. rewrite Est, dict_get_set. case_decide; [by subst|]. by apply Z, Hinv.
  - intros u Hu Hv. rewrite Efi, dict_get_set. destruct (decide (u = p)) as [->|Hne]; [by rewrite decide_True|].
    rewrite decide_False by (apply not_eq_sym, Hv; auto). apply B; [by apply Hinv|]. auto.
Qed.

(** *** The whole crawl *)

(** The paths that references lead to, through documents that were read with success *)
Inductive followed (root : pyval) : string -> Prop :=
| follow_root r : r ∈ extract_odata_ids root -> taken (normalize_resource_path r) = true ->
    followed root (normalize_resource_path r)
| follow_link u v : followed root u -> u ∉ seeds -> v ∈ links u -> taken v = true -> followed root v.

(** A path can be reached: it is the normal form of a reference of the service root, or of a reference of the document of a
    path that can be reached, that is no seed and not filtered, and that the service answers with success; and it is below
    the root or filtered. *)
Inductive reachable (root : pyval) : string -> Prop :=
| reach_root r : refers root r -> taken (normalize_resource_path r) = true -> reachable root (normalize_resource_path r)
| reach_link u r : reachable root u -> u ∉ seeds -> filtered u = false -> 200 <= status_of u < 300 -> refers (body_of u) r ->
    taken (normalize_resource_path r) = true -> reachable root (normalize_resource_path r).

Lemma reachable_followed root u : reachable root u <-> followed root u.
Proof.
  split.
  - induction 1 as [r Hr Ht|u r _ IH Hs Hf Hok Hr Ht]; [by apply follow_root; [apply refers_extract|]|].
    apply (follow_link root u); try done. unfold links. rewrite Hf. unfold is_ok. rewrite (proj2 (Z.leb_le _ _)), (proj2 (Z.ltb_lt _ _)) by lia.
    apply (list_elem_of_fmap_2 normalize_resource_path). by apply refers_extract.
  - induction 1 as [r Hr Ht|u v _ IH Hs Hl Ht]; [by apply reach_root; [apply refers_extract|]|]. unfold links in Hl.
    destruct (filtered u) eqn:Hf; [by apply not_elem_of_nil in Hl|]. destruct (is_ok (status_of u)) eqn:Hok; [|by apply not_elem_of_nil in Hl].
    apply andb_true_iff in Hok as [H1%Z.leb_le H2%Z.ltb_lt]. apply list_elem_of_fmap in Hl as (r & -> & Hr).
    apply (reach_link root u); try done. by apply refers_extract.
Qed.

(** Following the references of the root visits exactly what is followed, if that is
    at most as much as the depth bound. *)
Lemma walk_complete root resources c :
  same (cm c) -> visited c = seeds ->
  (length resources <= DEFAULT_DISCOVERY_MAX_DEPTH)%nat -> (forall u, followed root u -> u ∈ resources) ->
  exists c', foldM (fun _ r => walk (S DEFAULT_DISCOVERY_MAX_DEPTH) r) tt (extract_odata_ids root) c = (c', Ok tt) /\
    (wrote root c -> wrote root c') /\
    forall u, u ∉ seeds ->
      (u ∈ visited c' <-> followed root u) /\ (followed root u -> filtered u = false -> recorded c' u).
Proof.
  intros Hm Hv Hlen Hres. destruct (walked_fold (S DEFAULT_DISCOVERY_MAX_DEPTH) (extract_odata_ids root) c)
    as (c' & Hrun & [E S C]); [apply walk_walked|done|]. exists c'. split; [done|]. split.
  { intros Hw. pose proof (walk_preserves (wrote root) (wrote_visit root) (wrote_record root)
      (Datatypes.S DEFAULT_DISCOVERY_MAX_DEPTH) (extract_odata_ids root) c Hm Hw) as Hp. by rewrite Hrun in Hp. }
  rewrite Hv in S, C. assert (forall u, u ∈ visited c' -> u ∉ seeds -> followed root u) as Hsound.
  { apply (S (followed root)); [|intros; by apply follow_root]. intros u v Hu Hr Hl Ht. by apply (follow_link root u). }
  destruct C as [Hroot Hset].
  { assert (NoDup (visited c')) as Hnd.
    { apply (ec_nodup _ _ E). rewrite Hv. apply (bool_decide_unpack _). vm_compute. exact I. }
    assert (length (visited c') <= length (seeds ++ resources))%nat as Hle.
    { apply submseteq_length, NoDup_submseteq; [done|]. intros u Hu. apply elem_of_app.
      destruct (decide (u ∈ seeds)); [by left|right; auto]. }
    rewrite length_app in Hle. simpl in *. lia. }
  assert (forall u, followed root u -> u ∈ visited c') as Hcomplete.
  { intros u Hu. induction Hu as [r Hr Ht|u v _ IH Hns Hl Ht].
    - rewrite Forall_forall in Hroot. by apply Hroot.
    - destruct (Hset u IH Hns) as [_ Hc]. rewrite Forall_forall in Hc. by apply Hc. }
  intros u Hns. split; [split; auto|]. intros Hr Hf. by apply Hset; auto.
Qed.

Context (make_temp : string -> res string) (rename : string -> string -> res unit).

Lemma crawl_run root resources numpy_available (c : crawl W) :
  plain m (cm c) -> visited c = [] ->
  read_doc docs m "/redfish/v1/" None = Ok root ->
  (length resources <= DEFAULT_DISCOVERY_MAX_DEPTH)%nat -> (forall u, reachable root u -> u ∈ resources) ->
  exists c' result,
    crawl_host env response_text json_response_dir open_write make_temp rename skip_log_entries (Ok true)
      numpy_available (key_args None) c =
    (save_url_file_mapping json_response_dir open_write make_temp rename numpy_available ;;; ret result) c' /\
    data result = root /\ (fresh c -> wrote root c') /\
    forall u, u ∉ seeds ->
      (u ∈ visited c' <-> reachable root u) /\ (reachable root u -> filtered u = false -> recorded c' u).
Proof.
  intros Hp Hv Hroot Hlen Hres.
  destruct (base_query_served docs m "/redfish/v1/" None (cm c) served Hp) as (s & (Hs & _ & _) & _ & Hq).
  rewrite Hroot in Hq. destruct Hq as [allow Hq]. set (result := mkResult root PNone allow PNone) in *.
  set (f := path_join json_response_dir "_redfish_v1.json").
  set (c1 := CrawlState s (visited c) (http_status c) (allowed_methods c) (url_files c) (error_files c) (files c)).
  set (c2 := visit "/redfish/v1/CompositionService" (visit "/redfish/v1" (set_status "/redfish/v1/" 200
    (set_allowed "/redfish/v1/" (match allow with PStr (String _ _ as h) => allowed_list (Some h) | _ => [] end)
      (set_url_file "/redfish/v1/" f (set_files (dict_set f root (files c)) c1)))))).
  destruct (walk_complete root resources c2) as (c' & Hrun & Hw & Hc'); [done| |done|by intros u Hu%reachable_followed; apply Hres|].
  { unfold c2, visit. simpl. rewrite Hv. reflexivity. }
  setoid_rewrite <- reachable_followed in Hc'.
  exists c', result. split.
  2: { split; [done|]. split; [|done]. intros (_ & Hst & Hur & Her & Hfi). apply Hw. unfold c2, c1. rewrite Hst, Hur, Her, Hfi. split; simpl.
    - intros u Hu. rewrite Hv. exact Hu.
    - intros n Hn. left. by apply list_elem_of_singleton in Hn.
    - intros kz ->%list_elem_of_singleton. by left.
    - intros kf ->%list_elem_of_singleton. by left.
    - done.
    - intros _. fold f root_file. by rewrite decide_True by done.
    - intros u [Hu Hns]. simpl in Hu. rewrite Hv in Hu. by destruct Hns.
    - intros u [Hu Hns]. simpl in Hu. rewrite Hv in Hu. by destruct Hns. }
  unfold crawl_host. rewrite (bind_ok (lift_res (Ok true)) _ c c true eq_refl).
  assert (call (base_query "/redfish/v1/" (key_args None)) c = (c1, Ok result)) as Hcall
    by (unfold call; by rewrite Hq).
  rewrite (bind_ok _ _ _ _ _ Hcall). unfold write_json. rewrite writable.
  change (data result) with root. change (extra result) with allow. fold f.
  unfold bind at 1 2 3 4 5 6 7, lift_res, modify. fold c1.
  change (normalize_resource_path "/redfish/v1/") with "/redfish/v1".
  change (normalize_resource_path "/redfish/v1/CompositionService") with "/redfish/v1/CompositionService".
  exact (bind_ok _ _ _ _ _ Hrun).
Qed.

(** C25. The crawl of a small service is exact.  When the service always answers each URL with the same response, the settings
    are valid and the files can be written, a crawl from a state in which nothing was visited reaches the point where it
    saves its maps; if at most 32 paths can be reached from the service root by following the [@odata.id] and [Uri] texts of
    the documents that are read with success, in normal form and below the root or filtered, then the paths it has visited by
    then are, besides the two seeds, exactly those; each of them that is not filtered is in the status map with the status
    the service answers, in the URL map or the error map with its file, and, if no other path that was read has the same
    flat file name, the file holds the body of the service. *)
Theorem crawl_exact root resources numpy_available (c : crawl W) :
  plain m (cm c) -> visited c = [] ->
  read_doc docs m "/redfish/v1/" None = Ok root ->
  (length resources <= DEFAULT_DISCOVERY_MAX_DEPTH)%nat -> (forall u, reachable root u -> u ∈ resources) ->
  exists c' result,
    crawl_host env response_text json_response_dir open_write make_temp rename skip_log_entries (Ok true)
      numpy_available (key_args None) c =
    (save_url_file_mapping json_response_dir open_write make_temp rename numpy_available ;;; ret result) c' /\
    data result = root /\
    forall u, u ∉ seeds ->
      (u ∈ visited c' <-> reachable root u) /\ (reachable root u -> filtered u = false -> recorded c' u).
Proof.
  intros Hp Hv Hroot Hlen Hres.
  destruct (crawl_run root resources numpy_available c Hp Hv Hroot Hlen Hres) as (c' & result & Hrun & Hd & _ & Hc').
  by exists c', result.
Qed.
End Served.

(** ** How often a resource is requested *)

Section Once.
Context {W : Type} `{!World W}.
Context (env : Config.env) (response_text : response -> string) (json_response_dir : string).
Context (open_write : string -> res unit) (skip_log_entries : bool).
Abbreviation MC := (M (crawl W)).
Abbreviation walk := (recursive_discovery (W := W) env response_text json_response_dir open_write skip_log_entries).

(** The attempts per resource that are configured. *)
Definition max_attempts : nat :=
  match settings env with Ok (attempts, _, _) => Z.to_nat attempts | _ => O end.

(** The requests of [l] for a URL. *)
Definition requests_for (url : string) (l : list request) : list request := filter (fun rq => rq_url rq = url) l.

(** A request the crawl may make from a state in which [seen] is visited. *)
Definition crawl_request (m : manager) (seen : list string) (p : string) (rq : request) : Prop :=
  p ∉ seen /\ in_scope p = true /\ filtered skip_log_entries p = false /\
  rq = sync_request m GET (base_url m p) [] None.

(** From [c] to [c'] only paths that were not visited are requested, each at most
    [max_attempts] times; when the computation returned they are visited. *)
Record fetches (returned : bool) (c c' : crawl W) : Prop := {
  ft_mgr : mgr (cm c') = mgr (cm c);
  ft_incl u : u ∈ visited c -> u ∈ visited c';
  ft_trace : exists l, trace (cm c') = trace (cm c) ++ l /\
    Forall (fun rq => exists p, crawl_request (mgr (cm c)) (visited c) p rq /\ (returned = true -> p ∈ visited c')) l /\
    forall u, (length (requests_for u l) <= max_attempts)%nat
}.

Definition returned {A} (r : res A) : bool := match r with Ok _ => true | _ => false end.
Definition once {A} (k : MC A) : Prop := forall c, fetches (returned (k c).2) c (k c).1.

Lemma fetches_silent b c c' : mgr (cm c') = mgr (cm c) -> trace (cm c') = trace (cm c) ->
  (forall u, u ∈ visited c -> u ∈ visited c') -> fetches b c c'.
Proof.
  intros Hm Ht Hv. split; [done..|]. exists []. rewrite app_nil_r. split; [done|]. split; [constructor|].
  intros u. simpl. lia.
Qed.

Lemma crawl_request_url m seen p rq : crawl_request m seen p rq -> rq_url rq = base_url m p.
Proof. intros (_ & _ & _ & ->). unfold sync_request. by destruct (x_auth m). Qed.

Lemma base_url_inj m p q : base_url m p = base_url m q -> p = q.
Proof. unfold base_url. intros H. apply (inj (String.append _)) in H. by apply (inj (String.append _)) in H. Qed.

Lemma fetches_trans b c1 c2 c3 : fetches true c1 c2 -> fetches b c2 c3 -> fetches b c1 c3.
Proof.
  intros [M1 V1 (l1 & T1 & R1 & N1)] [M2 V2 (l2 & T2 & R2 & N2)]. split; [congruence|auto|].
  exists (l1 ++ l2). split; [by rewrite T2, T1, app_assoc|]. split.
  - apply Forall_app. split.
    + eapply Forall_impl; [exact R1|]. intros rq (p & Hp & Hin). exists p. split; [done|]. intros _. auto.
    + eapply Forall_impl; [exact R2|]. intros rq (p & (Hn & Hs & Hf & ->) & Hin). exists p.
      rewrite M1. split; [|done]. split; [|done]. intros Hp. auto.
  - intros u. unfold requests_for. rewrite filter_app, length_app.
    destruct (filter (fun rq => rq_url rq = u) l1) as [|r1 k1] eqn:H1; [exact (N2 u)|].
    destruct (filter (fun rq => rq_url rq = u) l2) as [|r2 k2] eqn:H2.
    { specialize (N1 u). unfold requests_for in N1. rewrite H1 in N1. simpl in *. lia. }
    exfalso.
    assert (r1 ∈ filter (fun rq => rq_url rq = u) l1) as [Hu1 Hr1]%list_elem_of_filter by (rewrite H1; by left).
    assert (r2 ∈ filter (fun rq => rq_url rq = u) l2) as [Hu2 Hr2]%list_elem_of_filter by (rewrite H2; by left).
    rewrite Forall_forall in R1, R2. destruct (R1 r1 Hr1) as (p1 & Hp1 & Hin1). destruct (R2 r2 Hr2) as (p2 & Hp2 & _).
    pose proof (crawl_request_url _ _ _ _ Hp1) as E1. pose proof (crawl_request_url _ _ _ _ Hp2) as E2.
    rewrite M1 in E2. assert (p1 = p2) as <- by (apply (base_url_inj (mgr (cm c1))); congruence).
    destruct Hp2 as [Hn _]. apply Hn. auto.
Qed.

Lemma once_bind {A B} (k : MC A) (f : A -> MC B) : once k -> (forall a, once (f a)) -> once (bind k f).
Proof.
  intros Hk Hf c. specialize (Hk c). unfold bind. destruct (k c) as [c1 [a|e|]]; simpl in *; [|done..].
  eapply fetches_trans; [exact Hk|apply Hf].
Qed.

Lemma once_foldM {A B} (f : A -> B -> MC A) acc l : (forall a b, once (f a b)) -> once (foldM f acc l).
Proof.
  intros Hf. revert acc. induction l as [|x l IH]; intros acc; simpl; [intros c; by apply fetches_silent|].
  by apply once_bind.
Qed.

Lemma once_modify (f : crawl W -> crawl W) :
  (forall c, cm (f c) = cm c) -> (forall c u, u ∈ visited c -> u ∈ visited (f c)) -> once (modify f).
Proof. intros Hc Hv c. simpl. apply fetches_silent; rewrite ?Hc; auto. Qed.

Lemma once_lift {A} (r : res A) : once (lift_res r).
Proof. intros c. by apply fetches_silent. Qed.

Lemma once_write_json n v : once (write_json open_write n v).
Proof. unfold write_json. apply once_bind; [apply once_lift|]. intros _. by apply once_modify. Qed.

(** [k] sends at most [n] copies of [rq]; nothing else changes. *)
Record repeats (n : nat) (rq : request) (c c' : crawl W) : Prop := {
  rp_mgr : mgr (cm c') = mgr (cm c);
  rp_visited : visited c' = visited c;
  rp_trace : exists l, trace (cm c') = trace (cm c) ++ l /\ (length l <= n)%nat /\ Forall (eq rq) l
}.

Lemma repeats_trans n1 n2 rq c1 c2 c3 : repeats n1 rq c1 c2 -> repeats n2 rq c2 c3 -> repeats (n1 + n2) rq c1 c3.
Proof.
  intros [M1 V1 (l1 & T1 & L1 & F1)] [M2 V2 (l2 & T2 & L2 & F2)]. split; [congruence..|].
  exists (l1 ++ l2). rewrite T2, T1, app_assoc, length_app. split; [done|]. split; [lia|by apply Forall_app].
Qed.

Lemma repeats_silent rq c c' : mgr (cm c') = mgr (cm c) -> visited c' = visited c -> trace (cm c') = trace (cm c) ->
  repeats 0 rq c c'.
Proof. intros Hm Hv Ht. split; [done..|]. exists []. by rewrite app_nil_r. Qed.

Lemma repeats_le n n' rq c c' : (n <= n')%nat -> repeats n rq c c' -> repeats n' rq c c'.
Proof. intros Hn [M V (l & T & L & F)]. split; [done..|]. exists l. split; [done|]. split; [lia|done]. Qed.

Lemma time_sleep_repeats rq d (c : crawl W) : repeats 0 rq c (time_sleep d c).1.
Proof. unfold time_sleep, raise, call, modify, set_world. by destruct (_ <? _); apply repeats_silent. Qed.

Lemma fetch_attempt_sends pace req (c : crawl W) :
  repeats 1 (sync_request (mgr (cm c)) GET req [] None) c (fetch_attempt response_text pace req c).1.
Proof.
  set (rq := sync_request _ _ _ _ _). unfold fetch_attempt, bind at 1, call, api_get_call, bind at 1, gets. fold rq.
  rewrite send_run. set (c1 := CrawlState _ _ _ _ _ _ _).
  assert (repeats 1 rq c c1) as H1 by (split; [done..|]; exists [rq]; by repeat constructor).
  destruct (reply (cm c) rq) as [resp|e|]; [|exact H1..]. unfold bind. destruct (pace.1 =? 0); [exact H1|].
  pose proof (time_sleep_repeats rq pace c1) as H2. destruct (time_sleep pace c1) as [c2 [[]|e|]];
    exact (repeats_trans 1 0 rq c c1 c2 H1 H2).
Qed.

Lemma fetch_loop_sends left attempt backoff pace req (c : crawl W) :
  repeats (S left) (sync_request (mgr (cm c)) GET req [] None) c
    (fetch_loop response_text left attempt backoff pace req c).1.
Proof.
  revert attempt c. induction left as [|left IH]; intros attempt c; cbn [fetch_loop]; unfold try_catch;
    pose proof (fetch_attempt_sends pace req c) as H1; set (rq := sync_request _ _ _ _ _) in *;
    destruct (fetch_attempt response_text pace req c) as [c1 [x|e|]]; simpl in H1.
  1, 3: exact H1.
  - by destruct (is_RequestException e).
  - eapply repeats_le; [|exact H1]. lia.
  - destruct (is_RequestException e); [|eapply repeats_le; [|exact H1]; lia]. unfold bind.
    set (d := Numbers.dec_mul backoff (2 ^ attempt, 0)). pose proof (time_sleep_repeats rq d c1) as H2.
    pose proof (repeats_trans 1 0 rq c c1 _ H1 H2) as H3.
    destruct (time_sleep d c1) as [c2 [[]|e'|]]; simpl in H2, H3; [|eapply repeats_le; [|exact H3]; lia..].
    specialize (IH (attempt + 1) c2). rewrite (rp_mgr _ _ _ _ H3) in IH. exact (repeats_trans 1 (S left) rq c c2 _ H3 IH).
  - eapply repeats_le; [|exact H1]. lia.
Qed.

Lemma fetch_capture_sends p (c : crawl W) :
  repeats max_attempts (sync_request (mgr (cm c)) GET (base_url (mgr (cm c)) p) [] None) c
    (fetch_capture env response_text p c).1.
Proof.
  unfold fetch_capture, max_attempts, bind at 1, lift_res.
  destruct (settings env) as [[[attempts backoff] pace]|e|] eqn:Hs; [|by apply repeats_silent..].
  assert (1 <= attempts) as Ha.
  { unfold settings, res_bind in Hs. destruct (Config.discovery_retries env []).2; [|done..].
    destruct (Config.discovery_backoff env []).2; [|done..]. destruct (Config.discovery_pace_ms env []).2; [|done..].
    injection Hs as <- _ _. lia. }
  eapply repeats_le; [|apply fetch_loop_sends]. lia.
Qed.

Lemma once_walk left r : once (walk left r).
Proof.
  revert r. induction left as [|left IH]; intros r; [intros c; by apply fetches_silent|].
  cbn [recursive_discovery]. set (p := normalize_resource_path r).
  destruct (filtered skip_log_entries p) eqn:Hf.
  { apply once_modify; [done|]. intros c u. apply visit_incl. }
  intros c. rewrite (bind_ok (gets visited) _ c c (visited c) eq_refl).
  destruct (bool_decide (p ∈ visited c)) eqn:Hv; [by apply fetches_silent|]. apply bool_decide_eq_false in Hv.
  destruct (in_scope p) eqn:Hs; cbn [orb negb]; [|by apply fetches_silent].
  pose proof (fetch_capture_sends p c) as Hsend.
  assert (forall b c1 c2, repeats max_attempts (sync_request (mgr (cm c)) GET (base_url (mgr (cm c)) p) [] None) c c1 ->
    mgr (cm c2) = mgr (cm c1) -> trace (cm c2) = trace (cm c1) -> (forall u, u ∈ visited c1 -> u ∈ visited c2) ->
    (b = true -> p ∈ visited c2) -> fetches b c c2) as Hstep.
  { intros b c1 c2 [M1 V1 (l & T1 & L1 & F1)] Hm Ht Hvs Hp. split; [congruence|intros u Hu; apply Hvs; by rewrite V1|].
    exists l. split; [congruence|]. split.
    - eapply Forall_impl; [exact F1|]. intros rq <-. exists p. by repeat split.
    - intros u. etransitivity; [apply length_filter|exact L1]. }
  assert (forall c1, repeats max_attempts (sync_request (mgr (cm c)) GET (base_url (mgr (cm c)) p) [] None) c c1 ->
    fetches true c (visit p c1)) as Hvisit.
  { intros c1 Hr. apply (Hstep true c1); [done..|apply visit_incl|intros _; apply visit_elem]. }
  destruct (fetch_capture env response_text p c) as [c1 [[[status body] allow]|e|]] eqn:Hfetch; simpl in Hsend.
  - rewrite (bind_ok _ _ c c1 (inl (status, body, allow))) by (unfold try_Exception, try_catch, bind; by rewrite Hfetch).
    rewrite (bind_ok (modify (visit p)) _ c1 (visit p c1) tt eq_refl).
    eapply fetches_trans; [by apply Hvisit|]. refine ((_ : once _) (visit p c1)).
    apply once_bind; [by apply once_modify|intros _]. apply once_bind; [apply once_write_json|intros _].
    apply once_bind; [by apply once_modify|intros _].
    destruct (is_ok status); [|by apply once_modify]. apply once_bind; [by apply once_modify|]. intros _.
    by apply once_foldM.
  - destruct (is_Exception e) eqn:He.
    + rewrite (bind_ok _ _ c c1 (inr e)) by (unfold try_Exception, try_catch, bind; by rewrite Hfetch, He).
      rewrite (bind_ok (modify (visit p)) _ c1 (visit p c1) tt eq_refl).
      eapply fetches_trans; [by apply Hvisit|]. by destruct (is_RequestException e); apply fetches_silent.
    + unfold try_Exception, try_catch, bind. rewrite Hfetch, He. by apply (Hstep false c1).
  - unfold try_Exception, try_catch, bind. rewrite Hfetch. by apply (Hstep false c1).
Qed.

Context (make_temp : string -> res string) (rename : string -> string -> res unit).

Lemma once_atomic n v : once (write_json_atomic make_temp rename n v).
Proof.
  unfold write_json_atomic. apply once_bind; [apply once_lift|]. intros tmp.
  apply once_bind; [by apply once_modify|]. intros _ c. unfold try_Exception, try_catch, bind, lift_res.
  destruct (rename tmp n) as [[]|e|]; [by apply fetches_silent| |by apply fetches_silent].
  destruct (is_Exception e); by apply fetches_silent.
Qed.

Lemma once_save np : once (save_url_file_mapping json_response_dir open_write make_temp rename np).
Proof.
  unfold save_url_file_mapping. destruct np; [|intros c; by apply fetches_silent].
  apply once_bind; [intros c; by apply fetches_silent|]. intros c.
  apply once_bind; [apply once_write_json|intros _; apply once_atomic].
Qed.

Lemma once_seeded np result (c : crawl W) :
  let k := modify (visit (normalize_resource_path "/redfish/v1/")) ;;;
    modify (visit (normalize_resource_path "/redfish/v1/CompositionService")) ;;;
    foldM (fun _ r => walk (S DEFAULT_DISCOVERY_MAX_DEPTH) r) tt (extract_odata_ids (data result)) ;;;
    save_url_file_mapping json_response_dir open_write make_temp rename np ;;; ret result in
  exists l, trace (cm (k c).1) = trace (cm c) ++ l /\
    Forall (fun rq => exists p, crawl_request (mgr (cm c)) seeds p rq) l /\
    forall u, (length (requests_for u l) <= max_attempts)%nat.
Proof.
  cbv zeta. set (c2 := visit "/redfish/v1/CompositionService" (visit "/redfish/v1" c)).
  set (k2 := foldM _ _ _ ;;; _).
  change ((_ ;;; _ ;;; k2) c) with (k2 c2).
  assert (once k2) as Hk.
  { unfold k2. apply once_bind; [apply once_foldM; intros _ r; apply once_walk|]. intros _.
    apply once_bind; [apply once_save|]. intros _ c'. by apply fetches_silent. }
  destruct (Hk c2) as [_ _ (l & Ht & Hr & Hn)]. exists l. split; [exact Ht|]. split; [|done].
  eapply Forall_impl; [exact Hr|]. intros rq (p & (Hp & H) & _). exists p. split; [|exact H].
  intros Hs. apply Hp. apply elem_of_cons in Hs as [->|Hs].
  - unfold c2. apply visit_incl, visit_elem.
  - apply list_elem_of_singleton in Hs as ->. apply visit_elem.
Qed.

(** A crawl is polite, whatever the service answers: every request is a GET, and after
    the read of the service root each is the authenticated read of a path below
    /redfish/v1 that is neither filtered nor the root, and a path is requested at most as
    often as attempts are configured, however often it is referenced. *)
Theorem crawl_polite dirs np a (c : crawl W) :
  let c' := (crawl_host env response_text json_response_dir open_write make_temp rename skip_log_entries dirs np a c).1 in
  exists reads l m, trace (cm c') = trace (cm c) ++ reads ++ l /\ Forall is_get reads /\ conn m = conn (mgr (cm c)) /\
    Forall (fun rq => exists p, crawl_request m seeds p rq) l /\
    forall u, (length (requests_for u l) <= max_attempts)%nat.
Proof.
  assert (forall (c' : crawl W) reads, trace (cm c') = trace (cm c) ++ reads -> Forall is_get reads ->
    exists reads l m, trace (cm c') = trace (cm c) ++ reads ++ l /\ Forall is_get reads /\ conn m = conn (mgr (cm c)) /\
    Forall (fun rq => exists p, crawl_request m seeds p rq) l /\
    forall u, (length (requests_for u l) <= max_attempts)%nat) as Hquiet.
  { intros c' reads Ht Hr. exists reads, [], (mgr (cm c)). rewrite app_nil_r. split; [done|]. split; [done|].
    split; [done|]. split; [constructor|]. intros u. simpl. lia. }
  cbv zeta. unfold crawl_host. destruct dirs as [[]|e|]; [|by apply (Hquiet _ []); [rewrite app_nil_r|constructor]..].
  rewrite (bind_ok (lift_res (Ok true)) _ c c true eq_refl).
  destruct (emits_base_query "/redfish/v1/" a (cm c)) as (reads & Ht & Hr).
  pose proof (same_conn_base_query "/redfish/v1/" a (cm c)) as Hc.
  unfold bind at 1, call. destruct (base_query "/redfish/v1/" a (cm c)) as [s [result|e|]]; simpl in Ht, Hc;
    [|by apply (Hquiet _ reads)..].
  unfold write_json. unfold bind at 1 2, lift_res.
  destruct (open_write _) as [[]|e|]; [|by apply (Hquiet _ reads)..].
  unfold bind at 1 2 3, modify at 1 2 3 4.
  match goal with |- context [(?k ?c0).1] => pose proof (once_seeded np result c0) as (l & Hl & Hq & Hn) end.
  exists reads, l, (mgr s). split; [|by repeat split]. etransitivity; [exact Hl|]. simpl. by rewrite Ht, app_assoc.
Qed.
End Once.

(** *** Evaluation *)

Definition no_text (_ : response) : string := "".
Definition can_write (_ : string) : res unit := Ok tt.
Definition temp_name (_ : string) : res string := Ok "/data/tmp0".
Definition can_rename (_ _ : string) : res unit := Ok tt.

Definition ref (u : string) : pyval := PDict [("@odata.id", PStr u)].

Definition start (m : manager) : crawl unit := CrawlState (MState tt [] m [] None) [] [] [] [] [] [].

(** The crawl of a table of documents, and whether the walk stays below the bound. *)
Definition crawl_of (table : list (string * pyval)) : crawl unit * res CommandResult :=
  crawl_host (W := unit) (World0 := doc_world (docs_of "https://10.0.0.42" table)) [] no_text "/data" can_write temp_name
    can_rename true (Ok true) true (key_args None) (start sample_manager).

Definition small_service : list (string * pyval) := [
  ("/redfish/v1/", PDict [("@odata.id", PStr "/redfish/v1/"); ("Systems", ref "/redfish/v1/Systems")]);
  ("/redfish/v1/Systems", PDict [("Members", PList [ref "/redfish/v1/Systems/1/"; ref "/redfish/v1/Systems/2"])]);
  ("/redfish/v1/Systems/1", PDict [("Log", ref "/redfish/v1/Systems/1/LogServices/Sel/Entries")])].

Lemma crawl_exact_witness :
  exists (c' : crawl unit) result,
    crawl_of small_service = (save_url_file_mapping "/data" can_write temp_name can_rename true ;;; ret result) c' /\
    dict_get "/redfish/v1/Systems/2" (http_status c') = Some 404.
Proof.
  destruct (@crawl_exact unit (doc_world (docs_of "https://10.0.0.42" small_service)) [] no_text "/data" can_write true
    (docs_of "https://10.0.0.42" small_service) sample_manager (doc_world_serves _) (fun _ => eq_refl)
    4 (20, -1) (0, -3) ltac:(vm_compute; reflexivity) ltac:(vm_compute; discriminate) temp_name can_rename
    (PDict [("@odata.id", PStr "/redfish/v1/"); ("Systems", ref "/redfish/v1/Systems")])
    ["/redfish/v1"; "/redfish/v1/Systems"; "/redfish/v1/Systems/1"; "/redfish/v1/Systems/2";
     "/redfish/v1/Systems/1/LogServices/Sel/Entries"] true (start sample_manager))
    as (c' & result & Hrun & _ & Hc').
  - done.
  - done.
  - vm_compute. reflexivity.
  - vm_compute. lia.
  - intros u Hu%reachable_followed. induction Hu as [r Hr Ht|u v _ IH Hns Hl Ht].
    + vm_compute in Hr. apply elem_of_cons in Hr as [->|Hr]; [by left|].
      apply list_elem_of_singleton in Hr as ->. by right; left.
    + repeat (apply elem_of_cons in IH as [->|IH]; [vm_compute in Hl;
        repeat (apply elem_of_cons in Hl as [->|Hl]; [apply (bool_decide_unpack _); vm_compute; exact I|]);
        by inversion Hl|]). by inversion IH.
  - exists c', result. split; [exact Hrun|].
    destruct (Hc' "/redfish/v1/Systems/2") as [_ Hrec]; [apply (bool_decide_unpack _); vm_compute; exact I|].
    destruct Hrec as [Hs _ _ _]; [|vm_compute; reflexivity|rewrite Hs; vm_compute; reflexivity].
    apply reachable_followed, (follow_link _ _ _ _ _ "/redfish/v1/Systems").
    + apply (follow_root _ _ _ _ _ "/redfish/v1/Systems"); [right; left|vm_compute; reflexivity].
    + apply (bool_decide_unpack _). vm_compute. exact I.
    + vm_compute. right. left.
    + vm_compute. reflexivity.
Defined.

(** ** Saving is atomic *)

(** The status map is replaced as a whole or not at all.  If the write returns, the
    target holds the new document, the temporary file is gone and no other file changed;
    if it raises, every file is as it was before, provided that the temporary name was
    new. *)
Theorem write_json_atomic_safe {W} (make_temp : string -> res string) rename path payload (c : crawl W) :
  let out := write_json_atomic make_temp rename path payload c in
  match make_temp (dir_of path) with
  | Ok tmp =>
      dict_get tmp (files c) = None -> tmp <> path ->
      match out.2 with
      | Ok _ => forall n, dict_get n (files out.1) = if decide (n = path) then Some payload else dict_get n (files c)
      | Raise e => is_Exception e = true -> forall n, dict_get n (files out.1) = dict_get n (files c)
      | NoFuel => True
      end
  | _ => out.1 = c
  end.
Proof.
  cbv zeta. unfold write_json_atomic, bind at 1, lift_res at 1. destruct (make_temp (dir_of path)) as [tmp|e|]; [|done..].
  intros Hnew Hne. assert (forall n, dict_get n (dict_del tmp (dict_set tmp payload (files c))) = dict_get n (files c)) as Hdel.
  { intros n. destruct (decide (n = tmp)) as [->|Hn]; [by rewrite dict_get_del_eq|].
    by rewrite dict_get_del_ne, dict_get_set_ne. }
  unfold bind, modify, try_Exception, try_catch, lift_res, raise. destruct (rename tmp path) as [[]|e|]; simpl.
  - intros n. rewrite dict_get_set. case_decide; [done|]. apply Hdel.
  - destruct (is_Exception e) eqn:He; [|simpl; congruence]. intros _. exact Hdel.
  - done.
Qed.

Lemma write_json_atomic_safe_witness :
  let c := CrawlState (MState tt [] sample_manager [] None) [] [] [] [] [] [("/data/map.json", PInt 1)] in
  let out := write_json_atomic temp_name (fun _ _ => Raise (OtherError "OSError" "disk")) "/data/map.json" (PInt 2) c in
  dict_get "/data/map.json" (files out.1) = Some (PInt 1) /\ out.2 = Raise (OtherError "OSError" "disk").
Proof.
  cbv zeta. split; [|reflexivity].
  exact (write_json_atomic_safe temp_name (fun _ _ => Raise (OtherError "OSError" "disk")) "/data/map.json" (PInt 2)
    (CrawlState (MState tt [] sample_manager [] None) [] [] [] [] [] [("/data/map.json", PInt 1)])
    ltac:(vm_compute; reflexivity) ltac:(vm_compute; discriminate) ltac:(vm_compute; reflexivity) "/data/map.json").
Defined.

(** ** What a crawl misses *)

(** A chain of 33 resources, the last of which the root references as well. *)
Definition chain (i : nat) : string := "/redfish/v1/R" +:+ pretty i.

Definition deep_service : list (string * pyval) :=
  ("/redfish/v1/", PDict [("First", ref (chain 0)); ("Last", ref (chain 32))]) ::
  map (fun i => (chain i, PDict [("Next", ref (chain (S i)))])) (seq 0 33) ++ [(chain 33, PDict [("Id", PStr "leaf")])].

(** The depth bound loses resources that are near the root.  A document that is reached
    at the bound is marked as visited without its references being followed, and a later,
    shorter way to it does not follow them either: here the last resource is two
    references away from the service root, the crawl returns without an error, and it is
    in none of its maps. *)
Theorem depth_bound_loses_near_resource :
  chain 32 ∈ extract_odata_ids (PDict [("First", ref (chain 0)); ("Last", ref (chain 32))]) /\
  dict_get "/redfish/v1/" deep_service = Some (PDict [("First", ref (chain 0)); ("Last", ref (chain 32))]) /\
  dict_get (chain 32) deep_service = Some (PDict [("Next", ref (chain 33))]) /\
  returned (crawl_of deep_service).2 = true /\
  chain 32 ∈ visited (crawl_of deep_service).1 /\ chain 33 ∉ visited (crawl_of deep_service).1 /\
  dict_get (chain 33) (http_status (crawl_of deep_service).1) = None.
Proof. repeat split; apply (bool_decide_unpack _); vm_compute; exact I. Qed.

Definition colliding_service : list (string * pyval) := [
  ("/redfish/v1/", PDict [("A", ref "/redfish/v1/A/B"); ("B", ref "/redfish/v1/A_B")]);
  ("/redfish/v1/A/B", PDict [("Id", PStr "first")]);
  ("/redfish/v1/A_B", PDict [("Id", PStr "second")])].

(** Flat file names lose documents: two resources whose paths differ only in a slash
    for an underscore are both mapped to one file, which holds the document that was read
    last. *)
Theorem flat_names_collide :
  let c := (crawl_of colliding_service).1 in
  dict_get "/redfish/v1/A/B" (url_files c) = Some "/data/_redfish_v1_A_B.json" /\
  dict_get "/redfish/v1/A_B" (url_files c) = Some "/data/_redfish_v1_A_B.json" /\
  dict_get "/data/_redfish_v1_A_B.json" (files c) = Some (PDict [("Id", PStr "second")]).
Proof. vm_compute. done. Qed.
End Crawl.
