(* ===== verification/CrawlReplay.v ===== *)
(** * Replaying a crawl

    The discovery crawl (src/redfish_ctl/discovery/cmd_discovery.py) writes the
    directory that the mock BMC (src/k8s/sandbox/mock_bmc_server.py) serves.  This
    file puts the two together: the files of a crawl are the file system of the mock,
    and the mock answers as the crawled service did. *)

From stdpp Require Import base list strings pretty.
From Stdlib Require Import Ascii ZArith Lia.
From S2P Require Import Prelude PyVal Effects Http Numbers Manager Config MockOverlay MockRules MockServer Crawl.

Module CrawlReplay.
Import MockOverlay MockRules MockServer.
Import Http RedfishManager Crawl.
Local Open Scope Z_scope.
Local Open Scope py_scope.

(** ** The directory of a crawl *)

(** [s] without the prefix [p]. *)
Fixpoint strip_prefix (p s : string) : option string :=
  match p, s with
  | EmptyString, _ => Some s
  | String a p', String b s' => if decide (a = b) then strip_prefix p' s' else None
  | String _ _, EmptyString => None
  end.

Definition is_slash_char (c : ascii) : bool := bool_decide (c = "/"%char).

Section Disk.
(** The directory, and the text of a document as [json.dump] writes it. *)
Context (corpus : path) (text : pyval -> string) (d : list (string * pyval)).

(** The names in the directory. *)
Definition names_in (p : path) : list string :=
  filter (fun n => PyStr.has_char is_slash_char n = false)
    (omap (fun kv => strip_prefix (path_str p +:+ "/") kv.1) d).

(** The files the crawl wrote, as the mock sees them: there are no links, and a file
    that was written with [json.dump] is read back as the document. *)
Definition disk : Files := {|
  file_exists p := dict_in (path_str p) d;
  is_dir p := bool_decide (p = corpus);
  is_file p := dict_in (path_str p) d;
  listdir p := names_in p;
  resolve_path p := Ok p;
  read_file p :=
    match dict_get (path_str p) d with
    | Some v => Ok (File (text v) (inl v))
    | None => Raise (FileNotFoundError (path_str p))
    end
|}.

(** [np.load(...).item()] of a file that was written with [np.save]. *)
Definition load_npy (p : path) : res pyval :=
  match dict_get (path_str p) d with
  | Some v => Ok v
  | None => Raise (FileNotFoundError (path_str p))
  end.
End Disk.

(** The mock on the files of a crawl: [make_handler(corpus_dir)] and a GET. *)
Definition mock_of (corpus : path) (text : pyval -> string) {W} (c : crawl W)
  : res (MockServer.config * option engine) :=
  @make_handler (disk corpus text (files c)) (load_npy (files c)) true None corpus None None 0 "" "".

Definition mock_get (corpus : path) (text : pyval -> string) {W} (c : crawl W)
    (cs : MockServer.config * option engine) (p : string) : res MockServer.reply :=
  @do_GET (disk corpus text (files c)) cs.1 (HttpRequest p None None) cs.2.

(** ** Loading the maps *)

Definition maps {W} (c : crawl W) : pydict :=
  [("url_file_mapping", str_map (url_files c)); ("allowed_methods_mapping", list_map (allowed_methods c));
   ("http_status_mapping", int_map (http_status c)); ("error_file_mapping", str_map (error_files c))].

Definition sidecar {W} (c : crawl W) : pydict :=
  [("http_status_mapping", int_map (http_status c)); ("error_file_mapping", str_map (error_files c))].

Definition valid_status (z : Z) : bool := (100 <=? z) && (z <=? 599).

Definition valid_statuses {W} (c : crawl W) : bool := forallb (fun kv => valid_status kv.2) (http_status c).

Definition raises_ValueError {A} (r : res A) : Prop := exists m, r = Raise (ValueError m).

Lemma check_statuses p (st : list (string * Z)) :
  let l := map (fun kv => (kv.1, PInt kv.2)) st in
  if forallb (fun kv => valid_status kv.2) st then res_map (check_status p) l = Ok l
  else raises_ValueError (res_map (check_status p) l).
Proof.
  cbv zeta. induction st as [|[k z] st IH]; [done|]. cbn [map forallb res_map fst snd].
  unfold check_status at 1 3. cbn [fst snd Numbers.py_int].
  replace ((z <? 100) || (599 <? z)) with (negb (valid_status z)) by (unfold valid_status; lia).
  destruct (valid_status z); cbn [negb andb]; [|by eexists]. simpl.
  destruct (forallb _ st); [by rewrite IH|]. destruct IH as [m ->]. by eexists.
Qed.

Lemma validate_maps {W} (c : crawl W) p (e : pydict) :
  e = maps c \/ e = sidecar c ->
  if valid_statuses c then validate_rest_api_map e p = Ok e
  else raises_ValueError (validate_rest_api_map e p).
Proof.
  intros He. pose proof (check_statuses p (http_status c)) as Hst. cbv zeta in Hst.
  unfold valid_statuses. destruct (forallb _ _).
  - destruct He as [-> | ->]; unfold validate_rest_api_map; simpl; by rewrite Hst.
  - destruct Hst as [m Hst]. exists m. destruct He as [-> | ->]; unfold validate_rest_api_map; simpl; by rewrite Hst.
Qed.

Lemma load_sidecar {W} (c : crawl W) corpus text d p :
  dict_get (path_str p) d = Some (PDict (sidecar c)) ->
  @load_rest_api_map_json (disk corpus text d) p = validate_rest_api_map (sidecar c) p.
Proof. intros Hs. unfold load_rest_api_map_json. cbn [read_file disk]. by rewrite Hs. Qed.

Lemma dict_in_some (k : string) (d : pydict) v : dict_get k d = Some v -> dict_in k d = true.
Proof. unfold dict_in. by intros ->. Qed.

(** The maps are accepted exactly when every recorded status is a HTTP status. *)
Lemma load_maps {W} (c : crawl W) corpus text d :
  dict_get (path_str (MockServer.path_join corpus (parse_path status_json))) d = Some (PDict (sidecar c)) ->
  dict_get (path_str (MockServer.path_join corpus (parse_path "rest_api_map.npy"))) d = Some (PDict (maps c)) ->
  let r := @load_rest_api_map (disk corpus text d) (load_npy d) true corpus in
  if valid_statuses c then r = Ok (maps c) else raises_ValueError r.
Proof.
  intros Hs Hm. cbv zeta. unfold load_rest_api_map. rewrite (load_sidecar c) by done.
  cbn [file_exists disk]. rewrite (dict_in_some _ _ _ Hs), (dict_in_some _ _ _ Hm).
  unfold load_rest_api_map_npy, load_npy. rewrite Hm.
  pose proof (fun p => validate_maps c p (sidecar c) (or_intror eq_refl)) as Hvs.
  pose proof (fun p => validate_maps c p (maps c) (or_introl eq_refl)) as Hvm.
  destruct (valid_statuses c).
  - rewrite Hvs, Hvm. cbn [res_bind negb]. exact (Hvm _).
  - destruct (Hvs (MockServer.path_join corpus (parse_path status_json))) as [m ->]. by eexists.
Qed.

(** ** Saving *)

(** An absolute directory other than the root. *)
Definition absolute_dir (p : path) : Prop :=
  rooted p = true /\ comps p <> [] /\ PyStr.endswith "/" (path_str p) = false.

Lemma join_snoc sep l x : l <> [] -> PyStr.join sep (l ++ [x]) = PyStr.join sep l +:+ sep +:+ x.
Proof.
  induction l as [|a l IH]; [done|]. intros _. destruct l as [|b l]; [done|].
  rewrite <- app_comm_cons. rewrite <- app_comm_cons. rewrite !join_cons2. rewrite app_comm_cons, IH by done.
  by rewrite !append_assoc.
Qed.

Lemma child_path p name : absolute_dir p ->
  path_str (MockServer.path_join p (Path false [name])) = path_str p +:+ "/" +:+ name.
Proof.
  intros (Hr & Hc & _). unfold MockServer.path_join, path_str. cbn [rooted comps]. rewrite Hr.
  by rewrite join_snoc, append_assoc.
Qed.

Lemma child_name p name : absolute_dir p -> PyStr.startswith "/" name = false ->
  path_join (path_str p) name = path_str p +:+ "/" +:+ name.
Proof.
  intros (Hr & _ & He) Hn. unfold path_join. rewrite Hn, He.
  assert (PyStr.nonempty (path_str p) = true) as -> by (unfold path_str; by rewrite Hr). done.
Qed.

Lemma child_rooted p name : absolute_dir p -> PyStr.startswith "/" (path_str p +:+ "/" +:+ name) = true.
Proof. intros (Hr & _ & _). unfold path_str. by rewrite Hr. Qed.

Lemma dict_del_set_new {A} k (v : A) d : dict_get k d = None -> dict_del k (dict_set k v d) = d.
Proof.
  unfold dict_del. induction d as [|[k' v'] d IH]; cbn [dict_get dict_set].
  - intros _. by rewrite filter_cons_False by (simpl; tauto).
  - destruct (decide (k = k')) as [->|Hk]; [done|]. intros Hd. cbn [dict_set]. rewrite filter_cons_True by (simpl; congruence). by rewrite IH.
Qed.

Section Saved.
Context {W : Type} `{!World W}.
Context (corpus : path) (Hcorpus : absolute_dir corpus).
Context (open_write : string -> res unit) (make_temp : string -> res string) (rename : string -> string -> res unit).
Context (writable : forall n, open_write n = Ok tt) (renames : forall a b, rename a b = Ok tt).
Context (tmp : string) (fresh : make_temp (dir_of (path_join (path_str corpus) REST_API_STATUS_MAP_JSON)) = Ok tmp).

Abbreviation in_dir n := (path_str corpus +:+ "/" +:+ n).

(** The temporary name is new. *)
Definition new_name (c : crawl W) : Prop := dict_get tmp (files c) = None /\ tmp <> in_dir "rest_api_map.npy".

Definition after_save (c : crawl W) : crawl W :=
  set_files (dict_set (in_dir status_json) (PDict (sidecar c))
               (dict_set (in_dir "rest_api_map.npy") (PDict (maps c)) (files c))) c.

Lemma save_run c : new_name c ->
  save_url_file_mapping (path_str corpus) open_write make_temp rename true c = (after_save c, Ok tt).
Proof.
  intros [Hnew Hne]. unfold save_url_file_mapping.
  rewrite (bind_ok get_state _ c c c eq_refl).
  rewrite (child_name corpus "rest_api_map.npy") by done.
  assert (path_join (path_str corpus) (in_dir "rest_api_map.npy") = in_dir "rest_api_map.npy") as ->
    by (unfold path_join at 1; by rewrite child_rooted).
  unfold write_json. rewrite writable. unfold bind, lift_res, modify, write_json_atomic, try_Exception, try_catch, bind, modify.
  rewrite fresh. cbn [fst snd lift_res]. rewrite renames.
  rewrite (child_name corpus REST_API_STATUS_MAP_JSON) by done.
  unfold after_save. f_equal. unfold set_files. cbn [files cm visited http_status allowed_methods url_files error_files].
  rewrite dict_del_set_new; [done|]. by rewrite dict_get_set_ne.
Qed.

Lemma status_map_path : path_str (MockServer.path_join corpus (parse_path status_json)) = in_dir status_json.
Proof. change (parse_path status_json) with (Path false [status_json]). by apply child_path. Qed.

Lemma api_map_path : path_str (MockServer.path_join corpus (parse_path "rest_api_map.npy")) = in_dir "rest_api_map.npy".
Proof. change (parse_path "rest_api_map.npy") with (Path false ["rest_api_map.npy"]). by apply child_path. Qed.

Lemma append_inj_l a b c : a +:+ b = a +:+ c -> b = c.
Proof. apply (inj (String.append a)). Qed.

Lemma load_after_save c text :
  let r := @load_rest_api_map (disk corpus text (files (after_save c))) (load_npy (files (after_save c))) true corpus in
  if valid_statuses c then r = Ok (maps c) else raises_ValueError r.
Proof.
  apply (load_maps c); cbn [after_save files set_files].
  - by rewrite status_map_path, dict_get_set_eq.
  - rewrite api_map_path, dict_get_set_ne, dict_get_set_eq; [done|]. intros Heq%append_inj_l. done.
Qed.

(** A directory with one failed read is refused. *)
Lemma mock_refuses c text : valid_statuses c = false -> raises_ValueError (mock_of corpus text (after_save c)).
Proof.
  intros Hv. unfold mock_of, make_handler. cbn [is_dir disk]. rewrite bool_decide_true by done. cbn [negb].
  pose proof (load_after_save c text) as Hl. cbv zeta in Hl. rewrite Hv in Hl. destruct Hl as [m ->]. by eexists.
Qed.
End Saved.

(** ** Finding a file in the directory *)

Lemma strip_prefix_spec p s r : strip_prefix p s = Some r <-> s = p +:+ r.
Proof.
  revert s. induction p as [|a p IH]; intros s; cbn [strip_prefix].
  - split; [by intros [= ->]|by intros ->].
  - rewrite append_cons. destruct s as [|b s]; [done|]. destruct (decide (a = b)) as [->|Hn].
    + rewrite IH. split; [by intros ->|by intros [= ->]].
    + split; [done|]. by intros [= ->].
Qed.

Lemma names_in_spec d p n :
  n ∈ names_in d p <-> PyStr.has_char is_slash_char n = false /\ path_str p +:+ "/" +:+ n ∈ dict_keys d.
Proof.
  unfold names_in, dict_keys. rewrite list_elem_of_filter, list_elem_of_omap, list_elem_of_fmap. split.
  - intros [Hn ([k v] & Hin & Hs)]. split; [done|]. exists (k, v). split; [|done].
    apply strip_prefix_spec in Hs. cbn [fst] in *. by rewrite Hs, append_assoc.
  - intros [Hn ([k v] & Hk & Hin)]. split; [done|]. exists (k, v). split; [done|].
    apply strip_prefix_spec. cbn [fst] in *. by rewrite <- Hk, append_assoc.
Qed.

(** A name is found under its lower-case form if no other name in the directory has
    the same one. *)
Lemma index_lookup {fs : Files} root name :
  name ∈ listdir root -> fnmatchcase name "*.json" = true ->
  (forall n, n ∈ listdir root -> fnmatchcase n "*.json" = true -> PyStr.lower n = PyStr.lower name -> n = name) ->
  dict_get (PyStr.lower name) (build_fixture_index root) = Some (MockServer.path_join root (Path false [name])).
Proof.
  intros Hin Hm Huniq. unfold build_fixture_index.
  set (names := filter _ _). assert (name ∈ names) as Hname by (unfold names; by apply list_elem_of_filter).
  assert (forall n, n ∈ names -> PyStr.lower n = PyStr.lower name -> n = name) as Hu.
  { intros n [Hn1 Hn2]%list_elem_of_filter. by apply Huniq. }
  clearbody names. clear -Hname Hu. generalize (@nil (string * path)) as acc.
  assert (forall acc, (forall n, n ∈ names -> PyStr.lower n = PyStr.lower name -> n = name) ->
    name ∈ names \/ dict_get (PyStr.lower name) acc = Some (MockServer.path_join root (Path false [name])) ->
    dict_get (PyStr.lower name)
      (fold_left (fun acc n => dict_set (PyStr.lower n) (MockServer.path_join root (Path false [n])) acc) names acc) =
    Some (MockServer.path_join root (Path false [name]))) as H; [|intros acc; apply H; auto].
  clear Hname Hu. induction names as [|n names IH]; intros acc Hu Hor; cbn [fold_left].
  - destruct Hor as [Hor|Hor]; [by apply not_elem_of_nil in Hor|done].
  - apply IH; [intros n' Hn'; apply Hu; by right|]. rewrite dict_get_set.
    destruct (decide (PyStr.lower name = PyStr.lower n)) as [Heq|Hne].
    + right. by rewrite (Hu n (list_elem_of_here _ _) (eq_sym Heq)).
    + destruct Hor as [[->|Hor]%elem_of_cons|Hor]; [done|by left|by right].
Qed.

(** ** Names *)

Lemma map_chars_app f a b : PyStr.map_chars f (a +:+ b) = PyStr.map_chars f a +:+ PyStr.map_chars f b.
Proof. induction a as [|c a IH]; [done|]. rewrite append_cons. cbn [PyStr.map_chars]. by rewrite IH. Qed.

Lemma flat_no_slash p : PyStr.has_char is_slash_char (flat_name p) = false.
Proof.
  unfold flat_name. induction p as [|c p IH]; [done|]. cbn [PyStr.map_chars PyStr.has_char]. rewrite IH.
  case_decide as Hc; [done|]. unfold is_slash_char. by rewrite bool_decide_false.
Qed.

Lemma has_char_app q a b : PyStr.has_char q (a +:+ b) = PyStr.has_char q a || PyStr.has_char q b.
Proof. induction a as [|c a IH]; [done|]. rewrite append_cons. cbn [PyStr.has_char]. by rewrite IH, orb_assoc. Qed.

Lemma json_matches n : fnmatchcase (n +:+ ".json") "*.json" = true.
Proof.
  unfold fnmatchcase. change (parse_glob _ "*.json") with
    [GStar; GChar "."; GChar "j"; GChar "s"; GChar "o"; GChar "n"].
  induction n as [|c n IH]; [vm_compute; reflexivity|]. rewrite append_cons. cbn [glob_matches].
  apply orb_true_iff. right. exact IH.
Qed.

Lemma join_split_flat s : PyStr.join "_" (PyStr.split "/" s) = flat_name s.
Proof.
  unfold flat_name. induction s as [|x s IH]; [done|]. cbn [PyStr.split PyStr.map_chars].
  pose proof (split_nonempty "/" s) as Hne. destruct (PyStr.split "/" s) as [|w ws]; [done|].
  case_decide; subst.
  - rewrite join_cons2, append_empty_l, append_cons, append_empty_l. by f_equal.
  - rewrite join_cons_char. by f_equal.
Qed.

Lemma startswith_split p s : PyStr.startswith p s = true -> exists r, s = p +:+ r.
Proof.
  revert s. induction p as [|a p IH]; intros [|b s]; cbn [PyStr.startswith]; [by eexists|by eexists|done|].
  case_decide; [subst|done]. intros (r & ->)%IH. exists r. by rewrite append_cons.
Qed.

(** A path that the crawl reads. *)
Definition readable (u : string) : Prop :=
  normalize_resource_path u = u /\ in_scope u = true /\ u <> "/redfish/v1".

Lemma readable_rest u : readable u -> exists c rest, u = "/redfish/v1" +:+ String c rest.
Proof.
  intros (_ & Hs & Hn). apply startswith_split in Hs as [[|c rest] ->]; [by rewrite append_empty_r in Hn|by eauto].
Qed.

Lemma rstrip_by_nonempty q c d s : q d = false -> PyStr.nonempty (PyStr.rstrip_by q (String c (String d s))) = true.
Proof. intros Hd. cbn [PyStr.rstrip_by]. destruct (PyStr.rstrip_by q s); [by rewrite Hd|done]. Qed.

Lemma readable_rstrip u : readable u -> PyStr.rstrip_char "/" u = u.
Proof.
  intros Hu. pose proof Hu as (Hn & _). destruct (readable_rest u Hu) as (c & rest & Heq).
  rewrite normalize_eq in Hn. set (x := squeeze _) in Hn. unfold trim in Hn.
  destruct (1 <? String.length x)%nat eqn:Hl.
  - destruct (PyStr.nonempty (PyStr.rstrip_char "/" x)) eqn:He.
    + rewrite <- Hn. apply rstrip_by_idem.
    + exfalso. cbv zeta in Hn. rewrite Hn, Heq in He. unfold PyStr.rstrip_char in He. rewrite !append_cons in He.
      by rewrite rstrip_by_nonempty in He.
  - exfalso. apply Nat.ltb_ge in Hl. rewrite Hn, Heq in Hl. simpl in Hl. lia.
Qed.

Lemma readable_key u : readable u -> fixture_key u = PyStr.lower (flat_name u +:+ ".json").
Proof.
  intros Hu. unfold fixture_key. rewrite readable_rstrip by done. rewrite join_split_flat.
  destruct (readable_rest u Hu) as (c & rest & ->). reflexivity.
Qed.

(** The name of a captured response in the directory. *)
Definition base_name (u : string) (status : Z) : string :=
  flat_name u +:+ (if is_ok status then ".json" else ".error.json").

Lemma lower_length s : String.length (PyStr.lower s) = String.length s.
Proof. unfold PyStr.lower. induction s as [|c s IH]; [done|]. simpl. by rewrite IH. Qed.

Lemma base_name_front u z : in_scope u = true -> exists rest, base_name u z = "_redfish_v1" +:+ rest.
Proof. intros [r ->]%startswith_split. eexists. unfold base_name, flat_name. rewrite map_chars_app, append_assoc. reflexivity. Qed.

Lemma base_name_not_root u z : readable u -> PyStr.lower (base_name u z) <> "_redfish_v1.json".
Proof.
  intros Hu Heq. apply (f_equal String.length) in Heq. rewrite lower_length in Heq.
  destruct (readable_rest u Hu) as (c & rest & ->). revert Heq. unfold base_name, flat_name.
  assert (forall a b, String.length (a +:+ b) = (String.length a + String.length b)%nat) as Hlen.
  { intros a b. induction a as [|x a IH]; [done|]. rewrite append_cons. simpl. by rewrite IH. }
  rewrite map_chars_app, append_assoc, Hlen. cbn [PyStr.map_chars]. rewrite append_cons. cbn [String.length]. rewrite Hlen.
  destruct (is_ok z); simpl; lia.
Qed.

Lemma base_name_no_slash u z : PyStr.has_char is_slash_char (base_name u z) = false.
Proof. unfold base_name. rewrite has_char_app, flat_no_slash. by destruct (is_ok z). Qed.

Lemma base_name_json u z : fnmatchcase (base_name u z) "*.json" = true.
Proof.
  unfold base_name. destruct (is_ok z); [apply json_matches|].
  change ".error.json" with (".error" +:+ ".json"). rewrite <- append_assoc. apply json_matches.
Qed.

(** ** What the mock answers *)

Lemma dict_get_map {A B} (f : A -> B) k (d : list (string * A)) :
  dict_get k (map (fun kv => (kv.1, f kv.2)) d) = f <$> dict_get k d.
Proof. induction d as [|[k' v] d IH]; [done|]. cbn [map dict_get fst snd]. by case_decide. Qed.

Lemma as_dict_dict d : as_dict (py_or (PDict d) (PDict [])) = d.
Proof. by destruct d. Qed.

Lemma dict_in_false k (d : pydict) : dict_in k d = false <-> dict_get k d = None.
Proof. unfold dict_in. destruct (dict_get k d); split; done. Qed.

Lemma lookup_one d u : normalize_request_path u = Ok u -> u <> "/redfish/v1" -> lookup_mapping d u = Ok (dget u d).
Proof.
  intros Hn Hu. unfold lookup_mapping, candidate_map_keys. rewrite Hn. cbn [res_bind]. rewrite decide_False by done.
  cbn [res_bind List.find]. unfold dget, dict_get_or. destruct (dict_in u d) eqn:Hin; [done|].
  apply dict_in_false in Hin. by rewrite Hin.
Qed.

Lemma lookup_root d : dict_get "/redfish/v1" d = None -> lookup_mapping d "/redfish/v1" = Ok (dget "/redfish/v1/" d).
Proof.
  intros Hd. unfold lookup_mapping, candidate_map_keys. change (normalize_request_path "/redfish/v1") with (Ok "/redfish/v1").
  cbn [res_bind]. rewrite decide_True by done. cbn [List.find]. rewrite (proj2 (dict_in_false _ _) Hd).
  destruct (dict_in "/redfish/v1/" d) eqn:Hin; [done|]. apply dict_in_false in Hin. unfold dget, dict_get_or. by rewrite Hin.
Qed.

(** An absolute name in a map is not used. *)
Lemma mapped_absolute {fs : Files} corpus v : (forall n, v = PStr n -> PyStr.startswith "/" n = true) ->
  v = PNone \/ (exists n, v = PStr n) -> resolve_mapped_fixture corpus v = Ok None.
Proof.
  intros Ha [->|[n ->]]; [done|]. cbn [resolve_mapped_fixture]. destruct (PyStr.nonempty n); [|done].
  cbn [rooted parse_path]. by rewrite (Ha n).
Qed.

Lemma in_dir_inj d a b : d +:+ "/" +:+ a = d +:+ "/" +:+ b -> a = b.
Proof. by intros Heq%append_inj_l%append_inj_l. Qed.

Section Replayed.
Context {W : Type} `{!World W}.
Context (response_text : response -> string) (corpus : path) (skip_log_entries : bool) (docs : string -> response) (m : manager).
Context (Hcorpus : absolute_dir corpus) (text : pyval -> string).
Abbreviation dir := (path_str corpus).
Abbreviation status_of := (status_of response_text docs m).
Abbreviation body_of := (body_of response_text docs m).
Abbreviation file_of := (file_of response_text dir docs m).
Abbreviation reachable := (reachable response_text skip_log_entries docs m).
Abbreviation filtered := (filtered skip_log_entries).
Abbreviation name_of u := (base_name u (status_of u)).
Abbreviation in_dir n := (path_str corpus +:+ "/" +:+ n).

Lemma file_name u : in_scope u = true -> file_of u = in_dir (name_of u).
Proof.
  intros Hs. unfold Crawl.file_of, response_filename. fold (name_of u). apply child_name; [done|].
  by destruct (base_name_front u (status_of u) Hs) as [rest ->].
Qed.

Lemma root_name : root_file dir = in_dir "_redfish_v1.json".
Proof. by apply child_name. Qed.

(** The state of the crawl when it saves its maps, and what the service's names allow:
    each path is understood by the mock as it is written, and no two files differ in
    case only. *)
Context (root : pyval) (c : crawl W).
Context (Hwrote : wrote response_text dir skip_log_entries docs m root c).
Abbreviation is_read := (read_path skip_log_entries c).
Context (Hplain : forall u, is_read u -> normalize_resource_path u = u /\ normalize_request_path u = Ok u).
Context (Hnames : forall u v, is_read u -> is_read v -> PyStr.lower (name_of u) = PyStr.lower (name_of v) -> u = v).
Context (Hvalid : forall u, is_read u -> valid_status (status_of u) = true).

Abbreviation saved := (after_save corpus c).

Lemma read_readable u : is_read u -> readable u.
Proof.
  intros Hu. pose proof Hu as (_ & Hseed & _ & Hs). split; [by apply Hplain|]. split; [done|].
  intros ->. apply Hseed. by left.
Qed.

Lemma statuses_valid : valid_statuses c = true.
Proof.
  apply forallb_forall. intros kz Hk. apply list_elem_of_In in Hk.
  destruct (wr_status _ _ _ _ _ _ _ Hwrote kz Hk) as [->|(u & Hu & ->)]; [done|by apply Hvalid].
Qed.

(** The names in the saved directory. *)
Lemma saved_names n : n ∈ names_in (files saved) corpus ->
  n = status_json \/ n = "rest_api_map.npy" \/ n = "_redfish_v1.json" \/ exists u, is_read u /\ n = name_of u.
Proof.
  intros [_ Hn]%names_in_spec. cbn [after_save files set_files] in Hn.
  rewrite !dict_keys_set in Hn.
  assert (in_dir n ∈ dict_keys (files c) \/ in_dir n = in_dir "rest_api_map.npy" \/ in_dir n = in_dir status_json)
    as [Hin|[He|He]].
  { repeat case_decide; rewrite ?elem_of_app, ?list_elem_of_singleton in Hn; tauto. }
  2, 3: apply in_dir_inj in He as ->; auto.
  destruct (wr_files _ _ _ _ _ _ _ Hwrote _ Hin) as [He|(u & Hu & He)].
  - rewrite root_name in He. apply in_dir_inj in He as ->. auto.
  - rewrite file_name in He by apply Hu. apply in_dir_inj in He as ->. eauto 6.
Qed.
Abbreviation fs := (disk corpus text (files saved)).
Abbreviation index := (@build_fixture_index fs corpus).

(** A file of the crawl is in the saved directory. *)
Lemma saved_get n v : n <> status_json -> n <> "rest_api_map.npy" ->
  dict_get (in_dir n) (files c) = Some v -> dict_get (in_dir n) (files saved) = Some v.
Proof.
  intros H1 H2 Hg. cbn [after_save files set_files]. rewrite !dict_get_set_ne; [done|by intros He%in_dir_inj..].
Qed.

Lemma saved_lookup n v : PyStr.has_char is_slash_char n = false -> fnmatchcase n "*.json" = true ->
  n <> status_json -> n <> "rest_api_map.npy" -> dict_get (in_dir n) (files c) = Some v ->
  (forall n', n' ∈ names_in (files saved) corpus -> PyStr.lower n' = PyStr.lower n -> n' = n) ->
  dict_get (PyStr.lower n) index = Some (MockServer.path_join corpus (Path false [n])) /\
  @read_file fs (MockServer.path_join corpus (Path false [n])) = Ok (File (text v) (inl v)).
Proof.
  intros Hn Hj H1 H2 Hg Hu. pose proof (saved_get n v H1 H2 Hg) as Hs. split.
  - apply index_lookup; [|done|]; cbn [listdir disk].
    + apply names_in_spec. split; [done|]. by apply dict_get_Some_keys in Hs.
    + intros n' Hn' _. by apply Hu.
  - cbn [read_file disk]. by rewrite child_path, Hs.
Qed.

Lemma root_lookup :
  dict_get "_redfish_v1.json" index = Some (MockServer.path_join corpus (Path false ["_redfish_v1.json"])) /\
  @read_file fs (MockServer.path_join corpus (Path false ["_redfish_v1.json"])) = Ok (File (text root) (inl root)).
Proof.
  change "_redfish_v1.json" with (PyStr.lower "_redfish_v1.json") at 1. apply saved_lookup; [done..| |].
  - rewrite <- root_name. apply (wr_root_file _ _ _ _ _ _ _ Hwrote). intros u Hu Heq.
    rewrite root_name, file_name in Heq by apply Hu. apply in_dir_inj in Heq.
    apply (base_name_not_root u (status_of u) (read_readable u Hu)). by rewrite Heq.
  - intros n' [->|[->|[->|(u & Hu & ->)]]]%saved_names He; [done..|].
    by destruct (base_name_not_root u (status_of u) (read_readable u Hu)).
Qed.

Lemma read_lookup u : is_read u ->
  dict_get (PyStr.lower (name_of u)) index = Some (MockServer.path_join corpus (Path false [name_of u])) /\
  @read_file fs (MockServer.path_join corpus (Path false [name_of u])) = Ok (File (text (body_of u)) (inl (body_of u))).
Proof.
  intros Hu. pose proof Hu as (_ & _ & _ & Hs). destruct (base_name_front u (status_of u) Hs) as [rest Hfront].
  apply saved_lookup; [apply base_name_no_slash|apply base_name_json|by rewrite Hfront..| |].
  - rewrite <- file_name by done. apply (wr_body _ _ _ _ _ _ _ Hwrote); [done|]. intros v Hv Hne Heq.
    apply Hne, Hnames; [done..|]. rewrite !file_name in Heq by (done || apply Hv). by apply in_dir_inj in Heq as ->.
  - intros n' [->|[->|[->|(v & Hv & ->)]]]%saved_names He.
    + by rewrite Hfront in He.
    + by rewrite Hfront in He.
    + by destruct (base_name_not_root u (status_of u) (read_readable u Hu)).
    + by rewrite (Hnames v u).
Qed.

(** The handler that is made of the directory. *)
Definition replay_config : MockServer.config := MockServer.Config corpus (maps c) index [].

Lemma handler_made : mock_of corpus text saved = Ok (replay_config, None).
Proof.
  unfold mock_of, make_handler. cbn [is_dir disk]. rewrite bool_decide_true by done. cbn [negb].
  pose proof (load_after_save corpus Hcorpus c text) as Hl. cbv zeta in Hl. rewrite statuses_valid in Hl. rewrite Hl.
  cbn [res_bind]. destruct root_lookup as [Hroot _]. unfold replay_config. by destruct index.
Qed.
(** The names in the maps are absolute, so the mock does not use them. *)
Lemma map_unused k d : d = url_files c \/ d = error_files c ->
  @resolve_mapped_fixture fs corpus (dget k (map (fun kv => (kv.1, PStr kv.2)) d)) = Ok None.
Proof.
  intros Hd. unfold dget, dict_get_or. rewrite dict_get_map. destruct (dict_get k d) as [n|] eqn:Hg; [|done].
  apply mapped_absolute; [|right; by exists n]. intros n' [= <-]. apply dict_get_In in Hg.
  destruct (wr_names _ _ _ _ _ _ _ Hwrote (k, n)) as [[= -> ->]|(u & Hu & [= -> ->])].
  - apply elem_of_app. destruct Hd as [<-|<-]; auto.
  - rewrite root_name. by apply child_rooted.
  - rewrite file_name by apply Hu. by apply child_rooted.
Qed.

Lemma map_sections :
  mapping_dict (maps c) "url_file_mapping" = map (fun kv => (kv.1, PStr kv.2)) (url_files c) /\
  mapping_dict (maps c) "http_status_mapping" = map (fun kv => (kv.1, PInt kv.2)) (http_status c) /\
  mapping_dict (maps c) "error_file_mapping" = map (fun kv => (kv.1, PStr kv.2)) (error_files c).
Proof. split; [|split]; apply as_dict_dict. Qed.

(** The captured error of a path, by its recorded status. *)
Lemma captured_run u p z :
  normalize_request_path u = Ok p -> PyStr.startswith "/redfish/v1" p = true ->
  (forall d, dict_get "/redfish/v1" d = None -> lookup_mapping d p = Ok (dget u d)) ->
  dict_get "/redfish/v1" (http_status c) = None -> dict_get "/redfish/v1" (error_files c) = None ->
  dict_get u (http_status c) = Some z ->
  @captured_error_for_request fs replay_config u = Ok (if z <? 400 then None else Some (z, None)).
Proof.
  intros Hn Hs Hl Hr1 Hr2 Hz. destruct map_sections as (_ & E2 & E3).
  unfold captured_error_for_request. cbn [api_map replay_config]. cbv beta iota delta [maps]. fold (maps c).
  rewrite Hn. cbn [res_bind]. rewrite Hs. cbn [negb]. rewrite E2, E3.
  rewrite !Hl by (by rewrite dict_get_map, ?Hr1, ?Hr2). cbn [res_bind].
  cbn [corpus_dir replay_config]. rewrite map_unused by auto.
  assert (dget u (map (fun kv => (kv.1, PInt kv.2)) (http_status c)) = PInt z) as ->.
  { unfold dget, dict_get_or. by rewrite dict_get_map, Hz. }
  cbn. by destruct (z <? 400).
Qed.
(** The fixture of a path that has no captured error. *)
Lemma fixture_run u p :
  normalize_request_path u = Ok p -> PyStr.startswith "/redfish/v1" p = true ->
  (exists k, lookup_mapping (mapping_dict (maps c) "url_file_mapping") p =
             Ok (dget k (map (fun kv => (kv.1, PStr kv.2)) (url_files c)))) ->
  @fixture_for_request fs replay_config u = Ok (dict_get (fixture_key p) index).
Proof.
  intros Hn Hs [k Hl]. unfold fixture_for_request. rewrite Hn. cbn [res_bind]. rewrite Hs. cbn [negb].
  cbn [api_map replay_config]. rewrite Hl. cbn [res_bind corpus_dir replay_config]. rewrite map_unused by auto. done.
Qed.

Lemma serve_ok u p f v :
  normalize_request_path u = Ok p -> p <> "/__replay_status" ->
  @captured_error_for_request fs replay_config u = Ok None -> @fixture_for_request fs replay_config u = Ok (Some f) ->
  @read_file fs f = Ok (File (text v) (inl v)) ->
  mock_get corpus text saved (replay_config, None) u =
  Ok (MockServer.Reply 200 None (Some "application/json") (File (text v) (inl v)) true).
Proof.
  intros Hn Hp Hc Hf Hr. unfold mock_get, do_GET, serve_fixture. cbn [q_path fst snd]. rewrite Hn. cbn [res_bind].
  rewrite decide_False by done. rewrite Hc. cbn [res_bind]. rewrite Hf. cbn [res_bind]. rewrite Hr. done.
Qed.

Lemma serve_error u p z :
  normalize_request_path u = Ok p -> p <> "/__replay_status" ->
  @captured_error_for_request fs replay_config u = Ok (Some (z, None)) ->
  exists content, mock_get corpus text saved (replay_config, None) u =
    Ok (MockServer.Reply z None (Some "application/json") content true).
Proof.
  intros Hn Hp Hc. unfold mock_get, do_GET, serve_fixture. cbn [q_path fst snd]. rewrite Hn. cbn [res_bind].
  rewrite decide_False by done. rewrite Hc. cbn [res_bind]. by eexists.
Qed.

(** The path of the root itself is in no map. *)
Lemma root_not_mapped :
  dict_get "/redfish/v1" (http_status c) = None /\ dict_get "/redfish/v1" (error_files c) = None /\
  dict_get "/redfish/v1" (url_files c) = None.
Proof.
  assert (forall kf, kf ∈ url_files c ++ error_files c -> kf.1 <> "/redfish/v1") as Hf.
  { intros kf Hk. destruct (wr_names _ _ _ _ _ _ _ Hwrote kf Hk) as [->|(u & Hu & ->)]; [done|].
    apply (read_readable u Hu). }
  repeat split; apply dict_get_None; intros ([k v] & Hk & Hin)%list_elem_of_fmap; simpl in Hk; subst k.
  - destruct (wr_status _ _ _ _ _ _ _ Hwrote _ Hin) as [[=]|(u & Hu & [= Hk _])].
    by destruct (read_readable u Hu) as (_ & _ & []).
  - apply (Hf ("/redfish/v1", v)); [apply elem_of_app; auto|done].
  - apply (Hf ("/redfish/v1", v)); [apply elem_of_app; auto|done].
Qed.

Lemma root_served : mock_get corpus text saved (replay_config, None) "/redfish/v1/" =
  Ok (MockServer.Reply 200 None (Some "application/json") (File (text root) (inl root)) true).
Proof.
  destruct root_not_mapped as (H1 & H2 & H3). destruct root_lookup as [Hk Hr].
  apply (serve_ok _ "/redfish/v1" (MockServer.path_join corpus (Path false ["_redfish_v1.json"]))); [done..| | |done].
  - rewrite (captured_run _ "/redfish/v1" 200); [done..| |done|done|apply (wr_root_status _ _ _ _ _ _ _ Hwrote)].
    intros d Hd. by rewrite (lookup_root d Hd).
  - rewrite (fixture_run _ "/redfish/v1"); [by f_equal|done..|].
    exists "/redfish/v1/". rewrite (proj1 map_sections).
    rewrite (lookup_root (map (fun kv => (kv.1, PStr kv.2)) (url_files c))); [done|]. by rewrite dict_get_map, H3.
Qed.

Lemma read_served u : is_read u ->
  (is_ok (status_of u) = true -> mock_get corpus text saved (replay_config, None) u =
     Ok (MockServer.Reply 200 None (Some "application/json") (File (text (body_of u)) (inl (body_of u))) true)) /\
  (400 <= status_of u -> exists content, mock_get corpus text saved (replay_config, None) u =
     Ok (MockServer.Reply (status_of u) None (Some "application/json") content true)).
Proof.
  intros Hu. destruct root_not_mapped as (H1 & H2 & _). destruct (Hplain u Hu) as [_ Hn].
  pose proof (read_readable u Hu) as Hread. pose proof Hread as (_ & Hs & Hne).
  assert (u <> "/__replay_status") as Hrs by (intros ->; done).
  pose proof (captured_run u u (status_of u) Hn Hs (fun d _ => lookup_one d u Hn Hne) H1 H2
    (wr_recorded _ _ _ _ _ _ _ Hwrote u Hu)) as Hc. destruct (read_lookup u Hu) as [Hk Hr]. split.
  - intros Hok. apply (serve_ok u u (MockServer.path_join corpus (Path false [name_of u]))); [done..| | |done].
    + rewrite Hc. assert (status_of u <? 400 = true) as ->; [unfold is_ok in Hok; lia|done].
    + rewrite (fixture_run u u Hn Hs).
      * rewrite readable_key by done. unfold base_name in Hk at 1. rewrite Hok in Hk. by rewrite Hk.
      * exists u. rewrite (proj1 map_sections). by apply lookup_one.
  - intros Hge. apply (serve_error u u); [done..|]. rewrite Hc.
    assert (status_of u <? 400 = false) as ->; [lia|done].
Qed.
End Replayed.

(** ** From the service to the mock *)

Section EndToEnd.
Context {W : Type} `{!World W}.
Context (env : Config.env) (response_text : response -> string) (corpus : path) (skip_log_entries : bool).
Context (docs : string -> response) (m : manager) (text : pyval -> string).
Context (open_write : string -> res unit) (make_temp : string -> res string) (rename : string -> string -> res unit).
Abbreviation dir := (path_str corpus).
Abbreviation status_of := (status_of response_text docs m).
Abbreviation body_of := (body_of response_text docs m).
Abbreviation reachable := (reachable response_text skip_log_entries docs m).
Abbreviation filtered := (filtered skip_log_entries).

(** A path that a crawl saves. *)
Definition crawled (root : pyval) (u : string) : Prop := reachable root u /\ u ∉ seeds /\ filtered u = false.

Lemma reachable_normal root u : reachable root u ->
  normalize_resource_path u = u /\ taken skip_log_entries u = true.
Proof.
  intros [r _ Ht|x v _ _ Hl Ht]%reachable_followed; [split; [apply normalize_idem|done]|]. split; [|done].
  unfold links in Hl. destruct (filtered x); [by apply not_elem_of_nil in Hl|].
  destruct (is_ok _); [|by apply not_elem_of_nil in Hl]. apply list_elem_of_fmap in Hl as (y & -> & _). apply normalize_idem.
Qed.

Lemma crawled_scope root u : crawled root u -> in_scope u = true.
Proof. intros (Hr & _ & Hf). apply reachable_normal in Hr as [_ Ht]. unfold taken in Ht. by rewrite Hf in Ht. Qed.

(** The temporary file of [tempfile.NamedTemporaryFile] has a name of its own. *)
Lemma temp_new x root (c : crawl W) : absolute_dir corpus -> wrote response_text dir skip_log_entries docs m root c ->
  new_name corpus (dir +:+ "/" +:+ "tmp" +:+ x) c.
Proof.
  intros Hd Hw. split; [|by intros Heq%in_dir_inj]. apply dict_get_None. intros Hin.
  destruct (wr_files _ _ _ _ _ _ _ Hw _ Hin) as [Heq|(u & Hu & Heq)].
  - rewrite root_name in Heq by done. by apply in_dir_inj in Heq.
  - rewrite file_name in Heq by (done || apply Hu). apply in_dir_inj in Heq.
    destruct (base_name_front u (status_of u)) as [rest Hb]; [apply Hu|]. by rewrite Hb in Heq.
Qed.

(** What is asked of the environment: the service answers and does not change, the
    settings are valid, and the files can be written. *)
Context (served : serves (W := W) docs) (writable : forall n, open_write n = Ok tt).
Context (renames : forall a b, rename a b = Ok tt).
Context (attempts : Z) (backoff pace : Numbers.dec).
Context (valid : settings env = Ok (attempts, backoff, pace)) (unpaced : 0 <= pace.1).
Context (x : string) (temp : make_temp (dir_of (path_join dir REST_API_STATUS_MAP_JSON)) = Ok (dir +:+ "/" +:+ "tmp" +:+ x)).

(** C24. A mock that is started on the directory of a crawl answers like the service that was
    crawled, under these conditions: the service always answers each URL with the same
    response; the crawl starts with nothing recorded, in an absolute directory whose files
    can be written; at most 32 paths can be reached from the service root; and of the paths
    that are read, each has no percent-encoding and is answered with an HTTP status, and no
    two have flat file names that differ in case only.  Then the crawl returns, the mock
    accepts the directory, a GET of the service root gives the document of the service
    root, and a GET of a path that was read gives the document of the service when the
    service answered it 2xx, and an answer with the service's status, but a body that may be
    another, when that was an error. *)
Theorem crawl_then_mock root resources (c : crawl W) :
  absolute_dir corpus -> plain m (cm c) -> fresh c -> read_doc docs m "/redfish/v1/" None = Ok root ->
  (length resources <= DEFAULT_DISCOVERY_MAX_DEPTH)%nat -> (forall u, reachable root u -> u ∈ resources) ->
  (forall u, crawled root u -> normalize_request_path u = Ok u /\ valid_status (status_of u) = true) ->
  (forall u v, crawled root u -> crawled root v ->
     PyStr.lower (base_name u (status_of u)) = PyStr.lower (base_name v (status_of v)) -> u = v) ->
  exists c' result cs,
    crawl_host env response_text dir open_write make_temp rename skip_log_entries (Ok true) true (key_args None) c =
      (c', Ok result) /\
    mock_of corpus text c' = Ok cs /\
    mock_get corpus text c' cs "/redfish/v1/" =
      Ok (MockServer.Reply 200 None (Some "application/json") (File (text root) (inl root)) true) /\
    forall u, crawled root u ->
      (is_ok (status_of u) = true -> mock_get corpus text c' cs u =
         Ok (MockServer.Reply 200 None (Some "application/json") (File (text (body_of u)) (inl (body_of u))) true)) /\
      (400 <= status_of u -> exists content, mock_get corpus text c' cs u =
         Ok (MockServer.Reply (status_of u) None (Some "application/json") content true)).
Proof.
  intros Hd Hp Hfresh Hroot Hlen Hres Hgood Hnames.
  destruct (crawl_run env response_text dir open_write skip_log_entries docs m served writable attempts backoff pace
    valid unpaced make_temp rename root resources true c Hp (proj1 Hfresh) Hroot Hlen Hres)
    as (c1 & result & Hrun & _ & Hw & Hc1). specialize (Hw Hfresh).
  assert (forall u, crawled root u <-> read_path skip_log_entries c1 u) as Hiff.
  { intros u. split.
    - intros Hu. pose proof Hu as (Hr & Hs & Hf). split; [by apply Hc1|]. split; [done|]. split; [done|]. by apply (crawled_scope root).
    - intros (Hv & Hs & Hf & _). split; [by apply Hc1|done]. }
  assert (forall u, read_path skip_log_entries c1 u -> normalize_resource_path u = u /\ normalize_request_path u = Ok u) as Hpl.
  { intros u Hu. apply Hiff in Hu. split; [apply (reachable_normal root), Hu|by apply Hgood]. }
  assert (forall u, read_path skip_log_entries c1 u -> valid_status (status_of u) = true) as Hval
    by (intros u Hu; by apply Hgood, Hiff).
  assert (forall u v, read_path skip_log_entries c1 u -> read_path skip_log_entries c1 v ->
    PyStr.lower (base_name u (status_of u)) = PyStr.lower (base_name v (status_of v)) -> u = v) as Hnm
    by (intros u v Hu Hv; apply Hnames; by apply Hiff).
  exists (after_save corpus c1), result, (replay_config corpus text c1, None). repeat split.
  - rewrite Hrun. rewrite (bind_ok _ _ _ _ _ (save_run corpus Hd open_write make_temp rename writable renames _ temp c1
      (temp_new x root c1 Hd Hw))). done.
  - by eapply handler_made.
  - by eapply root_served.
  - by eapply read_served; [..|apply Hiff].
  - by eapply read_served; [..|apply Hiff].
Qed.
End EndToEnd.

Definition data_dir : path := Path true ["data"].
Definition as_repr (v : pyval) : string := py_repr v.

(** What is crawled of the small service. *)
Lemma small_reachable root u :
  read_doc (docs_of "https://10.0.0.42" small_service) sample_manager "/redfish/v1/" None = Ok root ->
  reachable no_text true (docs_of "https://10.0.0.42" small_service) sample_manager root u ->
  u ∈ ["/redfish/v1"; "/redfish/v1/Systems"; "/redfish/v1/Systems/1"; "/redfish/v1/Systems/2";
       "/redfish/v1/Systems/1/LogServices/Sel/Entries"].
Proof.
  vm_compute read_doc. intros [= <-] Hu%reachable_followed. induction Hu as [r Hr Ht|u v _ IH Hns Hl Ht].
  - vm_compute in Hr. apply elem_of_cons in Hr as [->|Hr]; [by left|].
    apply list_elem_of_singleton in Hr as ->. by right; left.
  - repeat (apply elem_of_cons in IH as [->|IH]; [vm_compute in Hl;
      repeat (apply elem_of_cons in Hl as [->|Hl]; [apply (bool_decide_unpack _); vm_compute; exact I|]);
      by inversion Hl|]). by inversion IH.
Qed.

Lemma small_crawled root u :
  read_doc (docs_of "https://10.0.0.42" small_service) sample_manager "/redfish/v1/" None = Ok root ->
  crawled no_text true (docs_of "https://10.0.0.42" small_service) sample_manager root u ->
  u = "/redfish/v1/Systems" \/ u = "/redfish/v1/Systems/1" \/ u = "/redfish/v1/Systems/2".
Proof.
  intros Hroot (Hr & Hs & Hf). apply (small_reachable root) in Hr; [|done].
  repeat (apply elem_of_cons in Hr as [->|Hr]);
    first [by auto|by apply not_elem_of_nil in Hr|exfalso; apply Hs; by left|exfalso; vm_compute in Hf; discriminate].
Qed.

Lemma crawl_then_mock_witness :
  exists (c' : crawl unit) result cs content,
    crawl_of small_service = (c', Ok result) /\ mock_of data_dir as_repr c' = Ok cs /\
    mock_get data_dir as_repr c' cs "/redfish/v1/Systems/2" =
      Ok (MockServer.Reply 404 None (Some "application/json") content true).
Proof.
  destruct (@crawl_then_mock unit (doc_world (docs_of "https://10.0.0.42" small_service)) [] no_text data_dir true
    (docs_of "https://10.0.0.42" small_service) sample_manager as_repr can_write temp_name can_rename
    (doc_world_serves _) (fun _ => eq_refl) (fun _ _ => eq_refl) 4 (20, -1) (0, -3) ltac:(vm_compute; reflexivity)
    ltac:(vm_compute; discriminate) "0" eq_refl
    (PDict [("@odata.id", PStr "/redfish/v1/"); ("Systems", ref "/redfish/v1/Systems")])
    ["/redfish/v1"; "/redfish/v1/Systems"; "/redfish/v1/Systems/1"; "/redfish/v1/Systems/2";
     "/redfish/v1/Systems/1/LogServices/Sel/Entries"] (start sample_manager))
    as (c' & result & cs & Hrun & Hmock & _ & Hget).
  - by repeat split.
  - done.
  - by repeat split.
  - vm_compute. reflexivity.
  - vm_compute. lia.
  - intros u. apply small_reachable. vm_compute. reflexivity.
  - intros u Hu. apply small_crawled in Hu; [|vm_compute; reflexivity]. destruct Hu as [->|[->| ->]]; vm_compute; done.
  - intros u v Hu Hv. apply small_crawled in Hu, Hv; [|vm_compute; reflexivity..].
    destruct Hu as [->|[->| ->]]; destruct Hv as [->|[->| ->]]; vm_compute; done.
  - destruct (Hget "/redfish/v1/Systems/2") as [_ He].
    + split; [|split; [apply (bool_decide_unpack _); vm_compute; exact I|vm_compute; reflexivity]].
      apply reachable_followed, (follow_link _ _ _ _ _ "/redfish/v1/Systems").
      * apply (follow_root _ _ _ _ _ "/redfish/v1/Systems"); [right; left|vm_compute; reflexivity].
      * apply (bool_decide_unpack _). vm_compute. exact I.
      * vm_compute. right. left.
      * vm_compute. reflexivity.
    + destruct He as [content He]; [vm_compute; discriminate|]. exists c', result, cs, content.
      split; [exact Hrun|]. by split.
Defined.

(** ** A crawl that the mock refuses *)

(** A single read that failed makes the whole directory useless to the mock.  The crawl
    records a transport failure as status 0 and saves its maps; the mock accepts only
    statuses from 100 to 599 and refuses to start on the directory. *)
Theorem failed_read_blocks_mock {W} `{!World W} corpus text open_write make_temp rename tmp u (c : crawl W) :
  absolute_dir corpus -> (forall n, open_write n = Ok tt) -> (forall a b, rename a b = Ok tt) ->
  make_temp (dir_of (path_join (path_str corpus) REST_API_STATUS_MAP_JSON)) = Ok tmp -> new_name corpus tmp c ->
  dict_get u (http_status c) = Some 0 ->
  exists c', save_url_file_mapping (path_str corpus) open_write make_temp rename true c = (c', Ok tt) /\
    raises_ValueError (mock_of corpus text c').
Proof.
  intros Hd Hw Hr Ht Hnew Hu. exists (after_save corpus c). split; [by apply (save_run corpus Hd _ _ _ Hw Hr tmp)|].
  apply mock_refuses; [done|]. apply not_true_iff_false. unfold valid_statuses. rewrite forallb_forall. intros Hall.
  apply dict_get_In, list_elem_of_In, Hall in Hu. done.
Qed.

(** The small service, of which one resource cannot be read. *)
Definition flaky_world : World unit := {|
  transport rq w :=
    (w, if decide (rq_url rq = "https://10.0.0.42/redfish/v1/Systems/1") then inr (ConnectionFailed "reset")
        else inl (docs_of "https://10.0.0.42" small_service (rq_url rq)));
  monotonic _ := 0;
  sleep _ w := w
|}.

Definition flaky_crawl (numpy_available : bool) : crawl unit * res CommandResult :=
  crawl_host (W := unit) (World0 := flaky_world) [] no_text "/data" can_write temp_name
    can_rename true (Ok true) numpy_available (key_args None) (start sample_manager).

Lemma failed_read_blocks_mock_witness :
  (exists r, (flaky_crawl true).2 = Ok r) /\ raises_ValueError (mock_of data_dir as_repr (flaky_crawl true).1) /\
  exists c', save_url_file_mapping "/data" can_write temp_name can_rename true (flaky_crawl false).1 = (c', Ok tt) /\
    raises_ValueError (mock_of data_dir as_repr c').
Proof.
  split; [vm_compute; by eexists|]. split; [vm_compute; by eexists|].
  exact (@failed_read_blocks_mock unit flaky_world data_dir as_repr can_write temp_name can_rename "/data/tmp0"
    "/redfish/v1/Systems/1" (flaky_crawl false).1 ltac:(by repeat split) (fun _ => eq_refl) (fun _ _ => eq_refl)
    ltac:(vm_compute; reflexivity) ltac:(split; vm_compute; [reflexivity|discriminate]) ltac:(vm_compute; reflexivity)).
Defined.
End CrawlReplay.
