(* ===== verification/Pool.v ===== *)
(** * Bounded pools of workers

    What the scans and the fleet reader use of the standard library: a
    [concurrent.futures.ThreadPoolExecutor] with a number of workers, or the tasks of
    [asyncio.gather] behind an [asyncio.Semaphore].  Jobs wait, run and finish in any
    order the scheduler likes; at most [limit] of them run at a time.  What a job may
    return is a relation, since the answers of a network may depend on when it is
    asked.  The clients collect the results by position. *)

From stdpp Require Import base list relations.
From Stdlib Require Import Lia.

Section Pool.
Context {T R : Type} (answers : T -> R -> Prop) (limit : nat).

Inductive job := Waiting (t : T) | Running (t : T) | Finished (t : T) (r : R).

Definition is_running (j : job) : bool := match j with Running _ => true | _ => false end.

Definition running (js : list job) : nat := length (filter (fun j => is_running j = true) js).

(** A worker takes a job, or a job that runs returns. *)
Inductive pool_step : list job -> list job -> Prop :=
| pool_start i t js : js !! i = Some (Waiting t) -> running js < limit -> pool_step js (<[i := Running t]> js)
| pool_finish i t r js : js !! i = Some (Running t) -> answers t r -> pool_step js (<[i := Finished t r]> js).

Definition submitted (ts : list T) : list job := map Waiting ts.

(** What is left to do: two steps for a job that waits, one for a job that runs. *)
Definition work (j : job) : nat := match j with Waiting _ => 2 | Running _ => 1 | Finished _ _ => 0 end.
Definition total_work (js : list job) : nat := sum_list_with work js.

(** The job is one of its task, and its result is one the task may have. *)
Definition job_of (t : T) (j : job) : Prop :=
  match j with Waiting t' | Running t' => t' = t | Finished t' r => t' = t /\ answers t r end.

(** Everything has returned, with these results by position. *)
Definition collected (js : list job) (rs : list R) : Prop :=
  Forall2 (fun j r => exists t, j = Finished t r) js rs.

(** A run of the pool that ended with these results. *)
Definition pool_results (ts : list T) (rs : list R) : Prop :=
  exists js, rtc pool_step (submitted ts) js /\ collected js rs.

Lemma work_insert js i j j' : js !! i = Some j ->
  total_work (<[i := j']> js) + work j = total_work js + work j'.
Proof.
  revert i. induction js as [|a js IH]; intros [|i] H; simplify_eq/=; [unfold total_work; simpl; lia|].
  specialize (IH i H). unfold total_work in *. simpl. lia.
Qed.

Lemma running_insert js i j j' : js !! i = Some j ->
  running (<[i := j']> js) + (if is_running j then 1 else 0) = running js + (if is_running j' then 1 else 0).
Proof.
  unfold running. revert i. induction js as [|a js IH]; intros [|i] H; simplify_eq/=; rewrite !filter_cons.
  - destruct (is_running j), (is_running j'); simpl; lia.
  - specialize (IH i H). destruct (is_running a); simpl; lia.
Qed.

(** Every step does one unit of the work, so no run has more than twice as many steps
    as there are jobs. *)
Lemma step_work js js' : pool_step js js' -> total_work js = S (total_work js').
Proof.
  intros [i t ? H _|i t r ? H _].
  - pose proof (work_insert _ _ _ (Running t) H). simpl in *. lia.
  - pose proof (work_insert _ _ _ (Finished t r) H). simpl in *. lia.
Qed.

Lemma submitted_work ts : total_work (submitted ts) = 2 * length ts.
Proof. unfold total_work. induction ts as [|t ts IH]; simpl in *; lia. Qed.

Lemma run_work n js js' : nsteps pool_step n js js' -> total_work js = n + total_work js'.
Proof. induction 1 as [|n js1 js2 js3 H _ IH]; [done|]. apply step_work in H. lia. Qed.

(** The jobs stay in their places, and no more than [limit] of them run. *)
Definition pool_inv (ts : list T) (js : list job) : Prop := Forall2 job_of ts js /\ running js <= limit.

Lemma pool_inv_start ts : pool_inv ts (submitted ts).
Proof.
  split; [apply Forall2_fmap_r, Forall_Forall2_diag, Forall_true; by intros|].
  unfold running. induction ts as [|t ts IH]; simpl; [lia|exact IH].
Qed.

Lemma job_of_insert ts js i j j' : Forall2 job_of ts js -> js !! i = Some j ->
  (forall t, job_of t j -> job_of t j') -> Forall2 job_of ts (<[i := j']> js).
Proof.
  intros Hj Hi Himp. destruct (Forall2_lookup_r _ _ _ _ _ Hj Hi) as (t & Ht & Hjob).
  rewrite <- (list_insert_id ts i t Ht). apply Forall2_insert; auto.
Qed.

Lemma pool_inv_step ts js js' : pool_inv ts js -> pool_step js js' -> pool_inv ts js'.
Proof.
  intros [Hj Hr] Hs. inversion Hs as [i t js0 H Hlt|i t r js0 H Ha]; subst; split.
  - by apply (job_of_insert _ _ _ _ _ Hj H).
  - pose proof (running_insert _ _ _ (Running t) H). simpl in *. lia.
  - apply (job_of_insert _ _ _ _ _ Hj H). intros t' <-. by split.
  - pose proof (running_insert _ _ _ (Finished t r) H). simpl in *. lia.
Qed.

Lemma pool_inv_run ts js : rtc pool_step (submitted ts) js -> pool_inv ts js.
Proof.
  intros H. assert (forall a b, rtc pool_step a b -> pool_inv ts a -> pool_inv ts b) as Hrun.
  { intros a b. induction 1; eauto using pool_inv_step. }
  eapply Hrun; [exact H|apply pool_inv_start].
Qed.

(** At no time do more jobs run than there are workers. *)
Lemma pool_bounded ts js : rtc pool_step (submitted ts) js -> running js <= limit.
Proof. intros H. by apply pool_inv_run in H as [_ ?]. Qed.

(** The results are, by position, results of the tasks. *)
Lemma pool_results_sound ts rs : pool_results ts rs -> Forall2 answers ts rs.
Proof.
  intros (js & [Hj _]%pool_inv_run & Hc). revert rs Hc. induction Hj as [|t j ts js Hjob _ IH]; intros rs Hc.
  - apply Forall2_nil_inv_l in Hc as ->. constructor.
  - apply Forall2_cons_inv_l in Hc as (r & rs' & (t' & ->) & Hc & ->). destruct Hjob as [-> Ha]. constructor; auto.
Qed.

(** A pool with a worker does not get stuck before everything has returned. *)
Lemma pool_progress js : 0 < limit -> (forall t, exists r, answers t r) ->
  (exists rs, collected js rs) \/ exists js', pool_step js js'.
Proof.
  intros Hl Ha. destruct (decide (running js = 0)) as [Hz|Hz].
  - assert ((exists i t, js !! i = Some (Waiting t)) \/ exists rs, collected js rs) as [(i & t & Hi)|Hc]; [|right|by left].
    + clear Hl. induction js as [|j js IH]; [right; exists []; constructor|].
      unfold running in Hz. rewrite filter_cons in Hz. destruct j as [t|t|t r]; simpl in Hz; [left; by exists 0, t|lia|].
      destruct (IH Hz) as [(i & t' & Hi)|(rs & Hc)]; [left; by exists (S i), t'|].
      right. exists (r :: rs). constructor; [by exists t|done].
    + eexists. apply (pool_start i t); [done|lia].
  - right. assert (exists i t, js !! i = Some (Running t)) as (i & t & Hi).
    { clear Hl. unfold running in Hz. induction js as [|j js IH]; [done|]. rewrite filter_cons in Hz.
      destruct j as [t|t|t r]; simpl in Hz; [|by exists 0, t|]; destruct (IH Hz) as (i & t' & Hi); by exists (S i), t'. }
    destruct (Ha t) as [r Hr]. eexists. by apply (pool_finish i t r).
Qed.

(** Whatever has run so far, the pool can run to its end. *)
Lemma pool_completes ts js : 0 < limit -> (forall t, exists r, answers t r) ->
  rtc pool_step (submitted ts) js -> exists js' rs, rtc pool_step js js' /\ collected js' rs.
Proof.
  intros Hl Ha _. remember (total_work js) as n eqn:Hn. revert js Hn.
  induction n as [|n IH]; intros js Hn.
  - destruct (pool_progress js Hl Ha) as [(rs & Hc)|(js' & Hs)]; [exists js, rs; split; [constructor|done]|].
    apply step_work in Hs. lia.
  - destruct (pool_progress js Hl Ha) as [(rs & Hc)|(js' & Hs)]; [exists js, rs; split; [constructor|done]|].
    pose proof (step_work _ _ Hs). destruct (IH js') as (js'' & rs & Hr & Hc); [lia|].
    exists js'', rs. split; [by eapply rtc_l|done].
Qed.

(** Every choice of results, one of each task, is that of some run. *)
Lemma pool_results_complete ts rs : 0 < limit -> Forall2 answers ts rs -> pool_results ts rs.
Proof.
  intros Hl H. assert (forall pre ts rs, running pre = 0 -> Forall2 answers ts rs ->
    exists js, rtc pool_step (pre ++ submitted ts) (pre ++ js) /\ collected js rs) as Hrun.
  { clear ts rs H. intros pre ts rs Hpre H. revert pre Hpre.
    induction H as [|t r ts rs Ha _ IH]; intros pre Hpre; [exists []; split; constructor|].
    destruct (IH (pre ++ [Finished t r])) as (js & Hr & Hc).
    { unfold running in *. rewrite filter_app, length_app. simpl. lia. }
    exists (Finished t r :: js). split; [|constructor; [by exists t|done]].
    rewrite <- app_assoc in Hr. simpl in Hr. rewrite <- app_assoc in Hr. simpl in Hr.
    assert (running (pre ++ submitted (t :: ts)) = 0) as Hzero.
    { unfold running in *. rewrite filter_app, length_app, Hpre. clear. unfold submitted.
      induction (t :: ts) as [|x l IHl]; [done|]. exact IHl. }
    change (submitted (t :: ts)) with (Waiting t :: submitted ts) in *.
    eapply rtc_l; [apply (pool_start (length pre) t); [by rewrite list_lookup_middle|lia]|].
    rewrite <- (Nat.add_0_r (length pre)), insert_app_r. simpl.
    eapply rtc_l; [apply (pool_finish (length pre) t r); [by rewrite list_lookup_middle|done]|].
    rewrite <- (Nat.add_0_r (length pre)), insert_app_r. simpl. exact Hr. }
  destruct (Hrun [] ts rs eq_refl H) as (js & Hr & Hc). by exists js.
Qed.

(** The order in which the jobs run has no influence on the results. *)
Lemma pool_results_iff ts rs : 0 < limit -> pool_results ts rs <-> Forall2 answers ts rs.
Proof. intros Hl. split; [apply pool_results_sound|by apply pool_results_complete]. Qed.
End Pool.

Arguments Waiting {T R} t.
Arguments Running {T R} t.
Arguments Finished {T R} t r.
