(* ===== verification/Networks.v ===== *)
(** * [ipaddress.ip_network] and its hosts

    The part of the Python standard library that the segment scan of
    src/redfish_ctl/discovery/net_scan.py uses: parsing a network in CIDR form, the
    addresses of its hosts, and the text of an address. *)

From stdpp Require Import base list list_numbers strings pretty.
From Stdlib Require Import Ascii ZArith Lia Sorted.
From S2P Require Import Prelude PyVal Effects IpAddress.

Module Networks.
Local Open Scope Z_scope.
Local Open Scope py_scope.

(** ** Addresses *)

Definition octet_val (s : string) : Z := default 0 (int_of_string s).

(** [int(IPv4Address(s))] *)
Definition ipv4_int (s : string) : option Z :=
  if IpAddress.ipv4 s
  then Some (fold_left (fun acc o => 256 * acc + octet_val o) (PyStr.split "." s) 0)
  else None.

(** [str(IPv4Address(z))] *)
Definition ipv4_str (z : Z) : string :=
  PyStr.join "." (map (fun k => pretty (z / 2 ^ k mod 256)) [24; 16; 8; 0]).

Definition hex_val (c : ascii) : Z :=
  let n := Z.of_nat (nat_of_ascii c) in
  if PyStr.is_digit c then n - 48 else if n <? 97 then n - 55 else n - 87.

Fixpoint hextet_val (acc : Z) (s : string) : Z :=
  match s with EmptyString => acc | String c s' => hextet_val (16 * acc + hex_val c) s' end.

(** The eight groups of a valid address, of which ["::"] stands for some zeros. *)
Definition groups (parts : list string) : list Z :=
  let n := length parts in
  match IpAddress.gaps parts with
  | [skip] =>
      let hi := if bool_decide (parts !! 0%nat = Some EmptyString) then (skip - 1)%nat else skip in
      let lo0 := (n - skip - 1)%nat in
      let lo := if bool_decide (last parts = Some EmptyString) then (lo0 - 1)%nat else lo0 in
      map (hextet_val 0) (take hi parts) ++ replicate (8 - (hi + lo)) 0 ++ map (hextet_val 0) (drop (n - lo) parts)
  | _ => map (hextet_val 0) parts
  end.

(** [int(IPv6Address(s))] and the scope of [s], with its percent sign *)
Definition ipv6_int (s : string) : option (Z * string) :=
  if IpAddress.ipv6 s then
    match PyStr.split "%" s with
    | addr :: rest =>
        let parts := PyStr.split ":" addr in
        let tail := PyStr.last_or "" parts in
        let front := take (length parts - 1) parts in
        let groups := match ipv4_int tail with
                      | Some z => take 6 (groups (front ++ ["0"; "0"])) ++ [z / 65536; z mod 65536]
                      | None => groups parts
                      end in
        Some (fold_left (fun acc g => 65536 * acc + g) groups 0,
              match rest with scope :: _ => "%" +:+ scope | [] => "" end)
    | [] => None
    end
  else None.

(** ["%x" % z] *)
Fixpoint hex_digits (fuel : nat) (z : Z) (acc : string) : string :=
  let acc := String (hex_digit (Z.to_nat (z mod 16))) acc in
  match fuel with
  | O => acc
  | S fuel => if z / 16 =? 0 then acc else hex_digits fuel (z / 16) acc
  end.

(** The first of the longest runs of zeros: its start and its length. *)
Fixpoint zero_run (i : nat) (run : nat) (best : nat * nat) (l : list Z) : nat * nat :=
  match l with
  | [] => best
  | g :: l' =>
      if g =? 0 then
        let run := S run in
        zero_run (S i) run (if (best.2 <? run)%nat then ((S i - run)%nat, run) else best) l'
      else zero_run (S i) 0 best l'
  end.

(** [str(IPv6Address(z))] *)
Definition ipv6_str (z : Z) : string :=
  let groups := map (fun k => z / 2 ^ k mod 65536) [112; 96; 80; 64; 48; 32; 16; 0] in
  let texts := map (fun g => hex_digits 3 g "") groups in
  let '(start, len) := zero_run 0 0 (0%nat, 0%nat) groups in
  if (1 <? len)%nat then
    PyStr.join ":" ((if (start =? 0)%nat then [""] else []) ++ take start texts ++ [""] ++
                    drop (start + len) texts ++ (if (start + len =? 8)%nat then [""] else []))
  else PyStr.join ":" texts.

Example address_texts :
  map ipv4_int ["0.0.0.0"; "10.0.1.2"; "1.2.3"] = [Some 0; Some 167772418; None] /\
  ipv4_str 167772418 = "10.0.1.2" /\
  map (fun s => option_map (fun p => ipv6_str p.1) (ipv6_int s))
    ["::"; "::1"; "fe80::1%eth0"; "1:0:0:2:0:0:0:3"; "1:2:3:4:5:6:7::"; "0:0:1::"; "::ffff:10.0.0.1"; "2001:DB8::A"]
  = [Some "::"; Some "::1"; Some "fe80::1"; Some "1:0:0:2::3"; Some "1:2:3:4:5:6:7:0"; Some "0:0:1::";
     Some "::ffff:a00:1"; Some "2001:db8::a"].
Proof. vm_compute. done. Qed.

(** ** Networks *)

(** A network: the family, the network address, the length of the prefix, and the scope of
    the address it was given as. *)
Record network := Network { v6 : bool; base : Z; prefixlen : Z; scope : string }.

Definition width (v6 : bool) : Z := if v6 then 128 else 32.

(** [_prefix_from_prefix_string(s)] *)
Definition prefix_of_digits (v6 : bool) (s : string) : option Z :=
  if PyStr.nonempty s && IpAddress.all_chars PyStr.is_digit s then
    match int_of_string s with
    | Some p => if p <=? width v6 then Some p else None
    | None => None
    end
  else None.

(** [_count_righthand_zero_bits(number, 32)] *)
Fixpoint trailing_zeros (fuel : nat) (z : Z) : Z :=
  match fuel with
  | O => 0
  | S fuel => if Z.odd z then 0 else 1 + trailing_zeros fuel (z / 2)
  end.

(** [_prefix_from_ip_int(ip_int)] *)
Definition prefix_of_mask (mask : Z) : option Z :=
  let zeros := trailing_zeros 32 mask in
  let p := 32 - zeros in
  if Z.shiftr mask zeros =? Z.shiftl 1 p - 1 then Some p else None.

(** [_make_netmask(arg)]: a netmask or a host mask is accepted for IPv4 *)
Definition make_netmask (v6 : bool) (s : string) : option Z :=
  match prefix_of_digits v6 s with
  | Some p => Some p
  | None =>
      if v6 then None
      else match ipv4_int s with
           | Some z => match prefix_of_mask z with
                       | Some p => Some p
                       | None => prefix_of_mask (Z.lxor z (2 ^ 32 - 1))
                       end
           | None => None
           end
  end.

(** The address with its host bits cleared, [address & netmask]. *)
Definition mask_to (v6 : bool) (p z : Z) : Z := Z.shiftl (Z.shiftr z (width v6 - p)) (width v6 - p).

(** [IPv4Network(s, strict=False)] and [IPv6Network(s, strict=False)] *)
Definition network_of (v6 : bool) (s : string) : option network :=
  let make (addr : string) (mask : option string) :=
    let address := if v6 then ipv6_int addr else option_map (fun z => (z, "")) (ipv4_int addr) in
    match address, (match mask with Some t => make_netmask v6 t | None => Some (width v6) end) with
    | Some (z, sc), Some p => Some (Network v6 (mask_to v6 p z) p sc)
    | _, _ => None
    end in
  match PyStr.split "/" s with
  | [addr] => make addr None
  | [addr; mask] => make addr (Some mask)
  | _ => None
  end.

(** [ip_network(s, strict=False)] *)
Definition ip_network (s : string) : res network :=
  match network_of false s with
  | Some n => Ok n
  | None => match network_of true s with
            | Some n => Ok n
            | None => Raise (ValueError (repr_str s +:+ " does not appear to be an IPv4 or IPv6 network"))
            end
  end.

Definition size (n : network) : Z := 2 ^ (width (v6 n) - prefixlen n).

(** [net.hosts()]: neither the network nor the broadcast address, except on the two
    smallest networks; IPv6 has no broadcast address *)
Definition host_ints (n : network) : list Z :=
  let left := width (v6 n) - prefixlen n in
  if left <=? 1 then seqZ (base n) (size n)
  else if v6 n then seqZ (base n + 1) (size n - 1)
  else seqZ (base n + 1) (size n - 2).

(** [[str(h) for h in net.hosts()]] *)
Definition hosts (n : network) : list string :=
  map (fun z => if v6 n then ipv6_str z +:+ (if prefixlen n =? 128 then scope n else "") else ipv4_str z) (host_ints n).

Example host_lists :
  map (fun s => match ip_network s with Ok n => Some (hosts n) | _ => None end)
    ["10.0.0.9/30"; "10.0.0.9"; "10.0.0.9/31"; "10.0.0.0/255.255.255.252"; "10.0.0.0/0.0.0.3"; "10.0.0.0/33";
     "10.0.0.0/8/8"; "fe80::1%eth0"; "fe80::/126"; "host"; "10.0.0.0/255.0.255.0"]
  = [Some ["10.0.0.9"; "10.0.0.10"]; Some ["10.0.0.9"]; Some ["10.0.0.8"; "10.0.0.9"];
     Some ["10.0.0.1"; "10.0.0.2"]; Some ["10.0.0.1"; "10.0.0.2"]; None; None; Some ["fe80::1%eth0"];
     Some ["fe80::1"; "fe80::2"; "fe80::3"]; None; None].
Proof. vm_compute. done. Qed.

(** ** Facts *)

Lemma octet_texts : forallb (fun k => IpAddress.octet (pretty (Z.of_nat k)) && (octet_val (pretty (Z.of_nat k)) =? Z.of_nat k)
  && negb (PyStr.has_char (fun c => bool_decide (c = "."%char)) (pretty (Z.of_nat k)))) (seq 0 256) = true.
Proof. vm_compute. reflexivity. Qed.

Lemma octet_text o : 0 <= o < 256 ->
  IpAddress.octet (pretty o) = true /\ octet_val (pretty o) = o /\
  PyStr.has_char (fun c => bool_decide (c = "."%char)) (pretty o) = false.
Proof.
  intros Ho. pose proof (proj1 (forallb_forall _ _) octet_texts (Z.to_nat o)) as H. cbv beta in H.
  rewrite Z2Nat.id in H by lia. specialize (H ltac:(apply in_seq; lia)).
  apply andb_true_iff in H as [[H1 H2%Z.eqb_eq]%andb_true_iff H3%negb_true_iff]. done.
Qed.

Lemma octets_sum z : 0 <= z < 2 ^ 32 ->
  256 * (256 * (256 * (z / 2 ^ 24 mod 256) + z / 2 ^ 16 mod 256) + z / 2 ^ 8 mod 256) + z / 2 ^ 0 mod 256 = z.
Proof.
  intros Hz. change (2 ^ 24) with 16777216. change (2 ^ 16) with 65536. change (2 ^ 8) with 256. change (2 ^ 0) with 1.
  change (2 ^ 32) with 4294967296 in Hz. Z.div_mod_to_equations. lia.
Qed.

(** The text of an IPv4 address is parsed back into it. *)
Lemma ipv4_roundtrip z : 0 <= z < 2 ^ 32 -> ipv4_int (ipv4_str z) = Some z.
Proof.
  intros Hz. unfold ipv4_int, ipv4_str, IpAddress.ipv4. cbn [map].
  assert (forall k, 0 <= z / 2 ^ k mod 256 < 256) as Hb by (intros k; apply Z.mod_pos_bound; lia).
  destruct (octet_text _ (Hb 24)) as (A1 & A2 & A3). destruct (octet_text _ (Hb 16)) as (B1 & B2 & B3).
  destruct (octet_text _ (Hb 8)) as (C1 & C2 & C3). destruct (octet_text _ (Hb 0)) as (D1 & D2 & D3).
  rewrite split_of_join by (done || by repeat constructor). cbn [length Nat.eqb forallb]. rewrite A1, B1, C1, D1. cbn [andb fold_left].
  rewrite A2, B2, C2, D2. f_equal. rewrite Z.mul_0_r, Z.add_0_l. by apply octets_sum.
Qed.

Lemma digits_val_nonneg acc b s z : 0 <= acc -> digits_val acc b s = Some z -> 0 <= z.
Proof.
  revert acc b. induction s as [|c s IH]; intros acc b Ha; cbn [digits_val].
  - destruct b; [by intros [= <-]|done].
  - destruct (PyStr.is_digit c) eqn:Hd.
    + apply IH. unfold PyStr.is_digit in Hd. cbv zeta in Hd. apply andb_true_iff in Hd as [Hd _]. apply Nat.leb_le in Hd. lia.
    + case_match; [by apply IH|done].
Qed.

Lemma digits_nonneg s z : IpAddress.all_chars PyStr.is_digit s = true -> int_of_string s = Some z -> 0 <= z.
Proof.
  unfold IpAddress.all_chars, int_of_string. intros Hd%negb_true_iff.
  rewrite strip_none.
  - destruct s as [|c s]; [apply digits_val_nonneg; lia|]. cbn [PyStr.has_char] in Hd. apply orb_false_iff in Hd as [Hc _].
    destruct (decide (c = "-"%char)) as [->|Hm]; [done|]. destruct (decide (c = "+"%char)) as [->|Hp]; [done|].
    destruct c as [[] [] [] [] [] [] [] []]; try done; apply digits_val_nonneg; lia.
  - induction s as [|c s IH]; [done|]. cbn [PyStr.has_char] in *. apply orb_false_iff in Hd as [Hc Hs].
    apply orb_false_iff. split; [|by apply IH].
    apply negb_false_iff in Hc. by destruct c as [[] [] [] [] [] [] [] []].
Qed.

Lemma ipv4_int_bound s z : ipv4_int s = Some z -> 0 <= z < 2 ^ 32.
Proof.
  unfold ipv4_int, IpAddress.ipv4. destruct (PyStr.split "." s) as [|a [|b [|c [|d [|e l]]]]]; try done.
  cbn [length Nat.eqb forallb andb]. destruct (IpAddress.octet a) eqn:Ha; [|done].
  destruct (IpAddress.octet b) eqn:Hb; [|done]. destruct (IpAddress.octet c) eqn:Hc; [|done].
  destruct (IpAddress.octet d) eqn:Hd; [|done]. intros [= <-].
  assert (forall o, IpAddress.octet o = true -> 0 <= octet_val o <= 255) as Ho.
  { clear. intros o. unfold IpAddress.octet, octet_val. rewrite !andb_true_iff. intros [[[[_ Hd] _] _] H].
    destruct (int_of_string o) as [z|] eqn:Hi; [|done]. simpl. apply (digits_nonneg _ _ Hd) in Hi. lia. }
  pose proof (Ho a Ha). pose proof (Ho b Hb). pose proof (Ho c Hc). pose proof (Ho d Hd). cbn [fold_left]. lia.
Qed.

Lemma trailing_zeros_bound fuel z : 0 <= trailing_zeros fuel z <= Z.of_nat fuel.
Proof. revert z. induction fuel as [|n IH]; intros z; cbn [trailing_zeros]; [lia|]. destruct (Z.odd z); [lia|]. specialize (IH (z / 2)). lia. Qed.

Lemma make_netmask_bound v6 s p : make_netmask v6 s = Some p -> 0 <= p <= width v6.
Proof.
  unfold make_netmask. destruct (prefix_of_digits v6 s) as [q|] eqn:Hq.
  - intros [= <-]. unfold prefix_of_digits in Hq. case_match eqn:Hd; [|done]. apply andb_true_iff in Hd as [_ Hd].
    destruct (int_of_string s) as [q'|] eqn:Hi; [|done]. apply (digits_nonneg _ _ Hd) in Hi.
    destruct (q' <=? width v6) eqn:Hw; [|done]. injection Hq as <-. lia.
  - destruct v6; [done|]. destruct (ipv4_int s) as [z|]; [|done].
    assert (forall m q, prefix_of_mask m = Some q -> 0 <= q <= 32) as Hm.
    { intros m q. unfold prefix_of_mask. pose proof (trailing_zeros_bound 32 m) as Ht. revert Ht.
      generalize (trailing_zeros 32 m). intros k Hk. cbv zeta. destruct (_ =? _); [|done]. intros Heq. injection Heq as <-. lia. }
    unfold width. destruct (prefix_of_mask z) as [q|] eqn:Hz; [intros [= <-]; by apply (Hm z)|apply Hm].
Qed.

(** An IPv4 network is an aligned block of addresses. *)
Record ipv4_network (n : network) : Prop := {
  net_prefix : 0 <= prefixlen n <= 32;
  net_base : 0 <= base n;
  net_end : base n + size n <= 2 ^ 32;
  net_aligned : base n mod size n = 0
}.

Lemma network_of_wf s n : network_of false s = Some n -> v6 n = false /\ ipv4_network n.
Proof.
  assert (forall addr p, 0 <= p <= 32 ->
    match option_map (fun z => (z, "")) (ipv4_int addr), Some p with
    | Some (z, sc), Some p => Some (Network false (mask_to false p z) p sc)
    | _, _ => None
    end = Some n -> v6 n = false /\ ipv4_network n) as Hmake.
  { intros addr p Hp. destruct (ipv4_int addr) as [z|] eqn:Hz; [|done]. apply ipv4_int_bound in Hz. intros [= <-].
    split; [done|]. unfold mask_to, width. cbn [prefixlen base].
    assert (0 < 2 ^ (32 - p)) by (apply Z.pow_pos_nonneg; lia).
    assert (2 ^ 32 = 2 ^ p * 2 ^ (32 - p)) as Hsplit by (rewrite <- Z.pow_add_r by lia; f_equal; lia).
    rewrite Z.shiftl_mul_pow2, Z.shiftr_div_pow2 by lia.
    assert (0 <= z / 2 ^ (32 - p)) by (apply Z.div_pos; lia).
    assert (z / 2 ^ (32 - p) < 2 ^ p) by (apply Z.div_lt_upper_bound; [lia|]; rewrite Z.mul_comm, <- Hsplit; lia).
    split; unfold size, width; cbn [v6 base prefixlen]; [done|nia| |apply Z.mod_mul; lia]. rewrite Hsplit. nia. }
  unfold network_of. destruct (PyStr.split "/" s) as [|addr [|mask [|? ?]]]; [done| | |done].
  - apply Hmake. unfold width. lia.
  - destruct (make_netmask false mask) as [p|] eqn:Hp; [|by destruct (option_map _ _) as [[]|]].
    apply Hmake. by apply make_netmask_bound in Hp.
Qed.

(** The addresses of a network that a host may have. *)
Definition usable (n : network) (z : Z) : Prop :=
  base n <= z < base n + size n /\ (prefixlen n < 31 -> z <> base n /\ z <> base n + size n - 1).

Lemma size_big n : ipv4_network n -> v6 n = false ->
  (32 - prefixlen n <= 1 -> size n = 2 ^ (32 - prefixlen n) /\ 1 <= size n <= 2) /\ (1 < 32 - prefixlen n -> 4 <= size n).
Proof.
  intros [Hp _ _ _] Hv. unfold size, width. rewrite Hv. split.
  - intros Hl. split; [done|]. assert (32 - prefixlen n = 0 \/ 32 - prefixlen n = 1) as [-> | ->] by lia; simpl; lia.
  - intros Hl. change 4 with (2 ^ 2). apply Z.pow_le_mono_r; lia.
Qed.

Lemma host_ints_spec n z : v6 n = false -> ipv4_network n -> z ∈ host_ints n <-> usable n z.
Proof.
  intros Hv Hn. pose proof Hn as [Hp Hb He _]. destruct (size_big n Hn Hv) as [Hs1 Hs2].
  unfold host_ints, usable, width. rewrite Hv. destruct (32 - prefixlen n <=? 1) eqn:Hl; rewrite elem_of_seqZ; lia.
Qed.

Lemma host_ints_sorted n : StronglySorted Z.lt (host_ints n).
Proof.
  assert (forall m len, StronglySorted Z.lt (seqZ m len)) as H.
  { intros m len. unfold seqZ. generalize (Z.to_nat len). clear. intros k.
    assert (forall i, StronglySorted Z.lt (map (fun j : nat => Z.add (Z.of_nat j) m) (seq i k))) as H; [|apply H].
    induction k as [|k IH]; intros i; simpl; constructor; [apply IH|].
    apply Forall_fmap, Forall_forall. intros j Hj%elem_of_seq. simpl. lia. }
  unfold host_ints. by repeat case_match.
Qed.
End Networks.
