(* ===== verification/NetScan.v ===== *)
(** * Scanning for Redfish services

    src/redfish_ctl/discover/classifier.py (the vendor of a service root),
    src/redfish_ctl/discovery/net_scan.py and discovery/cmd_bmc_scan.py (the
    credential-less scan of a network segment on a thread pool), and
    src/redfish_ctl/discover/scanner.py with the fetcher of discover/cli.py (the
    asynchronous scan of a host list behind a semaphore).  What
    [requests.get] returns or raises for a URL is a parameter; the pools are those of
    Pool.v. *)

From stdpp Require Import base list strings relations pretty.
From Stdlib Require Import Ascii ZArith Lia Sorted.
From S2P Require Import Prelude PyVal Effects Http Pool Networks.

Module NetScan.
Import Http.
Local Open Scope Z_scope.
Local Open Scope py_scope.

(** ** The classifier *)

(** [_OEM_KEY_TO_VENDOR] *)
Definition OEM_KEY_TO_VENDOR : list (string * string) :=
  [("dell", "dell"); ("emc", "dell"); ("hpe", "hpe"); ("hp", "hpe"); ("supermicro", "supermicro");
   ("smc", "supermicro"); ("smci", "supermicro"); ("openbmc", "openbmc")].

(** [_TEXT_TOKENS] *)
Definition TEXT_TOKENS : list (string * string) :=
  [("dell", "dell"); ("hewlett packard enterprise", "hpe"); ("hpe", "hpe"); ("hewlett-packard", "hpe");
   ("hewlett packard", "hpe"); ("hp", "hpe"); ("supermicro", "supermicro"); ("super micro", "supermicro");
   ("openbmc", "openbmc")].

(** [_vendor_from_oem(service_root)] *)
Definition vendor_from_oem (service_root : pydict) : option string :=
  match dget "Oem" service_root with
  | PDict oem => head (omap (fun key => dict_get (PyStr.lower (PyStr.strip key)) OEM_KEY_TO_VENDOR) (dict_keys oem))
  | _ => None
  end.

(** [_vendor_from_odata_type(service_root)] *)
Definition vendor_from_odata_type (service_root : pydict) : option string :=
  match dget "@odata.type" service_root with
  | PStr odata_type =>
      let token := PyStr.lstrip_char "#" odata_type in
      let schema := PyStr.lower (default "" (head (PyStr.split "." token))) in
      snd <$> List.find (fun kv => PyStr.startswith kv.1 schema) OEM_KEY_TO_VENDOR
  | _ => None
  end.

(** [_vendor_from_text(service_root)] *)
Definition vendor_from_text (service_root : pydict) : option string :=
  match omap (fun field => match dget field service_root with PStr v => Some (PyStr.lower v) | _ => None end)
          ["Manufacturer"; "Vendor"] with
  | [] => None
  | parts => snd <$> List.find (fun kv => PyStr.contains kv.1 (PyStr.join " " parts)) TEXT_TOKENS
  end.

(** [classify_vendor(service_root)] *)
Definition classify_vendor (service_root : pyval) : string :=
  match service_root with
  | PDict d =>
      match vendor_from_oem d with
      | Some v => v
      | None => match vendor_from_odata_type d with
                | Some v => v
                | None => default "generic" (vendor_from_text d)
                end
      end
  | _ => "generic"
  end.

(** ** The scan of a segment *)

Definition REDFISH_ROOT_PATH : string := "/redfish/v1".
Definition MAX_WORKERS : Z := 256.

(** [expand_cidr(subnet)] *)
Definition expand_cidr (subnet : string) : res (list string) :=
  let? net := Networks.ip_network subnet in
  Ok (match Networks.hosts net with
      | [] => [if Networks.v6 net then Networks.ipv6_str (Networks.base net) else Networks.ipv4_str (Networks.base net)]
      | l => l
      end).

(** The row of a service root that asks for a login. *)
Definition locked_row (ip : string) : pydict :=
  [("IP", PStr ip); ("Vendor", PStr "unknown"); ("Product", PNone); ("RedfishVersion", PNone); ("Managers", PNone);
   ("Systems", PNone); ("Auth", PStr "required")].

(** [x.get("@odata.id") if isinstance(x, dict) else None] of [data.get(k) or {}] *)
Definition link_id (k : string) (data : pydict) : pyval :=
  match py_or (dget k data) (PDict []) with PDict d => dget "@odata.id" d | _ => PNone end.

Definition open_row (ip : string) (data : pydict) : pydict :=
  [("IP", PStr ip); ("Vendor", PStr (classify_vendor (PDict data)));
   ("Product", match dget "Product" data with PStr p => PStr p | _ => PNone end);
   ("RedfishVersion", dget "RedfishVersion" data); ("Managers", link_id "Managers" data);
   ("Systems", link_id "Systems" data); ("Auth", PStr "open")].

(** The URL of a probe; nothing else is sent. *)
Definition probe_url (ip : string) (port : Z) : string :=
  "https://" +:+ ip +:+ ":" +:+ pretty port +:+ REDFISH_ROOT_PATH.

(** [probe_host(ip, port, timeout)] from what [requests.get(url)] did; exceptions that are
    no [Exception] pass *)
Definition probe_host (ip : string) (got : res response) : res (option pydict) :=
  match got with
  | Ok resp =>
      if (status_code resp =? 401) || (status_code resp =? 403) then Ok (Some (locked_row ip))
      else if negb (status_code resp =? 200) then Ok None
      else match json resp with
           | Ok (PDict data) => if dict_in "RedfishVersion" data then Ok (Some (open_row ip data)) else Ok None
           | Ok _ => Ok None
           | Raise e => if is_Exception e then Ok None else Raise e
           | NoFuel => NoFuel
           end
  | Raise e => if is_Exception e then Ok None else Raise e
  | NoFuel => NoFuel
  end.

(** [max(1, min(workers or 64, MAX_WORKERS))] *)
Definition pool_size (workers : option Z) : Z :=
  let w := match workers with Some w => if w =? 0 then 64 else w | None => 64 end in
  Z.max 1 (Z.min w MAX_WORKERS).

(** [for row in pool.map(...): if row: found.append(row)] *)
Fixpoint collect {A} (rows : list (res (option A))) : res (list A) :=
  match rows with
  | [] => Ok []
  | r :: rest =>
      let? row := r in
      let? found := collect rest in
      Ok (match row with Some x => x :: found | None => found end)
  end.

(** [scan_segment(subnet, port, timeout, workers)] when the probes run one after the other *)
Definition scan_segment (get : string -> res response) (subnet : string) (port : Z) : res (list pydict) :=
  let? hosts := expand_cidr subnet in
  collect (map (fun ip => probe_host ip (get (probe_url ip port))) hosts).

(** [isinstance(e, ValueError)] *)
Definition is_ValueError (e : exn) : bool :=
  match e with ValueError _ | JSONDecodeError _ => true | _ => false end.

Definition rows_val (rows : list pydict) : pyval := PList (map PDict rows).

(** The scan of a command: an invalid network is an error of the result; [save] is the
    outcome of saving what was found *)
Definition scan_command (what network : string) (scanned : res (list pydict)) (save : list pydict -> res unit)
  : res CommandResult :=
  match scanned with
  | Ok found => let? _ := save found in Ok (mkResult (rows_val found) PNone PNone PNone)
  | Raise e =>
      if is_ValueError e
      then Ok (mkResult (PList []) PNone PNone (PStr ("invalid " +:+ what +:+ " '" +:+ network +:+ "': " +:+ exn_str e)))
      else Raise e
  | NoFuel => NoFuel
  end.

(** [BmcScan.execute(subnet, scan_port, ...)] *)
Definition bmc_scan (get : string -> res response) (subnet : option string) (port : Z) (save : list pydict -> res unit)
  : res CommandResult :=
  match subnet with
  | Some (String _ _ as s) => scan_command "subnet" s (scan_segment get s port) save
  | _ => Ok (mkResult (PList []) PNone PNone (PStr "provide --subnet as a CIDR, e.g. --subnet 10.43.3.0/24"))
  end.

(** The segment scan of [Discovery.execute(scan_network=...)] *)
Definition discovery_scan (get : string -> res response) (scan_network : string) (port : Z)
    (save : list pydict -> res unit) : res CommandResult :=
  scan_command "network" scan_network (scan_segment get scan_network port) save.

(** ** The asynchronous scan *)

Record DiscoveredService := Service_ {
  ip : string; vendor : string; product : option string; redfish_version : option string
}.

(** [DiscoveredService.as_dict()] *)
Definition as_dict (s : DiscoveredService) : pydict :=
  [("ip", PStr (ip s)); ("vendor", PStr (vendor s)); ("product", opt_str (product s));
   ("redfish_version", opt_str (redfish_version s))].

Definition only_str (v : pyval) : option string := match v with PStr s => Some s | _ => None end.

(** [_service_from_root(ip, service_root)] *)
Definition service_from_root (ip : string) (service_root : pyval) : option DiscoveredService :=
  match service_root with
  | PDict ((_ :: _) as d) =>
      Some (Service_ ip (classify_vendor (PDict d)) (only_str (dget "Product" d)) (only_str (dget "RedfishVersion" d)))
  | _ => None
  end.

(** [_probe_host(ip, get, semaphore)] from what [await get(ip)] did *)
Definition probe_service (ip : string) (got : res pyval) : res (option DiscoveredService) :=
  match got with
  | Ok v => Ok (service_from_root ip v)
  | Raise e => if is_Exception e then Ok None else Raise e
  | NoFuel => NoFuel
  end.

(** The hosts in the order of their first occurrence, without empty ones. *)
Definition ordered_hosts (hosts : list string) : list string :=
  fold_left (fun acc host => if negb (PyStr.nonempty host) || bool_decide (host ∈ acc) then acc else acc ++ [host]) hosts [].

(** [scan_subnet(hosts, get, concurrency)] when the probes run one after the other *)
Definition scan_subnet (get : string -> res pyval) (hosts : list string) (concurrency : Z) : res (list DiscoveredService) :=
  if concurrency <? 1 then Raise (ValueError "concurrency must be >= 1")
  else collect (map (fun host => probe_service host (get host)) (ordered_hosts hosts)).

(** [make_http_fetcher(scheme, port, ...)]: the fetcher of a host *)
Definition http_fetcher (get : string -> res response) (scheme : string) (port : Z) (host : string) : res pyval :=
  match get (scheme +:+ "://" +:+ host +:+ ":" +:+ pretty port +:+ "/redfish/v1/") with
  | Ok resp =>
      if negb (status_code resp =? 200) then Ok PNone
      else match json resp with
           | Ok (PDict d) => Ok (PDict d)
           | Ok _ => Ok PNone
           | Raise e => if is_Exception e then Ok PNone else Raise e
           | NoFuel => NoFuel
           end
  | Raise e => if is_Exception e then Ok PNone else Raise e
  | NoFuel => NoFuel
  end.

(** ** The table *)

(** [cell.ljust(width)] *)
Fixpoint spaces (n : nat) : string := match n with O => "" | S n => String " " (spaces n) end.
Definition ljust (width : nat) (s : string) : string := s +:+ spaces (width - String.length s).
Fixpoint dashes (n : nat) : string := match n with O => "" | S n => String "-" (dashes n) end.

(** [_COLUMNS] *)
Definition COLUMNS : list (string * string) :=
  [("IP", "ip"); ("Vendor", "vendor"); ("Product", "product"); ("Redfish", "redfish_version")].

(** [_cell(record, key)] *)
Definition cell (record : pydict) (key : string) : string :=
  match dget key record with PNone => "-" | v => py_str v end.

(** [max(len(headers[i]), *(len(row[i]) for row in rows))] *)
Definition column_width (header : string) (cells : list string) : nat :=
  fold_left (fun acc c => Nat.max acc (String.length c)) cells (String.length header).

(** [_render_plain(records, out)]: the lines written *)
Definition render_plain (records : list pydict) : list string :=
  let rows := map (fun r => map (fun hk => cell r hk.2) COLUMNS) records in
  let widths := imap (fun i hk => column_width hk.1 (map (fun row => default "" (row !! i)) rows)) COLUMNS in
  let fmt (cells : list string) := PyStr.join "  " (zip_with ljust widths cells) in
  fmt (map fst COLUMNS) :: fmt (map dashes widths) :: map fmt rows.

(** [render_table(services, stream)] on a stream that is no terminal *)
Definition render_table (services : list DiscoveredService) : list string :=
  match services with
  | [] => ["No Redfish services discovered."]
  | _ => render_plain (map as_dict services)
  end.

(** [redfish_discover_main(argv)]: the exit code and what is printed; the default fetcher
    finds nothing *)
Definition redfish_discover_main (hosts : list string) (concurrency : Z) : res (Z * list string) :=
  match hosts with
  | [] => Ok (2, [])
  | _ => let? services := scan_subnet (fun _ => Ok PNone) hosts concurrency in Ok (0, render_table services)
  end.

(** ** What a scan probes *)

Lemma usable_bound n z : Networks.ipv4_network n -> Networks.usable n z -> 0 <= z < 2 ^ 32.
Proof. intros [_ Hb He _] [Hz _]. lia. Qed.

(** A host is probed once if and only if the segment has an address for it: for an IPv4
    network, however it is written, the addresses probed are the usable ones of the block
    (without the network and the broadcast address, except on the two smallest
    networks), in increasing order, and the text of each parses back to it. *)
Theorem expand_cidr_exact subnet n :
  Networks.network_of false subnet = Some n ->
  exists zs hosts, expand_cidr subnet = Ok hosts /\ hosts = map Networks.ipv4_str zs /\ StronglySorted Z.lt zs /\
    (forall z, z ∈ zs <-> Networks.usable n z) /\ NoDup hosts /\
    Forall (fun h => exists z, Networks.ipv4_int h = Some z /\ Networks.usable n z) hosts.
Proof.
  intros Hn. pose proof Hn as [Hv Hwf]%Networks.network_of_wf. pose proof (fun z => Networks.host_ints_spec n z Hv Hwf) as Hspec.
  exists (Networks.host_ints n), (map Networks.ipv4_str (Networks.host_ints n)).
  assert (Networks.hosts n = map Networks.ipv4_str (Networks.host_ints n)) as Hh.
  { unfold Networks.hosts. apply map_ext. intros z. by rewrite Hv. }
  split; [|split; [done|split; [apply Networks.host_ints_sorted|split; [done|split]]]].
  - unfold expand_cidr, Networks.ip_network. rewrite Hn. cbn [res_bind]. rewrite Hh.
    destruct (Networks.host_ints n) as [|z zs] eqn:He; [|done]. exfalso.
    destruct (Networks.size_big n Hwf Hv) as [Hs1 Hs2]. pose proof Hwf as [Hp _ _ _].
    destruct (decide (1 < 32 - Networks.prefixlen n)) as [Hl|Hl].
    + apply (not_elem_of_nil (Networks.base n + 1)), Hspec. unfold Networks.usable. lia.
    + apply (not_elem_of_nil (Networks.base n)), Hspec. unfold Networks.usable. lia.
  - apply NoDup_fmap_2_strong; [|].
    + intros x y Hx Hy Heq. apply Hspec, (usable_bound n) in Hx; [|done]. apply Hspec, (usable_bound n) in Hy; [|done].
      pose proof (Networks.ipv4_roundtrip x Hx) as E1. pose proof (Networks.ipv4_roundtrip y Hy) as E2. congruence.
    + pose proof (Networks.host_ints_sorted n) as Hs. clear -Hs. induction Hs as [|z zs _ IH Hall]; constructor; [|done].
      intros Hin. rewrite Forall_forall in Hall. specialize (Hall z Hin). lia.
  - apply Forall_fmap, Forall_forall. intros z Hz. apply Hspec in Hz. exists z. split; [|done].
    by apply Networks.ipv4_roundtrip, (usable_bound n).
Qed.

Lemma expand_cidr_exact_witness :
  exists zs hosts, expand_cidr "192.168.254.17/28" = Ok hosts /\ hosts = map Networks.ipv4_str zs /\ length hosts = 14%nat.
Proof.
  destruct (expand_cidr_exact "192.168.254.17/28" (Networks.Network false 3232300560 28 "") ltac:(vm_compute; reflexivity))
    as (zs & hosts & He & Hh & _). exists zs, hosts. split; [exact He|]. split; [exact Hh|].
  vm_compute in He. injection He as <-. reflexivity.
Defined.

(** ** What a scan finds *)

(** The answers the network may give; they may differ from one request to the next. *)
Section Scan.
Context (net : string -> res response -> Prop) (port : Z).

(** A probe of a host. *)
Definition probes (ip : string) (row : res (option pydict)) : Prop :=
  exists got, net (probe_url ip port) got /\ row = probe_host ip got.

(** What [requests.get] raises is an [Exception]. *)
Definition ordinary (got : res response) : Prop :=
  match got with Ok _ => True | Raise e => is_Exception e = true | NoFuel => False end.

Lemma probe_ordinary ip got : ordinary got -> exists row, probe_host ip got = Ok row.
Proof.
  destruct got as [resp|e|]; simpl; [|intros ->; by eexists|done]. intros _.
  destruct ((_ =? 401) || _); [by eexists|]. destruct (negb _); [by eexists|].
  unfold json. destruct (body resp) as [v|m]; [|by eexists].
  destruct v; try by eexists. destruct (dict_in _ _); by eexists.
Qed.

(** The row of a host by what it answered. *)
Definition found_row (ip : string) (got : res response) : option pydict :=
  match probe_host ip got with Ok row => row | _ => None end.

Lemma collect_probes hosts rows :
  (forall url got, net url got -> ordinary got) -> Forall2 probes hosts rows ->
  exists gots, Forall2 (fun ip got => net (probe_url ip port) got) hosts gots /\
    collect rows = Ok (omap (fun ig => found_row ig.1 ig.2) (zip hosts gots)).
Proof.
  intros Hord H. induction H as [|ip row hosts rows (got & Hg & ->) _ (gots & Hgs & IH)]; [by exists []|].
  exists (got :: gots). split; [by constructor|]. destruct (probe_ordinary ip got (Hord _ _ Hg)) as [r Hr].
  cbn [collect zip zip_with omap list_omap fst snd]. unfold found_row at 1. rewrite Hr. cbn [res_bind]. rewrite IH. by destruct r.
Qed.

(** A row that was found names its host and says how it answered. *)
Lemma found_row_spec ip got row : found_row ip got = Some row ->
  dget "IP" row = PStr ip /\ exists resp, got = Ok resp /\
  ((dget "Auth" row = PStr "required" /\ (status_code resp = 401 \/ status_code resp = 403)) \/
   (dget "Auth" row = PStr "open" /\ status_code resp = 200 /\
    exists d, json resp = Ok (PDict d) /\ dict_in "RedfishVersion" d = true)).
Proof.
  unfold found_row, probe_host. destruct got as [resp|e|]; [|by destruct (is_Exception e)|done].
  destruct ((status_code resp =? 401) || (status_code resp =? 403)) eqn:Hl.
  { intros [= <-]. split; [done|]. exists resp. split; [done|]. left. split; [done|]. lia. }
  destruct (status_code resp =? 200) eqn:H2; cbn [negb]; [|done].
  destruct (json resp) as [v|e|] eqn:Hj; [|by destruct (is_Exception e)|done].
  destruct v as [| | | | | | |d|]; try done. destruct (dict_in "RedfishVersion" d) eqn:Hin; [|done].
  intros [= <-]. split; [done|]. exists resp. split; [done|]. right. split; [done|]. split; [lia|]. by exists d.
Qed.
End Scan.

Lemma pool_size_bounds workers : 1 <= pool_size workers <= 256.
Proof. unfold pool_size, MAX_WORKERS. lia. Qed.

(** The scan of a segment does not depend on how its threads are scheduled, whatever the
    hosts answer.  At no time are more than 256 probes under way; from every state the
    scan can be finished, and it takes at most two steps per host; a finished scan has
    one answer of each host and reports, in the order of the addresses, exactly the rows
    of the hosts that answered like a Redfish service; and when the network answers a
    URL always in the same way, the result is that of probing one host after the other. *)
Theorem scan_any_schedule (net : string -> res response -> Prop) port workers subnet hosts :
  expand_cidr subnet = Ok hosts ->
  (forall url, exists got, net url got) -> (forall url got, net url got -> ordinary got) ->
  let step := pool_step (probes net port) (Z.to_nat (pool_size workers)) in
  (forall js, rtc step (submitted hosts) js -> (running js <= 256)%nat /\
     exists js' rows, rtc step js js' /\ collected js' rows) /\
  (forall n js, nsteps step n (submitted hosts) js -> (n <= 2 * length hosts)%nat) /\
  (forall rows, pool_results (probes net port) (Z.to_nat (pool_size workers)) hosts rows ->
     exists gots, Forall2 (fun ip got => net (probe_url ip port) got) hosts gots /\
       collect rows = Ok (omap (fun ig => found_row ig.1 ig.2) (zip hosts gots))) /\
  (forall get rows, (forall url got, net url got -> got = get url) ->
     pool_results (probes net port) (Z.to_nat (pool_size workers)) hosts rows ->
     collect rows = scan_segment get subnet port).
Proof.
  intros Hx Htot Hord step. pose proof (pool_size_bounds workers) as Hsize. repeat apply conj.
  - intros js Hjs. split.
    + pose proof (pool_bounded _ _ _ _ Hjs). lia.
    + apply (pool_completes (probes net port) _ hosts js); [lia| |done]. intros ip.
      destruct (Htot (probe_url ip port)) as [got Hg]. eexists. by exists got.
  - intros n js Hn. pose proof (run_work _ _ _ _ _ Hn) as Hw. rewrite submitted_work in Hw. lia.
  - intros rows Hr. apply collect_probes; [done|]. by eapply pool_results_sound.
  - intros get rows Hget Hr. apply pool_results_sound in Hr. unfold scan_segment. rewrite Hx. cbn [res_bind]. f_equal.
    clear -Hr Hget. induction Hr as [|ip row hosts rows (got & Hg & ->) _ IH]; [done|]. cbn [map].
    by rewrite (Hget _ _ Hg), IH.
Qed.

(** A segment with an open service, a locked one, and a host that is neither. *)
Definition segment (url : string) : res response :=
  dict_get_or url (Raise (ConnectionFailed "refused"))
    [("https://10.0.0.1:443/redfish/v1", Ok (Response 200 [] (inl (PDict [("RedfishVersion", PStr "1.9.0");
        ("Oem", PDict [("Hpe", PDict [])]); ("Systems", PDict [("@odata.id", PStr "/redfish/v1/Systems")])]))));
     ("https://10.0.0.2:443/redfish/v1", Ok (Response 401 [] (inr "")));
     ("https://10.0.0.5:443/redfish/v1", Ok (Response 200 [] (inl (PStr "hello"))))].

Lemma scan_any_schedule_witness :
  (exists rows, pool_results (probes (fun url got => got = segment url) 443) (Z.to_nat (pool_size None))
     ["10.0.0.1"; "10.0.0.2"; "10.0.0.3"; "10.0.0.4"; "10.0.0.5"; "10.0.0.6"] rows /\
     collect rows = scan_segment segment "10.0.0.0/29" 443) /\
  option_map (map (fun row => (dget "IP" row, dget "Vendor" row, dget "Auth" row)))
    (match scan_segment segment "10.0.0.0/29" 443 with Ok f => Some f | _ => None end) =
  Some [(PStr "10.0.0.1", PStr "hpe", PStr "open"); (PStr "10.0.0.2", PStr "unknown", PStr "required")].
Proof.
  split; [|vm_compute; reflexivity].
  destruct (scan_any_schedule (fun url got => got = segment url) 443 None "10.0.0.0/29"
    ["10.0.0.1"; "10.0.0.2"; "10.0.0.3"; "10.0.0.4"; "10.0.0.5"; "10.0.0.6"]) as (_ & _ & _ & Hsame).
  - vm_compute. reflexivity.
  - intros url. by eexists.
  - intros url got ->. unfold segment, dict_get_or. cbn [dict_get]. by repeat case_decide.
  - set (hosts := ["10.0.0.1"; _; _; _; _; _]) in *.
    assert (pool_results (probes (fun url got => got = segment url) 443) (Z.to_nat (pool_size None)) hosts
      (map (fun ip => probe_host ip (segment (probe_url ip 443))) hosts)) as Hr.
    { apply pool_results_complete; [vm_compute; lia|]. apply Forall2_fmap_r, Forall_Forall2_diag, Forall_true.
      intros ip. by exists (segment (probe_url ip 443)). }
    eexists. split; [exact Hr|]. exact (Hsame segment _ (fun _ _ H => H) Hr).
Defined.

(** ** The asynchronous scan *)

Lemma ordered_hosts_spec hosts :
  NoDup (ordered_hosts hosts) /\ forall h, h ∈ ordered_hosts hosts <-> h ∈ hosts /\ h <> "".
Proof.
  unfold ordered_hosts. assert (forall hosts acc, NoDup acc -> (forall h, h ∈ acc -> h <> "") ->
    let out := fold_left (fun acc host => if negb (PyStr.nonempty host) || bool_decide (host ∈ acc) then acc
                                          else acc ++ [host]) hosts acc in
    NoDup out /\ forall h, h ∈ out <-> h ∈ acc \/ (h ∈ hosts /\ h <> "")) as H.
  { clear hosts. intros hosts. induction hosts as [|x hosts IH]; intros acc Hn Hne; cbn [fold_left].
    - split; [done|]. intros h. split; [by left|]. intros [?|[Hh _]]; [done|by apply not_elem_of_nil in Hh].
    - destruct (negb (PyStr.nonempty x) || bool_decide (x ∈ acc)) eqn:Hx.
      + destruct (IH acc Hn Hne) as [H1 H2]. split; [done|]. intros h. rewrite H2, elem_of_cons. split; [tauto|].
        intros [?|[[->|?] Hh]]; [by left| |by right]. left. apply orb_true_iff in Hx as [Hx|Hx]; [by destruct x|].
        by apply bool_decide_eq_true in Hx.
      + apply orb_false_iff in Hx as [Hx1 Hx2%bool_decide_eq_false].
        assert (x <> "") as Hxe by (by intros ->). destruct (IH (acc ++ [x])) as [H1 H2].
        * apply NoDup_app. split; [done|]. split; [|apply NoDup_singleton]. by intros h Hh ->%list_elem_of_singleton.
        * intros h [Hh|Hh%list_elem_of_singleton]%elem_of_app; [by apply Hne|by subst].
        * split; [done|]. intros h. rewrite H2, elem_of_app, !elem_of_cons, elem_of_nil.
          split; [intros [[?|[?|[]]]|?]; subst; tauto|tauto]. }
  destruct (H hosts [] (NoDup_nil_2) ltac:(by intros h Hh%not_elem_of_nil)) as [H1 H2]. split; [done|].
  intros h. rewrite H2. split; [|tauto]. intros [Hh|?]; [by apply not_elem_of_nil in Hh|done].
Qed.

(** The asynchronous scan probes each named host once, in any order, with no more than
    [concurrency] requests at a time, and reports the services in the order in which the
    hosts were first named; a host that raises or answers nothing is left out and does not
    disturb the others. *)
Theorem scan_subnet_any_schedule (get : string -> res pyval) hosts concurrency rows :
  1 <= concurrency -> (forall h, match get h with Ok _ => True | Raise e => is_Exception e = true | NoFuel => False end) ->
  pool_results (fun h row => row = probe_service h (get h)) (Z.to_nat concurrency) (ordered_hosts hosts) rows ->
  let found := omap (fun h => match get h with Ok v => service_from_root h v | _ => None end) (ordered_hosts hosts) in
  collect rows = Ok found /\ scan_subnet get hosts concurrency = Ok found /\ NoDup (map ip found) /\
  forall s, s ∈ found -> ip s ∈ hosts.
Proof.
  intros Hc Hget Hr found. apply pool_results_sound in Hr. destruct (ordered_hosts_spec hosts) as [Hnd Hin].
  assert (forall hs, collect (map (fun host => probe_service host (get host)) hs) =
    Ok (omap (fun h => match get h with Ok v => service_from_root h v | _ => None end) hs)) as Hcol.
  { intros hs. induction hs as [|h hs IH]; [done|]. cbn [map collect]. rewrite IH. specialize (Hget h).
    unfold probe_service. cbn [omap list_omap]. destruct (get h) as [v|e|]; [|by rewrite Hget|done].
    cbn [res_bind]. by destruct (service_from_root h v). }
  assert (rows = map (fun h => probe_service h (get h)) (ordered_hosts hosts)) as ->.
  { clear -Hr. induction Hr as [|h r hs rs -> _ IH]; [done|]. cbn [map]. by rewrite IH. }
  assert (forall h s, match get h with Ok v => service_from_root h v | _ => None end = Some s -> ip s = h) as Hip.
  { intros h s. destruct (get h) as [v|e|]; [|done..]. destruct v as [| | | | | | |[|]|]; try done. by intros [= <-]. }
  split; [apply Hcol|]. split.
  { unfold scan_subnet. replace (concurrency <? 1) with false by (symmetry; lia). apply Hcol. }
  split.
  - clear -Hnd Hip. subst found. induction Hnd as [|h hs Hn _ IH]; [constructor|]. cbn [omap list_omap].
    destruct (match get h with Ok v => _ | _ => _ end) as [s|] eqn:Hs; [|done]. cbn [map]. constructor; [|done].
    rewrite (Hip _ _ Hs). intros (s' & Hs' & Hin)%list_elem_of_fmap. apply list_elem_of_omap in Hin as (h' & Hh' & Hg).
    apply Hip in Hg. congruence.
  - intros s (h & Hh & Hg)%list_elem_of_omap. rewrite (Hip _ _ Hg). by apply Hin.
Qed.

Lemma scan_subnet_any_schedule_witness :
  let get := fun h => if decide (h = "b") then Raise (RequestTimeout "2s") else Ok (PDict [("RedfishVersion", PStr "1.0")]) in
  exists rows, collect rows = Ok [Service_ "c" "generic" None (Some "1.0"); Service_ "a" "generic" None (Some "1.0")] /\
    NoDup (map ip [Service_ "c" "generic" None (Some "1.0"); Service_ "a" "generic" None (Some "1.0")]).
Proof.
  intros get. set (rows := map (fun h => probe_service h (get h)) (ordered_hosts ["c"; "b"; ""; "a"; "c"])).
  destruct (scan_subnet_any_schedule get ["c"; "b"; ""; "a"; "c"] 2 rows) as (H1 & _ & H3 & _).
  - lia.
  - intros h. unfold get. by case_decide.
  - apply pool_results_complete; [vm_compute; lia|]. unfold rows. apply Forall2_fmap_r, Forall_Forall2_diag, Forall_true. done.
  - exists rows. split; [exact H1|exact H3].
Defined.
End NetScan.
