(* ===== verification/Instances.v ===== *)
(** * One command object per connection

    src/redfish_ctl/redfish_api_common.py, the metaclass [Singleton]: constructing a
    command class returns the object that was built before for the same class and
    connection, and threads that construct at the same time converge on one object by
    double-checked locking.  Threads are a step relation; the dict operations and the
    lock are atomic. *)

From stdpp Require Import base list strings relations.
From Stdlib Require Import ZArith Lia.
From S2P Require Import Prelude PyVal Sha256.

Module Instances.

(** The arguments of a constructor call: the class, the positional arguments as texts, and the connection. *)
Record request := Request {
  k_class : string;
  k_args : list string;
  k_host : string;
  k_username : string;
  k_password : option string;
  k_port : Z;
  k_is_http : bool;
  k_insecure : bool;
  k_x_auth : option string
}.

(** The key type; the password is in it as a digest only. *)
Abbreviation key := (string * list string * string * string * string * Z * bool * bool * string)%type.

Definition password_text (r : request) : string := default "" (k_password r).

(** [Singleton._connection_key(cls, args, kwargs)] *)
Definition connection_key (r : request) : key :=
  (k_class r, k_args r, k_host r, k_username r, Sha256.hexdigest (password_text r), k_port r, k_is_http r, k_insecure r,
   default "" (k_x_auth r)).

Section Threads.
(** Whether building an object for a request may succeed and may raise. *)
Context (builds raises : request -> Prop).

(** Where a thread is in [Singleton.__call__(cls, *args, **kwargs)] *)
Inductive pc :=
| Lookup                    (* before the first [get] *)
| Acquire                   (* missed, waits for the lock *)
| Recheck                   (* holds the lock, before the second [get] *)
| Build                     (* holds the lock, constructs the object *)
| Returned (inst : nat)
| Raised.

Record thread := Thread { t_request : request; t_pc : pc }.

(** The class attributes: the objects by key, the lock's owner; and the requests that the
    objects were built from. *)
Record state := State {
  instances : list (key * nat);
  lock : option nat;
  built : list request;
  threads : list thread
}.

Fixpoint find_key (k : key) (l : list (key * nat)) : option nat :=
  match l with
  | [] => None
  | (k', i) :: l' => if decide (k = k') then Some i else find_key k l'
  end.

Definition get (r : request) (s : state) : option nat := find_key (connection_key r) (instances s).

Definition goto (t : nat) (r : request) (p : pc) (s : state) : list thread := <[t := Thread r p]> (threads s).

(** [Singleton.__call__(cls, *args, **kwargs)], one atomic operation at a time *)
Inductive step : state -> state -> Prop :=
| s_hit t r i s : threads s !! t = Some (Thread r Lookup) -> get r s = Some i ->
    step s (State (instances s) (lock s) (built s) (goto t r (Returned i) s))
| s_miss t r s : threads s !! t = Some (Thread r Lookup) -> get r s = None ->
    step s (State (instances s) (lock s) (built s) (goto t r Acquire s))
| s_acquire t r s : threads s !! t = Some (Thread r Acquire) -> lock s = None ->
    step s (State (instances s) (Some t) (built s) (goto t r Recheck s))
| s_rehit t r i s : threads s !! t = Some (Thread r Recheck) -> get r s = Some i ->
    step s (State (instances s) None (built s) (goto t r (Returned i) s))
| s_remiss t r s : threads s !! t = Some (Thread r Recheck) -> get r s = None ->
    step s (State (instances s) (lock s) (built s) (goto t r Build s))
| s_built t r s : threads s !! t = Some (Thread r Build) -> builds r ->
    step s (State ((connection_key r, length (built s)) :: instances s) None (built s ++ [r])
              (goto t r (Returned (length (built s))) s))
| s_raised t r s : threads s !! t = Some (Thread r Build) -> raises r ->
    step s (State (instances s) None (built s) (goto t r Raised s)).

Definition start (rs : list request) : state := State [] None [] (map (fun r => Thread r Lookup) rs).

(** ** The invariant *)

Definition holds_lock (p : pc) : bool := match p with Recheck | Build => true | _ => false end.

(** Every object was built for its key, no key has two objects; the lock is held by the
    one thread that is past acquiring it; a thread that builds has no object yet; and a
    thread that returned has the object of its key. *)
Record inv (s : state) : Prop := {
  inv_built k i : find_key k (instances s) = Some i -> exists r, built s !! i = Some r /\ connection_key r = k;
  inv_lock t th : threads s !! t = Some th -> holds_lock (t_pc th) = true -> lock s = Some t;
  inv_owner t : lock s = Some t -> exists th, threads s !! t = Some th /\ holds_lock (t_pc th) = true;
  inv_build t r : threads s !! t = Some (Thread r Build) -> get r s = None;
  inv_returned t r i : threads s !! t = Some (Thread r (Returned i)) -> get r s = Some i
}.

Lemma inv_start rs : inv (start rs).
Proof.
  split; simpl; try done; intros t; intros; rewrite list_lookup_fmap in *; destruct (rs !! t); naive_solver.
Qed.
(** A thread after a step is the one that moved, or is as it was. *)
Lemma goto_lookup s t r p t' th : goto t r p s !! t' = Some th ->
  (t' = t /\ th = Thread r p) \/ (t' <> t /\ threads s !! t' = Some th).
Proof.
  unfold goto. rewrite list_lookup_insert_Some. intros [(-> & <- & _)|[Hne H]]; [by left|by right].
Qed.

Lemma goto_self s t th r p : threads s !! t = Some th -> goto t r p s !! t = Some (Thread r p).
Proof. intros H. unfold goto. apply list_lookup_insert_eq. by eapply lookup_lt_Some. Qed.

Lemma goto_other s t r p t' : t' <> t -> goto t r p s !! t' = threads s !! t'.
Proof. intros H. unfold goto. by apply list_lookup_insert_ne. Qed.

(** The step of a thread that stores no object and goes to a place where it neither builds nor
    returns something new. *)
Lemma inv_move s t r p0 p l :
  inv s -> threads s !! t = Some (Thread r p0) ->
  (l = lock s /\ holds_lock p0 = holds_lock p) \/ (l = None /\ lock s = Some t /\ holds_lock p = false) \/
  (l = Some t /\ lock s = None /\ holds_lock p = true) ->
  (p = Build -> get r s = None) -> (forall i, p = Returned i -> get r s = Some i) ->
  inv (State (instances s) l (built s) (goto t r p s)).
Proof.
  intros [I1 I2 I3 I4 I5] Ht Hl Hb Hr. split; simpl.
  - done.
  - intros t' th Hth Hh. apply goto_lookup in Hth as [[-> ->]|[Hne Hth]]; simpl in *.
    + destruct Hl as [[-> Heq]|[(-> & _ & Heq)|(-> & _)]]; [|congruence|done]. apply (I2 t _ Ht). simpl. congruence.
    + pose proof (I2 _ _ Hth Hh) as Hown. destruct Hl as [[-> _]|[(-> & Hlk & _)|(-> & Hlk & _)]]; congruence.
  - intros t' Hlt. destruct (decide (t' = t)) as [->|Hne].
    + exists (Thread r p). split; [by eapply goto_self|]. simpl. destruct Hl as [[-> Heq]|[(-> & _)|(_ & _ & Heq)]]; [|done|done].
      destruct (I3 t Hlt) as (th & Hth & Hh). rewrite Ht in Hth. injection Hth as <-. simpl in Hh. congruence.
    + rewrite goto_other by done. destruct Hl as [[-> _]|[(-> & _)|(-> & _)]]; [by apply I3|done|congruence].
  - intros t' r' Hth. apply goto_lookup in Hth as [[-> [= -> Hp]]|[Hne Hth]]; [by apply Hb|by apply (I4 t')].
  - intros t' r' i Hth. apply goto_lookup in Hth as [[-> [= -> Hp]]|[Hne Hth]]; [by apply Hr|by apply (I5 t')].
Qed.

Lemma inv_step s s' : inv s -> step s s' -> inv s'.
Proof.
  intros I Hs. pose proof I as [I1 I2 I3 I4 I5].
  inversion Hs as [t r i s0 Ht Hg|t r s0 Ht Hg|t r s0 Ht Hl|t r i s0 Ht Hg|t r s0 Ht Hg|t r s0 Ht Hb|t r s0 Ht Hb]; subst.
  - eapply inv_move; [done|exact Ht|by left|done|]. by intros j [= <-].
  - eapply inv_move; [done|exact Ht|by left|done|done].
  - eapply inv_move; [done|exact Ht|right; right; done|done|done].
  - eapply inv_move; [done|exact Ht|right; left; split; [done|]; split; [by apply (I2 t _ Ht)|done]|done|]. by intros j [= <-].
  - eapply inv_move; [done|exact Ht|by left|done|done].
  - pose proof (I2 t _ Ht eq_refl) as Hown. pose proof (I4 t r Ht) as Hnew. split; simpl.
    + intros k i. case_decide as Hk; [intros [= <-]; subst k; exists r; split; [by apply list_lookup_middle|done]|].
      intros Hf. destruct (I1 k i Hf) as (r0 & Hr0 & Hk0). exists r0. split; [by apply lookup_app_l_Some|done].
    + intros t' th Hth Hh. apply goto_lookup in Hth as [[-> ->]|[Hne Hth]]; [done|].
      pose proof (I2 _ _ Hth Hh) as Hown'. congruence.
    + done.
    + intros t' r' Hth. apply goto_lookup in Hth as [[-> [=]]|[Hne Hth]].
      pose proof (I2 _ _ Hth eq_refl) as Hown'. congruence.
    + intros t' r' i Hth. apply goto_lookup in Hth as [[-> [= -> ->]]|[Hne Hth]]; unfold get; simpl; [by rewrite decide_True|].
      pose proof (I5 _ _ _ Hth) as Hget. case_decide as Hk; [|done]. exfalso. unfold get in Hnew, Hget. congruence.
  - eapply inv_move; [done|exact Ht|right; left; split; [done|]; split; [by apply (I2 t _ Ht)|done]|done|done].
Qed.

Definition reachable (rs : list request) (s : state) : Prop := rtc step (start rs) s.

Lemma inv_reachable rs s : reachable rs s -> inv s.
Proof.
  unfold reachable. intros H. assert (forall a b, rtc step a b -> inv a -> inv b) as Hr by (induction 1; eauto using inv_step).
  eapply Hr; [exact H|apply inv_start].
Qed.

(** ** What a caller gets *)

(** The SHA-256 digests of two different texts agree. *)
Definition collision (a b : string) : Prop := a <> b /\ Sha256.hexdigest a = Sha256.hexdigest b.

(** The same class, host, credentials and transport. *)
Definition same_connection (r r' : request) : Prop :=
  k_class r = k_class r' /\ k_args r = k_args r' /\ k_host r = k_host r' /\ k_username r = k_username r' /\ password_text r = password_text r' /\
  k_port r = k_port r' /\ k_is_http r = k_is_http r' /\ k_insecure r = k_insecure r' /\
  default "" (k_x_auth r) = default "" (k_x_auth r').

Lemma key_connection r r' : connection_key r = connection_key r' ->
  same_connection r r' \/ collision (password_text r) (password_text r').
Proof.
  unfold connection_key. rewrite !pair_eq. intros [[[[[[[[H1 H0] H2] H3] H4] H5] H6] H7] H8].
  destruct (decide (password_text r = password_text r')) as [Hp|Hp]; [left|right; by split].
  by repeat split.
Qed.

Lemma same_connection_key r r' : same_connection r r' -> connection_key r = connection_key r'.
Proof. intros (H1 & H0 & H2 & H3 & H4 & H5 & H6 & H7 & H8). unfold connection_key. congruence. Qed.

(** C26. A command object is never used for another BMC or other credentials: however many threads
    construct command objects at the same time, an object that a thread gets was built for
    the class, host, credentials and transport that it asked for (unless two passwords
    collide under SHA-256), and all threads that ask for the same get the same object. *)
Theorem instances_isolated rs s t r i :
  reachable rs s -> threads s !! t = Some (Thread r (Returned i)) ->
  (exists r0, built s !! i = Some r0 /\
     (same_connection r0 r \/ collision (password_text r0) (password_text r))) /\
  (forall t' r' i', threads s !! t' = Some (Thread r' (Returned i')) -> same_connection r r' -> i' = i).
Proof.
  intros [I1 I2 I3 I4 I5]%inv_reachable Ht. pose proof (I5 _ _ _ Ht) as Hg. split.
  - destruct (I1 _ _ Hg) as (r0 & Hr0 & Hk). exists r0. split; [done|]. by apply key_connection.
  - intros t' r' i' Ht' Hsame. pose proof (I5 _ _ _ Ht') as Hg'. unfold get in *.
    rewrite (same_connection_key _ _ Hsame) in Hg. congruence.
Qed.

(** ** Progress *)

Definition finished (p : pc) : bool := match p with Returned _ | Raised => true | _ => false end.

(** The operations a thread has left at most. *)
Definition left_of (th : thread) : nat :=
  match t_pc th with Lookup => 4 | Acquire => 3 | Recheck => 2 | Build => 1 | _ => 0 end.

Lemma left_goto s t r p0 p : threads s !! t = Some (Thread r p0) -> left_of (Thread r p) < left_of (Thread r p0) ->
  sum_list_with left_of (goto t r p s) < sum_list_with left_of (threads s).
Proof.
  unfold goto. generalize (threads s). intros l. revert t. induction l as [|th l IH]; intros [|t] Ht Hl; [done|done| |].
  - injection Ht as ->. change (left_of (Thread r p) + sum_list_with left_of l < left_of (Thread r p0) + sum_list_with left_of l). lia.
  - specialize (IH t Ht Hl). change (left_of th + sum_list_with left_of (<[t := Thread r p]> l) < left_of th + sum_list_with left_of l). lia.
Qed.

Lemma step_left s s' : step s s' -> sum_list_with left_of (threads s') < sum_list_with left_of (threads s).
Proof. destruct 1; cbn [threads]; (eapply left_goto; [eassumption|cbn [left_of t_pc]; lia]). Qed.

(** Constructing command objects cannot deadlock: as long as a call has not returned or raised,
    some thread can step, and a run takes at most four steps per call. *)
Theorem construction_ends rs :
  (forall r, builds r \/ raises r) ->
  (forall s, reachable rs s -> Forall (fun th => finished (t_pc th) = true) (threads s) \/ exists s', step s s') /\
  (forall n s, nsteps step n (start rs) s -> n <= 4 * length rs).
Proof.
  intros Hor. split.
  - intros s Hs. pose proof (inv_reachable _ _ Hs) as [I1 I2 I3 I4 I5].
    assert (forall t th, threads s !! t = Some th -> holds_lock (t_pc th) = true -> exists s', step s s') as Hlock.
    { intros t [r p] Ht Hh. destruct p; try done; simpl in Hh.
      - destruct (get r s) as [i|] eqn:Hg; eexists; [by eapply s_rehit|by eapply s_remiss].
      - destruct (Hor r); eexists; [by eapply s_built|by eapply s_raised]. }
    destruct (lock s) as [o|] eqn:Hl; [right; destruct (I3 o eq_refl) as (th & Hth & Hh); by eapply Hlock|].
    destruct (decide (Forall (fun th => finished (t_pc th) = true) (threads s))) as [?|Hn]; [by left|right].
    apply not_Forall_Exists in Hn; [|intros th; apply _]. apply Exists_exists in Hn as (th & Hin & Hf).
    apply list_elem_of_lookup in Hin as [t Ht]. destruct th as [r p]. destruct p; try (by destruct Hf).
    + destruct (get r s) as [i|] eqn:Hg; eexists; [by eapply s_hit|by eapply s_miss].
    + eexists. by eapply s_acquire.
    + by eapply Hlock.
    + by eapply Hlock.
  - intros n s Hn. assert (forall n a b, nsteps step n a b ->
      n + sum_list_with left_of (threads b) <= sum_list_with left_of (threads a)) as Hm.
    { clear. intros n a b. induction 1 as [a|n a b c Hs _ IH]; [lia|]. apply step_left in Hs. lia. }
    apply Hm in Hn. assert (sum_list_with left_of (threads (start rs)) = 4 * length rs) as Hs.
    { simpl. clear. induction rs as [|r rs IH]; simpl in *; lia. }
    lia.
Qed.
End Threads.

(** ** A run *)

Definition node_a : request := Request "Sensors" [] "10.0.0.1" "root" (Some "calvin") 443 false true None.
Definition node_b : request := Request "Sensors" [] "10.0.0.2" "root" (Some "calvin") 443 false true None.

#[local] Opaque connection_key.

Definition always (_ : request) : Prop := True.

(** Two threads ask for the same object and one for another; the first builds while the second
    waits for the lock. *)
Lemma sample_run : exists s, reachable always always [node_a; node_a; node_b] s /\
  threads s = [Thread node_a (Returned 0); Thread node_a (Returned 0); Thread node_b Lookup] /\ built s = [node_a].
Proof.
  eexists. split.
  - eapply rtc_l; [apply (s_miss _ _ 0 node_a); reflexivity|]. eapply rtc_l; [apply (s_miss _ _ 1 node_a); reflexivity|].
    eapply rtc_l; [apply (s_acquire _ _ 0 node_a); reflexivity|]. eapply rtc_l; [apply (s_remiss _ _ 0 node_a); reflexivity|].
    eapply rtc_l; [apply (s_built _ _ 0 node_a); [reflexivity|exact I]|].
    eapply rtc_l; [apply (s_acquire _ _ 1 node_a); reflexivity|].
    eapply rtc_l; [apply (s_rehit _ _ 1 node_a 0); [reflexivity|unfold get; cbn [instances find_key]; by rewrite decide_True]|].
    apply rtc_refl.
  - done.
Qed.

Lemma instances_isolated_witness :
  exists s, built s = [node_a] /\
    (exists r0, built s !! 0 = Some r0 /\ (same_connection r0 node_a \/ collision (password_text r0) "calvin")) /\
    forall t' r' i', threads s !! t' = Some (Thread r' (Returned i')) -> same_connection node_a r' -> i' = 0.
Proof.
  destruct sample_run as (s & Hs & Ht & Hb). exists s. split; [exact Hb|].
  exact (instances_isolated always always [node_a; node_a; node_b] s 0 node_a 0 Hs ltac:(rewrite Ht; reflexivity)).
Defined.

Lemma construction_ends_witness :
  (forall r, always r \/ always r) /\
  (forall n s, nsteps (step always always) n (start [node_a; node_a; node_b]) s -> n <= 12).
Proof.
  split; [by left|]. exact (proj2 (construction_ends always always [node_a; node_a; node_b] (fun _ => or_introl I))).
Defined.
End Instances.
