(* ===== verification/Fleet.v ===== *)
(** * The fleet reader

    src/redfish_ctl/fleet/cmd_fleet.py: an inventory of BMCs is loaded from YAML, each
    node is read through the typed API on a thread pool, and the rows are collected by
    index as the reads complete.  The node reads are verified against the interface
    [SyncInvoker]; the parsed YAML document and the environment are parameters; the
    tracing spans have no effect on the rows. *)

From stdpp Require Import base list gmap strings pretty relations.
From Stdlib Require Import Ascii ZArith Lia.
From S2P Require Import Prelude PyVal Effects Http Numbers Config Invoker Api Endpoint MockServer Pool.

Module Fleet.
Local Open Scope Z_scope.
Local Open Scope py_scope.

(** ** The inventory *)

Record FleetNode := Node_ {
  name : string;
  address : string;
  username : string;
  password : string;
  port : Z;
  insecure : bool;
  use_http : bool
}.

(** [_env_value(raw, field, env_field, default)] *)
Definition env_value (e : Config.env) (raw : pydict) (field env_field dflt : string) : string :=
  match dget field raw with
  | PNone =>
      let env_name := dget env_field raw in
      if truthy env_name then default "" (Config.named_env e (py_str env_name) (Some dflt)) else dflt
  | value => py_str value
  end.

(** [_as_bool(value, default)] *)
Definition as_bool (value : pyval) (dflt : bool) : bool :=
  match value with
  | PNone => dflt
  | PBool b => b
  | PStr s => bool_decide (PyStr.lower (PyStr.strip s) ∈ ["1"; "yes"; "true"; "on"])
  | v => truthy v
  end.

(** [_as_int(value, default)] *)
Definition as_int (value : pyval) (dflt : Z) : res Z :=
  match value with PNone => Ok dflt | v => Numbers.py_int v end.

(** [_as_float(value)] *)
Definition as_float (value : pyval) : res (option Numbers.dec) :=
  match value with
  | PInt z => let? d := Numbers.float_of_int z in Ok (Some d)
  | PFloat m e => Ok (Some (m, e))
  | PStr s => Ok (Numbers.parse_decimal s)
  | _ => Ok None
  end.

(** [_inventory_nodes(data)] *)
Definition inventory_nodes (data : pyval) : res (list pydict) :=
  let rows_of (v : pyval) : res (list pyval) :=
    match v with
    | PList l | PTuple l => Ok l
    | PStr s => Ok (map PStr (chars_of s))
    | PDict d => Ok (map (fun kv => PStr kv.1) d)
    | v => Raise (TypeError ("'" +:+ type_name v +:+ "' object is not iterable"))
    end in
  let? rows := match data with
               | PList l => Ok l
               | PDict d => rows_of (dict_get_or "nodes" (PList []) d)
               | _ => Ok []
               end in
  Ok (omap (fun v => match v with PDict d => Some d | _ => None end) rows).

(** The entry of a node, at its place in the inventory counted from 1. *)
Definition load_node (e : Config.env) (index : Z) (raw : pydict) : res FleetNode :=
  let address := py_or (py_or (dget "address" raw) (dget "host" raw)) (dget "ip" raw) in
  if truthy address then
    let address := py_str address in
    let? port := as_int (dget "port" raw) 443 in
    Ok (Node_ (py_str (py_or (dget "name" raw) (PStr address))) address
          (env_value e raw "username" "usernameEnv" "root") (env_value e raw "password" "passwordEnv" "")
          port (as_bool (dget "insecure" raw) true)
          (as_bool (dict_get_or "useHttp" (dget "use_http" raw) raw) false))
  else Raise (ValueError ("fleet node " +:+ pretty index +:+ " is missing address")).

Fixpoint load_nodes (e : Config.env) (index : Z) (rows : list pydict) : res (list FleetNode) :=
  match rows with
  | [] => Ok []
  | raw :: rest =>
      let? node := load_node e index raw in
      let? nodes := load_nodes e (index + 1) rest in
      Ok (node :: nodes)
  end.

(** [load_inventory(path)] from what [yaml.safe_load] gives for the file *)
Definition load_inventory (e : Config.env) (data : pyval) : res (list FleetNode) :=
  let? rows := inventory_nodes (py_or data (PDict [])) in
  load_nodes e 1 rows.

(** ** A node *)

(** [_temperature_summary(readings)] *)
Definition temperature_summary (readings : list Api.TemperatureReading) : res pyval :=
  let? values := res_fold (fun acc r =>
      let? v := as_float (Api.tmp_reading_celsius r) in
      Ok (match v with Some d => acc ++ [d] | None => acc end)) [] readings in
  Ok (PDict [("count", PInt (Z.of_nat (length readings)));
             ("max_celsius", match values with
                             | [] => PNone
                             | x :: l => Numbers.float_val (Endpoint.dec_max x l)
                             end)]).

(** [_error_row(node, exc)] *)
Definition error_row (node : FleetNode) (e : exn) : pydict :=
  [("name", PStr (name node)); ("address", PStr (address node)); ("ok", PBool false); ("powerState", PNone);
   ("health", PNone); ("state", PNone); ("sensors", PDict [("count", PInt 0)]);
   ("temperature", PDict [("count", PInt 0); ("max_celsius", PNone)]); ("error", PStr (exn_str e))].

Definition status_row (node : FleetNode) (system : Api.SystemStatus) (sensors : list Api.SensorReading) (temperature : pyval)
  : pydict :=
  [("name", PStr (name node)); ("address", PStr (address node)); ("ok", PBool true);
   ("powerState", Api.sys_power_state system); ("health", Api.sys_health system); ("state", Api.sys_state system);
   ("sensors", PDict [("count", PInt (Z.of_nat (length sensors)))]); ("temperature", temperature); ("error", PNone)].

(** [except (RedfishApiError, OSError, ValueError)]; [requests] raises [OSError]s *)
Definition is_node_error (e : exn) : bool :=
  match e with
  | RedfishApiError _ | ValueError _ | JSONDecodeError _ | TransportError _ => true
  | e => MockServer.is_OSError e
  end.

Section Reading.
Context {S : Type} `{!SyncInvoker S} (node_manager : FleetNode -> M S unit).

(** [read_node(node)] *)
Definition read_node (node : FleetNode) : M S pydict :=
  try_catch
    (node_manager node ;;;
     let! system := Api.get_system false in
     let! sensors := Api.get_sensors false in
     let! thermal := Api.get_thermal in
     let! temperature := lift_res (temperature_summary (Api.th_temperatures thermal)) in
     ret (status_row node system sensors temperature))
    is_node_error (fun e => ret (error_row node e)).
End Reading.

(** ** The fleet *)

(** [max(1, min(int(concurrency or 1), len(nodes)))] *)
Definition max_concurrency (concurrency : Z) (n : nat) : Z :=
  Z.max 1 (Z.min (if concurrency =? 0 then 1 else concurrency) (Z.of_nat n)).

(** The row of a future: its result, or the error row of an [Exception]. *)
Definition future_row (node : FleetNode) (outcome : res pydict) : res pydict :=
  match outcome with
  | Ok row => Ok row
  | Raise e => if is_Exception e then Ok (error_row node e) else Raise e
  | NoFuel => NoFuel
  end.

(** [for future in as_completed(...)]: the rows by index, as the reads complete *)
Definition completed_rows (nodes : list FleetNode) (outcomes : list (res pydict)) (order : list nat) : res (gmap nat pydict) :=
  res_fold (fun rows_by_index index =>
      match nodes !! index, outcomes !! index with
      | Some node, Some outcome => let? row := future_row node outcome in Ok (<[index := row]> rows_by_index)
      | _, _ => Raise (IndexError "tuple index out of range")
      end) ∅ order.

(** [rows[index]] for each index in order *)
Fixpoint pick_rows (rows_by_index : gmap nat pydict) (indices : list nat) : res (list pydict) :=
  match indices with
  | [] => Ok []
  | i :: rest =>
      match rows_by_index !! i with
      | Some row => let? rows := pick_rows rows_by_index rest in Ok (row :: rows)
      | None => Raise (KeyError (pretty i))
      end
  end.

Definition row_ok (row : pydict) : bool := truthy (dget "ok" row).

Definition summary (rows : list pydict) : pydict :=
  let ok_count := length (filter (fun r => row_ok r = true) rows) in
  [("summary", PDict [("total", PInt (Z.of_nat (length rows))); ("ok", PInt (Z.of_nat ok_count));
                      ("failed", PInt (Z.of_nat (length rows) - Z.of_nat ok_count))]);
   ("nodes", PList (map PDict rows))].

(** [read_fleet(nodes, concurrency)]: [outcomes] are what the node reads did, by index, and
    [order] the indices as they completed *)
Definition read_fleet (nodes : list FleetNode) (outcomes : list (res pydict)) (order : list nat) : res pydict :=
  match nodes with
  | [] => Ok [("summary", PDict [("total", PInt 0); ("ok", PInt 0); ("failed", PInt 0)]); ("nodes", PList [])]
  | _ =>
      let? rows_by_index := completed_rows nodes outcomes order in
      let? rows := pick_rows rows_by_index (seq 0 (length nodes)) in
      Ok (summary rows)
  end.

(** [FleetInventory.execute(inventory, concurrency)] *)
Definition execute (e : Config.env) (data : pyval) (run : list FleetNode -> list (res pydict) * list nat) : res CommandResult :=
  let? nodes := load_inventory e data in
  let? result := read_fleet nodes (run nodes).1 (run nodes).2 in
  Ok (mkResult (PDict result) PNone PNone PNone).

Example inventory_sample :
  load_inventory [("BMC_PW", "s3cret")] (PDict [("nodes", PList [
    PDict [("name", PStr "a"); ("address", PStr "10.0.0.1"); ("passwordEnv", PStr "BMC_PW")];
    PStr "comment"; PDict [("ip", PStr "10.0.0.2"); ("port", PStr "8443"); ("useHttp", PStr "Yes")]])]) =
  Ok [Node_ "a" "10.0.0.1" "root" "s3cret" 443 true false; Node_ "10.0.0.2" "10.0.0.2" "root" "" 8443 true true].
Proof. vm_compute. reflexivity. Qed.

(** ** Rows *)

(** The row belongs to the node. *)
Definition row_of (node : FleetNode) (row : pydict) : Prop :=
  dget "name" row = PStr (name node) /\ dget "address" row = PStr (address node).

Section Rows.
Context {S : Type} `{!SyncInvoker S} (node_manager : FleetNode -> M S unit).
Abbreviation read_node := (read_node node_manager).

Lemma read_node_row node s row : (read_node node s).2 = Ok row ->
  row_of node row /\ (row_ok row = true <-> dget "error" row = PNone).
Proof.
  unfold Fleet.read_node, try_catch, bind, lift_res, ret. repeat case_match_goal; try done; by intros [= <-].
Qed.
End Rows.

(** The rows by index after some reads completed, from those that completed before. *)
Lemma completed_fold nodes outcomes rows order (m0 : gmap nat pydict) :
  Forall3 (fun node out row => future_row node out = Ok row) nodes outcomes rows ->
  Forall (fun i => i < length nodes)%nat order ->
  exists m, res_fold (fun rows_by_index index =>
      match nodes !! index, outcomes !! index with
      | Some node, Some outcome => let? row := future_row node outcome in Ok (<[index := row]> rows_by_index)
      | _, _ => Raise (IndexError "tuple index out of range")
      end) m0 order = Ok m /\
    forall i, m !! i = if decide (i ∈ order) then rows !! i else m0 !! i.
Proof.
  intros H3 Ho. revert m0. induction Ho as [|i order Hi _ IH]; intros m0; cbn [res_fold].
  - exists m0. split; [done|]. intros i. by rewrite decide_False by apply not_elem_of_nil.
  - destruct (lookup_lt_is_Some_2 nodes i Hi) as [node Hn].
    destruct (Forall3_lookup_l _ _ _ _ _ _ H3 Hn) as (out & row & Hout & Hrow & Hf). rewrite Hn, Hout, Hf. cbn [res_bind].
    destruct (IH (<[i := row]> m0)) as (m & Hm & Hl). exists m. split; [done|]. intros j. rewrite Hl.
    destruct (decide (j ∈ order)) as [Hj|Hj]; [by rewrite decide_True by (by right)|].
    destruct (decide (j = i)) as [->|Hne]; [by rewrite decide_True, lookup_insert_eq by (by left)|].
    rewrite decide_False by (by intros [?|?]%elem_of_cons). by rewrite lookup_insert_ne.
Qed.

Lemma pick_rows_all (m : gmap nat pydict) rows k :
  (forall i row, rows !! i = Some row -> m !! (k + i)%nat = Some row) -> pick_rows m (seq k (length rows)) = Ok rows.
Proof.
  revert k. induction rows as [|row rows IH]; intros k H; [done|]. cbn [length seq pick_rows].
  rewrite <- (Nat.add_0_r k) at 1. rewrite (H 0%nat row eq_refl). rewrite IH; [done|].
  intros i r Hi. rewrite <- (H (Datatypes.S i) r Hi). f_equal. lia.
Qed.

(** Whatever the order in which the reads complete, the rows are those of the nodes in the
    order of the inventory. *)
Lemma read_fleet_rows nodes outcomes rows order :
  Forall3 (fun node out row => future_row node out = Ok row) nodes outcomes rows ->
  Permutation order (seq 0 (length nodes)) -> read_fleet nodes outcomes order = Ok (summary rows).
Proof.
  intros H3 Hp. assert (length rows = length nodes) as Hlen by (by eapply Forall3_length_lr in H3).
  destruct nodes as [|n nodes]; [by destruct rows|]. set (ns := n :: nodes) in *. unfold read_fleet, completed_rows.
  destruct (completed_fold ns outcomes rows order ∅ H3) as (m & -> & Hm).
  { rewrite Hp. apply Forall_forall. intros i Hi%elem_of_seq. lia. }
  cbn [res_bind]. rewrite <- Hlen, (pick_rows_all m rows 0); [done|]. intros i row Hi. simpl. rewrite Hm.
  rewrite decide_True; [done|]. rewrite Hp. apply elem_of_seq. apply lookup_lt_Some in Hi. lia.
Qed.

(** The numbers of the summary. *)
Definition reported (rows : list pydict) (total ok failed : nat) : Prop :=
  dget "summary" (summary rows) =
    PDict [("total", PInt (Z.of_nat total)); ("ok", PInt (Z.of_nat ok)); ("failed", PInt (Z.of_nat failed))].

Lemma summary_counts rows :
  reported rows (length rows) (length (filter (fun r => row_ok r = true) rows))
    (length (filter (fun r => row_ok r = false) rows)).
Proof.
  unfold reported, summary. cbv zeta.
  assert (Z.of_nat (length rows) - Z.of_nat (length (filter (fun r => row_ok r = true) rows)) =
    Z.of_nat (length (filter (fun r => row_ok r = false) rows))) as ->; [|done].
  induction rows as [|r rows IH]; [done|]. rewrite !filter_cons. destruct (row_ok r); simpl in *; lia.
Qed.

Section Fleet.
Context {S : Type} `{!SyncInvoker S} (node_manager : FleetNode -> M S unit).

(** A node read ends with a row or an [Exception], in whatever state the BMC is. *)
Definition node_outcome (node : FleetNode) (out : res pydict) : Prop :=
  exists s, out = (read_node node_manager node s).2.

(** The report of a fleet does not depend on how its reads are scheduled and in which order they
    complete: at most [concurrency] nodes are read at a time, and the report has one row per
    node in the order of the inventory, each with the name and the address of its node and
    the result of reading that node, or the error that this raised; the counts of
    the summary are those of the rows. *)
Theorem read_fleet_any_schedule nodes concurrency outcomes order :
  (forall node s, match (read_node node_manager node s).2 with
                  | Ok _ => True | Raise e => is_Exception e = true | NoFuel => False
                  end) ->
  pool_results node_outcome (Z.to_nat (max_concurrency concurrency (length nodes))) nodes outcomes ->
  Permutation order (seq 0 (length nodes)) ->
  (forall js, rtc (pool_step node_outcome (Z.to_nat (max_concurrency concurrency (length nodes)))) (submitted nodes) js ->
     Z.of_nat (running js) <= Z.max 1 concurrency) /\
  exists rows, read_fleet nodes outcomes order = Ok (summary rows) /\
    Forall2 (fun node row => row_of node row /\
               exists s, future_row node (read_node node_manager node s).2 = Ok row) nodes rows /\
    reported rows (length nodes) (length (filter (fun r => row_ok r = true) rows))
      (length (filter (fun r => row_ok r = false) rows)).
Proof.
  intros Hord Hpool%pool_results_sound Hperm. split.
  { intros js Hjs%pool_bounded. unfold max_concurrency in Hjs. destruct (concurrency =? 0) eqn:Hc; lia. }
  assert (exists rows, Forall3 (fun node out row => future_row node out = Ok row) nodes outcomes rows /\
    Forall2 (fun node row => row_of node row /\
               exists s, future_row node (read_node node_manager node s).2 = Ok row) nodes rows) as (rows & H3 & H2).
  { clear Hperm. induction Hpool as [|node out nodes outs (s & ->) _ (rows & H3 & H2)]; [exists []; by split; constructor|].
    assert (exists row, future_row node (read_node node_manager node s).2 = Ok row /\ row_of node row) as (row & Hf & Hr).
    { specialize (Hord node s). unfold future_row. destruct (read_node node_manager node s).2 as [row|e|] eqn:Hout.
      - exists row. split; [done|]. by apply (read_node_row node_manager node s) in Hout as [? _].
      - rewrite Hord. by eexists.
      - done. }
    exists (row :: rows). split; constructor; eauto. }
  exists rows. split; [by apply read_fleet_rows|]. split; [done|].
  rewrite (Forall2_length _ _ _ H2). apply summary_counts.
Qed.
End Fleet.

(** Two nodes, one of which cannot be reached. *)
Definition sample_nodes : list FleetNode :=
  [Node_ "a" "10.0.0.1" "root" "x" 443 true false; Node_ "b" "10.0.0.2" "root" "x" 443 true false].

(** An invoker that answers with empty documents, and a factory that fails for one node. *)
#[local] Instance empty_bmc : SyncInvoker unit := fun _ _ _ => ret (mkResult (PDict []) PNone PNone PNone).
Definition flaky_manager (node : FleetNode) : M unit unit :=
  if decide (address node = "10.0.0.2") then raise (ConnectionFailed "no route") else ret tt.

Lemma read_fleet_any_schedule_witness :
  exists rows, read_fleet sample_nodes (map (fun n => (read_node flaky_manager n tt).2) sample_nodes) [1%nat; 0%nat] =
    Ok (summary rows) /\ reported rows 2 1 1.
Proof.
  destruct (read_fleet_any_schedule flaky_manager sample_nodes 8
    (map (fun n => (read_node flaky_manager n tt).2) sample_nodes) [1%nat; 0%nat]) as [_ (rows & Hr & _ & _)].
  - intros node []. unfold read_node, try_catch, bind, flaky_manager. case_decide; vm_compute; done.
  - apply pool_results_complete; [vm_compute; lia|]. apply Forall2_fmap_r, Forall_Forall2_diag, Forall_true.
    intros n. by exists tt.
  - apply Permutation_swap.
  - exists rows. split; [exact Hr|].
    assert (match read_fleet sample_nodes (map (fun n => (read_node flaky_manager n tt).2) sample_nodes) [1%nat; 0%nat] with
            | Ok v => dget "summary" v = PDict [("total", PInt 2); ("ok", PInt 1); ("failed", PInt 1)]
            | _ => False
            end) as Hs by (vm_compute; reflexivity). rewrite Hr in Hs. exact Hs.
Defined.
End Fleet.
