(* ===== verification/Uuid.v ===== *)
(** * UUIDs

    What src/redfish_ctl/telemetry/identity.py uses of the standard library:
    [uuid.UUID(text)], its text, and [uuid.uuid5] with the SHA-1 digest it is made of.
    Words are integers below [2^32] as in Sha256.v, whose padding SHA-1 shares. *)

From stdpp Require Import base list strings.
From Stdlib Require Import Ascii ZArith Lia.
From S2P Require Import Prelude PyVal Sha256.

Module Uuid.
Import Sha256.
Local Open Scope Z_scope.

(** ** SHA-1 *)

Definition rotl (n x : Z) : Z := rotr (32 - n) x.

Record digest := Digest { g0 : Z; g1 : Z; g2 : Z; g3 : Z; g4 : Z }.

Definition initial : digest := Digest 1732584193 4023233417 2562383102 271733878 3285377520.

(** The function and the constant of a round, by its number. *)
Definition mix (t : nat) (b c d : Z) : Z * Z :=
  if (t <? 20)%nat then (Z.lor (Z.land b c) (Z.land (wnot b) d), 1518500249)
  else if (t <? 40)%nat then (xor3 b c d, 1859775393)
  else if (t <? 60)%nat then (Z.lor (Z.lor (Z.land b c) (Z.land b d)) (Z.land c d), 2400959708)
  else (xor3 b c d, 3395469782).

Definition sha1_round (d : digest) (tw : nat * Z) : digest :=
  let '(f, k) := mix tw.1 (g1 d) (g2 d) (g3 d) in
  Digest (wadd (wadd (wadd (rotl 5 (g0 d)) f) (wadd (g4 d) k)) tw.2) (g0 d) (rotl 30 (g1 d)) (g2 d) (g3 d).

(** The message schedule: [window] holds the last sixteen words, the oldest first. *)
Fixpoint sha1_schedule (n : nat) (window : list Z) : list Z :=
  match n, window with
  | O, _ => window
  | S n', w0 :: rest =>
      let next := rotl 1 (Z.lxor (xor3 (nth 13 window 0) (nth 8 window 0) (nth 2 window 0)) w0) in
      w0 :: sha1_schedule n' (rest ++ [next])
  | S _, [] => []
  end.

Definition add_digest (a b : digest) : digest :=
  Digest (wadd (g0 a) (g0 b)) (wadd (g1 a) (g1 b)) (wadd (g2 a) (g2 b)) (wadd (g3 a) (g3 b)) (wadd (g4 a) (g4 b)).

Definition compress (d : digest) (block : list Z) : digest :=
  add_digest d (fold_left sha1_round (zip (seq 0 80) (sha1_schedule 64 block)) d).

Definition sha1 (msg : list Z) : digest :=
  let ws := words (padded msg) in
  fold_left compress (blocks (length ws / 16) ws) initial.

Definition sha1_hex (text : string) : string :=
  let d := sha1 (encode text) in
  String.string_of_list_ascii (mjoin (map hex_word [g0 d; g1 d; g2 d; g3 d; g4 d])).

Example sha1_abc : sha1_hex "abc" = "a9993e364706816aba3e25717850c26c9cd0d89d".
Proof. vm_compute. reflexivity. Qed.

Example sha1_two_blocks :
  sha1_hex "abcdbcdecdefdefgefghfghighijhijkijkljklmklmnlmnomnopnopq" = "84983e441c3bd26ebaae4aa1f95129e5e54670f1".
Proof. vm_compute. reflexivity. Qed.

(** ** Text *)

(** [s.replace(p, "")] for a non-empty [p] *)
Fixpoint remove_all (fuel : nat) (p s : string) : string :=
  match fuel with
  | O => s
  | S fuel =>
      match s with
      | EmptyString => EmptyString
      | String c s' =>
          if PyStr.startswith p s
          then remove_all fuel p (String.substring (String.length p) (String.length s) s)
          else String c (remove_all fuel p s')
      end
  end.

Definition remove (p s : string) : string := remove_all (String.length s) p s.

(** The value of a hexadecimal digit. *)
Definition hex_value (c : ascii) : option Z :=
  let n := Z.of_nat (nat_of_ascii c) in
  if (48 <=? n) && (n <=? 57) then Some (n - 48)
  else if (97 <=? n) && (n <=? 102) then Some (n - 87)
  else if (65 <=? n) && (n <=? 70) then Some (n - 55)
  else None.

(** Hexadecimal digits with single underscores between them. *)
Fixpoint hex_digits_val (acc : Z) (prev_digit : bool) (s : string) : option Z :=
  match s with
  | EmptyString => if prev_digit then Some acc else None
  | String c s' =>
      match hex_value c with
      | Some d => hex_digits_val (16 * acc + d) true s'
      | None => if bool_decide (c = "_"%char) && prev_digit then hex_digits_val acc false s' else None
      end
  end.

(** [int(s, 16)] *)
Definition int_of_hex (s : string) : option Z :=
  let '(sign, s) := match PyStr.strip s with
                    | String "-" r => (-1, r)
                    | String "+" r => (1, r)
                    | r => (1, r)
                    end in
  let v := match s with
           | String "0" (String "x" r) | String "0" (String "X" r) =>
               match r with String "_" r' => hex_digits_val 0 false r' | _ => hex_digits_val 0 false r end
           | _ => hex_digits_val 0 false s
           end in
  Z.mul sign <$> v.

(** [uuid.UUID(text).int]; [None] is [ValueError] *)
Definition uuid_int (text : string) : option Z :=
  let hex := remove "uuid:" (remove "urn:" text) in
  let braces c := bool_decide (c = "{"%char) || bool_decide (c = "}"%char) in
  let hex := remove "-" (PyStr.lstrip_by braces (PyStr.rstrip_by braces hex)) in
  if (String.length hex =? 32)%nat then
    match int_of_hex hex with
    | Some z => if (0 <=? z) && (z <? 2 ^ 128) then Some z else None
    | None => None
    end
  else None.

(** The hexadecimal digits of the positions [from - 1], ..., [to], the highest first. *)
Fixpoint digits_at (k : nat) (z : Z) (to : Z) : string :=
  match k with
  | O => EmptyString
  | S k' => String (hex_digit (Z.to_nat (Z.shiftr z (4 * (to + Z.of_nat k')) mod 16))) (digits_at k' z to)
  end.

(** [str(uuid.UUID(int=z))] *)
Definition uuid_str (z : Z) : string :=
  PyStr.join "-" [digits_at 8 z 24; digits_at 4 z 20; digits_at 4 z 16; digits_at 4 z 12; digits_at 12 z 0].

(** [uuid.uuid5(namespace, name)] *)
Definition uuid5 (namespace : Z) (name : string) : Z :=
  let ns := map (fun i => Z.shiftr namespace (8 * i) mod 256) [15; 14; 13; 12; 11; 10; 9; 8; 7; 6; 5; 4; 3; 2; 1; 0] in
  let d := sha1 (ns ++ encode name) in
  let z := fold_left (fun acc w => acc * 2 ^ 32 + w) [g0 d; g1 d; g2 d; g3 d] 0 in
  let z := Z.lor (Z.land z (Z.lnot (Z.shiftl 49152 48))) (Z.shiftl 32768 48) in
  Z.lor (Z.land z (Z.lnot (Z.shiftl 61440 64))) (Z.shiftl 5 76).

(** The DNS example of RFC 4122's successor and Python's documentation. *)
Example uuid5_python :
  option_map (fun ns => uuid_str (uuid5 ns "python.org")) (uuid_int "6ba7b810-9dad-11d1-80b4-00c04fd430c8")
  = Some "886313e1-3b8a-5372-9b90-0c9aee199e5d".
Proof. vm_compute. reflexivity. Qed.

Example uuid_texts :
  map (fun s => option_map uuid_str (uuid_int s))
    ["{12345678-1234-5678-1234-567812345678}"; "12345678123456781234567812345678";
     "urn:uuid:12345678-1234-5678-1234-567812345678"; "ABCDEF00-1234-5678-1234-56781234567"; "serial-17"]
  = [Some "12345678-1234-5678-1234-567812345678"; Some "12345678-1234-5678-1234-567812345678";
     Some "12345678-1234-5678-1234-567812345678"; None; None].
Proof. vm_compute. reflexivity. Qed.

(** ** Facts *)

(** Every character of a text that occurs in [s] occurs in [s]. *)
Lemma contains_has_char q p s : PyStr.contains p s = true -> PyStr.has_char q p = true -> PyStr.has_char q s = true.
Proof.
  assert (forall p s, PyStr.startswith p s = true -> PyStr.has_char q p = true -> PyStr.has_char q s = true) as Hpre.
  { clear p s. intros p. induction p as [|a p IH]; intros [|b s]; cbn [PyStr.startswith PyStr.has_char]; try done.
    case_decide; [subst|done]. intros Hs [Hq|Hq]%orb_true_iff; apply orb_true_iff; [by left|right; by apply IH]. }
  induction s as [|c s IH]; cbn [PyStr.contains]; intros H Hp.
  - rewrite orb_false_r in H. by apply (Hpre p).
  - apply orb_true_iff in H as [H|H]; [by apply (Hpre p)|]. cbn [PyStr.has_char]. by rewrite IH, orb_true_r.
Qed.

Lemma substring_all k s : (String.length s <= k)%nat -> String.substring 0 k s = s.
Proof. revert k. induction s as [|c s IH]; intros [|k]; simpl; try done; [lia|]. intros Hk. by rewrite IH by lia. Qed.

Lemma remove_none q p s : PyStr.has_char q p = true -> PyStr.has_char q s = false -> remove p s = s.
Proof.
  intros Hp. unfold remove. generalize (String.length s) as fuel. revert s.
  assert (forall s, PyStr.has_char q s = false -> PyStr.startswith p s = false) as Hns.
  { intros s Hs. destruct (PyStr.startswith p s) eqn:H; [|done]. exfalso.
    assert (PyStr.contains p s = true) as Hc by (by destruct s; cbn [PyStr.contains]; rewrite H).
    pose proof (contains_has_char q p s Hc Hp). congruence. }
  intros s. induction s as [|c s IH]; intros [|fuel] Hs; try done. cbn [remove_all]. rewrite Hns by done.
  cbn [PyStr.has_char] in Hs. apply orb_false_iff in Hs as [_ Hs]. by rewrite IH.
Qed.

(** Removing a character. *)
Fixpoint drop_char (c : ascii) (s : string) : string :=
  match s with
  | EmptyString => EmptyString
  | String x s' => if decide (c = x) then drop_char c s' else String x (drop_char c s')
  end.

Lemma remove_char c s : remove (String c EmptyString) s = drop_char c s.
Proof.
  unfold remove. assert (forall fuel, (String.length s <= fuel)%nat -> remove_all fuel (String c EmptyString) s = drop_char c s)
    as H; [|by apply H].
  induction s as [|x s IH]; intros [|fuel] Hl; simpl in *; try done; [lia|].
  case_decide as Hx.
  - rewrite substring_all by lia. apply IH. lia.
  - f_equal. apply IH. lia.
Qed.

Lemma drop_char_app c a b : drop_char c (a +:+ b) = drop_char c a +:+ drop_char c b.
Proof. induction a as [|x a IH]; [done|]. rewrite append_cons. cbn [drop_char]. case_decide; [done|]. by rewrite IH. Qed.

Lemma drop_char_none c s : PyStr.has_char (fun x => bool_decide (c = x)) s = false -> drop_char c s = s.
Proof.
  induction s as [|x s IH]; [done|]. cbn [PyStr.has_char drop_char]. intros [Hx Hs]%orb_false_iff.
  apply bool_decide_eq_false in Hx. rewrite decide_False by done. by rewrite IH.
Qed.

(** The digits have no character outside [0-9a-f]. *)
Lemma hex_digit_facts : forallb (fun n => match hex_value (hex_digit n) with Some v => v =? Z.of_nat n | None => false end)
  (seq 0 16) = true.
Proof. reflexivity. Qed.

Lemma hex_value_digit z : 0 <= z < 16 -> hex_value (hex_digit (Z.to_nat z)) = Some z.
Proof.
  intros Hz. pose proof (proj1 (forallb_forall _ _) hex_digit_facts (Z.to_nat z) ltac:(apply in_seq; lia)) as H. cbv beta in H.
  destruct (hex_value (hex_digit (Z.to_nat z))) as [v|]; [|done]. apply Z.eqb_eq in H. f_equal. lia.
Qed.

Lemma digits_at_chars q k z to : (forall n, (n < 16)%nat -> q (hex_digit n) = false) -> PyStr.has_char q (digits_at k z to) = false.
Proof.
  intros Hq. induction k as [|k IH]; [done|]. cbn [digits_at PyStr.has_char]. rewrite IH, orb_false_r. apply Hq.
  assert (0 <= Z.shiftr z (4 * (to + Z.of_nat k)) mod 16 < 16) by (apply Z.mod_pos_bound; lia). lia.
Qed.

Lemma digits_at_app a b z to : digits_at (a + b) z to = digits_at a z (to + Z.of_nat b) +:+ digits_at b z to.
Proof.
  induction a as [|a IH]; [done|]. cbn [Nat.add digits_at]. rewrite append_cons, <- IH. do 2 f_equal. f_equal. f_equal. f_equal. lia.
Qed.

Lemma digits_at_length k z to : String.length (digits_at k z to) = k.
Proof. induction k as [|k IH]; [done|]. simpl. by rewrite IH. Qed.

Lemma digits_at_val k z acc b : (b = true \/ (0 < k)%nat) -> 0 <= z ->
  hex_digits_val acc b (digits_at k z 0) = Some (acc * 16 ^ Z.of_nat k + z mod 16 ^ Z.of_nat k).
Proof.
  revert acc b. induction k as [|k IH]; intros acc b Hb Hz.
  - destruct Hb as [->|Hb]; [|lia]. cbn [digits_at hex_digits_val Z.of_nat]. f_equal. rewrite Z.mod_1_r. lia.
  - cbn [digits_at hex_digits_val]. rewrite hex_value_digit by (apply Z.mod_pos_bound; lia).
    rewrite IH by (done || by left). f_equal. rewrite Z.add_0_l, Z.shiftr_div_pow2 by lia.
    replace (2 ^ (4 * Z.of_nat k)) with (16 ^ Z.of_nat k) by (rewrite Z.pow_mul_r by lia; done).
    rewrite Nat2Z.inj_succ, Z.pow_succ_r by lia.
    assert (0 < 16 ^ Z.of_nat k) by (apply Z.pow_pos_nonneg; lia).
    rewrite (Z.mul_comm 16 (16 ^ Z.of_nat k)), Z.rem_mul_r by lia. ring.
Qed.

(** The characters of a canonical UUID. *)
Definition uuid_char (c : ascii) : bool := bool_decide (c = "-"%char) || match hex_value c with Some _ => true | None => false end.

Lemma has_char_append q a b : PyStr.has_char q (a +:+ b) = PyStr.has_char q a || PyStr.has_char q b.
Proof. induction a as [|c a IH]; [done|]. rewrite append_cons. cbn [PyStr.has_char]. by rewrite IH, orb_assoc. Qed.

Lemma uuid_str_chars q z : (forall n, (n < 16)%nat -> q (hex_digit n) = false) -> q "-"%char = false ->
  PyStr.has_char q (uuid_str z) = false.
Proof.
  intros Hq Hd. unfold uuid_str. cbn [PyStr.join]. repeat (rewrite has_char_append; rewrite digits_at_chars by done; cbn [orb]).
  rewrite !has_char_append. cbn [PyStr.has_char]. rewrite Hd, !digits_at_chars by done. done.
Qed.

(** A test that no digit and no dash passes, by cases. *)
Lemma uuid_str_none q z : forallb (fun n => negb (q (hex_digit n))) (seq 0 16) && negb (q "-"%char) = true ->
  PyStr.has_char q (uuid_str z) = false.
Proof.
  intros [H Hd%negb_true_iff]%andb_true_iff. apply uuid_str_chars; [|done]. intros n Hn.
  pose proof (proj1 (forallb_forall _ _) H n ltac:(apply in_seq; lia)) as Hq. by apply negb_true_iff in Hq.
Qed.

Lemma drop_dashes z : drop_char "-" (uuid_str z) = digits_at 32 z 0.
Proof.
  unfold uuid_str. cbn [PyStr.join]. rewrite !drop_char_app.
  assert (forall k to, drop_char "-" (digits_at k z to) = digits_at k z to) as Hd.
  { intros k to. apply drop_char_none, digits_at_chars. intros n Hn.
    assert (forallb (fun n => negb (bool_decide ("-"%char = hex_digit n))) (seq 0 16) = true) as H by reflexivity.
    pose proof (proj1 (forallb_forall _ _) H n ltac:(apply in_seq; lia)) as Hq. by apply negb_true_iff in Hq. }
  rewrite !Hd. change (drop_char "-" "-") with "". rewrite !append_empty_l.
  change 32%nat with (8 + (4 + (4 + (4 + 12))))%nat. by rewrite !digits_at_app.
Qed.

Lemma int_of_digits z : 0 <= z < 2 ^ 128 -> int_of_hex (digits_at 32 z 0) = Some z.
Proof.
  intros Hz. unfold int_of_hex. rewrite strip_none.
  2: { apply digits_at_chars. intros n Hn. assert (forallb (fun n => negb (PyStr.is_space (hex_digit n))) (seq 0 16) = true) as H
         by reflexivity.
       pose proof (proj1 (forallb_forall _ _) H n ltac:(apply in_seq; lia)) as Hq. by apply negb_true_iff in Hq. }
  pose proof (digits_at_val 32 z 0 false ltac:(right; lia) ltac:(lia)) as Hv. rewrite Z.mul_0_l, Z.add_0_l in Hv.
  change (16 ^ Z.of_nat 32) with (2 ^ 128) in Hv. rewrite Z.mod_small in Hv by done.
  assert (exists c d r, digits_at 32 z 0 = String c (String d r) /\ hex_value c <> None /\ hex_value d <> None)
    as (c & d & r & Heq & Hc & Hd).
  { do 3 eexists. split; [reflexivity|]. split; rewrite hex_value_digit by (apply Z.mod_pos_bound; lia); done. }
  rewrite Heq in *.
  destruct c as [[] [] [] [] [] [] [] []]; try done; try (cbv beta iota; rewrite Hv; simpl; f_equal; lia).
  destruct d as [[] [] [] [] [] [] [] []]; try done; cbv beta iota; rewrite Hv; simpl; f_equal; lia.
Qed.

(** The text of a UUID is parsed back into it. *)
Lemma uuid_roundtrip z : 0 <= z < 2 ^ 128 -> uuid_int (uuid_str z) = Some z.
Proof.
  intros Hz. unfold uuid_int.
  rewrite (remove_none (fun c => bool_decide (c = ":"%char)) "urn:") by (done || by apply uuid_str_none).
  rewrite (remove_none (fun c => bool_decide (c = ":"%char)) "uuid:") by (done || by apply uuid_str_none).
  rewrite rstrip_by_none by (by apply uuid_str_none). rewrite lstrip_by_none by (by apply uuid_str_none).
  rewrite remove_char, drop_dashes, digits_at_length. cbn [Nat.eqb]. rewrite int_of_digits by done.
  replace ((0 <=? z) && (z <? 2 ^ 128)) with true by lia. done.
Qed.

Lemma uuid_int_bound s z : uuid_int s = Some z -> 0 <= z < 2 ^ 128.
Proof.
  unfold uuid_int. destruct (_ =? 32)%nat; [|done]. destruct (int_of_hex _) as [v|]; [|done].
  destruct ((0 <=? v) && (v <? 2 ^ 128)) eqn:Hv; [|done]. intros [= <-]. lia.
Qed.

Definition word (w : Z) : Prop := 0 <= w < 2 ^ 32.

Lemma sha1_words msg : let d := sha1 msg in word (g0 d) /\ word (g1 d) /\ word (g2 d) /\ word (g3 d) /\ word (g4 d).
Proof.
  cbv zeta. unfold sha1. apply (fold_left_inv (fun d => word (g0 d) /\ word (g1 d) /\ word (g2 d) /\ word (g3 d) /\ word (g4 d))).
  - unfold word. simpl. lia.
  - intros d b _ _. unfold compress, add_digest. cbn [g0 g1 g2 g3 g4].
    assert (forall x y, word (wadd x y)) as Hw by (intros x y; apply Z.mod_pos_bound; done).
    repeat split; apply Hw.
Qed.

Lemma lor_bound n a b : 0 <= n -> 0 <= a < 2 ^ n -> 0 <= b < 2 ^ n -> 0 <= Z.lor a b < 2 ^ n.
Proof.
  intros Hn Ha Hb. split; [apply Z.lor_nonneg; lia|].
  destruct (decide (Z.lor a b = 0)) as [->|Hz]; [apply Z.pow_pos_nonneg; lia|].
  assert (0 <= Z.lor a b) by (apply Z.lor_nonneg; lia).
  destruct (decide (n = 0)) as [->|Hn0]; [assert (a = 0) as -> by (simpl in *; lia); assert (b = 0) as -> by (simpl in *; lia); done|].
  apply Z.log2_lt_pow2; [lia|]. rewrite Z.log2_lor by lia.
  assert (forall x, 0 <= x < 2 ^ n -> Z.log2 x < n) as Hl.
  { intros x Hx. destruct (decide (x = 0)) as [->|Hx0]; [simpl; lia|]. apply Z.log2_lt_pow2; lia. }
  pose proof (Hl a Ha). pose proof (Hl b Hb). lia.
Qed.

Lemma land_bound n a b : 0 <= a < 2 ^ n -> 0 <= Z.land a b < 2 ^ n.
Proof.
  intros Ha. assert (0 <= Z.land a b) by (apply Z.land_nonneg; lia). split; [done|].
  assert (a - Z.land a b = Z.ldiff a (Z.land a b)) as Hs.
  { apply Z.sub_nocarry_ldiff. apply Z.bits_inj'. intros k _. rewrite Z.ldiff_spec, Z.land_spec, Z.bits_0.
    by destruct (Z.testbit a k), (Z.testbit b k). }
  assert (0 <= Z.ldiff a (Z.land a b)) by (apply Z.ldiff_nonneg; lia). lia.
Qed.

Lemma uuid5_bound namespace name : 0 <= uuid5 namespace name < 2 ^ 128.
Proof.
  unfold uuid5. destruct (sha1_words (map (fun i => Z.shiftr namespace (8 * i) mod 256)
    [15; 14; 13; 12; 11; 10; 9; 8; 7; 6; 5; 4; 3; 2; 1; 0] ++ encode name)) as (H0 & H1 & H2 & H3 & _).
  cbv zeta. cbn [fold_left]. unfold word in *. change (2 ^ 32) with 4294967296 in *.
  apply lor_bound; [lia|apply land_bound; apply lor_bound; [lia|apply land_bound|split; vm_compute; done]|split; vm_compute; done].
  change (2 ^ 128) with 340282366920938463463374607431768211456. lia.
Qed.
End Uuid.
