(* ===== verification/Identity.v ===== *)
(** * Telemetry identity

    src/redfish_ctl/telemetry/identity.py: the dimensions every exported sample carries,
    where they come from (arguments, environment, defaults), how they are validated, and
    the stable id of a service instance.  Warnings about long values are left out.
    Values that a caller supplies are Python values. *)

From stdpp Require Import base list strings pretty.
From Stdlib Require Import Ascii ZArith Lia.
From S2P Require Import Prelude PyVal Effects Numbers Config IpAddress Networks Uuid.

Module Identity.
Local Open Scope Z_scope.
Local Open Scope py_scope.

(** ** Names *)

Definition IDENTITY_DIMENSIONS : list string := ["host.name"; "node"; "server.address"; "bmc.ip"; "vendor"].
Definition SERVICE_NAME_DIM : string := "service.name".
Definition DEFAULT_SERVICE_NAME : string := "redfish_ctl".
Definition SERVICE_NAMESPACE_DIM : string := "service.namespace".
Definition SERVICE_INSTANCE_ID_DIM : string := "service.instance.id".
Definition SERVICE_VERSION_DIM : string := "service.version".
Definition SERVICE_CRITICALITY_DIM : string := "service.criticality".
Definition DEPLOYMENT_ENVIRONMENT_DIM : string := "deployment.environment".
Definition DEPLOYMENT_ENVIRONMENT_NAME_DIM : string := "deployment.environment.name".

(** [uuid.UUID("4d63009a-8d0f-11ee-aad7-4c796ed8e320")] *)
Definition SERVICE_INSTANCE_NAMESPACE : Z :=
  Eval vm_compute in default 0 (Uuid.uuid_int "4d63009a-8d0f-11ee-aad7-4c796ed8e320").

Definition RESOURCE_ONLY_DIMENSIONS : list string :=
  [SERVICE_NAMESPACE_DIM; SERVICE_INSTANCE_ID_DIM; SERVICE_VERSION_DIM; SERVICE_CRITICALITY_DIM].
Definition DEPLOYMENT_DIMENSIONS : list string := [DEPLOYMENT_ENVIRONMENT_DIM; DEPLOYMENT_ENVIRONMENT_NAME_DIM].
Definition RESOURCE_DIMENSIONS : list string :=
  IDENTITY_DIMENSIONS ++ [SERVICE_NAME_DIM] ++ DEPLOYMENT_DIMENSIONS ++ RESOURCE_ONLY_DIMENSIONS.

(** [_RESERVED_EXTRA_DIMENSIONS] *)
Definition RESERVED_EXTRA_DIMENSIONS : list string :=
  IDENTITY_DIMENSIONS ++ DEPLOYMENT_DIMENSIONS ++ [SERVICE_NAME_DIM] ++ RESOURCE_ONLY_DIMENSIONS ++ ["deployment"; "model"].

(** [_SECRET_PREFIXES], [_MISSING_DEPLOYMENT_SENTINELS] and [_COMPAT_MODES] *)
Definition SECRET_PREFIXES : list string := ["ghp_"; "gho_"; "xox"; "akia"; "bearer"].
Definition MISSING_DEPLOYMENT_SENTINELS : list string := ["unknown"; "none"; "null"; "n-a"; "na"].
Definition COMPAT_MODES : list string := ["both"; "deprecated"; "stable"].

(** ** Patterns *)

Definition is_word (c : ascii) : bool := PyStr.is_alnum c || bool_decide (c = "_"%char) || bool_decide (c = "-"%char).

(** The text after the longest run of word characters, and whether the run is empty. *)
Fixpoint after_run (empty : bool) (s : string) : bool * string :=
  match s with
  | String c s' => if is_word c then after_run false s' else (empty, s)
  | EmptyString => (empty, s)
  end.

(** [_JWT_RE] at the front of [s] *)
Definition jwt_here (s : string) : bool :=
  PyStr.startswith "eyJ" s &&
  match (after_run true (String.substring 3 (String.length s) s)).2 with
  | String "." r =>
      match after_run true r with
      | (false, String "." (String c _)) => is_word c
      | _ => false
      end
  | _ => false
  end.

(** [_JWT_RE.search(s)] *)
Fixpoint jwt_search (s : string) : bool :=
  jwt_here s || match s with EmptyString => false | String _ s' => jwt_search s' end.

(** [_looks_secret(value)] *)
Definition looks_secret (text : string) : bool :=
  PyStr.contains "://" text || PyStr.contains "@" text ||
  existsb (fun prefix => PyStr.contains prefix (PyStr.lower text)) SECRET_PREFIXES || jwt_search text.

(** [_DIMENSION_KEY_RE.fullmatch(key)] *)
Definition dimension_key (key : string) : bool :=
  match key with
  | String c rest =>
      (PyStr.is_alpha c || bool_decide (c = "_"%char)) &&
      negb (PyStr.has_char (fun x => negb (is_word x || bool_decide (x = "."%char))) rest) &&
      (String.length rest <=? 127)%nat
  | EmptyString => false
  end.

Definition is_lower_alnum (c : ascii) : bool :=
  PyStr.is_digit c || ((97 <=? nat_of_ascii c) && (nat_of_ascii c <=? 122))%nat.

(** [_DEPLOYMENT_ENV_RE.fullmatch(text)] *)
Definition deployment_text (text : string) : bool :=
  negb (PyStr.has_char (fun c => negb (is_lower_alnum c || bool_decide (c ∈ ["."%char; "_"%char; "-"%char]))) text) &&
  (1 <=? String.length text)%nat && (String.length text <=? 63)%nat.

(** ** Validation *)

(** [value in (None, "")] *)
Definition unset (v : pyval) : bool := match v with PNone | PStr EmptyString => true | _ => false end.

(** [_normalize_deployment_environment(value, required)] *)
Definition normalize_deployment_environment (value : pyval) (required : bool) : res (option string) :=
  if unset value then
    if required then Raise (ValueError "deployment environment is required") else Ok None
  else
    let text := PyStr.lower (PyStr.strip (py_str value)) in
    if negb (PyStr.nonempty text) || bool_decide (text ∈ MISSING_DEPLOYMENT_SENTINELS)
    then Raise (ValueError "deployment environment must be a concrete value")
    else if looks_secret text then Raise (ValueError "deployment environment must not contain secret material")
    else if negb (deployment_text text)
    then Raise (ValueError "deployment environment must use 1-63 chars from [a-z0-9._-]")
    else Ok (Some text).

(** [character.isprintable() and not character.isspace()] *)
Definition visible (c : ascii) : bool := ((33 <=? nat_of_ascii c) && (nat_of_ascii c <=? 126))%nat.

(** [_validate_service_attribute(value, field_name)] *)
Definition validate_service_attribute (value field_name : string) : res unit :=
  if (255 <? String.length value)%nat then Raise (ValueError (field_name +:+ " must be at most 255 characters"))
  else if PyStr.has_char (fun c => negb (visible c)) value
  then Raise (ValueError (field_name +:+ " must be printable and contain no whitespace"))
  else if looks_secret value then Raise (ValueError (field_name +:+ " must not contain secret material"))
  else Ok tt.

(** [_normalize_optional_service_attribute(value, field_name)] *)
Definition normalize_optional_service_attribute (value : pyval) (field_name : string) : res (option string) :=
  if unset value then Ok None
  else
    let text := PyStr.strip (py_str value) in
    if negb (PyStr.nonempty text) then Ok None
    else let? _ := validate_service_attribute text field_name in Ok (Some text).

(** [_normalize_service_name(value)] *)
Definition normalize_service_name (value : pyval) : res string :=
  let? v := normalize_optional_service_attribute value SERVICE_NAME_DIM in
  Ok (default DEFAULT_SERVICE_NAME v).

(** [canonical_service_instance_id(value)] *)
Definition canonical_service_instance_id (value : pyval) : res (option string) :=
  let? text := normalize_optional_service_attribute value SERVICE_INSTANCE_ID_DIM in
  Ok (match text with
      | None => None
      | Some t => Some (match Uuid.uuid_int t with
                        | Some z => Uuid.uuid_str z
                        | None => Uuid.uuid_str (Uuid.uuid5 SERVICE_INSTANCE_NAMESPACE t)
                        end)
      end).

(** [_validate_extra_dimension(key, value)] *)
Definition validate_extra_dimension (key value : string) : res unit :=
  if negb (PyStr.nonempty key) || negb (PyStr.nonempty value)
  then Raise (ValueError "dimension must have a non-empty key and value")
  else if negb (dimension_key key) then Raise (ValueError ("dimension key " +:+ repr_str key +:+ " is not valid"))
  else if bool_decide (key ∈ RESERVED_EXTRA_DIMENSIONS)
  then Raise (ValueError ("dimension " +:+ repr_str key +:+ " is reserved; use the dedicated identity option"))
  else if looks_secret key || looks_secret value
  then Raise (ValueError ("dimension " +:+ repr_str key +:+ " must not contain secret material"))
  else Ok tt.

(** [text.split("=", 1)] *)
Fixpoint split_pair (s : string) : option (string * string) :=
  match s with
  | EmptyString => None
  | String "=" r => Some ("", r)
  | String c r => (fun kv => (String c kv.1, kv.2)) <$> split_pair r
  end.

(** The items of [value] in [parse_dimension_pairs] *)
Definition raw_items (value : pyval) : res (list (string * string)) :=
  let of_parts (parts : list pyval) : res (list (string * string)) :=
    res_fold (fun acc part =>
        if unset part then Ok acc
        else
          let text := PyStr.strip (py_str part) in
          if negb (PyStr.nonempty text) then Ok acc
          else match split_pair text with
               | Some kv => Ok (acc ++ [kv])
               | None => Raise (ValueError ("dimension " +:+ repr_str text +:+ " must use KEY=VALUE"))
               end) [] parts in
  match value with
  | PDict d => Ok (map (fun kv => (kv.1, py_str kv.2)) d)
  | PStr s => of_parts (map PStr (PyStr.split "," s))
  | PList l | PTuple l => of_parts l
  | v => Raise (TypeError ("'" +:+ type_name v +:+ "' object is not iterable"))
  end.

(** [parse_dimension_pairs(value)] *)
Definition parse_dimension_pairs (value : pyval) : res (list (string * string)) :=
  if unset value then Ok []
  else
    let? items := raw_items value in
    res_fold (fun dimensions kv =>
        let key := PyStr.strip kv.1 in
        let dim_value := PyStr.strip kv.2 in
        let? _ := validate_extra_dimension key dim_value in
        Ok (dict_set key dim_value dimensions)) [] items.

(** ** The identity *)

(** What a caller passes. *)
Record options := Options {
  o_vendor : pyval;
  o_host_prefix : string;
  o_bmc_octet_base : pyval;
  o_server_octet_base : pyval;
  o_server_subnet : option string;
  o_deployment_environment : pyval;
  o_deployment_environment_compat : pyval;
  o_require_deployment_environment : bool;
  o_extra_dimensions : pyval;
  o_service_name : pyval;
  o_service_namespace : pyval;
  o_service_instance_id : pyval;
  o_service_version : pyval;
  o_service_criticality : pyval
}.

(** [TelemetryIdentity], normalised *)
Record TelemetryIdentity := Identity_ {
  host_name : string;
  node : string;
  server_address : string;
  bmc_ip : string;
  vendor : string;
  deployment_environment : option string;
  deployment_environment_compat : string;
  extra_dimensions : list (string * string);
  service_name : string;
  service_namespace : option string;
  service_instance_id : option string;
  service_version : option string;
  service_criticality : option string
}.

(** [TelemetryIdentity(host_name=..., ...).__post_init__()] *)
Definition new_identity (host node server bmc : string) (o : options) (extra : list (string * string))
  : res TelemetryIdentity :=
  let? env := normalize_deployment_environment (o_deployment_environment o) (o_require_deployment_environment o) in
  let compat := PyStr.lower (PyStr.strip (py_str (py_or (o_deployment_environment_compat o) (PStr "both")))) in
  if negb (bool_decide (compat ∈ COMPAT_MODES))
  then Raise (ValueError "deployment_environment_compat must be one of both, deprecated, or stable")
  else
    let? extra := parse_dimension_pairs (PDict (map (fun kv => (kv.1, PStr kv.2)) extra)) in
    let? name := normalize_service_name (o_service_name o) in
    let? namespace := normalize_optional_service_attribute (o_service_namespace o) SERVICE_NAMESPACE_DIM in
    let? instance := canonical_service_instance_id (o_service_instance_id o) in
    let? version := normalize_optional_service_attribute (o_service_version o) SERVICE_VERSION_DIM in
    let? criticality := normalize_optional_service_attribute (o_service_criticality o) SERVICE_CRITICALITY_DIM in
    Ok (Identity_ host node server bmc (PyStr.lower (py_str (py_or (o_vendor o) (PStr "unknown")))) env compat extra
          name namespace instance version criticality).

(** The dimensions of the identity itself, in [dimensions()] *)
Definition own_dimensions (i : TelemetryIdentity) : list (string * string) :=
  [("host.name", host_name i); ("node", node i); ("server.address", server_address i); ("bmc.ip", bmc_ip i);
   ("vendor", vendor i); (SERVICE_NAME_DIM, service_name i)] ++
  (match deployment_environment i with
   | Some e =>
       (if bool_decide (deployment_environment_compat i ∈ ["both"; "deprecated"]) then [(DEPLOYMENT_ENVIRONMENT_DIM, e)] else []) ++
       (if bool_decide (deployment_environment_compat i ∈ ["both"; "stable"]) then [(DEPLOYMENT_ENVIRONMENT_NAME_DIM, e)] else [])
   | None => []
   end) ++
  omap (fun kv => (fun v => (kv.1, v)) <$> kv.2)
    [(SERVICE_NAMESPACE_DIM, service_namespace i); (SERVICE_INSTANCE_ID_DIM, service_instance_id i);
     (SERVICE_VERSION_DIM, service_version i); (SERVICE_CRITICALITY_DIM, service_criticality i)].

(** [dimensions()] *)
Definition dimensions (i : TelemetryIdentity) : list (string * string) :=
  dict_update (own_dimensions i) (extra_dimensions i).

(** [resource_attributes()] *)
Definition resource_attributes (i : TelemetryIdentity) : list (string * string) :=
  omap (fun key => (fun v => (key, v)) <$> dict_get key (dimensions i)) RESOURCE_DIMENSIONS.

(** ** Addresses *)

(** [_validate_bmc_label(value)] *)
Definition validate_bmc_label (value : pyval) : res string :=
  let text := PyStr.strip (py_str (py_or value (PStr "unknown"))) in
  if looks_secret text then Raise (ValueError "BMC identity must not contain credentials or URLs")
  else Ok (if PyStr.nonempty text then text else "unknown").

(** [except (TypeError, ValueError)] *)
Definition is_value_error (e : exn) : bool :=
  match e with TypeError _ | ValueError _ | JSONDecodeError _ => true | _ => false end.

(** [_coerce_int(value, field_name)] *)
Definition coerce_int (value : pyval) (field_name : string) : res Z :=
  match Numbers.py_int value with
  | Raise e => if is_value_error e
               then Raise (ValueError (field_name +:+ " must be an integer; got " +:+ py_repr value)) else Raise e
  | r => r
  end.

(** [_coerce_octet(value, field_name)] *)
Definition coerce_octet (value field_name : string) : res Z :=
  match Numbers.py_int (PStr value) with
  | Ok octet =>
      if (0 <=? octet) && (octet <=? 255) then Ok octet
      else Raise (ValueError (field_name +:+ " octet must be in range 0..255; got " +:+ pretty octet))
  | Raise e => if is_value_error e
               then Raise (ValueError (field_name +:+ " octet must be an integer; got " +:+ repr_str value)) else Raise e
  | NoFuel => NoFuel
  end.

(** The octets of a dotted text with [n] parts. *)
Fixpoint coerce_octets (parts : list string) (field_name : string) : res (list Z) :=
  match parts with
  | [] => Ok []
  | p :: rest => let? o := coerce_octet p field_name in let? os := coerce_octets rest field_name in Ok (o :: os)
  end.

(** [_validate_ipv4_subnet(value)] *)
Definition validate_ipv4_subnet (value : string) : res unit :=
  let parts := PyStr.split "." value in
  if negb (length parts =? 3)%nat
  then Raise (ValueError ("server_subnet must have three IPv4 octets; got " +:+ repr_str value))
  else let? _ := coerce_octets parts "server_subnet" in Ok tt.

(** [_validate_ipv4_address(value)] *)
Definition validate_ipv4_address (value : string) : res unit :=
  let parts := PyStr.split "." value in
  if negb (length parts =? 4)%nat
  then Raise (ValueError ("server address must have four IPv4 octets; got " +:+ repr_str value))
  else let? _ := coerce_octets parts "server address" in Ok tt.

(** [part.isdigit()] *)
Definition isdigit (s : string) : bool := PyStr.nonempty s && IpAddress.all_chars PyStr.is_digit s.

(** The host, node and server that a BMC label stands for, in [build_legacy_gb300_identity] *)
Definition derived_names (bmc : string) (o : options) (bmc_base server_base : Z) : res (string * string * string) :=
  let parts := PyStr.split "." bmc in
  if (length parts =? 4)%nat && forallb isdigit parts then
    let? octets := coerce_octets parts "bmc_ip" in
    let slot := default 0 (last octets) - bmc_base in
    if slot <? 0 then Raise (ValueError "derived slot must be non-negative")
    else
      let subnet := match o_server_subnet o with
                    | Some (String _ _ as s) => s
                    | _ => PyStr.join "." (map pretty (take 3 octets))
                    end in
      let? _ := validate_ipv4_subnet subnet in
      let node := "slot" +:+ pretty slot in
      let server := subnet +:+ "." +:+ pretty (server_base + slot) in
      let? _ := validate_ipv4_address server in
      Ok (o_host_prefix o +:+ "-" +:+ node, node, server)
  else Ok (bmc, "unknown", "unknown").

(** [build_legacy_gb300_identity(bmc_ip, ...)] *)
Definition build_legacy_gb300_identity (bmc_ip : pyval) (o : options) : res TelemetryIdentity :=
  let? bmc := validate_bmc_label bmc_ip in
  let? bmc_base := coerce_int (o_bmc_octet_base o) "bmc_octet_base" in
  let? server_base := coerce_int (o_server_octet_base o) "server_octet_base" in
  let? (host, node, server) := derived_names bmc o bmc_base server_base in
  let? extra := parse_dimension_pairs (o_extra_dimensions o) in
  new_identity host node server bmc o extra.

(** [build_identity_dimensions(bmc_ip, ...)] *)
Definition build_identity_dimensions (bmc_ip : pyval) (o : options) : res (list (string * string)) :=
  let? i := build_legacy_gb300_identity bmc_ip o in Ok (dimensions i).

Definition defaults : options :=
  Options (PStr "unknown") "gb300-poc1" (PInt 20) (PInt 40) None PNone (PStr "both") false PNone (PStr DEFAULT_SERVICE_NAME)
    PNone PNone PNone PNone.

Example default_dimensions :
  build_identity_dimensions (PStr "10.0.0.23") defaults =
  Ok [("host.name", "gb300-poc1-slot3"); ("node", "slot3"); ("server.address", "10.0.0.43"); ("bmc.ip", "10.0.0.23");
      ("vendor", "unknown"); ("service.name", "redfish_ctl")].
Proof. vm_compute. reflexivity. Qed.

(** ** Options *)

(** [_non_empty(value)] *)
Definition non_empty (value : pyval) : pyval :=
  match value with
  | PStr s => let stripped := PyStr.strip s in if PyStr.nonempty stripped then PStr stripped else PNone
  | v => v
  end.

(** [_first_non_empty(values)] *)
Fixpoint first_non_empty (values : list pyval) : pyval :=
  match values with
  | [] => PNone
  | v :: rest => match non_empty v with PNone => first_non_empty rest | cleaned => cleaned end
  end.

(** [_coerce_bool(value, field_name)] *)
Definition coerce_bool (value : pyval) (field_name : string) : res bool :=
  match value with
  | PBool b => Ok b
  | v =>
      let text := PyStr.lower (PyStr.strip (py_str v)) in
      if bool_decide (text ∈ ["1"; "true"; "yes"; "on"]) then Ok true
      else if bool_decide (text ∈ ["0"; "false"; "no"; "off"]) then Ok false
      else Raise (ValueError (field_name +:+ " must be a boolean; got " +:+ py_repr v))
  end.

(** The explicit arguments of [resolve_identity_options], by name. *)
Definition OPTION_NAMES : list string :=
  ["host_prefix"; "bmc_octet_base"; "server_octet_base"; "server_subnet"; "deployment_environment";
   "deployment_environment_compat"; "require_deployment_environment"; "extra_dimensions"; "service_name";
   "service_namespace"; "service_instance_id"; "service_version"; "service_criticality"].

(** The names with an explicit value. *)
Definition overridden (explicit : string -> pyval) : list string :=
  filter (fun key => is_none (non_empty (explicit key)) = false) OPTION_NAMES.

(** The default of an option; [None] where there is none. *)
Definition option_default (key : string) : pyval :=
  dict_get_or key PNone
    [("host_prefix", PStr "gb300-poc1"); ("bmc_octet_base", PInt 20); ("server_octet_base", PInt 40);
     ("deployment_environment_compat", PStr "both"); ("require_deployment_environment", PBool false);
     ("service_name", PStr DEFAULT_SERVICE_NAME)].

(** [_first_non_empty(explicit, env[key], default)] *)
Definition resolved (explicit : string -> pyval) (env : list (string * option string)) (key : string) : pyval :=
  first_non_empty [explicit key; opt_str (default None (dict_get key env)); option_default key].

(** [resolve_identity_options(...)]: the options, with the vendor of the caller *)
Definition resolve_identity_options (e : Config.env) (explicit : string -> pyval) (vendor : pyval)
  : M (list string) options :=
  let! env := Config.exporter_identity_env e (overridden explicit) in
  let r := resolved explicit env in
  lift_res (
    let? bmc_base := coerce_int (r "bmc_octet_base") "bmc_octet_base" in
    let? server_base := coerce_int (r "server_octet_base") "server_octet_base" in
    let? required := coerce_bool (r "require_deployment_environment") "require_deployment_environment" in
    let? extra := parse_dimension_pairs (r "extra_dimensions") in
    Ok (Options vendor (py_str (r "host_prefix")) (PInt bmc_base) (PInt server_base)
          (match r "server_subnet" with PNone => None | v => Some (py_str v) end)
          (r "deployment_environment") (PStr (py_str (r "deployment_environment_compat"))) required
          (PDict (map (fun kv => (kv.1, PStr kv.2)) extra)) (PStr (py_str (r "service_name")))
          (r "service_namespace") (r "service_instance_id") (r "service_version") (r "service_criticality"))).

(** ** Samples *)

(** [common_sample_dimensions(samples)], on the dimensions of the samples *)
Definition common_sample_dimensions (samples : list (list (string * string))) : list (string * string) :=
  match samples with
  | [] => []
  | first :: rest =>
      fold_left (fun common sample => filter (fun kv => dict_get kv.1 sample = Some kv.2) common) rest
        (filter (fun kv => kv.1 ∉ RESOURCE_ONLY_DIMENSIONS) first)
  end.

(** ** The id of a service instance *)

(** [re.sub(r"[\s._/-]+", " ", text)] *)
Fixpoint squeeze_separators (in_run : bool) (s : string) : string :=
  match s with
  | EmptyString => EmptyString
  | String c s' =>
      if PyStr.is_space c || bool_decide (c ∈ ["."%char; "_"%char; "/"%char; "-"%char])
      then if in_run then squeeze_separators true s' else String " " (squeeze_separators true s')
      else String c (squeeze_separators false s')
  end.

Fixpoint keep_chars (p : ascii -> bool) (s : string) : string :=
  match s with
  | EmptyString => EmptyString
  | String c s' => if p c then String c (keep_chars p s') else keep_chars p s'
  end.

(** [_valid_inherent_identity(value)] *)
Definition valid_inherent_identity (value : pyval) : bool :=
  let text := PyStr.strip (py_str (py_or value (PStr ""))) in
  if negb (PyStr.nonempty text) || looks_secret text then false
  else
    let lowered := PyStr.strip (squeeze_separators false (PyStr.lower text)) in
    if bool_decide (lowered ∈ ["default string"; "to be filled by o e m"; "n a"; "na"; "none"; "null"; "unknown"])
       || PyStr.startswith "$" text
    then false
    else
      let compact := keep_chars is_lower_alnum (PyStr.lower text) in
      let compact := if PyStr.startswith "0x" compact then String.substring 2 (String.length compact) compact else compact in
      PyStr.nonempty compact && PyStr.has_char (fun c => negb (bool_decide (c = "0"%char))) compact.

(** [_manager_uuid_source(value)] *)
Definition manager_uuid_source (value : pyval) : option string :=
  if valid_inherent_identity value then
    match Uuid.uuid_int (PyStr.strip (py_str value)) with
    | Some z => if z =? 0 then None else Some (Uuid.uuid_str z)
    | None => None
    end
  else None.

(** [_global_mac_source(value)] *)
Definition global_mac_source (value : pyval) : option string :=
  let text := keep_chars (fun c => negb (bool_decide (c ∈ [":"%char; "-"%char])))
                (PyStr.strip (py_str (py_or value (PStr "")))) in
  if (String.length text =? 12)%nat && negb (PyStr.has_char (fun c => negb (IpAddress.is_hex c)) text) then
    match Uuid.hex_digits_val 0 false text with
    | Some z =>
        if (z =? 0) || (z =? 2 ^ 48 - 1) || negb (Z.land (Z.shiftr z 40) 3 =? 0) then None
        else Some (PyStr.join ":" (map (fun k => Uuid.digits_at 2 z k) [10; 8; 6; 4; 2; 0]))
    | None => None
    end
  else None.

Definition instance_uuid (source : string) : string := Uuid.uuid_str (Uuid.uuid5 SERVICE_INSTANCE_NAMESPACE source).

(** [service_instance_id_from_sources(manager_uuids, chassis_serials, permanent_macs, mac_addresses)] *)
Definition service_instance_id_from_sources (manager_uuids chassis_serials permanent_macs mac_addresses : list pyval)
  : option string :=
  let sources :=
    omap manager_uuid_source manager_uuids ++
    map (fun c => PyStr.strip (py_str c)) (filter (fun c => valid_inherent_identity c = true) chassis_serials) ++
    omap global_mac_source permanent_macs ++ omap global_mac_source mac_addresses in
  instance_uuid <$> head sources.

Example macs :
  map global_mac_source [PStr "00-1B-21-AA-BB-CC"; PStr "001b21aabbcc"; PStr "02:00:00:00:00:01"; PStr "01:00:5e:00:00:01";
    PStr "ff:ff:ff:ff:ff:ff"; PStr "00:00:00:00:00:00"; PNone; PStr "0:1"] =
  [Some "00:1b:21:aa:bb:cc"; Some "00:1b:21:aa:bb:cc"; None; None; None; None; None; None].
Proof. vm_compute. reflexivity. Qed.

Example placeholders :
  map valid_inherent_identity [PStr "To be filled by O.E.M."; PStr "N/A"; PStr "0x0000"; PStr "$serial"; PStr " 7K2M "; PNone]
  = [false; false; false; false; true; false].
Proof. vm_compute. reflexivity. Qed.

(** ** What looks like a secret *)

(** A character that every secret-like shape has one of. *)
Definition danger (c : ascii) : bool :=
  bool_decide (PyStr.lower_char c ∈ [":"%char; "@"%char; "g"%char; "x"%char; "k"%char; "r"%char; "y"%char]).

Lemma has_char_lower q s : PyStr.has_char q (PyStr.lower s) = PyStr.has_char (fun c => q (PyStr.lower_char c)) s.
Proof. unfold PyStr.lower. induction s as [|c s IH]; [done|]. cbn [PyStr.map_chars PyStr.has_char]. by rewrite IH. Qed.

Lemma jwt_has_y s : jwt_search s = true -> PyStr.has_char danger s = true.
Proof.
  assert (forall s, jwt_here s = true -> PyStr.has_char danger s = true) as Hhere.
  { clear s. intros s. unfold jwt_here. intros [H _]%andb_true_iff.
    apply (Uuid.contains_has_char danger "eyJ"); [|reflexivity]. destruct s; cbn [PyStr.contains]; by rewrite H. }
  induction s as [|c s IH]; cbn [jwt_search].
  - rewrite orb_false_r. apply Hhere.
  - intros [H|H]%orb_true_iff; [by apply Hhere|]. cbn [PyStr.has_char]. by rewrite IH, orb_true_r.
Qed.

Lemma safe_not_secret s : PyStr.has_char danger s = false -> looks_secret s = false.
Proof.
  intros Hs. unfold looks_secret.
  assert (forall p, PyStr.has_char danger p = true -> PyStr.contains p s = false) as Hc.
  { intros p Hp. destruct (PyStr.contains p s) eqn:H; [|done]. pose proof (Uuid.contains_has_char danger p s H Hp). congruence. }
  rewrite (Hc "://"), (Hc "@") by reflexivity. cbn [orb].
  assert (existsb (fun prefix => PyStr.contains prefix (PyStr.lower s)) SECRET_PREFIXES = false) as ->.
  { apply not_true_iff_false. intros (p & Hp & H)%existsb_exists.
    set (q c := bool_decide (c ∈ [":"%char; "@"%char; "g"%char; "x"%char; "k"%char; "r"%char; "y"%char])).
    assert (PyStr.has_char q p = true) as Hq.
    { assert (forallb (PyStr.has_char q) SECRET_PREFIXES = true) as Hall by reflexivity.
      by apply (proj1 (forallb_forall _ _) Hall). }
    pose proof (Uuid.contains_has_char q p _ H Hq) as Hl. rewrite has_char_lower in Hl. unfold q in Hl. unfold danger in Hs. congruence. }
  destruct (jwt_search s) eqn:Hj; [|done]. apply jwt_has_y in Hj. congruence.
Qed.

(** *** Texts without such a character *)

Lemma pretty_N_go_chars q x s : (forall d, q (pretty_N_char d) = false) ->
  PyStr.has_char q (pretty_N_go x s) = PyStr.has_char q s.
Proof.
  intros Hq. revert s. induction (N.lt_wf_0 x) as [x _ IH]; intros s.
  destruct (N.eq_0_gt_0_cases x) as [->|Hx]; [by rewrite pretty_N_go_0|].
  rewrite pretty_N_go_step by done. rewrite IH by (by apply N.div_lt). cbn [PyStr.has_char]. by rewrite Hq.
Qed.

Lemma pretty_Z_safe (z : Z) : PyStr.has_char danger (pretty z) = false.
Proof.
  assert (forall d, danger (pretty_N_char d) = false) as Hd by (intros d; unfold pretty_N_char; by repeat case_match).
  unfold pretty, pretty_Z. destruct z; [done|..]; unfold pretty, pretty_positive, pretty, pretty_N; case_decide; try done;
    rewrite ?Uuid.has_char_append, pretty_N_go_chars by done; done.
Qed.

Lemma digits_val_safe acc b s z : digits_val acc b s = Some z -> PyStr.has_char danger s = false.
Proof.
  revert acc b. induction s as [|c s IH]; intros acc b; [done|]. cbn [digits_val PyStr.has_char].
  destruct (PyStr.is_digit c) eqn:Hd.
  - intros H%IH. rewrite H, orb_false_r. by destruct c as [[] [] [] [] [] [] [] []].
  - destruct (bool_decide (c = "_"%char)) eqn:Hu; [|done]. apply bool_decide_eq_true in Hu as ->.
    destruct b; [|done]. intros H%IH. by rewrite H.
Qed.

Lemma rstrip_by_keeps p q s : (forall c, p c = true -> q c = false) -> PyStr.has_char q (PyStr.rstrip_by p s) = PyStr.has_char q s.
Proof.
  intros Hpq. induction s as [|c s IH]; [done|]. cbn [PyStr.rstrip_by PyStr.has_char]. rewrite <- IH.
  destruct (PyStr.rstrip_by p s) as [|d r]; [|done]. destruct (p c) eqn:Hp; [by rewrite (Hpq c Hp)|done].
Qed.

Lemma lstrip_by_keeps p q s : (forall c, p c = true -> q c = false) -> PyStr.has_char q (PyStr.lstrip_by p s) = PyStr.has_char q s.
Proof.
  intros Hpq. induction s as [|c s IH]; [done|]. cbn [PyStr.lstrip_by]. destruct (p c) eqn:Hp; [|done].
  cbn [PyStr.has_char]. by rewrite IH, (Hpq c Hp).
Qed.

Lemma int_of_string_safe s z : int_of_string s = Some z -> PyStr.has_char danger s = false.
Proof.
  unfold int_of_string. intros H. rewrite <- (rstrip_by_keeps PyStr.is_space), <- (lstrip_by_keeps PyStr.is_space).
  2, 3: intros c; by destruct c as [[] [] [] [] [] [] [] []].
  fold (PyStr.strip s). destruct (PyStr.strip s) as [|c r]; [done|].
  destruct (decide (c = "-"%char)) as [->|Hm].
  { destruct (digits_val 0 false r) eqn:Hd; [|done]. by apply digits_val_safe in Hd. }
  destruct (decide (c = "+"%char)) as [->|Hp]; [by apply digits_val_safe in H|].
  apply (digits_val_safe 0 false _ z). by destruct c as [[] [] [] [] [] [] [] []].
Qed.

Lemma coerce_octets_ok parts f os : coerce_octets parts f = Ok os ->
  Forall2 (fun p o => int_of_string p = Some o /\ 0 <= o <= 255) parts os.
Proof.
  revert os. induction parts as [|p parts IH]; intros os; cbn [coerce_octets]; [intros [= <-]; constructor|].
  intros (o & Ho & H)%res_bind_ok. apply res_bind_ok in H as (os' & Hos & [= <-]). constructor; [|by apply IH].
  unfold coerce_octet, Numbers.py_int in Ho. destruct (int_of_string p) as [z|]; [|done].
  destruct ((0 <=? z) && (z <=? 255)) eqn:Hz; [|done]. injection Ho as <-. split; [done|]. lia.
Qed.

(** Dotted numbers are no secret. *)
Lemma join_safe sep l : PyStr.has_char danger sep = false -> Forall (fun p => PyStr.has_char danger p = false) l ->
  PyStr.has_char danger (PyStr.join sep l) = false.
Proof.
  intros Hsep Hl. induction Hl as [|p l Hp Hl IH]; [done|]. destruct l as [|p' l]; [done|].
  rewrite join_cons2, !Uuid.has_char_append, Hp, Hsep. done.
Qed.

Lemma dotted_safe s f os : coerce_octets (PyStr.split "." s) f = Ok os -> PyStr.has_char danger s = false.
Proof.
  intros H%coerce_octets_ok. rewrite <- (join_split "." s). apply join_safe; [done|].
  apply Forall_forall. intros p Hp. apply list_elem_of_lookup in Hp as [k Hk].
  destruct (Forall2_lookup_l _ _ _ _ _ H Hk) as (o & _ & Ho & _). by apply int_of_string_safe in Ho.
Qed.

(** ** Fixed dimensions *)

(** A dimension that a caller may add. *)
Definition allowed_dimension (kv : string * string) : Prop :=
  dimension_key kv.1 = true /\ kv.1 ∉ RESERVED_EXTRA_DIMENSIONS /\ looks_secret kv.1 = false /\ looks_secret kv.2 = false.

Lemma parse_dimensions_ok v d : parse_dimension_pairs v = Ok d -> NoDup (dict_keys d) /\ Forall allowed_dimension d.
Proof.
  unfold parse_dimension_pairs. destruct (unset v); [intros [= <-]; by repeat constructor|].
  intros (items & _ & H)%res_bind_ok. revert H.
  apply (res_fold_inv (fun d => NoDup (dict_keys d) /\ Forall allowed_dimension d)); [by repeat constructor|].
  intros acc kv acc' _ [Hn Ha] (u & Hv & [= <-])%res_bind_ok. split; [by apply dict_set_NoDup|].
  apply Forall_forall. intros x Hx. assert (x ∈ acc \/ x = (PyStr.strip kv.1, PyStr.strip kv.2)) as [Hin| ->].
  { clear -Hx. induction acc as [|[k' v'] acc IH]; cbn [dict_set] in Hx; [apply list_elem_of_singleton in Hx; by right|].
    case_decide; apply elem_of_cons in Hx as [->|Hx]; subst; rewrite elem_of_cons; auto. destruct (IH Hx); auto. }
  - rewrite Forall_forall in Ha. by apply Ha.
  - unfold validate_extra_dimension in Hv. unfold allowed_dimension. cbn [fst snd].
    destruct (negb _ || _); [done|]. destruct (dimension_key _); [|done]. cbn [negb] in Hv.
    destruct (bool_decide _) eqn:Hr; [done|]. apply bool_decide_eq_false in Hr.
    destruct (looks_secret (PyStr.strip kv.1)), (looks_secret (PyStr.strip kv.2)); done.
Qed.

Lemma new_identity_ok host node server bmc o extra i : new_identity host node server bmc o extra = Ok i ->
  host_name i = host /\ Identity.node i = node /\ server_address i = server /\ bmc_ip i = bmc /\
  NoDup (dict_keys (extra_dimensions i)) /\ Forall allowed_dimension (extra_dimensions i) /\
  normalize_deployment_environment (o_deployment_environment o) (o_require_deployment_environment o) =
    Ok (deployment_environment i) /\
  normalize_service_name (o_service_name o) = Ok (service_name i) /\
  normalize_optional_service_attribute (o_service_namespace o) SERVICE_NAMESPACE_DIM = Ok (service_namespace i) /\
  canonical_service_instance_id (o_service_instance_id o) = Ok (service_instance_id i) /\
  normalize_optional_service_attribute (o_service_version o) SERVICE_VERSION_DIM = Ok (service_version i) /\
  normalize_optional_service_attribute (o_service_criticality o) SERVICE_CRITICALITY_DIM = Ok (service_criticality i).
Proof.
  unfold new_identity. intros (env & Henv & H)%res_bind_ok. destruct (negb _); [done|].
  apply res_bind_ok in H as (ex & Hex & H). apply res_bind_ok in H as (nm & Hnm & H). apply res_bind_ok in H as (ns & Hns & H).
  apply res_bind_ok in H as (inst & Hinst & H). apply res_bind_ok in H as (ver & Hver & H).
  apply res_bind_ok in H as (cr & Hcr & [= <-]). apply parse_dimensions_ok in Hex as [Hd Ha]. cbn. by repeat split.
Qed.

Lemma own_keys_reserved i k : k ∈ dict_keys (own_dimensions i) -> k ∈ RESERVED_EXTRA_DIMENSIONS.
Proof.
  unfold own_dimensions, dict_keys. rewrite !map_app, !elem_of_app. intros [H|[H|H]].
  - repeat (apply elem_of_cons in H as [->|H]; [apply (bool_decide_unpack _); reflexivity|]). by apply not_elem_of_nil in H.
  - destruct (deployment_environment i) as [e|]; [|by apply not_elem_of_nil in H].
    destruct (bool_decide _), (bool_decide _); cbn in H;
      repeat (apply elem_of_cons in H as [->|H]; [apply (bool_decide_unpack _); reflexivity|]); by apply not_elem_of_nil in H.
  - destruct (service_namespace i), (service_instance_id i), (service_version i), (service_criticality i); cbn in H;
      repeat (apply elem_of_cons in H as [->|H]; [apply (bool_decide_unpack _); reflexivity|]); by apply not_elem_of_nil in H.
Qed.

Lemma built_identity bmc o i : build_legacy_gb300_identity bmc o = Ok i ->
  exists b bb sb h n s extra, validate_bmc_label bmc = Ok b /\ coerce_int (o_bmc_octet_base o) "bmc_octet_base" = Ok bb /\
    coerce_int (o_server_octet_base o) "server_octet_base" = Ok sb /\ derived_names b o bb sb = Ok (h, n, s) /\
    new_identity h n s b o extra = Ok i.
Proof.
  unfold build_legacy_gb300_identity. intros (b & Hb & H)%res_bind_ok. apply res_bind_ok in H as (bb & Hbb & H).
  apply res_bind_ok in H as (sb & Hsb & H). apply res_bind_ok in H as ([[h n] s] & Hd & H).
  apply res_bind_ok in H as (extra & _ & H). exists b, bb, sb, h, n, s, extra. done.
Qed.

Lemma dimensions_split bmc o i :
  build_legacy_gb300_identity bmc o = Ok i ->
  forall k, dict_get k (dimensions i) =
    if decide (k ∈ RESERVED_EXTRA_DIMENSIONS) then dict_get k (own_dimensions i) else dict_get k (extra_dimensions i).
Proof.
  intros (b & bb & sb & h & n & s & extra & _ & _ & _ & _ & Hn)%built_identity k.
  apply new_identity_ok in Hn as (_ & _ & _ & _ & Hnd & Ha & _). unfold dimensions. rewrite dict_get_update by done.
  destruct (dict_get k (extra_dimensions i)) as [v|] eqn:Hk; case_decide as Hr; try done.
  - exfalso. apply dict_get_In in Hk. rewrite Forall_forall in Ha. by destruct (Ha _ Hk) as (_ & Hres & _).
  - apply dict_get_None. intros Hin. by apply own_keys_reserved in Hin.
Qed.

(** The fixed dimensions of an exporter cannot be replaced: in the dimensions of an identity that
    was built, every reserved name has the value of the identity, or no value when the
    identity has none, whatever dimensions the caller adds; every other name is one
    the caller added. *)
Theorem reserved_dimensions_fixed bmc o i :
  build_legacy_gb300_identity bmc o = Ok i ->
  forall k, dict_get k (dimensions i) =
    if decide (k ∈ RESERVED_EXTRA_DIMENSIONS) then dict_get k (own_dimensions i) else dict_get k (extra_dimensions i).
Proof. apply dimensions_split. Qed.

Lemma reserved_dimensions_fixed_witness :
  exists i, build_legacy_gb300_identity (PStr "10.0.0.23") (Options (PStr "Dell") "node" (PInt 20) (PInt 40) None (PStr "Lab") PNone
      true (PStr "rack=r7,tray=3") PNone PNone PNone PNone PNone) = Ok i /\
    dict_get "vendor" (dimensions i) = Some "dell" /\ dict_get "rack" (dimensions i) = Some "r7".
Proof.
  destruct (build_legacy_gb300_identity (PStr "10.0.0.23") (Options (PStr "Dell") "node" (PInt 20) (PInt 40) None (PStr "Lab") PNone
      true (PStr "rack=r7,tray=3") PNone PNone PNone PNone PNone)) as [i|e|] eqn:H; [|vm_compute in H; done..].
  exists i. split; [reflexivity|]. pose proof (reserved_dimensions_fixed _ _ i H) as Hf. rewrite !Hf.
  vm_compute in H. injection H as <-. vm_compute. split; reflexivity.
Defined.

(** *** No secrets *)

Lemma normalized_not_secret v f t : normalize_optional_service_attribute v f = Ok (Some t) ->
  looks_secret t = false /\ PyStr.has_char (fun c => negb (visible c)) t = false /\ (String.length t <= 255)%nat.
Proof.
  unfold normalize_optional_service_attribute. destruct (unset v); [done|]. destruct (negb _); [done|].
  intros (u & Hv & [= <-])%res_bind_ok. unfold validate_service_attribute in Hv.
  destruct (255 <? _)%nat eqn:Hl; [done|]. destruct (PyStr.has_char _ _); [done|]. destruct (looks_secret _); [done|].
  apply Nat.ltb_ge in Hl. done.
Qed.

Lemma uuid_safe z : PyStr.has_char danger (Uuid.uuid_str z) = false.
Proof. by apply Uuid.uuid_str_none. Qed.

Lemma canonical_uuid v t : canonical_service_instance_id v = Ok (Some t) -> exists z, 0 <= z < 2 ^ 128 /\ t = Uuid.uuid_str z.
Proof.
  unfold canonical_service_instance_id. intros ([x|] & _ & [= <-])%res_bind_ok.
  destruct (Uuid.uuid_int x) as [z|] eqn:Hz.
  - exists z. split; [by eapply Uuid.uuid_int_bound|done].
  - eexists. split; [apply Uuid.uuid5_bound|done].
Qed.

Lemma derived_safe b o bb sb h n s : derived_names b o bb sb = Ok (h, n, s) ->
  looks_secret b = false -> looks_secret n = false /\ looks_secret s = false.
Proof.
  unfold derived_names. destruct (_ && _); [|intros [= <- <- <-]; done].
  intros (os & _ & H)%res_bind_ok. destruct (_ <? 0); [done|]. apply res_bind_ok in H as (u1 & _ & H).
  apply res_bind_ok in H as (u2 & Hv & [= <- <- <-]). intros _. split; apply safe_not_secret.
  - rewrite Uuid.has_char_append, pretty_Z_safe. done.
  - unfold validate_ipv4_address in Hv. destruct (negb _); [done|]. apply res_bind_ok in Hv as (os2 & Hos & _).
    by apply dotted_safe in Hos.
Qed.

(** Secrets do not reach the exported series through the identity: of the dimensions of an
    identity that was built, the values of all but the host name and the vendor have none of
    the shapes of a secret, whatever the caller and the environment supply. *)
Theorem dimensions_hide_secrets bmc o i :
  build_legacy_gb300_identity bmc o = Ok i ->
  forall k v, dict_get k (dimensions i) = Some v -> k <> "host.name" -> k <> "vendor" -> looks_secret v = false.
Proof.
  intros Hb k v Hk Hh Hve. rewrite (dimensions_split _ _ _ Hb) in Hk.
  apply built_identity in Hb as (b & bb & sb & h & n & s & extra & Hl & _ & _ & Hd & Hn).
  apply new_identity_ok in Hn as (_ & En & Es & Eb & _ & Ha & Henv & Hsn & Hns & Hid & Hver & Hcr).
  assert (looks_secret b = false) as Hbs.
  { unfold validate_bmc_label in Hl. destruct (looks_secret _) eqn:Hs; [done|]. injection Hl as <-.
    by destruct (PyStr.nonempty _). }
  destruct (derived_safe _ _ _ _ _ _ _ Hd Hbs) as [Hnode Hserver].
  case_decide; apply dict_get_In in Hk; [|rewrite Forall_forall in Ha; by apply Ha in Hk as (_ & _ & _ & ?)].
  unfold own_dimensions in Hk. rewrite !elem_of_app in Hk. destruct Hk as [Hk|[Hk|Hk]].
  - repeat (apply elem_of_cons in Hk as [[= -> ->]|Hk]; [try congruence|]); [|by apply not_elem_of_nil in Hk].
    unfold normalize_service_name in Hsn. apply res_bind_ok in Hsn as ([x|] & Hx & [= <-]); [|reflexivity].
    by apply normalized_not_secret in Hx as [? _].
  - destruct (deployment_environment i) as [e|]; [|by apply not_elem_of_nil in Hk].
    assert (v = e) as ->.
    { rewrite elem_of_app in Hk. destruct Hk as [Hk|Hk]; destruct (bool_decide _); try (by apply not_elem_of_nil in Hk);
        by apply list_elem_of_singleton in Hk as [= -> ->]. }
    unfold normalize_deployment_environment in Henv. destruct (unset _); [by destruct (o_require_deployment_environment o)|].
    destruct (negb _ || _); [done|]. destruct (looks_secret _) eqn:Hs; [done|]. destruct (negb _); [done|]. by injection Henv as <-.
  - apply list_elem_of_omap in Hk as ([k' o'] & Hin & Hv). cbn [fst snd] in Hv. destruct o' as [x|]; [|done]. injection Hv as -> ->.
    repeat (apply elem_of_cons in Hin as [[= -> Ho]|Hin]); [..|by apply not_elem_of_nil in Hin].
    + rewrite <- Ho in Hns. by apply normalized_not_secret in Hns as [? _].
    + rewrite <- Ho in Hid. apply canonical_uuid in Hid as (z & _ & ->). apply safe_not_secret, uuid_safe.
    + rewrite <- Ho in Hver. by apply normalized_not_secret in Hver as [? _].
    + rewrite <- Ho in Hcr. by apply normalized_not_secret in Hcr as [? _].
Qed.

Definition sample_options : options :=
  Options (PStr "Dell") "node" (PInt 20) (PInt 40) None (PStr "Lab") PNone true (PStr "rack=r7,tray=3") PNone (PStr "dc1")
    (PStr "serial-17") PNone PNone.

Lemma dimensions_hide_secrets_witness :
  exists i, build_legacy_gb300_identity (PStr "10.0.0.23") sample_options = Ok i /\
    (forall v, dict_get "service.instance.id" (dimensions i) = Some v -> looks_secret v = false) /\
    dict_get "service.namespace" (dimensions i) = Some "dc1".
Proof.
  destruct (build_legacy_gb300_identity (PStr "10.0.0.23") sample_options) as [i|e|] eqn:H; [|vm_compute in H; done..].
  exists i. split; [reflexivity|]. split.
  - intros v Hv. exact (dimensions_hide_secrets _ _ i H _ v Hv ltac:(discriminate) ltac:(discriminate)).
  - vm_compute in H. injection H as <-. reflexivity.
Defined.

(** The two exceptions are real: the host prefix and the vendor are not checked, and a token in either is
    exported on every series. *)
Theorem host_prefix_unchecked :
  exists i, build_legacy_gb300_identity (PStr "10.0.0.23") (Options (PStr "Bearer abc") "ghp_0123456789" (PInt 20) (PInt 40) None
      PNone PNone false PNone PNone PNone PNone PNone PNone) = Ok i /\
    dict_get "host.name" (dimensions i) = Some "ghp_0123456789-slot3" /\ looks_secret "ghp_0123456789-slot3" = true /\
    dict_get "vendor" (dimensions i) = Some "bearer abc" /\ looks_secret "bearer abc" = true.
Proof. eexists. split; [vm_compute; reflexivity|]. by repeat split. Qed.

(** ** Instance ids *)

(** The id of a service instance is stable: what an instance token is mapped to is the text of a UUID,
    and mapping the result again does not change it. *)
Theorem instance_id_stable v t :
  canonical_service_instance_id v = Ok (Some t) ->
  (exists z, Uuid.uuid_int t = Some z /\ t = Uuid.uuid_str z) /\ canonical_service_instance_id (PStr t) = Ok (Some t).
Proof.
  intros (z & Hz & ->)%canonical_uuid. pose proof (Uuid.uuid_roundtrip z Hz) as Hr.
  split; [by exists z|]. unfold canonical_service_instance_id, normalize_optional_service_attribute.
  assert (exists c r, Uuid.uuid_str z = String c r) as (c & r & Hcr) by (unfold Uuid.uuid_str; cbn; eauto).
  assert (unset (PStr (Uuid.uuid_str z)) = false) as -> by (by rewrite Hcr). cbn [py_str].
  rewrite strip_none by (by apply Uuid.uuid_str_none).
  assert (PyStr.nonempty (Uuid.uuid_str z) = true) as -> by (by rewrite Hcr). cbn [negb].
  unfold validate_service_attribute.
  assert (String.length (Uuid.uuid_str z) = 36%nat) as Hlen by reflexivity. rewrite Hlen. cbn [Nat.ltb Nat.leb].
  assert (PyStr.has_char (fun c => negb (visible c)) (Uuid.uuid_str z) = false) as -> by (by apply Uuid.uuid_str_none).
  rewrite (safe_not_secret _ (uuid_safe z)). cbn [res_bind]. by rewrite Hr.
Qed.

Lemma instance_id_stable_witness :
  exists t, canonical_service_instance_id (PStr "serial-17") = Ok (Some t) /\ canonical_service_instance_id (PStr t) = Ok (Some t).
Proof.
  destruct (canonical_service_instance_id (PStr "serial-17")) as [[t|]|e|] eqn:H; [|vm_compute in H; done..].
  exists t. split; [reflexivity|]. exact (proj2 (instance_id_stable _ _ H)).
Defined.

(** ** Derived addresses *)

Lemma decimal_char d : (d < 10)%N -> PyStr.is_digit (pretty_N_char d) = true /\
  Z.of_nat (nat_of_ascii (pretty_N_char d)) - 48 = Z.of_N d.
Proof.
  intros Hd. assert (forallb (fun n => PyStr.is_digit (pretty_N_char (N.of_nat n)) &&
    (Z.of_nat (nat_of_ascii (pretty_N_char (N.of_nat n))) - 48 =? Z.of_nat n)) (seq 0 10) = true) as H by reflexivity.
  pose proof (proj1 (forallb_forall _ _) H (N.to_nat d) ltac:(apply in_seq; lia)) as Hq. cbv beta in Hq.
  rewrite N2Nat.id in Hq. apply andb_true_iff in Hq as [H1 H2%Z.eqb_eq]. split; [done|]. lia.
Qed.

Lemma digits_val_pretty x s : (0 < x)%N ->
  exists k, 0 <= k /\ forall acc b, digits_val acc b (pretty_N_go x s) = digits_val (acc * 10 ^ k + Z.of_N x) true s.
Proof.
  revert s. induction (N.lt_wf_0 x) as [x _ IH]; intros s Hx. rewrite pretty_N_go_step by done.
  destruct (decimal_char (x `mod` 10)) as [Hd Hv]; [by apply N.mod_lt|].
  assert (Z.of_N x = 10 * Z.of_N (x / 10) + Z.of_N (x `mod` 10)) as Hdiv.
  { rewrite <- N2Z.inj_mul with (n := 10%N), <- N2Z.inj_add. f_equal. by apply N.div_mod. }
  destruct (N.eq_0_gt_0_cases (x / 10)) as [Hz|Hp].
  - exists 1. split; [lia|]. intros acc b. rewrite Hz, pretty_N_go_0. cbn [digits_val]. rewrite Hd. f_equal.
    rewrite Hz in Hdiv. lia.
  - destruct (IH (x / 10)%N ltac:(by apply N.div_lt) (String (pretty_N_char (x `mod` 10)) s) Hp) as (k & Hk & H).
    exists (k + 1). split; [lia|]. intros acc b. rewrite H. cbn [digits_val]. rewrite Hd. f_equal.
    rewrite Z.pow_add_r by lia. lia.
Qed.

Lemma digits_val_pretty_N (x : N) : digits_val 0 false (pretty x) = Some (Z.of_N x).
Proof.
  unfold pretty, pretty_N. case_decide as Hx; [by subst|].
  destruct (digits_val_pretty x "" ltac:(lia)) as (k & _ & H). by rewrite H.
Qed.

Lemma pretty_N_head (x : N) : exists c r, pretty x = String c r /\ PyStr.is_digit c = true.
Proof.
  pose proof (digits_val_pretty_N x) as H. destruct (pretty x) as [|c r]; [done|]. exists c, r. split; [done|].
  cbn [digits_val] in H. destruct (PyStr.is_digit c); [done|]. by rewrite andb_false_r in H.
Qed.

Lemma pretty_Z_spaces (z : Z) : PyStr.has_char PyStr.is_space (pretty z) = false.
Proof.
  assert (forall d, PyStr.is_space (pretty_N_char d) = false) as Hd by (intros d; unfold pretty_N_char; by repeat case_match).
  unfold pretty, pretty_Z. destruct z; [done|..]; unfold pretty, pretty_positive, pretty, pretty_N; case_decide; try done;
    rewrite ?Uuid.has_char_append, pretty_N_go_chars by done; done.
Qed.

(** [int(str(z)) == z] *)
Lemma int_of_pretty (z : Z) : int_of_string (pretty z) = Some z.
Proof.
  unfold int_of_string. rewrite strip_none by apply pretty_Z_spaces. destruct z as [|p|p]; [done| |].
  - change (pretty (Z.pos p)) with (pretty (N.pos p)). pose proof (digits_val_pretty_N (N.pos p)) as H.
    destruct (pretty_N_head (N.pos p)) as (c & r & Heq & Hd). rewrite Heq in *.
    by destruct c as [[] [] [] [] [] [] [] []].
  - change (pretty (Z.neg p)) with ("-" +:+ pretty (N.pos p)). rewrite append_cons, append_empty_l.
    by rewrite digits_val_pretty_N.
Qed.

Lemma split_snoc s t : PyStr.has_char (fun x => bool_decide (x = "."%char)) t = false ->
  PyStr.split "." (s +:+ "." +:+ t) = PyStr.split "." s ++ [t].
Proof.
  intros Ht. induction s as [|c s IH].
  - rewrite append_empty_l, append_cons, append_empty_l. cbn [PyStr.split]. rewrite decide_True by done. by rewrite split_none.
  - rewrite append_cons. cbn [PyStr.split]. rewrite IH. case_decide; [done|].
    pose proof (split_nonempty "." s). by destruct (PyStr.split "." s).
Qed.

Lemma pretty_no_dot (z : Z) : PyStr.has_char (fun x => bool_decide (x = "."%char)) (pretty z) = false.
Proof.
  assert (forall d, bool_decide (pretty_N_char d = "."%char) = false) as Hd by (intros d; unfold pretty_N_char; by repeat case_match).
  unfold pretty, pretty_Z. destruct z; [done|..]; unfold pretty, pretty_positive, pretty, pretty_N; case_decide; try done;
    rewrite ?Uuid.has_char_append, pretty_N_go_chars by done; done.
Qed.

(** The names that are derived from a BMC address: when a BMC label is four dotted numbers and an identity is
    built, its octets are at most 255, the node is the slot by which the last octet exceeds the BMC
    base, which is not negative, and the server's last octet is the server base plus the
    slot and at most 255; with the subnet of the BMC the server address is an IPv4 address. *)
Theorem derived_addresses bmc o i :
  build_legacy_gb300_identity bmc o = Ok i -> forallb isdigit (PyStr.split "." (bmc_ip i)) = true ->
  length (PyStr.split "." (bmc_ip i)) = 4%nat ->
  exists a b c d bb sb subnet,
    map int_of_string (PyStr.split "." (bmc_ip i)) = [Some a; Some b; Some c; Some d] /\
    Forall (fun x => 0 <= x <= 255) [a; b; c; d; sb + (d - bb)] /\ 0 <= d - bb /\
    Numbers.py_int (o_bmc_octet_base o) = Ok bb /\ Numbers.py_int (o_server_octet_base o) = Ok sb /\
    node i = "slot" +:+ pretty (d - bb) /\ host_name i = o_host_prefix o +:+ "-" +:+ node i /\
    server_address i = subnet +:+ "." +:+ pretty (sb + (d - bb)) /\
    (o_server_subnet o = None ->
       server_address i = PyStr.join "." (map pretty [a; b; c; sb + (d - bb)]) /\ IpAddress.ipv4 (server_address i) = true).
Proof.
  intros (b & bb & sb & h & n & s & extra & _ & Hbb & Hsb & Hd & Hn)%built_identity.
  apply new_identity_ok in Hn as (-> & -> & -> & -> & _). intros Hdig Hlen. unfold derived_names in Hd.
  rewrite Hdig, Hlen in Hd. cbn [Nat.eqb andb] in Hd. apply res_bind_ok in Hd as (os & Hos & Hd).
  apply coerce_octets_ok in Hos. destruct (PyStr.split "." b) as [|p1 [|p2 [|p3 [|p4 [|? ?]]]]]; try done.
  apply Forall2_cons_inv_l in Hos as (a1 & ? & [E1 R1] & Hos & ->).
  apply Forall2_cons_inv_l in Hos as (a2 & ? & [E2 R2] & Hos & ->).
  apply Forall2_cons_inv_l in Hos as (a3 & ? & [E3 R3] & Hos & ->).
  apply Forall2_cons_inv_l in Hos as (a4 & ? & [E4 R4] & Hos & ->). apply Forall2_nil_inv_l in Hos as ->.
  cbn [last from_option id] in Hd. cbv zeta in Hd. destruct (a4 - bb <? 0) eqn:Hslot; [done|].
  set (subnet := match o_server_subnet o with Some (String _ _ as x) => x | _ => _ end) in Hd.
  apply res_bind_ok in Hd as (u1 & _ & Hd). apply res_bind_ok in Hd as (u2 & Hv & [= <- <- <-]).
  assert (0 <= sb + (a4 - bb) <= 255) as Hlast.
  { unfold validate_ipv4_address in Hv. destruct (negb _); [done|]. apply res_bind_ok in Hv as (os2 & Hos2 & _).
    apply coerce_octets_ok in Hos2. rewrite split_snoc in Hos2 by apply pretty_no_dot.
    apply Forall2_app_inv_l in Hos2 as (l1 & l2 & _ & H2 & ->). apply Forall2_cons_inv_l in H2 as (o4 & ? & [Ho Hr] & _ & ->).
    rewrite int_of_pretty in Ho. injection Ho as <-. done. }
  assert (forall v f z, coerce_int v f = Ok z -> Numbers.py_int v = Ok z) as Hci.
  { intros v f z. unfold coerce_int. destruct (Numbers.py_int v) as [x|e|]; [done| |done]. by destruct (is_value_error e). }
  exists a1, a2, a3, a4, bb, sb, subnet. split; [cbn [map]; congruence|]. split; [rewrite !Forall_cons, Forall_nil; tauto|].
  split; [lia|]. split; [by eapply Hci|]. split; [by eapply Hci|]. split; [done|]. split; [done|]. split; [done|].
  intros Hnone. assert (subnet +:+ "." +:+ pretty (sb + (a4 - bb)) = PyStr.join "." (map pretty [a1; a2; a3; sb + (a4 - bb)])) as ->.
  { unfold subnet. rewrite Hnone. cbn [take map PyStr.join]. by rewrite !append_assoc. }
  split; [done|]. unfold IpAddress.ipv4. rewrite split_of_join; [|done|].
  - assert (forall x, 0 <= x <= 255 -> IpAddress.octet (pretty x) = true) as Hoct by (intros x Hx; apply Networks.octet_text; lia).
    cbn [map length Nat.eqb forallb andb]. by rewrite !Hoct by lia.
  - cbn [map]. repeat constructor; apply pretty_no_dot.
Qed.

Lemma derived_addresses_witness :
  exists i, build_legacy_gb300_identity (PStr "10.0.0.23") defaults = Ok i /\
    exists subnet slot, server_address i = subnet +:+ "." +:+ pretty (slot : Z) /\ IpAddress.ipv4 (server_address i) = true.
Proof.
  destruct (build_legacy_gb300_identity (PStr "10.0.0.23") defaults) as [i|e|] eqn:H; [|vm_compute in H; done..].
  exists i. split; [reflexivity|].
  assert (bmc_ip i = "10.0.0.23") as Hb by (vm_compute in H; by injection H as <-).
  destruct (derived_addresses (PStr "10.0.0.23") defaults i H ltac:(rewrite Hb; reflexivity) ltac:(rewrite Hb; reflexivity))
    as (a & b & c & d & bb & sb & subnet & _ & _ & _ & _ & _ & _ & _ & Hs & Hip).
  exists subnet, (sb + (d - bb)). split; [exact Hs|]. exact (proj2 (Hip eq_refl)).
Defined.

(** A subnet that a caller supplies is checked with [int], which takes signs, underscores and white space: the
    server address that is exported need not be an IPv4 address. *)
Theorem subnet_check_lenient :
  exists i, build_legacy_gb300_identity (PStr "10.0.0.23") (Options PNone "n" (PInt 20) (PInt 40) (Some "1_0.+2. 3") PNone PNone
      false PNone PNone PNone PNone PNone PNone) = Ok i /\
    server_address i = "1_0.+2. 3.43" /\ IpAddress.ipv4 (server_address i) = false.
Proof. eexists. split; [vm_compute; reflexivity|]. by split. Qed.

(** ** Common dimensions *)

Lemma dict_get_filter (P : string * string -> Prop) `{!forall x, Decision (P x)} k d : NoDup (dict_keys d) ->
  dict_get k (filter P d) = match dict_get k d with Some v => if decide (P (k, v)) then Some v else None | None => None end.
Proof.
  induction d as [|[k' v] d IH]; [done|]. cbn [dict_keys map fst]. intros [Hni Hnd]%NoDup_cons. cbn [dict_get].
  rewrite filter_cons. destruct (decide (k = k')) as [->|Hk].
  - destruct (decide (P (k', v))) as [HP|HP]; [cbn [dict_get]; by rewrite decide_True|].
    rewrite IH by done. by rewrite (proj2 (dict_get_None k' d) Hni).
  - destruct (decide (P (k', v))); [cbn [dict_get]; rewrite decide_False by done|]; by apply IH.
Qed.

Lemma filter_keys_NoDup (P : string * string -> Prop) `{!forall x, Decision (P x)} d :
  NoDup (dict_keys d) -> NoDup (dict_keys (filter P d)).
Proof.
  unfold dict_keys. induction d as [|[k v] d IH]; [done|]. cbn [map fst]. intros [Hni Hnd]%NoDup_cons. rewrite filter_cons.
  case_decide; [|auto]. cbn [map fst]. constructor; [|auto]. intros ([k' v'] & Hk & Hin)%list_elem_of_fmap. cbn in Hk. subst k'.
  apply Hni. apply list_elem_of_filter in Hin as [_ Hin]. by apply (list_elem_of_fmap_2 fst) in Hin.
Qed.

(** The dimensions that are reported once for all samples are exactly those that every sample has with
    the same value, less the resource attributes. *)
Theorem common_dimensions_exact first rest k v :
  NoDup (dict_keys first) ->
  dict_get k (common_sample_dimensions (first :: rest)) = Some v <->
  k ∉ RESOURCE_ONLY_DIMENSIONS /\ Forall (fun s => dict_get k s = Some v) (first :: rest).
Proof.
  intros Hnd. cbn [common_sample_dimensions].
  set (common := filter (fun kv : string * string => kv.1 ∉ RESOURCE_ONLY_DIMENSIONS) first).
  assert (NoDup (dict_keys common)) as Hc by (by apply filter_keys_NoDup).
  assert (dict_get k common = Some v <-> k ∉ RESOURCE_ONLY_DIMENSIONS /\ dict_get k first = Some v) as Hbase.
  { unfold common. rewrite dict_get_filter by done. destruct (dict_get k first) as [w|]; [|naive_solver].
    case_decide; naive_solver. }
  assert (forall rest common, NoDup (dict_keys common) ->
    dict_get k (fold_left (fun common sample => filter (fun kv => dict_get kv.1 sample = Some kv.2) common) rest common) = Some v <->
    dict_get k common = Some v /\ Forall (fun s => dict_get k s = Some v) rest) as Hfold.
  { clear. intros rest. induction rest as [|s rest IH]; intros common Hc; cbn [fold_left]; [by rewrite Forall_nil; naive_solver|].
    rewrite IH by (by apply filter_keys_NoDup). rewrite dict_get_filter by done. rewrite Forall_cons. cbn [fst snd].
    destruct (dict_get k common) as [w|]; [|naive_solver]. case_decide; naive_solver. }
  rewrite Hfold, Hbase, Forall_cons by done. naive_solver.
Qed.

Lemma common_dimensions_exact_witness :
  dict_get "node" (common_sample_dimensions [[("node", "slot3"); ("fan", "1"); ("service.version", "2")];
    [("node", "slot3"); ("fan", "2"); ("service.version", "2")]]) = Some "slot3".
Proof.
  apply (common_dimensions_exact [("node", "slot3"); ("fan", "1"); ("service.version", "2")]
    [[("node", "slot3"); ("fan", "2"); ("service.version", "2")]] "node" "slot3").
  - apply (bool_decide_unpack _). reflexivity.
  - split; [apply (bool_decide_unpack _); reflexivity|by repeat constructor].
Defined.
End Identity.
