(* ===== verification/Decimals.v ===== *)
(** * Decimal texts

    [float(repr(f)) == f] for the decimals that stand for floats: the text that [repr_float] of PyVal.v writes is read by
    [parse_decimal] of Numbers.v as the same number, in the positional and in the scientific form. *)

From stdpp Require Import base list strings pretty.
From Stdlib Require Import Ascii ZArith Lia.
From S2P Require Import Prelude PyVal Effects Numbers Uuid Identity.

Module Decimals.
Import Numbers.
Local Open Scope Z_scope.
Local Open Scope py_scope.

(** ** Digits *)

Definition digit_of (c : ascii) : Z := Z.of_nat (nat_of_ascii c) - 48.

(** The number that digits stand for, after [acc] *)
Fixpoint digits_after (acc : Z) (s : string) : Z :=
  match s with EmptyString => acc | String c s' => digits_after (10 * acc + digit_of c) s' end.

Definition all_digits (s : string) : Prop := PyStr.has_char (fun c => negb (PyStr.is_digit c)) s = false.

Lemma all_digits_cons c s : all_digits (String c s) <-> PyStr.is_digit c = true /\ all_digits s.
Proof. unfold all_digits. cbn [PyStr.has_char]. by rewrite orb_false_iff, negb_false_iff. Qed.

Lemma all_digits_app a b : all_digits (a +:+ b) <-> all_digits a /\ all_digits b.
Proof. unfold all_digits. by rewrite Uuid.has_char_append, orb_false_iff. Qed.

Lemma all_digits_zeros n : all_digits (zeros n).
Proof. induction n; [done|]. by apply all_digits_cons. Qed.

Lemma all_digits_pretty (n : N) : all_digits (pretty n).
Proof.
  assert (forall d, negb (PyStr.is_digit (pretty_N_char d)) = false) as Hd by (intros d; unfold pretty_N_char; by repeat case_match).
  unfold all_digits, pretty, pretty_N. case_decide; [done|]. by rewrite Identity.pretty_N_go_chars.
Qed.

Lemma digits_after_app acc a b : digits_after acc (a +:+ b) = digits_after (digits_after acc a) b.
Proof. revert acc. induction a as [|c a IH]; intros acc; [done|]. rewrite append_cons. apply IH. Qed.

Lemma digits_after_zeros acc n : digits_after acc (zeros n) = acc * 10 ^ Z.of_nat n.
Proof.
  revert acc. induction n as [|n IH]; intros acc; [cbn; lia|]. cbn [zeros digits_after]. rewrite IH, Nat2Z.inj_succ, Z.pow_succ_r by lia.
  change (digit_of "0") with 0. lia.
Qed.

Lemma digits_val_after acc b s : all_digits s -> s <> "" -> digits_val acc b s = Some (digits_after acc s).
Proof.
  revert acc b. induction s as [|c s IH]; intros acc b Hs Hne; [done|]. apply all_digits_cons in Hs as [Hc Hs]. cbn [digits_val]. rewrite Hc.
  destruct s as [|c' s]; [done|]. by rewrite IH.
Qed.

Lemma pretty_N_nonempty (n : N) : pretty n <> "".
Proof. destruct (Identity.pretty_N_head n) as (c & r & -> & _). done. Qed.

Lemma digits_after_pretty (n : N) : digits_after 0 (pretty n) = Z.of_N n.
Proof.
  pose proof (Identity.digits_val_pretty_N n) as H. rewrite digits_val_after in H; [congruence|apply all_digits_pretty|apply pretty_N_nonempty].
Qed.

(** The reader stops here. *)
Definition stops (s : string) : Prop := match s with EmptyString => True | String c _ => PyStr.is_digit c = false /\ c <> "_"%char end.

Lemma read_digits_all acc n b ds rest : all_digits ds -> stops rest ->
  exists b', read_digits acc n b (ds +:+ rest) = (digits_after acc ds, n + Z.of_nat (String.length ds), b', rest).
Proof.
  revert acc n b. induction ds as [|c ds IH]; intros acc n b Hd Hr.
  - rewrite append_empty_l. cbn [digits_after String.length]. exists b. destruct rest as [|c rest]; cbn; [by rewrite Z.add_0_r|].
    destruct Hr as [-> Hu]. rewrite bool_decide_eq_false_2 by done. by rewrite Z.add_0_r.
  - apply all_digits_cons in Hd as [Hc Hd]. rewrite append_cons. cbn [read_digits digits_after String.length]. rewrite Hc.
    destruct (IH (10 * acc + digit_of c) (n + 1) true Hd Hr) as [b' Hb]. exists b'. unfold digit_of in Hb at 1. rewrite Hb. do 3 f_equal; lia.
Qed.

Lemma substring_parts k s : (k <= String.length s)%nat ->
  String.substring 0 k s +:+ String.substring k (String.length s - k) s = s /\ String.length (String.substring 0 k s) = k.
Proof.
  revert k. induction s as [|c s IH]; intros k Hk.
  - destruct k; [done|cbn in Hk; lia].
  - destruct k as [|k]; cbn [String.substring String.length Nat.sub].
    + split; [|done]. rewrite append_empty_l. f_equal. destruct (IH 0%nat ltac:(lia)) as [H _].
      replace (String.substring 0 0 s) with "" in H by (by destruct s). rewrite append_empty_l, Nat.sub_0_r in H. exact H.
    + cbn in Hk. destruct (IH k ltac:(lia)) as [H1 H2]. rewrite append_cons, H1, H2. done.
Qed.

Lemma length_append a b : String.length (a +:+ b) = (String.length a + String.length b)%nat.
Proof. induction a as [|c a IH]; [done|]. rewrite append_cons. cbn. by rewrite IH. Qed.

Lemma length_zeros n : String.length (zeros n) = n.
Proof. induction n as [|n IH]; [done|]. cbn. by rewrite IH. Qed.

(** ** Texts *)

(** An unsigned text: digits, a fraction and an exponent *)
Definition unsigned (s : string) : option dec :=
  let '(ip, ni, _, s) := read_digits 0 0 false s in
  let '(m, nd, s) :=
    match s with
    | String "." r => let '(fp, nf, _, r) := read_digits ip 0 false r in (fp, nf, r)
    | r => (ip, 0, r)
    end in
  if 0 <? ni + nd then (fun x => (m, x - nd)) <$> read_exponent s else None.

Lemma stops_dot r : stops (String "." r).
Proof. done. Qed.

Lemma stops_e r : stops (String "e" r).
Proof. done. Qed.

Lemma unsigned_point a b rest : all_digits a -> a <> "" -> all_digits b -> stops rest ->
  unsigned (a +:+ String "." (b +:+ rest)) = (fun x => (digits_after 0 (a +:+ b), x - Z.of_nat (String.length b))) <$> read_exponent rest.
Proof.
  intros Ha Hne Hb Hr. unfold unsigned. destruct (read_digits_all 0 0 false a (String "." (b +:+ rest)) Ha (stops_dot _)) as [b1 ->].
  destruct (read_digits_all (digits_after 0 a) 0 false b rest Hb Hr) as [b2 ->]. rewrite digits_after_app.
  destruct a as [|c a]; [done|]. rewrite (proj2 (Z.ltb_lt _ _)) by (cbn [String.length]; lia). by rewrite Z.add_0_l.
Qed.

Lemma unsigned_plain a rest : all_digits a -> a <> "" -> stops rest -> (forall r, rest <> String "." r) ->
  unsigned (a +:+ rest) = (fun x => (digits_after 0 a, x)) <$> read_exponent rest.
Proof.
  intros Ha Hne Hr Hd. unfold unsigned. destruct (read_digits_all 0 0 false a rest Ha Hr) as [b1 ->]. destruct a as [|c a]; [done|].
  assert ((match rest with String "." r => let '(fp, nf, _, r) := read_digits (digits_after 0 (String c a)) 0 false r in (fp, nf, r)
    | r => (digits_after 0 (String c a), 0, r) end) = (digits_after 0 (String c a), 0, rest)) as ->.
  { destruct rest as [|x rest]; [done|]. destruct (decide (x = "."%char)) as [->|Hx]; [by destruct (Hd rest)|].
    by destruct x as [[] [] [] [] [] [] [] []]. }
  rewrite (proj2 (Z.ltb_lt _ _)) by (cbn [String.length]; lia). destruct (read_exponent rest) as [x|]; [|done]. cbn. by rewrite Z.sub_0_r.
Qed.

(** The sign of a text, and the rest *)
Definition sign_of (s : string) : Z * string :=
  match s with String "-" r => (-1, r) | String "+" r => (1, r) | r => (1, r) end.

Lemma parse_by_sign s :
  parse_decimal s = (fun d : dec => ((sign_of (PyStr.strip s)).1 * d.1, d.2)) <$> unsigned (sign_of (PyStr.strip s)).2.
Proof.
  unfold parse_decimal, unsigned, sign_of. destruct (match PyStr.strip s with String "-" r => _ | _ => _ end) as [sign u]. cbn [fst snd].
  destruct (read_digits 0 0 false u) as [[[ip ni] b] u'].
  destruct (match u' with String "." r => _ | _ => _ end) as [[m nd] u'']. destruct (0 <? ni + nd); [|done]. by destruct (read_exponent u'').
Qed.

Lemma parse_signed (neg : bool) u : PyStr.has_char PyStr.is_space u = false -> (exists c r, u = String c r /\ PyStr.is_digit c = true) ->
  parse_decimal ((if neg then "-" else "") +:+ u) = (fun d : dec => ((if neg then -1 else 1) * d.1, d.2)) <$> unsigned u.
Proof.
  intros Hs (c & r & Hu & Hc). rewrite parse_by_sign, strip_none by (by destruct neg; rewrite ?Uuid.has_char_append).
  destruct neg; [done|]. rewrite append_empty_l. assert (sign_of u = (1, u)) as ->; [|done]. rewrite Hu.
  by destruct c as [[] [] [] [] [] [] [] []].
Qed.

Lemma digits_no_space s : all_digits s -> PyStr.has_char PyStr.is_space s = false.
Proof.
  induction s as [|c s IH]; [done|]. intros [Hc Hs]%all_digits_cons. cbn [PyStr.has_char]. rewrite IH by done.
  by destruct c as [[] [] [] [] [] [] [] []].
Qed.

Lemma starts_digit s t : all_digits s -> s <> "" -> exists c r, s +:+ t = String c r /\ PyStr.is_digit c = true.
Proof. destruct s as [|c s]; [done|]. intros [Hc _]%all_digits_cons _. rewrite append_cons. by eexists _, _. Qed.

(** The exponent of a text *)
Lemma read_exponent_written x : let xs := pretty (Z.to_N (Z.abs x)) in
  read_exponent ("e" +:+ (if x <? 0 then "-" else "+") +:+ (if (String.length xs <? 2)%nat then "0" else "") +:+ xs) = Some x.
Proof.
  cbv zeta. set (xs := pretty (Z.to_N (Z.abs x))). set (pad := if (String.length xs <? 2)%nat then "0" else "").
  assert (all_digits (pad +:+ xs)) as Hd by (apply all_digits_app; split; [unfold pad; by case_match|apply all_digits_pretty]).
  assert (digits_after 0 (pad +:+ xs) = Z.abs x) as Hv.
  { rewrite digits_after_app. replace (digits_after 0 pad) with 0 by (unfold pad; by case_match). unfold xs. rewrite digits_after_pretty. lia. }
  assert (pad +:+ xs <> "") as Hne by (unfold pad; case_match; [done|rewrite append_empty_l; apply pretty_N_nonempty]).
  destruct (read_digits_all 0 0 false (pad +:+ xs) "" Hd I) as [b Hr]. rewrite append_empty_r, Hv in Hr.
  assert (forall c, c = "-"%char \/ c = "+"%char -> read_exponent (String "e" (String c (pad +:+ xs))) =
    Some ((if decide (c = "-"%char) then -1 else 1) * Z.abs x)) as Hc.
  { intros c [-> | ->]; cbn [read_exponent]; rewrite bool_decide_eq_true_2 by done; cbn [orb]; rewrite Hr;
      (rewrite (proj2 (Z.ltb_lt _ _)) by (destruct (pad +:+ xs); [done|cbn [String.length]; lia])); done. }
  destruct (Z.ltb_spec x 0); rewrite !append_cons, ?append_empty_l; rewrite Hc by auto; [rewrite decide_True by done|rewrite decide_False by done]; f_equal; lia.
Qed.

(** ** What [repr] writes *)

Section Repr.
Context (m e : Z) (Hm : m <> 0).
Let ds := pretty (Z.to_N (Z.abs m)).
Let n := Z.of_nat (String.length ds).
Let decpt := n + e.
Let sign := if m <? 0 then "-" else "".

Lemma ds_digits : all_digits ds.
Proof. apply all_digits_pretty. Qed.

Lemma ds_value : digits_after 0 ds = Z.abs m.
Proof. unfold ds. rewrite digits_after_pretty. lia. Qed.

Lemma ds_nonempty : ds <> "".
Proof. apply pretty_N_nonempty. Qed.

Lemma ds_length : 0 < n.
Proof. unfold n. pose proof ds_nonempty. destruct ds; [done|cbn [String.length]; lia]. Qed.

Lemma sign_abs : (if m <? 0 then -1 else 1) * Z.abs m = m.
Proof. destruct (Z.ltb_spec m 0); lia. Qed.

(** A text whose unsigned part is read as the absolute value *)
Lemma signed_read u d : PyStr.has_char PyStr.is_space u = false -> (exists c r, u = String c r /\ PyStr.is_digit c = true) -> unsigned u = Some d ->
  num_eqb ((if m <? 0 then -1 else 1) * d.1, d.2) (m, e) = true -> exists d', parse_decimal (sign +:+ u) = Some d' /\ num_eqb d' (m, e) = true.
Proof. intros Hs Hc Hu Hq. unfold sign. rewrite parse_signed, Hu by done. by eexists. Qed.

Lemma exact_read u : PyStr.has_char PyStr.is_space u = false -> (exists c r, u = String c r /\ PyStr.is_digit c = true) ->
  unsigned u = Some (Z.abs m, e) -> exists d', parse_decimal (sign +:+ u) = Some d' /\ num_eqb d' (m, e) = true.
Proof. intros Hs Hc Hu. apply (signed_read u (Z.abs m, e)); try done. cbn [fst snd]. rewrite sign_abs. apply Z.eqb_refl. Qed.

Lemma positional_read : exists d,
  parse_decimal (sign +:+ (if decpt <=? 0 then "0." +:+ zeros (Z.to_nat (- decpt)) +:+ ds
     else if n <=? decpt then ds +:+ zeros (Z.to_nat (decpt - n)) +:+ ".0"
     else String.substring 0 (Z.to_nat decpt) ds +:+ "." +:+ String.substring (Z.to_nat decpt) (Z.to_nat (n - decpt)) ds)) = Some d /\
  num_eqb d (m, e) = true.
Proof.
  pose proof ds_digits as Hd. pose proof ds_value as Hv. pose proof ds_length as Hlen. pose proof ds_nonempty as Hne. pose proof sign_abs as Hsign.
  destruct (Z.leb_spec decpt 0); [|destruct (Z.leb_spec n decpt)].
  - apply exact_read.
    + rewrite !Uuid.has_char_append, (digits_no_space ds), (digits_no_space (zeros _)) by (done || apply all_digits_zeros). done.
    + rewrite append_cons. by eexists _, _.
    + change ("0." +:+ ?x) with ("0" +:+ String "." x). rewrite <- (append_empty_r (zeros _ +:+ ds)).
      rewrite unsigned_point; [|done|done|by apply all_digits_app; split; [apply all_digits_zeros|]|done].
      cbn [read_exponent fmap option_fmap option_map]. rewrite !digits_after_app, digits_after_zeros, length_append, length_zeros.
      change (digits_after 0 "0") with 0. rewrite Z.mul_0_l, Hv. do 2 f_equal. lia.
  - apply (signed_read _ (Z.abs m * 10 ^ (e + 1), -1)).
    + rewrite !Uuid.has_char_append, (digits_no_space ds), (digits_no_space (zeros _)) by (done || apply all_digits_zeros). done.
    + by apply starts_digit.
    + rewrite <- append_assoc. change ".0" with (String "." ("0" +:+ "")).
      rewrite unsigned_point; [|by apply all_digits_app; split; [|apply all_digits_zeros]|by destruct ds|done|done].
      cbn [read_exponent fmap option_fmap option_map]. rewrite !digits_after_app, digits_after_zeros, Hv. cbn [digits_after].
      change (digit_of "0") with 0. do 2 f_equal. rewrite Z.pow_add_r, Z2Nat.id by lia. replace (decpt - n) with e by lia. lia.
    + cbn [fst snd]. unfold num_eqb. cbn [fst snd]. apply Z.eqb_eq. replace (Z.min (-1) e) with (-1) by lia. rewrite Z.mul_assoc, Hsign.
      replace (-1 - -1) with 0 by lia. replace (e - -1) with (e + 1) by lia. lia.
  - destruct (substring_parts (Z.to_nat decpt) ds ltac:(lia)) as [Hparts Hlen1].
    replace (Z.to_nat (n - decpt)) with (String.length ds - Z.to_nat decpt)%nat by lia.
    set (a := String.substring 0 (Z.to_nat decpt) ds) in *. set (b := String.substring (Z.to_nat decpt) (String.length ds - Z.to_nat decpt) ds) in *.
    assert (String.length a + String.length b = String.length ds)%nat as Hsum by (rewrite <- length_append; by rewrite Hparts).
    rewrite <- Hparts in Hd. apply all_digits_app in Hd as [Ha Hb]. assert (a <> "") as Hne' by (intros Heq; rewrite Heq in Hlen1; cbn in Hlen1; lia).
    apply exact_read.
    + rewrite !Uuid.has_char_append, (digits_no_space a), (digits_no_space b) by done. done.
    + by apply starts_digit.
    + change ("." +:+ b) with (String "." b). rewrite <- (append_empty_r b), unsigned_point by done.
      cbn [read_exponent fmap option_fmap option_map]. rewrite Hparts, Hv. do 2 f_equal. lia.
Qed.

Lemma scientific_read : let x := decpt - 1 in let xs := pretty (Z.to_N (Z.abs x)) in
  exists d, parse_decimal (sign +:+ String.substring 0 1 ds +:+ (if n =? 1 then "" else "." +:+ String.substring 1 (Z.to_nat (n - 1)) ds) +:+
      "e" +:+ (if x <? 0 then "-" else "+") +:+ (if (String.length xs <? 2)%nat then "0" else "") +:+ xs) = Some d /\
    num_eqb d (m, e) = true.
Proof.
  pose proof ds_digits as Hd. pose proof ds_value as Hv. pose proof ds_length as Hlen. cbv zeta.
  set (x := decpt - 1). set (frac := if n =? 1 then "" else _).
  destruct (substring_parts 1 ds ltac:(lia)) as [Hparts Hlen1].
  set (a := String.substring 0 1 ds) in *. set (b := String.substring 1 (String.length ds - 1) ds) in *.
  assert (String.length a + String.length b = String.length ds)%nat as Hsum by (rewrite <- length_append; by rewrite Hparts).
  pose proof Hd as Hd'. rewrite <- Hparts in Hd'. apply all_digits_app in Hd' as [Ha Hb].
  assert (a <> "") as Hne' by (intros Heq; rewrite Heq in Hlen1; cbn in Hlen1; lia).
  set (ex := "e" +:+ _). assert (read_exponent ex = Some x) as Hex by (exact (read_exponent_written x)).
  assert (PyStr.has_char PyStr.is_space ex = false) as Hsp.
  { unfold ex. rewrite !Uuid.has_char_append, (digits_no_space (pretty _)) by apply all_digits_pretty. by repeat case_match. }
  assert (stops ex) as Hst by (unfold ex; rewrite append_cons; done).
  apply exact_read.
  + rewrite !Uuid.has_char_append, (digits_no_space a), Hsp by done. unfold frac. destruct (n =? 1); [done|].
    replace (Z.to_nat (n - 1)) with (String.length ds - 1)%nat by lia. fold b. by rewrite Uuid.has_char_append, (digits_no_space b) by done.
  + by apply starts_digit.
  + unfold frac. destruct (Z.eqb_spec n 1) as [H1|H1].
    * rewrite append_empty_l, unsigned_plain; [|done..|by unfold ex; rewrite append_cons]. rewrite Hex. cbn.
      assert (b = "") as Hb0 by (destruct b; [done|cbn [String.length] in Hsum; lia]). rewrite Hb0, append_empty_r in Hparts.
      rewrite Hparts, Hv. do 2 f_equal. lia.
    * replace (Z.to_nat (n - 1)) with (String.length ds - 1)%nat by lia. fold b. rewrite append_cons, append_empty_l.
      rewrite append_cons, unsigned_point by done. rewrite Hex, Hparts, Hv. cbn. do 2 f_equal. lia.
Qed.
End Repr.

(** [float(repr(f)) == f] *)
Lemma repr_float_read m e : m <> 0 -> exists d, parse_decimal (repr_float m e) = Some d /\ num_eqb d (m, e) = true.
Proof.
  intros Hm. unfold repr_float. rewrite (proj2 (Z.eqb_neq m 0)) by done. destruct (_ && _); [by apply positional_read|by apply scientific_read].
Qed.

Lemma strip_zeros_same fuel m e : m <> 0 -> let d := strip_zeros fuel m e in d.1 <> 0 /\ exists k, 0 <= k /\ m = d.1 * 10 ^ k /\ d.2 = e + k.
Proof.
  cbv zeta. revert m e. induction fuel as [|fuel IH]; intros m e Hm; cbn [strip_zeros]; [split; [done|]; exists 0; cbn; lia|].
  destruct (Z.eqb_spec (m mod 10) 0) as [H|H]; [|split; [done|]; exists 0; cbn; lia].
  assert (m = 10 * (m / 10)) as Hdiv by (rewrite (Z.div_mod m 10) at 1 by lia; lia).
  destruct (IH (m / 10) (e + 1) ltac:(lia)) as (Hne & k & Hk & Hmk & He). split; [done|]. exists (k + 1). split; [lia|].
  rewrite Z.pow_add_r by lia. split; [lia|lia].
Qed.

Lemma num_eqb_scale d m k e : 0 <= k -> num_eqb d (m, e + k) = true -> num_eqb d (m * 10 ^ k, e) = true.
Proof.
  intros Hk. unfold num_eqb. cbn [fst snd]. rewrite !Z.eqb_eq. destruct (Z.le_ge_cases d.2 e) as [Hle|Hge].
  - rewrite !Z.min_l by lia. intros ->. rewrite <- Z.mul_assoc, <- Z.pow_add_r by lia. do 2 f_equal. lia.
  - rewrite (Z.min_r d.2 e) by lia. replace (e - e) with 0 by lia. rewrite Z.mul_1_r. intros H.
    destruct (Z.le_ge_cases d.2 (e + k)).
    * rewrite !Z.min_l in H by lia. replace (d.2 - d.2) with 0 in H by lia. rewrite Z.mul_1_r in H. rewrite H, <- Z.mul_assoc, <- Z.pow_add_r by lia. do 2 f_equal. lia.
    * rewrite !Z.min_r in H by lia. replace (e + k - (e + k)) with 0 in H by lia. rewrite Z.mul_1_r in H. rewrite <- H, <- Z.mul_assoc, <- Z.pow_add_r by lia. do 2 f_equal. lia.
Qed.

End Decimals.
