(* ===== verification/Telemetry.v ===== *)
(** * Telemetry samples

    src/redfish_ctl/telemetry/metric_model.py and src/redfish_ctl/telemetry/exporter.py:
    the metric catalog and the sample that every reader produces and every writer
    consumes, the coercions that turn Redfish values into sample values, the
    exporter's own health samples, and its configuration files.  The text of a
    file is a parameter; a float is a decimal as in Numbers.v. *)

From stdpp Require Import base list gmap strings pretty.
From Stdlib Require Import Ascii ZArith Lia.
From S2P Require Import Prelude PyVal Effects Numbers Config Identity.

Module Telemetry.
Local Open Scope Z_scope.
Local Open Scope py_scope.

Abbreviation dec := Numbers.dec.
(** A [dict] of dimensions. *)
Abbreviation dims := (list (string * string)).

(** ** The metric model *)

Definition METRIC_KINDS : list string := ["gauge"; "counter"; "cumulative_counter"].
Definition METRIC_AVAILABILITY : list string := ["self"; "baseline"; "capability"; "event"].

Record MetricDefinition := Definition_ {
  d_name : string;
  kind : string;
  d_unit : option string;
  description : string;
  prometheus_name : option string;
  family : string;
  d_dimensions : list string;
  liveness : string;
  availability : string;
  profile_required : bool
}.

(** [MetricDefinition(...)] with [__post_init__] *)
Definition new_definition (d : MetricDefinition) : res MetricDefinition :=
  if bool_decide (kind d ∉ METRIC_KINDS) then
    Raise (ValueError ("unknown metric kind " +:+ repr_str (kind d) +:+ " for " +:+ d_name d))
  else if bool_decide (availability d ∉ METRIC_AVAILABILITY) then
    Raise (ValueError ("unknown availability " +:+ repr_str (availability d) +:+ " for " +:+ d_name d))
  else
    Ok (Definition_ (d_name d) (kind d) (d_unit d) (description d)
          (match prometheus_name d with Some (String _ _ as s) => Some s | _ => Some (d_name d) end)
          (family d) (d_dimensions d) (liveness d) (availability d) (profile_required d)).

Record MetricSample := Sample {
  metric : string;
  value : dec;
  dimensions : dims;
  metric_type : string;
  unit : option string;
  timestamp : pyval
}.

(** [_definition(name, kind, unit, description, family, dimensions, liveness, availability, profile_required)] *)
Definition definition (name kind : string) (unit : option string) (description family : string) (dimensions : list string)
  (liveness availability : string) (profile_required : bool) : res MetricDefinition :=
  new_definition (Definition_ name kind unit description None family dimensions liveness availability profile_required).

(** [{definition.name: definition for definition in ...}] *)
Fixpoint catalog (l : list (res MetricDefinition)) : res (list (string * MetricDefinition)) :=
  match l with
  | [] => Ok []
  | d :: rest => let? d := d in let? ds := catalog rest in Ok ((d_name d, d) :: ds)
  end.

Definition loaded (l : list (res MetricDefinition)) : list (string * MetricDefinition) :=
  match catalog l with Ok ds => ds | _ => [] end.

(** ** The exporter's own metrics *)

Definition REQUIRED_DIMENSIONS : list string := Identity.IDENTITY_DIMENSIONS.
Definition COMMON_DIMS : list string := REQUIRED_DIMENSIONS ++ ["source"].
Definition PACKAGE_VERSION : string := "1.2.0".
Definition TELEMETRY_SCHEMA_CONTRACT_VERSION : string := "1".
Definition UNKNOWN_BUILD_REVISION : string := "unknown".

Definition scrape_gauge (name : string) (unit : option string) (description family : string) (dimensions : list string)
  : res MetricDefinition := definition name "gauge" unit description family dimensions "scrape" "baseline" false.
Definition collector_gauge (name : string) (unit : option string) (description : string) : res MetricDefinition :=
  definition name "gauge" unit description "exporter" (COMMON_DIMS ++ ["collector"]) "signal" "baseline" false.

Definition STATIC_METRIC_DEFINITIONS : list (res MetricDefinition) :=
  [scrape_gauge "hw.scrape.ok" None "Exporter scrape success." "scrape" [];
   scrape_gauge "hw.scrape.duration_seconds" (Some "s") "Exporter scrape duration." "scrape" [];
   scrape_gauge "hw.bmc.up" None "Per-BMC 0/1 liveness gauge (1 reachable, 0 unreachable)." "scrape" [];
   definition "hw.build_info" "gauge" None "Exporter build and telemetry schema identity." "exporter"
     (COMMON_DIMS ++ ["commit"; "version"; "schema_contract_version"]) "scrape" "self" true;
   scrape_gauge "redfish_exporter_scrape_success" None
     "Whether the latest scrape completed without a supported collector failure." "exporter" COMMON_DIMS;
   scrape_gauge "redfish_exporter_scrape_partial" None "Whether the latest scrape returned partial telemetry." "exporter"
     COMMON_DIMS;
   scrape_gauge "redfish_exporter_scrape_duration_seconds" (Some "s") "Duration of the latest exporter scrape." "exporter"
     COMMON_DIMS;
   scrape_gauge "redfish_exporter_last_success_timestamp_seconds" (Some "s")
     "Unix timestamp of the latest successful exporter scrape." "exporter" COMMON_DIMS;
   collector_gauge "redfish_exporter_collector_success" None "Whether a telemetry collector completed successfully.";
   collector_gauge "redfish_exporter_collector_supported" None "Whether the BMC supports a telemetry collector.";
   collector_gauge "redfish_exporter_collector_duration_seconds" (Some "s") "Duration of one telemetry collector.";
   collector_gauge "redfish_exporter_collector_samples" None "Number of samples returned by one telemetry collector.";
   definition "redfish_exporter_collection_errors_total" "counter" None "Cumulative telemetry collection errors." "exporter"
     (COMMON_DIMS ++ ["collector"; "error"]) "signal" "baseline" false].

Definition METRIC_DEFINITIONS : list (string * MetricDefinition) := Eval vm_compute in loaded STATIC_METRIC_DEFINITIONS.

(** [metric_definition(metric_name)] *)
Definition metric_definition (metric_name : string) : res MetricDefinition :=
  match dict_get metric_name METRIC_DEFINITIONS with
  | Some d => Ok d
  | None => Raise (KeyError ("metric " +:+ repr_str metric_name +:+ " is not a shared exporter metric"))
  end.

Example static_catalog_loads :
  catalog STATIC_METRIC_DEFINITIONS = Ok METRIC_DEFINITIONS /\ length METRIC_DEFINITIONS = 13%nat.
Proof. by vm_compute. Qed.

(** ** Coercions *)

(** [_reading(field)] *)
Definition reading (field : pyval) : pyval := match field with PDict d => dget "Reading" d | v => v end.

(** [math.isfinite] of the float a decimal rounds to *)
Definition finite (d : dec) : bool := Numbers.dec_lt (Z.abs d.1, d.2) (Numbers.float_bound, 0).

(** [_as_float(value)] *)
Definition as_float (value : pyval) : option dec :=
  match value with
  | PBool b => Some (if b then 1 else 0, 0)
  | PNone => None
  | v =>
      let text := PyStr.strip (py_str v) in
      match Numbers.parse_decimal text with
      | Some d => if finite d then Some d else None
      | None =>
          let text := PyStr.lower text in
          if decide (text = "true") then Some (1, 0) else if decide (text = "false") then Some (0, 0) else None
      end
  end.

(** The longest run of digits, and the rest. *)
Fixpoint digit_run (s : string) : string * string :=
  match s with
  | String c s' => if PyStr.is_digit c then let '(d, r) := digit_run s' in (String c d, r) else ("", s)
  | EmptyString => ("", "")
  end.

(** [(?:(\d+(?:\.\d+)?)X)?] at the start of [s]: the amount and the rest. *)
Definition iso_component (suffix : ascii) (s : string) : option string * string :=
  let '(ip, r) := digit_run s in
  if PyStr.nonempty ip then
    let '(amount, r) :=
      match r with
      | String "." r' => let '(fp, r'') := digit_run r' in if PyStr.nonempty fp then (ip +:+ "." +:+ fp, r'') else (ip, r)
      | _ => (ip, r)
      end in
    match r with
    | String c r' => if decide (c = suffix) then (Some amount, r') else (None, s)
    | EmptyString => (None, s)
    end
  else (None, s).

(** [ISO_DURATION.match(text)]: days, hours, minutes and seconds *)
Definition iso_duration (text : string) : option (list (option string)) :=
  match text with
  | String "P" s =>
      let '(days, s) := iso_component "D" s in
      match s with
      | EmptyString => Some [days; None; None; None]
      | String "T" s =>
          let '(hours, s) := iso_component "H" s in
          let '(minutes, s) := iso_component "M" s in
          let '(seconds, s) := iso_component "S" s in
          if PyStr.nonempty s then None else Some [days; hours; minutes; seconds]
      | _ => None
      end
  | _ => None
  end.

Definition ISO_MULTIPLIERS : list Z := [86400; 3600; 60; 1].

(** [total += float(amount) * multiplier] over the groups that matched *)
Definition iso_total (groups : list (option string)) : dec :=
  fold_left (fun total gm =>
    match gm with
    | (Some amount, multiplier) =>
        Numbers.dec_add total (Numbers.dec_mul (default (0, 0) (Numbers.parse_decimal amount)) (multiplier, 0))
    | (None, _) => total
    end) (zip groups ISO_MULTIPLIERS) (0, 0).

(** [_duration_seconds(value)] *)
Definition duration_seconds (value : pyval) : option dec :=
  match as_float value with
  | Some d => Some d
  | None =>
      match iso_duration (PyStr.strip (py_str (py_or value (PStr "")))) with
      | Some groups => let total := iso_total groups in if finite total then Some total else None
      | None => None
      end
  end.

Example durations :
  map duration_seconds [PStr "PT5M"; PStr "P1DT2H0.5S"; PStr " 12.5 "; PStr "PT"; PStr "P5M"; PStr "true"; PNone; PStr "nan"; PInt 7] =
  [Some (300, 0); Some (936005, -1); Some (125, -1); Some (0, 0); None; Some (1, 0); None; None; Some (7, 0)].
Proof. vm_compute. reflexivity. Qed.

(** The items a [for] loop visits. *)
Definition iterate (v : pyval) : res (list pyval) :=
  match v with
  | PList l | PTuple l => Ok l
  | PDict d => Ok (map (fun kv => PStr kv.1) d)
  | PStr s => Ok (map PStr (chars_of s))
  | v => Raise (TypeError ("'" +:+ type_name v +:+ "' object is not iterable"))
  end.

(** [type(exc).__name__] *)
Definition class_name (e : exn) : string :=
  match e with
  | RedfishUnauthorized _ => "RedfishUnauthorized" | RedfishForbidden _ => "RedfishForbidden"
  | RedfishMethodNotAllowed _ => "RedfishMethodNotAllowed" | RedfishNotAcceptable _ => "RedfishNotAcceptable"
  | RedfishOther c _ => c | RedfishException _ => "RedfishException" | ResourceNotFound _ => "ResourceNotFound"
  | AuthenticationFailed _ => "AuthenticationFailed" | UnexpectedResponse _ => "UnexpectedResponse"
  | UnsupportedAction _ => "UnsupportedAction" | InvalidArgument _ => "InvalidArgument"
  | InvalidArgumentFormat _ => "InvalidArgumentFormat" | MissingMandatoryArguments _ => "MissingMandatoryArguments"
  | TaskIdUnavailable _ => "TaskIdUnavailable" | UncommittedPendingChanges _ => "UncommittedPendingChanges"
  | InvalidJsonSpec _ => "InvalidJsonSpec" | FailedDiscoverAction _ => "FailedDiscoverAction"
  | NoPendingValues _ => "NoPendingValues" | MissingResource _ => "MissingResource" | JsonHttpError c _ => c
  | RedfishApiError _ => "RedfishApiError" | NodeNotFound _ => "NodeNotFound" | ValueError _ => "ValueError"
  | TypeError _ => "TypeError" | KeyError _ => "KeyError" | IndexError _ => "IndexError" | AttributeError _ => "AttributeError"
  | JSONDecodeError _ => "JSONDecodeError" | TransportError _ => "RequestException" | RequestTimeout _ => "Timeout"
  | ConnectionFailed _ => "ConnectionError" | OverflowError _ => "OverflowError" | RuntimeError _ => "RuntimeError"
  | FileNotFoundError _ => "FileNotFoundError" | OtherError c _ => c | KeyboardInterrupt => "KeyboardInterrupt"
  end.

(** ** Samples *)

(** [_sample(metric, value, dims, unit, timestamp, metric_type, definition_lookup)]; the unit argument is not used *)
Definition sample (definition_lookup : string -> res MetricDefinition) (metric : string) (value : dec) (ds : dims)
  (timestamp : pyval) (metric_type : option string) : res MetricSample :=
  let? definition := definition_lookup metric in
  match metric_type with
  | Some t =>
      if decide (t = kind definition) then
        Ok (Sample metric value ds (kind definition) (d_unit definition) timestamp)
      else
        Raise (ValueError (metric +:+ " type " +:+ repr_str t +:+ " does not match catalog type " +:+ repr_str (kind definition)))
  | None => Ok (Sample metric value ds (kind definition) (d_unit definition) timestamp)
  end.

(** The extras that are set: [dims[key] = str(value)] when [value not in (None, "")]. *)
Definition add_dims (ds extra : dims) : dims :=
  dict_update ds (filter (fun kv : string * string => kv.2 <> "") extra).

(** [dims.setdefault(key, str(identity.get(key) or "unknown"))] *)
Definition require_dims (identity ds : dims) : dims :=
  fold_left (fun ds key =>
    dict_setdefault key (match dict_get key identity with Some (String _ _ as v) => v | _ => "unknown" end) ds)
    REQUIRED_DIMENSIONS ds.

(** [_with_dims(identity, **extra)] *)
Definition with_dims (identity extra : dims) : dims :=
  add_dims (require_dims identity (filter (fun kv : string * string => kv.2 <> "") identity)) extra.

(** [DIM_VALUE_OK.sub("_", text)] *)
Definition dim_char (c : ascii) : ascii :=
  if PyStr.is_alnum c || bool_decide (c ∈ ["_"; "."; "-"; "/"]%char) then c else "_"%char.

(** [_dim_value(value)] *)
Definition dim_value (value : pyval) : string :=
  let cleaned := PyStr.lstrip_char "_" (PyStr.rstrip_char "_" (PyStr.map_chars dim_char (py_str value))) in
  String.substring 0 256 (if PyStr.nonempty cleaned then cleaned else "unknown").

(** ** Health samples *)

Record CollectorResult := Collector {
  c_name : string;
  supported : bool;
  success : bool;
  c_duration : pyval;
  rows : list pydict;
  error_kind : option string
}.

Definition of_bool (b : bool) : dec := (if b then 1 else 0, 0).

(** [max(0.0, d if d is not None else 0.0)] for [d = _as_float(value)] *)
Definition safe_duration (value : pyval) : dec :=
  let d := default (0, 0) (as_float value) in if Numbers.dec_lt (0, 0) d then d else (0, 0).

(** [build_info_sample(identity, build_revision)] *)
Definition build_info_sample (e : Config.env) (identity : dims) (build_revision : pyval) : res MetricSample :=
  let? revision :=
    match build_revision with
    | PNone | PStr EmptyString => (Config.exporter_build_revision e UNKNOWN_BUILD_REVISION []).2
    | v => Ok (PyStr.strip (py_str v))
    end in
  let revision := if PyStr.nonempty revision then revision else UNKNOWN_BUILD_REVISION in
  sample metric_definition "hw.build_info" (1, 0)
    (with_dims identity [("source", "exporter"); ("commit", revision); ("version", PACKAGE_VERSION);
                         ("schema_contract_version", TELEMETRY_SCHEMA_CONTRACT_VERSION)]) PNone None.

(** [collector_scrape_status(results)] *)
Definition collector_scrape_status (results : list CollectorResult) : bool * bool :=
  let failed_supported := existsb (fun r => supported r && negb (success r)) results in
  let any_usable := existsb (fun r => supported r && success r) results in
  (negb failed_supported, failed_supported && any_usable).

(** Error totals by collector and error kind. *)
Abbreviation totals := (gmap (string * string) dec).

Definition pair_ltb (a b : string * string) : bool :=
  String.ltb a.1 b.1 || (bool_decide (a.1 = b.1) && String.ltb a.2 b.2).

Fixpoint insert_total (x : (string * string) * dec) (l : list ((string * string) * dec)) : list ((string * string) * dec) :=
  match l with
  | [] => [x]
  | y :: l' => if pair_ltb x.1 y.1 then x :: l else y :: insert_total x l'
  end.

(** [sorted(error_totals.items())]: the keys are distinct, so the values are not compared *)
Definition sorted_totals (t : totals) : list ((string * string) * dec) :=
  fold_left (fun acc x => insert_total x acc) (map_to_list t) [].

(** The errors of this scrape, each with total 1. *)
Definition current_errors (results : list CollectorResult) : totals :=
  fold_left (fun t r => match error_kind r with
                        | Some (String _ _ as kind) => <[(c_name r, kind) := (1, 0)]> t
                        | _ => t
                        end) results ∅.

Fixpoint collect_samples (l : list (res MetricSample)) : res (list MetricSample) :=
  match l with
  | [] => Ok []
  | s :: rest => let? s := s in let? ss := collect_samples rest in Ok (s :: ss)
  end.

Definition collector_samples (identity : dims) (r : CollectorResult) : list (res MetricSample) :=
  let ds := with_dims identity [("source", "exporter"); ("collector", dim_value (PStr (c_name r)))] in
  [sample metric_definition "redfish_exporter_collector_success" (of_bool (success r)) ds PNone None;
   sample metric_definition "redfish_exporter_collector_supported" (of_bool (supported r)) ds PNone None;
   sample metric_definition "redfish_exporter_collector_duration_seconds" (safe_duration (c_duration r)) ds PNone None;
   sample metric_definition "redfish_exporter_collector_samples" (Z.of_nat (length (rows r)), 0) ds PNone None].

Definition error_sample (identity : dims) (x : (string * string) * dec) : res MetricSample :=
  sample metric_definition "redfish_exporter_collection_errors_total" x.2
    (with_dims identity [("source", "exporter"); ("collector", dim_value (PStr x.1.1)); ("error", dim_value (PStr x.1.2))])
    PNone (Some "counter").

(** [scrape_health_samples(identity, ok, duration_seconds, collector_results, partial, timestamp_seconds,
    collection_error_totals, build_revision)] *)
Definition scrape_health_samples (e : Config.env) (identity : dims) (ok : bool) (duration : pyval)
  (collector_results : list CollectorResult) (partial : bool) (timestamp_seconds : dec)
  (collection_error_totals : option totals) (build_revision : pyval) : res (list MetricSample) :=
  let ds := with_dims identity [("source", "exporter")] in
  let duration := safe_duration duration in
  let error_totals := default (current_errors collector_results) collection_error_totals in
  collect_samples
    ([sample metric_definition "redfish_exporter_scrape_success" (of_bool ok) ds PNone None;
      sample metric_definition "redfish_exporter_scrape_partial" (of_bool partial) ds PNone None;
      sample metric_definition "redfish_exporter_scrape_duration_seconds" duration ds PNone None;
      sample metric_definition "redfish_exporter_last_success_timestamp_seconds" timestamp_seconds ds PNone None;
      sample metric_definition "hw.scrape.ok" (of_bool ok) ds PNone None;
      sample metric_definition "hw.bmc.up" (of_bool ok) ds PNone None;
      build_info_sample e identity build_revision;
      sample metric_definition "hw.scrape.duration_seconds" duration ds PNone None]
     ++ mjoin (map (collector_samples identity) collector_results)
     ++ map (error_sample identity) (sorted_totals error_totals)).

(** ** The polling interval *)

Definition POLL_JITTER_FRACTION : dec := (1, -1).

Definition dec_neg (d : dec) : dec := (- d.1, d.2).

(** [min(1.0, max(0.0, float(draw)))], 0.5 when the draw is no number *)
Definition bounded_draw (draw : pyval) : res dec :=
  match Numbers.py_float draw with
  | Ok d => Ok (Numbers.dec_min (1, 0) (if Numbers.dec_lt (0, 0) d then d else (0, 0)))
  | Raise (TypeError _ | ValueError _) => Ok (5, -1)
  | Raise e => Raise e
  | NoFuel => NoFuel
  end.

Definition base_interval (interval : pyval) : dec :=
  match as_float interval with
  | Some b => if Numbers.dec_lt (0, 0) b then b else (1, 0)
  | None => (1, 0)
  end.

Definition clamped_fraction (jitter_fraction : pyval) : dec :=
  match as_float jitter_fraction with
  | Some f => if Numbers.dec_lt f (0, 0) then (0, 0) else f
  | None => (0, 0)
  end.

(** [jittered_interval(interval, jitter_fraction, random_value)]; [draw] is the random value *)
Definition jittered_interval (interval jitter_fraction draw : pyval) : res dec :=
  let base := base_interval interval in
  let fraction := clamped_fraction jitter_fraction in
  let? bounded := bounded_draw draw in
  Ok (Numbers.dec_mul base
        (Numbers.dec_add (Numbers.dec_add (1, 0) (dec_neg fraction))
           (Numbers.dec_mul (Numbers.dec_mul (2, 0) fraction) bounded))).

(** ** Configuration files *)

Definition EXPORTER_CRED_KEYS : list string := ["REDFISH_IP"; "REDFISH_USERNAME"; "REDFISH_PASSWORD"; "REDFISH_PORT"].
Definition SECRET_ARG_NAMES : list string := ["--password"].

(** The ASCII line boundaries of [str.splitlines]. *)
Definition is_line_break (c : ascii) : bool :=
  let n := nat_of_ascii c in ((10 <=? n) && (n <=? 13) || (28 <=? n) && (n <=? 30))%nat.

(** The lines of a text.  A carriage return and the line feed after it leave an empty line between them here, which the
    reader of the file skips as it skips every blank line. *)
Fixpoint lines (s : string) : list string :=
  match s with
  | EmptyString => [EmptyString]
  | String c s' =>
      if is_line_break c then EmptyString :: lines s'
      else match lines s' with
           | [] => [String c EmptyString]
           | w :: ws => String c w :: ws
           end
  end.

Definition is_quote (c : ascii) : bool := bool_decide (c = squote) || bool_decide (c = dquote).

(** One line of the credential file: [None] when it is skipped. *)
Definition env_line (raw_line : string) : option (string * string) :=
  let line := PyStr.strip raw_line in
  if PyStr.nonempty line && negb (PyStr.startswith "#" line) then
    match Identity.split_pair line with
    | Some (key, value) =>
        let key := PyStr.strip key in
        if decide (key ∈ EXPORTER_CRED_KEYS) then
          Some (key, PyStr.lstrip_by is_quote (PyStr.rstrip_by is_quote (PyStr.strip value)))
        else None
    | None => None
    end
  else None.

(** [load_exporter_env_file(path)] on the text of the file *)
Definition load_exporter_env_file (text : string) : list (string * string) :=
  fold_left (fun values line => match env_line line with Some (k, v) => dict_set k v values | None => values end)
    (lines text) [].

(** [_config_path(path)] *)
Definition config_path (e : Config.env) (path : pyval) : Config.MW pyval :=
  let! env_path := Config.exporter_config_file e in
  ret (Identity.first_non_empty [path; opt_str env_path]).

(** [load_exporter_config_file(path)] on the parsed JSON *)
Definition load_exporter_config_file (parsed : res pyval) : res pydict :=
  let? data := parsed in
  match data with
  | PDict d => Ok d
  | _ => Raise (ValueError "exporter config root must be a JSON object")
  end.

(** [_section(config, key)] *)
Definition section (config : pydict) (key : string) : pydict := as_dict (dget key config).

(** [_config_value(config, section, top_key, section_key)] *)
Definition config_value (config : pydict) (section_name top_key section_key : string) : pyval :=
  match dict_get section_key (section config section_name) with
  | Some v => v
  | None => dget top_key config
  end.

(** The options that a configuration may hold, with the section and the key there. *)
Definition CONFIG_KEYS : list (string * string * string) :=
  [("signalfx_ingest_url", "signalfx", "ingest_url"); ("signalfx_token_env", "signalfx", "token_env");
   ("signalfx_token_file", "signalfx", "token_file"); ("signalfx_token", "signalfx", "token");
   ("identity_host_prefix", "identity", "host_prefix"); ("identity_bmc_octet_base", "identity", "bmc_octet_base");
   ("identity_server_octet_base", "identity", "server_octet_base"); ("identity_server_subnet", "identity", "server_subnet");
   ("deployment_environment", "identity", "deployment_environment");
   ("deployment_environment_compat", "identity", "deployment_environment_compat");
   ("require_deployment_environment", "identity", "require_deployment_environment");
   ("service_name", "identity", "service_name"); ("service_namespace", "identity", "service_namespace");
   ("service_instance_id", "identity", "service_instance_id"); ("service_version", "identity", "service_version");
   ("service_criticality", "identity", "service_criticality")].

(** The candidates and the filter of [exporter_config_options] *)
Definition flatten_config (config : pydict) : pydict :=
  let candidates :=
    map (fun '(name, sec, key) => (name, config_value config sec name key)) CONFIG_KEYS ++
    [("extra_dimensions", Identity.first_non_empty
        [config_value config "identity" "extra_dimensions" "extra_dimensions"; dget "dimensions" config;
         dget "extra_dimensions" config])] in
  filter (fun kv : string * pyval => is_none (Identity.non_empty kv.2) = false) candidates.

(** [exporter_config_options(path)]; [read] parses the file at a path *)
Definition exporter_config_options (e : Config.env) (read : string -> res pyval) (path : pyval) : Config.MW pydict :=
  let! file_path := config_path e path in
  if truthy file_path then
    let! config := lift_res (load_exporter_config_file (read (py_str file_path))) in
    ret (flatten_config config)
  else ret [].

(** [exporter_argv_uses_secret(argv)] *)
Definition exporter_argv_uses_secret (argv : list string) : bool :=
  bool_decide ("exporter" ∈ argv) &&
  existsb (fun arg => existsb (fun name => bool_decide (arg = name) || PyStr.startswith (name +:+ "=") arg) SECRET_ARG_NAMES) argv.

Definition CREDENTIAL_ATTRS : list (string * string) :=
  [("redfish_host", "REDFISH_IP"); ("redfish_username", "REDFISH_USERNAME"); ("redfish_password", "REDFISH_PASSWORD");
   ("redfish_port", "REDFISH_PORT")].

(** One attribute of the namespace *)
Definition apply_credential (values : list (string * string)) (args : pydict) (ak : string * string) : res pydict :=
  let '(attr, key) := ak in
  match dict_get attr args, dict_get key values with
  | Some current, Some value =>
      let is_password := bool_decide (attr = "redfish_password") in
      if py_mem current [PStr ""; PNone; PStr "root"] || is_password then
        let? value := if decide (attr = "redfish_port") then let? z := Numbers.py_int (PStr value) in Ok (PInt z)
                      else Ok (PStr value) in
        Ok (dict_set attr value args)
      else Ok args
  | _, _ => Ok args
  end.

(** [apply_exporter_env_file(args, path)]; [read] gives the text of the file at a path *)
Definition apply_exporter_env_file (e : Config.env) (read : string -> res string) (args : pydict) (path : pyval) : Config.MW pydict :=
  let file_path := py_or path (dget "exporter_credential_file" args) in
  let! file_path := if truthy file_path then ret file_path
                    else let! p := Config.exporter_credential_file e in ret (opt_str p) in
  if truthy file_path then
    let! text := lift_res (read (py_str file_path)) in
    lift_res (res_fold (apply_credential (load_exporter_env_file text)) args CREDENTIAL_ATTRS)
  else ret args.

(** ** Dimensions of samples *)

(** The value of a required dimension on every sample. *)
Definition fixed (identity : dims) (key : string) : string :=
  match dict_get key identity with Some (String _ _ as v) => v | _ => "unknown" end.

Lemma dict_get_nonempty k (ds : dims) : NoDup (dict_keys ds) ->
  dict_get k (filter (fun kv : string * string => kv.2 <> "") ds) =
  match dict_get k ds with Some (String _ _ as v) => Some v | _ => None end.
Proof.
  intros Hnd. rewrite Identity.dict_get_filter by done. destruct (dict_get k ds) as [[|c v]|]; [|by rewrite decide_True|done].
  rewrite decide_False; [done|]. cbn. tauto.
Qed.

Lemma require_dims_get identity ds k :
  dict_get k (require_dims identity ds) =
  match dict_get k ds with
  | Some v => Some v
  | None => if decide (k ∈ REQUIRED_DIMENSIONS) then Some (fixed identity k) else None
  end.
Proof.
  unfold require_dims. set (step := fun ds key => _). generalize REQUIRED_DIMENSIONS as keys. intros keys. revert ds.
  induction keys as [|key keys IH]; intros ds; cbn [fold_left].
  - destruct (dict_get k ds); [done|]. rewrite decide_False; [done|apply not_elem_of_nil].
  - rewrite IH. unfold step. rewrite dict_get_setdefault. fold (fixed identity key).
    destruct (decide (k = key)) as [->|Hne].
    + destruct (dict_get key ds); [done|]. rewrite decide_True by (by left). done.
    + destruct (dict_get k ds); [done|]. destruct (decide (k ∈ keys)); [by rewrite decide_True by (by right)|].
      rewrite decide_False; [done|]. by intros [?|?]%elem_of_cons.
Qed.

(** What [_with_dims] gives for a key: an extra value, else the identity's, else a default for the required ones. *)
Lemma with_dims_get identity extra k : NoDup (dict_keys identity) -> NoDup (dict_keys extra) ->
  dict_get k (with_dims identity extra) =
  match dict_get k extra with
  | Some (String _ _ as v) => Some v
  | _ => match dict_get k identity with
         | Some (String _ _ as v) => Some v
         | _ => if decide (k ∈ REQUIRED_DIMENSIONS) then Some "unknown" else None
         end
  end.
Proof.
  intros Hi He. unfold with_dims, add_dims. rewrite dict_get_update by (by apply Identity.filter_keys_NoDup).
  rewrite (dict_get_nonempty k extra) by done. rewrite require_dims_get, dict_get_nonempty by done. unfold fixed.
  destruct (dict_get k extra) as [[|c v]|]; destruct (dict_get k identity) as [[|c' v']|]; try done; by case_decide.
Qed.

(** ** The interval stays near its base *)

Lemma scaled_mul k l a b : 0 <= a.2 + k -> 0 <= b.2 + l ->
  Numbers.scaled (k + l) (Numbers.dec_mul a b) = Numbers.scaled k a * Numbers.scaled l b.
Proof.
  intros Ha Hb. unfold Numbers.scaled, Numbers.dec_mul. cbn [fst snd].
  replace (a.2 + b.2 + (k + l)) with ((a.2 + k) + (b.2 + l)) by lia. rewrite Z.pow_add_r by lia. lia.
Qed.

Lemma scaled_add k a b : 0 <= a.2 + k -> 0 <= b.2 + k ->
  Numbers.scaled k (Numbers.dec_add a b) = Numbers.scaled k a + Numbers.scaled k b.
Proof.
  intros Ha Hb. unfold Numbers.scaled, Numbers.dec_add. cbn [fst snd]. set (lo := Z.min a.2 b.2).
  assert (0 <= lo + k) by lia. rewrite Z.mul_add_distr_r, <- !Z.mul_assoc, <- !Z.pow_add_r by lia.
  by replace (a.2 - lo + (lo + k)) with (a.2 + k) by lia; replace (b.2 - lo + (lo + k)) with (b.2 + k) by lia.
Qed.

Lemma dec_le_scaled k a b : 0 <= a.2 + k -> 0 <= b.2 + k ->
  Numbers.dec_le a b = true <-> Numbers.scaled k a <= Numbers.scaled k b.
Proof.
  intros Ha Hb. unfold Numbers.dec_le. change (num_ltb b a) with (Numbers.dec_lt b a).
  rewrite (Numbers.dec_lt_scaled k) by done. rewrite negb_true_iff, Z.ltb_ge. done.
Qed.

Lemma dec_lt_le a b : Numbers.dec_lt a b = true -> Numbers.dec_le a b = true.
Proof.
  destruct (Numbers.common_scale [a; b]) as (k & _ & Hk). apply Forall_cons in Hk as [Ha Hk]. apply Forall_cons in Hk as [Hb _].
  rewrite (Numbers.dec_lt_scaled k), (dec_le_scaled k) by done. lia.
Qed.

Lemma bounded_draw_range draw b : bounded_draw draw = Ok b -> Numbers.dec_le (0, 0) b = true /\ Numbers.dec_le b (1, 0) = true.
Proof.
  unfold bounded_draw. destruct (Numbers.py_float draw) as [d|e|]; [|destruct e; intros [= <-]; by vm_compute|done].
  intros [= <-]. split; [|apply Numbers.dec_min_le_l]. apply Numbers.dec_min_glb; [by vm_compute|].
  destruct (Numbers.dec_lt (0, 0) d) eqn:H; [by apply dec_lt_le|by vm_compute].
Qed.

(** The jittered interval differs from its base by at most the jitter fraction of it, whatever is drawn: for the
    default fraction it lies between 0.9 and 1.1 times the base. *)
Theorem jitter_bounds interval fraction draw r :
  jittered_interval interval fraction draw = Ok r ->
  let base := base_interval interval in let f := clamped_fraction fraction in
  Numbers.dec_lt (0, 0) base = true /\ Numbers.dec_le (0, 0) f = true /\
  Numbers.dec_le (Numbers.dec_mul base (Numbers.dec_add (1, 0) (dec_neg f))) r = true /\
  Numbers.dec_le r (Numbers.dec_mul base (Numbers.dec_add (1, 0) f)) = true.
Proof.
  intros (b & Hb & [= <-])%res_bind_ok. apply bounded_draw_range in Hb as [Hb0 Hb1]. cbv zeta.
  assert (Numbers.dec_lt (0, 0) (base_interval interval) = true) as Hbase.
  { unfold base_interval. destruct (as_float interval); [|done]. by case_match. }
  assert (Numbers.dec_le (0, 0) (clamped_fraction fraction) = true) as Hf.
  { unfold clamped_fraction. destruct (as_float fraction) as [f|]; [|done]. case_match eqn:H; [done|].
    unfold Numbers.dec_le. change (num_ltb f (0, 0)) with (Numbers.dec_lt f (0, 0)). by rewrite H. }
  split; [done|]. split; [done|]. revert Hbase Hf. generalize (base_interval interval) as base, (clamped_fraction fraction) as f.
  intros base f Hbase Hf. destruct (Numbers.common_scale [base; f; b; (0, 0)]) as (k & Hk0 & Hk).
  rewrite !Forall_cons in Hk. destruct Hk as (K1 & K2 & K3 & _).
  rewrite (Numbers.dec_lt_scaled k), Z.ltb_lt in Hbase by (cbn; lia).
  apply (dec_le_scaled k) in Hf, Hb0, Hb1; [|cbn; lia..].
  assert (forall z, Numbers.scaled k (z, 0) = z * 10 ^ k) as Hz by done. rewrite Hz in *.
  assert (0 < 10 ^ k) by (apply Z.pow_pos_nonneg; lia).
  assert (forall z, Numbers.scaled (k + k) (z, 0) = z * (10 ^ k * 10 ^ k)) as Hz2.
  { intros z. unfold Numbers.scaled. cbn [fst snd]. by rewrite <- Z.pow_add_r by lia. }
  assert (Numbers.scaled (k + k) f = Numbers.scaled k f * 10 ^ k) as Hff.
  { unfold Numbers.scaled. replace (f.2 + (k + k)) with ((f.2 + k) + k) by lia. rewrite Z.pow_add_r by lia. lia. }
  assert (Numbers.scaled (k + k) (dec_neg f) = - (Numbers.scaled k f * 10 ^ k)) as Hneg.
  { rewrite <- Hff. unfold Numbers.scaled, dec_neg. cbn [fst snd]. lia. }
  assert (Numbers.scaled k (Numbers.dec_mul (2, 0) f) = 2 * Numbers.scaled k f) as H2.
  { unfold Numbers.scaled, Numbers.dec_mul. cbn [fst snd]. rewrite Z.add_0_l. lia. }
  split; apply (dec_le_scaled (k + (k + k)));
    try (unfold Numbers.dec_mul, Numbers.dec_add, dec_neg; cbn [fst snd]; lia);
    rewrite !(scaled_mul k (k + k)) by (unfold Numbers.dec_mul, Numbers.dec_add, dec_neg; cbn [fst snd]; lia);
    apply Z.mul_le_mono_nonneg_l; try lia;
    rewrite !scaled_add by (unfold Numbers.dec_mul, Numbers.dec_add, dec_neg; cbn [fst snd]; lia);
    rewrite ?Hneg, ?Hff, Hz2, (scaled_mul k k), H2 by (unfold Numbers.dec_mul; cbn [fst snd]; lia); nia.
Qed.

Lemma jitter_bounds_witness :
  exists r, jittered_interval (PInt 30) (PFloat 1 (-1)) (PFloat 25 (-2)) = Ok r /\ Numbers.dec_le r (33, 0) = true.
Proof.
  eexists. split; [vm_compute; reflexivity|].
  eapply Numbers.dec_le_trans; [|apply Numbers.dec_le_refl].
  refine (Numbers.dec_le_trans _ _ _ (proj2 (proj2 (proj2 (jitter_bounds (PInt 30) (PFloat 1 (-1)) (PFloat 25 (-2)) _ _)))) _);
    vm_compute; reflexivity.
Defined.

(** ** Health samples are always there *)

(** A sample as the catalog describes it. *)
Definition cataloged (lookup : string -> res MetricDefinition) (s : MetricSample) : Prop :=
  exists d, lookup (metric s) = Ok d /\ metric_type s = kind d /\ unit s = d_unit d.

Lemma sample_ok lookup m v ds ts ty s : sample lookup m v ds ts ty = Ok s ->
  metric s = m /\ value s = v /\ dimensions s = ds /\ timestamp s = ts /\ cataloged lookup s.
Proof.
  unfold sample, cataloged. intros (d & Hd & H)%res_bind_ok.
  assert (s = Sample m v ds (kind d) (d_unit d) ts) as ->
    by (destruct ty as [t|]; [destruct (decide (t = kind d)); [by injection H|done]|by injection H]).
  repeat split; try done. by exists d.
Qed.

Lemma collect_samples_ok l ss : collect_samples l = Ok ss <-> Forall2 (fun r s => r = Ok s) l ss.
Proof.
  revert ss. induction l as [|r l IH]; intros ss; cbn [collect_samples].
  - split; [by intros [= <-]|by intros ->%Forall2_nil_inv_l].
  - split.
    + intros (s & Hs & H)%res_bind_ok. apply res_bind_ok in H as (ss' & Hss & [= <-]). constructor; [done|]. by apply IH.
    + intros (s & ss' & -> & H & ->)%Forall2_cons_inv_l. simpl. by rewrite (proj2 (IH ss') H).
Qed.

Lemma collect_samples_total l : Forall (fun r => exists s, r = Ok s) l -> exists ss, collect_samples l = Ok ss.
Proof. induction 1 as [|r l [s ->] _ [ss IH]]; [by eexists|]. exists (s :: ss). simpl. by rewrite IH. Qed.

Lemma collect_samples_app l1 l2 ss : collect_samples (l1 ++ l2) = Ok ss ->
  exists s1 s2, ss = s1 ++ s2 /\ collect_samples l1 = Ok s1 /\ collect_samples l2 = Ok s2.
Proof.
  intros (s1 & s2 & H1 & H2 & ->)%collect_samples_ok%Forall2_app_inv_l. exists s1, s2.
  by rewrite !collect_samples_ok.
Qed.

Lemma build_revision_ok e d : exists r, (Config.exporter_build_revision e d []).2 = Ok r.
Proof.
  unfold Config.exporter_build_revision, Config.env_first, bind, Config.present. cbn [omap list_omap].
  destruct (dict_get "REDFISH_BUILD_REVISION" e); cbn; eauto.
Qed.

(** Every source dimension of the health samples. *)
Definition health_dims (identity : dims) (s : MetricSample) : Prop :=
  exists extra, dimensions s = with_dims identity extra /\ NoDup (dict_keys extra) /\
    dict_get "source" extra = Some "exporter" /\ Forall (fun k => k ∉ REQUIRED_DIMENSIONS) (dict_keys extra).

Lemma metric_sample_total m v ds ts ty d : dict_get m METRIC_DEFINITIONS = Some d -> (ty = None \/ ty = Some (kind d)) ->
  sample metric_definition m v ds ts ty = Ok (Sample m v ds (kind d) (d_unit d) ts).
Proof. intros Hd Hty. unfold sample, metric_definition. rewrite Hd. simpl. destruct Hty as [->| ->]; [done|by rewrite decide_True]. Qed.

(** A health sample of the given metric. *)
Definition emits (identity : dims) (r : res MetricSample) (m : string) : Prop :=
  exists s, r = Ok s /\ health_dims identity s /\ cataloged metric_definition s /\ metric s = m.

Lemma emits_sample identity m v extra ty d :
  dict_get m METRIC_DEFINITIONS = Some d -> (ty = None \/ ty = Some (kind d)) -> NoDup (dict_keys extra) ->
  dict_get "source" extra = Some "exporter" -> Forall (fun k => k ∉ REQUIRED_DIMENSIONS) (dict_keys extra) ->
  emits identity (sample metric_definition m v (with_dims identity extra) PNone ty) m.
Proof.
  intros Hd Hty Hnd Hs Hk. eexists. split; [by eapply metric_sample_total|]. split; [by exists extra|]. split; [|done].
  exists d. unfold metric_definition. cbn [metric]. by rewrite Hd.
Qed.

Ltac health_sample :=
  eapply emits_sample; [reflexivity|naive_solver|apply (bool_decide_unpack _); reflexivity|reflexivity
                       |apply (bool_decide_unpack _); reflexivity].

Lemma emits_all identity l names : Forall2 (emits identity) l names ->
  exists ss, collect_samples l = Ok ss /\ Forall (health_dims identity) ss /\ Forall (cataloged metric_definition) ss /\
    map metric ss = names.
Proof.
  induction 1 as [|r m l names (s & -> & H1 & H2 & H3) _ (ss & Hss & I1 & I2 & I3)]; [by exists []|].
  exists (s :: ss). simpl. rewrite Hss. repeat split; try (by constructor). by rewrite H3, I3.
Qed.

Lemma build_info_emits e identity rev : emits identity (build_info_sample e identity rev) "hw.build_info".
Proof.
  unfold build_info_sample. destruct (build_revision_ok e UNKNOWN_BUILD_REVISION) as [r0 Hr0].
  set (r := match rev with PNone | PStr EmptyString => _ | _ => _ end).
  assert (exists r', r = Ok r') as [r' ->] by (subst r; repeat case_match; eauto).
  simpl. health_sample.
Qed.

Definition collector_names : list string :=
  ["redfish_exporter_collector_success"; "redfish_exporter_collector_supported"; "redfish_exporter_collector_duration_seconds";
   "redfish_exporter_collector_samples"].

(** What the reader and the writers are told about a scrape, whatever happened in it: one liveness sample that says whether
    it succeeded, four samples for each collector and one for each error total, all of them cataloged and with the
    identity of the exporter. *)
Lemma health_samples e identity ok duration results partial ts errors rev :
  exists ss, scrape_health_samples e identity ok duration results partial ts errors rev = Ok ss /\
    Forall (health_dims identity) ss /\ Forall (cataloged metric_definition) ss /\
    map metric ss = ["redfish_exporter_scrape_success"; "redfish_exporter_scrape_partial";
      "redfish_exporter_scrape_duration_seconds"; "redfish_exporter_last_success_timestamp_seconds"; "hw.scrape.ok"; "hw.bmc.up";
      "hw.build_info"; "hw.scrape.duration_seconds"] ++ mjoin (map (fun _ => collector_names) results) ++
      map (fun _ => "redfish_exporter_collection_errors_total") (sorted_totals (default (current_errors results) errors)) /\
    value <$> (ss !! 5%nat) = Some (of_bool ok).
Proof.
  unfold scrape_health_samples. set (l := _ ++ _). set (names := _ ++ _).
  assert (Forall2 (emits identity) l names) as Hl.
  { apply Forall2_app; [|apply Forall2_app].
    - repeat (apply Forall2_cons; split); try apply Forall2_nil_2; try health_sample; try apply build_info_emits.
    - induction results as [|r results IH]; [constructor|]. cbn [map mjoin list_join]. apply Forall2_app; [|apply IH].
      repeat (apply Forall2_cons; split); try apply Forall2_nil_2; health_sample.
    - induction (sorted_totals _) as [|x xs IH]; [constructor|]. cbn [map]. constructor; [|done]. health_sample. }
  destruct (emits_all identity l names Hl) as (ss & Hss & H1 & H2 & H3). exists ss. repeat split; try done.
  apply collect_samples_ok in Hss. unfold l in Hss. clear -Hss.
  destruct (Forall2_lookup_l _ _ _ 5%nat (sample metric_definition "hw.bmc.up" (of_bool ok) (with_dims identity [("source", "exporter")]) PNone None)
    Hss eq_refl) as (s & -> & Hs). simpl. by apply sample_ok in Hs as (_ & -> & _).
Qed.
End Telemetry.
