(* ===== verification/Prometheus.v ===== *)
(** * The Prometheus writer

    src/redfish_ctl/telemetry/prometheus/writer.py: samples as the lines of the text exposition
    format, and the handler that serves them.  The reference is a reader of that
    format, which is proved to get back what was written. *)

From stdpp Require Import base list gmap strings pretty.
From Stdlib Require Import Ascii ZArith Lia.
From S2P Require Import Prelude PyVal Effects Numbers Config Json Uuid Identity Decimals Telemetry.

Module Prometheus.
Import Decimals Telemetry.
Local Open Scope Z_scope.
Local Open Scope py_scope.

Definition newline_char : ascii := ascii_of_nat 10.
Definition backslash : ascii := ascii_of_nat 92.
Definition newline : string := String newline_char EmptyString.

(** [_prometheus_type(kind)] *)
Definition prometheus_type (kind : string) : string :=
  if decide (kind ∈ ["counter"; "cumulative_counter"]) then "counter" else "gauge".

(** [s.replace(c, by)] for a one-character [c] *)
Fixpoint replace_char (c : ascii) (by_ : string) (s : string) : string :=
  match s with
  | EmptyString => EmptyString
  | String x s' => (if decide (x = c) then by_ else String x EmptyString) +:+ replace_char c by_ s'
  end.

(** [_escape_label_value(value)] of a string *)
Definition escape_label_value (s : string) : string :=
  replace_char dquote (String backslash (String dquote ""))
    (replace_char newline_char (String backslash "n") (replace_char backslash (String backslash (String backslash "")) s)).

(** [_escape_help_text(value)] of a string *)
Definition escape_help_text (s : string) : string :=
  replace_char newline_char (String backslash "n") (replace_char backslash (String backslash (String backslash "")) s).

(** [float(value).is_integer()] *)
Definition is_integer (d : dec) : bool := (0 <=? d.2) || (d.1 mod 10 ^ (- d.2) =? 0).

(** [_format_value(value)] *)
Definition format_value (d : dec) : string :=
  if is_integer d then pretty (Numbers.truncate d.1 d.2) else py_repr (Numbers.float_val d).

(** [_sample_definition(sample, definition_lookup)] *)
Definition sample_definition (definition_lookup : string -> res MetricDefinition) (s : MetricSample) : res MetricDefinition :=
  match definition_lookup (metric s) with
  | Raise (KeyError _) =>
      new_definition (Definition_ (metric s) (metric_type s) (unit s) "" None "telemetry" [] "signal" "baseline" false)
  | r => r
  end.

(** [sorted(dimensions.items())] of a dict *)
Definition sorted_items (ds : dims) : dims := Json.sort_items ds.

(** The labels of a sample *)
Definition labels (s : MetricSample) : dims :=
  filter (fun kv : string * string => kv.1 ∉ Identity.RESOURCE_ONLY_DIMENSIONS) (sorted_items (dimensions s)).

Definition quoted (s : string) : string := String dquote (escape_label_value s +:+ String dquote "").

Definition label_text (ls : dims) : string := PyStr.join "," (map (fun kv => kv.1 +:+ "=" +:+ quoted kv.2) ls).

Definition prometheus_name_of (definition : MetricDefinition) (s : MetricSample) : string :=
  match prometheus_name definition with Some (String _ _ as n) => n | _ => metric s end.

Definition type_line (name : string) (definition : MetricDefinition) : string :=
  "# TYPE " +:+ name +:+ " " +:+ prometheus_type (kind definition).
Definition help_line (name : string) (definition : MetricDefinition) : string :=
  "# HELP " +:+ name +:+ " " +:+ escape_help_text (description definition).
Definition point_line (name : string) (s : MetricSample) : string :=
  name +:+ "{" +:+ label_text (labels s) +:+ "} " +:+ format_value (value s).

(** The loop over the samples: the lines so far and the names whose metadata was written. *)
Fixpoint render_lines (definition_lookup : string -> res MetricDefinition) (seen_types : list string) (samples : list MetricSample)
  : res (list string) :=
  match samples with
  | [] => Ok []
  | s :: rest =>
      let? definition := sample_definition definition_lookup s in
      let name := prometheus_name_of definition s in
      let metadata :=
        if decide (name ∈ seen_types) then []
        else (if PyStr.nonempty (description definition) then [help_line name definition] else []) ++ [type_line name definition] in
      let? ls := render_lines definition_lookup (name :: seen_types) rest in
      Ok (metadata ++ [point_line name s] ++ ls)
  end.

(** [render_prometheus_text(samples, definition_lookup)] *)
Definition render_prometheus_text (definition_lookup : string -> res MetricDefinition) (samples : list MetricSample) : res string :=
  let? ls := render_lines definition_lookup [] samples in Ok (PyStr.join newline ls +:+ newline).

(** [Handler.do_GET] of [serve_prometheus]: the status and the body *)
Definition do_GET (path : string) (scrape : res string) : res (Z * string) :=
  if decide (path = "/metrics") then
    match scrape with
    | Ok payload => Ok (200, payload)
    | Raise e =>
        if is_Exception e then Ok (500, "exporter scrape failed: " +:+ class_name e +:+ newline) else Raise e
    | NoFuel => NoFuel
    end
  else Ok (404, "").

(** [PrometheusWriter.write_once(samples)] *)
Definition write_once (definition_lookup : string -> res MetricDefinition) (samples : list MetricSample) : res CommandResult :=
  let? text := render_prometheus_text definition_lookup samples in
  Ok (mkResult (PStr text) PNone (PDict [("sample_count", PInt (Z.of_nat (length samples)))]) PNone).

(** [PrometheusWriter.run]: the answer to one request of the server *)
Definition serve_request (definition_lookup : string -> res MetricDefinition) (scrape_samples : res (list MetricSample)) (path : string)
  : res (Z * string) :=
  do_GET path (let? ss := scrape_samples in render_prometheus_text definition_lookup ss).

(** ** A reader of the exposition format *)

(** Where the reader is inside a label set. *)
Inductive label_state :=
| InKey (key : string)
| Quote (key : string)
| InValue (key value : string)
| Escape (key value : string)
| After.

Definition snoc (s : string) (c : ascii) : string := s +:+ String c EmptyString.

(** The labels up to the closing brace, and the rest of the line. *)
Fixpoint read_labels (st : label_state) (acc : dims) (s : string) : option (dims * string) :=
  match s with
  | EmptyString => None
  | String c s' =>
      match st with
      | InKey key =>
          if decide (c = "}"%char) then if decide (key = "") then Some (acc, s') else None
          else if decide (c = "="%char) then read_labels (Quote key) acc s'
          else read_labels (InKey (snoc key c)) acc s'
      | Quote key => if decide (c = dquote) then read_labels (InValue key "") acc s' else None
      | InValue key value =>
          if decide (c = dquote) then read_labels After (acc ++ [(key, value)]) s'
          else if decide (c = backslash) then read_labels (Escape key value) acc s'
          else read_labels (InValue key (snoc value c)) acc s'
      | Escape key value =>
          if decide (c = "n"%char) then read_labels (InValue key (snoc value newline_char)) acc s'
          else if decide (c = backslash) then read_labels (InValue key (snoc value backslash)) acc s'
          else if decide (c = dquote) then read_labels (InValue key (snoc value dquote)) acc s'
          else None
      | After =>
          if decide (c = ","%char) then read_labels (InKey "") acc s'
          else if decide (c = "}"%char) then Some (acc, s')
          else None
      end
  end.

(** The text before the first [c], and the text after it. *)
Fixpoint cut (c : ascii) (s : string) : option (string * string) :=
  match s with
  | EmptyString => None
  | String x s' => if decide (x = c) then Some ("", s') else (fun p => (String x p.1, p.2)) <$> cut c s'
  end.

Inductive entry :=
| Help (name text : string)
| Type_ (name type : string)
| Point (name : string) (ls : dims) (value : string).

Fixpoint after_prefix (p s : string) : option string :=
  match p, s with
  | EmptyString, _ => Some s
  | String a p', String b s' => if decide (a = b) then after_prefix p' s' else None
  | _, _ => None
  end.

(** A line of the exposition format. *)
Definition read_line (line : string) : option entry :=
  match after_prefix "# HELP " line, after_prefix "# TYPE " line with
  | Some rest, _ => (fun p => Help p.1 p.2) <$> cut " " rest
  | None, Some rest => (fun p => Type_ p.1 p.2) <$> cut " " rest
  | None, None =>
      match cut "{" line with
      | Some (name, rest) =>
          match read_labels (InKey "") [] rest with
          | Some (ls, String " " value) => Some (Point name ls value)
          | _ => None
          end
      | None => None
      end
  end.

(** The entries of a text, empty lines left out; [None] when a line is malformed. *)
Definition read_text (text : string) : option (list entry) :=
  Json.all_some (map read_line (filter (fun l => l <> "") (PyStr.split newline_char text))).

Definition points (es : list entry) : list entry := List.filter (fun e => match e with Point _ _ _ => true | _ => false end) es.

(** ** Escaping *)

Lemma replace_char_app c b s t : replace_char c b (s +:+ t) = replace_char c b s +:+ replace_char c b t.
Proof.
  induction s as [|x s IH]; [by rewrite !append_empty_l|]. rewrite append_cons. cbn [replace_char]. by rewrite IH, append_assoc.
Qed.

Definition escaped (c : ascii) : string :=
  if decide (c = backslash) then String backslash (String backslash "")
  else if decide (c = newline_char) then String backslash "n"
  else if decide (c = dquote) then String backslash (String dquote "")
  else String c "".

Lemma escape_cons c s : escape_label_value (String c s) = escaped c +:+ escape_label_value s.
Proof.
  unfold escape_label_value, escaped. cbn [replace_char]. rewrite !replace_char_app. f_equal.
  repeat case_decide; subst; try done; cbn [replace_char]; repeat case_decide; subst; try done.
  rewrite append_empty_r. cbn [replace_char]. destruct (decide (c = dquote)); [done|by rewrite ?append_empty_r].
Qed.

(** A label value is read back, whatever it holds. *)
Lemma read_point_value key v s acc rest :
  read_labels (InValue key v) acc (escape_label_value s +:+ String dquote rest) = read_labels After (acc ++ [(key, v +:+ s)]) rest.
Proof.
  revert v. induction s as [|c s IH]; intros v.
  - cbn. by rewrite append_empty_r.
  - rewrite escape_cons, append_assoc. assert (v +:+ String c s = snoc v c +:+ s) as ->
      by (unfold snoc; by rewrite append_assoc).
    unfold escaped. repeat case_decide; subst; rewrite !append_cons, append_empty_l; cbn [read_labels];
      repeat first [rewrite decide_True by done | rewrite decide_False by done]; apply IH.
Qed.

Lemma has_char_cons q c s : PyStr.has_char q (String c s) = q c || PyStr.has_char q s.
Proof. done. Qed.

(** ** Labels *)

Definition occurs (c : ascii) (s : string) : bool := PyStr.has_char (fun x => bool_decide (x = c)) s.

Definition plain_key (k : string) : Prop :=
  occurs "=" k = false /\ occurs "}" k = false /\ occurs newline_char k = false.

Lemma read_key key k acc rest : plain_key k ->
  read_labels (InKey key) acc (k +:+ String "=" rest) = read_labels (Quote (key +:+ k)) acc rest.
Proof.
  intros (H1 & H2 & _). revert key H1 H2. induction k as [|c k IH]; intros key H1 H2.
  - rewrite append_empty_l, append_empty_r. done.
  - unfold occurs in *. rewrite has_char_cons in H1, H2. apply orb_false_iff in H1 as [E1 H1], H2 as [E2 H2].
    apply bool_decide_eq_false in E1, E2. rewrite append_cons. cbn [read_labels]. rewrite !decide_False by done.
    rewrite IH by done. f_equal. f_equal. unfold snoc. by rewrite append_assoc.
Qed.

Lemma read_label kv acc rest : plain_key kv.1 ->
  read_labels (InKey "") acc ((kv.1 +:+ "=" +:+ quoted kv.2) +:+ rest) = read_labels After (acc ++ [kv]) rest.
Proof.
  destruct kv as [k v]. intros Hk. cbn [fst snd] in *. unfold quoted.
  rewrite !append_assoc, !append_cons, append_empty_l, append_assoc, append_cons, append_empty_l.
  rewrite read_key, append_empty_l by done. cbn [read_labels]. rewrite decide_True by done. by rewrite read_point_value, append_empty_l.
Qed.

Lemma read_label_text ls acc rest : Forall (fun kv => plain_key kv.1) ls ->
  read_labels (InKey "") acc (label_text ls +:+ String "}" rest) = Some (acc ++ ls, rest).
Proof.
  intros Hls. revert acc. induction Hls as [|kv ls Hkv Hls IH]; intros acc.
  - cbn. by rewrite app_nil_r.
  - unfold label_text in *. destruct ls as [|kv' ls]; cbn [map] in *.
    + cbn [PyStr.join]. by rewrite read_label.
    + rewrite join_cons2. rewrite (append_assoc (_ +:+ _ +:+ _)).
      rewrite read_label by done. rewrite append_cons, append_empty_l, append_cons. cbn [read_labels]. rewrite decide_True by done.
      rewrite IH. by rewrite <- app_assoc.
Qed.

(** ** Lines *)

(** A metric name that the format can hold. *)
Definition plain_name (n : string) : Prop :=
  occurs "{" n = false /\ occurs " " n = false /\ occurs newline_char n = false /\ PyStr.startswith "#" n = false.

Lemma cut_app n c rest : occurs c n = false -> cut c (n +:+ String c rest) = Some (n, rest).
Proof.
  unfold occurs. induction n as [|x n IH].
  - intros _. rewrite append_empty_l. cbn [cut]. by rewrite decide_True.
  - rewrite has_char_cons. intros [Hx%bool_decide_eq_false Hn]%orb_false_iff. rewrite append_cons. cbn [cut].
    rewrite decide_False by done. by rewrite IH.
Qed.

Lemma not_comment p n rest : PyStr.startswith "#" n = false -> after_prefix (String "#" p) (n +:+ String "{" rest) = None.
Proof.
  destruct n as [|c n]; [done|]. rewrite append_cons. cbn [after_prefix PyStr.startswith].
  destruct (decide ("#"%char = c)) as [<-|]; [|done]. by destruct n.
Qed.

(** What a point says about a sample. *)
Definition exposed (name : string) (s : MetricSample) : entry := Point name (labels s) (format_value (value s)).

Lemma read_point name s : plain_name name -> Forall (fun kv => plain_key kv.1) (labels s) ->
  read_line (point_line name s) = Some (exposed name s).
Proof.
  intros (Hn & _ & _ & Hh) Hls. unfold read_line, point_line. rewrite append_cons, append_empty_l.
  rewrite !not_comment, cut_app by done. rewrite append_cons, append_cons, append_empty_l, read_label_text by done. done.
Qed.

Lemma read_type name d : plain_name name -> read_line (type_line name d) = Some (Type_ name (prometheus_type (kind d))).
Proof.
  intros (_ & Hs & _). unfold read_line, type_line. rewrite !append_cons, !append_empty_l. cbn [after_prefix].
  repeat first [rewrite decide_True by done | rewrite decide_False by done]. by rewrite cut_app.
Qed.

Lemma read_help name d : plain_name name -> read_line (help_line name d) = Some (Help name (escape_help_text (description d))).
Proof.
  intros (_ & Hs & _). unfold read_line, help_line. rewrite !append_cons, !append_empty_l. cbn [after_prefix].
  repeat rewrite decide_True by done. by rewrite cut_app.
Qed.

(** ** No line holds a newline *)

Lemma occurs_append c a b : occurs c (a +:+ b) = occurs c a || occurs c b.
Proof. apply Uuid.has_char_append. Qed.

Lemma occurs_cons c x s : occurs c (String x s) = bool_decide (x = c) || occurs c s.
Proof. done. Qed.

Lemma escape_no_newline s : occurs newline_char (escape_label_value s) = false.
Proof.
  induction s as [|c s IH]; [done|]. rewrite escape_cons, occurs_append, IH, orb_false_r. unfold escaped.
  repeat case_decide; subst; try done. rewrite occurs_cons, bool_decide_eq_false_2 by done. done.
Qed.

Lemma help_no_newline s : occurs newline_char (escape_help_text s) = false.
Proof.
  unfold escape_help_text. induction (replace_char backslash _ s) as [|c r IH]; [done|]. cbn [replace_char].
  rewrite occurs_append, IH, orb_false_r. case_decide; [done|]. rewrite occurs_cons, bool_decide_eq_false_2 by done. done.
Qed.

Lemma pretty_N_no_newline (n : N) : occurs newline_char (pretty n) = false.
Proof.
  assert (forall d, bool_decide (pretty_N_char d = newline_char) = false) as Hd by (intros d; unfold pretty_N_char; by repeat case_match).
  unfold occurs, pretty, pretty_N. case_decide; [done|]. by rewrite Identity.pretty_N_go_chars.
Qed.

Lemma pretty_Z_no_newline (z : Z) : occurs newline_char (pretty z) = false.
Proof.
  destruct z as [|p|p]; [done|exact (pretty_N_no_newline (N.pos p))|].
  change (pretty (Z.neg p)) with ("-" +:+ pretty (N.pos p)). by rewrite occurs_append, pretty_N_no_newline.
Qed.

Lemma substring_no_newline n m s : occurs newline_char s = false -> occurs newline_char (String.substring n m s) = false.
Proof.
  revert n m. induction s as [|c s IH]; intros n m; [by destruct n, m|]. rewrite occurs_cons. intros [Hc Hs]%orb_false_iff.
  destruct n as [|n], m as [|m]; cbn [String.substring]; try apply IH; try done. rewrite occurs_cons, Hc. by apply IH.
Qed.

Lemma zeros_no_newline n : occurs newline_char (zeros n) = false.
Proof. by induction n. Qed.

Lemma float_no_newline d : occurs newline_char (py_repr (Numbers.float_val d)) = false.
Proof.
  unfold Numbers.float_val. repeat case_match; try done.
  cbn [py_repr]. unfold repr_float. pose proof (fun n => pretty_N_no_newline n) as Hp.
  repeat case_match; rewrite ?occurs_append, ?zeros_no_newline, ?Hp; rewrite ?substring_no_newline by apply Hp; done.
Qed.

Lemma format_value_no_newline d : occurs newline_char (format_value d) = false.
Proof. unfold format_value. case_match; [apply pretty_Z_no_newline|apply float_no_newline]. Qed.

(** A value is read back as the number it is. *)
Lemma format_value_read d : exists x, Numbers.parse_decimal (format_value d) = Some x /\ num_eqb x d = true.
Proof.
  unfold format_value, is_integer. destruct d as [m e]. cbn [fst snd]. destruct ((0 <=? e) || _) eqn:Hint.
  - set (z := Numbers.truncate m e). exists (z, 0). split.
    + assert (pretty z = (if z <? 0 then "-" else "") +:+ pretty (Z.to_N (Z.abs z))) as -> by (by destruct z).
      rewrite parse_signed.
      * rewrite <- (append_empty_r (pretty _)), unsigned_plain; [|apply all_digits_pretty|apply pretty_N_nonempty|done..].
        cbn. rewrite digits_after_pretty. do 2 f_equal. destruct (Z.ltb_spec z 0); lia.
      * apply digits_no_space, all_digits_pretty.
      * apply Identity.pretty_N_head.
    + unfold num_eqb, z, Numbers.truncate. cbn [fst snd]. apply Z.eqb_eq. destruct (Z.leb_spec 0 e).
      * rewrite Z.min_l by lia. rewrite !Z.sub_0_r. lia.
      * rewrite Z.min_r by lia. cbn [orb] in Hint. apply Z.eqb_eq in Hint. replace (0 - e) with (- e) by lia. replace (e - e) with 0 by lia. rewrite Z.mul_1_r.
        apply Z.mod_divide in Hint as [q Hq]; [|lia]. rewrite Hq. rewrite Z.quot_mul by lia. done.
  - unfold Numbers.float_val. cbn [fst snd]. apply orb_false_iff in Hint as [_ Hmod]. destruct (Z.eqb_spec m 0) as [->|Hm]; [by rewrite Zmod_0_l in Hmod|].
    destruct (strip_zeros_same (Z.to_nat (Z.log2 (Z.abs m)) + 1) m e Hm) as (Hne & k & Hk & Hmk & He).
    destruct (Numbers.strip_zeros _ m e) as [m' e']. cbn [fst snd] in *. subst. cbn [py_repr].
    destruct (repr_float_read m' (e + k) Hne) as (x & Hx & Hq). exists x. split; [done|]. by apply num_eqb_scale.
Qed.

Lemma label_text_no_newline ls : Forall (fun kv => plain_key kv.1) ls -> occurs newline_char (label_text ls) = false.
Proof.
  unfold label_text. induction 1 as [|kv ls (_ & _ & Hkv) _ IH]; [done|].
  assert (occurs newline_char (kv.1 +:+ "=" +:+ quoted kv.2) = false) as Hl.
  { unfold quoted. rewrite occurs_append, Hkv, append_cons, append_empty_l, !occurs_cons, occurs_append, escape_no_newline. done. }
  destruct ls as [|kv' ls]; cbn [map] in *; [done|]. by rewrite join_cons2, occurs_append, Hl, occurs_append, IH.
Qed.

Lemma point_no_newline name s : plain_name name -> Forall (fun kv => plain_key kv.1) (labels s) ->
  occurs newline_char (point_line name s) = false.
Proof.
  intros (_ & _ & Hn & _) Hls. unfold point_line. by rewrite !occurs_append, Hn, label_text_no_newline, format_value_no_newline.
Qed.

(** ** The text is read back *)

Definition exposable (lookup : string -> res MetricDefinition) (s : MetricSample) : Prop :=
  exists d, sample_definition lookup s = Ok d /\ plain_name (prometheus_name_of d s) /\
    Forall (fun kv => plain_key kv.1) (labels s).

Definition name_of (lookup : string -> res MetricDefinition) (s : MetricSample) : string :=
  match sample_definition lookup s with Ok d => prometheus_name_of d s | _ => metric s end.

(** A line that stands for an entry. *)
Definition stands (line : string) (e : entry) : Prop :=
  read_line line = Some e /\ occurs newline_char line = false /\ line <> "".

(** Every point comes after the type entry of its name, and no name has two; [seen] are the names announced before. *)
Fixpoint announced (seen : list string) (es : list entry) : Prop :=
  match es with
  | [] => True
  | Help _ _ :: es => announced seen es
  | Type_ n _ :: es => n ∉ seen /\ announced (n :: seen) es
  | Point n _ _ :: es => n ∈ seen /\ announced seen es
  end.

Lemma announced_same s1 s2 es : (forall n, n ∈ s1 <-> n ∈ s2) -> announced s1 es -> announced s2 es.
Proof.
  revert s1 s2. induction es as [|e es IH]; intros s1 s2 Hs; [done|]. destruct e; simpl.
  - by apply IH.
  - intros [H1 H2]. rewrite <- Hs. split; [done|]. eapply IH; [|exact H2]. intros n. rewrite !elem_of_cons. by rewrite Hs.
  - intros [H1 H2]. rewrite <- Hs. split; [done|]. by eapply IH.
Qed.

Lemma metadata_stands name d : plain_name name ->
  exists es, Forall2 stands ((if PyStr.nonempty (description d) then [help_line name d] else []) ++ [type_line name d]) es /\
    (es = [Type_ name (prometheus_type (kind d))] \/
     es = [Help name (escape_help_text (description d)); Type_ name (prometheus_type (kind d))]).
Proof.
  intros Hn. pose proof Hn as (_ & _ & Hnl & _).
  assert (stands (type_line name d) (Type_ name (prometheus_type (kind d)))) as Ht.
  { split; [by apply read_type|]. split; [|done]. unfold type_line, prometheus_type. rewrite !occurs_append, Hnl. by case_decide. }
  assert (stands (help_line name d) (Help name (escape_help_text (description d)))) as Hh.
  { split; [by apply read_help|]. split; [|done]. unfold help_line. by rewrite !occurs_append, Hnl, help_no_newline. }
  destruct (PyStr.nonempty _); eexists; (split; [repeat (constructor; [done|]); constructor|]); auto.
Qed.

Lemma render_lines_read lookup samples seen : Forall (exposable lookup) samples ->
  exists ls es, render_lines lookup seen samples = Ok ls /\ Forall2 stands ls es /\
    points es = map (fun s => exposed (name_of lookup s) s) samples /\ announced seen es.
Proof.
  intros Hs. revert seen. induction Hs as [|s samples (d & Hd & Hn & Hk) _ IH]; intros seen; [by exists [], []|].
  assert (name_of lookup s = prometheus_name_of d s) as Hname by (unfold name_of; by rewrite Hd).
  cbn [render_lines map]. rewrite Hd, Hname. simpl. set (name := prometheus_name_of d s) in *.
  destruct (IH (name :: seen)) as (ls & es & -> & Hls & Hes & Han). simpl.
  assert (stands (point_line name s) (exposed name s)) as Hp.
  { split; [by apply read_point|]. split; [by apply point_no_newline|]. unfold point_line. by destruct name. }
  case_decide as Hseen.
  - exists (point_line name s :: ls), (exposed name s :: es). repeat split; [by constructor|simpl; by rewrite Hes|done|].
    eapply announced_same; [|exact Han]. intros n. rewrite elem_of_cons. naive_solver.
  - destruct (metadata_stands name d Hn) as (ms & Hms & Hshape). eexists _, (ms ++ exposed name s :: es).
    split; [reflexivity|]. split; [apply Forall2_app; [done|by constructor]|].
    destruct Hshape as [->| ->]; simpl; rewrite Hes; repeat split; try done; try (by left); set_solver.
Qed.

Lemma all_some_map {A B} (f : A -> option B) l xs : Forall2 (fun a b => f a = Some b) l xs -> Json.all_some (map f l) = Some xs.
Proof. induction 1 as [|a b l xs H _ IH]; [done|]. simpl. by rewrite H, IH. Qed.

Lemma keep_nonempty (ls : list string) : Forall (fun l => l <> "") ls -> filter (fun l => l <> "") ls = ls.
Proof. induction 1 as [|l ls Hl _ IH]; [done|]. rewrite filter_cons_True by done. by rewrite IH. Qed.

(** Lines that stand for entries are read back from their text. *)
Lemma read_text_lines ls es : Forall2 stands ls es -> read_text (PyStr.join newline ls +:+ newline) = Some es.
Proof.
  intros Hls. unfold read_text. apply all_some_map.
  assert (filter (fun l => l <> "") (PyStr.split newline_char (PyStr.join newline ls +:+ newline)) = ls) as ->.
  { destruct Hls as [|l e ls es Hl Hls]; [done|].
    assert (PyStr.join newline (l :: ls) +:+ newline = PyStr.join newline ((l :: ls) ++ [""])) as ->.
    { clear. revert l. induction ls as [|l' ls IH]; intros l; [by rewrite <- (append_empty_r newline)|].
      change ((l :: l' :: ls) ++ [""]) with (l :: (l' :: ls) ++ [""]). simpl app. rewrite !join_cons2, !append_assoc.
      by rewrite (IH l'). }
    assert (Forall2 stands (l :: ls) (e :: es)) as Hall by (by constructor).
    rewrite split_of_join; [|done|].
    - rewrite filter_app, app_nil_r. apply keep_nonempty. eapply Forall2_Forall_l; [exact Hall|].
      apply Forall_true. by intros e' l' (_ & _ & ?).
    - apply Forall_app. split; [|by constructor]. eapply Forall2_Forall_l; [exact Hall|].
      apply Forall_true. by intros e' l' (_ & ? & _). }
  eapply Forall2_impl; [exact Hls|]. by intros l e (? & _).
Qed.

(** What a reader must find of a sample: its name, its dimensions without those of the resource, and a text that is read as
    the number it has. *)
Definition conveys (lookup : string -> res MetricDefinition) (e : entry) (s : MetricSample) : Prop :=
  exists ls text x, e = Point (name_of lookup s) ls text /\
    ls ≡ₚ filter (fun kv : string * string => kv.1 ∉ Identity.RESOURCE_ONLY_DIMENSIONS) (dimensions s) /\
    Numbers.parse_decimal text = Some x /\ num_eqb x (value s) = true.

Lemma exposed_conveys lookup s : conveys lookup (exposed (name_of lookup s) s) s.
Proof.
  destruct (format_value_read (value s)) as (x & Hx & Hq). eexists _, _, x. split; [reflexivity|]. split; [|done].
  unfold labels, sorted_items. by rewrite Json.sort_items_perm.
Qed.

(** C28. Prometheus text is read back: when the names and label keys have no character that ends them, samples are rendered, and
    the reader of this file gets back exactly one point for each, in order: its name, its dimensions but those of the
    resource, with every label value whatever characters it holds, and a text that [float] reads as the number of the
    sample; each name's type is announced once, before its first point.  The reader takes names and keys as they stand,
    with dots too, which the text format 0.0.4 does not allow. *)
Theorem exposition_roundtrip lookup samples :
  Forall (exposable lookup) samples ->
  exists text es, render_prometheus_text lookup samples = Ok text /\ read_text text = Some es /\
    Forall2 (conveys lookup) (points es) samples /\ announced [] es.
Proof.
  intros (ls & es & Hr & Hls & Hes & Han)%(render_lines_read lookup samples []). unfold render_prometheus_text. rewrite Hr. simpl.
  eexists _, es. split; [reflexivity|]. split; [by apply read_text_lines|]. split; [|done]. rewrite Hes. clear.
  induction samples as [|s samples IH]; constructor; [apply exposed_conveys|done].
Qed.

(** A sample whose names the text format allows, with a label value full of its own syntax. *)
Definition odd_sample : MetricSample :=
  Sample "bmc_up" (-25, -1) [("node", "slot3"); ("rack", "a" +:+ newline +:+ "}," +:+ String dquote (String backslash "n"));
    ("service.version", "7")] "gauge" None PNone.

Lemma exposition_roundtrip_witness :
  exists text es, render_prometheus_text metric_definition [odd_sample; odd_sample] = Ok text /\ read_text text = Some es /\
    Forall2 (conveys metric_definition) (points es) [odd_sample; odd_sample] /\
    points es = let p := Point "bmc_up" [("node", "slot3"); ("rack", "a" +:+ newline +:+ "}," +:+ String dquote (String backslash "n"))] "-2.5" in [p; p].
Proof.
  destruct (exposition_roundtrip metric_definition [odd_sample; odd_sample]) as (text & es & H1 & H2 & H3 & _).
  - assert (exposable metric_definition odd_sample) as H; [|by repeat constructor].
    eexists. split; [reflexivity|]. split; [by vm_compute|]. vm_compute. repeat constructor.
  - exists text, es. split; [exact H1|]. split; [exact H2|]. split; [exact H3|]. clear H3. vm_compute in H1. injection H1 as <-.
    vm_compute in H2. injection H2 as <-. reflexivity.
Defined.
End Prometheus.
