(* ===== verification/SignalFx.v ===== *)
(** * The SignalFx writer

    src/redfish_ctl/telemetry/signalfx/emit.py and writer.py, with
    src/redfish_ctl/telemetry/http_util.py: samples as datapoint envelopes, the push to the
    ingest endpoint, the readback that confirms it, and the push loop.  The state is the
    list of requests that were sent; the network is a function of it, and
    the parser of a date header is a parameter. *)

From stdpp Require Import base list gmap strings pretty.
From Stdlib Require Import Ascii ZArith Lia.
From S2P Require Import Prelude PyVal Effects Numbers Config Json Urls Query Uuid Identity Telemetry Prometheus.

Module SignalFx.
Import Telemetry.
Local Open Scope Z_scope.
Local Open Scope py_scope.

Definition SIGNALFX_DATAPOINT_PATH : string := "/v2/datapoint".

(** ** The datapoint body *)

Definition envelope (s : MetricSample) : string :=
  if decide (metric_type s = "counter") then "cumulative_counter" else metric_type s.

Definition datapoint (s : MetricSample) : pyval :=
  PDict [("metric", PStr (metric s)); ("value", Numbers.float_val (value s));
         ("dimensions", PDict (map (fun kv : string * string => (kv.1, PStr kv.2))
            (filter (fun kv : string * string => kv.1 ∉ Identity.RESOURCE_ONLY_DIMENSIONS) (dimensions s))))].

Definition add_datapoint (body : list (string * list pyval)) (s : MetricSample) : res (list (string * list pyval)) :=
  match dict_get (envelope s) body with
  | Some points => Ok (dict_set (envelope s) (points ++ [datapoint s]) body)
  | None => Raise (KeyError (envelope s))
  end.

Definition empty_body : list (string * list pyval) := [("gauge", []); ("counter", []); ("cumulative_counter", [])].

(** [to_signalfx_body(samples)] *)
Definition to_signalfx_body (samples : list MetricSample) : res pydict :=
  let? body := res_fold add_datapoint empty_body samples in
  Ok (omap (fun kp : string * list pyval => match kp.2 with [] => None | ps => Some (kp.1, PList ps) end) body).

(** ** URLs and requests *)

(** The path of [urlparse]: parameters of the last segment are cut off. *)
Definition url_path (p : Urls.parts) : string :=
  match rev (PyStr.split "/" (Urls.path p)) with
  | l :: rest => PyStr.join "/" (rev ((Urls.partition ";" l).1.1 :: rest))
  | [] => ""
  end.

(** [require_https_url(url, label)] *)
Definition require_https_url (url label : string) : res Urls.parts :=
  let? parsed := Urls.urlsplit url in
  if decide (PyStr.lower (Urls.scheme parsed) = "https") then
    if PyStr.nonempty (Urls.netloc parsed) then Ok parsed
    else Raise (ValueError (label +:+ " must use https; got " +:+ repr_str url))
  else Raise (ValueError (label +:+ " must use https; got " +:+ repr_str url)).

(** [_require_datapoint_url(ingest_url)] *)
Definition require_datapoint_url (ingest_url : string) : res string :=
  let? parsed := require_https_url ingest_url "SignalFx ingest URL" in
  if decide (PyStr.rstrip_char "/" (url_path parsed) = SIGNALFX_DATAPOINT_PATH) then Ok ingest_url
  else Raise (ValueError ("SignalFx ingest URL must be the full datapoint endpoint ending in " +:+ SIGNALFX_DATAPOINT_PATH
    +:+ " (e.g. https://ingest.us1.observability.splunkcloud.com/v2/datapoint), not a bare host; got " +:+ repr_str ingest_url)).

(** [resolve_signalfx_token(token_env, token, token_file)]; [read] gives the text of a file *)
Definition resolve_signalfx_token (e : Config.env) (read : string -> res string) (token_env : option string)
  (token token_file : pyval) : res string :=
  match Identity.non_empty token with
  | PNone =>
      match Identity.non_empty token_file with
      | PNone =>
          let name := default "" (Config.str_or token_env (Some "SPLUNK_ACCESS_TOKEN")) in
          let token := Config.signalfx_access_token e (Some name) in
          if PyStr.nonempty token then Ok token else Raise (ValueError (name +:+ " is not set"))
      | file_path =>
          let? text := read (py_str file_path) in
          let value := PyStr.strip text in
          if PyStr.nonempty value then Ok value else Raise (ValueError (py_str file_path +:+ " is empty"))
      end
  | direct_token => Ok (py_str direct_token)
  end.

(** [resolve_signalfx_ingest_url(ingest_url)] *)
Definition resolve_signalfx_ingest_url (e : Config.env) (ingest_url : option string) : res string :=
  let url := Config.signalfx_ingest_url e ingest_url in
  if PyStr.nonempty url then require_datapoint_url url else Raise (ValueError "SPLUNK_INGEST_URL is not set").

Record request := Req { r_method : string; r_url : string; r_token : string; r_body : option string }.

(** What the peer makes of a request: an answer, a redirect that names a target, or no answer. *)
Inductive reply :=
| Reply (status : Z) (date : option string) (body : res pyval)
| Redirected
| Failed (e : exn).

Abbreviation MR := (M (list request)).

(** ** The readback query *)

(** [_escape_mts_value(value)] of a string *)
Definition escape_mts_value (s : string) : string :=
  Prometheus.replace_char dquote (String Prometheus.backslash (String dquote ""))
    (Prometheus.replace_char Prometheus.backslash (String Prometheus.backslash (String Prometheus.backslash "")) s).

Definition term (key value : string) : string := key +:+ ":" +:+ String dquote (escape_mts_value value +:+ String dquote "").

(** [_mts_query(metric, dimensions)] *)
Definition mts_query (metric : string) (dimensions : dims) : string :=
  PyStr.join " AND " (term "sf_metric" metric :: map (fun kv => term kv.1 kv.2) (Json.sort_items dimensions)).

(** [urllib.parse.quote_plus(s)] *)
Fixpoint quote_plus (s : string) : string :=
  match s with
  | EmptyString => EmptyString
  | String c s' =>
      (if PyStr.is_alnum c || bool_decide (c ∈ ["_"; "."; "-"; "~"]%char) then char_str c
       else if decide (c = " "%char) then "+"
       else String "%" (String (RedfishQuery.hex_upper (nat_of_ascii c / 16)) (String (RedfishQuery.hex_upper (nat_of_ascii c mod 16)) "")))
      +:+ quote_plus s'
  end.

Definition readback_url (realm metric : string) (dimensions : dims) : string :=
  "https://api." +:+ realm +:+ ".signalfx.com/v2/metrictimeseries?query=" +:+ quote_plus (mts_query metric dimensions)
  +:+ "&limit=50&orderBy=" +:+ quote_plus "-sf_updatedOnMs".

(** What is known about the series of a metric. *)
Record series := Series { count : Z; newest_ms : Z; server_ms : Z }.

(** [isinstance(stamp, (int, float)) and stamp > newest]: then [int(stamp)] *)
Definition newer (newest : Z) (stamp : pyval) : Z :=
  match num_of stamp with
  | Some d => if num_ltb (newest, 0) d then Numbers.truncate d.1 d.2 else newest
  | None => newest
  end.

Definition STAMP_KEYS : list string := ["lastUpdated"; "sf_updatedOnMs"; "updatedOnMs"; "created"].

Definition newest_of (results : list pyval) : res Z :=
  res_fold (fun newest row =>
    match row with
    | PDict d => Ok (fold_left (fun n key => newer n (dget key d)) STAMP_KEYS newest)
    | v => no_get v
    end) 0 results.

(** The summary of a readback document *)
Definition read_series (data : pyval) (server : Z) : res series :=
  match data with
  | PDict d =>
      let? results := iterate (py_or (dget "results" d) (PList [])) in
      let? newest := newest_of results in
      let? n := Numbers.py_int (py_or (dget "count" d) (PInt (Z.of_nat (length results)))) in
      Ok (Series n newest server)
  | v => no_get v
  end.

Section Network.
Context (net : list request -> request -> reply) (parse_date : string -> option Z).

(** [open_no_redirect_request(request, timeout)]: [NoRedirectHandler] refuses every redirect *)
Definition open_no_redirect_request (q : request) : MR (Z * option string * res pyval) :=
  let! log := get_state in
  modify (fun log => log ++ [q]) ;;;
  match net log q with
  | Reply status date body =>
      if (200 <=? status) && (status <? 300) then ret (status, date, body)
      else raise (OtherError "HTTPError" ("HTTP Error " +:+ pretty status))
  | Redirected => raise (ValueError "request refused redirect")
  | Failed e => raise e
  end.

(** [push_signalfx(body, token, ingest_url, timeout)] *)
Definition push_signalfx (body : pydict) (token ingest_url : string) : MR Z :=
  let! url := lift_res (require_datapoint_url ingest_url) in
  let! data := lift_res (Json.dumps_with false ", " ": " (PDict body)) in
  let! answer := open_no_redirect_request (Req "POST" url token (Some data)) in
  ret answer.1.1.

(** [_response_date_ms(response)] *)
Definition response_date_ms (date : option string) : Z :=
  match date with Some (String _ _ as h) => default 0 (parse_date h) | _ => 0 end.

(** [signalfx_metric_readback(realm, api_token, metric, dimensions, timeout)] *)
Definition signalfx_metric_readback (realm api_token metric : string) (dimensions : dims) : MR series :=
  let url := readback_url realm metric dimensions in
  let! _ := lift_res (require_https_url url "SignalFx readback URL") in
  let! answer := open_no_redirect_request (Req "GET" url api_token None) in
  let server := response_date_ms answer.1.2 in
  match answer.2 with
  | Ok data => lift_res (read_series data server)
  | Raise (ValueError _ | JSONDecodeError _) => raise (ValueError ("non-JSON metrictimeseries response for " +:+ metric))
  | Raise e => raise e
  | NoFuel => lift_res NoFuel
  end.

(** [verify_signalfx_readback(realm, api_token, metrics, dimensions, timeout)] *)
Definition verify_signalfx_readback (realm api_token : string) (metrics : list string) (dimensions : dims)
  : MR (list (string * series)) :=
  mapM (fun m => let! s := signalfx_metric_readback realm api_token m dimensions in ret (m, s)) (sort_strs (dedup metrics)).

(** ** The verdict *)

(** [_readback_server_ms(readback)] *)
Definition readback_server_ms (readback : list (string * series)) : option Z :=
  match omap (fun kv : string * series => if 0 <? server_ms kv.2 then Some (server_ms kv.2) else None) readback with
  | [] => None
  | s :: l => Some (fold_left Z.max l s)
  end.

Definition is_fresh (anchor freshness_ms : Z) (s : series) : bool :=
  (0 <? count s) && (anchor - freshness_ms <=? newest_ms s).

Definition clock_error : string :=
  "SignalFx readback did not include server time, so freshness cannot be verified without trusting the local exporter clock".

Definition series_val (s : series) : pyval :=
  PDict [("count", PInt (count s)); ("newest_ms", PInt (newest_ms s)); ("server_ms", PInt (server_ms s))].

(** [build_readback_result(push_status, ingest_url, sample_count, metric_names, readback, timing_ms, now_ms, freshness_ms)] *)
Definition build_readback_result (push_status : Z) (ingest_url : string) (sample_count : nat) (metric_names : list string)
  (readback : list (string * series)) (timing_ms : pyval) (now_ms : option Z) (freshness_ms : Z) : pyval * option string :=
  let '(anchor_ms, clock_source) :=
    match now_ms with
    | Some t => (Some t, "caller")
    | None => match readback_server_ms readback with
              | Some t => (Some t, "signalfx_http_date")
              | None => (None, "unavailable")
              end
    end in
  let fresh := match anchor_ms with
               | Some anchor => sort_strs (map fst (filter (fun kv : string * series => is_fresh anchor freshness_ms kv.2 = true) readback))
               | None => []
               end in
  let missing := sort_strs (filter (fun m => m ∉ fresh) (dedup metric_names)) in
  let strs l := PList (map PStr l) in
  (PDict [("push_status", PInt push_status); ("ingest_url", PStr ingest_url); ("sample_count", PInt (Z.of_nat sample_count));
          ("metrics_pushed", PInt (Z.of_nat (length metric_names))); ("metrics_fresh", PInt (Z.of_nat (length fresh)));
          ("missing_metrics", strs missing); ("readback", PDict (map (fun kv : string * series => (kv.1, series_val kv.2)) readback));
          ("timing_ms", timing_ms); ("freshness_ms", PInt freshness_ms);
          ("readback_now_ms", match anchor_ms with Some t => PInt t | None => PNone end); ("clock_source", PStr clock_source)],
   match anchor_ms with
   | None => Some clock_error
   | Some _ =>
       match missing with
       | [] => None
       | _ => Some ("SignalFx POST returned " +:+ pretty push_status +:+ " but " +:+ pretty (length missing) +:+ " of "
                +:+ pretty (length metric_names) +:+ " pushed metrics have no fresh time series in Splunk MTS -- the POST "
                +:+ "succeeded yet the datapoints were not ingested")
       end
   end).

(** ** The writer *)

Record SignalFxWriter := Writer {
  verify_readback : bool;
  freshness_ms : Z;
  push : bool;
  resolved_token : string;
  resolved_ingest_url : string;
  resolved_realm : string;
  resolved_api_token : string
}.

(** [SignalFxWriter(...)] *)
Definition new_writer (e : Config.env) (read : string -> res string) (ingest_url : option string) (token : pyval)
  (token_env : option string) (token_file : pyval) (realm api_token_env : option string) (verify : bool) (freshness : Z) (push : bool)
  : res SignalFxWriter :=
  if push then
    let? token := resolve_signalfx_token e read token_env token token_file in
    let? url := resolve_signalfx_ingest_url e ingest_url in
    Ok (Writer verify freshness push token url (if verify then Config.signalfx_realm e realm else "")
          (if verify then Config.signalfx_api_token e api_token_env else ""))
  else Ok (Writer verify freshness push "" "" "" "").

(** [SignalFxWriter.write_once(samples)]; [timing_ms] are the durations that are measured *)
Definition write_once (w : SignalFxWriter) (timing_ms : pyval) (samples : list MetricSample) : MR CommandResult :=
  let! body := lift_res (to_signalfx_body samples) in
  let n := PInt (Z.of_nat (length samples)) in
  if push w then
    let! status := push_signalfx body (resolved_token w) (resolved_ingest_url w) in
    if verify_readback w then
      if PyStr.nonempty (resolved_realm w) && PyStr.nonempty (resolved_api_token w) then
        let metric_names := sort_strs (dedup (map metric samples)) in
        let dimensions := Identity.common_sample_dimensions (map dimensions samples) in
        let! readback := verify_signalfx_readback (resolved_realm w) (resolved_api_token w) metric_names dimensions in
        let '(summary, error) := build_readback_result status (resolved_ingest_url w) (length samples) metric_names readback timing_ms
                                   None (freshness_ms w) in
        ret (mkResult summary PNone summary (opt_str error))
      else raise (ValueError ("--verify-readback needs a realm (--signalfx-realm or SPLUNK_O11Y_REALM) and an API token "
                              +:+ "(--signalfx-api-token-env or SPLUNK_API_TOKEN)"))
    else ret (mkResult (PDict body) PNone
               (PDict [("sample_count", n); ("push_status", PInt status); ("ingest_url", PStr (resolved_ingest_url w))]) PNone)
  else ret (mkResult (PDict body) PNone (PDict [("sample_count", n)]) PNone).

(** ** The push loop *)

(** What the loop does in a cycle: a request, a reported error, a sleep. *)
Inductive event :=
| Sent (q : request)
| Reported (e : exn)
| Slept (seconds : dec).

Definition requests (es : list event) : list request :=
  omap (fun e => match e with Sent q => Some q | _ => None end) es.

(** What a cycle of the loop meets: the samples of its scrape, the random draw and the time that the push took. *)
Record weather := Weather { scraped : res (list MetricSample); draw : dec; elapsed : dec }.

(** [max(1.0, jittered_interval(interval) - elapsed)] *)
Definition pause (interval : pyval) (w : weather) : res dec :=
  let? j := jittered_interval interval (Numbers.float_val POLL_JITTER_FRACTION) (Numbers.float_val (draw w)) in
  let d := Numbers.dec_add j (dec_neg (elapsed w)) in
  Ok (if Numbers.dec_lt (1, 0) d then d else (1, 0)).

(** The [try] of a cycle *)
Definition scrape_and_push (token ingest_url : string) (w : weather) : MR Z :=
  let! samples := lift_res (scraped w) in
  let! body := lift_res (to_signalfx_body samples) in
  push_signalfx body token ingest_url.

(** One cycle of [run_signalfx_loop] *)
Definition cycle (token ingest_url : string) (interval : pyval) (w : weather) (es : list event) : list event * res Datatypes.unit :=
  let '(log, r) := scrape_and_push token ingest_url w (requests es) in
  let es := es ++ map Sent (drop (length (requests es)) log) in
  let sleep (es : list event) := match pause interval w with
                                 | Ok d => (es ++ [Slept d], Ok tt)
                                 | Raise e => (es, Raise e)
                                 | NoFuel => (es, NoFuel)
                                 end in
  match r with
  | Ok _ => sleep es
  | Raise e => if is_Exception e then sleep (es ++ [Reported e]) else (es, Raise e)
  | NoFuel => (es, NoFuel)
  end.

(** [run_signalfx_loop] for as many cycles as are given *)
Fixpoint run_signalfx_loop (token ingest_url : string) (interval : pyval) (cycles : list weather) (es : list event)
  : list event * res Datatypes.unit :=
  match cycles with
  | [] => (es, Ok tt)
  | w :: rest =>
      match cycle token ingest_url interval w es with
      | (es, Ok _) => run_signalfx_loop token ingest_url interval rest es
      | r => r
      end
  end.
End Network.

(** ** The envelopes partition the samples *)

Definition typed (s : MetricSample) : Prop := metric_type s ∈ METRIC_KINDS.

(** The points of an envelope. *)
Definition points_of (key : string) (samples : list MetricSample) : list pyval :=
  map datapoint (filter (fun s => envelope s = key) samples).

Lemma points_of_none key samples : Forall (fun s => envelope s <> key) samples -> points_of key samples = [].
Proof.
  unfold points_of. induction 1 as [|s samples Hs _ IH]; [done|]. by rewrite filter_cons_False.
Qed.

Lemma add_datapoints samples body b0 :
  Forall typed samples -> dict_keys body = dict_keys empty_body -> res_fold add_datapoint body samples = b0 ->
  exists body', b0 = Ok body' /\ dict_keys body' = dict_keys empty_body /\
    forall key, key ∈ METRIC_KINDS -> dict_get key body' = (fun ps => ps ++ points_of key samples) <$> dict_get key body.
Proof.
  intros Hs. revert body b0. induction Hs as [|s samples Hs _ IH]; intros body b0 Hb; cbn [res_fold].
  - intros <-. exists body. repeat split; [done|]. intros key _. unfold points_of. simpl. destruct (dict_get key body); [|done].
    simpl. by rewrite app_nil_r.
  - assert (envelope s ∈ METRIC_KINDS) as Hkind by (unfold envelope; case_decide; [by repeat constructor|done]).
    assert (is_Some (dict_get (envelope s) body)) as [ps Hps].
    { destruct (dict_get (envelope s) body) eqn:Hg; [by eexists|]. exfalso. apply dict_get_None in Hg. rewrite Hb in Hg. apply Hg.
      unfold METRIC_KINDS in Hkind. cbn. set_solver. }
    unfold add_datapoint at 1. rewrite Hps. simpl. intros H. eapply IH in H.
    + destruct H as (body' & -> & Hk & Hget). exists body'. repeat split; [done|]. intros key Hkey. rewrite Hget by done.
      rewrite dict_get_set. unfold points_of. rewrite filter_cons. destruct (decide (key = envelope s)) as [->|Hne].
      * rewrite Hps, decide_True by done. simpl. by rewrite <- app_assoc.
      * rewrite decide_False by (intros H'; by apply Hne). done.
    + rewrite dict_keys_set, decide_True; [done|]. by eapply dict_get_Some_keys.
Qed.

(** Every sample of a known type is in exactly one envelope of the body, in order, and nothing else is: counters travel as
    cumulative counters, and no plain counter is ever sent for a sample declared as one. *)
Theorem envelopes_partition samples :
  Forall typed samples ->
  exists body, to_signalfx_body samples = Ok body /\
    (forall key, dict_get key body = match points_of key samples with [] => None | ps => Some (PList ps) end) /\
    length samples = (length (points_of "gauge" samples) + length (points_of "counter" samples)
                      + length (points_of "cumulative_counter" samples))%nat /\ points_of "counter" samples = [].
Proof.
  intros Hs. unfold to_signalfx_body.
  destruct (add_datapoints samples empty_body _ Hs eq_refl eq_refl) as (body' & -> & Hk & Hget).
  assert (forall key, key ∈ METRIC_KINDS -> dict_get key body' = Some (points_of key samples)) as Hp.
  { intros key Hkey. rewrite Hget by done. unfold METRIC_KINDS in Hkey. rewrite !elem_of_cons in Hkey.
    destruct Hkey as [->|[->|[->|Hkn%elem_of_nil]]]; done. }
  assert (points_of "counter" samples = []) as Hc.
  { apply points_of_none. apply Forall_true. intros s. unfold envelope. by case_decide. }
  eexists. split; [reflexivity|]. split; [|split; [|done]].
  - intros key. destruct body' as [|[k1 p1] [|[k2 p2] [|[k3 p3] [|]]]]; try done. injection Hk as -> -> ->.
    pose proof (Hp "gauge" ltac:(by repeat constructor)) as H1. pose proof (Hp "counter" ltac:(by repeat constructor)) as H2.
    pose proof (Hp "cumulative_counter" ltac:(by repeat constructor)) as H3. cbn in H1, H2, H3. injection H1 as ->. injection H2 as ->.
    injection H3 as ->. rewrite Hc. cbn [omap list_omap snd fst].
    assert (key ∉ METRIC_KINDS -> points_of key samples = []) as Hn.
    { intros Hkey. apply points_of_none. eapply Forall_impl; [exact Hs|].
      intros s Ht <-. apply Hkey. unfold envelope. case_decide; [by repeat constructor|done]. }
    destruct (decide (key ∈ METRIC_KINDS)) as [Hin|Hin].
    + unfold METRIC_KINDS in Hin. rewrite !elem_of_cons in Hin. destruct Hin as [->|[->|[->|Hin%elem_of_nil]]]; [..|done];
        rewrite ?Hc; destruct (points_of "gauge" samples), (points_of "cumulative_counter" samples); done.
    + rewrite Hn by done. unfold METRIC_KINDS in Hin. rewrite !not_elem_of_cons in Hin. destruct Hin as (N1 & N2 & N3 & _).
      destruct (points_of "gauge" samples), (points_of "cumulative_counter" samples); cbn [dict_get]; by rewrite ?decide_False.
  - rewrite Hc. unfold points_of. rewrite !length_map. clear -Hs. induction Hs as [|s samples Ht _ IH]; [done|].
    assert (envelope s = "gauge" \/ envelope s = "cumulative_counter") as [He|He].
    { unfold typed, METRIC_KINDS in Ht. rewrite !elem_of_cons in Ht. unfold envelope.
      destruct Ht as [->|[->|[->|Ht%elem_of_nil]]]; [by left|by right..|done]. }
    all: rewrite !filter_cons; repeat case_decide; try congruence; cbn [length] in *; lia.
Qed.

(** ** The verdict *)

Lemma sort_strs_elem x l : x ∈ sort_strs l <-> x ∈ l.
Proof. by rewrite (sort_strs_perm l). Qed.

Lemma elem_of_dedup x l : x ∈ dedup l <-> x ∈ l.
Proof. apply dedup_spec. Qed.

Lemma match_missing (missing : list string) (text : string) (P : Prop) :
  (missing = [] <-> P) -> (match missing with [] => None | _ :: _ => Some text end = None <-> P).
Proof. intros <-. by destruct missing. Qed.

Definition is_anchor (now_ms : option Z) (readback : list (string * series)) (anchor : Z) : Prop :=
  now_ms = Some anchor \/ (now_ms = None /\ readback_server_ms readback = Some anchor).

(** The newest of the positive server times. *)
Lemma server_ms_positive readback anchor : readback_server_ms readback = Some anchor -> 0 < anchor.
Proof.
  unfold readback_server_ms. assert (Forall (fun z => 0 < z) (omap (fun kv : string * series =>
    if 0 <? server_ms kv.2 then Some (server_ms kv.2) else None) readback)) as Hall.
  { apply Forall_forall. intros z (kv & _ & Hz)%list_elem_of_omap. destruct (Z.ltb_spec 0 (server_ms kv.2)); [|done]. by injection Hz as <-. }
  destruct (omap _ _) as [|z l]; [done|]. intros [= <-]. apply Forall_cons in Hall as [Hz Hall]. revert z Hz.
  induction Hall as [|x l Hx _ IH]; intros z Hz; [done|]. apply IH. lia.
Qed.

(** It is the server time of one of the answers, and none is newer. *)
Lemma server_ms_newest readback anchor : readback_server_ms readback = Some anchor ->
  (exists kv, kv ∈ readback /\ server_ms kv.2 = anchor) /\ forall kv, kv ∈ readback -> server_ms kv.2 <= anchor.
Proof.
  intros Ha. pose proof (server_ms_positive _ _ Ha) as Hpos. revert Ha. unfold readback_server_ms.
  set (f := fun kv : string * series => if 0 <? server_ms kv.2 then Some (server_ms kv.2) else None).
  assert (forall z l, fold_left Z.max l z ∈ z :: l /\ Forall (fun x => x <= fold_left Z.max l z) (z :: l)) as Hmax.
  { intros z l. revert z. induction l as [|x l IH]; intros z; cbn [fold_left]; [split; [by left|repeat constructor; lia]|].
    destruct (IH (Z.max z x)) as [Hin [Hz Hl]%Forall_cons]. split.
    - apply elem_of_cons in Hin as [->|Hin]; [destruct (Z.max_spec z x) as [[_ ->]|[_ ->]]; [right; left|left]|right; by right].
    - constructor; [lia|]. constructor; [lia|done]. }
  destruct (omap f readback) as [|z l] eqn:Ho; [done|]. intros [= <-]. destruct (Hmax z l) as [Hin Hall]. rewrite <- Ho in Hin, Hall.
  assert (forall kv x, f kv = Some x -> x = server_ms kv.2) as Hf by (unfold f; intros kv x; case_match; congruence). split.
  - apply list_elem_of_omap in Hin as (kv & Hkv & Hx). exists kv. split; [done|]. by rewrite <- (Hf _ _ Hx).
  - intros kv Hkv. destruct (Z.ltb_spec 0 (server_ms kv.2)) as [Hp|]; [|lia]. rewrite Forall_forall in Hall. apply Hall.
    apply list_elem_of_omap. exists kv. split; [done|]. unfold f. by rewrite (proj2 (Z.ltb_lt _ _) Hp).
Qed.

(** The time stamp of a row of the document *)
Definition stamped (data : pyval) (t : Z) : Prop :=
  exists d rows row key x, data = PDict d /\ iterate (py_or (dget "results" d) (PList [])) = Ok rows /\ PDict row ∈ rows /\
    key ∈ ["lastUpdated"; "sf_updatedOnMs"; "updatedOnMs"; "created"] /\ num_of (dget key row) = Some x /\ t = Numbers.truncate x.1 x.2.

(** The newest time of a series is the time stamp of a row, and its server time is that of the answer. *)
Lemma read_series_stamped data server sr : read_series data server = Ok sr ->
  server_ms sr = server /\ (newest_ms sr = 0 \/ stamped data (newest_ms sr)).
Proof.
  unfold read_series. destruct data as [| | | | | | |d|]; try done. intros (rows & Hr & (newest & Hn & (n & _ & [= <-])%res_bind_ok)%res_bind_ok)%res_bind_ok.
  split; [done|]. cbn [newest_ms]. revert newest Hn. unfold newest_of.
  assert (forall l, l ⊆ rows -> forall a newest, (a = 0 \/ stamped (PDict d) a) ->
    res_fold (fun newest row => match row with PDict d => Ok (fold_left (fun n key => newer n (dget key d)) STAMP_KEYS newest) | v => no_get v end) a l = Ok newest ->
    newest = 0 \/ stamped (PDict d) newest) as H; [|intros newest; apply (H rows ltac:(done)); by left].
  induction l as [|row l IH]; intros Hsub a newest Ha; cbn [res_fold]; [by intros [= <-]|].
  destruct row as [| | | | | | |row|]; try done. cbn [res_bind]. apply IH; [intros x Hx; apply Hsub; by right|].
  assert (forall keys, keys ⊆ STAMP_KEYS -> forall a, (a = 0 \/ stamped (PDict d) a) ->
    fold_left (fun n key => newer n (dget key row)) keys a = 0 \/ stamped (PDict d) (fold_left (fun n key => newer n (dget key row)) keys a)) as Hk;
    [|by apply Hk]. clear IH Ha a newest. induction keys as [|key keys IHk]; intros Hkeys a Ha; [done|]. cbn [fold_left].
  apply IHk; [intros x Hx; apply Hkeys; by right|]. unfold newer. destruct (num_of (dget key row)) as [x|] eqn:Hx; [|done].
  destruct (num_ltb _ _); [|done]. right. exists d, rows, row, key, x. split_and!; try done; [apply Hsub; by left|apply Hkeys; by left].
Qed.

Lemma verdict_exact_aux status url n names readback timing now freshness :
  (build_readback_result status url n names readback timing now freshness).2 = None <->
  exists anchor, is_anchor now readback anchor /\
    forall m, m ∈ names -> exists s, (m, s) ∈ readback /\ 0 < count s /\ anchor - freshness <= newest_ms s.
Proof.
  assert (forall anchor, sort_strs (filter (fun m => m ∉ sort_strs (map fst (filter (fun kv : string * series =>
      is_fresh anchor freshness kv.2 = true) readback))) (dedup names)) = [] <->
    forall m, m ∈ names -> exists s, (m, s) ∈ readback /\ 0 < count s /\ anchor - freshness <= newest_ms s) as Hmiss.
  { intros anchor. set (fresh := sort_strs (map fst _)).
    assert (forall m, m ∈ fresh <-> exists s, (m, s) ∈ readback /\ 0 < count s /\ anchor - freshness <= newest_ms s) as Hf.
    { intros m. unfold fresh. rewrite sort_strs_elem. split.
      - intros ([m' s] & -> & [Hs Hin]%list_elem_of_filter)%list_elem_of_fmap. apply andb_true_iff in Hs as [H1%Z.ltb_lt H2%Z.leb_le]. by exists s.
      - intros (s & Hin & H1%Z.ltb_lt & H2%Z.leb_le). apply list_elem_of_fmap. exists (m, s). split; [done|]. apply list_elem_of_filter. split; [|done].
        unfold is_fresh. simpl. by rewrite H1, H2. }
    split.
    - intros Hnil m Hm. apply Hf. destruct (decide (m ∈ fresh)) as [|Hn]; [done|]. exfalso.
      assert (m ∈ sort_strs (filter (fun m => m ∉ fresh) (dedup names))) as Hin.
      { apply sort_strs_elem, list_elem_of_filter. split; [done|]. by apply elem_of_dedup. }
      rewrite Hnil in Hin. by apply elem_of_nil in Hin.
    - intros Hall. destruct (sort_strs (filter _ _)) as [|m l] eqn:Hs; [done|]. exfalso.
      assert (m ∈ sort_strs (filter (fun m => m ∉ fresh) (dedup names))) as Hin by (rewrite Hs; by left).
      apply sort_strs_elem, list_elem_of_filter in Hin as [Hn Hin]. apply (proj1 (elem_of_dedup _ _)) in Hin. exact (Hn (proj2 (Hf m) (Hall m Hin))). }
  unfold build_readback_result, is_anchor. destruct now as [anchor|]; [|destruct (readback_server_ms readback) as [anchor|]]; cbn [snd].
  - rewrite (match_missing _ _ _ (Hmiss anchor)). split; [intros H0; exists anchor; by split; [left|]|].
    by intros (a & [[= ->]|[? _]] & Ha).
  - rewrite (match_missing _ _ _ (Hmiss anchor)). split; [intros H0; exists anchor; by split; [right|]|].
    by intros (a & [?|[_ [= ->]]] & Ha).
  - split; [done|]. intros (a & [?|[_ ?]] & _); done.
Qed.

(** The verdict of a readback is clean exactly when there is a clock to compare with and every metric that was pushed has a
    series that is not empty and was updated within the freshness window. *)
Theorem verdict_exact status url n names readback timing now freshness :
  (build_readback_result status url n names readback timing now freshness).2 = None <->
  exists anchor, is_anchor now readback anchor /\
    forall m, m ∈ names -> exists s, (m, s) ∈ readback /\ 0 < count s /\ anchor - freshness <= newest_ms s.
Proof. apply verdict_exact_aux. Qed.

(** ** Requests *)

Definition https_url (url : string) : Prop :=
  exists p, Urls.urlsplit url = Ok p /\ PyStr.lower (Urls.scheme p) = "https" /\ PyStr.nonempty (Urls.netloc p) = true.

Lemma require_https_ok url label p : require_https_url url label = Ok p -> https_url url.
Proof.
  unfold require_https_url. intros (p' & Hp & H)%res_bind_ok. case_decide; [|done]. destruct (PyStr.nonempty _) eqn:Hn; [|done].
  by exists p'.
Qed.

Lemma require_datapoint_ok url u : require_datapoint_url url = Ok u -> u = url /\ https_url url.
Proof.
  unfold require_datapoint_url. intros (p & Hp & H)%res_bind_ok. case_decide; [|done]. injection H as <-.
  split; [done|]. by eapply require_https_ok.
Qed.

Section Requests.
Context (net : list request -> request -> reply) (parse_date : string -> option Z).

(** The peer answered with a success. *)
Definition answered (log : list request) (q : request) (status : Z) (date : option string) (body : res pyval) : Prop :=
  net log q = Reply status date body /\ 200 <= status < 300.

Lemma open_ok q log : exists r, open_no_redirect_request net q log = (log ++ [q], r) /\
  forall a, r = Ok a -> answered log q a.1.1 a.1.2 a.2.
Proof.
  unfold open_no_redirect_request, bind, get_state, modify. simpl. unfold answered.
  destruct (net log q) as [st date body| |e]; try (by eexists).
  destruct ((200 <=? st) && (st <? 300)) eqn:Hst; [|by eexists].
  apply andb_true_iff in Hst as [H1%Z.leb_le H2%Z.ltb_lt]. eexists. split; [reflexivity|]. by intros a [= <-].
Qed.

(** A push sends one POST of the token, to the https endpoint, or nothing. *)
Lemma push_requests body token url log :
  exists l r, push_signalfx net body token url log = (log ++ l, r) /\
    (l = [] \/ exists data, l = [Req "POST" url token (Some data)] /\ https_url url) /\
    forall st, r = Ok st -> exists q date b, l = [q] /\ answered log q st date b.
Proof.
  unfold push_signalfx, bind, lift_res. destruct (require_datapoint_url url) as [u|e|] eqn:Hu;
    [|eexists [], _; rewrite app_nil_r; split; [reflexivity|]; split; [by left|done]..].
  apply require_datapoint_ok in Hu as [-> Hs].
  destruct (Json.dumps_with _ _ _ _) as [data|e|];
    [|eexists [], _; rewrite app_nil_r; split; [reflexivity|]; split; [by left|done]..].
  destruct (open_ok (Req "POST" url token (Some data)) log) as (r & -> & Hr).
  destruct r as [[[st date] b]|e|]; eexists [_], _; (split; [reflexivity|]); (split; [right; by exists data|]); [|done..].
  intros st' [= <-]. eexists _, date, b. split; [done|]. by apply (Hr _ eq_refl).
Qed.

Definition get_request (realm api_token metric : string) (ds : dims) : request :=
  Req "GET" (readback_url realm metric ds) api_token None.

Lemma readback_request realm tok m ds log :
  exists l r, signalfx_metric_readback net parse_date realm tok m ds log = (log ++ l, r) /\
    (l = [] \/ (l = [get_request realm tok m ds] /\ https_url (readback_url realm m ds))) /\
    forall s, r = Ok s -> exists st date data, l = [get_request realm tok m ds] /\
      answered log (get_request realm tok m ds) st date (Ok data) /\ read_series data (response_date_ms parse_date date) = Ok s.
Proof.
  unfold signalfx_metric_readback, bind, lift_res. destruct (require_https_url _ _) as [u|e|] eqn:Hu;
    [|eexists [], _; rewrite app_nil_r; split; [reflexivity|]; split; [by left|done]..].
  apply require_https_ok in Hu. destruct (open_ok (get_request realm tok m ds) log) as (r & Ho & Hr). unfold get_request in *.
  rewrite Ho. destruct r as [[[st date] b]|e|]; [|eexists [_], _; split; [reflexivity|]; split; [by right|done]..].
  specialize (Hr _ eq_refl). cbn [fst snd] in *.
  destruct b as [data|e|]; [|destruct e|]; (eexists [_], _; split; [reflexivity|]; split; [by right|]); try done.
  intros s Hs. by exists st, date, data.
Qed.

Lemma verify_requests realm tok ds names log :
  exists l r, verify_signalfx_readback net parse_date realm tok names ds log = (log ++ l, r) /\
    Forall (fun q => exists m, m ∈ names /\ q = get_request realm tok m ds /\ https_url (r_url q)) l /\
    (length l <= length (dedup names))%nat /\
    forall rb, r = Ok rb -> map fst rb = sort_strs (dedup names) /\
      forall m s, (m, s) ∈ rb -> exists l1 l2 st date data, l = l1 ++ get_request realm tok m ds :: l2 /\
        answered (log ++ l1) (get_request realm tok m ds) st date (Ok data) /\
        read_series data (response_date_ms parse_date date) = Ok s.
Proof.
  unfold verify_signalfx_readback. assert (forall m, m ∈ sort_strs (dedup names) -> m ∈ names) as Hsub
    by (intros m; by rewrite sort_strs_elem, elem_of_dedup). rewrite <- (Permutation_length (sort_strs_perm (dedup names))).
  revert Hsub log. generalize (sort_strs (dedup names)) as ms. induction ms as [|m ms IH]; intros Hsub log; cbn [mapM].
  - exists [], (Ok []). rewrite app_nil_r. repeat split; [constructor|simpl; lia|by injection H as <-|]. intros m s Hin.
    injection H as <-. by apply elem_of_nil in Hin.
  - destruct (readback_request realm tok m ds log) as (l & r & Hr & Hl & Hs).
    assert (Forall (fun q => exists m, m ∈ names /\ q = get_request realm tok m ds /\ https_url (r_url q)) l /\ (length l <= 1)%nat) as [Hf Hlen].
    { destruct Hl as [->|[-> Hu]]; split; try constructor; try constructor; try (simpl; lia). exists m. split; [|done]. apply Hsub. by left. }
    destruct r as [s|e|].
    2: { exists l, (Raise e). unfold bind at 1 2. rewrite Hr. repeat split; [done|simpl; lia|done..]. }
    2: { exists l, NoFuel. unfold bind at 1 2. rewrite Hr. repeat split; [done|simpl; lia|done..]. }
    destruct (Hs s eq_refl) as (st & date & data & -> & Ha & Hd).
    assert ((let! s := signalfx_metric_readback net parse_date realm tok m ds in ret (m, s)) log = (log ++ [get_request realm tok m ds], Ok (m, s)))
      as Hone by (by rewrite (bind_ok _ _ _ _ _ Hr)).
    rewrite (bind_ok _ _ _ _ _ Hone).
    destruct (IH (fun m' Hm' => Hsub m' (list_elem_of_further _ _ _ Hm')) (log ++ [get_request realm tok m ds])) as (l' & r' & Hr' & Hf' & Hlen' & Hok).
    assert (Forall (fun q => exists m, m ∈ names /\ q = get_request realm tok m ds /\ https_url (r_url q)) (get_request realm tok m ds :: l'))
      as Hall by (apply Forall_cons in Hf as [? _]; by constructor).
    unfold bind at 1. rewrite Hr', <- app_assoc.
    destruct r' as [rb|e|]; eexists (get_request realm tok m ds :: l'), _; (split; [reflexivity|]); (split; [done|]);
      (split; [cbn [length]; lia|]); [|done..].
    intros rb' [= <-]. destruct (Hok rb eq_refl) as [Hk Hin]. split; [simpl; by rewrite Hk|].
    intros m' s' [[= -> ->]|Hm']%elem_of_cons.
    + exists [], l', st, date, data. rewrite app_nil_r. done.
    + destruct (Hin m' s' Hm') as (l1 & l2 & st' & date' & data' & -> & Ha' & Hd').
      exists (get_request realm tok m ds :: l1), l2, st', date', data'. split; [done|]. split; [|done]. by rewrite <- app_assoc in Ha'.
Qed.

(** The ingest token, to the configured https endpoint. *)
Definition pushes (w : SignalFxWriter) (q : request) : Prop :=
  r_method q = "POST" /\ r_token q = resolved_token w /\ r_url q = resolved_ingest_url w /\ https_url (r_url q).

(** The API token, over https to the readback interface, for a metric of the samples. *)
Definition reads_back (w : SignalFxWriter) (samples : list MetricSample) (q : request) : Prop :=
  exists m ds, m ∈ map metric samples /\ q = get_request (resolved_realm w) (resolved_api_token w) m ds /\ https_url (r_url q).

Definition kept (w : SignalFxWriter) (samples : list MetricSample) (log log' : list request) : Prop :=
  exists posts gets, log' = log ++ posts ++ gets /\ (length posts <= 1)%nat /\ Forall (pushes w) posts /\
    Forall (reads_back w samples) gets /\ (length gets <= length (dedup (map metric samples)))%nat /\
    (posts <> [] -> push w = true) /\
    (gets <> [] -> verify_readback w = true /\ exists q st date b, posts = [q] /\ answered log q st date b).

Lemma kept_posts w samples log posts :
  posts = [] \/ (push w = true /\ exists data, posts = [Req "POST" (resolved_ingest_url w) (resolved_token w) (Some data)] /\
                  https_url (resolved_ingest_url w)) ->
  kept w samples log (log ++ posts).
Proof.
  intros Hp. exists posts, []. rewrite app_nil_r. destruct Hp as [->|(Hpush & data & -> & Hu)].
  - repeat split; try done; try constructor; simpl; lia.
  - repeat split; try done; try constructor; simpl; try lia; by repeat constructor.
Qed.

(** Where tokens go.  One run of the writer sends nothing when it does not push; otherwise at most one POST, which carries the
    ingest token to the configured https endpoint, and only when that was answered with a success, and a readback was asked for,
    GETs, which carry the API token over https to the readback interface, at most one for each metric.  No request
    follows a redirect. *)
Theorem tokens_stay w timing samples log :
  kept w samples log (write_once net parse_date w timing samples log).1.
Proof.
  assert (kept w samples log log) as Hnone by (rewrite <- (app_nil_r log) at 2; apply kept_posts; by left).
  unfold write_once, bind at 1, lift_res at 1. destruct (to_signalfx_body samples) as [body|e|]; [|done..].
  destruct (push w) eqn:Hpush; [|done].
  destruct (push_requests body (resolved_token w) (resolved_ingest_url w) log) as (l & r & Hr & Hl & Hok).
  assert (kept w samples log (log ++ l)) as Hposts by (apply kept_posts; destruct Hl as [->|?]; [by left|by right]).
  unfold bind at 1. rewrite Hr. destruct r as [st|e|]; [|done..]. destruct (verify_readback w) eqn:Hv; [|done].
  destruct (_ && _); [|done]. set (names := sort_strs _). set (ds := Identity.common_sample_dimensions _).
  destruct (verify_requests (resolved_realm w) (resolved_api_token w) ds names (log ++ l)) as (gets & r & Hg & Hgets & Hlen & _).
  unfold bind. rewrite Hg. destruct Hl as [->|(data & -> & Hu)]; [by destruct (Hok st eq_refl) as (? & ? & ? & ? & _)|].
  assert (forall m, m ∈ names <-> m ∈ map metric samples) as Hn.
  { intros m. unfold names. by rewrite sort_strs_elem, elem_of_dedup. }
  enough (kept w samples log ((log ++ [Req "POST" (resolved_ingest_url w) (resolved_token w) (Some data)]) ++ gets)) as H
    by (destruct r; [|exact H..]; cbn; by destruct (build_readback_result _ _ _ _ _ _ _ _)).
  exists [Req "POST" (resolved_ingest_url w) (resolved_token w) (Some data)], gets. rewrite <- app_assoc.
  split; [done|]. split; [simpl; lia|]. split; [by repeat constructor|]. split; [|split; [|split; [done|]]].
  - eapply Forall_impl; [exact Hgets|]. intros q (m & Hm & -> & Hu'). exists m, ds. split; [by apply Hn|]. done.
  - assert (dedup names ≡ₚ dedup (map metric samples)) as Hd; [|by rewrite <- Hd].
    apply NoDup_Permutation; [apply dedup_spec..|]. intros m. by rewrite !elem_of_dedup.
  - intros _. split; [done|]. destruct (Hok st eq_refl) as (q & date & b & Heq & Ha). injection Heq as <-. by eexists _, st, date, b.
Qed.

(** The readback of a metric was asked after [log], scoped by the dimensions that all samples share, and answered. *)
Definition asked (w : SignalFxWriter) (samples : list MetricSample) (m : string) (log' : list request) (date : option string) (data : pyval) : Prop :=
  let q := get_request (resolved_realm w) (resolved_api_token w) m (Identity.common_sample_dimensions (map dimensions samples)) in
  exists l1 l2 st, log' = l1 ++ q :: l2 /\ answered l1 q st date (Ok data).

(** C29. A clean verdict is not taken on trust: when a verified run reports no error, there is a server time, the positive time
    in the Date header of the answer for one of the metrics, and for every metric of the samples the API was asked, scoped by
    the dimensions that all samples share, and answered, with a Date that is not after that server time, with a series that
    counts as not empty and whose newest time stamp is at most the freshness window before it; that stamp is the one of a
    row of the answer, or zero when the answer has none. *)
Theorem readback_confirms w timing samples log log' r :
  push w = true -> verify_readback w = true -> write_once net parse_date w timing samples log = (log', Ok r) -> error r = PNone ->
  exists anchor, 0 < anchor /\
    (exists s h data, s ∈ samples /\ asked w samples (metric s) log' (Some h) data /\ parse_date h = Some anchor) /\
    forall s, s ∈ samples -> exists date data sr, asked w samples (metric s) log' date data /\
      (forall h t, date = Some h -> h <> "" -> parse_date h = Some t -> t <= anchor) /\
      read_series data (response_date_ms parse_date date) = Ok sr /\ 0 < count sr /\
      anchor - freshness_ms w <= newest_ms sr /\ (newest_ms sr = 0 \/ stamped data (newest_ms sr)).
Proof.
  intros Hp Hv Hw He. unfold write_once in Hw. apply bind_inv_ok in Hw as (s1 & body & Hb & Hw). injection Hb as <- _.
  rewrite Hp in Hw. apply bind_inv_ok in Hw as (s2 & st & Hpush & Hw). rewrite Hv in Hw. destruct (_ && _); [|done].
  apply bind_inv_ok in Hw as (s3 & rb & Hrb & Hw). set (names := sort_strs _) in *. set (ds := Identity.common_sample_dimensions _) in *.
  destruct (build_readback_result _ _ _ _ _ _ _ _) as [summary verdict] eqn:Hbr. injection Hw as -> <-.
  assert (verdict = None) as -> by (destruct verdict; done).
  assert ((build_readback_result st (resolved_ingest_url w) (length samples) names rb timing None (freshness_ms w)).2 = None) as Hnone
    by (by rewrite Hbr).
  apply verdict_exact_aux in Hnone as (anchor & [?|[_ Ha]] & Hfresh); [done|].
  destruct (push_requests body (resolved_token w) (resolved_ingest_url w) log) as (l & rr & Hr & _). rewrite Hr in Hpush.
  injection Hpush as <- ->.
  destruct (verify_requests (resolved_realm w) (resolved_api_token w) ds names (log ++ l)) as (gets & rr & Hg & _ & _ & Hok).
  rewrite Hg in Hrb. injection Hrb as <- ->. destruct (Hok rb eq_refl) as [Hkeys Hin].
  assert (forall m sr, (m, sr) ∈ rb -> exists date data, asked w samples m ((log ++ l) ++ gets) date data /\
    read_series data (response_date_ms parse_date date) = Ok sr) as Hans.
  { intros m sr Hsr. destruct (Hin _ _ Hsr) as (l1 & l2 & st' & date & data & -> & Hans & Hrd).
    exists date, data. split; [|done]. exists ((log ++ l) ++ l1), l2, st'. by rewrite !app_assoc. }
  assert (forall m, m ∈ names <-> m ∈ map metric samples) as Hnames by (intros m; unfold names; by rewrite sort_strs_elem, elem_of_dedup).
  pose proof (server_ms_positive _ _ Ha) as Hpos. destruct (server_ms_newest _ _ Ha) as [([m sr] & Hkv & Hsv) Hnew].
  exists anchor. split; [done|]. split.
  - destruct (Hans m sr Hkv) as (date & data & Hask & Hrd). destruct (read_series_stamped _ _ _ Hrd) as [Hs _]. cbn in Hsv. rewrite Hs in Hsv.
    assert (m ∈ sort_strs (dedup names)) as Hm by (rewrite <- Hkeys; by apply (list_elem_of_fmap_2' fst rb (m, sr))).
    rewrite sort_strs_elem, elem_of_dedup in Hm. apply Hnames, list_elem_of_fmap in Hm as (s & -> & Hin_s).
    unfold response_date_ms in Hsv. destruct date as [[|c h]|]; [lia| |lia]. exists s, (String c h), data. split_and!; try done.
    destruct (parse_date (String c h)); cbn in Hsv; [congruence|lia].
  - intros s Hs. destruct (Hfresh (metric s)) as (sr' & Hsr & Hc & Hn); [apply Hnames; by apply (list_elem_of_fmap_2 metric)|].
    destruct (Hans _ _ Hsr) as (date & data & Hask & Hrd). destruct (read_series_stamped _ _ _ Hrd) as [Hsv' Hst].
    exists date, data, sr'. split_and!; try done. intros h u -> Hh Hu. specialize (Hnew _ Hsr). cbn in Hnew. rewrite Hsv' in Hnew.
    unfold response_date_ms in Hnew. destruct h as [|c h]; [done|]. by rewrite Hu in Hnew.
Qed.

(** ** The loop *)

(** A result that the loop survives. *)
Definition survivable {A} (r : res A) : Prop :=
  match r with Ok _ => True | Raise e => is_Exception e = true | NoFuel => False end.

Lemma survivable_bind {A B} (r : res A) (f : A -> res B) :
  survivable r -> (forall a, survivable (f a)) -> survivable (let? a := r in f a).
Proof. destruct r; simpl; auto. Qed.

Lemma body_survivable samples : survivable (to_signalfx_body samples).
Proof.
  unfold to_signalfx_body. apply survivable_bind; [|done]. generalize empty_body as body.
  induction samples as [|s samples IH]; intros body; cbn [res_fold]; [done|]. apply survivable_bind; [|done].
  unfold add_datapoint. by destruct (dict_get _ body).
Qed.

Lemma url_survivable url : survivable (require_datapoint_url url).
Proof.
  unfold require_datapoint_url, require_https_url. apply survivable_bind.
  - apply survivable_bind; [|intros p; by repeat case_match]. unfold Urls.urlsplit. by repeat case_match.
  - intros p. by case_decide.
Qed.

Context (net_errors : forall log q e, net log q = Failed e -> is_Exception e = true).

Lemma open_survivable q log : survivable (open_no_redirect_request net q log).2.
Proof.
  unfold open_no_redirect_request, bind, get_state, modify. cbn. destruct (net log q) as [st date body| |e] eqn:Hn; [|done|].
  - by destruct ((200 <=? st) && (st <? 300)).
  - by apply net_errors in Hn.
Qed.

Lemma push_survivable token url w log : survivable (scraped w) -> survivable (scrape_and_push net token url w log).2.
Proof.
  intros Hs. unfold scrape_and_push, bind at 1, lift_res at 1. destruct (scraped w) as [samples|e|]; [|done..].
  unfold bind at 1, lift_res at 1. pose proof (body_survivable samples) as Hb. destruct (to_signalfx_body samples) as [body|e|]; [|done..].
  unfold push_signalfx, bind at 1, lift_res at 1. pose proof (url_survivable url) as Hu. destruct (require_datapoint_url url) as [u|e|]; [|done..].
  unfold bind at 1, lift_res at 1, Json.dumps_with. destruct (Json.render _ _ _); [|done].
  pose proof (open_survivable (Req "POST" u token (Some s)) log) as Ho. unfold bind.
  destruct (open_no_redirect_request _ _ _) as [log' [a|e|]]; done.
Qed.

(** What a cycle leaves behind: at most one POST of the token over https, a report unless it was answered, and a pause. *)
Definition cycle_events (token url : string) (es : list event) : Prop :=
  exists sent reported d, es = map Sent sent ++ map Reported reported ++ [Slept d] /\ (length sent <= 1)%nat /\
    Forall (fun q => r_method q = "POST" /\ r_token q = token /\ r_url q = url /\ https_url url) sent /\
    (length reported <= 1)%nat /\ Numbers.dec_le (1, 0) d = true /\
    (reported = [] -> exists q log st date b, sent = [q] /\ answered log q st date b).

Lemma pause_ok interval w : exists d, pause interval w = Ok d /\ Numbers.dec_le (1, 0) d = true.
Proof.
  unfold pause, jittered_interval, bounded_draw.
  assert (exists m e, Numbers.float_val (draw w) = PFloat m e) as (m & e & ->) by (unfold Numbers.float_val; repeat case_match; eauto).
  simpl. eexists. split; [reflexivity|]. case_match eqn:H; [|done]. by apply dec_lt_le.
Qed.

Lemma requests_app a b : requests (a ++ b) = requests a ++ requests b.
Proof. apply omap_app. Qed.

Lemma cycle_ok token url interval w es : survivable (scraped w) ->
  exists c, cycle net token url interval w es = (es ++ c, Ok tt) /\ cycle_events token url c.
Proof.
  intros Hs. unfold cycle. pose proof (push_survivable token url w (requests es) Hs) as Hsurv.
  assert (exists l r, scrape_and_push net token url w (requests es) = (requests es ++ l, r) /\
    (l = [] \/ exists data, l = [Req "POST" url token (Some data)] /\ https_url url) /\
    forall st, r = Ok st -> exists q date b, l = [q] /\ answered (requests es) q st date b) as (l & r & Hr & Hl & Hok).
  { unfold scrape_and_push, bind at 1, lift_res at 1. destruct (scraped w) as [ss|e|];
      [|eexists [], _; rewrite app_nil_r; split; [reflexivity|]; split; [by left|done]..].
    unfold bind at 1, lift_res at 1. destruct (to_signalfx_body ss) as [body|e|];
      [|eexists [], _; rewrite app_nil_r; split; [reflexivity|]; split; [by left|done]..]. apply push_requests. }
  rewrite Hr in *. rewrite drop_app_length. destruct (pause_ok interval w) as (d & -> & Hd).
  assert (forall reported, (length reported <= 1)%nat -> (reported = [] -> exists q log st date b, l = [q] /\ answered log q st date b) ->
    cycle_events token url (map Sent l ++ map Reported reported ++ [Slept d])) as Hev.
  { intros reported Hrep Hans. exists l, reported, d. repeat split; try done.
    - destruct Hl as [->|(data & -> & _)]; simpl; lia.
    - destruct Hl as [->|(data & -> & Hu)]; by repeat constructor. }
  destruct r as [st|e|]; simpl in Hsurv; [| |done].
  - eexists. rewrite <- app_assoc. split; [reflexivity|]. apply (Hev []); [simpl; lia|]. intros _.
    destruct (Hok st eq_refl) as (q & date & b & -> & Ha). by eexists q, _, st, date, b.
  - rewrite Hsurv. eexists. rewrite <- !app_assoc. split; [reflexivity|]. apply (Hev [e]); [simpl; lia|done].
Qed.

(** The push loop survives every error of a scrape and of the network, and is never faster than one push a second: whatever
    happens, each cycle sends at most one POST, reports the error when the push was not answered with a success, and pauses for at
    least one second before the next. *)
Theorem loop_survives token url interval cycles es :
  Forall (fun w => survivable (scraped w)) cycles ->
  exists cs, run_signalfx_loop net token url interval cycles es = (es ++ concat cs, Ok tt) /\
    length cs = length cycles /\ Forall (cycle_events token url) cs.
Proof.
  intros Hall. revert es. induction Hall as [|w cycles Hw _ IH]; intros es; cbn [run_signalfx_loop].
  - exists []. by rewrite app_nil_r.
  - destruct (cycle_ok token url interval w es Hw) as (c & -> & Hc). destruct (IH (es ++ c)) as (cs & -> & Hlen & Hcs).
    exists (c :: cs). cbn [concat length]. rewrite app_assoc, Hlen. repeat split. by constructor.
Qed.
End Requests.

(** ** Concrete runs *)

Definition sample_up : MetricSample := Sample "hw.bmc.up" (1, 0) [("node", "slot3"); ("service.version", "7")] "gauge" None PNone.

Definition sample_writer : SignalFxWriter :=
  Writer true 900000 true "ingest" "https://ingest.us1.signalfx.com/v2/datapoint" "us1" "api".

(** A peer that accepts a push and then reports the series as fresh. *)
Definition healthy_net (log : list request) (q : request) : reply :=
  if decide (r_method q = "POST") then Reply 200 None (Ok PNone)
  else Reply 200 (Some "now") (Ok (PDict [("count", PInt 1); ("results", PList [PDict [("lastUpdated", PInt 999000)]])])).

Lemma envelopes_partition_witness :
  exists body, to_signalfx_body [sample_up; sample_up] = Ok body /\ dict_get "gauge" body = Some (PList [datapoint sample_up; datapoint sample_up]).
Proof.
  destruct (envelopes_partition [sample_up; sample_up]) as (body & Hb & Hg & _); [by repeat constructor|].
  exists body. split; [exact Hb|]. rewrite Hg. reflexivity.
Defined.

Lemma readback_confirms_witness :
  exists log' r, write_once healthy_net (fun _ => Some 1000000) sample_writer PNone [sample_up] [] = (log', Ok r) /\
  exists anchor s h data, 0 < anchor /\ s ∈ [sample_up] /\ asked healthy_net sample_writer [sample_up] (metric s) log' (Some h) data.
Proof.
  destruct (write_once healthy_net (fun _ => Some 1000000) sample_writer PNone [sample_up] []) as [log' [r|e|]] eqn:Hw;
    [|vm_compute in Hw; done..]. exists log', r. split; [done|].
  destruct (readback_confirms healthy_net (fun _ => Some 1000000) sample_writer PNone [sample_up] [] log' r eq_refl eq_refl Hw)
    as (anchor & Ha & (s & h & data & Hs & Hask & _) & _); [vm_compute in Hw; by injection Hw as _ <-|].
  by exists anchor, s, h, data.
Defined.

Lemma loop_survives_witness :
  let down := fun (_ : list request) (_ : request) => Failed (RequestTimeout "20s") in
  exists cs, (run_signalfx_loop down "t" "https://h/v2/datapoint" (PInt 30)
     [Weather (Ok [sample_up]) (5, -1) (0, 0); Weather (Raise (RequestTimeout "scrape")) (5, -1) (40, 0)] []).1 = concat cs /\ length cs = 2%nat.
Proof.
  destruct (loop_survives (fun _ _ => Failed (RequestTimeout "20s")) ltac:(by intros log q e [= <-]) "t" "https://h/v2/datapoint" (PInt 30)
    [Weather (Ok [sample_up]) (5, -1) (0, 0); Weather (Raise (RequestTimeout "scrape")) (5, -1) (40, 0)] []) as (cs & Hr & Hl & _);
    [by repeat constructor|]. exists cs. rewrite Hr. by split.
Defined.
End SignalFx.
