(* ===== verification/Otlp.v ===== *)
(** * The OTLP writer

    src/redfish_ctl/telemetry/otlp/emit.py and writer.py: samples as the metrics data of
    OpenTelemetry, with the identity as resource attributes, and the export loop.  The exporter
    of the OpenTelemetry SDK is a parameter. *)

From stdpp Require Import base list gmap strings pretty.
From Stdlib Require Import Ascii ZArith Lia.
From S2P Require Import Prelude PyVal Effects Numbers Config Json Uuid Identity Telemetry Prometheus SignalFx.

Module Otlp.
Import Telemetry.
Local Open Scope Z_scope.
Local Open Scope py_scope.

Definition RESOURCE_DIM_KEYS : list string := Identity.RESOURCE_DIMENSIONS.

(** [resolve_otlp_config(endpoint, protocol, headers)] *)
Definition resolve_otlp_config (e : Config.env) (endpoint protocol headers : option string) : option string * string * option string :=
  (endpoint, default "" (Config.str_or protocol (Config.str_or (Config.otlp_protocol e) (Some "grpc"))), headers).

(** ** Metrics data *)

(** [NumberDataPoint] *)
Record point := Datum { attributes : dims; time_ns : Z; p_value : dec }.

Inductive points :=
| Sum (ps : list point)      (* cumulative and monotonic *)
| Gauge (ps : list point).

Record Metric := Metric_ { m_name : string; m_unit : string; m_data : points }.

Record MetricsData := Data { resource : dims; metrics : list Metric }.

(** The resource attributes that a sample adds. *)
Definition add_attrs (attrs ds : dims) : dims :=
  fold_left (fun attrs key =>
    match dict_get key ds with
    | Some v => if dict_in key attrs then attrs else dict_set key v attrs
    | None => attrs
    end) RESOURCE_DIM_KEYS attrs.

(** [_resource_attrs(samples, service_name)] *)
Definition resource_attrs (samples : list MetricSample) (service_name : string) : dims :=
  dict_setdefault "service.name" service_name (fold_left (fun attrs s => add_attrs attrs (dimensions s)) samples []).

Definition point_of (ts : Z) (s : MetricSample) : point :=
  Datum (filter (fun kv : string * string => kv.1 ∉ RESOURCE_DIM_KEYS) (dimensions s)) ts (value s).

(** An entry of [grouped]: the unit and type of the first sample, and the points. *)
Record group := Group { g_unit : option string; g_type : string; g_points : list point }.

(** [grouped.setdefault(sample.metric, {...})] and the append *)
Definition add_sample (ts : Z) (grouped : list (string * group)) (s : MetricSample) : list (string * group) :=
  let entry := dict_get_or (metric s) (Group (unit s) (metric_type s) []) grouped in
  dict_set (metric s) (Group (g_unit entry) (g_type entry) (g_points entry ++ [point_of ts s])) grouped.

Definition metric_of (ng : string * group) : Metric :=
  let '(name, g) := ng in
  Metric_ name (default "" (g_unit g)) (if decide (g_type g = "counter") then Sum (g_points g) else Gauge (g_points g)).

(** [metrics_data_from_samples(samples, service_name, timestamp_ns)] *)
Definition metrics_data_from_samples (samples : list MetricSample) (service_name : string) (ts : Z) : MetricsData :=
  Data (resource_attrs samples service_name) (map metric_of (fold_left (add_sample ts) samples [])).

(** ** Export *)

(** The constructor arguments of [_build_exporter], and whether the HTTP exporter is taken *)
Definition build_exporter (endpoint : option string) (protocol : string) (headers : option string) : bool * list (string * string) :=
  (PyStr.startswith "http" protocol,
   match endpoint with Some (String _ _ as s) => [("endpoint", s)] | _ => [] end ++
   match headers with Some (String _ _ as s) => [("headers", s)] | _ => [] end).

(** What happens to an exporter. *)
Inductive event :=
| Built (http : bool) (kwargs : list (string * string))
| Exported (d : MetricsData)
| Slept (seconds : dec)
| Shutdown.

Section Sdk.
(** [exporter.export(data)], after the events so far *)
Context (export : list event -> MetricsData -> res pyval).

Definition do_export (d : MetricsData) : M (list event) pyval :=
  let! es := get_state in modify (fun es => es ++ [Exported d]) ;;; lift_res (export es d).

(** [try: m  finally: exporter.shutdown()] *)
Definition finally_shutdown {A} (m : M (list event) A) : M (list event) A :=
  fun es => let '(es, r) := m es in (es ++ [Shutdown], r).

(** [push_otlp(samples, service_name, endpoint, protocol, headers)]; [ts] is the clock *)
Definition push_otlp (samples : list MetricSample) (service_name : string) (endpoint : option string) (protocol : string)
  (headers : option string) (ts : Z) : M (list event) pyval :=
  let metrics_data := metrics_data_from_samples samples service_name ts in
  let '(http, kwargs) := build_exporter endpoint protocol headers in
  modify (fun es => es ++ [Built http kwargs]) ;;;
  finally_shutdown (do_export metrics_data).

(** [max(1.0, float(interval))] *)
Definition pause (interval : dec) : dec := if Numbers.dec_lt (1, 0) interval then interval else (1, 0).

(** The cycles of [run_otlp_loop]: each with its scrape and its clock; an [Exception] is dropped *)
Fixpoint otlp_cycles (cycles : list (res (list MetricSample) * Z)) (interval : dec) (service_name : string)
  : M (list event) Datatypes.unit :=
  match cycles with
  | [] => ret tt
  | (scraped, ts) :: rest =>
      try_Exception
        (let! samples := lift_res scraped in
         let! _ := do_export (metrics_data_from_samples samples service_name ts) in ret tt)
        (fun _ => ret tt) ;;;
      modify (fun es => es ++ [Slept (pause interval)]) ;;;
      otlp_cycles rest interval service_name
  end.

(** [run_otlp_loop], for as many cycles as are given; the [finally] runs when one of them raises *)
Definition run_otlp_loop (cycles : list (res (list MetricSample) * Z)) (interval : dec) (service_name : string)
  (endpoint : option string) (protocol : string) (headers : option string) : M (list event) Datatypes.unit :=
  let '(http, kwargs) := build_exporter endpoint protocol headers in
  modify (fun es => es ++ [Built http kwargs]) ;;;
  fun es => match otlp_cycles cycles interval service_name es with
            | (es, Raise e) => (es ++ [Shutdown], Raise e)
            | r => r
            end.

Record OtlpWriter := Writer { endpoint : option string; protocol : string; headers : option string; interval : dec; service_name : string }.

(** [OtlpWriter(...)] *)
Definition new_writer (e : Config.env) (endpoint protocol headers : option string) (interval : dec) (service_name : string) : OtlpWriter :=
  let '(ep, pr, hd) := resolve_otlp_config e endpoint protocol headers in Writer ep pr hd interval service_name.

(** [OtlpWriter.write_once(samples)] *)
Definition write_once (w : OtlpWriter) (samples : list MetricSample) (ts : Z) : M (list event) CommandResult :=
  let! result := push_otlp samples (service_name w) (endpoint w) (protocol w) (headers w) ts in
  ret (mkResult PNone PNone (PDict [("sample_count", PInt (Z.of_nat (length samples))); ("export_result", PStr (py_str result))]) PNone).
End Sdk.

(** ** Grouping keeps every sample *)

Definition points_list (p : points) : list point := match p with Sum ps | Gauge ps => ps end.

Definition of_metric (m : string) (samples : list MetricSample) : list MetricSample := filter (fun s => metric s = m) samples.

Lemma of_metric_snoc m samples s :
  of_metric m (samples ++ [s]) = of_metric m samples ++ (if decide (metric s = m) then [s] else []).
Proof. unfold of_metric. by rewrite filter_app. Qed.

(** What the grouping holds of the samples so far. *)
Definition grouped_ok (ts : Z) (samples : list MetricSample) (grouped : list (string * group)) : Prop :=
  NoDup (dict_keys grouped) /\
  forall m, match dict_get m grouped, of_metric m samples with
            | None, [] => True
            | Some g, s :: rest => g_unit g = unit s /\ g_type g = metric_type s /\ g_points g = map (point_of ts) (s :: rest)
            | _, _ => False
            end.

Lemma add_sample_ok ts samples grouped s : grouped_ok ts samples grouped -> grouped_ok ts (samples ++ [s]) (add_sample ts grouped s).
Proof.
  intros [Hnd H]. split; [by apply dict_set_NoDup|]. intros m. unfold add_sample. rewrite dict_get_set, of_metric_snoc.
  specialize (H m). destruct (decide (m = metric s)) as [->|Hne].
  - rewrite decide_True by done. unfold dict_get_or.
    destruct (dict_get (metric s) grouped) as [g|], (of_metric (metric s) samples) as [|s0 rest]; try done; cbn.
    destruct H as (-> & -> & ->). by rewrite map_app.
  - rewrite decide_False, app_nil_r by done. done.
Qed.

Lemma grouping_ok ts samples : grouped_ok ts samples (fold_left (add_sample ts) samples []).
Proof.
  assert (forall l before grouped, grouped_ok ts before grouped -> grouped_ok ts (before ++ l) (fold_left (add_sample ts) l grouped)) as H.
  { intros l. induction l as [|s l IH]; intros before grouped Hg; [by rewrite app_nil_r|].
    replace (before ++ s :: l) with ((before ++ [s]) ++ l) by (by rewrite <- app_assoc). by apply IH, add_sample_ok. }
  apply (H samples [] []). split; [constructor|]. done.
Qed.

(** *** Resource attributes *)

(** The first value of a key. *)
Definition first_of (k : string) (samples : list MetricSample) : option string :=
  head (omap (fun s => dict_get k (dimensions s)) samples).

Lemma add_attrs_get attrs ds k :
  dict_get k (add_attrs attrs ds) =
  match dict_get k attrs with
  | Some v => Some v
  | None => if decide (k ∈ RESOURCE_DIM_KEYS) then dict_get k ds else None
  end.
Proof.
  unfold add_attrs. generalize RESOURCE_DIM_KEYS as keys. intros keys. revert attrs.
  induction keys as [|key keys IH]; intros attrs; cbn [fold_left].
  - by destruct (dict_get k attrs).
  - rewrite IH. destruct (decide (k = key)) as [->|Hne].
    + rewrite (decide_True (P := key ∈ key :: keys)) by (by left).
      unfold dict_in. destruct (dict_get key ds) as [v|] eqn:Hd; [destruct (dict_get key attrs) eqn:Ha; rewrite ?Ha, ?dict_get_set_eq; done|].
      destruct (dict_get key attrs); [done|]. by case_decide.
    + assert ((k ∈ key :: keys) <-> (k ∈ keys)) as Hin by (rewrite elem_of_cons; naive_solver).
      assert (dict_get k match dict_get key ds with Some v => if dict_in key attrs then attrs else dict_set key v attrs | None => attrs end
        = dict_get k attrs) as Hk by (repeat case_match; by rewrite ?dict_get_set_ne).
      rewrite Hk. destruct (dict_get k attrs); [done|]. destruct (decide (k ∈ keys)); case_decide; naive_solver.
Qed.

Lemma resource_attrs_get samples service_name k : k ∈ RESOURCE_DIM_KEYS ->
  dict_get k (resource_attrs samples service_name) =
  match first_of k samples with
  | Some v => Some v
  | None => if decide (k = "service.name") then Some service_name else None
  end.
Proof.
  intros Hk. unfold resource_attrs. rewrite dict_get_setdefault.
  assert (forall l attrs, dict_get k (fold_left (fun attrs s => add_attrs attrs (dimensions s)) l attrs) =
    match dict_get k attrs with Some v => Some v | None => first_of k l end) as H; [|by rewrite H].
  intros l. induction l as [|s l IH]; intros attrs; cbn [fold_left]; [by destruct (dict_get k attrs)|].
  rewrite IH, add_attrs_get, decide_True by done. unfold first_of. cbn [omap list_omap].
  destruct (dict_get k attrs); [done|]. by destruct (dict_get k (dimensions s)).
Qed.

(** Samples that carry the same identity. *)
Definition agree (samples : list MetricSample) : Prop :=
  forall s s' k, s ∈ samples -> s' ∈ samples -> k ∈ RESOURCE_DIM_KEYS -> dict_get k (dimensions s) = dict_get k (dimensions s').

Lemma first_of_agree samples s k : agree samples -> s ∈ samples -> k ∈ RESOURCE_DIM_KEYS -> first_of k samples = dict_get k (dimensions s).
Proof.
  intros Ha Hs Hk. destruct samples as [|s0 l]; [by apply elem_of_nil in Hs|].
  assert (dict_get k (dimensions s0) = dict_get k (dimensions s)) as H0 by (apply Ha; [by left|done..]).
  unfold first_of. cbn [omap list_omap]. rewrite H0. destruct (dict_get k (dimensions s)) eqn:Hd; [done|].
  assert (Forall (fun s' => dict_get k (dimensions s') = None) l) as Hl.
  { apply Forall_forall. intros s' Hs'. rewrite <- Hd. apply Ha; [by right|done..]. }
  clear -Hl. induction Hl as [|s' l Hn _ IH]; [done|]. cbn [omap list_omap]. by rewrite Hn.
Qed.

Lemma grouped_key ts samples grouped m : grouped_ok ts samples grouped -> m ∈ dict_keys grouped <-> m ∈ map metric samples.
Proof.
  intros [_ H]. specialize (H m). split.
  - intros Hm. destruct (dict_get m grouped) eqn:Hg; [|by apply dict_get_None in Hg].
    destruct (of_metric m samples) as [|s rest] eqn:Hf; [done|].
    assert (s ∈ of_metric m samples) as [Hs Hin]%list_elem_of_filter by (rewrite Hf; by left).
    rewrite <- Hs. by apply (list_elem_of_fmap_2 metric).
  - intros (s & -> & Hs)%list_elem_of_fmap. destruct (dict_get (metric s) grouped) eqn:Hg; [by eapply dict_get_Some_keys|].
    assert (s ∈ of_metric (metric s) samples) as Hin by (by apply list_elem_of_filter).
    destruct (of_metric (metric s) samples); [by apply elem_of_nil in Hin|done].
Qed.

(** OTLP export loses nothing: the metrics data has one metric for each name, whose points are the samples of that name in order,
    a sum exactly when they are counters; and when all samples carry the same identity, every dimension of every sample is in the
    export once, as a resource attribute or as an attribute of its point. *)
Theorem otlp_lossless samples service ts :
  let d := metrics_data_from_samples samples service ts in
  NoDup (map m_name (metrics d)) /\
  (forall m, m ∈ map m_name (metrics d) <-> m ∈ map metric samples) /\
  Forall (fun x => points_list (m_data x) = map (point_of ts) (of_metric (m_name x) samples) /\
    exists s, head (of_metric (m_name x) samples) = Some s /\ m_unit x = default "" (unit s) /\
      (m_data x = Sum (points_list (m_data x)) <-> metric_type s = "counter")) (metrics d) /\
  (agree samples -> forall s k v, s ∈ samples -> NoDup (dict_keys (dimensions s)) ->
    dict_get k (dimensions s) = Some v <->
    if decide (k ∈ RESOURCE_DIM_KEYS)
    then first_of k samples = Some v /\ dict_get k (resource d) = Some v
    else dict_get k (attributes (point_of ts s)) = Some v).
Proof.
  cbv zeta. unfold metrics_data_from_samples. cbn [metrics resource]. pose proof (grouping_ok ts samples) as Hg. set (grouped := fold_left _ samples []) in *.
  assert (map m_name (map metric_of grouped) = dict_keys grouped) as Hnames.
  { unfold dict_keys. rewrite map_map. apply map_ext. by intros [name g]. }
  rewrite Hnames. split; [apply Hg|]. split; [intros m; by eapply grouped_key|]. split.
  - apply Forall_forall. intros x ([name g] & -> & Hin)%list_elem_of_fmap. destruct Hg as [Hnd Hget]. specialize (Hget name).
    rewrite (dict_get_NoDup name g grouped) in Hget by done. cbn [metric_of m_name m_unit m_data].
    destruct (of_metric name samples) as [|s rest]; [done|]. destruct Hget as (-> & -> & ->).
    split; [by case_decide|]. exists s. split; [done|]. split; [done|]. by case_decide.
  - intros Ha s k v Hs Hnd. case_decide as Hk.
    + rewrite resource_attrs_get by done. rewrite (first_of_agree samples s k) by done.
      split; [by intros ->|by intros [? _]].
    + unfold point_of. cbn [attributes]. rewrite Identity.dict_get_filter by done.
      destruct (dict_get k (dimensions s)); [by rewrite decide_True|done].
Qed.

(** The writers do not agree on cumulative counters: the metric model allows the kind, Prometheus and SignalFx export it as a
    counter, OTLP as a gauge. *)
Theorem cumulative_counter_diverges :
  exists s, metric_type s ∈ METRIC_KINDS /\ Prometheus.prometheus_type (metric_type s) = "counter" /\
    SignalFx.envelope s = "cumulative_counter" /\
    map (fun x => match m_data x with Gauge _ => true | Sum _ => false end) (metrics (metrics_data_from_samples [s] "redfish_ctl" 0)) = [true].
Proof. exists (Sample "m" (1, 0) [] "cumulative_counter" None PNone). split; [by repeat constructor|]. repeat split; reflexivity. Qed.
End Otlp.
