(* ===== verification/SmcCatalog.v ===== *)
(** * The Supermicro metric catalog

    src/redfish_ctl/telemetry/supermicro/metric_catalog.py: the metrics of the Supermicro
    reader, with the family of names that is derived from metric-report properties. *)

From stdpp Require Import base list strings.
From Stdlib Require Import Ascii ZArith Lia.
From S2P Require Import Prelude PyVal Effects Numbers Config Uuid Identity Telemetry.

Module SmcCatalog.
Import Telemetry.
Local Open Scope py_scope.

Definition FABRIC_DIMS : list string := COMMON_DIMS ++ ["fabric"; "system"; "gpu"; "port"; "report"].
Definition COUNTER_SUFFIXES : list string := ["_bytes"; "_frames"; "_packets"; "_errors"; "_discards"; "_count"; "_wait"].
Definition COUNTER_EXACT : list string := ["hw.energy_kwh"].

Definition gauge (name : string) (unit : option string) (description family : string) (dimensions : list string) : res MetricDefinition :=
  definition name "gauge" unit description family dimensions "signal" "baseline" false.
Definition counter (name : string) (unit : option string) (description family : string) (dimensions : list string) : res MetricDefinition :=
  definition name "counter" unit description family dimensions "signal" "baseline" false.

(** [_METRIC_DEFINITIONS] *)
Definition CATALOG : list (res MetricDefinition) :=
  [gauge "hw.power" (Some "W") "Power draw in watts." "telemetry" [];
   counter "hw.energy_kwh" (Some "kWh") "Cumulative energy consumed in kilowatt-hours." "telemetry" [];
   gauge "hw.temperature" (Some "Cel") "Temperature in Celsius." "telemetry" [];
   gauge "hw.voltage" (Some "V") "Voltage reading." "telemetry" [];
   gauge "hw.fan_speed" (Some "RPM") "Fan speed in revolutions per minute." "telemetry" [];
   gauge "hw.gpu.power" (Some "W") "GPU power draw in watts." "gpu" [];
   gauge "hw.gpu.temperature" (Some "Cel") "GPU temperature." "gpu" [];
   gauge "hw.gpu.clock_mhz" (Some "MHz") "GPU operating clock." "gpu" [];
   gauge "hw.gpu.compute.utilization" (Some "%") "GPU compute engine utilization." "gpu" [];
   counter "hw.gpu.throttle.duration_seconds" (Some "s") "GPU throttle duration in seconds." "gpu" [];
   gauge "hw.gpu.memory.bandwidth_utilization" (Some "%") "GPU memory bandwidth utilization." "gpu" [];
   gauge "hw.gpu.memory.capacity_utilization" (Some "%") "GPU memory capacity utilization." "gpu" [];
   gauge "hw.gpu.memory.clock_mhz" (Some "MHz") "GPU memory operating speed." "gpu" [];
   counter "hw.gpu.memory.ecc_errors" None "Cumulative GPU memory ECC error count." "gpu" [];
   counter "hw.gpu.memory.row_remap_count" None "Cumulative GPU memory row-remap count." "gpu" [];
   gauge "hw.gpu.memory.row_remapping_failed" None "GPU memory row-remapping failure state." "gpu" [];
   gauge "hw.component.health" None "One-hot component health state." "state" [];
   gauge "hw.component.health_rollup" None "One-hot component aggregate health state." "state" [];
   gauge "hw.component.state" None "One-hot component enabled state." "state" [];
   gauge "hw.component.last_reset_type" None "One-hot component last reset type." "state" [];
   gauge "hw.power.edp_violation_state" None "One-hot EDP violation state." "state" [];
   gauge "hw.power.break_performance_state" None "One-hot power-break performance state." "state" [];
   gauge "hw.fabric.link_up" None "Fabric link-up state." "fabric" FABRIC_DIMS;
   gauge "hw.fabric.link_down_reason" None "One-hot fabric link-down reason." "fabric" (FABRIC_DIMS ++ ["reason"]);
   gauge "hw.fabric.port_speed" (Some "Gbps") "Fabric port negotiated speed." "fabric" FABRIC_DIMS;
   gauge "hw.fabric.bit_error_rate" None "Fabric bit error rate." "fabric" FABRIC_DIMS;
   gauge "hw.fabric.effective_ber" None "Fabric effective bit error rate." "fabric" FABRIC_DIMS;
   gauge "hw.fabric.raw_ber" None "Fabric raw bit error rate." "fabric" FABRIC_DIMS;
   gauge "hw.fabric.rx_gbps" (Some "Gbps") "Fabric receive bandwidth." "fabric" FABRIC_DIMS;
   gauge "hw.fabric.tx_gbps" (Some "Gbps") "Fabric transmit bandwidth." "fabric" FABRIC_DIMS;
   gauge "hw.fabric.raw_rx_gbps" (Some "Gbps") "Fabric raw receive bandwidth." "fabric" FABRIC_DIMS;
   gauge "hw.fabric.raw_tx_gbps" (Some "Gbps") "Fabric raw transmit bandwidth." "fabric" FABRIC_DIMS;
   counter "hw.fabric.rx_bytes" (Some "By") "Cumulative fabric receive bytes." "fabric" FABRIC_DIMS;
   counter "hw.fabric.tx_bytes" (Some "By") "Cumulative fabric transmit bytes." "fabric" FABRIC_DIMS;
   counter "hw.fabric.vl15_tx_bytes" (Some "By") "Cumulative fabric VL15 transmit bytes." "fabric" FABRIC_DIMS;
   counter "hw.fabric.rx_frames" None "Cumulative fabric receive frames." "fabric" FABRIC_DIMS;
   counter "hw.fabric.tx_frames" None "Cumulative fabric transmit frames." "fabric" FABRIC_DIMS;
   counter "hw.fabric.vl15_tx_packets" None "Cumulative fabric VL15 transmit packets." "fabric" FABRIC_DIMS;
   counter "hw.fabric.crc_errors" None "Cumulative fabric CRC errors." "fabric" FABRIC_DIMS;
   counter "hw.fabric.effective_errors" None "Cumulative fabric effective errors." "fabric" FABRIC_DIMS;
   counter "hw.fabric.fec_errors" None "Cumulative fabric FEC errors." "fabric" FABRIC_DIMS;
   counter "hw.fabric.malformed_packets" None "Cumulative malformed fabric packets." "fabric" FABRIC_DIMS;
   counter "hw.fabric.raw_errors" None "Cumulative fabric raw errors." "fabric" FABRIC_DIMS;
   counter "hw.fabric.rx_errors" None "Cumulative fabric receive errors." "fabric" FABRIC_DIMS;
   counter "hw.fabric.rx_no_protocol_bytes" (Some "By") "Cumulative receive bytes without protocol." "fabric" FABRIC_DIMS;
   counter "hw.fabric.rx_remote_physical_errors" None "Cumulative receive remote physical errors." "fabric" FABRIC_DIMS;
   counter "hw.fabric.rx_switch_relay_errors" None "Cumulative receive switch relay errors." "fabric" FABRIC_DIMS;
   counter "hw.fabric.symbol_errors" None "Cumulative fabric symbol errors." "fabric" FABRIC_DIMS;
   counter "hw.fabric.tx_discards" None "Cumulative fabric transmit discards." "fabric" FABRIC_DIMS;
   counter "hw.fabric.tx_no_protocol_bytes" (Some "By") "Cumulative transmit bytes without protocol." "fabric" FABRIC_DIMS;
   counter "hw.fabric.tx_wait" None "Cumulative fabric transmit wait events." "fabric" FABRIC_DIMS;
   counter "hw.fabric.intentional_link_down_count" None "Cumulative intentional link-down count." "fabric" FABRIC_DIMS;
   counter "hw.fabric.link_down_count" None "Cumulative link-down count." "fabric" FABRIC_DIMS;
   counter "hw.fabric.link_error_recovery_count" None "Cumulative link error recovery count." "fabric" FABRIC_DIMS;
   counter "hw.fabric.unintentional_link_down_count" None "Cumulative unintentional link-down count." "fabric" FABRIC_DIMS;
   counter "hw.fabric.vl15_dropped" None "Cumulative fabric VL15 dropped packets." "fabric" FABRIC_DIMS;
   gauge "hw.leak.state" None "Leak detector state." "chassis" [];
   gauge "hw.fabric.adapter_present" None "Network adapter presence." "fabric" [];
   gauge "hw.component_integrity.enabled" None "ComponentIntegrity enabled state." "component" []].

Definition METRIC_DEFINITIONS : list (string * MetricDefinition) := Eval vm_compute in loaded CATALOG.

(** [_infer_metric_kind(metric_name)] *)
Definition infer_metric_kind (metric_name : string) : string :=
  if decide (metric_name ∈ COUNTER_EXACT) then "counter"
  else if existsb (fun suffix => PyStr.endswith suffix metric_name) COUNTER_SUFFIXES then "counter"
  else "gauge".

(** [_infer_metric_unit(metric_name)] *)
Definition infer_metric_unit (metric_name : string) : option string :=
  let lowered := PyStr.lower metric_name in
  let ends s := PyStr.endswith s lowered in
  let has s := PyStr.contains s lowered in
  if ends "_bytes" then Some "By"
  else if ends "_gbps" || ends "port_speed" then Some "Gbps"
  else if ends "_mhz" || has "_freq_" || has "frequency" then Some "MHz"
  else if ends "_seconds" then Some "s"
  else if ends "_kwh" || has "energy" then Some "kWh"
  else if has "temp" || has "temperature" then Some "Cel"
  else if has "power" then Some "W"
  else if has "voltage" then Some "V"
  else if has "percent" || has "utilization" then Some "%"
  else None.

(** [metric_definition(metric_name)] *)
Definition metric_definition (metric_name : string) : res MetricDefinition :=
  match dict_get metric_name METRIC_DEFINITIONS with
  | Some d => Ok d
  | None =>
      if PyStr.startswith "hw.gb300." metric_name then
        new_definition (Definition_ metric_name (infer_metric_kind metric_name) (infer_metric_unit metric_name)
          "GB300 MetricReport numeric property." None "gb300"
          (COMMON_DIMS ++ ["property"; "system"; "gpu"; "port"; "chassis"; "index"; "report"]) "signal" "baseline" false)
      else Telemetry.metric_definition metric_name
  end.

Example catalog_loads : catalog CATALOG = Ok METRIC_DEFINITIONS /\ length METRIC_DEFINITIONS = 59%nat.
Proof. by vm_compute. Qed.

(** Every derived name has a definition of its own kind and unit. *)
Lemma derived_definition name : PyStr.startswith "hw.gb300." name = true -> exists d, metric_definition name = Ok d.
Proof.
  intros H. unfold metric_definition. destruct (dict_get name METRIC_DEFINITIONS); [by eexists|]. rewrite H. unfold new_definition.
  cbn [kind availability]. rewrite bool_decide_eq_false_2; [by eexists|].
  unfold infer_metric_kind. intros Hn. apply Hn. repeat case_match; by repeat constructor.
Qed.
End SmcCatalog.
