(* ===== verification/SmcRows.v ===== *)
(** * From Supermicro rows to samples

    src/redfish_ctl/telemetry/supermicro/super_microexporter.py, the functions that map the rows of
    the collector commands to samples of the catalog. *)

From stdpp Require Import base list strings pretty.
From Stdlib Require Import Ascii ZArith Lia.
From S2P Require Import Prelude PyVal Effects Numbers Config Urls Uuid Identity Telemetry SmcCatalog.

Module SmcRows.
Import Telemetry.
Local Open Scope Z_scope.
Local Open Scope py_scope.

(** [_sample(...)] on the Supermicro catalog *)
Definition smc_sample (metric : string) (value : dec) (ds : dims) (timestamp : pyval) (metric_type : option string) : res MetricSample :=
  sample SmcCatalog.metric_definition metric value ds timestamp metric_type.

(** [d | e] *)
Definition merge (d e : dims) : dims := dict_update d e.

(** [str(row.get(k) or dflt)] *)
Definition text_or (row : pydict) (keys : list string) (dflt : string) : string :=
  py_str (fold_right (fun k rest => py_or (dget k row) rest) (PStr dflt) keys).

(** [if row.get(k): dims[name] = f(row[k])] *)
Definition set_if (name : string) (v : pyval) (f : pyval -> string) (ds : dims) : dims :=
  if truthy v then dict_set name (f v) ds else ds.

(** ** Vendor tables *)

Definition SENSOR_METRIC : list (string * (string * string)) :=
  [("Temperature", ("hw.temperature", "sensor")); ("Rotational", ("hw.fan_speed", "fan")); ("Voltage", ("hw.voltage", "sensor"))].

Definition FABRIC_PROPERTY_METRICS : list (string * string) :=
  [("BitErrorRate", "hw.fabric.bit_error_rate"); ("CurrentSpeedGbps", "hw.fabric.port_speed"); ("CRCErrorCount", "hw.fabric.crc_errors");
   ("EffectiveBER", "hw.fabric.effective_ber"); ("EffectiveError", "hw.fabric.effective_errors"); ("FECErrorCount", "hw.fabric.fec_errors");
   ("IntentionalLinkDownCount", "hw.fabric.intentional_link_down_count"); ("LinkDownedCount", "hw.fabric.link_down_count");
   ("LinkErrorRecoveryCount", "hw.fabric.link_error_recovery_count"); ("MalformedPackets", "hw.fabric.malformed_packets");
   ("NVLinkDataRxBandwidthGbps", "hw.fabric.rx_gbps"); ("NVLinkDataTxBandwidthGbps", "hw.fabric.tx_gbps");
   ("NVLinkRawRxBandwidthGbps", "hw.fabric.raw_rx_gbps"); ("NVLinkRawTxBandwidthGbps", "hw.fabric.raw_tx_gbps");
   ("RXBytes", "hw.fabric.rx_bytes"); ("RXErrors", "hw.fabric.rx_errors"); ("RXFrames", "hw.fabric.rx_frames");
   ("RXNoProtocolBytes", "hw.fabric.rx_no_protocol_bytes"); ("RXRemotePhysicalErrors", "hw.fabric.rx_remote_physical_errors");
   ("RXSwitchRelayErrors", "hw.fabric.rx_switch_relay_errors"); ("SymbolErrors", "hw.fabric.symbol_errors");
   ("TXBytes", "hw.fabric.tx_bytes"); ("TXDiscards", "hw.fabric.tx_discards"); ("TXFrames", "hw.fabric.tx_frames");
   ("TXNoProtocolBytes", "hw.fabric.tx_no_protocol_bytes"); ("TXWait", "hw.fabric.tx_wait"); ("TotalRawBER", "hw.fabric.raw_ber");
   ("TotalRawError", "hw.fabric.raw_errors"); ("UnintentionalLinkDownCount", "hw.fabric.unintentional_link_down_count");
   ("VL15Dropped", "hw.fabric.vl15_dropped"); ("VL15TXBytes", "hw.fabric.vl15_tx_bytes"); ("VL15TXPackets", "hw.fabric.vl15_tx_packets")].

Definition GPU_COMPUTE_PROPERTIES : list (string * string) :=
  [("DMMAUtilizationPercent", "dmma"); ("FP16ActivityPercent", "fp16_activity"); ("FP32ActivityPercent", "fp32_activity");
   ("FP64ActivityPercent", "fp64_activity"); ("GraphicsEngineActivityPercent", "graphics_engine_activity");
   ("HMMAUtilizationPercent", "hmma"); ("IMMAUtilizationPercent", "imma"); ("IntegerActivityUtilizationPercent", "integer_activity");
   ("NVDecInstanceUtilizationPercent", "nvdec_instance"); ("NVDecUtilizationPercent", "nvdec");
   ("NVJpgInstanceUtilizationPercent", "nvjpg_instance"); ("NVJpgUtilizationPercent", "nvjpg"); ("NVOfaUtilizationPercent", "nvofa");
   ("SMActivityPercent", "sm_activity"); ("SMOccupancyPercent", "sm_occupancy"); ("SMUtilizationPercent", "sm");
   ("TensorCoreActivityPercent", "tensor_core_activity")].

(** The metric and the [property] label; the unit is the catalog's. *)
Definition GPU_MEMORY_PROPERTIES : list (string * (string * string)) :=
  [("BandwidthPercent", ("hw.gpu.memory.bandwidth_utilization", "bandwidth"));
   ("CapacityUtilizationPercent", ("hw.gpu.memory.capacity_utilization", "capacity"));
   ("OperatingSpeedMHz", ("hw.gpu.memory.clock_mhz", "operating_speed"))].
Definition GPU_MEMORY_ECC_PROPERTIES : list (string * string) :=
  [("CorrectableECCErrorCount", "correctable"); ("UncorrectableECCErrorCount", "uncorrectable")].
Definition GPU_MEMORY_ROW_REMAP_PROPERTIES : list (string * string) :=
  [("CorrectableRowRemappingCount", "correctable"); ("HighAvailabilityBankCount", "high_availability");
   ("LowAvailabilityBankCount", "low_availability"); ("MaxAvailabilityBankCount", "max_availability");
   ("NoAvailabilityBankCount", "no_availability"); ("PartialAvailabilityBankCount", "partial_availability");
   ("UncorrectableRowRemappingCount", "uncorrectable")].
Definition GPU_THROTTLE_PROPERTIES : list (string * string) :=
  [("GlobalSoftwareViolationThrottleDuration", "global_software_violation"); ("HardwareViolationThrottleDuration", "hardware_violation");
   ("PowerLimitThrottleDuration", "power_limit"); ("ThermalLimitThrottleDuration", "thermal_limit")].

Definition HEALTH_LABELS : list string := ["ok"; "warning"; "critical"].
Definition STATE_LABELS : list string :=
  ["enabled"; "disabled"; "standby_offline"; "standby_spare"; "in_test"; "starting"; "absent"; "unavailable_offline"; "deferring";
   "quiesced"; "updating"; "qualified"].
Definition LINK_DOWN_REASONS : list string := ["peer_reset_event"].
Definition RESET_TYPES : list string := ["pf_flr"; "conventional"; "fundamental"].
Definition EDP_STATES : list string := ["normal"; "asserted"].
Definition POWER_BREAK_STATES : list string := ["normal"; "active"].

(** ** GPU names *)

(** The text around the first occurrence of [p]. *)
Fixpoint find_sub (p s : string) : option (string * string) :=
  if PyStr.startswith p s then Some ("", String.substring (String.length p) (String.length s) s)
  else match s with
       | EmptyString => None
       | String c s' => (fun ba => (String c ba.1, ba.2)) <$> find_sub p s'
       end.

(** [_gpu_from_chassis(chassis)] *)
Definition gpu_from_chassis (chassis : string) : option string :=
  match find_sub "HGX_" chassis with
  | Some (_, after) =>
      if negb (PyStr.contains "HGX_" after) && PyStr.startswith "GPU_" after then Some after
      else if PyStr.startswith "GPU_" chassis then Some chassis else None
  | None => if PyStr.startswith "GPU_" chassis then Some chassis else None
  end.

(** [re.match(r"(GPU_\d+)", text)] *)
Definition gpu_prefix (text : string) : option string :=
  if PyStr.startswith "GPU_" text then
    let digits := (digit_run (String.substring 4 (String.length text) text)).1 in
    if PyStr.nonempty digits then Some ("GPU_" +:+ digits) else None
  else None.

(** [GPU_\d+] at the start of the text, followed by an underscore or the end *)
Definition gpu_here (text : string) : option string :=
  match gpu_prefix text with
  | Some g =>
      match String.substring (String.length g) (String.length text) text with
      | EmptyString | String "_" _ => Some g
      | String c EmptyString => if decide (c = ascii_of_nat 10) then Some g else None
      | _ => None
      end
  | None => None
  end.

(** [re.search(r"(?:^|_)(GPU_\d+)(?:_|$)", text)] from a position; [start] says whether it may match there without an underscore *)
Fixpoint gpu_search (start : bool) (text : string) : option string :=
  match (if start then gpu_here text else None) with
  | Some g => Some g
  | None =>
      match text with
      | EmptyString => None
      | String c rest => gpu_search (bool_decide (c = "_"%char)) rest
      end
  end.

(** [_gpu_from_metric_info(info)] *)
Definition gpu_from_metric_info (info : dims) : option string :=
  let field k := dict_get_or k "" info in
  if PyStr.startswith "GPU_" (field "gpu") then Some (field "gpu")
  else match gpu_prefix (field "memory") with
       | Some g => Some g
       | None =>
           match gpu_from_chassis (field "chassis") with
           | Some g => Some g
           | None => gpu_search true (if PyStr.nonempty (field "sensor") then field "sensor" else field "property")
           end
       end.

Definition gpu_dim (g : option string) : dims := match g with Some (String _ _ as s) => [("gpu", s)] | _ => [] end.

(** ** Environment rows *)

(** [_environment_chassis(row)] *)
Definition environment_chassis (row : pydict) : string :=
  if eq_str (dget "ParentType" row) "Chassis" && truthy (dget "ParentId" row) then py_str (dget "ParentId" row)
  else text_or row ["Chassis"; "Id"] "unknown".

(** [_environment_dims(identity, row, chassis)] *)
Definition environment_dims (identity : dims) (row : pydict) (chassis : string) : dims :=
  let ds := with_dims identity [("source", "environment"); ("chassis", chassis)] in
  let parent_type := dget "ParentType" row in
  let parent_id := dget "ParentId" row in
  let ds := set_if "resource_type" parent_type py_str ds in
  if truthy parent_id then
    let resource := dim_value parent_id in
    let ds := dict_set "resource" resource ds in
    if eq_str parent_type "Processor" then dict_set "processor" resource ds
    else if eq_str parent_type "Memory" then dict_set "memory" resource ds
    else ds
  else ds.

(** [_environment_gpu(row, chassis)] *)
Definition environment_gpu (row : pydict) (chassis : string) : option string :=
  let parent_type := dget "ParentType" row in
  let parent_id := text_or row ["ParentId"] "" in
  if eq_str parent_type "Processor" && PyStr.startswith "GPU_" parent_id then Some parent_id
  else match (if eq_str parent_type "Memory" then gpu_prefix parent_id else None) with
       | Some g => Some g
       | None => gpu_from_chassis chassis
       end.

(** [_fan_readings(row)] *)
Definition fan_readings (row : pydict) : res (list (string * dec)) :=
  let? fans := iterate (py_or (dget "FanSpeedsPercent" row) (PList [])) in
  Ok (omap (fun fan =>
        match fan with
        | PDict d => (fun rpm => (Urls.after_last "/" (text_or d ["DeviceName"; "@odata.id"] "fan"), rpm)) <$> as_float (dget "SpeedRPM" d)
        | _ => None
        end) fans).

Definition environment_row (identity : dims) (row : pydict) : res (list MetricSample) :=
  let chassis := environment_chassis row in
  let ds := environment_dims identity row chassis in
  let gpu := environment_gpu row chassis in
  let? head := collect_samples
    (match as_float (reading (dget "PowerWatts" row)) with
     | Some power =>
         [smc_sample (if PyStr.nonempty (default "" gpu) && negb (eq_str (dget "ParentType" row) "Memory") then "hw.gpu.power" else "hw.power")
            power (merge ds (gpu_dim gpu)) PNone None]
     | None => []
     end ++
     match as_float (reading (py_or (dget "EnergykWh" row) (dget "EnergyKWh" row))) with
     | Some energy => [smc_sample "hw.energy_kwh" energy (merge ds (gpu_dim gpu)) PNone None]
     | None => []
     end) in
  let? fans := fan_readings row in
  let? tail := collect_samples (map (fun fr : string * dec =>
     smc_sample "hw.fan_speed" fr.2 (merge ds [("fan", dim_value (PStr fr.1))]) PNone None) fans) in
  Ok (head ++ tail).

(** A loop over rows that extends the list of samples. *)
Fixpoint over_rows (f : pydict -> res (list MetricSample)) (rows : list pydict) : res (list MetricSample) :=
  match rows with
  | [] => Ok []
  | row :: rest => let? ss := f row in let? more := over_rows f rest in Ok (ss ++ more)
  end.

(** [samples_from_environment_rows(rows, identity)] *)
Definition samples_from_environment_rows (rows : list pydict) (identity : dims) : res (list MetricSample) :=
  over_rows (environment_row identity) rows.

(** ** Sensor, link and thermal rows *)

(** [SENSOR_METRIC[reading_type]] when the type is a key: a list or a dict cannot be looked up *)
Definition sensor_metric (reading_type : pyval) : res (option (string * string)) :=
  match reading_type with
  | PStr s => Ok (dict_get s SENSOR_METRIC)
  | PList _ | PDict _ => Raise (TypeError ("unhashable type: '" +:+ type_name reading_type +:+ "'"))
  | _ => Ok None
  end.

Definition sensor_row (identity : dims) (row : pydict) : res (list MetricSample) :=
  match as_float (dget "Reading" row) with
  | None => Ok []
  | Some value =>
      let chassis := text_or row ["Chassis"] "unknown" in
      let reading_type := dget "ReadingType" row in
      let name := text_or row ["Name"] "sensor" in
      let ds := set_if "health" (dget "Health" row) py_str (with_dims identity [("source", "sensor"); ("chassis", chassis)]) in
      if eq_str reading_type "Power" then
        match gpu_from_chassis chassis with
        | Some (String _ _ as g) => collect_samples [smc_sample "hw.gpu.power" value (merge ds [("gpu", g)]) PNone None]
        | _ => collect_samples [smc_sample "hw.power" value (merge ds [("sensor", dim_value (PStr name))]) PNone None]
        end
      else
        let? ml := sensor_metric reading_type in
        match ml with
        | Some (metric, label) => collect_samples [smc_sample metric value (merge ds [(label, dim_value (PStr name))]) PNone None]
        | None => Ok []
        end
  end.

(** [samples_from_sensor_rows(rows, identity)] *)
Definition samples_from_sensor_rows (rows : list pydict) (identity : dims) : res (list MetricSample) :=
  over_rows (sensor_row identity) rows.

(** [_fabric_dims(identity, system, gpu, port, fabric)] *)
Definition fabric_dims (identity : dims) (system gpu port : pyval) (fabric : string) : dims :=
  set_if "port" port py_str (set_if "gpu" gpu py_str (set_if "system" system py_str
    (with_dims identity [("source", "fabric"); ("fabric", fabric)]))).

Definition nvlink_row (identity : dims) (row : pydict) : res (list MetricSample) :=
  let ds := fabric_dims identity (dget "System" row) (dget "GPU" row) (dget "Port" row) "nvlink" in
  collect_samples
    (smc_sample "hw.fabric.link_up" (of_bool (eq_str (dget "LinkStatus" row) "LinkUp")) ds PNone None ::
     omap (fun km : string * string => (fun v => smc_sample km.2 v ds PNone None) <$> as_float (dget km.1 row))
       [("CurrentSpeedGbps", "hw.fabric.port_speed"); ("RXBytes", "hw.fabric.rx_bytes"); ("TXBytes", "hw.fabric.tx_bytes");
        ("BitErrorRate", "hw.fabric.bit_error_rate")]).

(** [samples_from_nvlink_rows(rows, identity)] *)
Definition samples_from_nvlink_rows (rows : list pydict) (identity : dims) : res (list MetricSample) :=
  over_rows (nvlink_row identity) rows.

Definition thermal_row (identity : dims) (row : pydict) : res (list MetricSample) :=
  let value := match dget "ReadingCelsius" row with PNone => dget "Reading" row | v => v end in
  match as_float value with
  | None => Ok []
  | Some value =>
      let name := Urls.after_last "/" (text_or row ["DeviceName"; "Name"; "DataSourceUri"] "temperature") in
      collect_samples
        [smc_sample "hw.temperature" value
           (with_dims identity [("source", "thermal-subsystem"); ("chassis", text_or row ["Chassis"] "unknown");
              ("sensor", dim_value (PStr name)); ("zone", dim_value (py_or (dget "PhysicalContext" row) (PStr name)))]) PNone None]
  end.

(** [samples_from_thermal_rows(rows, identity)] *)
Definition samples_from_thermal_rows (rows : list pydict) (identity : dims) : res (list MetricSample) :=
  over_rows (thermal_row identity) rows.

(** ** Metric reports *)

(** The segments of a path that are not empty. *)
Definition segments (path : string) : list string := filter (fun s => s <> "") (PyStr.split "/" path).

(** The segment after the first occurrence of [c]. *)
Fixpoint after_segment (c : string) (parts : list string) : option string :=
  match parts with
  | [] => None
  | p :: rest => if decide (p = c) then head rest else after_segment c rest
  end.

Definition COLLECTIONS : list (string * string) :=
  [("Systems", "system"); ("Processors", "gpu"); ("Memory", "memory"); ("Ports", "port"); ("Chassis", "chassis"); ("Sensors", "sensor")].

(** The property name and the array index of a metric property *)
Definition property_and_index (parts frag : list string) : string * option string :=
  match rev frag with
  | last :: before :: _ => if Identity.isdigit last then (before, Some last) else (last, None)
  | [last] => (last, None)
  | [] => (PyStr.last_or "metric" parts, None)
  end.

Definition metric_source (parts : list string) : option string :=
  if decide ("Sensors" ∈ parts) then Some "sensor"
  else if decide ("MemoryMetrics" ∈ parts \/ "Memory" ∈ parts \/ "MemorySummary" ∈ parts) then Some "memory"
  else if decide ("ProcessorMetrics" ∈ parts) then Some "processor"
  else None.

Definition opt_dim (k : string) (v : option string) : dims := match v with Some s => [(k, s)] | None => [] end.

(** [_parse_metric_property(prop)] *)
Definition parse_metric_property (prop : string) : dims :=
  let '(path, _, fragment) := Urls.partition "#" prop in
  let parts := segments path in
  let '(prop_name, idx) := property_and_index parts (segments fragment) in
  [("property", prop_name)] ++ opt_dim "index" idx ++ opt_dim "metric_source" (metric_source parts) ++
  mjoin (map (fun ck : string * string => opt_dim ck.2 (after_segment ck.1 parts)) COLLECTIONS).

(** [re.sub(r"(?<=[a-z0-9])(?=[A-Z])", "_", text)], then every run that is not alphanumeric as one underscore, trimmed, in lower case *)
Definition is_lower_or_digit (c : ascii) : bool := PyStr.is_digit c || (PyStr.is_alpha c && bool_decide (PyStr.lower_char c = c)).
Definition is_upper (c : ascii) : bool := PyStr.is_alpha c && negb (bool_decide (PyStr.lower_char c = c)).

Fixpoint split_case (prev : bool) (s : string) : string :=
  match s with
  | EmptyString => EmptyString
  | String c s' =>
      let rest := String c (split_case (is_lower_or_digit c) s') in if prev && is_upper c then String "_" rest else rest
  end.

Fixpoint squeeze (in_run : bool) (s : string) : string :=
  match s with
  | EmptyString => EmptyString
  | String c s' => if PyStr.is_alnum c then String c (squeeze false s') else if in_run then squeeze true s' else String "_" (squeeze true s')
  end.

Definition snake (text : string) : string :=
  PyStr.lower (PyStr.lstrip_char "_" (PyStr.rstrip_char "_" (squeeze false (split_case false text)))).

(** [_state_label(text)] *)
Definition state_label (text : string) : string := let s := snake text in if PyStr.nonempty s then s else "unknown".

(** [_generic_metric_name(prop)] *)
Definition generic_metric_name (prop : string) : string :=
  "hw.gb300." +:+ (let s := snake prop in if PyStr.nonempty s then s else "metric").

(** [_is_gpu_temperature(prop)] *)
Definition is_gpu_temperature (prop : string) : bool :=
  PyStr.contains "temp" (PyStr.lower prop) || PyStr.contains "temperature" (PyStr.lower prop).

(** [if info.get(key): dims[key] = str(info[key])] over some keys *)
Definition copy_keys (keys : list string) (info ds : dims) : dims :=
  fold_left (fun ds key => match dict_get key info with Some (String _ _ as v) => dict_set key v ds | _ => ds end) keys ds.

Definition info_of (k : string) (info : dims) : string := dict_get_or k "" info.

(** [_gpu_metric_dims(identity, prop_info, row, gpu)] *)
Definition gpu_metric_dims (identity info : dims) (row : pydict) (gpu : string) : dims :=
  set_if "report" (dget "Report" row) py_str
    (copy_keys ["system"; "chassis"; "memory"] info (with_dims identity [("source", "metric-report"); ("gpu", gpu)])).

(** A sample with a [property] label and the timestamp of the row *)
Definition property_sample (metric property : string) (value : dec) (ds : dims) (row : pydict) (ty : option string) : res (option MetricSample) :=
  let? s := smc_sample metric value (merge ds [("property", property)]) (dget "Timestamp" row) ty in Ok (Some s).

Definition processor_sample (prop_name : string) (info : dims) (row : pydict) (value : option dec) (ds : dims) : res (option MetricSample) :=
  match (if decide (prop_name = "OperatingSpeedMHz") then value else None) with
  | Some v => property_sample "hw.gpu.clock_mhz" "operating_speed" v ds row None
  | None =>
      match dict_get prop_name GPU_COMPUTE_PROPERTIES, value with
      | Some property, Some v =>
          let? s := smc_sample "hw.gpu.compute.utilization" v
                      (merge ds ([("property", property)] ++ match dict_get "index" info with Some (String _ _ as i) => [("index", i)] | _ => [] end))
                      (dget "Timestamp" row) None in Ok (Some s)
      | _, _ =>
          match dict_get prop_name GPU_THROTTLE_PROPERTIES with
          | Some property =>
              match duration_seconds (dget "MetricValue" row) with
              | Some seconds => property_sample "hw.gpu.throttle.duration_seconds" property seconds ds row (Some "counter")
              | None => Ok None
              end
          | None => Ok None
          end
      end
  end.

Definition memory_sample (prop_name : string) (row : pydict) (value : option dec) (ds : dims) : res (option MetricSample) :=
  match value with
  | None => Ok None
  | Some v =>
      match dict_get prop_name GPU_MEMORY_PROPERTIES with
      | Some (metric, property) => property_sample metric property v ds row None
      | None =>
          match dict_get prop_name GPU_MEMORY_ECC_PROPERTIES with
          | Some property => property_sample "hw.gpu.memory.ecc_errors" property v ds row None
          | None =>
              match dict_get prop_name GPU_MEMORY_ROW_REMAP_PROPERTIES with
              | Some property => property_sample "hw.gpu.memory.row_remap_count" property v ds row None
              | None =>
                  if decide (prop_name = "RowRemappingFailed")
                  then property_sample "hw.gpu.memory.row_remapping_failed" "row_remapping_failed" v ds row None
                  else Ok None
              end
          end
      end
  end.

(** [_gpu_metric_report_sample(prop_info, row, identity)] *)
Definition gpu_metric_report_sample (info : dims) (row : pydict) (identity : dims) : res (option MetricSample) :=
  let prop_name := info_of "property" info in
  match gpu_from_metric_info info with
  | Some (String _ _ as gpu) =>
      let source := dict_get "metric_source" info in
      let value := as_float (dget "MetricValue" row) in
      let ds := gpu_metric_dims identity info row gpu in
      if bool_decide (source = Some "sensor") && is_gpu_temperature prop_name then
        match value with
        | Some v =>
            let? s := smc_sample "hw.gpu.temperature" v
                        (merge ds [("property", "temperature"); ("sensor", dim_value (PStr prop_name))]) (dget "Timestamp" row) None in
            Ok (Some s)
        | None => Ok None
        end
      else if decide (source = Some "processor") then processor_sample prop_name info row value ds
      else if decide (source = Some "memory") then memory_sample prop_name row value ds
      else Ok None
  | _ => Ok None
  end.

Definition fabric_of (info : dims) : string := if PyStr.startswith "ib" (PyStr.lower (info_of "port" info)) then "ib" else "nvlink".

Definition allowed (labels : list string) (other label : string) : string := if decide (label ∈ labels) then label else other.

(** The metric and the labels of a categorical property *)
Definition state_labels (prop_name label : string) (info : dims) : option (string * dims) :=
  if decide (prop_name = "Health") then Some ("hw.component.health", [("health", allowed HEALTH_LABELS "unknown" label)])
  else if decide (prop_name = "HealthRollup") then Some ("hw.component.health_rollup", [("health", allowed HEALTH_LABELS "unknown" label)])
  else if decide (prop_name = "State") then Some ("hw.component.state", [("state", allowed STATE_LABELS "unknown" label)])
  else if decide (prop_name = "LinkDownReasonCode") then
    Some ("hw.fabric.link_down_reason", [("reason", allowed LINK_DOWN_REASONS "other" label); ("fabric", fabric_of info)])
  else if decide (prop_name = "EDPViolationState") then Some ("hw.power.edp_violation_state", [("state", allowed EDP_STATES "other" label)])
  else if decide (prop_name = "PowerBreakPerformanceState") then
    Some ("hw.power.break_performance_state", [("state", allowed POWER_BREAK_STATES "other" label)])
  else if decide (prop_name = "LastResetType") then Some ("hw.component.last_reset_type", [("reset_type", allowed RESET_TYPES "other" label)])
  else None.

Definition report_dims (keys : list string) (info identity : dims) (row : pydict) : dims :=
  dict_set "report" (text_or row ["Report"] "unknown")
    (copy_keys keys info (with_dims identity [("source", "metric-report"); ("property", dim_value (PStr (info_of "property" info)))])).

(** [_state_enum_sample(prop_info, row, identity)] *)
Definition state_enum_sample (info : dims) (row : pydict) (identity : dims) : res (option MetricSample) :=
  let text := PyStr.strip (text_or row ["MetricValue"] "") in
  if PyStr.nonempty text then
    match state_labels (info_of "property" info) (state_label text) info with
    | Some (metric, ls) =>
        let? s := smc_sample metric (1, 0) (merge (report_dims ["system"; "gpu"; "port"; "chassis"; "memory"; "index"] info identity row) ls)
                    (dget "Timestamp" row) None in
        Ok (Some s)
    | None => Ok None
    end
  else Ok None.

Definition metric_report_row (identity : dims) (row : pydict) : res (list MetricSample) :=
  let prop := dget "MetricProperty" row in
  if truthy prop then
    let info := parse_metric_property (py_str prop) in
    let prop_name := info_of "property" info in
    let? gpu_sample := gpu_metric_report_sample info row identity in
    match gpu_sample with
    | Some s => Ok [s]
    | None =>
        match as_float (dget "MetricValue" row) with
        | None =>
            let? state_sample := state_enum_sample info row identity in
            Ok (match state_sample with Some s => [s] | None => [] end)
        | Some value =>
            let '(metric, ds) :=
              match dict_get prop_name FABRIC_PROPERTY_METRICS with
              | Some metric =>
                  (metric, dict_set "report" (text_or row ["Report"] "unknown")
                     (fabric_dims identity (PStr (info_of "system" info)) (PStr (info_of "gpu" info)) (PStr (info_of "port" info)) (fabric_of info)))
              | None => (generic_metric_name prop_name, report_dims ["system"; "gpu"; "port"; "chassis"; "index"] info identity row)
              end in
            let? s := smc_sample metric value ds (dget "Timestamp" row) None in
            Ok [s]
        end
    end
  else Ok [].

(** [samples_from_metric_report_rows(rows, identity)] *)
Definition samples_from_metric_report_rows (rows : list pydict) (identity : dims) : res (list MetricSample) :=
  over_rows (metric_report_row identity) rows.

(** ** Leak detectors, adapters and component integrity *)

Definition CLEAR_STATES : list string := ["ok"; "normal"; "none"; "absent"; "notdetected"; "noleak"; "noleakdetected"].

(** [_leak_state_value(value)] *)
Definition leak_state_value (value : pyval) : option dec :=
  match value with
  | PNone | PStr EmptyString => None
  | v =>
      let state := Identity.keep_chars (fun c => PyStr.is_alnum c) (PyStr.lower (PyStr.strip (py_str v))) in
      Some (of_bool (bool_decide (state ∉ CLEAR_STATES)))
  end.

Definition leak_row (identity : dims) (row : pydict) : res (list MetricSample) :=
  match leak_state_value (dget "DetectorState" row) with
  | None => Ok []
  | Some value =>
      let ds := with_dims identity
        [("source", "leak-detector"); ("chassis", text_or row ["Chassis"] "unknown");
         ("detector", dim_value (PStr (text_or row ["Id"; "Name"; "Uri"] "detector")));
         ("detector_state", dim_value (dget "DetectorState" row))] in
      let ds := set_if "detector_type" (dget "LeakDetectorType" row) dim_value ds in
      let ds := set_if "health" (dget "Health" row) dim_value ds in
      let ds := set_if "state" (dget "State" row) dim_value ds in
      collect_samples [smc_sample "hw.leak.state" value ds PNone None]
  end.

(** [samples_from_leak_detection_rows(rows, identity)] *)
Definition samples_from_leak_detection_rows (rows : list pydict) (identity : dims) : res (list MetricSample) :=
  over_rows (leak_row identity) rows.

Definition network_row (identity : dims) (row : pydict) : res (list MetricSample) :=
  let ds := with_dims identity [("source", "network-adapter"); ("adapter", dim_value (PStr (text_or row ["Id"] "adapter")))] in
  let ds := dict_set "device_class" (text_or row ["DeviceClass"] "NIC") ds in
  let ds := set_if "model" (dget "Model" row) dim_value ds in
  collect_samples [smc_sample "hw.fabric.adapter_present" (1, 0) ds PNone None].

(** [samples_from_network_rows(rows, identity)] *)
Definition samples_from_network_rows (rows : list pydict) (identity : dims) : res (list MetricSample) :=
  over_rows (network_row identity) rows.

Definition component_row (identity : dims) (row : pydict) : res (list MetricSample) :=
  let ds := with_dims identity [("source", "component-integrity"); ("component", dim_value (PStr (text_or row ["Id"] "component")))] in
  let ds := set_if "component_integrity_type" (dget "Type" row) py_str ds in
  collect_samples [smc_sample "hw.component_integrity.enabled" (of_bool (is_True (dget "Enabled" row))) ds PNone None].

(** [samples_from_component_integrity_rows(rows, identity)] *)
Definition samples_from_component_integrity_rows (rows : list pydict) (identity : dims) : res (list MetricSample) :=
  over_rows (component_row identity) rows.

(** The rows of a scrape, by source. *)
Record scrape_rows := Rows {
  environment_rows : list pydict; sensor_rows : list pydict; nvlink_rows : list pydict; metric_report_rows : list pydict;
  thermal_rows : list pydict; leak_detection_rows : list pydict; network_rows : list pydict; component_integrity_rows : list pydict
}.

(** [build_metric_samples(identity, ...)] *)
Definition build_metric_samples (identity : dims) (r : scrape_rows) : res (list MetricSample) :=
  let? s1 := samples_from_environment_rows (environment_rows r) identity in
  let? s2 := samples_from_sensor_rows (sensor_rows r) identity in
  let? s3 := samples_from_nvlink_rows (nvlink_rows r) identity in
  let? s4 := samples_from_thermal_rows (thermal_rows r) identity in
  let? s5 := samples_from_metric_report_rows (metric_report_rows r) identity in
  let? s6 := samples_from_leak_detection_rows (leak_detection_rows r) identity in
  let? s7 := samples_from_network_rows (network_rows r) identity in
  let? s8 := samples_from_component_integrity_rows (component_integrity_rows r) identity in
  Ok (s1 ++ s2 ++ s3 ++ s4 ++ s5 ++ s6 ++ s7 ++ s8).

(** ** Examples *)

Definition example_identity : dims :=
  [("host.name", "h"); ("node", "slot3"); ("server.address", "10.0.0.43"); ("bmc.ip", "10.0.0.23"); ("vendor", "supermicro")].

Example throttle_report :
  option_map (map (fun s => (metric s, value s, filter (fun kv : string * string => kv.1 ∉ dict_keys example_identity) (dimensions s), metric_type s)))
    (match samples_from_metric_report_rows
       [[("MetricProperty", PStr "/redfish/v1/Systems/HGX_Baseboard_0/Processors/GPU_2/ProcessorMetrics#/Oem/Nvidia/PowerLimitThrottleDuration");
         ("MetricValue", PStr "PT1M2S"); ("Report", PStr "R")];
        [("MetricProperty", PStr "/redfish/v1/Chassis/C/Sensors/FP16ActivityPercent"); ("MetricValue", PStr "12.5")];
        [("MetricProperty", PStr "/redfish/v1/Systems/S/Processors/GPU_0/Ports/NVLink_1/Metrics#/RXBytes"); ("MetricValue", PInt 7)];
        [("MetricProperty", PStr "/redfish/v1/Chassis/C#/Status/State"); ("MetricValue", PStr "StandbyOffline")]] example_identity
     with Ok ss => Some ss | _ => None end) =
  Some [("hw.gpu.throttle.duration_seconds", (62, 0), [("source", "metric-report"); ("gpu", "GPU_2"); ("system", "HGX_Baseboard_0"); ("report", "R");
           ("property", "power_limit")], "counter");
        ("hw.gb300.fp16_activity_percent", (125, -1), [("source", "metric-report"); ("property", "FP16ActivityPercent"); ("chassis", "C");
           ("report", "unknown")], "gauge");
        ("hw.fabric.rx_bytes", (7, 0), [("source", "fabric"); ("fabric", "nvlink"); ("system", "S"); ("gpu", "GPU_0"); ("port", "NVLink_1");
           ("report", "unknown")], "counter");
        ("hw.component.state", (1, 0), [("source", "metric-report"); ("property", "State"); ("chassis", "C"); ("report", "unknown");
           ("state", "standby_offline")], "gauge")].
Proof. vm_compute. reflexivity. Qed.

(** ** What every sample keeps *)

(** The labels that samples add. *)
Definition SAMPLE_KEYS : list string :=
  ["source"; "chassis"; "resource_type"; "resource"; "processor"; "memory"; "gpu"; "fan"; "sensor"; "health"; "fabric"; "system"; "port"; "zone";
   "report"; "property"; "index"; "state"; "reason"; "reset_type"; "detector"; "detector_state"; "detector_type"; "adapter"; "device_class"; "model";
   "component"; "component_integrity_type"; "collector"; "error"; "commit"; "version"; "schema_contract_version"].

Lemma sample_keys_free k : k ∈ SAMPLE_KEYS -> k ∉ Identity.RESOURCE_DIMENSIONS.
Proof.
  intros Hk Hr. assert (Forall (fun k => k ∉ Identity.RESOURCE_DIMENSIONS) SAMPLE_KEYS) as H by (apply (bool_decide_unpack _); reflexivity).
  rewrite Forall_forall in H. by apply (H k).
Qed.

(** Dimensions that keep the identity and add only labels of samples. *)
Definition ok_dims (identity ds : dims) : Prop :=
  NoDup (dict_keys ds) /\
  (forall k, k ∈ Identity.RESOURCE_DIMENSIONS -> dict_get k ds = dict_get k (with_dims identity [])) /\
  (forall k, k ∈ dict_keys ds -> k ∈ dict_keys identity \/ k ∈ REQUIRED_DIMENSIONS \/ k ∈ SAMPLE_KEYS).

Lemma ok_set identity ds k v : ok_dims identity ds -> k ∈ SAMPLE_KEYS -> ok_dims identity (dict_set k v ds).
Proof.
  intros (H1 & H2 & H3) Hk. split; [by apply dict_set_NoDup|]. split.
  - intros k' Hk'. rewrite dict_get_set_ne; [by apply H2|]. intros ->. by apply (sample_keys_free k).
  - intros k'. rewrite dict_keys_set. case_decide; [apply H3|]. rewrite elem_of_app, list_elem_of_singleton. naive_solver.
Qed.

Lemma ok_merge identity ds e : ok_dims identity ds -> Forall (fun k => k ∈ SAMPLE_KEYS) (dict_keys e) -> ok_dims identity (merge ds e).
Proof.
  unfold merge, dict_update. revert ds. induction e as [|[k v] e IH]; intros ds Hds; [done|]. cbn [dict_keys map fst].
  intros [Hk He]%Forall_cons. cbn [fold_left fst snd]. apply IH; [by apply ok_set|done].
Qed.

Lemma ok_set_if identity ds name v f : ok_dims identity ds -> name ∈ SAMPLE_KEYS -> ok_dims identity (set_if name v f ds).
Proof. intros. unfold set_if. destruct (truthy v); [by apply ok_set|done]. Qed.

Lemma ok_copy identity keys info ds : ok_dims identity ds -> Forall (fun k => k ∈ SAMPLE_KEYS) keys -> ok_dims identity (copy_keys keys info ds).
Proof.
  unfold copy_keys. intros Hds Hk. revert ds Hds. induction Hk as [|k keys Hk _ IH]; intros ds Hds; [done|]. cbn [fold_left].
  apply IH. destruct (dict_get k info) as [[|c v]|]; [done|by apply ok_set|done].
Qed.

Lemma require_keys identity ds k : k ∈ dict_keys (require_dims identity ds) -> k ∈ dict_keys ds \/ k ∈ REQUIRED_DIMENSIONS.
Proof.
  intros Hk. destruct (dict_get k (require_dims identity ds)) eqn:Hg; [|by apply dict_get_None in Hg].
  rewrite require_dims_get in Hg. destruct (dict_get k ds) eqn:Hd; [left; by eapply dict_get_Some_keys|]. case_decide; [by right|done].
Qed.

Lemma require_NoDup identity ds : NoDup (dict_keys ds) -> NoDup (dict_keys (require_dims identity ds)).
Proof.
  unfold require_dims. generalize REQUIRED_DIMENSIONS as keys. intros keys. revert ds. induction keys as [|key keys IH]; intros ds Hnd; [done|].
  cbn [fold_left]. apply IH. unfold dict_setdefault. destruct (dict_in key ds); [done|by apply dict_set_NoDup].
Qed.

Section Rows.
Context (identity : dims) (identity_keys : NoDup (dict_keys identity)).

Lemma ok_with_dims extra : Forall (fun k => k ∈ SAMPLE_KEYS) (dict_keys extra) -> ok_dims identity (with_dims identity extra).
Proof.
  intros He. unfold with_dims at 1, add_dims. set (base := require_dims identity (filter _ identity)).
  assert (ok_dims identity base) as Hbase.
  { split; [by apply require_NoDup, Identity.filter_keys_NoDup|]. split.
    - intros k _. unfold with_dims, add_dims. by fold base.
    - intros k [Hk|Hk]%require_keys; [left|by right; left]. unfold dict_keys in *. apply list_elem_of_fmap in Hk as (kv & -> & Hin).
      apply list_elem_of_filter in Hin as [_ Hin]. by apply (list_elem_of_fmap_2 fst). }
  apply (ok_merge identity base); [done|]. rewrite Forall_forall in He |- *. intros k Hk. apply He. unfold dict_keys in *.
  apply list_elem_of_fmap in Hk as (kv & -> & Hin). apply list_elem_of_filter in Hin as [_ Hin]. by apply (list_elem_of_fmap_2 fst).
Qed.

(** ** Samples of the reader *)

Definition named (m : string) : Prop := m ∈ dict_keys SmcCatalog.METRIC_DEFINITIONS \/ exists p, m = generic_metric_name p.

(** A sample that the catalog describes and that keeps the identity. *)
Definition good_sample (s : MetricSample) : Prop :=
  cataloged SmcCatalog.metric_definition s /\ ok_dims identity (dimensions s) /\ named (metric s).

Lemma named_definition m : named m -> exists d, SmcCatalog.metric_definition m = Ok d.
Proof.
  intros [Hm|[p ->]].
  - destruct (dict_get m SmcCatalog.METRIC_DEFINITIONS) as [d|] eqn:Hd; [|by apply dict_get_None in Hd].
    exists d. unfold SmcCatalog.metric_definition. by rewrite Hd.
  - apply SmcCatalog.derived_definition. unfold generic_metric_name. by rewrite startswith_app.
Qed.

Lemma smc_sample_ok m v ds ts : named m -> ok_dims identity ds -> exists s, smc_sample m v ds ts None = Ok s /\ good_sample s.
Proof.
  intros Hm Hds. destruct (named_definition m Hm) as [d Hd]. unfold smc_sample, sample. rewrite Hd. simpl. eexists. split; [reflexivity|].
  split; [by exists d|]. by split.
Qed.

(** The result of a row: good samples, or a [TypeError] for a row of the wrong shape. *)
Definition fine (shaped : bool) (r : res (list MetricSample)) : Prop :=
  match r with Ok ss => Forall good_sample ss | Raise (TypeError _) => shaped = false | _ => False end.

Lemma fine_collect l : Forall (fun r => exists s, r = Ok s /\ good_sample s) l -> exists ss, collect_samples l = Ok ss /\ Forall good_sample ss.
Proof.
  induction 1 as [|r l (s & -> & Hs) _ (ss & IH & Hss)]; [by exists []|]. exists (s :: ss). simpl. rewrite IH. split; [done|by constructor].
Qed.

Lemma fine_samples l : Forall (fun r => exists s, r = Ok s /\ good_sample s) l -> fine true (collect_samples l).
Proof. by intros (ss & -> & Hss)%fine_collect. Qed.

Lemma fine_over f shape rows : (forall row, fine (shape row) (f row)) -> fine (forallb shape rows) (over_rows f rows).
Proof.
  intros Hf. induction rows as [|row rows IH]; [constructor|]. cbn [over_rows forallb]. specialize (Hf row). revert Hf.
  destruct (f row) as [ss|e|]; simpl; [intros Hss|destruct e; try done; by intros ->|done]. revert IH.
  destruct (over_rows f rows) as [more|e|]; simpl; [by apply Forall_app_2|destruct e; try done; intros ->; apply andb_false_r|done].
Qed.

Ltac by_compute := apply (bool_decide_unpack _); vm_compute; reflexivity.
Ltac keep_dims :=
  repeat lazymatch goal with
  | |- ok_dims _ (dict_set _ _ _) => apply ok_set
  | |- ok_dims _ (set_if _ _ _ _) => apply ok_set_if
  | |- ok_dims _ (merge _ _) => apply ok_merge
  | |- ok_dims _ (copy_keys _ _ _) => apply ok_copy
  | |- ok_dims _ (with_dims _ _) => apply ok_with_dims
  end; try by_compute; try done.
Ltac cataloged_sample := apply smc_sample_ok; [left; by_compute|keep_dims].

Lemma gpu_dim_keys g : Forall (fun k => k ∈ SAMPLE_KEYS) (dict_keys (gpu_dim g)).
Proof. destruct g as [[|c g]|]; by_compute. Qed.

Lemma environment_keep row chassis : ok_dims identity (environment_dims identity row chassis).
Proof.
  unfold environment_dims. cbv zeta. assert (ok_dims identity (set_if "resource_type" (dget "ParentType" row) py_str
    (with_dims identity [("source", "environment"); ("chassis", chassis)]))) as H by keep_dims.
  repeat case_match; try done; repeat (apply ok_set; [|by_compute]); done.
Qed.

Definition fans_shaped (row : pydict) : bool := match fan_readings row with Ok _ => true | _ => false end.

Lemma iterate_raises row e : fan_readings row = Raise e -> exists m, e = TypeError m.
Proof.
  unfold fan_readings. destruct (iterate _) as [l|e'|] eqn:Hi; [done| |done]. intros [= ->]. unfold iterate in Hi.
  repeat case_match; simplify_eq; eauto.
Qed.

Lemma fine_then shaped (r : res (list MetricSample)) f : fine true r -> (forall ss, Forall good_sample ss -> fine shaped (f ss)) -> fine shaped (res_bind r f).
Proof. destruct r as [ss|e|]; simpl; [intros H Hf; by apply Hf|by destruct e|done]. Qed.

Lemma environment_fine row : fine (fans_shaped row) (environment_row identity row).
Proof.
  unfold environment_row. set (ds := environment_dims identity row _). set (gpu := environment_gpu row _).
  assert (ok_dims identity ds) as Hds by apply environment_keep.
  assert (ok_dims identity (merge ds (gpu_dim gpu))) as Hgpu by (apply ok_merge; [done|apply gpu_dim_keys]).
  apply fine_then.
  { apply fine_samples, Forall_app. split; destruct (as_float _); repeat constructor.
    - destruct (_ && _); apply smc_sample_ok; try done; left; by_compute.
    - apply smc_sample_ok; [left; by_compute|done]. }
  intros head Hhead. unfold fans_shaped. destruct (fan_readings row) as [fans|e|] eqn:Hf.
  - change (fine true (res_bind (Ok fans) ?k)) with (fine true (k fans)). cbv beta. apply fine_then.
    + apply fine_samples. clear Hf. induction fans as [|fr fans IH]; constructor; [cataloged_sample|apply IH].
    + intros tail Htail. by apply Forall_app_2.
  - by apply iterate_raises in Hf as [m ->].
  - unfold fan_readings, iterate in Hf. by repeat case_match.
Qed.

(** A reading of a type that Python can look up in the table of sensors. *)
Definition reading_shaped (row : pydict) : bool :=
  match as_float (dget "Reading" row), dget "ReadingType" row with Some _, (PList _ | PDict _) => false | _, _ => true end.

Lemma fine_one m v ds ts : named m -> ok_dims identity ds -> fine true (collect_samples [smc_sample m v ds ts None]).
Proof. intros Hm Hds. apply fine_samples. constructor; [by apply smc_sample_ok|constructor]. Qed.

Lemma sensor_table t m l : dict_get t SENSOR_METRIC = Some (m, l) -> named m /\ l ∈ SAMPLE_KEYS.
Proof.
  intros H%dict_get_In. assert (Forall (fun r : string * (string * string) => r.2.1 ∈ dict_keys SmcCatalog.METRIC_DEFINITIONS /\
    r.2.2 ∈ SAMPLE_KEYS) SENSOR_METRIC) as Hall by by_compute. rewrite Forall_forall in Hall. destruct (Hall _ H) as [H1 H2]. split; [by left|done].
Qed.

Lemma sensor_fine row : fine (reading_shaped row) (sensor_row identity row).
Proof.
  unfold sensor_row, reading_shaped. destruct (as_float (dget "Reading" row)) as [v|]; [|constructor]. cbv zeta.
  set (ds := set_if "health" _ _ _). assert (ok_dims identity ds) as Hds by (subst ds; keep_dims).
  set (rt := dget "ReadingType" row). destruct (eq_str rt "Power") eqn:Hp.
  { replace (match rt with PList _ | PDict _ => false | _ => true end) with true by (by destruct rt).
    destruct (gpu_from_chassis _) as [[|c g]|]; apply fine_one; try (left; by_compute); keep_dims. }
  destruct rt; try (by constructor); try done. cbn [sensor_metric]. destruct (dict_get s SENSOR_METRIC) as [[m l]|] eqn:Ht; [|constructor].
  apply sensor_table in Ht as [Hm Hl]. apply fine_one; [done|]. apply ok_merge; [done|]. constructor; [done|constructor].
Qed.

Lemma fabric_keep system gpu port fabric : ok_dims identity (fabric_dims identity system gpu port fabric).
Proof. unfold fabric_dims. keep_dims. Qed.

Lemma nvlink_fine row : fine true (nvlink_row identity row).
Proof.
  unfold nvlink_row. cbv zeta. set (ds := fabric_dims identity _ _ _ _). assert (ok_dims identity ds) as Hds by apply fabric_keep.
  apply fine_samples. constructor; [apply smc_sample_ok; [left; by_compute|done]|].
  cbn [omap list_omap]. repeat (destruct (as_float _); cbn [fmap option_fmap option_map]);
    repeat (constructor; [apply smc_sample_ok; [left; by_compute|done]|]); constructor.
Qed.

Lemma thermal_fine row : fine true (thermal_row identity row).
Proof.
  unfold thermal_row. cbv zeta. destruct (as_float _); [|constructor]. apply fine_one; [left; by_compute|keep_dims].
Qed.

Lemma leak_fine row : fine true (leak_row identity row).
Proof.
  unfold leak_row. destruct (leak_state_value _); [|constructor]. cbv zeta. apply fine_one; [left; by_compute|keep_dims].
Qed.

Lemma network_fine row : fine true (network_row identity row).
Proof. unfold network_row. cbv zeta. apply fine_one; [left; by_compute|keep_dims]. Qed.

Lemma component_fine row : fine true (component_row identity row).
Proof. unfold component_row. cbv zeta. apply fine_one; [left; by_compute|keep_dims]. Qed.

(** ** Metric reports: a sample or nothing *)

Definition fine_opt (r : res (option MetricSample)) : Prop := exists o, r = Ok o /\ match o with Some s => good_sample s | None => True end.

Lemma opt_none : fine_opt (Ok None).
Proof. by exists None. Qed.

Lemma opt_some m v ds ts : named m -> ok_dims identity ds -> fine_opt (res_bind (smc_sample m v ds ts None) (fun s => Ok (Some s))).
Proof. intros Hm Hds. destruct (smc_sample_ok m v ds ts Hm Hds) as (s & -> & Hs). by exists (Some s). Qed.

Lemma property_fine m p v ds row : named m -> ok_dims identity ds -> fine_opt (property_sample m p v ds row None).
Proof. intros Hm Hds. apply opt_some; [done|keep_dims]. Qed.

(** The throttle duration is a counter of the catalog, so its explicit type agrees. *)
Lemma throttle_fine p v ds row : ok_dims identity ds ->
  fine_opt (property_sample "hw.gpu.throttle.duration_seconds" p v ds row (Some "counter")).
Proof.
  intros Hds. assert (fine_opt (property_sample "hw.gpu.throttle.duration_seconds" p v ds row None)) as H
    by (apply property_fine; [left; by_compute|done]).
  unfold property_sample, smc_sample, sample in *. destruct (SmcCatalog.metric_definition _) as [d|e|] eqn:Hd; [|by destruct H as (? & ? & _)..].
  assert (kind d = "counter") as Hk by (vm_compute in Hd; by injection Hd as <-). cbn [res_bind] in *. by rewrite decide_True.
Qed.

Lemma processor_fine prop_name info row value ds : ok_dims identity ds -> fine_opt (processor_sample prop_name info row value ds).
Proof.
  intros Hds. unfold processor_sample. case_match; [apply property_fine; [left; by_compute|done]|].
  destruct (dict_get prop_name GPU_COMPUTE_PROPERTIES); destruct value as [v|];
    [apply opt_some; [left; by_compute|destruct (dict_get "index" info) as [[|c i]|]; keep_dims]|..];
    (destruct (dict_get prop_name GPU_THROTTLE_PROPERTIES); [destruct (duration_seconds _); [by apply throttle_fine|]|]; apply opt_none).
Qed.

Lemma memory_fine prop_name row value ds : ok_dims identity ds -> fine_opt (memory_sample prop_name row value ds).
Proof.
  intros Hds. unfold memory_sample. destruct value as [v|]; [|apply opt_none].
  destruct (dict_get prop_name GPU_MEMORY_PROPERTIES) as [[m p]|] eqn:Ht.
  { apply property_fine; [|done]. apply dict_get_In in Ht.
    assert (Forall (fun r : string * (string * string) => r.2.1 ∈ dict_keys SmcCatalog.METRIC_DEFINITIONS) GPU_MEMORY_PROPERTIES) as H by by_compute.
    rewrite Forall_forall in H. left. apply (H _ Ht). }
  destruct (dict_get _ GPU_MEMORY_ECC_PROPERTIES); [apply property_fine; [left; by_compute|done]|].
  destruct (dict_get _ GPU_MEMORY_ROW_REMAP_PROPERTIES); [apply property_fine; [left; by_compute|done]|].
  case_decide; [apply property_fine; [left; by_compute|done]|apply opt_none].
Qed.

Lemma gpu_report_fine info row : fine_opt (gpu_metric_report_sample info row identity).
Proof.
  unfold gpu_metric_report_sample. destruct (gpu_from_metric_info info) as [[|c g]|]; [apply opt_none| |apply opt_none]. cbv zeta.
  set (ds := gpu_metric_dims _ _ _ _). assert (ok_dims identity ds) as Hds by (subst ds; unfold gpu_metric_dims; keep_dims).
  destruct (_ && _); [destruct (as_float _); [apply opt_some; [left; by_compute|keep_dims]|apply opt_none]|].
  case_decide; [by apply processor_fine|]. case_decide; [by apply memory_fine|apply opt_none].
Qed.

Lemma state_labels_named prop_name label info m ls : state_labels prop_name label info = Some (m, ls) ->
  named m /\ Forall (fun k => k ∈ SAMPLE_KEYS) (dict_keys ls).
Proof.
  unfold state_labels. repeat case_decide; intros [= <- <-]; (split; [left|]; by_compute).
Qed.

Lemma report_keep keys info row : Forall (fun k => k ∈ SAMPLE_KEYS) keys -> ok_dims identity (report_dims keys info identity row).
Proof. intros Hk. unfold report_dims. keep_dims. Qed.

Lemma state_enum_fine info row : fine_opt (state_enum_sample info row identity).
Proof.
  unfold state_enum_sample. cbv zeta. destruct (PyStr.nonempty _); [|apply opt_none].
  destruct (state_labels _ _ _) as [[m ls]|] eqn:Hs; [|apply opt_none]. apply state_labels_named in Hs as [Hm Hls].
  apply opt_some; [done|]. apply ok_merge; [apply report_keep; by_compute|done].
Qed.

Lemma fabric_table p m : dict_get p FABRIC_PROPERTY_METRICS = Some m -> named m.
Proof.
  intros Ht%dict_get_In. assert (Forall (fun r : string * string => r.2 ∈ dict_keys SmcCatalog.METRIC_DEFINITIONS) FABRIC_PROPERTY_METRICS) as H
    by by_compute. rewrite Forall_forall in H. left. apply (H _ Ht).
Qed.

Lemma metric_report_fine row : fine true (metric_report_row identity row).
Proof.
  unfold metric_report_row. destruct (truthy _); [|constructor]. cbv zeta. set (info := parse_metric_property _).
  destruct (gpu_report_fine info row) as ([s|] & -> & Hs); [by apply Forall_singleton|]. cbn [res_bind].
  destruct (as_float _) as [v|].
  2: { destruct (state_enum_fine info row) as ([s|] & -> & Hs'); [by apply Forall_singleton|constructor]. }
  destruct (dict_get _ FABRIC_PROPERTY_METRICS) as [m|] eqn:Ht.
  - destruct (smc_sample_ok m v (dict_set "report" (text_or row ["Report"] "unknown") (fabric_dims identity (PStr (info_of "system" info))
      (PStr (info_of "gpu" info)) (PStr (info_of "port" info)) (fabric_of info))) (dget "Timestamp" row)) as (s & -> & Hg);
      [by eapply fabric_table|apply ok_set; [apply fabric_keep|by_compute]|by apply Forall_singleton].
  - destruct (smc_sample_ok (generic_metric_name (info_of "property" info)) v (report_dims ["system"; "gpu"; "port"; "chassis"; "index"] info identity row)
      (dget "Timestamp" row)) as (s & -> & Hg); [right; by eexists|apply report_keep; by_compute|by apply Forall_singleton].
Qed.

Definition shaped_rows (r : scrape_rows) : bool := forallb fans_shaped (environment_rows r) && forallb reading_shaped (sensor_rows r).

Lemma fine_append s1 s2 (r1 : res (list MetricSample)) k :
  fine s1 r1 -> (forall a, Forall good_sample a -> fine s2 (k a)) -> fine (s1 && s2) (res_bind r1 k).
Proof.
  destruct r1 as [a|e|]; cbn [res_bind]; [|destruct e; try done; by intros -> _|done].
  intros Ha Hk. specialize (Hk a Ha). destruct (k a) as [b|e|]; [done|destruct e; try done; simpl in *; by rewrite Hk, andb_false_r|done].
Qed.

(** The samples of a scrape: whatever the rows are, each is described by the catalog and keeps the identity; only a row
    of the wrong shape makes the function raise. *)
Lemma build_fine r : fine (shaped_rows r) (build_metric_samples identity r).
Proof.
  unfold build_metric_samples, shaped_rows.
  apply fine_append; [apply fine_over, environment_fine|intros s1 H1].
  rewrite <- (andb_true_r (forallb reading_shaped _)). apply fine_append; [apply fine_over, sensor_fine|intros s2 H2].
  assert (forall f rows, (forall row, fine true (f row)) -> fine true (over_rows f rows)) as Hover.
  { intros f rows Hf. pose proof (fine_over f (fun _ => true) rows Hf) as H. by replace (forallb (fun _ => true) rows) with true in H
      by (clear; by induction rows). }
  apply fine_then; [apply Hover, nvlink_fine|intros s3 H3]. apply fine_then; [apply Hover, thermal_fine|intros s4 H4].
  apply fine_then; [apply Hover, metric_report_fine|intros s5 H5]. apply fine_then; [apply Hover, leak_fine|intros s6 H6].
  apply fine_then; [apply Hover, network_fine|intros s7 H7]. apply fine_then; [apply Hover, component_fine|intros s8 H8].
  by repeat (apply Forall_app_2; [done|]).
Qed.

Lemma over_raises f shape rows ss : (forall row ss, f row = Ok ss -> shape row = true) -> over_rows f rows = Ok ss -> forallb shape rows = true.
Proof.
  intros Hf. revert ss. induction rows as [|row rows IH]; intros ss; [done|]. cbn [over_rows forallb].
  intros (a & Ha & (b & Hb & _)%res_bind_ok)%res_bind_ok. by rewrite (Hf _ _ Ha), (IH _ Hb).
Qed.

(** Rows of the wrong shape do make the function raise. *)
Lemma built_shaped r ss : build_metric_samples identity r = Ok ss -> shaped_rows r = true.
Proof.
  unfold build_metric_samples. intros (s1 & H1 & (s2 & H2 & _)%res_bind_ok)%res_bind_ok. unfold shaped_rows.
  apply andb_true_intro. split; [eapply over_raises, H1|eapply over_raises, H2]; clear; intros row ss.
  - unfold environment_row, fans_shaped. cbv zeta. intros (head & _ & (fans & Hf & _)%res_bind_ok)%res_bind_ok. by rewrite Hf.
  - unfold sensor_row, reading_shaped. destruct (as_float _); [|done]. cbv zeta. by destruct (dget "ReadingType" row).
Qed.
End Rows.

(** Converting the rows of a scrape ends with samples or with a [TypeError], with the error exactly when the fans of an
    environment row cannot be iterated or the type of a sensor reading cannot be looked up.  Every sample is one that the
    catalog describes, with the kind and the unit that the catalog gives; it carries each label of the identity unchanged,
    and the labels it adds come from a fixed list that no identity label is on. *)
Theorem samples_keep_identity identity r : NoDup (dict_keys identity) ->
  match build_metric_samples identity r with
  | Ok ss => shaped_rows r = true /\ Forall (fun s => cataloged SmcCatalog.metric_definition s /\ NoDup (dict_keys (dimensions s)) /\
               (forall k, k ∈ Identity.RESOURCE_DIMENSIONS -> dict_get k (dimensions s) = dict_get k (with_dims identity [])) /\
               (forall k, k ∈ dict_keys (dimensions s) -> k ∈ dict_keys identity \/ k ∈ REQUIRED_DIMENSIONS \/ k ∈ SAMPLE_KEYS)) ss
  | Raise (TypeError _) => shaped_rows r = false
  | _ => False
  end.
Proof.
  intros Hnd. pose proof (build_fine identity Hnd r) as H. destruct (build_metric_samples identity r) as [ss|e|] eqn:Hb; [|by destruct e|done].
  split; [by eapply built_shaped|]. eapply Forall_impl; [exact H|]. intros s (Hc & (H1 & H2 & H3) & _). done.
Qed.

Definition example_rows : scrape_rows :=
  Rows [[("Id", PStr "HGX_GPU_0"); ("PowerWatts", PDict [("Reading", PInt 412)])]] [] [] [] [] [] [] [].

Lemma samples_keep_identity_witness :
  exists ss, build_metric_samples example_identity example_rows = Ok ss /\
    Forall (fun s => dict_get "bmc.ip" (dimensions s) = Some "10.0.0.23") ss /\ ss <> [].
Proof.
  pose proof (samples_keep_identity example_identity example_rows ltac:(apply (bool_decide_unpack _); vm_compute; reflexivity)) as H.
  destruct (build_metric_samples example_identity example_rows) as [ss|e|] eqn:Hb; [|vm_compute in Hb; discriminate..].
  exists ss. split; [done|]. split; [|intros ->; vm_compute in Hb; discriminate].
  eapply Forall_impl; [exact (proj2 H)|]. intros s (_ & _ & Hk & _). apply Hk. apply (bool_decide_unpack _). reflexivity.
Defined.

(** A number where the fans should be. *)
Example fans_abort :
  build_metric_samples example_identity
    (Rows [[("Id", PStr "C"); ("FanSpeedsPercent", PInt 40)]] [] [] [] [] [] [] []) = Raise (TypeError "'int' object is not iterable").
Proof. vm_compute. reflexivity. Qed.
End SmcRows.
