(* ===== verification/SmcReader.v ===== *)
(** * The Supermicro telemetry reader

    src/redfish_ctl/telemetry/supermicro/super_microexporter.py, [SupermicroExporterReader], and the
    service instance id of src/redfish_ctl/redfish_manager.py that it labels its samples with.  The
    collectors are commands that the manager dispatches ([SyncInvoker]); the reader turns their
    outcomes into samples and keeps the error totals between scrapes.  Spans of [otlp_traces] are not
    modelled. *)

From stdpp Require Import base list strings gmap pretty.
From Stdlib Require Import Ascii ZArith Lia.
From S2P Require Import Prelude PyVal Effects Http Numbers Config Urls Uuid Identity Manager Discovery Invoker Telemetry SmcCatalog SmcRows.

Module SmcReader.
Import Http RedfishManager Discovery Telemetry.
Local Open Scope Z_scope.
Local Open Scope py_scope.

(** ** Collector errors *)

Definition UNSUPPORTED_COLLECTOR_ERRORS : list string :=
  ["FailedDiscoverAction"; "MissingResource"; "RedfishMethodNotAllowed"; "RedfishNotFound"; "ResourceNotFound"; "UnsupportedAction"].
Definition AUTHENTICATION_ERRORS : list string := ["AuthenticationFailed"; "RedfishForbidden"; "RedfishUnauthorized"].

(** [_is_unsupported_collector_error(exc)] *)
Definition is_unsupported_collector_error (e : exn) : bool := bool_decide (class_name e ∈ UNSUPPORTED_COLLECTOR_ERRORS).

(** [_collector_error_kind(exc)] *)
Definition collector_error_kind (e : exn) : string :=
  let name := class_name e in
  let lowered := PyStr.lower name in
  if PyStr.contains "timeout" lowered then "timeout"
  else if bool_decide (name ∈ AUTHENTICATION_ERRORS) || PyStr.contains "unauthoriz" lowered then "authentication"
  else if PyStr.contains "jsondecode" lowered || PyStr.contains "decode" lowered then "decode_error"
  else if bool_decide (name ∈ ["TypeError"; "ValueError"; "KeyError"; "UnexpectedResponse"]) then "invalid_payload"
  else if PyStr.contains "http" lowered || PyStr.contains "redfish" lowered || PyStr.contains "requestfailed" lowered then "http_error"
  else "internal".

(** The bounded set of error labels. *)
Definition ERROR_KINDS : list string := ["timeout"; "authentication"; "decode_error"; "invalid_payload"; "http_error"; "internal"].

(** ** Rows of a collector *)

Fixpoint as_rows (l : list pyval) : option (list pydict) :=
  match l with
  | [] => Some []
  | PDict d :: rest => (fun ds => d :: ds) <$> as_rows rest
  | _ => None
  end.

(** [_validate_collector_rows(rows)] *)
Definition validate_collector_rows (rows : pyval) : res (list pydict) :=
  match rows with
  | PList l => match as_rows l with Some ds => Ok ds | None => Raise (ValueError "collector returned a non-mapping row") end
  | _ => Raise (ValueError "collector returned a non-list payload")
  end.

(** [_extract_list_rows(data)] *)
Definition extract_list_rows (data : pyval) : res pyval :=
  match data with PList _ => Ok data | _ => Raise (ValueError "collector returned a non-list payload") end.

(** [data[key]] when it is a list *)
Definition listed (key : string) (data : pyval) : option pyval :=
  match data with PDict d => match dget key d with PList l => Some (PList l) | _ => None end | _ => None end.

(** [_extract_environment_rows(data)] *)
Definition extract_environment_rows (data : pyval) : res pyval :=
  match listed "metrics" data, data with
  | Some rows, _ => Ok rows
  | None, PList _ => Ok data
  | None, _ => Raise (ValueError "environment-metrics returned an unexpected payload")
  end.

(** [_extract_leak_detector_rows(data)] *)
Definition extract_leak_detector_rows (data : pyval) : res pyval :=
  match listed "detectors" data with Some rows => Ok rows | None => Raise (ValueError "leak-detectors returned an unexpected payload") end.

(** [_extract_thermal_rows(data)] *)
Definition extract_thermal_rows (data : pyval) : res pyval :=
  match listed "temperature_readings" data with Some rows => Ok rows | None => Raise (ValueError "thermal returned an unexpected payload") end.

(** [_vendor_label(vendor)] *)
Definition vendor_label (vendor : pyval) : res string :=
  if truthy vendor && negb (bool_decide (PyStr.lower (py_str vendor) = "supermicro"))
  then Raise (ValueError "the Supermicro exporter reader cannot emit another vendor label")
  else Ok "supermicro".

(** [metric_definition(metric_name)] *)
Definition reader_metric_definition (metric_name : string) : res MetricDefinition :=
  match SmcCatalog.metric_definition metric_name with
  | Raise (KeyError _) => Telemetry.metric_definition metric_name
  | r => r
  end.

(** ** The reader *)

(** The arguments of [read]. *)
Record args := Args {
  label_bmc_ip : pyval;
  a_vendor : pyval;
  a_async : bool;
  a_expanded : bool;
  a_identity : string -> pyval
}.

Section Reader.
Context {W : Type} `{!World W} `{!SyncInvoker (mstate W)}.
(** The environment, [time.time()] and [uuid.uuid4()]. *)
Context (e : Config.env) (time : W -> dec) (uuid4 : W -> string).
Abbreviation MM := (M (mstate W)).

(** The reader with the manager it reads from: [derived_id] and [fallback_id] are attributes of that manager. *)
Record reader := Reader {
  source : mstate W;
  derived_id : option string;
  fallback_id : option string;
  collector_error_totals : totals;
  last_success : dec
}.
Abbreviation MR := (M reader).

Definition set_source (s : mstate W) (r : reader) : reader :=
  Reader s (derived_id r) (fallback_id r) (collector_error_totals r) (last_success r).
Definition set_ids (d f : option string) (r : reader) : reader :=
  Reader (source r) d f (collector_error_totals r) (last_success r).
Definition set_totals (t : totals) (ts : dec) (r : reader) : reader :=
  Reader (source r) (derived_id r) (fallback_id r) t ts.

(** A call on the manager. *)
Definition on_source {A} (m : MM A) : MR A :=
  fun r => let '(s, x) := m (source r) in (set_source s r, x).

(** ** The service instance id *)

Definition identity_query (do_async : bool) (cache : nat) : qargs :=
  QArgs None do_async false "" "" "json" None None None (Some cache).

(** [_identity_resource(uri, redfish_cache, do_async)] *)
Definition identity_resource (uri : string) (cache : nat) (do_async : bool) : MM pydict :=
  try_catch
    (let! result := base_query uri (identity_query do_async cache) in
     ret (match data result with PDict d => d | _ => [] end))
    (fun e => match e with ResourceNotFound _ => true | _ => false end) (fun _ => ret []).

(** Members of a collection with their resources, in the order of their URIs. *)
Definition identity_members (collection : pydict) (cache : nat) (do_async : bool) : MM (list (string * pydict)) :=
  let! uris := lift_res (members_of (PDict collection)) in
  mapM (fun uri => let! resource := identity_resource uri cache do_async in ret (uri, resource)) (sort_strs uris).

Definition api_chassis : string := "/redfish/v1/Chassis".

(** [_chassis_identity_rank(item)] *)
Definition chassis_identity_rank (item : string * pydict) : Z * string :=
  let description := PyStr.join " " (map (fun key => py_str (py_or (dget key item.2) (PStr ""))) ["Id"; "Name"; "Model"]) in
  let normalized := PyStr.map_chars (fun c => if decide (c = "_"%char) then "-"%char else c) (PyStr.lower description) in
  if PyStr.contains "bmc" normalized || PyStr.contains "dc-scm" normalized || PyStr.contains "dcscm" normalized then (0, item.1)
  else if bool_decide (PyStr.lower (py_str (py_or (dget "ChassisType" item.2) (PStr ""))) ∈ ["module"; "component"]) then (1, item.1)
  else (2, item.1).

Definition rank_ltb (a b : Z * string) : bool := (a.1 <? b.1) || ((a.1 =? b.1) && String.ltb a.2 b.2).

Fixpoint insert_ranked (x : string * pydict) (l : list (string * pydict)) : list (string * pydict) :=
  match l with
  | [] => [x]
  | y :: l' => if rank_ltb (chassis_identity_rank x) (chassis_identity_rank y) then x :: l else y :: insert_ranked x l'
  end.

(** [chassis_resources.sort(key=self._chassis_identity_rank)] *)
Definition sort_ranked (l : list (string * pydict)) : list (string * pydict) := fold_left (fun acc x => insert_ranked x acc) l [].

(** The burned-in address of an interface gives the id at once; the configurable ones are collected. *)
Fixpoint scan_interfaces (uris : list string) (cache : nat) (do_async : bool) (macs : list pyval) : MM (option string * list pyval) :=
  match uris with
  | [] => ret (None, macs)
  | uri :: rest =>
      let! interface := identity_resource uri cache do_async in
      match Identity.service_instance_id_from_sources [] [] [dget "PermanentMACAddress" interface] [] with
      | Some id => ret (Some id, macs)
      | None => scan_interfaces rest cache do_async (macs ++ [dget "MACAddress" interface])
      end
  end.

Fixpoint scan_managers (managers : list (string * pydict)) (cache : nat) (do_async : bool) (macs : list pyval)
  : MM (option string * list pyval) :=
  match managers with
  | [] => ret (None, macs)
  | (_, manager) :: rest =>
      match identity_link manager "EthernetInterfaces" with
      | None => scan_managers rest cache do_async macs
      | Some uri =>
          let! collection := identity_resource uri cache do_async in
          let! uris := lift_res (members_of (PDict collection)) in
          let! (found, macs) := scan_interfaces (sort_strs uris) cache do_async macs in
          match found with
          | Some id => ret (Some id, macs)
          | None => scan_managers rest cache do_async macs
          end
      end
  end.

(** [_discover_service_instance_id(redfish_cache, do_async)] *)
Definition discover_service_instance_id (cache : nat) (do_async : bool) : MM (option string) :=
  let! managers_collection := identity_resource api_managers cache do_async in
  let! manager_resources := identity_members managers_collection cache do_async in
  match Identity.service_instance_id_from_sources (map (fun m => dget "UUID" m.2) manager_resources) [] [] [] with
  | Some id => ret (Some id)
  | None =>
      let! chassis_collection := identity_resource api_chassis cache do_async in
      let! chassis_resources := identity_members chassis_collection cache do_async in
      let chassis_serials := map (fun c => dget "SerialNumber" c.2) (sort_ranked chassis_resources) in
      match Identity.service_instance_id_from_sources [] chassis_serials [] [] with
      | Some id => ret (Some id)
      | None =>
          let! (found, macs) := scan_managers manager_resources cache do_async [] in
          ret (match found with
               | Some id => Some id
               | None => Identity.service_instance_id_from_sources [] [] [] macs
               end)
      end
  end.

(** [_default_service_instance_id(redfish_cache, do_async)] *)
Definition default_service_instance_id (cache : nat) (do_async : bool) : MR string :=
  let! derived := gets derived_id in
  match derived with
  | Some id => ret id
  | None =>
      let! discovered := try_Exception (on_source (discover_service_instance_id cache do_async)) (fun _ => ret None) in
      match discovered with
      | Some id => modify (fun r => set_ids (Some id) (fallback_id r) r) ;;; ret id
      | None =>
          let! fallback := gets fallback_id in
          match fallback with
          | Some id => ret id
          | None =>
              let! id := gets (fun r => uuid4 (world (source r))) in
              modify (fun r => set_ids (derived_id r) (Some id) r) ;;; ret id
          end
      end
  end.

(** ** Collecting *)

Definition now : MM Z := gets (fun s => monotonic (world s)).

(** Seconds between two readings of the clock. *)
Definition elapsed (t0 t1 : Z) : pyval := PFloat (t1 - t0) (-3).

(** What a command came to: [call()] under [except Exception]. *)
Definition attempt (m : MM CommandResult) : MM (CommandResult + exn) :=
  try_Exception (let! r := m in ret (inl r)) (fun e => ret (inr e)).

Definition collected (collector : string) (duration : pyval) (extract_rows : pyval -> res pyval) (outcome : CommandResult + exn) : CollectorResult :=
  match outcome with
  | inr exc =>
      if is_unsupported_collector_error exc then Collector collector false true duration [] None
      else Collector collector true false duration [] (Some (collector_error_kind exc))
  | inl result =>
      if truthy (error result) then Collector collector true false duration [] (Some "internal")
      else match (let? rows := extract_rows (data result) in validate_collector_rows rows) with
           | Ok rows => Collector collector true true duration rows None
           | Raise exc => Collector collector true false duration [] (Some (collector_error_kind exc))
           | NoFuel => Collector collector true false duration [] None
           end
  end.

(** [_collect_result(collector, call, extract_rows)] *)
Definition collect_result (collector : string) (call : MM CommandResult) (extract_rows : pyval -> res pyval) : MM CollectorResult :=
  let! started_at := now in
  let! outcome := attempt call in
  let! ended_at := now in
  ret (collected collector (elapsed started_at ended_at) extract_rows outcome).

(** A collector: the request type and the name of its command, how its rows are extracted, whether it takes [do_expanded]. *)
Definition COLLECTORS : list (string * string * (pyval -> res pyval) * bool) :=
  [("EnvironmentMetrics", "environment-metrics", extract_environment_rows, false);
   ("Thermal", "thermal", extract_thermal_rows, true);
   ("Sensors", "sensors", extract_list_rows, true);
   ("NvLinkPorts", "nvlink-ports", extract_list_rows, true);
   ("SupermicroMetricReports", "metric-reports", extract_list_rows, true);
   ("LeakDetectors", "leak-detectors", extract_leak_detector_rows, false);
   ("NetworkAdapters", "network-adapters", extract_list_rows, true);
   ("ComponentIntegrity", "component-integrity", extract_list_rows, true)].

(** [_invoke_collector(api_type, name, extract_rows, redfish_cache, ...)]; a cache is named by its number *)
Definition invoke_collector (a : args) (cache : nat) (c : string * string * (pyval -> res pyval) * bool) : MM CollectorResult :=
  let '(api, name, extract_rows, expands) := c in
  collect_result name
    (sync_invoke api name
       ([("redfish_cache", PInt (Z.of_nat cache)); ("do_async", PBool (a_async a))] ++
        (if expands then [("do_expanded", PBool (a_expanded a))] else []) ++ [("preserve_errors", PBool true)]))
    extract_rows.

(** [rows_by_collector[name]] *)
Definition rows_by (results : list CollectorResult) (name : string) : list pydict :=
  dict_get_or name [] (map (fun r => (c_name r, rows r)) results).

Definition scrape_of (results : list CollectorResult) : SmcRows.scrape_rows :=
  let rows := rows_by results in
  SmcRows.Rows (rows "environment-metrics") (rows "sensors") (rows "nvlink-ports") (rows "metric-reports") (rows "thermal")
    (rows "leak-detectors") (rows "network-adapters") (rows "component-integrity").

Definition count_error (t : totals) (r : CollectorResult) : totals :=
  match error_kind r with
  | Some (String _ _ as kind) => <[(c_name r, kind) := Numbers.dec_add (default (0, 0) (t !! (c_name r, kind))) (1, 0)]> t
  | _ => t
  end.

(** [RedfishResponseCache()] *)
Definition new_cache : MM nat :=
  fun s => (MState (world s) (trace s) (mgr s) (caches s ++ [∅]) (active s), Ok (length (caches s))).

Definition set_instance_id (o : Identity.options) (id : pyval) : Identity.options :=
  Identity.Options (Identity.o_vendor o) (Identity.o_host_prefix o) (Identity.o_bmc_octet_base o) (Identity.o_server_octet_base o)
    (Identity.o_server_subnet o) (Identity.o_deployment_environment o) (Identity.o_deployment_environment_compat o)
    (Identity.o_require_deployment_environment o) (Identity.o_extra_dimensions o) (Identity.o_service_name o)
    (Identity.o_service_namespace o) id (Identity.o_service_version o) (Identity.o_service_criticality o).

(** The identity of the scrape, in [read] *)
Definition scrape_identity (a : args) (cache : nat) : MR dims :=
  let! options := lift_res (Identity.resolve_identity_options e (a_identity a) (PStr "supermicro") []).2 in
  let! options :=
    (if is_none (Identity.o_service_instance_id options) then
       let! id := default_service_instance_id cache (a_async a) in ret (set_instance_id options (PStr id))
     else ret options) in
  let! ip := gets (fun r => redfish_ip (mgr (source r))) in
  lift_res (let? _ := vendor_label (a_vendor a) in
            let? identity := Identity.build_legacy_gb300_identity (py_or (label_bmc_ip a) (PStr ip)) options in
            Ok (Identity.dimensions identity)).

(** The samples of the collectors' outcomes, and the state the reader keeps for the next scrape, in [read] *)
Definition report (identity : dims) (started_at : Z) (collector_results : list CollectorResult) : MR (list MetricSample) :=
  let! samples := lift_res (SmcRows.build_metric_samples identity (scrape_of collector_results)) in
  let '(scrape_ok, scrape_partial) := collector_scrape_status collector_results in
  modify (fun r => set_totals (fold_left count_error collector_results (collector_error_totals r))
                     (if scrape_ok then time (world (source r)) else last_success r) r) ;;;
  let! r := get_state in
  let! health := lift_res (scrape_health_samples e identity scrape_ok (elapsed started_at (monotonic (world (source r))))
                   collector_results scrape_partial (last_success r) (Some (collector_error_totals r)) PNone) in
  ret (samples ++ health).

(** [read(...)] *)
Definition read (a : args) : MR (list MetricSample) :=
  let! started_at := on_source now in
  let! cache := on_source new_cache in
  let! identity := scrape_identity a cache in
  let! collector_results := on_source (mapM (invoke_collector a cache) COLLECTORS) in
  report identity started_at collector_results.

(** ** The id ends and stays *)

Lemma yields_identity_resource uri cache b : yields any_exn (identity_resource uri cache b).
Proof.
  intros s. unfold identity_resource, try_catch, bind. pose proof (yields_base_query uri (identity_query b cache) s) as H.
  destruct (base_query uri (identity_query b cache) s) as [s' [r|exc|]]; simpl in *; [done| |done]. by destruct exc.
Qed.

Lemma yields_members d : yields (S := mstate W) any_exn (lift_res (members_of (PDict d))).
Proof. apply yields_lift_any. unfold ends, members_of. by destruct (py_iter _). Qed.

Lemma yields_identity_members d cache b : yields any_exn (identity_members d cache b).
Proof.
  apply yields_bind; [apply yields_members|]. intros uris. apply yields_mapM. intros uri.
  apply yields_bind; [apply yields_identity_resource|]. intros. apply yields_ret.
Qed.

Lemma yields_scan_interfaces uris cache b macs : yields any_exn (scan_interfaces uris cache b macs).
Proof.
  revert macs. induction uris as [|uri uris IH]; intros macs; [apply yields_ret|]. cbn [scan_interfaces].
  apply yields_bind; [apply yields_identity_resource|]. intros i. case_match; [apply yields_ret|apply IH].
Qed.

Lemma yields_scan_managers managers cache b macs : yields any_exn (scan_managers managers cache b macs).
Proof.
  revert macs. induction managers as [|[u m] managers IH]; intros macs; [apply yields_ret|]. cbn [scan_managers].
  destruct (identity_link _ _); [|apply IH]. apply yields_bind; [apply yields_identity_resource|]. intros c.
  apply yields_bind; [apply yields_members|]. intros uris. apply yields_bind; [apply yields_scan_interfaces|].
  intros [[id|] macs']; [apply yields_ret|apply IH].
Qed.

Lemma yields_discover cache b : yields any_exn (discover_service_instance_id cache b).
Proof.
  apply yields_bind; [apply yields_identity_resource|]. intros ms. apply yields_bind; [apply yields_identity_members|]. intros mrs.
  case_match; [apply yields_ret|]. apply yields_bind; [apply yields_identity_resource|]. intros cs.
  apply yields_bind; [apply yields_identity_members|]. intros crs. cbv zeta. case_match; [apply yields_ret|].
  apply yields_bind; [apply yields_scan_managers|]. intros [f macs]. apply yields_ret.
Qed.

(** The ways a call can go. *)
Lemma default_outcome cache b r :
  (exists id, derived_id r = Some id /\ default_service_instance_id cache b r = (r, Ok id)) \/
  derived_id r = None /\ exists s,
    (exists id, default_service_instance_id cache b r = (Reader s (Some id) (fallback_id r) (collector_error_totals r) (last_success r), Ok id)) \/
    (exists id, (fallback_id r = Some id \/ fallback_id r = None) /\
       default_service_instance_id cache b r = (Reader s None (Some id) (collector_error_totals r) (last_success r), Ok id)) \/
    (exists exc r1, is_Exception exc = false /\ default_service_instance_id cache b r = (r1, Raise exc)).
Proof.
  destruct r as [src d f t ts]. unfold default_service_instance_id, try_Exception, try_catch, on_source, bind, gets, modify, ret. cbn.
  destruct d as [id|]; [left; by exists id|right; split; [done|]].
  pose proof (yields_discover cache b src) as Hy. destruct (discover_service_instance_id cache b src) as [s [[id|]|exc|]] eqn:Hdis; cbn in *; exists s; cbn in *; rewrite ?Hdis; cbn.
  - left. by exists id.
  - right. left. destruct f as [id|]; eexists; (split; [|reflexivity]); [by left|by right].
  - destruct (is_Exception exc) eqn:Hx; cbn; [right; left; destruct f as [id|]; eexists; (split; [|reflexivity]); [by left|by right]|].
    right. right. eexists exc, _. by split.
  - done.
Qed.

(** Labelling a scrape never fails on what the BMC answers: an id comes out, or an interrupt.  An id that the BMC gave is
    kept, and later calls return it without a request; until then the random id stays the same, and a later call only
    replaces it by an id that it discovers and keeps. *)
Theorem instance_id_sticky cache b r :
  let '(r1, x) := default_service_instance_id cache b r in
  match x with
  | Ok id =>
      (derived_id r1 = Some id \/ derived_id r1 = None /\ fallback_id r1 = Some id) /\
      forall cache' b' s, let '(r2, y) := default_service_instance_id cache' b' (set_source s r1) in
        match y with
        | Ok id' => if decide (derived_id r1 = Some id) then id' = id /\ r2 = set_source s r1
                    else id' = id /\ derived_id r2 = None \/ derived_id r2 = Some id'
        | Raise exc => is_Exception exc = false
        | NoFuel => False
        end
  | Raise exc => is_Exception exc = false
  | NoFuel => False
  end.
Proof.
  destruct (default_outcome cache b r) as [(id & Hd & ->)|(Hd & s0 & [(id & ->)|[(id & Hf & ->)|(exc & r1 & Hx & ->)]])].
  - cbv beta iota. split; [by left|]. intros cache' b' s.
    destruct (default_outcome cache' b' (set_source s r)) as [(id' & Hd' & ->)|(Hd' & _)]; cbn in Hd'; [|congruence].
    cbv beta iota. rewrite decide_True by done. split; [congruence|done].
  - cbv beta iota. split; [by left|]. intros cache' b' s. cbn. by rewrite decide_True.
  - cbv beta iota. split; [by right|]. intros cache' b' s. cbn [derived_id].
    destruct (default_outcome cache' b' (set_source s (Reader s0 None (Some id) (collector_error_totals r) (last_success r))))
      as [(id' & Hd' & _)|(_ & s1 & [(id' & ->)|[(id' & [Hf'|Hf'] & ->)|(exc & r2 & Hx & ->)]])]; cbv beta iota; try done.
    + by right.
    + left. cbn in Hf'. split; [congruence|done].
  - done.
Qed.

(** ** What a scrape comes to *)

Lemma error_kind_bounded exc : collector_error_kind exc ∈ ERROR_KINDS.
Proof. unfold collector_error_kind. cbv zeta. repeat case_match; apply (bool_decide_unpack _); reflexivity. Qed.

(** A collector was not supported, or it failed with a bounded label, or it has rows. *)
Definition classified (r : CollectorResult) : Prop :=
  match error_kind r with
  | Some kind => kind ∈ ERROR_KINDS /\ supported r = true /\ success r = false /\ rows r = []
  | None => success r = true /\ (supported r = false -> rows r = [])
  end.

Definition ends_pure (f : pyval -> res pyval) : Prop := forall v, f v <> NoFuel.

Lemma collected_classified name d f o : ends_pure f -> c_name (collected name d f o) = name /\ classified (collected name d f o).
Proof.
  intros Hf. unfold collected. destruct o as [result|exc].
  - destruct (truthy _); [split; [done|]; split; [apply (bool_decide_unpack _); reflexivity|done]|].
    specialize (Hf (data result)). destruct (f (data result)) as [rows|exc|]; [| |done]; cbn [res_bind].
    + unfold validate_collector_rows. destruct rows; try (split; [done|split; [apply error_kind_bounded|done]]).
      destruct (as_rows l); [by repeat split|]. split; [done|split; [apply error_kind_bounded|done]].
    + split; [done|split; [apply error_kind_bounded|done]].
  - destruct (is_unsupported_collector_error exc); [by repeat split|]. split; [done|split; [apply error_kind_bounded|done]].
Qed.

Definition collector_name (c : string * string * (pyval -> res pyval) * bool) : string := c.1.1.2.

(** A collector ends with a result that is classified, unless its command does not end or raises what is no [Exception]. *)
Lemma invoke_collector_cases a cache c s : ends_pure c.1.2 ->
  match (invoke_collector a cache c s).2 with
  | Ok r => c_name r = collector_name c /\ classified r
  | Raise e => is_Exception e = false
  | NoFuel => True
  end.
Proof.
  destruct c as [[[api name] f] b]. intros Hf. unfold invoke_collector, collect_result, attempt, try_Exception, try_catch, bind. cbn [now gets].
  match goal with |- context [sync_invoke ?x ?y ?z s] => destruct (sync_invoke x y z s) as [s' [r|exc|]] end; cbn; [|destruct (is_Exception exc) eqn:He|done].
  - exact (collected_classified name _ f (inl r) Hf).
  - exact (collected_classified name _ f (inr exc) Hf).
  - done.
Qed.

Lemma gather_cases a cache l s : Forall (fun c => ends_pure c.1.2) l ->
  match (mapM (invoke_collector a cache) l s).2 with
  | Ok results => map c_name results = map collector_name l /\ Forall classified results
  | Raise e => is_Exception e = false
  | NoFuel => True
  end.
Proof.
  revert s. induction l as [|c l IH]; intros s; [done|]. intros [Hc Hl]%Forall_cons. cbn [mapM]. unfold bind.
  pose proof (invoke_collector_cases a cache c s Hc) as Hi. destruct (invoke_collector a cache c s) as [s1 [r|ex|]]; [|done..].
  specialize (IH s1 Hl). destruct (mapM (invoke_collector a cache) l s1) as [s2 [rs|ex|]]; [|done..].
  destruct Hi as [Hn Hk], IH as [Hns Hks]. cbn in *. split; [by rewrite Hn, Hns|by constructor].
Qed.

Lemma collectors_pure : Forall (fun c => ends_pure c.1.2) COLLECTORS.
Proof.
  repeat constructor; intros v; unfold extract_environment_rows, extract_thermal_rows, extract_list_rows, extract_leak_detector_rows; cbn [fst snd];
    repeat case_match; done.
Qed.

(** ** Error totals *)

(** The collector failed in this way. *)
Definition failed_with (k : string * string) (r : CollectorResult) : Prop := c_name r = k.1 /\ error_kind r = Some k.2.
#[local] Instance failed_with_dec k r : Decision (failed_with k r) := ltac:(unfold failed_with; apply _).

Lemma count_error_lookup t r k : classified r ->
  count_error t r !! k = if decide (failed_with k r) then Some (Numbers.dec_add (default (0, 0) (t !! k)) (1, 0)) else t !! k.
Proof.
  destruct k as [n kd]. unfold classified, count_error. destruct (decide (failed_with (n, kd) r)) as [[H1 H2]|H]; cbn [fst snd] in *.
  - rewrite H1, H2. intros [Hk _]. assert (kd <> "") as Hne by (intros ->; revert Hk; apply (bool_decide_unpack _); reflexivity).
    destruct kd as [|c kd]; [done|]. by rewrite lookup_insert_eq.
  - intros _. destruct (error_kind r) as [[|c kind]|] eqn:Hk; try done. rewrite lookup_insert_ne; [done|].
    intros [= <- <-]. by apply H.
Qed.

Lemma totals_lookup results t k : NoDup (map c_name results) -> Forall classified results ->
  fold_left count_error results t !! k =
  if decide (Exists (failed_with k) results) then Some (Numbers.dec_add (default (0, 0) (t !! k)) (1, 0)) else t !! k.
Proof.
  revert t. induction results as [|r results IH]; intros t; [done|]. cbn [map fold_left].
  intros [Hni Hnd]%NoDup_cons [Hr Hrs]%Forall_cons. rewrite IH, count_error_lookup by done.
  destruct (decide (failed_with k r)) as [Hf|Hf].
  - rewrite (decide_True (P := Exists _ (r :: results))) by (by left). rewrite decide_False; [done|].
    intros (r' & Hin & [Hn _])%Exists_exists. apply Hni. destruct Hf as [Hn' _]. rewrite Hn', <- Hn. by apply (list_elem_of_fmap_2 c_name).
  - destruct (decide (Exists (failed_with k) results)) as [He|He].
    + by rewrite decide_True by (by right).
    + rewrite decide_False; [done|]. by intros [H|H]%Exists_cons.
Qed.

(** ** The liveness sample *)

Lemma row_not_liveness identity s : SmcRows.good_sample identity s -> metric s <> "hw.bmc.up".
Proof.
  intros (_ & _ & [Hm|[p ->]]) Heq; [|by cbn in Heq]. rewrite Heq in Hm. revert Hm. apply (bool_decide_unpack _). vm_compute. reflexivity.
Qed.

Lemma liveness_once ss names v : map metric ss = ["redfish_exporter_scrape_success"; "redfish_exporter_scrape_partial";
      "redfish_exporter_scrape_duration_seconds"; "redfish_exporter_last_success_timestamp_seconds"; "hw.scrape.ok"; "hw.bmc.up";
      "hw.build_info"; "hw.scrape.duration_seconds"] ++ names -> "hw.bmc.up" ∉ names -> value <$> (ss !! 5%nat) = Some v ->
  map value (filter (fun s => metric s = "hw.bmc.up") ss) = [v].
Proof.
  intros Hm Hn Hv. do 8 (destruct ss as [|? ss]; [done|]; cbn [map app] in Hm; injection Hm as ?Hm Hm).
  simpl in Hv. injection Hv as <-. rewrite !filter_cons. repeat (case_decide; [congruence|]). case_decide; [|congruence].
  repeat (case_decide; [congruence|]). cbn [map]. f_equal.
  revert Hn. rewrite <- Hm. clear. induction ss as [|s ss IH]; [done|]. cbn [map]. rewrite not_elem_of_cons, filter_cons. intros [Hs Hss].
  rewrite decide_False by congruence. by apply IH.
Qed.

(** ** A scrape *)

Lemma identity_NoDup i : NoDup (dict_keys (Identity.dimensions i)).
Proof.
  unfold Identity.dimensions. apply dict_update_NoDup. unfold Identity.own_dimensions.
  destruct (Identity.deployment_environment i), (Identity.service_namespace i), (Identity.service_instance_id i),
    (Identity.service_version i), (Identity.service_criticality i); repeat case_bool_decide; apply (bool_decide_unpack _); reflexivity.
Qed.

(** [read] up to the collectors: the start of the clock, the cache of the scrape and the identity *)
Definition opening (a : args) : MR (Z * nat * dims) :=
  let! started_at := on_source now in
  let! cache := on_source new_cache in
  let! identity := scrape_identity a cache in
  ret (started_at, cache, identity).

Definition same_totals (r r' : reader) : Prop := collector_error_totals r' = collector_error_totals r.
#[local] Instance same_totals_preorder : PreOrder same_totals.
Proof. split; [by intros r|by intros r1 r2 r3 H1 H2; etrans]. Qed.

Lemma on_source_totals {A} (m : MM A) : frames same_totals (on_source m).
Proof. intros r. unfold on_source. by destruct (m (source r)). Qed.

Lemma opening_totals a : frames same_totals (opening a).
Proof.
  unfold opening, scrape_identity, default_service_instance_id.
  repeat first [frame_step | apply on_source_totals | by apply frames_modify].
Qed.

Lemma opening_keys a r r' x : opening a r = (r', Ok x) -> NoDup (dict_keys x.2).
Proof.
  unfold opening, bind. destruct (on_source now r) as [r1 [t|exc|]]; [|done..]. destruct (on_source new_cache r1) as [r2 [c|exc|]]; [|done..].
  destruct (scrape_identity a c r2) as [r3 [identity|exc|]] eqn:Hi; [|done..]. intros [= <- <-]. cbn [snd]. revert Hi.
  unfold scrape_identity, bind, lift_res at 1. destruct (Identity.resolve_identity_options _ _ _ _).2; [|done..].
  set (m := if is_none _ then _ else _). destruct (m r2) as [r4 [o|exc|]]; [|done..]. cbn [gets lift_res]. intros [= _ H].
  apply res_bind_ok in H as (u & _ & (i & _ & [= <-])%res_bind_ok). apply identity_NoDup.
Qed.

Lemma read_opening a r : read a r =
  (let! (started_at, cache, identity) := opening a in
   let! results := on_source (mapM (invoke_collector a cache) COLLECTORS) in report identity started_at results) r.
Proof.
  unfold read, opening, bind. destruct (on_source now r) as [r1 [t|exc|]]; [|done..]. destruct (on_source new_cache r1) as [r2 [c|exc|]]; [|done..].
  by destruct (scrape_identity a c r2) as [r3 [identity|exc|]].
Qed.

Definition succeeded (c : CollectorResult) : bool := match error_kind c with None => true | Some _ => false end.

Lemma status_ok results : Forall classified results -> (collector_scrape_status results).1 = forallb succeeded results.
Proof.
  unfold collector_scrape_status. cbn [fst]. induction 1 as [|c results Hc _ IH]; [done|]. cbn [existsb forallb]. rewrite negb_orb, IH. f_equal.
  unfold classified, succeeded in *. destruct (error_kind c); [destruct Hc as (_ & -> & -> & _); done|]. destruct Hc as [-> _].
  by rewrite andb_false_r.
Qed.

Definition keeps_identity (identity : dims) (s : MetricSample) : Prop :=
  forall k, k ∈ REQUIRED_DIMENSIONS -> dict_get k (dimensions s) = dict_get k (with_dims identity []).

Lemma health_keeps identity s : NoDup (dict_keys identity) -> health_dims identity s -> keeps_identity identity s.
Proof.
  intros Hi (extra & Hd & Hnd & _ & Hk) k Hin. rewrite Hd, !with_dims_get by (done || constructor). cbn [dict_get].
  destruct (dict_get k extra) eqn:Hg; [|done]. apply dict_get_Some_keys in Hg. rewrite Forall_forall in Hk. by destruct (Hk k).
Qed.

(** Reporting outcomes whose rows have the right shape. *)
Lemma report_ok identity t results r : NoDup (dict_keys identity) -> NoDup (map c_name results) -> Forall classified results ->
  SmcRows.shaped_rows (scrape_of results) = true ->
  exists r2 samples, report identity t results r = (r2, Ok samples) /\ Forall (keeps_identity identity) samples /\
    map value (filter (fun s => metric s = "hw.bmc.up") samples) = [of_bool (forallb succeeded results)] /\
    collector_error_totals r2 = fold_left count_error results (collector_error_totals r).
Proof.
  intros Hi Hnames Hc Hshape. pose proof (SmcRows.build_fine identity Hi (scrape_of results)) as Hb. rewrite Hshape in Hb.
  unfold report, bind, lift_res. destruct (SmcRows.build_metric_samples _ _) as [ss|exc|]; [|by destruct exc|done]. cbn [SmcRows.fine] in Hb.
  pose proof (status_ok results Hc) as Hok. destruct (collector_scrape_status results) as [ok partial]. cbn [fst] in Hok. subst ok.
  cbn [modify get_state]. match goal with |- context [scrape_health_samples ?e0 ?i0 ?o0 ?d0 ?r0 ?p0 ?t0 ?x0 ?b0] =>
    destruct (health_samples e0 i0 o0 d0 r0 p0 t0 x0 b0) as (hs & -> & Hd & _ & Hm & Hv) end.
  eexists _, _. split; [reflexivity|]. split; [|split; [|done]].
  - apply Forall_app_2; [|eapply Forall_impl; [exact Hd|]; intros s; by apply health_keeps].
    eapply Forall_impl; [exact Hb|]. intros s (_ & (_ & Hk & _) & _) k Hin. apply Hk. revert k Hin. apply Forall_forall.
    apply (bool_decide_unpack _). reflexivity.
  - rewrite filter_app, map_app. replace (filter (fun s => metric s = "hw.bmc.up") ss) with (@nil MetricSample).
    + eapply liveness_once; [exact Hm| |exact Hv]. rewrite elem_of_app. intros [H|H].
      * apply list_elem_of_join in H as (l & Hin & Hl). apply list_elem_of_fmap in Hl as (c & -> & _). revert Hin. apply (bool_decide_unpack _). reflexivity.
      * apply list_elem_of_fmap in H as (c & H & _). done.
    + clear -Hb. induction Hb as [|s ss Hs _ IH]; [done|]. rewrite filter_cons, decide_False by (by eapply row_not_liveness). done.
Qed.

(** Reporting outcomes with a row of the wrong shape: no sample comes out, and no error is counted. *)
Lemma report_raises identity t results r : NoDup (dict_keys identity) -> SmcRows.shaped_rows (scrape_of results) = false ->
  exists m, report identity t results r = (r, Raise (TypeError m)).
Proof.
  intros Hi Hshape. pose proof (SmcRows.build_fine identity Hi (scrape_of results)) as Hb. unfold report, bind, lift_res.
  destruct (SmcRows.build_metric_samples _ _) as [ss|exc|] eqn:Hs; [apply SmcRows.built_shaped in Hs; congruence|destruct exc; try done; by eexists|done].
Qed.

End Reader.

(** ** An example: no stable id, one collector times out and one is not supported *)

Definition down_world : World Datatypes.unit := {|
  transport _ w := (w, inr (ConnectionFailed "refused"));
  monotonic _ := 1500;
  sleep _ w := w
|}.

Definition example_invoker : SyncInvoker (mstate Datatypes.unit) := fun api name kw s =>
  (s, if decide (name = "metric-reports") then Raise (RequestTimeout "read timed out")
      else if decide (name = "leak-detectors") then Raise (ResourceNotFound (PStr "404"))
      else if decide (name = "thermal") then Ok (mkResult (PDict [("temperature_readings", PList [])]) PNone PNone PNone)
      else if decide (name = "sensors") then
        Ok (mkResult (PList [PDict [("Reading", PInt 31); ("ReadingType", PStr "Temperature"); ("Name", PStr "Inlet"); ("Chassis", PStr "C1")]])
              PNone PNone PNone)
      else Ok (mkResult (PList []) PNone PNone PNone)).

Definition example_reader : reader (W := Datatypes.unit) :=
  Reader (MState tt [] (Manager "10.0.0.23" "root" "secret" None true None false 0 PNone None false (PList []) PNone PNone None None None []) [] None)
    None None ∅ (0, 0).

Definition example_args : args := Args PNone PNone false false (fun _ => PNone).
Definition example_uuid : Datatypes.unit -> string := fun _ => "8d3a1c52-6f0e-4b8f-9a43-0c9d0f5f6b11".

End SmcReader.
