(* ===== verification/BootSources.v ===== *)
(** * Boot sources and the remaining BIOS commands

    src/redfish_ctl/boot_source/ and boot_options/, the Dell boot source commands, with
    src/redfish_ctl/bios/cmd_change_boot_order.py, cmd_bios_clear_pending.py, cmd_bios_reset_default.py and
    bios_registry.py.  The Dell commands run on the Dell manager; [BootState] and [BiosResetDefault] run on the base
    manager, [BiosRegistry] on any.  Reading a specification file is the parameter [read_spec]; saving the result to a
    file is not modelled. *)

From stdpp Require Import base list strings pretty.
From Stdlib Require Import Ascii ZArith Lia.
From S2P Require Import Prelude PyVal Effects Query Http Manager Discovery Csdl ActionPolicy Actions Urls Numbers Invoker Timestamps Idrac Reboot Vendor BiosCommands SecureBoot.

Module BootSources.
Import Http RedfishManager Actions Vendor BiosCommands.
Local Open Scope Z_scope.
Local Open Scope py_scope.

(** [for x in v] *)
Definition items (v : pyval) : res (list pyval) :=
  match py_iter v with
  | Some l => Ok l
  | None => Raise (TypeError ("'" +:+ type_name v +:+ "' object is not iterable"))
  end.

(** [v.split("/")[-1]], which only a text has *)
Definition last_part (v : pyval) : res string :=
  match v with PStr s => Ok (Urls.after_last "/" s) | _ => Raise (no_attribute v "split") end.

(** [a.lower() in b.lower()] *)
Definition names (a b : string) : bool := PyStr.contains (PyStr.lower a) (PyStr.lower b).

Definition is_ValueError (e : exn) : bool := match e with ValueError _ | JSONDecodeError _ => true | _ => false end.

(** A result with data only, and one with an error only *)
Definition just (v : pyval) : CommandResult := mkResult v PNone PNone PNone.
Definition unavailable (text : string) : CommandResult := mkResult (PDict []) PNone PNone (PStr text).

Definition DELL_SETTINGS : string := "/Oem/Dell/DellBootSources/Settings".
Definition NOT_DELL : string := "DellBootSources is not available on this host (Dell-specific)".

Section Dell.
Context {W : Type} `{!World W} `{!SyncInvoker (mstate W)} (response_text : response -> string).
Context (fuel : nat) (local_now : mstate W -> Z) (read_spec : string -> res pyval).
Abbreviation MM := (M (mstate W)).
#[local] Instance boot_dell : Vendor W := dell_vendor response_text fuel local_now.

(** ** Queries *)

Definition expanded_query (do_async do_expanded : bool) : qargs := QArgs None do_async do_expanded "" "" "json" None None None None.

(** [[d['@odata.id'] for d in v]] *)
Definition odata_ids (v : pyval) : res (list pyval) :=
  let? l := items v in res_fold (fun acc d => let? id := Idrac.item "@odata.id" d in Ok (acc ++ [id])) [] l.

(** [BootOptionsList.execute()] *)
Definition boot_sources_query : MM CommandResult :=
  let! sys := managed_system_uri in
  let! m := gets mgr in
  let! response := api_get_call (base_url m (py_str sys +:+ "/BootOptions" +:+ expanded 1)) json_content_type in
  Idrac.default_error_handler response ;;;
  let! doc := try_catch (lift_res (json response)) is_ValueError
      (fun _ => raise (UnexpectedResponse (PStr "BootOptions response was not valid JSON."))) in
  let! has := lift_res (Idrac.member_test "Members" doc) in
  let! ids := (if has then
                 let! members := lift_res (Idrac.item "Members" doc) in
                 let! ids := lift_res (odata_ids members) in ret (PList ids)
               else ret doc) in
  ret (mkResult ids PNone doc PNone).

(** [BootOptionsQuery.execute(do_async)] *)
Definition boot_options_query (do_async : bool) : MM CommandResult :=
  let! sys := managed_system_uri in
  v_query (py_str sys +:+ "/BootOptions") (expanded_query do_async true).

(** The loop of [BootSource.execute]: every device up to the one that is asked for *)
Fixpoint read_devices (boot_source : option string) (do_async : bool) (paths : list pyval) (acc : pydict) : MM pydict :=
  match paths with
  | [] => ret acc
  | path :: rest =>
      let! m := gets mgr in
      let! response := checked_get (base_url m (py_str path +:+ expanded 1)) json_content_type do_async in
      let! dev_data := lift_res (json response) in
      let! dev := lift_res (last_part path) in
      match boot_source with
      | None => read_devices boot_source do_async rest (dict_set dev dev_data acc)
      | Some wanted => if names wanted dev then ret (dict_set dev dev_data acc) else read_devices boot_source do_async rest acc
      end
  end.

(** [BootSource.execute(boot_source, do_async)] *)
Definition boot_source_query (boot_source : option string) (do_async : bool) : MM CommandResult :=
  let! listed := sync_invoke "BootOptions" "boot_sources_query" [] in
  let! paths := lift_res (items (data listed)) in
  let! devices := read_devices boot_source do_async paths [] in
  ret (just (PDict devices)).

(** [BootSettings.execute(do_async)] *)
Definition boot_settings_query (do_async : bool) : MM CommandResult :=
  let! sys := managed_system_uri in
  let! m := gets mgr in
  let! found := try_Exception
      (let! response := checked_get (base_url m (py_str sys +:+ DELL_SETTINGS)) json_content_type do_async in
       let! doc := lift_res (json response) in ret (Some doc))
      (fun _ => ret None) in
  match found with
  | None => ret (unavailable NOT_DELL)
  | Some doc => let! actions := lift_res (discover_redfish_actions doc) in ret (mkResult doc (actions_val actions) PNone PNone)
  end.

(** [QueryBootSourceRegistry.execute(do_async, do_expanded)]: the address is computed in the guarded part *)
Definition boot_source_registry (do_async do_expanded : bool) : MM CommandResult :=
  try_Exception
    (let! sys := managed_system_uri in v_query (py_str sys +:+ "/BootSources/BootSourcesRegistry") (expanded_query do_async do_expanded))
    (fun _ => ret (unavailable "BootSourcesRegistry is not available on this host (Dell-specific)")).

(** What [BootSourcePending.execute] makes of the settings *)
Definition pending_of (r : CommandResult) (data_filter : option string) : res CommandResult :=
  if negb (is_none (error r)) then Ok r
  else if is_none (data r) then Ok r
  else
    let? has := Idrac.member_test "Attributes" (data r) in
    if has then
      let? attrs := Idrac.item "Attributes" (data r) in
      match data_filter with
      | None | Some EmptyString => Ok (just attrs)
      | Some f =>
          let? hit := Idrac.member_test f attrs in
          if hit then let? v := Idrac.item f attrs in Ok (just v) else Ok r
      end
    else Ok r.

(** [BootSourcePending.execute(do_async, do_expanded, data_filter)] *)
Definition query_pending (do_async do_expanded : bool) (data_filter : option string) : MM CommandResult :=
  let! sys := managed_system_uri in
  let! r := try_Exception (let! r := v_query (py_str sys +:+ DELL_SETTINGS) (expanded_query do_async do_expanded) in ret (Some r))
              (fun _ => ret None) in
  match r with
  | None => ret (unavailable NOT_DELL)
  | Some r => lift_res (pending_of r data_filter)
  end.

(** ** Changes *)

(** [BootOptionsClearPending.execute(do_async)] *)
Definition boot_clear_pending (do_async : bool) : MM CommandResult :=
  let! sys := managed_system_uri in
  let! (r, api_resp) := v_write POST (py_str sys +:+ DELL_SETTINGS +:+ "/Actions/DellManager.ClearPending") (Some []) do_async 204 in
  with_task r api_resp.

(** The first listed device whose name contains the one asked for *)
Fixpoint find_device (boot_source : string) (paths : list pyval) : res (option pyval) :=
  match paths with
  | [] => Ok None
  | path :: rest => let? dev := last_part path in if names boot_source dev then Ok (Some path) else find_device boot_source rest
  end.

(** [EnableBootOptions.execute(boot_source, is_enabled, do_async, do_reboot)] *)
Definition boot_enable (boot_source : option string) (is_enabled do_async do_reboot : bool) : MM CommandResult :=
  match boot_source with
  | None => raise (ValueError "Please indicate boot source.")
  | Some wanted =>
      let! listed := sync_invoke "BootOptions" "boot_sources_query" [] in
      let! paths := lift_res (items (data listed)) in
      let! target_dev := lift_res (find_device wanted paths) in
      match target_dev with
      | None => ret (just PNone)
      | Some dev =>
          let! (r, api_resp) := v_write PATCH (py_str dev) (Some [("BootOptionEnabled", PBool is_enabled)]) do_async 204 in
          let! r := with_task r api_resp in
          (if do_reboot then let! _ := Idrac.reboot (negb do_async) "PowerState" (PStr "PowerCycle") in ret tt else ret tt) ;;;
          ret r
      end
  end.

(** What follows a settings PATCH: the task, or the commit, and the reboot *)
Definition settle (r : CommandResult) (api_resp : api_respond) (do_commit do_reboot : bool) : MM CommandResult :=
  let! r := with_task r api_resp in
  let! early :=
    match api_resp with
    | RespSuccess | RespOk =>
        if do_commit then
          let! applied := sync_invoke "JobApply" "job_apply" [("do_reboot", PBool true); ("do_watch", PBool true)] in
          ret (if is_none (error applied) then None else Some applied)
        else ret None
    | _ => ret None
    end in
  match early with
  | Some applied => ret applied
  | None => if do_reboot then let! _ := v_reboot false in ret r else ret r
  end.

(** The arguments of boot-source-update. *)
Record update_args := UpdateArgs {
  u_apply : string; u_async : bool; u_reboot : bool; u_commit : bool; u_show : bool;
  u_spec : option string; u_date : string; u_time : string; u_duration : pyval
}.

(** The payload that a specification file gives, or the early result *)
Definition update_payload (from_spec : option string) : res (pyval + CommandResult) :=
  match from_spec with
  | None | Some EmptyString => Ok (inl (PDict []))
  | Some f =>
      match (let? payload := read_spec f in
             let? some := has_len payload in Ok (if some then inl payload else inr (just (PDict [("Status", PStr "Empty bios spec.")])))) with
      | Raise (JSONDecodeError m) => Raise (InvalidJsonSpec ("It looks like your JSON spec is invalid. JSONlint the file and check: " +:+ m))
      | r => r
      end
  end.

(** [BootSourceUpdate.execute(...)]; the start time and the start date are passed in this order to a function that takes the
    date first *)
Definition boot_source_update (a : update_args) : MM CommandResult :=
  let! sys := managed_system_uri in
  let! payload := lift_res (update_payload (u_spec a)) in
  match payload with
  | inr r => ret r
  | inl payload =>
      let! job := v_apply_time (u_apply a) (u_time a) (u_date a) (u_duration a) in
      match payload with
      | PDict p =>
          let p := dict_update p job in
          if u_show a then ret (just (PDict p))
          else
            let! (r, api_resp) := v_write PATCH (py_str sys +:+ DELL_SETTINGS) (Some p) (u_async a) 202 in
            settle r api_resp (u_commit a) (u_reboot a)
      | v => raise (no_attribute v "update")
      end
  end.

(** The payload of change-boot-order: from the argument, after a read of the BIOS, or from a file *)
Definition order_payload (sys : pyval) (boot_order : option string) (from_spec : option string) (do_async : bool)
  : MM (pydict + CommandResult) :=
  match from_spec with
  | None | Some EmptyString =>
      let! r := v_query (py_str sys +:+ "/Bios") (with_async do_async) in
      if negb (is_none (error r)) then ret (inr r)
      else
        let! attrs := lift_res (Idrac.item "Attributes" (data r)) in
        let! _ := lift_res (Idrac.item "SetBootOrderEn" attrs) in
        let order := match boot_order with Some o => PList (map PStr (PyStr.split "," (PyStr.strip o))) | None => PNone end in
        ret (inl [("Boot", PDict [("BootOrder", order)])])
  | Some f =>
      let! payload := lift_res (read_spec f) in
      let invalid := raise (InvalidJsonSpec "Invalid boot source spec.  Please check example.") in
      let! has := lift_res (Idrac.member_test "Boot" payload) in
      if has then
        let! boot := lift_res (Idrac.item "Boot" payload) in
        let! has := lift_res (Idrac.member_test "BootOrder" boot) in
        if has then ret (inl (as_dict payload)) else invalid
      else invalid
  end.

(** [ChangeBootOrder.execute(boot_order, do_async, from_spec, do_reboot, do_commit, commit_pending)] *)
Definition change_boot_order (boot_order from_spec : option string) (do_async do_reboot do_commit commit_pending : bool) : MM CommandResult :=
  let! sys := managed_system_uri in
  let! payload := order_payload sys boot_order from_spec do_async in
  match payload with
  | inr r => ret r
  | inl p =>
      (if commit_pending then
         let! _ := sync_invoke "JobApply" "job_apply" [("do_reboot", PBool true); ("do_watch", PBool true)] in ret tt
       else ret tt) ;;;
      let! (r, api_resp) := v_write PATCH (py_str sys) (Some p) do_async 202 in
      settle r api_resp do_commit do_reboot
  end.

(** [BiosClearPending.execute(do_async)] *)
Definition bios_clear_pending (do_async : bool) : MM CommandResult :=
  let! q := sync_invoke "BiosQuery" "bios_inventory" [("do_deep", PBool true)] in
  if negb (is_none (error q)) then ret q
  else
    match discovered q with
    | PDict actions =>
        match dict_get "ClearPending" actions with
        | Some action =>
            match dget "target" (as_dict action) with
            | PNone => raise (FailedDiscoverAction "Failed discover clear pending bios action.")
            | target =>
                let! (r, api_resp) := v_write POST (py_str target) (Some []) do_async 200 in
                with_task r api_resp
            end
        | None => raise (FailedDiscoverAction "Failed discover clear pending bios action.")
        end
    | _ => raise (FailedDiscoverAction "Failed discover clear pending bios action.")
    end.

(** ** What the changes write *)

(** A device that the command lists, the first whose name contains the text. *)
Lemma find_device_listed wanted paths dev : find_device wanted paths = Ok (Some dev) ->
  exists before after name, paths = before ++ dev :: after /\ last_part dev = Ok name /\ names wanted name = true /\
    Forall (fun p => exists n, last_part p = Ok n /\ names wanted n = false) before.
Proof.
  induction paths as [|p paths IH]; [done|]. cbn [find_device]. intros (n & Hn & H)%res_bind_ok.
  destruct (names wanted n) eqn:Hm; [injection H as ->; by exists [], paths, n|].
  destruct (IH H) as (before & after & name & -> & Hl & Hw & Hb). exists (p :: before), after, name. repeat split; try done.
  constructor; [by exists n|done].
Qed.

Lemma emits_order_payload sys o f b : emits is_get (order_payload sys o f b).
Proof. unfold order_payload. frame; auto with emits. Qed.

Lemma settle_writes P r resp : writes 0 P (settle r resp false false).
Proof. unfold settle. apply writes_reads. frame; auto with emits. Qed.

Definition patches (rq : request) : Prop := rq_method rq = PATCH.

(** A boot-source-update or a change-boot-order that is asked neither to commit nor to reboot sends at most one request
    that is no GET, and it is a PATCH; an update with [--show] sends none. *)
Theorem boot_changes_write_once a order spec b (s : mstate W) :
  u_commit a = false -> u_reboot a = false ->
  (exists l, trace (boot_source_update a s).1 = trace s ++ l /\
     (length (write_requests l) <= (if u_show a then 0 else 1))%nat /\ Forall patches (write_requests l)) /\
  (exists l, trace (change_boot_order order spec b false false false s).1 = trace s ++ l /\
     (length (write_requests l) <= 1)%nat /\ Forall patches (write_requests l)).
Proof.
  intros Hc Hr. split; revert s.
  - change (writes (if u_show a then 0 else 1) patches (boot_source_update a)). unfold boot_source_update. rewrite Hc, Hr.
    apply writes_read_bind; [auto with emits|]. intros sys. apply writes_read_bind; [frame|]. intros [payload|r]; [|by apply writes_reads; frame].
    apply writes_read_bind; [apply emits_apply_time|]. intros job.
    destruct payload; try (by apply writes_reads; frame). cbv zeta. destruct (u_show a); [by apply writes_reads; frame|].
    apply (writes_bind _ 1 0); [apply writes_sends, v_write_once|]. intros [r resp]. apply settle_writes.
  - change (writes 1 patches (change_boot_order order spec b false false false)). unfold change_boot_order.
    apply writes_read_bind; [auto with emits|]. intros sys. apply writes_read_bind; [apply emits_order_payload|].
    intros [p|r]; [|by apply writes_reads; frame]. apply writes_read_bind; [frame|]. intros _.
    apply (writes_bind _ 1 0); [apply writes_sends, v_write_once|]. intros [r resp]. apply settle_writes.
Qed.

Lemma time_is_no_date h1 h2 rest : Timestamps.fromisoformat (String h1 (String h2 (String ":" rest))) = None.
Proof. unfold Timestamps.fromisoformat. cbn [Timestamps.read_digits]. destruct (PyStr.is_digit h1), (PyStr.is_digit h2); reflexivity. Qed.

Lemma window_refused now apply date h1 h2 rest dur : PyStr.lower (PyStr.strip apply) ∈ ["maintenance"; "auto-boot"] ->
  exists e, Idrac.create_apply_time_req now apply (String h1 (String h2 (String ":" rest))) date dur = Raise e.
Proof.
  intros Ha. assert (exists e, Idrac.make_future_job_ts now (String h1 (String h2 (String ":" rest))) date false = Raise e) as [e He].
  { unfold Idrac.make_future_job_ts. cbn [PyStr.nonempty negb]. destruct (PyStr.nonempty date); cbn [negb]; [|by eexists]. cbv zeta.
    destruct (Idrac.aware date); [by eexists|]. rewrite !append_cons, time_is_no_date. by eexists. }
  exists e. unfold Idrac.create_apply_time_req. rewrite He. cbv zeta. rewrite !elem_of_cons in Ha. destruct Ha as [->|[->|[]%not_elem_of_nil]]; done.
Qed.

(** An early result is the answer to a specification that was read and has nothing in it. *)
Lemma empty_spec from_spec r : update_payload from_spec = Ok (inr r) ->
  exists f v, from_spec = Some f /\ read_spec f = Ok v /\ truthy v = false.
Proof.
  unfold update_payload. destruct from_spec as [[|c f]|]; [done| |done]. intros H. exists (String c f).
  destruct (read_spec (String c f)) as [v|e|]; [|by destruct e|done]. exists v. split; [done|]. split; [done|]. cbn [res_bind] in H.
  unfold has_len in H. destruct v; try done; cbn [res_bind] in H; match type of H with context [if ?b then _ else _] => by destruct b end.
Qed.

(** C34. On a Dell manager a maintenance window cannot be scheduled for the boot sources: the command passes the time of day
    where the date is expected, so with a time that has a colon after two characters, as in the documented [HH:MM:SS],
    every update for a window ([maintenance] or [auto-boot]) is refused, whatever date is given; nothing but GETs is sent,
    and a result comes back only for a specification file that is read and is empty. *)
Theorem maintenance_unschedulable a h1 h2 rest (s : mstate W) :
  PyStr.lower (PyStr.strip (u_apply a)) ∈ ["maintenance"; "auto-boot"] ->
  u_time a = String h1 (String h2 (String ":" rest)) ->
  (exists l, trace (boot_source_update a s).1 = trace s ++ l /\ Forall is_get l) /\
  forall r, (boot_source_update a s).2 = Ok r -> exists f v, u_spec a = Some f /\ read_spec f = Ok v /\ truthy v = false.
Proof.
  intros Ha Ht. assert (forall s0, exists e, v_apply_time (u_apply a) (u_time a) (u_date a) (u_duration a) s0 = (s0, Raise e)) as Hraise.
  { intros s0. destruct (window_refused (local_now s0) (u_apply a) (u_date a) h1 h2 rest (u_duration a) Ha) as [e He].
    exists e. cbn. unfold dell_apply_time, bind, gets, lift_res. by rewrite Ht, He. }
  assert (emits is_get (boot_source_update a)) as Hg.
  { unfold boot_source_update. apply frames_bind; [exact _|auto with emits|]. intros sys. apply frames_bind; [exact _|frame|].
    intros [payload|r]; [|frame]. intros s0. unfold bind at 1. destruct (Hraise s0) as [e ->]. simpl. reflexivity. }
  split; [apply Hg|]. intros r. unfold boot_source_update, bind at 1. destruct (managed_system_uri s) as [s1 [sys|e|]]; [|done..].
  unfold bind at 1, lift_res. destruct (update_payload (u_spec a)) as [[payload|r']|e|] eqn:Hp; [| |done..].
  - unfold bind at 1. by destruct (Hraise s1) as [e ->].
  - intros _. by eapply empty_spec.
Qed.

Lemma boot_enable_run wanted is_enabled b (s : mstate W) :
  boot_enable (Some wanted) is_enabled b false s =
  match sync_invoke "BootOptions" "boot_sources_query" [] s with
  | (s1, Ok r) =>
      match items (data r) with
      | Ok paths =>
          match find_device wanted paths with
          | Ok (Some dev) =>
              (let! (r, api_resp) := v_write PATCH (py_str dev) (Some [("BootOptionEnabled", PBool is_enabled)]) b 204 in
               let! r := with_task r api_resp in ret r) s1
          | Ok None => (s1, Ok (just PNone))
          | Raise e => (s1, Raise e)
          | NoFuel => (s1, NoFuel)
          end
      | Raise e => (s1, Raise e)
      | NoFuel => (s1, NoFuel)
      end
  | (s1, Raise e) => (s1, Raise e)
  | (s1, NoFuel) => (s1, NoFuel)
  end.
Proof.
  unfold boot_enable. unfold bind at 1. destruct (sync_invoke _ _ _ s) as [s1 [r|e|]]; [|done..].
  unfold bind at 1, lift_res at 1. destruct (items (data r)) as [paths|e|]; [|done..].
  unfold bind at 1, lift_res at 1. destruct (find_device wanted paths) as [[dev|]|e|]; reflexivity.
Qed.

(** Enabling a boot source without a reboot writes at most once, a PATCH of [BootOptionEnabled] on a device that the list
    of boot sources contains: the first whose name contains the text, regardless of case. *)
Theorem boot_enable_first_match wanted is_enabled b (s : mstate W) :
  (forall kw, emits is_get (sync_invoke (S := mstate W) "BootOptions" "boot_sources_query" kw)) ->
  (exists l, trace (boot_enable (Some wanted) is_enabled b false s).1 = trace s ++ l /\ (length (write_requests l) <= 1)%nat /\
     Forall patches (write_requests l)) /\
  ((exists l, trace (boot_enable (Some wanted) is_enabled b false s).1 = trace s ++ l /\ Forall is_get l) \/
   exists s1 r before dev after name,
     sync_invoke (S := mstate W) "BootOptions" "boot_sources_query" [] s = (s1, Ok r) /\ items (data r) = Ok (before ++ dev :: after) /\
     last_part dev = Ok name /\ names wanted name = true /\
     Forall (fun p => exists n, last_part p = Ok n /\ names wanted n = false) before /\
     boot_enable (Some wanted) is_enabled b false s =
       (let! (r, api_resp) := v_write PATCH (py_str dev) (Some [("BootOptionEnabled", PBool is_enabled)]) b 204 in
        let! r := with_task r api_resp in ret r) s1).
Proof.
  intros Hq. split.
  - revert s. change (writes 1 patches (boot_enable (Some wanted) is_enabled b false)). unfold boot_enable.
    apply writes_read_bind; [apply Hq|]. intros listed. apply writes_read_bind; [frame|]. intros paths.
    apply writes_read_bind; [frame|]. intros [dev|]; [|by apply writes_reads; frame].
    apply (writes_bind _ 1 0); [apply writes_sends, v_write_once|]. intros [r resp]. apply writes_reads. frame; auto with emits.
  - destruct (Hq [] s) as (l & Hl & Hg). rewrite boot_enable_run.
    destruct (sync_invoke "BootOptions" "boot_sources_query" [] s) as [s1 [r|e|]]; [|left; by exists l..].
    destruct (items (data r)) as [paths|e|] eqn:Hp; [|left; by exists l..].
    destruct (find_device wanted paths) as [[dev|]|e|] eqn:Hf; [|left; by exists l..].
    right. apply find_device_listed in Hf as (before & after & name & -> & Hn & Hm & Hb). by exists s1, r, before, dev, after, name.
Qed.
End Dell.

(** ** boot-state (base manager) *)

Section State.
Context {W : Type} `{!World W}.
Abbreviation MM := (M (mstate W)).

(** [_get(uri, do_async)] *)
Definition state_get (uri : string) (do_async : bool) : MM pyval :=
  try_Exception (let! r := base_query uri (with_async do_async) in ret (py_or (data r) (PDict []))) (fun _ => ret (PDict [])).

(** A boot option: its display name and whether it is enabled. *)
Record option_row := OptionRow { display_name : pyval; enabled : pyval }.

(** A dict whose keys are values; a list or a dict is no key. *)
Definition hashable (v : pyval) : res unit :=
  match v with PList _ | PDict _ => Raise (TypeError ("unhashable type: '" +:+ type_name v +:+ "'")) | _ => Ok tt end.

Fixpoint set_option (ref : pyval) (row : option_row) (options : list (pyval * option_row)) : list (pyval * option_row) :=
  match options with
  | [] => [(ref, row)]
  | (r, old) :: rest => if py_eqb r ref then (r, row) :: rest else (r, old) :: set_option ref row rest
  end.

Definition get_option (ref : pyval) (options : list (pyval * option_row)) : option option_row :=
  snd <$> List.find (fun o => py_eqb o.1 ref) options.

(** [_boot_options(system_uri, do_async)] *)
Definition boot_options (system_uri : pyval) (do_async : bool) : MM (list (pyval * option_row)) :=
  let! coll := state_get (py_str system_uri +:+ "/BootOptions") do_async in
  let! uris := lift_res (Discovery.members_of coll) in
  foldM (fun options uri =>
    let! opt := state_get uri do_async in
    let get k := lift_res (get_attr opt k) in
    let! ref := get "BootOptionReference" in
    let! id := get "Id" in
    let ref := py_or ref (py_or id (PStr (Urls.after_last "/" uri))) in
    let! name := get "DisplayName" in
    let! on := get "BootOptionEnabled" in
    let! _ := lift_res (hashable ref) in
    ret (set_option ref (OptionRow name on) options)) [] uris.

(** [_mounted_media(do_async)] *)
Definition mounted_media (do_async : bool) : MM (list pyval) :=
  let! vm_uri := Discovery.discover_virtual_media_uri do_async in
  let! coll := state_get (py_str vm_uri) do_async in
  let! uris := lift_res (Discovery.members_of coll) in
  foldM (fun media uri =>
    let! dev := state_get uri do_async in
    let! inserted := lift_res (get_attr dev "Inserted") in
    if truthy inserted then
      let! id := lift_res (get_attr dev "Id") in
      let! image := lift_res (get_attr dev "Image") in
      ret (media ++ [PDict [("Device", py_or id (PStr (Urls.after_last "/" uri))); ("Image", image)]])
    else ret media) [] uris.

(** [label(ref)] *)
Definition label (options : list (pyval * option_row)) (ref : pyval) : res pyval :=
  let? _ := hashable ref in
  Ok (match get_option ref options with Some row => py_or (display_name row) ref | None => ref end).

(** [order[0]] of an order that is not empty *)
Definition first_of (order : pyval) : res pyval :=
  match order with
  | PList (x :: _) | PTuple (x :: _) => Ok x
  | PStr (String c _) => Ok (PStr (String c EmptyString))
  | PDict _ => Raise (KeyError "0")
  | v => Raise (TypeError ("'" +:+ type_name v +:+ "' object is not subscriptable"))
  end.

(** What boots next: an active override, else the first of the boot order *)
Definition next_boot (override target order : pyval) (options : list (pyval * option_row)) : res pyval :=
  if truthy override && negb (eq_str override "Disabled") && truthy target then Ok target
  else if truthy order then let? r := first_of order in label options r
  else Ok PNone.

Definition option_entry (o : pyval * option_row) : pyval :=
  PDict [("Ref", o.1); ("DisplayName", display_name o.2); ("Enabled", enabled o.2)].

(** [BootState.execute(do_async)] *)
Definition boot_state (do_async : bool) : MM CommandResult :=
  let! system_uri := Discovery.managed_system_uri in
  let! system := state_get (py_str system_uri) do_async in
  let! boot := lift_res (get_attr system "Boot") in
  let boot := py_or boot (PDict []) in
  let! override := lift_res (get_attr boot "BootSourceOverrideEnabled") in
  let! target := lift_res (get_attr boot "BootSourceOverrideTarget") in
  let! order := lift_res (get_attr boot "BootOrder") in
  let order := py_or order (PList []) in
  let! options := boot_options system_uri do_async in
  let! next := lift_res (next_boot override target order options) in
  let! system_id := lift_res (match system_uri with PStr s => Ok (Urls.after_last "/" s) | v => Raise (no_attribute v "rsplit") end) in
  let! mode := lift_res (get_attr boot "BootSourceOverrideMode") in
  let! refs := lift_res (items order) in
  let! labels := lift_res (res_fold (fun acc r => let? l := label options r in Ok (acc ++ [l])) [] refs) in
  let! media := mounted_media do_async in
  ret (just (PDict [("System", PStr system_id); ("BootMode", mode); ("Override", override); ("OverrideTarget", target);
    ("OneTimeBootPending", PBool (eq_str override "Once")); ("NextBoot", next); ("BootOrder", PList labels);
    ("BootableEntries", PList (map option_entry options)); ("MountedMedia", PList media)])).

(** ** bios-reset (base manager) *)

Context (schemas : list Csdl.xml).

(** [_bios_fallback_uri(system_uri)] *)
Definition bios_fallback_uri (system_uri : pyval) : res string :=
  match system_uri with
  | PStr s => Ok (PyStr.rstrip_char "/" s +:+ "/Bios")
  | v => Raise (no_attribute v "rstrip")
  end.

(** [_bios_uri(do_async)] *)
Definition bios_uri (do_async : bool) : MM pyval :=
  let! system_uri := Discovery.managed_system_uri in
  let! r := base_query (py_str system_uri) (with_async do_async) in
  let link := match py_or (data r) (PDict []) with PDict d => dget "Bios" d | _ => PNone end in
  let id := match link with PDict l => dget "@odata.id" l | _ => PNone end in
  if truthy id then ret id
  else let! uri := lift_res (bios_fallback_uri system_uri) in ret (PStr uri).

Definition reset_call (uri : pyval) (reset_type : option string) (do_async dry_run confirm : bool) : action_call :=
  Call (py_str uri) "ResetBios" (match reset_type with Some (String _ _ as t) => [("ResetType", PStr t)] | _ => [] end)
    "#Bios.ResetBios" do_async dry_run confirm false.

(** [BiosResetDefault.execute(confirm, dry_run, reset_type, do_async)] *)
Definition bios_reset (confirm dry_run : bool) (reset_type : option string) (do_async : bool) : MM CommandResult :=
  let! uri := bios_uri do_async in
  invoke_action schemas (reset_call uri reset_type do_async dry_run confirm).

Lemma emits_state_get uri b : emits is_get (state_get uri b).
Proof. unfold state_get. frame; auto with emits. Qed.

(** Looking at the boot state sends nothing but GETs. *)
Theorem boot_state_reads b (s : mstate W) :
  exists l, trace (boot_state b s).1 = trace s ++ l /\ Forall is_get l.
Proof.
  assert (emits is_get (boot_state b)) as H; [|apply H]. unfold boot_state, boot_options, mounted_media.
  frame; auto using emits_state_get, Discovery.emits_managed_system_uri, Discovery.emits_discover_virtual_media_uri with emits.
Qed.

(** A BIOS reset posts at most once, only confirmed and not as a dry run, and then exactly the reset type that was asked
    for. *)
Theorem bios_reset_guarded c d reset_type b (s : mstate W) :
  exists l, trace (bios_reset c d reset_type b s).1 = trace s ++ l /\
    (length (write_requests l) <= (if c && negb d then 1 else 0))%nat /\
    Forall (fun rq => rq_method rq = POST /\
      rq_data rq = Some (PDict match reset_type with Some (String _ _ as t) => [("ResetType", PStr t)] | _ => [] end)) (write_requests l).
Proof.
  revert s. match goal with |- forall s, exists l, _ /\ (_ <= ?n)%nat /\ Forall ?P _ => change (writes n P (bios_reset c d reset_type b)) end.
  unfold bios_reset. apply writes_read_bind; [unfold bios_uri; frame; auto using Discovery.emits_managed_system_uri with emits|]. intros uri.
  apply (SecureBoot.writes_invoke_action schemas (reset_call uri reset_type b d c)); apply (bool_decide_unpack _); vm_compute; exact I.
Qed.
End State.

(** ** bios-registry *)

Section Registry.
Context {W : Type} `{!World W} `{!Vendor W}.
Abbreviation MM := (M (mstate W)).

Record registry_args := RegistryArgs {
  g_registry_only : bool; g_attr_name : option string; g_attr_list : bool; g_no_read_only : bool; g_value_only : bool
}.

(** [[d['AttributeName'] for d in data]] *)
Definition attribute_names (l : list pyval) : res (list pyval) :=
  res_fold (fun acc d => let? n := Idrac.item "AttributeName" d in Ok (acc ++ [n])) [] l.

(** The first entry of that name *)
Fixpoint find_attribute (n : string) (l : list pyval) : res (option pyval) :=
  match l with
  | [] => Ok None
  | entry :: rest => let? v := Idrac.item "AttributeName" entry in if eq_str v n then Ok (Some entry) else find_attribute n rest
  end.

(** The entries of the names, in the order of the names *)
Definition find_attributes (ns : list string) (l : list pyval) : res (list pyval) :=
  res_fold (fun acc n => let? e := find_attribute n l in Ok (acc ++ match e with Some x => [x] | None => [] end)) [] ns.

(** The entries by name, or all of them; [is_registry_only] selects the same value *)
Definition by_name (a : registry_args) (data : pyval) : res pyval :=
  match g_attr_name a with
  | None | Some EmptyString => Ok data
  | Some n =>
      match data with
      | PList l => let? found := find_attributes (PyStr.split "," n) l in Ok (PList found)
      | PDict _ => Idrac.item n data
      | v => Ok v
      end
  end.

(** The entries that can be written.  [registry] holds [Attributes], and [data] is its value or a selection of it. *)
Definition writable (registry : pydict) (data : pyval) : res pyval :=
  let? nested := Idrac.member_test "RegistryEntries" data in
  let? source :=
    if nested then
      let? r := Idrac.item "RegistryEntries" (PDict registry) in Idrac.item "Attributes" r
    else
      let? flat := Idrac.member_test "Attributes" data in
      if flat then Idrac.item "Attributes" (PDict registry)
      else match data with PList _ => Ok data | _ => Raise (ValueError "unknown value.") end in
  let? entries := items source in
  let? kept := res_fold (fun acc entry => let? ro := Idrac.item "ReadOnly" entry in Ok (if truthy ro then acc else acc ++ [entry])) [] entries in
  Ok (PList kept).

(** [[entry['Value'] for entry in data if ...][0]] *)
Definition first_value (data : pyval) : res pyval :=
  let? l := items data in
  match omap (fun entry => match entry with PDict d => dict_get "Value" d | _ => None end) l with
  | v :: _ => Ok v
  | [] => Raise (IndexError "list index out of range")
  end.

(** What [BiosRegistry.execute] makes of the registry document *)
Definition registry_result (a : registry_args) (doc : pyval) : res CommandResult :=
  let? entries := get_attr (py_or doc (PDict [])) "RegistryEntries" in
  match entries with
  | PDict registry =>
      match dict_get "Attributes" registry with
      | None => Ok (just (PList []))
      | Some attrs =>
          let? all := match g_attr_list a, attrs with
                      | true, PList l => let? ns := attribute_names l in Ok (PList ns)
                      | _, _ => Ok PNone
                      end in
          let? data := by_name a attrs in
          let? data := if g_no_read_only a then writable registry data else Ok data in
          let? data := if g_value_only a then first_value data else Ok data in
          Ok (mkResult data PNone all PNone)
      end
  | _ => Ok (just (PList []))
  end.

(** [BiosRegistry.execute(...)] *)
Definition bios_registry (a : registry_args) (do_async do_expanded : bool) : MM CommandResult :=
  let! target_api := resolve_bios_registry_uri do_async in
  let! r := try_Exception (let! r := v_query target_api (expanded_query do_async do_expanded) in ret (Some r)) (fun _ => ret None) in
  match r with
  | None => ret (just (PList []))
  | Some r => lift_res (registry_result a (data r))
  end.
End Registry.

(** ** Examples *)

(** The device that is patched is the first whose name contains the text, even when another one has exactly that name. *)
Theorem enable_hits_longer_name :
  find_device "NIC.Slot.1-1" [PStr "/redfish/v1/Systems/1/BootOptions/NIC.Slot.1-10"; PStr "/redfish/v1/Systems/1/BootOptions/NIC.Slot.1-1"]
  = Ok (Some (PStr "/redfish/v1/Systems/1/BootOptions/NIC.Slot.1-10")).
Proof. vm_compute. reflexivity. Qed.

Example next_boot_override :
  (next_boot (PStr "Once") (PStr "Pxe") (PList [PStr "Boot0001"]) [],
   next_boot (PStr "Disabled") (PStr "Pxe") (PList [PStr "Boot0001"]) [(PStr "Boot0001", OptionRow (PStr "Disk") PNone)],
   next_boot PNone PNone (PList []) []) = (Ok (PStr "Pxe"), Ok (PStr "Disk"), Ok PNone).
Proof. vm_compute. reflexivity. Qed.

Example registry_selection :
  registry_result (RegistryArgs true (Some "B,A") true true false)
    (PDict [("RegistryEntries", PDict [("Attributes", PList
       [PDict [("AttributeName", PStr "A"); ("ReadOnly", PBool false)]; PDict [("AttributeName", PStr "B"); ("ReadOnly", PBool true)]])])])
  = Ok (mkResult (PList [PDict [("AttributeName", PStr "A"); ("ReadOnly", PBool false)]]) PNone (PList [PStr "A"; PStr "B"]) PNone).
Proof. vm_compute. reflexivity. Qed.

Definition window : update_args := UpdateArgs "maintenance" false false false false (Some "boot.json") "2031-01-15" "22:00:00" (PInt 600).

Definition boot_spec (f : string) : res pyval := Ok (PDict [("UefiBootSeq", PList [])]).

Lemma maintenance_unschedulable_witness :
  exists l, trace (boot_source_update (SyncInvoker0 := no_commands) (fun _ => "") 3 (fun _ => 0) boot_spec window
                     (sim_state sample_manager bios_routes)).1 = [] ++ l /\ Forall is_get l.
Proof.
  apply (maintenance_unschedulable (SyncInvoker0 := no_commands) (fun _ => "") 3 (fun _ => 0) boot_spec window "2" "2" "00:00"
           (sim_state sample_manager bios_routes)); [apply (bool_decide_unpack _); vm_compute; exact I|reflexivity].
Defined.

Definition listing_invoker : SyncInvoker (mstate sim) := fun api name kw s =>
  (s, Ok (just (PList [PStr "/redfish/v1/Systems/1/BootOptions/HardDisk.List.1-1"; PStr "/redfish/v1/Systems/1/BootOptions/NIC.Slot.8-1"]))).

Lemma boot_enable_first_match_witness :
  exists l, trace (boot_enable (SyncInvoker0 := listing_invoker) (fun _ => "") 3 (fun _ => 0) (Some "nic.slot.8-1") true false false
                     (sim_state sample_manager bios_routes)).1 = [] ++ l /\ (length (write_requests l) <= 1)%nat /\ Forall patches (write_requests l).
Proof.
  refine (proj1 (boot_enable_first_match (SyncInvoker0 := listing_invoker) (fun _ => "") 3 (fun _ => 0) "nic.slot.8-1" true false
           (sim_state sample_manager bios_routes) _)).
  intros kw s. exists []. rewrite app_nil_r. by split.
Defined.
End BootSources.
