(* ===== verification/EndpointCache.v ===== *)
(** * The listing cache of the fleet dashboard (_EndpointCache)

    src/k8s/consumer/fleet_status_app.py, [_EndpointCache]: the request threads of
    the dashboard share one listing of the cluster for a short time.  As in Cache.v
    the condition's lock makes every critical section atomic, and a step of the model
    is one of them; here the loader runs between the section that claims the load and
    the one that publishes or gives up, and a monotonic clock advances between any two
    steps.  Times are integers of an arbitrary unit.  A thread that returns remembers
    when it did; [log] and [starts] are ghosts: what was published when, and when loads
    began, newest first. *)

From stdpp Require Import base list strings relations.
From Stdlib Require Import ZArith Lia.
From S2P Require Import Prelude Effects.

Module EndpointCache.
Local Open Scope Z_scope.

Section Cache.
Context {V : Type} (empty : V) (ttl : Z).

(** Where a thread is inside [get]: before the first section, inside [wait],
    notified, in the loader, back from it with a value or an exception, or out. *)
Inductive pc : Type :=
| Start
| Sleeping
| Woken
| Loading
| Loaded (v : V)
| Broken (e : exn)
| Returned (v : V) (t : Z)
| Failed (e : exn).

Record config := Config {
  clock : Z;
  at_ : Z;
  value : V;
  loading : bool;
  threads : list pc;
  log : list (Z * V);
  starts : list Z
}.

(** [__init__], with [n] threads that will call [get]; the clock shows [now]. *)
Definition init (now : Z) (n : nat) : config := Config now 0 empty false (replicate n Start) [] [].

(** [_is_fresh]: [_at == 0] means never loaded *)
Definition is_fresh (c : config) : bool := negb (at_ c =? 0) && (clock c - at_ c <=? ttl).

(** The section a thread enters with, and the rest of its loop after [wait]: a fresh
    value is returned, a load in flight is waited for, otherwise the load is claimed. *)
Definition attempt (i : nat) (c : config) : config :=
  if is_fresh c then
    Config (clock c) (at_ c) (value c) (loading c) (<[i := Returned (value c) (clock c)]> (threads c)) (log c) (starts c)
  else if loading c then
    Config (clock c) (at_ c) (value c) (loading c) (<[i := Sleeping]> (threads c)) (log c) (starts c)
  else
    Config (clock c) (at_ c) (value c) true (<[i := Loading]> (threads c)) (log c) (clock c :: starts c).

(** [self._cond.notify_all()] *)
Definition notify (p : pc) : pc := match p with Sleeping => Woken | _ => p end.
Definition notify_all (ps : list pc) : list pc := map notify ps.

(** The loader is over. *)
Definition back (i : nat) (p : pc) (c : config) : config :=
  Config (clock c) (at_ c) (value c) (loading c) (<[i := p]> (threads c)) (log c) (starts c).

(** The last section: store the value with the time, release the load, wake the waiters. *)
Definition publish (i : nat) (v : V) (c : config) : config :=
  Config (clock c) (clock c) v false (<[i := Returned v (clock c)]> (notify_all (threads c))) ((clock c, v) :: log c) (starts c).

(** [except BaseException]: release the load, wake the waiters, raise again. *)
Definition abandon (i : nat) (e : exn) (c : config) : config :=
  Config (clock c) (at_ c) (value c) false (<[i := Failed e]> (notify_all (threads c))) (log c) (starts c).

(** [time.monotonic()] a little later *)
Definition tick (d : Z) (c : config) : config :=
  Config (clock c + d) (at_ c) (value c) (loading c) (threads c) (log c) (starts c).

(** One step of one thread; how a loader ends is free. *)
Inductive work : config -> config -> Prop :=
| work_enter c i : threads c !! i = Some Start -> work c (attempt i c)
| work_resume c i : threads c !! i = Some Woken -> work c (attempt i c)
| work_loaded c i v : threads c !! i = Some Loading -> work c (back i (Loaded v) c)
| work_raised c i e : threads c !! i = Some Loading -> work c (back i (Broken e) c)
| work_publish c i v : threads c !! i = Some (Loaded v) -> work c (publish i v c)
| work_abandon c i e : threads c !! i = Some (Broken e) -> work c (abandon i e c).

(** Runs with the number of thread steps in them. *)
Inductive run : nat -> config -> config -> Prop :=
| run_refl c : run 0 c c
| run_work n c1 c2 c3 : run n c1 c2 -> work c2 c3 -> run (S n) c1 c3
| run_tick n c1 c2 d : run n c1 c2 -> 0 <= d -> run n c1 (tick d c2).

Definition finished (p : pc) : bool := match p with Returned _ _ | Failed _ => true | _ => false end.

(** Between the claim of a load and its end. *)
Definition busy (p : pc) : bool := match p with Loading | Loaded _ | Broken _ => true | _ => false end.

(** Publications that follow each other are more than [ttl] apart. *)
Fixpoint spaced (l : list (Z * V)) : Prop :=
  match l with
  | (t1, _) :: l' => match l' with (t0, _) :: _ => t0 + ttl < t1 | [] => True end /\ spaced l'
  | [] => True
  end.

(** ** An executable scheduler *)

Inductive event := Run (i : nat) | LoadOk (i : nat) (v : V) | LoadFail (i : nat) (e : exn) | Tick (d : Z).

Definition exec (ev : event) (c : config) : option config :=
  match ev with
  | Run i => match threads c !! i with
             | Some Start | Some Woken => Some (attempt i c)
             | Some (Loaded v) => Some (publish i v c)
             | Some (Broken e) => Some (abandon i e c)
             | _ => None
             end
  | LoadOk i v => match threads c !! i with Some Loading => Some (back i (Loaded v) c) | _ => None end
  | LoadFail i e => match threads c !! i with Some Loading => Some (back i (Broken e) c) | _ => None end
  | Tick d => if 0 <=? d then Some (tick d c) else None
  end.

Fixpoint exec_all (evs : list event) (c : config) : option config :=
  match evs with [] => Some c | ev :: evs' => c' ← exec ev c; exec_all evs' c' end.

Lemma exec_run n c0 c ev c' : run n c0 c -> exec ev c = Some c' -> exists n', run n' c0 c'.
Proof.
  intros Hr. destruct ev as [i|i v|i e|d]; cbn [exec].
  1-3: destruct (threads c !! i) as [[]|] eqn:Hi; intros; simplify_eq; eauto using run, work.
  case_match eqn:Hd; intros; simplify_eq. exists n. apply run_tick; [done|lia].
Qed.

Lemma exec_all_run evs n c0 c c' : run n c0 c -> exec_all evs c = Some c' -> exists n', run n' c0 c'.
Proof.
  revert n c. induction evs as [|ev evs IH]; intros n c Hr; cbn [exec_all]; [intros; simplify_eq; eauto|].
  intros (c1 & H1 & H2)%bind_Some. destruct (exec_run _ _ _ _ _ Hr H1) as [n1 Hr1]. eauto.
Qed.

(** ** The invariant *)

(** A returned value was published at most [ttl] before. *)
Definition served (l : list (Z * V)) (p : pc) : Prop :=
  match p with Returned v t => exists t0, (t0, v) ∈ l /\ t0 <= t <= t0 + ttl | _ => True end.

Record Inv (c : config) : Prop := {
  inv_clock : 0 < clock c;
  inv_at : match log c with [] => at_ c = 0 | (t, v) :: _ => t = at_ c /\ v = value c /\ 0 < at_ c <= clock c end;
  inv_spaced : spaced (log c);
  inv_stale : loading c = true -> at_ c = 0 \/ at_ c + ttl < clock c;
  inv_busy : length (filter (fun p => busy p = true) (threads c)) = (if loading c then 1 else 0)%nat;
  inv_sleep : Sleeping ∈ threads c -> loading c = true;
  inv_served : Forall (served (log c)) (threads c);
  inv_starts : Forall (fun s => s <= clock c /\ Forall (fun p => s <= p.1 \/ p.1 + ttl < s) (log c)) (starts c)
}.

Hypothesis ttl_pos : 0 <= ttl.

Definition busy_threads (ps : list pc) : nat := length (filter (fun p => busy p = true) ps).

Lemma busy_insert ps i p old : ps !! i = Some old ->
  (busy_threads (<[i := p]> ps) + (if busy old then 1 else 0) = busy_threads ps + (if busy p then 1 else 0))%nat.
Proof.
  unfold busy_threads. revert i. induction ps as [|q ps IH]; intros [|i] H; simplify_eq/=; rewrite !filter_cons.
  - destruct (busy old), (busy p); simpl; lia.
  - specialize (IH i H). destruct (busy q); simpl; lia.
Qed.

Lemma busy_notify ps : busy_threads (notify_all ps) = busy_threads ps.
Proof. unfold busy_threads, notify_all. induction ps as [|[] ps IH]; simpl; rewrite ?filter_cons; simpl; auto. Qed.

Lemma notify_no_sleep ps : Sleeping ∉ notify_all ps.
Proof. unfold notify_all. intros (p & Hp & _)%list_elem_of_fmap. by destruct p. Qed.

Lemma notify_lookup ps i : notify_all ps !! i = notify <$> ps !! i.
Proof. apply list_lookup_fmap. Qed.

Lemma served_notify l ps : Forall (served l) ps -> Forall (served l) (notify_all ps).
Proof. unfold notify_all. induction 1 as [|p ps Hp _ IH]; constructor; [by destruct p|done]. Qed.

Lemma served_more l x p : served l p -> served (x :: l) p.
Proof. destruct p; try done. intros (t0 & Hin & Ht). exists t0. split; [by right|done]. Qed.

Lemma insert_elem (ps : list pc) i p q : q ∈ <[i := p]> ps -> q = p \/ q ∈ ps.
Proof.
  intros [j Hj]%list_elem_of_lookup. apply list_lookup_insert_Some in Hj as [(_ & -> & _)|[_ Hj]]; [by left|].
  right. by apply list_elem_of_lookup_2 in Hj.
Qed.

Lemma fresh_at c : is_fresh c = true <-> at_ c <> 0 /\ clock c - at_ c <= ttl.
Proof. unfold is_fresh. rewrite andb_true_iff, negb_true_iff. lia. Qed.

(** The last publication is the newest. *)
Lemma spaced_newest t v l : spaced ((t, v) :: l) -> Forall (fun p => p.1 <= t) ((t, v) :: l).
Proof.
  revert t v. induction l as [|[t0 v0] l IH]; intros t v; cbn [spaced].
  - intros _. constructor; [simpl; lia|constructor].
  - intros [Ht Hl]. constructor; [simpl; lia|]. eapply Forall_impl; [apply (IH t0 v0); exact Hl|]. simpl. intros. lia.
Qed.

Lemma Inv_start now n : 0 < now -> Inv (init now n).
Proof.
  intros Hn. split; simpl; try done.
  - by induction n as [|n IH]; simpl.
  - by intros Hin%elem_of_replicate_inv.
  - apply Forall_replicate. exact I.
Qed.

Lemma Inv_attempt c i p : threads c !! i = Some p -> busy p = false -> Inv c -> Inv (attempt i c).
Proof.
  intros Hi Hp [I1 I2 I3 I4 I5 I6 I7 I8]. unfold attempt. destruct (is_fresh c) eqn:Hf; [|destruct (loading c) eqn:Hl].
  - apply fresh_at in Hf as [Hat Ht]. split; simpl; try done.
    + pose proof (busy_insert _ _ (Returned (value c) (clock c)) _ Hi) as Hb. unfold busy_threads in Hb. rewrite Hp in Hb. simpl in Hb. lia.
    + intros [[=]|Hin]%insert_elem; auto.
    + apply Forall_insert; [done|]. simpl. destruct (log c) as [|[t v] l]; [done|]. destruct I2 as (-> & -> & ?).
      exists (at_ c). split; [by left|lia].
  - split; simpl; try done; [auto|..].
    + pose proof (busy_insert _ _ Sleeping _ Hi) as Hb. unfold busy_threads in Hb. rewrite Hp in Hb. simpl in Hb. lia.
    + by apply Forall_insert.
  - split; simpl; try done.
    + intros _. assert (~ (at_ c <> 0 /\ clock c - at_ c <= ttl)) by (rewrite <- fresh_at; by rewrite Hf). lia.
    + pose proof (busy_insert _ _ Loading _ Hi) as Hb. unfold busy_threads in Hb. rewrite Hp in Hb. simpl in Hb. lia.
    + by apply Forall_insert.
    + constructor; [split; [lia|]|done]. assert (~ (at_ c <> 0 /\ clock c - at_ c <= ttl)) by (rewrite <- fresh_at; by rewrite Hf).
      destruct (log c) as [|[t v] l]; [constructor|]. destruct I2 as (-> & -> & ?).
      eapply Forall_impl; [apply (spaced_newest _ _ _ I3)|]. simpl. intros. lia.
Qed.

Lemma busy_loading c i p : Inv c -> threads c !! i = Some p -> busy p = true -> loading c = true.
Proof.
  intros HI Hi Hp. pose proof (busy_insert _ _ Start _ Hi) as Hb. unfold busy_threads in Hb. rewrite (inv_busy c HI), Hp in Hb.
  destruct (loading c); [done|]. simpl in Hb. lia.
Qed.

Lemma Inv_back c i p q : threads c !! i = Some q -> busy q = true -> busy p = true -> Inv c -> Inv (back i p c).
Proof.
  intros Hi Hq Hp HI. pose proof (busy_loading c i q HI Hi Hq) as Hl. destruct HI as [I1 I2 I3 I4 I5 I6 I7 I8].
  unfold back. split; simpl; try done.
  - pose proof (busy_insert _ _ p _ Hi) as Hb. unfold busy_threads in Hb. rewrite Hq, Hp in Hb. lia.
  - apply Forall_insert; [done|]. by destruct p.
Qed.

(** The load is over: nobody else was busy. *)
Lemma Inv_release c i p q : threads c !! i = Some q -> busy q = true -> finished p = true -> Inv c ->
  busy_threads (<[i := p]> (notify_all (threads c))) = 0%nat /\ Sleeping ∉ <[i := p]> (notify_all (threads c)).
Proof.
  intros Hi Hq Hp HI. assert (notify_all (threads c) !! i = Some q) as Hi' by (rewrite notify_lookup, Hi; by destruct q).
  split.
  - pose proof (busy_insert _ _ p _ Hi') as Hb. rewrite busy_notify in Hb. unfold busy_threads in Hb at 2.
    rewrite (inv_busy c HI), (busy_loading c i q HI Hi Hq), Hq in Hb. destruct p; simpl in *; try done; lia.
  - intros [Heq|Hin]%insert_elem; [by rewrite <- Heq in Hp|]. by apply notify_no_sleep in Hin.
Qed.

Lemma Inv_published c i v : threads c !! i = Some (Loaded v) -> Inv c -> Inv (publish i v c).
Proof.
  intros Hi HI. destruct (Inv_release c i (Returned v (clock c)) _ Hi eq_refl eq_refl HI) as [Hb Hs].
  pose proof (busy_loading c i _ HI Hi eq_refl) as Hl. destruct HI as [I1 I2 I3 I4 I5 I6 I7 I8].
  unfold publish. split; simpl; try done.
  - split; [|done]. destruct (log c) as [|[t w] l]; [done|]. destruct I2 as (-> & _ & ?), (I4 Hl); lia.
  - apply Forall_insert; [|exists (clock c); split; [by left|lia]].
    apply served_notify. eapply Forall_impl; [exact I7|]. intros p. apply served_more.
  - eapply Forall_impl; [exact I8|]. simpl. intros s0 [? ?]. split; [done|]. constructor; [by left|done].
Qed.

Lemma Inv_abandoned c i e : threads c !! i = Some (Broken e) -> Inv c -> Inv (abandon i e c).
Proof.
  intros Hi HI. destruct (Inv_release c i (Failed e) _ Hi eq_refl eq_refl HI) as [Hb Hs].
  destruct HI as [I1 I2 I3 I4 I5 I6 I7 I8]. unfold abandon. split; simpl; try done.
  apply Forall_insert; [by apply served_notify|done].
Qed.

Lemma Inv_tick c d : 0 <= d -> Inv c -> Inv (tick d c).
Proof.
  intros Hd [I1 I2 I3 I4 I5 I6 I7 I8]. split; simpl; try done; [lia| | |].
  - destruct (log c) as [|[t v] l]; [done|]. destruct I2 as (-> & -> & ?). repeat split; lia.
  - intros Hl. destruct (I4 Hl); [by left|right; lia].
  - eapply Forall_impl; [exact I8|]. simpl. intros s0 [? ?]. split; [lia|done].
Qed.

Lemma Inv_work c c' : work c c' -> Inv c -> Inv c'.
Proof.
  destruct 1; [eapply Inv_attempt|eapply Inv_attempt|eapply Inv_back|eapply Inv_back|by apply Inv_published|by apply Inv_abandoned]; done.
Qed.

Lemma Inv_run now n k c : 0 < now -> run n (init now k) c -> Inv c.
Proof.
  intros Hn Hr. remember (init now k) as c0 eqn:H0. induction Hr as [c|n c1 c2 c3 _ IH Hw|n c1 c2 d _ IH Hd]; subst.
  - by apply Inv_start.
  - eapply Inv_work; eauto.
  - apply Inv_tick; auto.
Qed.

(** ** Termination *)

Definition unfinished_weight (p : pc) : nat := if finished p then 0 else 1.
Definition wait_weight (p : pc) : nat :=
  match p with Start | Woken => 4 | Sleeping => 3 | Loading => 2 | Loaded _ | Broken _ => 1 | _ => 0 end.

(** Threads left, then how far each is from its next wait or end: a load that ends may
    wake every sleeper, but it finishes a thread. *)
Definition measure (c : config) : nat :=
  sum_list_with unfinished_weight (threads c) * (4 * length (threads c) + 1) + sum_list_with wait_weight (threads c).

(** The most steps that [k] calls can take together. *)
Definition step_bound (k : nat) : nat := k * (4 * k + 1) + 4 * k.

Lemma weight_insert (f : pc -> nat) ps i p old : ps !! i = Some old ->
  (sum_list_with f (<[i := p]> ps) + f old = sum_list_with f ps + f p)%nat.
Proof.
  revert i. induction ps as [|q ps IH]; intros [|i] Hi; simplify_eq/=; [lia|]. specialize (IH i Hi). lia.
Qed.

Lemma wait_bound ps : (sum_list_with wait_weight ps <= 4 * length ps)%nat.
Proof. induction ps as [|[] ps IH]; simpl; lia. Qed.

Lemma unfinished_notify ps : sum_list_with unfinished_weight (notify_all ps) = sum_list_with unfinished_weight ps.
Proof. unfold notify_all. induction ps as [|p ps IH]; [done|]. simpl. rewrite IH. by destruct p. Qed.

(** A step that moves one thread on. *)
Lemma measure_move c i p q c' : threads c !! i = Some p -> threads c' = <[i := q]> (threads c) ->
  (unfinished_weight q <= unfinished_weight p)%nat -> (wait_weight q < wait_weight p)%nat -> (measure c' < measure c)%nat.
Proof.
  intros Hi Hc Hu Hw. unfold measure. rewrite Hc, length_insert.
  pose proof (weight_insert unfinished_weight _ _ q _ Hi). pose proof (weight_insert wait_weight _ _ q _ Hi). nia.
Qed.

(** A step that ends a call and wakes the others. *)
Lemma measure_finish c i p q c' : threads c !! i = Some p -> busy p = true -> finished q = true ->
  threads c' = <[i := q]> (notify_all (threads c)) -> (measure c' < measure c)%nat.
Proof.
  intros Hi Hp Hq Hc. unfold measure. rewrite Hc, length_insert.
  assert (notify_all (threads c) !! i = Some p) as Hi' by (rewrite notify_lookup, Hi; by destruct p).
  pose proof (weight_insert unfinished_weight _ _ q _ Hi') as Hs. rewrite unfinished_notify in Hs.
  pose proof (wait_bound (<[i := q]> (notify_all (threads c)))) as Hb. rewrite length_insert in Hb.
  assert (length (notify_all (threads c)) = length (threads c)) as Hlen by apply length_map. rewrite Hlen in *.
  assert (unfinished_weight p = 1)%nat as Hp1 by (by destruct p). assert (unfinished_weight q = 0)%nat as Hq0 by (by destruct q).
  nia.
Qed.

Lemma measure_work c c' : work c c' -> (measure c' < measure c)%nat.
Proof.
  assert (forall i p, threads c !! i = Some p -> wait_weight p = 4%nat -> (measure (attempt i c) < measure c)%nat) as Ha.
  { intros i p Hi Hp. assert (unfinished_weight p = 1%nat) as Hu by (by destruct p).
    unfold attempt. destruct (is_fresh c), (loading c); eapply (measure_move c i p); try done; rewrite ?Hp, ?Hu; cbn; lia. }
  destruct 1; [eapply Ha; [eassumption|done]|eapply Ha; [eassumption|done]
    |eapply measure_move; [eassumption|reflexivity|cbn; lia..]|eapply measure_move; [eassumption|reflexivity|cbn; lia..]
    |eapply measure_finish; [eassumption|done| |reflexivity]; done|eapply measure_finish; [eassumption|done| |reflexivity]; done].
Qed.

Lemma measure_run n c c' : run n c c' -> (n + measure c' <= measure c)%nat.
Proof. induction 1 as [|n c1 c2 c3 _ IH Hw%measure_work|n c1 c2 d _ IH _]; [lia|lia|exact IH]. Qed.

Lemma measure_init now k : measure (init now k) = step_bound k.
Proof.
  unfold measure, step_bound, init. cbn [threads]. rewrite length_replicate.
  assert (forall f : pc -> nat, sum_list_with f (replicate k Start) = (k * f Start)%nat) as Hs
    by (intros f; induction k as [|k IH]; simpl; lia).
  rewrite !Hs. cbn. lia.
Qed.

(** ** Progress *)

Lemma can_go_on c i p : Inv c -> threads c !! i = Some p -> finished p = false -> exists c', work c c'.
Proof.
  intros HI Hi Hp. assert (forall j q, threads c !! j = Some q -> busy q = true -> exists c', work c c') as Hbusy.
  { intros j q Hj Hq. destruct q; try done; eexists; [by apply (work_raised c j KeyboardInterrupt)|by apply work_publish|by apply work_abandon]. }
  destruct p; try done; [eexists; by apply work_enter| |eexists; by apply work_resume|eauto..].
  assert (loading c = true) as Hl by (apply (inv_sleep c HI); by apply list_elem_of_lookup_2 in Hi).
  pose proof (inv_busy c HI) as Hb. rewrite Hl in Hb.
  destruct (filter (fun p => busy p = true) (threads c)) as [|q l] eqn:Hf; [done|].
  assert (q ∈ filter (fun p => busy p = true) (threads c)) as [Hq [j Hj]%list_elem_of_lookup]%list_elem_of_filter by (rewrite Hf; by left).
  eauto.
Qed.

(** ** Properties *)

(** C32. What clients are served, and what the API server is asked: a value that [get]
    returns was published at most the TTL before; two publications are more than the
    TTL apart, so there is at most one in any window of that length; a load begins
    only when every publication so far is older than the TTL; and at most one load is in
    flight. *)
Theorem listing_fresh now k n c : 0 < now -> run n (init now k) c ->
  (forall i v t, threads c !! i = Some (Returned v t) -> exists t0, (t0, v) ∈ log c /\ t0 <= t <= t0 + ttl) /\
  spaced (log c) /\
  (forall s t v, s ∈ starts c -> (t, v) ∈ log c -> s <= t \/ t + ttl < s) /\
  (length (filter (fun p => busy p = true) (threads c)) <= 1)%nat.
Proof.
  intros Hn Hr%Inv_run; [|done]. destruct Hr as [I1 I2 I3 I4 I5 I6 I7 I8]. split_and!; [|done| |rewrite I5; destruct (loading c); lia].
  - intros i v t Hi. exact (Forall_lookup_1 _ _ _ _ I7 Hi).
  - intros s t v Hs Hin. rewrite Forall_forall in I8. destruct (I8 s Hs) as [_ Hl]. rewrite Forall_forall in Hl. exact (Hl _ Hin).
Qed.

(** Every call ends: whatever the schedule, [k] calls take no more than [step_bound k]
    steps together, and as long as one has not returned or raised, some thread can go
    on; a load that fails or raises does not leave the others waiting. *)
Theorem listing_calls_end now k n c : 0 < now -> run n (init now k) c ->
  (n <= step_bound k)%nat /\
  (Forall (fun p => finished p = true) (threads c) \/ exists c', work c c').
Proof.
  intros Hn Hr. split; [pose proof (measure_run _ _ _ Hr); rewrite measure_init in *; lia|].
  apply Inv_run in Hr; [|done]. destruct (decide (Forall (fun p => finished p = true) (threads c))) as [|Hno]; [by left|right].
  apply not_Forall_Exists in Hno; [|apply _]. apply Exists_exists in Hno as (p & [i Hi]%list_elem_of_lookup & Hp).
  apply (can_go_on c i p Hr Hi). simpl in Hp. by destruct (finished p).
Qed.
End Cache.

Arguments pc : clear implicits.
Arguments config : clear implicits.
Arguments event : clear implicits.

(** ** Concrete executions *)

(** A failed load, a waiter that retries, a caller served from the cache, and one that
    comes after the TTL and loads again. *)
Definition busy_minute : list (event nat) :=
  [Run 0; Run 1; Tick 2; LoadFail 0 (ConnectionFailed "refused"); Run 0; Run 1; Tick 5; LoadOk 1 7%nat; Run 1; Tick 3; Run 2;
   Tick 1; Run 3; LoadOk 3 8%nat; Tick 1; Run 3].

Example busy_minute_end : (fun c => (threads c, log c, starts c)) <$> exec_all 3 busy_minute (init 0%nat 100 4) =
  Some ([Failed (ConnectionFailed "refused"); Returned 7%nat 107; Returned 7%nat 110; Returned 8%nat 112],
        [(112, 8%nat); (107, 7%nat)], [111; 102; 100]).
Proof. reflexivity. Qed.

Lemma listing_fresh_witness :
  exists n c, run 3 n (init 0%nat 100 4) c /\ spaced 3 (log c) /\ threads c !! 2%nat = Some (Returned 7%nat 110) /\
    exists t0, (t0, 7%nat) ∈ log c /\ t0 <= 110 <= t0 + 3.
Proof.
  destruct (exec_all 3 busy_minute (init 0%nat 100 4)) as [c|] eqn:He; [|discriminate He].
  destruct (exec_all_run 3 busy_minute 0 _ _ c (run_refl 3 _) He) as [n Hr]. exists n, c.
  destruct (listing_fresh 0%nat 3 ltac:(lia) 100 4 n c ltac:(lia) Hr) as (H1 & H2 & _).
  assert (threads c !! 2%nat = Some (Returned 7%nat 110)) as Hi by (vm_compute in He; injection He as <-; reflexivity).
  split; [exact Hr|]. split; [exact H2|]. split; [exact Hi|]. exact (H1 _ _ _ Hi).
Defined.

Lemma listing_calls_end_witness :
  exists n c, run 3 n (init 0%nat 100 2) c /\ threads c !! 1%nat = Some Sleeping /\ (n <= step_bound 2)%nat /\
    (Forall (fun p => finished p = true) (threads c) \/ exists c', work 3 c c').
Proof.
  destruct (exec_all 3 [Run 0; Run 1] (init 0%nat 100 2)) as [c|] eqn:He; [|discriminate He].
  destruct (exec_all_run 3 [Run 0; Run 1] 0 _ _ c (run_refl 3 _) He) as [n Hr]. exists n, c.
  split; [exact Hr|]. split; [vm_compute in He; injection He as <-; reflexivity|].
  exact (listing_calls_end 0%nat 3 ltac:(lia) 100 2 n c ltac:(lia) Hr).
Defined.
End EndpointCache.
