(* ===== verification/FleetStatus.v ===== *)
(** * The fleet dashboard: rows, summary and metrics

    src/k8s/consumer/fleet_status_app.py reads the RedfishEndpoint resources whose
    status the endpoint controller (Endpoint.v) writes, and shows them as a page, as
    JSON and as Prometheus metrics.  This file holds the rows: [normalize_endpoint],
    the summary, the firmware drift, the listing of a namespace and the metrics, with
    the reader of Prometheus.v for the text.  The page and the request handler are in
    FleetPage.v, the cache in EndpointCache.v.  The Kubernetes client is a parameter:
    what it answers to the list request.  Infinities and NaN are not values of the
    model (Numbers.v). *)

From stdpp Require Import base list strings pretty sorting.
From Stdlib Require Import Ascii ZArith Lia.
From S2P Require Import Prelude PyVal Effects Numbers Timestamps Urls Json Telemetry Prometheus MockRules.

Module FleetStatus.
Import Numbers.
Local Open Scope Z_scope.
Local Open Scope py_scope.

Abbreviation row := pydict.

(** ** Floats *)

(** [n / d] rounded to an integer, ties to even. *)
Definition round_half_even (n d : Z) : Z :=
  let q := n / d in
  let r := n mod d in
  if 2 * r <? d then q else if d <? 2 * r then q + 1 else if Z.even q then q else q + 1.

(** The double nearest to a decimal, as [m * 2^e]. *)
Definition binary64 (x : dec) : Z * Z :=
  let num := Z.abs x.1 * 10 ^ Z.max x.2 0 in
  let den := 10 ^ Z.max (- x.2) 0 in
  if num =? 0 then (0, 0) else
  let l := Z.log2 num - Z.log2 den in
  let l := if num * 2 ^ Z.max (- l) 0 <? den * 2 ^ Z.max l 0 then l - 1 else l in
  let e := Z.max (l - 52) (-1074) in
  (Z.sgn x.1 * round_half_even (num * 2 ^ Z.max (- e) 0) (den * 2 ^ Z.max e 0), e).

(** [int(x)] of a float *)
Definition float_to_int (x : dec) : res Z :=
  let '(m, e) := binary64 x in
  if 2 ^ 1024 <=? Z.abs m * 2 ^ Z.max e 0 then Raise (OverflowError "cannot convert float infinity to integer")
  else Ok (if 0 <=? e then m * 2 ^ e else Z.quot m (2 ^ (- e))).

(** [f"{x:.1f}"] *)
Definition fixed1 (x : dec) : string :=
  let '(m, e) := binary64 x in
  let tenths := round_half_even (Z.abs m * 10 * 2 ^ Z.max e 0) (2 ^ Z.max (- e) 0) in
  (if x.1 <? 0 then "-" else "") +:+ pretty (tenths / 10) +:+ "." +:+ pretty (tenths mod 10).

(** ** Readings *)

(** [_as_number(value)] *)
Definition as_number (value : pyval) : res (option dec) :=
  match value with
  | PNone | PBool _ => Ok None
  | PInt z => let? d := float_of_int z in Ok (Some d)
  | PFloat m e => Ok (Some (m, e))
  | v => Ok (parse_decimal (py_str v))
  end.

Definition number_value (n : option dec) : pyval := match n with Some d => float_val d | None => PNone end.

(** [_as_int(value)] *)
Definition as_int (value : pyval) : res pyval :=
  let? number := as_number value in
  match number with
  | Some d => let? z := float_to_int d in Ok (PInt z)
  | None => Ok PNone
  end.

(** [text[:-1]] *)
Definition drop_last (s : string) : string := String.substring 0 (String.length s - 1) s.

(** [_epoch_from_rfc3339(value)], in microseconds *)
Definition epoch_from_rfc3339 (value : pyval) : res (option Z) :=
  if truthy value then
    match value with
    | PStr value =>
        let text := PyStr.strip value in
        let text := if PyStr.endswith "Z" text then drop_last text +:+ "+00:00" else text in
        Ok (Timestamps.fromisoformat text)
    | v => Raise (AttributeError ("'" +:+ type_name v +:+ "' object has no attribute 'strip'"))
    end
  else Ok None.

(** [_infer_backend(address)] *)
Definition infer_backend (address : string) : res string :=
  let? p := Urls.urlsplit address in
  let host := if PyStr.nonempty (Urls.netloc p) then Urls.netloc p else address in
  Ok (if PyStr.endswith ".svc.cluster.local" host || bool_decide (host ∈ ["mock-bmc"; "ilo-sim"]) then "mock" else "live").

(** ** Rows *)

Definition nic_component (comp : pyval) : list pyval :=
  match comp with
  | PDict c => [PDict [("id", dget "id" c); ("deviceClass", dget "deviceClass" c); ("version", dget "version" c);
                       ("updateable", dget "updateable" c)]]
  | _ => []
  end.

(** [normalize_endpoint(obj)] *)
Definition normalize_endpoint (obj : pyval) : res row :=
  let? meta := get_attr obj "metadata" in
  let meta := py_or meta (PDict []) in
  let? spec := get_attr obj "spec" in
  let spec := py_or spec (PDict []) in
  let? status := get_attr obj "status" in
  let status := py_or status (PDict []) in
  let? temperature := get_attr status "temperature" in
  let temperature := py_or temperature (PDict []) in
  let? network_firmware := get_attr status "networkFirmware" in
  let network_firmware := py_or network_firmware (PDict []) in
  let? address := get_attr spec "address" in
  let address := py_str (py_or address (PStr "")) in
  let? power_state := get_attr status "powerState" in
  let? health := get_attr status "health" in
  let? last_polled := get_attr status "lastPolled" in
  let state := if negb (truthy status) || (is_none power_state && is_none health && negb (truthy last_polled))
               then "Pending" else "Ready" in
  let? components := get_attr network_firmware "components" in
  let? components := MockRules.py_iter (py_or components (PList [])) in
  let nic_components := flat_map nic_component components in
  let? distinct := get_attr network_firmware "distinctVersions" in
  let? distinct := MockRules.py_iter (py_or distinct (PList [])) in
  let nic_versions := map (fun v => PStr (py_str v)) (List.filter (fun v => negb (is_none v)) distinct) in
  let? name := get_attr meta "name" in
  let? namespace := get_attr meta "namespace" in
  let? port := get_attr spec "port" in
  let insecure := truthy (dict_get_or "insecure" (PBool true) (as_dict spec)) in
  let? backend := infer_backend address in
  let? temp_count := get_attr temperature "count" in
  let? temp_count := as_int temp_count in
  let? temp_max := get_attr temperature "maxCelsius" in
  let? temp_max := as_number temp_max in
  let? adapter_count := as_int (dget "adapterCount" (as_dict network_firmware)) in
  let? nic_count := as_int (dget "nicCount" (as_dict network_firmware)) in
  let? dpu_count := as_int (dget "dpuCount" (as_dict network_firmware)) in
  let? firmware_count := as_int (dget "firmwareCount" (as_dict network_firmware)) in
  let? updateable_count := as_int (dget "updateableCount" (as_dict network_firmware)) in
  Ok [("name", PStr (py_str (py_or name (PStr "")))); ("namespace", PStr (py_str (py_or namespace (PStr ""))));
      ("address", PStr address); ("port", port); ("insecure", PBool insecure); ("backend", PStr backend);
      ("state", PStr state); ("powerState", power_state); ("health", health); ("temperatureCount", temp_count);
      ("temperatureMaxCelsius", number_value temp_max); ("nicAdapterCount", adapter_count); ("nicCount", nic_count);
      ("dpuCount", dpu_count); ("nicFirmwareCount", firmware_count); ("nicFirmwareUpdateableCount", updateable_count);
      ("nicFirmwareVersions", PList nic_versions); ("nicFirmware", PList nic_components); ("lastPolled", last_polled)].

(** [node.get("name")] of a row, which is a text *)
Definition row_name (n : row) : string := match dget "name" n with PStr s => s | _ => "" end.

(** [nodes.sort(key=lambda n: n["name"])], which is stable *)
Fixpoint insert_row (n : row) (l : list row) : list row :=
  match l with
  | [] => [n]
  | m :: l' => if String.ltb (row_name m) (row_name n) then m :: insert_row n l' else n :: l
  end.
Definition sort_rows (l : list row) : list row := foldr insert_row [] l.

Fixpoint res_map {A B} (f : A -> res B) (l : list A) : res (list B) :=
  match l with
  | [] => Ok []
  | x :: l' => let? y := f x in let? ys := res_map f l' in Ok (y :: ys)
  end.

(** The request of [load_endpoints]: group, version, namespace and plural. *)
Definition list_request (namespace : string) : string * string * string * string :=
  ("redfish.ctl.dev", "v1alpha1", namespace, "redfishendpoints").

(** [load_endpoints(namespace)]; loading the client's configuration may fail both ways *)
Definition load_endpoints (load_incluster_config load_kube_config : res unit)
    (list_namespaced_custom_object : string * string * string * string -> res pyval) (namespace : string) : res (list row) :=
  let? _ := match load_incluster_config with
            | Raise e => if is_Exception e then load_kube_config else Raise e
            | r => r
            end in
  let? resp := list_namespaced_custom_object (list_request namespace) in
  let? items := MockRules.py_iter (match resp with PDict d => dict_get_or "items" (PList []) d | _ => PList [] end) in
  let? nodes := res_map normalize_endpoint items in
  Ok (sort_rows nodes).

(** ** Summary and drift *)

(** [v in {"On", "PoweringOn"}] *)
Definition powered_on (v : pyval) : res bool :=
  match v with
  | PList _ | PDict _ => Raise (TypeError ("unhashable type: '" +:+ type_name v +:+ "'"))
  | v => Ok (eq_str v "On" || eq_str v "PoweringOn")
  end.

Record counters := Counters {
  total : Z; ready : Z; pending : Z; poweredOn : Z; poweredOff : Z; healthy : Z; warning : Z; critical : Z
}.

(** The body of the loop of [fleet_summary]: what one node adds *)
Definition count_node (s : counters) (node : row) : res counters :=
  let s := if eq_str (dget "state" node) "Ready"
           then Counters (total s) (ready s + 1) (pending s) (poweredOn s) (poweredOff s) (healthy s) (warning s) (critical s)
           else Counters (total s) (ready s) (pending s + 1) (poweredOn s) (poweredOff s) (healthy s) (warning s) (critical s) in
  let power := dget "powerState" node in
  let? on := powered_on power in
  let s := if on then Counters (total s) (ready s) (pending s) (poweredOn s + 1) (poweredOff s) (healthy s) (warning s) (critical s)
           else if negb (is_none power)
           then Counters (total s) (ready s) (pending s) (poweredOn s) (poweredOff s + 1) (healthy s) (warning s) (critical s)
           else s in
  let health := dget "health" node in
  Ok (if eq_str health "OK"
      then Counters (total s) (ready s) (pending s) (poweredOn s) (poweredOff s) (healthy s + 1) (warning s) (critical s)
      else if eq_str health "Warning"
      then Counters (total s) (ready s) (pending s) (poweredOn s) (poweredOff s) (healthy s) (warning s + 1) (critical s)
      else if eq_str health "Critical"
      then Counters (total s) (ready s) (pending s) (poweredOn s) (poweredOff s) (healthy s) (warning s) (critical s + 1)
      else s).

(** [fleet_summary(nodes)] *)
Definition fleet_summary (nodes : list row) : res counters :=
  res_fold count_node (Counters (Z.of_nat (length nodes)) 0 0 0 0 0 0 0) nodes.

Definition summary_dict (s : counters) : pydict :=
  [("total", PInt (total s)); ("ready", PInt (ready s)); ("pending", PInt (pending s)); ("poweredOn", PInt (poweredOn s));
   ("poweredOff", PInt (poweredOff s)); ("healthy", PInt (healthy s)); ("warning", PInt (warning s));
   ("critical", PInt (critical s))].

(** [by_component.setdefault(cid, set()).add(ver)] *)
Definition add_version (by_component : list (string * list string)) (cid ver : string) : list (string * list string) :=
  let vers := dict_get_or cid [] by_component in
  dict_set cid (if decide (ver ∈ vers) then vers else vers ++ [ver]) by_component.

Definition add_component (by_component : list (string * list string)) (comp : pyval) : list (string * list string) :=
  match comp with
  | PDict c => if is_none (dget "id" c) || is_none (dget "version" c) then by_component
               else add_version by_component (py_str (dget "id" c)) (py_str (dget "version" c))
  | _ => by_component
  end.

(** [node.get("nicFirmware") or []], iterated *)
Definition firmware_of (node : row) : res (list pyval) := MockRules.py_iter (py_or (dget "nicFirmware" node) (PList [])).

(** The versions of each component over the fleet *)
Definition versions_by_component (nodes : list row) : res (list (string * list string)) :=
  res_fold (fun acc node => let? comps := firmware_of node in Ok (fold_left add_component comps acc)) [] nodes.

(** [fleet_firmware_drift(nodes)] *)
Definition fleet_firmware_drift (nodes : list row) : res (list (string * list string)) :=
  let? by_component := versions_by_component nodes in
  Ok (map (fun cv => (cv.1, sort_strs cv.2)) (List.filter (fun cv => (1 <? length cv.2)%nat) by_component)).

(** [render_fleet_json(nodes)] *)
Definition render_fleet_json (nodes : list row) : res pyval :=
  let? summary := fleet_summary nodes in
  let? drift := fleet_firmware_drift nodes in
  Ok (PDict [("summary", PDict (dict_set "firmwareDriftComponents"
                                  (PDict (map (fun cv => (cv.1, PList (map PStr cv.2))) drift)) (summary_dict summary)));
             ("nodes", PList (map PDict nodes))]).

(** [find_node(nodes, name)] *)
Definition find_node (nodes : list row) (name : string) : option row := List.find (fun n => eq_str (dget "name" n) name) nodes.

(** ** Metrics *)

Definition return_char : ascii := ascii_of_nat 13.

(** [_escape_label(value)] of a text *)
Definition escape_label (value : string) : string :=
  Prometheus.replace_char return_char (String Prometheus.backslash "r")
    (Prometheus.replace_char Prometheus.newline_char (String Prometheus.backslash "n")
      (Prometheus.replace_char dquote (String Prometheus.backslash (String dquote ""))
        (Prometheus.replace_char Prometheus.backslash (String Prometheus.backslash (String Prometheus.backslash "")) value))).

Definition label (kv : string * string) : string := kv.1 +:+ "=" +:+ String dquote (escape_label kv.2 +:+ String dquote "").

(** [_metric_line(name, labels, value)], with the value as it is printed *)
Definition metric_line (name : string) (labels : list (string * string)) (value : string) : string :=
  name +:+ "{" +:+ PyStr.join "," (map label labels) +:+ "}" +:+ " " +:+ value.

(** The families and their help texts, each announced with [HELP] and [TYPE]. *)
Definition families : list (string * string) :=
  [("redfish_endpoint_info", "Static endpoint metadata (value always 1).");
   ("redfish_endpoint_power_on", "1 when the BMC reports a powered-on state.");
   ("redfish_endpoint_health", "Health rank: 0 OK, 1 Warning, 2 Critical, -1 unknown.");
   ("redfish_endpoint_temperature_max_celsius", "Hottest reported sensor in Celsius.");
   ("redfish_endpoint_temperature_sensor_count", "Number of temperature sensors read.");
   ("redfish_endpoint_last_polled_timestamp_seconds", "Unix time of the last controller poll.");
   ("redfish_nic_firmware_info", "One NIC/DPU firmware component (value always 1).");
   ("redfish_node_nic_count", "Number of NIC/DPU adapters on the node.");
   ("redfish_node_nic_firmware_distinct_versions",
    "Distinct firmware versions on the node (a NIC + its DPU differ normally; this is not drift).");
   ("redfish_fleet_nic_firmware_drift_components",
    "Firmware components whose version differs ACROSS nodes (real fleet drift; 0 is healthy).")].

Definition family_lines (f : string * string) : list string :=
  ["# HELP " +:+ f.1 +:+ " " +:+ f.2; "# TYPE " +:+ f.1 +:+ " gauge"].

(** One line of the text: name, labels and printed value. *)
Abbreviation point := (string * list (string * string) * string)%type.

(** [len(v)] *)
Definition py_len (v : pyval) : res Z :=
  match v with
  | PList l | PTuple l => Ok (Z.of_nat (length l))
  | PDict d => Ok (Z.of_nat (length d))
  | PStr s => Ok (Z.of_nat (String.length s))
  | _ => Raise (TypeError ("object of type '" +:+ type_name v +:+ "' has no len()"))
  end.

Definition is_int (v : pyval) : bool := match v with PInt _ | PBool _ => true | _ => false end.

(** [_HEALTH_RANK.get(str(v), -1)] *)
Definition health_rank (v : pyval) : Z :=
  let s := py_str v in
  if decide (s = "OK") then 0 else if decide (s = "Warning") then 1 else if decide (s = "Critical") then 2 else -1.

Definition firmware_point (name : string) (comp : pyval) : list point :=
  match comp with
  | PDict c => [("redfish_nic_firmware_info",
                 [("node", name); ("nic_id", py_str (py_or (dget "id" c) (PStr "")));
                  ("device_class", py_str (py_or (dget "deviceClass" c) (PStr "")));
                  ("version", py_str (py_or (dget "version" c) (PStr "unknown")))], "1")]
  | _ => []
  end.

(** The body of the loop of [render_metrics] *)
Definition node_points (node : row) : res (list point) :=
  let name := py_str (py_or (dget "name" node) (PStr "")) in
  let at_node := [("node", name)] in
  let power := dget "powerState" node in
  let? on := powered_on power in
  let temp_max := dget "temperatureMaxCelsius" node in
  let count := dget "temperatureCount" node in
  let? polled := epoch_from_rfc3339 (dget "lastPolled" node) in
  let? polled := match polled with Some t => let? z := float_to_int (t, -6) in Ok (Some z) | None => Ok None end in
  let nic_count := dget "nicAdapterCount" node in
  let? versions := py_len (py_or (dget "nicFirmwareVersions" node) (PList [])) in
  let? comps := firmware_of node in
  Ok ([("redfish_endpoint_info",
        [("node", name); ("address", py_str (py_or (dget "address" node) (PStr "")));
         ("backend", py_str (py_or (dget "backend" node) (PStr "")));
         ("power_state", py_str (py_or power (PStr "unknown")));
         ("health", py_str (py_or (dget "health" node) (PStr "unknown")));
         ("state", py_str (py_or (dget "state" node) (PStr "")))], "1");
       ("redfish_endpoint_power_on", at_node, if on then "1" else "0");
       ("redfish_endpoint_health", at_node, pretty (health_rank (dget "health" node)))] ++
      (if is_none temp_max then [] else [("redfish_endpoint_temperature_max_celsius", at_node, py_str temp_max)]) ++
      (if is_int count then [("redfish_endpoint_temperature_sensor_count", at_node, py_str count)] else []) ++
      match polled with
      | Some z => [("redfish_endpoint_last_polled_timestamp_seconds", at_node, pretty z)]
      | None => []
      end ++
      (if is_int nic_count then [("redfish_node_nic_count", at_node, py_str nic_count)] else []) ++
      [("redfish_node_nic_firmware_distinct_versions", at_node, pretty versions)] ++
      flat_map (firmware_point name) comps).

Definition fleet_points (nodes : list row) : res (list point) :=
  let? drift := fleet_firmware_drift nodes in
  let? per_node := res_map node_points nodes in
  Ok (("redfish_fleet_nic_firmware_drift_components", [], pretty (Z.of_nat (length drift))) :: concat per_node).

Definition point_text (p : point) : string := let '(name, ls, value) := p in metric_line name ls value.

(** [render_metrics(nodes)] *)
Definition render_metrics (nodes : list row) : res string :=
  let? points := fleet_points nodes in
  Ok (PyStr.join Prometheus.newline (flat_map family_lines families ++ map point_text points) +:+ Prometheus.newline).

(** ** Examples *)

Example fixed_points : map fixed1 [(25, -2); (35, -2); (415, -1); (-4, -2); (0, 0); (9995, -2); (75, -2)] =
  ["0.2"; "0.3"; "41.5"; "-0.0"; "0.0"; "100.0"; "0.8"].
Proof. vm_compute. reflexivity. Qed.

Example large_count : as_int (PInt 9007199254740993) = Ok (PInt 9007199254740992).
Proof. vm_compute. reflexivity. Qed.

Example pending_row : normalize_endpoint (PDict [("metadata", PDict [("name", PStr "n1")]); ("spec", PDict [("address", PStr "http://mock-bmc")])])
  = Ok [("name", PStr "n1"); ("namespace", PStr ""); ("address", PStr "http://mock-bmc"); ("port", PNone); ("insecure", PBool true);
        ("backend", PStr "mock"); ("state", PStr "Pending"); ("powerState", PNone); ("health", PNone); ("temperatureCount", PNone);
        ("temperatureMaxCelsius", PNone); ("nicAdapterCount", PNone); ("nicCount", PNone); ("dpuCount", PNone);
        ("nicFirmwareCount", PNone); ("nicFirmwareUpdateableCount", PNone); ("nicFirmwareVersions", PList []);
        ("nicFirmware", PList []); ("lastPolled", PNone)].
Proof. vm_compute. reflexivity. Qed.

(** ** The metrics are read back *)

Definition escaped_char (c : ascii) : string :=
  if decide (c = return_char) then String Prometheus.backslash "r" else Prometheus.escaped c.

Lemma escape_label_cons c s : escape_label (String c s) = escaped_char c +:+ escape_label s.
Proof.
  unfold escape_label. cbn [Prometheus.replace_char]. rewrite !Prometheus.replace_char_app. f_equal.
  unfold escaped_char, Prometheus.escaped.
  repeat case_decide; subst; try done; repeat first [progress (cbn [Prometheus.replace_char]) | rewrite decide_True by done
    | rewrite decide_False by done | rewrite append_empty_r]; done.
Qed.

(** Without a carriage return the two writers escape alike. *)
Lemma escape_label_agrees s : Prometheus.occurs return_char s = false -> escape_label s = Prometheus.escape_label_value s.
Proof.
  induction s as [|c s IH]; [done|]. rewrite Prometheus.occurs_cons, escape_label_cons, Prometheus.escape_cons.
  intros [Hc%bool_decide_eq_false Hs]%orb_false_iff. unfold escaped_char. rewrite decide_False by done. by rewrite IH.
Qed.

Definition no_return (p : point) : Prop := Forall (fun kv => Prometheus.occurs return_char kv.2 = false) p.1.2.

Lemma labels_agree ls : Forall (fun kv => Prometheus.occurs return_char kv.2 = false) ls ->
  PyStr.join "," (map label ls) = Prometheus.label_text ls.
Proof.
  intros H. unfold Prometheus.label_text. f_equal. induction H as [|kv ls Hkv _ IH]; [done|]. cbn [map]. rewrite IH. f_equal.
  unfold label, Prometheus.quoted. by rewrite escape_label_agrees.
Qed.

(** What the format can hold, the label values apart. *)
Definition plain_point (p : point) : Prop :=
  p.1.1 ∈ map fst families /\ Forall (fun kv => Prometheus.plain_key kv.1) p.1.2 /\ Prometheus.occurs Prometheus.newline_char p.2 = false.

Definition point_entry (p : point) : Prometheus.entry := Prometheus.Point p.1.1 p.1.2 p.2.

Definition family_entries : list Prometheus.entry :=
  flat_map (fun f => [Prometheus.Help f.1 f.2; Prometheus.Type_ f.1 "gauge"]) families.

Lemma family_plain n : n ∈ map fst families -> Prometheus.plain_name n.
Proof.
  intros Hn. assert (Forall Prometheus.plain_name (map fst families)) as H; [|by apply (Forall_forall _ _) with n in H].
  repeat (constructor; [by vm_compute|]). constructor.
Qed.

Lemma point_stands p : plain_point p -> no_return p -> Prometheus.stands (point_text p) (point_entry p).
Proof.
  destruct p as [[n ls] v]. intros (Hn & Hk & Hv) Hr. apply family_plain in Hn. cbn [fst snd] in *.
  unfold point_text, metric_line, point_entry. cbn [fst snd]. rewrite labels_agree by done. destruct Hn as (Hb & Hs & Hl & Hh). split_and!.
  - unfold Prometheus.read_line. rewrite append_cons, append_empty_l. rewrite !Prometheus.not_comment, Prometheus.cut_app by done.
    rewrite append_cons, append_cons, append_empty_l, Prometheus.read_label_text by done. done.
  - by rewrite !Prometheus.occurs_append, Hl, Prometheus.label_text_no_newline, Hv.
  - by destruct n.
Qed.

Lemma families_stand : Forall2 Prometheus.stands (flat_map family_lines families) family_entries.
Proof. repeat (constructor; [by vm_compute|]). constructor. Qed.

Lemma families_announced ps : Forall plain_point ps -> Prometheus.announced [] (family_entries ++ map point_entry ps).
Proof.
  intros Hp. assert (Prometheus.announced (reverse (map fst families)) (map point_entry ps)) as Ha.
  { induction Hp as [|p ps (Hn & _) _ IH]; [done|]. split; [|done]. by apply elem_of_reverse. }
  unfold family_entries. cbn [flat_map families app map fst snd Prometheus.announced]. repeat (split; [by apply (bool_decide_unpack _); vm_compute|]). exact Ha.
Qed.

(** *** The values that are printed *)

Definition int_or_none (v : pyval) : Prop := v = PNone \/ exists z, v = PInt z.

Lemma as_int_result v w : as_int v = Ok w -> int_or_none w.
Proof. unfold as_int, int_or_none. intros ([d|] & _ & H)%res_bind_ok; [|simplify_eq; auto]. apply res_bind_ok in H as (z & _ & [= <-]). eauto. Qed.

(** The fields of a row that the code computes. *)
Record normal_row (n : row) : Prop := {
  normal_name : exists s, dget "name" n = PStr s;
  normal_address : exists s, dget "address" n = PStr s;
  normal_backend : dget "backend" n = PStr "mock" \/ dget "backend" n = PStr "live";
  normal_state : dget "state" n = PStr "Ready" \/ dget "state" n = PStr "Pending";
  normal_temp : exists d, dget "temperatureMaxCelsius" n = number_value d;
  normal_count : int_or_none (dget "temperatureCount" n);
  normal_adapters : int_or_none (dget "nicAdapterCount" n);
  normal_versions : exists vs, dget "nicFirmwareVersions" n = PList (map PStr vs);
  normal_firmware : exists cs, dget "nicFirmware" n = PList (map PDict cs)
}.

Lemma components_are_dicts l : exists cs, flat_map nic_component l = map PDict cs.
Proof.
  induction l as [|v l [cs IH]]; [by exists []|]. cbn [flat_map]. rewrite IH. destruct v; try (by exists cs). by eexists (_ :: cs).
Qed.

Lemma backend_value a b : infer_backend a = Ok b -> b = "mock" \/ b = "live".
Proof. unfold infer_backend. intros (p & _ & [= <-])%res_bind_ok. case_match; auto. Qed.

Lemma normalize_normal obj n : normalize_endpoint obj = Ok n -> normal_row n.
Proof.
  unfold normalize_endpoint. intros H.
  repeat match type of H with res_bind _ _ = Ok _ => apply res_bind_ok in H as (? & ? & H); cbv beta zeta in H end.
  injection H as <-. repeat match goal with H : as_int _ = Ok _ |- _ => apply as_int_result in H
    | H : infer_backend _ = Ok _ |- _ => apply backend_value in H end.
  split; cbn [dget dict_get_or dict_get default]; unfold dget, dict_get_or; simpl; eauto.
  - naive_solver.
  - case_match; auto.
  - eexists (map py_str _). by rewrite map_map.
  - match goal with |- exists cs, PList (flat_map nic_component ?l) = _ => destruct (components_are_dicts l) as [cs ->] end. eauto.
Qed.

Lemma printed_int v : int_or_none v -> is_int v = true -> Prometheus.occurs Prometheus.newline_char (py_str v) = false.
Proof. intros [->|[z ->]]; [done|]. intros _. apply Prometheus.pretty_Z_no_newline. Qed.

Lemma printed_number d : Prometheus.occurs Prometheus.newline_char (py_str (number_value d)) = false.
Proof.
  destruct d as [d|]; [|done]. pose proof (Prometheus.float_no_newline d) as H. simpl.
  unfold float_val in *. repeat case_match; exact H.
Qed.

Lemma res_map_ok {A B} (f : A -> res B) l ys : res_map f l = Ok ys <-> Forall2 (fun x y => f x = Ok y) l ys.
Proof.
  split.
  - revert ys. induction l as [|x l IH]; intros ys; cbn [res_map]; [intros; simplify_eq; constructor|].
    intros (y & Hy & (ys' & Hys & [= <-])%res_bind_ok)%res_bind_ok. constructor; auto.
  - induction 1 as [|x y l ys Hy _ IH]; [done|]. cbn [res_map]. by rewrite Hy, IH.
Qed.

Lemma firmware_points_plain name comps : Forall plain_point (flat_map (firmware_point name) comps).
Proof.
  apply Forall_flat_map, Forall_true. intros v. destruct v; try constructor; [|constructor].
  split; [by apply (bool_decide_unpack _); vm_compute|]. split; [by repeat constructor|done].
Qed.

Lemma node_points_plain n ps : normal_row n -> node_points n = Ok ps -> Forall plain_point ps.
Proof.
  intros Hn. unfold node_points. intros H.
  repeat match type of H with res_bind _ _ = Ok _ => apply res_bind_ok in H as (? & ? & H); cbv beta zeta in H end.
  injection H as <-. destruct Hn as [_ _ _ _ [d Ht] Hc Ha _ _].
  assert (forall name ls v, name ∈ map fst families -> forallb (fun kv => bool_decide (Prometheus.plain_key kv.1)) ls = true ->
    Prometheus.occurs Prometheus.newline_char v = false -> plain_point (name, ls, v)) as Hp.
  { intros name ls v Hname Hls Hv. split; [done|]. split; [|done]. apply Forall_forall. intros kv Hkv.
    apply forallb_forall with (x := kv) in Hls; [|by apply list_elem_of_In]. by apply bool_decide_eq_true in Hls. }
  assert (forall name value, name ∈ map fst families -> Prometheus.occurs Prometheus.newline_char value = false ->
    forall node, Forall plain_point [(name, [("node", node)], value)]) as Hone by (intros; constructor; [by apply Hp|constructor]).
  assert (forall name ls v l, plain_point (name, ls, v) -> Forall plain_point l -> Forall plain_point ((name, ls, v) :: l)) as Hcons
    by (intros; by constructor).
  do 3 (apply Hcons; [apply Hp; [by apply (bool_decide_unpack _); vm_compute|by vm_compute
                                |first [done|apply Prometheus.pretty_Z_no_newline
                                        |match goal with |- context [if ?b then _ else _] => by destruct b end]]|]).
  rewrite !Forall_app. split_and!.
  - destruct (is_none _); [constructor|]. apply Hone; [by apply (bool_decide_unpack _); vm_compute|]. rewrite Ht. apply printed_number.
  - destruct (is_int _) eqn:Hi; [|constructor]. apply Hone; [by apply (bool_decide_unpack _); vm_compute|]. by apply printed_int.
  - match goal with |- context [match ?o with Some _ => _ | None => _ end] => destruct o end; [|constructor]. apply Hone; [by apply (bool_decide_unpack _); vm_compute|]. apply Prometheus.pretty_Z_no_newline.
  - destruct (is_int _) eqn:Hi; [|constructor]. apply Hone; [by apply (bool_decide_unpack _); vm_compute|]. by apply printed_int.
  - apply Hcons; [|apply firmware_points_plain].
    apply Hp; [by apply (bool_decide_unpack _); vm_compute|by vm_compute|apply Prometheus.pretty_Z_no_newline].
Qed.

Lemma fleet_points_plain nodes ps : Forall normal_row nodes -> fleet_points nodes = Ok ps -> Forall plain_point ps.
Proof.
  intros Hn. unfold fleet_points. intros (drift & _ & (pss & Hpss%res_map_ok & [= <-])%res_bind_ok)%res_bind_ok. constructor.
  - split; [by apply (bool_decide_unpack _); vm_compute|]. split; [constructor|apply Prometheus.pretty_Z_no_newline].
  - apply Forall_concat. induction Hpss as [|n ps nodes pss Hps _ IH]; [constructor|]. apply Forall_cons in Hn as [? ?].
    constructor; [by eapply node_points_plain|auto].
Qed.

Lemma all_normal objs nodes : res_map normalize_endpoint objs = Ok nodes -> Forall normal_row nodes.
Proof. intros H%res_map_ok. induction H as [|o n objs nodes H%normalize_normal _ IH]; by constructor. Qed.

(** C31. The metrics of normalized rows can be read: a reader of the exposition format gets the
    families, each announced before its points, and then exactly the points of the fleet in
    order, whatever quotes, backslashes and newlines the names, addresses and versions
    hold, as long as no label holds a carriage return. *)
Theorem metrics_readable objs nodes ps :
  res_map normalize_endpoint objs = Ok nodes -> fleet_points nodes = Ok ps -> Forall no_return ps ->
  exists text, render_metrics nodes = Ok text /\ Prometheus.read_text text = Some (family_entries ++ map point_entry ps) /\
    Prometheus.announced [] (family_entries ++ map point_entry ps).
Proof.
  intros Hn%all_normal Hp Hr. unfold render_metrics. rewrite Hp. eexists. split; [reflexivity|].
  pose proof (fleet_points_plain _ _ Hn Hp) as Hplain. split; [|by apply families_announced].
  apply Prometheus.read_text_lines, Forall2_app; [apply families_stand|]. clear Hp Hn.
  induction Hplain as [|p ps Hpp _ IH]; [constructor|]. apply Forall_cons in Hr as [? ?]. constructor; [by apply point_stands|auto].
Qed.

Definition endpoint (name address power version : string) : pyval :=
  PDict [("metadata", PDict [("name", PStr name); ("namespace", PStr "lab")]); ("spec", PDict [("address", PStr address)]);
         ("status", PDict [("powerState", PStr power); ("health", PStr "OK"); ("lastPolled", PStr "2024-02-29T12:34:56Z");
           ("temperature", PDict [("count", PInt 4); ("maxCelsius", PFloat 415 (-1))]);
           ("networkFirmware", PDict [("adapterCount", PInt 1); ("distinctVersions", PList [PStr version]);
              ("components", PList [PDict [("id", PStr "CX8_0"); ("version", PStr version)]])])])].

Definition text_or (r : res string) : string := match r with Ok t => t | _ => "" end.

Definition quoted_fleet : list pyval :=
  [endpoint (String dquote "n1") "https://10.0.0.1" "On" "40.1"; endpoint ("a" +:+ Prometheus.newline +:+ "b") "mock-bmc" "Off" "40.2"].

Lemma metrics_readable_witness :
  exists nodes ps text, res_map normalize_endpoint quoted_fleet = Ok nodes /\ fleet_points nodes = Ok ps /\ length ps = 19%nat /\
    render_metrics nodes = Ok text /\ Prometheus.read_text text = Some (family_entries ++ map point_entry ps).
Proof.
  destruct (res_map normalize_endpoint quoted_fleet) as [nodes|e|] eqn:Hn.
  2,3: exfalso; vm_compute in Hn; discriminate Hn.
  destruct (fleet_points nodes) as [ps|e|] eqn:Hp.
  2,3: exfalso; vm_compute in Hn; injection Hn as <-; vm_compute in Hp; discriminate Hp.
  assert (length ps = 19%nat /\ forallb (fun p => forallb (fun kv => negb (Prometheus.occurs return_char kv.2)) p.1.2) ps = true) as [Hlen Hr].
  { vm_compute in Hn. injection Hn as <-. vm_compute in Hp. injection Hp as <-. vm_compute. done. }
  destruct (metrics_readable quoted_fleet nodes ps Hn Hp) as (text & Ht & Hread & _).
  { apply Forall_forall. intros p Hin. apply Forall_forall. intros kv Hkv. rewrite forallb_forall in Hr.
    apply list_elem_of_In in Hin. apply Hr in Hin. rewrite forallb_forall in Hin. apply list_elem_of_In in Hkv.
    apply Hin in Hkv. by apply negb_true_iff in Hkv. }
  exists nodes, ps, text. exact (conj eq_refl (conj Hp (conj Hlen (conj Ht Hread)))).
Defined.

(** A carriage return in a name makes the whole text unreadable: [\r] is not an escape of
    the format. *)
Theorem return_breaks_scrape :
  exists nodes text, res_map normalize_endpoint [endpoint ("n" +:+ String return_char "1") "mock-bmc" "On" "1"] = Ok nodes /\
    render_metrics nodes = Ok text /\ Prometheus.read_text text = None.
Proof.
  eexists _, _. split; [vm_compute; reflexivity|]. split; [vm_compute; reflexivity|]. vm_compute. reflexivity.
Qed.

(** ** The listing *)

Lemma ltb_asym a b : String.ltb a b = true -> String.ltb b a = false.
Proof. unfold String.ltb. rewrite (String.compare_antisym b a). by destruct (String.compare a b). Qed.

Definition by_name (m n : row) : Prop := String.ltb (row_name n) (row_name m) = false.

Lemma insert_row_perm n l : Permutation (insert_row n l) (n :: l).
Proof. induction l as [|m l IH]; [done|]. cbn [insert_row]. case_match; [|done]. rewrite IH. constructor. Qed.

Lemma insert_row_sorted n l : Sorted by_name l -> Sorted by_name (insert_row n l).
Proof.
  induction 1 as [|m l Hl IH Hm]; [repeat constructor|]. cbn [insert_row]. destruct (String.ltb _ _) eqn:Hlt; [|by repeat constructor].
  constructor; [done|]. destruct l as [|m' l]; cbn [insert_row]; [constructor; unfold by_name; by apply ltb_asym|].
  case_match; [by inversion Hm; constructor|constructor; unfold by_name; by apply ltb_asym].
Qed.

Lemma insert_row_stable x n l :
  List.filter (fun r => bool_decide (row_name r = x)) (insert_row n l) = List.filter (fun r => bool_decide (row_name r = x)) (n :: l).
Proof.
  induction l as [|m l IH]; [done|]. cbn [insert_row]. destruct (String.ltb _ _) eqn:Hlt; [|done].
  change (List.filter ?p (m :: ?r)) with (if p m then m :: List.filter p r else List.filter p r) at 1. rewrite IH. cbn [List.filter].
  destruct (bool_decide (row_name m = x)) eqn:Hm, (bool_decide (row_name n = x)) eqn:Hn; try done.
  apply bool_decide_eq_true in Hm, Hn. rewrite Hm, Hn in Hlt. unfold String.ltb in Hlt.
  pose proof (String.compare_antisym x x). by destruct (String.compare x x).
Qed.

Lemma sort_rows_spec l : Permutation (sort_rows l) l /\ Sorted by_name (sort_rows l) /\
  forall x, List.filter (fun r => bool_decide (row_name r = x)) (sort_rows l) = List.filter (fun r => bool_decide (row_name r = x)) l.
Proof.
  induction l as [|n l (IH1 & IH2 & IH3)]; [by repeat constructor|]. cbn [sort_rows foldr]. fold (sort_rows l). split_and!.
  - by rewrite insert_row_perm, IH1.
  - by apply insert_row_sorted.
  - intros x. rewrite insert_row_stable. cbn [List.filter]. by rewrite IH3.
Qed.

(** What a namespace lists: one request, of the RedfishEndpoint resources of that
    namespace; every item becomes a row, sorted by name with equal names in their order;
    and one item that cannot be normalized fails the whole listing. *)
Theorem listing_rows incluster kube answer namespace d items :
  (let? _ := match incluster with Raise e => if is_Exception e then kube else Raise e | r => r end in Ok tt) = Ok tt ->
  answer ("redfish.ctl.dev", "v1alpha1", namespace, "redfishendpoints") = Ok (PDict d) -> dict_get "items" d = Some (PList items) ->
  (forall rows, load_endpoints incluster kube answer namespace = Ok rows <->
     exists nodes, Forall2 (fun i n => normalize_endpoint i = Ok n) items nodes /\ rows = sort_rows nodes /\
       Permutation rows nodes /\ Sorted by_name rows /\
       forall x, List.filter (fun r => bool_decide (row_name r = x)) rows = List.filter (fun r => bool_decide (row_name r = x)) nodes) /\
  (forall i e, i ∈ items -> normalize_endpoint i = Raise e -> forall rows, load_endpoints incluster kube answer namespace <> Ok rows).
Proof.
  intros Hc Ha Hd. assert (load_endpoints incluster kube answer namespace =
    let? nodes := res_map normalize_endpoint items in Ok (sort_rows nodes)) as Hl.
  { unfold load_endpoints. destruct (match incluster with Raise e => _ | r => r end) as [[]|e|]; [|discriminate Hc..].
    unfold list_request, dict_get_or. cbn [res_bind]. rewrite Ha. cbn [res_bind]. by rewrite Hd. }
  rewrite Hl. split.
  - intros rows. split.
    + intros (nodes & Hn%res_map_ok & [= <-])%res_bind_ok. exists nodes. destruct (sort_rows_spec nodes) as (? & ? & ?). done.
    + intros (nodes & Hn%res_map_ok & -> & _). by rewrite Hn.
  - intros i e Hi He rows (nodes & Hn%res_map_ok & _)%res_bind_ok. apply list_elem_of_lookup in Hi as [k Hk].
    destruct (Forall2_lookup_l _ _ _ _ _ Hn Hk) as (n & _ & Hok). congruence.
Qed.

Definition two_nodes : pydict := [("items", PList [endpoint "n2" "mock-bmc" "On" "1"; endpoint "n1" "mock-bmc" "On" "1"])].

Lemma listing_rows_witness :
  exists rows, load_endpoints (Raise (OtherError "ConfigException" "not in a cluster")) (Ok tt) (fun _ => Ok (PDict two_nodes)) "lab" = Ok rows /\
    map row_name rows = ["n1"; "n2"].
Proof.
  pose proof (proj1 (listing_rows (Raise (OtherError "ConfigException" "not in a cluster")) (Ok tt) (fun _ => Ok (PDict two_nodes)) "lab"
    two_nodes _ eq_refl eq_refl eq_refl)) as H.
  eexists. split; [apply H|].
  - eexists. split; [repeat (constructor; [vm_compute; reflexivity|]); constructor|]. split; [reflexivity|]. apply sort_rows_spec.
  - vm_compute. reflexivity.
Defined.

(** An address with an unbalanced bracket is one such item. *)
Theorem bad_address_fails_listing :
  load_endpoints (Ok tt) (Ok tt)
    (fun _ => Ok (PDict [("items", PList [endpoint "n1" "mock-bmc" "On" "1"; endpoint "n2" "http://[fe80::1" "On" "1"])])) "lab" =
  Raise (ValueError "Invalid IPv6 URL").
Proof. vm_compute. reflexivity. Qed.

(** ** Counters *)

Definition count (f : row -> bool) (nodes : list row) : Z := Z.of_nat (length (List.filter f nodes)).

Lemma count_cons f n nodes : count f (n :: nodes) = (if f n then 1 else 0) + count f nodes.
Proof. unfold count. cbn [List.filter]. destruct (f n); cbn [length]; lia. Qed.

Definition is_ready (n : row) : bool := eq_str (dget "state" n) "Ready".
Definition is_on (n : row) : bool := eq_str (dget "powerState" n) "On" || eq_str (dget "powerState" n) "PoweringOn".
Definition is_off (n : row) : bool := negb (is_on n) && negb (is_none (dget "powerState" n)).
Definition has_health (h : string) (n : row) : bool := eq_str (dget "health" n) h.

Lemma eq_str_ne v a b : a <> b -> eq_str v a = true -> eq_str v b = false.
Proof. intros Hne ->%eq_str_true. destruct (eq_str (PStr a) b) eqn:H; [|done]. apply eq_str_true in H. congruence. Qed.

Lemma healths_disjoint n :
  (has_health "OK" n = true -> has_health "Warning" n = false /\ has_health "Critical" n = false) /\
  (has_health "Warning" n = true -> has_health "Critical" n = false).
Proof. unfold has_health. split; [intros H; split; by apply (eq_str_ne _ "OK")|by apply (eq_str_ne _ "Warning")]. Qed.

Lemma powered_on_value v on : powered_on v = Ok on -> on = eq_str v "On" || eq_str v "PoweringOn".
Proof. by destruct v; cbn; intros; simplify_eq. Qed.

Definition one (b : bool) : Z := if b then 1 else 0.

Lemma count_node_adds a n a' : count_node a n = Ok a' ->
  a' = Counters (total a) (ready a + one (is_ready n)) (pending a + one (negb (is_ready n))) (poweredOn a + one (is_on n))
         (poweredOff a + one (is_off n)) (healthy a + one (has_health "OK" n)) (warning a + one (has_health "Warning" n))
         (critical a + one (has_health "Critical" n)).
Proof.
  unfold count_node. intros (on & ->%powered_on_value & [= <-])%res_bind_ok. destruct (healths_disjoint n) as [H1 H2].
  unfold is_off. fold (is_ready n) (is_on n) (has_health "OK" n) (has_health "Warning" n) (has_health "Critical" n). revert H1 H2.
  generalize (is_ready n), (is_on n), (is_none (dget "powerState" n)), (has_health "OK" n), (has_health "Warning" n), (has_health "Critical" n).
  intros r p o h w c H1 H2. destruct a, h; [destruct (H1 eq_refl) as [-> ->]|destruct w; [rewrite (H2 eq_refl)|destruct c]];
    destruct r, p, o; cbn; by rewrite ?Z.add_0_r.
Qed.

Lemma count_nodes nodes a s : res_fold count_node a nodes = Ok s ->
  s = Counters (total a) (ready a + count is_ready nodes) (pending a + count (fun n => negb (is_ready n)) nodes)
        (poweredOn a + count is_on nodes) (poweredOff a + count is_off nodes) (healthy a + count (has_health "OK") nodes)
        (warning a + count (has_health "Warning") nodes) (critical a + count (has_health "Critical") nodes).
Proof.
  revert a. induction nodes as [|n nodes IH]; intros a; cbn [res_fold].
  - intros [= <-]. destruct a. cbn. by rewrite !Z.add_0_r.
  - intros (a' & ->%count_node_adds & ->%IH)%res_bind_ok. rewrite !count_cons. cbn. unfold one. f_equal; lia.
Qed.

(** The summary counts: every counter is the number of its rows; ready and pending
    partition the fleet, powered on, off and unknown do too, and the healths are disjoint. *)
Theorem counters_exact nodes s : fleet_summary nodes = Ok s ->
  s = Counters (Z.of_nat (length nodes)) (count is_ready nodes) (count (fun n => negb (is_ready n)) nodes) (count is_on nodes)
        (count is_off nodes) (count (has_health "OK") nodes) (count (has_health "Warning") nodes) (count (has_health "Critical") nodes) /\
  ready s + pending s = total s /\ poweredOn s + poweredOff s + count (fun n => is_none (dget "powerState" n)) nodes = total s /\
  healthy s + warning s + critical s <= total s.
Proof.
  intros ->%count_nodes. cbn. split; [done|]. induction nodes as [|n nodes (IH1 & IH2 & IH3)]; [done|]. rewrite !count_cons. cbn [length].
  assert (is_none (dget "powerState" n) = true -> is_on n = false) as Hn by (unfold is_on; by destruct (dget "powerState" n)).
  destruct (healths_disjoint n) as [H1 H2].
  unfold is_off at 1. split_and!.
  - destruct (is_ready n); cbn; lia.
  - destruct (is_on n), (is_none (dget "powerState" n)); cbn; try (by discriminate Hn); lia.
  - destruct (has_health "OK" n), (has_health "Warning" n), (has_health "Critical" n); cbn; try (by destruct H1); try (by discriminate H2); lia.
Qed.

Lemma counters_exact_witness :
  exists nodes s, res_map normalize_endpoint quoted_fleet = Ok nodes /\ fleet_summary nodes = Ok s /\ ready s + pending s = total s /\ poweredOff s = 1.
Proof.
  destruct (res_map normalize_endpoint quoted_fleet) as [nodes|e|] eqn:Hn.
  2,3: exfalso; vm_compute in Hn; discriminate Hn.
  destruct (fleet_summary nodes) as [s|e|] eqn:Hs.
  2,3: exfalso; vm_compute in Hn; injection Hn as <-; vm_compute in Hs; discriminate Hs.
  exists nodes, s. destruct (counters_exact nodes s Hs) as (_ & Ht & _). split; [reflexivity|]. split; [exact Hs|]. split; [exact Ht|].
  vm_compute in Hn. injection Hn as <-. vm_compute in Hs. by injection Hs as <-.
Defined.

(** ** Drift *)

(** The component and the version that an entry of [nicFirmware] reports. *)
Definition component_report (comp : pyval) : list (string * string) :=
  match comp with
  | PDict c => if is_none (dget "id" c) || is_none (dget "version" c) then [] else [(py_str (dget "id" c), py_str (dget "version" c))]
  | _ => []
  end.

(** Some node runs version [ver] of component [cid]. *)
Definition reported (nodes : list row) (cid ver : string) : Prop :=
  exists node comps, node ∈ nodes /\ firmware_of node = Ok comps /\ (cid, ver) ∈ flat_map component_report comps.

Definition versions_of (m : list (string * list string)) (cid : string) : list string := dict_get_or cid [] m.

(** The accumulator holds what was seen: distinct keys and versions, none without a version. *)
Record seen_inv (m : list (string * list string)) (seen : string -> string -> Prop) : Prop := {
  seen_keys : NoDup (dict_keys m);
  seen_once : forall cid, NoDup (versions_of m cid);
  seen_exact : forall cid v, v ∈ versions_of m cid <-> seen cid v
}.

Lemma add_version_inv m seen cid ver : seen_inv m seen ->
  seen_inv (add_version m cid ver) (fun c v => seen c v \/ (c = cid /\ v = ver)).
Proof.
  intros [H1 H2 H3]. assert (forall c, versions_of (add_version m cid ver) c =
    if decide (c = cid) then (if decide (ver ∈ versions_of m cid) then versions_of m cid else versions_of m cid ++ [ver]) else versions_of m c) as Hv.
  { intros c. unfold add_version, versions_of, dict_get_or. rewrite dict_get_set. by destruct (decide (c = cid)). }
  split.
  - by apply dict_set_NoDup.
  - intros c. rewrite Hv. repeat case_decide; auto. apply NoDup_app. split; [auto|]. split; [|apply NoDup_singleton].
    intros x Hx ->%list_elem_of_singleton. done.
  - intros c v. rewrite Hv. destruct (decide (c = cid)) as [->|Hc]; [|rewrite H3; naive_solver].
    destruct (decide (ver ∈ versions_of m cid)) as [Hin|Hin]; [|rewrite elem_of_app, list_elem_of_singleton]; rewrite ?H3; rewrite ?H3 in Hin; naive_solver.
Qed.

Lemma add_components_inv comps m seen : seen_inv m seen ->
  seen_inv (fold_left add_component comps m) (fun c v => seen c v \/ (c, v) ∈ flat_map component_report comps).
Proof.
  assert (forall m (P Q : string -> string -> Prop), (forall c v, P c v <-> Q c v) -> seen_inv m P -> seen_inv m Q) as Hext.
  { intros m' P Q HPQ [H1 H2 H3]. split; [done..|]. intros c v. by rewrite H3. }
  revert m seen. induction comps as [|comp comps IH]; intros m seen H; cbn [fold_left flat_map].
  - eapply Hext; [|exact H]. intros c v. rewrite elem_of_nil. naive_solver.
  - assert (seen_inv (add_component m comp) (fun c v => seen c v \/ (c, v) ∈ component_report comp)) as H'.
    { unfold add_component, component_report. destruct comp as [| | | | | | |d|]; try case_match;
        try (eapply Hext; [|exact H]; intros c v; rewrite elem_of_nil; naive_solver).
      eapply Hext; [|apply add_version_inv, H]. intros c v. rewrite list_elem_of_singleton. naive_solver. }
    eapply Hext; [|apply IH, H']. intros c v. rewrite elem_of_app. naive_solver.
Qed.

Lemma versions_seen nodes m : versions_by_component nodes = Ok m -> seen_inv m (reported nodes).
Proof.
  unfold versions_by_component. assert (forall nodes acc m seen, seen_inv acc seen ->
    res_fold (fun acc node => let? comps := firmware_of node in Ok (fold_left add_component comps acc)) acc nodes = Ok m ->
    seen_inv m (fun c v => seen c v \/ reported nodes c v)) as H.
  { clear. intros nodes. induction nodes as [|n nodes IH]; intros acc m seen Hacc; cbn [res_fold].
    - intros [= <-]. destruct Hacc as [H1 H2 H3]. split; [done..|]. intros c v. rewrite H3. split; [auto|].
      intros [|(n & comps & Hn & _)]; [done|]. by apply elem_of_nil in Hn.
    - intros (acc' & (comps & Hc & [= <-])%res_bind_ok & Hm)%res_bind_ok. apply (IH _ _ _ (add_components_inv comps _ _ Hacc)) in Hm.
      destruct Hm as [H1 H2 H3]. split; [done..|]. intros c v. rewrite H3. unfold reported. split.
      + intros [[?|Hin]|(n' & comps' & Hn' & ?)]; [by left|right; exists n, comps; split; [by left|done]|].
        right. exists n', comps'. split; [by right|done].
      + intros [?|(n' & comps' & Hn' & Hc' & Hin)]; [by left; left|]. apply elem_of_cons in Hn' as [->|Hn'];
          [left; right; congruence|right; by exists n', comps']. }
  intros Hm. apply (H nodes [] m (fun _ _ => False)) in Hm as [H1 H2 H3].
  - split; [done..|]. intros c v. rewrite H3. naive_solver.
  - split; [constructor|intros; constructor|]. intros c v. unfold versions_of, dict_get_or. simpl. by rewrite elem_of_nil.
Qed.

Lemma sort_strs_sorted l : Sorted (fun a b => String.ltb b a = false) (sort_strs l).
Proof.
  unfold sort_strs. match goal with |- context [fold_left ?f l []] => set (ins := f) end.
  assert (forall acc x, Sorted (fun a b => String.ltb b a = false) acc -> Sorted (fun a b => String.ltb b a = false) (ins acc x)) as Hins.
  { intros acc x. induction 1 as [|y acc Hacc IH Hy]; [repeat constructor|]. cbn [ins]. cbn. destruct (String.ltb x y) eqn:Hlt.
    - repeat constructor; [done|done|]. by apply ltb_asym.
    - constructor; [exact IH|]. destruct acc as [|z acc]; [by constructor|]. cbn. destruct (String.ltb x z); [by constructor|].
      inversion Hy; by constructor. }
  assert (forall acc, Sorted (fun a b => String.ltb b a = false) acc -> Sorted (fun a b => String.ltb b a = false) (fold_left ins l acc)) as H.
  { induction l as [|x l IH]; intros acc Hacc; [done|]. cbn [fold_left]. auto. }
  apply H. constructor.
Qed.

Lemma at_least_two (l : list string) : NoDup l -> (1 <? length l)%nat = true <-> exists v w, v <> w /\ v ∈ l /\ w ∈ l.
Proof.
  intros Hnd. rewrite Nat.ltb_lt. split.
  - destruct l as [|v [|w l]]; cbn; try lia. intros _. exists v, w. apply NoDup_cons in Hnd as [Hv _]. rewrite elem_of_cons in Hv.
    split; [naive_solver|]. split; [by left|by right; left].
  - intros (v & w & Hne & Hv & Hw). destruct l as [|x [|y l]]; cbn; try lia.
    + by apply elem_of_nil in Hv.
    + apply list_elem_of_singleton in Hv, Hw. congruence.
Qed.

(** Drift is exact: a component is listed, once, exactly when two versions of it are
    reported, and then with every reported version once, in order.  Different versions of
    different components are not drift. *)
Theorem drift_exact nodes drift : fleet_firmware_drift nodes = Ok drift ->
  NoDup (dict_keys drift) /\
  (forall cid, cid ∈ dict_keys drift <-> exists v w, v <> w /\ reported nodes cid v /\ reported nodes cid w) /\
  forall cid vers, (cid, vers) ∈ drift ->
    (forall v, v ∈ vers <-> reported nodes cid v) /\ NoDup vers /\ Sorted (fun a b => String.ltb b a = false) vers.
Proof.
  unfold fleet_firmware_drift. intros (m & [Hk Ho He]%versions_seen & [= <-])%res_bind_ok.
  assert (forall cid vers, (cid, vers) ∈ m -> vers = versions_of m cid) as Hget.
  { intros cid vers Hin%dict_get_NoDup; [|done]. unfold versions_of, dict_get_or. by rewrite Hin. }
  split_and!.
  - unfold dict_keys in *. rewrite map_map. cbn [fst]. clear Ho He Hget. induction m as [|[c vs] m IH]; [constructor|].
    cbn in Hk. apply NoDup_cons in Hk as [Hc Hk]. cbn [List.filter]. case_match; [|auto]. cbn [map]. constructor; [|auto].
    intros ([c' vs'] & Heq & Hin)%list_elem_of_fmap. cbn in Heq. subst c'. apply list_elem_of_In, filter_In in Hin as [Hin _]. apply Hc.
    apply list_elem_of_fmap. exists (c, vs'). split; [done|]. by apply list_elem_of_In.
  - intros cid. setoid_rewrite <- He. rewrite <- at_least_two by auto. unfold dict_keys. split.
    + intros ([c vs] & Heq & ([c' vs'] & [= -> ->] & [Hin Hlen]%list_elem_of_In%filter_In)%list_elem_of_fmap)%list_elem_of_fmap.
      cbn in Heq. subst c'. apply list_elem_of_In, Hget in Hin as ->. done.
    + intros Hlen. apply list_elem_of_fmap. exists (cid, sort_strs (versions_of m cid)). split; [done|].
      apply list_elem_of_fmap. exists (cid, versions_of m cid). split; [done|]. apply list_elem_of_In, filter_In. split; [|done].
      apply list_elem_of_In, dict_get_In. unfold versions_of, dict_get_or in *. destruct (dict_get cid m); done.
  - intros cid vers ([c' vs] & [= -> ->] & [Hin _]%list_elem_of_In%filter_In)%list_elem_of_fmap. apply list_elem_of_In, Hget in Hin as ->.
    cbn [fst snd]. split_and!; [|by rewrite sort_strs_perm|apply sort_strs_sorted]. intros v. by rewrite sort_strs_perm, He.
Qed.

Lemma drift_exact_witness :
  exists nodes drift, res_map normalize_endpoint quoted_fleet = Ok nodes /\ fleet_firmware_drift nodes = Ok drift /\
    drift = [("CX8_0", ["40.1"; "40.2"])] /\ exists v w, v <> w /\ reported nodes "CX8_0" v /\ reported nodes "CX8_0" w.
Proof.
  destruct (res_map normalize_endpoint quoted_fleet) as [nodes|e|] eqn:Hn.
  2,3: exfalso; vm_compute in Hn; discriminate Hn.
  exists nodes, [("CX8_0", ["40.1"; "40.2"])].
  assert (fleet_firmware_drift nodes = Ok [("CX8_0", ["40.1"; "40.2"])]) as Hd by (vm_compute in Hn; injection Hn as <-; reflexivity).
  split; [reflexivity|]. split; [exact Hd|]. split; [reflexivity|].
  apply (drift_exact nodes _ Hd). by left.
Defined.
End FleetStatus.
