(* ===== verification/FleetPage.v ===== *)
(** * The fleet dashboard: the page and the requests

    src/k8s/consumer/fleet_status_app.py, [render_html] and the request handler, over the
    rows of FleetStatus.v.  The page is the text of the source with its values put in; in
    the literals of this file [~] stands for a double quote.  Texts are their UTF-8
    bytes, which the escaping leaves as they are.  [markup] reads the tags of a page the
    way a browser does: a tag begins at [<] and ends at the next [>] that is not inside a
    quoted attribute. *)

From stdpp Require Import base list strings pretty.
From Stdlib Require Import Ascii ZArith Lia.
From S2P Require Import Prelude PyVal Effects Numbers Timestamps Urls Json Telemetry Prometheus MockRules FleetStatus.

Module FleetPage.
Import FleetStatus.
Local Open Scope Z_scope.
Local Open Scope py_scope.

Definition qt (s : string) : string := PyStr.map_chars (fun c => if decide (c = "~"%char) then dquote else c) s.

(** [_esc(value)] of a text *)
Definition esc (s : string) : string :=
  Prometheus.replace_char dquote "&quot;" (Prometheus.replace_char ">" "&gt;"
    (Prometheus.replace_char "<" "&lt;" (Prometheus.replace_char "&" "&amp;" s))).

(** ** Rows *)

(** The classes of a row: what its markup may depend on. *)
Record look := Look {
  lk_backend : string;
  lk_power : string;
  lk_health : string;
  lk_nic : option bool;
  lk_state : string
}.

(** The texts of a row. *)
Record texts := Texts {
  tx_name : string; tx_backend : string; tx_address : string; tx_power : string; tx_health : string; tx_temp : string;
  tx_count : string; tx_versions : list string; tx_cards : string; tx_stamp : string; tx_state : string
}.

(** The string that [_nic_firmware_cell] returns *)
Definition nic_cell (nic : option bool) (versions : list string) (cards : string) : string :=
  match nic with
  | None => qt "<td class=~nicfw~>—</td>"
  | Some drift => qt "<td class=~nicfw~><span class=~fw" +:+ (if drift then " drift" else "") +:+ qt "~>" +:+
                  PyStr.join ", " (map esc versions) +:+ "</span>" +:+ cards +:+ "</td>"
  end.

(** The string appended to [rows] *)
Definition row_html (l : look) (t : texts) : string :=
  "<tr>" +:+
  qt "<td class=~name~>" +:+ esc (tx_name t) +:+ "</td>" +:+
  qt "<td><span class=~badge " +:+ lk_backend l +:+ qt "~>" +:+ esc (tx_backend t) +:+ "</span></td>" +:+
  qt "<td class=~addr~>" +:+ esc (tx_address t) +:+ "</td>" +:+
  qt "<td><span class=~pill " +:+ lk_power l +:+ qt "~>" +:+ esc (tx_power t) +:+ "</span></td>" +:+
  qt "<td><span class=~pill " +:+ lk_health l +:+ qt "~>" +:+ esc (tx_health t) +:+ "</span></td>" +:+
  "<td>" +:+ esc (tx_temp t) +:+ "</td>" +:+
  "<td>" +:+ esc (tx_count t) +:+ "</td>" +:+
  nic_cell (lk_nic l) (tx_versions t) (tx_cards t) +:+
  qt "<td class=~stamp~>" +:+ esc (tx_stamp t) +:+ "</td>" +:+
  qt "<td><span class=~state " +:+ esc (lk_state l) +:+ qt "~>" +:+ esc (tx_state t) +:+ "</span></td>" +:+
  "</tr>".

Definition dash : pyval := PStr "—".

(** [health_cls] *)
Definition health_class (v : pyval) : string :=
  let s := py_str v in
  if decide (s = "OK") then "ok" else if decide (s = "Warning") then "warn" else if decide (s = "Critical") then "crit" else "unknown".

(** [power_cls] *)
Definition power_class (v : pyval) : res string :=
  let? on := powered_on v in
  Ok (if on then "on" else if is_none v then "unknown" else "off").

(** [temp_txt] *)
Definition temp_text (v : pyval) : res string :=
  match v with
  | PInt _ | PBool _ | PFloat _ _ => let? d := Numbers.py_float v in Ok (fixed1 d +:+ " °C")
  | _ => Ok "—"
  end.

(** [_nic_firmware_cell]: whether there is a version to show and the node drifts, the versions and the adapters *)
Definition nic_firmware (node : row) (drift_ids : list string) : res (option bool * list string * string) :=
  let versions := py_or (dget "nicFirmwareVersions" node) (PList []) in
  let adapters := dget "nicAdapterCount" node in
  if negb (truthy versions) then Ok (None, [], "") else
  let? vs := MockRules.py_iter versions in
  let cards := if is_int adapters
               then " · " +:+ py_str adapters +:+ " card" +:+ (if negb (py_eqb adapters (PInt 1)) then "s" else "") else "" in
  let? comps := firmware_of node in
  let node_drifts := existsb (fun c => match c with
                                       | PDict c => bool_decide (py_str (dget "id" c) ∈ drift_ids)
                                       | _ => false
                                       end) comps in
  Ok (Some node_drifts, map py_str vs, cards).

(** The body of the loop of [render_html] *)
Definition render_row (drift_ids : list string) (node : row) : res (look * texts) :=
  let? power_cls := power_class (dget "powerState" node) in
  let? temp_txt := temp_text (dget "temperatureMaxCelsius" node) in
  let count := dget "temperatureCount" node in
  let backend := py_or (dget "backend" node) (PStr "") in
  let? (nic, versions, cards) := nic_firmware node drift_ids in
  Ok (Look (if eq_str backend "live" then "" else "mock") power_cls (health_class (dget "health" node)) nic
        (PyStr.lower (py_str (dget "state" node))),
      Texts (py_str (dget "name" node)) (py_str backend) (py_str (dget "address" node)) (py_str (py_or (dget "powerState" node) dash))
        (py_str (py_or (dget "health" node) dash)) temp_txt (if is_int count then py_str count else "—") versions cards
        (py_str (py_or (dget "lastPolled" node) dash)) (py_str (dget "state" node))).

(** ** The page *)

Definition page_1 : string := qt "<!doctype html>
<html lang=~en~>
<head>
<meta charset=~utf-8~>
<meta name=~viewport~ content=~width=device-width, initial-scale=1~>
<title>Redfish Fleet Status</title>
<style>
  :root { color-scheme: light dark; }
  * { box-sizing: border-box; }
  body { font-family: -apple-system, Segoe UI, Roboto, sans-serif; margin: 0;
    background: #0f1115; color: #e6e6e6; }
  header { padding: 20px 28px; border-bottom: 1px solid #262a33;
    display: flex; align-items: baseline; gap: 16px; flex-wrap: wrap; }
  h1 { font-size: 18px; margin: 0; font-weight: 600; }
  .sub { color: #8b93a7; font-size: 13px; }
  .cards { display: flex; gap: 12px; padding: 18px 28px; flex-wrap: wrap; }
  .card { background: #171a21; border: 1px solid #262a33; border-radius: 10px;
    padding: 12px 16px; min-width: 96px; }
  .card .n { font-size: 24px; font-weight: 700; }
  .card .l { font-size: 11px; text-transform: uppercase; letter-spacing: .06em;
    color: #8b93a7; }
  table { width: calc(100% - 56px); margin: 8px 28px 32px; border-collapse: collapse;
    background: #171a21; border: 1px solid #262a33; border-radius: 10px; overflow: hidden; }
  th, td { text-align: left; padding: 10px 14px; font-size: 13px;
    border-bottom: 1px solid #21252e; }
  th { color: #8b93a7; font-weight: 600; text-transform: uppercase; font-size: 11px;
    letter-spacing: .05em; }
  td.name { font-weight: 600; }
  td.addr, td.stamp { color: #8b93a7; font-family: ui-monospace, monospace; font-size: 12px; }
  .pill { padding: 2px 9px; border-radius: 999px; font-size: 12px; font-weight: 600; }
  .pill.on { background: #12351f; color: #4ade80; }
  .pill.off { background: #3a1f24; color: #f87171; }
  .pill.ok { background: #12351f; color: #4ade80; }
  .pill.warn { background: #3a2f12; color: #fbbf24; }
  .pill.crit { background: #3a1f24; color: #f87171; }
  .pill.unknown { background: #262a33; color: #8b93a7; }
  .badge { padding: 2px 8px; border-radius: 6px; font-size: 11px; font-weight: 600;
    background: #1c2b3a; color: #60a5fa; text-transform: uppercase; }
  .badge.mock { background: #2b2436; color: #c084fc; }
  .state.ready { color: #4ade80; }
  .state.pending { color: #fbbf24; }
  td.nicfw { color: #8b93a7; font-size: 12px; }
  td.nicfw .fw { font-family: ui-monospace, monospace; color: #c9d1d9; }
  td.nicfw .fw.drift { color: #fbbf24; font-weight: 600; }
  .card.alert .n { color: #fbbf24; }
  td.empty { text-align: center; color: #8b93a7; padding: 28px; }
  a { color: #60a5fa; }
</style>
</head>
<body>
<header>
  <h1>Redfish Fleet Status</h1>
  <span class=~sub~>consumer reads <code>RedfishEndpoint.status</code> written by the controller
    &middot; <a href=~/api/nodes~>/api/nodes</a> &middot; <a href=~/metrics~>/metrics</a>
    &middot; updated <span id=~stamp~>".

Definition page_2 : string := qt "</span></span>
</header>
<div class=~cards~>
  <div class=~card~><div class=~n~>".

Definition page_3 : string := qt "</div><div class=~l~>Endpoints</div></div>
  <div class=~card~><div class=~n~>".

Definition page_4 : string := qt "</div><div class=~l~>Powered On</div></div>
  <div class=~card~><div class=~n~>".

Definition page_5 : string := qt "</div><div class=~l~>Healthy</div></div>
  <div class=~card~><div class=~n~>".

Definition page_6 : string := qt "</div><div class=~l~>Degraded</div></div>
  <div class=~card~><div class=~n~>".

Definition page_7 : string := qt "</div><div class=~l~>Pending</div></div>
  <div class=~card".

Definition page_8 : string := qt "~ title=~Firmware components whose version differs across the fleet~><div class=~n~>".

Definition page_9 : string := qt "</div><div class=~l~>NIC FW Drift</div></div>
</div>
<table>
  <thead><tr>
    <th>Node</th><th>Backend</th><th>Address</th><th>Power</th><th>Health</th>
    <th>Max Temp</th><th>Sensors</th><th>NIC Firmware</th><th>Last Polled</th><th>State</th>
  </tr></thead>
  <tbody id=~rows~>
".

Definition page_10 : string := qt "
  </tbody>
</table>
<script>
  // Track the controller's next poll without a full reload.
  async function refresh() {
    try {
      const r = await fetch('/api/nodes', {cache: 'no-store'});
      if (!r.ok) return;
      const data = await r.json();
      document.title = `Redfish Fleet (${data.summary.total})`;
    } catch (e) { /* transient; keep the last render */ }
  }
  setInterval(() => location.reload(), 10000);
  refresh();
</script>
</body>
</html>
".

Definition no_rows : string := qt "<tr><td colspan=~10~ class=~empty~>No RedfishEndpoint resources found in this namespace.</td></tr>".

(** The page up to its rows *)
Definition page_top (stamp : string) (s : counters) (drift_components : Z) : string :=
  page_1 +:+ esc stamp +:+ page_2 +:+ pretty (total s) +:+ page_3 +:+ pretty (poweredOn s) +:+ page_4 +:+ pretty (healthy s) +:+
  page_5 +:+ pretty (warning s + critical s) +:+ page_6 +:+ pretty (pending s) +:+ page_7 +:+
  (if negb (drift_components =? 0) then " alert" else "") +:+ page_8 +:+ pretty drift_components +:+ page_9.

(** The page around its values *)
Definition page_html (stamp : string) (s : counters) (drift_components : Z) (rows_html : string) : string :=
  page_top stamp s drift_components +:+ rows_html +:+ page_10.

(** [datetime.now(timezone.utc).strftime("%Y-%m-%d %H:%M:%SZ")] *)
Definition stamp_text (now : Z) : string :=
  let s := now / Timestamps.second in
  let '(y, m, d) := Timestamps.date_of_days (s / Timestamps.day) in
  let r := s mod Timestamps.day in
  Timestamps.fixed_digits 4 y +:+ "-" +:+ Timestamps.fixed_digits 2 m +:+ "-" +:+ Timestamps.fixed_digits 2 d +:+ " " +:+
  Timestamps.fixed_digits 2 (r / 3600) +:+ ":" +:+ Timestamps.fixed_digits 2 (r / 60 mod 60) +:+ ":" +:+
  Timestamps.fixed_digits 2 (r mod 60) +:+ "Z".

Definition rows_text (rows : list (look * texts)) : string :=
  match rows with
  | [] => no_rows
  | _ => PyStr.join Prometheus.newline (map (fun lt => row_html lt.1 lt.2) rows)
  end.

(** [render_html(nodes, generated_at)] *)
Definition render_html (now : Z) (generated_at : option string) (nodes : list row) : res string :=
  let? summary := fleet_summary nodes in
  let? drift_map := fleet_firmware_drift nodes in
  let drift_ids := dict_keys drift_map in
  let drift_components := Z.of_nat (length drift_map) in
  let stamp := match generated_at with Some (String _ _ as s) => s | _ => stamp_text now end in
  let? rows := res_map (render_row drift_ids) nodes in
  Ok (page_html stamp summary drift_components (rows_text rows)).

(** ** Requests *)

Record response := Response { code : Z; content_type : string; content_length : Z; body : option string }.

(** [_send(code, body, content_type)] *)
Definition send (command : string) (code : Z) (body content_type : string) : response :=
  Response code content_type (Z.of_nat (String.length body)) (if decide (command = "HEAD") then None else Some body).

Definition json_type : string := "application/json".
Definition not_found_body : string := qt "{~error~:~not found~}".

(** The [try] of [do_GET]; [nodes] is what the cache answers *)
Definition route (command path : string) (now : Z) (nodes : res (list row)) : res response :=
  if decide (path = "/healthz") then Ok (send command 200 (qt "{~status~:~ok~}") json_type)
  else if decide (path = "/") then
    let? ns := nodes in let? body := render_html now None ns in Ok (send command 200 body "text/html; charset=utf-8")
  else if decide (path = "/api/nodes") then
    let? ns := nodes in let? v := render_fleet_json ns in let? body := Json.dumps_with false ", " ": " v in
    Ok (send command 200 body json_type)
  else if PyStr.startswith "/api/nodes/" path then
    let wanted := String.substring 11 (String.length path - 11) path in
    let? ns := nodes in
    match find_node ns wanted with
    | None => Ok (send command 404 not_found_body json_type)
    | Some n => let? body := Json.dumps_with false ", " ": " (PDict n) in Ok (send command 200 body json_type)
    end
  else if decide (path = "/metrics") then
    let? ns := nodes in let? body := render_metrics ns in Ok (send command 200 body "text/plain; version=0.0.4; charset=utf-8")
  else Ok (send command 404 not_found_body json_type).

(** [do_GET], which is also [do_HEAD] *)
Definition do_GET (command target : string) (now : Z) (nodes : res (list row)) : res response :=
  let? p := Urls.urlsplit target in
  let path := PyStr.rstrip_char "/" (Urls.path p) in
  let path := if PyStr.nonempty path then path else "/" in
  match route command path now nodes with
  | Raise e =>
      if is_Exception e then
        let? msg := Json.dumps_with false ", " ": " (PDict [("error", PStr "backend unavailable"); ("detail", PStr (exn_str e))]) in
        Ok (send command 503 msg json_type)
      else Raise e
  | r => r
  end.

(** ** Escaping *)

Definition escape_char (c : ascii) : string :=
  if decide (c = "&"%char) then "&amp;" else if decide (c = "<"%char) then "&lt;" else if decide (c = ">"%char) then "&gt;"
  else if decide (c = dquote) then "&quot;" else String c "".

Lemma esc_cons c s : esc (String c s) = escape_char c +:+ esc s.
Proof.
  unfold esc. cbn [Prometheus.replace_char]. rewrite !Prometheus.replace_char_app. f_equal. unfold escape_char.
  repeat case_decide; subst; try done; repeat first [progress (cbn [Prometheus.replace_char]) | rewrite decide_True by done
    | rewrite decide_False by done | rewrite append_empty_r]; done.
Qed.

(** What a browser shows for the entities that [esc] writes. *)
Fixpoint unescape (s : string) : string :=
  match s with
  | EmptyString => EmptyString
  | String "&" (String "a" (String "m" (String "p" (String ";" r)))) => String "&" (unescape r)
  | String "&" (String "l" (String "t" (String ";" r))) => String "<" (unescape r)
  | String "&" (String "g" (String "t" (String ";" r))) => String ">" (unescape r)
  | String "&" (String "q" (String "u" (String "o" (String "t" (String ";" r))))) => String dquote (unescape r)
  | String c r => String c (unescape r)
  end.

Lemma unescape_char c s : unescape (escape_char c +:+ s) = String c (unescape s).
Proof.
  destruct (decide (c = "&"%char)) as [->|H1]; [done|]. destruct (decide (c = "<"%char)) as [->|H2]; [done|].
  destruct (decide (c = ">"%char)) as [->|H3]; [done|]. destruct (decide (c = dquote)) as [->|H4]; [done|].
  unfold escape_char. rewrite !decide_False by done. rewrite append_cons, append_empty_l.
  destruct c as [[] [] [] [] [] [] [] []]; try reflexivity. by destruct H1.
Qed.

(** Escaped text is shown as it was. *)
Lemma unescape_esc s : unescape (esc s) = s.
Proof. induction s as [|c s IH]; [done|]. by rewrite esc_cons, unescape_char, IH. Qed.

(** ** Markup *)

Inductive mode := Text | InTag | InQuote.

Definition next_mode (m : mode) (c : ascii) : mode :=
  match m with
  | Text => if decide (c = "<"%char) then InTag else Text
  | InTag => if decide (c = ">"%char) then Text else if decide (c = dquote) then InQuote else InTag
  | InQuote => if decide (c = dquote) then InTag else InQuote
  end.

(** A character of the text, as opposed to one of a tag. *)
Definition shown (m : mode) (c : ascii) : bool := match m with Text => bool_decide (c <> "<"%char) | _ => false end.

(** The tags of a page, without the text between them. *)
Fixpoint markup (m : mode) (s : string) : string :=
  match s with
  | EmptyString => EmptyString
  | String c s' => if shown m c then markup (next_mode m c) s' else String c (markup (next_mode m c) s')
  end.

Fixpoint mode_after (m : mode) (s : string) : mode :=
  match s with EmptyString => m | String c s' => mode_after (next_mode m c) s' end.

(** A segment of a page: from one mode to another, with its markup. *)
Definition seg (m : mode) (s out : string) (m' : mode) : Prop := markup m s = out /\ mode_after m s = m'.

Lemma seg_app m a o m1 b o' m2 : seg m a o m1 -> seg m1 b o' m2 -> seg m (a +:+ b) (o +:+ o') m2.
Proof.
  unfold seg. revert m o. induction a as [|c a IH]; intros m o [H1 H2] [H3 H4].
  - cbn in H1, H2. subst. rewrite !append_empty_l. done.
  - rewrite append_cons. cbn [markup mode_after] in *. destruct (IH (next_mode m c) _ (conj eq_refl H2) (conj H3 H4)) as [H5 H6].
    rewrite H5. split; [|done]. subst o. by case_match.
Qed.

Lemma seg_same m s : seg m s (markup m s) (mode_after m s).
Proof. done. Qed.

(** Escaped text adds no markup. *)
Lemma seg_text s : seg Text (esc s) "" Text.
Proof.
  induction s as [|c s IH]; [done|]. rewrite esc_cons. change "" with ("" +:+ "")%string. apply (seg_app _ _ _ Text); [|done].
  unfold escape_char. repeat case_decide; try done. unfold seg. cbn. rewrite bool_decide_true by done. by rewrite decide_False.
Qed.

Lemma seg_join l : seg Text (PyStr.join ", " (map esc l)) "" Text.
Proof.
  induction l as [|x l IH]; [done|]. destruct l as [|y l]; cbn [map] in *; [apply seg_text|]. rewrite join_cons2.
  change "" with ("" +:+ ("" +:+ ""))%string. apply (seg_app _ _ _ Text); [apply seg_text|]. by apply (seg_app _ _ _ Text).
Qed.

(** A number is text. *)
Lemma seg_number z : seg Text (pretty (z : Z)) "" Text.
Proof.
  pose proof (Json.all_num_pretty z) as H. revert H. generalize (pretty z). intros s. induction s as [|c s IH]; [done|].
  cbn [Json.all_num]. intros [Hc Hs]%andb_true_iff. destruct (IH Hs) as [H1 H2].
  assert (c <> "<"%char) as Hne by (by intros ->). unfold seg. cbn. rewrite bool_decide_true, decide_False by done. done.
Qed.

(** An attribute keeps what has no quote. *)
Lemma seg_quoted s : Prometheus.occurs dquote s = false -> seg InQuote s s InQuote.
Proof.
  induction s as [|c s IH]; [done|]. rewrite Prometheus.occurs_cons. intros [Hc%bool_decide_eq_false Hs]%orb_false_iff.
  destruct (IH Hs) as [H1 H2]. unfold seg. cbn. by rewrite decide_False, H1, H2 by done.
Qed.

Lemma esc_no_quote s : Prometheus.occurs dquote (esc s) = false.
Proof.
  induction s as [|c s IH]; [done|]. rewrite esc_cons, Prometheus.occurs_append, IH, orb_false_r. unfold escape_char.
  repeat case_decide; try done. by rewrite Prometheus.occurs_cons, bool_decide_false.
Qed.

Lemma seg_attribute s : seg InQuote (esc s) (esc s) InQuote.
Proof. apply seg_quoted, esc_no_quote. Qed.

(** Literal segments are evaluated, the others are known. *)
Ltac seg_literal :=
  match goal with
  | |- seg ?m ?s _ _ =>
      let o := eval vm_compute in (markup m s) in
      let m' := eval vm_compute in (mode_after m s) in
      exact (conj (eq_refl : markup m s = o) (eq_refl : mode_after m s = m'))
  end.
Ltac seg_step :=
  first [apply seg_text | apply seg_join | apply seg_number | apply seg_attribute | eassumption
        | apply seg_quoted; assumption | seg_literal].
Ltac seg_solve := repeat (eapply seg_app; [seg_step|]); seg_step.

(** The classes that a row can have. *)
Record standard_look (l : look) : Prop := {
  std_backend : lk_backend l ∈ [""; "mock"];
  std_power : lk_power l ∈ ["on"; "off"; "unknown"];
  std_health : lk_health l ∈ ["ok"; "warn"; "crit"; "unknown"];
  std_state : lk_state l ∈ ["ready"; "pending"]
}.

Lemma class_plain s l : s ∈ l -> forallb (fun x => negb (Prometheus.occurs dquote x)) l = true -> Prometheus.occurs dquote s = false.
Proof. intros Hs%list_elem_of_In Hl. rewrite forallb_forall in Hl. by apply Hl, negb_true_iff in Hs. Qed.

Definition blank : texts := Texts "" "" "" "" "" "" "" [] "" "" "".

(** A row's markup depends on its classes alone. *)
Lemma row_inert l t : standard_look l -> seg Text (tx_cards t) "" Text ->
  seg Text (row_html l t) (markup Text (row_html l blank)) Text.
Proof.
  intros [Hb Hp Hh _] Hc. apply (class_plain _ _) in Hb, Hp, Hh; [|done..].
  assert (exists o, forall t, seg Text (tx_cards t) "" Text -> seg Text (row_html l t) o Text) as [o Ho].
  { unfold row_html, nic_cell. destruct l as [b p h nic st]; cbn [lk_backend lk_power lk_health lk_nic lk_state] in *.
    destruct nic as [[]|]; eexists; intros t' Hc'; rewrite ?append_assoc; seg_solve. }
  destruct (Ho t Hc) as [H1 H2]. destruct (Ho blank (conj eq_refl eq_refl)) as [H3 _]. split; [congruence|done].
Qed.

(** A row whose texts are all shown as text. *)
Definition inert (lt : look * texts) : Prop := standard_look lt.1 /\ seg Text (tx_cards lt.2) "" Text.

Fixpoint concat_strings (l : list string) : string := match l with [] => "" | x :: l' => x +:+ concat_strings l' end.

(** The markup of a page: the fixed tags, with those of each row in between. *)
Definition rows_markup (looks : list look) : string :=
  match looks with
  | [] => markup Text no_rows
  | _ => concat_strings (map (fun l => markup Text (row_html l blank)) looks)
  end.

Definition page_markup (alert : bool) (looks : list look) : string :=
  markup Text (page_top "" (Counters 0 0 0 0 0 0 0 0) (if alert then 1 else 0)) +:+ rows_markup looks +:+ markup Text page_10.

Lemma no_rows_inert : seg Text (rows_text []) (rows_markup []) Text.
Proof. unfold rows_text, rows_markup. split; [reflexivity|vm_compute; reflexivity]. Qed.

Lemma rows_inert rows : Forall inert rows -> seg Text (rows_text rows) (rows_markup (map fst rows)) Text.
Proof.
  intros H. destruct rows as [|lt rows]; [apply no_rows_inert|]. unfold rows_text, rows_markup. cbn [map]. revert lt H.
  induction rows as [|lt' rows IH]; intros lt [[Hl Hc] Hr]%Forall_cons.
  - cbn [map PyStr.join concat_strings]. rewrite append_empty_r. by apply row_inert.
  - cbn [map concat_strings]. rewrite join_cons2. eapply seg_app; [by apply row_inert|].
    rewrite <- (append_empty_l (markup Text (row_html lt'.1 blank) +:+ _)). eapply seg_app; [|apply (IH lt' Hr)].
    split; vm_compute; reflexivity.
Qed.

Lemma seg_markup m s o m' : seg m s o m' -> markup m s = o.
Proof. by intros [? _]. Qed.

Lemma top_inert stamp s drift :
  seg Text (page_top stamp s drift) (markup Text (page_top "" (Counters 0 0 0 0 0 0 0 0) (if negb (drift =? 0) then 1 else 0))) Text.
Proof.
  assert (forall a, exists o, forall stamp s drift, negb (drift =? 0) = a -> seg Text (page_top stamp s drift) o Text) as H.
  { intros a. destruct a; eexists; intros st s' d Hd; unfold page_top; rewrite Hd; seg_solve. }
  destruct (H (negb (drift =? 0))) as [o Ho]. destruct (Ho stamp s drift eq_refl) as [H1 H2].
  destruct (Ho "" (Counters 0 0 0 0 0 0 0 0) (if negb (drift =? 0) then 1 else 0)) as [H3 _]; [by case_match|].
  split; [congruence|done].
Qed.

Lemma page_inert_html stamp s drift rows looks : seg Text rows (rows_markup looks) Text ->
  markup Text (page_html stamp s drift rows) = page_markup (negb (drift =? 0)) looks.
Proof.
  intros Hr. unfold page_markup, page_html. eapply seg_markup, seg_app; [apply top_inert|]. eapply seg_app; [exact Hr|apply seg_same].
Qed.

(** The rows that the dashboard renders have standard classes, and their texts are inert. *)
Lemma render_row_inert drift_ids n lt : normal_row n -> render_row drift_ids n = Ok lt -> inert lt.
Proof.
  intros Hn. unfold render_row. intros (p & (on & _ & [= <-])%res_bind_ok & (t & _ & ([[nic vs] cards] & Hnic & [= <-])%res_bind_ok)%res_bind_ok)%res_bind_ok.
  split; [split|]; cbn.
  - case_match; [by left|by right; left].
  - destruct on; [by left|]. case_match; [by right; right; left|by right; left].
  - unfold health_class. repeat case_decide; [by left|by right; left|by right; right; left|by right; right; right; left].
  - destruct (normal_state n Hn) as [->| ->]; [by left|by right; left].
  - revert Hnic. unfold nic_firmware. case_match; [by intros [= <- <- <-]|].
    intros (vs' & _ & (cs & _ & [= <- <- <-])%res_bind_ok)%res_bind_ok. destruct (normal_adapters n Hn) as [->|[z ->]]; [done|].
    cbn [is_int py_str]. change "" with ("" +:+ ("" +:+ ("" +:+ "")))%string. eapply seg_app; [by seg_literal|].
    eapply seg_app; [apply seg_number|]. eapply seg_app; [by seg_literal|]. by case_match.
Qed.

(** C30. No value of a resource reaches the markup of the page: for rows that come from
    [normalize_endpoint], whatever names, addresses, states and versions they hold, the tags
    of the page are the fixed ones and one group per row, which depends only on the row's
    classes, each one of a fixed set; and escaped text is shown as it was. *)
Theorem page_inert now generated_at objs nodes page :
  res_map normalize_endpoint objs = Ok nodes -> render_html now generated_at nodes = Ok page ->
  (exists drift looks, fleet_firmware_drift nodes = Ok drift /\ Forall standard_look looks /\
    Forall2 (fun n l => exists t, render_row (dict_keys drift) n = Ok (l, t)) nodes looks /\
    markup Text page = page_markup (negb (Z.of_nat (length drift) =? 0)) looks) /\
  forall s, unescape (esc s) = s.
Proof.
  intros Hn%all_normal H. split; [|exact unescape_esc]. revert H. unfold render_html.
  intros (s & _ & (drift & Hd & (rows & Hrows%res_map_ok & [= <-])%res_bind_ok)%res_bind_ok)%res_bind_ok.
  assert (Forall inert rows) as Hi.
  { revert Hn. clear Hd. induction Hrows as [|n lt nodes rows Hlt _ IH]; [constructor|]. intros [? ?]%Forall_cons.
    constructor; [by eapply render_row_inert|auto]. }
  exists drift, (map fst rows). split_and!; [done|..].
  - apply Forall_map. eapply Forall_impl; [exact Hi|]. by intros lt [? _].
  - clear Hi Hn Hd. induction Hrows as [|n [l t] nodes rows Hlt _ IH]; [constructor|]. constructor; [by exists t|done].
  - by apply page_inert_html, rows_inert.
Qed.

Definition hostile : list pyval :=
  [endpoint "<script>alert(1)</script>" (qt "~><img src=x onerror=alert(1)>") "On<b>" "</td><td>"].

Lemma page_inert_witness :
  exists nodes page looks, res_map normalize_endpoint hostile = Ok nodes /\ render_html 0 None nodes = Ok page /\
    markup Text page = page_markup false looks /\ looks = [Look "" "off" "ok" (Some false) "ready"].
Proof.
  destruct (res_map normalize_endpoint hostile) as [nodes|e|] eqn:Hn.
  2,3: exfalso; vm_compute in Hn; discriminate Hn.
  destruct (render_html 0 None nodes) as [page|e|] eqn:Hp.
  2,3: exfalso; vm_compute in Hn; injection Hn as <-; vm_compute in Hp; discriminate Hp.
  destruct (page_inert 0 None hostile nodes page Hn Hp) as [(drift & looks & Hd & _ & Hl & Hm) _].
  exists nodes, page, looks. split; [reflexivity|]. split; [exact Hp|].
  assert (drift = []) as -> by (vm_compute in Hn; injection Hn as <-; vm_compute in Hd; by injection Hd as <-).
  split; [exact Hm|]. clear Hp Hm Hd page. vm_compute in Hn. injection Hn as <-.
  inversion Hl as [|n l ns ls [t Ht] Hrest]; subst. inversion Hrest; subst. f_equal. vm_compute in Ht. by injection Ht as <- _.
Defined.

(** ** Answers *)

(** A result that is a value or an error of class [Exception]. *)
Definition regular {A} (r : res A) : Prop := match r with Ok _ => True | Raise e => is_Exception e = true | NoFuel => False end.

Lemma regular_bind {A B} (r : res A) (f : A -> res B) : regular r -> (forall a, regular (f a)) -> regular (res_bind r f).
Proof. destruct r; cbn; auto. Qed.

Lemma regular_map {A B} (f : A -> res B) l : (forall a, regular (f a)) -> regular (res_map f l).
Proof. intros Hf. induction l as [|x l IH]; [done|]. cbn [res_map]. apply regular_bind; [auto|]. intros y. by apply regular_bind. Qed.

Lemma regular_fold {A B} (f : A -> B -> res A) l a : (forall a b, regular (f a b)) -> regular (res_fold f a l).
Proof. intros Hf. revert a. induction l as [|x l IH]; intros a; [done|]. cbn [res_fold]. apply regular_bind; auto. Qed.

Lemma regular_iter v : regular (MockRules.py_iter v).
Proof. by destruct v. Qed.

Lemma regular_powered v : regular (powered_on v).
Proof. by destruct v. Qed.

Lemma regular_dumps v : regular (Json.dumps_with false ", " ": " v).
Proof. unfold Json.dumps_with. by case_match. Qed.

Lemma regular_summary nodes : regular (fleet_summary nodes).
Proof. apply regular_fold. intros a n. apply regular_bind; [apply regular_powered|]. done. Qed.

Lemma regular_drift nodes : regular (fleet_firmware_drift nodes).
Proof.
  apply regular_bind; [|done]. apply regular_fold. intros a n. apply regular_bind; [apply regular_iter|done].
Qed.

Lemma regular_int d : regular (float_to_int d).
Proof. unfold float_to_int. destruct (binary64 d). by case_match. Qed.

Lemma regular_metrics nodes : regular (render_metrics nodes).
Proof.
  apply regular_bind; [|done]. apply regular_bind; [apply regular_drift|]. intros drift. apply regular_bind; [|done]. apply regular_map.
  intros n. unfold node_points. apply regular_bind; [apply regular_powered|]. intros on. cbv zeta.
  apply regular_bind; [unfold epoch_from_rfc3339; by repeat case_match|]. intros t.
  apply regular_bind; [destruct t; [apply regular_bind; [apply regular_int|done]|done]|]. intros z.
  apply regular_bind; [unfold py_len; by case_match|]. intros len. apply regular_bind; [apply regular_iter|done].
Qed.

Lemma regular_page now gen nodes : regular (render_html now gen nodes).
Proof.
  apply regular_bind; [apply regular_summary|]. intros s. apply regular_bind; [apply regular_drift|]. intros d.
  apply regular_bind; [|done]. apply regular_map. intros n. unfold render_row.
  apply regular_bind; [apply regular_bind; [apply regular_powered|done]|]. intros p.
  apply regular_bind.
  { unfold temp_text. case_match; try done. all: apply regular_bind; [|done]; cbn; try done. unfold Numbers.float_of_int. by case_match. }
  intros t. cbv zeta. apply regular_bind; [|by intros [[? ?] ?]]. unfold nic_firmware. case_match; [done|].
  apply regular_bind; [apply regular_iter|]. intros vs. apply regular_bind; [apply regular_iter|done].
Qed.

Lemma regular_route command path now nodes : regular nodes -> regular (route command path now nodes).
Proof.
  intros Hn. unfold route. destruct (decide (path = "/healthz")); [done|]. destruct (decide (path = "/")).
  { apply regular_bind; [done|]. intros ns. apply regular_bind; [apply regular_page|done]. }
  destruct (decide (path = "/api/nodes")).
  { apply regular_bind; [done|]. intros ns. apply regular_bind; [|intros v; apply regular_bind; [apply regular_dumps|done]].
    apply regular_bind; [apply regular_summary|]. intros s. apply regular_bind; [apply regular_drift|done]. }
  destruct (PyStr.startswith _ _).
  { apply regular_bind; [done|]. intros ns. case_match; [|done]. apply regular_bind; [apply regular_dumps|done]. }
  destruct (decide (path = "/metrics")); [|done].
  apply regular_bind; [done|]. intros ns. apply regular_bind; [apply regular_metrics|done].
Qed.

Lemma route_code command path now nodes r : route command path now nodes = Ok r ->
  (code r = 200 \/ code r = 404) /\ (command = "HEAD" <-> body r = None).
Proof.
  assert (forall c b t, (c = 200 \/ c = 404) -> (code (send command c b t) = 200 \/ code (send command c b t) = 404) /\
    (command = "HEAD" <-> body (send command c b t) = None)) as Hs.
  { intros c b t Hc. split; [done|]. unfold send. cbn. case_decide; naive_solver. }
  unfold route. intros H. repeat match type of H with
    | (if decide ?P then _ else _) = _ => destruct (decide P)
    | (if ?b then _ else _) = _ => destruct b
    | match ?o with Some _ => _ | None => _ end = _ => destruct o
    | res_bind _ _ = Ok _ => apply res_bind_ok in H as (? & ? & H)
    | Ok _ = Ok _ => injection H as <-
    end; apply Hs; auto.
Qed.

Lemma error_body_written detail : exists msg,
  Json.dumps_with false ", " ": " (PDict [("error", PStr "backend unavailable"); ("detail", PStr detail)]) = Ok msg.
Proof. by eexists. Qed.

(** Every request is answered: whatever the cache answers or raises short of an interrupt,
    a request whose target is a URL gets one response, 200, 404 or 503, without a body for
    HEAD; the liveness probe is answered without the cluster; and a failure of the backend is a 503 that
    carries its message. *)
Theorem requests_answered command target now nodes p :
  Urls.urlsplit target = Ok p -> regular nodes ->
  exists r, do_GET command target now nodes = Ok r /\ code r ∈ [200; 404; 503] /\ (command = "HEAD" <-> body r = None) /\
    (Urls.path p = "/healthz" -> code r = 200) /\
    (forall e, nodes = Raise e -> Urls.path p = "/metrics" -> code r = 503 /\ content_type r = json_type).
Proof.
  intros Hp Hn. unfold do_GET. rewrite Hp. cbn [res_bind].
  set (path := if PyStr.nonempty (PyStr.rstrip_char "/" (Urls.path p)) then _ else _).
  pose proof (regular_route command path now nodes Hn) as Hr. destruct (route command path now nodes) as [r|e|] eqn:He; [| |done].
  - exists r. destruct (route_code _ _ _ _ _ He) as [Hc Hb]. split; [done|]. split; [destruct Hc as [-> | ->]; [by left|by right; left]|].
    split; [done|]. split.
    + intros Hpath. assert (path = "/healthz") as Hh by (unfold path; by rewrite Hpath). rewrite Hh in He. cbn in He. by injection He as <-.
    + intros e -> Hpath. assert (path = "/metrics") as Hm by (unfold path; by rewrite Hpath). rewrite Hm in He. done.
  - cbn in Hr. rewrite Hr. destruct (error_body_written (exn_str e)) as [msg Hmsg]. rewrite Hmsg. cbn [res_bind]. eexists. split; [reflexivity|].
    split; [by right; right; left|]. split; [unfold send; cbn; case_decide; naive_solver|]. split; [|done].
    intros Hpath. assert (path = "/healthz") as Hh by (unfold path; by rewrite Hpath). rewrite Hh in He. done.
Qed.

Lemma requests_answered_witness :
  exists r, do_GET "GET" "/metrics?x=1" 0 (Raise (ConnectionFailed "refused")) = Ok r /\ code r = 503 /\ content_type r = json_type.
Proof.
  destruct (requests_answered "GET" "/metrics?x=1" 0 (Raise (ConnectionFailed "refused")) (Urls.Parts "" "" "/metrics" "x=1" "") eq_refl eq_refl)
    as (r & H1 & _ & _ & _ & H5).
  exists r. split; [exact H1|]. exact (H5 _ eq_refl eq_refl).
Defined.
End FleetPage.
