(* ===== verification/VendorActions.v ===== *)
(** * Guarded actions on any manager

    [invoke_action] of src/redfish_ctl/redfish_manager.py as the vendor commands call it: the read and the POST are those
    of the manager the command runs on (Vendor.v), the resolution, the validation and the guard are those of Actions.v.
    With it come the steps that the Dell commands share: the OEM link of a Manager, the secrets that are read from the
    environment or a file, and the masking of previews. *)

From stdpp Require Import base list strings pretty gmap.
From Stdlib Require Import Ascii ZArith Lia.
From S2P Require Import Prelude PyVal Effects Query Http Manager Discovery Csdl ActionPolicy Actions Config Numbers Invoker Idrac Reboot Vendor.

Module VendorActions.
Import Http RedfishManager ActionPolicy Actions Vendor.
Local Open Scope Z_scope.
Local Open Scope py_scope.

Section Invoke.
Context (schemas : list Csdl.xml) {W : Type} `{!World W} `{!Vendor W}.
Abbreviation MM := (M (mstate W)).

(** The read of the owning resource; [inr] is the message of a failed one. *)
Definition v_read_resource (c : action_call) : MM (pyval + string) :=
  try_Exception
    (let! r := v_query (resource_uri c) (with_async (call_async c)) in
     ret (inl (py_or (data r) (PDict []))))
    (fun e => ret (inr ("failed to read " +:+ resource_uri c +:+ ": " +:+ exn_str e))).

(** [invoke_action(resource_uri, action_name, payload, expected_status, ...)] *)
Definition v_invoke_action (c : action_call) (expected_status : Z) : MM CommandResult :=
  let! r := v_read_resource c in
  match r with
  | inr msg => ret (mkResult PNone PNone PNone (PStr msg))
  | inl resource =>
      let! actions := lift_res (discover_redfish_actions resource) in
      let! d := lift_res (decide_action schemas resource actions c) in
      match d with
      | Answer res => ret res
      | Fire full t =>
          let! (result, api_resp) := v_write POST (py_str t) (Some (payload c)) (call_async c) expected_status in
          ret (action_report actions full t result api_resp)
      end
  end.

Lemma v_read_reads c : emits is_get (v_read_resource c).
Proof. unfold v_read_resource. frame; auto with emits. Qed.

(** What a call is once the resource is read: an answer, or the POST of the resolved action. *)
Lemma v_invoke_run c e (s : mstate W) :
  v_invoke_action c e s =
  match v_read_resource c s with
  | (s1, Ok (inl resource)) =>
      match (let? actions := discover_redfish_actions resource in
             let? d := decide_action schemas resource actions c in Ok (actions, d)) with
      | Ok (actions, Answer r) => (s1, Ok r)
      | Ok (actions, Fire full t) =>
          (let! (result, a) := v_write POST (py_str t) (Some (payload c)) (call_async c) e in ret (action_report actions full t result a)) s1
      | Raise ex => (s1, Raise ex)
      | NoFuel => (s1, NoFuel)
      end
  | (s1, Ok (inr msg)) => (s1, Ok (mkResult PNone PNone PNone (PStr msg)))
  | (s1, Raise ex) => (s1, Raise ex)
  | (s1, NoFuel) => (s1, NoFuel)
  end.
Proof.
  unfold v_invoke_action, bind at 1. destruct (v_read_resource c s) as [s1 [[resource|msg]|ex|]]; try done.
  unfold bind at 1, lift_res at 1. destruct (discover_redfish_actions resource) as [actions|ex|]; try done. cbn [res_bind].
  unfold bind at 1, lift_res at 1. destruct (decide_action schemas resource actions c) as [[r|full t]|ex|]; done.
Qed.

(** The resource is the document that the query of its URI returned. *)
Lemma v_read_ok c (s s1 : mstate W) resource : v_read_resource c s = (s1, Ok (inl resource)) ->
  exists r, v_query (resource_uri c) (with_async (call_async c)) s = (s1, Ok r) /\ resource = py_or (data r) (PDict []).
Proof.
  unfold v_read_resource, try_Exception, try_catch, bind.
  destruct (v_query (resource_uri c) (with_async (call_async c)) s) as [s2 [r|e|]]; cbn; [|by destruct (is_Exception e)|done].
  intros [= <- <-]. by exists r.
Qed.

(** A call ends with reads, or it posts to the action that the document it has just read resolves to. *)
Lemma v_invoke_cases c e (s : mstate W) :
  (exists reads, trace (v_invoke_action c e s).1 = trace s ++ reads /\ Forall is_get reads) \/
  exists s1 r actions full t,
    v_query (resource_uri c) (with_async (call_async c)) s = (s1, Ok r) /\
    discover_redfish_actions (py_or (data r) (PDict [])) = Ok actions /\
    resolve_action (py_or (data r) (PDict [])) actions c = Ok (Some (full, t)) /\
    dry_run c = false /\ blocked_reason (classify full) c = None /\
    (v_invoke_action c e s).1 = (v_write POST (py_str t) (Some (payload c)) (call_async c) e s1).1.
Proof.
  destruct (v_read_reads c s) as (reads & Ht & HF). rewrite v_invoke_run.
  destruct (v_read_resource c s) as [s1 [[resource|msg]|ex|]] eqn:Hread; [|by left; exists reads..].
  destruct (discover_redfish_actions resource) as [actions|ex|] eqn:Hdisc; cbn [res_bind]; [|by left; exists reads..].
  destruct (decide_action schemas resource actions c) as [[r|full t]|ex|] eqn:Hd; cbn [res_bind]; [by left; exists reads| |by left; exists reads..].
  right. apply decide_fire in Hd as (Hres & Hdry & Hblk). apply v_read_ok in Hread as (r & Hq & ->). exists s1, r, actions, full, t.
  do 5 (split; [done|]). unfold bind. by destruct (v_write _ _ _ _ _ s1) as [s2 [[result a]|ex|]].
Qed.

(** The guard on any manager: reads, and then at most one POST, of the payload that was asked for, to the target of the
    action that was resolved, and only as its level allows. *)
Lemma v_invoke_guarded c e (s : mstate W) :
  exists s1 reads, trace s1 = trace s ++ reads /\ Forall is_get reads /\
    ((v_invoke_action c e s).1 = s1 \/
     exists resource actions full t,
       discover_redfish_actions resource = Ok actions /\ resolve_action resource actions c = Ok (Some (full, t)) /\
       v_invoke_action c e s =
         (let! (result, a) := v_write POST (py_str t) (Some (payload c)) (call_async c) e in ret (action_report actions full t result a)) s1 /\
       dry_run c = false /\ blocked_reason (classify full) c = None).
Proof.
  destruct (v_read_reads c s) as (reads & Ht & HF). rewrite v_invoke_run. destruct (v_read_resource c s) as [s1 [[resource|msg]|ex|]];
    exists s1, reads; (split; [exact Ht|]; split; [done|]); try (by left).
  destruct (discover_redfish_actions resource) as [actions|ex|] eqn:Hdisc; cbn [res_bind]; [|by left..].
  destruct (decide_action schemas resource actions c) as [[r|full t]|ex|] eqn:Hd; cbn [res_bind]; [by left| |by left..].
  right. apply decide_fire in Hd as (Hres & Hdry & Hblk). exists resource, actions, full, t. done.
Qed.

(** As a budget of writes. *)
Lemma v_invoke_writes c e : writes (if dry_run c then 0 else 1) (fun rq => rq_method rq = POST) (v_invoke_action c e).
Proof.
  intros s. destruct (v_invoke_guarded c e s) as (s1 & reads & Ht & HF & [H|(resource & actions & full & t & _ & _ & Hrun & -> & _)]).
  - exists reads. rewrite H, Ht, (reads_no_writes _ HF). split; [done|]. split; [simpl; lia|constructor].
  - assert (writes 1 (fun rq => rq_method rq = POST) (let! (result, a) := v_write POST (py_str t) (Some (payload c)) (call_async c) e in
      ret (action_report actions full t result a))) as Hw.
    { apply (writes_bind _ 1 0); [apply writes_sends, v_write_once|]. intros [result a]. apply writes_reads. frame. }
    destruct (Hw s1) as (l & Hl & Hn & HP). exists (reads ++ l). rewrite Hrun, Hl, Ht, <- app_assoc. split; [done|].
    unfold write_requests. rewrite filter_app. fold (write_requests reads) (write_requests l). by rewrite (reads_no_writes _ HF).
Qed.

(** ** Shared steps of the Dell commands *)

(** [link.get("@odata.id")] of a value that should be a link *)
Definition link_id (v : pyval) : pyval := match v with PDict l => dget "@odata.id" l | _ => PNone end.

(** The value under a key of a value that should be a mapping *)
Definition sub (key : string) (v : pyval) : pyval := match v with PDict d => dget key d | _ => PNone end.

(** The Managers, none when they cannot be read *)
Definition manager_ids : MM (list string) :=
  try_Exception (let! r := v_query Discovery.api_managers (with_key "Members") in ret (Discovery.member_ids (data r))) (fun _ => ret []).

Lemma manager_ids_reads : emits is_get manager_ids.
Proof. unfold manager_ids. frame; auto with emits. Qed.
End Invoke.

#[export] Hint Resolve manager_ids_reads v_read_reads : emits.

(** On the base manager it is the [invoke_action] of Actions.v. *)
Lemma dmtf_invoke_action schemas {W} `{!World W} `{!SyncInvoker (mstate W)} fuel now c e (s : mstate W) :
  v_invoke_action (Vendor0 := dmtf_vendor fuel now) schemas c e s = invoke_action schemas c s.
Proof. reflexivity. Qed.

(** ** Secrets *)

(** What secrets are read from: the environment, and the text of a file or its error; [expanded_path] is
    [str(Path(name).expanduser())]. *)
Record sources := Sources { environ : Config.env; read_file : string -> res string; expanded_path : string -> string }.

Definition is_OSError (e : exn) : bool := match e with FileNotFoundError _ | OtherError "OSError" _ => true | _ => false end.

Definition is_newline (c : ascii) : bool := let n := nat_of_ascii c in (n =? 10)%nat || (n =? 13)%nat.

(** [value.strip() or None] of a text, other values as they are *)
Definition optional_payload_value (v : pyval) : pyval :=
  match v with
  | PStr s => let t := PyStr.strip s in if PyStr.nonempty t then PStr t else PNone
  | v => v
  end.

(** ** Masked previews *)

Definition REDACTED : pyval := PStr "********".

Definition mask (secret : string -> bool) (p : pydict) : pydict := map (fun kv => (kv.1, if secret kv.1 then REDACTED else kv.2)) p.

(** The payload of a result, masked *)
Definition redact (secret : string -> bool) (r : CommandResult) : CommandResult :=
  match data r with
  | PDict d => match dget "payload" d with
               | PDict p => mkResult (PDict (dict_set "payload" (PDict (mask secret p)) d)) (discovered r) (extra r) (error r)
               | _ => r
               end
  | _ => r
  end.

(** Only the payload changes. *)
Lemma redact_payload secret d1 d2 p disc ext err : "payload" ∉ dict_keys d1 ->
  redact secret (mkResult (PDict (d1 ++ ("payload", PDict p) :: d2)) disc ext err) =
  mkResult (PDict (d1 ++ ("payload", PDict (mask secret p)) :: d2)) disc ext err.
Proof.
  intros Hd. unfold redact. cbn [data discovered extra error]. assert (dget "payload" (d1 ++ ("payload", PDict p) :: d2) = PDict p /\
    dict_set "payload" (PDict (mask secret p)) (d1 ++ ("payload", PDict p) :: d2) = d1 ++ ("payload", PDict (mask secret p)) :: d2) as [-> ->]; [|done].
  unfold dget, dict_get_or. induction d1 as [|[k v] d1 IH]; cbn [app dict_get dict_set]; [by rewrite !decide_True|].
  cbn in Hd. apply not_elem_of_cons in Hd as [Hk Hd]. rewrite !decide_False by done. destruct (IH Hd) as [H1 H2]. by rewrite H1, H2.
Qed.

(** Two payloads that differ at most in their secrets. *)
Definition alike (secret : string -> bool) (p q : pydict) : Prop := mask secret p = mask secret q.

Section Masked.
Context (schemas : list Csdl.xml) (secret : string -> bool).

(** The metadata of the action does not restrict its secrets. *)
Definition unrestricted (full : string) (action : option RedfishAction) : Prop :=
  forall strict parameters, action_parameters schemas full action = Ok (strict, parameters) -> parameters <> ∅ ->
  forall k v, secret k = true -> check_item strict parameters k v = Ok None.

Lemma alike_cons kv p q : alike secret (kv :: p) q -> exists kv' q', q = kv' :: q' /\ kv.1 = kv'.1 /\
  (secret kv.1 = false -> kv.2 = kv'.2) /\ alike secret p q'.
Proof.
  unfold alike. destruct q as [|kv' q']; [done|]. cbn [mask map]. intros [= Hk Hv Hq]. exists kv', q'. split; [done|]. split; [done|]. split; [|done].
  intros Hs. rewrite Hs, <- Hk, Hs in Hv. exact Hv.
Qed.

Lemma validate_alike full action p q : unrestricted full action -> alike secret p q ->
  validate_action_payload schemas full action p = validate_action_payload schemas full action q.
Proof.
  intros Hu. unfold validate_action_payload. destruct (action_parameters schemas full action) as [[strict parameters]|e|] eqn:Ha; [|done..].
  cbn [res_bind]. case_decide; [done|]. intros Hpq.
  match goal with |- res_fold ?f [] _ = _ => assert (forall errors, res_fold f errors p = res_fold f errors q) as Hall; [|apply Hall] end.
  revert q Hpq. induction p as [|kv p IH]; intros q Hpq errors.
  - unfold alike in Hpq. by destruct q.
  - destruct (alike_cons _ _ _ Hpq) as ([k' v'] & q' & -> & Hk & Hv & Hq). destruct kv as [k v]. cbn in Hk, Hv. subst k'. cbn [res_fold fst snd].
    assert (check_item strict parameters k v = check_item strict parameters k v') as ->.
    { destruct (secret k) eqn:Hs; [by rewrite !(Hu _ _ Ha) by done|by rewrite Hv]. }
    destruct (check_item strict parameters k v') as [o|e|]; [|done..]. cbn [res_bind]. by apply IH.
Qed.

(** The same request with another payload. *)
Definition with_payload (p : pydict) (c : action_call) : action_call :=
  Call (resource_uri c) (name c) p (full_action_type c) (call_async c) (dry_run c) (confirm c) (confirm_irreversible c).

(** Decisions that differ at most in the secrets of their payload. *)
Definition same_decision (a b : res decision) : Prop :=
  match a, b with
  | Ok (Answer r), Ok (Answer r') => redact secret r = redact secret r'
  | Ok (Fire full t), Ok (Fire full' t') => full = full' /\ t = t'
  | Raise e, Raise e' => e = e'
  | NoFuel, NoFuel => True
  | _, _ => False
  end.

Lemma decide_alike resource actions c p q :
  (forall full t, resolve_action resource actions c = Ok (Some (full, t)) -> unrestricted full (dict_get (name c) actions)) ->
  alike secret p q ->
  same_decision (decide_action schemas resource actions (with_payload p c)) (decide_action schemas resource actions (with_payload q c)).
Proof.
  intros Hu Hpq. unfold decide_action. change (resolve_action resource actions (with_payload ?x c)) with (resolve_action resource actions c).
  destruct (resolve_action resource actions c) as [[[full t]|]|e|]; cbn [res_bind]; [|by destruct (flatten_action_targets resource)|done..].
  specialize (Hu full t eq_refl). cbn [name payload with_payload].
  rewrite (validate_alike full (dict_get (name c) actions) p q Hu Hpq). unfold alike in Hpq.
  destruct (validate_action_payload schemas full (dict_get (name c) actions) q) as [[|v vs]|e|]; cbn [res_bind]; [| |done..].
  2: { destruct (violation_text full v) as [text|e|]; [|done..]. cbn [res_bind same_decision].
       etransitivity; [apply (redact_payload _ [("action", PStr full); ("target", t)]); apply (bool_decide_unpack _); by vm_compute|].
       rewrite Hpq. symmetry. apply (redact_payload _ [("action", PStr full); ("target", t)]). apply (bool_decide_unpack _). by vm_compute. }
  change (blocked_reason (classify full) (with_payload ?x c)) with (blocked_reason (classify full) c). cbn [dry_run with_payload].
  destruct (dry_run c || _); [|done]. cbn [same_decision].
  etransitivity; [apply (redact_payload _ [("dry_run", PBool true); ("action", PStr full); ("target", t)]);
    apply (bool_decide_unpack _); by vm_compute|].
  rewrite Hpq. symmetry. apply (redact_payload _ [("dry_run", PBool true); ("action", PStr full); ("target", t)]).
  apply (bool_decide_unpack _). by vm_compute.
Qed.
End Masked.

(** A preview does not depend on the secrets: two requests that differ only in secret values give the same masked answer and
    send the same requests, when the metadata of the action does not restrict those values. *)
Lemma preview_alike schemas secret {W} `{!World W} `{!Vendor W} c p q e (s : mstate W) :
  (forall resource actions x full t, discover_redfish_actions resource = Ok actions ->
     decide_action schemas resource actions (with_payload x c) <> Ok (Fire full t)) ->
  alike secret p q ->
  (forall resource actions full t, (v_read_resource c s).2 = Ok (inl resource) -> discover_redfish_actions resource = Ok actions ->
     resolve_action resource actions c = Ok (Some (full, t)) -> unrestricted schemas secret full (dict_get (name c) actions)) ->
  (let! r := v_invoke_action schemas (with_payload p c) e in ret (redact secret r)) s =
  (let! r := v_invoke_action schemas (with_payload q c) e in ret (redact secret r)) s.
Proof.
  intros Hno Hpq Hu. unfold bind at 1 2. rewrite !v_invoke_run. change (v_read_resource (with_payload ?x c) s) with (v_read_resource c s).
  destruct (v_read_resource c s) as [s1 [[resource|msg]|ex|]]; try done.
  destruct (discover_redfish_actions resource) as [actions|ex|] eqn:Hdisc; try done. cbn [res_bind].
  pose proof (decide_alike schemas secret resource actions c p q (fun full t => Hu resource actions full t eq_refl Hdisc) Hpq) as Hsame.
  pose proof (fun x full t => Hno resource actions x full t Hdisc) as Hno'.
  destruct (decide_action schemas resource actions (with_payload p c)) as [[r|f1 t1]|e1|] eqn:H1; [|by destruct (Hno' p f1 t1)| |];
    destruct (decide_action schemas resource actions (with_payload q c)) as [[r'|f2 t2]|e2|] eqn:H2; try done; cbn in Hsame |- *; congruence.
Qed.
End VendorActions.
