(* ===== verification/DellLicense.v ===== *)
(** * Dell license actions

    src/redfish_ctl/licenses/cmd_dell_license_actions.py: the actions of Dell's license management service, listed,
    previewed or posted.  License data and passwords come from the environment or from files ([sources] of
    VendorActions.v); a preview masks them.  The command runs on any manager ([Vendor]). *)

From stdpp Require Import base list strings pretty gmap.
From Stdlib Require Import Ascii ZArith Lia.
From S2P Require Import Prelude PyVal Effects Query Http Manager Discovery Csdl ActionPolicy Actions Config Numbers Urls Json Invoker Idrac Reboot Vendor VendorActions.

Module DellLicense.
Import Http RedfishManager ActionPolicy Actions Vendor VendorActions.
Local Open Scope Z_scope.
Local Open Scope py_scope.

Definition LICENSE_MANAGEMENT_FALLBACK : string := "/redfish/v1/Managers/iDRAC.Embedded.1/Oem/Dell/DellLicenseManagementService".

(** ** The actions *)

Record LicenseActionSpec := Spec {
  selector : string;
  full_type : string;
  action_name : string;
  description : string;
  requires_device : bool;
  requires_network_share : bool;
  requires_license_data : bool
}.

(** [_ACTION_SPECS] *)
Definition ACTION_SPECS : list (string * LicenseActionSpec) :=
  map (fun s => (selector s, s))
  [Spec "delete" "#DellLicenseManagementService.DeleteLicense" "DeleteLicense" "delete one or more installed Dell licenses"
     false false false;
   Spec "export" "#DellLicenseManagementService.ExportLicense" "ExportLicense" "export installed license data in the response"
     false false false;
   Spec "export-by-device" "#DellLicenseManagementService.ExportLicenseByDevice" "ExportLicenseByDevice"
     "export license data for a selected device" true false false;
   Spec "export-by-device-to-share" "#DellLicenseManagementService.ExportLicenseByDeviceToNetworkShare"
     "ExportLicenseByDeviceToNetworkShare" "export device license data to a network share" true true false;
   Spec "export-to-share" "#DellLicenseManagementService.ExportLicenseToNetworkShare" "ExportLicenseToNetworkShare"
     "export installed license data to a network share" false true false;
   Spec "import" "#DellLicenseManagementService.ImportLicense" "ImportLicense"
     "import license content from an environment variable or file" false false true;
   Spec "import-from-share" "#DellLicenseManagementService.ImportLicenseFromNetworkShare" "ImportLicenseFromNetworkShare"
     "import a license from a network share" false true false].

(** The arguments of [execute] *)
Record license_args := Args {
  entitlement_id : option string; device : option string; delete_option : option string; import_option : option string;
  share_type : option string; share_address : option string; share_name : option string; file_name : option string;
  share_username : option string; share_password_env : option string; share_password_file : option string;
  ignore_cert_warning : option string; proxy_support : option string; proxy_type : option string; proxy_server : option string;
  proxy_port : option Z; proxy_username : option string; proxy_password_env : option string; proxy_password_file : option string;
  license_data_env : option string; license_data_file : option string
}.

(** ** The payload *)

(** [_secret_from_source(kind, env_name, file_name)] *)
Definition secret_from_source (src : sources) (kind : string) (env_name file_name : option string) : res (option string) :=
  if PyStr.nonempty (default "" env_name) && PyStr.nonempty (default "" file_name)
  then Raise (InvalidArgument ("use only one " +:+ kind +:+ " source"))
  else
    match env_name, file_name with
    | Some env_name, _ =>
        let name := PyStr.strip env_name in
        if negb (PyStr.nonempty name) then Raise (InvalidArgument (kind +:+ " environment variable name cannot be empty"))
        else match Config.named_env (environ src) name None with
             | None => Raise (InvalidArgument (kind +:+ " environment variable '" +:+ name +:+ "' is not set"))
             | Some value => Ok (Some value)
             end
    | None, Some file_name =>
        match read_file src file_name with
        | Ok text => Ok (Some (PyStr.rstrip_by is_newline text))
        | Raise e => if is_OSError e
                     then Raise (InvalidArgument ("failed to read " +:+ kind +:+ " file '" +:+ expanded_path src file_name +:+ "': " +:+ exn_str e))
                     else Raise e
        | NoFuel => NoFuel
        end
    | None, None => Ok None
    end.

(** [_add_optional(payload, key, value)] *)
Definition add_optional (payload : pydict) (key : string) (value : pyval) : pydict :=
  let normalized := optional_payload_value value in
  if is_none normalized then payload else dict_set key normalized payload.

Definition NETWORK_KEYS : list string :=
  ["ShareType"; "IPAddress"; "ShareName"; "FileName"; "UserName"; "Password"; "IgnoreCertWarning"; "ProxySupport"; "ProxyType";
   "ProxyServer"; "ProxyPort"; "ProxyUserName"; "ProxyPassword"].

(** [_has_network_payload(payload)] *)
Definition has_network_payload (payload : pydict) : bool := existsb (fun k => bool_decide (k ∈ NETWORK_KEYS)) (dict_keys payload).

Definition has (key : string) (payload : pydict) : bool := truthy (dget key payload).

(** [_validate_payload_shape(spec, payload)] *)
Definition validate_payload_shape (spec : LicenseActionSpec) (payload : pydict) : res unit :=
  if bool_decide (selector spec = "delete") && negb (has "EntitlementID" payload || has "DeleteOptions" payload)
  then Raise (InvalidArgument "--action delete requires --entitlement-id or --delete-option")
  else if requires_device spec && negb (has "Device" payload)
  then Raise (InvalidArgument ("--action " +:+ selector spec +:+ " requires --device"))
  else
  let missing := (if has "ShareType" payload then [] else ["--share-type"]) ++ (if has "IPAddress" payload then [] else ["--share-address"]) in
  if requires_network_share spec && bool_decide (missing <> [])
  then Raise (InvalidArgument ("--action " +:+ selector spec +:+ " requires " +:+ PyStr.join ", " missing))
  else if negb (requires_network_share spec) && has_network_payload payload
  then Raise (InvalidArgument "network share options are only valid with network-share actions")
  else if requires_license_data spec && negb (has "LicenseFile" payload)
  then Raise (InvalidArgument "--action import requires --license-data-env or --license-data-file")
  else if negb (requires_license_data spec) && has "LicenseFile" payload
  then Raise (InvalidArgument "license data is only valid with --action import")
  else if negb (bool_decide (selector spec = "delete")) && has "DeleteOptions" payload
  then Raise (InvalidArgument "--delete-option is only valid with --action delete")
  else if negb (bool_decide (selector spec ∈ ["import"; "import-from-share"])) && has "ImportOptions" payload
  then Raise (InvalidArgument "--import-option is only valid with import license actions")
  else Ok tt.

(** The payload from its values, in the order in which they are added *)
Definition build_payload (a : license_args) (password proxy_password license : option string) : pydict :=
  fold_left (fun p kv => add_optional p kv.1 kv.2)
    [("EntitlementID", opt_str (entitlement_id a)); ("Device", opt_str (device a)); ("DeleteOptions", opt_str (delete_option a));
     ("ImportOptions", opt_str (import_option a)); ("ShareType", opt_str (share_type a)); ("IPAddress", opt_str (share_address a));
     ("ShareName", opt_str (share_name a)); ("FileName", opt_str (file_name a)); ("UserName", opt_str (share_username a));
     ("Password", opt_str password); ("IgnoreCertWarning", opt_str (ignore_cert_warning a));
     ("ProxySupport", opt_str (proxy_support a)); ("ProxyType", opt_str (proxy_type a)); ("ProxyServer", opt_str (proxy_server a));
     ("ProxyPort", match proxy_port a with Some z => PInt z | None => PNone end); ("ProxyUserName", opt_str (proxy_username a));
     ("ProxyPassword", opt_str proxy_password); ("LicenseFile", opt_str license)] [].

(** [_payload(spec, ...)] *)
Definition license_payload (src : sources) (spec : LicenseActionSpec) (a : license_args) : res pydict :=
  let? password := secret_from_source src "share password" (share_password_env a) (share_password_file a) in
  let? proxy_password := secret_from_source src "proxy password" (proxy_password_env a) (proxy_password_file a) in
  let? license := secret_from_source src "license data" (license_data_env a) (license_data_file a) in
  let payload := build_payload a password proxy_password license in
  let? _ := validate_payload_shape spec payload in
  Ok payload.

(** The keys that [_redact_payload] masks *)
Definition secret_key (key : string) : bool :=
  let folded := PyStr.lower key in
  PyStr.contains "password" folded || PyStr.contains "secret" folded || PyStr.contains "token" folded || bool_decide (key = "LicenseFile").

(** ** The service *)

(** [_dell_oem_link(manager, key)] *)
Definition dell_oem_link (manager : pyval) (key : string) : res pyval :=
  match py_or manager (PDict []) with
  | PDict d =>
      let links := dict_get_or "Links" (PDict []) d in
      Ok (match links with
          | PDict l => match dict_get_or "Oem" (PDict []) l with
                       | PDict o => match dict_get_or "Dell" (PDict []) o with
                                    | PDict dell => link_id (dget key dell)
                                    | _ => PNone
                                    end
                       | _ => PNone
                       end
          | _ => PNone
          end)
  | v => no_get v
  end.

Section Command.
Context (schemas : list Csdl.xml) {W : Type} `{!World W} `{!Vendor W} (src : sources).
Abbreviation MM := (M (mstate W)).

(** [_manager_link(key, do_async)] *)
Definition manager_link (key : string) (do_async : bool) : MM (option pyval) :=
  let! manager_uris := manager_ids in
  firstM (fun manager_uri =>
    let! manager := try_Exception
        (let! r := v_query (PyStr.rstrip_char "/" manager_uri) (with_async do_async) in ret (Some (py_or (data r) (PDict []))))
        (fun _ => ret None) in
    match manager with
    | None => ret None
    | Some m => let! target := lift_res (dell_oem_link m key) in ret (if truthy target then Some target else None)
    end) manager_uris.

(** [_license_management_uri(do_async)] *)
Definition license_management_uri (do_async : bool) : MM pyval :=
  let! link := manager_link "DellLicenseManagementService" do_async in
  ret (default (PStr LICENSE_MANAGEMENT_FALLBACK) link).

Definition failed (text : string) : CommandResult := mkResult PNone PNone PNone (PStr text).

(** [_license_management_service(do_async)] *)
Definition license_management_service (do_async : bool) : MM (pyval * (pydict + CommandResult)) :=
  let! uri := license_management_uri do_async in
  let! data := try_Exception
      (let! r := v_query (py_str uri) (with_async do_async) in ret (inl (py_or (data r) (PDict []))))
      (fun e => ret (inr (failed ("failed to read " +:+ py_str uri +:+ ": " +:+ exn_str e)))) in
  ret (uri, match data with
            | inl (PDict d) => inl d
            | inl _ => inr (failed ("unexpected response from " +:+ py_str uri +:+ ": expected object"))
            | inr r => inr r
            end).

(** ** The listing *)

Definition selector_of (full : string) : option (string * LicenseActionSpec) :=
  List.find (fun ks => bool_decide (full_type ks.2 = full)) ACTION_SPECS.

(** [{key: sorted(values or []) for key, values in sorted(args.items())}] *)
Definition sorted_parameters (a : option RedfishAction) : res pydict :=
  res_fold (fun acc kv =>
      match py_iter (py_or kv.2 (PList [])) with
      | Some l => match py_sorted l with
                  | Some l => Ok (acc ++ [(kv.1, PList l)])
                  | None => Raise (TypeError "'<' not supported between instances")
                  end
      | None => Raise (type_error "object is not iterable" kv.2)
      end) [] (Json.sort_items (default [] (a ≫= args))).

(** [_action_details(actions, targets)] *)
Definition action_details (actions : list (string * RedfishAction)) (targets : pydict) : res (list pyval) :=
  res_fold (fun rows kv =>
    let short := PyStr.lstrip_char "#" (Urls.after_last "." kv.1) in
    let? parameters := sorted_parameters (dict_get short actions) in
    let found := selector_of kv.1 in
    Ok (rows ++ [PDict [("selector", opt_str (fst <$> found)); ("name", PStr short); ("action", PStr kv.1); ("target", kv.2);
                        ("description", opt_str ((fun ks => description ks.2) <$> found)); ("level", PStr (level_value (classify kv.1)));
                        ("supported", PBool (match found with Some _ => true | None => false end)); ("parameters", PDict parameters)]]))
    [] (Json.sort_items targets).

(** [_license_action_metadata(do_async)] *)
Definition license_action_metadata (do_async : bool) : MM CommandResult :=
  let! (uri, service) := license_management_service do_async in
  match service with
  | inr r => ret r
  | inl service =>
      let! actions := lift_res (discover_redfish_actions (PDict service)) in
      let! targets := lift_res (flatten_action_targets (PDict service)) in
      let! rows := lift_res (action_details actions targets) in
      ret (mkResult
        (PDict [("license_management_service", uri);
                ("selectors", PDict (map (fun ks => (ks.1, PDict [("action", PStr (full_type ks.2)); ("target", dget (full_type ks.2) targets);
                                                                  ("available", PBool (dict_in (full_type ks.2) targets));
                                                                  ("level", PStr (level_value (classify (full_type ks.2))))])) ACTION_SPECS));
                ("actions", PList rows)])
        (actions_val actions) PNone PNone)
  end.

(** ** The command *)

Definition license_call (uri : pyval) (spec : LicenseActionSpec) (p : pydict) (do_async confirm dry_run : bool) : action_call :=
  Call (py_str uri) (action_name spec) p (full_type spec) do_async (dry_run || negb confirm) confirm false.

(** [DellLicenseActions.execute(action, ..., confirm, dry_run, do_async)] *)
Definition dell_license_actions (action : option string) (a : license_args) (confirm dry_run do_async : bool) : MM CommandResult :=
  match action with
  | None => license_action_metadata do_async
  | Some action =>
      match dict_get action ACTION_SPECS with
      | None => raise (InvalidArgument ("unsupported Dell license action '" +:+ action +:+ "'; allowed: "
                                        +:+ PyStr.join ", " (dict_keys ACTION_SPECS)))
      | Some spec =>
          let! (uri, service) := license_management_service do_async in
          match service with
          | inr r => ret r
          | inl service =>
              let! targets := lift_res (flatten_action_targets (PDict service)) in
              if negb (dict_in (full_type spec) targets) then
                ret (mkResult (PDict [("action", PStr (full_type spec)); ("available", PList (map PStr (sort_strs (dict_keys targets))))]) PNone PNone
                       (PStr ("action '" +:+ full_type spec +:+ "' not found on " +:+ py_str uri)))
              else
                let! p := lift_res (license_payload src spec a) in
                let! r := v_invoke_action schemas (license_call uri spec p do_async confirm dry_run) 202 in
                ret (redact secret_key r)
          end
      end
  end.
End Command.

(** ** Shape of the payload *)

(** What a payload of the action holds and does not hold. *)
Record well_shaped (spec : LicenseActionSpec) (p : pydict) : Prop := {
  shape_delete : selector spec = "delete" -> has "EntitlementID" p = true \/ has "DeleteOptions" p = true;
  shape_device : requires_device spec = true -> has "Device" p = true;
  shape_share : requires_network_share spec = true -> has "ShareType" p = true /\ has "IPAddress" p = true;
  shape_no_share : requires_network_share spec = false -> forall k, k ∈ NETWORK_KEYS -> dict_get k p = None;
  shape_license : has "LicenseFile" p = requires_license_data spec;
  shape_delete_only : selector spec <> "delete" -> has "DeleteOptions" p = false;
  shape_import_only : selector spec ∉ ["import"; "import-from-share"] -> has "ImportOptions" p = false
}.

Lemma no_network_keys p : has_network_payload p = false -> forall k, k ∈ NETWORK_KEYS -> dict_get k p = None.
Proof.
  intros H k Hk. apply dict_get_None. intros Hin. assert (has_network_payload p = true); [|congruence].
  unfold has_network_payload. apply existsb_exists. exists k. split; [by apply list_elem_of_In|by apply bool_decide_eq_true].
Qed.

Lemma shape_checked spec p : validate_payload_shape spec p = Ok tt <-> well_shaped spec p.
Proof.
  unfold validate_payload_shape. split.
  - intros H. repeat match type of H with (if ?b then _ else _) = _ => destruct b eqn:?; [discriminate H|] end.
    repeat match goal with H : _ && _ = false |- _ => apply andb_false_iff in H end.
    split.
    + intros Hs%(bool_decide_eq_true_2 _). rewrite Hs in *. destruct (has "EntitlementID" p); [by left|].
      destruct (has "DeleteOptions" p); [by right|]. naive_solver.
    + intros Hd. rewrite Hd in *. destruct (has "Device" p); naive_solver.
    + intros Hd. rewrite Hd in *. destruct (has "ShareType" p), (has "IPAddress" p); naive_solver.
    + intros Hd. rewrite Hd in *. apply no_network_keys. naive_solver.
    + destruct (requires_license_data spec), (has "LicenseFile" p); naive_solver.
    + intros Hs%(bool_decide_eq_false_2 _). rewrite Hs in *. destruct (has "DeleteOptions" p); naive_solver.
    + intros Hs%(bool_decide_eq_false_2 _). rewrite Hs in *. destruct (has "ImportOptions" p); naive_solver.
  - intros [H1 H2 H3 H4 H5 H6 H7].
    assert (requires_network_share spec = false -> has_network_payload p = false) as H4'.
    { intros Hn. destruct (has_network_payload p) eqn:He; [|done]. apply existsb_exists in He as (k & Hin & Hk%bool_decide_eq_true).
      apply list_elem_of_In, dict_in_true in Hin. unfold dict_in in Hin. by rewrite (H4 Hn k Hk) in Hin. }
    repeat match goal with
    | |- (if ?b then _ else _) = _ => replace b with false; [|symmetry; apply andb_false_iff]
    end; [done|..].
    + destruct (decide (selector spec ∈ ["import"; "import-from-share"])); [left; by rewrite bool_decide_true|right; auto].
    + destruct (decide (selector spec = "delete")); [left; by rewrite bool_decide_true|right; auto].
    + rewrite H5. destruct (requires_license_data spec); auto.
    + rewrite H5. destruct (requires_license_data spec); auto.
    + destruct (requires_network_share spec); auto.
    + destruct (requires_network_share spec); [right|by left]. destruct (H3 eq_refl) as [-> ->].
      apply bool_decide_eq_false_2. intros Hne. by apply Hne.
    + destruct (requires_device spec); [right|by left]. by rewrite H2.
    + destruct (decide (selector spec = "delete")) as [Hs|]; [right|left; by rewrite bool_decide_false].
      destruct (H1 Hs) as [-> | ->]; [done|]. by rewrite orb_true_r.
Qed.

Lemma license_payload_shape src spec a p : license_payload src spec a = Ok p -> well_shaped spec p.
Proof.
  unfold license_payload. intros (x & _ & (y & _ & (z & _ & ([] & Hv & [= <-])%res_bind_ok)%res_bind_ok)%res_bind_ok)%res_bind_ok.
  by apply shape_checked.
Qed.

Section Guard.
Context (schemas : list Csdl.xml) {W : Type} `{!World W} `{!Vendor W} (src : sources).

Lemma license_service_reads b : emits is_get (license_management_service (W := W) b).
Proof. unfold license_management_service, license_management_uri, manager_link. frame; auto with emits. Qed.

(** A named action once the service is read. *)
Lemma license_run sel spec a confirm dry b (s : mstate W) : dict_get sel ACTION_SPECS = Some spec ->
  dell_license_actions schemas src (Some sel) a confirm dry b s =
  match license_management_service b s with
  | (s1, Ok (uri, inl service)) =>
      match flatten_action_targets (PDict service) with
      | Ok targets =>
          if negb (dict_in (full_type spec) targets) then
            (s1, Ok (mkResult (PDict [("action", PStr (full_type spec)); ("available", PList (map PStr (sort_strs (dict_keys targets))))]) PNone PNone
                       (PStr ("action '" +:+ full_type spec +:+ "' not found on " +:+ py_str uri))))
          else
            match license_payload src spec a with
            | Ok p => (let! r := v_invoke_action schemas (license_call uri spec p b confirm dry) 202 in ret (redact secret_key r)) s1
            | Raise e => (s1, Raise e)
            | NoFuel => (s1, NoFuel)
            end
      | Raise e => (s1, Raise e)
      | NoFuel => (s1, NoFuel)
      end
  | (s1, Ok (uri, inr r)) => (s1, Ok r)
  | (s1, Raise e) => (s1, Raise e)
  | (s1, NoFuel) => (s1, NoFuel)
  end.
Proof.
  intros Hspec. cbn [dell_license_actions]. rewrite Hspec. unfold bind at 1.
  destruct (license_management_service b s) as [s1 [[uri [service|r]]|e|]]; try done.
  unfold bind at 1, lift_res at 1. destruct (flatten_action_targets (PDict service)) as [targets|e|]; try done.
  destruct (negb _); [done|]. unfold bind at 1, lift_res at 1. by destruct (license_payload src spec a).
Qed.

(** A license action is posted only as it should be: the command sends GETs, and then at most one POST, only when an
    action was named, confirmed and not a dry run; the payload is the one that was built, it has the shape of the action, and
    the target is that of an action of the service with the full name of the selector, or with its short name. *)
Theorem license_guarded action a confirm dry b (s : mstate W) :
  exists s1 reads, trace s1 = trace s ++ reads /\ Forall is_get reads /\
    ((dell_license_actions schemas src action a confirm dry b s).1 = s1 \/
     exists sel spec p resource actions full t,
       action = Some sel /\ dict_get sel ACTION_SPECS = Some spec /\ confirm = true /\ dry = false /\
       license_payload src spec a = Ok p /\ well_shaped spec p /\
       has_action (as_dict resource) full t /\ (full = full_type spec \/ short_of full = action_name spec) /\
       dell_license_actions schemas src action a confirm dry b s =
         (let! (result, r) := v_write POST (py_str t) (Some p) b 202 in ret (redact secret_key (action_report actions full t result r))) s1).
Proof.
  destruct action as [sel|].
  2: { assert (emits is_get (license_action_metadata (W := W) b)) as Hm
         by (unfold license_action_metadata; frame; auto using license_service_reads with emits).
       destruct (Hm s) as (l & Ht & Hl). exists (license_action_metadata b s).1, l. auto. }
  destruct (dict_get sel ACTION_SPECS) as [spec|] eqn:Hspec.
  2: { exists s, []. rewrite app_nil_r. cbn [dell_license_actions]. rewrite Hspec. auto. }
  rewrite !(license_run _ _ _ _ _ _ _ Hspec). destruct (license_service_reads b s) as (l & Ht & Hl).
  destruct (license_management_service b s) as [s1 [[uri [service|r]]|e|]]; [|exists s1, l; auto..]. cbn [fst] in Ht.
  destruct (flatten_action_targets (PDict service)) as [targets|e|]; [|exists s1, l; auto..].
  destruct (negb _); [exists s1, l; auto|]. destruct (license_payload src spec a) as [p|e|] eqn:Hp; [|exists s1, l; auto..].
  set (c := license_call uri spec p b confirm dry).
  destruct (v_invoke_guarded schemas c 202 s1) as (s2 & l2 & Ht2 & Hl2 & Hcase). exists s2, (l ++ l2).
  split; [by rewrite Ht2, Ht, app_assoc|]. split; [by apply Forall_app|].
  destruct Hcase as [H1|(resource & actions & full & t & Hd & Hr & Hrun & Hdry & _)].
  - left. unfold bind. destruct (v_invoke_action schemas c 202 s1) as [s3 [r|e|]]; exact H1.
  - right. exists sel, spec, p, resource, actions, full, t. cbn in Hdry. apply orb_false_iff in Hdry as [-> ->%negb_false_iff].
    pose proof (license_payload_shape _ _ _ _ Hp) as Hshape.
    destruct (Actions.resolve_sound resource actions c full t Hd Hr) as (Hhas & _ & Hname).
    repeat (split; [done|]). unfold bind at 1. rewrite Hrun.
    change (payload c) with p. change (call_async c) with b. unfold bind.
    by destruct (v_write POST (py_str t) (Some p) b 202 s2) as [s3 [[result r]|e|]].
Qed.
End Guard.

(** ** Secrets *)

(** The values by key, without the secrets. *)
Definition plain_value (a : license_args) (k : string) : pyval :=
  optional_payload_value (dget k
    [("EntitlementID", opt_str (entitlement_id a)); ("Device", opt_str (device a)); ("DeleteOptions", opt_str (delete_option a));
     ("ImportOptions", opt_str (import_option a)); ("ShareType", opt_str (share_type a)); ("IPAddress", opt_str (share_address a));
     ("ShareName", opt_str (share_name a)); ("FileName", opt_str (file_name a)); ("UserName", opt_str (share_username a));
     ("IgnoreCertWarning", opt_str (ignore_cert_warning a));
     ("ProxySupport", opt_str (proxy_support a)); ("ProxyType", opt_str (proxy_type a)); ("ProxyServer", opt_str (proxy_server a));
     ("ProxyPort", match proxy_port a with Some z => PInt z | None => PNone end); ("ProxyUserName", opt_str (proxy_username a))]).

Lemma dict_set_elem {A} k (v : A) d kv : kv ∈ dict_set k v d -> kv = (k, v) \/ kv ∈ d.
Proof.
  induction d as [|[k' v'] d IH]; cbn [dict_set]; [intros ->%list_elem_of_singleton; by left|].
  case_decide as Hk; rewrite !elem_of_cons.
  - subst k'. intros [->|?]; auto.
  - intros [->|[->|?]%IH]; auto.
Qed.

(** What is not secret in a payload is a value that was given. *)
Lemma build_plain a x y z : Forall (fun kv => secret_key kv.1 = false -> kv.2 = plain_value a kv.1) (build_payload a x y z).
Proof.
  unfold build_payload. match goal with |- context [fold_left ?f ?l []] => set (entries := l) end.
  assert (Forall (fun kv => secret_key kv.1 = false -> optional_payload_value kv.2 = plain_value a kv.1) entries) as He.
  { subst entries. repeat (constructor; [first [by intros _|by intros H; vm_compute in H]|]). constructor. }
  revert He. generalize entries. clear entries. intros entries He.
  assert (Forall (fun kv => secret_key kv.1 = false -> kv.2 = plain_value a kv.1) (@nil (string * pyval))) as Hnil by constructor. revert Hnil.
  generalize (@nil (string * pyval)). induction He as [|kv entries Hkv _ IH]; intros p Hp; [done|]. cbn [fold_left]. apply IH.
  unfold add_optional. case_match; [done|]. apply Forall_forall. intros kv' [->|Hin]%dict_set_elem; [exact Hkv|].
  rewrite Forall_forall in Hp. auto.
Qed.

(** Two payloads for the same arguments with the same secrets present are alike. *)
Lemma payloads_alike src1 src2 spec a p q :
  license_payload src1 spec a = Ok p -> license_payload src2 spec a = Ok q -> dict_keys p = dict_keys q -> alike secret_key p q.
Proof.
  assert (forall src p, license_payload src spec a = Ok p ->
    mask secret_key p = map (fun k => (k, if secret_key k then REDACTED else plain_value a k)) (dict_keys p)) as H.
  { clear. intros src p. unfold license_payload.
    intros (x & _ & (y & _ & (z & _ & ([] & _ & [= <-])%res_bind_ok)%res_bind_ok)%res_bind_ok)%res_bind_ok.
    pose proof (build_plain a x y z) as Hp. unfold mask, dict_keys. rewrite map_map. apply map_ext_in. intros kv Hin%list_elem_of_In.
    rewrite Forall_forall in Hp. specialize (Hp kv Hin). destruct (secret_key kv.1); [done|]. by rewrite Hp. }
  intros Hp%H Hq%H Hk. unfold alike. by rewrite Hp, Hq, Hk.
Qed.

(** C33. A preview does not reveal license data or passwords: the same command, read against two environments that hold the
    same secrets with other values, sends the same requests and gives the same result, as long as it only previews and the
    metadata of the action does not restrict the values of its secrets. *)
Theorem license_preview_hides schemas {W} `{!World W} `{!Vendor W} src1 src2 sel spec a confirm dry b p q (s : mstate W) :
  dict_get sel ACTION_SPECS = Some spec ->
  license_payload src1 spec a = Ok p -> license_payload src2 spec a = Ok q -> dict_keys p = dict_keys q ->
  dry || negb confirm = true ->
  (forall s1 uri service resource actions full t, license_management_service b s = (s1, Ok (uri, inl service)) ->
     let c := license_call uri spec p b confirm dry in
     (v_read_resource c s1).2 = Ok (inl resource) -> discover_redfish_actions resource = Ok actions ->
     resolve_action resource actions c = Ok (Some (full, t)) ->
     unrestricted schemas secret_key full (dict_get (action_name spec) actions)) ->
  dell_license_actions schemas src1 (Some sel) a confirm dry b s = dell_license_actions schemas src2 (Some sel) a confirm dry b s.
Proof.
  intros Hspec Hp Hq Hk Hdry Hu. pose proof (payloads_alike _ _ _ _ _ _ Hp Hq Hk) as Halike.
  rewrite !(license_run _ _ _ _ _ _ _ _ _ Hspec), Hp, Hq.
  destruct (license_management_service b s) as [s1 [[uri [service|r]]|e|]]; try done.
  destruct (flatten_action_targets (PDict service)) as [targets|e|]; try done. destruct (negb (dict_in _ _)); [done|].
  refine (preview_alike schemas secret_key (license_call uri spec p b confirm dry) p q 202 s1 _ Halike
    (fun resource actions full t => Hu s1 uri service resource actions full t eq_refl)).
  intros resource actions x full t _ (_ & Hd & _)%decide_fire. cbn in Hd. congruence.
Qed.

(** ** Examples *)

Definition no_args : license_args :=
  Args None None None None None None None None None None None None None None None None None None None None None.

Definition share_args : license_args :=
  Args (Some "LIC-1") None None None (Some "CIFS") (Some "192.0.2.10") (Some "licenses") None (Some "svc") (Some "SHARE_PW") None
    None None None None None None None None None None.

Definition with_secret (pw : string) : sources :=
  Sources [("SHARE_PW", pw)] (fun _ => Raise (FileNotFoundError "no such file")) (fun p => p).

Definition license_service : pyval :=
  PDict [("Actions", PDict [("#DellLicenseManagementService.ExportLicenseToNetworkShare",
    PDict [("target", PStr "/redfish/v1/export"); ("ShareType@Redfish.AllowableValues", PList [PStr "CIFS"; PStr "NFS"])])])].

Definition license_routes : list (method * string * list response) :=
  [(GET, "https://10.0.0.42" +:+ LICENSE_MANAGEMENT_FALLBACK, [ok_json license_service; ok_json license_service])].

Definition no_invoker : SyncInvoker (mstate sim) := fun _ _ _ => raise (ValueError "no command").

Definition base_manager : Vendor sim := dmtf_vendor (SyncInvoker0 := no_invoker) 3 (fun _ => 0).

Example share_preview :
  (fun r => data r) <$> match (dell_license_actions (Vendor0 := base_manager) [] (with_secret "hunter2") (Some "export-to-share") share_args
     false false false (sim_state sample_manager license_routes)).2 with Ok r => Some r | _ => None end =
  Some (PDict [("dry_run", PBool true); ("action", PStr "#DellLicenseManagementService.ExportLicenseToNetworkShare");
               ("target", PStr "/redfish/v1/export");
               ("payload", PDict [("EntitlementID", PStr "LIC-1"); ("ShareType", PStr "CIFS"); ("IPAddress", PStr "192.0.2.10");
                                  ("ShareName", PStr "licenses"); ("UserName", PStr "svc"); ("Password", PStr "********")]);
               ("level", PStr "destructive"); ("blocked", PStr "destructive action requires --confirm")]).
Proof. vm_compute. reflexivity. Qed.

Lemma license_guarded_witness :
  exists s1 reads, trace s1 = [] ++ reads /\ Forall is_get reads /\
    (dell_license_actions (Vendor0 := base_manager) [] (with_secret "hunter2") (Some "export-to-share") share_args false false false
       (sim_state sample_manager license_routes)).1 = s1.
Proof.
  destruct (license_guarded (Vendor0 := base_manager) [] (with_secret "hunter2") (Some "export-to-share") share_args false false false
    (sim_state sample_manager license_routes)) as (s1 & reads & Ht & Hr & [H|(sel & spec & p & r & acts & full & t & _ & _ & H & _)]); [|discriminate H].
  exists s1, reads. split; [exact Ht|]. split; [exact Hr|exact H].
Defined.

Lemma license_preview_hides_witness :
  dell_license_actions (Vendor0 := base_manager) [] (with_secret "hunter2") (Some "export-to-share") share_args false false false
    (sim_state sample_manager license_routes) =
  dell_license_actions (Vendor0 := base_manager) [] (with_secret "correct horse") (Some "export-to-share") share_args false false false
    (sim_state sample_manager license_routes).
Proof.
  eapply (license_preview_hides (Vendor0 := base_manager) [] (with_secret "hunter2") (with_secret "correct horse") "export-to-share");
    [reflexivity|reflexivity|reflexivity|reflexivity|reflexivity|].
  intros s1 uri service resource actions full t Hs c Hr Hd Hres. vm_compute in Hs. injection Hs as <- <- <-. subst c. vm_compute in Hr.
  injection Hr as <-. vm_compute in Hd. injection Hd as <-. vm_compute in Hres. injection Hres as <- <-.
  intros strict parameters Hp _ k v Hk. cbn in Hp. injection Hp as <- <-. unfold check_item.
  rewrite lookup_insert_ne, lookup_empty; [reflexivity|]. intros <-. discriminate Hk.
Defined.

(** The mask covers the payload only: when the metadata of the action does not name the password, the refusal carries it
    in clear among the validation errors. *)
Definition share_schema : Csdl.xml :=
  Csdl.Elem "{edmx}Edmx" [] [Csdl.Elem "{edmx}DataServices" []
    [Csdl.Elem "{edm}Schema" [("Namespace", "DellLicenseManagementService.v1_0_0")]
       [Csdl.Elem "{edm}Action" [("Name", "ExportLicenseToNetworkShare"); ("IsBound", "true")]
          [Csdl.Elem "{edm}Parameter" [("Name", "DellLicenseManagementService"); ("Type", "DellLicenseManagementService.v1_0_0.Actions")] [];
           Csdl.Elem "{edm}Parameter" [("Name", "EntitlementID"); ("Type", "Edm.String")] [];
           Csdl.Elem "{edm}Parameter" [("Name", "ShareType"); ("Type", "Edm.String")] [];
           Csdl.Elem "{edm}Parameter" [("Name", "IPAddress"); ("Type", "Edm.String")] [];
           Csdl.Elem "{edm}Parameter" [("Name", "ShareName"); ("Type", "Edm.String")] [];
           Csdl.Elem "{edm}Parameter" [("Name", "UserName"); ("Type", "Edm.String")] []]]]].

Definition plain_service : pyval :=
  PDict [("Actions", PDict [("#DellLicenseManagementService.ExportLicenseToNetworkShare", PDict [("target", PStr "/redfish/v1/export")])])].

Theorem validation_reveals_secret :
  match (dell_license_actions (Vendor0 := base_manager) [share_schema] (with_secret "hunter2") (Some "export-to-share") share_args false true false
     (sim_state sample_manager [(GET, "https://10.0.0.42" +:+ LICENSE_MANAGEMENT_FALLBACK, [ok_json plain_service; ok_json plain_service])])).2 with
  | Ok r => dget "validation_errors" (as_dict (data r))
  | _ => PNone
  end = PList [PDict [("parameter", PStr "Password"); ("value", PStr "hunter2"); ("allowed", PList [])]].
Proof. vm_compute. reflexivity. Qed.

(** A secret is sent without the white space around it. *)
Theorem secret_is_stripped :
  dget "Password" (build_payload share_args (Some " pass word ") None None) = PStr "pass word".
Proof. reflexivity. Qed.
End DellLicense.
