(* ===== verification/DellPartition.v ===== *)
(** * Dell vFlash partitions

    src/redfish_ctl/oem/cmd_dell_persistent_partition.py: the actions of Dell's persistent storage service, listed, previewed
    or posted, over [v_invoke_action] of VendorActions.v. *)

From stdpp Require Import base list strings pretty gmap.
From Stdlib Require Import Ascii ZArith Lia.
From S2P Require Import Prelude PyVal Effects Query Http Manager Discovery Csdl ActionPolicy Actions Config Numbers Urls Json Invoker Idrac Reboot Vendor VendorActions.

Module DellPartition.
Import Http RedfishManager ActionPolicy Actions Vendor VendorActions.
Local Open Scope Z_scope.
Local Open Scope py_scope.

Definition SERVICE_FALLBACK : string := "/redfish/v1/Managers/iDRAC.Embedded.1/Oem/Dell/DellPersistentStorageService".

(** ** The actions *)

Record PartitionActionSpec := Spec {
  selector : string;
  full_type : string;
  action_name : string;
  required : list string;
  optional : list string;
  description : string
}.

(** [_ACTION_SPECS] *)
Definition ACTION_SPECS : list (string * PartitionActionSpec) :=
  map (fun s => (selector s, s))
  [Spec "attach" "#DellPersistentStorageService.AttachPartition" "AttachPartition" ["PartitionIndex"] []
     "attach an existing VFlash partition";
   Spec "create" "#DellPersistentStorageService.CreatePartition" "CreatePartition"
     ["PartitionIndex"; "PartitionType"; "Size"; "SizeUnit"; "OSVolumeLabel"] [] "create a blank VFlash partition";
   Spec "create-from-image" "#DellPersistentStorageService.CreatePartitionUsingImage" "CreatePartitionUsingImage"
     ["PartitionIndex"; "PartitionType"; "OSVolumeLabel"; "ShareType"]
     ["IPAddress"; "ImageName"; "SharePath"; "URI"; "HashType"; "HashValue"; "Username"; "Password"; "Port"; "Workgroup"]
     "create a VFlash partition from an image on a share or URI";
   Spec "delete" "#DellPersistentStorageService.DeletePartition" "DeletePartition" ["PartitionIndex"] [] "delete a VFlash partition";
   Spec "detach" "#DellPersistentStorageService.DetachPartition" "DetachPartition" ["PartitionIndex"] [] "detach a VFlash partition";
   Spec "export" "#DellPersistentStorageService.ExportDataFromPartition" "ExportDataFromPartition"
     ["PartitionIndex"; "ShareType"; "ImageName"] ["IPAddress"; "SharePath"; "Username"; "Password"; "Port"; "Workgroup"]
     "export VFlash partition data to a remote share";
   Spec "format" "#DellPersistentStorageService.FormatPartition" "FormatPartition" ["PartitionIndex"; "FormatType"] []
     "format a VFlash partition";
   Spec "initialize" "#DellPersistentStorageService.InitializeMedia" "InitializeMedia" [] [] "initialize VFlash media";
   Spec "modify" "#DellPersistentStorageService.ModifyPartition" "ModifyPartition" ["PartitionIndex"; "AccessType"] []
     "change a VFlash partition access mode"].

(** [_PAYLOAD_SOURCES] *)
Definition PAYLOAD_SOURCES : list (string * string) :=
  [("PartitionIndex", "partition_index"); ("PartitionType", "partition_type"); ("Size", "size"); ("SizeUnit", "size_unit");
   ("OSVolumeLabel", "os_volume_label"); ("FormatType", "format_type"); ("AccessType", "access_type"); ("ShareType", "share_type");
   ("IPAddress", "ip_address"); ("ImageName", "image_name"); ("SharePath", "share_path"); ("URI", "uri"); ("HashType", "hash_type");
   ("HashValue", "hash_value"); ("Username", "share_username"); ("Password", "password"); ("Port", "share_port");
   ("Workgroup", "workgroup")].

(** [_FLAG_NAMES] *)
Definition FLAG_NAMES : list (string * string) :=
  [("PartitionIndex", "--partition-index"); ("PartitionType", "--partition-type"); ("Size", "--size"); ("SizeUnit", "--size-unit");
   ("OSVolumeLabel", "--os-volume-label"); ("FormatType", "--format-type"); ("AccessType", "--access-type"); ("ShareType", "--share-type");
   ("IPAddress", "--ip-address"); ("ImageName", "--image-name"); ("SharePath", "--share-path"); ("URI", "--uri");
   ("HashType", "--hash-type"); ("HashValue", "--hash-value"); ("Username", "--username");
   ("Password", "--password-env or --password-file"); ("Port", "--port"); ("Workgroup", "--workgroup")].

Definition flag (parameter : string) : string := dict_get_or parameter "" FLAG_NAMES.

(** ** The payload *)

(** [_required_payload_value(value, selector, parameter)] *)
Definition required_payload_value (value : pyval) (selector parameter : string) : res pyval :=
  let normalized := optional_payload_value value in
  if is_none normalized then Raise (InvalidArgument (selector +:+ " requires " +:+ flag parameter)) else Ok normalized.

(** [_positive_int(value, selector, parameter, required)] *)
Definition positive_int (value : pyval) (selector parameter : string) (required : bool) : res pyval :=
  if is_none value then
    if required then Raise (InvalidArgument (selector +:+ " requires " +:+ flag parameter)) else Ok PNone
  else
    let bad := InvalidArgument (flag parameter +:+ " must be a positive integer") in
    match Numbers.py_int value with
    | Ok number => if number <? 1 then Raise bad else Ok (PInt number)
    | Raise (TypeError _) | Raise (ValueError _) => Raise bad
    | Raise e => Raise e
    | NoFuel => NoFuel
    end.

(** [_partition_index(value, selector)] *)
Definition partition_index (value : pyval) (selector : string) : res pyval :=
  let? number := positive_int value selector "PartitionIndex" true in
  match number with
  | PInt n => if 16 <? n then Raise (InvalidArgument "--partition-index must be between 1 and 16") else Ok number
  | _ => Ok number
  end.

(** [_password_from_source(password_env, password_file)] *)
Definition password_from_source (src : sources) (password_env password_file : option string) : res (option string) :=
  if PyStr.nonempty (default "" password_env) && PyStr.nonempty (default "" password_file)
  then Raise (InvalidArgument "use only one of --password-env or --password-file")
  else
    match password_env, password_file with
    | Some env, _ =>
        let env_name := PyStr.strip env in
        if negb (PyStr.nonempty env_name) then Raise (InvalidArgument "password environment variable name cannot be empty")
        else match Config.named_env (environ src) env_name None with
             | None => Raise (InvalidArgument ("password environment variable '" +:+ env_name +:+ "' is not set"))
             | Some value => Ok (Some value)
             end
    | None, Some file =>
        match read_file src file with
        | Ok text => Ok (Some (PyStr.rstrip_by is_newline text))
        | Raise e => if is_OSError e
                     then Raise (InvalidArgument ("failed to read password file '" +:+ expanded_path src file +:+ "': " +:+ exn_str e))
                     else Raise e
        | NoFuel => NoFuel
        end
    | None, None => Ok None
    end.

Definition source_value (values : pydict) (parameter : string) : pyval := dget (dict_get_or parameter "" PAYLOAD_SOURCES) values.

(** The value of a required parameter *)
Definition required_value (selector : string) (values : pydict) (parameter : string) : res pyval :=
  let value := source_value values parameter in
  if decide (parameter = "PartitionIndex") then partition_index value selector
  else if decide (parameter = "Size") then positive_int value selector parameter true
  else required_payload_value value selector parameter.

(** The value of an optional parameter *)
Definition optional_value (selector : string) (values : pydict) (parameter : string) : res pyval :=
  let value := source_value values parameter in
  if decide (parameter = "Port") then positive_int value selector parameter false else Ok (optional_payload_value value).

(** [_payload(spec, values)] *)
Definition partition_payload (spec : PartitionActionSpec) (values : pydict) : res pydict :=
  let? payload := res_fold (fun payload parameter =>
      let? v := required_value (selector spec) values parameter in Ok (dict_set parameter v payload)) [] (required spec) in
  res_fold (fun payload parameter =>
      let? v := optional_value (selector spec) values parameter in
      Ok (if is_none v then payload else dict_set parameter v payload)) payload (optional spec).

(** The key that [_redact_password] masks *)
Definition secret_key (key : string) : bool := bool_decide (key = "Password").

(** ** The service *)

Section Command.
Context (schemas : list Csdl.xml) {W : Type} `{!World W} `{!Vendor W} (src : sources).
Abbreviation MM := (M (mstate W)).

(** [_get(uri, do_async)] *)
Definition get (uri : string) (do_async : bool) : MM pydict :=
  try_Exception
    (let! r := v_query uri (with_async do_async) in ret (as_dict (py_or (data r) (PDict []))))
    (fun _ => ret []).

(** [_link(_dell_links(manager), key)] *)
Definition dell_link (manager : pydict) (key : string) : pyval :=
  link_id (sub key (sub "Dell" (sub "Oem" (dget "Links" manager)))).

(** [_persistent_storage_uri(do_async)] *)
Definition persistent_storage_uri (do_async : bool) : MM pyval :=
  let! ids := manager_ids in
  let! found := firstM (fun manager_uri =>
      let! manager := get manager_uri do_async in
      let uri := dell_link manager "DellPersistentStorageService" in
      ret (if truthy uri then Some uri else None)) ids in
  ret (default (PStr SERVICE_FALLBACK) found).

(** [_persistent_storage_service(do_async)] *)
Definition persistent_storage_service (do_async : bool) : MM (pyval * (pydict + CommandResult)) :=
  let! uri := persistent_storage_uri do_async in
  let! service := try_Exception
      (let! r := v_query (py_str uri) (with_async do_async) in ret (inl (as_dict (py_or (data r) (PDict [])))))
      (fun e => ret (inr (mkResult PNone PNone PNone (PStr ("failed to read " +:+ py_str uri +:+ ": " +:+ exn_str e))))) in
  ret (uri, service).

(** [{key: sorted(values or ()) for key, values in args.items()}] *)
Definition allowable (a : option RedfishAction) : res pydict :=
  res_fold (fun acc kv =>
      match py_iter (py_or kv.2 (PTuple [])) with
      | Some l => match py_sorted l with
                  | Some l => Ok (acc ++ [(kv.1, PList l)])
                  | None => Raise (TypeError "'<' not supported between instances")
                  end
      | None => Raise (type_error "object is not iterable" kv.2)
      end) [] (default [] (a ≫= args)).

(** The row of one action, none when the service does not offer it *)
Definition action_row (actions : list (string * RedfishAction)) (targets : pydict) (spec : PartitionActionSpec) : res (list pydict) :=
  let target := dget (full_type spec) targets in
  if negb (truthy target) then Ok []
  else
    let? allowed := allowable (dict_get (action_name spec) actions) in
    Ok [[("Action", PStr (selector spec)); ("FullType", PStr (full_type spec)); ("Target", target);
         ("Level", PStr (level_value (classify (full_type spec)))); ("RequiredParameters", PList (map PStr (required spec)));
         ("OptionalParameters", PList (map PStr (optional spec))); ("AllowableValues", PDict allowed);
         ("Description", PStr (description spec))]].

(** [_partition_action_rows(service)] *)
Definition partition_action_rows (service : pydict) : res (list pydict * list (string * RedfishAction)) :=
  let? actions := discover_redfish_actions (PDict service) in
  let? targets := flatten_action_targets (PDict service) in
  let? rows := res_fold (fun acc ks => let? r := action_row actions targets ks.2 in Ok (acc ++ r)) [] ACTION_SPECS in
  Ok (rows, actions).

(** ** The command *)

Definition partition_call (uri : pyval) (spec : PartitionActionSpec) (p : pydict) (do_async dry_run confirm irreversible : bool) : action_call :=
  Call (py_str uri) (action_name spec) p (full_type spec) do_async dry_run confirm irreversible.

(** [DellPersistentPartitionActions.execute(action, ..., confirm, confirm_irreversible, dry_run, do_async)]; [values] are
    the arguments by name, without the password *)
Definition dell_vflash_partition (action : option string) (values : pydict) (password_env password_file : option string)
    (confirm irreversible dry_run do_async : bool) : MM CommandResult :=
  let! (uri, service) := persistent_storage_service do_async in
  match service with
  | inr r => ret r
  | inl service =>
      let! (rows, actions) := lift_res (partition_action_rows service) in
      let listed key := PDict [("persistent_storage_service", uri); (key, PList (map PDict rows))] in
      match action with
      | None => ret (mkResult (listed "partition_actions") (actions_val actions) PNone PNone)
      | Some action =>
          match dict_get action ACTION_SPECS with
          | None => ret (mkResult (listed "available") (actions_val actions) PNone
                           (PStr ("unknown Dell persistent-storage partition action: " +:+ action)))
          | Some spec =>
              if negb (existsb (fun r => eq_str (dget "Action" r) action) rows) then
                ret (mkResult (listed "available") (actions_val actions) PNone
                       (PStr ("Dell persistent-storage partition action not found: " +:+ action)))
              else
                let! password := lift_res (password_from_source src password_env password_file) in
                let! p := lift_res (partition_payload spec (dict_set "password" (opt_str password) values)) in
                let! r := v_invoke_action schemas (partition_call uri spec p do_async dry_run confirm irreversible) 202 in
                ret (redact secret_key r)
          end
      end
  end.
End Command.

(** ** The payload *)

(** A value that the command accepts for a parameter. *)
Definition acceptable (parameter : string) (v : pyval) : Prop :=
  v <> PNone /\
  (parameter = "PartitionIndex" -> exists n, v = PInt n /\ 1 <= n <= 16) /\
  (parameter ∈ ["Size"; "Port"] -> exists n, v = PInt n /\ 1 <= n) /\
  v <> PStr "".

Lemma positive_result value sel parameter req v : positive_int value sel parameter req = Ok v ->
  (v = PNone /\ req = false) \/ exists n, v = PInt n /\ 1 <= n.
Proof.
  unfold positive_int. destruct (is_none value); [destruct req; intros [= <-]; by left|].
  destruct (Numbers.py_int value) as [n|[]|]; try done. case_match eqn:Hn; [done|]. intros [= <-]. right. exists n. split; [done|lia].
Qed.

Lemma optional_not_blank v : optional_payload_value v <> PStr "".
Proof.
  unfold optional_payload_value. destruct v; try done. destruct (PyStr.nonempty (PyStr.strip s)) eqn:Hn; [|done]. intros [= H].
  by rewrite H in Hn.
Qed.

Lemma required_acceptable sel values parameter v : required_value sel values parameter = Ok v -> parameter <> "Port" -> acceptable parameter v.
Proof.
  unfold required_value. case_decide as H1; [|case_decide as H2].
  - unfold partition_index. intros (n & [[_ [=]]|(z & -> & Hz)]%positive_result & Hv)%res_bind_ok _.
    case_match eqn:Hle; [done|]. injection Hv as <-. subst parameter. split_and!; [done| | |done].
    + intros _. exists z. split; [done|lia].
    + intros _. by exists z.
  - intros [[_ [=]]|(z & -> & Hz)]%positive_result _. split_and!; [done|by intros|by exists z|done].
  - unfold required_payload_value. destruct (is_none _) eqn:Hn; [done|]. intros [= Hv] Hp. split_and!.
    + intros ->. by rewrite Hv in Hn.
    + done.
    + intros [Hs|[Hs|[]%elem_of_nil]%elem_of_cons]%elem_of_cons; done.
    + rewrite <- Hv. apply optional_not_blank.
Qed.

Lemma optional_acceptable sel values parameter v : optional_value sel values parameter = Ok v -> is_none v = false ->
  parameter ∉ ["PartitionIndex"; "Size"] -> acceptable parameter v.
Proof.
  unfold optional_value. intros H Hn Hp. case_decide as H1.
  - apply positive_result in H as [[-> _]|(z & -> & Hz)]; [done|]. split_and!; [done|intros ->; destruct Hp; by left|by exists z|done].
  - injection H as Hv. split_and!.
    + intros ->. done.
    + intros ->. destruct Hp. by left.
    + intros [->|[->|[]%elem_of_nil]%elem_of_cons]%elem_of_cons; [destruct Hp; by right; left|done].
    + rewrite <- Hv. apply optional_not_blank.
Qed.

(** Adding parameters one by one, those that are skipped left out. *)
Lemma fold_parameters (f : string -> res pyval) (skip : pyval -> bool) ps acc p : NoDup (dict_keys acc ++ ps) ->
  res_fold (fun payload x => let? v := f x in Ok (if skip v then payload else dict_set x v payload)) acc ps = Ok p ->
  exists vs, Forall2 (fun x v => f x = Ok v) ps vs /\ p = acc ++ List.filter (fun kv => negb (skip kv.2)) (zip ps vs).
Proof.
  revert acc. induction ps as [|x ps IH]; intros acc Hnd; cbn [res_fold].
  - intros [= <-]. exists []. by rewrite app_nil_r.
  - intros (acc' & (v & Hv & [= <-])%res_bind_ok & H)%res_bind_ok. assert (x ∉ dict_keys acc) as Hx.
    { apply NoDup_app in Hnd as (_ & Hdis & _). intros Hin. apply (Hdis x Hin). by left. }
    assert (dict_set x v acc = acc ++ [(x, v)]) as Hset.
    { clear -Hx. induction acc as [|[k w] d IHd]; [done|]. cbn in Hx |- *. apply not_elem_of_cons in Hx as [Hk Hx].
      rewrite decide_False by done. by rewrite IHd. }
    destruct (skip v) eqn:Hskip.
    + destruct (IH acc) as (vs & Hvs & ->); [|exact H|].
      { eapply sublist_NoDup; [exact Hnd|]. apply sublist_app; [done|]. by apply sublist_cons. }
      exists (v :: vs). split; [by constructor|]. cbn. by rewrite Hskip.
    + rewrite Hset in H. destruct (IH (acc ++ [(x, v)])) as (vs & Hvs & ->); [|exact H|].
      { unfold dict_keys in *. rewrite map_app, <- app_assoc. exact Hnd. }
      exists (v :: vs). split; [by constructor|]. cbn. by rewrite Hskip, <- app_assoc.
Qed.

Lemma fold_parameters_all (f : string -> res pyval) ps p : NoDup ps ->
  res_fold (fun payload x => let? v := f x in Ok (dict_set x v payload)) [] ps = Ok p ->
  exists vs, Forall2 (fun x v => f x = Ok v) ps vs /\ p = zip ps vs.
Proof.
  intros Hnd H. destruct (fold_parameters f (fun _ => false) ps [] p Hnd H) as (vs & Hvs & ->). exists vs. split; [done|]. cbn.
  clear. induction (zip ps vs) as [|kv l IH]; [done|]. cbn. by rewrite IH.
Qed.

(** The parameters of an action are distinct, and the numeric ones are where their checks are. *)
Definition orderly (spec : PartitionActionSpec) : Prop :=
  NoDup (required spec ++ optional spec) /\ "Port" ∉ required spec /\ Forall (fun x => x ∉ ["PartitionIndex"; "Size"]) (optional spec).

Lemma specs_orderly : Forall (fun ks => orderly ks.2) ACTION_SPECS.
Proof. repeat (constructor; [split_and!; apply (bool_decide_unpack _); by vm_compute|]). constructor. Qed.

Lemma spec_orderly sel spec : dict_get sel ACTION_SPECS = Some spec -> orderly spec.
Proof. intros H%dict_get_In. pose proof specs_orderly as Ho. rewrite Forall_forall in Ho. exact (Ho _ H). Qed.

(** The payload of a partition action is exact: every required parameter in order, then the optional ones that were given, each
    with the value that its check returned, a partition index between 1 and 16, other numbers positive, and no text blank. *)
Theorem partition_payload_exact sel spec values p :
  dict_get sel ACTION_SPECS = Some spec -> partition_payload spec values = Ok p ->
  exists rs os, Forall2 (fun x v => required_value (selector spec) values x = Ok v) (required spec) rs /\
    Forall2 (fun x v => optional_value (selector spec) values x = Ok v) (optional spec) os /\
    p = zip (required spec) rs ++ List.filter (fun kv => negb (is_none kv.2)) (zip (optional spec) os) /\
    Forall (fun kv => acceptable kv.1 kv.2) p.
Proof.
  intros (Hnd & Hport & Hopt)%spec_orderly (p0 & H1 & H2)%res_bind_ok.
  apply fold_parameters_all in H1 as (rs & Hrs & ->); [|by apply NoDup_app in Hnd as [? _]].
  assert (dict_keys (zip (required spec) rs) = required spec) as Hkeys.
  { unfold dict_keys. apply fst_zip. by rewrite (Forall2_length _ _ _ Hrs). }
  apply fold_parameters in H2 as (os & Hos & ->); [|by rewrite Hkeys].
  exists rs, os. split_and!; [done|done|done|]. apply Forall_app. split.
  - clear -Hrs Hport. induction Hrs as [|x v xs vs Hv _ IH]; [constructor|]. apply not_elem_of_cons in Hport as [Hx Hport]. cbn.
    constructor; [|auto]. cbn. eapply required_acceptable; [exact Hv|]. by intros ->.
  - clear -Hos Hopt. induction Hos as [|x v xs vs Hv _ IH]; [constructor|]. apply Forall_cons in Hopt as [Hx Hopt]. cbn.
    destruct (is_none v) eqn:Hn; cbn; [auto|]. constructor; [|auto]. by eapply optional_acceptable.
Qed.

Lemma selector_key sel spec : dict_get sel ACTION_SPECS = Some spec -> selector spec = sel.
Proof.
  intros H%dict_get_In. assert (Forall (fun ks => selector ks.2 = ks.1) ACTION_SPECS) as Hall by (repeat constructor).
  rewrite Forall_forall in Hall. exact (Hall _ H).
Qed.

Section Guard.
Context (schemas : list Csdl.xml) {W : Type} `{!World W} `{!Vendor W} (src : sources).

Lemma partition_service_reads b : emits is_get (persistent_storage_service (W := W) b).
Proof. unfold persistent_storage_service, persistent_storage_uri, get. frame; auto with emits. Qed.

(** No action of the service runs without confirmation, and those that erase need both flags. *)
Lemma levels_need_confirm spec full c : (exists sel, dict_get sel ACTION_SPECS = Some spec) ->
  full = full_type spec \/ short_of full = action_name spec -> blocked_reason (classify full) c = None ->
  confirm c = true /\ (full = full_type spec -> selector spec ∈ ["delete"; "format"; "initialize"] -> confirm_irreversible c = true).
Proof.
  intros [sel Hin%dict_get_In] Hfull Hb. assert (full ∉ harmless) as Hh.
  { assert (Forall (fun ks => Forall (fun a => a <> full_type ks.2 /\ short_of a <> action_name ks.2) harmless) ACTION_SPECS) as Hall
      by (apply (bool_decide_unpack _); by vm_compute).
    rewrite Forall_forall in Hall. specialize (Hall _ Hin). rewrite Forall_forall in Hall. intros Hf. destruct (Hall _ Hf) as [H1 H2].
    destruct Hfull; [by apply H1|by apply H2]. }
  assert (classify full = DESTRUCTIVE \/ classify full = IRREVERSIBLE) as Hc.
  { destruct (classify full) eqn:E; auto; exfalso; apply Hh, classify_free; auto. }
  unfold blocked_reason in Hb. split.
  - destruct Hc as [Hc|Hc]; rewrite Hc in Hb; by destruct (confirm c).
  - intros -> Hsel. assert (classify (full_type spec) = IRREVERSIBLE) as Hi.
    { assert (Forall (fun ks => selector ks.2 ∈ ["delete"; "format"; "initialize"] -> level_value (classify (full_type ks.2)) = "irreversible") ACTION_SPECS) as Hall.
      { repeat (constructor; [intros H; first [reflexivity|exfalso; revert H; apply (bool_decide_unpack _); by vm_compute]|]). constructor. }
      rewrite Forall_forall in Hall. specialize (Hall _ Hin Hsel). cbn in Hall. by destruct (classify (full_type spec)). }
    rewrite Hi in Hb. by destruct (confirm c), (confirm_irreversible c).
Qed.

(** A named action once the service is read. *)
Lemma partition_run sel spec values pe pf confirm irr dry b (s : mstate W) : dict_get sel ACTION_SPECS = Some spec ->
  dell_vflash_partition schemas src (Some sel) values pe pf confirm irr dry b s =
  match persistent_storage_service b s with
  | (s1, Ok (uri, inl service)) =>
      match partition_action_rows service with
      | Ok (rows, actions) =>
          if negb (existsb (fun r => eq_str (dget "Action" r) sel) rows)
          then (s1, Ok (mkResult (PDict [("persistent_storage_service", uri); ("available", PList (map PDict rows))]) (actions_val actions) PNone
                          (PStr ("Dell persistent-storage partition action not found: " +:+ sel))))
          else
            match (let? pw := password_from_source src pe pf in partition_payload spec (dict_set "password" (opt_str pw) values)) with
            | Ok p => (let! r := v_invoke_action schemas (partition_call uri spec p b dry confirm irr) 202 in ret (redact secret_key r)) s1
            | Raise e => (s1, Raise e)
            | NoFuel => (s1, NoFuel)
            end
      | Raise e => (s1, Raise e)
      | NoFuel => (s1, NoFuel)
      end
  | (s1, Ok (uri, inr r)) => (s1, Ok r)
  | (s1, Raise e) => (s1, Raise e)
  | (s1, NoFuel) => (s1, NoFuel)
  end.
Proof.
  intros Hspec. unfold dell_vflash_partition, bind at 1. destruct (persistent_storage_service b s) as [s1 [[uri [service|r]]|e|]]; try done.
  unfold bind at 1, lift_res at 1. destruct (partition_action_rows service) as [[rows actions]|e|]; try done. rewrite Hspec.
  destruct (negb (existsb _ _)); [done|]. unfold bind at 1, lift_res at 1. destruct (password_from_source src pe pf) as [pw|e|]; done.
Qed.

(** A partition action is posted only as it should be: GETs, and then at most one POST, only when an offered action was named,
    confirmed and not a dry run, and with both confirmations when it deletes, formats or initializes; the payload is exact. *)
Theorem partition_guarded action values pe pf confirm irr dry b (s : mstate W) :
  exists s1 reads, trace s1 = trace s ++ reads /\ Forall is_get reads /\
    ((dell_vflash_partition schemas src action values pe pf confirm irr dry b s).1 = s1 \/
     exists sel spec pw p resource actions full t,
       action = Some sel /\ dict_get sel ACTION_SPECS = Some spec /\ confirm = true /\ dry = false /\
       (full = full_type spec -> sel ∈ ["delete"; "format"; "initialize"] -> irr = true) /\
       password_from_source src pe pf = Ok pw /\ partition_payload spec (dict_set "password" (opt_str pw) values) = Ok p /\
       has_action (as_dict resource) full t /\ (full = full_type spec \/ short_of full = action_name spec) /\
       dell_vflash_partition schemas src action values pe pf confirm irr dry b s =
         (let! (result, r) := v_write POST (py_str t) (Some p) b 202 in ret (redact secret_key (action_report actions full t result r))) s1).
Proof.
  destruct (partition_service_reads b s) as (l & Ht & Hl). destruct action as [sel|].
  2: { unfold dell_vflash_partition, bind at 1. destruct (persistent_storage_service b s) as [s1 [[uri [service|r]]|e|]]; [|exists s1, l; auto..].
       exists s1, l. split; [done|]. split; [done|]. left. unfold bind, lift_res. by destruct (partition_action_rows service) as [[rows actions]|e|]. }
  destruct (dict_get sel ACTION_SPECS) as [spec|] eqn:Hspec.
  2: { unfold dell_vflash_partition, bind at 1. destruct (persistent_storage_service b s) as [s1 [[uri [service|r]]|e|]]; [|exists s1, l; auto..].
       exists s1, l. split; [done|]. split; [done|]. left. unfold bind, lift_res. rewrite Hspec. by destruct (partition_action_rows service) as [[rows actions]|e|]. }
  remember (dell_vflash_partition schemas src (Some sel) values pe pf confirm irr dry b s) as out eqn:Hout.
  rewrite (partition_run _ _ _ _ _ _ _ _ _ _ Hspec) in Hout.
  destruct (persistent_storage_service b s) as [s1 [[uri [service|r]]|e|]]; [|exists s1, l; subst out; auto..]. cbn [fst] in Ht.
  destruct (partition_action_rows service) as [[rows actions]|e|]; [|exists s1, l; subst out; auto..].
  destruct (negb (existsb _ _)); [exists s1, l; subst out; auto|].
  destruct (password_from_source src pe pf) as [pw|e|] eqn:Hpw; [|exists s1, l; subst out; auto..]. cbn [res_bind] in Hout.
  destruct (partition_payload spec (dict_set "password" (opt_str pw) values)) as [p|e|] eqn:Hp; [|exists s1, l; subst out; auto..].
  set (c := partition_call uri spec p b dry confirm irr) in *.
  destruct (v_invoke_guarded schemas c 202 s1) as (s2 & l2 & Ht2 & Hl2 & Hcase). exists s2, (l ++ l2).
  split; [by rewrite Ht2, Ht, app_assoc|]. split; [by apply Forall_app|]. unfold bind at 1 in Hout.
  destruct Hcase as [H1|(resource & acts & full & t & Hd & Hr & Hrun & Hdry & Hblk)].
  - left. rewrite Hout. destruct (v_invoke_action schemas c 202 s1) as [s3 [r|e|]]; exact H1.
  - right. exists sel, spec, pw, p, resource, acts, full, t. destruct (Actions.resolve_sound resource acts c full t Hd Hr) as (Hhas & _ & Hname).
    destruct (levels_need_confirm spec full c (ex_intro _ sel Hspec) Hname Hblk) as [Hconf Hirr].
    assert (selector spec = sel) as Hsel by (by apply selector_key).
    split_and!; try done; [by rewrite <- Hsel|]. rewrite Hout, Hrun. change (payload c) with p. change (call_async c) with b. unfold bind.
    by destruct (v_write POST (py_str t) (Some p) b 202 s2) as [s3 [[result r]|e|]].
Qed.
End Guard.

(** ** Secrets *)

Lemma password_source x : x <> "Password" -> dict_get_or x "" PAYLOAD_SOURCES <> "password".
Proof. intros Hx. unfold dict_get_or. cbn [PAYLOAD_SOURCES dict_get]. repeat case_decide; subst; done. Qed.

(** The values do not depend on the password, that of the password apart. *)
Lemma values_without_password sel values x v w :
  x <> "Password" -> required_value sel (dict_set "password" v values) x = required_value sel (dict_set "password" w values) x /\
    optional_value sel (dict_set "password" v values) x = optional_value sel (dict_set "password" w values) x.
Proof.
  intros Hx. assert (forall u, source_value (dict_set "password" u values) x = source_value values x) as Hs.
  { intros u. unfold source_value, dget, dict_get_or at 1 3. rewrite dict_get_set_ne; [done|]. by apply password_source. }
  unfold required_value, optional_value. by rewrite !Hs.
Qed.

Lemma partition_payloads_alike sel spec values v w p q : dict_get sel ACTION_SPECS = Some spec ->
  partition_payload spec (dict_set "password" v values) = Ok p -> partition_payload spec (dict_set "password" w values) = Ok q ->
  dict_keys p = dict_keys q -> alike secret_key p q.
Proof.
  intros (Hnd & _ & _)%spec_orderly Hp Hq Hk.
  assert (forall u r, partition_payload spec (dict_set "password" u values) = Ok r ->
    forall kv, kv ∈ r -> kv.1 <> "Password" ->
      (if decide (kv.1 ∈ required spec) then required_value (selector spec) (dict_set "password" v values) kv.1
       else optional_value (selector spec) (dict_set "password" v values) kv.1) = Ok kv.2) as Hval.
  { clear Hp Hq Hk. intros u r (p0 & H1 & H2)%res_bind_ok.
    apply fold_parameters_all in H1 as (rs & Hrs & ->); [|by apply NoDup_app in Hnd as [? _]].
    assert (dict_keys (zip (required spec) rs) = required spec) as Hkeys by (unfold dict_keys; apply fst_zip; by rewrite (Forall2_length _ _ _ Hrs)).
    apply fold_parameters in H2 as (os & Hos & ->); [|by rewrite Hkeys]. intros [x y] [Hin|Hin]%elem_of_app Hx; cbn [fst snd] in *.
    - assert (x ∈ required spec) as Hreq by (rewrite <- Hkeys; apply list_elem_of_fmap; by exists (x, y)). rewrite decide_True by done.
      apply list_elem_of_lookup in Hin as [i Hi]. apply lookup_zip_Some in Hi as [Hi1 Hi2].
      destruct (Forall2_lookup_lr _ _ _ _ _ _ Hrs Hi1 Hi2). by destruct (values_without_password (selector spec) values x v u Hx) as [-> _].
    - apply list_elem_of_In, filter_In in Hin as [Hin _]. apply list_elem_of_In, list_elem_of_lookup in Hin as [i Hi].
      apply lookup_zip_Some in Hi as [Hi1 Hi2]. rewrite decide_False.
      + destruct (Forall2_lookup_lr _ _ _ _ _ _ Hos Hi1 Hi2). by destruct (values_without_password (selector spec) values x v u Hx) as [_ ->].
      + apply NoDup_app in Hnd as (_ & Hdis & _). intros Hreq. apply (Hdis x Hreq). by apply list_elem_of_lookup_2 in Hi1. }
  pose proof (Hval v p Hp) as Hvp. pose proof (Hval w q Hq) as Hvq. clear Hval Hp Hq Hnd. unfold alike, mask. revert q Hk Hvq.
  induction p as [|[k x] p IH]; intros [|[k' y] q] Hk Hvq; try done. cbn in Hk. injection Hk as -> Hk. cbn [map fst snd]. f_equal.
  - f_equal. unfold secret_key. case_bool_decide as Hsec; [done|]. pose proof (Hvp (k', x) ltac:(by left) Hsec) as H1.
    pose proof (Hvq (k', y) ltac:(by left) Hsec) as H2. cbn in H1, H2. congruence.
  - apply IH; [|done|]; intros kv Hin; [apply Hvp|apply Hvq]; by right.
Qed.

Section Preview.
Context (schemas : list Csdl.xml) {W : Type} `{!World W} `{!Vendor W}.

(** A preview does not reveal the share password: an unconfirmed command, or a dry run, read against two environments that
    hold a password, sends the same requests and gives the same result, as long as the metadata of the action does not
    restrict the password. *)
Theorem partition_preview_hides src1 src2 sel spec values pe pf v w confirm irr dry b p q (s : mstate W) :
  dict_get sel ACTION_SPECS = Some spec ->
  password_from_source src1 pe pf = Ok v -> password_from_source src2 pe pf = Ok w ->
  partition_payload spec (dict_set "password" (opt_str v) values) = Ok p ->
  partition_payload spec (dict_set "password" (opt_str w) values) = Ok q -> dict_keys p = dict_keys q ->
  dry || negb confirm = true ->
  (forall s1 uri service resource actions full t, persistent_storage_service b s = (s1, Ok (uri, inl service)) ->
     let c := partition_call uri spec p b dry confirm irr in
     (v_read_resource c s1).2 = Ok (inl resource) -> discover_redfish_actions resource = Ok actions ->
     resolve_action resource actions c = Ok (Some (full, t)) ->
     unrestricted schemas secret_key full (dict_get (action_name spec) actions)) ->
  dell_vflash_partition schemas src1 (Some sel) values pe pf confirm irr dry b s =
  dell_vflash_partition schemas src2 (Some sel) values pe pf confirm irr dry b s.
Proof.
  intros Hspec Hv Hw Hp Hq Hk Hdry Hu. pose proof (partition_payloads_alike _ _ _ _ _ _ _ Hspec Hp Hq Hk) as Halike.
  rewrite !(partition_run _ _ _ _ _ _ _ _ _ _ _ _ Hspec), Hv, Hw. cbn [res_bind]. rewrite Hp, Hq.
  destruct (persistent_storage_service b s) as [s1 [[uri [service|r]]|e|]]; try done.
  destruct (partition_action_rows service) as [[rows actions0]|e|]; try done. destruct (negb (existsb _ _)); [done|].
  refine (preview_alike schemas secret_key (partition_call uri spec p b dry confirm irr) p q 202 s1 _ Halike
    (fun resource actions full t => Hu s1 uri service resource actions full t eq_refl)).
  intros resource actions x full t Hd (Hres & Hno & Hblk)%decide_fire.
  destruct (Actions.resolve_sound resource actions _ full t Hd Hres) as (_ & _ & Hname).
  destruct (levels_need_confirm spec full _ (ex_intro _ sel Hspec) Hname Hblk) as [Hconf _]. cbn in Hconf, Hno. by subst.
Qed.
End Preview.

(** ** Examples *)

Definition vflash_service : pyval :=
  PDict [("Actions", PDict [("#DellPersistentStorageService.ExportDataFromPartition", PDict [("target", PStr "/redfish/v1/export")]);
                            ("#DellPersistentStorageService.DeletePartition", PDict [("target", PStr "/redfish/v1/delete")])])].

Definition vflash_routes : list (method * string * list response) :=
  [(GET, "https://10.0.0.42" +:+ SERVICE_FALLBACK, [ok_json vflash_service; ok_json vflash_service]);
   (POST, "https://10.0.0.42/redfish/v1/delete", [Response 202 [] (inr "")])].

Definition vflash_invoker : SyncInvoker (mstate sim) := fun _ _ _ => raise (ValueError "no command").
Definition vflash_manager : Vendor sim := dmtf_vendor (SyncInvoker0 := vflash_invoker) 3 (fun _ => 0).

Definition share_password (pw : string) : sources := Sources [("SHARE_PW", pw)] (fun _ => Raise (FileNotFoundError "no such file")) (fun p => p).

Definition export_values : pydict := [("partition_index", PInt 3); ("share_type", PStr "NFS"); ("image_name", PStr " image "); ("share_port", PInt 2049)].

Lemma partition_payload_exact_witness :
  exists spec p, dict_get "export" ACTION_SPECS = Some spec /\ partition_payload spec export_values = Ok p /\
    dict_keys p = ["PartitionIndex"; "ShareType"; "ImageName"; "Port"] /\ Forall (fun kv => acceptable kv.1 kv.2) p.
Proof.
  eexists _, _. split; [reflexivity|]. split; [reflexivity|]. split; [reflexivity|].
  destruct (partition_payload_exact "export" _ export_values _ eq_refl eq_refl) as (rs & os & _ & _ & _ & H). exact H.
Defined.

Lemma partition_preview_hides_witness :
  dell_vflash_partition (Vendor0 := vflash_manager) [] (share_password "a") (Some "export") export_values (Some "SHARE_PW") None false false false false
    (sim_state sample_manager vflash_routes) =
  dell_vflash_partition (Vendor0 := vflash_manager) [] (share_password "b") (Some "export") export_values (Some "SHARE_PW") None false false false false
    (sim_state sample_manager vflash_routes).
Proof.
  eapply (partition_preview_hides (Vendor0 := vflash_manager) [] (share_password "a") (share_password "b") "export");
    [reflexivity|reflexivity|reflexivity|reflexivity|reflexivity|reflexivity|reflexivity|].
  intros s1 uri service resource actions full t Hs c Hr Hd Hres. vm_compute in Hs. injection Hs as <- <- <-. subst c. vm_compute in Hr.
  injection Hr as <-. vm_compute in Hd. injection Hd as <-. vm_compute in Hres. injection Hres as <- <-.
  intros strict parameters Hp Hne. destruct Hne. vm_compute in Hp. by injection Hp as _ <-.
Defined.

(** Deleting needs both confirmations. *)
Example delete_needs_both :
  map (fun irr => length (trace (dell_vflash_partition (Vendor0 := vflash_manager) [] (share_password "") (Some "delete") [("partition_index", PInt 3)]
         None None true irr false false (sim_state sample_manager vflash_routes)).1)) [false; true] = [3; 4]%nat.
Proof. vm_compute. reflexivity. Qed.
End DellPartition.
