(* ===== verification/GuardedActions.v ===== *)
(** * A calculus of guarded commands

    Most vendor commands of src/redfish_ctl/ read some resources, build a payload and hand it to [invoke_action].  This
    file says once what that means for the requests that are sent, as a predicate on computations that is closed under
    the ways the commands are put together, with a tactic that applies the rules.  It also has the reads and the lookups
    that many of these commands repeat. *)

From stdpp Require Import base list strings pretty gmap.
From Stdlib Require Import Ascii ZArith Lia.
From S2P Require Import Prelude PyVal Effects Query Http Manager Discovery Csdl ActionPolicy Actions Urls Numbers Invoker Idrac Reboot Vendor VendorActions MockRules.

Module GuardedActions.
Import Http RedfishManager ActionPolicy Actions Vendor VendorActions.
Local Open Scope Z_scope.
Local Open Scope py_scope.

Section Guards.
Context {W : Type} `{!World W} `{!Vendor W}.
Abbreviation MM := (M (mstate W)).

(** What entitles a call to the POST of an action: it is no dry run, its flags satisfy the level of the action, and the
    document [doc] of the resource has that action with that target; it is the full type that was asked for, or [doc] has no
    target for that type and it is an action with the short name that was asked for. *)
Record entitled (doc : pyval) (c : action_call) (full : string) (t : pyval) : Prop := {
  en_wet : dry_run c = false;
  en_level : blocked_reason (classify full) c = None;
  en_offered : has_action (as_dict doc) full t;
  en_named : full = full_action_type c \/
    short_of full = name c /\
      (full_action_type c = "" \/ forall targets, flatten_action_targets doc = Ok targets -> dict_get (full_action_type c) targets = None)
}.

(** [m] reads, and then ends, or makes one call that [P] allows: it reads the resource of the call and posts the payload of
    the call to the target of an action of the document that this read returned. *)
Definition guards_at {A} (P : action_call -> string -> Prop) (m : MM A) (s : mstate W) : Prop :=
  exists s0 reads, trace s0 = trace s ++ reads /\ Forall is_get reads /\
    ((m s).1 = s0 \/
     exists c e full t s1 r, P c full /\ v_query (resource_uri c) (with_async (call_async c)) s0 = (s1, Ok r) /\
       entitled (data r) c full t /\ (m s).1 = (v_write POST (py_str t) (Some (payload c)) (call_async c) e s1).1).

Definition guards {A} (P : action_call -> string -> Prop) (m : MM A) : Prop := forall s, guards_at P m s.

Context (P : action_call -> string -> Prop).

Lemma guards_reads {A} (m : MM A) : emits is_get m -> guards P m.
Proof. intros Hm s. destruct (Hm s) as (l & Ht & Hl). exists (m s).1, l. auto. Qed.

Lemma guards_here {A} (m : MM A) s : guards P m -> guards_at P m s.
Proof. intros Hm. apply Hm. Qed.

(** What a read returned, and from which state, is known when the rest runs. *)
Lemma guards_at_bind {A B} (m : MM A) (k : A -> MM B) s : emits is_get m ->
  (forall s1 a, m s = (s1, Ok a) -> guards_at P (k a) s1) -> guards_at P (bind m k) s.
Proof.
  intros Hm Hk. destruct (Hm s) as (l & Ht & Hl). unfold guards_at, bind. destruct (m s) as [s1 [a|e|]]; cbn in Ht; [|exists s1, l; auto..].
  destruct (Hk s1 a eq_refl) as (s2 & l2 & Ht2 & Hl2 & H). exists s2, (l ++ l2). rewrite Ht2, Ht, app_assoc, Forall_app. auto.
Qed.

Lemma guards_bind {A B} (m : MM A) (k : A -> MM B) : emits is_get m -> (forall a, guards P (k a)) -> guards P (bind m k).
Proof. intros Hm Hk s. apply guards_at_bind; [done|]. intros s1 a _. apply Hk. Qed.

Lemma guards_bind_post {A B} (Q : A -> Prop) (m : MM A) (k : A -> MM B) : emits is_get m ->
  (forall s s1 a, m s = (s1, Ok a) -> Q a) -> (forall a, Q a -> guards P (k a)) -> guards P (bind m k).
Proof. intros Hm HQ Hk s. apply guards_at_bind; [done|]. intros s1 a Ha. eapply Hk, HQ, Ha. Qed.

(** A computed value is known when the rest runs. *)
Lemma guards_lift {A B} (r : res A) (k : A -> MM B) : (forall a, r = Ok a -> guards P (k a)) -> guards P (bind (lift_res r) k).
Proof.
  intros Hk s. unfold guards_at, bind, lift_res. destruct r as [a|e|]; [by apply Hk|exists s, []; rewrite app_nil_r; auto..].
Qed.

(** What is done with the result does not touch the state. *)
Lemma guards_then {A B} (m : MM A) (k : A -> MM B) : guards P m -> (forall a s, (k a s).1 = s) -> guards P (bind m k).
Proof.
  intros Hm Hk s. unfold guards_at. assert ((bind m k s).1 = (m s).1) as ->; [|apply Hm].
  unfold bind. destruct (m s) as [s2 [a|e|]]; [apply Hk|done..].
Qed.

Lemma guards_invoke schemas c e : (forall full, dry_run c = false -> P c full) -> guards P (v_invoke_action schemas c e).
Proof.
  intros HP s. destruct (v_invoke_cases schemas c e s) as [(l & Ht & Hl)|(s1 & r & actions & full & t & Hq & Hd & Hr & Hdry & Hblk & Hrun)].
  - exists (v_invoke_action schemas c e s).1, l. auto.
  - exists s, []. rewrite app_nil_r. do 2 (split; [done|]). right. exists c, e, full, t, s1, r. split; [auto|]. split; [done|]. split; [|done].
    destruct (Actions.resolve_sound _ _ _ _ _ Hd Hr) as (Hhas & _ & _). rewrite Actions.as_dict_or in Hhas.
    constructor; [done..|]. by eapply Actions.resolve_preferred.
Qed.

(** As a budget: at most one write, a POST. *)
Lemma guards_writes {A} (m : MM A) : guards P m -> writes 1 (fun rq => rq_method rq = POST) m.
Proof.
  intros Hm s. destruct (Hm s) as (s0 & l & Ht & Hl & [->|(c & e & full & t & s1 & r & _ & Hq & _ & ->)]).
  - exists l. rewrite (reads_no_writes _ Hl). split; [done|]. split; [simpl; lia|constructor].
  - destruct (v_query_reads (resource_uri c) (with_async (call_async c)) s0) as (l1 & Ht1 & Hl1). rewrite Hq in Ht1. cbn in Ht1.
    destruct (writes_sends _ 1 _ (v_write_once POST (py_str t) (Some (payload c)) (call_async c) e) s1) as (l2 & Ht2 & Hn & HP).
    exists ((l ++ l1) ++ l2). rewrite Ht2, Ht1, Ht, !app_assoc. split; [done|]. unfold write_requests. rewrite filter_app.
    fold (write_requests (l ++ l1)) (write_requests l2). by rewrite (reads_no_writes (l ++ l1)) by (by apply Forall_app).
Qed.
End Guards.

Lemma guards_at_weaken {W} `{!World W} `{!Vendor W} {A} (P Q : action_call -> string -> Prop) (m : M (mstate W) A) s :
  (forall c full doc t, P c full -> entitled doc c full t -> Q c full) -> guards_at P m s -> guards_at Q m s.
Proof.
  intros HPQ (s0 & l & Ht & Hl & H). exists s0, l. split; [done|]. split; [done|].
  destruct H as [H|(c & e & full & t & s1 & r & HP & Hq & He & H)]; [by left|right]. exists c, e, full, t, s1, r. eauto.
Qed.

Lemma guards_weaken {W} `{!World W} `{!Vendor W} {A} (P Q : action_call -> string -> Prop) (m : M (mstate W) A) :
  (forall c full doc t, P c full -> entitled doc c full t -> Q c full) -> guards P m -> guards Q m.
Proof. intros HPQ Hm s. eapply guards_at_weaken; [done|apply Hm]. Qed.

(** No harmless action has the full name or the short name: what is resolved needs a confirmation. *)
Definition risky (full_type action_name : string) : bool :=
  forallb (fun a => negb (bool_decide (a = full_type)) && negb (bool_decide (short_of a = action_name))) harmless.

Lemma risky_confirmed doc c full t : entitled doc c full t -> risky (full_action_type c) (name c) = true -> confirm c = true.
Proof.
  intros [_ Hb _ Hn] Hr. assert (full ∉ harmless) as Hh.
  { intros Hin%list_elem_of_In. unfold risky in Hr. rewrite forallb_forall in Hr. specialize (Hr _ Hin).
    apply andb_true_iff in Hr as [H1%negb_true_iff%bool_decide_eq_false H2%negb_true_iff%bool_decide_eq_false]. by destruct Hn as [|[]]. }
  destruct (confirm c) eqn:E; [done|]. unfold blocked_reason in Hb. rewrite E in Hb.
  destruct (classify full) eqn:Hc; cbn in Hb; try done; exfalso; apply Hh, classify_free; auto.
Qed.

(** An irreversible action that is asked for by its full name needs both. *)
Lemma irreversible_confirmed doc c full t : entitled doc c full t -> full = full_action_type c ->
  level_value (classify (full_action_type c)) = "irreversible" -> confirm c = true /\ confirm_irreversible c = true.
Proof.
  intros [_ Hb _ _] -> Hl. unfold blocked_reason in Hb. destruct (classify (full_action_type c)); try done.
  by destruct (confirm c), (confirm_irreversible c).
Qed.

(** The rules, applied from the outside in; reads are left to [frame]. *)
Ltac guard_step :=
  lazymatch goal with
  | |- forall _, _ => intros ?
  | |- guards _ (bind (lift_res _) _) => apply guards_lift; intros ? ?
  | |- guards _ (bind _ _) => first [ apply guards_bind; [solve [frame; eauto 3 with emits]|] | apply guards_then; [|done] ]
  | |- guards _ (v_invoke_action _ _ _) => apply guards_invoke
  | |- guards _ (match ?x with _ => _ end) => destruct x eqn:?
  | |- guards _ _ => apply guards_reads; solve [frame; eauto 3 with emits]
  end.
Ltac guarding := repeat guard_step.

(** ** Reads and lookups the commands share *)

(** A method that only a [str] has *)
Definition as_text (attr : string) (v : pyval) : res string :=
  match v with
  | PStr s => Ok s
  | v => Raise (AttributeError ("'" +:+ type_name v +:+ "' object has no attribute '" +:+ attr +:+ "'"))
  end.

(** What a set or a dict needs of its key *)
Definition hashable (v : pyval) : res pyval :=
  match v with PDict _ | PList _ => Raise (type_error "unhashable type" v) | _ => Ok v end.

(** [(v or {}).get(key)] *)
Definition get_of (v : pyval) (key : string) : res pyval := get_attr (py_or v (PDict [])) key.

(** [link.get("@odata.id") if isinstance(link, dict) else None] for [link = (data or {}).get(key)] *)
Definition link (data : pyval) (key : string) : res pyval := let? l := get_of data key in Ok (link_id l).

(** The same for [link = data.get(key) if isinstance(data, dict) else None] *)
Definition safe_link (data : pyval) (key : string) : pyval := link_id (sub key data).

(** [Links.Oem.Dell] and [Oem.Dell] where every step is checked; absent ones are no mapping *)
Definition links_oem_dell (data : pyval) : pyval := sub "Dell" (sub "Oem" (sub "Links" data)).
Definition oem_dell (data : pyval) : pyval := sub "Dell" (sub "Oem" data).

(** [_oem_dell_link(resource, key)]: [Links.Oem.Dell], then [Oem.Dell] *)
Definition oem_dell_link (resource : pyval) (key : string) : res pyval :=
  let? links := get_of resource "Links" in
  let? oem := get_of links "Oem" in
  let? dell := get_of oem "Dell" in
  let? linked := link dell key in
  if truthy linked then Ok linked
  else
    let? oem := get_of resource "Oem" in
    let? dell := get_of oem "Dell" in
    link dell key.

(** [_clean_required(value, label)] *)
Definition clean_required (value : option string) (label : string) : res string :=
  let stripped := PyStr.strip (default "" value) in
  if PyStr.nonempty stripped then Ok stripped else Raise (InvalidArgument (label +:+ " cannot be empty")).

(** [uri.rstrip("/").rsplit("/", 1)[-1]] *)
Definition last_segment (uri : string) : string := Urls.after_last "/" (PyStr.rstrip_char "/" uri).

(** The first occurrence of each; [list(dict.fromkeys(l))] and the loops over a [seen] set *)
Fixpoint unique (seen l : list string) : list string :=
  match l with
  | [] => []
  | x :: l' => if bool_decide (x ∈ seen) then unique seen l' else x :: unique (x :: seen) l'
  end.

Section Reads.
Context {W : Type} `{!World W} `{!Vendor W}.
Abbreviation MM := (M (mstate W)).

(** A read that gives [None] when it fails *)
Definition read_optional (uri : pyval) (do_async : bool) : MM (option pyval) :=
  try_Exception (let! r := v_query (py_str uri) (with_async do_async) in ret (Some (py_or (data r) (PDict [])))) (fun _ => ret None).

(** A read that gives [{}] when it fails or is no object *)
Definition read_object (uri : pyval) (do_async : bool) : MM pydict :=
  let! r := read_optional uri do_async in ret (match r with Some (PDict d) => d | _ => [] end).

Lemma read_optional_reads uri b : emits is_get (read_optional uri b).
Proof. unfold read_optional. frame; auto with emits. Qed.

Lemma read_object_reads uri b : emits is_get (read_object uri b).
Proof. unfold read_object. frame; auto using read_optional_reads. Qed.

Lemma system_ids_reads : emits is_get (discover_computer_system_ids (W := W)).
Proof. unfold discover_computer_system_ids. frame; auto with emits. Qed.
End Reads.

#[export] Hint Resolve read_optional_reads read_object_reads system_ids_reads : emits.
End GuardedActions.
