(* ===== verification/DellRaid.v ===== *)
(** * Dell RAID actions

    The commands of src/redfish_ctl/raid/ that act on DellRaidService: identify LEDs (cmd_dell_raid_blink.py), hot spares
    (cmd_dell_raid_spare.py), cancelling background work (cmd_dell_raid_cancel.py), clearing controller state
    (cmd_dell_raid_clear_actions.py), foreign configurations (cmd_dell_raid_foreign_config.py), physical disks
    (cmd_pd_state.py), configuration (cmd_dell_raid_config_actions.py), renaming (cmd_dell_raid_rename_vd.py) and patrol
    reads (cmd_raid_patrol_read.py).  Each finds the service in its own way; what they may post is one theorem. *)

From stdpp Require Import base list strings pretty gmap.
From Stdlib Require Import Ascii ZArith Lia.
From S2P Require Import Prelude PyVal Effects Query Http Manager Discovery Csdl ActionPolicy Actions Json Urls Numbers Invoker Idrac Reboot Vendor VendorActions MockRules DellPartition GuardedActions.

Module DellRaid.
Import Http RedfishManager ActionPolicy Actions Vendor VendorActions GuardedActions.
Local Open Scope Z_scope.
Local Open Scope py_scope.

Definition SYSTEM_FALLBACK : string := "/redfish/v1/Systems/System.Embedded.1".
Definition SERVICE_SUFFIX : string := "Oem/Dell/DellRaidService".
Definition SERVICE_FALLBACK : string := SYSTEM_FALLBACK +:+ "/" +:+ SERVICE_SUFFIX.

Definition dell_path (system_id : string) : string := "/redfish/v1/Dell/Systems/" +:+ system_id +:+ "/DellRaidService".

Definition result (d : pyval) : CommandResult := mkResult d PNone PNone PNone.
Definition failed (d : pyval) (text : string) : CommandResult := mkResult d PNone PNone (PStr text).
Definition not_available : CommandResult := failed PNone "DellRaidService is not available on this host".

Definition texts (l : list string) : pyval := PList (map PStr l).
Definition dicts (l : list pydict) : pyval := PList (map PDict l).

(** [targets.get(full_type)], when it is a target *)
Definition offered (targets : pydict) (full : string) : option pyval :=
  let t := dget full targets in if truthy t then Some t else None.

(** ** The service *)

Section Service.
Context {W : Type} `{!World W} `{!Vendor W}.
Abbreviation MM := (M (mstate W)).

(** [_system_uri()] *)
Definition system_uri : MM pyval :=
  let! uri := try_Exception managed_system_uri (fun _ => ret (PStr "")) in ret (py_or uri (PStr SYSTEM_FALLBACK)).

(** The loop over the candidates: the first that can be read *)
Fixpoint first_readable {A} (read : pyval -> MM (option A)) (seen candidates : list pyval) : MM (option (pyval * A)) :=
  match candidates with
  | [] => ret None
  | uri :: rest =>
      if negb (truthy uri) then first_readable read seen rest
      else
        let! uri := lift_res (hashable uri) in
        if py_mem uri seen then first_readable read seen rest
        else
          let! d := read uri in
          match d with
          | Some d => ret (Some (uri, d))
          | None => first_readable read (uri :: seen) rest
          end
  end.

(** [_read_optional(uri, do_async)] of the commands that want an object *)
Definition read_dict (do_async : bool) (uri : pyval) : MM (option pydict) :=
  let! r := read_optional uri do_async in ret (match r with Some (PDict d) => Some d | _ => None end).

(** [_raid_service(do_async)] of the clear, foreign-configuration and physical-disk commands *)
Definition raid_service (do_async : bool) : MM (pyval * (pydict + CommandResult)) :=
  let! uri := system_uri in
  let! system := read_dict do_async uri in
  let! base := lift_res (as_text "rstrip" uri) in
  let! linked := lift_res (oem_dell_link (PDict (default [] system)) "DellRaidService") in
  let standard := PStr (base +:+ "/" +:+ SERVICE_SUFFIX) in
  let! found := first_readable (read_dict do_async) [] [linked; standard; PStr (dell_path (last_segment base))] in
  ret (match found with
       | Some (uri, d) => (uri, inl d)
       | None => (py_or linked standard, inr not_available)
       end).

(** [_raid_service(do_async)] of the spare command, which takes whatever it reads *)
Definition spare_service (do_async : bool) : MM (pyval * (pyval + CommandResult)) :=
  let! uri := system_uri in
  let! system := read_optional uri do_async in
  let! base := lift_res (as_text "rsplit" uri) in
  let! linked := lift_res (oem_dell_link (default (PDict []) system) "DellRaidService") in
  let standard := PStr (base +:+ "/" +:+ SERVICE_SUFFIX) in
  let! found := first_readable (fun uri => read_optional uri do_async) []
                  [linked; standard; PStr (dell_path (Urls.after_last "/" base))] in
  ret (match found with
       | Some (uri, d) => (uri, inl d)
       | None => (standard, inr not_available)
       end).

(** [_raid_service_uri(do_async)] of the configuration and rename commands *)
Definition raid_service_uri (do_async : bool) : MM pyval :=
  let! uri := managed_system_uri in
  let! system := read_object uri do_async in
  let linked := safe_link (links_oem_dell (PDict system)) "DellRaidService" in
  if truthy linked then ret linked
  else let! base := lift_res (as_text "rstrip" uri) in ret (PStr (dell_path (last_segment base))).

(** [_dell_raid_service_uri(do_async)] of the patrol-read command *)
Definition patrol_service_uri (do_async : bool) : MM pyval :=
  let! uri := system_uri in
  let! system := read_optional uri do_async in
  let! oem := lift_res (get_attr (default (PDict []) system) "Oem") in
  let! dell := lift_res (get_of oem "Dell") in
  let! linked := lift_res (link dell "DellRaidService") in
  if truthy linked then ret linked
  else let! base := lift_res (as_text "rstrip" uri) in ret (PStr (PyStr.rstrip_char "/" base +:+ "/" +:+ SERVICE_SUFFIX)).

Lemma system_uri_reads : emits is_get system_uri.
Proof. unfold system_uri. frame; auto with emits. Qed.

Lemma first_readable_reads {A} (read : pyval -> MM (option A)) seen l :
  (forall uri, emits is_get (read uri)) -> emits is_get (first_readable read seen l).
Proof. intros Hr. revert seen. induction l as [|uri l IH]; intros seen; cbn [first_readable]; frame; auto. Qed.

Lemma read_dict_reads b uri : emits is_get (read_dict b uri).
Proof. unfold read_dict. frame; auto with emits. Qed.

Lemma service_reads b :
  emits is_get (raid_service b) /\ emits is_get (spare_service b) /\ emits is_get (raid_service_uri b) /\ emits is_get (patrol_service_uri b).
Proof.
  unfold raid_service, spare_service, raid_service_uri, patrol_service_uri.
  split_and!; frame; auto using system_uri_reads, first_readable_reads, read_dict_reads with emits.
Qed.

Lemma raid_service_reads b : emits is_get (raid_service b).
Proof. apply service_reads. Qed.
Lemma spare_service_reads b : emits is_get (spare_service b).
Proof. apply service_reads. Qed.
Lemma raid_uri_reads b : emits is_get (raid_service_uri b).
Proof. apply service_reads. Qed.
Lemma patrol_uri_reads b : emits is_get (patrol_service_uri b).
Proof. apply service_reads. Qed.
End Service.

#[export] Hint Resolve system_uri_reads read_dict_reads raid_service_reads spare_service_reads raid_uri_reads patrol_uri_reads : emits.

(** ** Candidate disks *)

Section Storage.
Context {W : Type} `{!World W} `{!Vendor W}.
Abbreviation MM := (M (mstate W)).

(** [data.get(key) or []], iterated *)
Definition items (data : pyval) (key : string) : res (list pyval) :=
  let? l := get_attr data key in MockRules.py_iter (py_or l (PList [])).

(** [resource.get("Id") or (uri or "").rsplit("/", 1)[-1]] *)
Definition id_or_segment (resource uri : pyval) : res pyval :=
  let? i := get_attr resource "Id" in
  if truthy i then Ok i else let? s := as_text "rsplit" (py_or uri (PStr "")) in Ok (PStr (Urls.after_last "/" s)).

(** The walk over the storage members of the system that both listings share *)
Definition storage_walk {A} (read : pyval -> MM pyval) (visit : A -> pyval -> MM A) (start : A) : MM A :=
  let! uri := system_uri in
  let! system := read uri in
  let! l := lift_res (link system "Storage") in
  let! collection := read (py_or l (PStr (py_str uri +:+ "/Storage"))) in
  let! members := lift_res (items collection "Members") in
  foldM (fun acc member =>
    let member_uri := link_id member in
    if truthy member_uri then let! storage := read member_uri in visit acc storage else ret acc) start members.

(** [(((drive.get("Oem") or {}).get("Dell") or {}).get("DellPhysicalDisk") or {})] *)
Definition dell_drive (drive : pyval) : res pyval :=
  let? oem := get_attr drive "Oem" in
  let? dell := get_of oem "Dell" in
  let? disk := get_of dell "DellPhysicalDisk" in
  Ok (py_or disk (PDict [])).

(** [_read_optional(uri, do_async) or {}] *)
Definition read_or_empty (do_async : bool) (uri : pyval) : MM pyval :=
  let! r := read_optional uri do_async in ret (default (PDict []) r).

Definition read_dict_or_empty (do_async : bool) (uri : pyval) : MM pyval :=
  let! r := read_dict do_async uri in ret (PDict (default [] r)).

(** The drives of one storage resource, with a row for each *)
Definition drive_rows (read : pyval -> MM pyval) (row : pyval -> pyval -> res pydict) (drives : list pydict) (storage : pyval)
  : MM (list pydict) :=
  let! links := lift_res (items storage "Drives") in
  foldM (fun drives l =>
    let! drive := read (link_id l) in
    let! r := lift_res (row drive (link_id l)) in
    ret (drives ++ [r])) drives links.

Definition spare_drive_row (drive uri : pyval) : res pydict :=
  let? i := id_or_segment drive uri in
  let? hotspare := get_attr drive "HotspareType" in
  let? disk := dell_drive drive in
  let? status := get_attr disk "RaidStatus" in
  Ok [("id", i); ("uri", uri); ("hotspare_type", hotspare); ("raid_status", status)].

Definition volume_row (volume uri : pyval) : res pydict :=
  let? i := id_or_segment volume uri in
  let? nm := get_attr volume "Name" in
  let? ty := get_attr volume "VolumeType" in
  Ok [("id", i); ("uri", uri); ("name", nm); ("volume_type", ty)].

(** [_storage_candidates(do_async)] of the spare command *)
Definition storage_candidates (do_async : bool) : MM pyval :=
  let read := read_or_empty do_async in
  let! (drives, volumes) := storage_walk read
    (fun acc storage =>
       let! drives := drive_rows read spare_drive_row acc.1 storage in
       let! uri := lift_res (link storage "Volumes") in
       let! collection := if truthy uri then read uri else ret (PDict []) in
       let! links := lift_res (items collection "Members") in
       let! volumes := foldM (fun volumes l =>
           let! volume := read (link_id l) in
           let! r := lift_res (volume_row volume (link_id l)) in
           ret (volumes ++ [r])) acc.2 links in
       ret (drives, volumes)) ([], []) in
  ret (PDict [("drives", dicts drives); ("virtual_disks", dicts volumes)]).

Definition pd_drive_row (drive uri : pyval) : res pydict :=
  let? disk := dell_drive drive in
  let? i := id_or_segment drive uri in
  let? media := get_attr drive "MediaType" in
  let? protocol := get_attr drive "Protocol" in
  let? raid_status := get_attr disk "RaidStatus" in
  let? status := get_attr drive "Status" in
  let? state := get_of status "State" in
  Ok [("id", i); ("uri", uri); ("media_type", media); ("protocol", protocol); ("raid_status", raid_status); ("state", state)].

(** [_drive_candidates(do_async)] of the physical-disk command *)
Definition drive_candidates (do_async : bool) : MM pyval :=
  let read := read_dict_or_empty do_async in
  let! drives := storage_walk read (drive_rows read pd_drive_row) [] in
  ret (dicts drives).

Lemma candidates_read b : emits is_get (storage_candidates b) /\ emits is_get (drive_candidates b).
Proof.
  unfold storage_candidates, drive_candidates, storage_walk, drive_rows, read_or_empty, read_dict_or_empty.
  split; frame; auto with emits.
Qed.

Lemma storage_candidates_read b : emits is_get (storage_candidates b).
Proof. apply candidates_read. Qed.
Lemma drive_candidates_read b : emits is_get (drive_candidates b).
Proof. apply candidates_read. Qed.
End Storage.

#[export] Hint Resolve storage_candidates_read drive_candidates_read : emits.

(** ** The actions *)

Record raid_spec := Spec { full_type : string; action_name : string; description : string; required : list string }.

Definition BLINK_SPECS : list (string * raid_spec) :=
  [("blink", Spec "#DellRaidService.BlinkTarget" "BlinkTarget" "" ["TargetFQDD"]);
   ("unblink", Spec "#DellRaidService.UnBlinkTarget" "UnBlinkTarget" "" ["TargetFQDD"])].

Definition SPARE_SPECS : list (string * raid_spec) :=
  [("assign", Spec "#DellRaidService.AssignSpare" "AssignSpare" "" ["TargetFQDD"]);
   ("unassign", Spec "#DellRaidService.UnassignSpare" "UnassignSpare" "" ["TargetFQDD"])].

Definition CANCEL_SPECS : list (string * raid_spec) :=
  [("background-init", Spec "#DellRaidService.CancelBackgroundInitialization" "CancelBackgroundInitialization"
      "cancel background virtual-disk initialization" []);
   ("check-consistency", Spec "#DellRaidService.CancelCheckConsistency" "CancelCheckConsistency" "cancel virtual-disk consistency checking" []);
   ("rebuild-physical-disk", Spec "#DellRaidService.CancelRebuildPhysicalDisk" "CancelRebuildPhysicalDisk" "cancel physical-disk rebuild" [])].

Definition CLEAR_SPECS : list (string * raid_spec) :=
  [("foreign-config", Spec "#DellRaidService.ClearForeignConfig" "ClearForeignConfig" "" []);
   ("preserved-cache", Spec "#DellRaidService.ClearControllerPreservedCache" "ClearControllerPreservedCache" "" [])].

Definition FOREIGN_SPECS : list (string * raid_spec) :=
  [("import", Spec "#DellRaidService.ImportForeignConfig" "ImportForeignConfig" "" []);
   ("unlock-secure", Spec "#DellRaidService.UnLockSecureForeignConfig" "UnLockSecureForeignConfig" "" [])].

Definition DISK_SPECS : list (string * raid_spec) :=
  [("prepare-remove", Spec "#DellRaidService.PrepareToRemove" "PrepareToRemove" "" ["TargetFQDD"; "ForceRemove"]);
   ("rebuild", Spec "#DellRaidService.RebuildPhysicalDisk" "RebuildPhysicalDisk" "" ["TargetFQDD"]);
   ("state", Spec "#DellRaidService.ChangePDState" "ChangePDState" "" ["TargetFQDD"; "State"])].

Definition CONFIG_SPECS : list (string * raid_spec) :=
  [("set-asset-name", Spec "#DellRaidService.SetAssetName" "SetAssetName" "set the Dell RAID enclosure asset name" ["AssetName"]);
   ("set-boot-vd", Spec "#DellRaidService.SetBootVD" "SetBootVD" "set a virtual disk as the boot virtual disk" ["TargetFQDD"])].

Definition RENAME_SPEC : raid_spec := Spec "#DellRaidService.RenameVD" "RenameVD" "" ["TargetFQDD"; "Name"].

Definition PATROL_ACTIONS : list (string * raid_spec) :=
  [("start", Spec "#DellRaidService.StartPatrolRead" "StartPatrolRead" "" []);
   ("stop", Spec "#DellRaidService.StopPatrolRead" "StopPatrolRead" "" [])].

(** ** Payloads *)

(** [_clean_virtual_disks(values)] *)
Definition clean_virtual_disks (values : option (list string)) : list string :=
  List.filter PyStr.nonempty (map PyStr.strip (default [] values)).

(** [_payload(action, disk_fqdd, virtual_disks)] of the spare command *)
Definition spare_payload (action : string) (disk_fqdd : option string) (virtual_disks : option (list string)) : res pydict :=
  let? disk := clean_required disk_fqdd "disk FQDD" in
  let vds := clean_virtual_disks virtual_disks in
  if bool_decide (action = "assign") && bool_decide (vds <> []) then Ok [("TargetFQDD", PStr disk); ("VirtualDiskArray", texts vds)]
  else if bool_decide (action = "unassign") && bool_decide (vds <> [])
  then Raise (InvalidArgument "--virtual-disk is only valid with --action assign")
  else Ok [("TargetFQDD", PStr disk)].

(** [_payload(spec, disk_fqdd, state, force_remove)] of the physical-disk command *)
Definition disk_payload (selector : string) (disk_fqdd state force_remove : option string) : res pydict :=
  let? disk := clean_required disk_fqdd "disk FQDD" in
  if decide (selector = "state") then let? s := clean_required state "state" in Ok [("TargetFQDD", PStr disk); ("State", PStr s)]
  else if decide (selector = "prepare-remove")
  then let? f := clean_required force_remove "force remove" in Ok [("TargetFQDD", PStr disk); ("ForceRemove", PStr f)]
  else Ok [("TargetFQDD", PStr disk)].

(** [_payload(spec, target_fqdd, asset_name)] of the configuration command *)
Definition config_payload (selector : string) (spec : raid_spec) (target_fqdd asset_name : option string) : res pydict :=
  let values := [("AssetName", opt_str asset_name); ("TargetFQDD", opt_str target_fqdd)] in
  let payload := List.filter (fun kv => negb (is_none kv.2)) (map (fun k => (k, dget k values)) (required spec)) in
  let missing := List.filter (fun k => negb (dict_in k payload)) (required spec) in
  if decide (missing = []) then Ok payload
  else Raise (InvalidArgument (selector +:+ " requires: " +:+ PyStr.join ", " missing)).

Definition given (v : option string) : bool := PyStr.nonempty (default "" v).

(** [_payload(target_fqdd, vd_name)] of the rename command *)
Definition rename_payload (target_fqdd vd_name : option string) : res pydict :=
  let missing := (if given target_fqdd then [] else ["TargetFQDD"]) ++ (if given vd_name then [] else ["Name"]) in
  if decide (missing = []) then Ok [("TargetFQDD", opt_str target_fqdd); ("Name", opt_str vd_name)]
  else Raise (InvalidArgument ("dell-raid-rename-vd requires: " +:+ PyStr.join ", " missing)).

(** ** The commands *)

Section Commands.
Context (schemas : list Csdl.xml) {W : Type} `{!World W} `{!Vendor W}.
Abbreviation MM := (M (mstate W)).

(** *** dell-raid-blink *)

(** [_get(uri, do_async, optional)] *)
Definition blink_get (uri : pyval) (do_async optional : bool) : MM pydict :=
  let! r := try_Exception (let! r := v_query (py_str uri) (with_async do_async) in ret (inl (py_or (data r) (PDict [])))) (fun e => ret (inr e)) in
  match r with
  | inl (PDict d) => ret d
  | inl _ => if optional then ret [] else raise (InvalidArgument ("unexpected response from " +:+ py_str uri +:+ ": expected object"))
  | inr e => if optional then ret [] else raise (InvalidArgument ("failed to read " +:+ py_str uri +:+ ": " +:+ exn_str e))
  end.

(** [_member_uris(data, key)] *)
Definition member_uris (data : pydict) (key : string) : list pyval :=
  match dget key data with PList l => List.filter truthy (map link_id l) | _ => [] end.

(** [_system_uris()] *)
Definition blink_systems : MM (list string) :=
  let! ids := try_Exception discover_computer_system_ids (fun _ => ret []) in
  ret (unique [] (List.filter PyStr.nonempty (ids ++ [SYSTEM_FALLBACK]))).

(** One row of [_drive_rows] *)
Definition blink_drive_row (drive : pydict) (uri : pyval) : res pydict :=
  let i := dget "Id" drive in
  let? fqdd := if truthy i then Ok i else let? s := as_text "rstrip" uri in Ok (PStr (last_segment s)) in
  let nm := dget "Name" drive in
  Ok ([("FQDD", fqdd); ("Uri", dict_get_or "@odata.id" uri drive)] ++ (if truthy nm then [("Name", nm)] else [])).

(** [_drive_rows(system_uri, system, do_async)] *)
Definition blink_drives (system_uri : string) (system : pydict) (do_async : bool) : MM (list pydict) :=
  let! collection := blink_get (py_or (safe_link (PDict system) "Storage") (PStr (system_uri +:+ "/Storage"))) do_async true in
  foldM (fun drives member =>
    let! storage := blink_get member do_async true in
    foldM (fun drives uri =>
      let! drive := blink_get uri do_async true in
      let! r := lift_res (blink_drive_row drive uri) in
      ret (drives ++ [r])) drives (member_uris storage "Drives")) [] (member_uris collection "Members").

Record candidate := Candidate { cd_system : string; cd_uri : string; cd_service : pyval; cd_drives : list pydict }.

(** The first candidate of each service *)
Fixpoint unique_services (seen : list pyval) (l : list candidate) : res (list candidate) :=
  match l with
  | [] => Ok []
  | c :: l' =>
      let? _ := hashable (cd_service c) in
      if py_mem (cd_service c) seen then unique_services seen l'
      else let? rest := unique_services (cd_service c :: seen) l' in Ok (c :: rest)
  end.

(** [_service_candidates(do_async)] *)
Definition service_candidates (do_async : bool) : MM (list candidate) :=
  let! systems := blink_systems in
  let! l := mapM (fun uri =>
      let uri := PyStr.rstrip_char "/" uri in
      let! system := blink_get (PStr uri) do_async true in
      let linked := safe_link (links_oem_dell (PDict system)) "DellRaidService" in
      let! drives := blink_drives uri system do_async in
      ret (Candidate (Urls.after_last "/" uri) uri (py_or linked (PStr (uri +:+ "/" +:+ SERVICE_SUFFIX))) drives)) systems in
  lift_res (unique_services [] (l ++ [Candidate "System.Embedded.1" SYSTEM_FALLBACK (PStr SERVICE_FALLBACK) []])).

(** A service that offers some of the actions, by operation *)
Record blink_row := BlinkRow { br_candidate : candidate; br_actions : list (string * raid_spec * pyval) }.

Definition blink_row_val (r : blink_row) : pydict :=
  [("System", PStr (cd_system (br_candidate r))); ("SystemUri", PStr (cd_uri (br_candidate r))); ("Service", cd_service (br_candidate r));
   ("Actions", dicts (map (fun a => [("Operation", PStr a.1.1); ("Action", PStr (full_type a.1.2)); ("Target", a.2)]) (br_actions r)));
   ("Drives", dicts (cd_drives (br_candidate r)))].

(** [_discover_rows(do_async)] *)
Definition blink_rows (do_async : bool) : MM (list blink_row) :=
  let! candidates := service_candidates do_async in
  foldM (fun rows c =>
    let! service := blink_get (cd_service c) do_async true in
    if decide (service = []) then ret rows
    else
      let! targets := lift_res (flatten_action_targets (PDict service)) in
      let actions := omap (fun ks => (fun t => (ks, t)) <$> offered targets (full_type ks.2)) BLINK_SPECS in
      ret (if decide (actions = []) then rows else rows ++ [BlinkRow c actions])) [] candidates.

(** [_select_rows(rows, service_uri)] *)
Definition select_rows (rows : list blink_row) (service_uri : option string) : res (list blink_row) :=
  if negb (given service_uri) then Ok rows
  else
    let normalized := PyStr.rstrip_char "/" (default "" service_uri) in
    let? matches := res_fold (fun acc r =>
        let? s := as_text "rstrip" (cd_service (br_candidate r)) in
        Ok (if decide (PyStr.rstrip_char "/" s = normalized) then acc ++ [r] else acc)) [] rows in
    if decide (matches = [])
    then Raise (InvalidArgument ("no DellRaidService target for '" +:+ default "" service_uri +:+ "'; available: "
                                 +:+ py_str (PList (map (fun r => cd_service (br_candidate r)) rows))))
    else Ok matches.

(** The request of a command for one of its actions *)
Definition raid_call (uri : pyval) (spec : raid_spec) (p : pydict) (do_async dry confirm irreversible : bool) : action_call :=
  Call (py_str uri) (action_name spec) p (full_type spec) do_async dry confirm irreversible.

(** [DellRaidBlink.execute(operation, target_fqdd, service_uri, confirm, dry_run, do_async)] *)
Definition dell_raid_blink (operation target_fqdd service_uri : option string) (confirm dry_run do_async : bool) : MM CommandResult :=
  let operation := if given operation then default "" operation else "blink" in
  match dict_get operation BLINK_SPECS with
  | None => raise (InvalidArgument ("unsupported Dell RAID blink operation '" +:+ operation +:+ "'"))
  | Some spec =>
      let! all := blink_rows do_async in
      let! rows := lift_res (select_rows all service_uri) in
      let vals := dicts (map blink_row_val rows) in
      let target := PyStr.strip (default "" target_fqdd) in
      match rows with
      | [] => ret (failed (PDict [("actions", texts (map (fun ks => full_type ks.2) BLINK_SPECS)); ("available", PList [])])
                     "DellRaidService BlinkTarget/UnBlinkTarget actions not found")
      | row :: more =>
          if negb (PyStr.nonempty target) then
            ret (if confirm || dry_run then failed (PDict [("matches", vals)]) "TargetFQDD is required; rerun with --target-fqdd" else result vals)
          else if negb (bool_decide (more = [])) then
            ret (failed (PDict [("matches", vals)])
                   ("multiple DellRaidService targets found; pass --service-uri with one of: "
                    +:+ py_str (PList (map (fun r => cd_service (br_candidate r)) rows))))
          else
            let service := cd_service (br_candidate row) in
            if negb (existsb (fun a => bool_decide (full_type a.1.2 = full_type spec) && truthy a.2) (br_actions row)) then
              ret (failed (PDict [("operation", PStr operation); ("service", service)])
                     ("DellRaidService." +:+ action_name spec +:+ " action not found"))
            else
              let! r := v_invoke_action schemas
                (raid_call service spec [("TargetFQDD", PStr target)] do_async (dry_run || negb confirm) confirm false) 202 in
              ret (match data r with
                   | PDict d => mkResult (PDict (dict_set "target_fqdd" (PStr target) (dict_set "service" service (dict_set "operation" (PStr operation) d))))
                                  (discovered r) (extra r) (error r)
                   | _ => r
                   end)
      end
  end.

(** *** dell-raid-spare *)

(** [_actions_summary(service)] *)
Definition actions_summary (service : pyval) : res pydict :=
  let? targets := flatten_action_targets service in
  Ok (omap (fun ks => (fun t => (ks.1, PDict [("action", PStr (full_type ks.2)); ("target", t)])) <$> dict_get (full_type ks.2) targets) SPARE_SPECS).

(** [_metadata(do_async)] *)
Definition spare_metadata (do_async : bool) : MM CommandResult :=
  let! (uri, service) := spare_service do_async in
  match service with
  | inr r => ret r
  | inl service =>
      let! actions := lift_res (discover_redfish_actions service) in
      let! summary := lift_res (actions_summary service) in
      let! candidates := storage_candidates do_async in
      ret (mkResult (PDict [("raid_service", uri); ("actions", PDict summary); ("candidates", candidates)]) (actions_val actions) PNone PNone)
  end.

(** [DellRaidSpareActions.execute(action, disk_fqdd, virtual_disk, confirm, dry_run, do_async)] *)
Definition dell_raid_spare (action disk_fqdd : option string) (virtual_disk : option (list string)) (confirm dry_run do_async : bool)
  : MM CommandResult :=
  match action, disk_fqdd with
  | None, None => spare_metadata do_async
  | _, _ =>
      let! selected := lift_res (clean_required action "action") in
      match dict_get selected SPARE_SPECS with
      | None => raise (InvalidArgument "action must be one of: assign, unassign")
      | Some spec =>
          let! (uri, service) := spare_service do_async in
          match service with
          | inr r => ret r
          | inl _ =>
              let! p := lift_res (spare_payload selected disk_fqdd virtual_disk) in
              v_invoke_action schemas (raid_call uri spec p do_async dry_run confirm false) 202
          end
      end
  end.

(** *** dell-raid-cancel-actions *)

(** [list(dict.fromkeys(l))] *)
Fixpoint unique_vals (seen l : list pyval) : res (list pyval) :=
  match l with
  | [] => Ok []
  | v :: l' =>
      let? _ := hashable v in
      if py_mem v seen then unique_vals seen l' else let? rest := unique_vals (v :: seen) l' in Ok (v :: rest)
  end.

(** [_system_uris()], the host first *)
Definition cancel_systems : MM (list pyval) :=
  let! host := try_Exception managed_system_uri (fun _ => ret (PStr "")) in
  let! ids := try_Exception discover_computer_system_ids (fun _ => ret []) in
  lift_res (unique_vals [] ((if truthy host then [host] else []) ++ map PStr ids)).

(** [_raid_service_uris(do_async)] *)
Definition raid_service_uris (do_async : bool) : MM (list pyval) :=
  let! systems := cancel_systems in
  let! uris := foldM (fun uris uri =>
      let! system := read_object uri do_async in
      let linked := py_or (safe_link (links_oem_dell (PDict system)) "DellRaidService") (safe_link (oem_dell (PDict system)) "DellRaidService") in
      let! text := lift_res (as_text "rstrip" uri) in
      let base := PyStr.rstrip_char "/" text in
      ret (uris ++ (if truthy linked then [linked] else [])
           ++ [PStr (base +:+ "/Oem/Dell/DellRaidService"); PStr (dell_path (Urls.after_last "/" base))])) [] systems in
  lift_res (unique_vals [] uris).

Record cancel_row := CancelRow { cr_action : string; cr_spec : raid_spec; cr_resource : pyval; cr_target : pyval }.

Definition cancel_row_val (r : cancel_row) : pydict :=
  [("Action", PStr (cr_action r)); ("FullType", PStr (full_type (cr_spec r))); ("Resource", cr_resource r); ("Target", cr_target r);
   ("Description", PStr (description (cr_spec r)))].

(** [_discover_rows(do_async)] *)
Definition cancel_rows (do_async : bool) : MM (list cancel_row) :=
  let! uris := raid_service_uris do_async in
  foldM (fun rows uri =>
    let! service := read_object uri do_async in
    let! targets := lift_res (flatten_action_targets (PDict service)) in
    ret (rows ++ omap (fun ks => (fun t => CancelRow ks.1 ks.2 uri t) <$> offered targets (full_type ks.2)) CANCEL_SPECS)) [] uris.

(** [_matches(rows, action, resource_uri)] *)
Definition cancel_matches (rows : list cancel_row) (action : string) (resource_uri : option string) : res (list cancel_row) :=
  let matches := List.filter (fun r => bool_decide (cr_action r = action)) rows in
  if given resource_uri then
    res_fold (fun acc r =>
        let? s := as_text "rstrip" (cr_resource r) in
        Ok (if decide (PyStr.rstrip_char "/" s = PyStr.rstrip_char "/" (default "" resource_uri)) then acc ++ [r] else acc)) [] matches
  else Ok matches.

(** [DellRaidCancelActions.execute(action, resource_uri, confirm, dry_run, do_async)] *)
Definition dell_raid_cancel (action resource_uri : option string) (confirm dry_run do_async : bool) : MM CommandResult :=
  let! rows := cancel_rows do_async in
  match action with
  | None => ret (result (dicts (map cancel_row_val rows)))
  | Some action =>
      let! matches := lift_res (cancel_matches rows action resource_uri) in
      match matches with
      | [] => ret (failed (PDict [("available", dicts (map cancel_row_val rows))]) ("Dell RAID cancel action not found: " +:+ action))
      | [row] =>
          let! spec := lift_res (match dict_get action CANCEL_SPECS with Some spec => Ok spec | None => Raise (KeyError action) end) in
          v_invoke_action schemas (raid_call (cr_resource row) spec [] do_async dry_run confirm false) 202
      | _ => ret (failed (PDict [("matches", dicts (map cancel_row_val matches))]) "multiple Dell RAID cancel targets found; pass --resource-uri")
      end
  end.

(** *** dell-raid-clear-actions and dell-raid-foreign-config *)

(** [_discover_rows(do_async)] of both *)
Definition state_rows (specs : list (string * raid_spec)) (uri : pyval) (service : pydict)
  : res (list (string * RedfishAction) * list (string * pydict)) :=
  let? actions := discover_redfish_actions (PDict service) in
  let? targets := flatten_action_targets (PDict service) in
  Ok (actions, omap (fun ks => (fun t =>
        (ks.1, [("Action", PStr ks.1); ("FullType", PStr (full_type ks.2)); ("Resource", uri); ("Target", t); ("RequiredPayload", PList []);
                ("Level", PStr "irreversible")])) <$> offered targets (full_type ks.2)) specs).

Definition not_offered (uri : pyval) (spec : raid_spec) (rows : list pydict) (actions : list (string * RedfishAction)) (text : string) : CommandResult :=
  mkResult (PDict [("raid_service", uri); ("action", PStr (full_type spec)); ("available", dicts rows)]) (actions_val actions) PNone (PStr text).

(** [execute(action, confirm, confirm_irreversible, dry_run, do_async)] of both *)
Definition state_action (specs : list (string * raid_spec)) (wrong : string) (action : option string) (confirm irreversible dry_run do_async : bool)
  : MM CommandResult :=
  let! (uri, service) := raid_service do_async in
  match service with
  | inr r => ret r
  | inl service =>
      let! (actions, rows) := lift_res (state_rows specs uri service) in
      match action with
      | None => ret (mkResult (PDict [("raid_service", uri); ("actions", dicts (map snd rows))]) (actions_val actions) PNone PNone)
      | Some _ =>
          let! selected := lift_res (clean_required action "action") in
          match dict_get selected specs with
          | None => raise (InvalidArgument wrong)
          | Some spec =>
              if negb (dict_in selected rows)
              then ret (not_offered uri spec (map snd rows) actions ("action '" +:+ full_type spec +:+ "' not found on " +:+ py_str uri))
              else v_invoke_action schemas (raid_call uri spec [] do_async dry_run confirm irreversible) 202
          end
      end
  end.

Definition dell_raid_clear := state_action CLEAR_SPECS "action must be one of: foreign-config, preserved-cache".
Definition dell_raid_foreign := state_action FOREIGN_SPECS "action must be one of: import, unlock-secure".

(** *** dell-raid-pd-actions *)

(** [_discover_rows(do_async)] *)
Definition disk_rows (uri : pyval) (service : pydict) : res (list (string * RedfishAction) * list (string * pydict)) :=
  let? actions := discover_redfish_actions (PDict service) in
  let? targets := flatten_action_targets (PDict service) in
  let? rows := res_fold (fun rows ks =>
      match offered targets (full_type ks.2) with
      | None => Ok rows
      | Some t =>
          let? parameters := DellPartition.allowable (dict_get (action_name ks.2) actions) in
          Ok (rows ++ [(ks.1, [("Action", PStr ks.1); ("FullType", PStr (full_type ks.2)); ("Resource", uri); ("Target", t);
                               ("RequiredPayload", texts (required ks.2)); ("Parameters", PDict parameters)])])
      end) [] DISK_SPECS in
  Ok (actions, rows).

(** [DellRaidPhysicalDiskActions.execute(action, disk_fqdd, state, force_remove, confirm, dry_run, do_async)] *)
Definition dell_raid_disk (action disk_fqdd state force_remove : option string) (confirm dry_run do_async : bool) : MM CommandResult :=
  let! (uri, service) := raid_service do_async in
  match service with
  | inr r => ret r
  | inl service =>
      let! (actions, rows) := lift_res (disk_rows uri service) in
      match action, disk_fqdd with
      | None, None =>
          let! candidates := drive_candidates do_async in
          ret (mkResult (PDict [("raid_service", uri); ("actions", dicts (map snd rows)); ("candidates", candidates)]) (actions_val actions) PNone PNone)
      | _, _ =>
          let! selected := lift_res (clean_required action "action") in
          match dict_get selected DISK_SPECS with
          | None => raise (InvalidArgument "action must be one of: prepare-remove, rebuild, state")
          | Some spec =>
              if negb (dict_in selected rows)
              then ret (not_offered uri spec (map snd rows) actions ("action '" +:+ full_type spec +:+ "' not found on " +:+ py_str uri))
              else
                let! p := lift_res (disk_payload selected disk_fqdd state force_remove) in
                v_invoke_action schemas (raid_call uri spec p do_async dry_run confirm false) 202
          end
      end
  end.

(** *** dell-raid-config-actions *)

(** [_discover_rows(do_async)] *)
Definition config_rows (uri : pyval) (service : pydict) : res (list (string * RedfishAction) * list (string * pydict)) :=
  let? actions := discover_redfish_actions (PDict service) in
  let? targets := flatten_action_targets (PDict service) in
  Ok (actions, omap (fun ks => (fun t =>
        (ks.1, [("Action", PStr ks.1); ("FullType", PStr (full_type ks.2)); ("Resource", uri); ("Target", t);
                ("Description", PStr (description ks.2)); ("RequiredPayload", texts (required ks.2))])) <$> offered targets (full_type ks.2)) CONFIG_SPECS).

(** [DellRaidConfigActions.execute(action, target_fqdd, asset_name, confirm, dry_run, do_async)] *)
Definition dell_raid_config (action target_fqdd asset_name : option string) (confirm dry_run do_async : bool) : MM CommandResult :=
  let! uri := raid_service_uri do_async in
  let! service := read_object uri do_async in
  let! (actions, rows) := lift_res (config_rows uri service) in
  match action with
  | None => ret (mkResult (dicts (map snd rows)) (actions_val actions) PNone PNone)
  | Some action =>
      match dict_get action CONFIG_SPECS with
      | None => raise (KeyError action)
      | Some spec =>
          if negb (dict_in action rows)
          then ret (not_offered uri spec (map snd rows) actions ("Dell RAID configuration action not found: " +:+ action))
          else
            let! p := lift_res (config_payload action spec target_fqdd asset_name) in
            v_invoke_action schemas (raid_call uri spec p do_async dry_run confirm false) 202
      end
  end.

(** *** dell-raid-rename-vd *)

(** [DellRaidRenameVD.execute(target_fqdd, vd_name, confirm, dry_run, do_async)] *)
Definition dell_raid_rename (target_fqdd vd_name : option string) (confirm dry_run do_async : bool) : MM CommandResult :=
  let! uri := raid_service_uri do_async in
  let! service := read_object uri do_async in
  let! actions := lift_res (discover_redfish_actions (PDict service)) in
  let! targets := lift_res (flatten_action_targets (PDict service)) in
  let target := dget (full_type RENAME_SPEC) targets in
  if negb (given target_fqdd) && negb (given vd_name) then
    ret (mkResult (dicts (if truthy target then [[("Action", PStr "rename-vd"); ("FullType", PStr (full_type RENAME_SPEC)); ("Resource", uri);
                                                  ("Target", target); ("RequiredPayload", texts (required RENAME_SPEC))]] else []))
           (actions_val actions) PNone PNone)
  else if is_none target then
    let! service := read_object uri do_async in
    let! targets := lift_res (flatten_action_targets (PDict service)) in
    ret (mkResult (PDict [("raid_service", uri); ("action", PStr (full_type RENAME_SPEC)); ("available", texts (sort_strs (dict_keys targets)))])
           (actions_val actions) PNone (PStr "Dell RAID RenameVD action not found"))
  else
    let! p := lift_res (rename_payload target_fqdd vd_name) in
    v_invoke_action schemas (raid_call uri RENAME_SPEC p do_async dry_run confirm false) 202.

(** *** dell-raid-patrol-read *)

(** The targets of the listing, and the names of all actions *)
Definition patrol_targets (service : pyval) : res (pydict * list string) :=
  let? acts := get_attr service "Actions" in
  let? found := res_fold (fun out ks =>
      let? a := get_of acts (full_type ks.2) in
      let? t := get_of a "target" in
      Ok (if truthy t then out ++ [(ks.1, t)] else out)) [] PATROL_ACTIONS in
  Ok (found, sort_strs (dict_keys (as_dict (py_or acts (PDict []))))).

(** [DellRaidPatrolRead.execute(action, confirm, dry_run, do_async)] *)
Definition dell_raid_patrol (action : option string) (confirm dry_run do_async : bool) : MM CommandResult :=
  let! uri := patrol_service_uri do_async in
  if negb (given action) then
    let! r := v_query (py_str uri) (with_async do_async) in
    let! (found, available) := lift_res (patrol_targets (py_or (data r) (PDict []))) in
    ret (result (PDict [("service", uri); ("actions", PDict found); ("available", texts available)]))
  else
    let! spec := lift_res (match dict_get (default "" action) PATROL_ACTIONS with Some spec => Ok spec | None => Raise (KeyError (default "" action)) end) in
    v_invoke_action schemas (raid_call uri spec [] do_async (dry_run || negb confirm) confirm false) 202.

(** ** One request for any of them *)

Inductive raid_command :=
  | Blink (operation target_fqdd service_uri : option string)
  | Spare (action disk_fqdd : option string) (virtual_disk : option (list string))
  | Cancel (action resource_uri : option string)
  | Clear (action : option string)
  | Foreign (action : option string)
  | Disk (action disk_fqdd state force_remove : option string)
  | Configure (action target_fqdd asset_name : option string)
  | Rename (target_fqdd vd_name : option string)
  | Patrol (action : option string).

Definition run_raid (cmd : raid_command) (confirm irreversible dry_run do_async : bool) : MM CommandResult :=
  match cmd with
  | Blink op t s => dell_raid_blink op t s confirm dry_run do_async
  | Spare a d v => dell_raid_spare a d v confirm dry_run do_async
  | Cancel a r => dell_raid_cancel a r confirm dry_run do_async
  | Clear a => dell_raid_clear a confirm irreversible dry_run do_async
  | Foreign a => dell_raid_foreign a confirm irreversible dry_run do_async
  | Disk a d s f => dell_raid_disk a d s f confirm dry_run do_async
  | Configure a t n => dell_raid_config a t n confirm dry_run do_async
  | Rename t n => dell_raid_rename t n confirm dry_run do_async
  | Patrol a => dell_raid_patrol a confirm dry_run do_async
  end.
End Commands.

(** ** What may be posted *)

(** The action and the payload that the arguments of a command stand for *)
Definition raid_request (cmd : raid_command) : option (raid_spec * res pydict) :=
  let text a := PyStr.strip (default "" a) in
  match cmd with
  | Blink op t _ => (fun spec => (spec, Ok [("TargetFQDD", PStr (text t))])) <$> dict_get (if given op then default "" op else "blink") BLINK_SPECS
  | Spare a d v => (fun spec => (spec, spare_payload (text a) d v)) <$> dict_get (text a) SPARE_SPECS
  | Cancel a _ => (fun spec => (spec, Ok [])) <$> (a ≫= fun a => dict_get a CANCEL_SPECS)
  | Clear a => (fun spec => (spec, Ok [])) <$> dict_get (text a) CLEAR_SPECS
  | Foreign a => (fun spec => (spec, Ok [])) <$> dict_get (text a) FOREIGN_SPECS
  | Disk a d s f => (fun spec => (spec, disk_payload (text a) d s f)) <$> dict_get (text a) DISK_SPECS
  | Configure a t n => a ≫= fun a => (fun spec => (spec, config_payload a spec t n)) <$> dict_get a CONFIG_SPECS
  | Rename t n => Some (RENAME_SPEC, rename_payload t n)
  | Patrol a => (fun spec => (spec, Ok [])) <$> dict_get (default "" a) PATROL_ACTIONS
  end.

(** The commands that discard or adopt controller state *)
Definition discards (cmd : raid_command) : bool := match cmd with Clear _ | Foreign _ => true | _ => false end.

(** Blinking and patrol reads are harmless; these two commands insist on a confirmation themselves. *)
Definition gentle (cmd : raid_command) : bool := match cmd with Blink _ _ _ | Patrol _ => true | _ => false end.

(** The call that the arguments stand for *)
Definition asked (cmd : raid_command) (confirm irr dry b : bool) (c : action_call) : Prop :=
  exists uri spec p, raid_request cmd = Some (spec, Ok p) /\
    c = raid_call uri spec p b (if gentle cmd then dry || negb confirm else dry) confirm (discards cmd && irr).

Section Guard.
Context (schemas : list Csdl.xml) {W : Type} `{!World W} `{!Vendor W}.
Abbreviation MM := (M (mstate W)).

Lemma blink_get_reads uri b o : emits is_get (blink_get (W := W) uri b o).
Proof. unfold blink_get. frame; auto with emits. Qed.

Lemma blink_rows_read b : emits is_get (blink_rows (W := W) b).
Proof. unfold blink_rows, service_candidates, blink_systems, blink_drives. frame; auto using blink_get_reads with emits. Qed.

Lemma cancel_rows_read b : emits is_get (cancel_rows (W := W) b).
Proof. unfold cancel_rows, raid_service_uris, cancel_systems. frame; auto with emits. Qed.

Lemma spare_metadata_reads b : emits is_get (spare_metadata (W := W) b).
Proof. unfold spare_metadata. frame; auto with emits. Qed.

Lemma clean_required_ok v label s : clean_required v label = Ok s -> s = PyStr.strip (default "" v).
Proof. unfold clean_required. case_match; [by intros [= <-]|done]. Qed.

#[local] Hint Resolve blink_rows_read cancel_rows_read spare_metadata_reads : emits.

Ltac named := repeat match goal with H : clean_required _ _ = Ok _ |- _ => apply clean_required_ok in H; try subst end.

Lemma found_spec (f : raid_spec -> res pydict) o spec p : o = Some spec -> f spec = Ok p -> (fun spec => (spec, f spec)) <$> o = Some (spec, Ok p).
Proof. intros -> Hp. cbn. by rewrite Hp. Qed.

Lemma key_spec (o : option raid_spec) k spec : match o with Some spec => Ok spec | None => Raise (KeyError k) end = Ok spec -> o = Some spec.
Proof. destruct o; congruence. Qed.

Lemma state_action_guards specs wrong a confirm irr dry b :
  guards (fun c _ => exists uri spec, dict_get (PyStr.strip (default "" a)) specs = Some spec /\ c = raid_call uri spec [] b dry confirm irr)
    (state_action schemas specs wrong a confirm irr dry b).
Proof. unfold state_action. guarding. named. eauto. Qed.

(** A command posts at most the call that its arguments stand for. *)
Lemma raid_asked cmd confirm irr dry b : guards (fun c _ => asked cmd confirm irr dry b c) (run_raid schemas cmd confirm irr dry b).
Proof.
  destruct cmd; cbn [run_raid].
  all: unfold dell_raid_blink, dell_raid_spare, dell_raid_cancel, dell_raid_disk, dell_raid_config, dell_raid_rename, dell_raid_patrol.
  all: try (eapply guards_weaken; [|apply state_action_guards]; intros c full doc t (uri & spec & Hs & ->) _;
            exists uri, spec, []; cbn [raid_request]; by rewrite Hs).
  all: guarding; named; eexists _, _, _; (split; [cbn [raid_request]|reflexivity]).
  all: try (apply (found_spec (fun _ => _)) || (cbn [option_bind mbind]; apply (found_spec (fun spec => _)))); eauto using key_spec.
  congruence.
Qed.

(** The specifications of a command *)
Definition specs_of (cmd : raid_command) : list (string * raid_spec) :=
  match cmd with
  | Blink _ _ _ => BLINK_SPECS | Spare _ _ _ => SPARE_SPECS | Cancel _ _ => CANCEL_SPECS | Clear _ => CLEAR_SPECS
  | Foreign _ => FOREIGN_SPECS | Disk _ _ _ _ => DISK_SPECS | Configure _ _ _ => CONFIG_SPECS
  | Rename _ _ => [("rename-vd", RENAME_SPEC)] | Patrol _ => PATROL_ACTIONS
  end.

Lemma request_listed cmd spec r : raid_request cmd = Some (spec, r) -> exists k, (k, spec) ∈ specs_of cmd.
Proof.
  destruct cmd; cbn [raid_request specs_of]; intros H.
  7: apply bind_Some in H as (k & _ & H).
  8: injection H as <- _; exists "rename-vd"; by left.
  all: apply fmap_Some in H as (spec' & H & [= <- _]).
  3: apply bind_Some in H as (k & _ & H).
  all: apply dict_get_In in H; by eauto.
Qed.

Lemma listed_risky cmd k spec : gentle cmd = false -> (k, spec) ∈ specs_of cmd -> risky (full_type spec) (action_name spec) = true.
Proof.
  intros Hg. assert (Forall (fun ks => risky (full_type ks.2) (action_name ks.2) = true) (specs_of cmd)) as Hall
    by (destruct cmd; try done; repeat (constructor; [by vm_compute|]); constructor).
  rewrite Forall_forall in Hall. exact (Hall (k, spec)).
Qed.

Lemma listed_irreversible cmd k spec : discards cmd = true -> (k, spec) ∈ specs_of cmd -> level_value (classify (full_type spec)) = "irreversible".
Proof.
  intros Hg. assert (Forall (fun ks => level_value (classify (full_type ks.2)) = "irreversible") (specs_of cmd)) as Hall
    by (destruct cmd; try done; repeat (constructor; [by vm_compute|]); constructor).
  rewrite Forall_forall in Hall. exact (Hall (k, spec)).
Qed.

(** C35. Every Dell RAID command is guarded: it sends GETs, and then at most one POST, only with the confirmation and when it is
    no dry run; the call is the action that the arguments name, with the payload they stand for as it was built, of some
    resource that is read last before the POST; the POST goes to the target that the document of that read has for an
    action, the one of the command, or when it has no target for that one, an action with the same short name.  When the
    action is the command's own, what discards controller state needs both confirmations. *)
Theorem raid_guarded cmd confirm irr dry b :
  guards (fun c full => confirm = true /\ dry = false /\
      exists uri spec p, raid_request cmd = Some (spec, Ok p) /\ c = raid_call uri spec p b false true (discards cmd && irr) /\
        (discards cmd = true -> full = full_type spec -> irr = true))
    (run_raid schemas cmd confirm irr dry b).
Proof.
  eapply guards_weaken; [|apply raid_asked]. intros c full doc t (uri & spec & p & Hreq & ->) He.
  destruct (request_listed _ _ _ Hreq) as [k Hk]. pose proof (en_wet _ _ _ _ He) as Hdry. cbn in Hdry.
  assert (confirm = true) as ->.
  { destruct (gentle cmd) eqn:Hg; [by apply orb_false_iff in Hdry as [_ ?%negb_false_iff]|].
    exact (risky_confirmed _ _ _ _ He (listed_risky cmd k spec Hg Hk)). }
  assert (dry = false) as -> by (by destruct (gentle cmd), dry). split; [done|]. split; [done|]. exists uri, spec, p.
  split; [done|]. split; [by destruct (gentle cmd)|]. intros Hd Hf.
  destruct (irreversible_confirmed _ _ _ _ He Hf (listed_irreversible cmd k spec Hd Hk)) as [_ Hirr]. cbn in Hirr. by rewrite Hd in Hirr.
Qed.
End Guard.

(** ** Payloads and examples *)

(** The payload has exactly the parameters that the action requires, in order; only the assignment of a spare adds the
    virtual disks, and only when one was named. *)
Theorem raid_payload_exact cmd spec p : raid_request cmd = Some (spec, Ok p) ->
  dict_keys p = required spec \/
  exists a d v, cmd = Spare a d v /\ full_type spec = "#DellRaidService.AssignSpare" /\ clean_virtual_disks v <> [] /\
    dict_keys p = required spec ++ ["VirtualDiskArray"] /\ dget "VirtualDiskArray" p = texts (clean_virtual_disks v).
Proof.
  intros H. destruct cmd as [op tgt su|a d v|a r|a|a|a d st f|a tgt n|tgt n|a] eqn:Hcmd; cbn [raid_request] in H.
  7: apply bind_Some in H as (k & _ & H).
  8: { injection H as <- H. revert H. unfold rename_payload. case_decide; [|done]. intros [= <-]. by left. }
  all: apply fmap_Some in H as (spec' & Hs & [= <- Hp]).
  3: apply bind_Some in Hs as (k & _ & Hs).
  all: cbn [BLINK_SPECS SPARE_SPECS CANCEL_SPECS CLEAR_SPECS FOREIGN_SPECS DISK_SPECS CONFIG_SPECS PATROL_ACTIONS dict_get] in Hs.
  all: repeat (case_decide; [injection Hs as <-|]); try discriminate Hs; try (left; by subst).
  all: symmetry in Hp; revert Hp.
  1,2: unfold spare_payload; intros (disk & _ & Hp)%res_bind_ok; revert Hp; repeat case_bool_decide; cbn [andb]; try congruence;
       intros [= <-]; first [by left|right; eauto 10].
  1-3: unfold disk_payload; intros (disk & _ & Hp)%res_bind_ok; revert Hp; repeat case_decide; try congruence;
       try (intros (x & _ & [= <-])%res_bind_ok); try (intros [= <-]); by left.
  all: unfold config_payload; case_decide as Hm; [|done]; intros [= <-]; left; revert Hm; cbn; destruct tgt, n; done.
Qed.

Definition raid_doc : pyval :=
  PDict [("Actions", PDict [("#DellRaidService.ClearForeignConfig", PDict [("target", PStr "/redfish/v1/clear")]);
                            ("#DellRaidService.AssignSpare", PDict [("target", PStr "/redfish/v1/spare")])])].

Definition raid_routes : list (method * string * list response) :=
  [(GET, "https://10.0.0.42" +:+ SERVICE_FALLBACK, [ok_json raid_doc; ok_json raid_doc]);
   (POST, "https://10.0.0.42/redfish/v1/clear", [Response 202 [] (inr "")]); (POST, "https://10.0.0.42/redfish/v1/spare", [Response 202 [] (inr "")])].

Definition raid_invoker : SyncInvoker (mstate sim) := fun _ _ _ => raise (ValueError "no command").
Definition raid_manager : Vendor sim := dmtf_vendor (SyncInvoker0 := raid_invoker) 3 (fun _ => 0).

Definition posts (cmd : raid_command) (confirm irr : bool) : list (string * pyval) :=
  map (fun rq => (rq_url rq, default PNone (rq_data rq)))
    (write_requests (trace (run_raid (Vendor0 := raid_manager) [] cmd confirm irr false false (sim_state sample_manager raid_routes)).1)).

(** Clearing needs both confirmations, a spare one. *)
Example raid_posts :
  (posts (Clear (Some "foreign-config")) true false, posts (Clear (Some " foreign-config")) true true,
   posts (Spare (Some "assign") (Some "Disk.Bay.4 ") (Some ["Disk.Virtual.0"; " "])) false false,
   posts (Spare (Some "assign") (Some "Disk.Bay.4 ") (Some ["Disk.Virtual.0"; " "])) true false) =
  ([], [("https://10.0.0.42/redfish/v1/clear", PDict [])], [],
   [("https://10.0.0.42/redfish/v1/spare", PDict [("TargetFQDD", PStr "Disk.Bay.4"); ("VirtualDiskArray", PList [PStr "Disk.Virtual.0"])])]).
Proof. vm_compute. reflexivity. Qed.

Lemma raid_payload_exact_witness :
  exists spec p, raid_request (Spare (Some "assign") (Some "Disk.Bay.4") (Some ["Disk.Virtual.0"])) = Some (spec, Ok p) /\
    dict_keys p = ["TargetFQDD"; "VirtualDiskArray"].
Proof.
  eexists _, _. split; [vm_compute; reflexivity|].
  destruct (raid_payload_exact (Spare (Some "assign") (Some "Disk.Bay.4") (Some ["Disk.Virtual.0"])) _ _ eq_refl)
    as [H|(a & d & v & _ & _ & _ & H & _)]; [discriminate H|exact H].
Defined.
End DellRaid.
