(* ===== verification/Accounts.v ===== *)
(** * Accounts

    src/redfish_ctl/accounts/cmd_account_manage.py: account-create, account-update and account-delete, over the vendor
    interface.  The theorems say what is written and to whom, that a deletion spares the account that is logged in, and
    that previews do not show passwords. *)

From stdpp Require Import base list strings pretty.
From Stdlib Require Import Ascii ZArith Lia.
From S2P Require Import Prelude PyVal Effects Query Http Manager Discovery Invoker Idrac Vendor MockRules VendorActions.

Module Accounts.
Import Http RedfishManager Vendor.
Local Open Scope Z_scope.
Local Open Scope py_scope.

Definition DEFAULT_ROLE : string := "ReadOnly".
Definition ACCOUNTS : string := "/redfish/v1/AccountService/Accounts".

(** [build_create_payload(username, password, role)] *)
Definition build_create_payload (username password role : option string) : pydict :=
  [("UserName", opt_str username); ("Password", opt_str password);
   ("RoleId", PStr (if PyStr.nonempty (default "" role) then default "" role else DEFAULT_ROLE))].

(** [build_update_payload(password, role, enabled)] *)
Definition build_update_payload (password role : option string) (enabled : option bool) : pydict :=
  match password with Some p => [("Password", PStr p)] | None => [] end ++
  match role with Some r => [("RoleId", PStr r)] | None => [] end ++
  match enabled with Some b => [("Enabled", PBool b)] | None => [] end.

Definition secret_field (k : string) : bool := bool_decide (k = "Password").

(** [_mask(payload)] *)
Definition mask (payload : pydict) : pydict := map (fun kv => (kv.1, if secret_field kv.1 then PStr "***" else kv.2)) payload.

Definition given (v : option string) : bool := PyStr.nonempty (default "" v).

(** The two tests of the loop of [_resolve_account] *)
Definition account_matches (username account_id : option string) (data : pydict) : bool :=
  (given account_id && bool_decide (py_str (dget "Id" data) = default "" account_id))
  || (given username && eq_str (dget "UserName" data) (default "" username)).

Definition failed (text : string) : CommandResult := mkResult PNone PNone PNone (PStr text).

Section Commands.
Context {W : Type} `{!World W} `{!Vendor W}.
Abbreviation MM := (M (mstate W)).

(** The account of one member: as it is when the collection was expanded, else read *)
Definition member_account (m : pyval) : MM (pydict * pydict) :=
  match m with
  | PDict d =>
      if dict_in "UserName" d then ret (d, d)
      else
        let! r := v_query (py_str (dict_get_or "@odata.id" (PStr "") d)) qdefault in
        match py_or (data r) (PDict []) with
        | PDict a => ret (d, a)
        | v => lift_res (no_get v)
        end
  | PStr _ | PList _ | PTuple _ => lift_res (no_get m)
  | _ => raise (TypeError ("argument of type '" +:+ type_name m +:+ "' is not iterable"))
  end.

(** The loop over the members *)
Fixpoint find_account (username account_id : option string) (members : list pyval) : MM (pyval * pydict) :=
  match members with
  | [] => ret (PNone, [])
  | m :: rest =>
      let! (d, a) := member_account m in
      if account_matches username account_id a then ret (py_or (dget "@odata.id" a) (dget "@odata.id" d), a)
      else find_account username account_id rest
  end.

(** [_resolve_account(username, account_id)] *)
Definition resolve_account (username account_id : option string) : MM (pyval * pydict) :=
  let! r := v_query ACCOUNTS qdefault in
  match py_or (data r) (PDict []) with
  | PDict coll =>
      let! members := lift_res (MockRules.py_iter (dict_get_or "Members" (PList []) coll)) in
      find_account username account_id members
  | v => lift_res (no_get v)
  end.

(** [AccountCreate.execute(acct_user, acct_password, acct_role, acct_confirm)] *)
Definition account_create (user password role : option string) (confirm : bool) : MM CommandResult :=
  let payload := build_create_payload user password role in
  if negb confirm then
    ret (mkResult (PDict [("dry_run", PBool true); ("action", PStr "create"); ("payload", PDict (mask payload));
                          ("hint", PStr "re-run with --confirm to create")]) PNone PNone PNone)
  else
    let! (res, status) := v_write POST ACCOUNTS (Some payload) false 201 in
    ret (mkResult (PDict [("action", PStr "create"); ("username", opt_str user); ("role", opt_str role);
                          ("status", PStr (api_respond_str status)); ("error", error res)]) PNone PNone (error res)).

(** [str(acct_enabled).strip().lower() in ("1", "true", "yes", "on")] *)
Definition enabled_flag (v : string) : bool := bool_decide (PyStr.lower (PyStr.strip v) ∈ ["1"; "true"; "yes"; "on"]).

(** [acct_user or acct_id] *)
Definition wanted (user account_id : option string) : string := py_str (if given user then opt_str user else opt_str account_id).

(** [AccountUpdate.execute(acct_user, acct_id, acct_role, acct_password, acct_enabled, acct_confirm)] *)
Definition account_update (user account_id role password enabled : option string) (confirm : bool) : MM CommandResult :=
  if negb (given user) && negb (given account_id) then ret (failed "provide --username or --id")
  else
    let payload := build_update_payload password role (enabled_flag <$> enabled) in
    if decide (payload = []) then ret (failed "nothing to update (set --role/--password/--enabled)")
    else
      let! (uri, a) := resolve_account user account_id in
      if negb (truthy uri) then ret (failed ("account not found: " +:+ wanted user account_id))
      else if negb confirm then
        ret (mkResult (PDict [("dry_run", PBool true); ("action", PStr "update"); ("target", dget "UserName" a); ("uri", uri);
                              ("payload", PDict (mask payload))]) PNone PNone PNone)
      else
        let! (res, status) := v_write PATCH (py_str uri) (Some payload) false 204 in
        ret (mkResult (PDict [("action", PStr "update"); ("target", dget "UserName" a); ("status", PStr (api_respond_str status));
                              ("error", error res)]) PNone PNone (error res)).

(** [AccountDelete.execute(acct_user, acct_id, acct_confirm)] *)
Definition account_delete (user account_id : option string) (confirm : bool) : MM CommandResult :=
  if negb (given user) && negb (given account_id) then ret (failed "provide --username or --id")
  else
    let! (uri, a) := resolve_account user account_id in
    if negb (truthy uri) then ret (failed ("account not found: " +:+ wanted user account_id))
    else
      let target := dget "UserName" a in
      let! m := gets mgr in
      if truthy target && eq_str target (Manager.RedfishManager.user m) then
        ret (failed ("refusing to delete the logged-in account '" +:+ py_str target +:+ "' (self-delete guard)"))
      else if negb confirm then
        ret (mkResult (PDict [("dry_run", PBool true); ("action", PStr "delete"); ("target", target); ("uri", uri);
                              ("hint", PStr "re-run with --confirm to delete (irreversible)")]) PNone PNone PNone)
      else
        let! (res, status) := v_write DELETE (py_str uri) None false 204 in
        ret (mkResult (PDict [("action", PStr "delete"); ("target", target); ("status", PStr (api_respond_str status));
                              ("error", error res)]) PNone PNone (error res)).
End Commands.

(** ** Properties *)

Section Properties.
Context {W : Type} `{!World W} `{!Vendor W}.

Lemma resolve_reads u i : emits is_get (resolve_account (W := W) u i).
Proof.
  assert (forall l, emits is_get (find_account (W := W) u i l)) as Hl.
  { induction l as [|m l IH]; cbn [find_account]; unfold member_account; frame; auto with emits. }
  unfold resolve_account. frame; auto with emits.
Qed.

(** What is found has the name or the id that was asked for. *)
Lemma find_account_matches u i l (s s1 : mstate W) uri a :
  find_account u i l s = (s1, Ok (uri, a)) -> uri = PNone \/ account_matches u i a = true.
Proof.
  revert s. induction l as [|m l IH]; intros s; cbn [find_account]; [intros [= _ <- _]; by left|]. unfold bind at 1.
  destruct (member_account m s) as [s2 [[d b]|e|]]; [|done..]. destruct (account_matches u i b) eqn:Hm; [|apply IH].
  intros [= _ _ <-]. by right.
Qed.

Lemma resolve_matches u i (s s1 : mstate W) uri a :
  resolve_account u i s = (s1, Ok (uri, a)) -> truthy uri = true -> account_matches u i a = true.
Proof.
  unfold resolve_account, bind at 1. destruct (v_query ACCOUNTS qdefault s) as [s2 [r|e|]]; [|done..].
  destruct (py_or (data r) (PDict [])); try done. unfold bind, lift_res. destruct (MockRules.py_iter _) as [l'|e|]; [|done..].
  intros [-> | H]%find_account_matches; done.
Qed.

(** [m] reads up to [s1] and then at most writes [payload] to an account that the arguments name. *)
Definition writes_account (m : M (mstate W) CommandResult) (s : mstate W) (user account_id : option string) (confirm : bool)
    (meth : method) (payload : option pydict) (P : mstate W -> pydict -> Prop) : Prop :=
  exists s1 reads, trace s1 = trace s ++ reads /\ Forall is_get reads /\
    ((m s).1 = s1 \/
     exists uri a, confirm = true /\ resolve_account user account_id s = (s1, Ok (uri, a)) /\ truthy uri = true /\
       account_matches user account_id a = true /\ P s1 a /\ (m s).1 = (v_write meth (py_str uri) payload false 204 s1).1).

(** C36. A deletion spares the account that is logged in: GETs, and then at most one DELETE, only when confirmed, of the account
    that was found under the name or the id, and never of one with the user name of the connection. *)
Theorem account_delete_spares user account_id confirm (s : mstate W) :
  writes_account (account_delete user account_id confirm) s user account_id confirm DELETE None
    (fun s1 a => Manager.RedfishManager.user (mgr s1) <> "" -> dget "UserName" a <> PStr (Manager.RedfishManager.user (mgr s1))).
Proof.
  unfold writes_account, account_delete. destruct (negb (given user) && negb (given account_id)).
  { exists s, []. rewrite app_nil_r. auto. }
  destruct (resolve_reads user account_id s) as (reads & Ht & Hr). unfold bind, gets.
  destruct (resolve_account user account_id s) as [s1 [[uri a]|e|]] eqn:He; exists s1, reads; (split; [exact Ht|]); (split; [exact Hr|]); [|by left..].
  destruct (truthy uri) eqn:Hu; [|by left]. cbn [negb].
  destruct (truthy (dget "UserName" a) && eq_str (dget "UserName" a) (Manager.RedfishManager.user (mgr s1))) eqn:Hs; [by left|].
  destruct confirm; [|by left]. right. exists uri, a. split; [done|]. split; [done|]. split; [done|]. split; [by eapply resolve_matches|]. split.
  - intros Hne Heq. rewrite Heq in Hs. cbn in Hs. rewrite bool_decide_true in Hs by done. apply andb_false_iff in Hs as [Hs|Hs]; [|done].
    by destruct (Manager.RedfishManager.user (mgr s1)).
  - cbn [negb]. by destruct (v_write DELETE (py_str uri) None false 204 s1) as [s2 [[res st]|e|]].
Qed.

(** An update writes exactly the fields that were given, to the account that was found, and only when confirmed. *)
Theorem account_update_exact user account_id role password enabled confirm (s : mstate W) :
  writes_account (account_update user account_id role password enabled confirm) s user account_id confirm PATCH
    (Some (build_update_payload password role (enabled_flag <$> enabled)))
    (fun _ _ => build_update_payload password role (enabled_flag <$> enabled) <> []).
Proof.
  unfold writes_account, account_update. destruct (negb (given user) && negb (given account_id)).
  { exists s, []. rewrite app_nil_r. auto. }
  case_decide as Hp; [exists s, []; rewrite app_nil_r; auto|].
  destruct (resolve_reads user account_id s) as (reads & Ht & Hr). unfold bind, gets.
  destruct (resolve_account user account_id s) as [s1 [[uri a]|e|]] eqn:He; exists s1, reads; (split; [exact Ht|]); (split; [exact Hr|]); [|by left..].
  destruct (truthy uri) eqn:Hu; [|by left]. destruct confirm; [|by left]. right. exists uri, a. split_and!; try done; [by eapply resolve_matches|].
  cbn [negb]. by destruct (v_write PATCH _ _ false 204 s1) as [s2 [[res st]|e|]].
Qed.

(** Previews do not show passwords: without the confirmation nothing depends on the password but whether there is one. *)
Theorem account_preview_hides user account_id role p q enabled (s : mstate W) :
  account_create user (Some p) role false s = account_create user (Some q) role false s /\
  account_update user account_id role (Some p) enabled false s = account_update user account_id role (Some q) enabled false s.
Proof.
  split; [done|]. unfold account_update. destruct (negb (given user) && negb (given account_id)); [done|]. cbn [build_update_payload app].
  rewrite !decide_False by done. unfold bind. destruct (resolve_account user account_id s) as [s1 [[uri a]|e|]]; [|done..].
  by destruct (truthy uri).
Qed.

(** A creation is one POST to the collection, only when confirmed. *)
Theorem account_create_once user password role confirm (s : mstate W) :
  (account_create user password role confirm s).1 =
  if confirm then (v_write POST ACCOUNTS (Some (build_create_payload user password role)) false 201 s).1 else s.
Proof. unfold account_create. destruct confirm; [|done]. cbn [negb]. unfold bind. by destruct (v_write POST _ _ false 201 s) as [s1 [[res st]|e|]]. Qed.
End Properties.

(** ** Examples *)

Definition account (id name : string) : pyval :=
  PDict [("@odata.id", PStr (ACCOUNTS +:+ "/" +:+ id)); ("Id", PStr id); ("UserName", PStr name)].

Definition account_routes : list (method * string * list response) :=
  [(GET, "https://10.0.0.42" +:+ ACCOUNTS, [ok_json (PDict [("Members", PList [account "1" "root"; account "2" "alice"; account "3" "bob"])])]);
   (DELETE, "https://10.0.0.42" +:+ ACCOUNTS +:+ "/1", [Response 204 [] (inr "")]);
   (DELETE, "https://10.0.0.42" +:+ ACCOUNTS +:+ "/2", [Response 204 [] (inr "")]);
   (DELETE, "https://10.0.0.42" +:+ ACCOUNTS +:+ "/3", [Response 204 [] (inr "")])].

Definition accounts_invoker : SyncInvoker (mstate sim) := fun _ _ _ => raise (ValueError "no command").
Definition accounts_manager : Vendor sim := dmtf_vendor (SyncInvoker0 := accounts_invoker) 3 (fun _ => 0).

Definition deleted (user account_id : option string) : list string :=
  map rq_url (write_requests (trace (account_delete (Vendor0 := accounts_manager) user account_id true (sim_state sample_manager account_routes)).1)).

(** With a name and an id the first account that has either is deleted: asking for bob by name and for the id 2 deletes
    alice.  The account that is logged in is spared. *)
Example either_selector_deletes :
  (deleted (Some "bob") (Some "2"), deleted (Some "bob") None, deleted (Some "root") None) =
  (["https://10.0.0.42" +:+ ACCOUNTS +:+ "/2"], ["https://10.0.0.42" +:+ ACCOUNTS +:+ "/3"], []).
Proof. vm_compute. reflexivity. Qed.
End Accounts.
