(* ===== verification/VirtualMedia.v ===== *)
(** * Virtual media

    src/redfish_ctl/virtual_media/: the query (cmd_virtual_media_get.py), eject (cmd_virtual_media_eject.py), insert
    (cmd_virtual_media_insert.py), mount_cdrom (cmd_mount_cdrom.py) and the Supermicro share mount
    (cmd_smc_virtual_media.py).  Insert and mount run the query and the eject as commands ([SyncInvoker]); [media_commands]
    is that protocol with the modelled commands behind it, so the theorems are about the requests that reach the BMC. *)

From stdpp Require Import base list strings pretty.
From Stdlib Require Import Ascii ZArith Lia.
From S2P Require Import Prelude PyVal Effects Query Http Manager Discovery Csdl ActionPolicy Actions Invoker Idrac Vendor MockRules.

Module VirtualMedia.
Import Http RedfishManager Actions Vendor.
Local Open Scope Z_scope.
Local Open Scope py_scope.

Definition given (v : option string) : bool := PyStr.nonempty (default "" v).
Definition failed (d : pydict) (text : string) : CommandResult := mkResult (PDict d) PNone PNone (PStr text).
Definition answer (d : pyval) : CommandResult := mkResult d PNone PNone PNone.

(** ** get_virtual_media *)

Section Query.
Context {W : Type} `{!World W}.
Abbreviation MM := (M (mstate W)).

(** [_hydrate_member_links(members, do_async)]: members that are bare links are read *)
Definition hydrate_member (do_async : bool) (member : pyval) : MM pyval :=
  match member with
  | PDict d =>
      if dict_in "Id" d && dict_in "Actions" d then ret member
      else
        match dget "@odata.id" d with
        | PStr uri =>
            try_Exception
              (let! r := base_query uri (with_async do_async) in ret (match data r with PDict x => PDict x | _ => member end))
              (fun _ => ret member)
        | _ => ret member
        end
  | _ => ret member
  end.

Definition hydrate_member_links (members : pyval) (do_async : bool) : MM pyval :=
  match members with
  | PList l => let! l := mapM (hydrate_member do_async) l in ret (PList l)
  | v => ret v
  end.

(** The device of an id, the first member that has it *)
Fixpoint find_device (id : string) (members : list pyval) : res (option pyval) :=
  match members with
  | [] => Ok None
  | e :: rest =>
      let? has := Idrac.member_test "Id" e in
      let? found := if (has : bool) then (let? v := Idrac.item "Id" e in Ok (eq_str v id)) else Ok false in
      if (found : bool) then Ok (Some e) else find_device id rest
  end.

(** [VirtualMediaGet.execute(device_id, filter_key, do_async)] *)
Definition virtual_media_get (device_id filter_key : option string) (do_async : bool) : MM CommandResult :=
  let! vm_uri := try_catch (let! uri := Discovery.discover_virtual_media_uri false in ret (inl uri))
    (fun e => match e with ResourceNotFound _ => true | _ => false end) (fun e => ret (inr (exn_str e))) in
  match vm_uri with
  | inr status => ret (failed [("Status", PStr status)] status)
  | inl vm_uri =>
      let! m := gets mgr in
      let! response := api_get_call (base_url m (py_str vm_uri) +:+ expanded 1) json_content_type in
      if status_code response =? 501 then
        let status := "standard VirtualMedia endpoint is not implemented on this BMC" in
        ret (failed [("error", PStr status); ("status_code", PInt 501); ("target", vm_uri); ("suggested_command", PStr "vm-mount --status")] status)
      else
        let! _ := lift_res (default_error_handler response) in
        let! body := lift_res (json response) in
        let! members := lift_res (get_attr body "Members") in
        let! members := hydrate_member_links members do_async in
        let body := dict_set "Members" members (as_dict body) in
        let! chosen :=
          if given device_id then
            let! l := lift_res (MockRules.py_iter members) in
            lift_res (find_device (PyStr.strip (default "" device_id)) l)
          else ret (Some (PDict body)) in
        match chosen with
        | None => ret (answer (PDict [("Status", PStr ("device id " +:+ default "" device_id +:+ " not found"))]))
        | Some d =>
            if given filter_key then
              let! has := lift_res (Idrac.member_test (PyStr.strip (default "" filter_key)) d) in
              if (has : bool) then let! v := lift_res (Idrac.item (default "" filter_key) d) in ret (answer v)
              else ret (answer (PDict [("Status", PStr ("key " +:+ default "" filter_key +:+ " not found"))]))
            else ret (answer d)
        end
  end.

Lemma virtual_media_get_reads d f b : emits is_get (virtual_media_get d f b).
Proof.
  unfold virtual_media_get, hydrate_member_links, hydrate_member.
  frame; auto using Discovery.emits_discover_virtual_media_uri with emits; by apply emits_api_get_call.
Qed.
End Query.

(** ** eject and insert *)

(** The devices with an id, with their discovered actions; every member must have an id. *)
Definition devices_with (device_id : pyval) (members : list pyval) : res (list (pyval * list (string * RedfishAction))) :=
  res_fold (fun acc m =>
    let? i := Idrac.item "Id" m in
    if py_eqb i device_id then let? a := discover_redfish_actions m in Ok (acc ++ [(m, a)]) else Ok acc) [] members.

Definition ids_of (members : list pyval) : res (list pyval) :=
  res_fold (fun acc m => let? i := Idrac.item "Id" m in Ok (acc ++ [i])) [] members.

(** [[a[name].target for a in actions][-1]] *)
Definition last_target (nm : string) (devices : list (pyval * list (string * RedfishAction))) : res pyval :=
  res_fold (fun _ d => match dict_get nm d.2 with Some a => Ok (target a) | None => Raise (KeyError nm) end) PNone devices.

(** [any(m['Id'] == device_id and m.get('Inserted') is False for m in members)] *)
Fixpoint already_ejected (device_id : pyval) (members : list pyval) : res bool :=
  match members with
  | [] => Ok false
  | m :: rest =>
      let? i := Idrac.item "Id" m in
      if py_eqb i device_id then
        let? v := get_attr m "Inserted" in
        match v with PBool false => Ok true | _ => already_ejected device_id rest end
      else already_ejected device_id rest
  end.

(** [{'image': m['Image'] for m in members if m['Id'] == device_id and m['Inserted']}], the last image *)
Definition inserted_image (device_id : pyval) (members : list pyval) : res (option pyval) :=
  res_fold (fun acc m =>
    let? i := Idrac.item "Id" m in
    if py_eqb i device_id then
      let? v := Idrac.item "Inserted" m in
      if truthy v then let? image := Idrac.item "Image" m in Ok (Some image) else Ok acc
    else Ok acc) None members.

(** The payload of InsertMedia without the values that were not given *)
Definition insert_payload (uri_path username password : option string) : pydict :=
  List.filter (fun kv => negb (is_none kv.2))
    [("Image", opt_str uri_path); ("Inserted", PBool true); ("WriteProtected", PBool true); ("UserName", opt_str username);
     ("Password", opt_str password)].

Section Commands.
Context {W : Type} `{!World W} `{!Vendor W} `{!SyncInvoker (mstate W)}.
Abbreviation MM := (M (mstate W)).

(** [self.sync_invoke(ApiRequestType.VirtualMediaGet, "virtual_disk_query")] *)
Definition query_media : MM CommandResult := sync_invoke "VirtualMediaGet" "virtual_disk_query" [].

Definition members_of (r : CommandResult) : res (list pyval) :=
  let? m := Idrac.item "Members" (data r) in MockRules.py_iter m.

(** [VirtualMediaEject.execute(device_id, do_async, do_strict)]; the status of a device that is empty is an enum member, here
    its text *)
Definition virtual_media_eject (device_id : pyval) (do_async do_strict : bool) : MM CommandResult :=
  let! media := query_media in
  if negb (is_none (error media)) then ret media
  else
    let! members := lift_res (members_of media) in
    let! devices := lift_res (devices_with device_id members) in
    match devices with
    | [] =>
        let! ids := lift_res (ids_of members) in
        raise (InvalidArgument ("Invalid device id " +:+ py_str device_id +:+ ", supported device id " +:+ py_str (PList ids)))
    | _ =>
        let! gone := lift_res (already_ejected device_id members) in
        if (gone : bool) then
          if do_strict then raise (InvalidArgument "Image already ejected")
          else ret (answer (PDict [("Status", PStr (api_respond_str RespOk))]))
        else
          let! t := lift_res (last_target "EjectMedia" devices) in
          let! (r, a) := v_write POST (py_str t) (Some []) do_async 202 in
          with_task r a
    end.

(** [VirtualMediaInsert.execute(uri_path, remote_username, remote_password, device_id, do_async, do_eject)] *)
Definition virtual_media_insert (uri_path username password : option string) (device_id : pyval) (do_async do_eject : bool) : MM CommandResult :=
  let! media := query_media in
  if negb (is_none (error media)) then ret media
  else
    let! members := lift_res (members_of media) in
    let! devices := lift_res (devices_with device_id members) in
    match devices with
    | [] =>
        let! ids := lift_res (ids_of members) in
        raise (InvalidArgument ("Invalid device id " +:+ py_str device_id +:+ ", support device id " +:+ py_str (PList ids)))
    | _ =>
        let! image := lift_res (inserted_image device_id members) in
        let! ejected :=
          if negb do_eject then
            match image with
            | Some image => raise (InvalidArgument ("Image " +:+ py_str image +:+ " already inserted. Eject media first."))
            | None => ret None
            end
          else
            let! r := sync_invoke "VirtualMediaEject" "virtual_disk_eject" [("device_id", device_id)] in
            ret (if is_none (error r) then None else Some r) in
        match ejected with
        | Some r => ret r
        | None =>
            let! t := lift_res (last_target "InsertMedia" devices) in
            let! (r, a) := v_write POST (py_str t) (Some (insert_payload uri_path username password)) do_async 202 in
            with_task r a
        end
    end.

(** ** mount_cdrom *)

(** [_is_cdrom_capable(member)] *)
Definition is_cdrom_capable (member : pyval) : res bool :=
  let? types := get_attr member "MediaTypes" in
  let? l := MockRules.py_iter (py_or types (PList [])) in
  Ok (existsb (fun v => bool_decide (MockRules.upper (py_str v) ∈ ["CD"; "DVD"])) l).

(** [_has_insert_action(member)] *)
Definition has_insert_action (member : pyval) : res bool :=
  let? actions := get_attr member "Actions" in
  let? l := MockRules.py_iter (py_or actions (PDict [])) in
  Ok (existsb (fun k => PyStr.contains "InsertMedia" (py_str k)) l).

(** The device of an id, or the first that can hold a CD and offers the action *)
Fixpoint select_device (wanted : option string) (members : list pyval) : res (option pyval) :=
  match members with
  | [] => Ok None
  | m :: rest =>
      let? found :=
        match wanted with
        | Some id => let? i := get_attr m "Id" in Ok (eq_str i id)
        | None => let? cd := is_cdrom_capable m in if (cd : bool) then has_insert_action m else Ok false
        end in
      if (found : bool) then Ok (Some m) else select_device wanted rest
  end.

(** [str(device_id).strip()] when there is one *)
Definition wanted_id (device_id : option string) : option string :=
  let t := PyStr.strip (default "" device_id) in if PyStr.nonempty t then Some t else None.

(** [MountCdrom.execute(uri_path, device_id, remote_username, remote_password, do_async, do_eject, confirm)] *)
Definition mount_cdrom (uri_path device_id username password : option string) (do_async do_eject confirm : bool) : MM CommandResult :=
  let status_answer text := failed [("Status", PStr text)] text in
  if negb (PyStr.nonempty (PyStr.strip (default "" uri_path))) then
    ret (status_answer "an ISO image URI is required; pass --uri_path <http(s)://host/image.iso>")
  else
    let! media := query_media in
    if negb (is_none (error media)) then ret media
    else
      match dget "Members" (as_dict (data media)) with
      | PList ((_ :: _) as members) =>
          let! chosen := lift_res (select_device (wanted_id device_id) members) in
          match chosen with
          | None =>
              let available := py_str (PList (omap (fun m => match m with PDict d => Some (dget "Id" d) | _ => None end) members)) in
              ret (status_answer (match wanted_id device_id with
                                  | Some _ => "device id " +:+ default "" device_id +:+ " not found; available devices: " +:+ available
                                  | None => "no CD-capable VirtualMedia device with an InsertMedia action was found; available devices: " +:+ available
                                  end))
          | Some dev =>
              let! actions := lift_res (discover_redfish_actions dev) in
              let d := as_dict dev in
              match dict_get "InsertMedia" actions with
              | None => ret (status_answer ("device " +:+ py_str (dget "Id" d) +:+ " does not expose a VirtualMedia.InsertMedia action"))
              | Some act =>
                  if negb confirm then
                    ret (answer (PDict [("dry_run", PBool true); ("device", dget "Id" d); ("insert_target", target act); ("image", opt_str uri_path);
                                        ("currently_inserted", if truthy (dget "Inserted" d) then dget "Image" d else PNone);
                                        ("hint", PStr "re-run with --confirm to mount")]))
                  else if truthy (dget "Inserted" d) && negb do_eject then
                    ret (status_answer ("device " +:+ py_str (dget "Id" d) +:+ " already has " +:+ py_str (dget "Image" d)
                                        +:+ " inserted; eject first or pass --eject"))
                  else
                    let! ejected :=
                      if truthy (dget "Inserted" d) then
                        let! r := sync_invoke "VirtualMediaEject" "virtual_disk_eject" [("device_id", dget "Id" d)] in
                        ret (if is_none (error r) then None else Some r)
                      else ret None in
                    match ejected with
                    | Some r => ret r
                    | None =>
                        let! (r, a) := v_write POST (py_str (target act)) (Some (insert_payload uri_path username password)) do_async 202 in
                        with_task r a
                    end
              end
          end
      | _ => ret (status_answer "no VirtualMedia devices are exposed by this Redfish endpoint")
      end.
End Commands.

(** ** The commands behind the protocol *)

Section Closed.
Context {W : Type} `{!World W} `{!Vendor W}.
Abbreviation MM := (M (mstate W)).

Definition no_command (nm : string) : MM CommandResult := raise (ValueError nm).

(** The query, for the eject command *)
Definition query_command : SyncInvoker (mstate W) := fun api nm kw =>
  if decide (nm = "virtual_disk_query") then virtual_media_get None None false else no_command nm.

(** The query and the eject command, for insert and mount *)
Definition media_commands : SyncInvoker (mstate W) := fun api nm kw =>
  if decide (nm = "virtual_disk_query") then virtual_media_get None None false
  else if decide (nm = "virtual_disk_eject") then virtual_media_eject (SyncInvoker0 := query_command) (dget "device_id" kw) false false
  else no_command nm.
Abbreviation is_post := (fun rq => rq_method rq = POST).

Lemma query_media_reads (I : SyncInvoker (mstate W)) :
  (forall api kw, emits is_get (I api "virtual_disk_query" kw)) -> emits is_get (query_media (SyncInvoker0 := I)).
Proof. intros H. apply H. Qed.

Lemma query_command_reads api kw : emits is_get (query_command api "virtual_disk_query" kw).
Proof. apply virtual_media_get_reads. Qed.

Lemma media_query_reads api kw : emits is_get (media_commands api "virtual_disk_query" kw).
Proof. apply virtual_media_get_reads. Qed.

(** A POST with its task *)
Lemma post_and_wait uri p b : writes 1 is_post (let! (r, a) := v_write POST uri p b 202 in with_task r a).
Proof. apply (writes_bind _ 1 0); [apply writes_sends, v_write_once|]. intros [r a]. apply writes_reads. auto with emits. Qed.

Ltac media := repeat first [ apply writes_read_bind; [solve [frame; auto using query_media_reads, query_command_reads, media_query_reads with emits]|]; intros ?
  | apply post_and_wait | apply writes_reads; solve [frame; auto with emits]
  | match goal with |- writes _ _ (match ?x with _ => _ end) => destruct x end ].

(** Ejecting is at most one POST. *)
Lemma eject_writes d b strict : writes 1 is_post (virtual_media_eject (SyncInvoker0 := query_command) d b strict).
Proof. unfold virtual_media_eject. media. Qed.

Lemma eject_command_writes api kw : writes 1 is_post (media_commands api "virtual_disk_eject" kw).
Proof. apply eject_writes. Qed.

Lemma writes_more {A} n k (m : MM A) : writes n is_post m -> (n <= k)%nat -> writes k is_post m.
Proof. intros Hm Hk s. destruct (Hm s) as (l & Ht & Hn & HP). exists l. split; [done|]. split; [lia|done]. Qed.

(** The eject command, and then a POST unless it failed *)
Lemma eject_then_post kw uri p b : writes 2 is_post
  (let! ejected := (let! r := media_commands "VirtualMediaEject" "virtual_disk_eject" kw in ret (if is_none (error r) then None else Some r)) in
   match ejected with
   | Some r => ret r
   | None => let! (r, a) := v_write POST uri p b 202 in with_task r a
   end).
Proof.
  apply (writes_bind _ 1 1).
  - apply (writes_bind _ 1 0); [apply eject_command_writes|]. intros r. apply writes_reads. frame.
  - intros [r|]; [apply writes_reads; frame|apply post_and_wait].
Qed.

(** Mounting is careful: without the confirmation it sends only GETs; with it, at most the eject and the insertion, and the
    eject only when it was allowed.  The same holds of the insertion, which takes no confirmation. *)
Theorem mount_writes uri dev user pw b do_eject confirm :
  (confirm = false -> emits is_get (mount_cdrom (SyncInvoker0 := media_commands) uri dev user pw b do_eject confirm)) /\
  writes (if do_eject then 2 else 1) is_post (mount_cdrom (SyncInvoker0 := media_commands) uri dev user pw b do_eject confirm).
Proof.
  split.
  - intros ->. unfold mount_cdrom. cbn [negb]. frame; auto using query_media_reads, media_query_reads.
  - unfold mount_cdrom. repeat first [ apply writes_reads; solve [frame; auto with emits]
      | apply writes_read_bind; [solve [frame; auto using query_media_reads, media_query_reads with emits]|]; intros ?
      | match goal with
        | |- writes _ _ (match ?x with _ => _ end) => lazymatch x with context [do_eject] => fail | _ => destruct x eqn:? end
        | |- writes _ _ (if truthy ?v && negb do_eject then _ else _) => destruct (truthy v) eqn:?, do_eject; cbn [andb negb]
        end ].
    + apply eject_then_post.
    + eapply writes_more; [apply post_and_wait|lia].
    + apply post_and_wait.
Qed.

(** ** What an insertion may post *)

(** The device [d] has this id. *)
Definition has_id (dev : pyval) (d : pydict) : Prop := exists i, dict_get "Id" d = Some i /\ py_eqb i dev = true.

(** What is posted to insert an image: the image and the credentials that were given. *)
Definition insertion (uri user pw : option string) : pydict :=
  let field k v := match v with Some x => [(k, PStr x)] | None => [] end in
  field "Image" uri ++ [("Inserted", PBool true); ("WriteProtected", PBool true)] ++ field "UserName" user ++ field "Password" pw.

Lemma insert_payload_is uri user pw : insert_payload uri user pw = insertion uri user pw.
Proof. by destruct uri, user, pw. Qed.

Lemma res_fold_snoc {A B} (f : A -> B -> res A) l x a : res_fold f a (l ++ [x]) = (let? r := res_fold f a l in f r x).
Proof. revert a. induction l as [|y l IH]; intros a; cbn [app res_fold res_bind]; [by destruct (f a x)|]. by destruct (f a y); cbn [res_bind]; [apply IH|..]. Qed.

Lemma item_ok k v x : Idrac.item k v = Ok x -> exists d, v = PDict d /\ dict_get k d = Some x.
Proof. destruct v; try done. cbn. destruct (dict_get k d) eqn:H; [|done]. intros [= <-]. eauto. Qed.

Lemma item_id dev d i : Idrac.item "Id" (PDict d) = Ok i -> py_eqb i dev = false -> ~ has_id dev d.
Proof. intros (d' & [= <-] & Hi)%item_ok Hn (j & Hj & He). congruence. Qed.

(** The target is that of the action of the last device with the id. *)
Lemma last_device dev nm members devices t : devices_with dev members = Ok devices -> devices <> [] -> last_target nm devices = Ok t ->
  exists before d after full, members = before ++ PDict d :: after /\ has_id dev d /\ (forall d', PDict d' ∈ after -> ~ has_id dev d') /\
    has_action d full t /\ short_of full = nm.
Proof.
  revert devices. induction members as [|m members IH] using rev_ind; intros devices; [by intros [= <-]|]. unfold devices_with.
  rewrite res_fold_snoc. intros (found & Hf & (i & Hi & H)%res_bind_ok)%res_bind_ok. destruct (item_ok _ _ _ Hi) as (d & -> & Hid).
  destruct (py_eqb i dev) eqn:Hdev.
  - apply res_bind_ok in H as (acts & Ha & [= <-]). intros _. unfold last_target. rewrite res_fold_snoc.
    intros (u & _ & H)%res_bind_ok. cbn [snd] in H. destruct (dict_get nm acts) as [a|] eqn:Hact; [|done]. injection H as <-.
    destruct (discover_sound _ _ Ha _ _ Hact) as (Hh & Hs & _). exists members, d, [], (full_redfish_name a).
    split; [done|]. split; [by exists i|]. split; [|done]. intros d' Hd'. by apply not_elem_of_nil in Hd'.
  - injection H as ->. intros Hne Hl. destruct (IH _ Hf Hne Hl) as (before & d' & after & full & -> & H1 & H2 & H3).
    exists before, d', (after ++ [PDict d]), full. split; [by rewrite <- app_assoc|]. split; [done|]. split; [|done].
    intros x [Hx|Hx]%elem_of_app; [by apply H2|]. apply list_elem_of_singleton in Hx. injection Hx as ->. by eapply item_id.
Qed.

(** No device with the id holds an image. *)
Lemma none_inserted dev members : inserted_image dev members = Ok None ->
  forall d, PDict d ∈ members -> has_id dev d -> exists v, dict_get "Inserted" d = Some v /\ truthy v = false.
Proof.
  induction members as [|m members IH] using rev_ind; [intros _ d Hd; by apply not_elem_of_nil in Hd|]. unfold inserted_image.
  rewrite res_fold_snoc. intros (acc & Hf & (i & Hi & H)%res_bind_ok)%res_bind_ok d [Hd|Hd]%elem_of_app (j & Hj & He).
  - apply IH; [|done|by exists j]. unfold inserted_image. rewrite Hf. destruct (py_eqb i dev); [|exact H].
    apply res_bind_ok in H as (v & Hv & H). destruct (truthy v); [|exact H]. by apply res_bind_ok in H as (x & _ & ?).
  - apply list_elem_of_singleton in Hd. subst m. apply item_ok in Hi as (d' & [= <-] & Hi). assert (i = j) as -> by congruence. rewrite He in H.
    apply res_bind_ok in H as (v & (d' & [= <-] & Hv)%item_ok & H). exists v. split; [done|]. destruct (truthy v); [|done].
    by apply res_bind_ok in H as (x & _ & ?).
Qed.

(** C39. An insertion without an eject reads the devices, and posts only when every device with the id that this read returned
    reports that nothing is inserted.  Then it posts the image and the credentials that were given, to the target of an
    action InsertMedia of the last of these devices, and waits for the task of it. *)
Theorem insert_respects_media uri user pw dev b (s : mstate W) :
  let run := virtual_media_insert (SyncInvoker0 := media_commands) uri user pw dev b false s in
  (exists reads, trace run.1 = trace s ++ reads /\ Forall is_get reads) \/
  exists s1 media items members before d after full t,
    virtual_media_get None None false s = (s1, Ok media) /\
    dict_get "Members" (as_dict (data media)) = Some items /\ MockRules.py_iter items = Ok members /\
    (forall d', PDict d' ∈ members -> has_id dev d' -> exists v, dict_get "Inserted" d' = Some v /\ truthy v = false) /\
    members = before ++ PDict d :: after /\ has_id dev d /\ (forall d', PDict d' ∈ after -> ~ has_id dev d') /\
    has_action d full t /\ short_of full = "InsertMedia" /\
    run = (let! (r, a) := v_write POST (py_str t) (Some (insertion uri user pw)) b 202 in with_task r a) s1.
Proof.
  cbv zeta. destruct (virtual_media_get_reads None None false s) as (reads & Ht & Hr).
  unfold virtual_media_insert, query_media, sync_invoke, bind, lift_res.
  change (media_commands "VirtualMediaGet" "virtual_disk_query" [] s) with (virtual_media_get None None false s).
  destruct (virtual_media_get None None false s) as [s1 [media|e|]]; [|by left; exists reads..].
  destruct (is_none (error media)); [|by left; exists reads]. cbn [negb].
  destruct (members_of media) as [members|e|] eqn:Hm; [|by left; exists reads..].
  destruct (devices_with dev members) as [[|x devices]|e|] eqn:Hd.
  { destruct (ids_of members); by left; exists reads. }
  2, 3: by left; exists reads.
  destruct (inserted_image dev members) as [[image|]|e|] eqn:Hi; [by left; exists reads| |by left; exists reads..]. cbn [ret raise].
  destruct (last_target "InsertMedia" (x :: devices)) as [t|e|] eqn:Hl; [|by left; exists reads..].
  destruct (last_device _ _ _ _ _ Hd ltac:(done) Hl) as (before & d & after & full & Hsplit & Hid & Hafter & Hh & Hs).
  apply res_bind_ok in Hm as (items & (md & Hmd & Hg)%item_ok & Hit). right.
  exists s1, media, items, members, before, d, after, full, t. rewrite Hmd, insert_payload_is. split_and!; try done. by apply none_inserted.
Qed.

(** A device that reports itself empty is left alone. *)
Theorem eject_leaves_empty dev b (s s1 : mstate W) media members :
  virtual_media_get None None false s = (s1, Ok media) -> members_of media = Ok members -> already_ejected dev members = Ok true ->
  (virtual_media_eject (SyncInvoker0 := query_command) dev b false s).1 = s1.
Proof.
  intros Hq Hm Ha. unfold virtual_media_eject, query_media, sync_invoke, bind, lift_res.
  change (query_command "VirtualMediaGet" "virtual_disk_query" [] s) with (virtual_media_get (W := W) None None false s). rewrite Hq.
  destruct (is_none (error media)); [|done]. cbn [negb]. rewrite Hm. destruct (devices_with dev members) as [[|d devices]|e|]; [|by rewrite Ha|done..].
  by destruct (ids_of members).
Qed.
End Closed.

(** ** vm-mount *)

Section Smc.
Context {W : Type} `{!World W} `{!Vendor W}.
Abbreviation MM := (M (mstate W)).

(** [_vm1(manager_id)] *)
Definition vm1 (manager_id : string) : string := "/redfish/v1/Managers/" +:+ manager_id +:+ "/VM1".

(** [_read_json(path)]: what happened, never an exception *)
Record read := Read { rd_path : string; rd_status : option Z; rd_ok : bool; rd_error : option string; rd_data : pyval }.

Definition read_json (path : string) : MM read :=
  try_Exception
    (let! m := gets mgr in
     let! resp := api_get_call (base_url m path) [] in
     let code := status_code resp in
     if negb (code =? 200) then ret (Read path (Some code) false (Some ("HTTP " +:+ pretty code)) PNone)
     else match json resp with
          | Ok v => ret (Read path (Some code) true None v)
          | Raise e => if is_Exception e then ret (Read path (Some code) false (Some ("invalid JSON: " +:+ exn_str e)) PNone) else raise e
          | NoFuel => lift_res NoFuel
          end)
    (fun e => ret (Read path None false (Some (exn_str e)) PNone)).

(** [_data_or_none(read)] *)
Definition data_or_none (r : read) : option pydict := match rd_data r with PDict d => Some d | _ => None end.

(** [_read_summary(read)] *)
Definition read_summary (r : read) : pydict :=
  [("path", PStr (rd_path r)); ("status", match rd_status r with Some z => PInt z | None => PNone end); ("ok", PBool (rd_ok r))] ++
  match rd_error r with Some e => if PyStr.nonempty e then [("error", PStr e)] else [] | None => [] end.

(** [_cfgcd_path(vm1, fallback)] *)
Definition cfgcd_path (doc : pydict) (fallback : string) : string :=
  let sub k v := match v with PDict d => dget k d | _ => PNone end in
  match sub "@odata.id" (sub "VirtualMediaConfig" (sub "Supermicro" (dget "Oem" doc))) with
  | PStr p => if PyStr.nonempty p then p else fallback
  | _ => fallback
  end.

Definition PUBLIC_FIELDS : list string := ["Host"; "Path"; "Username"; "ShareType"; "Inserted"; "ImageName"; "Image"; "MediaTypes"].

(** [_public_cfgcd_fields(cfgcd)] *)
Definition public_cfgcd_fields (cfgcd : pydict) : pydict :=
  omap (fun k => (fun v => (k, v)) <$> dict_get k cfgcd) PUBLIC_FIELDS.

(** [_status(manager_id)] *)
Definition smc_status (manager_id : string) : MM pydict :=
  let vm1_path := vm1 manager_id in
  let! vm1_read := read_json vm1_path in
  let doc := default [] (data_or_none vm1_read) in
  let path := cfgcd_path doc (vm1_path +:+ "/CfgCD") in
  let! cfgcd_read := read_json path in
  let! cd1_read := read_json (vm1_path +:+ "/CD1") in
  ret [("Members", dget "Members" doc); ("VirtualMediaConfig", PStr path);
       ("CfgCD", match data_or_none cfgcd_read with Some c => PDict (public_cfgcd_fields c) | None => PNone end);
       ("CD1", match data_or_none cd1_read with
               | Some c => PDict (map (fun k => (k, dget k c)) ["Inserted"; "ImageName"; "Image"; "MediaTypes"])
               | None => PNone
               end);
       ("reads", PDict [("VM1", PDict (read_summary vm1_read)); ("CfgCD", PDict (read_summary cfgcd_read)); ("CD1", PDict (read_summary cd1_read))])].

(** [_resolve_cfgcd_path(manager_id)] *)
Definition resolve_cfgcd_path (manager_id : string) : MM string :=
  let! r := read_json (vm1 manager_id) in
  ret (cfgcd_path (default [] (data_or_none r)) (vm1 manager_id +:+ "/CfgCD")).

Definition share_payload (host path share_user share_pass : option string) : pydict :=
  [("Host", opt_str host); ("Path", opt_str path); ("Username", PStr (default "" share_user)); ("Password", PStr (default "" share_pass))].

(** [SmcVirtualMediaMount.execute(host, path, share_user, share_pass, do_unmount, do_status, manager_id)] *)
Definition vm_mount (host path share_user share_pass : option string) (do_unmount do_status : bool) (manager_id : string) : MM CommandResult :=
  if do_status then
    let! st := smc_status manager_id in ret (answer (PDict [("status", PDict st)]))
  else if do_unmount then
    let! cfgcd := resolve_cfgcd_path manager_id in
    let! (r, _) := v_write POST (cfgcd +:+ "/Actions/IsoConfig.UnMount") (Some []) false 200 in
    if negb (is_none (error r)) then ret r
    else let! st := smc_status manager_id in ret (answer (PDict [("unmounted", PBool true); ("status", PDict st)]))
  else if negb (given host) || negb (given path) then
    ret (answer (PDict [("error", PStr "--host and --path are required to mount (or use --status / --unmount)")]))
  else
    let! cfgcd := resolve_cfgcd_path manager_id in
    let! (cfg, _) := v_write PATCH cfgcd (Some (share_payload host path share_user share_pass)) false 200 in
    if negb (is_none (error cfg)) then ret cfg
    else
      let! (r, _) := v_write POST (cfgcd +:+ "/Actions/IsoConfig.Mount") (Some []) false 200 in
      if negb (is_none (error r)) then ret r
      else
        let! st := smc_status manager_id in
        ret (answer (PDict [("mounted", PBool true); ("host", opt_str host); ("path", opt_str path); ("status", PDict st)])).

Lemma read_json_reads path : emits is_get (read_json path).
Proof. unfold read_json. frame; auto with emits; by apply emits_api_get_call. Qed.

Lemma smc_status_reads manager_id : emits is_get (smc_status manager_id).
Proof. unfold smc_status. frame; auto using read_json_reads. Qed.

Lemma public_field k cfgcd : dict_get k (public_cfgcd_fields cfgcd) <> None -> k ∈ PUBLIC_FIELDS.
Proof.
  unfold public_cfgcd_fields. generalize PUBLIC_FIELDS as l. induction l as [|x l IH]; [done|]. cbn [omap list_omap].
  destruct (dict_get x cfgcd) as [v|]; cbn [fmap option_fmap option_map]; [|intros H; right; by apply IH].
  cbn [dict_get]. case_decide as Hk; [intros _; subst; by left|]. intros H. right. by apply IH.
Qed.

(** A status only reads and shows no credential of the share: of its configuration only the public fields, and not the
    password.  An unmount or a mount is at most one POST after at most one PATCH. *)
Theorem vm_mount_contained host path u p do_unmount do_status manager_id :
  (do_status = true -> emits is_get (vm_mount host path u p do_unmount do_status manager_id)) /\
  writes (if do_status then 0 else if do_unmount then 1 else 2) (fun rq => rq_method rq = POST \/ rq_method rq = PATCH)
    (vm_mount host path u p do_unmount do_status manager_id) /\
  (forall cfgcd, dict_get "Password" (public_cfgcd_fields cfgcd) = None).
Proof.
  assert (forall meth uri q, (meth = POST \/ meth = PATCH) ->
    writes 1 (fun rq => rq_method rq = POST \/ rq_method rq = PATCH) (v_write meth uri q false 200)) as Hw.
  { intros meth uri q Hm s. destruct (writes_sends _ 1 _ (v_write_once meth uri q false 200) s) as (l & Ht & Hn & HP). exists l.
    split; [done|]. split; [done|]. eapply Forall_impl; [exact HP|]. intros rq ->. exact Hm. }
  assert (emits is_get (resolve_cfgcd_path manager_id)) as Hr by (unfold resolve_cfgcd_path; frame; auto using read_json_reads).
  split; [intros ->; unfold vm_mount; frame; auto using smc_status_reads|]. split.
  - unfold vm_mount. destruct do_status; [apply writes_reads; frame; auto using smc_status_reads|].
    destruct do_unmount; [|destruct (_ || _); [apply writes_reads; frame|]]; (apply writes_read_bind; [done|]; intros cfgcd).
    + apply (writes_bind _ 1 0); [auto|]. intros [r a]. apply writes_reads. frame; auto using smc_status_reads.
    + apply (writes_bind _ 1 1); [auto|]. intros [cfg a]. destruct (negb _); [apply writes_reads; frame|].
      apply (writes_bind _ 1 0); [auto|]. intros [r b]. apply writes_reads. frame; auto using smc_status_reads.
  - intros cfgcd. destruct (dict_get "Password" (public_cfgcd_fields cfgcd)) eqn:E; [|done]. exfalso.
    assert ("Password" ∉ PUBLIC_FIELDS) as H by (apply (bool_decide_unpack _); by vm_compute). apply H, (public_field _ cfgcd). by rewrite E.
Qed.
End Smc.

(** ** Examples *)

Definition media_device (actions : list string) (inserted : bool) : pyval :=
  PDict [("Id", PStr "1"); ("MediaTypes", PList [PStr "CD"]); ("Inserted", PBool inserted);
         ("Image", if inserted then PStr "http://old/image.iso" else PNone);
         ("Actions", PDict (map (fun a => ("#VirtualMedia." +:+ a, PDict [("target", PStr ("/redfish/v1/vm/" +:+ a))])) actions))].

Definition media_uri : string := "https://10.0.0.42/redfish/v1/Managers/1/VirtualMedia".

Definition media_routes (device : pyval) : list (method * string * list response) :=
  let collection := ok_json (PDict [("Members", PList [device])]) in
  [(GET, "https://10.0.0.42/redfish/v1/Managers", repeat (ok_json (PDict [("Members", PList [PDict [("@odata.id", PStr "/redfish/v1/Managers/1")]])])) 9);
   (GET, "https://10.0.0.42/redfish/v1/Managers/1", repeat (ok_json (PDict [("VirtualMedia", PDict [("@odata.id", PStr "/redfish/v1/Managers/1/VirtualMedia")])])) 9);
   (GET, media_uri, repeat collection 9); (GET, media_uri +:+ expanded 1, repeat collection 9);
   (POST, "https://10.0.0.42/redfish/v1/vm/EjectMedia", [Response 204 [] (inr "")]);
   (POST, "https://10.0.0.42/redfish/v1/vm/InsertMedia", [Response 204 [] (inr "")])].

Definition media_invoker : SyncInvoker (mstate sim) := fun _ _ _ => raise (ValueError "no command").
Definition media_manager : Vendor sim := dmtf_vendor (SyncInvoker0 := media_invoker) 3 (fun _ => 0).

Definition inserting (actions : list string) (inserted do_eject : bool) : list string * res CommandResult :=
  let r := virtual_media_insert (Vendor0 := media_manager) (SyncInvoker0 := media_commands (Vendor0 := media_manager))
             (Some "http://new/image.iso") None None (PStr "1") false do_eject (sim_state sample_manager (media_routes (media_device actions inserted))) in
  (map rq_url (write_requests (trace r.1)), match r.2 with Ok _ => Ok (answer PNone) | r => r end).

(** An image that is mounted is replaced only with the eject; a device that cannot insert is emptied before the command
    fails. *)
Example insert_examples :
  (inserting ["EjectMedia"; "InsertMedia"] true false, inserting ["EjectMedia"; "InsertMedia"] true true,
   inserting ["EjectMedia"; "InsertMedia"] false false, inserting ["EjectMedia"] true true) =
  (([], Raise (InvalidArgument "Image http://old/image.iso already inserted. Eject media first.")),
   (["https://10.0.0.42/redfish/v1/vm/EjectMedia"; "https://10.0.0.42/redfish/v1/vm/InsertMedia"], Ok (answer PNone)),
   (["https://10.0.0.42/redfish/v1/vm/InsertMedia"], Ok (answer PNone)),
   (["https://10.0.0.42/redfish/v1/vm/EjectMedia"], Raise (KeyError "InsertMedia"))).
Proof. vm_compute. reflexivity. Qed.

Lemma mount_writes_witness : exists m, emits is_get m /\
  m = mount_cdrom (W := sim) (Vendor0 := media_manager) (SyncInvoker0 := media_commands (Vendor0 := media_manager)) (Some "http://new/image.iso") None None None false true false.
Proof. eexists. split; [|reflexivity]. by apply (mount_writes (W := sim) (Vendor0 := media_manager)). Defined.
End VirtualMedia.
