(* ===== verification/ResetCommands.v ===== *)
(** * Clearing, erasing and resetting

    Vendor-neutral commands that find one resource and run one destructive action on it: log-clear (logs/cmd_log_clear.py),
    drive-secure-erase (storage/cmd_drive_secure_erase.py), volume-check-consistency (volumes/cmd_volume_manage.py),
    network-adapter-reset (network/cmd_network_adapter_reset.py) and control-reset-defaults
    (controls/cmd_control_reset_defaults.py), all below src/redfish_ctl/.  One theorem says what they may post. *)

From stdpp Require Import base list strings pretty gmap.
From Stdlib Require Import Ascii ZArith Lia.
From S2P Require Import Prelude PyVal Effects Query Http Manager Discovery Csdl ActionPolicy Actions Urls Numbers Invoker Idrac Reboot Vendor VendorActions MockRules Volumes GuardedActions.

Module ResetCommands.
Import Http RedfishManager ActionPolicy Actions Vendor VendorActions GuardedActions.
Local Open Scope Z_scope.
Local Open Scope py_scope.

Definition given (v : option string) : bool := PyStr.nonempty (default "" v).
Definition answer (d : pyval) : CommandResult := mkResult d PNone PNone PNone.
Definition failed (d : pyval) (text : string) : CommandResult := mkResult d PNone PNone (PStr text).
Definition CHASSIS : string := "/redfish/v1/Chassis".

(** [_members(data)] of these commands: the links that are texts *)
Definition text_links (l : list pyval) : list string :=
  omap (fun m => match m with PDict d => match dget "@odata.id" d with PStr u => Some u | _ => None end | _ => None end) l.

Definition members (data : pyval) : res (list string) :=
  match data with
  | PDict d => let? l := MockRules.py_iter (dict_get_or "Members" (PList []) d) in Ok (text_links l)
  | _ => Ok []
  end.

Section Commands.
Context (schemas : list Csdl.xml) {W : Type} `{!World W} `{!Vendor W}.
Abbreviation MM := (M (mstate W)).

(** [discover_manager_ids()] *)
Definition discover_manager_ids : MM (list string) :=
  let! r := v_query Discovery.api_managers (with_key "Members") in ret (Discovery.member_ids (data r)).

(** ** log-clear *)

Definition CLEAR_LOG : string := "#LogService.ClearLog".

(** [_get(uri, do_async)] *)
Definition get_or_empty (uri : pyval) (do_async : bool) : MM pyval :=
  let! r := read_optional uri do_async in ret (default (PDict []) r).

(** [_roots(do_async)] *)
Definition log_roots (do_async : bool) : MM (list string) :=
  let! systems := try_Exception discover_computer_system_ids (fun _ => ret []) in
  let! managers := try_Exception discover_manager_ids (fun _ => ret []) in
  let! chassis := try_Exception (let! d := get_or_empty (PStr CHASSIS) do_async in lift_res (members d)) (fun _ => ret []) in
  ret (systems ++ managers ++ chassis).

Record log_service := LogService { ls_id : pyval; ls_uri : string }.

(** One log service: a row when it offers the action and was not seen *)
Definition visit_service (do_async : bool) (services : list log_service) (uri : string) : MM (list log_service) :=
  if existsb (fun s => bool_decide (ls_uri s = uri)) services then ret services
  else
    let! svc := get_or_empty (PStr uri) do_async in
    match svc with
    | PDict d =>
        match dget "Actions" d with
        | PDict actions =>
            if dict_in CLEAR_LOG actions
            then ret (services ++ [LogService (py_or (dget "Id" d) (PStr (Urls.after_last "/" uri))) uri])
            else ret services
        | _ => ret services
        end
    | _ => ret services
    end.

(** [_discover_log_services(do_async)] *)
Definition discover_log_services (do_async : bool) : MM (list log_service) :=
  let! roots := log_roots do_async in
  foldM (fun services root =>
    let! doc := get_or_empty (PStr root) do_async in
    let! uri := lift_res (link doc "LogServices") in
    if negb (truthy uri) then ret services
    else
      let! collection := get_or_empty uri do_async in
      let! uris := lift_res (members collection) in
      foldM (visit_service do_async) services uris) [] roots.

Definition uris_text (l : list log_service) : string := py_str (PList (map (fun s => PStr (ls_uri s)) l)).

(** [_resolve_target(log_service, services)] *)
Definition resolve_log (wanted : string) (services : list log_service) : res string :=
  if PyStr.startswith "/redfish" wanted then
    match List.find (fun s => bool_decide (ls_uri s = wanted)) services with
    | Some s => Ok (ls_uri s)
    | None => Raise (InvalidArgument ("no clearable log service at URI '" +:+ wanted +:+ "'; available: " +:+ uris_text services))
    end
  else
    let? matches := res_fold (fun acc s =>
        let? i := as_text "lower" (ls_id s) in
        Ok (if decide (PyStr.lower i = PyStr.lower (PyStr.strip wanted)) then acc ++ [s] else acc)) [] services in
    match matches with
    | [] => Raise (InvalidArgument ("no clearable log service with Id '" +:+ wanted +:+ "'; available: " +:+ py_str (PList (map ls_id services))))
    | [s] => Ok (ls_uri s)
    | _ => Raise (InvalidArgument ("log service Id '" +:+ wanted +:+ "' is ambiguous across " +:+ uris_text matches
                                   +:+ "; pass the full --log-service URI"))
    end.

(** [LogClear.execute(log_service, confirm, dry_run, do_async)] *)
Definition log_clear (wanted : option string) (confirm dry_run do_async : bool) : MM CommandResult :=
  let! services := discover_log_services do_async in
  match wanted with
  | None => ret (answer (PDict [("clearable_log_services", PList (map (fun s => PDict [("Id", ls_id s); ("uri", PStr (ls_uri s))]) services))]))
  | Some wanted =>
      match services with
      | [] => raise (InvalidArgument "no clearable log services found on this Redfish endpoint (none expose #LogService.ClearLog)")
      | _ =>
          let! uri := lift_res (resolve_log wanted services) in
          v_invoke_action schemas (Call uri "ClearLog" [] CLEAR_LOG do_async dry_run confirm false) 204
      end
  end.

(** ** drive-secure-erase *)

Definition SECURE_ERASE : string := "#Drive.SecureErase".

(** [_storage(controller, do_async)] *)
Definition storage_of (controller : string) (do_async : bool) : MM pyval :=
  if negb (PyStr.nonempty controller) then raise (InvalidArgument "provide --controller or --drive_uri")
  else
    let! r := Volumes.storage_get controller None do_async false in
    ret (py_or (data r) (PDict [])).

(** [_drive_members(storage)], as the texts of the links *)
Definition drive_members (storage : pyval) : res (list string) :=
  let? drives := get_attr storage "Drives" in
  match drives with
  | PList l => Ok (omap (fun m => match m with
                                  | PDict d => let u := dget "@odata.id" d in if truthy u then Some (py_str u) else None
                                  | _ => None
                                  end) l)
  | _ => Raise (UnsupportedAction "Storage resource does not advertise Drives")
  end.

(** [_resolve_drive_uri(storage, drive_id)] *)
Definition resolve_drive_uri (storage : pyval) (drive_id : string) : res string :=
  if negb (PyStr.nonempty drive_id) then Raise (InvalidArgument "provide --drive_id")
  else
    let? uris := drive_members storage in
    let drive_map := fold_left (fun acc u => dict_set (Volumes.last_segment u) u acc) uris [] in
    match dict_get drive_id drive_map with
    | Some u => Ok u
    | None => Raise (InvalidArgument ("Drive " +:+ drive_id +:+ " not found, available "
                                      +:+ py_str (PList (map PStr (sort_strs (dict_keys drive_map))))))
    end.

(** [_drive_candidates(storage, do_async)] *)
Definition erase_candidates (storage : pyval) (do_async : bool) : MM (list pyval) :=
  let! uris := lift_res (drive_members storage) in
  mapM (fun uri =>
    let! r := v_query uri (with_async do_async) in
    let d := py_or (data r) (PDict []) in
    let! targets := lift_res (flatten_action_targets d) in
    let! i := lift_res (get_attr d "Id") in
    ret (PDict [("drive_id", PStr (py_str (py_or i (PStr (Volumes.last_segment uri))))); ("uri", PStr uri);
                ("secure_erase", PBool (dict_in SECURE_ERASE targets)); ("target", dget SECURE_ERASE targets)])) uris.

(** [_validate_drive_uri(drive_uri)] *)
Definition validate_drive_uri (drive_uri : string) : res string :=
  let uri := PyStr.strip drive_uri in
  if PyStr.startswith "/redfish/" uri then Ok uri else Raise (InvalidArgument "--drive_uri must be an absolute Redfish URI").

(** [DriveSecureErase.execute(controller, drive_id, drive_uri, confirm, confirm_irreversible, dry_run, do_async)] *)
Definition drive_secure_erase (controller drive_id drive_uri : option string) (confirm irreversible dry_run do_async : bool) : MM CommandResult :=
  let erase uri := v_invoke_action schemas (Call uri "SecureErase" [] SECURE_ERASE do_async dry_run confirm irreversible) 202 in
  if given drive_uri && (given controller || given drive_id)
  then raise (InvalidArgument "--drive_uri cannot be combined with --controller or --drive_id")
  else if given drive_uri then
    let! uri := lift_res (validate_drive_uri (default "" drive_uri)) in erase uri
  else
    let! storage := storage_of (default "" controller) do_async in
    if negb (given drive_id) then
      let! drives := erase_candidates storage do_async in
      ret (answer (PDict [("controller", opt_str controller); ("drives", PList drives); ("hint", PStr "pass --drive_id to preview Drive.SecureErase")]))
    else
      let! uri := lift_res (resolve_drive_uri storage (default "" drive_id)) in erase uri.

(** ** volume-check-consistency *)

Definition CHECK_CONSISTENCY : string := "#Volume.CheckConsistency".

(** [VolumeCheckConsistency.execute(controller, volume_id, confirm, dry_run, do_async)] *)
Definition volume_check_consistency (controller volume_id : string) (confirm dry_run do_async : bool) : MM CommandResult :=
  let! (uri, _, _) := Volumes.resolve_volume_uri controller volume_id do_async in
  v_invoke_action schemas (Call uri "CheckConsistency" [] CHECK_CONSISTENCY do_async dry_run confirm false) 202.

(** ** network-adapter-reset *)

Definition ADAPTER_RESET : string := "#NetworkAdapter.Reset".
Definition RESET_TYPES : list string :=
  ["On"; "ForceOff"; "GracefulRestart"; "PushPowerButton"; "NMI"; "ForceOn"; "ForceRestart"; "PowerCycle"].

(** The third segment after [redfish/v1/Chassis], when the path is long enough *)
Definition chassis_of (uri : string) : option string :=
  match PyStr.split "/" (PyStr.rstrip_char "/" (PyStr.lstrip_char "/" uri)) with
  | a :: b :: c :: d :: _ :: _ :: _ => if decide (a = "redfish" /\ b = "v1" /\ c = "Chassis") then Some d else None
  | _ => None
  end.

(** [_allowed_reset_types(adapter)] *)
Definition allowed_reset_types (adapter : pydict) : res (list string) :=
  let? l := MockRules.py_iter (py_or (sub "ResetType@Redfish.AllowableValues" (sub ADAPTER_RESET (dget "Actions" adapter))) (PList [])) in
  Ok (omap (fun v => match v with PStr s => Some s | _ => None end) l).

(** [_get(uri, do_async, required)] *)
Definition adapter_get (uri : string) (do_async required : bool) : MM pydict :=
  let! r := try_Exception (let! r := v_query uri (with_async do_async) in ret (inl r)) (fun e => ret (inr (exn_str e))) in
  let unreadable text := if required then raise (FailedDiscoverAction ("failed to read " +:+ uri +:+ ": " +:+ text)) else ret [] in
  match r with
  | inr text => unreadable text
  | inl r =>
      if truthy (error r) then unreadable (py_str (error r))
      else match py_or (data r) (PDict []) with
           | PDict d => ret d
           | _ => unreadable "expected a Redfish object"
           end
  end.

Record adapter_row := AdapterRow { ad_id : pyval; ad_chassis : option string; ad_model : pyval; ad_maker : pyval; ad_health : pyval;
  ad_uri : string; ad_target : pyval; ad_types : list string }.

Definition adapter_val (r : adapter_row) : pyval :=
  PDict [("Adapter", ad_id r); ("Chassis", opt_str (ad_chassis r)); ("Model", ad_model r); ("Manufacturer", ad_maker r); ("Health", ad_health r);
         ("Resource", PStr (ad_uri r)); ("Target", ad_target r); ("ResetTypes", PList (map PStr (ad_types r)))].

(** [_row_from_adapter(adapter_uri, adapter)] *)
Definition row_from_adapter (uri : string) (adapter : pydict) : res (option adapter_row) :=
  let? targets := flatten_action_targets (PDict adapter) in
  let t := dget ADAPTER_RESET targets in
  if negb (truthy t) then Ok None
  else
    let? types := allowed_reset_types adapter in
    Ok (Some (AdapterRow (py_or (dget "Id" adapter) (PStr (last_segment uri))) (chassis_of uri) (dget "Model" adapter) (dget "Manufacturer" adapter)
                (sub "Health" (dget "Status" adapter)) uri t types)).

(** [_resettable_adapters(do_async)] *)
Definition resettable_adapters (do_async : bool) : MM (list adapter_row) :=
  let! chassis := adapter_get CHASSIS do_async true in
  let! uris := lift_res (members (PDict chassis)) in
  foldM (fun rows uri =>
    let! doc := adapter_get uri do_async false in
    let adapters := safe_link (PDict doc) "NetworkAdapters" in
    if negb (truthy adapters) then ret rows
    else
      let! collection := adapter_get (py_str adapters) do_async false in
      let! uris := lift_res (members (PDict collection)) in
      foldM (fun rows uri =>
        let! adapter := adapter_get uri do_async false in
        let! row := lift_res (row_from_adapter uri adapter) in
        ret (match row with Some r => rows ++ [r] | None => rows end)) rows uris) [] uris.

(** [_matches(row, adapter)] *)
Definition adapter_matches (selector : string) (r : adapter_row) : res bool :=
  let? i := hashable (ad_id r) in
  Ok (eq_str i selector || bool_decide (ad_uri r = selector) || bool_decide (last_segment (ad_uri r) = selector)).

(** [_resolve_adapter(adapter, do_async)] *)
Definition resolve_adapter (adapter : string) (do_async : bool) : MM adapter_row :=
  let selector := PyStr.strip adapter in
  if negb (PyStr.nonempty selector) then raise (InvalidArgument "network-adapter-reset requires --adapter")
  else if PyStr.startswith "/redfish/" selector then
    let uri := PyStr.rstrip_char "/" selector in
    let! doc := adapter_get uri do_async true in
    let! row := lift_res (row_from_adapter uri doc) in
    match row with
    | Some r => ret r
    | None => raise (InvalidArgument ("network adapter reset action not found on: " +:+ adapter))
    end
  else
    let! rows := resettable_adapters do_async in
    let! matches := lift_res (res_fold (fun acc r => let? b := adapter_matches selector r in Ok (if (b : bool) then acc ++ [r] else acc)) [] rows) in
    match matches with
    | [] => raise (InvalidArgument ("network adapter reset target not found: " +:+ adapter))
    | [r] => ret r
    | _ => raise (InvalidArgument ("ambiguous network adapter '" +:+ adapter +:+ "'; use one URI: " +:+ PyStr.join ", " (map ad_uri matches)))
    end.

(** [_payload_for(row, reset_type)] *)
Definition payload_for (r : adapter_row) (reset_type : option string) : res pydict :=
  let ty := default "" reset_type in
  let invalid allowed := Raise (InvalidArgument ("invalid ResetType for " +:+ py_str (ad_id r) +:+ ": " +:+ ty +:+ "; allowed: " +:+ PyStr.join ", " allowed)) in
  if given reset_type then
    match ad_types r with
    | [] => if decide (ty ∈ RESET_TYPES) then Ok [("ResetType", PStr ty)] else invalid (sort_strs RESET_TYPES)
    | allowed => if decide (ty ∈ allowed) then Ok [("ResetType", PStr ty)] else invalid allowed
    end
  else
    match ad_types r with
    | [only] => Ok (if PyStr.nonempty only then [("ResetType", PStr only)] else [])
    | allowed => Raise (InvalidArgument ("network adapter " +:+ py_str (ad_id r) +:+ " advertises " +:+ pretty (length allowed)
                                         +:+ " ResetType values; pass --reset-type explicitly"))
    end.

Definition is_FailedDiscover (e : exn) : bool := match e with FailedDiscoverAction _ => true | _ => false end.

(** [data.setdefault(key, value)] *)
Definition setdefault (d : pydict) (kv : string * pyval) : pydict := if dict_in kv.1 d then d else d ++ [kv].

Definition with_defaults (kvs : pydict) (r : CommandResult) : CommandResult :=
  match data r with PDict d => mkResult (PDict (fold_left setdefault kvs d)) (discovered r) (extra r) (error r) | _ => r end.

(** [NetworkAdapterReset.execute(adapter, reset_type, confirm, dry_run, do_async)] *)
Definition network_adapter_reset (adapter reset_type : option string) (confirm dry_run do_async : bool) : MM CommandResult :=
  if negb (given adapter) then
    try_catch (let! rows := resettable_adapters do_async in ret (answer (PDict [("resettable_adapters", PList (map adapter_val rows))])))
      is_FailedDiscover (fun e => ret (failed PNone (exn_str e)))
  else
    let! found := try_catch (let! r := resolve_adapter (default "" adapter) do_async in ret (inl r)) is_FailedDiscover (fun e => ret (inr (exn_str e))) in
    match found with
    | inr text => ret (failed PNone text)
    | inl row =>
        let! p := lift_res (payload_for row reset_type) in
        let! r := v_invoke_action schemas (Call (ad_uri row) "Reset" p ADAPTER_RESET do_async dry_run confirm false) 202 in
        ret (with_defaults [("adapter", ad_id row); ("resource", PStr (ad_uri row)); ("reset_types", PList (map PStr (ad_types row)))] r)
    end.

(** ** control-reset-defaults *)

Definition CONTROL_RESET : string := "#Control.ResetToDefaults".
Definition ACTION_SUFFIX : string := "/Actions/Control.ResetToDefaults".

(** [_action_target(control)] *)
Definition action_target (control : pydict) : option string :=
  match sub "target" (sub CONTROL_RESET (dget "Actions" control)) with
  | PStr t => if PyStr.nonempty t then Some t else None
  | _ => None
  end.

(** [_query_required(uri, do_async)] *)
Definition query_required (uri : string) (do_async : bool) : MM pydict :=
  let unreadable text := InvalidArgument ("failed to read Control resource " +:+ uri +:+ ": " +:+ text) in
  let! r := try_Exception (v_query uri (with_async do_async)) (fun e => raise (unreadable (exn_str e))) in
  if truthy (error r) then raise (unreadable (py_str (error r)))
  else match py_or (data r) (PDict []) with
       | PDict d => ret d
       | _ => raise (unreadable "expected object")
       end.

Record control_row := ControlRow { ct_chassis : option string; ct_id : pyval; ct_fields : pydict; ct_uri : pyval; ct_target : option string }.

Definition control_val (r : control_row) : pydict :=
  [("Chassis", opt_str (ct_chassis r)); ("Id", ct_id r)] ++ ct_fields r ++ [("Uri", ct_uri r); ("Target", opt_str (ct_target r))].

(** [_target_row(chassis_id, member_uri, control)] *)
Definition target_row (chassis_id : option string) (member_uri : string) (control : pydict) : res control_row :=
  let uri := dict_get_or "@odata.id" (PStr member_uri) control in
  let i := dget "Id" control in
  let? i := if truthy i then Ok i else let? s := as_text "rstrip" uri in Ok (PStr (last_segment s)) in
  Ok (ControlRow chassis_id i
        (map (fun k => (k, dget k control)) ["Name"; "ControlType"; "ControlMode"; "SetPoint"; "SetPointUnits"; "DefaultSetPoint"])
        uri (action_target control)).

(** [_link(data, key)], a text or nothing *)
Definition text_link (data : pydict) (key : string) : option string :=
  match sub "@odata.id" (dget key data) with PStr u => Some u | _ => None end.

(** [_discover_targets(do_async)] *)
Definition discover_targets (do_async : bool) : MM (list control_row) :=
  let! chassis := v_query CHASSIS (with_async do_async) in
  let! uris := lift_res (members (data chassis)) in
  foldM (fun rows uri =>
    let! doc := read_object (PStr uri) do_async in
    match text_link doc "Controls" with
    | Some controls =>
        if negb (PyStr.nonempty controls) then ret rows
        else
          let! collection := read_object (PStr controls) do_async in
          let! uris := lift_res (members (PDict collection)) in
          foldM (fun rows member_uri =>
            let! control := read_object (PStr member_uri) do_async in
            match action_target control with
            | None => ret rows
            | Some _ => let! r := lift_res (target_row (Some (last_segment uri)) member_uri control) in ret (rows ++ [r])
            end) rows uris
    | None => ret rows
    end) [] uris.

(** [_row_from_exact_selector(control, do_async)] *)
Definition row_from_exact_selector (control : string) (do_async : bool) : MM (option control_row) :=
  let selector := PyStr.rstrip_char "/" control in
  let by_action := PyStr.contains "/Actions/" selector in
  if by_action && negb (PyStr.endswith ACTION_SUFFIX selector) then
    raise (InvalidArgument "control-reset-defaults only accepts a Control resource URI or Control.ResetToDefaults action URI")
  else
    let uri := if by_action then String.substring 0 (String.length selector - String.length ACTION_SUFFIX) selector else selector in
    if negb (PyStr.contains "/Controls/" uri) then raise (InvalidArgument "control-reset-defaults requires a Redfish Control resource URI")
    else
      let! doc := query_required uri do_async in
      match action_target doc with
      | None => ret None
      | Some t =>
          if by_action && negb (bool_decide (selector = PyStr.rstrip_char "/" t))
          then raise (InvalidArgument ("Control.ResetToDefaults action URI mismatch for " +:+ uri))
          else let! r := lift_res (target_row (chassis_of uri) uri doc) in ret (Some r)
      end.

(** [row["Chassis"].lower() == wanted.lower()] *)
Definition in_chassis (wanted : string) (r : control_row) : res bool :=
  match ct_chassis r with
  | Some c => Ok (bool_decide (PyStr.lower c = PyStr.lower wanted))
  | None => Raise (AttributeError "'NoneType' object has no attribute 'lower'")
  end.

Definition has_id (wanted : string) (r : control_row) : bool := bool_decide (PyStr.lower (py_str (ct_id r)) = PyStr.lower wanted).

Definition res_filter {A} (f : A -> res bool) (l : list A) : res (list A) :=
  res_fold (fun acc x => let? b := f x in Ok (if (b : bool) then acc ++ [x] else acc)) [] l.

(** [_matches(rows, control, chassis)] *)
Definition control_matches (rows : list control_row) (control chassis : option string) : res (list control_row) :=
  let wanted := PyStr.strip (default "" control) in
  if negb (PyStr.nonempty wanted) then Raise (InvalidArgument "control selector cannot be empty")
  else
    let? matches :=
      if PyStr.startswith "/redfish/" wanted then
        res_filter (fun r => let? u := hashable (ct_uri r) in Ok (eq_str u wanted || bool_decide (ct_target r = Some wanted))) rows
      else match PyStr.split "/" wanted with
           | c :: _ :: _ =>
               let id := String.substring (String.length c + 1) (String.length wanted) wanted in
               res_filter (fun r => let? b := in_chassis c r in Ok (b && has_id id r)) rows
           | _ => Ok (List.filter (has_id wanted) rows)
           end in
    if given chassis then res_filter (in_chassis (PyStr.strip (default "" chassis))) matches else Ok matches.

(** [ControlResetDefaults.execute(control, chassis, confirm, dry_run, do_async)] *)
Definition control_reset_defaults (control chassis : option string) (confirm dry_run do_async : bool) : MM CommandResult :=
  let reset row :=
    let! r := v_invoke_action schemas (Call (py_str (ct_uri row)) "ResetToDefaults" [] CONTROL_RESET do_async dry_run confirm false) 202 in
    ret (with_defaults (control_val row) r) in
  let vals rows := PList (map (fun r => PDict (control_val r)) rows) in
  match control with
  | None =>
      if given chassis then raise (InvalidArgument "--chassis requires --control")
      else let! rows := discover_targets do_async in ret (answer (PDict [("control_reset_targets", vals rows)]))
  | Some c =>
      if PyStr.startswith "/redfish/" (PyStr.strip c) then
        let! row := row_from_exact_selector (PyStr.strip c) do_async in
        match row with
        | None => ret (failed (PDict [("available", PList [])]) ("Control.ResetToDefaults target not found: " +:+ c))
        | Some row => reset row
        end
      else
        let! rows := discover_targets do_async in
        let! matches := lift_res (control_matches rows control chassis) in
        match matches with
        | [] => ret (failed (PDict [("available", vals rows)]) ("Control.ResetToDefaults target not found: " +:+ c))
        | [row] => reset row
        | _ => ret (failed (PDict [("matches", vals matches)])
                      "multiple Control.ResetToDefaults targets found; pass --chassis or a full --control URI")
        end
  end.
End Commands.

(** ** What may be posted *)

Inductive reset_command :=
  | ClearLog (log_service : option string)
  | EraseDrive (controller drive_id drive_uri : option string)
  | CheckVolume (controller volume_id : string)
  | ResetAdapter (adapter reset_type : option string)
  | ResetControl (control chassis : option string).

Definition run_reset (schemas : list Csdl.xml) {W} `{!World W} `{!Vendor W} (cmd : reset_command)
    (confirm irreversible dry_run do_async : bool) : M (mstate W) CommandResult :=
  match cmd with
  | ClearLog l => log_clear schemas l confirm dry_run do_async
  | EraseDrive c d u => drive_secure_erase schemas c d u confirm irreversible dry_run do_async
  | CheckVolume c v => volume_check_consistency schemas c v confirm dry_run do_async
  | ResetAdapter a t => network_adapter_reset schemas a t confirm dry_run do_async
  | ResetControl c ch => control_reset_defaults schemas c ch confirm dry_run do_async
  end.

(** The name and full name of the action of a command *)
Definition reset_action (cmd : reset_command) : string * string :=
  match cmd with
  | ClearLog _ => ("ClearLog", CLEAR_LOG)
  | EraseDrive _ _ _ => ("SecureErase", SECURE_ERASE)
  | CheckVolume _ _ => ("CheckConsistency", CHECK_CONSISTENCY)
  | ResetAdapter _ _ => ("Reset", ADAPTER_RESET)
  | ResetControl _ _ => ("ResetToDefaults", CONTROL_RESET)
  end.

(** [x] is among the values that the document of an adapter advertises for its reset. *)
Definition advertises (doc : pydict) (x : string) : Prop :=
  exists actions act v l, dict_get "Actions" doc = Some (PDict actions) /\ dict_get ADAPTER_RESET actions = Some (PDict act) /\
    dict_get "ResetType@Redfish.AllowableValues" act = Some v /\ MockRules.py_iter v = Ok l /\ PStr x ∈ l.

(** What may be posted to an adapter with this document: a reset type that was asked for, or the only one that is
    advertised; it is advertised, or nothing is and it is a Redfish reset type.  An advertised empty text, when it is the
    only value and none was asked for, gives an empty payload. *)
Definition reset_payload (doc : pydict) (ty : option string) (p : pydict) : Prop :=
  (exists x, p = [("ResetType", PStr x)] /\ (given ty = true -> ty = Some x) /\
     (given ty = false -> forall y, advertises doc y -> y = x) /\
     (advertises doc x \/ (forall y, ~ advertises doc y) /\ x ∈ RESET_TYPES)) \/
  p = [] /\ given ty = false /\ advertises doc "" /\ forall y, advertises doc y -> y = "".

(** The adapter at [uri] with this document is the one that was named: by its URI, its [Id] or the end of its URI. *)
Definition named (adapter uri : string) (doc : pydict) : Prop :=
  let selector := PyStr.strip adapter in
  if PyStr.startswith "/redfish/" selector then uri = PyStr.rstrip_char "/" selector
  else dget "Id" doc = PStr selector \/ uri = selector \/ last_segment uri = selector.

Section Guard.
Context (schemas : list Csdl.xml) {W : Type} `{!World W} `{!Vendor W}.

(** Between [s] and [s'] only reads are sent, and one of them is the query of [uri] that returned [doc]. *)
Definition seen (b : bool) (uri : string) (doc : pydict) (s s' : mstate W) : Prop :=
  exists sa sb r, extends is_get s sa /\ v_query uri (with_async b) sa = (sb, Ok r) /\ doc = as_dict (data r) /\ extends is_get sb s'.

(** What a call must be for a command that starts in [s]: the action of the command, with no payload; the drive is the one
    that was named; and for the reset of an adapter, the adapter is the one that was named and the payload is one that the
    document of it allows which the search for it, from [s], has read. *)
Definition fits (cmd : reset_command) (b : bool) (s : mstate W) (c : action_call) : Prop :=
  (name c, full_action_type c) = reset_action cmd /\
  match cmd with
  | ResetAdapter adapter ty => exists s1 row doc,
      resolve_adapter (default "" adapter) b s = (s1, Ok row) /\ resource_uri c = ad_uri row /\
      seen b (resource_uri c) doc s s1 /\ named (default "" adapter) (resource_uri c) doc /\ reset_payload doc ty (payload c)
  | EraseDrive _ d u => payload c = [] /\
      if given u then resource_uri c = PyStr.strip (default "" u) /\ PyStr.startswith "/redfish/" (resource_uri c) = true
      else Volumes.last_segment (resource_uri c) = default "" d
  | _ => payload c = []
  end.

Lemma log_services_read b : emits is_get (discover_log_services (W := W) b).
Proof. unfold discover_log_services, visit_service, log_roots, discover_manager_ids, get_or_empty. frame; auto with emits. Qed.

Lemma adapter_get_reads uri b r : emits is_get (adapter_get (W := W) uri b r).
Proof. unfold adapter_get. frame; auto with emits. Qed.

Lemma adapters_read b : emits is_get (resettable_adapters (W := W) b).
Proof. unfold resettable_adapters. frame; auto using adapter_get_reads. Qed.

Lemma resolve_adapter_reads a b : emits is_get (resolve_adapter (W := W) a b).
Proof. unfold resolve_adapter. frame; auto using adapter_get_reads, adapters_read. Qed.

Lemma targets_read b : emits is_get (discover_targets (W := W) b).
Proof. unfold discover_targets. frame; auto with emits. Qed.

Lemma exact_selector_reads c b : emits is_get (row_from_exact_selector (W := W) c b).
Proof. unfold row_from_exact_selector, query_required. frame; auto with emits. Qed.

Lemma storage_of_reads c b : emits is_get (storage_of (W := W) c b).
Proof. unfold storage_of. frame; auto using Volumes.storage_get_reads. Qed.

Lemma erase_candidates_read st b : emits is_get (erase_candidates (W := W) st b).
Proof. unfold erase_candidates. frame; auto with emits. Qed.

Lemma volume_uri_reads c v b : emits is_get (Volumes.resolve_volume_uri (W := W) c v b).
Proof. by apply Volumes.emits_resolve_volume. Qed.

#[local] Hint Resolve log_services_read adapters_read resolve_adapter_reads targets_read exact_selector_reads storage_of_reads
  erase_candidates_read volume_uri_reads : emits.

(** ** The adapter that is found *)

(** The reset types of a row are those that the document advertises. *)
Lemma allowed_spec doc types x : allowed_reset_types doc = Ok types -> x ∈ types <-> advertises doc x.
Proof.
  unfold allowed_reset_types. intros (l & Hl & [= <-])%res_bind_ok. rewrite list_elem_of_omap. split.
  - intros (v & Hv & Hx). destruct v as [| | | |y| | | |]; try done. injection Hx as ->. unfold py_or, sub, dget, dict_get_or in Hl.
    destruct (dict_get "Actions" doc) as [[]|] eqn:Ha; cbn in Hl; try (injection Hl as <-; by apply not_elem_of_nil in Hv).
    destruct (dict_get ADAPTER_RESET d) as [[]|] eqn:Hr; cbn in Hl; try (injection Hl as <-; by apply not_elem_of_nil in Hv).
    destruct (dict_get "ResetType@Redfish.AllowableValues" d0) as [w|] eqn:Hw; cbn in Hl; [|injection Hl as <-; by apply not_elem_of_nil in Hv].
    destruct (truthy w); [|injection Hl as <-; by apply not_elem_of_nil in Hv]. by exists d, d0, w, l.
  - intros (actions & act & v & l' & Ha & Hr & Hw & Hi & Hx). exists (PStr x). split; [|done].
    unfold py_or, sub, dget, dict_get_or in Hl. rewrite Ha in Hl. cbn in Hl. rewrite Hr in Hl. cbn in Hl. rewrite Hw in Hl. cbn in Hl.
    destruct (truthy v) eqn:Ht; [congruence|]. destruct v as [|[]| | |[]|[]|[]|[]|]; try discriminate Ht; try discriminate Hi; cbn in Hi; injection Hi as <-; by apply not_elem_of_nil in Hx.
Qed.

Lemma payload_allowed doc row ty p : allowed_reset_types doc = Ok (ad_types row) -> payload_for row ty = Ok p -> reset_payload doc ty p.
Proof.
  intros Ha. pose proof (fun x => allowed_spec doc (ad_types row) x Ha) as Hs. unfold payload_for, reset_payload. destruct (given ty) eqn:Hg.
  - assert (ty = Some (default "" ty)) as Ht by (by destruct ty). intros Hp. left. exists (default "" ty).
    destruct (ad_types row) as [|a l] eqn:Hl; (case_decide as Hd; [|done]); injection Hp as <-; split_and!; try done.
    + right. split; [|done]. intros y Hy%Hs. by apply not_elem_of_nil in Hy.
    + left. by apply Hs.
  - destruct (ad_types row) as [|a [|a' l]] eqn:Hl; try done. intros [= <-].
    assert (forall y, advertises doc y -> y = a) as Hu by (intros y Hy%Hs; by apply list_elem_of_singleton in Hy).
    assert (advertises doc a) as Hin by (apply Hs; by left). destruct (PyStr.nonempty a) eqn:Hn.
    + left. exists a. split_and!; [done|done|auto|by left].
    + assert (a = "") as -> by (by destruct a). right. split_and!; auto.
Qed.

Lemma adapter_get_ok uri b q (s s1 : mstate W) d : adapter_get uri b q s = (s1, Ok d) ->
  d = [] \/ exists r, v_query uri (with_async b) s = (s1, Ok r) /\ d = as_dict (data r).
Proof.
  assert (forall (s2 : mstate W) e, (if q then raise e else ret []) s2 = (s1, Ok d) -> d = []) as Hu.
  { intros s2 e. destruct q; [done|]. by intros [= _ <-]. }
  unfold adapter_get, try_Exception, try_catch, bind. destruct (v_query uri (with_async b) s) as [s2 [r|e|]]; [| |done].
  - cbn [ret]. cbv beta iota zeta. destruct (truthy (error r)); [intros H; left; by eapply Hu|].
    destruct (py_or (data r) (PDict [])) as [| | | | | | |d'|] eqn:Hd; try (intros H; left; by eapply Hu).
    intros [= <- <-]. right. exists r. split; [done|]. by rewrite <- as_dict_or, Hd.
  - destruct (is_Exception e); [|done]. cbn [ret]. cbv beta iota zeta. intros H. left. by eapply Hu.
Qed.

(** The row was made of a document that was read. *)
Definition found (b : bool) (s s' : mstate W) (row : adapter_row) : Prop :=
  exists doc, seen b (ad_uri row) doc s s' /\ allowed_reset_types doc = Ok (ad_types row) /\
    ad_id row = py_or (dget "Id" doc) (PStr (last_segment (ad_uri row))).

Lemma found_mono b s s1 s2 row : extends is_get s1 s2 -> found b s s1 row -> found b s s2 row.
Proof.
  intros He (doc & (sa & sb & r & H1 & H2 & H3 & H4) & H). exists doc. split; [|done]. exists sa, sb, r. split_and!; try done. by transitivity s1.
Qed.

Lemma row_found b q uri (s s0 s1 : mstate W) doc row : extends is_get s s0 ->
  adapter_get uri b q s0 = (s1, Ok doc) -> row_from_adapter uri doc = Ok (Some row) -> found b s s1 row /\ ad_uri row = uri.
Proof.
  intros He Hg Hr. destruct (adapter_get_ok _ _ _ _ _ _ Hg) as [->|(r & Hq & ->)]; [done|]. revert Hr. unfold row_from_adapter.
  intros (targets & _ & Hr)%res_bind_ok. destruct (negb _); [done|]. apply res_bind_ok in Hr as (types & Ht & [= <-]). split; [|done].
  exists (as_dict (data r)). split; [|done]. exists s0, s1, r. by split_and!.
Qed.

(** An invariant of a loop of reads, with the state it is in *)
Lemma foldM_reads {A B} (I : mstate W -> A -> Prop) (f : A -> B -> M (mstate W) A) :
  (forall a x s s1 a1, I s a -> f a x s = (s1, Ok a1) -> I s1 a1) -> forall l a s s1 a1, I s a -> foldM f a l s = (s1, Ok a1) -> I s1 a1.
Proof.
  intros Hf l. induction l as [|x l IH]; intros a s s1 a1 Ha; cbn [foldM]; [by intros [= <- <-]|].
  intros (s2 & a2 & H1 & H2)%bind_inv_ok. eapply IH; [|exact H2]. by eapply Hf.
Qed.

Lemma reads_to {A} (m : M (mstate W) A) s s1 a : emits is_get m -> m s = (s1, Ok a) -> extends is_get s s1.
Proof. intros Hm H. specialize (Hm s). by rewrite H in Hm. Qed.

Definition all_found b s (s' : mstate W) (rows : list adapter_row) : Prop := extends is_get s s' /\ Forall (found b s s') rows.

Lemma all_found_mono b s s1 s2 rows : extends is_get s1 s2 -> all_found b s s1 rows -> all_found b s s2 rows.
Proof. intros He [H1 H2]. split; [by transitivity s1|]. eapply Forall_impl; [exact H2|]. intros row. by apply found_mono. Qed.

Lemma adapters_found b (s s1 : mstate W) rows : resettable_adapters b s = (s1, Ok rows) -> all_found b s s1 rows.
Proof.
  unfold resettable_adapters. intros (s2 & chassis & H1 & H)%bind_inv_ok. apply reads_to in H1; [|apply adapter_get_reads].
  apply bind_inv_ok in H as (s3 & uris & [= -> _] & H). revert H. apply (foldM_reads (all_found b s)); [|by split]. clear dependent s3 uris.
  intros acc uri t t1 acc1 Hacc (t2 & doc & Hd & H)%bind_inv_ok. apply reads_to in Hd; [|apply adapter_get_reads].
  apply (all_found_mono _ _ _ _ _ Hd) in Hacc. destruct (negb _); [by injection H as <- <-|].
  apply bind_inv_ok in H as (t3 & collection & Hc & H). apply reads_to in Hc; [|apply adapter_get_reads].
  apply (all_found_mono _ _ _ _ _ Hc) in Hacc. apply bind_inv_ok in H as (t4 & uris & [= -> _] & H). revert Hacc H.
  apply (foldM_reads (all_found b s)). intros rows' u v v1 rows1 Hr (v2 & adapter & Ha & H)%bind_inv_ok.
  apply bind_inv_ok in H as (v3 & row & [= -> Hrow] & [= <- <-]).
  pose proof (reads_to _ _ _ _ (adapter_get_reads _ _ _) Ha) as He. destruct (all_found_mono _ _ _ _ _ He Hr) as [Hs Hf]. split; [done|].
  destruct row as [row|]; [|done]. apply Forall_app_2; [done|]. constructor; [|constructor].
  by destruct (row_found b false u s v v3 adapter row (proj1 Hr) Ha Hrow).
Qed.

Lemma matches_named selector rows acc ms : res_fold (fun acc r => let? b := adapter_matches selector r in Ok (if (b : bool) then acc ++ [r] else acc)) acc rows = Ok ms ->
  forall r, r ∈ ms -> r ∈ acc \/ r ∈ rows /\ adapter_matches selector r = Ok true.
Proof.
  revert acc. induction rows as [|x rows IH]; intros acc; cbn [res_fold]; [intros [= <-]; auto|].
  destruct (adapter_matches selector x) as [[]|e|] eqn:Hx; cbn [res_bind]; [| |done..]; intros H r [Hr|[Hr Hm]]%(IH _ H).
  - apply elem_of_app in Hr as [Hr|Hr]; [by left|right]. apply list_elem_of_singleton in Hr as ->. split; [by left|done].
  - right. split; [by right|done].
  - by left.
  - right. split; [by right|done].
Qed.

Lemma resolve_adapter_found a b (s s1 : mstate W) row : resolve_adapter a b s = (s1, Ok row) ->
  exists doc, seen b (ad_uri row) doc s s1 /\ named a (ad_uri row) doc /\ allowed_reset_types doc = Ok (ad_types row).
Proof.
  unfold resolve_adapter, named. cbv zeta. set (selector := PyStr.strip a). destruct (negb (PyStr.nonempty selector)) eqn:Hne; [done|].
  destruct (PyStr.startswith "/redfish/" selector).
  - intros (s2 & doc & Hg & (s3 & row' & [= -> Hr] & H)%bind_inv_ok)%bind_inv_ok. destruct row' as [row'|]; [|done]. injection H as -> ->.
    destruct (row_found b true _ s s s1 doc row ltac:(reflexivity) Hg Hr) as ((doc' & Hs & Ht & _) & Hu). by exists doc'.
  - intros (s2 & rows & Hrows & (s3 & ms & [= -> Hm] & H)%bind_inv_ok)%bind_inv_ok. destruct ms as [|r [|]]; try done. injection H as -> ->.
    apply adapters_found in Hrows as [_ Hf]. destruct (matches_named _ _ _ _ Hm row ltac:(by left)) as [H|[Hin Hmatch]]; [by apply not_elem_of_nil in H|].
    rewrite Forall_forall in Hf. destruct (Hf _ Hin) as (doc & Hs & Ht & Hid). exists doc. split; [done|]. split; [|done].
    revert Hmatch. unfold adapter_matches. intros (i & Hi & [= Hor])%res_bind_ok.
    assert (i = ad_id row) as -> by (unfold hashable in Hi; destruct (ad_id row); congruence).
    apply orb_true_iff in Hor as [[Hid'|Hu%bool_decide_eq_true]%orb_true_iff|Hl%bool_decide_eq_true]; [|by auto..].
    rewrite Hid in Hid'. unfold eq_str, py_or in Hid'. destruct (truthy (dget "Id" doc)).
    + destruct (dget "Id" doc); try done. apply bool_decide_eq_true in Hid' as ->. by left.
    + apply bool_decide_eq_true in Hid' as Hl. by auto.
Qed.

(** The drive that an id stands for ends in that id. *)
Lemma drive_named storage d uri : resolve_drive_uri storage d = Ok uri -> Volumes.last_segment uri = d.
Proof.
  unfold resolve_drive_uri. destruct (negb _); [done|]. intros (uris & _ & H)%res_bind_ok. revert H.
  assert (forall l (acc : list (string * string)), (forall k v, dict_get k acc = Some v -> Volumes.last_segment v = k) ->
    forall k v, dict_get k (fold_left (fun acc u => dict_set (Volumes.last_segment u) u acc) l acc) = Some v -> Volumes.last_segment v = k) as Hinv.
  { induction l as [|u l IH]; intros acc Hacc; [done|]. apply IH. intros k v. rewrite dict_get_set. case_decide; [|apply Hacc]. intros [= <-]. done. }
  specialize (Hinv uris [] ltac:(done) d). destruct (dict_get d _) as [u|]; [|done]. intros [= <-]. by apply Hinv.
Qed.

(** ** The guard *)

Definition asked (cmd : reset_command) (confirm irr dry b : bool) (s : mstate W) (c : action_call) : Prop :=
  fits cmd b s c /\ dry_run c = dry /\ Actions.confirm c = confirm /\ call_async c = b /\
  confirm_irreversible c = match cmd with EraseDrive _ _ _ => irr | _ => false end.

Lemma adapter_asked adapter ty confirm irr dry b s :
  guards_at (fun c _ => asked (ResetAdapter adapter ty) confirm irr dry b s c) (network_adapter_reset schemas adapter ty confirm dry b) s.
Proof.
  unfold network_adapter_reset. destruct (negb (given adapter)); [apply guards_here, guards_reads; frame; auto with emits|].
  apply guards_at_bind; [frame; auto with emits|]. intros s1 [row|text] Hfound; [|apply guards_here, guards_reads; frame].
  assert (resolve_adapter (default "" adapter) b s = (s1, Ok row)) as Hres.
  { revert Hfound. unfold try_catch, bind. destruct (resolve_adapter (default "" adapter) b s) as [s2 [row'|e|]]; cbn; [congruence| |done].
    by destruct (is_FailedDiscover e). }
  destruct (resolve_adapter_found _ _ _ _ _ Hres) as (doc & Hs & Hn & Ht).
  apply guards_here, guards_lift. intros p Hp. apply guards_then; [|done]. apply guards_invoke. intros full _. split_and!; try done.
  split; [done|]. exists s1, row, doc. split_and!; try done. by eapply payload_allowed.
Qed.

Lemma others_asked cmd confirm irr dry b : (forall a ty, cmd <> ResetAdapter a ty) ->
  guards (fun c _ => forall s, asked cmd confirm irr dry b s c) (run_reset schemas cmd confirm irr dry b).
Proof.
  intros Hcmd. destruct cmd; cbn [run_reset]; [| | |by edestruct Hcmd|].
  all: unfold log_clear, drive_secure_erase, volume_check_consistency, control_reset_defaults.
  all: guarding; unfold asked, fits; split_and!; try done; try (by rewrite ?andb_true_l in *; eauto).
  all: match goal with H : given ?u = _ |- context [given ?u] => rewrite H end.
  - revert H. unfold validate_drive_uri. case_match eqn:Hs; [|done]. by intros [= <-].
  - by apply drive_named in H.
Qed.

(** C37. The destructive commands are guarded.  Each sends GETs, and then at most one POST, only with the confirmation and
    when it is no dry run.  The POST goes to the target of an action of the document that the command has just read at the
    URI of the call: the action of the command, or, when that document has no target for it, an action with the same short
    name.  Its payload is empty, except for an adapter: the adapter is the one that was named, and the reset type is the one
    that was asked for, or else the only one, and one that the document advertises which the search for the adapter read, or
    a Redfish reset type when that document advertises none.  A drive named by its URI or its id is the drive that is
    erased, and erasing it under the full name of the action needs both confirmations. *)
Theorem reset_guarded cmd confirm irr dry b s :
  guards_at (fun c full => confirm = true /\ dry = false /\ call_async c = b /\ fits cmd b s c /\
      (full = SECURE_ERASE -> reset_action cmd = ("SecureErase", SECURE_ERASE) -> irr = true))
    (run_reset schemas cmd confirm irr dry b) s.
Proof.
  assert (guards_at (fun c _ => asked cmd confirm irr dry b s c) (run_reset schemas cmd confirm irr dry b) s) as Hg.
  { destruct cmd; [| | |apply adapter_asked|]; (eapply guards_at_weaken; [|apply guards_here, others_asked; done]); auto. }
  eapply guards_at_weaken; [|exact Hg]. intros c full doc t (Hf & Hdry & Hc & Ha & Hi) He.
  pose proof (en_wet _ _ _ _ He) as Hw. destruct Hf as [Hn Hp].
  assert (risky (full_action_type c) (name c) = true) as Hr by (destruct cmd; injection Hn as -> ->; by vm_compute).
  pose proof (risky_confirmed _ _ _ _ He Hr) as Hconf. split_and!; [congruence|congruence|done|by split|].
  intros Hfull Hs. rewrite Hs in Hn. injection Hn as Hn1 Hn2.
  destruct (irreversible_confirmed _ _ _ _ He) as [_ Hirr]; [congruence|rewrite Hn2; by vm_compute|]. rewrite Hi in Hirr. by destruct cmd.
Qed.
End Guard.

(** ** Examples *)

Definition no_commands : SyncInvoker (mstate sim) := fun _ _ _ => raise (ValueError "no command").
Definition reset_manager : Vendor sim := dmtf_vendor (SyncInvoker0 := no_commands) 3 (fun _ => 0).

Definition posted (routes : list (method * string * list response)) (cmd : reset_command) (confirm irr dry : bool) : list (string * pyval) :=
  map (fun rq => (rq_url rq, default PNone (rq_data rq)))
    (write_requests (trace (run_reset (Vendor0 := reset_manager) [] cmd confirm irr dry false (sim_state sample_manager routes)).1)).

Definition drive_doc : pyval := PDict [("Actions", PDict [(SECURE_ERASE, PDict [("target", PStr "/redfish/v1/erase")])])].
Definition drive_routes : list (method * string * list response) :=
  [(GET, "https://10.0.0.42/redfish/v1/Drives/1", [ok_json drive_doc]); (POST, "https://10.0.0.42/redfish/v1/erase", [Response 204 [] (inr "")])].

(** A drive is erased with both confirmations and without a dry run only. *)
Example erase_examples :
  let erased := posted drive_routes (EraseDrive None None (Some " /redfish/v1/Drives/1")) in
  (erased true false false, erased true true true, erased true true false) = ([], [], [("https://10.0.0.42/redfish/v1/erase", PDict [])]).
Proof. vm_compute. reflexivity. Qed.

Definition adapter_doc : pyval :=
  PDict [("Id", PStr "NIC.1"); ("Actions", PDict [(ADAPTER_RESET, PDict [("target", PStr "/redfish/v1/reset");
    ("ResetType@Redfish.AllowableValues", PList [PStr "ForceRestart"])])])].
Definition adapter_routes : list (method * string * list response) :=
  let member u := ok_json (PDict [("Members", PList [PDict [("@odata.id", PStr u)]])]) in
  [(GET, "https://10.0.0.42/redfish/v1/Chassis", [member "/redfish/v1/Chassis/1"]);
   (GET, "https://10.0.0.42/redfish/v1/Chassis/1", [ok_json (PDict [("NetworkAdapters", PDict [("@odata.id", PStr "/redfish/v1/Chassis/1/N")])])]);
   (GET, "https://10.0.0.42/redfish/v1/Chassis/1/N", [member "/redfish/v1/Chassis/1/N/A"]);
   (GET, "https://10.0.0.42/redfish/v1/Chassis/1/N/A", [ok_json adapter_doc; ok_json adapter_doc]);
   (POST, "https://10.0.0.42/redfish/v1/reset", [Response 202 [] (inr "")])].

(** An adapter is found by its id and reset as it allows. *)
Example adapter_examples :
  (posted adapter_routes (ResetAdapter (Some "NIC.1") None) true false false, posted adapter_routes (ResetAdapter (Some "NIC.1") (Some "NMI")) true false false) =
  ([("https://10.0.0.42/redfish/v1/reset", PDict [("ResetType", PStr "ForceRestart")])], []).
Proof. vm_compute. reflexivity. Qed.

Definition storage_routes : list (method * string * list response) :=
  [(GET, "https://10.0.0.42/redfish/v1/Systems", [ok_json (PDict [("Members", PList [PDict [("@odata.id", PStr "/redfish/v1/Systems/1")]])])]);
   (GET, "https://10.0.0.42/redfish/v1/Systems/1/Storage/R", [ok_json (PDict [("Drives", PList [PDict [("@odata.id", PStr "/redfish/v1/Drives/1")]])])])]
  ++ drive_routes.

(** A drive is found by its id below its controller. *)
Example drive_example : posted storage_routes (EraseDrive (Some "R") (Some "1") None) true true false = [("https://10.0.0.42/redfish/v1/erase", PDict [])].
Proof. vm_compute. reflexivity. Qed.
End ResetCommands.
