(* ===== verification/Wait.v ===== *)
(** * Waiting for the BMC

    src/redfish_ctl/cmd_wait.py: the generic bounded wait [wait_for], [wait_reachable] and the command wait; and
    manager/cmd_manager_reset.py, which waits for the BMC to cycle.  Times are in milliseconds, as in Manager.v; the loops
    run on fuel, and the theorems bound the probes they make. *)

From stdpp Require Import base list strings pretty.
From Stdlib Require Import Ascii ZArith Lia.
From S2P Require Import Prelude PyVal Effects Query Http Manager Discovery Tasks Numbers Invoker Idrac Vendor FleetStatus.

Module Wait.
Import Http RedfishManager Vendor.
Local Open Scope Z_scope.
Local Open Scope py_scope.

(** [round(x, 1)] of a number of milliseconds, in seconds *)
Definition seconds (ms : Z) : pyval :=
  let '(m, e) := FleetStatus.binary64 (ms, -3) in
  Numbers.float_val (FleetStatus.round_half_even (m * 10 * 2 ^ Z.max e 0) (2 ^ Z.max (- e) 0), -1).

Section Wait.
Context {W : Type} `{!World W}.
Abbreviation MM := (M (mstate W)).

(** [probe()]: an exception counts as not yet *)
Definition probe (predicate : MM bool) : MM bool := try_Exception predicate (fun _ => ret false).

Definition now : MM Z := gets (fun s => monotonic (world s)).
Definition sleep_ms (d : Z) : MM unit := modify (set_world (sleep d)).

(** The two loops: probe until the answer is [want] or the deadline has passed *)
Fixpoint until (fuel : nat) (predicate : MM bool) (want : bool) (interval deadline : Z) : MM bool :=
  match fuel with
  | O => lift_res NoFuel
  | S fuel' =>
      let! b := probe predicate in
      if Bool.eqb b want then ret true
      else
        let! t := now in
        if deadline <=? t then ret false
        else sleep_ms interval ;;; until fuel' predicate want interval deadline
  end.

Record outcome := Outcome { satisfied : bool; precondition_met : option bool; waited : Z }.

(** [wait_for(predicate, description, timeout, interval, invert_first)]; the description is part of the report *)
Definition wait_for (fuel : nat) (predicate : MM bool) (timeout interval : Z) (invert_first : bool) : MM outcome :=
  let interval := Z.max 0 interval in
  let! start := now in
  let deadline := start + Z.max 0 timeout in
  let! pre := if invert_first then let! b := until fuel predicate false interval deadline in ret (Some b) else ret None in
  let! ok := until fuel predicate true interval deadline in
  let! t := now in
  ret (Outcome ok pre (t - start)).

(** [probe_reachable(url, auth, verify, timeout)] *)
Definition probe_reachable (url : string) (auth : option (string * string)) (verify : bool) : MM bool :=
  try_Exception (let! _ := send (Request GET url [] auth verify None) in ret true) (fun _ => ret false).

(** [wait_reachable(url, auth, verify, timeout, interval, reboot_cycle)] *)
Definition wait_reachable (fuel : nat) (url : string) (auth : option (string * string)) (verify : bool) (timeout interval : Z)
    (reboot_cycle : bool) : MM pydict :=
  let! r := wait_for fuel (probe_reachable url auth verify) timeout interval reboot_cycle in
  ret ([("waiting_for", PStr ("BMC reachable at " +:+ url)); ("reachable", PBool (satisfied r)); ("waited_s", seconds (waited r))]
       ++ (if reboot_cycle then [("went_down", PBool (default false (precondition_met r)))] else [])).

(** The address that is polled *)
Definition wait_url (m : manager) : string :=
  (if http_only m then "http" else "https") +:+ "://" +:+ redfish_ip m +:+ ":"
  +:+ py_str (match port_no m with Some p => PInt p | None => PNone end) +:+ "/redfish/v1/".

Definition wait_auth (m : manager) : option (string * string) := if PyStr.nonempty (user m) then Some (user m, passwd m) else None.

(** [WaitReady.execute(wait_timeout, wait_interval, wait_reboot_cycle)] *)
Definition wait_ready (fuel : nat) (timeout interval : Z) (reboot_cycle : bool) : MM CommandResult :=
  let! m := gets mgr in
  let! r := wait_reachable fuel (wait_url m) (wait_auth m) (verify_cert m) timeout interval reboot_cycle in
  let r := dict_set "target" (PStr (redfish_ip m)) r in
  ret (mkResult (PDict r) PNone PNone
         (if truthy (dget "reachable" r) then PNone
          else PStr ("BMC not reachable within " +:+ py_str (Numbers.float_val (timeout, -3)) +:+ "s"))).

(** [ManagerReset.execute(do_async, do_graceful, do_wait, wait_timeout)] *)
Definition manager_reset `{!Vendor W} (fuel : nat) (do_async do_graceful do_wait : bool) (wait_timeout : Z) : MM CommandResult :=
  let! uri := manager_uri in
  let! (r, a) := v_write POST (py_str uri +:+ "/Actions/Manager.Reset")
                   (Some (if do_graceful then [("ResetType", PStr "GracefulRestart")] else [])) do_async 202 in
  let! r := with_task r a in
  if do_wait then
    let! m := gets mgr in
    let! wr := wait_reachable fuel (wait_url m) (wait_auth m) (verify_cert m) wait_timeout 5000 true in
    ret (match data r with
         | PDict d => mkResult (PDict (dict_set "wait" (PDict wr) d)) (discovered r) (extra r) (error r)
         | v => mkResult (PDict [("reset", v); ("wait", PDict wr)]) PNone PNone (error r)
         end)
  else ret r.

(** ** The loops *)

Section Reachability.
Context (url : string) (auth : option (string * string)) (verify : bool).
Abbreviation rq := (Request GET url [] auth verify None).
Abbreviation pred := (probe_reachable url auth verify).

(** The state after one poll, and whether it was answered. *)
Definition polled (s : mstate W) : mstate W := MState (transport rq (world s)).1 (trace s ++ [rq]) (mgr s) (caches s) (active s).
Definition alive (s : mstate W) : bool := match (transport rq (world s)).2 with inl _ => true | inr _ => false end.

(** A poll is one request; only an interrupt gets out. *)
Lemma probe_poll s : (probe pred s).1 = polled s /\
  match (probe pred s).2 with
  | Ok b => b = alive s
  | Raise e => is_Exception e = false
  | NoFuel => False
  end.
Proof.
  unfold probe, probe_reachable, try_Exception, try_catch, bind, send, polled, alive.
  destruct (transport rq (world s)) as [w [r|e]]; cbn; [done|]. destruct (is_Exception e) eqn:He; cbn; [done|]. by rewrite He.
Qed.

Abbreviation time s := (monotonic (world s)).

(** A round of the loop. *)
Lemma until_step n want interval deadline s :
  until (S n) pred want interval deadline s =
  match (probe pred s).2 with
  | Ok b => if Bool.eqb (alive s) want then (polled s, Ok true)
            else if deadline <=? time (polled s) then (polled s, Ok false)
            else until n pred want interval deadline (set_world (sleep interval) (polled s))
  | Raise e => (polled s, Raise e)
  | NoFuel => (polled s, NoFuel)
  end.
Proof.
  cbn [until]. unfold bind at 1. destruct (probe_poll s) as [H1 H2]. destruct (probe pred s) as [s1 [b|e|]]; cbn [fst snd] in *; subst; [|done..].
  destruct (Bool.eqb (alive s) want); [done|]. unfold now, gets, bind at 1. by destruct (deadline <=? time (polled s)).
Qed.

Lemma length_polled s : length (trace (polled s)) = S (length (trace s)).
Proof. cbn. rewrite length_app. cbn. lia. Qed.

(** A loop ends, within its fuel, after a last poll: with the answer it waits for, or at the deadline. *)
Lemma until_ends n want interval deadline s : Tasks.clock_advances (W := W) -> 0 < interval -> deadline <= time s + Z.of_nat n * interval ->
  let out := until (S n) pred want interval deadline s in
  (length (trace out.1) <= length (trace s) + S n)%nat /\ time s <= time out.1 /\
  match out.2 with
  | NoFuel => False
  | Raise e => is_Exception e = false
  | Ok b => exists s0, out.1 = polled s0 /\ b = Bool.eqb (alive s0) want /\ (b = false -> deadline <= time out.1)
  end.
Proof.
  intros [Hsleep Hsend] Hi. revert s. induction n as [|n IH]; intros s Hd; cbv zeta; rewrite until_step.
  all: pose proof (Hsend rq (world s) : time s <= time (polled s)) as Hm; pose proof (length_polled s) as Hl.
  all: destruct (probe_poll s) as [_ H2]; destruct (probe pred s).2 as [b|e|]; [|split_and!; cbn [fst]; [lia|done|done]|done].
  all: destruct (Bool.eqb (alive s) want) eqn:Heq; [cbn [fst snd]; split_and!; [lia|done|exists s; by rewrite Heq]|].
  all: destruct (deadline <=? time (polled s)) eqn:Hdl; [apply Z.leb_le in Hdl; cbn [fst snd]; split_and!; [lia|done|exists s; by rewrite Heq]|].
  - apply Z.leb_gt in Hdl. lia.
  - set (s2 := set_world (sleep interval) (polled s)).
    pose proof (Hsleep interval (world (polled s)) ltac:(lia) : time (polled s) + interval <= time s2) as Hs.
    destruct (IH s2 ltac:(lia)) as (HA & HB & HC). change (trace s2) with (trace (polled s)) in HA. split_and!; [lia|lia|exact HC].
Qed.

(** ** The wait *)

(** The probes that a timeout allows *)
Definition polls (timeout interval : Z) : nat := Z.to_nat (Z.max 0 timeout / interval) + 2.

Lemma polls_enough timeout interval (s : mstate W) t : 0 < interval -> time s <= t ->
  time s + Z.max 0 timeout <= t + Z.of_nat (Nat.pred (polls timeout interval)) * interval.
Proof.
  intros Hi Ht. unfold polls. replace (Nat.pred (Z.to_nat (Z.max 0 timeout / interval) + 2)) with (S (Z.to_nat (Z.max 0 timeout / interval))) by lia.
  rewrite Nat2Z.inj_succ, Z2Nat.id by (apply Z.div_pos; lia).
  pose proof (Z.mod_pos_bound (Z.max 0 timeout) interval Hi). pose proof (Z.div_mod (Z.max 0 timeout) interval ltac:(lia)). nia.
Qed.

Lemma polls_S timeout interval : polls timeout interval = S (Nat.pred (polls timeout interval)).
Proof. unfold polls. lia. Qed.

(** C38. What a wait reports: it ends after at most [timeout / interval + 2] polls, twice that for a reboot cycle; it says that
    the BMC is reachable exactly when its last poll was answered, and otherwise the timeout has passed; only an interrupt
    gets out. *)
Theorem wait_verdict timeout interval cycle (s : mstate W) : Tasks.clock_advances (W := W) -> 0 < interval ->
  let out := wait_for (polls timeout interval) pred timeout interval cycle s in
  (length (trace out.1) <= length (trace s) + polls timeout interval * (if cycle then 2 else 1))%nat /\
  match out.2 with
  | NoFuel => False
  | Raise e => is_Exception e = false
  | Ok r => exists s0, out.1 = polled s0 /\ satisfied r = alive s0 /\ waited r = time out.1 - time s /\
      (satisfied r = false -> time s + Z.max 0 timeout <= time out.1) /\ (precondition_met r <> None <-> cycle = true)
  end.
Proof.
  intros Hc Hi. cbv zeta. destruct (wait_for _ _ _ _ _ s) as [st o] eqn:Hrun. revert Hrun. cbn [fst snd].
  unfold wait_for. rewrite (Z.max_r 0 interval) by lia. unfold now, gets, bind at 1.
  set (deadline := time s + Z.max 0 timeout).
  assert (forall s1 pre st o, time s <= time s1 ->
    (let! ok := until (polls timeout interval) pred true interval deadline in
     let! t := (fun x => (x, Ok (time x))) in ret (Outcome ok pre (t - time s))) s1 = (st, o) ->
    (length (trace st) <= length (trace s1) + polls timeout interval)%nat /\
    match o with
    | NoFuel => False
    | Raise e => is_Exception e = false
    | Ok r => exists s0, st = polled s0 /\ satisfied r = alive s0 /\ waited r = time st - time s /\
        (satisfied r = false -> deadline <= time st) /\ precondition_met r = pre
    end) as Hlast.
  { clear st o. intros s1 pre st o Hs1. unfold bind at 1. rewrite polls_S.
    destruct (until_ends _ true interval deadline s1 Hc Hi (polls_enough timeout interval s _ Hi Hs1)) as (Hl & _ & Hout).
    destruct (until _ pred true interval deadline s1) as [s2 [b|e|]]; cbn [fst snd] in *; [|intros [= <- <-]; by split|done].
    intros [= <- <-]. split; [exact Hl|]. destruct Hout as (s0 & -> & -> & Hd). exists s0. cbn. split_and!; try done. by destruct (alive s0). }
  pose proof (polls_S timeout interval) as Hp.
  destruct cycle; cbv iota.
  - unfold bind at 1 2. rewrite polls_S at 1.
    destruct (until_ends _ false interval deadline s Hc Hi (polls_enough timeout interval s _ Hi (Z.le_refl _))) as (Hl & Ht & Hout).
    destruct (until (S _) pred false interval deadline s) as [s1 [b|e|]]; cbn [fst snd ret] in *; [|intros [= <- <-]; split; [lia|done]|done].
    intros [HA HB]%Hlast; [|done]. split; [lia|]. destruct o as [r|e|]; try done.
    destruct HB as (s0 & H1 & H2 & H3 & H4 & H5). exists s0. split_and!; try done. by rewrite H5.
  - unfold bind at 1, ret at 1. intros [HA HB]%Hlast; [|done]. split; [lia|]. destruct o as [r|e|]; try done.
    destruct HB as (s0 & H1 & H2 & H3 & H4 & H5). exists s0. by rewrite H5.
Qed.

(** Waiting sends GETs only. *)
Lemma wait_reads fuel timeout interval cycle : emits is_get (wait_reachable fuel url auth verify timeout interval cycle).
Proof.
  assert (forall want i d, emits is_get (until fuel pred want i d)) as Hu.
  { intros want i d. induction fuel as [|n IH]; cbn [until]; [frame|]. unfold probe, probe_reachable, now, sleep_ms. frame; auto with emits.
    by apply emits_send. }
  unfold wait_reachable, wait_for, now. frame; auto.
Qed.

(** Against a BMC that always answers, the wait for it to go down ends at the deadline, and the next probe succeeds. *)
Lemma never_down n interval deadline s : (forall w, exists r, (transport rq w).2 = inl r) ->
  Tasks.clock_advances (W := W) -> 0 < interval -> deadline <= time s + Z.of_nat n * interval ->
  exists s1, until (S n) pred false interval deadline s = (s1, Ok false).
Proof.
  intros Hup [Hsleep Hsend] Hi. assert (forall s, alive s = true /\ (probe pred s).2 = Ok true) as Ha.
  { intros s0. destruct (Hup (world s0)) as [r Hr]. unfold alive. rewrite Hr. split; [done|].
    unfold probe, probe_reachable, try_Exception, try_catch, bind, send. destruct (transport rq (world s0)) as [w x]. cbn in Hr. by subst x. }
  revert s. induction n as [|n IH]; intros s Hd; rewrite until_step; destruct (Ha s) as [-> ->]; cbn [Bool.eqb];
    pose proof (Hsend rq (world s) : time s <= time (polled s)); (destruct (deadline <=? time (polled s)) eqn:Hdl; [eauto|]).
  - apply Z.leb_gt in Hdl. lia.
  - apply IH. pose proof (Hsleep interval (world (polled s)) ltac:(lia)) as Hs. cbn [set_world world] in *. lia.
Qed.
End Reachability.

(** C40. A reboot that never happens is reported as one that succeeded: against a BMC that stays up, [wait --reboot-cycle] has no
    error, although its report says that the BMC did not go down. *)
Theorem unobserved_reboot_succeeds timeout interval (s : mstate W) :
  (forall rq w, exists r, (transport rq w).2 = inl r) -> Tasks.clock_advances (W := W) -> 0 < interval ->
  exists s1 r, wait_ready (polls timeout interval) timeout interval true s = (s1, Ok r) /\ error r = PNone /\
    dget "reachable" (as_dict (data r)) = PBool true /\ dget "went_down" (as_dict (data r)) = PBool false.
Proof.
  intros Hup Hc Hi. set (m := mgr s). pose proof (fun w => Hup (Request GET (wait_url m) [] (wait_auth m) (verify_cert m) None) w) as Hup'.
  unfold wait_ready, gets, bind at 1. fold m. unfold wait_reachable, wait_for. rewrite (Z.max_r 0 interval) by lia.
  destruct (never_down _ _ _ _ interval (monotonic (world s) + Z.max 0 timeout) s Hup' Hc Hi
              (polls_enough timeout interval s _ Hi (Z.le_refl _))) as [s1 Hs1]. rewrite <- polls_S in Hs1.
  assert (exists s2, until (polls timeout interval) (probe_reachable (wait_url m) (wait_auth m) (verify_cert m)) true interval
    (monotonic (world s) + Z.max 0 timeout) s1 = (s2, Ok true)) as [s2 Hs2].
  { rewrite polls_S, until_step. destruct (probe_poll (wait_url m) (wait_auth m) (verify_cert m) s1) as [_ Hb].
    destruct (Hup' (world s1)) as [r Hr]. assert (alive (wait_url m) (wait_auth m) (verify_cert m) s1 = true) as Ha by (unfold alive; by rewrite Hr).
    unfold probe, probe_reachable, try_Exception, try_catch, bind, send. rewrite Ha.
    destruct (transport _ (world s1)) as [w x]. cbn in Hr. subst x. cbn. eauto. }
  unfold now, gets, bind. rewrite Hs1. cbn [ret]. rewrite Hs2. eexists _, _. split; [reflexivity|]. by vm_compute.
Qed.

(** The address that is polled has the port twice when it is not the default one. *)
Theorem wait_url_doubles_port (m : manager) p : PyStr.contains ":" (host_ip m) = false -> port_no m = Some p -> p <> 0 -> p <> 443 ->
  wait_url m = (if http_only m then "http" else "https") +:+ "://" +:+ (host_ip m +:+ ":" +:+ pretty p) +:+ ":" +:+ pretty p +:+ "/redfish/v1/".
Proof.
  intros Hh Hp H0 H443. unfold wait_url, redfish_ip. rewrite Hh, Hp. rewrite (proj2 (Z.eqb_neq p 0) H0), (proj2 (Z.eqb_neq p 443) H443). done.
Qed.

(** A manager reset is one POST, whether it waits or not. *)
Theorem manager_reset_once `{!Vendor W} fuel b graceful do_wait timeout :
  writes 1 (fun rq => rq_method rq = POST) (manager_reset fuel b graceful do_wait timeout).
Proof.
  unfold manager_reset. apply writes_read_bind; [auto with emits|]. intros uri.
  apply (writes_bind _ 1 0); [apply writes_sends, v_write_once|]. intros [r a]. apply writes_reads. frame; auto using wait_reads with emits.
Qed.
End Wait.

(** ** Examples *)

(** A BMC that answers or not, by a script, and then answers; a poll takes ten milliseconds. *)
Record bmc := Bmc { ups : list bool; clock : Z }.

#[export] Instance bmc_world : World bmc := {
  transport _ w := match ups w with
                   | false :: l => (Bmc l (clock w + 10), inr (ConnectionFailed "connection refused"))
                   | l => (Bmc (tail l) (clock w + 10), inl Tasks.gone)
                   end;
  monotonic := clock;
  sleep d w := Bmc (ups w) (clock w + d)
}.

Definition bmc_state (m : manager) (l : list bool) : mstate bmc := MState (Bmc l 0) [] m [] None.

Lemma bmc_clock_advances : Tasks.clock_advances (W := bmc).
Proof. split; [intros d w Hd; simpl; lia|]. intros rq w. simpl. destruct (ups w) as [|[] l]; simpl; lia. Qed.

Definition reported (l : list bool) (cycle : bool) (timeout : Z) : string * pyval * pyval :=
  match (wait_ready (polls timeout 5000) timeout 5000 cycle (bmc_state sample_manager l)).2 with
  | Ok r => (py_str (dget "waited_s" (as_dict (data r))), dget "went_down" (as_dict (data r)), error r)
  | _ => ("", PNone, PNone)
  end.

(** A reboot cycle that is seen: up, down twice, up again; one that is not seen; and a BMC that stays down. *)
Example wait_examples :
  (reported [true; false; false; true] true 300000, reported [] true 10000, reported (repeat false 9) false 10000) =
  (("10.0", PBool true, PNone), ("10.0", PBool false, PNone), ("10.0", PNone, PStr "BMC not reachable within 10.0s")).
Proof. vm_compute. reflexivity. Qed.

Lemma wait_verdict_witness :
  let out := wait_for (polls 10000 5000) (probe_reachable "https://bmc/redfish/v1/" None false) 10000 5000 false (bmc_state sample_manager [false]) in
  out.2 = Ok (Outcome true None 5020) /\ (length (trace out.1) <= 0 + 4 * 1)%nat.
Proof.
  cbv zeta. split; [vm_compute; reflexivity|].
  exact (proj1 (wait_verdict "https://bmc/redfish/v1/" None false 10000 5000 false (bmc_state sample_manager [false]) bmc_clock_advances ltac:(lia))).
Defined.

#[local] Existing Instance Tasks.script_world.

Lemma unobserved_reboot_succeeds_witness :
  exists s1 r, wait_ready (W := Tasks.script) (polls 10000 5000) 10000 5000 true (Tasks.script_state []) = (s1, Ok r) /\ error r = PNone.
Proof.
  destruct (unobserved_reboot_succeeds (W := Tasks.script) 10000 5000 (Tasks.script_state [])) as (s1 & r & H1 & H2 & _).
  - intros rq w. cbn. destruct (Tasks.answers w); cbn; eauto.
  - exact Tasks.script_clock_advances.
  - lia.
  - exists s1, r. exact (conj H1 H2).
Defined.

Lemma wait_url_doubles_port_witness :
  exists m, port_no m = Some 8443 /\ wait_url m = "https://10.0.0.42:8443:8443/redfish/v1/".
Proof.
  exists (Manager "10.0.0.42" "root" "secret" (Some 8443) false None false 0 PNone None false (PList []) PNone PNone None None None []).
  split; [reflexivity|].
  rewrite (wait_url_doubles_port (Manager "10.0.0.42" "root" "secret" (Some 8443) false None false 0 PNone None false (PList []) PNone PNone None None None []) 8443);
    [reflexivity|reflexivity|reflexivity|lia|lia].
Defined.
End Wait.
