(* ===== verification/Settings.v ===== *)
(** * Settings with a preview

    Commands that change one property after a preview: identify-led (chassis/cmd_identify_led.py), asset-tag-set
    (chassis/cmd_asset_tag_set.py) and dns-set (manager/cmd_dns_set.py) below src/redfish_ctl/, over the vendor interface.
    The theorems say that the preview is what a confirmed run writes. *)

From stdpp Require Import base list strings pretty.
From Stdlib Require Import Ascii ZArith Lia.
From S2P Require Import Prelude PyVal Effects Query Http Manager Discovery Urls Invoker Idrac Vendor VendorActions MockRules GuardedActions ResetCommands.

Module Settings.
Import Http RedfishManager Vendor GuardedActions.
Local Open Scope Z_scope.
Local Open Scope py_scope.

Definition COLLECTIONS : list (string * string) := [("chassis", "/redfish/v1/Chassis"); ("system", "/redfish/v1/Systems")].
Definition LED_PROPERTIES : list string := ["LocationIndicatorActive"; "IndicatorLED"].

(** [_resource_id(uri, data)] *)
Definition resource_id (uri : string) (data : pyval) : string :=
  match VendorActions.sub "Id" data with PStr i => i | _ => last_segment uri end.

(** A resource that was found, with the fields of its report *)
Record found := Found { f_uri : string; f_report : pydict }.

Definition preview_note : pydict := [("dry_run", PBool true); ("note", PStr "preview only; re-run with --confirm to apply")].

Definition answer (d : pydict) : CommandResult := mkResult (PDict d) PNone PNone PNone.

Section Commands.
Context {W : Type} `{!World W} `{!Vendor W}.
Abbreviation MM := (M (mstate W)).

(** The search over the members of a collection, with how a resource is read and what becomes of a match *)
Definition search {A} (get : string -> MM pyval) (visit : string -> pyval -> MM (option A)) (collection : string) : MM (option A) :=
  let! c := get collection in
  let! uris := lift_res (ResetCommands.members c) in
  firstM (fun uri => let! d := get uri in visit uri d) uris.

(** ** identify-led *)

(** [_get(uri, do_async)] *)
Definition led_get (do_async : bool) (uri : string) : MM pyval :=
  let! r := v_query uri (with_async do_async) in
  if negb (is_none (error r)) then raise (InvalidArgument ("Unable to read " +:+ uri +:+ ": " +:+ py_str (error r)))
  else match data r with
       | PDict d => ret (PDict d)
       | _ => raise (InvalidArgument ("Unable to read " +:+ uri +:+ ": expected object response"))
       end.

(** [_property_for(data, property_name)] *)
Definition property_for (data : pydict) (property_name : option string) : res string :=
  let asked := default "" property_name in
  if PyStr.nonempty asked then
    if negb (bool_decide (asked ∈ LED_PROPERTIES)) then Raise (InvalidArgument ("unsupported LED property " +:+ repr_str asked))
    else if negb (dict_in asked data) then Raise (InvalidArgument ("target does not expose " +:+ asked))
    else Ok asked
  else match List.find (fun k => dict_in k data) LED_PROPERTIES with
       | Some k => Ok k
       | None => Raise (InvalidArgument "target does not expose an identify LED property")
       end.

(** [_payload(property_name, active)] *)
Definition led_payload (property_name : string) (active : bool) : pydict :=
  [(property_name, if decide (property_name = "LocationIndicatorActive") then PBool active else PStr (if active then "Lit" else "Off"))].

(** [_target_matches(uri, resource_id, target_id)] *)
Definition target_matches (uri resource_id target_id : string) : bool :=
  bool_decide (PyStr.lower resource_id = PyStr.lower target_id) || bool_decide (uri = target_id).

(** [_resolve(resource, target_id, property_name, do_async)]: the target and its property *)
Definition led_resolve (resource : string) (target_id property_name : option string) (do_async : bool) : MM (found * string) :=
  match dict_get resource COLLECTIONS with
  | None => raise (InvalidArgument ("unsupported identify LED resource " +:+ repr_str resource))
  | Some collection =>
      let wanted := default "" target_id in
      if negb (PyStr.nonempty wanted) then raise (InvalidArgument "target_id is required")
      else
        let! r := search (led_get do_async) (fun uri d =>
            let i := resource_id uri d in
            if negb (target_matches uri i wanted) then ret None
            else
              let! p := lift_res (property_for (as_dict d) property_name) in
              ret (Some (Found uri [("resource", PStr resource); ("target_id", PStr i); ("target", PStr uri); ("property", PStr p);
                                    ("current", dget p (as_dict d))], p))) collection in
        match r with
        | Some x => ret x
        | None => raise (InvalidArgument ("No " +:+ resource +:+ " resource named " +:+ wanted))
        end
  end.

(** [_active_from_flags(active, active_on, active_off)] *)
Definition active_from_flags (active : option bool) (active_on active_off : bool) : option bool :=
  match active with
  | Some b => Some b
  | None => if active_on then Some true else if active_off then Some false else None
  end.

(** [IdentifyLed.execute(resource, target_id, property_name, active, active_on, active_off, confirm, do_async)] *)
Definition identify_led (resource : string) (target_id property_name : option string) (active : option bool) (active_on active_off confirm do_async : bool)
  : MM CommandResult :=
  let! (t, p) := led_resolve resource target_id property_name do_async in
  match active_from_flags active active_on active_off with
  | None => ret (answer (f_report t ++ [("read_only", PBool true)]))
  | Some desired =>
      let payload := led_payload p desired in
      if negb confirm then ret (answer (f_report t ++ preview_note ++ [("payload", PDict payload)]))
      else
        let! (r, status) := v_write PATCH (f_uri t) (Some payload) do_async 200 in
        let! after := led_get do_async (f_uri t) in
        ret (answer (f_report t ++ [("payload", PDict payload);
               ("applied", PDict [("target", PStr (f_uri t)); ("status", PStr (api_respond_str status)); ("error", error r)]);
               ("observed", dget p (as_dict after))]))
  end.

(** ** asset-tag-set *)

(** [_get(uri, do_async)] *)
Definition tag_get (do_async : bool) (uri : string) : MM pyval :=
  let! r := v_query uri (with_async do_async) in
  if truthy (error r) then raise (InvalidArgument ("failed to query " +:+ uri +:+ ": " +:+ py_str (error r)))
  else ret (py_or (data r) (PDict [])).

(** [_resolve(resource, target_id, do_async)] *)
Definition tag_resolve (resource : string) (target_id : option string) (do_async : bool) : MM found :=
  match dict_get resource COLLECTIONS with
  | None => raise (InvalidArgument ("unsupported AssetTag resource " +:+ repr_str resource))
  | Some collection =>
      let wanted := PyStr.strip (default "" target_id) in
      if negb (PyStr.nonempty wanted) then raise (InvalidArgument "target_id is required")
      else
        let! r := search (tag_get do_async) (fun uri d =>
            let i := resource_id uri d in
            if negb (bool_decide (i = wanted)) && negb (bool_decide (uri = wanted)) then ret None
            else
              let! has := lift_res (Idrac.member_test "AssetTag" d) in
              if negb (has : bool) then raise (InvalidArgument "target does not expose AssetTag")
              else
                let! tag := lift_res (get_attr d "AssetTag") in
                ret (Some (Found uri [("resource", PStr resource); ("target_id", PStr i); ("target", PStr uri); ("current", tag)]))) collection in
        match r with
        | Some x => ret x
        | None => raise (InvalidArgument ("No " +:+ resource +:+ " resource named " +:+ wanted))
        end
  end.

(** [AssetTagSet.execute(resource, target_id, asset_tag, confirm, do_async)] *)
Definition asset_tag_set (resource : string) (target_id asset_tag : option string) (confirm do_async : bool) : MM CommandResult :=
  let! t := tag_resolve resource target_id do_async in
  match asset_tag with
  | None => ret (answer (f_report t ++ [("read_only", PBool true)]))
  | Some tag =>
      let payload := [("AssetTag", PStr tag)] in
      if negb confirm then ret (answer (f_report t ++ preview_note ++ [("payload", PDict payload)]))
      else
        let! (r, status) := v_write PATCH (f_uri t) (Some payload) do_async 204 in
        let report observed := f_report t ++ [("payload", PDict payload);
            ("applied", PDict [("target", PStr (f_uri t)); ("status", PStr (api_respond_str status)); ("error", error r)]); ("observed", observed)] in
        if negb (is_none (error r)) then ret (mkResult (PDict (report PNone)) PNone PNone (error r))
        else
          let! after := tag_get do_async (f_uri t) in
          let! v := lift_res (get_attr after "AssetTag") in
          ret (answer (report v))
  end.

(** ** dns-set *)

Definition MAX_DNS_SERVERS : nat := 4.

(** [_normalize_dns_servers(servers, clear)]; the servers are a list of texts *)
Definition normalize_dns_servers (servers : option (list string)) (clear : bool) : res (list string) :=
  if clear then
    match servers with Some (_ :: _) => Raise (InvalidArgument "--clear cannot be used with --server") | _ => Ok [] end
  else
    match servers with
    | None => Raise (InvalidArgument "at least one DNS server is required")
    | Some raw =>
        let normalized := List.filter PyStr.nonempty (map PyStr.strip (concat (map (PyStr.split ",") raw))) in
        if decide (normalized = []) then Raise (InvalidArgument "at least one DNS server is required")
        else if (MAX_DNS_SERVERS <? length normalized)%nat then Raise (InvalidArgument "StaticNameServers supports at most 4 servers")
        else Ok normalized
    end.

(** The links of a generator over the members *)
Definition odata_links (l : pyval) : res (list pyval) :=
  let? ms := MockRules.py_iter l in
  res_fold (fun acc m =>
    let? has := Idrac.member_test "@odata.id" m in
    if (has : bool) then let? u := Idrac.item "@odata.id" m in Ok (acc ++ [u]) else Ok acc) [] ms.

(** [_interface_uris(do_async)] *)
Definition interface_uris (do_async : bool) : MM (list pyval) :=
  let! managers := ResetCommands.discover_manager_ids in
  foldM (fun uris manager_uri =>
    let! manager := read_optional (PStr manager_uri) do_async in
    match manager with
    | None => ret uris
    | Some d =>
        let! e := lift_res (get_attr d "EthernetInterfaces") in
        let! collection := lift_res (get_of e "@odata.id") in
        if negb (truthy collection) then ret uris
        else
          let! ms := try_Exception
              (let! r := v_query (py_str collection) (with_async do_async) in
               match py_or (data r) (PDict []) with
               | PDict c => ret (Some (dict_get_or "Members" (PList []) c))
               | v => lift_res (no_get v)
               end) (fun _ => ret None) in
          match ms with
          | None => ret uris
          | Some ms => let! l := lift_res (odata_links ms) in ret (uris ++ l)
          end
    end) [] managers.

(** The interfaces that a run is about *)
Definition dns_targets (interface_id : option string) (do_async : bool) : MM (list pyval) :=
  let! targets := interface_uris do_async in
  if PyStr.nonempty (default "" interface_id) then
    lift_res (res_fold (fun acc u =>
      let? s := as_text "rstrip" u in Ok (if decide (last_segment s = default "" interface_id) then acc ++ [u] else acc)) [] targets)
  else ret targets.

(** The writes of a run, in order *)
Definition dns_apply (payload : pydict) (do_async : bool) (targets : list pyval) : MM (list pyval) :=
  mapM (fun uri =>
    let! (r, status) := v_write PATCH (py_str uri) (Some payload) do_async 200 in
    ret (PDict [("target", uri); ("status", PStr (api_respond_str status)); ("error", error r)])) targets.

(** [DnsSet.execute(servers, interface_id, clear, confirm, do_async)] *)
Definition dns_set (servers : option (list string)) (interface_id : option string) (clear confirm do_async : bool) : MM CommandResult :=
  let! normalized := lift_res (normalize_dns_servers servers clear) in
  let payload := [("StaticNameServers", PList (map PStr normalized))] in
  let! targets := dns_targets interface_id do_async in
  if decide (targets = []) then raise (InvalidArgument "no Manager EthernetInterface resources found")
  else if negb confirm then
    ret (answer (preview_note ++ [("servers", PList (map PStr normalized)); ("targets", PList targets)]))
  else
    let! applied := dns_apply payload do_async targets in
    ret (answer [("servers", PList (map PStr normalized)); ("applied", PList applied)]).
End Commands.

(** ** Properties *)

Section Properties.
Context {W : Type} `{!World W} `{!Vendor W}.

Lemma search_reads {A} (get : string -> M (mstate W) pyval) (visit : string -> pyval -> M (mstate W) (option A)) c :
  (forall u, emits is_get (get u)) -> (forall u d, emits is_get (visit u d)) -> emits is_get (search get visit c).
Proof. intros Hg Hv. unfold search. frame; auto. Qed.

Lemma led_get_reads b u : emits is_get (led_get (W := W) b u).
Proof. unfold led_get. frame; auto with emits. Qed.

Lemma tag_get_reads b u : emits is_get (tag_get (W := W) b u).
Proof. unfold tag_get. frame; auto with emits. Qed.

Lemma led_resolve_reads r t p b : emits is_get (led_resolve (W := W) r t p b).
Proof. unfold led_resolve. frame. apply search_reads; [apply led_get_reads|]. frame. Qed.

Lemma tag_resolve_reads r t b : emits is_get (tag_resolve (W := W) r t b).
Proof. unfold tag_resolve. frame. apply search_reads; [apply tag_get_reads|]. frame. Qed.

Lemma dns_managers_read : emits is_get (ResetCommands.discover_manager_ids (W := W)).
Proof. unfold ResetCommands.discover_manager_ids. frame; auto with emits. Qed.

Lemma dns_targets_read i b : emits is_get (dns_targets (W := W) i b).
Proof. unfold dns_targets, interface_uris. frame; auto using dns_managers_read with emits. Qed.

(** Without the confirmation, and without a value to set, the three commands send nothing but GETs. *)
Theorem settings_preview_reads r t p active on off tag confirm b servers i clear :
  emits is_get (identify_led (W := W) r t p active on off false b) /\
  (active_from_flags active on off = None -> emits is_get (identify_led (W := W) r t p active on off confirm b)) /\
  emits is_get (asset_tag_set (W := W) r t tag false b) /\
  emits is_get (asset_tag_set (W := W) r t None confirm b) /\
  emits is_get (dns_set (W := W) servers i clear false b).
Proof.
  unfold identify_led, asset_tag_set, dns_set.
  split_and!; [|intros ->|..]; cbn [negb]; frame; auto using led_resolve_reads, tag_resolve_reads, dns_targets_read.
Qed.

Lemma property_for_offered d asked k : property_for d asked = Ok k -> k ∈ LED_PROPERTIES /\ dict_in k d = true.
Proof.
  unfold property_for. destruct (PyStr.nonempty (default "" asked)).
  - destruct (bool_decide (default "" asked ∈ LED_PROPERTIES)) eqn:H1; [|done]. destruct (dict_in (default "" asked) d) eqn:H2; [|done].
    intros [= <-]. split; [by apply bool_decide_eq_true in H1|done].
  - destruct (List.find (fun k => dict_in k d) LED_PROPERTIES) as [x|] eqn:Hf; [|done]. intros [= <-].
    apply List.find_some in Hf as [Hin Hd]. split; [by apply list_elem_of_In|done].
Qed.

(** What a search finds was made by the visit of one of the resources. *)
Lemma search_found {A} (get : string -> M (mstate W) pyval) (visit : string -> pyval -> M (mstate W) (option A)) c s s1 x :
  search get visit c s = (s1, Ok (Some x)) -> exists u d s2, visit u d s2 = (s1, Ok (Some x)).
Proof.
  unfold search, bind at 1. destruct (get c s) as [s2 [v|e|]]; [|done..]. unfold bind at 1, lift_res.
  destruct (ResetCommands.members v) as [uris|e|]; [|done..]. clear v. revert s2. induction uris as [|u l IH]; intros s2; [done|].
  cbn [firstM]. unfold bind at 1 2. destruct (get u s2) as [s3 [d|e|]]; [|done..].
  destruct (visit u d s3) as [s4 [[y|]|e|]] eqn:Hv; [|apply IH|done..]. intros [= <- <-]. by exists u, d, s3.
Qed.

Lemma led_resolve_found r t p b (s s1 : mstate W) f k : led_resolve r t p b s = (s1, Ok (f, k)) -> k ∈ LED_PROPERTIES.
Proof.
  unfold led_resolve. destruct (dict_get r COLLECTIONS) as [c|]; [|done]. destruct (negb _); [done|]. unfold bind at 1.
  destruct (search _ _ c s) as [s2 [[x|]|e|]] eqn:Hs; [|done..]. intros [= -> ->].
  apply search_found in Hs as (u & d & s3 & Hv). destruct (negb _) in Hv; [done|]. unfold bind, lift_res in Hv.
  destruct (property_for (as_dict d) p) as [k'|e|] eqn:Hp; [|done..]. injection Hv as _ _ <-. by apply property_for_offered in Hp as [].
Qed.

(** Blinking the identify LED is one PATCH of the property that the target exposes: the run reads, and then, only confirmed
    and with a wanted state, patches the LED property of the resource that was found; what follows are GETs. *)
Theorem identify_led_exact r t p active on off confirm b (s : mstate W) :
  exists s1 reads, trace s1 = trace s ++ reads /\ Forall is_get reads /\
    ((identify_led r t p active on off confirm b s).1 = s1 \/
     exists f k desired after, confirm = true /\ led_resolve r t p b s = (s1, Ok (f, k)) /\ active_from_flags active on off = Some desired /\
       k ∈ LED_PROPERTIES /\ Forall is_get after /\
       trace (identify_led r t p active on off confirm b s).1 =
       trace (v_write PATCH (f_uri f) (Some (led_payload k desired)) b 200 s1).1 ++ after).
Proof.
  destruct (led_resolve_reads r t p b s) as (reads & Ht & Hr). unfold identify_led, bind.
  destruct (led_resolve r t p b s) as [s1 [[f k]|e|]] eqn:He; exists s1, reads; (split; [exact Ht|]); (split; [exact Hr|]); [|by left..].
  destruct (active_from_flags active on off) as [desired|]; [|by left]. destruct confirm; [|by left]. right. cbn [negb].
  pose proof (led_resolve_found _ _ _ _ _ _ _ _ He) as Hk.
  destruct (v_write PATCH (f_uri f) (Some (led_payload k desired)) b 200 s1) as [s2 [[x st]|e|]] eqn:Hw;
    [|exists f, k, desired, []; rewrite app_nil_r, Hw; split_and!; auto..].
  destruct (led_get_reads b (f_uri f) s2) as (after & Hta & Hra). exists f, k, desired, after. rewrite Hw. split_and!; auto.
  revert Hta. by destruct (led_get b (f_uri f) s2) as [s3 [d|e|]].
Qed.

(** A name server that is sent is not blank, and there are at most four; none are sent only on request. *)
Theorem dns_servers_bounded servers clear l : normalize_dns_servers servers clear = Ok l ->
  if clear then l = [] else (1 <= length l <= MAX_DNS_SERVERS)%nat /\ Forall (fun x => PyStr.nonempty x = true) l.
Proof.
  unfold normalize_dns_servers. destruct clear; [destruct servers as [[|]|]; congruence|]. destruct servers as [raw|]; [|done]. cbv zeta.
  set (n := List.filter _ _). destruct (decide (n = [])) as [|Hn]; [done|]. destruct (MAX_DNS_SERVERS <? length n)%nat eqn:Hl; [done|]. intros [= <-].
  apply Nat.ltb_ge in Hl. split; [destruct n; [done|cbn [length] in *; lia]|].
  apply Forall_forall. intros x Hx%list_elem_of_In. by apply List.filter_In in Hx as [].
Qed.

(** The preview of dns-set is faithful: it fails where the confirmed run fails, and otherwise the interfaces that it lists are
    those that a confirmed run patches, in that order and with the servers it shows. *)
Theorem dns_preview_faithful servers i clear b (s : mstate W) :
  match dns_set servers i clear false b s with
  | (s1, Ok r) => exists names targets, targets <> [] /\ normalize_dns_servers servers clear = Ok names /\
      data r = PDict (preview_note ++ [("servers", PList (map PStr names)); ("targets", PList targets)]) /\
      (dns_set servers i clear true b s).1 = (dns_apply [("StaticNameServers", PList (map PStr names))] b targets s1).1
  | failure => dns_set servers i clear true b s = failure
  end.
Proof.
  unfold dns_set, bind, lift_res. destruct (normalize_dns_servers servers clear) as [names|e|]; [|done..].
  destruct (dns_targets i b s) as [s1 [targets|e|]]; [|done..]. case_decide as Hn; [done|]. cbn [negb]. exists names, targets. split_and!; try done.
  by destruct (dns_apply _ b targets s1) as [s2 [a|e|]].
Qed.
End Properties.

(** ** Examples *)

Definition no_commands : SyncInvoker (mstate sim) := fun _ _ _ => raise (ValueError "no command").
Definition settings_manager : Vendor sim := dmtf_vendor (SyncInvoker0 := no_commands) 3 (fun _ => 0).

Definition link_to (u : string) : pyval := PDict [("@odata.id", PStr u)].

Definition nic_routes : list (method * string * list response) :=
  [(GET, "https://10.0.0.42/redfish/v1/Managers", [ok_json (PDict [("Members", PList [link_to "/redfish/v1/Managers/1"])])]);
   (GET, "https://10.0.0.42/redfish/v1/Managers/1", [ok_json (PDict [("EthernetInterfaces", link_to "/redfish/v1/nics")])]);
   (GET, "https://10.0.0.42/redfish/v1/nics", [ok_json (PDict [("Members", PList [link_to "/redfish/v1/nics/a"; link_to "/redfish/v1/nics/b"])])]);
   (PATCH, "https://10.0.0.42/redfish/v1/nics/a", [Response 200 [] (inl (PDict []))]);
   (PATCH, "https://10.0.0.42/redfish/v1/nics/b", [Response 200 [] (inl (PDict []))])].

Definition patched (servers : option (list string)) (i : option string) (clear confirm : bool) : list string :=
  map rq_url (write_requests (trace (dns_set (Vendor0 := settings_manager) servers i clear confirm false (sim_state sample_manager nic_routes)).1)).

(** Every interface is set, or the one that is named, and only with the confirmation. *)
Example dns_examples :
  (patched (Some ["1.1.1.1, 8.8.8.8"]) None false true, patched (Some ["1.1.1.1"]) (Some "b") false true,
   patched (Some ["1.1.1.1"]) None false false, patched (Some [" , "]) None false true) =
  (["https://10.0.0.42/redfish/v1/nics/a"; "https://10.0.0.42/redfish/v1/nics/b"], ["https://10.0.0.42/redfish/v1/nics/b"], [], []).
Proof. vm_compute. reflexivity. Qed.

Lemma dns_servers_bounded_witness : normalize_dns_servers (Some ["1.1.1.1,"; " 8.8.8.8 "]) false = Ok ["1.1.1.1"; "8.8.8.8"] /\
  (1 <= length ["1.1.1.1"; "8.8.8.8"] <= MAX_DNS_SERVERS)%nat.
Proof. split; [reflexivity|]. by apply (dns_servers_bounded (Some ["1.1.1.1,"; " 8.8.8.8 "]) false). Defined.
End Settings.
