(* ===== verification/GpuPower.v ===== *)
(** * Power of NVIDIA GPUs

    src/redfish_ctl/power/cmd_power_smoothing.py (power-smoothing and power-smoothing-action) and cmd_workload_power.py
    (workload-power), over the vendor interface.  The three commands walk the same resources: the systems, their processors
    and the links of the GPUs among them. *)

From stdpp Require Import base list strings pretty.
From Stdlib Require Import Ascii ZArith Lia.
From S2P Require Import Prelude PyVal Effects Query Http Manager Discovery Csdl ActionPolicy Actions IpAddress Networks Urls Invoker Idrac Vendor VendorActions MockRules GuardedActions ResetCommands.

Module GpuPower.
Import Http RedfishManager Actions Vendor VendorActions GuardedActions.
Local Open Scope Z_scope.
Local Open Scope py_scope.

Definition SYSTEMS : string := "/redfish/v1/Systems".
Definition ACTIVATE_PRESET : string := "#NvidiaPowerSmoothing.ActivatePresetProfile".
Definition APPLY_ADMIN : string := "#NvidiaPowerSmoothing.ApplyAdminOverrides".
Definition SMOOTHING_ACTIONS : list (string * string) := [("activate-preset", ACTIVATE_PRESET); ("apply-admin", APPLY_ADMIN)].
Definition WORKLOAD_ACTIONS : list (string * string) :=
  [("enable", "#NvidiaWorkloadPower.EnableProfiles"); ("disable", "#NvidiaWorkloadPower.DisableProfiles")].

(** [_link(data, key)] *)
Definition gpu_link (data : pyval) (key : string) : option string := ResetCommands.text_link (as_dict data) key.

(** [_nested_link(processor, "Oem", "Nvidia", key)] *)
Definition nested_link (data : pyval) (key : string) : option string :=
  match sub "@odata.id" (sub key (sub "Nvidia" (sub "Oem" data))) with PStr u => Some u | _ => None end.

(** [_action_target(data, key)] *)
Definition target_of (data : pydict) (key : string) : option string :=
  match sub "target" (sub key (dget "Actions" data)) with PStr t => Some t | _ => None end.

(** A link that leads somewhere *)
Definition followed (u : option string) : option string :=
  match u with Some x => if PyStr.nonempty x then Some x else None | None => None end.

(** A GPU that the walk meets: the ids of its system and of itself, and its link *)
Record gpu := Gpu { g_system : string; g_id : pyval; g_link : option string }.

Record power_resource := PowerResource { pr_system : string; pr_gpu : pyval; pr_uri : string }.

(** [_profile(system_id, gpu_id, profile, fallback_uri)] *)
Definition profile_row (system_id : string) (gpu_id : pyval) (profile : pydict) (fallback : string) : pydict :=
  [("System", PStr system_id); ("GPU", gpu_id)] ++
  map (fun k => (k, dget k profile))
    ["Id"; "Name"; "RampDownHysteresisSeconds"; "RampDownWattsPerSecond"; "RampUpWattsPerSecond"; "TMPFloorPercent"] ++
  [("Uri", dict_get_or "@odata.id" (PStr fallback) profile)].

(** A row of [data["power_smoothing"]] *)
Definition smoothing_row (system_id : string) (gpu_id : pyval) (d : pydict) (uri : string) : pydict :=
  [("System", PStr system_id); ("GPU", gpu_id)] ++
  map (fun k => (k, dget k d))
    ["Name"; "Enabled"; "PowerSmoothingSupported"; "ImmediateRampDown"; "RampDownHysteresisSeconds"; "RampDownWattsPerSecond";
     "RampUpWattsPerSecond"; "TMPFloorPercent"; "TMPFloorWatts"; "TMPWatts"; "RemainingLifetimeCircuitryPercent"] ++
  [("AppliedPresetProfileUri", opt_str (gpu_link (PDict d) "AppliedPresetProfile"));
   ("AdminOverrideProfileUri", opt_str (gpu_link (PDict d) "AdminOverrideProfile"));
   ("PresetProfilesUri", opt_str (gpu_link (PDict d) "PresetProfiles"));
   ("ActivatePresetProfileTarget", opt_str (target_of d ACTIVATE_PRESET));
   ("ApplyAdminOverridesTarget", opt_str (target_of d APPLY_ADMIN));
   ("Uri", dict_get_or "@odata.id" (PStr uri) d)].

(** The row of a collection of presets *)
Definition collection_row (system_id : string) (gpu_id : pyval) (d : pydict) (uri : string) : pydict :=
  let members := match py_or (dget "Members" d) (PList []) with PList l => l | _ => [] end in
  [("System", PStr system_id); ("GPU", gpu_id); ("Name", dget "Name" d);
   ("MemberCount", dict_get_or "Members@odata.count" (PInt (Z.of_nat (length members))) d); ("Uri", dict_get_or "@odata.id" (PStr uri) d)].

(** The lists that [execute] of power-smoothing fills, and how many GPUs it met *)
Record report := Report { gpus : nat; rows : list pydict; collections : list pydict; profiles : list pydict; admins : list pydict }.

Definition is_true (v : pyval) : bool := match v with PBool b => b | _ => false end.

(** [sum(1 for row in data["power_smoothing"] if row.get(key) is True)] *)
Definition count_true (key : string) (rows : list pydict) : nat := length (List.filter (fun r => is_true (dget key r)) rows).

Definition report_val (systems : nat) (r : report) : pyval :=
  let count (n : nat) := PInt (Z.of_nat n) in
  let vals l := PList (map PDict l) in
  PDict [("summary", PDict [("systems", count systems); ("gpu_processors", count (gpus r));
            ("power_smoothing_resources", count (length (rows r))); ("supported", count (count_true "PowerSmoothingSupported" (rows r)));
            ("enabled", count (count_true "Enabled" (rows r))); ("preset_collections", count (length (collections r)));
            ("preset_profiles", count (length (profiles r))); ("admin_override_profiles", count (length (admins r)))]);
         ("power_smoothing", vals (rows r)); ("preset_collections", vals (collections r)); ("preset_profiles", vals (profiles r));
         ("admin_override_profiles", vals (admins r))].

(** [_preset_profile_uri(resource_uri, preset_profile)] *)
Definition preset_profile_uri (resource_uri : string) (preset_profile : option string) : res string :=
  let profile := PyStr.strip (default "" preset_profile) in
  if negb (PyStr.nonempty profile) then Raise (InvalidArgument "activate-preset requires --preset-profile")
  else if PyStr.startswith "/redfish/v1/" profile then Ok profile
  else Ok (PyStr.rstrip_char "/" resource_uri +:+ "/PresetProfiles/" +:+ profile).

(** [_payload(resource_uri, mode, preset_profile)] *)
Definition smoothing_payload (resource_uri mode : string) (preset_profile : option string) : res pydict :=
  if decide (mode = "apply-admin") then Ok []
  else if decide (mode = "activate-preset") then
    let? u := preset_profile_uri resource_uri preset_profile in Ok [("PresetProfile", PDict [("@odata.id", PStr u)])]
  else Raise (InvalidArgument "mode must be 'activate-preset' or 'apply-admin'").

(** [_PROFILE_MASK.fullmatch(mask)]: its digits *)
Definition mask_digits (mask : string) : option string :=
  match mask with
  | String "0" (String "x" digits) => if PyStr.nonempty digits && IpAddress.all_chars IpAddress.is_hex digits then Some digits else None
  | _ => None
  end.

(** [f"0x{value:x}"] *)
Definition hex_text (value : Z) : string := "0x" +:+ Networks.hex_digits (Z.to_nat (Z.log2 value)) value "".

(** [_normalize_profile_mask(profile_mask)] *)
Definition normalize_profile_mask (profile_mask : option string) : res string :=
  match mask_digits (PyStr.strip (default "" profile_mask)) with
  | None => Raise (InvalidArgument "profile mask must be a hex value like 0x1")
  | Some digits =>
      let value := Networks.hextet_val 0 digits in
      if value <=? 0 then Raise (InvalidArgument "profile mask must select at least one profile bit") else Ok (hex_text value)
  end.

(** [data = result.data if isinstance(result.data, dict) else {}; data.update(fields)] *)
Definition annotated (fields : pydict) (r : CommandResult) : CommandResult :=
  mkResult (PDict (dict_update (as_dict (data r)) fields)) (discovered r) (extra r) (error r).

Definition resource_fields (r : power_resource) (mode : string) : pydict :=
  [("gpu", pr_gpu r); ("system", PStr (pr_system r)); ("resource", PStr (pr_uri r)); ("mode", PStr mode)].

(** The call of an action command: a dry run unless it is confirmed *)
Definition power_call (uri full : string) (payload : pydict) (confirm dry_run do_async : bool) : action_call :=
  Call uri (Urls.after_last "." full) payload full do_async (dry_run || negb confirm) confirm false.

Section Commands.
Context (schemas : list Csdl.xml) {W : Type} `{!World W} `{!Vendor W}.
Abbreviation MM := (M (mstate W)).

(** The walk of the three commands: what becomes of a GPU is [visit] *)
Definition visit_processor {A} (key : string) (do_async : bool) (visit : A -> gpu -> MM A) (system_uri : string) (acc : A) (uri : string) : MM A :=
  let! processor := ResetCommands.get_or_empty (PStr uri) do_async in
  let! ty := lift_res (get_attr processor "ProcessorType") in
  if negb (eq_str ty "GPU") then ret acc
  else visit acc (Gpu (last_segment system_uri) (py_or (sub "Id" processor) (PStr (last_segment uri))) (nested_link processor key)).

Definition walk {A} (key : string) (do_async : bool) (visit : A -> gpu -> MM A) (acc : A) (systems : list string) : MM A :=
  foldM (fun acc system_uri =>
    let! system := ResetCommands.get_or_empty (PStr system_uri) do_async in
    match followed (gpu_link system "Processors") with
    | None => ret acc
    | Some processors_uri =>
        let! processors := ResetCommands.get_or_empty (PStr processors_uri) do_async in
        let! uris := lift_res (ResetCommands.members processors) in
        foldM (visit_processor key do_async visit system_uri) acc uris
    end) acc systems.

Definition system_uris (do_async : bool) : MM (list string) :=
  let! systems := ResetCommands.get_or_empty (PStr SYSTEMS) do_async in lift_res (ResetCommands.members systems).

(** [_power_smoothing_resources(do_async)] and [_workload_power_resources(do_async)] *)
Definition resources (key : string) (do_async : bool) : MM (list power_resource) :=
  let! systems := system_uris do_async in
  walk key do_async (fun acc g =>
    ret (match followed (g_link g) with Some u => acc ++ [PowerResource (g_system g) (g_id g) u] | None => acc end)) [] systems.

(** [_select_power_smoothing(gpu_id, do_async)] and [_select_workload_power(gpu_id, do_async)] *)
Definition select_gpu (key kind : string) (gpu_id : option string) (do_async : bool) : MM power_resource :=
  let wanted := default "" gpu_id in
  if negb (PyStr.nonempty wanted) then raise (InvalidArgument "GPU id is required")
  else
    let! l := resources key do_async in
    match List.find (fun r => eq_str (pr_gpu r) wanted) l with
    | Some r => ret r
    | None => raise (InvalidArgument ("GPU " +:+ repr_str wanted +:+ " has no NVIDIA " +:+ kind +:+ " resource"))
    end.

(** [_read_profile(system_id, gpu_id, profile_uri, do_async)] *)
Definition read_profile (g : gpu) (uri : string) (do_async : bool) : MM (option pydict) :=
  let! p := ResetCommands.get_or_empty (PStr uri) do_async in
  ret (match p with PDict (x :: d) => Some (profile_row (g_system g) (g_id g) (x :: d) uri) | _ => None end).

(** [_read_preset_profiles(system_id, gpu_id, profiles_uri, do_async)] *)
Definition read_preset_profiles (g : gpu) (uri : string) (do_async : bool) : MM (option pydict * list pydict) :=
  let! c := ResetCommands.get_or_empty (PStr uri) do_async in
  match c with
  | PDict (x :: d) =>
      let! uris := lift_res (ResetCommands.members c) in
      let! l := foldM (fun acc u => let! p := read_profile g u do_async in ret (match p with Some p => acc ++ [p] | None => acc end)) [] uris in
      ret (Some (collection_row (g_system g) (g_id g) (x :: d) uri), l)
  | _ => ret (None, [])
  end.

(** [_append_gpu_power_smoothing(data, system_id, gpu_id, smoothing_uri, do_async)] *)
Definition append_gpu_power_smoothing (r : report) (g : gpu) (uri : string) (do_async : bool) : MM report :=
  let! smoothing := ResetCommands.get_or_empty (PStr uri) do_async in
  match smoothing with
  | PDict (x :: d) =>
      let r := Report (gpus r) (rows r ++ [smoothing_row (g_system g) (g_id g) (x :: d) uri]) (collections r) (profiles r) (admins r) in
      let! r :=
        match followed (gpu_link smoothing "PresetProfiles") with
        | None => ret r
        | Some u =>
            let! (c, l) := read_preset_profiles g u do_async in
            ret (match c with Some c => Report (gpus r) (rows r) (collections r ++ [c]) (profiles r ++ l) (admins r) | None => r end)
        end in
      match followed (gpu_link smoothing "AdminOverrideProfile") with
      | None => ret r
      | Some u =>
          let! p := read_profile g u do_async in
          ret (match p with Some p => Report (gpus r) (rows r) (collections r) (profiles r) (admins r ++ [p]) | None => r end)
      end
  | _ => ret r
  end.

(** What [PowerSmoothing.execute] does with a GPU *)
Definition visit_gpu (do_async : bool) (r : report) (g : gpu) : MM report :=
  let r := Report (S (gpus r)) (rows r) (collections r) (profiles r) (admins r) in
  match followed (g_link g) with Some u => append_gpu_power_smoothing r g u do_async | None => ret r end.

(** [PowerSmoothing.execute(do_async)] *)
Definition power_smoothing (do_async : bool) : MM CommandResult :=
  let! systems := system_uris do_async in
  let! r := walk "PowerSmoothing" do_async (visit_gpu do_async) (Report 0 [] [] [] []) systems in
  ret (mkResult (report_val (length systems) r) PNone PNone PNone).

(** [PowerSmoothingAction.execute(gpu_id, mode, preset_profile, confirm, dry_run, do_async)] *)
Definition power_smoothing_action (gpu_id mode preset_profile : option string) (confirm dry_run do_async : bool) : MM CommandResult :=
  let m := default "" mode in
  match dict_get m SMOOTHING_ACTIONS with
  | None => raise (InvalidArgument "mode must be 'activate-preset' or 'apply-admin'")
  | Some full =>
      let! r := select_gpu "PowerSmoothing" "PowerSmoothing" gpu_id do_async in
      let! p := lift_res (smoothing_payload (pr_uri r) m preset_profile) in
      let! result := v_invoke_action schemas (power_call (pr_uri r) full p confirm dry_run do_async) 202 in
      ret (annotated (resource_fields r m) result)
  end.

(** [WorkloadPower.execute(gpu_id, profile_mask, mode, confirm, dry_run, do_async)] *)
Definition workload_power (gpu_id profile_mask mode : option string) (confirm dry_run do_async : bool) : MM CommandResult :=
  let m := default "" mode in
  match dict_get m WORKLOAD_ACTIONS with
  | None => raise (InvalidArgument "mode must be 'enable' or 'disable'")
  | Some full =>
      let! r := select_gpu "WorkloadPowerProfile" "WorkloadPowerProfile" gpu_id do_async in
      let! mask := lift_res (normalize_profile_mask profile_mask) in
      let! result := v_invoke_action schemas (power_call (pr_uri r) full [("ProfileMask", PStr mask)] confirm dry_run do_async) 202 in
      ret (annotated (resource_fields r m ++ [("profile_mask", PStr mask)]) result)
  end.
End Commands.

(** ** What may be posted *)

Inductive power_command :=
  | Smoothing (gpu_id mode preset_profile : option string)
  | Workload (gpu_id profile_mask mode : option string).

Definition run_power (schemas : list Csdl.xml) {W} `{!World W} `{!Vendor W} (cmd : power_command) (confirm dry_run do_async : bool)
  : M (mstate W) CommandResult :=
  match cmd with
  | Smoothing g m p => power_smoothing_action schemas g m p confirm dry_run do_async
  | Workload g k m => workload_power schemas g k m confirm dry_run do_async
  end.

(** What a command asks of the resource [uri]: the action and its payload *)
Definition power_request (cmd : power_command) (uri : string) : option (string * res pydict) :=
  match cmd with
  | Smoothing _ m p => (fun full => (full, smoothing_payload uri (default "" m) p)) <$> dict_get (default "" m) SMOOTHING_ACTIONS
  | Workload _ k m =>
      (fun full => (full, let? mask := normalize_profile_mask k in Ok [("ProfileMask", PStr mask)])) <$> dict_get (default "" m) WORKLOAD_ACTIONS
  end.

Definition wanted_gpu (cmd : power_command) : string := default "" (match cmd with Smoothing g _ _ | Workload g _ _ => g end).

Section Properties.
Context {W : Type} `{!World W} `{!Vendor W}.

Lemma get_or_empty_reads u b : emits is_get (ResetCommands.get_or_empty (W := W) u b).
Proof. unfold ResetCommands.get_or_empty. frame; auto with emits. Qed.
#[local] Hint Resolve get_or_empty_reads : emits.

Lemma walk_reads {A} key b (visit : A -> gpu -> M (mstate W) A) acc l : (forall a g, emits is_get (visit a g)) -> emits is_get (walk key b visit acc l).
Proof. intros Hv. unfold walk, visit_processor. frame; auto with emits. Qed.

Lemma system_uris_read b : emits is_get (system_uris (W := W) b).
Proof. unfold system_uris. frame; auto with emits. Qed.

Lemma select_gpu_reads key kind g b : emits is_get (select_gpu (W := W) key kind g b).
Proof. unfold select_gpu, resources. frame; auto using walk_reads, system_uris_read. apply walk_reads. frame. Qed.

Lemma read_profile_reads g u b : emits is_get (read_profile (W := W) g u b).
Proof. unfold read_profile. frame; auto with emits. Qed.

(** The resource that is selected is one of the GPU that was asked for. *)
Lemma select_gpu_named key kind g b (s s1 : mstate W) r : select_gpu key kind g b s = (s1, Ok r) ->
  default "" g <> "" /\ pr_gpu r = PStr (default "" g).
Proof.
  unfold select_gpu. destruct (PyStr.nonempty (default "" g)) eqn:Hg; [|done]. cbn [negb]. unfold bind.
  destruct (resources key b s) as [s2 [l|e|]]; [|done..]. destruct (List.find _ l) as [x|] eqn:Hf; [|done]. intros [= _ <-].
  apply List.find_some in Hf as [_ Hx]. split; [by intros H; rewrite H in Hg|]. unfold eq_str in Hx.
  destruct (pr_gpu x); try done. by apply bool_decide_eq_true in Hx as ->.
Qed.

(** [c] is what the command asks for with these flags, of a resource of the GPU that was named. *)
Definition asked (cmd : power_command) (confirm dry b : bool) (c : action_call) : Prop :=
  exists r action p, wanted_gpu cmd <> "" /\ pr_gpu r = PStr (wanted_gpu cmd) /\ power_request cmd (pr_uri r) = Some (action, Ok p) /\
    c = power_call (pr_uri r) action p confirm dry b.

Lemma power_asked schemas cmd confirm dry b :
  guards (W := W) (fun c _ => asked cmd confirm dry b c) (run_power schemas cmd confirm dry b).
Proof.
  destruct cmd as [g m p|g k m]; cbn [run_power]; unfold power_smoothing_action, workload_power; cbv zeta;
    (destruct (dict_get (default "" m) _) as [full|] eqn:Hm; [|by guarding]);
    (eapply guards_bind_post; [apply select_gpu_reads|intros s s1 a; apply select_gpu_named|]); intros r [Hg Hr]; cbv beta in Hg, Hr;
    apply guards_lift; intros q Hq; (apply guards_then; [|done]); apply guards_invoke; intros f _.
  - exists r, full, q. unfold power_request. rewrite Hm. cbn [fmap option_fmap option_map]. by rewrite Hq.
  - exists r, full, [("ProfileMask", PStr q)]. unfold power_request. rewrite Hm. cbn [fmap option_fmap option_map]. by rewrite Hq.
Qed.

(** The power commands are guarded: each sends GETs, and then at most one POST, only with the confirmation and when it is no
    dry run; the POST is the action of the mode with the payload of the arguments, on a resource of the GPU that was named. *)
Theorem power_guarded schemas cmd confirm dry b :
  guards (W := W) (fun c _ => confirm = true /\ dry = false /\ asked cmd true false b c) (run_power schemas cmd confirm dry b).
Proof.
  eapply guards_weaken; [|apply power_asked]. intros c full doc t (r & action & p & H1 & H2 & H3 & ->) He. pose proof (en_wet _ _ _ _ He) as Hw. cbn in Hw.
  apply orb_false_iff in Hw as [-> ->%negb_false_iff]. split; [done|]. split; [done|]. by exists r, action, p.
Qed.

(** An invariant of a loop *)
Lemma foldM_inv {A B} (I : A -> Prop) (f : A -> B -> M (mstate W) A) :
  (forall a x s s1 a1, I a -> f a x s = (s1, Ok a1) -> I a1) ->
  forall l a s s1 a1, I a -> foldM f a l s = (s1, Ok a1) -> I a1.
Proof.
  intros Hf l. induction l as [|x l IH]; intros a s s1 a1 Ha; cbn [foldM]; [by intros [= _ <-]|]. unfold bind.
  destruct (f a x s) as [s2 [a2|e|]] eqn:He; [|done..]. apply IH. by eapply Hf.
Qed.

Lemma walk_inv {A} (I : A -> Prop) key b (visit : A -> gpu -> M (mstate W) A) :
  (forall a g s s1 a1, I a -> visit a g s = (s1, Ok a1) -> I a1) ->
  forall l a s s1 a1, I a -> walk key b visit a l s = (s1, Ok a1) -> I a1.
Proof.
  intros Hv. apply foldM_inv. intros a u s s1 a1 Ha. unfold bind at 1.
  destruct (ResetCommands.get_or_empty (PStr u) b s) as [s2 [system|e|]]; [|done..].
  destruct (followed (gpu_link system "Processors")) as [pu|]; [|by intros [= _ <-]]. unfold bind at 1.
  destruct (ResetCommands.get_or_empty (PStr pu) b s2) as [s3 [processors|e|]]; [|done..]. unfold bind, lift_res.
  destruct (ResetCommands.members processors) as [uris|e|]; [|done..]. revert Ha. apply foldM_inv. intros c x t t1 c1 Hc.
  unfold visit_processor, bind, lift_res. destruct (ResetCommands.get_or_empty (PStr x) b t) as [t2 [p|e|]]; [|done..].
  destruct (get_attr p "ProcessorType") as [ty|e|]; [|done..]. destruct (negb (eq_str ty "GPU")); [by intros [= _ <-]|]. by apply Hv.
Qed.

(** What a report counts: no more resources than GPUs, no more collections or administrator profiles than resources, and
    presets only of collections. *)
Definition consistent (r : report) : Prop :=
  (length (rows r) <= gpus r)%nat /\ (length (collections r) <= length (rows r))%nat /\ (length (admins r) <= length (rows r))%nat /\
  (collections r = [] -> profiles r = []).

Lemma presets_consistent r g u b (s s1 : mstate W) r1 : consistent r ->
  (length (collections r) < length (rows r))%nat ->
  (let! (c, l) := read_preset_profiles g u b in
   ret (match c with Some c => Report (gpus r) (rows r) (collections r ++ [c]) (profiles r ++ l) (admins r) | None => r end)) s = (s1, Ok r1) ->
  consistent r1 /\ rows r1 = rows r /\ admins r1 = admins r.
Proof.
  intros Hr Hc. unfold bind. destruct (read_preset_profiles g u b s) as [s2 [[[c|] l]|e|]]; [| |done..]; intros [= _ <-]; [|done].
  destruct Hr as (H1 & H2 & H3 & H4). unfold consistent. cbn [rows collections admins profiles gpus]. split; [|done].
  split; [done|]. split; [rewrite length_app; cbn [length]; lia|]. split; [done|]. by intros [_ ?]%app_eq_nil.
Qed.

Lemma visit_consistent b r g (s s1 : mstate W) r1 : consistent r -> visit_gpu b r g s = (s1, Ok r1) -> consistent r1.
Proof.
  intros (H1 & H2 & H3 & H4). unfold visit_gpu. destruct (followed (g_link g)) as [u|].
  2: { intros [= _ <-]. split_and!; cbn [rows collections admins profiles gpus]; auto; lia. }
  unfold append_gpu_power_smoothing, bind at 1. destruct (ResetCommands.get_or_empty (PStr u) b s) as [s2 [d|e|]]; [|done..].
  destruct d as [| | | | | | |[|x d]|]; try (intros [= _ <-]; split_and!; cbn [rows collections admins profiles gpus]; auto; lia).
  set (r0 := Report _ _ _ _ _). assert (consistent r0) as H0 by (subst r0; split_and!; cbn [rows collections admins profiles gpus]; rewrite ?length_app; cbn [length]; auto; lia).
  assert (length (collections r0) < length (rows r0) /\ length (admins r0) < length (rows r0))%nat as [Hc Ha]
    by (subst r0; cbn [rows collections admins]; rewrite !length_app; cbn [length]; lia). clearbody r0. clear H1 H2 H3 H4 r.
  unfold bind at 1.
  assert (forall t t1 r2, consistent r2 -> rows r2 = rows r0 -> admins r2 = admins r0 ->
    match followed (gpu_link (PDict (x :: d)) "AdminOverrideProfile") with
    | None => ret r2
    | Some u => let! p := read_profile g u b in
        ret (match p with Some p => Report (gpus r2) (rows r2) (collections r2) (profiles r2) (admins r2 ++ [p]) | None => r2 end)
    end t = (t1, Ok r1) -> consistent r1) as Hadmin.
  { intros t t1 r2 (H1 & H2 & H3 & H4) Hrows Hadm. destruct (followed _) as [a|]; [|by intros [= _ <-]]. unfold bind.
    destruct (read_profile g a b t) as [t2 [[p|]|e|]]; [| |done..]; intros [= _ <-]; [|done].
    split_and!; cbn; auto. rewrite length_app, Hadm, Hrows. cbn. lia. }
  destruct (followed (gpu_link (PDict (x :: d)) "PresetProfiles")) as [pu|]; [|by apply Hadmin].
  destruct ((let! (c, l) := read_preset_profiles g pu b in _) s2) as [s3 [r2|e|]] eqn:Hp; [|done..].
  apply presets_consistent in Hp as (Hr2 & Hrows & Hadm); [|done..]. by apply Hadmin.
Qed.

(** power-smoothing only reads, and its summary is consistent: what it counts are the rows it lists, with no more resources
    than GPUs and no more collections or administrator profiles than resources. *)
Theorem power_smoothing_report b : emits is_get (power_smoothing (W := W) b) /\
  forall s s1 r, power_smoothing b s = (s1, Ok r) -> exists n x, data r = report_val n x /\ consistent x.
Proof.
  split.
  - unfold power_smoothing. frame; [apply system_uris_read|]. apply walk_reads. intros r g.
    unfold visit_gpu, append_gpu_power_smoothing, read_preset_profiles. frame; auto using read_profile_reads with emits.
  - intros s s1 r. unfold power_smoothing, bind. destruct (system_uris b s) as [s2 [l|e|]]; [|done..].
    destruct (walk _ b (visit_gpu b) _ l s2) as [s3 [x|e|]] eqn:Hw; [|done..]. intros [= _ <-]. exists (length l), x. split; [done|].
    revert Hw. apply walk_inv; [apply visit_consistent|]. split_and!; cbn; auto.
Qed.
End Properties.

(** ** Profile masks *)

Lemma hex_digit_val n : (n < 16)%nat -> Networks.hex_val (hex_digit n) = Z.of_nat n /\ IpAddress.is_hex (hex_digit n) = true.
Proof. intros H. do 16 (destruct n as [|n]; [by vm_compute|]). lia. Qed.

(** The text of a number reads back, and all its characters are digits. *)
Lemma hex_digits_val fuel z t : 0 <= z < 16 ^ (Z.of_nat fuel + 1) ->
  Networks.hextet_val 0 (Networks.hex_digits fuel z t) = Networks.hextet_val z t.
Proof.
  revert z t. induction fuel as [|fuel IH]; intros z t Hz; cbn [Networks.hex_digits].
  - change (16 ^ (Z.of_nat 0 + 1)) with 16 in Hz. cbn [Networks.hextet_val]. rewrite Z.mod_small by lia.
    destruct (hex_digit_val (Z.to_nat z)) as [-> _]; [lia|]. f_equal. lia.
  - pose proof (Z.div_mod z 16 ltac:(lia)) as Hd. pose proof (Z.mod_pos_bound z 16 ltac:(lia)) as Hm.
    destruct (hex_digit_val (Z.to_nat (z mod 16))) as [Hv _]; [lia|]. rewrite Z2Nat.id in Hv by lia.
    destruct (z / 16 =? 0) eqn:H0; [apply Z.eqb_eq in H0|rewrite IH]; cbn [Networks.hextet_val]; rewrite ?Hv; try (f_equal; lia).
    split; [apply Z.div_pos; lia|]. apply Z.div_lt_upper_bound; [lia|].
    replace (Z.of_nat (S fuel) + 1) with (Z.succ (Z.of_nat fuel + 1)) in Hz by lia. rewrite Z.pow_succ_r in Hz by lia. lia.
Qed.

Lemma hex_digits_hex fuel z t : IpAddress.all_chars IpAddress.is_hex t = true ->
  IpAddress.all_chars IpAddress.is_hex (Networks.hex_digits fuel z t) = true.
Proof.
  revert z t. induction fuel as [|fuel IH]; intros z t Ht; cbn [Networks.hex_digits];
    (assert (IpAddress.all_chars IpAddress.is_hex (String (hex_digit (Z.to_nat (z mod 16))) t) = true) as Ht';
     [unfold IpAddress.all_chars in *; cbn [PyStr.has_char];
      destruct (hex_digit_val (Z.to_nat (z mod 16))) as [_ ->]; [pose proof (Z.mod_pos_bound z 16 ltac:(lia)); lia|done]|]); [done|].
  destruct (z / 16 =? 0); [done|by apply IH].
Qed.

Lemma hex_digits_nonempty fuel z t : PyStr.nonempty (Networks.hex_digits fuel z t) = true.
Proof. revert z t. induction fuel as [|fuel IH]; intros z t; cbn; [done|]. destruct (z / 16 =? 0); [done|apply IH]. Qed.

Lemma hex_no_space s : IpAddress.all_chars IpAddress.is_hex s = true -> PyStr.has_char PyStr.is_space s = false.
Proof.
  unfold IpAddress.all_chars. rewrite negb_true_iff. induction s as [|c s IH]; cbn [PyStr.has_char]; [done|].
  intros [Hc Hs]%orb_false_iff. rewrite IH, orb_false_r by done. apply negb_false_iff in Hc.
  destruct (PyStr.is_space c) eqn:Hsp; [|done]. exfalso. revert Hc Hsp.
  destruct c as [[] [] [] [] [] [] [] []]; vm_compute; congruence.
Qed.

(** What the mask reads as *)
Definition mask_value (mask : string) : option Z := Networks.hextet_val 0 <$> mask_digits mask.

Lemma hex_text_value z : 0 < z -> mask_value (hex_text z) = Some z /\ PyStr.strip (hex_text z) = hex_text z.
Proof.
  intros Hz. unfold mask_value, hex_text. set (d := Networks.hex_digits _ z "").
  assert (IpAddress.all_chars IpAddress.is_hex d = true) as Hd by (by apply hex_digits_hex). split.
  - change (mask_digits ("0x" +:+ d)) with (if PyStr.nonempty d && IpAddress.all_chars IpAddress.is_hex d then Some d else None).
    rewrite Hd. unfold d at 1. rewrite hex_digits_nonempty. cbn [andb fmap option_fmap option_map]. f_equal. unfold d.
    rewrite hex_digits_val; [done|]. pose proof (Z.log2_nonneg z). rewrite Z2Nat.id by lia. split; [lia|].
    apply (Z.lt_le_trans _ (2 ^ (Z.log2 z + 1))); [by apply Z.log2_spec|]. apply Z.pow_le_mono_l. lia.
  - apply strip_none. change ("0x" +:+ d) with (String "0" (String "x" d)). cbn [PyStr.has_char]. by rewrite hex_no_space.
Qed.

(** A mask keeps its value and is brought to one form: the text that is sent reads as the same positive number as the mask
    that was given, two masks are sent alike exactly when they read alike, and a normalised mask is its own normal form. *)
Theorem mask_canonical m sent : normalize_profile_mask m = Ok sent ->
  exists v, 0 < v /\ mask_value (PyStr.strip (default "" m)) = Some v /\ mask_value sent = Some v /\
    normalize_profile_mask (Some sent) = Ok sent /\
    (forall m', normalize_profile_mask m' = Ok sent <-> mask_value (PyStr.strip (default "" m')) = Some v).
Proof.
  assert (forall m v, 0 < v -> mask_value (PyStr.strip (default "" m)) = Some v -> normalize_profile_mask m = Ok (hex_text v)) as Hback.
  { clear. intros m v Hv. unfold normalize_profile_mask, mask_value. destruct (mask_digits _) as [d|]; [|done]. intros [= Hd].
    rewrite Hd. cbv zeta. by rewrite (proj2 (Z.leb_gt v 0) Hv). }
  assert (forall m, normalize_profile_mask m = Ok sent ->
    exists v, 0 < v /\ mask_value (PyStr.strip (default "" m)) = Some v /\ sent = hex_text v) as Hfront.
  { clear. intros m. unfold normalize_profile_mask, mask_value. destruct (mask_digits _) as [d|]; [|done]. cbv zeta.
    destruct (Networks.hextet_val 0 d <=? 0) eqn:Hd; [done|]. apply Z.leb_gt in Hd. intros [= <-]. eexists. split; [exact Hd|]. done. }
  intros (v & Hv & Hm & ->)%Hfront. destruct (hex_text_value v Hv) as [Ht Hs]. exists v. split; [done|]. split; [done|]. split; [done|]. split.
  - apply Hback; [done|]. change (default "" (Some (hex_text v))) with (hex_text v). by rewrite Hs.
  - intros m'. split; [|by apply Hback]. intros (v' & Hv' & Hm' & Heq)%Hfront. destruct (hex_text_value v' Hv') as [Ht' _].
    rewrite <- Heq, Ht in Ht'. by injection Ht' as ->.
Qed.

(** ** Examples *)

Definition no_commands : SyncInvoker (mstate sim) := fun _ _ _ => raise (ValueError "no command").
Definition gpu_manager : Vendor sim := dmtf_vendor (SyncInvoker0 := no_commands) 3 (fun _ => 0).

Definition to (u : string) : pyval := PDict [("@odata.id", PStr u)].
Definition hosts : string := "https://10.0.0.42".

Definition gpu_routes : list (method * string * list response) :=
  [(GET, hosts +:+ SYSTEMS, [ok_json (PDict [("Members", PList [to "/redfish/v1/Systems/HGX"])])]);
   (GET, hosts +:+ "/redfish/v1/Systems/HGX", [ok_json (PDict [("Processors", to "/redfish/v1/p")])]);
   (GET, hosts +:+ "/redfish/v1/p", [ok_json (PDict [("Members", PList [to "/redfish/v1/p/CPU_0"; to "/redfish/v1/p/GPU_0"])])]);
   (GET, hosts +:+ "/redfish/v1/p/CPU_0", [ok_json (PDict [("ProcessorType", PStr "CPU")])]);
   (GET, hosts +:+ "/redfish/v1/p/GPU_0", [ok_json (PDict [("ProcessorType", PStr "GPU"); ("Id", PStr "GPU_0");
      ("Oem", PDict [("Nvidia", PDict [("WorkloadPowerProfile", to "/redfish/v1/w"); ("PowerSmoothing", to "/redfish/v1/s")])])])]);
   (GET, hosts +:+ "/redfish/v1/w", [ok_json (PDict [("Actions", PDict [("#NvidiaWorkloadPower.EnableProfiles", PDict [("target", PStr "/redfish/v1/w/enable")])])])]);
   (GET, hosts +:+ "/redfish/v1/s", [ok_json (PDict [("Actions", PDict [(ACTIVATE_PRESET, PDict [("target", PStr "/redfish/v1/s/activate")])])])]);
   (POST, hosts +:+ "/redfish/v1/w/enable", [Response 202 [] (inr "")]); (POST, hosts +:+ "/redfish/v1/s/activate", [Response 202 [] (inr "")])].

Definition posted (cmd : power_command) (confirm dry : bool) : list (string * option pyval) :=
  map (fun rq => (rq_url rq, rq_data rq))
    (write_requests (trace (run_power (Vendor0 := gpu_manager) [] cmd confirm dry false (sim_state sample_manager gpu_routes)).1)).

(** A mask is sent in lower case and without leading zeros, a preset as a link; nothing without the confirmation. *)
Example power_examples :
  (posted (Workload (Some "GPU_0") (Some " 0x0A ") (Some "enable")) true false, posted (Workload (Some "GPU_0") (Some "0x0A") (Some "enable")) false false,
   posted (Workload (Some "GPU_0") (Some "0x0") (Some "enable")) true false,
   posted (Smoothing (Some "GPU_0") (Some "activate-preset") (Some "3")) true false, posted (Smoothing (Some "GPU_1") (Some "activate-preset") (Some "3")) true false) =
  ([(hosts +:+ "/redfish/v1/w/enable", Some (PDict [("ProfileMask", PStr "0xa")]))], [], [],
   [(hosts +:+ "/redfish/v1/s/activate", Some (PDict [("PresetProfile", to "/redfish/v1/s/PresetProfiles/3")]))], []).
Proof. vm_compute. reflexivity. Qed.

Lemma mask_canonical_witness : normalize_profile_mask (Some " 0x00fF") = Ok "0xff" /\ exists v, 0 < v /\ mask_value "0xff" = Some v.
Proof.
  split; [vm_compute; reflexivity|]. destruct (mask_canonical (Some " 0x00fF") "0xff") as (v & Hv & _ & H & _); [vm_compute; reflexivity|].
  exists v. exact (conj Hv H).
Defined.
End GpuPower.
